(* ===== verification/_CoqProject ===== *)
-Q . S2P
Prelude.v
Memory.v
LibString.v
State.v
Display.v
Printf.v
I8259.v
Ports.v
Paging.v
Pcb.v
Rtc.v
FileSystem.v
Vfs.v
MultiTerm.v
Keyboard.v
Terminal.v
Syscalls.v
Execute.v
Calls.v
Timer.v
Mouse.v
Idt.v
Kernel.v
Report.v
Boot.v
SelfTests.v
WellFormed.v
Keeps.v
Reach.v
UserLib.v
Process.v
Spawn.v
Programs.v
Clients.v
Syserr.v
Shell.v
Lines.v
Commands.v
Crash.v
Userland.v
Blink.v
Devices.v
Pingpong.v
Fish.v
Sigtest.v
GrepText.v
History.v
Grep.v
Emulate.v
