(* ===== verification/Prelude.v ===== *)
(** * LacOSIntolerant: a verification of the kernel and its programs

    The repository is a small x86 operating system: a kernel (src/student-distrib)
    with three text terminals, paging, a read-only file system, six processes, ten
    system calls and drivers for the keyboard, the clock, the timer and the mouse;
    and the user programs that run on it (src/syscalls, src/fish).

    ** The model

    A C function is a Rocq function of the same name.  A function that touches the
    globals of the kernel is a program of the monad [M] of State.v: it takes the
    record [kernel] and returns a result and the new record, or a fault (an index
    outside of an array, a NULL pointer, a page fault, a loop that does not end), or
    it spins in a wait that no interrupt ends.  The record has one sub-record per
    component: the memory, the processor ([cr3], the interrupt flag, the saved
    registers), the terminals and the cursor, the processes, the keyboard, the
    clock, the mouse and the log of the ports.  Theorems about such programs are
    proved with a weakest precondition [wp] and its rules.

    Memory is a finite map of bytes at 32-bit addresses (Memory.v); integers are [Z]
    with the wrap-around of their type written out ([u8], [u16], [u32], [i8],
    [i32]).  A loop of the source is [run_loop] or [loopM]: it doubles its fuel 32
    times, so it makes up to 2^32 iterations.  No loop of the source that ends makes
    more, since its counters are 32-bit; every theorem about a loop shows that it
    ends within them.  A wait for an interrupt takes the list of the interrupts that
    arrive; when the list is used up the machine spins.  What a device answers to
    [inb] is a parameter of the machine, a function of the log of the ports.
    The addresses the linker chooses, the arrays on the kernel stack ([frame]) and
    the literals of a program ([rodata]) are parameters too.

    ** The files

    - Prelude.v, Memory.v: integers, tactics, loops; the memory and its frames.
    - LibString.v, Display.v, Printf.v (lib.c, lib.h): strings and the assembly of
      memset, memcpy and memmove; the characters on the screen; printf.
    - State.v: the state, the monad and its rules.
    - I8259.v, Ports.v (with the wider port accesses of lib.h), Paging.v, Pcb.v, Rtc.v, FileSystem.v, MultiTerm.v,
      Keyboard.v, Terminal.v, Timer.v, Mouse.v, Idt.v: the file of the kernel with
      that name (Keyboard.v has key_maps.c too, Idt.v is idt_handle.c with the
      descriptors of x86_desc.h).
    - Vfs.v: the operation tables of the descriptors (the end of pcb.c).
    - Syscalls.v: all of syscalls.c, and the dispatch of idt_handle_wrap.S.
      Execute.v proves what execute does, Calls.v what the other calls do and what
      execute and halt do together.
    - Kernel.v, Report.v, Boot.v: entry of kernel.c, the report it prints, and the
      state it leaves.
    - SelfTests.v: the self-tests of file_system.c and test_interrupts of lib.c.
    - WellFormed.v, Keeps.v, Reach.v: the type of the state and the separation of the
      processes as an invariant, that every operation keeps it, and the reachable
      states (a step is a system call or an interrupt).
    - History.v: the UP and DOWN keys and the lines that a terminal remembers.
    - UserLib.v: ece391support.c and the stubs of ece391syscall.S.
    - Process.v: the contract between the kernel and its programs.  A [view] is what
      a program sees of the machine; the class [OsCalls] says what every call does to
      a view; [process] relates a view to the kernel, and the kernel is an instance.
      Spawn.v: execute, the program and its halt as one call of the caller; Crash.v:
      the same for a program that an exception ends.
    - Programs.v: the programs; Clients.v (cat, ls), Shell.v, Lines.v (hello,
      counter) and Syserr.v (the error tests) are proved from [OsCalls] alone;
      Commands.v is a turn of the shell that runs a program.  Userland.v combines them
      with the instance and has a machine that runs them.
    - Blink.v: the engine of the blinking characters of fish (src/fish/blink.S and its
      allocator in fish.c) and the abstract blinkers it implements.  Devices.v: the
      classes [OsClock], [OsScreen] and [OsNumbers], what the kernel promises about the
      clock, the page that vidmap maps and words in memory.  Pingpong.v, Fish.v and
      Sigtest.v: the programs of those names.  GrepText.v says what grep prints for a text
      and Grep.v that the program does.
    - Emulate.v: ece391emulate.c, the library that runs the programs on Linux instead of
      the kernel; Linux and the C library are parameters.

    ** What is proved

    - Libraries: the assembly of memcpy and memset equals byte-wise references,
      memmove is right for overlapping ranges, itoa and reading back are inverse,
      printf prints what its format denotes, putc implements an 80x25 screen with
      wrap, scroll, newline and backspace.
    - Devices: the masks of the interrupt controllers follow the operations, the
      clock is programmed to the powers of two and wakes its readers, the mouse stays
      on the screen, the waits of its initialisation end.
    - Files: lookup finds the first entry of a name, read_data copies the bytes of
      the file on every branch, reading in chunks yields the whole file,
      descriptors are opened and closed one at a time.
    - Address spaces and processes: map_page changes the translation as the abstract
      operation does, a new process gets the lowest free slot, execute of a program
      enters it with its image mapped and loaded, halt resumes the parent, and both
      together restore it; every exception ends its process with status 256.
    - The machine as a whole: every reachable state is well typed, has at most six
      processes, and keeps their blocks, stacks and frames and the pages of the
      terminals apart.  A program that a process executes is a call of it, and when an
      exception ends the program the caller does not notice but for the result.
    - Terminals: switching keeps every screen, output of one terminal leaves the
      others alone, typing is a line editor, the line is what the screen shows, UP and
      DOWN recall the lines that were entered, in the buffer and on the screen, ENTER
      delivers the line to the reader, and reading remembers it.
    - Scheduling and boot: a tick is a round-robin switch and starts the missing
      shells; entry refuses unsound boot information, and otherwise establishes the
      invariants the rest relies on.
    - Programs: the kernel implements the interface of its calls, and so cat prints
      its file, ls lists the directory, grep finds the lines of the text files that have its
      argument, the kernel passes the error tests of the
      repository, a session of the shell ends at "exit", "cat NAME" typed at the shell
      prints the file, and counter refuses every line (a bug of that program).  The
      signal test is killed by its store to address 0 and the shell goes on.
    - Animations: the linked list of fish is a list of blinkers, a blinker is in the
      phase its lengths say, two blinkers in the first cell hang the program; fish draws
      what its script asks for, pingpong every turn of its letter.
    - Emulation: a command line of words is taken apart into a path and arguments, and
      getargs joins the arguments of the program to the same text again; a directory is
      read name by name, 32 bytes each.

    ** What is not modelled

    boot.S and x86_desc.S (entry starts from the state they hand over); debug.h, whose
    macros nothing expands; cli_and_save and restore_flags of lib.h, since only the
    interrupt flag of EFLAGS is in the model; createfs and elfconvert, binaries without
    source.  A user program is its C code, not its machine code: what runs between
    execute and the halt of the child is the parameter [child] of the stubs.  The
    buffers of a user program lie in its 4MB page.  The theorem on grep is about the files that
    are texts with lines of up to 1023 characters; of the others it says that they do not
    stop the program. *)

From Stdlib Require Import ZArith Lia.
From stdpp Require Import gmap list numbers.

Declare Scope c_scope.
Delimit Scope c_scope with C.
Global Open Scope Z_scope.

(** ** Machine integers

    Every C integer is a [Z]; the wrap-around of its type is written out
    where the source assigns to it.  [bool] of types.h is [bool]. *)

Abbreviation W8 := 256.
Abbreviation W16 := 65536.
Abbreviation W32 := 4294967296.
Abbreviation H32 := 2147483648.

Definition u8 (z : Z) : Z := z mod W8.
Definition u16 (z : Z) : Z := z mod W16.
Definition u32 (z : Z) : Z := z mod W32.
Definition i8 (z : Z) : Z := (z + 128) mod W8 - 128.
Definition i32 (z : Z) : Z := (z + H32) mod W32 - H32.

(** C's view of an [int] as a condition. *)
Definition c_true (z : Z) : bool := negb (z =? 0).

(** [zlia]: linear arithmetic with the integer wraps and division opened. *)
Ltac unwrap := unfold u8, u16, u32, i8, i32 in *.
Ltac zlia := unwrap; Z.to_euclidean_division_equations; lia.

(** Booleans of the code to propositions. *)
Ltac b2p :=
  repeat match goal with
  | H : (_ && _)%bool = true |- _ => apply andb_true_iff in H as [? ?]
  | H : (_ && _)%bool = false |- _ => apply andb_false_iff in H
  | H : (_ || _)%bool = true |- _ => apply orb_true_iff in H
  | H : (_ || _)%bool = false |- _ => apply orb_false_iff in H as [? ?]
  | H : negb _ = true |- _ => apply negb_true_iff in H
  | H : negb _ = false |- _ => apply negb_false_iff in H
  | H : (_ =? _) = true |- _ => apply Z.eqb_eq in H
  | H : (_ =? _) = false |- _ => apply Z.eqb_neq in H
  | H : (_ <? _) = true |- _ => apply Z.ltb_lt in H
  | H : (_ <? _) = false |- _ => apply Z.ltb_ge in H
  | H : (_ <=? _) = true |- _ => apply Z.leb_le in H
  | H : (_ <=? _) = false |- _ => apply Z.leb_gt in H
  | H : (_ >=? _) = true |- _ => rewrite Z.geb_leb in H; apply Z.leb_le in H
  | H : (_ >=? _) = false |- _ => rewrite Z.geb_leb in H; apply Z.leb_gt in H
  | H : (_ >? _) = true |- _ => rewrite Z.gtb_ltb in H; apply Z.ltb_lt in H
  | H : (_ >? _) = false |- _ => rewrite Z.gtb_ltb in H; apply Z.ltb_ge in H
  end.

(** Case split on every comparison of the goal, pruning impossible cases. *)
Ltac case_cmp :=
  repeat (match goal with
  | |- context [?x <=? ?y] => destruct (Z.leb_spec x y)
  | |- context [?x <? ?y] => destruct (Z.ltb_spec x y)
  | |- context [?x =? ?y] => destruct (Z.eqb_spec x y)
  end; cbn [andb orb negb]; try (exfalso; lia)).

(** Case split on the condition of an [if] of the goal, reflected. *)
Ltac case_if :=
  match goal with
  | |- context [if ?b then _ else _] =>
      let E := fresh "Eif" in destruct b eqn:E; b2p
  end.

Definition is_byte (b : Z) : Prop := 0 <= b < W8.

Lemma u32_small z : 0 <= z < W32 -> u32 z = z.
Proof. apply Z.mod_small. Qed.
Lemma u8_small z : 0 <= z < W8 -> u8 z = z.
Proof. apply Z.mod_small. Qed.
Lemma u16_small z : 0 <= z < W16 -> u16 z = z.
Proof. apply Z.mod_small. Qed.
Lemma u32_range z : 0 <= u32 z < W32.
Proof. apply Z.mod_pos_bound; lia. Qed.
Lemma u8_range z : 0 <= u8 z < W8.
Proof. apply Z.mod_pos_bound; lia. Qed.
Lemma u8_u8 z : u8 (u8 z) = u8 z.
Proof. apply Z.mod_mod; lia. Qed.
Lemma u32_u32 z : u32 (u32 z) = u32 z.
Proof. apply Z.mod_mod; lia. Qed.
Lemma u32_add_l a b : u32 (u32 a + b) = u32 (a + b).
Proof. apply Zplus_mod_idemp_l. Qed.
Lemma u32_add_r a b : u32 (a + u32 b) = u32 (a + b).
Proof. apply Zplus_mod_idemp_r. Qed.
Lemma u32_sub_l a b : u32 (u32 a - b) = u32 (a - b).
Proof. apply Zminus_mod_idemp_l. Qed.
Lemma u32_sub_r a b : u32 (a - u32 b) = u32 (a - b).
Proof. apply Zminus_mod_idemp_r. Qed.

Create HintDb cint.
Create Rewrite HintDb cint.
#[export] Hint Rewrite u8_u8 u32_u32 u32_add_l u32_add_r u32_sub_l u32_sub_r : cint.
#[export] Hint Resolve u32_range u8_range : cint.

(** The offset of an address from a base, in the wrapped address space:
    the equation every range argument below turns on. *)
Lemma u32_offset a p k : 0 <= k < W32 -> u32 a = u32 (p + k) <-> u32 (a - p) = k.
Proof.
  intros Hk; split; intros H.
  - rewrite <- u32_sub_l, H, u32_sub_l. replace (p + k - p) with k by lia.
    by apply u32_small.
  - rewrite <- H, u32_add_r. f_equal; lia.
Qed.

(** ** Loops

    A C [while] is [loop d body]: at most [2^d] iterations of [body], which
    either goes on with a new loop state ([inl]) or leaves with a result
    ([inr]).  The kernel's loops count a 32-bit variable or walk a 32-bit
    address, so [d = 32] never cuts one short; every theorem about a loop
    shows that it leaves with [inr].  The doubling makes [2^32] steps of fuel
    a term of depth 32 that still evaluates. *)

Fixpoint loop {S R : Type} (d : nat) (body : S -> S + R) (s : S) : S + R :=
  match d with
  | O => body s
  | Datatypes.S d' =>
      match loop d' body s with
      | inl s' => loop d' body s'
      | inr r => inr r
      end
  end.

Definition run_loop {S R : Type} (body : S -> S + R) (s : S) : option R :=
  match loop 32 body s with inl _ => None | inr r => Some r end.

(** Total correctness of a loop: an invariant and a variant below [2^32]. *)
Section loop_rule.
Context {S R : Type} (body : S -> S + R).
Context (I : S -> Prop) (Q : R -> Prop) (var : S -> Z).
Hypothesis Hstep : forall s, I s ->
  match body s with
  | inl s' => I s' /\ 0 <= var s' < var s
  | inr r => Q r
  end.

Lemma loop_progress d s : I s ->
  match loop d body s with
  | inl s' => I s' /\ 0 <= var s' /\ var s' + 2 ^ Z.of_nat d <= var s
  | inr r => Q r
  end.
Proof using Hstep.
  revert s; induction d as [|d IH]; intros s Hs.
  - specialize (Hstep s Hs). cbn. destruct (body s); [|done].
    destruct Hstep as [? ?]. change (2 ^ 0) with 1. split; [done|lia].
  - cbn [loop]. specialize (IH s Hs) as H1.
    destruct (loop d body s) as [s'|r]; [|done]. destruct H1 as (H1 & H2 & H3).
    specialize (IH s' H1) as H4.
    destruct (loop d body s') as [s''|r]; [|done]. destruct H4 as (H4 & H5 & H6).
    replace (Z.of_nat (Datatypes.S d)) with (Z.of_nat d + 1) by lia.
    rewrite Z.pow_add_r by lia. change (2 ^ 1) with 2. split; [done|]. lia.
Qed.

Lemma run_loop_rule s : I s -> var s < W32 -> exists r, run_loop body s = Some r /\ Q r.
Proof using Hstep.
  intros Hs Hv. pose proof (loop_progress 32 s Hs) as H. unfold run_loop.
  destruct (loop 32 body s) as [s'|r]; [|eauto].
  change (2 ^ Z.of_nat 32) with W32 in H. lia.
Qed.
End loop_rule.

(** Conversion should never try to run a loop before anything else. *)
#[global] Strategy 1000 [loop run_loop].

(** Use of the rule: [loop_rule I Q var] leaves the step, the initial
    invariant and the bound on the variant. *)
Tactic Notation "loop_rule" uconstr(I) uconstr(Q) uconstr(var) :=
  apply (run_loop_rule _ I Q var).

(** Opening the option monad without touching the loops under it. *)
Ltac obind := unfold mbind, option_bind.

(** Side conditions: arithmetic or an assumption. *)
Ltac side := first [lia | assumption].

(** ** Lists *)

(** A property of a range of integers checked by evaluation. *)
Lemma forallb_range (f : Z -> bool) a n x :
  forallb f (seqZ a n) = true -> a <= x < a + n -> f x = true.
Proof.
  intros H Hx. rewrite forallb_forall in H. apply H, list_elem_of_In, elem_of_seqZ. lia.
Qed.
