(* ===== verification/Memory.v ===== *)
(** * The byte memory of the machine

    Physical memory as the kernel addresses it: bytes at 32-bit addresses,
    address arithmetic wrapping at [2^32].  It holds the file system image,
    the video pages, the page directory and tables, and user buffers.  A local
    array of a C function is a memory of its own with base [0].

    A pointer argument that is only read from is a reader [Z -> Z]: [s i] is
    the byte [s[i]]; [at_ m p] is the reader of the memory [m] at [p]. *)

From Stdlib Require Import ZArith Lia Setoid Morphisms.
From stdpp Require Import gmap list numbers.
From S2P Require Import Prelude.

Abbreviation memory := (gmap Z Z).

Definition rd (m : memory) (a : Z) : Z := u8 (default 0 (m !! u32 a)).
Definition wr (m : memory) (a v : Z) : memory := <[u32 a := u8 v]> m.

(** Little-endian 32- and 16-bit accesses. *)
Definition rd32 (m : memory) (a : Z) : Z :=
  rd m a + W8 * rd m (a + 1) + W16 * rd m (a + 2) + 16777216 * rd m (a + 3).
Definition wr32 (m : memory) (a v : Z) : memory :=
  wr (wr (wr (wr m a v) (a + 1) (v / W8)) (a + 2) (v / W16)) (a + 3) (v / 16777216).
Definition wr16 (m : memory) (a v : Z) : memory :=
  wr (wr m a v) (a + 1) (v / W8).

Definition at_ (m : memory) (p : Z) : Z -> Z := fun i => rd m (p + i).

(** Reference copy: [blit m p f n] stores [f 0, ..., f (n-1)] at [p]. *)
Fixpoint blit (m : memory) (p : Z) (f : Z -> Z) (n : nat) : memory :=
  match n with
  | O => m
  | S n' => wr (blit m p f n') (p + Z.of_nat n') (f (Z.of_nat n'))
  end.

(** Two memories are the same when every byte reads the same. *)
Definition mem_equiv (m1 m2 : memory) : Prop := forall a, rd m1 a = rd m2 a.
Infix "=m=" := mem_equiv (at level 70, no associativity) : c_scope.
Global Open Scope c_scope.

#[export] Instance mem_equiv_equivalence : Equivalence mem_equiv.
Proof.
  split; [intros ??; done | intros ?? H a; by rewrite H
         | intros ??? H1 H2 a; by rewrite H1, H2].
Qed.

Lemma rd_wr m a v b : rd (wr m a v) b = if u32 a =? u32 b then u8 v else rd m b.
Proof.
  unfold rd, wr. case_if.
  - rewrite Eif, lookup_insert_eq. simpl. by rewrite u8_u8.
  - by rewrite lookup_insert_ne.
Qed.

Lemma rd_u32 m a : rd m (u32 a) = rd m a.
Proof. unfold rd. by rewrite u32_u32. Qed.

Lemma rd_eq_addr m a b : u32 a = u32 b -> rd m a = rd m b.
Proof. intros H. unfold rd. by rewrite H. Qed.

Lemma rd_range m a : 0 <= rd m a < W8.
Proof. apply u8_range. Qed.

#[export] Instance rd_proper : Proper (mem_equiv ==> eq ==> eq) rd.
Proof. intros m m' H a ? <-. apply H. Qed.

#[export] Instance wr_proper : Proper (mem_equiv ==> eq ==> eq ==> mem_equiv) wr.
Proof. intros m m' H a ? <- v ? <- b. rewrite !rd_wr. case_if; auto. Qed.

#[export] Instance rd32_proper : Proper (mem_equiv ==> eq ==> eq) rd32.
Proof. intros m m' H a ? <-. unfold rd32. by rewrite !H. Qed.

#[export] Instance wr32_proper : Proper (mem_equiv ==> eq ==> eq ==> mem_equiv) wr32.
Proof. intros m m' H a ? <- v ? <-. unfold wr32. by rewrite H. Qed.

#[export] Instance wr16_proper : Proper (mem_equiv ==> eq ==> eq ==> mem_equiv) wr16.
Proof. intros m m' H a ? <- v ? <-. unfold wr16. by rewrite H. Qed.

(** Every byte of a [blit], in one equation. *)
Lemma rd_blit m p f n a : Z.of_nat n <= W32 ->
  rd (blit m p f n) a =
  if u32 (a - p) <? Z.of_nat n then u8 (f (u32 (a - p))) else rd m a.
Proof.
  induction n as [|n IH]; intros Hn.
  - cbn [blit]. case_if; [|done]. pose proof (u32_range (a - p)). lia.
  - cbn [blit]. rewrite rd_wr, IH by lia.
    destruct (u32 (p + Z.of_nat n) =? u32 a) eqn:E; b2p.
    + symmetry in E. apply u32_offset in E; [|lia]. rewrite E.
      rewrite (proj2 (Z.ltb_lt _ _)) by lia. done.
    + assert (u32 (a - p) <> Z.of_nat n)
        by (intros H; apply E; symmetry; apply u32_offset; [lia|done]).
      destruct (u32 (a - p) <? Z.of_nat n) eqn:E1, (u32 (a - p) <? Z.of_nat (S n)) eqn:E2;
        b2p; try done; lia.
Qed.

(** The pointwise description of a copy: [n] bytes at [p] come from [f], the
    rest of the memory is as in [m]. *)
Definition mem_copied (m m' : memory) (p : Z) (f : Z -> Z) (n : Z) : Prop :=
  forall a, rd m' a = if u32 (a - p) <? n then u8 (f (u32 (a - p))) else rd m a.

Lemma blit_copied m p f n : 0 <= n <= W32 -> mem_copied m (blit m p f (Z.to_nat n)) p f n.
Proof. intros Hn a. rewrite rd_blit by lia. by rewrite Z2Nat.id by lia. Qed.

Lemma mem_copied_blit m m' p f n : 0 <= n <= W32 ->
  mem_copied m m' p f n -> (m' =m= blit m p f (Z.to_nat n))%C.
Proof. intros Hn H a. by rewrite H, blit_copied by lia. Qed.

Lemma mem_copied_0 m p f : mem_copied m m p f 0.
Proof. intros a. case_if; [|done]. pose proof (u32_range (a - p)). lia. Qed.

(** One more byte at the end of a copy. *)
Lemma mem_copied_snoc m m' p f k : 0 <= k < W32 -> mem_copied m m' p f k ->
  mem_copied m (wr m' (p + k) (f k)) p f (k + 1).
Proof.
  intros Hk H a. rewrite rd_wr, H. pose proof (u32_range (a - p)).
  destruct (u32 (p + k) =? u32 a) eqn:E; b2p.
  - symmetry in E. apply u32_offset in E; [|lia]. rewrite E.
    by rewrite (proj2 (Z.ltb_lt _ _)) by lia.
  - assert (u32 (a - p) <> k) by (intros E'; apply E; symmetry; apply u32_offset; [lia|done]).
    destruct (u32 (a - p) <? k) eqn:E1, (u32 (a - p) <? k + 1) eqn:E2; b2p; try done; lia.
Qed.

Lemma mem_copied_ext m m' p f g n : (forall i, 0 <= i < n -> u8 (f i) = u8 (g i)) ->
  mem_copied m m' p f n -> mem_copied m m' p g n.
Proof.
  intros Hfg H a. rewrite H. pose proof (u32_range (a - p)). case_if; [|done]. apply Hfg. lia.
Qed.

(** Reading back and framing a copy. *)
Lemma mem_copied_in m m' p f n a : mem_copied m m' p f n -> n <= W32 ->
  forall i, 0 <= i < n -> u32 a = u32 (p + i) -> rd m' a = u8 (f i).
Proof.
  intros H Hn i Hi Ha. rewrite H. apply u32_offset in Ha; [|lia]. rewrite Ha.
  by rewrite (proj2 (Z.ltb_lt _ _)) by lia.
Qed.

Lemma mem_copied_out m m' p f n a : mem_copied m m' p f n ->
  n <= u32 (a - p) -> rd m' a = rd m a.
Proof. intros H Ha. rewrite H. by rewrite (proj2 (Z.ltb_ge _ _)) by lia. Qed.

(** ** Framing: [differs_within m m' p n] - only bytes of [p, p+n) changed. *)
Definition differs_within (m m' : memory) (p n : Z) : Prop :=
  forall a, n <= u32 (a - p) -> rd m' a = rd m a.

Lemma mem_copied_within m m' p f n : mem_copied m m' p f n -> differs_within m m' p n.
Proof. intros H a Ha. by apply (mem_copied_out _ _ _ _ _ _ H). Qed.

Lemma differs_within_trans m1 m2 m3 p n :
  differs_within m1 m2 p n -> differs_within m2 m3 p n -> differs_within m1 m3 p n.
Proof. intros H1 H2 a Ha. by rewrite H2, H1. Qed.

Lemma differs_within_refl m p n : differs_within m m p n.
Proof. by intros a _. Qed.

(** A sub-range of a range. *)
Lemma differs_within_sub m m' p n q k :
  0 <= q -> 0 <= k -> q + k <= n -> n <= W32 ->
  differs_within m m' (p + q) k -> differs_within m m' p n.
Proof.
  intros Hq Hk Hqk Hn H a Ha. apply H.
  replace (a - (p + q)) with (a - p - q) by lia. rewrite <- u32_sub_l.
  pose proof (u32_range (a - p)). rewrite u32_small; lia.
Qed.

Lemma wr_within m a v p n i : 0 <= i < n -> n <= W32 -> u32 a = u32 (p + i) ->
  differs_within m (wr m a v) p n.
Proof.
  intros Hi Hn Ha b Hb. rewrite rd_wr. case_if; [|done].
  rewrite Eif in Ha. apply u32_offset in Ha; lia.
Qed.

#[export] Hint Resolve differs_within_refl : cint.

(** ** 32-bit words *)

Lemma rd32_range m a : 0 <= rd32 m a < W32.
Proof.
  unfold rd32. pose proof (rd_range m a). pose proof (rd_range m (a + 1)).
  pose proof (rd_range m (a + 2)). pose proof (rd_range m (a + 3)). lia.
Qed.

Lemma u32_neq_add a i j : 0 <= i < W32 -> 0 <= j < W32 -> i <> j -> u32 (a + i) <> u32 (a + j).
Proof.
  intros Hi Hj Hij H. apply u32_offset in H; [|lia].
  replace (a + i - a) with i in H by lia. rewrite u32_small in H; lia.
Qed.

Lemma le_bytes v : 0 <= v < W32 ->
  u8 v + W8 * u8 (v / W8) + W16 * u8 (v / W16) + 16777216 * u8 (v / 16777216) = v.
Proof. intros. zlia. Qed.

Lemma rd32_wr32_eq m a v : rd32 (wr32 m a v) a = u32 v.
Proof.
  unfold rd32, wr32. rewrite !rd_wr, !Z.eqb_refl.
  assert (forall i j, 0 <= i < 4 -> 0 <= j < 4 -> i <> j -> (u32 (a + i) =? u32 (a + j)) = false)
    as N by (intros; apply Z.eqb_neq, u32_neq_add; lia).
  assert (forall i, 0 < i < 4 -> (u32 (a + i) =? u32 a) = false) as N0.
  { intros i Hi. rewrite <- (N i 0), Z.add_0_r by lia. done. }
  rewrite !N0, !N by lia. zlia.
Qed.

(** The bytes of a word, lowest first. *)
Lemma rd32_bytes m a : rd32 m a mod W8 = rd m a /\ u8 (rd32 m a / W8) = rd m (a + 1) /\
  u8 (rd32 m a / W16) = rd m (a + 2) /\ u8 (rd32 m a / 16777216) = rd m (a + 3).
Proof.
  unfold rd32, u8.
  pose proof (rd_range m a). pose proof (rd_range m (a + 1)).
  pose proof (rd_range m (a + 2)). pose proof (rd_range m (a + 3)).
  repeat split; Z.to_euclidean_division_equations; lia.
Qed.

(** A word out of the range a memory differs in reads the same. *)
Lemma rd32_within m m' p n a : differs_within m m' p n ->
  n <= W32 -> n <= u32 (a - p) -> u32 (a - p) + 3 < W32 -> rd32 m' a = rd32 m a.
Proof.
  intros H Hn Ha Hb. unfold rd32.
  rewrite !H; [done| | | |done].
  all: match goal with |- _ <= u32 (?x + ?k - ?p) =>
         replace (x + k - p) with (x - p + k) by lia end.
  all: pose proof (u32_range (a - p)); rewrite <- u32_add_l, u32_small; lia.
Qed.

Lemma wr32_within m a v p n i : 0 <= i -> i + 4 <= n -> n <= W32 -> a = p + i ->
  differs_within m (wr32 m a v) p n.
Proof.
  intros Hi Hn Hw ->. unfold wr32.
  repeat (eapply differs_within_trans; [|
    first [ apply (wr_within _ _ _ _ _ i); [lia|lia|f_equal; lia]
          | apply (wr_within _ _ _ _ _ (i + 1)); [lia|lia|f_equal; lia]
          | apply (wr_within _ _ _ _ _ (i + 2)); [lia|lia|f_equal; lia]
          | apply (wr_within _ _ _ _ _ (i + 3)); [lia|lia|f_equal; lia] ]]).
  apply differs_within_refl.
Qed.

(** Distinct aligned words of one table do not interfere. *)
Lemma rd32_wr32_ne m p i j v : 0 <= i -> 0 <= j -> i <> j ->
  4 * i + 4 <= W32 -> 4 * j + 4 <= W32 ->
  rd32 (wr32 m (p + 4 * i) v) (p + 4 * j) = rd32 m (p + 4 * j).
Proof.
  intros Hi Hj Hij Hi4 Hj4.
  assert (forall k l, 0 <= k < 4 -> 0 <= l < 4 ->
    (u32 (p + 4 * i + k) =? u32 (p + 4 * j + l)) = false) as N.
  { intros k l Hk Hl. apply Z.eqb_neq. rewrite <- !Z.add_assoc. apply u32_neq_add; lia. }
  unfold rd32, wr32. rewrite !rd_wr.
  assert (E0 : forall l, 0 <= l < 4 -> (u32 (p + 4 * i) =? u32 (p + 4 * j + l)) = false).
  { intros l Hl. specialize (N 0 l). rewrite Z.add_0_r in N. apply N; lia. }
  assert (E1 : forall k, 0 <= k < 4 -> (u32 (p + 4 * i + k) =? u32 (p + 4 * j)) = false).
  { intros k Hk. specialize (N k 0). rewrite Z.add_0_r in N. apply N; lia. }
  assert (E2 : (u32 (p + 4 * i) =? u32 (p + 4 * j)) = false).
  { specialize (N 0 0). rewrite !Z.add_0_r in N. apply N; lia. }
  rewrite E2, !E0, !E1, !N by lia. done.
Qed.

(** Words at separate plain addresses. *)
Lemma rd32_wr32_sep m a b v : 0 <= a -> a + 4 <= W32 -> 0 <= b -> b + 4 <= W32 ->
  a + 4 <= b \/ b + 4 <= a -> rd32 (wr32 m a v) b = rd32 m b.
Proof.
  intros Ha Ha4 Hb Hb4 Hab. apply (rd32_within _ _ a 4); [|lia|..].
  - eapply (wr32_within _ _ _ _ _ 0); lia.
  - destruct Hab; [rewrite u32_small; lia|].
    unfold u32. rewrite <- (Z_mod_plus_full _ 1), Z.mod_small; lia.
  - destruct Hab; [rewrite u32_small; lia|].
    unfold u32. rewrite <- (Z_mod_plus_full _ 1), Z.mod_small; lia.
Qed.

(** Two adjacent copies. *)
Lemma mem_copied_app m m' m'' p f g j k : 0 <= j -> 0 <= k -> j + k <= W32 ->
  mem_copied m m' p f j -> mem_copied m' m'' (p + j) g k ->
  (forall i, 0 <= i < k -> u8 (g i) = u8 (f (j + i))) ->
  mem_copied m m'' p f (j + k).
Proof.
  intros Hj Hk Hjk H1 H2 Hfg a. rewrite H2, H1. pose proof (u32_range (a - p)) as R.
  replace (a - (p + j)) with (a - p - j) by lia. rewrite <- u32_sub_l. set (x := u32 (a - p)) in *.
  destruct (Z_lt_le_dec x j) as [Hx|Hx].
  - assert (u32 (x - j) = x - j + W32) as -> by (unfold u32; rewrite <- (Z_mod_plus_full _ 1), Z.mod_small; lia).
    repeat case_if; (done || lia).
  - rewrite (u32_small (x - j)) by lia. repeat case_if; try lia. rewrite Hfg by lia. do 2 f_equal. lia.
Qed.

(** A copy does not disturb what lies outside of its target. *)
Lemma mem_copied_rd m m' p f n a : mem_copied m m' p f n -> 0 <= n -> 0 <= p -> p + n <= W32 ->
  0 <= a < W32 -> a < p \/ p + n <= a -> rd m' a = rd m a.
Proof.
  intros H Hn Hp Hpn Ha Hout. apply (mem_copied_out _ _ _ _ _ _ H).
  destruct (Z_lt_le_dec a p); [|rewrite u32_small; lia].
  unfold u32. rewrite <- (Z_mod_plus_full _ 1), Z.mod_small; lia.
Qed.

(** A second copy over the beginning of a first one. *)
Lemma mem_copied_over m m1 m2 p f g n j : j <= n ->
  mem_copied m m1 p f n -> mem_copied m1 m2 p g j ->
  mem_copied m m2 p (fun i => if i <? j then g i else f i) n.
Proof.
  intros Hj H1 H2 a. rewrite H2, H1. repeat case_if; (done || lia).
Qed.

(** Bytes below and above the range are as before. *)
Lemma within_rd m m' p n a : differs_within m m' p n -> 0 <= p -> 0 <= n -> p + n <= W32 -> 0 <= a < W32 ->
  a < p \/ p + n <= a -> rd m' a = rd m a.
Proof.
  intros D Hp Hn Hpn Ha Ho. apply D. destruct (Z_lt_le_dec a p); [|rewrite u32_small; lia].
  unfold u32. rewrite <- (Z_mod_plus_full _ 1), Z.mod_small; lia.
Qed.
