(* ===== verification/LibString.v ===== *)
(** * String and memory routines of lib.c

    strlen, strncmp, strcpy, strncpy, the assembly bodies of memset,
    memset_word, memset_dword, memcpy and memmove, strrev and itoa.
    [None] means that the C loop does not end within [2^32] iterations or that
    the code leaves the array it indexes. *)

From Stdlib Require Import ZArith Lia.
From stdpp Require Import gmap list numbers.
From S2P Require Import Prelude Memory.

(** ** Definitions *)

Definition strlen (s : Z -> Z) : option Z :=
  run_loop (fun len => if s len =? 0 then inr len else inl (u32 (len + 1))) 0.

(** The result is the difference of two [char]s, which are signed here. *)
Definition strncmp (s1 s2 : Z -> Z) (n : Z) : option Z :=
  run_loop (fun i =>
    if i <? n then
      if negb (s1 i =? s2 i) || (s1 i =? 0) then inr (i8 (s1 i) - i8 (s2 i))
      else inl (u32 (i + 1))
    else inr 0) 0.

(** dest[i] = src[i] while src[i] is not NUL; the source is read from the
    memory being written. *)
Definition strcpy (m : memory) (dest src : Z) : option memory :=
  run_loop (fun '(m, i) =>
    if rd m (src + i) =? 0 then inr (wr m (dest + i) 0)
    else inl (wr m (dest + i) (rd m (src + i)), u32 (i + 1))) (m, 0).

(** strncpy with a source of its own (a reader): the first loop copies up to
    the NUL, the second one pads with zeros. *)
Definition strncpy (m : memory) (dest : Z) (src : Z -> Z) (n : Z) : option memory :=
  match run_loop (fun '(m, i) =>
    if negb (src i =? 0) && (i <? n) then inl (wr m (dest + i) (src i), u32 (i + 1))
    else inr (m, i)) (m, 0) with
  | None => None
  | Some (m, i) =>
      run_loop (fun '(m, i) =>
        if i <? n then inl (wr m (dest + i) 0, u32 (i + 1)) else inr m) (m, i)
  end.

(** *** The assembly of memset: bytes up to the first aligned address, then
    [rep stosl], then the remaining bytes. *)

Definition memset_top (al : Z) : memory * Z * Z -> memory * Z * Z + memory * Z * Z :=
  fun '(m, edi, ecx) =>
    if ecx =? 0 then inr (m, edi, ecx)
    else if Z.land edi 3 =? 0 then inr (m, edi, ecx)
    else inl (wr m edi al, u32 (edi + 1), u32 (ecx - 1)).

Definition rep_stosl (eax : Z) : memory * Z * Z -> memory * Z * Z + memory * Z :=
  fun '(m, edi, ecx) =>
    if ecx =? 0 then inr (m, edi)
    else inl (wr32 m edi eax, u32 (edi + 4), u32 (ecx - 1)).

Definition rep_stosw (eax : Z) : memory * Z * Z -> memory * Z * Z + memory :=
  fun '(m, edi, ecx) =>
    if ecx =? 0 then inr m
    else inl (wr16 m edi eax, u32 (edi + 2), u32 (ecx - 1)).

Definition memset_bottom (al : Z) : memory * Z * Z -> memory * Z * Z + memory :=
  fun '(m, edi, edx) =>
    if edx =? 0 then inr m
    else inl (wr m edi al, u32 (edi + 1), u32 (edx - 1)).

Definition memset (m : memory) (s c n : Z) : option memory :=
  let c := Z.land c 255 in
  let eax := u32 (Z.lor (Z.lor (Z.lor (Z.shiftl c 24) (Z.shiftl c 16)) (Z.shiftl c 8)) c) in
  match run_loop (memset_top eax) (m, u32 s, n) with
  | None => None
  | Some (m, edi, ecx) =>
      let edx := Z.land ecx 3 in
      match run_loop (rep_stosl eax) (m, edi, Z.shiftr ecx 2) with
      | None => None
      | Some (m, edi) => run_loop (memset_bottom eax) (m, edi, edx)
      end
  end.

Definition memset_word (m : memory) (s c n : Z) : option memory :=
  run_loop (rep_stosw c) (m, u32 s, n).

Definition memset_dword (m : memory) (s c n : Z) : option memory :=
  match run_loop (rep_stosl c) (m, u32 s, n) with
  | None => None
  | Some (m, _) => Some m
  end.

(** *** The assembly of memcpy, same three phases *)

Definition memcpy_top : memory * Z * Z * Z -> memory * Z * Z * Z + memory * Z * Z * Z :=
  fun '(m, esi, edi, ecx) =>
    if ecx =? 0 then inr (m, esi, edi, ecx)
    else if Z.land edi 3 =? 0 then inr (m, esi, edi, ecx)
    else inl (wr m edi (rd m esi), u32 (esi + 1), u32 (edi + 1), u32 (ecx - 1)).

Definition rep_movsl : memory * Z * Z * Z -> memory * Z * Z * Z + memory * Z * Z :=
  fun '(m, esi, edi, ecx) =>
    if ecx =? 0 then inr (m, esi, edi)
    else inl (wr32 m edi (rd32 m esi), u32 (esi + 4), u32 (edi + 4), u32 (ecx - 1)).

Definition memcpy_bottom : memory * Z * Z * Z -> memory * Z * Z * Z + memory :=
  fun '(m, esi, edi, edx) =>
    if edx =? 0 then inr m
    else inl (wr m edi (rd m esi), u32 (esi + 1), u32 (edi + 1), u32 (edx - 1)).

Definition memcpy (m : memory) (dest src n : Z) : option memory :=
  match run_loop memcpy_top (m, u32 src, u32 dest, n) with
  | None => None
  | Some (m, esi, edi, ecx) =>
      let edx := Z.land ecx 3 in
      match run_loop rep_movsl (m, esi, edi, Z.shiftr ecx 2) with
      | None => None
      | Some (m, esi, edi) => run_loop memcpy_bottom (m, esi, edi, edx)
      end
  end.

(** *** memmove: one [rep movsb], forwards when src >= dest, else backwards
    from the last byte; [dir] is the step the direction flag gives. *)

Definition rep_movsb (dir : Z) : memory * Z * Z * Z -> memory * Z * Z * Z + memory :=
  fun '(m, esi, edi, ecx) =>
    if ecx =? 0 then inr m
    else inl (wr m edi (rd m esi), u32 (esi + dir), u32 (edi + dir), u32 (ecx - 1)).

Definition memmove (m : memory) (dest src n : Z) : option memory :=
  let esi := u32 src in
  let edi := u32 dest in
  if edi <=? esi then run_loop (rep_movsb 1) (m, esi, edi, n)
  else run_loop (rep_movsb (-1)) (m, u32 (esi + n - 1), u32 (edi + n - 1), n).

(** *** strrev and itoa *)

Definition strrev (m : memory) (s : Z) : option memory :=
  match strlen (at_ m s) with
  | None => None
  | Some len =>
      run_loop (fun '(m, beg, fin) =>
        if beg <? fin then
          let tmp := rd m (s + fin) in
          let m := wr m (s + fin) (rd m (s + beg)) in
          let m := wr m (s + beg) tmp in
          inl (m, beg + 1, fin - 1)
        else inr m) (m, 0, i32 (len - 1))
  end.

(** static int8_t lookup[] = "0123456789ABCDEFGHIJKLMNOPQRSTUVWXYZ" *)
Definition lookup_digits : list Z :=
  map (fun i => 48 + i) (seqZ 0 10) ++ map (fun i => 65 + i) (seqZ 0 26) ++ [0].

Definition itoa (m : memory) (value buf radix : Z) : option memory :=
  if value =? 0 then Some (wr (wr m buf 48) (buf + 1) 0)
  else if u32 radix =? 0 then None
  else
    match run_loop (fun '(m, newbuf, newval) =>
      if 0 <? newval then
        match lookup_digits !! Z.to_nat (newval mod u32 radix) with
        | None => inr None
        | Some d => inl (wr m newbuf d, u32 (newbuf + 1), newval / u32 radix)
        end
      else inr (Some (wr m newbuf 0))) (m, buf, value) with
    | Some (Some m) => strrev m buf
    | _ => None
    end.

(** ** C strings: [is_cstr s n] - the first NUL of [s] is at [n]. *)

Definition is_cstr (s : Z -> Z) (n : Z) : Prop :=
  0 <= n /\ (forall i, 0 <= i < n -> s i <> 0) /\ s n = 0.

Lemma is_cstr_unique s n n' : is_cstr s n -> is_cstr s n' -> n = n'.
Proof.
  intros (H1 & H2 & H3) (H1' & H2' & H3').
  destruct (Z.lt_trichotomy n n') as [?|[?|?]]; [|done|].
  - by destruct (H2' n).
  - by destruct (H2 n').
Qed.

Lemma strlen_spec s n : is_cstr s n -> n < W32 -> strlen s = Some n.
Proof.
  intros (H0 & H1 & H2) Hn.
  destruct (run_loop_rule (fun len => if s len =? 0 then inr len else inl (u32 (len + 1)))
    (fun len => 0 <= len <= n) (fun r => r = n) (fun len => n - len) ) with (s := 0)
    as (r & Hr & ->); [|lia|lia|exact Hr].
  intros len Hlen. case_if.
  - destruct (Z.eq_dec len n); [done|]. exfalso. by apply (H1 len); [lia|].
  - assert (len <> n) by congruence. rewrite u32_small; lia.
Qed.

(** strlen only returns at a NUL, and the first one. *)
Lemma strlen_inv s n : strlen s = Some n -> is_cstr s n /\ n < W32.
Proof.
  unfold strlen, run_loop. intros H.
  assert (forall d l, 0 <= l -> (forall i, 0 <= i < l -> s i <> 0) -> l + 2 ^ Z.of_nat d <= W32 ->
    match loop d (fun len => if s len =? 0 then inr len else inl (u32 (len + 1))) l with
    | inl l' => (l' = u32 (l + 2 ^ Z.of_nat d)) /\ forall i, 0 <= i < l + 2 ^ Z.of_nat d -> s i <> 0
    | inr r => is_cstr s r /\ r < W32
    end) as G.
  { clear. induction d as [|d IH]; intros l Hl Hi Hb.
    - cbn. change (2 ^ 0) with 1 in *. case_if; [split; [done|lia]|].
      split; [done|]. intros i Hi'. destruct (Z.eq_dec i l) as [->|]; [done|]. apply Hi; lia.
    - replace (Z.of_nat (S d)) with (Z.of_nat d + 1) in * by lia.
      rewrite Z.pow_add_r in * by lia. change (2 ^ 1) with 2 in *.
      pose proof (Z.pow_pos_nonneg 2 (Z.of_nat d)).
      cbn [loop]. specialize (IH l Hl Hi ltac:(lia)) as H1.
      destruct (loop d _ l) as [l'|r]; [|done]. destruct H1 as [-> H1].
      rewrite u32_small by lia.
      specialize (IH (l + 2 ^ Z.of_nat d) ltac:(lia) H1 ltac:(lia)).
      destruct (loop d _ _) as [l''|r]; [|done].
      replace (l + 2 ^ Z.of_nat d * 2) with (l + 2 ^ Z.of_nat d + 2 ^ Z.of_nat d) by lia. done. }
  specialize (G 32%nat 0). destruct (loop 32 _ 0) as [|r]; [done|]. injection H as <-.
  apply G; [lia|lia|]. change (2 ^ Z.of_nat 32) with W32. lia.
Qed.

Lemma strlen_ext s s' : (forall i, s i = s' i) -> strlen s = strlen s'.
Proof.
  intros H. destruct (strlen s) as [n|] eqn:E.
  - apply strlen_inv in E as ((? & Hs & Hn) & ?). symmetry. apply strlen_spec; [|done].
    split; [done|]. split; [|by rewrite <- H]. intros i Hi. rewrite <- H. auto.
  - destruct (strlen s') as [n|] eqn:E'; [|done].
    apply strlen_inv in E' as ((? & Hs & Hn) & ?).
    rewrite (strlen_spec s n) in E; [done| |done].
    split; [done|]. split; [|by rewrite H]. intros i Hi. rewrite H. auto.
Qed.

(** ** strncmp *)

(** The first [n] characters agree, up to and including a common NUL. *)
Definition str_eqn (s1 s2 : Z -> Z) (n : Z) : Prop :=
  forall i, 0 <= i < n -> (forall j, 0 <= j < i -> s1 j <> 0) -> s1 i = s2 i.

Definition is_bytes (s : Z -> Z) : Prop := forall i, 0 <= s i < W8.

Lemma at_bytes m p : is_bytes (at_ m p).
Proof. intros i. apply rd_range. Qed.

Lemma i8_inj a b : 0 <= a < W8 -> 0 <= b < W8 -> i8 a - i8 b = 0 -> a = b.
Proof. intros. zlia. Qed.

(** strncmp ends, and returns 0 exactly when the strings agree; otherwise it
    returns the (signed) difference at the first place where they differ. *)
Definition strncmp_post (s1 s2 : Z -> Z) (n r : Z) : Prop :=
  (r = 0 /\ str_eqn s1 s2 n) \/
  (exists i, 0 <= i < n /\ (forall j, 0 <= j < i -> s1 j <> 0 /\ s1 j = s2 j) /\
     s1 i <> s2 i /\ r = i8 (s1 i) - i8 (s2 i) /\ r <> 0).

Lemma strncmp_spec s1 s2 n : is_bytes s1 -> is_bytes s2 -> 0 <= n < W32 ->
  exists r, strncmp s1 s2 n = Some r /\ strncmp_post s1 s2 n r.
Proof.
  intros B1 B2 Hn. unfold strncmp.
  apply (run_loop_rule _
    (fun i => 0 <= i <= n /\ forall j, 0 <= j < i -> s1 j <> 0 /\ s1 j = s2 j)
    (strncmp_post s1 s2 n) (fun i => n - i)); [|split; [lia|intros; lia]|lia].
  intros i [Hi Hj]. case_if; [case_if|].
  - destruct (Z.eq_dec (s1 i) (s2 i)) as [E|E].
    + left. rewrite E. split; [lia|]. intros k Hk Hnz.
      destruct (Z_lt_le_dec k i) as [|]; [by apply Hj; lia|].
      destruct (Z.eq_dec k i) as [->|]; [done|]. destruct Eif0 as [H|H]; b2p; [congruence|].
      exfalso. by apply (Hnz i); [lia|].
    + right. exists i. repeat split; try done; try lia; try (by apply Hj).
      intros H. by apply E, i8_inj.
  - rewrite u32_small by lia. split; [|lia]. split; [lia|].
    intros j Hj'. destruct (Z.eq_dec j i) as [->|]; [|apply Hj; lia]. done.
  - left. split; [done|]. intros k Hk _. apply Hj. lia.
Qed.

Lemma strncmp_zero s1 s2 n r : is_bytes s1 -> is_bytes s2 -> 0 <= n < W32 ->
  strncmp s1 s2 n = Some r -> r = 0 <-> str_eqn s1 s2 n.
Proof.
  intros B1 B2 Hn Hr. destruct (strncmp_spec s1 s2 n B1 B2 Hn) as (r' & Hr' & Hp).
  rewrite Hr in Hr'. injection Hr' as <-.
  destruct Hp as [[-> ?]|(i & Hi & Hj & Hne & -> & Hnz)]; [done|].
  split; [done|]. intros H. exfalso. apply Hne, H; [lia|]. intros j Hj'. by apply Hj.
Qed.

(** ** memset *)

Lemma wr_congr m a a' v v' : u32 a = u32 a' -> u8 v = u8 v' -> wr m a v = wr m a' v'.
Proof. intros Ha Hv. unfold wr. by rewrite Ha, Hv. Qed.

Lemma mem_copied_wr m m' p f k a v : 0 <= k < W32 -> u32 a = u32 (p + k) -> u8 v = u8 (f k) ->
  mem_copied m m' p f k -> mem_copied m (wr m' a v) p f (k + 1).
Proof.
  intros Hk Ha Hv H. rewrite (wr_congr _ a (p + k) v (f k)) by done. by apply mem_copied_snoc.
Qed.

Lemma mem_copied_wr32 m m' p f k a v : 0 <= k -> k + 4 <= W32 -> u32 a = u32 (p + k) ->
  u8 v = u8 (f k) -> u8 (v / W8) = u8 (f (k + 1)) ->
  u8 (v / W16) = u8 (f (k + 2)) -> u8 (v / 16777216) = u8 (f (k + 3)) ->
  mem_copied m m' p f k -> mem_copied m (wr32 m' a v) p f (k + 4).
Proof.
  intros Hk Hk4 Ha H0 H1 H2 H3 H.
  assert (forall j, u32 (a + j) = u32 (p + (k + j))) as Haj.
  { intros j. rewrite <- u32_add_l, Ha, u32_add_l. f_equal; lia. }
  unfold wr32. replace (k + 4) with (k + 1 + 1 + 1 + 1) by lia.
  repeat (apply mem_copied_wr; [lia| |by rewrite <- ?Z.add_assoc; auto|]);
    rewrite <- ?Z.add_assoc; auto.
Qed.

Lemma land3 x : Z.land x 3 = x mod 4.
Proof. change 3 with (Z.ones 2). rewrite Z.land_ones by lia. done. Qed.
Lemma shr2 x : Z.shiftr x 2 = x / 4.
Proof. by rewrite Z.shiftr_div_pow2 by lia. Qed.

(** [memset] fills [n] bytes at [s] with the low byte of [c]; the wrapped
    address space makes this hold wherever [s] is. *)
Section fill.
Context (m0 : memory) (s n v : Z) (b : Z).
Hypothesis Hn : 0 <= n < W32.
Hypothesis Hb : forall k, 0 <= k < 4 -> u8 (v / W8 ^ k) = u8 b.

Local Definition filled (m : memory) (edi k : Z) : Prop :=
  mem_copied m0 m s (fun _ => b) k /\ edi = u32 (s + k).

Lemma filled_byte m edi k : 0 <= k < n -> filled m edi k ->
  filled (wr m edi v) (u32 (edi + 1)) (k + 1).
Proof using Hb Hn.
  intros Hk [H ->]. split; [|rewrite u32_add_l; f_equal; lia].
  apply mem_copied_wr; [lia|by rewrite u32_u32| |done].
  rewrite <- (Hb 0) by lia. by rewrite Z.div_1_r.
Qed.

Lemma filled_dword m edi k : 0 <= k -> k + 4 <= n -> filled m edi k ->
  filled (wr32 m edi v) (u32 (edi + 4)) (k + 4).
Proof using Hb Hn.
  intros Hk Hk4 [H ->]. split; [|rewrite u32_add_l; f_equal; lia].
  pose proof (Hb 0 ltac:(lia)) as B0. rewrite Z.div_1_r in B0.
  apply mem_copied_wr32; try done; try lia; [by rewrite u32_u32|by apply (Hb 1)|by apply (Hb 2)|by apply (Hb 3)].
Qed.
Lemma memset_top_ok : exists m' edi ecx,
  run_loop (memset_top v) (m0, u32 s, n) = Some (m', edi, ecx) /\
  0 <= ecx <= n /\ filled m' edi (n - ecx).
Proof using Hb Hn.
  destruct (run_loop_rule (memset_top v)
    (fun '(m', edi, ecx) => 0 <= ecx <= n /\ filled m' edi (n - ecx))
    (fun '(m', edi, ecx) => 0 <= ecx <= n /\ filled m' edi (n - ecx))
    (fun '(_, _, ecx) => ecx)) with (s := (m0, u32 s, n)) as ([[m1 edi1] ecx1] & H1 & H2).
  - intros [[m' edi] ecx] [He F]. cbn. case_if; [done|]. case_if; [done|].
    rewrite (u32_small (ecx - 1)) by lia. split; [|lia]. split; [lia|].
    replace (n - (ecx - 1)) with (n - ecx + 1) by lia. apply filled_byte; [lia|done].
  - split; [lia|]. split; [|f_equal; lia]. rewrite Z.sub_diag. apply mem_copied_0.
  - lia.
  - eauto.
Qed.

(** [rep stosl] of [q] words that end [r] bytes before the end of the range. *)
Lemma rep_stosl_ok m edi q r : 0 <= q -> 0 <= r -> 4 * q + r <= n ->
  filled m edi (n - r - 4 * q) ->
  exists m' edi', run_loop (rep_stosl v) (m, edi, q) = Some (m', edi') /\ filled m' edi' (n - r).
Proof using Hb Hn.
  intros Hq Hr Hqr F.
  destruct (run_loop_rule (rep_stosl v)
    (fun '(m', edi, ecx) => 0 <= ecx <= q /\ filled m' edi (n - r - 4 * ecx))
    (fun '(m', edi) => filled m' edi (n - r))
    (fun '(_, _, ecx) => ecx)) with (s := (m, edi, q)) as ([m2 edi2] & H & F2).
  - intros [[m' edi'] ecx] [He F']. cbn. case_if; [subst; by rewrite Z.mul_0_r, Z.sub_0_r in F'|].
    rewrite (u32_small (ecx - 1)) by lia. split; [|lia]. split; [lia|].
    replace (n - r - 4 * (ecx - 1)) with (n - r - 4 * ecx + 4) by lia.
    apply filled_dword; [lia|lia|done].
  - split; [lia|done].
  - lia.
  - eauto.
Qed.

Lemma memset_bottom_ok m edi r : 0 <= r <= n -> filled m edi (n - r) ->
  exists m', run_loop (memset_bottom v) (m, edi, r) = Some m' /\
    mem_copied m0 m' s (fun _ => b) n.
Proof using Hb Hn.
  intros Hr F.
  apply (run_loop_rule (memset_bottom v)
    (fun '(m', edi, edx) => 0 <= edx <= r /\ filled m' edi (n - edx))
    (fun m' => mem_copied m0 m' s (fun _ => b) n) (fun '(_, _, edx) => edx)).
  - intros [[m' edi'] edx] [He F']. cbn. case_if.
    { subst. rewrite Z.sub_0_r in F'. apply F'. }
    rewrite (u32_small (edx - 1)) by lia. split; [|lia]. split; [lia|].
    replace (n - (edx - 1)) with (n - edx + 1) by lia. apply filled_byte; [lia|done].
  - split; [lia|done].
  - lia.
Qed.
End fill.

Lemma memset_eax c : 0 <= c < W8 ->
  forall k, 0 <= k < 4 ->
  u8 (u32 (Z.lor (Z.lor (Z.lor (Z.shiftl c 24) (Z.shiftl c 16)) (Z.shiftl c 8)) c) / W8 ^ k) = u8 c.
Proof.
  intros Hc.
  intros k Hk. apply Z.eqb_eq.
  apply (forallb_range (fun k => u8 (u32 (Z.lor (Z.lor (Z.lor (Z.shiftl c 24) (Z.shiftl c 16))
    (Z.shiftl c 8)) c) / W8 ^ k) =? u8 c) 0 4); [|lia].
  apply (forallb_range (fun c => forallb (fun k => u8 (u32 (Z.lor (Z.lor (Z.lor (Z.shiftl c 24)
    (Z.shiftl c 16)) (Z.shiftl c 8)) c) / W8 ^ k) =? u8 c) (seqZ 0 4)) 0 256); [vm_compute; done|lia].
Qed.

Lemma memset_copied m s c n : 0 <= n < W32 ->
  exists m', memset m s c n = Some m' /\ mem_copied m m' s (fun _ => u8 c) n.
Proof.
  intros Hn. unfold memset.
  assert (Hc : Z.land c 255 = u8 c).
  { change 255 with (Z.ones 8). rewrite Z.land_ones by lia. done. }
  rewrite Hc. set (eax := u32 _).
  assert (Hb : forall k, 0 <= k < 4 -> u8 (eax / W8 ^ k) = u8 (u8 c)) by (apply memset_eax, u8_range).
  destruct (memset_top_ok m s n eax (u8 c) Hn Hb) as (m1 & edi1 & ecx1 & -> & H1 & F1).
  rewrite land3, shr2.
  destruct (rep_stosl_ok m s n eax (u8 c) Hn Hb m1 edi1 (ecx1 / 4) (ecx1 mod 4))
    as (m2 & edi2 & -> & F2); try zlia.
  { by replace (n - ecx1 mod 4 - 4 * (ecx1 / 4)) with (n - ecx1) by zlia. }
  apply (memset_bottom_ok m s n eax (u8 c) Hn Hb); [zlia|done].
Qed.

Lemma memset_dword_copied m s c n : 0 <= n -> 4 * n < W32 ->
  (forall k, 0 <= k < 4 -> u8 (c / W8 ^ k) = u8 c) ->
  exists m', memset_dword m s c n = Some m' /\ mem_copied m m' s (fun _ => c) (4 * n).
Proof.
  intros Hn H4 Hb. unfold memset_dword.
  destruct (rep_stosl_ok m s (4 * n) c c ltac:(lia) Hb m (u32 s) n 0) as (m' & edi & -> & [F _]); try lia.
  { split; [|f_equal; lia]. replace (4 * n - 0 - 4 * n) with 0 by lia. apply mem_copied_0. }
  rewrite Z.sub_0_r in F. eauto.
Qed.

(** [memset_word] stores the low 16 bits of [c] [n] times. *)
Lemma memset_word_copied m s c n : 0 <= n -> 2 * n < W32 ->
  exists m', memset_word m s c n = Some m' /\
    mem_copied m m' s (fun i => if i mod 2 =? 0 then c else c / W8) (2 * n).
Proof.
  intros Hn H2. unfold memset_word. set (f := fun i => if i mod 2 =? 0 then c else c / W8).
  apply (run_loop_rule (rep_stosw c)
    (fun '(m', edi, ecx) => 0 <= ecx <= n /\ mem_copied m m' s f (2 * n - 2 * ecx) /\
       edi = u32 (s + (2 * n - 2 * ecx)))
    (fun m' => mem_copied m m' s f (2 * n)) (fun '(_, _, ecx) => ecx)).
  - intros [[m' edi] ecx] (He & F & ->). cbn. case_if; [subst; by rewrite Z.mul_0_r, Z.sub_0_r in F|].
    rewrite (u32_small (ecx - 1)) by lia. split; [|lia]. split; [lia|].
    split; [|rewrite u32_add_l; f_equal; lia].
    replace (2 * n - 2 * (ecx - 1)) with (2 * n - 2 * ecx + 1 + 1) by lia. unfold wr16.
    apply mem_copied_wr; [lia|rewrite u32_add_l; f_equal; lia| |apply mem_copied_wr; [lia|by rewrite u32_u32| |done]].
    + unfold f. by rewrite (proj2 (Z.eqb_neq _ _)) by zlia.
    + unfold f. by rewrite (proj2 (Z.eqb_eq _ _)) by zlia.
  - split; [lia|]. rewrite Z.sub_diag. split; [apply mem_copied_0|f_equal; lia].
  - lia.
Qed.

(** ** memcpy

    The assembly copies forwards, so it is a correct copy exactly when the
    destination does not start inside the source after its first byte. *)

Definition copy_safe (dest src n : Z) : Prop :=
  u32 (dest - src) = 0 \/ n <= u32 (dest - src).

Section copy.
Context (m0 : memory) (dest src n : Z).
Hypothesis Hn : 0 <= n < W32.
Hypothesis Hsafe : copy_safe dest src n.

Local Definition copied (m : memory) (esi edi k : Z) : Prop :=
  mem_copied m0 m dest (at_ m0 src) k /\ esi = u32 (src + k) /\ edi = u32 (dest + k).

(** A source byte that is still to be copied has not been overwritten. *)
Lemma copied_src m esi edi k j : 0 <= k <= j -> j < n -> copied m esi edi k ->
  rd m (src + j) = rd m0 (src + j).
Proof using Hn Hsafe.
  intros Hk Hj (H & _). apply (mem_copied_out _ _ _ _ _ _ H).
  destruct Hsafe as [E|E].
  - replace (src + j - dest) with (j - (dest - src)) by lia.
    rewrite <- u32_sub_r, E, u32_small; lia.
  - pose proof (u32_range (dest - src)).
    replace (src + j - dest) with (j - (dest - src)) by lia. rewrite <- u32_sub_r.
    replace (j - u32 (dest - src)) with (j - u32 (dest - src) + W32 - W32) by lia.
    unfold u32 at 1. rewrite <- (Z_mod_plus_full _ 1). rewrite Z.mod_small; lia.
Qed.

Lemma copied_byte m esi edi k : 0 <= k < n -> copied m esi edi k ->
  copied (wr m edi (rd m esi)) (u32 (esi + 1)) (u32 (edi + 1)) (k + 1).
Proof using Hn Hsafe.
  intros Hk F. pose proof (copied_src m esi edi k k ltac:(lia) ltac:(lia) F) as Hs.
  destruct F as (H & -> & ->). repeat split; [|rewrite u32_add_l; f_equal; lia..].
  apply mem_copied_wr; [lia|by rewrite u32_u32| |done]. rewrite rd_u32, Hs. done.
Qed.

Lemma copied_dword m esi edi k : 0 <= k -> k + 4 <= n -> copied m esi edi k ->
  copied (wr32 m edi (rd32 m esi)) (u32 (esi + 4)) (u32 (edi + 4)) (k + 4).
Proof using Hn Hsafe.
  intros Hk Hk4 F.
  pose proof (fun j Hj1 Hj2 => copied_src m esi edi k (k + j) Hj1 Hj2 F) as Hs.
  destruct F as (H & -> & ->). repeat split; [|rewrite u32_add_l; f_equal; lia..].
  destruct (rd32_bytes m (u32 (src + k))) as (B0 & B1 & B2 & B3).
  assert (forall j, 0 <= j < 4 -> rd m (u32 (src + k) + j) = rd m0 (src + (k + j))) as Hj.
  { intros j Hj. rewrite <- Hs by lia. apply rd_eq_addr. rewrite u32_add_l. f_equal; lia. }
  rewrite <- (Z.add_0_r (u32 (src + k))), (Hj 0), Z.add_0_r in B0 by lia.
  rewrite Z.add_0_r in B0. rewrite Hj in B1, B2, B3 by lia.
  apply mem_copied_wr32; try done; try lia; [by rewrite u32_u32|..];
    unfold at_, u8 in *; rewrite ?B0, ?B1, ?B2, ?B3; symmetry; apply u8_small, rd_range.
Qed.

Lemma memcpy_top_ok : exists m' esi edi ecx,
  run_loop memcpy_top (m0, u32 src, u32 dest, n) = Some (m', esi, edi, ecx) /\
  0 <= ecx <= n /\ copied m' esi edi (n - ecx).
Proof using Hn Hsafe.
  destruct (run_loop_rule memcpy_top
    (fun '(m', esi, edi, ecx) => 0 <= ecx <= n /\ copied m' esi edi (n - ecx))
    (fun '(m', esi, edi, ecx) => 0 <= ecx <= n /\ copied m' esi edi (n - ecx))
    (fun '(_, _, _, ecx) => ecx)) with (s := (m0, u32 src, u32 dest, n))
    as ([[[m1 esi1] edi1] ecx1] & H1 & H2).
  - intros [[[m' esi] edi] ecx] [He F]. cbn. case_if; [done|]. case_if; [done|].
    rewrite (u32_small (ecx - 1)) by lia. split; [|lia]. split; [lia|].
    replace (n - (ecx - 1)) with (n - ecx + 1) by lia. apply copied_byte; [lia|done].
  - split; [lia|]. unfold copied. rewrite Z.sub_diag, !Z.add_0_r. repeat split. apply mem_copied_0.
  - lia.
  - eauto 10.
Qed.

Lemma rep_movsl_ok m esi edi q r : 0 <= q -> 0 <= r -> 4 * q + r <= n ->
  copied m esi edi (n - r - 4 * q) ->
  exists m' esi' edi', run_loop rep_movsl (m, esi, edi, q) = Some (m', esi', edi') /\
    copied m' esi' edi' (n - r).
Proof using Hn Hsafe.
  intros Hq Hr Hqr F.
  destruct (run_loop_rule rep_movsl
    (fun '(m', esi, edi, ecx) => 0 <= ecx <= q /\ copied m' esi edi (n - r - 4 * ecx))
    (fun '(m', esi, edi) => copied m' esi edi (n - r))
    (fun '(_, _, _, ecx) => ecx)) with (s := (m, esi, edi, q)) as ([[m2 esi2] edi2] & H & F2).
  - intros [[[m' esi'] edi'] ecx] [He F']. cbn.
    case_if; [subst; by rewrite Z.mul_0_r, Z.sub_0_r in F'|].
    rewrite (u32_small (ecx - 1)) by lia. split; [|lia]. split; [lia|].
    replace (n - r - 4 * (ecx - 1)) with (n - r - 4 * ecx + 4) by lia.
    apply copied_dword; [lia|lia|done].
  - split; [lia|done].
  - lia.
  - eauto 10.
Qed.

Lemma memcpy_bottom_ok m esi edi r : 0 <= r <= n -> copied m esi edi (n - r) ->
  exists m', run_loop memcpy_bottom (m, esi, edi, r) = Some m' /\
    mem_copied m0 m' dest (at_ m0 src) n.
Proof using Hn Hsafe.
  intros Hr F.
  apply (run_loop_rule memcpy_bottom
    (fun '(m', esi, edi, edx) => 0 <= edx <= r /\ copied m' esi edi (n - edx))
    (fun m' => mem_copied m0 m' dest (at_ m0 src) n) (fun '(_, _, _, edx) => edx)).
  - intros [[[m' esi'] edi'] edx] [He F']. cbn. case_if.
    { subst. rewrite Z.sub_0_r in F'. apply F'. }
    rewrite (u32_small (edx - 1)) by lia. split; [|lia]. split; [lia|].
    replace (n - (edx - 1)) with (n - edx + 1) by lia. apply copied_byte; [lia|done].
  - split; [lia|done].
  - lia.
Qed.

Lemma memcpy_copied : exists m', memcpy m0 dest src n = Some m' /\
  mem_copied m0 m' dest (at_ m0 src) n.
Proof using Hn Hsafe.
  unfold memcpy.
  destruct memcpy_top_ok as (m1 & esi1 & edi1 & ecx1 & -> & H1 & F1).
  rewrite land3, shr2.
  destruct (rep_movsl_ok m1 esi1 edi1 (ecx1 / 4) (ecx1 mod 4)) as (m2 & esi2 & edi2 & -> & F2); try zlia.
  { by replace (n - ecx1 mod 4 - 4 * (ecx1 / 4)) with (n - ecx1) by zlia. }
  apply (memcpy_bottom_ok m2 esi2); [zlia|done].
Qed.
End copy.

(** ** memmove: correct for every overlap of two ranges that do not wrap. *)

Definition copied_back (m0 : memory) (dest src n : Z) (m : memory) (k : Z) : Prop :=
  forall a, rd m a = let o := u32 (a - dest) in
    if (k <=? o) && (o <? n) then rd m0 (src + o) else rd m0 a.

Lemma copied_back_step m0 dest src n m k :
  0 <= src -> src < dest -> dest + n <= W32 -> 0 < k <= n ->
  copied_back m0 dest src n m k ->
  copied_back m0 dest src n (wr m (u32 (dest + k - 1)) (rd m (u32 (src + k - 1)))) (k - 1).
Proof.
  intros Hs Hd Hw Hk H a. cbn zeta. rewrite rd_wr, u32_u32, rd_u32, H, (H a). cbn zeta.
  set (o := u32 (a - dest)).
  assert (((k <=? u32 (src + k - 1 - dest)) && (u32 (src + k - 1 - dest) <? n)) = false) as ->.
  { apply andb_false_iff. destruct (Z_lt_le_dec (src + k - 1) dest).
    - right. apply Z.ltb_ge. unfold u32.
      rewrite <- (Z_mod_plus_full _ 1), Z.mod_small by lia. lia.
    - left. apply Z.leb_gt. rewrite u32_small; lia. }
  assert (u32 (dest + k - 1) = u32 a <-> o = k - 1) as Ho.
  { unfold o. rewrite <- (u32_offset a dest (k - 1)) by lia.
    replace (dest + (k - 1)) with (dest + k - 1) by lia. intuition. }
  destruct (u32 (dest + k - 1) =? u32 a) eqn:E; b2p.
  - apply Ho in E. rewrite E, (proj2 (Z.leb_le _ _)), (proj2 (Z.ltb_lt _ _)) by lia. cbn.
    rewrite u8_small by apply rd_range. f_equal; lia.
  - assert (o <> k - 1) by (intros ?; apply E, Ho; done).
    destruct (k <=? o) eqn:E1, (k - 1 <=? o) eqn:E2; b2p; try lia; done.
Qed.

Lemma memmove_copied m dest src n :
  0 <= n -> 0 <= src -> src + n <= W32 -> 0 <= dest -> dest + n <= W32 -> n < W32 ->
  exists m', memmove m dest src n = Some m' /\ mem_copied m m' dest (at_ m src) n.
Proof.
  intros Hn Hs Hsn Hd Hdn Hnw. unfold memmove.
  destruct (Z.eq_dec n 0) as [->|Hn0].
  { exists m. split; [|apply mem_copied_0]. case_if; done. }
  rewrite (u32_small src), (u32_small dest) by lia. case_if.
  - change (rep_movsb 1) with memcpy_bottom.
    apply (memcpy_bottom_ok m dest src n ltac:(lia)); [|lia|].
    + destruct (Z.eq_dec dest src) as [->|]; [left; by rewrite Z.sub_diag|right].
      unfold u32. rewrite <- (Z_mod_plus_full _ 1), Z.mod_small by lia. lia.
    + unfold copied. rewrite Z.sub_diag, !Z.add_0_r, !u32_small by lia.
      repeat split. apply mem_copied_0.
  - apply (run_loop_rule (rep_movsb (-1))
      (fun '(m', esi, edi, ecx) => 0 <= ecx <= n /\ copied_back m dest src n m' ecx /\
         esi = u32 (src + ecx - 1) /\ edi = u32 (dest + ecx - 1))
      (fun m' => mem_copied m m' dest (at_ m src) n) (fun '(_, _, _, ecx) => ecx)); [| |lia].
    + intros [[[m' esi] edi] ecx] (He & F & -> & ->). cbn. case_if.
      * subst. intros a. rewrite F. cbn zeta. pose proof (u32_range (a - dest)).
        rewrite (proj2 (Z.leb_le _ _)) by lia. cbn. case_if; [|done].
        symmetry. apply u8_small, rd_range.
      * rewrite (u32_small (ecx - 1)), !u32_add_l by lia. split; [|lia]. split; [lia|].
        split; [apply copied_back_step; (done || lia)|]. split; f_equal; lia.
    + split; [lia|]. split; [|split; reflexivity]. intros a. cbn zeta.
      destruct (n <=? u32 (a - dest)) eqn:E1, (u32 (a - dest) <? n) eqn:E2; b2p; (done || lia).
Qed.

(** ** strncpy and strcpy *)

(** The [n] bytes strncpy leaves: the source up to its NUL, then zeros; [k]
    is the number of characters copied. *)
Definition strncpy_bytes (src : Z -> Z) (k : Z) : Z -> Z :=
  fun i => if i <? k then src i else 0.

Lemma strncpy_spec m dest src n : 0 <= n < W32 ->
  exists m' k, strncpy m dest src n = Some m' /\
    0 <= k <= n /\ (forall i, 0 <= i < k -> src i <> 0) /\ (k < n -> src k = 0) /\
    mem_copied m m' dest (strncpy_bytes src k) n.
Proof.
  intros Hn. unfold strncpy.
  destruct (run_loop_rule (fun '(m, i) =>
      if negb (src i =? 0) && (i <? n) then inl (wr m (dest + i) (src i), u32 (i + 1))
      else inr (m, i))
    (fun '(m', i) => 0 <= i <= n /\ (forall j, 0 <= j < i -> src j <> 0) /\ mem_copied m m' dest src i)
    (fun '(m', i) => 0 <= i <= n /\ (forall j, 0 <= j < i -> src j <> 0) /\
       (i < n -> src i = 0) /\ mem_copied m m' dest src i)
    (fun '(_, i) => n - i)) with (s := (m, 0)) as ([m1 k] & -> & Hk & Hnz & Hz & F).
  { intros [m' i] (Hi & Hj & F). case_if.
    - rewrite u32_small by lia. split; [|lia]. split; [lia|]. split; [|by apply mem_copied_snoc; [lia|]].
      intros j Hj'. destruct (Z.eq_dec j i) as [->|]; [done|apply Hj; lia].
    - split; [lia|]. split; [done|]. split; [|done]. intros Hlt. destruct Eif; b2p; [done|lia]. }
  { split; [lia|]. split; [intros; lia|apply mem_copied_0]. }
  { lia. }
  destruct (run_loop_rule (fun '(m, i) =>
        if i <? n then inl (wr m (dest + i) 0, u32 (i + 1)) else inr m)
    (fun '(m', i) => k <= i <= n /\ mem_copied m m' dest (strncpy_bytes src k) i)
    (fun m' => mem_copied m m' dest (strncpy_bytes src k) n)
    (fun '(_, i) => n - i)) with (s := (m1, k)) as (m2 & H2 & F2).
  { intros [m' i] (Hi & F'). case_if.
    - rewrite u32_small by lia. split; [|lia]. split; [lia|].
      apply mem_copied_wr; [lia|done| |done]. unfold strncpy_bytes.
      by rewrite (proj2 (Z.ltb_ge _ _)) by lia.
    - by replace n with i by lia. }
  { split; [lia|]. apply (mem_copied_ext _ _ _ src); [|done]. intros i Hi.
    unfold strncpy_bytes. by rewrite (proj2 (Z.ltb_lt _ _)) by lia. }
  { lia. }
  eauto 10.
Qed.

Lemma strcpy_copied m dest src l : is_cstr (at_ m src) l -> l + 1 < W32 ->
  copy_safe dest src (l + 1) ->
  exists m', strcpy m dest src = Some m' /\ mem_copied m m' dest (at_ m src) (l + 1).
Proof.
  intros (Hl & Hnz & Hz) Hw Hsafe. unfold strcpy.
  apply (run_loop_rule _
    (fun '(m', i) => 0 <= i <= l /\ mem_copied m m' dest (at_ m src) i)
    (fun m' => mem_copied m m' dest (at_ m src) (l + 1)) (fun '(_, i) => l - i)); [| |lia].
  - intros [m' i] [Hi F].
    assert (rd m' (src + i) = at_ m src i) as E.
    { apply (copied_src m dest src (l + 1) ltac:(lia) Hsafe m' (u32 (src + i)) (u32 (dest + i)) i);
        [lia|lia|by split]. }
    rewrite E. case_if.
    + assert (i = l) as ->. { destruct (Z.eq_dec i l); [done|]. exfalso. apply (Hnz i); [lia|done]. }
      apply mem_copied_wr; [lia|done|by rewrite Hz|done].
    + assert (i <> l) by congruence.
      rewrite u32_small by lia. split; [|lia]. split; [lia|]. apply mem_copied_snoc; [lia|done].
  - split; [lia|apply mem_copied_0].
Qed.

(** ** strrev *)

(** Outside [beg..len-1-beg] the string is already reversed. *)
Definition rev_outside (m0 : memory) (s len : Z) (m : memory) (beg : Z) : Prop :=
  forall a, rd m a = let o := u32 (a - s) in
    if (o <? len) && ((o <? beg) || (len - 1 - beg <? o)) then rd m0 (s + (len - 1 - o)) else rd m0 a.

Definition reversed (m0 : memory) (s len : Z) (m : memory) : Prop :=
  forall a, rd m a = let o := u32 (a - s) in
    if o <? len then rd m0 (s + (len - 1 - o)) else rd m0 a.

Lemma rev_outside_inner m0 s len m beg i : 0 <= i < len -> len <= W32 ->
  beg <= i <= len - 1 - beg -> rev_outside m0 s len m beg -> rd m (s + i) = rd m0 (s + i).
Proof.
  intros Hi Hl Hb H. rewrite H. cbn zeta. replace (s + i - s) with i by lia.
  rewrite u32_small by lia. rewrite (proj2 (Z.ltb_ge i beg)), (proj2 (Z.ltb_ge (len - 1 - beg) i)) by lia.
  by rewrite andb_false_r.
Qed.

Lemma rev_outside_step m0 s len m beg : 0 <= beg -> beg < len - 1 - beg -> len < W32 ->
  rev_outside m0 s len m beg ->
  rev_outside m0 s len
    (wr (wr m (s + (len - 1 - beg)) (rd m (s + beg))) (s + beg) (rd m (s + (len - 1 - beg)))) (beg + 1).
Proof.
  intros H0 Hb Hl H a. cbn zeta.
  rewrite !(rev_outside_inner m0 s len m beg) by (lia || done).
  rewrite !rd_wr, H. cbn zeta. set (o := u32 (a - s)).
  assert (forall k, 0 <= k < W32 -> u32 (s + k) = u32 a <-> o = k) as Ho.
  { intros k Hk. unfold o. rewrite <- (u32_offset a s k) by lia. intuition. }
  destruct (u32 (s + beg) =? u32 a) eqn:E1; [|destruct (u32 (s + (len - 1 - beg)) =? u32 a) eqn:E2]; b2p.
  - apply Ho in E1; [|lia]. rewrite E1, (proj2 (Z.ltb_lt beg len)), (proj2 (Z.ltb_lt beg (beg + 1))) by lia.
    apply u8_small, rd_range.
  - apply Ho in E2; [|lia]. rewrite E2, (proj2 (Z.ltb_lt _ len)), (proj2 (Z.ltb_ge _ (beg + 1))),
      (proj2 (Z.ltb_lt _ (len - 1 - beg))) by lia. cbn.
    rewrite u8_small by apply rd_range. f_equal; lia.
  - assert (o <> beg) by (intros ?; apply E1, Ho; [lia|done]).
    assert (o <> len - 1 - beg) by (intros ?; apply E2, Ho; [lia|done]).
    destruct (o <? len) eqn:F1, (o <? beg) eqn:F2, (o <? beg + 1) eqn:F3,
      (len - 1 - beg <? o) eqn:F4, (len - 1 - (beg + 1) <? o) eqn:F5; b2p; try lia; done.
Qed.

Lemma strrev_reversed m s len : is_cstr (at_ m s) len -> len < H32 ->
  exists m', strrev m s = Some m' /\ reversed m s len m'.
Proof.
  intros Hc Hl. unfold strrev. rewrite (strlen_spec _ len) by (lia || done).
  destruct Hc as (H0 & _ & _).
  replace (i32 (len - 1)) with (len - 1) by zlia.
  apply (run_loop_rule _
    (fun '(m', beg, fin) => 0 <= beg /\ fin = len - 1 - beg /\ beg <= fin + 1 + 1 /\ rev_outside m s len m' beg)
    (fun m' => reversed m s len m') (fun '(_, beg, fin) => Z.max 0 (fin - beg))); [| |lia].
  - intros [[m' beg] fin] (Hb & -> & Hbf & F). case_if.
    + split; [|lia]. split; [lia|]. split; [lia|]. split; [lia|].
      apply rev_outside_step; (done || lia).
    + intros a. rewrite F. cbn zeta. set (o := u32 (a - s)). pose proof (u32_range (a - s)).
      destruct (o <? len) eqn:F1, (o <? beg) eqn:F2, (len - 1 - beg <? o) eqn:F3; b2p; cbn; try done.
      (* the middle character of an odd length *)
      replace (len - 1 - o) with o by lia. apply rd_eq_addr. apply u32_offset; [lia|done].
  - split; [lia|]. split; [lia|]. split; [lia|]. intros a. cbn zeta.
    pose proof (u32_range (a - s)).
    destruct (u32 (a - s) <? len) eqn:F1, (u32 (a - s) <? 0) eqn:F2, (len - 1 - 0 <? u32 (a - s)) eqn:F3;
      b2p; try lia; done.
Qed.

(** ** itoa

    [digit_value] is the reference: the value of a list of digits, least
    significant first. *)

Definition digit_value (radix : Z) (ds : list Z) : Z := foldr (fun d acc => d + radix * acc) 0 ds.
Definition digit_char (d : Z) : Z := default 0 (lookup_digits !! Z.to_nat d).

Lemma digit_char_lookup d : 0 <= d < 36 ->
  lookup_digits !! Z.to_nat d = Some (digit_char d) /\ 0 < digit_char d < W8.
Proof.
  intros Hd.
  pose proof (forallb_range (fun d => match lookup_digits !! Z.to_nat d with
    | Some c => (0 <? c) && (c <? W8) | None => false end) 0 36 d) as G.
  specialize (G ltac:(vm_compute; done) ltac:(lia)). cbv beta in G.
  unfold digit_char. destruct (lookup_digits !! Z.to_nat d); b2p; [done|done].
Qed.

(** The characters of the digits, as a reader. *)
Definition char_at (ds : list Z) (i : Z) : Z := digit_char (default 0 (ds !! Z.to_nat i)).

Lemma digit_value_app radix ds d :
  digit_value radix (ds ++ [d]) = digit_value radix ds + radix ^ Z.of_nat (length ds) * d.
Proof.
  induction ds as [|e ds IH]; [cbn; lia|].
  cbn [app digit_value foldr]. fold (digit_value radix (ds ++ [d])) (digit_value radix ds).
  rewrite IH. cbn [length]. rewrite Nat2Z.inj_succ, Z.pow_succ_r by lia. lia.
Qed.

(** [ds], most significant digit first, is the numeral of [value]: digits below
    the radix, the right value, and no leading zero. *)
Definition numeral (radix value : Z) (ds : list Z) : Prop :=
  Forall (fun d => 0 <= d < radix) ds /\ digit_value radix (reverse ds) = value /\
  ds <> [] /\ (head ds = Some 0 -> ds = [0]).

(** The bytes of a numeral, NUL-terminated. *)
Definition numeral_bytes (ds : list Z) (i : Z) : Z :=
  if i <? Z.of_nat (length ds) then char_at ds i else 0.

Section itoa.
Context (m0 : memory) (value buf radix : Z).
Hypothesis Hv : 0 < value < W32.
Hypothesis Hr : 2 <= radix <= 36.

(** State of the conversion loop: [ds] are the digits written so far. *)
Local Definition conv (m : memory) (newbuf newval : Z) (ds : list Z) : Prop :=
  let k := Z.of_nat (length ds) in
  mem_copied m0 m buf (char_at ds) k /\ u32 newbuf = u32 (buf + k) /\ 0 <= newval /\
  Forall (fun d => 0 <= d < radix) ds /\ digit_value radix ds + radix ^ k * newval = value /\
  (newval = 0 -> exists ds' d, ds = ds' ++ [d] /\ d <> 0).

Lemma digit_value_nonneg ds : Forall (fun d => 0 <= d < radix) ds -> 0 <= digit_value radix ds.
Proof using Hr Hv. induction 1 as [|d ds Hd _ IH]; cbn; [lia|]. unfold digit_value in IH. nia. Qed.

Lemma conv_length m newbuf newval ds : conv m newbuf newval ds -> 0 < newval ->
  Z.of_nat (length ds) < 32.
Proof using Hr Hv.
  intros (_ & _ & _ & F & E & _) Hn. pose proof (digit_value_nonneg ds F).
  apply Z.nle_gt. intros Hle.
  assert (2 ^ 32 <= radix ^ Z.of_nat (length ds)).
  { etrans; [apply (Z.pow_le_mono_r 2 32 (Z.of_nat (length ds))); lia|]. apply Z.pow_le_mono_l. lia. }
  change (2 ^ 32) with W32 in *. nia.
Qed.

Lemma conv_step m newbuf newval ds : 0 < newval -> conv m newbuf newval ds ->
  conv (wr m newbuf (digit_char (newval mod radix))) (u32 (newbuf + 1)) (newval / radix)
    (ds ++ [newval mod radix]).
Proof using Hr Hv.
  intros Hn C. pose proof (conv_length _ _ _ _ C Hn) as Hk.
  destruct C as (F & Hb & Hnn & D & E & _). unfold conv. rewrite length_app. cbn [length].
  rewrite Nat2Z.inj_add. change (Z.of_nat 1) with 1.
  set (k := Z.of_nat (length ds)) in *. assert (0 <= k) by lia.
  repeat split.
  - apply mem_copied_wr; [lia|done| |].
    + unfold char_at. rewrite lookup_app_r by lia.
      by replace (Z.to_nat k - length ds)%nat with 0%nat by lia.
    + apply (mem_copied_ext _ _ _ (char_at ds)); [|done]. intros i Hi.
      unfold char_at. by rewrite lookup_app_l by lia.
  - rewrite u32_u32. rewrite <- u32_add_l, Hb, u32_add_l. f_equal; lia.
  - apply Z.div_pos; lia.
  - apply Forall_app. split; [done|]. constructor; [|done]. apply Z.mod_pos_bound. lia.
  - rewrite digit_value_app. fold k. rewrite <- E, Z.pow_add_r, Z.pow_1_r by lia.
    rewrite (Z.div_mod newval radix) at 3 by lia. lia.
  - intros H0. exists ds, (newval mod radix). split; [done|]. pose proof (Z.div_mod newval radix ltac:(lia)). lia.
Qed.

Lemma itoa_loop : exists m' ds, conv m' (buf + Z.of_nat (length ds)) 0 ds /\ (length ds <= 32)%nat /\
  run_loop (fun '(m, newbuf, newval) =>
      if 0 <? newval then
        match lookup_digits !! Z.to_nat (newval mod radix) with
        | None => inr None
        | Some d => inl (wr m newbuf d, u32 (newbuf + 1), newval / radix)
        end
      else inr (Some (wr m newbuf 0))) (m0, buf, value)
  = Some (Some (wr m' (buf + Z.of_nat (length ds)) 0)).
Proof using Hr Hv.
  match goal with |- context [run_loop ?b] => set (body := b) end.
  destruct (run_loop_rule body
    (fun '(m, newbuf, newval) => exists ds, conv m newbuf newval ds /\ (length ds <= 32)%nat)
    (fun r => exists m' ds, conv m' (buf + Z.of_nat (length ds)) 0 ds /\ (length ds <= 32)%nat /\
       r = Some (wr m' (buf + Z.of_nat (length ds)) 0))
    (fun '(_, _, newval) => newval)) with (s := (m0, buf, value)) as (r & H & m' & ds & C & L & ->).
  - intros [[m newbuf] newval] (ds & C & L). unfold body. case_if.
    + assert (0 <= newval mod radix < radix) by (apply Z.mod_pos_bound; lia).
      destruct (digit_char_lookup (newval mod radix)) as [-> _]; [lia|].
      split; [|split; [apply Z.div_pos; lia|apply Z.div_lt; lia]]. exists (ds ++ [newval mod radix]).
      pose proof (conv_length _ _ _ _ C ltac:(lia)).
      split; [by apply conv_step|]. rewrite length_app. cbn. lia.
    + assert (newval = 0) as -> by (destruct C as (_ & _ & ? & _); lia).
      exists m, ds. destruct C as (C1 & C2 & C3). split; [exact (conj C1 (conj eq_refl C3))|]. split; [done|].
      f_equal. by apply wr_congr.
  - exists []. split; [|cbn; lia]. unfold conv. cbn [length].
    change (Z.of_nat 0) with 0. rewrite Z.add_0_r, Z.pow_0_r.
    repeat split; [apply mem_copied_0|lia|done|cbn; lia|lia].
  - lia.
  - eauto 10.
Qed.
End itoa.

Lemma char_at_pos ds i : Forall (fun d => 0 <= d < 36) ds -> 0 <= i < Z.of_nat (length ds) ->
  0 < char_at ds i < W8.
Proof.
  intros D Hi. unfold char_at.
  destruct (lookup_lt_is_Some_2 ds (Z.to_nat i)) as [d Hd]; [lia|]. rewrite Hd. cbn.
  apply digit_char_lookup. by apply (Forall_lookup_1 _ _ _ _ D Hd).
Qed.

Lemma char_at_reverse ds i : 0 <= i < Z.of_nat (length ds) ->
  char_at ds (Z.of_nat (length ds) - 1 - i) = char_at (reverse ds) i.
Proof.
  intros Hi. unfold char_at. rewrite reverse_lookup by lia. do 3 f_equal. lia.
Qed.

(** Reversing a NUL-terminated copy of [ds] leaves the copy of [reverse ds]. *)
Lemma reversed_numeral m m1 m' buf ds : Z.of_nat (length ds) < H32 ->
  Forall (fun d => 0 <= d < 36) ds ->
  mem_copied m m1 buf (numeral_bytes ds) (Z.of_nat (length ds) + 1) ->
  reversed m1 buf (Z.of_nat (length ds)) m' ->
  mem_copied m m' buf (numeral_bytes (reverse ds)) (Z.of_nat (length ds) + 1).
Proof.
  intros Hl D H R a. rewrite R. cbn zeta. set (o := u32 (a - buf)).
  pose proof (u32_range (a - buf)). destruct (o <? Z.of_nat (length ds)) eqn:E; b2p.
  - rewrite (proj2 (Z.ltb_lt _ _)) by lia.
    rewrite (mem_copied_in _ _ _ _ _ _ H ltac:(lia) (Z.of_nat (length ds) - 1 - o)) by (lia || done).
    unfold numeral_bytes. rewrite length_reverse, !(proj2 (Z.ltb_lt _ _)) by lia.
    by rewrite char_at_reverse by lia.
  - rewrite H. fold o. destruct (o <? Z.of_nat (length ds) + 1) eqn:E2; b2p; [|done].
    unfold numeral_bytes. by rewrite length_reverse, !(proj2 (Z.ltb_ge _ _)) by lia.
Qed.

Lemma itoa_numeral m value buf radix : 0 <= value < W32 -> 2 <= radix <= 36 ->
  exists m' ds, itoa m value buf radix = Some m' /\ numeral radix value ds /\ (length ds <= 32)%nat /\
    mem_copied m m' buf (numeral_bytes ds) (Z.of_nat (length ds) + 1).
Proof.
  intros Hv Hr. unfold itoa. case_if.
  - subst. eexists _, [0]. split; [reflexivity|]. split; [|split; [cbn; lia|]].
    { split; [apply Forall_singleton; lia|]. split; [cbn; lia|]. by split. }
    cbn [length]. change (Z.of_nat 1 + 1) with (0 + 1 + 1).
    apply mem_copied_wr; [lia|f_equal; lia|done|]. apply mem_copied_wr; [lia|f_equal; lia|done|].
    apply mem_copied_0.
  - rewrite (u32_small radix) by lia. rewrite (proj2 (Z.eqb_neq radix 0)) by lia.
    destruct (itoa_loop m value buf radix ltac:(lia) Hr) as (m1 & ds & C & L & ->).
    destruct C as (F & _ & _ & D & E & Hlast).
    assert (Forall (fun d => 0 <= d < 36) ds) as D36 by (eapply List.Forall_impl; [|exact D]; intros; cbn in *; lia).
    assert (mem_copied m (wr m1 (buf + Z.of_nat (length ds)) 0) buf (numeral_bytes ds)
      (Z.of_nat (length ds) + 1)) as F'.
    { apply mem_copied_wr; [lia|done|unfold numeral_bytes; by rewrite Z.ltb_irrefl|].
      apply (mem_copied_ext _ _ _ (char_at ds)); [|done]. intros i Hi.
      unfold numeral_bytes. by rewrite (proj2 (Z.ltb_lt _ _)) by lia. }
    destruct (strrev_reversed (wr m1 (buf + Z.of_nat (length ds)) 0) buf (Z.of_nat (length ds)))
      as (m' & -> & R); [|lia|].
    { split; [lia|]. split.
      - intros i Hi. unfold at_. rewrite (mem_copied_in _ _ _ _ _ _ F' ltac:(lia) i) by (lia || done).
        unfold numeral_bytes. rewrite (proj2 (Z.ltb_lt _ _)) by lia.
        pose proof (char_at_pos ds i D36 Hi). rewrite u8_small; lia.
      - unfold at_. rewrite (mem_copied_in _ _ _ _ _ _ F' ltac:(lia) (Z.of_nat (length ds))) by (lia || done).
        unfold numeral_bytes. by rewrite Z.ltb_irrefl. }
    exists m', (reverse ds). rewrite length_reverse. split; [done|]. split; [|split; [done|]].
    + destruct Hlast as (ds' & d & -> & Hd); [done|]. unfold numeral.
      rewrite reverse_involutive. split; [by apply Forall_reverse|]. split; [lia|].
      rewrite reverse_snoc. split; [done|]. cbn. congruence.
    + eapply reversed_numeral; [lia|done|exact F'|exact R].
Qed.

(** ** Properties *)

(** [C36] The aligned, three-phase assembly of memcpy is a plain byte-by-byte copy:
    for ranges that a forward copy may overlap, it ends in the memory of the
    reference [blit], for every alignment and length. *)
Theorem memcpy_matches_reference m dest src n :
  0 <= n < W32 -> copy_safe dest src n ->
  exists m', memcpy m dest src n = Some m' /\ m' =m= blit m dest (at_ m src) (Z.to_nat n).
Proof.
  intros Hn Hs. destruct (memcpy_copied m dest src n Hn Hs) as (m' & E & C).
  exists m'. split; [done|]. apply mem_copied_blit; [lia|done].
Qed.

(** memset fills exactly [n] bytes with the low byte of [c], whatever the
    alignment of [s]. *)
Theorem memset_matches_reference m s c n : 0 <= n < W32 ->
  exists m', memset m s c n = Some m' /\ m' =m= blit m s (fun _ => u8 c) (Z.to_nat n).
Proof.
  intros Hn. destruct (memset_copied m s c n Hn) as (m' & E & C).
  exists m'. split; [done|]. apply mem_copied_blit; [lia|done].
Qed.

(** memmove copies correctly for every overlap of its two ranges: the target
    holds the bytes the source held before the call. *)
Theorem memmove_handles_overlap m dest src n :
  0 <= n < W32 -> 0 <= src -> src + n <= W32 -> 0 <= dest -> dest + n <= W32 ->
  exists m', memmove m dest src n = Some m' /\
    (forall i, 0 <= i < n -> rd m' (dest + i) = rd m (src + i)) /\
    (forall a, n <= u32 (a - dest) -> rd m' a = rd m a).
Proof.
  intros Hn Hs Hsn Hd Hdn. destruct (memmove_copied m dest src n) as (m' & E & C); try lia.
  exists m'. split; [done|]. split; [|intros a; by apply (mem_copied_out _ _ _ _ _ _ C)].
  intros i Hi. rewrite (mem_copied_in _ _ _ _ _ _ C ltac:(lia) i Hi eq_refl). apply u8_small, rd_range.
Qed.

(** strncmp ends, and returns 0 exactly for strings that agree on their first [n]
    characters up to a common NUL. *)
Theorem strncmp_decides_equality s1 s2 n : is_bytes s1 -> is_bytes s2 -> 0 <= n < W32 ->
  exists r, strncmp s1 s2 n = Some r /\
    (r = 0 <-> forall i, 0 <= i < n -> (forall j, 0 <= j < i -> s1 j <> 0) -> s1 i = s2 i).
Proof.
  intros B1 B2 Hn. destruct (strncmp_spec s1 s2 n B1 B2 Hn) as (r & E & _). exists r. split; [done|].
  by apply strncmp_zero.
Qed.

(** [C37] itoa writes the numeral of [value] in [radix], without leading zeros and
    NUL-terminated, and reading the digits back gives the value again. *)
Theorem itoa_writes_numeral m value buf radix : 0 <= value < W32 -> 2 <= radix <= 36 ->
  exists m' ds, itoa m value buf radix = Some m' /\
    Forall (fun d => 0 <= d < radix) ds /\ digit_value radix (reverse ds) = value /\
    (head ds = Some 0 -> ds = [0]) /\ (0 < length ds <= 32)%nat /\
    (forall i d, ds !! i = Some d -> rd m' (buf + Z.of_nat i) = digit_char d) /\
    rd m' (buf + Z.of_nat (length ds)) = 0 /\ differs_within m m' buf 33.
Proof.
  intros Hv Hr. destruct (itoa_numeral m value buf radix Hv Hr) as (m' & ds & E & (D & V & N & Z0) & L & C).
  exists m', ds. split_and!; try done.
  - destruct ds; [done|cbn; lia].
  - intros i d Hd. pose proof (lookup_lt_Some _ _ _ Hd).
    rewrite (mem_copied_in _ _ _ _ _ _ C ltac:(lia) (Z.of_nat i) ltac:(lia) eq_refl).
    unfold numeral_bytes, char_at. rewrite (proj2 (Z.ltb_lt _ _)), Nat2Z.id, Hd by lia.
    pose proof (Forall_lookup_1 _ _ _ _ D Hd). destruct (digit_char_lookup d) as [_ ?]; [cbn in *; lia|].
    by apply u8_small; cbn; lia.
  - rewrite (mem_copied_in _ _ _ _ _ _ C ltac:(lia) (Z.of_nat (length ds)) ltac:(lia) eq_refl).
    unfold numeral_bytes. by rewrite Z.ltb_irrefl.
  - apply mem_copied_within in C. intros a Ha. apply C. lia.
Qed.

Lemma memcpy_matches_reference_witness : exists m',
  memcpy (wr (wr ∅ 1 65) 2 66) 101 1 7 = Some m' /\ m' =m= blit (wr (wr ∅ 1 65) 2 66) 101 (at_ (wr (wr ∅ 1 65) 2 66) 1) 7.
Proof. apply (memcpy_matches_reference (wr (wr ∅ 1 65) 2 66) 101 1 7); [lia|]. right. vm_compute. discriminate. Defined.

Lemma memset_matches_reference_witness : exists m', memset ∅ 3 0x141 6 = Some m' /\ m' =m= blit ∅ 3 (fun _ => u8 0x141) 6.
Proof. apply (memset_matches_reference ∅ 3 0x141 6). lia. Defined.

Lemma memmove_handles_overlap_witness : exists m', memmove (wr (wr ∅ 1 65) 2 66) 2 1 2 = Some m' /\ rd m' 3 = 66.
Proof.
  destruct (memmove_handles_overlap (wr (wr ∅ 1 65) 2 66) 2 1 2) as (m' & E & H & _); try lia.
  exists m'. split; [exact E|]. change 3 with (2 + 1). rewrite (H 1 ltac:(lia)). reflexivity.
Defined.

Lemma strncmp_decides_equality_witness : exists r,
  strncmp (at_ (wr ∅ 1 65) 1) (at_ (wr ∅ 9 65) 9) 4 = Some r /\ r = 0.
Proof.
  destruct (strncmp_decides_equality (at_ (wr ∅ 1 65) 1) (at_ (wr ∅ 9 65) 9) 4) as (r & E & H);
    [apply at_bytes|apply at_bytes|lia|].
  exists r. split; [exact E|]. apply H. intros i Hi _.
  assert (i = 0 \/ i = 1 \/ i = 2 \/ i = 3) as [->|[->|[->| ->]]] by lia; reflexivity.
Defined.

Lemma itoa_writes_numeral_witness : exists m' ds,
  itoa ∅ 0xCAFE 16 16 = Some m' /\ digit_value 16 (reverse ds) = 0xCAFE.
Proof.
  destruct (itoa_writes_numeral ∅ 0xCAFE 16 16) as (m' & ds & E & _ & V & _); [lia|lia|].
  exists m', ds. split; [exact E|exact V].
Defined.
