(* ===== verification/State.v ===== *)
(** * Kernel state and the monad of kernel code

    The globals of the kernel (lib.c, pcb.c, syscalls.c, keyboard.c, rtc.c,
    i8259.c, mouse.c, paging.c) as records, one sub-record per component, and a
    state-and-error monad in which the C functions are written.

    Arrays inside a struct are lists, and an index outside of them is the
    outcome [Fault OutOfBounds]; a [pcb_t*] is the address of the block, [0] is
    NULL.  Port input is the answer of a device that has seen every port access
    so far ([k_dev], [k_io]). *)

From Stdlib Require Import ZArith Lia Ascii String.
From stdpp Require Import gmap list numbers strings.
From S2P Require Import Prelude Memory.

(** ** Constants (types.h, lib.h, pcb.h, driver.h) *)

Abbreviation VIDEO_ADDR := 753664.             (* 0xB8000 *)
Abbreviation NUM_COLS := 80.
Abbreviation NUM_ROWS := 25.
Abbreviation FOUR_MB := 4194304.
Abbreviation FOUR_KB := 4096.
Abbreviation KEY_BUF_SIZE := 129.
Abbreviation MAX_TERM_NUM := 3.
Abbreviation MAX_PROCESSES := 6.
Abbreviation HIST_COM_NUM := 10.
Abbreviation MAX_DESC := 8.
Abbreviation END_OF_KERNEL_PAGE := 8388608.    (* 0x800000 *)
Abbreviation PCB_PLUS_STACK := 8192.
Abbreviation SUCCESS := 0.
Abbreviation FAILURE := (-1).

(** ** Port input and output *)

Inductive io_event :=
  | PortOut (port data : Z)
  | PortIn (port data : Z).

(** The hardware: what a port reads, given all accesses so far (latest first). *)
Abbreviation device := (list io_event -> Z -> Z).

(** ** Structs *)

(** term_t of lib.h *)
Record term_t := mk_term {
  term_id : Z;
  curs_r : Z;
  curs_c : Z;
  scrn_c : Z;
  scrn_r : Z;
  vid_mem : Z;
  key_buf : list Z;
  key_buf_index : Z;
  new_line : bool;
  hist_buf : list (list Z);
  hist_buf_index : Z;
  cur_hist_index : Z;
  t_esp : Z;
  t_ebp : Z;
  cur_task : Z
}.

Definition set_term_id (v : Z) (t : term_t) : term_t :=
  mk_term v (curs_r t) (curs_c t) (scrn_c t) (scrn_r t) (vid_mem t) (key_buf t) (key_buf_index t) (new_line t) (hist_buf t) (hist_buf_index t) (cur_hist_index t) (t_esp t) (t_ebp t) (cur_task t).
Definition set_curs_r (v : Z) (t : term_t) : term_t :=
  mk_term (term_id t) v (curs_c t) (scrn_c t) (scrn_r t) (vid_mem t) (key_buf t) (key_buf_index t) (new_line t) (hist_buf t) (hist_buf_index t) (cur_hist_index t) (t_esp t) (t_ebp t) (cur_task t).
Definition set_curs_c (v : Z) (t : term_t) : term_t :=
  mk_term (term_id t) (curs_r t) v (scrn_c t) (scrn_r t) (vid_mem t) (key_buf t) (key_buf_index t) (new_line t) (hist_buf t) (hist_buf_index t) (cur_hist_index t) (t_esp t) (t_ebp t) (cur_task t).
Definition set_scrn_c (v : Z) (t : term_t) : term_t :=
  mk_term (term_id t) (curs_r t) (curs_c t) v (scrn_r t) (vid_mem t) (key_buf t) (key_buf_index t) (new_line t) (hist_buf t) (hist_buf_index t) (cur_hist_index t) (t_esp t) (t_ebp t) (cur_task t).
Definition set_scrn_r (v : Z) (t : term_t) : term_t :=
  mk_term (term_id t) (curs_r t) (curs_c t) (scrn_c t) v (vid_mem t) (key_buf t) (key_buf_index t) (new_line t) (hist_buf t) (hist_buf_index t) (cur_hist_index t) (t_esp t) (t_ebp t) (cur_task t).
Definition set_vid_mem (v : Z) (t : term_t) : term_t :=
  mk_term (term_id t) (curs_r t) (curs_c t) (scrn_c t) (scrn_r t) v (key_buf t) (key_buf_index t) (new_line t) (hist_buf t) (hist_buf_index t) (cur_hist_index t) (t_esp t) (t_ebp t) (cur_task t).
Definition set_key_buf (v : list Z) (t : term_t) : term_t :=
  mk_term (term_id t) (curs_r t) (curs_c t) (scrn_c t) (scrn_r t) (vid_mem t) v (key_buf_index t) (new_line t) (hist_buf t) (hist_buf_index t) (cur_hist_index t) (t_esp t) (t_ebp t) (cur_task t).
Definition set_key_buf_index (v : Z) (t : term_t) : term_t :=
  mk_term (term_id t) (curs_r t) (curs_c t) (scrn_c t) (scrn_r t) (vid_mem t) (key_buf t) v (new_line t) (hist_buf t) (hist_buf_index t) (cur_hist_index t) (t_esp t) (t_ebp t) (cur_task t).
Definition set_new_line (v : bool) (t : term_t) : term_t :=
  mk_term (term_id t) (curs_r t) (curs_c t) (scrn_c t) (scrn_r t) (vid_mem t) (key_buf t) (key_buf_index t) v (hist_buf t) (hist_buf_index t) (cur_hist_index t) (t_esp t) (t_ebp t) (cur_task t).
Definition set_hist_buf (v : list (list Z)) (t : term_t) : term_t :=
  mk_term (term_id t) (curs_r t) (curs_c t) (scrn_c t) (scrn_r t) (vid_mem t) (key_buf t) (key_buf_index t) (new_line t) v (hist_buf_index t) (cur_hist_index t) (t_esp t) (t_ebp t) (cur_task t).
Definition set_hist_buf_index (v : Z) (t : term_t) : term_t :=
  mk_term (term_id t) (curs_r t) (curs_c t) (scrn_c t) (scrn_r t) (vid_mem t) (key_buf t) (key_buf_index t) (new_line t) (hist_buf t) v (cur_hist_index t) (t_esp t) (t_ebp t) (cur_task t).
Definition set_cur_hist_index (v : Z) (t : term_t) : term_t :=
  mk_term (term_id t) (curs_r t) (curs_c t) (scrn_c t) (scrn_r t) (vid_mem t) (key_buf t) (key_buf_index t) (new_line t) (hist_buf t) (hist_buf_index t) v (t_esp t) (t_ebp t) (cur_task t).
Definition set_t_esp (v : Z) (t : term_t) : term_t :=
  mk_term (term_id t) (curs_r t) (curs_c t) (scrn_c t) (scrn_r t) (vid_mem t) (key_buf t) (key_buf_index t) (new_line t) (hist_buf t) (hist_buf_index t) (cur_hist_index t) v (t_ebp t) (cur_task t).
Definition set_t_ebp (v : Z) (t : term_t) : term_t :=
  mk_term (term_id t) (curs_r t) (curs_c t) (scrn_c t) (scrn_r t) (vid_mem t) (key_buf t) (key_buf_index t) (new_line t) (hist_buf t) (hist_buf_index t) (cur_hist_index t) (t_esp t) v (cur_task t).
Definition set_cur_task (v : Z) (t : term_t) : term_t :=
  mk_term (term_id t) (curs_r t) (curs_c t) (scrn_c t) (scrn_r t) (vid_mem t) (key_buf t) (key_buf_index t) (new_line t) (hist_buf t) (hist_buf_index t) (cur_hist_index t) (t_esp t) (t_ebp t) v.

(** status_t and the jump tables of pcb.h: a pointer to a table is the name of
    the table. *)
Inductive status_t := NOT_USED | IN_USE.
Inductive f_ops := empty_f_ops_tab | stdin | stdout | rtc_jt | dir_jt | regf_jt.

#[export] Instance status_eq_dec : EqDecision status_t.
Proof. solve_decision. Defined.
#[export] Instance f_ops_eq_dec : EqDecision f_ops.
Proof. solve_decision. Defined.

Record fdesc_t := mk_fdesc {
  file_ops : f_ops;
  inode : Z;
  file_pos : Z;
  flags : status_t
}.

Definition set_file_ops (v : f_ops) (f : fdesc_t) : fdesc_t :=
  mk_fdesc v (inode f) (file_pos f) (flags f).
Definition set_inode (v : Z) (f : fdesc_t) : fdesc_t :=
  mk_fdesc (file_ops f) v (file_pos f) (flags f).
Definition set_file_pos (v : Z) (f : fdesc_t) : fdesc_t :=
  mk_fdesc (file_ops f) (inode f) v (flags f).
Definition set_flags (v : status_t) (f : fdesc_t) : fdesc_t :=
  mk_fdesc (file_ops f) (inode f) (file_pos f) v.

Record pcb_t := mk_pcb {
  io_files : list fdesc_t;
  esp : Z;
  ebp : Z;
  esp0 : Z;
  page_addr : Z;
  parent_task : Z;
  fd_status : Z;
  term_num : Z;
  pid : Z;
  pcb_num : Z;
  arg : list Z;
  cmd_name : list Z
}.

Definition set_io_files (v : list fdesc_t) (b : pcb_t) : pcb_t :=
  mk_pcb v (esp b) (ebp b) (esp0 b) (page_addr b) (parent_task b) (fd_status b) (term_num b) (pid b) (pcb_num b) (arg b) (cmd_name b).
Definition set_esp (v : Z) (b : pcb_t) : pcb_t :=
  mk_pcb (io_files b) v (ebp b) (esp0 b) (page_addr b) (parent_task b) (fd_status b) (term_num b) (pid b) (pcb_num b) (arg b) (cmd_name b).
Definition set_ebp (v : Z) (b : pcb_t) : pcb_t :=
  mk_pcb (io_files b) (esp b) v (esp0 b) (page_addr b) (parent_task b) (fd_status b) (term_num b) (pid b) (pcb_num b) (arg b) (cmd_name b).
Definition set_esp0 (v : Z) (b : pcb_t) : pcb_t :=
  mk_pcb (io_files b) (esp b) (ebp b) v (page_addr b) (parent_task b) (fd_status b) (term_num b) (pid b) (pcb_num b) (arg b) (cmd_name b).
Definition set_page_addr (v : Z) (b : pcb_t) : pcb_t :=
  mk_pcb (io_files b) (esp b) (ebp b) (esp0 b) v (parent_task b) (fd_status b) (term_num b) (pid b) (pcb_num b) (arg b) (cmd_name b).
Definition set_parent_task (v : Z) (b : pcb_t) : pcb_t :=
  mk_pcb (io_files b) (esp b) (ebp b) (esp0 b) (page_addr b) v (fd_status b) (term_num b) (pid b) (pcb_num b) (arg b) (cmd_name b).
Definition set_fd_status (v : Z) (b : pcb_t) : pcb_t :=
  mk_pcb (io_files b) (esp b) (ebp b) (esp0 b) (page_addr b) (parent_task b) v (term_num b) (pid b) (pcb_num b) (arg b) (cmd_name b).
Definition set_term_num (v : Z) (b : pcb_t) : pcb_t :=
  mk_pcb (io_files b) (esp b) (ebp b) (esp0 b) (page_addr b) (parent_task b) (fd_status b) v (pid b) (pcb_num b) (arg b) (cmd_name b).
Definition set_pid (v : Z) (b : pcb_t) : pcb_t :=
  mk_pcb (io_files b) (esp b) (ebp b) (esp0 b) (page_addr b) (parent_task b) (fd_status b) (term_num b) v (pcb_num b) (arg b) (cmd_name b).
Definition set_pcb_num (v : Z) (b : pcb_t) : pcb_t :=
  mk_pcb (io_files b) (esp b) (ebp b) (esp0 b) (page_addr b) (parent_task b) (fd_status b) (term_num b) (pid b) v (arg b) (cmd_name b).
Definition set_arg (v : list Z) (b : pcb_t) : pcb_t :=
  mk_pcb (io_files b) (esp b) (ebp b) (esp0 b) (page_addr b) (parent_task b) (fd_status b) (term_num b) (pid b) (pcb_num b) v (cmd_name b).
Definition set_cmd_name (v : list Z) (b : pcb_t) : pcb_t :=
  mk_pcb (io_files b) (esp b) (ebp b) (esp0 b) (page_addr b) (parent_task b) (fd_status b) (term_num b) (pid b) (pcb_num b) (arg b) v.

(** ** The globals, by component *)

Record cpu_t := mk_cpu {
  iflag : bool;
  cr0 : Z;
  cr3 : Z;
  cr4 : Z;
  tss_esp0 : Z;
  reg_esp : Z;
  reg_ebp : Z;
  idtr : Z;
  ldtr : Z;
  tr : Z
}.

Definition set_iflag (v : bool) (c : cpu_t) : cpu_t :=
  mk_cpu v (cr0 c) (cr3 c) (cr4 c) (tss_esp0 c) (reg_esp c) (reg_ebp c) (idtr c) (ldtr c) (tr c).
Definition set_cr0 (v : Z) (c : cpu_t) : cpu_t :=
  mk_cpu (iflag c) v (cr3 c) (cr4 c) (tss_esp0 c) (reg_esp c) (reg_ebp c) (idtr c) (ldtr c) (tr c).
Definition set_cr3 (v : Z) (c : cpu_t) : cpu_t :=
  mk_cpu (iflag c) (cr0 c) v (cr4 c) (tss_esp0 c) (reg_esp c) (reg_ebp c) (idtr c) (ldtr c) (tr c).
Definition set_cr4 (v : Z) (c : cpu_t) : cpu_t :=
  mk_cpu (iflag c) (cr0 c) (cr3 c) v (tss_esp0 c) (reg_esp c) (reg_ebp c) (idtr c) (ldtr c) (tr c).
Definition set_tss_esp0 (v : Z) (c : cpu_t) : cpu_t :=
  mk_cpu (iflag c) (cr0 c) (cr3 c) (cr4 c) v (reg_esp c) (reg_ebp c) (idtr c) (ldtr c) (tr c).
Definition set_reg_esp (v : Z) (c : cpu_t) : cpu_t :=
  mk_cpu (iflag c) (cr0 c) (cr3 c) (cr4 c) (tss_esp0 c) v (reg_ebp c) (idtr c) (ldtr c) (tr c).
Definition set_reg_ebp (v : Z) (c : cpu_t) : cpu_t :=
  mk_cpu (iflag c) (cr0 c) (cr3 c) (cr4 c) (tss_esp0 c) (reg_esp c) v (idtr c) (ldtr c) (tr c).
Definition set_idtr (v : Z) (c : cpu_t) : cpu_t :=
  mk_cpu (iflag c) (cr0 c) (cr3 c) (cr4 c) (tss_esp0 c) (reg_esp c) (reg_ebp c) v (ldtr c) (tr c).
Definition set_ldtr (v : Z) (c : cpu_t) : cpu_t :=
  mk_cpu (iflag c) (cr0 c) (cr3 c) (cr4 c) (tss_esp0 c) (reg_esp c) (reg_ebp c) (idtr c) v (tr c).
Definition set_tr (v : Z) (c : cpu_t) : cpu_t :=
  mk_cpu (iflag c) (cr0 c) (cr3 c) (cr4 c) (tss_esp0 c) (reg_esp c) (reg_ebp c) (idtr c) (ldtr c) v.

Record disp_t := mk_disp {
  terminals : list term_t;
  vis_term_id : Z;
  sched_term_id : Z;
  fg_color : Z;
  bg_color : Z;
  color : Z
}.

Definition set_terminals (v : list term_t) (d : disp_t) : disp_t :=
  mk_disp v (vis_term_id d) (sched_term_id d) (fg_color d) (bg_color d) (color d).
Definition set_vis_term_id (v : Z) (d : disp_t) : disp_t :=
  mk_disp (terminals d) v (sched_term_id d) (fg_color d) (bg_color d) (color d).
Definition set_sched_term_id (v : Z) (d : disp_t) : disp_t :=
  mk_disp (terminals d) (vis_term_id d) v (fg_color d) (bg_color d) (color d).
Definition set_fg_color (v : Z) (d : disp_t) : disp_t :=
  mk_disp (terminals d) (vis_term_id d) (sched_term_id d) v (bg_color d) (color d).
Definition set_bg_color (v : Z) (d : disp_t) : disp_t :=
  mk_disp (terminals d) (vis_term_id d) (sched_term_id d) (fg_color d) v (color d).
Definition set_color (v : Z) (d : disp_t) : disp_t :=
  mk_disp (terminals d) (vis_term_id d) (sched_term_id d) (fg_color d) (bg_color d) v.

Record proc_t := mk_proc {
  pcbs : gmap Z pcb_t;
  cur_pcb : Z;
  pcb_status : Z;
  numproc : Z;
  except_raised : bool;
  starting_new_shell : bool
}.

Definition set_pcbs (v : gmap Z pcb_t) (p : proc_t) : proc_t :=
  mk_proc v (cur_pcb p) (pcb_status p) (numproc p) (except_raised p) (starting_new_shell p).
Definition set_cur_pcb (v : Z) (p : proc_t) : proc_t :=
  mk_proc (pcbs p) v (pcb_status p) (numproc p) (except_raised p) (starting_new_shell p).
Definition set_pcb_status (v : Z) (p : proc_t) : proc_t :=
  mk_proc (pcbs p) (cur_pcb p) v (numproc p) (except_raised p) (starting_new_shell p).
Definition set_numproc (v : Z) (p : proc_t) : proc_t :=
  mk_proc (pcbs p) (cur_pcb p) (pcb_status p) v (except_raised p) (starting_new_shell p).
Definition set_except_raised (v : bool) (p : proc_t) : proc_t :=
  mk_proc (pcbs p) (cur_pcb p) (pcb_status p) (numproc p) v (starting_new_shell p).
Definition set_starting_new_shell (v : bool) (p : proc_t) : proc_t :=
  mk_proc (pcbs p) (cur_pcb p) (pcb_status p) (numproc p) (except_raised p) v.

Record pic_t := mk_pic {
  master_mask : Z;
  slave_mask : Z
}.

Definition set_master_mask (v : Z) (p : pic_t) : pic_t :=
  mk_pic v (slave_mask p).
Definition set_slave_mask (v : Z) (p : pic_t) : pic_t :=
  mk_pic (master_mask p) v.

Record rtc_t := mk_rtc {
  rtc_freq : Z;
  intr_occured : bool
}.

Definition set_rtc_freq (v : Z) (r : rtc_t) : rtc_t :=
  mk_rtc v (intr_occured r).
Definition set_intr_occured (v : bool) (r : rtc_t) : rtc_t :=
  mk_rtc (rtc_freq r) v.

Record kbd_t := mk_kbd {
  ctrl : bool;
  alt : bool;
  caps_lock : bool;
  l_shift : bool;
  r_shift : bool;
  rtc_loop : bool
}.

Definition set_ctrl (v : bool) (b : kbd_t) : kbd_t :=
  mk_kbd v (alt b) (caps_lock b) (l_shift b) (r_shift b) (rtc_loop b).
Definition set_alt (v : bool) (b : kbd_t) : kbd_t :=
  mk_kbd (ctrl b) v (caps_lock b) (l_shift b) (r_shift b) (rtc_loop b).
Definition set_caps_lock (v : bool) (b : kbd_t) : kbd_t :=
  mk_kbd (ctrl b) (alt b) v (l_shift b) (r_shift b) (rtc_loop b).
Definition set_l_shift (v : bool) (b : kbd_t) : kbd_t :=
  mk_kbd (ctrl b) (alt b) (caps_lock b) v (r_shift b) (rtc_loop b).
Definition set_r_shift (v : bool) (b : kbd_t) : kbd_t :=
  mk_kbd (ctrl b) (alt b) (caps_lock b) (l_shift b) v (rtc_loop b).
Definition set_rtc_loop (v : bool) (b : kbd_t) : kbd_t :=
  mk_kbd (ctrl b) (alt b) (caps_lock b) (l_shift b) (r_shift b) v.

Record mouse_t := mk_mouse {
  cycle : Z;
  mouse_bytes : list Z;
  x_neg : bool;
  y_neg : bool;
  mouse_x_pos : Z;
  mouse_y_pos : Z;
  old_char : Z
}.

Definition set_cycle (v : Z) (o : mouse_t) : mouse_t :=
  mk_mouse v (mouse_bytes o) (x_neg o) (y_neg o) (mouse_x_pos o) (mouse_y_pos o) (old_char o).
Definition set_mouse_bytes (v : list Z) (o : mouse_t) : mouse_t :=
  mk_mouse (cycle o) v (x_neg o) (y_neg o) (mouse_x_pos o) (mouse_y_pos o) (old_char o).
Definition set_x_neg (v : bool) (o : mouse_t) : mouse_t :=
  mk_mouse (cycle o) (mouse_bytes o) v (y_neg o) (mouse_x_pos o) (mouse_y_pos o) (old_char o).
Definition set_y_neg (v : bool) (o : mouse_t) : mouse_t :=
  mk_mouse (cycle o) (mouse_bytes o) (x_neg o) v (mouse_x_pos o) (mouse_y_pos o) (old_char o).
Definition set_mouse_x_pos (v : Z) (o : mouse_t) : mouse_t :=
  mk_mouse (cycle o) (mouse_bytes o) (x_neg o) (y_neg o) v (mouse_y_pos o) (old_char o).
Definition set_mouse_y_pos (v : Z) (o : mouse_t) : mouse_t :=
  mk_mouse (cycle o) (mouse_bytes o) (x_neg o) (y_neg o) (mouse_x_pos o) v (old_char o).
Definition set_old_char (v : Z) (o : mouse_t) : mouse_t :=
  mk_mouse (cycle o) (mouse_bytes o) (x_neg o) (y_neg o) (mouse_x_pos o) (mouse_y_pos o) v.

Record kernel := mk_kernel {
  k_mem : memory;
  k_io : list io_event;
  k_dev : device;
  k_cpu : cpu_t;
  k_disp : disp_t;
  k_proc : proc_t;
  k_pic : pic_t;
  k_rtc : rtc_t;
  k_kbd : kbd_t;
  k_mouse : mouse_t;
  fs_addr : Z
}.

Definition set_k_mem (v : memory) (k : kernel) : kernel :=
  mk_kernel v (k_io k) (k_dev k) (k_cpu k) (k_disp k) (k_proc k) (k_pic k) (k_rtc k) (k_kbd k) (k_mouse k) (fs_addr k).
Definition set_k_io (v : list io_event) (k : kernel) : kernel :=
  mk_kernel (k_mem k) v (k_dev k) (k_cpu k) (k_disp k) (k_proc k) (k_pic k) (k_rtc k) (k_kbd k) (k_mouse k) (fs_addr k).
Definition set_k_dev (v : device) (k : kernel) : kernel :=
  mk_kernel (k_mem k) (k_io k) v (k_cpu k) (k_disp k) (k_proc k) (k_pic k) (k_rtc k) (k_kbd k) (k_mouse k) (fs_addr k).
Definition set_k_cpu (v : cpu_t) (k : kernel) : kernel :=
  mk_kernel (k_mem k) (k_io k) (k_dev k) v (k_disp k) (k_proc k) (k_pic k) (k_rtc k) (k_kbd k) (k_mouse k) (fs_addr k).
Definition set_k_disp (v : disp_t) (k : kernel) : kernel :=
  mk_kernel (k_mem k) (k_io k) (k_dev k) (k_cpu k) v (k_proc k) (k_pic k) (k_rtc k) (k_kbd k) (k_mouse k) (fs_addr k).
Definition set_k_proc (v : proc_t) (k : kernel) : kernel :=
  mk_kernel (k_mem k) (k_io k) (k_dev k) (k_cpu k) (k_disp k) v (k_pic k) (k_rtc k) (k_kbd k) (k_mouse k) (fs_addr k).
Definition set_k_pic (v : pic_t) (k : kernel) : kernel :=
  mk_kernel (k_mem k) (k_io k) (k_dev k) (k_cpu k) (k_disp k) (k_proc k) v (k_rtc k) (k_kbd k) (k_mouse k) (fs_addr k).
Definition set_k_rtc (v : rtc_t) (k : kernel) : kernel :=
  mk_kernel (k_mem k) (k_io k) (k_dev k) (k_cpu k) (k_disp k) (k_proc k) (k_pic k) v (k_kbd k) (k_mouse k) (fs_addr k).
Definition set_k_kbd (v : kbd_t) (k : kernel) : kernel :=
  mk_kernel (k_mem k) (k_io k) (k_dev k) (k_cpu k) (k_disp k) (k_proc k) (k_pic k) (k_rtc k) v (k_mouse k) (fs_addr k).
Definition set_k_mouse (v : mouse_t) (k : kernel) : kernel :=
  mk_kernel (k_mem k) (k_io k) (k_dev k) (k_cpu k) (k_disp k) (k_proc k) (k_pic k) (k_rtc k) (k_kbd k) v (fs_addr k).
Definition set_fs_addr (v : Z) (k : kernel) : kernel :=
  mk_kernel (k_mem k) (k_io k) (k_dev k) (k_cpu k) (k_disp k) (k_proc k) (k_pic k) (k_rtc k) (k_kbd k) (k_mouse k) v.

(** ** Outcomes and the monad *)

Inductive fault := OutOfBounds | NullDeref | Uninitialised | Diverges | PageFault.

(** [Spin]: the code is in a busy-wait loop that only an interrupt can end. *)
Inductive outcome (A : Type) :=
  | Ret (a : A) (k : kernel)
  | Spin (k : kernel)
  | Fault (f : fault).
Arguments Ret {A} _ _.
Arguments Spin {A} _.
Arguments Fault {A} _.

Definition M (A : Type) : Type := kernel -> outcome A.

#[export] Instance M_ret : MRet M := fun A a k => Ret a k.
#[export] Instance M_bind : MBind M := fun A B f c k =>
  match c k with
  | Ret a k' => f a k'
  | Spin k' => Spin k'
  | Fault e => Fault e
  end.

Lemma bind_ret {A B} (c : M A) (f : A -> M B) k a k' : c k = Ret a k' -> (c ≫= f) k = f a k'.
Proof. intros E. unfold mbind, M_bind. by rewrite E. Qed.

Definition fault_ {A} (e : fault) : M A := fun _ => Fault e.
Definition gets {A} (f : kernel -> A) : M A := fun k => Ret (f k) k.
Definition modify (f : kernel -> kernel) : M unit := fun k => Ret tt (f k).
Definition lift {A} (e : fault) (o : option A) : M A :=
  match o with Some a => mret a | None => fault_ e end.
Definition skip : M unit := mret tt.

(** Iterating a body that changes the kernel, as [run_loop]: [inl] goes on,
    [inr] leaves. *)
Definition loopM {S R : Type} (body : S -> M (S + R)) (s : S) : M R := fun k =>
  match run_loop (fun '(s, k) =>
    match body s k with
    | Ret (inl s') k' => inl (s', k')
    | Ret (inr r) k' => inr (Ret r k')
    | Spin k' => inr (Spin k')
    | Fault e => inr (Fault e)
    end) (s, k) with
  | Some r => r
  | None => Fault Diverges
  end.

(** for (i = 0; i < n; i++) body *)
Fixpoint for_ (n : nat) (body : Z -> M unit) : M unit :=
  match n with
  | O => skip
  | S n' => for_ n' body ;; body (Z.of_nat n')
  end.

(** *** Accessors *)

Definition upd_mem (f : memory -> memory) : M unit := modify (fun k => set_k_mem (f (k_mem k)) k).
Definition upd_disp (f : disp_t -> disp_t) : M unit := modify (fun k => set_k_disp (f (k_disp k)) k).
Definition upd_proc (f : proc_t -> proc_t) : M unit := modify (fun k => set_k_proc (f (k_proc k)) k).
Definition upd_cpu (f : cpu_t -> cpu_t) : M unit := modify (fun k => set_k_cpu (f (k_cpu k)) k).
Definition upd_kbd (f : kbd_t -> kbd_t) : M unit := modify (fun k => set_k_kbd (f (k_kbd k)) k).

Definition upd_rtc (f : rtc_t -> rtc_t) : M unit := modify (fun k => set_k_rtc (f (k_rtc k)) k).

(** InterruptWrap: the gates of the device interrupts are interrupt gates, which
    clear IF; iret restores it. *)
Definition interrupt (handler : M unit) : M unit :=
  fl ← gets (fun k => iflag (k_cpu k));
  upd_cpu (set_iflag false) ;;
  handler ;;
  upd_cpu (set_iflag fl).

(** "while(cond);" with [irqs] the handlers of the interrupts that arrive while
    the code waits, in order.  When none is left, or interrupts are off, it waits
    forever. *)
Fixpoint wait_while (cond : kernel -> bool) (irqs : list (M unit)) : M unit := fun k =>
  if cond k then
    match irqs with
    | handler :: irqs' => if iflag (k_cpu k) then (interrupt handler ;; wait_while cond irqs') k else Spin k
    | [] => Spin k
    end
  else Ret tt k.

(** A memory routine of lib.c applied to the machine's memory. *)
Definition mem_op (f : memory -> option memory) : M unit :=
  m ← gets k_mem; m' ← lift Diverges (f m); upd_mem (fun _ => m').

(** cli() and sti(); outb and inb of lib.h. *)
Definition cli : M unit := upd_cpu (set_iflag false).
Definition sti : M unit := upd_cpu (set_iflag true).
Definition outb (data port : Z) : M unit :=
  modify (fun k => set_k_io (PortOut port (u8 data) :: k_io k) k).
Definition inb (port : Z) : M Z := fun k =>
  let v := u8 (k_dev k (k_io k) port) in
  Ret v (set_k_io (PortIn port v :: k_io k) k).

(** terminals[i] *)
Definition get_term (i : Z) : M term_t :=
  k ← gets k_disp;
  if (0 <=? i) && (i <? Z.of_nat (length (terminals k)))
  then lift OutOfBounds (terminals k !! Z.to_nat i) else fault_ OutOfBounds.
Definition upd_term (i : Z) (f : term_t -> term_t) : M unit :=
  t ← get_term i;
  upd_disp (fun d => set_terminals (<[Z.to_nat i := f t]> (terminals d)) d).

(** Dereferencing a pcb_t*; NULL faults. *)
Definition get_pcb (p : Z) : M pcb_t :=
  if p =? 0 then fault_ NullDeref else
  k ← gets k_proc; lift NullDeref (pcbs k !! p).
Definition upd_pcb (p : Z) (f : pcb_t -> pcb_t) : M unit :=
  b ← get_pcb p; upd_proc (fun d => set_pcbs (<[p := f b]> (pcbs d)) d).

(** io_files[i] *)
Definition get_fd (p i : Z) : M fdesc_t :=
  b ← get_pcb p;
  if (0 <=? i) && (i <? MAX_DESC) then lift OutOfBounds (io_files b !! Z.to_nat i)
  else fault_ OutOfBounds.
Definition upd_fd (p i : Z) (f : fdesc_t -> fdesc_t) : M unit :=
  d ← get_fd p i;
  upd_pcb p (fun b => set_io_files (<[Z.to_nat i := f d]> (io_files b)) b).

(** Writing bytes into an array of a struct: all of them have to fit. *)
Definition arr_write (l : list Z) (i : Z) (bs : list Z) : option (list Z) :=
  if (0 <=? i) && (i + Z.of_nat (length bs) <=? Z.of_nat (length l))
  then Some (take (Z.to_nat i) l ++ map u8 bs ++ drop (Z.to_nat i + length bs) l)
  else None.

(** The bytes of an array as a reader; past the end it reads 0 (callers check
    the bound). *)
Definition arr_at (l : list Z) : Z -> Z := fun i => default 0 (l !! Z.to_nat i).

(** strlen of an array of a struct: [None] when no NUL is inside the array. *)
Fixpoint arr_strlen (l : list Z) : option Z :=
  match l with
  | [] => None
  | b :: l' => if b =? 0 then Some 0 else n ← arr_strlen l'; Some (n + 1)
  end.

(** ** Total correctness

    [wp c Q k]: running [c] from [k] returns, in a state that satisfies [Q];
    it neither faults nor waits. *)

Definition wp {A} (c : M A) (Q : A -> kernel -> Prop) (k : kernel) : Prop :=
  match c k with Ret a k' => Q a k' | _ => False end.

Lemma wp_bind {A B} (c : M A) (f : A -> M B) Q k :
  wp c (fun a k' => wp (f a) Q k') k -> wp (c ≫= f) Q k.
Proof. unfold wp, mbind, M_bind. by destruct (c k). Qed.

Lemma wp_mono {A} (c : M A) (Q Q' : A -> kernel -> Prop) k :
  (forall a k', Q a k' -> Q' a k') -> wp c Q k -> wp c Q' k.
Proof. unfold wp. destruct (c k); auto. Qed.

Lemma wp_and {A} (c : M A) Q R k : wp c Q k -> wp c R k -> wp c (fun a k' => Q a k' /\ R a k') k.
Proof. unfold wp. by destruct (c k). Qed.

Lemma wp_ret_iff {A} (c : M A) Q k :
  wp c Q k <-> exists a k', c k = Ret a k' /\ Q a k'.
Proof.
  unfold wp. destruct (c k) as [a k'| |]; split; try done.
  - eauto.
  - intros (? & ? & [= -> ->] & ?). done.
  - by intros (? & ? & ? & ?).
  - by intros (? & ? & ? & ?).
Qed.

Lemma wp_mret {A} (a : A) (Q : A -> kernel -> Prop) k : Q a k -> wp (mret a) Q k.
Proof. done. Qed.
Lemma wp_gets {A} (f : kernel -> A) (Q : A -> kernel -> Prop) k : Q (f k) k -> wp (gets f) Q k.
Proof. done. Qed.
Lemma wp_modify f (Q : unit -> kernel -> Prop) k : Q tt (f k) -> wp (modify f) Q k.
Proof. done. Qed.
Lemma wp_lift {A} e (o : option A) a (Q : A -> kernel -> Prop) k :
  o = Some a -> Q a k -> wp (lift e o) Q k.
Proof. by intros ->. Qed.

Lemma wp_mem_op f m' (Q : unit -> kernel -> Prop) k :
  f (k_mem k) = Some m' -> Q tt (set_k_mem m' k) -> wp (mem_op f) Q k.
Proof. unfold mem_op, wp, mbind, M_bind, gets, lift. cbn. by intros ->. Qed.

Lemma wp_get_term i t (Q : term_t -> kernel -> Prop) k :
  0 <= i -> terminals (k_disp k) !! Z.to_nat i = Some t -> Q t k -> wp (get_term i) Q k.
Proof.
  intros Hi Ht HQ. unfold get_term, wp, mbind, M_bind, gets, lift.
  pose proof (lookup_lt_Some _ _ _ Ht).
  rewrite (proj2 (Z.leb_le _ _)), (proj2 (Z.ltb_lt _ _)) by lia. cbn. by rewrite Ht.
Qed.

Lemma wp_upd_term i f t (Q : unit -> kernel -> Prop) k :
  0 <= i -> terminals (k_disp k) !! Z.to_nat i = Some t ->
  Q tt (set_k_disp (set_terminals (<[Z.to_nat i := f t]> (terminals (k_disp k))) (k_disp k)) k) ->
  wp (upd_term i f) Q k.
Proof. intros Hi Ht HQ. apply wp_bind, (wp_get_term _ t); done. Qed.

Lemma wp_get_pcb p b (Q : pcb_t -> kernel -> Prop) k :
  p <> 0 -> pcbs (k_proc k) !! p = Some b -> Q b k -> wp (get_pcb p) Q k.
Proof.
  intros Hp Hb HQ. unfold get_pcb. rewrite (proj2 (Z.eqb_neq _ _)) by done.
  unfold wp, mbind, M_bind, gets, lift. cbn. by rewrite Hb.
Qed.

(** The state after a store into the block at [p]. *)
Definition with_pcb (p : Z) (b : pcb_t) (k : kernel) : kernel :=
  set_k_proc (set_pcbs (<[p := b]> (pcbs (k_proc k))) (k_proc k)) k.

Lemma wp_upd_pcb p f b (Q : unit -> kernel -> Prop) k :
  p <> 0 -> pcbs (k_proc k) !! p = Some b -> Q tt (with_pcb p (f b) k) -> wp (upd_pcb p f) Q k.
Proof. intros Hp Hb HQ. apply wp_bind, (wp_get_pcb _ b); done. Qed.

Lemma wp_get_fd p i b d (Q : fdesc_t -> kernel -> Prop) k :
  p <> 0 -> pcbs (k_proc k) !! p = Some b -> 0 <= i < MAX_DESC -> io_files b !! Z.to_nat i = Some d ->
  Q d k -> wp (get_fd p i) Q k.
Proof.
  intros Hp Hb Hi Hd HQ. apply wp_bind, (wp_get_pcb _ b); [done..|].
  rewrite (proj2 (Z.leb_le _ _)), (proj2 (Z.ltb_lt _ _)) by lia. by apply (wp_lift _ _ d).
Qed.

Lemma wp_upd_fd p i f b d (Q : unit -> kernel -> Prop) k :
  p <> 0 -> pcbs (k_proc k) !! p = Some b -> 0 <= i < MAX_DESC -> io_files b !! Z.to_nat i = Some d ->
  Q tt (with_pcb p (set_io_files (<[Z.to_nat i := f d]> (io_files b)) b) k) -> wp (upd_fd p i f) Q k.
Proof.
  intros Hp Hb Hi Hd HQ. apply wp_bind, (wp_get_fd _ _ b d); [done..|]. by apply (wp_upd_pcb _ _ b).
Qed.

Lemma with_pcb_lookup p b k : pcbs (k_proc (with_pcb p b k)) !! p = Some b.
Proof. apply lookup_insert_eq. Qed.
Lemma with_pcb_ne p q b k : p <> q -> pcbs (k_proc (with_pcb p b k)) !! q = pcbs (k_proc k) !! q.
Proof. intros. by apply lookup_insert_ne. Qed.
Lemma with_pcb_twice p b b' k : with_pcb p b (with_pcb p b' k) = with_pcb p b k.
Proof. unfold with_pcb. cbn. by rewrite insert_insert_eq. Qed.

Lemma with_pcb_id p b k : pcbs (k_proc k) !! p = Some b -> with_pcb p b k = k.
Proof. intros H. unfold with_pcb. rewrite insert_id by done. by destruct k as [????? []]. Qed.

(** The arrays of a block have their sizes. *)
Definition pcb_ok (b : pcb_t) : Prop :=
  length (io_files b) = 8%nat /\ length (arg b) = 129%nat /\ length (cmd_name b) = 33%nat.

(** One interrupt of a wait, and its end. *)
Lemma wp_wait_step cond h irqs (Q : unit -> kernel -> Prop) k : cond k = true -> iflag (k_cpu k) = true ->
  wp (interrupt h ;; wait_while cond irqs) Q k -> wp (wait_while cond (h :: irqs)) Q k.
Proof. intros C F W. unfold wp. cbn [wait_while]. by rewrite C, F. Qed.
Lemma wp_wait_done cond irqs (Q : unit -> kernel -> Prop) k : cond k = false -> Q tt k -> wp (wait_while cond irqs) Q k.
Proof. intros C HQ. unfold wp. destruct irqs; cbn [wait_while]; by rewrite C. Qed.

(** Waiting: handlers that keep the invariant [I] do not end the wait; one that
    ends it lets the code go on. *)
Lemma wait_while_through cond (I : kernel -> Prop) (irqs1 irqs2 : list (M unit)) handler
    (Q : unit -> kernel -> Prop) k :
  (forall k, I k -> cond k = true /\ iflag (k_cpu k) = true) ->
  Forall (fun h => forall k, I k -> wp (interrupt h) (fun _ => I) k) irqs1 ->
  (forall k, I k -> wp (interrupt handler) (fun _ k' => cond k' = false /\ Q tt k') k) ->
  I k -> wp (wait_while cond (irqs1 ++ handler :: irqs2)) Q k.
Proof.
  intros HI H1 H2. revert k. induction H1 as [|h irqs Hh _ IH]; intros k Hk; destruct (HI k Hk) as [C F];
    cbn [app]; apply wp_wait_step; try done; apply wp_bind.
  - eapply wp_mono; [|by apply H2]. intros [] k' [C' HQ]. by apply wp_wait_done.
  - eapply wp_mono; [|by apply Hh]. intros [] k'. apply IH.
Qed.

Lemma wait_while_spins cond (I : kernel -> Prop) (irqs : list (M unit)) k :
  (forall k, I k -> cond k = true /\ iflag (k_cpu k) = true) ->
  Forall (fun h => forall k, I k -> wp (interrupt h) (fun _ => I) k) irqs ->
  I k -> exists k', wait_while cond irqs k = Spin k'.
Proof.
  intros HI H1. revert k. induction H1 as [|h irqs Hh _ IH]; intros k Hk; destruct (HI k Hk) as [C F];
    cbn [wait_while]; rewrite C; [eauto|rewrite F]. unfold mbind at 1, M_bind at 1.
  specialize (Hh k Hk). unfold wp in Hh. destruct (interrupt h k) as [[] k'| |]; [|done|done]. by apply IH.
Qed.

(** A counted loop keeps an indexed invariant. *)
Lemma wp_for n body (I : Z -> kernel -> Prop) k :
  (forall i k, 0 <= i < Z.of_nat n -> I i k -> wp (body i) (fun _ k' => I (i + 1) k') k) ->
  I 0 k -> wp (for_ n body) (fun _ k' => I (Z.of_nat n) k') k.
Proof.
  intros Hb H0. induction n as [|n IH]; [done|]. cbn [for_].
  apply wp_bind. eapply wp_mono; [|apply IH].
  - intros ? k' HI. cbn beta in *. eapply wp_mono; [|apply Hb; [lia|exact HI]].
    intros ? k'' H. by rewrite Nat2Z.inj_succ, <- Z.add_1_r.
  - intros i k' Hi. apply Hb. lia.
Qed.

(** Total correctness of [loopM], from that of [run_loop]. *)
Lemma wp_loopM {S R} (body : S -> M (S + R)) (I : S -> kernel -> Prop)
    (Q : R -> kernel -> Prop) (var : S -> Z) s k :
  (forall s k, I s k -> wp (body s) (fun r k' =>
     match r with inl s' => I s' k' /\ 0 <= var s' < var s | inr r => Q r k' end) k) ->
  I s k -> var s < W32 -> wp (loopM body s) Q k.
Proof.
  intros Hstep H0 Hv. unfold loopM, wp.
  edestruct (run_loop_rule (fun '(s, k) =>
    match body s k with
    | Ret (inl s') k' => inl (s', k')
    | Ret (inr r) k' => inr (Ret r k')
    | Spin k' => inr (Spin k')
    | Fault e => inr (Fault e)
    end) (fun '(s, k) => I s k)
    (fun o => match o with Ret r k' => Q r k' | _ => False end)
    (fun '(s, _) => var s)) with (s := (s, k)) as (r & -> & Hr); try done.
  intros [s' k'] HI. specialize (Hstep s' k' HI). unfold wp in Hstep.
  destruct (body s' k') as [[s''|r] k''| |]; done.
Qed.

(** Stepping through kernel code. *)
Ltac wp_step :=
  match goal with
  | |- wp (mbind _ _) _ _ => apply wp_bind
  | |- wp (gets _) _ _ => apply wp_gets
  | |- wp (modify _) _ _ => apply wp_modify
  | |- wp (upd_disp _) _ _ => apply wp_modify
  | |- wp (upd_mem _) _ _ => apply wp_modify
  | |- wp (upd_proc _) _ _ => apply wp_modify
  | |- wp (upd_cpu _) _ _ => apply wp_modify
  | |- wp (upd_kbd _) _ _ => apply wp_modify
  | |- wp (upd_rtc _) _ _ => apply wp_modify
  | |- wp (outb _ _) _ _ => apply wp_modify
  | |- wp cli _ _ => apply wp_modify
  | |- wp sti _ _ => apply wp_modify
  | |- wp skip _ _ => apply wp_mret
  | |- wp (mret _) _ _ => apply wp_mret
  | |- wp (fun _ => wp _ _ _) _ _ => cbn beta
  end; cbn beta.
Ltac wp_steps := repeat wp_step.

(** ** The state at boot: the initialisers of the globals *)

Definition term_boot : term_t :=
  mk_term 0 0 0 0 0 0 (replicate 129 0) 0 false (replicate 10 (replicate 129 0)) 0 0 0 0 0.

Definition kernel_boot (dev : device) (m : memory) (fs pagedir : Z) : kernel :=
  mk_kernel m [] dev
    (mk_cpu false 0 pagedir 0 END_OF_KERNEL_PAGE 0 0 0 0 0)
    (mk_disp (replicate 3 term_boot) 0 0 7 0 7)
    (mk_proc ∅ 0 0 0 false false)
    (mk_pic 0 0)
    (mk_rtc 0x400 false)
    (mk_kbd false false false false false false)
    (mk_mouse 0 [0; 0; 0] false false 79 24 0)
    fs.

(** A machine without devices, used for examples: every port reads 0. *)
Definition quiet : device := fun _ _ => 0.
Definition kernel_quiet : kernel := kernel_boot quiet ∅ 0x400000 0x401000.

(** ** String literals of the source, as readers *)

Definition bytes_of_string (s : string) : list Z :=
  map (fun c => Z.of_N (Ascii.N_of_ascii c)) (String.list_ascii_of_string s).
Definition lit (s : string) : Z -> Z := arr_at (bytes_of_string s ++ [0]).
