(* ===== verification/Display.v ===== *)
(** * Screen output of lib.c

    Cursor bookkeeping, scrolling and character output of the three text
    terminals.  A terminal writes to the 80x25 character page at its
    [vid_mem]: two bytes per cell, character and attribute. *)

From Stdlib Require Import ZArith Lia.
From stdpp Require Import gmap list numbers.
From S2P Require Import Prelude Memory LibString State.

(** ** Definitions *)

Definition set_keyboard_pos (term_id row col : Z) : M unit :=
  upd_term term_id (fun t => set_scrn_c (u8 col) (set_scrn_r (u8 row) t)).

Definition set_cursor_pos (term_id row col : Z) : M unit :=
  upd_term term_id (fun t => set_curs_c (u8 col) (set_curs_r (u8 row) t)) ;;
  vis ← gets (fun k => vis_term_id (k_disp k));
  if term_id =? vis then
    let position := u16 (row * 80 + col) in
    outb 0x0F 0x3D4 ;;
    outb (Z.land position 0xFF) 0x3D5 ;;
    outb 0x0E 0x3D4 ;;
    outb (Z.land (Z.shiftr position 8) 0xFF) 0x3D5
  else skip.

Definition scroll (term_id : Z) : M unit :=
  t ← get_term term_id;
  if NUM_ROWS <=? scrn_r t then
    col ← gets (fun k => color (k_disp k));
    let blank := Z.lor 0x20 (Z.shiftl col 8) in
    let temp := u32 (scrn_r t - NUM_ROWS + 1) in
    mem_op (fun m => memcpy m (vid_mem t) (u32 (vid_mem t + temp * NUM_COLS * 2))
                       (u32 ((NUM_ROWS - temp) * NUM_COLS * 2))) ;;
    mem_op (fun m => memset_word m (u32 (vid_mem t + (NUM_ROWS - temp) * NUM_COLS * 2)) blank NUM_COLS) ;;
    upd_term term_id (set_scrn_r (NUM_ROWS - 1))
  else skip.

(** The two stores "vid_mem + ((NUM_COLS*scrn_r + scrn_c) << 1)" and "... + 1". *)
Definition put_cell (term_id ch attrib : Z) : M unit :=
  t ← get_term term_id;
  let off := Z.shiftl (NUM_COLS * scrn_r t + scrn_c t) 1 in
  upd_mem (fun m => wr m (vid_mem t + off) ch) ;;
  upd_mem (fun m => wr m (vid_mem t + off + 1) attrib).

(** The last two lines of putc and putc_color. *)
Definition sync_pos (term_id : Z) : M unit :=
  t ← get_term term_id;
  set_cursor_pos term_id (scrn_r t) (scrn_c t) ;;
  t ← get_term term_id;
  set_keyboard_pos term_id (scrn_r t) (scrn_c t).

Definition new_row (term_id : Z) : M unit :=
  upd_term term_id (fun t => set_scrn_c 0 (set_scrn_r (u8 (scrn_r t + 1)) t)) ;;
  scroll term_id.

Definition wrap_row (term_id : Z) : M unit :=
  upd_term term_id (fun t =>
    set_scrn_c (scrn_c t mod NUM_COLS) (set_scrn_r (u8 (scrn_r t + scrn_c t / NUM_COLS)) t)) ;;
  scroll term_id.

Definition putc (term_id c : Z) : M unit :=
  col ← gets (fun k => color (k_disp k));
  if (c =? 10) || (c =? 13) then new_row term_id ;; sync_pos term_id
  else if c =? 8 then
    t ← get_term term_id;
    if scrn_c t =? 0 then skip
    else
      upd_term term_id (fun t => set_scrn_c (u8 (scrn_c t - 1)) t) ;;
      put_cell term_id 0x20 col ;;
      sync_pos term_id
  else
    wrap_row term_id ;;
    put_cell term_id c col ;;
    upd_term term_id (fun t => set_scrn_c (u8 (scrn_c t + 1)) t) ;;
    sync_pos term_id.

(** The attribute byte of a foreground and a background colour. *)
Definition attrib_of (fg bg : Z) : Z := u8 (Z.lor (Z.shiftl bg 4) (Z.land fg 0xF)).

Definition putc_color (term_id c fg bg : Z) : M unit :=
  let attrib := attrib_of fg bg in
  if (c =? 10) || (c =? 13) then new_row term_id ;; sync_pos term_id
  else
    wrap_row term_id ;;
    put_cell term_id c attrib ;;
    upd_term term_id (fun t => set_scrn_c (u8 (scrn_c t + 1)) t) ;;
    sync_pos term_id.

Definition set_color (fg bg : Z) : M unit :=
  upd_disp (fun d => set_color (attrib_of fg bg) (set_bg_color bg (set_fg_color fg d))).

(** puts and puts_color return the number of characters; puts_color prints on
    the scheduled terminal whatever its first argument is. *)
Definition puts (term_id : Z) (s : Z -> Z) : M Z :=
  loopM (fun index =>
    if s index =? 0 then mret (inr index)
    else putc term_id (s index) ;; mret (inl (index + 1))) 0.

Definition puts_color (term_id : Z) (s : Z -> Z) (fg bg : Z) : M Z :=
  sched ← gets (fun k => sched_term_id (k_disp k));
  loopM (fun index =>
    if s index =? 0 then mret (inr index)
    else putc_color sched (s index) fg bg ;; mret (inl (index + 1))) 0.

Definition get_char (row col : Z) : M Z :=
  gets (fun k => rd (k_mem k) (VIDEO_ADDR + Z.shiftl (NUM_COLS * row + col) 1)).

Definition set_char (c fg bg row col : Z) : M unit :=
  let attrib := attrib_of fg bg in
  upd_mem (fun m => wr m (VIDEO_ADDR + Z.shiftl (NUM_COLS * row + col) 1) c) ;;
  upd_mem (fun m => wr m (VIDEO_ADDR + Z.shiftl (NUM_COLS * row + col) 1 + 1) attrib).

Definition clear_screen : M unit :=
  col ← gets (fun k => color (k_disp k));
  for_ (Z.to_nat (NUM_ROWS * NUM_COLS)) (fun i =>
    upd_mem (fun m => wr m (VIDEO_ADDR + Z.shiftl i 1) 0x20) ;;
    upd_mem (fun m => wr m (VIDEO_ADDR + Z.shiftl i 1 + 1) col)) ;;
  vis ← gets (fun k => vis_term_id (k_disp k));
  set_keyboard_pos vis 0 0 ;;
  set_cursor_pos vis 0 0.

(** ** Abstract screen

    [s_cells o] is byte [o] of the page, [0 <= o < 4000]. *)

Record screen := mk_screen { s_cells : Z -> Z; s_row : Z; s_col : Z }.

Abbreviation PAGE_BYTES := 4000.

(** One line up, a blank line below. *)
Definition cells_up (col : Z) (f : Z -> Z) : Z -> Z := fun o =>
  if o <? 3840 then f (o + 160) else if o mod 2 =? 0 then 0x20 else u8 col.

Definition scroll_spec (col : Z) (s : screen) : screen :=
  if s_row s <? NUM_ROWS then s
  else mk_screen (cells_up col (s_cells s)) (NUM_ROWS - 1) (s_col s).

Definition put_spec (ch attrib : Z) (s : screen) : screen :=
  let p := 2 * (NUM_COLS * s_row s + s_col s) in
  mk_screen (fun o => if o =? p then u8 ch else if o =? p + 1 then u8 attrib else s_cells s o)
    (s_row s) (s_col s).

Definition putc_spec (col c : Z) (s : screen) : screen :=
  if (c =? 10) || (c =? 13) then
    scroll_spec col (mk_screen (s_cells s) (s_row s + 1) 0)
  else if c =? 8 then
    if s_col s =? 0 then s
    else put_spec 0x20 col (mk_screen (s_cells s) (s_row s) (s_col s - 1))
  else
    let s1 := scroll_spec col
      (mk_screen (s_cells s) (s_row s + s_col s / NUM_COLS) (s_col s mod NUM_COLS)) in
    let s2 := put_spec c col s1 in
    mk_screen (s_cells s2) (s_row s2) (s_col s2 + 1).

(** The screen position is inside the page; a column of 80 means that the next
    character wraps. *)
Definition pos_ok (s : screen) : Prop := 0 <= s_row s < NUM_ROWS /\ 0 <= s_col s <= NUM_COLS.

(** Terminal [i] shows the screen [s]. *)
Definition shows (k : kernel) (i : Z) (s : screen) : Prop :=
  exists t, 0 <= i /\ terminals (k_disp k) !! Z.to_nat i = Some t /\
    scrn_r t = s_row s /\ scrn_c t = s_col s /\
    forall o, 0 <= o < PAGE_BYTES -> rd (k_mem k) (vid_mem t + o) = s_cells s o.

(** Only the position fields of a terminal differ. *)
Definition same_but_pos (t t' : term_t) : Prop :=
  t' = set_scrn_r (scrn_r t') (set_scrn_c (scrn_c t') (set_curs_r (curs_r t') (set_curs_c (curs_c t') t))).

(** Writes to the ports of the VGA cursor only, and none when [vis] is false. *)
Definition cursor_io (vis : bool) (io io' : list io_event) : Prop :=
  exists es, io' = es ++ io /\ Forall (fun e => exists p d, e = PortOut p d /\ (p = 0x3D4 \/ p = 0x3D5)) es /\
    (vis = false -> es = []).

Lemma cursor_io_refl vis io : cursor_io vis io io.
Proof. by exists []. Qed.

Lemma cursor_io_trans vis io1 io2 io3 : cursor_io vis io1 io2 -> cursor_io vis io2 io3 -> cursor_io vis io1 io3.
Proof.
  intros (es & -> & F & V) (es' & -> & F' & V'). exists (es' ++ es). split_and!; [by rewrite app_assoc|by apply Forall_app_2|].
  intros H. by rewrite V, V'.
Qed.

(** The cursor fields of a terminal are bytes, and stay bytes. *)
Definition curs_ok (t : term_t) : Prop := 0 <= curs_r t < W8 /\ 0 <= curs_c t < W8.
Definition cursor_moved (vis : bool) (t t' : term_t) (io io' : list io_event) : Prop :=
  cursor_io vis io io' /\ (curs_ok t -> curs_ok t').

Lemma cursor_stays vis t t' io : curs_r t' = curs_r t -> curs_c t' = curs_c t -> cursor_moved vis t t' io io.
Proof. intros H1 H2. split; [apply cursor_io_refl|]. unfold curs_ok. by rewrite H1, H2. Qed.

(** What character output on terminal [i] may change: its page, its position,
    and the cursor of the screen when it is the visible one. *)
Definition out_frame (i : Z) (k k' : kernel) : Prop :=
  exists t t' m' io', 0 <= i /\ terminals (k_disp k) !! Z.to_nat i = Some t /\
    same_but_pos t t' /\ differs_within (k_mem k) m' (vid_mem t) PAGE_BYTES /\
    cursor_moved (i =? vis_term_id (k_disp k)) t t' (k_io k) io' /\
    k' = set_k_mem m' (set_k_io io'
      (set_k_disp (set_terminals (<[Z.to_nat i := t']> (terminals (k_disp k))) (k_disp k)) k)).

Lemma same_but_pos_refl t : same_but_pos t t.
Proof. by destruct t. Qed.

Lemma same_but_pos_trans t1 t2 t3 :
  same_but_pos t1 t2 -> same_but_pos t2 t3 -> same_but_pos t1 t3.
Proof. unfold same_but_pos. intros -> ->. by destruct t1, t3. Qed.

Lemma same_but_pos_vid t t' : same_but_pos t t' -> vid_mem t' = vid_mem t.
Proof. by intros ->. Qed.

Lemma out_frame_refl i k s : shows k i s -> out_frame i k k.
Proof.
  intros (t & Hi & Ht & _). exists t, t, (k_mem k), (k_io k).
  split_and!; [done|done|apply same_but_pos_refl|done|by apply cursor_stays|].
  rewrite list_insert_id by done. by destruct k as [? ? ? ? []].
Qed.

Lemma out_frame_trans i k1 k2 k3 : out_frame i k1 k2 -> out_frame i k2 k3 -> out_frame i k1 k3.
Proof.
  intros (t1 & t2 & m2 & io2 & Hi & Ht1 & S12 & D12 & IO2 & ->)
         (t2' & t3 & m3 & io3 & _ & Ht2 & S23 & D23 & IO3 & ->).
  cbn in *. rewrite list_lookup_insert_eq in Ht2 by by eapply lookup_lt_Some.
  injection Ht2 as <-. exists t1, t3, m3, io3. split_and!; [done|done|..].
  - by eapply same_but_pos_trans.
  - rewrite (same_but_pos_vid t1 t2) in D23 by done. by eapply differs_within_trans.
  - destruct IO2, IO3. split; [by eapply cursor_io_trans|auto].
  - by rewrite list_insert_insert_eq.
Qed.

(** ** A logic of output

    [outs i col c s s']: from any state in which terminal [i] shows [s] and the
    colour is [col], [c] returns with [s'] on terminal [i] and changes nothing
    else. *)

Definition outs (i col : Z) (c : M unit) (s s' : screen) : Prop :=
  forall k, shows k i s -> color (k_disp k) = col ->
    wp c (fun _ k' => shows k' i s' /\ out_frame i k k') k.

Lemma out_frame_color i k k' : out_frame i k k' -> color (k_disp k') = color (k_disp k).
Proof. by intros (? & ? & ? & ? & _ & _ & _ & _ & _ & ->). Qed.

Lemma outs_seq i col c d s s1 s2 :
  outs i col c s s1 -> outs i col d s1 s2 -> outs i col (c ;; d) s s2.
Proof.
  intros Hc Hd k Hs Hcol. apply wp_bind. eapply wp_mono; [|by apply Hc].
  intros [] k1 [Hs1 F1]. eapply wp_mono; [|apply Hd; [done|by rewrite (out_frame_color _ _ _ F1)]].
  intros [] k2 [Hs2 F2]. split; [done|]. by eapply out_frame_trans.
Qed.

Lemma outs_skip i col s : outs i col skip s s.
Proof. intros k Hs _. apply wp_mret. split; [done|by eapply out_frame_refl]. Qed.

(** Reading the terminal first: its position is known. *)
Lemma outs_get_term i col (c : term_t -> M unit) s s' :
  (forall t, scrn_r t = s_row s -> scrn_c t = s_col s -> outs i col (c t) s s') ->
  outs i col (t ← get_term i; c t) s s'.
Proof.
  intros H k Hs Hcol. pose proof Hs as (t & Hi & Ht & Hr & Hc & Hm).
  apply wp_bind, (wp_get_term _ t); [done..|]. by apply H.
Qed.

(** Changing the position. *)
Lemma outs_pos i col f s row c :
  (forall t, scrn_r t = s_row s -> scrn_c t = s_col s ->
     same_but_pos t (f t) /\ scrn_r (f t) = row /\ scrn_c (f t) = c /\ (curs_ok t -> curs_ok (f t))) ->
  outs i col (upd_term i f) s (mk_screen (s_cells s) row c).
Proof.
  intros Hf k (t & Hi & Ht & Hr & Hc & Hm) Hcol. specialize (Hf t Hr Hc) as (S & Hr' & Hc' & Hk).
  apply (wp_upd_term _ _ t); [done..|]. pose proof (lookup_lt_Some _ _ _ Ht). split.
  - exists (f t). cbn. rewrite list_lookup_insert_eq by done.
    repeat split; try done. intros o Ho. rewrite (same_but_pos_vid t) by done. by apply Hm.
  - exists t, (f t), (k_mem k), (k_io k). split_and!; try done. split; [apply cursor_io_refl|done].
Qed.

(** An access to a cell of the page stays in the page. *)
Lemma outs_put_cell i col ch attrib s :
  0 <= s_row s < NUM_ROWS -> 0 <= s_col s < NUM_COLS ->
  outs i col (put_cell i ch attrib) s (put_spec ch attrib s).
Proof.
  intros Hr0 Hc0 k (t & Hi & Ht & Hr & Hc & Hm) Hcol. unfold put_cell.
  apply wp_bind, (wp_get_term _ t); [done..|]. wp_steps. rewrite Hr, Hc.
  rewrite Z.shiftl_mul_pow2 by lia. change (2 ^ 1) with 2. cbn.
  set (p := (NUM_COLS * s_row s + s_col s) * 2).
  assert (0 <= p < PAGE_BYTES - 1) by lia.
  split.
  - exists t. cbn. repeat split; try done. intros o Ho.
    rewrite !rd_wr, Hm by lia.
    replace (2 * (NUM_COLS * s_row s + s_col s)) with p by (unfold p; lia).
    rewrite <- Z.add_assoc.
    assert (forall a b, 0 <= a < 4000 -> 0 <= b < 4000 ->
      (u32 (vid_mem t + a) =? u32 (vid_mem t + b)) = (b =? a)) as N.
    { intros a b Ha Hb. destruct (b =? a) eqn:E; b2p; [subst; apply Z.eqb_refl|].
      apply Z.eqb_neq, u32_neq_add; lia. }
    rewrite !N by lia. destruct (o =? p) eqn:E1, (o =? p + 1) eqn:E2; b2p; (done || lia).
  - exists t, t, (wr (wr (k_mem k) (vid_mem t + p) ch) (vid_mem t + p + 1) attrib), (k_io k).
    split_and!; [done|done|apply same_but_pos_refl| |by apply cursor_stays|].
    + eapply differs_within_trans; [eapply (wr_within _ _ _ _ _ p)|eapply (wr_within _ _ _ _ _ (p + 1))];
        (lia || (f_equal; lia)).
    + rewrite list_insert_id by done. by destruct k as [? ? ? ? []].
Qed.

(** ** Scrolling *)

Definition scrolled (m m' : memory) (v col : Z) : Prop :=
  (forall o, 0 <= o < PAGE_BYTES -> rd m' (v + o) = cells_up col (fun o => rd m (v + o)) o) /\
  differs_within m m' v PAGE_BYTES.

Lemma blank_bytes col o : 0 <= o ->
  u8 (if o mod 2 =? 0 then Z.lor 0x20 (Z.shiftl col 8) else Z.lor 0x20 (Z.shiftl col 8) / W8) =
  if o mod 2 =? 0 then 0x20 else u8 col.
Proof.
  intros Ho. rewrite <- (Z.shiftr_div_pow2 _ 8) by lia.
  rewrite Z.shiftr_lor, Z.shiftr_shiftl_l by lia. change (Z.shiftr 0x20 8) with 0.
  rewrite Z.lor_0_l. change (8 - 8) with 0. rewrite Z.shiftl_0_r.
  case_if; [|done]. unfold u8. change W8 with (2 ^ 8). rewrite <- Z.land_ones by lia.
  rewrite Z.land_lor_distr_l, (Z.land_ones (Z.shiftl col 8)), Z.shiftl_mul_pow2, Z.mod_mul by lia. done.
Qed.

(** The memcpy and the memset_word of scroll, one line at a time. *)
Lemma scroll_memory m v col : exists m1 m2,
  memcpy m v (u32 (v + 160)) 3840 = Some m1 /\
  memset_word m1 (u32 (v + 3840)) (Z.lor 0x20 (Z.shiftl col 8)) 80 = Some m2 /\
  scrolled m m2 v col.
Proof.
  destruct (memcpy_copied m v (u32 (v + 160)) 3840 ltac:(lia)) as (m1 & H1 & C1).
  { right. rewrite u32_sub_r. replace (v - (v + 160)) with (-160) by lia. vm_compute. done. }
  destruct (memset_word_copied m1 (u32 (v + 3840)) (Z.lor 0x20 (Z.shiftl col 8)) 80)
    as (m2 & H2 & C2); [lia|lia|].
  exists m1, m2. split; [done|]. split; [done|].
  assert (forall a, u32 (a - u32 (v + 3840)) = u32 (u32 (a - v) - 3840)) as Hsub.
  { intros a. rewrite u32_sub_r, u32_sub_l. f_equal; lia. }
  split.
  - intros o Ho. unfold cells_up. rewrite C2, Hsub.
    replace (v + o - v) with o by lia. rewrite (u32_small o) by lia. case_if.
    + destruct (o <? 3840) eqn:E; b2p.
      { exfalso. unfold u32 in Eif. rewrite <- (Z_mod_plus_full _ 1), Z.mod_small in Eif; lia. }
      rewrite u32_small by lia. rewrite blank_bytes by lia.
      by replace ((o - 3840) mod 2) with (o mod 2) by zlia.
    + assert (o < 3840).
      { destruct (Z_lt_le_dec o 3840); [done|]. rewrite u32_small in Eif; lia. }
      rewrite (proj2 (Z.ltb_lt _ _)) by lia.
      rewrite (mem_copied_in _ _ _ _ _ _ C1 ltac:(lia) o) by (lia || done).
      unfold at_. rewrite u8_small by apply rd_range. apply rd_eq_addr. rewrite u32_add_l. f_equal; lia.
  - eapply differs_within_trans.
    + apply (differs_within_sub _ _ v _ 0 3840); try lia. rewrite Z.add_0_r.
      by eapply mem_copied_within.
    + apply (differs_within_sub _ _ v _ 3840 160); try lia.
      intros a Ha. apply (mem_copied_out _ _ _ _ _ _ C2). rewrite u32_sub_r. lia.
Qed.

Lemma outs_scroll i col s : 0 <= s_row s <= NUM_ROWS ->
  outs i col (scroll i) s (scroll_spec col s).
Proof.
  intros Hrow k (t & Hi & Ht & Hr & Hc & Hm) Hcol. unfold scroll, scroll_spec.
  apply wp_bind, (wp_get_term _ t); [done..|]. rewrite Hr.
  destruct (NUM_ROWS <=? s_row s) eqn:E; b2p.
  2: { rewrite (proj2 (Z.ltb_lt _ _)) by lia. apply (outs_skip i col); [by exists t|done]. }
  assert (s_row s = 25) as E25 by lia. rewrite E25, (proj2 (Z.ltb_ge _ _)) by lia.
  wp_steps. rewrite Hcol. change (u32 (25 - 25 + 1)) with 1.
  change (u32 ((25 - 1) * 80 * 2)) with 3840. change ((25 - 1) * 80 * 2) with 3840.
  change (1 * 80 * 2) with 160. change (25 - 1) with 24.
  destruct (scroll_memory (k_mem k) (vid_mem t) col) as (m1 & m2 & H1 & H2 & Hsc & Hd).
  apply (wp_mem_op _ m1); [done|]. apply wp_bind, (wp_mem_op _ m2); [done|].
  pose proof (lookup_lt_Some _ _ _ Ht).
  apply (wp_upd_term _ _ t); [done..|]. split.
  - exists (set_scrn_r 24 t). cbn. rewrite list_lookup_insert_eq by done.
    repeat split; try done. intros o Ho. rewrite Hsc by done. unfold cells_up.
    case_if; [|done]. apply Hm. lia.
  - exists t, (set_scrn_r 24 t), m2, (k_io k). split_and!; try done; try by apply cursor_stays.
Qed.

Lemma outs_sync i col s : 0 <= s_row s < W8 -> 0 <= s_col s < W8 -> outs i col (sync_pos i) s s.
Proof.
  intros Hr0 Hc0. unfold sync_pos. destruct s as [f row c]. cbn in *.
  assert (Hcur : forall t : term_t, outs i col (set_cursor_pos i row c)
    (mk_screen f row c) (mk_screen f row c)).
  { intros _. intros k Hs Hcol. unfold set_cursor_pos. apply wp_bind.
    eapply wp_mono; [|apply (outs_pos i col _ (mk_screen f row c) row c); [|done..]].
    2: { intros t Ht1 Ht2. cbn in *. split_and!; [by destruct t|done|done|]. intros _. split; apply u8_range. }
    intros [] k1 [Hs1 F1]. wp_steps. case_if; wp_steps; [|done].
    split; [done|]. destruct F1 as (t1 & t2 & m2 & io2 & Hi & Ht1 & S & D & IO & ->).
    cbn in *. exists t1, t2, m2. eexists. split; [done|]. split; [done|]. split; [done|].
    split; [done|]. split; [|reflexivity]. subst i. rewrite Z.eqb_refl in IO |- *.
    destruct IO as [(es & -> & F & _) Hk]. split; [|exact Hk].
    match goal with |- cursor_io _ _ (?a :: ?b :: ?c :: ?d :: _) => exists ([a; b; c; d] ++ es) end.
    split_and!; [reflexivity| |done].
    repeat (apply Forall_cons_2; [eexists _, _; split; [reflexivity|tauto]|]). exact F. }
  apply outs_get_term. intros t -> ->. eapply outs_seq; [by apply Hcur|].
  apply outs_get_term. intros t' -> ->.
  apply (outs_pos i col _ (mk_screen f row c) row c). intros u Hu1 Hu2. cbn in *.
  rewrite !u8_small by lia. split; [by destruct u|done].
Qed.

Lemma outs_color i col (c : Z -> M unit) s s' :
  outs i col (c col) s s' -> outs i col (v ← gets (fun k => color (k_disp k)); c v) s s'.
Proof. intros H k Hs Hcol. wp_steps. rewrite Hcol. by apply H. Qed.

Lemma outs_eq i col c s s1 s2 : s1 = s2 -> outs i col c s s1 -> outs i col c s s2.
Proof. by intros ->. Qed.

(** The printing branch of putc and putc_color. *)
Lemma outs_print i col c attrib s : pos_ok s ->
  outs i col (wrap_row i ;; put_cell i c attrib ;;
              upd_term i (fun t => set_scrn_c (u8 (scrn_c t + 1)) t) ;; sync_pos i) s
    (let s1 := scroll_spec col
      (mk_screen (s_cells s) (s_row s + s_col s / NUM_COLS) (s_col s mod NUM_COLS)) in
     let s2 := put_spec c attrib s1 in mk_screen (s_cells s2) (s_row s2) (s_col s2 + 1)).
Proof.
  intros [Hr Hc]. cbn zeta.
  set (s0 := mk_screen (s_cells s) (s_row s + s_col s / NUM_COLS) (s_col s mod NUM_COLS)).
  assert (0 <= s_row s0 <= 25 /\ 0 <= s_col s0 < 80) as [Hr0 Hc0] by (unfold s0; cbn; zlia).
  assert (0 <= s_row (scroll_spec col s0) < 25 /\ s_col (scroll_spec col s0) = s_col s0) as [Hr1 Hc1].
  { unfold scroll_spec. case_if; [split; [lia|done]|]. split; [cbn; lia|done]. }
  eapply outs_seq; [eapply outs_seq|eapply outs_seq; [|eapply outs_seq]].
  - apply (outs_eq _ _ _ _ (mk_screen (s_cells s) (s_row s0) (s_col s0)) s0); [done|].
    apply outs_pos. intros t Ht1 Ht2. cbn. rewrite Ht1, Ht2.
    rewrite u8_small by (unfold s0 in Hr0; cbn in Hr0; lia). split; [by destruct t|done].
  - by apply outs_scroll.
  - apply outs_put_cell; lia.
  - apply (outs_pos i col _ _ (s_row (scroll_spec col s0)) (s_col (scroll_spec col s0) + 1)).
    intros t Ht1 Ht2. cbn in *. rewrite Ht2, u8_small by lia. split; [by destruct t|done].
  - apply (outs_sync i col (mk_screen _ _ _)); cbn; lia.
Qed.

(** A new line. *)
Lemma outs_newline i col s : pos_ok s ->
  outs i col (new_row i ;; sync_pos i) s (scroll_spec col (mk_screen (s_cells s) (s_row s + 1) 0)).
Proof.
  intros [Hr Hc]. unfold new_row. eapply outs_seq; [eapply outs_seq|].
  - apply (outs_pos i col _ s (s_row s + 1) 0). intros t Ht1 Ht2. cbn.
    rewrite Ht1, u8_small by lia. split; [by destruct t|done].
  - apply outs_scroll. cbn. lia.
  - apply outs_sync; unfold scroll_spec; cbn; case_if; cbn; lia.
Qed.

(** putc implements the abstract screen. *)
Lemma outs_putc i col c s : pos_ok s -> outs i col (putc i c) s (putc_spec col c s).
Proof.
  intros Hok. pose proof Hok as [Hr Hc]. unfold putc, putc_spec.
  apply (outs_color i col (fun v => if (c =? 10) || (c =? 13) then _ else _)). case_if; [by apply outs_newline|].
  - case_if; [|by apply outs_print].
    apply outs_get_term. intros t Ht1 Ht2. rewrite Ht2. case_if; [apply outs_skip|].
    eapply outs_seq; [|eapply outs_seq].
    + apply (outs_pos i col _ s (s_row s) (s_col s - 1)). intros u Hu1 Hu2. cbn.
      rewrite Hu2, u8_small by lia. split; [by destruct u|done].
    + apply outs_put_cell; cbn; lia.
    + apply outs_sync; cbn; lia.
Qed.

Lemma putc_spec_ok col c s : pos_ok s -> pos_ok (putc_spec col c s).
Proof.
  intros [Hr Hc]. unfold putc_spec, scroll_spec, pos_ok.
  repeat (case_if; cbn in *); zlia.
Qed.

(** ** Strings *)

Definition text_spec (col : Z) (cs : list Z) (s : screen) : screen :=
  fold_left (fun s c => putc_spec col c s) cs s.

Lemma text_spec_ok col cs s : pos_ok s -> pos_ok (text_spec col cs s).
Proof.
  revert s; induction cs as [|c cs IH]; intros s Hs; [done|]. cbn. by apply IH, putc_spec_ok.
Qed.

(** The first [n] characters of a reader. *)
Definition chars (s : Z -> Z) (n : Z) : list Z := map s (seqZ 0 n).

Lemma chars_snoc s n : 0 <= n -> chars s (n + 1) = chars s n ++ [s n].
Proof.
  intros Hn. unfold chars. rewrite seqZ_app by lia. rewrite map_app. cbn.
  by rewrite Z.add_0_l.
Qed.

(** An array that holds a string: its bytes, none of them NUL, and a NUL. *)
Lemma arr_at_bytes bs : Forall is_byte bs -> is_bytes (arr_at bs).
Proof.
  intros B n. unfold arr_at. destruct (_ !! _) as [b|] eqn:E; [|cbn; lia]. exact (Forall_lookup_1 _ _ _ _ B E).
Qed.

Definition text_ok (l : list Z) : bool := forallb (fun b => (0 <? b) && (b <? W8)) l.

Lemma text_ok_forall l : text_ok l = true -> Forall (fun b => 0 < b < W8) l.
Proof.
  intros H. apply Forall_forall. intros b Hb. unfold text_ok in H.
  pose proof (proj1 (forallb_forall _ _) H b Hb). cbn beta in *. lia.
Qed.

Lemma arr_at_app l r j : 0 <= j < Z.of_nat (length l) -> Some (arr_at (l ++ r) j) = l !! Z.to_nat j.
Proof.
  intros Hj. unfold arr_at. rewrite lookup_app_l by lia.
  destruct (lookup_lt_is_Some_2 l (Z.to_nat j)) as [b E]; [lia|]. by rewrite E.
Qed.

Lemma arr_at_text l : text_ok l = true ->
  is_bytes (arr_at (l ++ [0])) /\ is_cstr (arr_at (l ++ [0])) (Z.of_nat (length l)).
Proof.
  intros H%text_ok_forall. split.
  - apply arr_at_bytes, Forall_app_2; [|apply Forall_singleton; unfold is_byte; lia].
    eapply List.Forall_impl; [|exact H]. unfold is_byte. intros. cbn in *. lia.
  - split; [lia|]. split.
    + intros j Hj E. pose proof (arr_at_app l [0] j Hj) as A. rewrite E in A.
      pose proof (Forall_lookup_1 _ _ _ _ H (eq_sym A)) as B. cbn in B. lia.
    + unfold arr_at. rewrite lookup_app_r by lia. by replace (Z.to_nat _ - length l)%nat with 0%nat by lia.
Qed.

Lemma chars_arr_at l r : chars (arr_at (l ++ r)) (Z.of_nat (length l)) = l.
Proof.
  apply list_eq. intros j. unfold chars. rewrite list_lookup_fmap. destruct (decide (j < length l)%nat).
  - rewrite lookup_seqZ_lt by lia. cbn. rewrite Z.add_0_l, arr_at_app by lia. f_equal. lia.
  - rewrite lookup_seqZ_ge by lia. cbn. symmetry. apply lookup_ge_None_2. lia.
Qed.

Lemma text_spec_snoc col s0 f n : 0 <= n ->
  text_spec col (chars f (n + 1)) s0 = putc_spec col (f n) (text_spec col (chars f n) s0).
Proof. intros Hn. unfold text_spec. by rewrite chars_snoc, fold_left_app. Qed.

Lemma out_frame_self i k k' s : shows k i s -> out_frame i k k' -> color (k_disp k') = color (k_disp k).
Proof. intros _. apply out_frame_color. Qed.

(** puts prints every character up to the NUL and returns their number. *)
Lemma wp_puts i f n s k : is_cstr f n -> n < W32 -> shows k i s -> pos_ok s ->
  wp (puts i f) (fun r k' => r = n /\
    shows k' i (text_spec (color (k_disp k)) (chars f n) s) /\ out_frame i k k') k.
Proof.
  intros (Hn & Hnz & Hz) Hw Hs Hok. unfold puts.
  apply (wp_loopM _ (fun idx k' => 0 <= idx <= n /\
      shows k' i (text_spec (color (k_disp k)) (chars f idx) s) /\ out_frame i k k')
    _ (fun idx => n - idx)); [| |lia].
  - intros idx k1 (Hidx & Hs1 & F1). case_if.
    + wp_steps. assert (idx = n) as ->; [|done].
      destruct (Z.eq_dec idx n); [done|]. exfalso. by apply (Hnz idx); [lia|].
    + assert (idx <> n) by congruence. apply wp_bind.
      eapply wp_mono; [|eapply outs_putc; [by apply text_spec_ok|done|by apply out_frame_color in F1]].
      intros [] k2 [Hs2 F2]. wp_steps. split; [|lia]. split; [lia|]. split.
      * by rewrite text_spec_snoc by lia.
      * by eapply out_frame_trans.
  - split; [lia|]. split; [done|by eapply out_frame_refl].
Qed.

(** putc_color and puts_color: the same, with an attribute of their own (blank
    lines keep the current colour) and without backspace. *)
Definition putc_color_spec (attrib col c : Z) (s : screen) : screen :=
  if (c =? 10) || (c =? 13) then scroll_spec col (mk_screen (s_cells s) (s_row s + 1) 0)
  else
    let s1 := scroll_spec col (mk_screen (s_cells s) (s_row s + s_col s / NUM_COLS) (s_col s mod NUM_COLS)) in
    let s2 := put_spec c attrib s1 in mk_screen (s_cells s2) (s_row s2) (s_col s2 + 1).

Lemma outs_putc_color i col c fg bg s : pos_ok s ->
  outs i col (putc_color i c fg bg) s (putc_color_spec (attrib_of fg bg) col c s) /\
  pos_ok (putc_color_spec (attrib_of fg bg) col c s).
Proof.
  intros Hok. unfold putc_color, putc_color_spec. split.
  - case_if; [by apply outs_newline|by apply outs_print].
  - destruct Hok as [Hr Hc]. unfold scroll_spec, pos_ok. repeat (case_if; cbn in *); zlia.
Qed.

Lemma wp_puts_color tid f n fg bg s k :
  let i := sched_term_id (k_disp k) in
  is_cstr f n -> n < W32 -> shows k i s -> pos_ok s ->
  wp (puts_color tid f fg bg) (fun r k' => r = n /\
    shows k' i (fold_left (fun s c => putc_color_spec (attrib_of fg bg) (color (k_disp k)) c s) (chars f n) s) /\
    out_frame i k k') k.
Proof.
  intros i (Hn & Hnz & Hz) Hw Hs Hok. unfold puts_color. do 2 wp_step. fold i.
  set (text := fun n => fold_left (fun s c => putc_color_spec (attrib_of fg bg) (color (k_disp k)) c s) (chars f n) s).
  assert (forall n, pos_ok (text n)) as Htext.
  { intros j. unfold text. generalize (chars f j). intros l. clear -Hok i. revert s Hok.
    induction l as [|c l IH]; intros s Hok; [done|]. cbn. apply IH. by apply (outs_putc_color i). }
  apply (wp_loopM _ (fun idx k' => 0 <= idx <= n /\ shows k' i (text idx) /\ out_frame i k k') _ (fun idx => n - idx)); [| |lia].
  - intros idx k1 (Hidx & Hs1 & F1). case_if.
    + wp_steps. assert (idx = n) as ->; [|done].
      destruct (Z.eq_dec idx n); [done|]. exfalso. by apply (Hnz idx); [lia|].
    + assert (idx <> n) by congruence. apply wp_bind.
      eapply wp_mono; [|eapply (proj1 (outs_putc_color i _ _ fg bg _ (Htext idx))); [done|by apply out_frame_color in F1]].
      intros [] k2 [Hs2 F2]. wp_steps. split; [|lia]. split; [lia|]. split.
      * unfold text. by rewrite chars_snoc, fold_left_app by lia.
      * by eapply out_frame_trans.
  - split; [lia|]. split; [done|by eapply out_frame_refl].
Qed.

(** ** clear_screen *)

Definition blank_cell (col o : Z) : Z := if o mod 2 =? 0 then 0x20 else u8 col.

Lemma wp_clear_loop col k :
  wp (for_ (Z.to_nat (NUM_ROWS * NUM_COLS)) (fun i =>
      upd_mem (fun m => wr m (VIDEO_ADDR + Z.shiftl i 1) 0x20) ;;
      upd_mem (fun m => wr m (VIDEO_ADDR + Z.shiftl i 1 + 1) col)))
    (fun _ k' => k' = set_k_mem (k_mem k') k /\
       mem_copied (k_mem k) (k_mem k') VIDEO_ADDR (blank_cell col) PAGE_BYTES) k.
Proof.
  eapply wp_mono; [|apply (wp_for _ _ (fun i k' => k' = set_k_mem (k_mem k') k /\
    mem_copied (k_mem k) (k_mem k') VIDEO_ADDR (blank_cell col) (2 * i)))].
  - intros [] k' H. exact H.
  - intros i k' Hi [-> F]. wp_steps. split; [by destruct k|]. cbn in F |- *.
    rewrite Z.shiftl_mul_pow2 by lia. change (2 ^ 1) with 2.
    replace (2 * (i + 1)) with (2 * i + 1 + 1) by lia.
    apply mem_copied_wr; [lia|f_equal; lia| |].
    { unfold blank_cell. by rewrite (proj2 (Z.eqb_neq _ _)), u8_u8 by zlia. }
    apply mem_copied_wr; [lia|f_equal; lia| |done].
    unfold blank_cell. by rewrite (proj2 (Z.eqb_eq _ _)) by zlia.
  - split; [by destruct k|apply mem_copied_0].
Qed.

Lemma wp_clear_screen k t :
  let vis := vis_term_id (k_disp k) in
  0 <= vis -> terminals (k_disp k) !! Z.to_nat vis = Some t ->
  wp clear_screen (fun _ k' => exists m io,
    mem_copied (k_mem k) m VIDEO_ADDR (blank_cell (color (k_disp k))) PAGE_BYTES /\ cursor_io true (k_io k) io /\
    k' = set_k_mem m (set_k_io io (set_k_disp (set_terminals
      (<[Z.to_nat vis := set_curs_c 0 (set_curs_r 0 (set_scrn_c 0 (set_scrn_r 0 t)))]> (terminals (k_disp k))) (k_disp k)) k))) k.
Proof.
  intros vis Hv Ht. unfold clear_screen. do 2 wp_step. apply wp_bind.
  eapply wp_mono; [|apply wp_clear_loop]. intros [] k1 [E F]. cbn beta. do 2 wp_step. rewrite E. clear E.
  set (m := k_mem k1) in *. clearbody m. change (vis_term_id (k_disp (set_k_mem m k))) with vis.
  pose proof (lookup_lt_Some _ _ _ Ht).
  unfold set_keyboard_pos. apply wp_bind, (wp_upd_term _ _ t); [done|exact Ht|].
  unfold set_cursor_pos. apply wp_bind. eapply (wp_upd_term _ _ _); [done| |].
  { cbn. by apply list_lookup_insert_eq. }
  cbn. wp_steps. cbn. fold vis. rewrite Z.eqb_refl. wp_steps. cbn. eexists m, _. split; [done|]. split.
  - exists [PortOut 0x3D5 0; PortOut 0x3D4 14; PortOut 0x3D5 0; PortOut 0x3D4 15]. split_and!; [reflexivity| |done].
    repeat (apply Forall_cons_2; [eexists _, _; split; [reflexivity|tauto]|]). apply Forall_nil_2.
  - rewrite list_insert_insert_eq. reflexivity.
Qed.

(** ** Properties *)

(** [C12] putc refines the abstract 80x25 screen: printing a character on a
    terminal whose position is inside its page returns without a fault, leaves
    the terminal showing [putc_spec] of its screen (new line, carriage return,
    backspace, wrap at column 80 and scrolling included) with a position inside
    the page again, and changes nothing but the 4000 bytes of that page, the
    position fields of that terminal and, on the visible one, the VGA cursor
    ports. *)
Theorem putc_refines_screen i c k s :
  shows k i s -> pos_ok s ->
  exists k', putc i c k = Ret tt k' /\
    shows k' i (putc_spec (color (k_disp k)) c s) /\
    pos_ok (putc_spec (color (k_disp k)) c s) /\ out_frame i k k'.
Proof.
  intros Hs Hok. pose proof (outs_putc i (color (k_disp k)) c s Hok k Hs eq_refl) as H.
  apply wp_ret_iff in H as ([] & k' & -> & Hs' & F).
  exists k'. split; [done|]. split; [done|]. split; [by apply putc_spec_ok|done].
Qed.

(** Output isolation: a character printed on terminal [i] leaves every byte
    outside of that terminal's page as it was, so another terminal whose page is
    disjoint keeps showing the same screen. *)
Theorem putc_isolates_terminals i j c k s s' tj ti :
  shows k i s -> pos_ok s -> i <> j -> shows k j s' ->
  terminals (k_disp k) !! Z.to_nat i = Some ti ->
  terminals (k_disp k) !! Z.to_nat j = Some tj ->
  PAGE_BYTES <= u32 (vid_mem tj - vid_mem ti) -> u32 (vid_mem tj - vid_mem ti) + PAGE_BYTES <= W32 ->
  exists k', putc i c k = Ret tt k' /\ shows k' j s'.
Proof.
  intros Hs Hok Hij (t' & Hj & Ht' & Hr & Hc & Hm) Hti Htj Hd1 Hd2.
  pose proof (outs_putc i (color (k_disp k)) c s Hok k Hs eq_refl) as H.
  apply wp_ret_iff in H as ([] & k' & -> & _ & F). exists k'. split; [done|].
  destruct F as (t1 & t2 & m2 & io2 & Hi & Ht1 & _ & D & _ & ->).
  exists t'. cbn. rewrite list_lookup_insert_ne by lia. repeat split; try done.
  intros o Ho. rewrite D; [by apply Hm|].
  rewrite Hti in Ht1. rewrite Htj in Ht'. injection Ht1 as <-. injection Ht' as <-.
  replace (vid_mem tj + o - vid_mem ti) with (vid_mem tj - vid_mem ti + o) by lia.
  rewrite <- u32_add_l. rewrite u32_small; lia.
Qed.

(** puts prints a NUL-terminated string character by character, returns its
    length, and stays inside the terminal's page. *)
Theorem puts_prints_string i f n k s :
  is_cstr f n -> n < W32 -> shows k i s -> pos_ok s ->
  exists k', puts i f k = Ret n k' /\
    shows k' i (text_spec (color (k_disp k)) (chars f n) s) /\ out_frame i k k'.
Proof.
  intros Hf Hn Hs Hok. pose proof (wp_puts i f n s k Hf Hn Hs Hok) as H.
  apply wp_ret_iff in H as (r & k' & -> & -> & ? & ?). by exists k'.
Qed.

(** clear_screen blanks exactly the visible page with the current colour and
    puts the visible terminal's position and cursor at the origin. *)
Theorem clear_screen_blanks k t :
  0 <= vis_term_id (k_disp k) ->
  terminals (k_disp k) !! Z.to_nat (vis_term_id (k_disp k)) = Some t ->
  exists k', clear_screen k = Ret tt k' /\
    (forall o, 0 <= o < PAGE_BYTES ->
       rd (k_mem k') (VIDEO_ADDR + o) = blank_cell (color (k_disp k)) o) /\
    differs_within (k_mem k) (k_mem k') VIDEO_ADDR PAGE_BYTES /\
    terminals (k_disp k') = <[Z.to_nat (vis_term_id (k_disp k)) :=
      set_curs_c 0 (set_curs_r 0 (set_scrn_c 0 (set_scrn_r 0 t)))]> (terminals (k_disp k)).
Proof.
  intros Hv Ht. pose proof (wp_clear_screen k t Hv Ht) as H.
  apply wp_ret_iff in H as ([] & k' & -> & m & io & F & _ & ->). eexists. split; [done|].
  split; [|split; [by eapply mem_copied_within|done]]. cbn [k_mem set_k_mem].
  intros o Ho. rewrite (mem_copied_in _ _ _ _ _ _ F ltac:(lia) o) by (lia || done).
  unfold blank_cell. case_if; [done|apply u8_u8].
Qed.

(** ** Witnesses *)

(** Terminal [i] showing what its page holds. *)
Definition screen_at (k : kernel) (t : term_t) : screen :=
  mk_screen (fun o => rd (k_mem k) (vid_mem t + o)) (scrn_r t) (scrn_c t).

Lemma shows_screen_at k i t : 0 <= i -> terminals (k_disp k) !! Z.to_nat i = Some t ->
  shows k i (screen_at k t).
Proof. intros Hi Ht. by exists t. Qed.

Lemma putc_refines_screen_witness : exists k',
  putc 0 65 kernel_quiet = Ret tt k' /\
  shows k' 0 (putc_spec 7 65 (screen_at kernel_quiet term_boot)).
Proof.
  destruct (putc_refines_screen 0 65 kernel_quiet (screen_at kernel_quiet term_boot))
    as (k' & H & Hs & _).
  - by apply shows_screen_at.
  - split; cbn; lia.
  - exists k'. split; [exact H|exact Hs].
Defined.

(** Two terminals with their own pages. *)
Definition two_terms : kernel :=
  set_k_disp (set_terminals [set_vid_mem VIDEO_ADDR term_boot;
    set_vid_mem (VIDEO_ADDR + 2 * FOUR_KB) term_boot] (k_disp kernel_quiet)) kernel_quiet.

Lemma putc_isolates_terminals_witness : exists k', putc 0 65 two_terms = Ret tt k' /\
  shows k' 1 (screen_at two_terms (set_vid_mem (VIDEO_ADDR + 2 * FOUR_KB) term_boot)).
Proof.
  apply (putc_isolates_terminals 0 1 65 two_terms
    (screen_at two_terms (set_vid_mem VIDEO_ADDR term_boot)) _
    (set_vid_mem (VIDEO_ADDR + 2 * FOUR_KB) term_boot) (set_vid_mem VIDEO_ADDR term_boot)).
  - by apply shows_screen_at.
  - split; cbn; lia.
  - lia.
  - by apply shows_screen_at.
  - reflexivity.
  - reflexivity.
  - vm_compute. discriminate.
  - vm_compute. discriminate.
Defined.

Lemma puts_prints_string_witness : exists k',
  puts 0 (arr_at [79; 75; 0]) kernel_quiet = Ret 2 k' /\
  shows k' 0 (text_spec 7 [79; 75] (screen_at kernel_quiet term_boot)).
Proof.
  destruct (puts_prints_string 0 (arr_at [79; 75; 0]) 2 kernel_quiet (screen_at kernel_quiet term_boot))
    as (k' & H & Hs & _).
  - split; [lia|]. split; [|reflexivity]. intros i Hi.
    assert (i = 0 \/ i = 1) as [-> | ->] by lia; vm_compute; lia.
  - lia.
  - by apply shows_screen_at.
  - split; cbn; lia.
  - exists k'. split; [exact H|exact Hs].
Defined.

Lemma clear_screen_blanks_witness : exists k', clear_screen kernel_quiet = Ret tt k' /\
  rd (k_mem k') (VIDEO_ADDR + 161) = 7.
Proof.
  destruct (clear_screen_blanks kernel_quiet term_boot) as (k' & H & Hc & _).
  - cbn; lia.
  - reflexivity.
  - exists k'. split; [exact H|]. rewrite Hc by lia. reflexivity.
Defined.
