(* ===== verification/Printf.v ===== *)
(** * printf of lib.c

    The format interpreter, on the scheduled terminal.  A variadic argument is
    the 32-bit word of its stack slot together with the string it points to,
    for the conversions that dereference it. *)

From Stdlib Require Import ZArith Lia.
From stdpp Require Import gmap list numbers.
From S2P Require Import Prelude Memory LibString State Display.

Record vararg := mk_va { va_word : Z; va_str : Z -> Z }.

(** The next stack slot ("esp++"); reading past the arguments is a fault. *)
Definition next_arg (args : list vararg) : M (vararg * list vararg) :=
  match args with [] => fault_ OutOfBounds | a :: rest => mret (a, rest) end.

Definition puts_sched (s : Z -> Z) : M unit :=
  sched ← gets (fun k => sched_term_id (k_disp k)); puts sched s ;; skip.
Definition putc_sched (c : Z) : M unit :=
  sched ← gets (fun k => sched_term_id (k_disp k)); putc sched (u8 c).

(** The conversions build their text in the local array conv_buf: the array and
    the index at which the printed string starts. *)
Definition conv_hex (v : Z) : option (memory * Z) :=
  m ← itoa ∅ v 0 16; Some (m, 0).

Definition conv_hex_alt (v : Z) : option (memory * Z) :=
  m ← itoa ∅ v 8 16;
  starting_index ← strlen (at_ m 8);
  m ← run_loop (fun '(m, i) =>
    if i <? 8 then inl (wr m i 48, i + 1) else inr m) (m, starting_index);
  Some (m, starting_index).

Definition conv_unsigned (v : Z) : option (memory * Z) :=
  m ← itoa ∅ v 0 10; Some (m, 0).

Definition conv_signed (v : Z) : option (memory * Z) :=
  let value := i32 v in
  if value <? 0 then m ← itoa (wr ∅ 0 45) (u32 (- value)) 1 10; Some (m, 0)
  else m ← itoa ∅ value 0 10; Some (m, 0).

Definition put_conv (c : option (memory * Z)) : M unit :=
  '(m, i) ← lift Diverges c; puts_sched (at_ m i).

(** "format_char_switch": one conversion, with the alternate flag and the index
    of its character; returns the index where it stopped and the arguments left. *)
Definition format_char (fmt : Z -> Z) (buf : Z) (args : list vararg) : M (Z * list vararg) :=
  loopM (fun '(alternate, buf) =>
    let c := fmt buf in
    if c =? 37 then putc_sched 37 ;; mret (inr (buf, args))                   (* percent *)
    else if c =? 35 then mret (inl (true, buf + 1))                           (* # *)
    else if c =? 120 then                                                     (* x *)
      '(a, args) ← next_arg args;
      (if alternate : bool then put_conv (conv_hex_alt (va_word a)) else put_conv (conv_hex (va_word a))) ;;
      mret (inr (buf, args))
    else if c =? 117 then                                                     (* u *)
      '(a, args) ← next_arg args; put_conv (conv_unsigned (va_word a)) ;; mret (inr (buf, args))
    else if c =? 100 then                                                     (* d *)
      '(a, args) ← next_arg args; put_conv (conv_signed (va_word a)) ;; mret (inr (buf, args))
    else if c =? 99 then                                                      (* c *)
      '(a, args) ← next_arg args; putc_sched (va_word a) ;; mret (inr (buf, args))
    else if c =? 115 then                                                     (* s *)
      '(a, args) ← next_arg args; puts_sched (va_str a) ;; mret (inr (buf, args))
    else mret (inr (buf, args))) (false, buf).

Definition printf (fmt : Z -> Z) (args : list vararg) : M Z :=
  loopM (fun '(buf, args) =>
    if fmt buf =? 0 then mret (inr buf)
    else if fmt buf =? 37 then
      '(buf, args) ← format_char fmt (buf + 1) args; mret (inl (buf + 1, args))
    else putc_sched (fmt buf) ;; mret (inl (buf + 1, args))) (0, args).

(** ** Number conversions *)

(** The text a conversion prints: a NUL-terminated string at the start index. *)
Definition conv_text (c : option (memory * Z)) (cs : list Z) : Prop :=
  exists m i, c = Some (m, i) /\ Forall (fun c => c <> 0) cs /\
    (forall j, 0 <= j < Z.of_nat (length cs) -> Some (rd m (i + j)) = cs !! Z.to_nat j) /\
    rd m (i + Z.of_nat (length cs)) = 0.

Definition numeral_chars (ds : list Z) : list Z := map digit_char ds.

Lemma length_numeral_chars ds : length (numeral_chars ds) = length ds.
Proof. apply length_map. Qed.

Lemma numeral_digits36 radix v ds : radix <= 36 -> numeral radix v ds ->
  Forall (fun d => 0 <= d < 36) ds.
Proof. intros Hr (F & _). eapply List.Forall_impl; [|exact F]. cbn. lia. Qed.

Lemma numeral_chars_nonzero ds : Forall (fun d => 0 <= d < 36) ds ->
  Forall (fun c => c <> 0) (numeral_chars ds).
Proof.
  intros F. apply Forall_map. eapply List.Forall_impl; [|exact F]. cbn. intros d Hd.
  pose proof (digit_char_lookup d Hd). lia.
Qed.

(** Reading back the bytes itoa stored at [p]. *)
Lemma numeral_read m0 m p ds j : Forall (fun d => 0 <= d < 36) ds -> (length ds <= 32)%nat ->
  mem_copied m0 m p (numeral_bytes ds) (Z.of_nat (length ds) + 1) ->
  0 <= j < Z.of_nat (length ds) -> Some (rd m (p + j)) = numeral_chars ds !! Z.to_nat j.
Proof.
  intros D L F Hj. rewrite (mem_copied_in _ _ _ _ _ _ F ltac:(lia) j) by (lia || done).
  unfold numeral_bytes. rewrite (proj2 (Z.ltb_lt _ _)) by lia.
  unfold numeral_chars. rewrite list_lookup_fmap. pose proof (char_at_pos ds j D Hj) as P.
  unfold char_at in *. destruct (lookup_lt_is_Some_2 ds (Z.to_nat j)) as [d E]; [lia|].
  rewrite E in *. cbn in *. by rewrite u8_small by lia.
Qed.

Lemma numeral_end m0 m p ds : (length ds <= 32)%nat ->
  mem_copied m0 m p (numeral_bytes ds) (Z.of_nat (length ds) + 1) ->
  rd m (p + Z.of_nat (length ds)) = 0.
Proof.
  intros L F. rewrite (mem_copied_in _ _ _ _ _ _ F ltac:(lia) (Z.of_nat (length ds))) by (lia || done).
  unfold numeral_bytes. by rewrite Z.ltb_irrefl.
Qed.

Lemma numeral_text m0 m p ds : Forall (fun d => 0 <= d < 36) ds -> (length ds <= 32)%nat ->
  mem_copied m0 m p (numeral_bytes ds) (Z.of_nat (length ds) + 1) ->
  is_cstr (at_ m p) (Z.of_nat (length ds)).
Proof.
  intros D L F. split; [lia|]. split; [|by apply (numeral_end m0)].
  intros j Hj E. pose proof (numeral_read m0 m p ds j D L F Hj) as H. unfold at_ in E. rewrite E in H.
  pose proof (numeral_chars_nonzero ds D) as N. symmetry in H.
  by apply (Forall_lookup_1 _ _ _ _ N H).
Qed.

(** A numeral without leading zeros is no longer than its value needs. *)
Lemma numeral_length radix v ds n : 2 <= radix -> 0 < n -> 0 <= v < radix ^ n ->
  numeral radix v ds -> Z.of_nat (length ds) <= n.
Proof.
  intros Hr Hn Hv (F & E & Hne & Hlead). destruct ds as [|d ds]; [done|].
  destruct (Z.eq_dec d 0) as [->|Hd].
  { specialize (Hlead eq_refl). injection Hlead as ->. cbn. lia. }
  rewrite reverse_cons, digit_value_app, length_reverse in E.
  apply Forall_cons_1 in F as [Hd0 F].
  assert (0 <= digit_value radix (reverse ds)) as Hge.
  { apply Forall_reverse in F. revert F. generalize (reverse ds). clear -Hr.
    induction 1 as [|e l He _ IH]; cbn; [lia|]. unfold digit_value in IH. nia. }
  assert (radix ^ Z.of_nat (length ds) <= v) by nia.
  assert (Z.of_nat (length ds) < n); [|cbn; lia].
  apply (Z.pow_lt_mono_r_iff radix); lia.
Qed.

(** The padding loop of "%#x". *)
Lemma hex_pad_loop m n : 0 <= n <= 8 ->
  exists m', run_loop (fun '(m, i) => if i <? 8 then inl (wr m i 48, i + 1) else inr m) (m, n) = Some m' /\
    mem_copied m m' n (fun _ => 48) (8 - n).
Proof.
  intros Hn.
  apply (run_loop_rule _ (fun '(m', i) => n <= i <= 8 /\ mem_copied m m' n (fun _ => 48) (i - n))
    (fun m' => mem_copied m m' n (fun _ => 48) (8 - n)) (fun '(_, i) => 8 - i)); [| |lia].
  - intros [m' i] [Hi F]. case_if.
    + split; [|lia]. split; [lia|]. replace (i + 1 - n) with (i - n + 1) by lia.
      apply mem_copied_wr; [lia|f_equal; lia|done|done].
    + by replace i with 8 in F by lia.
  - split; [lia|]. rewrite Z.sub_diag. apply mem_copied_0.
Qed.

Lemma conv_hex_alt_spec v : 0 <= v < W32 -> exists ds, numeral 16 v ds /\ (length ds <= 8)%nat /\
  conv_text (conv_hex_alt v) (replicate (8 - length ds) 48 ++ numeral_chars ds).
Proof.
  intros Hv. destruct (itoa_numeral ∅ v 8 16 Hv ltac:(lia)) as (m & ds & H & N & L & F).
  pose proof (numeral_digits36 16 v ds ltac:(lia) N) as D.
  assert (Z.of_nat (length ds) <= 8) as L8 by (apply (numeral_length 16 v); (lia || done)).
  exists ds. split; [done|]. split; [lia|]. unfold conv_hex_alt. rewrite H. obind.
  rewrite (strlen_spec _ (Z.of_nat (length ds))) by first [by eapply numeral_text|lia].
  destruct (hex_pad_loop m (Z.of_nat (length ds))) as (m' & -> & P); [lia|].
  exists m', (Z.of_nat (length ds)). split; [done|].
  assert (forall a, 8 <= a < 64 -> rd m' a = rd m a) as Hhi.
  { intros a Ha. apply (mem_copied_out _ _ _ _ _ _ P). rewrite u32_small; lia. }
  rewrite length_app, length_replicate, length_numeral_chars.
  split; [|split].
  - apply Forall_app. split; [by apply Forall_replicate|by apply numeral_chars_nonzero].
  - intros j Hj. destruct (Z_lt_le_dec j (8 - Z.of_nat (length ds))).
    + rewrite (mem_copied_in _ _ _ _ _ _ P ltac:(lia) j) by (lia || done).
      rewrite lookup_app_l by (rewrite length_replicate; lia). by rewrite lookup_replicate_2 by lia.
    + rewrite Hhi by lia. rewrite lookup_app_r by (rewrite length_replicate; lia). rewrite length_replicate.
      replace (Z.of_nat (length ds) + j) with (8 + (j - (8 - Z.of_nat (length ds)))) by lia.
      rewrite (numeral_read ∅ m 8 ds) by (lia || done). f_equal. lia.
  - rewrite Hhi by lia. rewrite <- (numeral_end ∅ m 8 ds) by (lia || done). f_equal. lia.
Qed.

Lemma conv_signed_spec v : exists ds, numeral 10 (Z.abs (i32 v)) ds /\
  conv_text (conv_signed v) ((if i32 v <? 0 then [45] else []) ++ numeral_chars ds).
Proof.
  unfold conv_signed. assert (- H32 <= i32 v < H32) as Hr by zlia. cbn zeta.
  destruct (i32 v <? 0) eqn:E; b2p.
  - rewrite (u32_small (- i32 v)) by lia.
    destruct (itoa_numeral (wr ∅ 0 45) (- i32 v) 1 10 ltac:(lia) ltac:(lia)) as (m & ds & H & N & L & F).
    pose proof (numeral_digits36 10 _ ds ltac:(lia) N) as D.
    exists ds. split; [by rewrite Z.abs_neq by lia|]. rewrite H. obind.
    assert (rd m 0 = 45) as H0.
    { rewrite (mem_copied_out _ _ _ _ _ _ F); [done|]. change (u32 (0 - 1)) with 4294967295. lia. }
    exists m, 0. split; [done|]. cbn [length app]. rewrite length_numeral_chars. split; [|split].
    + constructor; [done|by apply numeral_chars_nonzero].
    + intros j Hj. destruct (Z.eq_dec j 0) as [->|]; [change (0 + 0) with 0; by rewrite H0|].
      replace (Z.to_nat j) with (S (Z.to_nat (j - 1))) by lia. cbn.
      replace (0 + j) with (1 + (j - 1)) by lia. apply (numeral_read (wr ∅ 0 45) m); (done || lia).
    + etrans; [|by apply (numeral_end (wr ∅ 0 45) m 1 ds)]. f_equal. lia.
  - destruct (itoa_numeral ∅ (i32 v) 0 10 ltac:(lia) ltac:(lia)) as (m & ds & H & N & L & F).
    pose proof (numeral_digits36 10 _ ds ltac:(lia) N) as D.
    exists ds. split; [by rewrite Z.abs_eq by lia|]. rewrite H. obind. exists m, 0.
    split; [done|]. cbn [app]. rewrite length_numeral_chars. split; [by apply numeral_chars_nonzero|]. split.
    + intros j Hj. apply (numeral_read ∅ m); (done || lia).
    + by apply (numeral_end ∅ m 0 ds).
Qed.

Lemma conv_plain_spec radix v : 0 <= v < W32 -> 2 <= radix <= 36 -> exists ds, numeral radix v ds /\
  conv_text (m ← itoa ∅ v 0 radix; Some (m, 0)) (numeral_chars ds).
Proof.
  intros Hv Hr. destruct (itoa_numeral ∅ v 0 radix Hv Hr) as (m & ds & H & N & L & F).
  pose proof (numeral_digits36 radix _ ds ltac:(lia) N) as D. exists ds. split; [done|]. rewrite H. obind.
  exists m, 0. rewrite length_numeral_chars. split; [done|]. split; [by apply numeral_chars_nonzero|]. split.
  - intros j Hj. apply (numeral_read ∅ m); (done || lia).
  - by apply (numeral_end ∅ m 0 ds).
Qed.

(** A conversion's text is a C string with these characters. *)
Lemma conv_text_chars m i cs : Forall (fun c => c <> 0) cs ->
  (forall j, 0 <= j < Z.of_nat (length cs) -> Some (rd m (i + j)) = cs !! Z.to_nat j) ->
  rd m (i + Z.of_nat (length cs)) = 0 ->
  is_cstr (at_ m i) (Z.of_nat (length cs)) /\ chars (at_ m i) (Z.of_nat (length cs)) = cs.
Proof.
  intros Hnz Hr Hz. split.
  - split; [lia|]. split; [|done]. intros j Hj E. specialize (Hr j Hj). unfold at_ in E. rewrite E in Hr.
    by apply (Forall_lookup_1 _ _ _ _ Hnz (eq_sym Hr)).
  - apply list_eq. intros j. unfold chars. rewrite list_lookup_fmap. destruct (decide (j < length cs)%nat).
    + rewrite lookup_seqZ_lt by lia. cbn. rewrite Z.add_0_l. unfold at_. rewrite Hr by lia. f_equal. lia.
    + rewrite lookup_seqZ_ge by lia. cbn. symmetry. apply lookup_ge_None_2. lia.
Qed.

(** ** Formatted text

    The text of a format and its arguments, as a relation: a format is a list of
    characters; [converts alt l args u l' args'] reads one conversion after its
    percent sign, prints [u] and leaves the format [l'] and the arguments [args']. *)

Inductive converts : bool -> list Z -> list vararg -> list Z -> list Z -> list vararg -> Prop :=
| conv_percent alt l args : converts alt (37 :: l) args [37] l args
| conv_alt alt l args u l' args' : converts true l args u l' args' -> converts alt (35 :: l) args u l' args'
| conv_x l a args ds : numeral 16 (va_word a) ds ->
    converts false (120 :: l) (a :: args) (numeral_chars ds) l args
| conv_x_alt l a args ds : numeral 16 (va_word a) ds -> (length ds <= 8)%nat ->
    converts true (120 :: l) (a :: args) (replicate (8 - length ds) 48 ++ numeral_chars ds) l args
| conv_u alt l a args ds : numeral 10 (va_word a) ds ->
    converts alt (117 :: l) (a :: args) (numeral_chars ds) l args
| conv_d alt l a args ds : numeral 10 (Z.abs (i32 (va_word a))) ds ->
    converts alt (100 :: l) (a :: args) ((if i32 (va_word a) <? 0 then [45] else []) ++ numeral_chars ds) l args
| conv_c alt l a args : converts alt (99 :: l) (a :: args) [u8 (va_word a)] l args
| conv_s alt l a args n : is_cstr (va_str a) n -> converts alt (115 :: l) (a :: args) (chars (va_str a) n) l args
| conv_other alt c l args : c ∉ [37; 35; 120; 117; 100; 99; 115] -> converts alt (c :: l) args [] l args.

Inductive formats : list Z -> list vararg -> list Z -> Prop :=
| formats_end args : formats [] args []
| formats_char c l args t : c <> 37 -> formats l args t -> formats (c :: l) args (c :: t)
| formats_conv l args u l' args' t : converts false l args u l' args' -> formats l' args' t ->
    formats (37 :: l) args (u ++ t).

(** How many arguments a format takes; [None] when it ends inside a conversion. *)
Fixpoint arity (conv : bool) (l : list Z) : option nat :=
  match l with
  | [] => if conv then None else Some 0%nat
  | c :: l =>
    if conv then
      if c =? 35 then arity true l
      else if bool_decide (c ∈ [120; 117; 100; 99; 115]) then S <$> arity false l
      else arity false l
    else arity (c =? 37) l
  end.

(** An argument is a word, and points to a string where a string is expected. *)
Definition va_ok (a : vararg) : Prop := 0 <= va_word a < W32 /\ exists n, is_cstr (va_str a) n /\ n < W32.
Definition va_num (v : Z) : vararg := mk_va v (fun _ => 0).

(** ** Printing on the scheduled terminal *)

Definition prints {A} (c : M A) (Q : A -> list Z -> Prop) : Prop := forall k s,
  let i := sched_term_id (k_disp k) in
  shows k i s -> pos_ok s ->
  wp c (fun r k' => exists text, Q r text /\
    shows k' i (text_spec (color (k_disp k)) text s) /\ out_frame i k k') k.

Lemma text_spec_app col t1 t2 s : text_spec col (t1 ++ t2) s = text_spec col t2 (text_spec col t1 s).
Proof. apply fold_left_app. Qed.

Lemma out_frame_sched i k k' : out_frame i k k' -> sched_term_id (k_disp k') = sched_term_id (k_disp k).
Proof. by intros (? & ? & ? & ? & _ & _ & _ & _ & _ & ->). Qed.

Lemma prints_mret {A} (a : A) (Q : A -> list Z -> Prop) : Q a [] -> prints (mret a) Q.
Proof. intros HQ k s i Hs Hok. apply wp_mret. exists []. split_and!; [done..|by eapply out_frame_refl]. Qed.

Lemma prints_bind {A B} (c : M A) (f : A -> M B) Q R :
  prints c Q -> (forall a t, Q a t -> prints (f a) (fun b u => R b (t ++ u))) -> prints (c ≫= f) R.
Proof.
  intros Hc Hf k s i Hs Hok. apply wp_bind. eapply wp_mono; [|by apply Hc].
  intros a k1 (t & HQ & Hs1 & F1). pose proof (out_frame_sched _ _ _ F1) as Es.
  specialize (Hf a t HQ k1 (text_spec (color (k_disp k)) t s)). cbv zeta in Hf. rewrite Es in Hf.
  eapply wp_mono; [|apply Hf; [exact Hs1|by apply text_spec_ok]].
  intros b k2 (u & HR & Hs2 & F2). exists (t ++ u). split; [done|]. rewrite text_spec_app.
  rewrite (out_frame_color _ _ _ F1) in Hs2. split; [exact Hs2|]. by eapply out_frame_trans.
Qed.

Lemma prints_mono {A} (c : M A) (Q Q' : A -> list Z -> Prop) :
  prints c Q -> (forall a t, Q a t -> Q' a t) -> prints c Q'.
Proof.
  intros Hc HQ k s i Hs Hok. eapply wp_mono; [|by apply Hc]. intros a k' (t & ? & ?). exists t. split; auto.
Qed.

Lemma prints_loop {S R} (body : S -> M (S + R)) (I : S -> list Z -> Prop) (Q : R -> list Z -> Prop) (var : S -> Z) s0 :
  (forall s t, I s t -> prints (body s) (fun r u =>
     match r with inl s' => I s' (t ++ u) /\ 0 <= var s' < var s | inr r => Q r (t ++ u) end)) ->
  I s0 [] -> var s0 < W32 -> prints (loopM body s0) Q.
Proof.
  intros Hb H0 Hv k s i Hs Hok.
  apply (wp_loopM _ (fun st k' => exists t, I st t /\ shows k' i (text_spec (color (k_disp k)) t s) /\ out_frame i k k')
    _ var); [| |done].
  - intros st k1 (t & Ht & Hs1 & F1). specialize (Hb st t Ht k1 (text_spec (color (k_disp k)) t s)). cbv zeta in Hb.
    rewrite (out_frame_sched _ _ _ F1) in Hb. eapply wp_mono; [|apply Hb; [exact Hs1|by apply text_spec_ok]].
    intros r k2 (u & Hr & Hs2 & F2). rewrite (out_frame_color _ _ _ F1), <- text_spec_app in Hs2.
    pose proof (out_frame_trans _ _ _ _ F1 F2). destruct r as [st'|r]; [split; [|apply Hr]|]; exists (t ++ u); (split; [apply Hr|by split]).
  - exists []. split_and!; [done..|by eapply out_frame_refl].
Qed.

Lemma prints_putc c : prints (putc_sched c) (fun _ t => t = [u8 c]).
Proof.
  intros k s i Hs Hok. unfold putc_sched. do 2 wp_step.
  eapply wp_mono; [|by eapply outs_putc]. intros [] k' [? ?]. by exists [u8 c].
Qed.

Lemma prints_puts f n : is_cstr f n -> n < W32 -> prints (puts_sched f) (fun _ t => t = chars f n).
Proof.
  intros Hf Hn k s i Hs Hok. unfold puts_sched. do 2 wp_step. apply wp_bind.
  eapply wp_mono; [|by apply (wp_puts _ f n s)]. intros r k' (_ & ? & ?). wp_steps. by exists (chars f n).
Qed.

Lemma prints_conv c cs : conv_text c cs -> prints (put_conv c) (fun _ t => t = cs).
Proof.
  intros (m & i & -> & Hnz & Hr & Hz). destruct (conv_text_chars m i cs Hnz Hr Hz) as [C1 C2].
  assert (Z.of_nat (length cs) < W32) as Hl.
  { destruct (Z_lt_le_dec (Z.of_nat (length cs)) W32) as [|Hge]; [done|]. exfalso. destruct C1 as (_ & C1 & _).
    apply (C1 (Z.of_nat (length cs) - W32)); [lia|]. unfold at_. rewrite <- Hz. apply rd_eq_addr. zlia. }
  intros k s j Hs Hok. unfold put_conv. apply wp_bind. eapply wp_lift; [done|]. cbn beta iota.
  eapply wp_mono; [|by apply (prints_puts _ _ C1 Hl k s)]. rewrite C2. intros [] k' (t & -> & ?). by exists cs.
Qed.

(** ** The format interpreter *)

(** What is left of a format from index [i] on. *)
Definition rest (fmt : Z -> Z) (n i : Z) : list Z := map fmt (seqZ i (n - i)).

Lemma rest_cons fmt n i : i < n -> rest fmt n i = fmt i :: rest fmt n (i + 1).
Proof. intros Hi. unfold rest. rewrite seqZ_cons by lia. cbn. do 3 f_equal. lia. Qed.

Lemma rest_nil fmt n i : n <= i -> rest fmt n i = [].
Proof. intros Hi. unfold rest. by rewrite seqZ_nil by lia. Qed.

(** Enough good arguments for the format [l]. *)
Definition args_for (conv : bool) (l : list Z) (args : list vararg) : Prop :=
  Forall va_ok args /\ exists j, arity conv l = Some j /\ (j <= length args)%nat.

Lemma args_for_take c l args : c ∈ [120; 117; 100; 99; 115] -> args_for true (c :: l) args ->
  exists a args', args = a :: args' /\ va_ok a /\ args_for false l args'.
Proof.
  intros Hc (F & j & Hj & Hl). cbn [arity] in Hj.
  rewrite (proj2 (Z.eqb_neq c 35)) in Hj by (intros ->; revert Hc; set_solver).
  rewrite bool_decide_true in Hj by done. destruct (arity false l) as [j'|] eqn:E; [|done]. injection Hj as <-.
  destruct args as [|a args']; [cbn in Hl; lia|]. apply Forall_cons_1 in F as [Fa F].
  exists a, args'. split_and!; [done..|]. split; [done|]. exists j'. split; [done|]. cbn in Hl. lia.
Qed.

Lemma args_for_other c l args : c <> 35 -> c ∉ [120; 117; 100; 99; 115] -> args_for true (c :: l) args ->
  args_for false l args.
Proof.
  intros Hc Hn (F & j & Hj & Hl). cbn [arity] in Hj. rewrite (proj2 (Z.eqb_neq c 35)) in Hj by done.
  rewrite bool_decide_false in Hj by done. split; [done|]. by exists j.
Qed.

Section interpreter.
Context (fmt : Z -> Z) (n : Z).
Hypothesis Hb : is_bytes fmt.
Hypothesis Hc : is_cstr fmt n.
Hypothesis Hn : n < W32.

(** The result of one turn of the conversion switch at index [b]. *)
Definition turn (alt : bool) (b : Z) (args : list vararg) (r : (bool * Z) + (Z * list vararg)) (t : list Z) : Prop :=
  match r with
  | inl (alt', b') => alt' = true /\ b' = b + 1 /\ fmt b = 35 /\ t = []
  | inr (b', args') => b' = b /\ converts alt (rest fmt n b) args t (rest fmt n (b + 1)) args' /\
      args_for false (rest fmt n (b + 1)) args'
  end.

Lemma turn_done alt b args args' (c : M unit) u :
  converts alt (rest fmt n b) args u (rest fmt n (b + 1)) args' -> args_for false (rest fmt n (b + 1)) args' ->
  prints c (fun _ t => t = u) -> prints (c ;; mret (inr (b, args'))) (turn alt b args).
Proof using All.
  intros Hcv Ha Hp. eapply prints_bind; [exact Hp|]. intros [] t ->. apply prints_mret. rewrite app_nil_r. by split_and!.
Qed.

(** A turn that takes an argument: [c a] prints [u a]. *)
Lemma turn_arg alt b args (c : vararg -> M unit) :
  b < n -> fmt b ∈ [120; 117; 100; 99; 115] -> args_for true (rest fmt n b) args ->
  (forall a l args', va_ok a -> exists u, converts alt (fmt b :: l) (a :: args') u l args' /\ prints (c a) (fun _ t => t = u)) ->
  prints ('(a, args) ← next_arg args; c a ;; mret (inr (b, args))) (turn alt b args).
Proof using All.
  intros Hbn Hin Ha Hu. rewrite rest_cons in Ha by done.
  destruct (args_for_take _ _ _ Hin Ha) as (a & args' & -> & Hok & Ha').
  destruct (Hu a (rest fmt n (b + 1)) args' Hok) as (u & Hcv & Hp).
  change (prints (c a ;; mret (inr (b, args'))) (turn alt b (a :: args'))).
  eapply turn_done; [rewrite rest_cons by done; exact Hcv|done|done].
Qed.

Lemma turn_spec alt b args : 0 <= b < n -> args_for true (rest fmt n b) args ->
  prints (
    let c := fmt b in
    if c =? 37 then putc_sched 37 ;; mret (inr (b, args))
    else if c =? 35 then mret (inl (true, b + 1))
    else if c =? 120 then
      '(a, args) ← next_arg args;
      (if alt : bool then put_conv (conv_hex_alt (va_word a)) else put_conv (conv_hex (va_word a))) ;;
      mret (inr (b, args))
    else if c =? 117 then
      '(a, args) ← next_arg args; put_conv (conv_unsigned (va_word a)) ;; mret (inr (b, args))
    else if c =? 100 then
      '(a, args) ← next_arg args; put_conv (conv_signed (va_word a)) ;; mret (inr (b, args))
    else if c =? 99 then
      '(a, args) ← next_arg args; putc_sched (va_word a) ;; mret (inr (b, args))
    else if c =? 115 then
      '(a, args) ← next_arg args; puts_sched (va_str a) ;; mret (inr (b, args))
    else mret (inr (b, args))) (turn alt b args).
Proof using All.
  intros [Hb0 Hbn] Ha. cbv zeta.
  destruct (Z.eqb_spec (fmt b) 37) as [E|N1].
  { eapply turn_done; [| |apply prints_putc].
    - rewrite rest_cons, E by done. constructor.
    - rewrite rest_cons in Ha by done. eapply args_for_other; [| |exact Ha]; rewrite E; [done|set_solver]. }
  destruct (Z.eqb_spec (fmt b) 35) as [E|N2]; [by apply prints_mret|].
  destruct (Z.eqb_spec (fmt b) 120) as [E|N3].
  { eapply (turn_arg _ _ _ (fun a => if alt then put_conv (conv_hex_alt (va_word a)) else put_conv (conv_hex (va_word a))));
      [done|rewrite E; set_solver|done|]. intros a l args' [Hv _]. rewrite E. destruct alt.
    - destruct (conv_hex_alt_spec _ Hv) as (ds & N & L & T). eexists. split; [by apply conv_x_alt|by apply prints_conv].
    - destruct (conv_plain_spec 16 _ Hv ltac:(lia)) as (ds & N & T). eexists. split; [by apply conv_x|by apply prints_conv]. }
  destruct (Z.eqb_spec (fmt b) 117) as [E|N4].
  { apply (turn_arg _ _ _ (fun a => put_conv (conv_unsigned (va_word a)))); [done|rewrite E; set_solver|done|].
    intros a l args' [Hv _]. rewrite E. destruct (conv_plain_spec 10 _ Hv ltac:(lia)) as (ds & N & T).
    eexists. split; [by apply conv_u|by apply prints_conv]. }
  destruct (Z.eqb_spec (fmt b) 100) as [E|N5].
  { apply (turn_arg _ _ _ (fun a => put_conv (conv_signed (va_word a)))); [done|rewrite E; set_solver|done|].
    intros a l args' _. rewrite E. destruct (conv_signed_spec (va_word a)) as (ds & N & T).
    eexists. split; [by apply conv_d|by apply prints_conv]. }
  destruct (Z.eqb_spec (fmt b) 99) as [E|N6].
  { apply (turn_arg _ _ _ (fun a => putc_sched (va_word a))); [done|rewrite E; set_solver|done|].
    intros a l args' _. rewrite E. eexists. split; [apply conv_c|apply prints_putc]. }
  destruct (Z.eqb_spec (fmt b) 115) as [E|N7].
  { apply (turn_arg _ _ _ (fun a => puts_sched (va_str a))); [done|rewrite E; set_solver|done|].
    intros a l args' (_ & j & Hj & Hw). rewrite E. eexists. split; [by apply (conv_s _ _ _ _ j)|by apply prints_puts]. }
  apply prints_mret. split; [done|]. rewrite rest_cons in Ha |- * by done. split.
  - apply conv_other. set_solver.
  - eapply args_for_other; [| |exact Ha]; [done|set_solver].
Qed.

(** A whole conversion, its alternate flags included. *)
Lemma format_char_spec b args : 0 <= b -> args_for true (rest fmt n b) args ->
  prints (format_char fmt b args) (fun '(b', args') t => b <= b' < n /\
    converts false (rest fmt n b) args t (rest fmt n (b' + 1)) args' /\ args_for false (rest fmt n (b' + 1)) args').
Proof using All.
  intros Hb0 Ha. unfold format_char.
  apply (prints_loop _ (fun '(alt, i) t => t = [] /\ b <= i /\ args_for true (rest fmt n i) args /\
    forall u l' args', converts alt (rest fmt n i) args u l' args' -> converts false (rest fmt n b) args u l' args')
    _ (fun '(_, i) => n - i)); [|by split_and!|lia].
  intros [alt i] t (-> & Hi & Hai & Hk).
  assert (i < n) as Hin.
  { destruct (Z_lt_le_dec i n) as [|Hge]; [done|]. rewrite rest_nil in Hai by done. by destruct Hai as (_ & j & Hj & _). }
  eapply prints_mono; [apply turn_spec; [lia|done]|]. intros [[alt' i']|[i' args']] t.
  - intros (-> & -> & E & ->). rewrite rest_cons in Hai by done. destruct Hai as (F & j & Hj & Hl). cbn [arity] in Hj.
    rewrite (proj2 (Z.eqb_eq _ _) E) in Hj. split; [|lia]. split_and!; [done|lia|by split; [|exists j]|].
    intros u l' args' Hcv. apply Hk. rewrite rest_cons, E by done. by apply conv_alt.
  - intros (-> & Hcv & Ha'). split_and!; [lia|lia|by apply Hk|done].
Qed.

Lemma printf_spec args : args_for false (rest fmt n 0) args ->
  prints (printf fmt args) (fun r t => r = n /\ formats (rest fmt n 0) args t).
Proof using All.
  intros Ha. destruct Hc as (Hn0 & Hnz & Hz). unfold printf.
  apply (prints_loop _ (fun '(i, args') t => 0 <= i <= n /\ args_for false (rest fmt n i) args' /\
    forall u, formats (rest fmt n i) args' u -> formats (rest fmt n 0) args (t ++ u))
    _ (fun '(i, _) => n - i)); [|by split_and!|lia].
  intros [i args'] t (Hi & Hai & Hk). destruct (Z.eqb_spec (fmt i) 0) as [E|Ne].
  { assert (i = n) as -> by (destruct (Z.eq_dec i n); [done|]; exfalso; apply (Hnz i); [lia|done]).
    apply prints_mret. split; [done|]. apply Hk. rewrite rest_nil by lia. constructor. }
  assert (i < n) by (destruct (Z.eq_dec i n) as [->|]; [done|lia]).
  rewrite rest_cons in Hai, Hk by done. destruct (Z.eqb_spec (fmt i) 37) as [E|Np].
  - assert (args_for true (rest fmt n (i + 1)) args') as Ha1.
    { destruct Hai as (F & j & Hj & Hl). cbn [arity] in Hj. rewrite (proj2 (Z.eqb_eq _ _) E) in Hj. split; [done|by exists j]. }
    eapply prints_bind; [apply (format_char_spec (i + 1)); [lia|done]|]. intros [b' args''] u (Hb' & Hcv & Ha').
    apply prints_mret. rewrite app_nil_r. split; [|lia]. split_and!; [lia|lia|done|]. intros v Hv.
    rewrite <- app_assoc. apply Hk. rewrite E. by eapply formats_conv.
  - eapply prints_bind; [apply prints_putc|]. intros [] u ->. apply prints_mret. rewrite app_nil_r, u8_small by apply Hb.
    split; [|lia]. split_and!; [lia|lia| |].
    + destruct Hai as (F & j & Hj & Hl). cbn [arity] in Hj. rewrite (proj2 (Z.eqb_neq _ _) Np) in Hj. split; [done|by exists j].
    + intros v Hv. rewrite <- app_assoc. apply Hk. by apply formats_char.
Qed.

End interpreter.

(** printf of a literal. *)
Lemma prints_printf l args : text_ok l = true -> Z.of_nat (length l) < W32 -> args_for false l args ->
  prints (printf (arr_at (l ++ [0])) args) (fun r t => r = Z.of_nat (length l) /\ formats l args t).
Proof.
  intros T L A. destruct (arr_at_text l T) as [B C].
  assert (rest (arr_at (l ++ [0])) (Z.of_nat (length l)) 0 = l) as E.
  { unfold rest. rewrite Z.sub_0_r. apply chars_arr_at. }
  rewrite <- E in A. pose proof (printf_spec _ _ B C L args A) as P. by rewrite E in P.
Qed.

(** Without conversions the text is the format itself. *)
Lemma formats_app p l args t : Forall (fun c => c <> 37) p -> formats (p ++ l) args t ->
  exists u, t = p ++ u /\ formats l args u.
Proof.
  intros Hp. revert t. induction Hp as [|c p Hc _ IH]; intros t F; [by exists t|]. cbn [app] in F.
  inversion F; subst; [|done]. destruct (IH _ ltac:(eassumption)) as (u & -> & ?). by exists u.
Qed.

Lemma formats_plain l args t : Forall (fun c => c <> 37) l -> formats l args t -> t = l.
Proof.
  intros Hl F. rewrite <- (app_nil_r l) in F. destruct (formats_app _ _ _ _ Hl F) as (u & -> & Fu).
  inversion Fu. apply app_nil_r.
Qed.

Lemma arity_plain l : Forall (fun c => c <> 37) l -> arity false l = Some 0%nat.
Proof. induction 1 as [|c l Hc _ IH]; [done|]. cbn [arity]. by rewrite (proj2 (Z.eqb_neq c 37)). Qed.

(** ** Properties *)

(** [C38] printf implements its formats: for every format that does not end inside a
    conversion, with arguments enough for its conversions, it returns (after
    finitely many steps) the length of the format, and has printed on the
    scheduled terminal exactly the formatted text: the characters as they are,
    "%d" as the signed decimal numeral (the most negative word included), "%u" and
    "%x" as numerals, "%#x" padded to eight digits, "%c", "%s" and "%%"; nothing
    but that terminal's page and position changes. *)
Theorem printf_prints_format fmt n args k s :
  is_bytes fmt -> is_cstr fmt n -> n < W32 -> args_for false (chars fmt n) args ->
  shows k (sched_term_id (k_disp k)) s -> pos_ok s ->
  exists text k', formats (chars fmt n) args text /\ printf fmt args k = Ret n k' /\
    shows k' (sched_term_id (k_disp k)) (text_spec (color (k_disp k)) text s) /\
    out_frame (sched_term_id (k_disp k)) k k'.
Proof.
  intros B C W Ha Hs Hok. assert (chars fmt n = rest fmt n 0) as E by (unfold chars, rest; by rewrite Z.sub_0_r).
  rewrite E in *. pose proof (printf_spec fmt n B C W args Ha k s Hs Hok) as H.
  apply wp_ret_iff in H as (r & k' & -> & t & [-> F] & S & O). by exists t, k'.
Qed.

(** "v=%d" of -5 *)
Lemma printf_prints_format_witness : exists text k',
  formats [118; 61; 37; 100] [va_num 4294967291] text /\
  printf (arr_at [118; 61; 37; 100; 0]) [va_num 4294967291] kernel_quiet = Ret 4 k' /\
  shows k' 0 (text_spec 7 text (screen_at kernel_quiet term_boot)).
Proof.
  destruct (printf_prints_format (arr_at [118; 61; 37; 100; 0]) 4 [va_num 4294967291] kernel_quiet
    (screen_at kernel_quiet term_boot)) as (t & k' & F & H & Hs & _).
  - apply (arr_at_text [118; 61; 37; 100]). reflexivity.
  - apply (arr_at_text [118; 61; 37; 100]). reflexivity.
  - lia.
  - split; [apply Forall_singleton; split; [cbn; lia|exists 0; split; [|lia]]; split_and!; [lia|lia|done]|].
    exists 1%nat. split; [vm_compute; reflexivity|cbn; lia].
  - by apply shows_screen_at.
  - split; cbn; lia.
  - exists t, k'. split_and!; [exact F|exact H|exact Hs].
Defined.
