(* ===== verification/I8259.v ===== *)
(** * The 8259 interrupt controllers (i8259.c)

    Masks of the two controllers, end-of-interrupt, and the invariant that the
    software masks mirror what was last written to the mask ports. *)

From Stdlib Require Import ZArith Lia String.
From stdpp Require Import gmap list numbers strings.
From S2P Require Import Prelude Memory LibString State Display Printf.

Abbreviation MASTER_8259_PORT := 0x20.
Abbreviation MASTER_8259_PORT_2 := 0x21.
Abbreviation SLAVE_8259_PORT := 0xA0.
Abbreviation SLAVE_8259_PORT_2 := 0xA1.
Abbreviation ICW1 := 0x11.
Abbreviation ICW2_MASTER := 0x20.
Abbreviation ICW2_SLAVE := 0x28.
Abbreviation ICW3_MASTER := 0x04.
Abbreviation ICW3_SLAVE := 0x02.
Abbreviation ICW4 := 0x01.
Abbreviation OFF_MASK := 0xFF.
Abbreviation MASTER_IRQ_NUM := 7.
Abbreviation SLAVE_IRQ_NUM := 15.
Abbreviation EOI := 0x60.

(** ** Definitions *)

Definition upd_pic (f : pic_t -> pic_t) : M unit := modify (fun k => set_k_pic (f (k_pic k)) k).

Definition undefined_irq (msg : string) (irq_num : Z) : M unit :=
  printf (lit msg) [mk_va irq_num (fun _ => 0)] ;; skip.

Definition enable_irq (irq_num : Z) : M unit :=
  if (0 <=? irq_num) && (irq_num <=? MASTER_IRQ_NUM) then
    upd_pic (fun p => set_master_mask (u8 (Z.land (master_mask p) (Z.lnot (Z.shiftl 1 irq_num)))) p) ;;
    p ← gets k_pic; outb (master_mask p) MASTER_8259_PORT_2
  else if (MASTER_IRQ_NUM + 1 <=? irq_num) && (irq_num <=? SLAVE_IRQ_NUM) then
    upd_pic (fun p => set_slave_mask (u8 (Z.land (slave_mask p) (Z.lnot (Z.shiftl 1 (irq_num - 8))))) p) ;;
    p ← gets k_pic; outb (slave_mask p) SLAVE_8259_PORT_2
  else undefined_irq "enable_irq undefined for irq_num %d" irq_num.

Definition disable_irq (irq_num : Z) : M unit :=
  if (0 <=? irq_num) && (irq_num <=? MASTER_IRQ_NUM) then
    upd_pic (fun p => set_master_mask (u8 (Z.lor (master_mask p) (Z.shiftl 1 irq_num))) p) ;;
    p ← gets k_pic; outb (master_mask p) MASTER_8259_PORT_2
  else if (MASTER_IRQ_NUM + 1 <=? irq_num) && (irq_num <=? SLAVE_IRQ_NUM) then
    upd_pic (fun p => set_slave_mask (u8 (Z.lor (slave_mask p) (Z.shiftl 1 (irq_num - 8)))) p) ;;
    p ← gets k_pic; outb (slave_mask p) SLAVE_8259_PORT_2
  else undefined_irq "disable_irq undefined for irq_num %d" irq_num.

Definition send_eoi (irq_num : Z) : M unit :=
  if (0 <=? irq_num) && (irq_num <=? MASTER_IRQ_NUM) then
    outb (Z.lor irq_num EOI) MASTER_8259_PORT
  else if (MASTER_IRQ_NUM + 1 <=? irq_num) && (irq_num <=? SLAVE_IRQ_NUM) then
    outb (Z.lor (irq_num - 8) EOI) SLAVE_8259_PORT ;;
    outb (Z.lor 2 EOI) MASTER_8259_PORT
  else undefined_irq "Send_eoi undefined for irq_num %d" irq_num.

Definition i8259_init : M unit :=
  outb ICW1 MASTER_8259_PORT ;;
  outb ICW2_MASTER MASTER_8259_PORT_2 ;;
  outb ICW3_MASTER MASTER_8259_PORT_2 ;;
  outb ICW4 MASTER_8259_PORT_2 ;;
  outb ICW1 SLAVE_8259_PORT ;;
  outb ICW2_SLAVE SLAVE_8259_PORT_2 ;;
  outb ICW3_SLAVE SLAVE_8259_PORT_2 ;;
  outb ICW4 SLAVE_8259_PORT_2 ;;
  outb OFF_MASK MASTER_8259_PORT_2 ;;
  outb OFF_MASK SLAVE_8259_PORT_2 ;;
  upd_pic (set_master_mask OFF_MASK) ;;
  upd_pic (set_slave_mask OFF_MASK) ;;
  enable_irq 2.

(** ** The mask as a set of lines *)

(** Line [b] is masked, in the software masks. *)
Definition masked (k : kernel) (b : Z) : bool :=
  if b <=? 7 then Z.testbit (master_mask (k_pic k)) b else Z.testbit (slave_mask (k_pic k)) (b - 8).

(** The value last written to a port. *)
Fixpoint last_out (port : Z) (io : list io_event) : option Z :=
  match io with
  | [] => None
  | PortOut p d :: io' => if p =? port then Some d else last_out port io'
  | PortIn _ _ :: io' => last_out port io'
  end.

(** The controllers hold the software masks. *)
Definition pic_sync (k : kernel) : Prop :=
  last_out MASTER_8259_PORT_2 (k_io k) = Some (master_mask (k_pic k)) /\
  last_out SLAVE_8259_PORT_2 (k_io k) = Some (slave_mask (k_pic k)) /\
  0 <= master_mask (k_pic k) < W8 /\ 0 <= slave_mask (k_pic k) < W8.

Inductive pic_op := Enable (irq : Z) | Disable (irq : Z) | Eoi (irq : Z).

Definition pic_run (o : pic_op) : M unit :=
  match o with Enable irq => enable_irq irq | Disable irq => disable_irq irq | Eoi irq => send_eoi irq end.

Fixpoint pic_runs (os : list pic_op) : M unit :=
  match os with [] => skip | o :: os' => pic_run o ;; pic_runs os' end.

Definition pic_irq (o : pic_op) : Z := match o with Enable i | Disable i | Eoi i => i end.

(** Abstractly: a set of masked lines. *)
Definition pic_spec (f : Z -> bool) (o : pic_op) : Z -> bool := fun b =>
  match o with
  | Enable irq => if b =? irq then false else f b
  | Disable irq => if b =? irq then true else f b
  | Eoi _ => f b
  end.

Definition pic_refines (k : kernel) (f : Z -> bool) : Prop :=
  pic_sync k /\ forall b, 0 <= b <= 15 -> masked k b = f b.

Lemma testbit_u8 x b : 0 <= b < 8 -> Z.testbit (u8 x) b = Z.testbit x b.
Proof. intros Hb. unfold u8. change W8 with (2 ^ 8). by rewrite Z.mod_pow2_bits_low by lia. Qed.

Lemma testbit_clear x n b : 0 <= n < 8 -> 0 <= b < 8 ->
  Z.testbit (u8 (Z.land x (Z.lnot (Z.shiftl 1 n)))) b = if b =? n then false else Z.testbit x b.
Proof.
  intros Hn Hb. rewrite testbit_u8, Z.land_spec, Z.lnot_spec, Z.shiftl_spec by lia.
  destruct (b =? n) eqn:E; b2p.
  - subst. rewrite Z.sub_diag. cbn. by rewrite andb_false_r.
  - destruct (Z.testbit 1 (b - n)) eqn:T; [|by rewrite andb_true_r].
    exfalso. destruct (Z_lt_le_dec (b - n) 0); [by rewrite Z.testbit_neg_r in T|].
    rewrite (Z.bits_above_log2 1 (b - n)) in T; [done|lia|]. change (Z.log2 1) with 0. lia.
Qed.

Lemma testbit_set x n b : 0 <= n < 8 -> 0 <= b < 8 ->
  Z.testbit (u8 (Z.lor x (Z.shiftl 1 n))) b = if b =? n then true else Z.testbit x b.
Proof.
  intros Hn Hb. rewrite testbit_u8, Z.lor_spec, Z.shiftl_spec by lia.
  destruct (b =? n) eqn:E; b2p.
  - subst. rewrite Z.sub_diag. cbn. by rewrite orb_true_r.
  - destruct (Z.testbit 1 (b - n)) eqn:T; [|by rewrite orb_false_r].
    exfalso. destruct (Z_lt_le_dec (b - n) 0); [by rewrite Z.testbit_neg_r in T|].
    rewrite (Z.bits_above_log2 1 (b - n)) in T; [done|lia|]. change (Z.log2 1) with 0. lia.
Qed.

Lemma last_out_same port d io : last_out port (PortOut port d :: io) = Some d.
Proof. cbn. by rewrite Z.eqb_refl. Qed.

(** One operation on a line of the controllers. *)
Lemma pic_run_refines o k f : 0 <= pic_irq o <= 15 -> pic_refines k f ->
  wp (pic_run o) (fun _ k' => pic_refines k' (pic_spec f o)) k.
Proof.
  intros Hi [(S1 & S2 & R1 & R2) Hm].
  destruct o as [irq|irq|irq]; cbn [pic_run pic_irq] in *;
    unfold enable_irq, disable_irq, send_eoi;
    destruct (Z_le_gt_dec irq 7);
    rewrite ?(proj2 (Z.leb_le 0 irq)), ?(proj2 (Z.leb_le irq 7)), ?(proj2 (Z.leb_gt irq 7)),
      ?(proj2 (Z.leb_le (7 + 1) irq)), ?(proj2 (Z.leb_le irq 15)) by lia; cbn [andb];
    unfold upd_pic; wp_steps; unfold pic_refines, pic_sync; cbn -[u8];
    rewrite ?Z.eqb_refl, ?u8_u8; cbn -[u8].
  all: split; [split_and!; first [done | lia | apply u8_range]|].
  all: intros b Hb; specialize (Hm b Hb); unfold masked in *; cbn -[u8].
  all: destruct (b <=? 7) eqn:Eb; b2p; rewrite ?testbit_clear, ?testbit_set by lia; rewrite ?Hm;
    repeat match goal with |- context [?x =? ?y] => destruct (Z.eqb_spec x y) end; (done || lia).
Qed.

Lemma pic_runs_refines os : forall k f, Forall (fun o => 0 <= pic_irq o <= 15) os -> pic_refines k f ->
  wp (pic_runs os) (fun _ k' => pic_refines k' (fold_left pic_spec os f)) k.
Proof.
  induction os as [|o os IH]; intros k f Ho Hk; [exact Hk|]. cbn [pic_runs fold_left].
  apply Forall_cons_1 in Ho as [Ho Hos].
  apply wp_bind. eapply wp_mono; [|by apply pic_run_refines]. intros [] k' Hk'. by apply IH.
Qed.

Lemma i8259_init_refines k :
  wp i8259_init (fun _ k' => pic_refines k' (fun b => negb (b =? 2))) k.
Proof.
  unfold i8259_init, enable_irq, upd_pic. cbn [Z.leb Z.compare andb].
  wp_steps. unfold pic_refines, pic_sync. cbn. split; [repeat split; (done || lia)|].
  intros b Hb. unfold masked. cbn.
  apply (Bool.eqb_prop _ _), (forallb_range (fun b => Bool.eqb
    (if b <=? 7 then Z.testbit 251 b else Z.testbit 255 (b - 8)) (negb (b =? 2))) 0 16);
    [vm_compute; done|lia].
Qed.

(** ** Properties *)

(** [C35] After i8259_init and any sequence of enable_irq, disable_irq and send_eoi
    on lines 0-15, the software masks and the last bytes written to the two mask
    ports agree, and a line is masked exactly when the last of the operations on
    it masked it (only the cascade line 2 is open at first). *)
Theorem pic_masks_follow_operations os k :
  Forall (fun o => 0 <= pic_irq o <= 15) os ->
  exists k', (i8259_init ;; pic_runs os) k = Ret tt k' /\
    pic_refines k' (fold_left pic_spec os (fun b => negb (b =? 2))).
Proof.
  intros Ho. assert (wp (i8259_init ;; pic_runs os) (fun _ k' =>
    pic_refines k' (fold_left pic_spec os (fun b => negb (b =? 2)))) k) as H.
  { apply wp_bind. eapply wp_mono; [|apply i8259_init_refines]. intros [] k1 Hk1.
    by apply pic_runs_refines. }
  apply wp_ret_iff in H as ([] & k' & -> & H). by exists k'.
Qed.

(** send_eoi acknowledges a slave line at the slave with the specific EOI of
    its line and then at the master for the cascade line; a master line only at
    the master. *)
Theorem send_eoi_commands irq k : 0 <= irq <= 15 ->
  send_eoi irq k = Ret tt (set_k_io
    ((if irq <? 8 then [PortOut 0x20 (0x60 + irq)]
      else [PortOut 0x20 0x62; PortOut 0xA0 (0x60 + (irq - 8))]) ++ k_io k) k).
Proof.
  intros Hi.
  assert (irq = 0 \/ irq = 1 \/ irq = 2 \/ irq = 3 \/ irq = 4 \/ irq = 5 \/ irq = 6 \/ irq = 7 \/
    irq = 8 \/ irq = 9 \/ irq = 10 \/ irq = 11 \/ irq = 12 \/ irq = 13 \/ irq = 14 \/ irq = 15) as H by lia.
  repeat (destruct H as [->|H]; [reflexivity|]). subst. reflexivity.
Qed.

Lemma pic_masks_follow_operations_witness : exists k',
  (i8259_init ;; pic_runs [Enable 0; Enable 8; Disable 0]) kernel_quiet = Ret tt k' /\
  pic_refines k' (fold_left pic_spec [Enable 0; Enable 8; Disable 0] (fun b => negb (b =? 2))).
Proof. apply pic_masks_follow_operations. repeat constructor; cbn; lia. Defined.

Lemma send_eoi_commands_witness : send_eoi 12 kernel_quiet =
  Ret tt (set_k_io [PortOut 0x20 0x62; PortOut 0xA0 0x64] kernel_quiet).
Proof. apply (send_eoi_commands 12). lia. Defined.
