(* ===== verification/Ports.v ===== *)
(** * Device input and output

    Programs that only talk to devices: they return, and change nothing but the
    log of the ports.  The mask ports of the interrupt controllers are left to
    enable_irq and disable_irq. *)

From Stdlib Require Import ZArith Lia.
From stdpp Require Import gmap list numbers.
From S2P Require Import Prelude State I8259.

(** Input and output that leave the mask ports of the interrupt controllers alone. *)
Definition chatter (k k' : kernel) : Prop := exists io, k' = set_k_io io k /\
  last_out MASTER_8259_PORT_2 io = last_out MASTER_8259_PORT_2 (k_io k) /\
  last_out SLAVE_8259_PORT_2 io = last_out SLAVE_8259_PORT_2 (k_io k).

#[export] Instance chatter_preorder : PreOrder chatter.
Proof.
  split.
  - intros k. exists (k_io k). by destruct k.
  - intros k1 k2 k3 (io & -> & H1 & H2) (io' & -> & H3 & H4). exists io'. cbn in *. split; [done|]. by rewrite H3, H4, H1, H2.
Qed.

(** [talks c]: [c] returns, and only talks to devices. *)
Definition talks {A} (c : M A) : Prop := forall k, wp c (fun _ => chatter k) k.

Lemma talks_bind {A B} (c : M A) (f : A -> M B) : talks c -> (forall a, talks (f a)) -> talks (c ≫= f).
Proof.
  intros Hc Hf k. apply wp_bind. eapply wp_mono; [|apply Hc]. intros a k1 H1. eapply wp_mono; [|apply Hf].
  intros b k2 H2. by transitivity k1.
Qed.

Lemma talks_mret {A} (a : A) : talks (mret a).
Proof. intros k. apply wp_mret. reflexivity. Qed.

Lemma talks_outb data port : port <> MASTER_8259_PORT_2 -> port <> SLAVE_8259_PORT_2 -> talks (outb data port).
Proof.
  intros H1 H2 k. unfold outb. wp_steps. eexists. split; [reflexivity|]. cbn [last_out].
  by rewrite !(proj2 (Z.eqb_neq port _)) by done.
Qed.

Lemma talks_inb port : talks (inb port).
Proof. intros k. by eexists. Qed.

(** A loop that only talks, with a decreasing counter. *)
Lemma talks_loop {S R} (body : S -> M (S + R)) (var : S -> Z) s :
  (forall s k, 0 <= var s -> wp (body s) (fun r k' => chatter k k' /\
     match r with inl s' => 0 <= var s' < var s | inr _ => True end) k) ->
  0 <= var s < W32 -> talks (loopM body s).
Proof.
  intros Hb Hv k. apply (wp_loopM _ (fun s k' => 0 <= var s /\ chatter k k') _ var); [| |lia].
  - intros s1 k1 [Hs H1]. eapply wp_mono; [|apply Hb; exact Hs]. intros r k2 [H2 Hr].
    assert (chatter k k2) by by transitivity k1. destruct r; [|done]. split; [split; [lia|done]|lia].
  - split; [lia|reflexivity].
Qed.

Create HintDb talks.
#[export] Hint Resolve talks_mret talks_inb : talks.
#[export] Hint Extern 1 (talks (outb _ _)) => apply talks_outb; lia : talks.
#[export] Hint Extern 2 (talks (_ ≫= _)) => apply talks_bind; [|intros ?] : talks.

(** ** Words and double words on the ports (lib.h)

    Two and four bytes on consecutive ports, the low byte first; the kernel uses only
    the byte forms. *)

Definition inw (port : Z) : M Z :=
  b0 ← inb port; b1 ← inb (u16 (port + 1)); mret (b0 + 256 * b1).

Definition inl_ (port : Z) : M Z :=
  w0 ← inw port; w1 ← inw (u16 (port + 2)); mret (w0 + 65536 * w1).

Definition outw (data port : Z) : M unit :=
  outb data port ;; outb (Z.shiftr data 8) (u16 (port + 1)).

Definition outl (data port : Z) : M unit :=
  outw data port ;; outw (Z.shiftr data 16) (u16 (port + 2)).

Lemma talks_inw port : talks (inw port).
Proof. unfold inw. auto with talks. Qed.

Lemma talks_inl port : talks (inl_ port).
Proof. unfold inl_. repeat (apply talks_bind; [apply talks_inw|intros ?]). auto with talks. Qed.

Lemma wp_inb port k (Q : Z -> kernel -> Prop) :
  (forall v k', 0 <= v < W8 -> k_dev k' = k_dev k -> v = u8 (k_dev k (k_io k) port) -> k' = set_k_io (PortIn port v :: k_io k) k -> Q v k') ->
  wp (inb port) Q k.
Proof. intros H. apply H; [apply u8_range|done..]. Qed.

(** The values read have the width of the access. *)
Lemma inw_range port k : wp (inw port) (fun v _ => 0 <= v < W16) k.
Proof.
  unfold inw. apply wp_bind, wp_inb. intros b0 k1 H0 _ _ _. apply wp_bind, wp_inb. intros b1 k2 H1 _ _ _. apply wp_mret. cbn beta. lia.
Qed.

Lemma inl_range port k : wp (inl_ port) (fun v _ => 0 <= v < W32) k.
Proof.
  unfold inl_. apply wp_bind. eapply wp_mono; [|apply inw_range]. intros w0 k1 H0. apply wp_bind.
  eapply wp_mono; [|apply inw_range]. intros w1 k2 H1. apply wp_mret. cbn beta in *. lia.
Qed.

(** What is sent on the four ports are the digits of the value. *)
Lemma outl_bytes data port k : 0 <= port < W16 - 3 -> outl data port k = Ret tt (set_k_io
  ([PortOut (port + 3) (u8 (Z.shiftr data 24)); PortOut (port + 2) (u8 (Z.shiftr data 16));
    PortOut (port + 1) (u8 (Z.shiftr data 8)); PortOut port (u8 data)] ++ k_io k) k).
Proof.
  intros Hp. unfold outl, outw, outb, modify, mbind, M_bind. cbn. unfold u16.
  rewrite Z.shiftr_shiftr by lia. rewrite !(Z.mod_small (port + _)), (Z.mod_small (port + 2 + 1)) by lia.
  by replace (port + 2 + 1) with (port + 3) by lia.
Qed.

(** ** The interrupt controllers *)

(** The masks are [F]; only they and the port log have changed since [k]. *)
Definition pic_step (k : kernel) (F : Z -> bool) (k' : kernel) : Prop :=
  pic_refines k' F /\ exists p io, k' = set_k_pic p (set_k_io io k).

Lemma pic_step_refl k F : pic_refines k F -> pic_step k F k.
Proof. intros H. split; [done|]. exists (k_pic k), (k_io k). by destruct k. Qed.

Lemma pic_step_trans k1 k2 k3 F G : pic_step k1 F k2 -> pic_step k2 G k3 -> pic_step k1 G k3.
Proof. intros (_ & p & io & ->) (R & p' & io' & ->). split; [done|]. by exists p', io'. Qed.

Lemma chatter_pic k k' F : chatter k k' -> pic_refines k F -> pic_step k F k'.
Proof.
  intros (io & -> & H1 & H2) ((S1 & S2 & S3 & S4) & Hm). split; [|by exists (k_pic k), io; destruct k].
  split; [|exact Hm]. refine (conj _ (conj _ (conj S3 S4))); [etransitivity; [exact H1|exact S1]|etransitivity; [exact H2|exact S2]].
Qed.

Lemma talks_pic {A} (c : M A) k F : talks c -> pic_refines k F -> wp c (fun _ => pic_step k F) k.
Proof. intros Hc HF. eapply wp_mono; [|apply Hc]. intros a k' H. by apply chatter_pic. Qed.

Lemma pic_step_bind {A B} (c : M A) (f : A -> M B) F G k :
  wp c (fun _ => pic_step k F) k -> (forall a k1, pic_refines k1 F -> wp (f a) (fun _ => pic_step k1 G) k1) ->
  wp (c ≫= f) (fun _ => pic_step k G) k.
Proof.
  intros Hc Hf. apply wp_bind. eapply wp_mono; [|exact Hc]. intros a k1 H1. eapply wp_mono; [|apply Hf; apply H1].
  intros b k2 H2. exact (pic_step_trans _ _ _ _ _ H1 H2).
Qed.

(** An operation on the controllers. *)
Lemma pic_run_step o k F : 0 <= pic_irq o <= 15 -> pic_refines k F -> wp (pic_run o) (fun _ => pic_step k (pic_spec F o)) k.
Proof.
  intros Ho HF. refine (wp_and _ _ (fun _ k' => exists p io, k' = set_k_pic p (set_k_io io k)) _ (pic_run_refines o k F Ho HF) _).
  destruct o as [irq|irq|irq]; cbn [pic_run pic_irq] in *; unfold enable_irq, disable_irq, send_eoi, upd_pic;
    destruct (Z_le_gt_dec irq 7);
    rewrite ?(proj2 (Z.leb_le 0 irq)), ?(proj2 (Z.leb_le irq 7)), ?(proj2 (Z.leb_gt irq 7)),
      ?(proj2 (Z.leb_le (7 + 1) irq)), ?(proj2 (Z.leb_le irq 15)) by lia; cbn [andb];
    wp_steps; match goal with |- exists p io, ?K = _ => exists (k_pic K), (k_io K); reflexivity end.
Qed.

(** [drives c]: [c] returns, and touches only the ports and the masks. *)
Definition drives (c : M unit) : Prop := forall k, wp c (fun _ k' => exists p io, k' = set_k_pic p (set_k_io io k)) k.

Lemma drives_seq c d : drives c -> drives d -> drives (c ;; d).
Proof.
  intros Hc Hd k. apply wp_bind. eapply wp_mono; [|apply Hc]. intros [] k1 (p & io & ->). eapply wp_mono; [|apply Hd].
  intros [] k2 (p' & io' & ->). by exists p', io'.
Qed.

Lemma drives_outb data port : drives (outb data port).
Proof. intros k. unfold outb. wp_steps. by eexists (k_pic k), _. Qed.

Lemma drives_upd_pic f : drives (upd_pic f).
Proof. intros k. unfold upd_pic. wp_steps. by eexists _, (k_io k). Qed.

Lemma i8259_init_step k : wp i8259_init (fun _ => pic_step k (fun b => negb (b =? 2))) k.
Proof.
  refine (wp_and _ _ (fun _ k' => exists p io, k' = set_k_pic p (set_k_io io k)) _ (i8259_init_refines k) _). revert k.
  unfold i8259_init. do 12 (apply drives_seq; [first [apply drives_outb|apply drives_upd_pic]|]).
  unfold enable_irq. change ((0 <=? 2) && (2 <=? MASTER_IRQ_NUM)) with true. cbv iota. apply drives_seq; [apply drives_upd_pic|].
  intros k. apply wp_bind, wp_gets, drives_outb.
Qed.
