(* ===== verification/Paging.v ===== *)
(** * Paging (paging.c)

    The page directory and the page tables are words of the memory; [cr3] is
    the address of the directory.  map_page and resolve_virt_addr read and
    write them through identity-mapped kernel addresses, so they are functions
    of the memory and of [cr3]. *)

From Stdlib Require Import ZArith Lia.
From stdpp Require Import gmap list numbers.
From S2P Require Import Prelude Memory State.

Abbreviation NUM_ENTRIES := 1024.
Abbreviation SIZEOFDIR := 4096.
Abbreviation KERNEL_ADDR := 0x400000.
Abbreviation PAGE_TABLE_STARTADDR := 0xC000000.
Abbreviation TOP_10_BITS := 0xFFC00000.
Abbreviation MIDDLE_10_BITS := 0x003FF000.
Abbreviation LAST_12_BITS := 0x00000FFF.
Abbreviation LAST_10_BITS := 0x03FF.
Abbreviation LAST_22_BITS := 0x003FFFFF.
Abbreviation ALL_BUT_LAST_12_BITS := 0xFFFFF000.
Abbreviation PRESENT_BIT := 0x1.
Abbreviation RW_BIT := 0x2.
Abbreviation US_BIT := 0x4.
Abbreviation PAGE_SIZE_BIT := 0x80.
Abbreviation SHIFT_FOR_DIRENTRY := 22.
Abbreviation SHIFT_FOR_TABLEENTRY := 12.
Abbreviation VIDMAP_VIRT_ADDR := 0x8800000.

(** ** Definitions *)

Definition resolve_virt_addr (m : memory) (local_cr_3 virt_addr : Z) : Z :=
  let dir_index := Z.shiftr (Z.land virt_addr TOP_10_BITS) SHIFT_FOR_DIRENTRY in
  let dir_addr := rd32 m (local_cr_3 + 4 * dir_index) in
  if negb (c_true (Z.land dir_addr PRESENT_BIT)) then 0
  else if c_true (Z.land dir_addr PAGE_SIZE_BIT) then
    let page_index := Z.land virt_addr LAST_22_BITS in
    u32 (Z.land dir_addr TOP_10_BITS + page_index)
  else
    let table_index := Z.shiftr (Z.land virt_addr MIDDLE_10_BITS) SHIFT_FOR_TABLEENTRY in
    let dir_addr := Z.land dir_addr ALL_BUT_LAST_12_BITS in
    let table_addr := rd32 m (dir_addr + 4 * table_index) in
    if negb (c_true (Z.land table_addr PRESENT_BIT)) then 0
    else
      let page_index := Z.land virt_addr LAST_12_BITS in
      u32 (Z.land table_addr ALL_BUT_LAST_12_BITS + page_index).

(** "for(index=0;index<NUM_ENTRIES;++index) page_table_addr[index] = 0" *)
Fixpoint clear_entries (m : memory) (table : Z) (n : nat) : memory :=
  match n with
  | O => m
  | S n' => wr32 (clear_entries m table n') (table + 4 * Z.of_nat n') 0
  end.

Definition user_rw_present (privileges write : bool) : Z :=
  Z.b2z privileges * US_BIT + Z.b2z write * RW_BIT + PRESENT_BIT.

(** map_page on the memory: the new memory and the return value. *)
Definition map_page_mem (m : memory) (page_dir_addr phys_addr virtual_addr : Z)
    (page_size privileges write remap : bool) : memory * Z :=
  if (phys_addr =? 0) || (virtual_addr =? 0) then (m, -1) else
  let page_dir_index := Z.shiftr virtual_addr SHIFT_FOR_DIRENTRY in
  let page_dir_entry := rd32 m (page_dir_addr + 4 * page_dir_index) in
  let page_table_index := Z.land (Z.shiftr virtual_addr SHIFT_FOR_TABLEENTRY) LAST_10_BITS in
  let page_table_entry := u32 (Z.land phys_addr ALL_BUT_LAST_12_BITS + user_rw_present privileges write) in
  if negb (c_true (Z.land page_dir_entry PRESENT_BIT)) || remap then
    if page_size then
      let page_dir_entry := u32 (Z.land phys_addr ALL_BUT_LAST_12_BITS + PAGE_SIZE_BIT
                                 + user_rw_present privileges write) in
      (wr32 m (page_dir_addr + 4 * page_dir_index) page_dir_entry, 0)
    else
      let page_table_addr := u32 (PAGE_TABLE_STARTADDR + SIZEOFDIR * page_dir_index) in
      let m := clear_entries m page_table_addr 1024 in
      let page_dir_entry := u32 (page_table_addr + user_rw_present privileges write) in
      let m := wr32 m (page_dir_addr + 4 * page_dir_index) page_dir_entry in
      (wr32 m (page_table_addr + 4 * page_table_index) page_table_entry, 0)
  else if negb (negb page_size && negb (c_true (Z.land page_dir_entry PAGE_SIZE_BIT))) then (m, -1)
  else
    let page_table_addr := Z.land page_dir_entry ALL_BUT_LAST_12_BITS in
    let old_entry := rd32 m (page_table_addr + 4 * page_table_index) in
    if c_true (Z.land old_entry PRESENT_BIT) then (m, -1)
    else (wr32 m (page_table_addr + 4 * page_table_index) page_table_entry, 0).

Definition map_page (phys_addr virtual_addr : Z) (page_size privileges write remap : bool) : M Z :=
  k ← gets id;
  let '(m, r) := map_page_mem (k_mem k) (cr3 (k_cpu k)) phys_addr virtual_addr
                   page_size privileges write remap in
  upd_mem (fun _ => m) ;; mret r.

(** paging_init; [page_directory] is the address of the global array.  The
    last block sets PSE and PGE in cr4 and PG in cr0. *)
Definition paging_init (page_directory : Z) : M unit :=
  upd_mem (fun m => clear_entries m page_directory 1024) ;;
  upd_cpu (set_cr3 page_directory) ;;
  map_page KERNEL_ADDR KERNEL_ADDR true false true false ;;
  for_ (Z.to_nat (MAX_TERM_NUM + 1)) (fun index =>
    map_page (VIDEO_ADDR + index * FOUR_KB) (VIDEO_ADDR + index * FOUR_KB) false false true false ;; skip) ;;
  map_page VIDEO_ADDR VIDMAP_VIRT_ADDR false true true false ;;
  map_page PAGE_TABLE_STARTADDR PAGE_TABLE_STARTADDR true false true false ;;
  upd_cpu (fun c => set_cr4 (Z.lor (cr4 c) 0x90) c) ;;
  upd_cpu (fun c => set_cr0 (Z.lor (cr0 c) 0x80000000) c).

(** ** Masks *)

Lemma land_low x n : 0 <= n -> Z.land x (Z.ones n) = x mod 2 ^ n.
Proof. apply Z.land_ones. Qed.

Lemma land_high x n : 0 <= n <= 32 -> 0 <= x < W32 ->
  Z.land x (Z.shiftl (Z.ones (32 - n)) n) = x / 2 ^ n * 2 ^ n.
Proof.
  intros Hn Hx. rewrite <- Z.shiftl_mul_pow2, <- Z.shiftr_div_pow2 by lia.
  apply Z.bits_inj'. intros i Hi. rewrite Z.land_spec, !Z.shiftl_spec by lia.
  destruct (Z_lt_le_dec i n).
  { rewrite !(Z.testbit_neg_r _ (i - n)) by lia. apply andb_false_r. }
  rewrite Z.shiftr_spec by lia. replace (i - n + n) with i by lia.
  destruct (Z_lt_le_dec i 32).
  { rewrite (Z.ones_spec_low (32 - n)) by lia. apply andb_true_r. }
  rewrite (Z.bits_above_log2 x i); [done|lia|].
  destruct (Z.eq_dec x 0) as [->|]; [cbn; lia|].
  apply Z.log2_lt_pow2; [lia|]. eapply Z.lt_le_trans; [apply Hx|].
  change W32 with (2 ^ 32). apply Z.pow_le_mono_r; lia.
Qed.

Lemma land_top10 x : 0 <= x < W32 -> Z.land x TOP_10_BITS = x / FOUR_MB * FOUR_MB.
Proof. intros H. apply (land_high x 22); lia. Qed.
Lemma land_all_but_12 x : 0 <= x < W32 -> Z.land x ALL_BUT_LAST_12_BITS = x / FOUR_KB * FOUR_KB.
Proof. intros H. apply (land_high x 12); lia. Qed.
Lemma land_last12 x : Z.land x LAST_12_BITS = x mod FOUR_KB.
Proof. apply (land_low x 12); lia. Qed.
Lemma land_last22 x : Z.land x LAST_22_BITS = x mod FOUR_MB.
Proof. apply (land_low x 22); lia. Qed.
Lemma land_last10 x : Z.land x LAST_10_BITS = x mod 1024.
Proof. apply (land_low x 10); lia. Qed.

Lemma shr22 x : Z.shiftr x 22 = x / FOUR_MB.
Proof. by rewrite Z.shiftr_div_pow2 by lia. Qed.
Lemma shr12 x : Z.shiftr x 12 = x / FOUR_KB.
Proof. by rewrite Z.shiftr_div_pow2 by lia. Qed.

Lemma land_middle x : 0 <= x < W32 ->
  Z.shiftr (Z.land x MIDDLE_10_BITS) 12 = (x / FOUR_KB) mod 1024.
Proof.
  intros H. rewrite Z.shiftr_land. change (Z.shiftr MIDDLE_10_BITS 12) with (Z.ones 10).
  by rewrite Z.land_ones, shr12 by lia.
Qed.

Lemma flag_mod x n : 0 <= n -> c_true (Z.land x (2 ^ n)) = Z.testbit x n.
Proof.
  intros Hn. unfold c_true.
  assert (Z.land x (2 ^ n) = if Z.testbit x n then 2 ^ n else 0) as ->.
  { apply Z.bits_inj'. intros i Hi. rewrite Z.land_spec, Z.pow2_bits_eqb by lia.
    destruct (Z.eqb_spec n i) as [->|].
    - destruct (Z.testbit x i) eqn:E; [by rewrite Z.pow2_bits_true by lia|by rewrite Z.bits_0].
    - rewrite andb_false_r. destruct (Z.testbit x n); [by rewrite Z.pow2_bits_false by lia|by rewrite Z.bits_0]. }
  destruct (Z.testbit x n); [|done]. by rewrite (proj2 (Z.eqb_neq _ _)) by (apply Z.pow_nonzero; lia).
Qed.

Lemma flag_present x : c_true (Z.land x PRESENT_BIT) = Z.testbit x 0.
Proof. by apply (flag_mod x 0). Qed.
Lemma flag_large x : c_true (Z.land x PAGE_SIZE_BIT) = Z.testbit x 7.
Proof. by apply (flag_mod x 7). Qed.

(** The flags of an entry whose low 12 bits are [f]. *)
Lemma entry_flag q f n : 0 <= f < FOUR_KB -> 0 <= n < 12 ->
  c_true (Z.land (q * FOUR_KB + f) (2 ^ n)) = Z.testbit f n.
Proof.
  intros Hf Hn. rewrite flag_mod by lia. rewrite <- (Z.mod_small f FOUR_KB) at 2 by lia.
  rewrite <- (Z_mod_plus_full f q FOUR_KB). change FOUR_KB with (2 ^ 12).
  rewrite Z.mod_pow2_bits_low by lia. f_equal. lia.
Qed.

(** ** The translation, in arithmetic *)

Definition present (e : Z) : bool := Z.testbit e 0.
Definition large (e : Z) : bool := Z.testbit e 7.
Definition dir_entry (m : memory) (dir i : Z) : Z := rd32 m (dir + 4 * i).
Definition table_entry (m : memory) (e va : Z) : Z :=
  rd32 m (e / FOUR_KB * FOUR_KB + 4 * ((va / FOUR_KB) mod 1024)).

Lemma resolve_arith m dir va : 0 <= va < W32 ->
  resolve_virt_addr m dir va =
  let e := dir_entry m dir (va / FOUR_MB) in
  if negb (present e) then 0
  else if large e then u32 (e / FOUR_MB * FOUR_MB + va mod FOUR_MB)
  else let t := table_entry m e va in
    if negb (present t) then 0 else u32 (t / FOUR_KB * FOUR_KB + va mod FOUR_KB).
Proof.
  intros Hva. unfold resolve_virt_addr, dir_entry, table_entry, present, large.
  rewrite land_top10, land_last22, land_middle, land_last12, shr22, Z.div_mul by lia.
  set (e := rd32 m _). pose proof (rd32_range m (dir + 4 * (va / FOUR_MB))). fold e in H.
  rewrite flag_present, flag_large, land_top10, land_all_but_12 by lia.
  set (t := rd32 m (e / FOUR_KB * FOUR_KB + _)).
  pose proof (rd32_range m (e / FOUR_KB * FOUR_KB + 4 * ((va / FOUR_KB) mod 1024))). fold t in H0.
  by rewrite flag_present, land_all_but_12 by lia.
Qed.

(** The directory lies below the page tables, and every table in use is the one
    reserved for its index. *)
Definition paging_wf (m : memory) (dir : Z) : Prop :=
  0 <= dir /\ dir + SIZEOFDIR <= PAGE_TABLE_STARTADDR /\
  forall i, 0 <= i < NUM_ENTRIES -> present (dir_entry m dir i) = true ->
    large (dir_entry m dir i) = false ->
    dir_entry m dir i / FOUR_KB * FOUR_KB = PAGE_TABLE_STARTADDR + SIZEOFDIR * i.

(** Entries as written by map_page: an aligned address and flags below 4096. *)
Definition mk_entry (base flags : Z) : Z := u32 (base + flags).

Lemma mk_entry_parts q f : 0 <= q < 1048576 -> 0 <= f < FOUR_KB ->
  let e := mk_entry (q * FOUR_KB) f in
  present e = Z.testbit f 0 /\ large e = Z.testbit f 7 /\
  e / FOUR_KB * FOUR_KB = q * FOUR_KB /\ 0 <= e < W32.
Proof.
  intros Hq Hf. cbn zeta. unfold mk_entry. rewrite u32_small by lia. unfold present, large.
  rewrite <- (flag_mod _ 0), <- (flag_mod _ 7), !entry_flag by lia. repeat split; zlia.
Qed.

Lemma user_rw_present_range p w : 1 <= user_rw_present p w <= 7.
Proof. unfold user_rw_present. destruct p, w; cbn [Z.b2z]; lia. Qed.
Lemma user_rw_present_flags p w :
  Z.testbit (user_rw_present p w) 0 = true /\ Z.testbit (user_rw_present p w) 7 = false /\
  Z.testbit (PAGE_SIZE_BIT + user_rw_present p w) 0 = true /\
  Z.testbit (PAGE_SIZE_BIT + user_rw_present p w) 7 = true.
Proof. by destruct p, w. Qed.

(** Clearing a table. *)
Lemma clear_entries_within m p n : (n <= 1024)%nat ->
  differs_within m (clear_entries m p n) p SIZEOFDIR.
Proof.
  induction n as [|n IH]; intros Hn; [apply differs_within_refl|]. cbn [clear_entries].
  eapply differs_within_trans; [apply IH; lia|]. eapply (wr32_within _ _ _ _ _ (4 * Z.of_nat n)); lia.
Qed.

Lemma clear_entries_in m p n j : (n <= 1024)%nat -> 0 <= j < Z.of_nat n ->
  rd32 (clear_entries m p n) (p + 4 * j) = 0.
Proof.
  induction n as [|n IH]; intros Hn Hj; [lia|]. cbn [clear_entries].
  destruct (Z.eq_dec j (Z.of_nat n)) as [->|]; [by rewrite rd32_wr32_eq|].
  rewrite rd32_wr32_ne by lia. apply IH; lia.
Qed.

Lemma rd32_clear_sep m p a : 0 <= p -> p + SIZEOFDIR <= W32 -> 0 <= a -> a + 4 <= W32 ->
  p + SIZEOFDIR <= a \/ a + 4 <= p -> rd32 (clear_entries m p 1024) a = rd32 m a.
Proof.
  intros Hp Hpw Ha Haw Hs. apply (rd32_within _ _ p SIZEOFDIR); [apply clear_entries_within; lia|lia|..];
    (destruct Hs; [rewrite u32_small; lia|unfold u32; rewrite <- (Z_mod_plus_full _ 1), Z.mod_small; lia]).
Qed.

(** Two memories with the same directory entry and the same table translate
    the addresses of that entry alike. *)
Lemma resolve_same m m' dir va : 0 <= va < W32 ->
  let e := dir_entry m dir (va / FOUR_MB) in
  dir_entry m' dir (va / FOUR_MB) = e ->
  (present e = true -> large e = false -> table_entry m' e va = table_entry m e va) ->
  resolve_virt_addr m' dir va = resolve_virt_addr m dir va.
Proof.
  intros Hva e He Ht. rewrite !resolve_arith by lia. cbn zeta. rewrite He. fold e.
  destruct (present e) eqn:E1, (large e) eqn:E2; cbn [negb]; try done. by rewrite Ht.
Qed.

Lemma idx_range va : 0 <= va < W32 ->
  0 <= va / FOUR_MB < NUM_ENTRIES /\ 0 <= (va / FOUR_KB) mod 1024 < 1024.
Proof. intros. zlia. Qed.

(** ** Effect of the three kinds of stores map_page makes *)

Section stores.
Context (m : memory) (dir : Z).
Hypothesis Hwf : paging_wf m dir.

(** The table of directory entry [i] is apart from the directory. *)
Lemma table_addr va e : 0 <= va < W32 ->
  e / FOUR_KB * FOUR_KB = PAGE_TABLE_STARTADDR + SIZEOFDIR * (va / FOUR_MB) ->
  exists a, e / FOUR_KB * FOUR_KB + 4 * ((va / FOUR_KB) mod 1024) = a /\
    PAGE_TABLE_STARTADDR + SIZEOFDIR * (va / FOUR_MB) <= a /\
    a + 4 <= PAGE_TABLE_STARTADDR + SIZEOFDIR * (va / FOUR_MB) + SIZEOFDIR.
Proof using.
  clear Hwf. intros Hva ->. eexists. split; [reflexivity|]. destruct (idx_range va Hva). lia.
Qed.

(** Writing one directory entry does not disturb the other ones. *)
Lemma dir_store_frame i v va : 0 <= i < NUM_ENTRIES -> 0 <= va < W32 -> va / FOUR_MB <> i ->
  resolve_virt_addr (wr32 m (dir + 4 * i) v) dir va = resolve_virt_addr m dir va.
Proof using Hwf.
  intros Hi Hva Hne. destruct Hwf as (Hd0 & Hd & Hw). destruct (idx_range va Hva) as [Hx Hy].
  apply resolve_same; [done|..].
  - unfold dir_entry. apply rd32_wr32_ne; lia.
  - intros Hp Hl. specialize (Hw _ Hx Hp Hl). unfold table_entry.
    destruct (table_addr va _ Hva Hw) as (a & -> & ? & ?). apply rd32_wr32_sep; lia.
Qed.

Lemma dir_store_wf i e : 0 <= i < NUM_ENTRIES -> 0 <= e < W32 ->
  (present e = true -> large e = false ->
     e / FOUR_KB * FOUR_KB = PAGE_TABLE_STARTADDR + SIZEOFDIR * i) ->
  paging_wf (wr32 m (dir + 4 * i) e) dir.
Proof using Hwf.
  intros Hi He Ht. destruct Hwf as (Hd0 & Hd & Hw). split; [done|]. split; [done|].
  intros j Hj. unfold dir_entry. destruct (Z.eq_dec j i) as [->|].
  - by rewrite rd32_wr32_eq, u32_small.
  - rewrite rd32_wr32_ne by lia. by apply Hw.
Qed.

(** Stores into a page table leave the directory as it is. *)
Lemma table_store_dir a v i : PAGE_TABLE_STARTADDR <= a -> a + 4 <= W32 -> 0 <= i < NUM_ENTRIES ->
  dir_entry (wr32 m a v) dir i = dir_entry m dir i.
Proof using Hwf.
  intros Ha Haw Hi. destruct Hwf as (Hd0 & Hd & _). unfold dir_entry. apply rd32_wr32_sep; lia.
Qed.

Lemma table_store_wf a v : PAGE_TABLE_STARTADDR <= a -> a + 4 <= W32 ->
  paging_wf (wr32 m a v) dir.
Proof using Hwf.
  intros Ha Haw. pose proof Hwf as (Hd0 & Hd & Hw). split; [done|]. split; [done|].
  intros i Hi. rewrite table_store_dir by done. by apply Hw.
Qed.

(** The page-table entry of [va] is changed; every other page keeps its
    translation. *)
Lemma table_store_frame va v va' : 0 <= va < W32 -> 0 <= va' < W32 -> va' / FOUR_KB <> va / FOUR_KB ->
  resolve_virt_addr (wr32 m (PAGE_TABLE_STARTADDR + SIZEOFDIR * (va / FOUR_MB)
    + 4 * ((va / FOUR_KB) mod 1024)) v) dir va' = resolve_virt_addr m dir va'.
Proof using Hwf.
  intros Hva Hva' Hne. pose proof Hwf as (Hd0 & Hd & Hw).
  destruct (idx_range va Hva) as [Hx Hy], (idx_range va' Hva') as [Hx' Hy'].
  apply resolve_same; [done|apply table_store_dir; lia|].
  intros Hp Hl. specialize (Hw _ Hx' Hp Hl). unfold table_entry. rewrite Hw.
  apply rd32_wr32_sep; try lia.
  destruct (Z.eq_dec (va' / FOUR_MB) (va / FOUR_MB)) as [E|]; [|lia].
  assert ((va' / FOUR_KB) mod 1024 <> (va / FOUR_KB) mod 1024); [|lia].
  intros E'. apply Hne.
  rewrite (Z.div_mod (va' / FOUR_KB) 1024), (Z.div_mod (va / FOUR_KB) 1024) by lia.
  rewrite !Z.div_div by lia. change (FOUR_KB * 1024) with FOUR_MB. lia.
Qed.

(** Clearing the table of an entry only touches the pages of that entry. *)
Lemma clear_frame i va : 0 <= i < NUM_ENTRIES -> 0 <= va < W32 -> va / FOUR_MB <> i ->
  resolve_virt_addr (clear_entries m (PAGE_TABLE_STARTADDR + SIZEOFDIR * i) 1024) dir va =
  resolve_virt_addr m dir va.
Proof using Hwf.
  intros Hi Hva Hne. destruct Hwf as (Hd0 & Hd & Hw). destruct (idx_range va Hva) as [Hx Hy].
  apply resolve_same; [done|..].
  - unfold dir_entry. apply rd32_clear_sep; lia.
  - intros Hp Hl. specialize (Hw _ Hx Hp Hl). unfold table_entry.
    destruct (table_addr va _ Hva Hw) as (a & -> & ? & ?). apply rd32_clear_sep; lia.
Qed.

Lemma clear_wf i : 0 <= i < NUM_ENTRIES ->
  paging_wf (clear_entries m (PAGE_TABLE_STARTADDR + SIZEOFDIR * i) 1024) dir.
Proof using Hwf.
  intros Hi. destruct Hwf as (Hd0 & Hd & Hw). split; [done|]. split; [done|].
  intros j Hj. unfold dir_entry. rewrite rd32_clear_sep by lia. by apply Hw.
Qed.
End stores.

(** A page table entry just written translates its page. *)
Lemma table_store_hit m dir va phys e flags :
  0 <= va < W32 -> 0 <= phys < W32 -> phys mod FOUR_KB = 0 -> 0 <= flags < FOUR_KB ->
  Z.testbit flags 0 = true -> present e = true -> large e = false ->
  e / FOUR_KB * FOUR_KB = PAGE_TABLE_STARTADDR + SIZEOFDIR * (va / FOUR_MB) ->
  forall va', 0 <= va' < W32 -> va' / FOUR_KB = va / FOUR_KB ->
  let m' := wr32 m (PAGE_TABLE_STARTADDR + SIZEOFDIR * (va / FOUR_MB) + 4 * ((va / FOUR_KB) mod 1024))
              (mk_entry phys flags) in
  dir_entry m' dir (va / FOUR_MB) = e ->
  resolve_virt_addr m' dir va' = phys + va' mod FOUR_KB.
Proof.
  intros Hva Hph Hal Hf Hf0 Hp Hl He va' Hva' Hpage m' Hd.
  rewrite resolve_arith by done. cbn zeta.
  assert (va' / FOUR_MB = va / FOUR_MB) as ->.
  { change FOUR_MB with (FOUR_KB * 1024). rewrite <- !Z.div_div by lia. by rewrite Hpage. }
  rewrite Hd, Hp, Hl. cbn [negb]. unfold table_entry. rewrite He, Hpage. unfold m'.
  rewrite rd32_wr32_eq. destruct (mk_entry_parts (phys / FOUR_KB) flags) as (P & _ & B & R);
    [zlia|done|]. replace (phys / FOUR_KB * FOUR_KB) with phys in * by zlia.
  rewrite u32_small by done. rewrite P, Hf0, B. cbn [negb]. apply u32_small. zlia.
Qed.

Lemma align_base phys : 0 <= phys < W32 -> phys mod FOUR_KB = 0 ->
  Z.land phys ALL_BUT_LAST_12_BITS = phys.
Proof. intros H1 H2. rewrite land_all_but_12 by done. zlia. Qed.

(** Can the directory slot of [va] take a new mapping? *)
Definition slot_free (m : memory) (dir va : Z) : bool := negb (present (dir_entry m dir (va / FOUR_MB))).

(** The stores of map_page when the slot may be overwritten. *)
Lemma map_page_mem_fresh m dir phys va page_size privileges write remap :
  0 < phys < W32 -> phys mod FOUR_KB = 0 -> 0 < va < W32 ->
  slot_free m dir va = true \/ remap = true ->
  map_page_mem m dir phys va page_size privileges write remap =
  let fl := user_rw_present privileges write in
  let d := dir + 4 * (va / FOUR_MB) in
  let table := PAGE_TABLE_STARTADDR + SIZEOFDIR * (va / FOUR_MB) in
  (if page_size then wr32 m d (mk_entry phys (PAGE_SIZE_BIT + fl))
   else wr32 (wr32 (clear_entries m table 1024) d (mk_entry table fl))
          (table + 4 * ((va / FOUR_KB) mod 1024)) (mk_entry phys fl), 0).
Proof.
  intros Hph Hal Hva Hslot. destruct (idx_range va ltac:(lia)) as [Hx Hy]. unfold map_page_mem.
  rewrite (proj2 (Z.eqb_neq phys 0)), (proj2 (Z.eqb_neq va 0)) by lia. cbn [orb].
  rewrite shr22, shr12, land_last10, flag_present, align_base, <- Z.add_assoc by lia.
  rewrite (u32_small (PAGE_TABLE_STARTADDR + _)) by lia.
  unfold slot_free, present, dir_entry in Hslot.
  destruct Hslot as [->| ->]; rewrite ?orb_true_r; by destruct page_size.
Qed.

(** The page of [va] has no entry in the table of its slot. *)
Definition page_free (m : memory) (dir va : Z) : bool :=
  negb (present (table_entry m (dir_entry m dir (va / FOUR_MB)) va)).

Lemma map_page_mem_add m dir phys va privileges write :
  0 < phys < W32 -> phys mod FOUR_KB = 0 -> 0 < va < W32 ->
  present (dir_entry m dir (va / FOUR_MB)) = true -> large (dir_entry m dir (va / FOUR_MB)) = false ->
  page_free m dir va = true ->
  dir_entry m dir (va / FOUR_MB) / FOUR_KB * FOUR_KB = PAGE_TABLE_STARTADDR + SIZEOFDIR * (va / FOUR_MB) ->
  map_page_mem m dir phys va false privileges write false =
  (wr32 m (PAGE_TABLE_STARTADDR + SIZEOFDIR * (va / FOUR_MB) + 4 * ((va / FOUR_KB) mod 1024))
     (mk_entry phys (user_rw_present privileges write)), 0).
Proof.
  intros Hph Hal Hva Hp Hl Hf Hb. unfold map_page_mem.
  rewrite (proj2 (Z.eqb_neq phys 0)), (proj2 (Z.eqb_neq va 0)) by lia. cbn [orb].
  pose proof (rd32_range m (dir + 4 * (va / FOUR_MB))).
  rewrite shr22, shr12, land_last10, !flag_present, flag_large, align_base, land_all_but_12 by lia.
  unfold page_free, table_entry, dir_entry, present, large in *. rewrite Hp, Hl. cbn [negb andb orb].
  apply negb_true_iff in Hf. by rewrite Hf, Hb.
Qed.

(** What a mapping does to the directory: the other slots keep their entries,
    the slot of [va] is in use, as a 4MB page when [big]. *)
Definition slots_after (m m' : memory) (dir va : Z) (big : bool) : Prop :=
  (forall i, 0 <= i < NUM_ENTRIES -> i <> va / FOUR_MB -> dir_entry m' dir i = dir_entry m dir i) /\
  present (dir_entry m' dir (va / FOUR_MB)) = true /\
  large (dir_entry m' dir (va / FOUR_MB)) = big.

(** A 4MB page in a slot that may be overwritten. *)
Lemma map_large m dir phys va privileges write remap :
  paging_wf m dir -> 0 < phys < W32 -> phys mod FOUR_MB = 0 -> 0 < va < W32 ->
  slot_free m dir va = true \/ remap = true ->
  exists m', map_page_mem m dir phys va true privileges write remap = (m', 0) /\ paging_wf m' dir /\
    slots_after m m' dir va true /\
    forall va', 0 <= va' < W32 ->
      resolve_virt_addr m' dir va' =
      if va' / FOUR_MB =? va / FOUR_MB then phys + va' mod FOUR_MB else resolve_virt_addr m dir va'.
Proof.
  intros Hwf Hph Hal Hva Hslot. destruct (idx_range va ltac:(lia)) as [Hx Hy].
  assert (phys mod FOUR_KB = 0) as Hal4 by zlia.
  set (fl := PAGE_SIZE_BIT + user_rw_present privileges write).
  pose proof (user_rw_present_range privileges write).
  destruct (user_rw_present_flags privileges write) as (_ & _ & F0 & F7). fold fl in F0, F7.
  exists (wr32 m (dir + 4 * (va / FOUR_MB)) (mk_entry phys fl)). split.
  { by rewrite map_page_mem_fresh by side. }
  destruct (mk_entry_parts (phys / FOUR_KB) fl) as (P & L & B & R); [zlia|lia|].
  replace (phys / FOUR_KB * FOUR_KB) with phys in * by zlia.
  split; [apply dir_store_wf; [done|done|done|]; intros _; by rewrite L, F7|].
  split.
  { unfold slots_after, dir_entry. rewrite rd32_wr32_eq, u32_small, P, L, F0, F7 by done.
    split_and!; [|done|done]. intros i Hi Hne. apply rd32_wr32_ne; lia. }
  intros va' Hva'. case_if; [|by apply dir_store_frame].
  rewrite resolve_arith by done. cbn zeta. rewrite Eif. unfold dir_entry.
  rewrite rd32_wr32_eq, u32_small, P, L, F0, F7 by done. cbn [negb].
  replace (mk_entry phys fl / FOUR_MB * FOUR_MB) with phys; [apply u32_small; zlia|].
  unfold mk_entry. rewrite u32_small by zlia. zlia.
Qed.

(** A 4KB page in a slot that may be overwritten: a fresh table. *)
Lemma map_fresh m dir phys va privileges write remap :
  paging_wf m dir -> 0 < phys < W32 -> phys mod FOUR_KB = 0 -> 0 < va < W32 ->
  slot_free m dir va = true \/ remap = true ->
  exists m', map_page_mem m dir phys va false privileges write remap = (m', 0) /\ paging_wf m' dir /\
    slots_after m m' dir va false /\
    forall va', 0 <= va' < W32 ->
      resolve_virt_addr m' dir va' =
      if va' / FOUR_KB =? va / FOUR_KB then phys + va' mod FOUR_KB
      else if va' / FOUR_MB =? va / FOUR_MB then 0 else resolve_virt_addr m dir va'.
Proof.
  intros Hwf Hph Hal Hva Hslot. destruct (idx_range va ltac:(lia)) as [Hx Hy].
  set (fl := user_rw_present privileges write).
  pose proof (user_rw_present_range privileges write) as Hfl. fold fl in Hfl.
  destruct (user_rw_present_flags privileges write) as (F0 & F7 & _). fold fl in F0, F7.
  set (table := PAGE_TABLE_STARTADDR + SIZEOFDIR * (va / FOUR_MB)).
  set (m1 := clear_entries m table 1024).
  set (m2 := wr32 m1 (dir + 4 * (va / FOUR_MB)) (mk_entry table fl)).
  set (m3 := wr32 m2 (table + 4 * ((va / FOUR_KB) mod 1024)) (mk_entry phys fl)).
  destruct (mk_entry_parts (table / FOUR_KB) fl) as (P & L & B & R); [unfold table; zlia|lia|].
  replace (table / FOUR_KB * FOUR_KB) with table in * by (unfold table; zlia).
  assert (paging_wf m1 dir) as W1 by (by apply clear_wf).
  assert (paging_wf m2 dir) as W2 by (by apply dir_store_wf).
  assert (forall i, 0 <= i < NUM_ENTRIES -> dir_entry m3 dir i = dir_entry m2 dir i) as D3
    by (intros; apply table_store_dir; side).
  assert (dir_entry m2 dir (va / FOUR_MB) = mk_entry table fl) as D2
    by (unfold dir_entry, m2; by rewrite rd32_wr32_eq, u32_small).
  exists m3. split.
  { rewrite map_page_mem_fresh by assumption. reflexivity. }
  split; [apply table_store_wf; side|]. split.
  { unfold slots_after. rewrite !D3, D2, P, L, F0, F7 by done. split_and!; [|done|done].
    intros i Hi Hne. rewrite D3 by done. unfold dir_entry, m2. rewrite rd32_wr32_ne by lia.
    destruct Hwf as (? & ? & _). apply rd32_clear_sep; unfold table; lia. }
  intros va' Hva'. destruct (Z.eqb_spec (va' / FOUR_KB) (va / FOUR_KB)).
  { apply (table_store_hit m2 dir va phys (mk_entry table fl)); try side; [by rewrite P|by rewrite L|].
    fold table m3. by rewrite D3. }
  unfold m3, table. rewrite table_store_frame by side. fold table.
  case_if.
  2: { unfold m2. rewrite dir_store_frame by side. unfold m1, table. by apply clear_frame. }
  rewrite resolve_arith by done. cbn zeta. rewrite Eif, D2, P, L, F0, F7. cbn [negb].
  unfold table_entry. rewrite B. destruct (idx_range va' Hva') as [_ Hy'].
  destruct W1 as (? & ? & _). unfold m2. rewrite rd32_wr32_sep by (unfold table; lia).
  unfold m1. by rewrite clear_entries_in by lia.
Qed.

(** A 4KB page in a slot that already has a page table. *)
Lemma map_add m dir phys va privileges write :
  paging_wf m dir -> 0 < phys < W32 -> phys mod FOUR_KB = 0 -> 0 < va < W32 ->
  slot_free m dir va = false -> large (dir_entry m dir (va / FOUR_MB)) = false ->
  page_free m dir va = true ->
  exists m', map_page_mem m dir phys va false privileges write false = (m', 0) /\ paging_wf m' dir /\
    slots_after m m' dir va false /\
    forall va', 0 <= va' < W32 ->
      resolve_virt_addr m' dir va' =
      if va' / FOUR_KB =? va / FOUR_KB then phys + va' mod FOUR_KB else resolve_virt_addr m dir va'.
Proof.
  intros Hwf Hph Hal Hva Hslot Hl Hpage. destruct (idx_range va ltac:(lia)) as [Hx Hy].
  pose proof (user_rw_present_range privileges write).
  destruct (user_rw_present_flags privileges write) as (F0 & _).
  apply negb_false_iff in Hslot. pose proof Hwf as (_ & _ & Hw). specialize (Hw _ Hx Hslot Hl).
  eexists. split; [by apply map_page_mem_add|].
  split; [apply table_store_wf; side|]. split.
  { unfold slots_after. rewrite table_store_dir by side. split_and!; [|done|done].
    intros i Hi _. apply table_store_dir; side. }
  intros va' Hva'. case_if; [|apply table_store_frame; side].
  apply (table_store_hit m dir va phys (dir_entry m dir (va / FOUR_MB))); try side.
  apply table_store_dir; side.
Qed.

(** When map_page gives up. *)
Definition map_refused (m : memory) (dir phys va : Z) (page_size remap : bool) : bool :=
  (phys =? 0) || (va =? 0) ||
  (negb remap && negb (slot_free m dir va) &&
   (page_size || large (dir_entry m dir (va / FOUR_MB)) || negb (page_free m dir va))).

Lemma map_page_mem_refused m dir phys va page_size privileges write remap :
  0 <= va < W32 ->
  let '(m', r) := map_page_mem m dir phys va page_size privileges write remap in
  (r = 0 /\ map_refused m dir phys va page_size remap = false) \/
  (r = -1 /\ m' = m /\ map_refused m dir phys va page_size remap = true).
Proof.
  intros Hva. pose proof (rd32_range m (dir + 4 * (va / FOUR_MB))) as He.
  unfold map_page_mem, map_refused.
  rewrite shr22, shr12, land_last10, !flag_present, flag_large.
  rewrite (land_all_but_12 (rd32 _ _)) by done.
  unfold slot_free, page_free, table_entry, dir_entry, present, large.
  set (e := rd32 m (dir + 4 * (va / FOUR_MB))) in *.
  set (t := rd32 m (e / FOUR_KB * FOUR_KB + 4 * ((va / FOUR_KB) mod 1024))) in *.
  cbv zeta. set (mc := clear_entries _ _ _). clearbody mc t e. clear He.
  destruct (phys =? 0), (va =? 0), (Z.testbit e 0), (Z.testbit e 7), (Z.testbit t 0),
    page_size, remap; cbn [negb andb orb]; auto.
Qed.

(** ** Properties *)

(** The effect of mapping a page, on the translation of addresses: a 4MB page
    takes over its slot; a 4KB page its page, and where the slot had no page
    table ([fresh]) the rest of the slot becomes unmapped. *)
Definition view_map (view : Z -> Z) (phys va : Z) (page_size fresh : bool) (va' : Z) : Z :=
  if page_size then if va' / FOUR_MB =? va / FOUR_MB then phys + va' mod FOUR_MB else view va'
  else if va' / FOUR_KB =? va / FOUR_KB then phys + va' mod FOUR_KB
  else if fresh && (va' / FOUR_MB =? va / FOUR_MB) then 0 else view va'.

(** [C11] map_page, on every input with an aligned frame: it keeps the tables well
    formed; when it returns 0 the translation of every virtual address is that of
    the abstract mapping operation, and otherwise nothing at all is changed. *)
Theorem map_page_translates m dir phys va (page_size : bool) privileges write remap m' r :
  paging_wf m dir -> 0 <= phys < W32 -> phys mod (if page_size then FOUR_MB else FOUR_KB) = 0 ->
  0 <= va < W32 ->
  map_page_mem m dir phys va page_size privileges write remap = (m', r) ->
  paging_wf m' dir /\ (r = 0 \/ r = -1 /\ m' = m) /\
  (r = 0 -> forall va', 0 <= va' < W32 ->
     resolve_virt_addr m' dir va' =
     view_map (resolve_virt_addr m dir) phys va page_size (slot_free m dir va || remap) va').
Proof.
  intros Hwf Hph Hal Hva E.
  pose proof (map_page_mem_refused m dir phys va page_size privileges write remap Hva) as R.
  rewrite E in R. destruct R as [[-> R]|(-> & -> & R)]; [|by split_and!; auto].
  unfold map_refused in R. apply orb_false_iff in R as [R0 R]. apply orb_false_iff in R0 as [P0%Z.eqb_neq V0%Z.eqb_neq].
  destruct (slot_free m dir va || remap) eqn:F.
  - assert (slot_free m dir va = true \/ remap = true) as F' by (by apply orb_true_iff in F).
    destruct page_size;
      [destruct (map_large m dir phys va privileges write remap) as (m2 & E2 & ? & ? & V)
      |destruct (map_fresh m dir phys va privileges write remap) as (m2 & E2 & ? & ? & V)]; try side;
      rewrite E2 in E; injection E as ->; by auto.
  - apply orb_false_iff in F as [F ->]. rewrite F in R. cbn [negb andb] in R.
    apply orb_false_iff in R as [R Hf]. apply orb_false_iff in R as [-> Hl]. apply negb_false_iff in Hf.
    destruct (map_add m dir phys va privileges write) as (m2 & E2 & ? & ? & V); try side.
    rewrite E2 in E. injection E as ->. by auto.
Qed.

(** Walking through paging_init: each mapping as a step on the memory. *)
Lemma wp_map_page phys va ps priv w remap (Q : Z -> kernel -> Prop) k m' r :
  map_page_mem (k_mem k) (cr3 (k_cpu k)) phys va ps priv w remap = (m', r) ->
  Q r (set_k_mem m' k) -> wp (map_page phys va ps priv w remap) Q k.
Proof. intros E H. unfold map_page, wp, mbind, M_bind, gets, id. cbn beta. by rewrite E. Qed.

(** A page that translates to 0 has no entry in its table. *)
Lemma page_free_unmapped m dir va : 0 <= va < W32 ->
  present (dir_entry m dir (va / FOUR_MB)) = true -> large (dir_entry m dir (va / FOUR_MB)) = false ->
  resolve_virt_addr m dir (va / FOUR_KB * FOUR_KB + 1) = 0 -> page_free m dir va = true.
Proof.
  intros Hva Hp Hl. rewrite resolve_arith by zlia. cbn zeta.
  assert ((va / FOUR_KB * FOUR_KB + 1) / FOUR_MB = va / FOUR_MB) as -> by zlia.
  rewrite Hp, Hl. cbn [negb]. unfold page_free, table_entry.
  assert ((va / FOUR_KB * FOUR_KB + 1) / FOUR_KB = va / FOUR_KB) as -> by zlia.
  set (t := rd32 m _). assert (0 <= t < W32) as Ht by apply rd32_range.
  destruct (present t); [|done]. cbn [negb]. rewrite u32_small by zlia. zlia.
Qed.

(** The address space the kernel starts with. *)
Definition boot_view (va : Z) : Z :=
  if va / FOUR_MB =? 1 then va
  else if va / FOUR_MB =? 48 then va
  else if (VIDEO_ADDR <=? va) && (va <? VIDEO_ADDR + 4 * FOUR_KB) then va
  else if (VIDMAP_VIRT_ADDR <=? va) && (va <? VIDMAP_VIRT_ADDR + FOUR_KB) then VIDEO_ADDR + (va - VIDMAP_VIRT_ADDR)
  else 0.

(** The memory after the video pages: an invariant of the loop of paging_init. *)
Definition video_mapped (dir index : Z) (m : memory) : Prop :=
  paging_wf m dir /\
  slot_free m dir VIDMAP_VIRT_ADDR = true /\ slot_free m dir PAGE_TABLE_STARTADDR = true /\
  slot_free m dir VIDEO_ADDR = (index =? 0) /\
  (0 < index -> large (dir_entry m dir (VIDEO_ADDR / FOUR_MB)) = false) /\
  forall va, 0 <= va < W32 ->
    resolve_virt_addr m dir va =
    if va / FOUR_MB =? 1 then va
    else if (VIDEO_ADDR <=? va) && (va <? VIDEO_ADDR + index * FOUR_KB) then va else 0.

Lemma slot_free_after m m' dir va big x : slots_after m m' dir va big -> 0 <= x < W32 ->
  slot_free m' dir x = if x / FOUR_MB =? va / FOUR_MB then false else slot_free m dir x.
Proof.
  intros (Ho & Hp & _) Hx. unfold slot_free. case_if; [by rewrite Eif, Hp|].
  rewrite Ho; [done| |done]. zlia.
Qed.

(** A cleared directory maps nothing. *)
Lemma cleared_dir m dir : 0 <= dir -> dir + SIZEOFDIR <= PAGE_TABLE_STARTADDR ->
  let m' := clear_entries m dir 1024 in
  paging_wf m' dir /\ (forall va, 0 <= va < W32 -> slot_free m' dir va = true) /\
  forall va, 0 <= va < W32 -> resolve_virt_addr m' dir va = 0.
Proof.
  intros H0 H1 m'.
  assert (forall i, 0 <= i < NUM_ENTRIES -> dir_entry m' dir i = 0) as E
    by (intros; by apply clear_entries_in).
  split_and!.
  - split_and!; [done|done|]. intros i Hi. by rewrite E.
  - intros va Hva. unfold slot_free. rewrite E; [done|zlia].
  - intros va Hva. rewrite resolve_arith, E by zlia. done.
Qed.

Lemma video_start m dir : paging_wf m dir -> (forall va, 0 <= va < W32 -> slot_free m dir va = true) ->
  (forall va, 0 <= va < W32 -> resolve_virt_addr m dir va = 0) ->
  exists m', map_page_mem m dir KERNEL_ADDR KERNEL_ADDR true false true false = (m', 0) /\
    video_mapped dir 0 m'.
Proof.
  intros Hwf Hs Hr.
  destruct (map_large m dir KERNEL_ADDR KERNEL_ADDR false true false) as (m' & E & W & S & V);
    [done|lia|done|lia|by left; apply Hs|].
  exists m'. split; [done|].
  split_and!; [done|..|].
  1-3: rewrite (slot_free_after _ _ _ _ _ _ S) by lia; cbn; by apply Hs.
  { lia. }
  intros va Hva. rewrite V by done. change (KERNEL_ADDR / FOUR_MB) with 1. rewrite Hr by done.
  case_if; [zlia|]. case_if; [lia|done].
Qed.

Lemma video_step m dir i : video_mapped dir i m -> 0 <= i < 4 ->
  exists m', map_page_mem m dir (VIDEO_ADDR + i * FOUR_KB) (VIDEO_ADDR + i * FOUR_KB) false false true false = (m', 0) /\
    video_mapped dir (i + 1) m'.
Proof.
  intros (Hwf & F1 & F2 & F3 & Hl & Hr) Hi. set (a := VIDEO_ADDR + i * FOUR_KB).
  assert (a / FOUR_MB = 0) as Ea by (unfold a; zlia).
  assert (exists m', map_page_mem m dir a a false false true false = (m', 0) /\ paging_wf m' dir /\
    slots_after m m' dir a false /\
    forall va, 0 <= va < W32 -> resolve_virt_addr m' dir va =
      if va / FOUR_KB =? a / FOUR_KB then a + va mod FOUR_KB else resolve_virt_addr m dir va)
    as (m' & E & W & S & V).
  { assert (slot_free m dir a = (i =? 0)) as Fa by (rewrite <- F3; unfold slot_free; by rewrite Ea).
    destruct (Z.eqb_spec i 0) as [->|Hi0].
    - destruct (map_fresh m dir a a false true false) as (m' & E & W & S & V);
        [done|unfold a; lia|done|unfold a; lia|by left|].
      exists m'. split_and!; [done..|]. intros va Hva. rewrite V by done. rewrite !Hr by done.
      case_if; [done|]. rewrite Ea. unfold a in *. repeat case_if; zlia.
    - change (VIDEO_ADDR / FOUR_MB) with 0 in Hl. specialize (Hl ltac:(lia)).
      apply map_add; [done|unfold a; lia|unfold a; zlia|unfold a; lia|exact Fa|by rewrite Ea|].
      apply negb_false_iff in Fa. rewrite Ea in Fa.
      apply page_free_unmapped; try (rewrite Ea; done); [unfold a; lia|].
      rewrite Hr by (unfold a; zlia). unfold a. repeat case_if; zlia. }
  exists m'. split; [done|].
  split_and!; [done|..|].
  1-2: rewrite (slot_free_after _ _ _ _ _ _ S) by lia; rewrite Ea; done.
  { rewrite (slot_free_after _ _ _ _ _ _ S) by lia. rewrite Ea. cbn. symmetry. apply Z.eqb_neq. lia. }
  { intros _. destruct S as (_ & _ & S). by rewrite Ea in S. }
  intros va Hva. rewrite V, Hr by done. unfold a. repeat case_if; zlia.
Qed.

(** map_page stores into the directory and the page tables only. *)
Definition tables_only (dir : Z) (m m' : memory) : Prop := forall a, 0 <= a < W32 ->
  a < dir \/ dir + SIZEOFDIR <= a -> a < PAGE_TABLE_STARTADDR \/ PAGE_TABLE_STARTADDR + FOUR_MB <= a -> rd m' a = rd m a.

#[export] Instance tables_only_preorder dir : PreOrder (tables_only dir).
Proof. split; [done|]. intros m1 m2 m3 H1 H2 a Ha Hd Ht. by rewrite H2, H1. Qed.

Lemma tables_only_store m dir a v : 0 <= dir -> dir + SIZEOFDIR <= W32 ->
  dir <= a <= dir + SIZEOFDIR - 4 \/ PAGE_TABLE_STARTADDR <= a <= PAGE_TABLE_STARTADDR + FOUR_MB - 4 ->
  tables_only dir m (wr32 m a v).
Proof.
  intros H0 H1 Ha x Hx Hd Ht. apply (within_rd _ _ a 4); [|lia..]. apply (wr32_within m a v a 4 0); lia.
Qed.

Lemma tables_only_clear m dir p : 0 <= dir -> dir + SIZEOFDIR <= W32 ->
  p = dir \/ PAGE_TABLE_STARTADDR <= p <= PAGE_TABLE_STARTADDR + FOUR_MB - SIZEOFDIR ->
  tables_only dir m (clear_entries m p 1024).
Proof.
  intros H0 H1 Hp x Hx Hd Ht. apply (within_rd _ _ p SIZEOFDIR); [|lia..]. apply clear_entries_within. lia.
Qed.

Lemma map_page_mem_frame m dir phys va ps pr w rm m' r : paging_wf m dir -> 0 <= va < W32 ->
  map_page_mem m dir phys va ps pr w rm = (m', r) -> tables_only dir m m'.
Proof.
  intros (W1 & W2 & W3) Hva. destruct (idx_range va Hva) as [Hx Hy]. unfold map_page_mem.
  rewrite shr22, shr12, land_last10, !flag_present, flag_large, (land_all_but_12 (rd32 m _)) by apply rd32_range.
  rewrite (u32_small (PAGE_TABLE_STARTADDR + SIZEOFDIR * (va / FOUR_MB))) by lia. specialize (W3 (va / FOUR_MB) Hx). unfold dir_entry, present, large in W3.
  set (e := rd32 m (dir + 4 * (va / FOUR_MB))) in *. case_if; [by intros [= <- <-]|].
  destruct (Z.testbit e 0) eqn:Ep, rm; cbn [negb orb].
  2: { destruct (negb (negb ps && negb (Z.testbit e 7))) eqn:El; [by intros [= <- <-]|]. case_if; [by intros [= <- <-]|].
    intros Em; apply (f_equal fst) in Em; cbn [fst] in Em; subst m'. apply tables_only_store; [lia|lia|]. right. rewrite W3; [lia|done|].
    destruct ps, (Z.testbit e 7); done. }
  all: destruct ps; intros Em; apply (f_equal fst) in Em; cbn [fst] in Em; subst m'; [apply tables_only_store; lia|].
  all: etransitivity; [apply (tables_only_clear m dir (PAGE_TABLE_STARTADDR + SIZEOFDIR * (va / FOUR_MB))); lia|].
  all: etransitivity; [apply (tables_only_store _ _ (dir + 4 * (va / FOUR_MB))); lia|apply tables_only_store; lia].
Qed.

(** paging_init: the address space, and what it leaves alone. *)
Lemma paging_init_ok page_directory k :
  0 <= page_directory -> page_directory + SIZEOFDIR <= PAGE_TABLE_STARTADDR ->
  wp (paging_init page_directory) (fun _ k' =>
    (exists c m, k' = set_k_cpu c (set_k_mem m k) /\ c = set_cr0 (cr0 c) (set_cr4 (cr4 c) (set_cr3 (cr3 c) (k_cpu k)))) /\
    tables_only page_directory (k_mem k) (k_mem k') /\
    cr3 (k_cpu k') = page_directory /\ paging_wf (k_mem k') page_directory /\
    Z.testbit (cr0 (k_cpu k')) 31 = true /\ Z.testbit (cr4 (k_cpu k')) 4 = true /\
    forall va, 0 <= va < W32 ->
      resolve_virt_addr (k_mem k') (cr3 (k_cpu k')) va = boot_view va) k.
Proof.
  intros H0 H1. unfold paging_init. wp_steps.
  destruct (cleared_dir (k_mem k) page_directory H0 H1) as (W0 & S0 & R0).
  pose proof (tables_only_clear (k_mem k) page_directory page_directory ltac:(lia) ltac:(lia) (or_introl eq_refl)) as T0.
  destruct (video_start _ _ W0 S0 R0) as (m1 & E1 & I1).
  pose proof (map_page_mem_frame _ _ _ KERNEL_ADDR _ _ _ _ _ _ W0 ltac:(lia) E1) as T1.
  eapply wp_map_page; [exact E1|]. wp_steps.
  eapply wp_mono; [|apply (wp_for _ _ (fun i k' => exists m, k' = set_k_cpu (set_cr3 page_directory (k_cpu k)) (set_k_mem m k) /\
    tables_only page_directory (k_mem k) m /\ video_mapped page_directory i m))].
  2: { intros i k' Hi (m & -> & T & I). destruct (video_step _ _ _ I ltac:(lia)) as (m' & E & I').
       pose proof (map_page_mem_frame _ _ _ (VIDEO_ADDR + i * FOUR_KB) _ _ _ _ _ _ (proj1 I) ltac:(lia) E) as T'.
       wp_steps. eapply wp_map_page; [exact E|]. wp_steps. exists m'. split_and!; [done| |exact I'].
       by etransitivity. }
  2: { exists m1. split_and!; [done| |exact I1]. by etransitivity. }
  intros _ k4 (m4 & -> & T4 & W & F1 & F2 & _ & _ & R4). cbn beta. wp_steps.
  destruct (map_fresh m4 page_directory VIDEO_ADDR VIDMAP_VIRT_ADDR true true false)
    as (m5 & E5 & W5 & S5 & R5); [done|lia|done|lia|by left|].
  pose proof (map_page_mem_frame _ _ _ VIDMAP_VIRT_ADDR _ _ _ _ _ _ W ltac:(lia) E5) as T5.
  eapply wp_map_page; [exact E5|]. wp_steps.
  destruct (map_large m5 page_directory PAGE_TABLE_STARTADDR PAGE_TABLE_STARTADDR false true false)
    as (m6 & E6 & W6 & S6 & R6); [done|lia|done|lia| |].
  { left. by rewrite (slot_free_after _ _ _ _ _ _ S5) by lia. }
  pose proof (map_page_mem_frame _ _ _ PAGE_TABLE_STARTADDR _ _ _ _ _ _ W5 ltac:(lia) E6) as T6.
  eapply wp_map_page; [exact E6|]. wp_steps. cbn [k_cpu k_mem set_k_cpu set_k_mem cr0 cr3 cr4 set_cr0 set_cr4 set_cr3].
  rewrite !Z.lor_spec, !orb_true_r. split_and!; [by eexists _, m6| |done..|].
  - etransitivity; [exact T4|]; by etransitivity.
  - intros va Hva. change (Z.of_nat _) with 4 in R4. rewrite R6, R5, R4 by done. unfold boot_view.
    repeat case_if; zlia.
Qed.

(** paging_init, from any memory: every mapping it asks for succeeds, and the
    address space it turns on is exactly the identity on the kernel page, on the
    page tables and on the four video pages, plus the user's video window. *)
Theorem paging_init_address_space page_directory k :
  0 <= page_directory -> page_directory + SIZEOFDIR <= PAGE_TABLE_STARTADDR ->
  wp (paging_init page_directory) (fun _ k' =>
    cr3 (k_cpu k') = page_directory /\ paging_wf (k_mem k') page_directory /\
    Z.testbit (cr0 (k_cpu k')) 31 = true /\ Z.testbit (cr4 (k_cpu k')) 4 = true /\
    forall va, 0 <= va < W32 ->
      resolve_virt_addr (k_mem k') (cr3 (k_cpu k')) va = boot_view va) k.
Proof.
  intros H0 H1. eapply wp_mono; [|exact (paging_init_ok page_directory k H0 H1)]. by intros _ k' (_ & _ & H).
Qed.

(** map_page fails, with -1 and without touching memory, exactly when a
    pointer is NULL, or when it may not remap and the slot is taken and it holds a
    4MB page, or a 4MB page is asked for, or the 4KB page is already mapped. *)
Theorem map_page_refuses m dir phys va page_size privileges write remap :
  0 <= va < W32 ->
  (snd (map_page_mem m dir phys va page_size privileges write remap) = -1 <->
  phys = 0 \/ va = 0 \/
  (remap = false /\ slot_free m dir va = false /\
   (page_size = true \/ large (dir_entry m dir (va / FOUR_MB)) = true \/ page_free m dir va = false))).
Proof.
  intros Hva. pose proof (map_page_mem_refused m dir phys va page_size privileges write remap Hva) as R.
  destruct (map_page_mem _ _ _ _ _ _ _ _) as [m' r]. cbn [snd]. unfold map_refused in R.
  destruct (Z.eqb_spec phys 0), (Z.eqb_spec va 0), remap, (slot_free m dir va), page_size,
    (large (dir_entry m dir (va / FOUR_MB))), (page_free m dir va); cbn [negb andb orb] in R;
    intuition congruence.
Qed.


Lemma empty_wf : paging_wf ∅ 0x1000.
Proof. split_and!; [lia|lia|]. intros i _ H. exfalso. revert H. unfold dir_entry, rd32, rd. by rewrite !lookup_empty. Qed.

Lemma map_page_translates_witness :
  resolve_virt_addr (fst (map_page_mem ∅ 0x1000 0x800000 0x8000000 true true true true)) 0x1000 0x8048000
  = 0x848000.
Proof.
  edestruct (map_page_translates ∅ 0x1000 0x800000 0x8000000 true true true true) as (_ & _ & V);
    [apply empty_wf|lia|reflexivity|lia|apply surjective_pairing|].
  rewrite V; [reflexivity|vm_compute; reflexivity|lia].
Defined.

Lemma map_page_refuses_witness :
  snd (map_page_mem ∅ 0x1000 0 0x8000000 true true true true) = -1.
Proof. apply (map_page_refuses ∅ 0x1000 0 0x8000000 true true true true); [lia|by left]. Defined.

Lemma paging_init_address_space_witness :
  wp (paging_init 0x401000) (fun _ k' =>
    resolve_virt_addr (k_mem k') 0x401000 0x8800010 = 0xB8010 /\
    resolve_virt_addr (k_mem k') 0x401000 0x8000000 = 0) kernel_quiet.
Proof.
  eapply wp_mono; [|apply (paging_init_address_space 0x401000 kernel_quiet); lia].
  intros _ k' (C & _ & _ & _ & R). rewrite <- C. rewrite !R by lia. split; reflexivity.
Defined.
