(* ===== verification/Pcb.v ===== *)
(** * Process control blocks (pcb.c)

    Allocation of PCB slots from the bitmap [pcb_status], initialisation of a
    block, release of a file descriptor, and the population count that the
    process limit is checked with.  (The functions of pcb.c that call through the
    jump tables, open_file_desc and close_pcb, are in Vfs.v.)

    Blocks live at fixed addresses below 8MB; a block the kernel never wrote
    before reads as zeroes. *)

From Stdlib Require Import ZArith Lia.
From stdpp Require Import gmap list numbers.
From S2P Require Import Prelude Memory State.

(** ** Definitions *)

(** The address of a block, from its number. *)
Definition pcb_addr (offset : Z) : Z := u32 (END_OF_KERNEL_PAGE - PCB_PLUS_STACK * (offset + 1)).

(** find_empty_pcb.  With all 32 bits set, [1 << 32] is undefined: a fault. *)
Definition find_empty_pcb : M Z :=
  pcb_status ← gets (fun k => pcb_status (k_proc k));
  offset ← lift Diverges (run_loop (fun '(temp_pcb_status, offset) =>
    if c_true (Z.land temp_pcb_status 0x1)
    then inl (Z.shiftr temp_pcb_status 1, u32 (offset + 1))
    else inr offset) (pcb_status, 0));
  if 32 <=? offset then fault_ OutOfBounds else
  upd_proc (set_pcb_status (Z.lor pcb_status (u32 (Z.shiftl 1 offset)))) ;;
  mret offset.

Definition fdesc_zero : fdesc_t := mk_fdesc empty_f_ops_tab 0 0 NOT_USED.
Definition pcb_zero : pcb_t :=
  mk_pcb (replicate 8 fdesc_zero) 0 0 0 0 0 0 0 0 0 (replicate 129 0) (replicate 33 0).

Definition init_pcb : M Z :=
  offset ← find_empty_pcb;
  let newBlk := pcb_addr offset in
  upd_proc (fun d => set_pcbs (<[newBlk := default pcb_zero (pcbs d !! newBlk)]> (pcbs d)) d) ;;
  upd_pcb newBlk (set_pcb_num offset) ;;
  for_ 8 (fun i =>
    upd_fd newBlk i (set_flags NOT_USED) ;;
    upd_fd newBlk i (set_file_ops empty_f_ops_tab)) ;;
  upd_pcb newBlk (set_arg (replicate 129 0)) ;;
  mret newBlk.

(** close_file_desc: note that the table pointer is reset in [cur_pcb], the flag
    in [blk]. *)
Definition close_file_desc (blk fd : Z) : M Z :=
  let fd := u32 fd in
  if (MAX_DESC <=? fd) || (blk =? 0) then mret (-1) else
  cur_pcb ← gets (fun k => cur_pcb (k_proc k));
  upd_fd cur_pcb fd (set_file_ops empty_f_ops_tab) ;;
  upd_fd blk fd (set_flags NOT_USED) ;;
  mret 0.

Definition our_popcount (value : Z) : Z :=
  let result := u32 (value - Z.land (Z.shiftr value 1) 0x55555555) in
  let result := u32 (Z.land result 0x33333333 + Z.land (Z.shiftr result 2) 0x33333333) in
  Z.shiftr (u32 (Z.land (u32 (result + Z.shiftr result 4)) 0x0F0F0F0F * 0x01010101)) 24.

(** ** Population count *)

(** Hamming weight of the low [n] bits. *)
Fixpoint hamming (n : nat) (v : Z) : Z :=
  match n with O => 0 | S n' => hamming n' v + Z.b2z (Z.testbit v (Z.of_nat n')) end.

Lemma hamming_byte n a h : 0 <= a < W8 -> 0 <= h ->
  hamming (n + 8) (a + W8 * h) = hamming 8 a + hamming n h.
Proof.
  intros Ha Hh. assert (forall i, 0 <= i -> Z.testbit (a + W8 * h) i = if i <? 8 then Z.testbit a i else Z.testbit h (i - 8)) as T.
  { intros i Hi. case_if.
    - rewrite <- (Z.mod_small a W8) at 2 by lia. rewrite <- (Z_mod_plus_full a h W8).
      change W8 with (2 ^ 8) at 3. rewrite Z.mod_pow2_bits_low by lia. f_equal. lia.
    - replace i with (i - 8 + 8) at 1 by lia. rewrite <- Z.div_pow2_bits by lia. f_equal.
      change (2 ^ 8) with W8. zlia. }
  induction n as [|n IH].
  - cbn [hamming Nat.add]. rewrite !T by lia. cbn [Z.of_nat Pos.of_succ_nat Pos.succ Z.ltb Z.compare Pos.compare Pos.compare_cont]. by rewrite Z.add_0_r.
  - set (w := hamming 8 a) in *. clearbody w. cbn [hamming Nat.add]. rewrite IH, T by lia.
    rewrite (proj2 (Z.ltb_ge _ _)) by lia.
    replace (Z.of_nat (n + 8) - 8) with (Z.of_nat n) by lia. lia.
Qed.

Lemma byte_high x i : 0 <= x < W8 -> 8 <= i -> Z.testbit x i = false.
Proof.
  intros Hx Hi. rewrite <- (Z.mod_small x W8) by lia. change W8 with (2 ^ 8).
  by rewrite Z.mod_pow2_bits_high by lia.
Qed.

Lemma land_byte a h m n : 0 <= a < W8 -> 0 <= m < W8 ->
  Z.land (a + W8 * h) (m + W8 * n) = Z.land a m + W8 * Z.land h n.
Proof.
  intros Ha Hm.
  assert (forall x y, 0 <= x < W8 -> x + W8 * y = Z.lor x (Z.shiftl y 8)) as E.
  { intros x y Hx. pose proof (Z.add_lor_land x (Z.shiftl y 8)) as H.
    assert (Z.land x (Z.shiftl y 8) = 0) as L.
    { apply Z.bits_inj'. intros i Hi. rewrite Z.bits_0, Z.land_spec, Z.shiftl_spec by lia.
      destruct (Z_lt_le_dec i 8); [by rewrite (Z.testbit_neg_r y), andb_false_r by lia|].
      by rewrite byte_high by lia. }
    assert (Z.shiftl y 8 = W8 * y) by (rewrite Z.shiftl_mul_pow2 by lia; change (2 ^ 8) with W8; lia).
    lia. }
  assert (0 <= Z.land a m < W8) as Hl.
  { rewrite <- (Z.mod_small m W8) by lia. change W8 with (2 ^ 8).
    rewrite <- Z.land_ones, Z.land_assoc, Z.land_ones by lia. by apply Z.mod_pos_bound. }
  rewrite !E by done. apply Z.bits_inj'. intros i Hi.
  rewrite Z.land_spec, !Z.lor_spec, !Z.shiftl_spec, !Z.land_spec by lia.
  destruct (Z_lt_le_dec i 8).
  - rewrite !(Z.testbit_neg_r _ (i - 8)) by lia. by destruct (Z.testbit a i), (Z.testbit m i).
  - by rewrite !(byte_high _ i) by lia.
Qed.

(** One stage of the bit-parallel sum on the lowest byte: the bits shifted in from
    the next byte are masked off. *)
Lemma stage1 a h m : 0 <= a < W8 -> 0 <= h ->
  Z.land (Z.shiftr (a + W8 * h) 1) (0x55 + W8 * m) =
  Z.land (Z.shiftr a 1) 0x55 + W8 * Z.land (Z.shiftr h 1) m.
Proof.
  intros Ha Hh. rewrite !Z.shiftr_div_pow2 by lia. change (2 ^ 1) with 2.
  replace ((a + W8 * h) / 2) with (a / 2 + 128 * (h mod 2) + W8 * (h / 2)) by zlia.
  rewrite land_byte by zlia. f_equal.
  assert (h mod 2 = 0 \/ h mod 2 = 1) as [-> | ->] by zlia; [f_equal; lia|].
  apply Z.eqb_eq.
  apply (forallb_range (fun a => Z.land (a / 2 + 128 * 1) 0x55 =? Z.land (a / 2) 0x55) 0 W8); [reflexivity|lia].
Qed.

Lemma stage2 a h m : 0 <= a < W8 -> 0 <= h ->
  Z.land (Z.shiftr (a + W8 * h) 2) (0x33 + W8 * m) =
  Z.land (Z.shiftr a 2) 0x33 + W8 * Z.land (Z.shiftr h 2) m.
Proof.
  intros Ha Hh. rewrite !Z.shiftr_div_pow2 by lia. change (2 ^ 2) with 4.
  replace ((a + W8 * h) / 4) with (a / 4 + 64 * (h mod 4) + W8 * (h / 4)) by zlia.
  rewrite land_byte by zlia. f_equal. assert (0 <= h mod 4 < 4) as Hr by zlia. revert Hr.
  generalize (h mod 4) as r. intros r Hr. apply Z.eqb_eq.
  apply (forallb_range (fun a => Z.land (a / 4 + 64 * r) 0x33 =? Z.land (a / 4) 0x33) 0 W8); [|lia].
  assert (r = 0 \/ r = 1 \/ r = 2 \/ r = 3) as [->|[->|[->| ->]]] by lia; reflexivity.
Qed.

Lemma stage3 a h m : 0 <= a <= 0x44 -> 0 <= h -> h mod 16 <= 4 ->
  Z.land (a + W8 * h + Z.shiftr (a + W8 * h) 4) (0x0F + W8 * m) =
  Z.land (a + Z.shiftr a 4) 0x0F + W8 * Z.land (h + Z.shiftr h 4) m.
Proof.
  intros Ha Hh Hn. rewrite !Z.shiftr_div_pow2 by lia. change (2 ^ 4) with 16.
  replace (a + W8 * h + (a + W8 * h) / 16)
    with (a + a / 16 + 16 * (h mod 16) + W8 * (h + h / 16)) by zlia.
  rewrite land_byte by zlia. f_equal. change 0x0F with (Z.ones 4). rewrite !Z.land_ones by lia.
  change (2 ^ 4) with 16. zlia.
Qed.

(** The three stages on one byte: pairs, nibbles, the byte. *)
Definition pairs8 (a : Z) : Z := a - Z.land (Z.shiftr a 1) 0x55.
Definition nibbles8 (a : Z) : Z := Z.land (pairs8 a) 0x33 + Z.land (Z.shiftr (pairs8 a) 2) 0x33.
Definition byte8 (a : Z) : Z := Z.land (nibbles8 a + Z.shiftr (nibbles8 a) 4) 0x0F.

Lemma byte_stages a : 0 <= a < W8 ->
  0 <= pairs8 a < W8 /\ 0 <= nibbles8 a <= 0x44 /\ nibbles8 a mod 16 <= 4 /\ byte8 a = hamming 8 a /\
  0 <= hamming 8 a <= 8.
Proof.
  intros Ha.
  pose proof (forallb_range (fun a => (0 <=? pairs8 a) && (pairs8 a <? W8) && (0 <=? nibbles8 a) &&
    (nibbles8 a <=? 0x44) && (nibbles8 a mod 16 <=? 4) && (byte8 a =? hamming 8 a) &&
    (0 <=? hamming 8 a) && (hamming 8 a <=? 8)) 0 W8 a eq_refl) as H. cbn beta in H. specialize (H ltac:(lia)).
  repeat (apply andb_true_iff in H as [H ?]). b2p. lia.
Qed.

(** Four bytes of a word. *)
Definition word4 (a b c d : Z) : Z := a + W8 * (b + W8 * (c + W8 * d)).

Lemma top_byte l s h : 0 <= l < 16777216 -> 0 <= s < W8 ->
  Z.shiftr (u32 (l + 16777216 * s + W32 * h)) 24 = s.
Proof.
  intros Hl Hs. rewrite Z.shiftr_div_pow2 by lia. change (2 ^ 24) with 16777216. unfold u32.
  rewrite (Z.mul_comm W32), Z_mod_plus_full, Z.mod_small by lia. zlia.
Qed.

Lemma our_popcount_word a b c d :
  0 <= a < W8 -> 0 <= b < W8 -> 0 <= c < W8 -> 0 <= d < W8 ->
  our_popcount (word4 a b c d) = hamming 8 a + hamming 8 b + hamming 8 c + hamming 8 d.
Proof.
  intros Ha Hb Hc Hd.
  destruct (byte_stages a Ha) as (A1 & A2 & A3 & A4 & A5), (byte_stages b Hb) as (B1 & B2 & B3 & B4 & B5),
    (byte_stages c Hc) as (C1 & C2 & C3 & C4 & C5), (byte_stages d Hd) as (D1 & D2 & D3 & D4 & D5).
  assert (u32 (word4 a b c d - Z.land (Z.shiftr (word4 a b c d) 1) 0x55555555) =
    word4 (pairs8 a) (pairs8 b) (pairs8 c) (pairs8 d)) as E1.
  { change 0x55555555 with (word4 0x55 0x55 0x55 0x55). unfold word4. rewrite !stage1 by lia.
    fold (pairs8 a). rewrite u32_small; unfold pairs8 in *; lia. }
  assert (u32 (Z.land (word4 (pairs8 a) (pairs8 b) (pairs8 c) (pairs8 d)) 0x33333333 +
      Z.land (Z.shiftr (word4 (pairs8 a) (pairs8 b) (pairs8 c) (pairs8 d)) 2) 0x33333333) =
    word4 (nibbles8 a) (nibbles8 b) (nibbles8 c) (nibbles8 d)) as E2.
  { change 0x33333333 with (word4 0x33 0x33 0x33 0x33). unfold word4. rewrite !stage2, !land_byte by lia.
    rewrite u32_small; unfold nibbles8 in *; lia. }
  unfold our_popcount. rewrite E1, E2. clear E1 E2.
  rewrite (u32_small (_ + Z.shiftr _ 4)).
  2: { rewrite Z.shiftr_div_pow2 by lia. change (2 ^ 4) with 16. unfold word4. zlia. }
  change 0x0F0F0F0F with (word4 0x0F 0x0F 0x0F 0x0F). unfold word4.
  rewrite !stage3 by (try lia; rewrite Zplus_mod, Zmult_mod; zlia).
  fold (byte8 a) (byte8 b) (byte8 c) (byte8 d). rewrite A4, B4, C4, D4.
  clear -A5 B5 C5 D5. revert A5 B5 C5 D5.
  generalize (hamming 8 a) as p, (hamming 8 b) as q, (hamming 8 c) as r, (hamming 8 d) as s. intros.
  rewrite <- (top_byte (p + W8 * (p + q) + W16 * (p + q + r)) (p + q + r + s)
    (q + r + s + W8 * (r + s) + W16 * s)) by lia.
  do 2 f_equal. lia.
Qed.

Lemma popcount_hamming value : 0 <= value < W32 -> our_popcount value = hamming 32 value.
Proof.
  intros Hv. set (a := value mod W8). set (b := value / W8 mod W8).
  set (c := value / W16 mod W8). set (d := value / 16777216).
  assert (0 <= a < W8 /\ 0 <= b < W8 /\ 0 <= c < W8 /\ 0 <= d < W8) as (Ha & Hb & Hc & Hd)
    by (unfold a, b, c, d; zlia).
  assert (value = word4 a b c d) as E by (unfold word4, a, b, c, d; zlia).
  rewrite E, our_popcount_word by done. unfold word4.
  rewrite (hamming_byte 24), (hamming_byte 16), (hamming_byte 8) by lia. lia.
Qed.

(** Setting a clear bit adds one, clearing a set bit takes one away. *)
Lemma hamming_ext n v w : (forall i, 0 <= i < Z.of_nat n -> Z.testbit v i = Z.testbit w i) ->
  hamming n v = hamming n w.
Proof.
  induction n as [|n IH]; intros H; [done|]. cbn [hamming]. rewrite IH, H by (intros; try apply H; lia). done.
Qed.

Lemma hamming_flip n v w j : 0 <= j < Z.of_nat n -> Z.testbit v j = false -> Z.testbit w j = true ->
  (forall i, 0 <= i < Z.of_nat n -> i <> j -> Z.testbit w i = Z.testbit v i) ->
  hamming n w = hamming n v + 1.
Proof.
  induction n as [|n IH]; intros Hj Hv Hw H; [lia|]. cbn [hamming].
  destruct (Z.eq_dec j (Z.of_nat n)) as [->|].
  - rewrite Hv, Hw. rewrite (hamming_ext n w v); [cbn [Z.b2z]; lia|]. intros i Hi. apply H; lia.
  - rewrite (H (Z.of_nat n)), IH; [lia|lia|done|done| |lia|lia]. intros i Hi. apply H. lia.
Qed.

Lemma hamming_low n m v : (forall i, Z.of_nat n <= i -> Z.testbit v i = false) ->
  hamming (n + m) v = hamming n v.
Proof.
  intros H. induction m as [|m IH]; [by rewrite Nat.add_0_r|].
  rewrite Nat.add_succ_r. cbn [hamming]. rewrite IH, H by lia. cbn [Z.b2z]. lia.
Qed.

Lemma hamming_range n v : 0 <= hamming n v <= Z.of_nat n.
Proof.
  induction n as [|n IH]; cbn [hamming]; [lia|].
  destruct (Z.testbit v (Z.of_nat n)); cbn [Z.b2z]; lia.
Qed.

(** ** Allocation *)

Lemma find_empty_pcb_first j k :
  let s := pcb_status (k_proc k) in
  0 <= s < W32 -> 0 <= j < 32 -> Z.testbit s j = false ->
  exists off, 0 <= off <= j /\ Z.testbit s off = false /\ (forall i, 0 <= i < off -> Z.testbit s i = true) /\
    find_empty_pcb k = Ret off (set_k_proc (set_pcb_status (Z.lor s (2 ^ off)) (k_proc k)) k).
Proof.
  intros s Hs Hj Hc.
  edestruct (run_loop_rule (fun '(t, o) => if c_true (Z.land t 1) then inl (Z.shiftr t 1, u32 (o + 1)) else inr o)
    (fun '(t, o) => 0 <= o <= j /\ t = Z.shiftr s o /\ forall i, 0 <= i < o -> Z.testbit s i = true)
    (fun off => 0 <= off <= j /\ Z.testbit s off = false /\ (forall i, 0 <= i < off -> Z.testbit s i = true))
    (fun '(_, o) => 32 - o)) with (s := (s, 0)) as (off & E & H1 & H2 & H3).
  - intros [t o] (Ho & -> & Hb).
    assert (c_true (Z.land (Z.shiftr s o) 1) = Z.testbit s o) as ->.
    { rewrite Z.land_comm. change 1 with (Z.ones 1). rewrite Z.land_comm, Z.land_ones by lia.
      change (2 ^ 1) with 2. rewrite Zmod_odd, <- Z.bit0_odd, Z.shiftr_spec, Z.add_0_l by lia.
      by destruct (Z.testbit s o). }
    destruct (Z.testbit s o) eqn:Et; [|done].
    assert (o <> j) by congruence. rewrite u32_small by lia. split; [|lia].
    split; [lia|]. split; [by rewrite Z.shiftr_shiftr by lia|].
    intros i Hi. destruct (Z.eq_dec i o) as [->|]; [done|apply Hb; lia].
  - split; [lia|]. split; [by rewrite Z.shiftr_0_r|lia].
  - lia.
  - exists off. split_and!; try side. unfold find_empty_pcb, mbind, M_bind, gets, lift. fold s. rewrite E.
    cbn [mret M_ret]. rewrite (proj2 (Z.leb_gt _ _)) by lia.
    rewrite Z.shiftl_1_l, u32_small; [done|]. split; [lia|].
    change W32 with (2 ^ 32). apply Z.pow_lt_mono_r; lia.
Qed.

(** Only the first six slots are ever used. *)
Definition slots_ok (s : Z) : Prop := 0 <= s < 64.

Lemma pcb_addr_eq off : 0 <= off < 32 -> pcb_addr off = END_OF_KERNEL_PAGE - PCB_PLUS_STACK * (off + 1).
Proof. intros. apply u32_small. lia. Qed.

Lemma bits_below s i : slots_ok s -> MAX_PROCESSES <= i -> Z.testbit s i = false.
Proof.
  unfold slots_ok. change 64 with (2 ^ MAX_PROCESSES). intros Hs Hi. rewrite <- (Z.mod_small s (2 ^ MAX_PROCESSES)) by lia.
  by apply Z.mod_pow2_bits_high.
Qed.

(** Below the limit there is a free slot among the first six. *)
Lemma free_slot s : slots_ok s -> our_popcount s <> MAX_PROCESSES ->
  exists j, 0 <= j < MAX_PROCESSES /\ Z.testbit s j = false.
Proof.
  intros Hs Hp. rewrite popcount_hamming in Hp by (unfold slots_ok in Hs; lia).
  pose proof (hamming_low 6 26 s) as E. cbn [Nat.add] in E.
  rewrite E in Hp by (intros; apply bits_below; [done|lia]).
  destruct (decide (Forall (fun i => Z.testbit s i = true) (seqZ 0 6))) as [F|F].
  - exfalso. apply Hp. clear -F. cbn [hamming].
    rewrite Forall_forall in F.
    rewrite !F by (apply list_elem_of_In, elem_of_seqZ; cbn; lia). done.
  - apply not_Forall_Exists in F; [|apply _]. apply Exists_exists in F as (j & Hj & Hn).
    apply list_elem_of_In, elem_of_seqZ in Hj. exists j. split; [lia|]. cbn in Hn. by apply not_true_is_false.
Qed.

Lemma slots_ok_set s off : slots_ok s -> 0 <= off < MAX_PROCESSES -> slots_ok (Z.lor s (2 ^ off)).
Proof.
  unfold slots_ok. change 64 with (2 ^ MAX_PROCESSES). intros Hs Ho. split; [apply Z.lor_nonneg; lia|].
  rewrite <- (Z.mod_small s (2 ^ MAX_PROCESSES)) by lia.
  rewrite <- (Z.mod_small (2 ^ off) (2 ^ MAX_PROCESSES)) by (split; [lia|apply Z.pow_lt_mono_r; lia]).
  rewrite <- !Z.land_ones, <- Z.land_lor_distr_l, Z.land_ones by lia. by apply Z.mod_pos_bound.
Qed.

Lemma hamming_set s off : slots_ok s -> 0 <= off < MAX_PROCESSES -> Z.testbit s off = false ->
  our_popcount (Z.lor s (2 ^ off)) = our_popcount s + 1.
Proof.
  intros Hs Ho Hf. pose proof (slots_ok_set s off Hs Ho). unfold slots_ok in *.
  rewrite !popcount_hamming by lia. apply (hamming_flip 32 _ _ off); [lia|done|..].
  - by rewrite Z.lor_spec, Z.pow2_bits_true, orb_true_r by lia.
  - intros i Hi Hne. by rewrite Z.lor_spec, Z.pow2_bits_false, orb_false_r by lia.
Qed.

(** ** A fresh block *)

Lemma init_fds blk b k : pcb_ok b -> blk <> 0 -> pcbs (k_proc k) !! blk = Some b ->
  wp (for_ 8 (fun i =>
        upd_fd blk i (set_flags NOT_USED) ;;
        upd_fd blk i (set_file_ops empty_f_ops_tab)))
    (fun _ k' => exists l, length l = 8%nat /\ k' = with_pcb blk (set_io_files l b) k /\
       Forall (fun d => flags d = NOT_USED /\ file_ops d = empty_f_ops_tab) l) k.
Proof.
  intros (Hl & _) Hn Hb.
  eapply wp_mono; [|apply (wp_for _ _ (fun i k' => exists l, length l = 8%nat /\
    k' = with_pcb blk (set_io_files l b) k /\
    Forall (fun d => flags d = NOT_USED /\ file_ops d = empty_f_ops_tab) (take (Z.to_nat i) l)))].
  - intros _ k' (l & Ll & -> & F). exists l. split_and!; [done..|].
    by rewrite take_ge in F by (cbn; lia).
  - intros i k' Hi (l & Ll & -> & F).
    destruct (lookup_lt_is_Some_2 l (Z.to_nat i)) as [d Hd]; [lia|].
    wp_steps. eapply wp_upd_fd; [done|apply with_pcb_lookup|lia|exact Hd|].
    rewrite with_pcb_twice. cbn [io_files set_io_files].
    eapply wp_upd_fd; [done|apply with_pcb_lookup|lia|cbn [io_files set_io_files]; apply list_lookup_insert_eq; lia|].
    rewrite with_pcb_twice. cbn [io_files set_io_files]. rewrite list_insert_insert_eq.
    eexists. split_and!; [|reflexivity|].
    + by rewrite length_insert.
    + rewrite Z2Nat.inj_add, Nat.add_1_r by lia.
      erewrite take_S_r by (apply list_lookup_insert_eq; lia).
      rewrite take_insert_ge by lia. apply Forall_app. by repeat constructor.
  - exists (io_files b). split_and!; [done| |constructor].
    replace (set_io_files (io_files b) b) with b by (by destruct b). by rewrite with_pcb_id.
Qed.

(** The block init_pcb hands out. *)
Lemma init_pcb_spec k :
  let s := pcb_status (k_proc k) in
  slots_ok s -> our_popcount s <> MAX_PROCESSES -> map_Forall (fun _ => pcb_ok) (pcbs (k_proc k)) ->
  wp init_pcb (fun blk k' => exists off b,
    0 <= off < MAX_PROCESSES /\ Z.testbit s off = false /\
    (forall i, 0 <= i < off -> Z.testbit s i = true) /\
    blk = END_OF_KERNEL_PAGE - PCB_PLUS_STACK * (off + 1) /\
    (forall i, 0 <= i < 32 -> Z.testbit s i = true -> pcb_addr i <> blk) /\
    pcb_ok b /\ pcb_num b = off /\ arg b = replicate 129 0 /\
    Forall (fun d => flags d = NOT_USED /\ file_ops d = empty_f_ops_tab) (io_files b) /\
    slots_ok (pcb_status (k_proc k')) /\
    our_popcount (pcb_status (k_proc k')) = our_popcount s + 1 /\
    k' = with_pcb blk b (set_k_proc (set_pcb_status (Z.lor s (2 ^ off)) (k_proc k)) k)) k.
Proof.
  intros s Hs Hp Hok. destruct (free_slot s Hs Hp) as (j & Hj & Hf).
  destruct (find_empty_pcb_first j k) as (off & H1 & H2 & H3 & E); [unfold slots_ok in Hs; fold s; lia|lia|done|].
  fold s in H2, H3, E. unfold init_pcb. apply wp_bind. unfold wp at 1. rewrite E.
  set (k1 := set_k_proc _ k). cbn beta zeta. rewrite pcb_addr_eq by lia.
  set (blk := END_OF_KERNEL_PAGE - _). assert (blk <> 0) as Hn by (unfold blk; lia).
  set (b0 := default pcb_zero (pcbs (k_proc k) !! blk)).
  assert (pcb_ok b0) as Hb0.
  { unfold b0. destruct (pcbs (k_proc k) !! blk) eqn:El; [by apply (Hok blk)|done]. }
  wp_steps. change (default pcb_zero _) with b0. fold (with_pcb blk b0 k1).
  eapply wp_upd_pcb; [done|apply with_pcb_lookup|]. wp_steps.
  rewrite with_pcb_twice.
  eapply wp_mono; [|eapply (init_fds blk (set_pcb_num off b0)); [done|done|apply with_pcb_lookup]].
  intros _ k' (l & Ll & -> & F). rewrite with_pcb_twice. cbn beta. wp_steps.
  eapply wp_upd_pcb; [done|apply with_pcb_lookup|]. wp_steps. rewrite with_pcb_twice.
  exists off, (set_arg (replicate 129 0) (set_io_files l (set_pcb_num off b0))).
  split_and!; try (lia || done).
  - intros i Hi Hbit. rewrite pcb_addr_eq by lia. unfold blk. assert (i <> off) by congruence. lia.
  - destruct Hb0 as (_ & _ & Hc). by split_and!.
  - apply slots_ok_set; [done|lia].
  - apply hamming_set; [done|lia|done].
Qed.

(** Below the process limit, init_pcb takes the lowest free slot of the six: the
    number of processes our_popcount reports grows by exactly one, the block is
    one that no live process uses, it starts with every descriptor free and an empty
    argument, and no other block, terminal or memory changes. *)
Theorem init_pcb_fresh k :
  let s := pcb_status (k_proc k) in
  slots_ok s -> our_popcount s <> MAX_PROCESSES -> map_Forall (fun _ => pcb_ok) (pcbs (k_proc k)) ->
  wp init_pcb (fun blk k' => exists off b,
    0 <= off < MAX_PROCESSES /\ Z.testbit s off = false /\
    (forall i, 0 <= i < off -> Z.testbit s i = true) /\
    blk = END_OF_KERNEL_PAGE - PCB_PLUS_STACK * (off + 1) /\
    (forall i, 0 <= i < 32 -> Z.testbit s i = true -> pcb_addr i <> blk) /\
    pcb_ok b /\ pcb_num b = off /\ arg b = replicate 129 0 /\
    Forall (fun d => flags d = NOT_USED /\ file_ops d = empty_f_ops_tab) (io_files b) /\
    slots_ok (pcb_status (k_proc k')) /\
    our_popcount (pcb_status (k_proc k')) = our_popcount s + 1 /\
    k' = with_pcb blk b (set_k_proc (set_pcb_status (Z.lor s (2 ^ off)) (k_proc k)) k)) k.
Proof. apply init_pcb_spec. Qed.

(** Closing descriptor [fd] of the running process frees it; only its flag and
    table change, so position and inode survive until it is opened again. *)
Lemma close_file_desc_frees fd b d k :
  let p := cur_pcb (k_proc k) in
  p <> 0 -> pcbs (k_proc k) !! p = Some b -> 0 <= fd < MAX_DESC -> io_files b !! Z.to_nat fd = Some d ->
  close_file_desc p fd k = Ret 0 (with_pcb p (set_io_files
    (<[Z.to_nat fd := mk_fdesc empty_f_ops_tab (inode d) (file_pos d) NOT_USED]> (io_files b)) b) k).
Proof.
  intros p Hp Hb Hfd Hd.
  assert (wp (close_file_desc p fd) (fun r k' => r = 0 /\ k' = with_pcb p (set_io_files
    (<[Z.to_nat fd := mk_fdesc empty_f_ops_tab (inode d) (file_pos d) NOT_USED]> (io_files b)) b) k) k) as H.
  { unfold close_file_desc. rewrite u32_small by lia. rewrite (proj2 (Z.leb_gt _ _)), (proj2 (Z.eqb_neq p 0)) by lia.
    cbn [orb]. wp_steps. fold p. eapply wp_upd_fd; [done..|]. wp_steps.
    eapply wp_upd_fd; [done|apply with_pcb_lookup|done|apply list_lookup_insert_eq; by eapply lookup_lt_Some|].
    rewrite with_pcb_twice. wp_steps. cbn [io_files set_io_files]. by rewrite list_insert_insert_eq. }
  apply wp_ret_iff in H as (r & k' & E & -> & ->). done.
Qed.

(** our_popcount is the Hamming weight: the bit-parallel sum never loses a
    carry, for any 32-bit value. *)
Theorem our_popcount_counts_bits value : 0 <= value < W32 -> our_popcount value = hamming 32 value.
Proof. apply popcount_hamming. Qed.

Lemma our_popcount_counts_bits_witness : our_popcount 0xFFFF00F1 = 21.
Proof. rewrite (our_popcount_counts_bits 0xFFFF00F1) by lia. reflexivity. Defined.

Lemma init_pcb_fresh_witness :
  wp init_pcb (fun blk k' => blk = 0x7FE000 /\ our_popcount (pcb_status (k_proc k')) = 1) kernel_quiet.
Proof.
  eapply wp_mono; [|apply (init_pcb_fresh kernel_quiet); [unfold slots_ok; cbn; lia|vm_compute; lia|apply map_Forall_empty]].
  intros blk k' (off & b & H1 & _ & H3 & -> & _ & _ & _ & _ & _ & _ & -> & _).
  split; [|reflexivity]. destruct (Z.eq_dec off 0) as [->|]; [reflexivity|].
  discriminate (H3 0 ltac:(lia)).
Defined.
