(* ===== verification/Rtc.v ===== *)
(** * The real-time clock (rtc.c)

    The frequency register of the CMOS clock, its interrupt, and the file
    operations of the "rtc" device: reads wait for the next interrupt, writes set
    the frequency. *)

From Stdlib Require Import ZArith Lia.
From stdpp Require Import gmap list numbers.
From S2P Require Import Prelude Memory State I8259 Pcb.

Abbreviation RTC_IRQ := 8.
Abbreviation CONTROL_REG_A := 0x8A.
Abbreviation CONTROL_REG_B := 0x8B.
Abbreviation BIT_6 := 0x40.
Abbreviation CMOS_REG_1 := 0x70.
Abbreviation CMOS_REG_2 := 0x71.

(** ** Definitions *)

Definition set_int_freq (new_freq : Z) : M unit :=
  cli ;;
  outb CONTROL_REG_A CMOS_REG_1 ;;
  prev ← inb CMOS_REG_2;
  outb CONTROL_REG_A CMOS_REG_1 ;;
  outb (Z.lor new_freq (Z.land prev 0xF0)) CMOS_REG_2 ;;
  sti.

Definition rtc_init : M unit :=
  outb CONTROL_REG_B CMOS_REG_1 ;;
  prev ← inb CMOS_REG_2;
  outb CONTROL_REG_B CMOS_REG_1 ;;
  outb (Z.lor prev BIT_6) CMOS_REG_2 ;;
  enable_irq RTC_IRQ.

Definition rtc_interrupt : M unit :=
  upd_rtc (set_intr_occured true) ;;
  cli ;;
  send_eoi RTC_IRQ ;;
  outb 0x0C CMOS_REG_1 ;;
  _ ← inb CMOS_REG_2;
  sti.

Definition rtc_open (filename : Z -> Z) : M Z := set_int_freq 0x0F ;; mret 0.

Definition rtc_close (fd : Z) : M Z :=
  cur_pcb ← gets (fun k => cur_pcb (k_proc k)); close_file_desc cur_pcb fd.

(** [irqs]: the interrupts handled during the wait. *)
Definition rtc_read (irqs : list (M unit)) (fd buf nbytes : Z) : M Z :=
  upd_rtc (set_intr_occured false) ;;
  wait_while (fun k => negb (intr_occured (k_rtc k))) irqs ;;
  mret SUCCESS.

(** The body of rtc_write, once "*((int* )buf)" has been fetched. *)
Definition rtc_write_freq (new_freq nbytes : Z) : M Z :=
  if c_true (Z.land new_freq (u32 (new_freq - 1))) || (1024 <? new_freq) || (new_freq <? 2)
  then mret FAILURE else
  upd_rtc (set_rtc_freq new_freq) ;;
  pow2freq ← lift Diverges (run_loop (fun '(new_freq, pow2freq) =>
    let pow2freq := u32 (pow2freq + 1) in
    let new_freq := Z.shiftr new_freq 1 in
    if 1 <? new_freq then inl (new_freq, pow2freq) else inr pow2freq) (new_freq, 0));
  set_int_freq (0x10 - pow2freq) ;;
  mret nbytes.

Definition rtc_write (fd buf nbytes : Z) : M Z :=
  m ← gets k_mem; rtc_write_freq (rd32 m buf) nbytes.

(** ** Properties *)

(** The frequency the clock runs at with rate [r] in register A. *)
Definition rate_hz (r : Z) : Z := Z.shiftr 32768 (r - 1).

(** The number of halvings the loop of rtc_write counts. *)
Lemma log_loop e : 1 <= e <= 10 ->
  run_loop (fun '(new_freq, pow2freq) =>
    let pow2freq := u32 (pow2freq + 1) in
    let new_freq := Z.shiftr new_freq 1 in
    if 1 <? new_freq then inl (new_freq, pow2freq) else inr pow2freq) (2 ^ e, 0) = Some e.
Proof.
  intros He.
  edestruct (run_loop_rule (fun '(new_freq, pow2freq) =>
    let pow2freq := u32 (pow2freq + 1) in
    let new_freq := Z.shiftr new_freq 1 in
    if 1 <? new_freq then inl (new_freq, pow2freq) else inr pow2freq)
    (fun '(f, p) => 0 <= p < e /\ f = 2 ^ (e - p)) (fun p => p = e) (fun '(_, p) => e - p))
    with (s := (2 ^ e, 0)) as (r & E & ->); [| |lia|done].
  - intros [f p] (Hp & ->). cbn zeta. rewrite u32_small by lia.
    rewrite Z.shiftr_div_pow2, <- Z.pow_sub_r by lia.
    destruct (Z.ltb_spec 1 (2 ^ (e - p - 1))) as [H|H].
    + assert (e - p - 1 <> 0) by (intros E; rewrite E in H; cbn in H; lia).
      split; [|lia]. split; [lia|]. f_equal. lia.
    + destruct (Z.eq_dec (e - p - 1) 0); [lia|].
      pose proof (Z.pow_gt_1 2 (e - p - 1) ltac:(lia)). lia.
  - split; [lia|]. f_equal. lia.
Qed.

(** Which frequencies pass the check. *)
Lemma freq_accepted f : 0 <= f < W32 ->
  c_true (Z.land f (u32 (f - 1))) || (1024 <? f) || (f <? 2) = false ->
  exists e, 1 <= e <= 10 /\ f = 2 ^ e.
Proof.
  intros Hf H. apply orb_false_iff in H as [H H2]. apply orb_false_iff in H as [H0 H1]. b2p.
  rewrite u32_small in H0 by lia.
  pose proof (forallb_range (fun f => c_true (Z.land f (f - 1)) ||
    existsb (fun e => f =? 2 ^ e) (seqZ 1 10)) 2 1023 f eq_refl ltac:(lia)) as H3.
  cbn beta in H3. rewrite H0 in H3. cbn [orb] in H3. apply existsb_exists in H3 as (e & He & E).
  apply list_elem_of_In, elem_of_seqZ in He. exists e. b2p. lia.
Qed.

Lemma freq_rejected e : 1 <= e <= 10 ->
  c_true (Z.land (2 ^ e) (u32 (2 ^ e - 1))) || (1024 <? 2 ^ e) || (2 ^ e <? 2) = false.
Proof.
  intros He. apply negb_true_iff.
  apply (forallb_range (fun e => negb (c_true (Z.land (2 ^ e) (u32 (2 ^ e - 1))) || (1024 <? 2 ^ e) || (2 ^ e <? 2))) 1 10);
    [reflexivity|lia].
Qed.

(** The port traffic that programs rate [r]. *)
Definition rate_programmed (r : Z) (io : list io_event) (k' : kernel) : Prop :=
  exists prev, 0 <= prev < W8 /\
    k_io k' = [PortOut CMOS_REG_2 (u8 (Z.lor r (Z.land prev 0xF0))); PortOut CMOS_REG_1 CONTROL_REG_A;
               PortIn CMOS_REG_2 prev; PortOut CMOS_REG_1 CONTROL_REG_A] ++ io.

(** rtc_write accepts exactly the powers of two from 2 to 1024: then it returns
    nbytes, remembers the frequency, and programs a rate whose frequency is the
    one asked for; any other value is refused with -1 and changes nothing. *)
Theorem rtc_write_sets_frequency fd buf nbytes k :
  let freq := rd32 (k_mem k) buf in
  ((exists e, 1 <= e <= 10 /\ freq = 2 ^ e) /\
   wp (rtc_write fd buf nbytes) (fun r k' =>
     r = nbytes /\ rtc_freq (k_rtc k') = freq /\ iflag (k_cpu k') = true /\ k_mem k' = k_mem k /\
     exists rate, 3 <= rate <= 15 /\ rate_hz rate = freq /\ rate_programmed rate (k_io k) k') k) \/
  ((forall e, 1 <= e <= 10 -> freq <> 2 ^ e) /\ rtc_write fd buf nbytes k = Ret FAILURE k).
Proof.
  intros freq. assert (0 <= freq < W32) as Hr by apply rd32_range.
  destruct (c_true (Z.land freq (u32 (freq - 1))) || (1024 <? freq) || (freq <? 2)) eqn:C.
  { right. split.
    - intros e He E. rewrite E, freq_rejected in C; done.
    - unfold rtc_write, mbind, M_bind, gets. fold freq. unfold rtc_write_freq. by rewrite C. }
  left. destruct (freq_accepted freq Hr C) as (e & He & Ee). split; [eauto|].
  unfold rtc_write. wp_steps. fold freq. unfold rtc_write_freq. rewrite C. wp_steps.
  eapply wp_lift; [rewrite Ee; by apply log_loop|].
  unfold set_int_freq. wp_steps. unfold wp, inb. split_and!; [done..|].
  exists (16 - e). split_and!; [lia|lia|..].
  - rewrite Ee. apply Z.eqb_eq.
    apply (forallb_range (fun e => rate_hz (16 - e) =? 2 ^ e) 1 10); [reflexivity|lia].
  - eexists. split; [apply u8_range|]. reflexivity.
Qed.

(** Handlers that leave a waiting reader waiting. *)
Definition rtc_waiting (k : kernel) : Prop := intr_occured (k_rtc k) = false /\ iflag (k_cpu k) = true.
Definition leaves_waiting (h : M unit) : Prop := forall k, rtc_waiting k -> wp (interrupt h) (fun _ => rtc_waiting) k.

(** rtc_read with interrupts on waits for a clock interrupt that comes after the
    call: whatever other interrupts are handled before, it returns 0 right after
    the first rtc_interrupt, and without one it keeps waiting. *)
Theorem rtc_read_waits irqs1 irqs2 fd buf nbytes k :
  iflag (k_cpu k) = true -> Forall leaves_waiting irqs1 ->
  wp (rtc_read (irqs1 ++ rtc_interrupt :: irqs2) fd buf nbytes) (fun r k' =>
    r = 0 /\ intr_occured (k_rtc k') = true) k /\
  exists k', rtc_read irqs1 fd buf nbytes k = Spin k'.
Proof.
  intros Hf H1. assert (forall k, rtc_waiting k -> negb (intr_occured (k_rtc k)) = true /\ iflag (k_cpu k) = true) as HI
    by (intros ? [-> ->]; done).
  split.
  - unfold rtc_read. wp_steps. apply (wait_while_through _ rtc_waiting); [done|done| |done].
    intros k' [_ _]. unfold interrupt, rtc_interrupt, send_eoi. cbn [Z.leb Z.ltb Z.compare Pos.compare Pos.compare_cont andb].
    wp_steps. done.
  - unfold rtc_read, mbind, M_bind, upd_rtc, modify.
    destruct (wait_while_spins (fun k => negb (intr_occured (k_rtc k))) rtc_waiting irqs1
      (set_k_rtc (set_intr_occured false (k_rtc k)) k)) as [k' ->]; [done|done|done|eauto].
Qed.

Lemma rtc_write_sets_frequency_witness :
  wp (rtc_write 2 0x8000000 4) (fun r _ => r = 4) (set_k_mem (wr32 ∅ 0x8000000 32) kernel_quiet).
Proof.
  destruct (rtc_write_sets_frequency 2 0x8000000 4 (set_k_mem (wr32 ∅ 0x8000000 32) kernel_quiet))
    as [[_ H]|[H _]].
  - eapply wp_mono; [|exact H]. by intros r k' [-> _].
  - exfalso. apply (H 5); [lia|]. reflexivity.
Defined.

Lemma rtc_read_waits_witness :
  wp (rtc_read [sti; rtc_interrupt] 2 0 0) (fun r _ => r = 0)
    (set_k_cpu (set_iflag true (k_cpu kernel_quiet)) kernel_quiet).
Proof.
  eapply wp_mono; [|apply (rtc_read_waits [sti] [] 2 0 0); [reflexivity|]].
  - by intros r k' [-> _].
  - apply Forall_cons_2; [|apply Forall_nil_2]. intros k [H1 H2]. split; [exact H1|exact H2].
Defined.
