(* ===== verification/FileSystem.v ===== *)
(** * The read-only file system (file_system.c)

    The image is in memory at [fs_addr]: a boot block (counts and directory
    entries), one block per inode, then the data blocks.  Directory entries and
    the local buffers of the C functions are values; a [dentry_t*] argument is the
    entry the function returns with its status. *)

From Stdlib Require Import ZArith Lia String.
From stdpp Require Import gmap list numbers strings.
From S2P Require Import Prelude Memory LibString State Pcb.

Abbreviation FILENAME_LEN := 32.
Abbreviation ENTRY_SIZE_BYTES := 64.
Abbreviation BLK_SIZE_BYTES := 4096.

(** ** Definitions *)

Record dentry_t := mk_dentry {
  file_name : list Z;
  file_type : Z;
  inode_num : Z;
  reserved : list Z
}.

(** The 64 bytes at [a] as a directory entry: what memcpy copies. *)
Definition dentry_at (m : memory) (a : Z) : dentry_t :=
  mk_dentry (map (fun i => rd m (a + i)) (seqZ 0 32)) (rd32 m (a + 32)) (rd32 m (a + 36))
    (map (fun i => rd32 m (a + 40 + 4 * i)) (seqZ 0 6)).

(** fs_addr + (i+1) * ENTRY_SIZE_UINTS *)
Definition entry_addr (fs i : Z) : Z := u32 (fs + ENTRY_SIZE_BYTES * (i + 1)).

(** The loop body: [poss_name] is a buffer of its own, at address 0 of [pn]. *)
Definition name_step (m : memory) (fs : Z) (fname : Z -> Z) (num_dir_entries : Z) :
    memory * Z -> memory * Z + option (Z * option dentry_t) :=
  fun '(pn, i) =>
    if i <? num_dir_entries then
      match memset pn 0 0 FILENAME_LEN with
      | None => inr None
      | Some pn =>
          let cur_dentry := entry_addr fs i in
          match strncpy pn 0 (at_ m cur_dentry) FILENAME_LEN with
          | None => inr None
          | Some pn =>
              match strncmp (at_ pn 0) fname FILENAME_LEN with
              | None => inr None
              | Some r =>
                  if r =? 0 then inr (Some (SUCCESS, Some (dentry_at m cur_dentry)))
                  else inl (pn, u32 (i + 1))
              end
          end
      end
    else inr (Some (FAILURE, None)).

Definition read_dentry_by_name (m : memory) (fs : Z) (fname : Z -> Z) : option (Z * option dentry_t) :=
  let num_dir_entries := rd32 m fs in
  match strlen fname with
  | None => None
  | Some l =>
      if FILENAME_LEN <? l then Some (FAILURE, None)
      else mjoin (run_loop (name_step m fs fname num_dir_entries) (∅, 0))
  end.

Definition read_dentry_by_index (m : memory) (fs index : Z) : Z * option dentry_t :=
  let num_inodes := rd32 m (fs + 4) in
  if num_inodes <=? index then (FAILURE, None)
  else (SUCCESS, Some (dentry_at m (entry_addr fs index))).

(** cur_inode and cur_block of read_data *)
Definition inode_addr (fs inode : Z) : Z := u32 (fs + BLK_SIZE_BYTES * (inode + 1)).
Definition block_addr (fs num_inodes block : Z) : Z :=
  u32 (fs + BLK_SIZE_BYTES * (num_inodes + block + 1)).

(** How much to copy from this block, and what remains (the "really short file"
    case also assigns [remaining]). *)
Definition cur_to_do (offset length file_length start_offset remaining done_so_far : Z) : Z * Z :=
  if done_so_far =? 0 then
    if BLK_SIZE_BYTES <? u32 (start_offset + remaining) then (BLK_SIZE_BYTES - start_offset, remaining)
    else if (offset =? 0) && (file_length <=? length) then (file_length, file_length)
    else (remaining, remaining)
  else if remaining <=? BLK_SIZE_BYTES then (remaining, remaining)
  else (BLK_SIZE_BYTES, remaining).

(** The loop body of read_data. *)
Definition data_step (fs inode offset buf length num_inodes num_blocks file_length : Z) :
    memory * Z * Z * Z * Z -> memory * Z * Z * Z * Z + option (memory * Z) :=
  fun '(m, start_offset, cur_block_num, remaining, done_so_far) =>
    if 0 <? remaining then
      let block := rd32 m (inode_addr fs inode + 4 * (cur_block_num + 1)) in
      if num_blocks <=? block then inr (Some (m, i32 done_so_far)) else
      let cur_block := block_addr fs num_inodes block in
      let '(todo, remaining) := cur_to_do offset length file_length start_offset remaining done_so_far in
      match memcpy m (u32 (buf + done_so_far)) (u32 (cur_block + start_offset)) todo with
      | None => inr None
      | Some m => inl (m, 0, u32 (cur_block_num + 1), u32 (remaining - todo), u32 (done_so_far + todo))
      end
    else inr (Some (m, i32 done_so_far)).

Definition read_data (m : memory) (fs inode offset buf length : Z) : option (memory * Z) :=
  let num_inodes := rd32 m (fs + 4) in
  let num_blocks := rd32 m (fs + 8) in
  let start_offset := offset mod BLK_SIZE_BYTES in
  let cur_block_num := offset / BLK_SIZE_BYTES in
  if num_inodes <=? inode then Some (m, FAILURE) else
  let file_length := rd32 m (inode_addr fs inode) in
  if file_length <=? offset then Some (m, SUCCESS) else
  let remaining := if file_length <? u32 (offset + length) then file_length - offset else length in
  if num_blocks <=? rd32 m (inode_addr fs inode + 4 * (cur_block_num + 1)) then Some (m, FAILURE) else
  mjoin (run_loop (data_step fs inode offset buf length num_inodes num_blocks file_length)
    (m, start_offset, cur_block_num, remaining, 0)).

Definition fsys_open_file (filename : Z -> Z) : M Z := mret 0.
Definition fsys_open_dir (filename : Z -> Z) : M Z := mret 0.

Definition fsys_close_file (fd : Z) : M Z :=
  cur_pcb ← gets (fun k => cur_pcb (k_proc k)); close_file_desc cur_pcb fd.
Definition fsys_close_dir (fd : Z) : M Z :=
  cur_pcb ← gets (fun k => cur_pcb (k_proc k)); close_file_desc cur_pcb fd.

Definition fsys_read_file (fd buf nbytes : Z) : M Z :=
  cur_pcb ← gets (fun k => cur_pcb (k_proc k));
  f ← get_fd cur_pcb fd;
  let cur_file_pos := file_pos f in
  let cur_file_inode := inode f in
  fs ← gets fs_addr;
  m ← gets k_mem;
  let file_size := rd32 m (inode_addr fs cur_file_inode) in
  if file_size <=? cur_file_pos then mret 0 else
  '(m, bytes_read) ← lift Diverges (read_data m fs cur_file_inode cur_file_pos buf (u32 nbytes));
  upd_mem (fun _ => m) ;;
  (if 0 <? bytes_read
   then upd_fd cur_pcb fd (fun f => set_file_pos (u32 (file_pos f + bytes_read)) f) else skip) ;;
  mret bytes_read.

Definition fsys_read_dir (fd buf nbytes : Z) : M Z :=
  cur_pcb ← gets (fun k => cur_pcb (k_proc k));
  f ← get_fd cur_pcb fd;
  let cur_dir_pos := file_pos f in
  fs ← gets fs_addr;
  m ← gets k_mem;
  let dir_size := rd32 m fs in
  let cur_dir_name := entry_addr fs cur_dir_pos in
  mem_op (fun m => memset m buf 0 FILENAME_LEN) ;;
  if dir_size <=? cur_dir_pos then mret 0 else
  m ← gets k_mem;
  bytes_read ← (if negb (rd m (cur_dir_name + (FILENAME_LEN - 1)) =? 0) then
      mem_op (fun m => strncpy m buf (at_ m cur_dir_name) FILENAME_LEN) ;; mret FILENAME_LEN
    else
      bytes_read ← lift Diverges (strlen (at_ m cur_dir_name));
      mem_op (fun m => strncpy m buf (at_ m cur_dir_name) bytes_read) ;; mret bytes_read);
  upd_fd cur_pcb fd (fun f => set_file_pos (u32 (file_pos f + 1)) f) ;;
  mret bytes_read.

Definition fsys_write_file (fd buf nbytes : Z) : M Z := mret FAILURE.
Definition fsys_write_dir (fd buf nbytes : Z) : M Z := mret FAILURE.

(** ** Lookup by name *)

(** Entry [i] of the directory has the name [fname]. *)
Definition has_name (m : memory) (fs i : Z) (fname : Z -> Z) : Prop :=
  str_eqn (at_ m (entry_addr fs i)) fname FILENAME_LEN.

(** Comparing the strncpy'd name is comparing the name in the entry. *)
Lemma str_eqn_strncpy pn src fname k n :
  (forall i, 0 <= i < n -> pn i = strncpy_bytes src k i) ->
  0 <= k <= n -> (forall i, 0 <= i < k -> src i <> 0) -> (k < n -> src k = 0) ->
  str_eqn pn fname n <-> str_eqn src fname n.
Proof.
  intros Hpn Hk Hnz Hz.
  assert (forall i, 0 <= i <= k -> i < n -> pn i = src i) as Heq.
  { intros i Hi Hn. rewrite Hpn by lia. unfold strncpy_bytes. case_if; [done|].
    assert (i = k) as -> by lia. by rewrite Hz. }
  assert (k < n -> pn k = 0) as Hz' by (intros; rewrite Heq, Hz by lia; done).
  split; intros H i Hi Hj.
  - assert (i <= k) by (destruct (Z.le_gt_cases i k); [done|]; exfalso; apply (Hj k); [lia|apply Hz; lia]).
    rewrite <- Heq by lia. apply H; [done|]. intros j Hj'. rewrite Heq by lia. apply Hnz. lia.
  - assert (i <= k) by (destruct (Z.le_gt_cases i k); [done|]; exfalso; apply (Hj k); [lia|apply Hz'; lia]).
    rewrite Heq by lia. apply H; [done|]. intros j Hj'. apply Hnz. lia.
Qed.

(** One entry: the step goes on exactly when the name differs. *)
Lemma name_step_spec m fs fname num pn i : is_bytes fname -> 0 <= i < num ->
  (has_name m fs i fname /\
   name_step m fs fname num (pn, i) = inr (Some (SUCCESS, Some (dentry_at m (entry_addr fs i))))) \/
  (~ has_name m fs i fname /\ exists pn', name_step m fs fname num (pn, i) = inl (pn', u32 (i + 1))).
Proof.
  intros Hb Hi. unfold name_step. rewrite (proj2 (Z.ltb_lt _ _)) by lia.
  destruct (memset_copied pn 0 0 FILENAME_LEN) as (pn1 & -> & _); [lia|]. cbn zeta.
  destruct (strncpy_spec pn1 0 (at_ m (entry_addr fs i)) FILENAME_LEN) as (pn2 & k & -> & Hk & Hnz & Hz & C); [lia|].
  destruct (strncmp_spec (at_ pn2 0) fname FILENAME_LEN) as (r & E & _); [apply at_bytes|done|lia|].
  rewrite E. pose proof (strncmp_zero (at_ pn2 0) fname FILENAME_LEN r (at_bytes _ _) Hb ltac:(lia) E) as Hr.
  assert (str_eqn (at_ pn2 0) fname FILENAME_LEN <-> has_name m fs i fname) as Hn.
  { apply (str_eqn_strncpy _ _ _ k); [|done..]. intros j Hj. unfold at_ at 1.
    rewrite (mem_copied_in _ _ _ _ _ _ C ltac:(lia) j) by done.
    apply u8_small. unfold strncpy_bytes. case_if; [apply rd_range|lia]. }
  destruct (Z.eqb_spec r 0); [left|right]; split; [tauto|done|tauto|by eexists].
Qed.

(** The result of a lookup: the first entry with the name, if any. *)
Definition lookup_result (m : memory) (fs num : Z) (fname : Z -> Z) (o : option (Z * option dentry_t)) : Prop :=
  (exists i, 0 <= i < num /\ has_name m fs i fname /\ (forall j, 0 <= j < i -> ~ has_name m fs j fname) /\
     o = Some (SUCCESS, Some (dentry_at m (entry_addr fs i)))) \/
  ((forall j, 0 <= j < num -> ~ has_name m fs j fname) /\ o = Some (FAILURE, None)).

Lemma read_dentry_by_name_spec m fs fname l :
  is_bytes fname -> strlen fname = Some l ->
  if FILENAME_LEN <? l then read_dentry_by_name m fs fname = Some (FAILURE, None)
  else lookup_result m fs (rd32 m fs) fname (read_dentry_by_name m fs fname).
Proof.
  intros Hb Hl. unfold read_dentry_by_name. rewrite Hl. case_if; [done|].
  pose proof (rd32_range m fs) as Hr. set (num := rd32 m fs) in *.
  destruct (run_loop_rule (name_step m fs fname num)
    (fun '(_, i) => 0 <= i <= num /\ forall j, 0 <= j < i -> ~ has_name m fs j fname)
    (lookup_result m fs num fname) (fun '(_, i) => num - i)) with (s := (∅ : memory, 0)) as (o & -> & H).
  - intros [pn i] (Hi & Hj). destruct (Z.eq_dec i num) as [->|].
    { unfold name_step. rewrite Z.ltb_irrefl. right. done. }
    destruct (name_step_spec m fs fname num pn i Hb ltac:(lia)) as [[Hn ->]|[Hn [pn' ->]]].
    + left. exists i. split_and!; [lia|lia|done..].
    + rewrite u32_small by lia. split; [|lia]. split; [lia|].
      intros j Hj'. destruct (Z.eq_dec j i) as [->|]; [done|apply Hj; lia].
  - split; [lia|]. intros; lia.
  - lia.
  - done.
Qed.

(** ** read_data *)

(** The contents of a file, as the image describes it. *)
Definition file_length (m : memory) (fs inode : Z) : Z := rd32 m (inode_addr fs inode).
Definition file_block (m : memory) (fs inode b : Z) : Z := rd32 m (inode_addr fs inode + 4 * (b + 1)).
Definition file_byte (m : memory) (fs inode p : Z) : Z :=
  rd m (block_addr fs (rd32 m (fs + 4)) (file_block m fs inode (p / BLK_SIZE_BYTES)) + p mod BLK_SIZE_BYTES).
Definition block_ok (m : memory) (fs inode b : Z) : bool := file_block m fs inode b <? rd32 m (fs + 8).

(** The image does not wrap around the address space; [inode] is one of its
    inodes and its block list fits its block. *)
Definition image_size (m : memory) (fs : Z) : Z := BLK_SIZE_BYTES * (1 + rd32 m (fs + 4) + rd32 m (fs + 8)).
Definition image_ok (m : memory) (fs : Z) : Prop := 0 <= fs /\ fs + image_size m fs <= W32.
Definition inode_ok (m : memory) (fs inode : Z) : Prop :=
  0 <= inode < rd32 m (fs + 4) /\ file_length m fs inode <= 1023 * BLK_SIZE_BYTES.
(** A buffer of [n] bytes outside of the image. *)
Definition buffer_ok (m : memory) (fs buf n : Z) : Prop :=
  0 <= buf /\ buf + n <= W32 /\ (buf + n <= fs \/ fs + image_size m fs <= buf).

Lemma inode_addr_eq m fs inode : image_ok m fs -> inode_ok m fs inode ->
  inode_addr fs inode = fs + BLK_SIZE_BYTES * (inode + 1) /\
  inode_addr fs inode + BLK_SIZE_BYTES <= fs + image_size m fs.
Proof.
  intros [H0 H1] [H2 _]. unfold inode_addr, image_size in *.
  pose proof (rd32_range m (fs + 8)). rewrite u32_small by lia. lia.
Qed.

Lemma block_addr_eq m fs b : image_ok m fs -> 0 <= b < rd32 m (fs + 8) ->
  block_addr fs (rd32 m (fs + 4)) b = fs + BLK_SIZE_BYTES * (rd32 m (fs + 4) + b + 1) /\
  block_addr fs (rd32 m (fs + 4)) b + BLK_SIZE_BYTES <= fs + image_size m fs.
Proof.
  intros [H0 H1] Hb. unfold block_addr, image_size in *.
  pose proof (rd32_range m (fs + 4)). rewrite u32_small by lia. lia.
Qed.

Section read_data_proof.
Context (m0 : memory) (fs inode offset buf length : Z).
Let num_inodes := rd32 m0 (fs + 4).
Let num_blocks := rd32 m0 (fs + 8).
Let len := file_length m0 fs inode.
Let total := Z.min length (len - offset).
Hypothesis Himg : image_ok m0 fs.
Hypothesis Hino : inode_ok m0 fs inode.
Hypothesis Hoff : 0 <= offset < len.
Hypothesis Hlen : 0 <= length.
Hypothesis Hwrap : offset + length < W32.
Hypothesis Hbuf : buffer_ok m0 fs buf length.

Lemma cur_to_do_eq so rem dn : 0 < rem -> 0 <= dn -> rem + dn = total -> 0 <= so < BLK_SIZE_BYTES ->
  (dn = 0 -> so = offset mod BLK_SIZE_BYTES) -> (dn = 0 \/ so = 0) ->
  cur_to_do offset length len so rem dn = (Z.min rem (BLK_SIZE_BYTES - so), rem).
Proof using All.
  intros Hr Hd Ht Hso H0 Hd0. unfold cur_to_do, total in *.
  assert (dn = 0 -> so <= offset) by (intros Hz; rewrite (H0 Hz); zlia).
  destruct (Z.eqb_spec dn 0) as [->|Hn].
  - rewrite u32_small by lia. case_if; [f_equal; lia|]. case_if; f_equal; lia.
  - case_if; f_equal; lia.
Qed.

(** Everything of the image still reads as at the start. *)
Lemma image_rd m f n a : mem_copied m0 m buf f n -> 0 <= n <= length ->
  fs <= a < fs + image_size m0 fs -> rd m a = rd m0 a.
Proof using All.
  intros C Hn Ha. destruct Himg as [H0 H1], Hbuf as (H2 & H3 & H4).
  apply (mem_copied_rd _ _ _ _ _ _ C); lia.
Qed.

Lemma image_rd32 m f n a : mem_copied m0 m buf f n -> 0 <= n <= length ->
  fs <= a -> a + 4 <= fs + image_size m0 fs -> rd32 m a = rd32 m0 a.
Proof using All.
  intros C Hn Ha Hb. unfold rd32. by rewrite !(image_rd m f n) by (done || lia).
Qed.

(** State of the loop after [dn] bytes. *)
Definition read_inv (s : memory * Z * Z * Z * Z) : Prop :=
  let '(m, so, cbn, rem, dn) := s in
  0 <= rem /\ 0 <= dn /\ rem + dn = total /\
  (0 < rem -> so = (offset + dn) mod BLK_SIZE_BYTES /\ cbn = (offset + dn) / BLK_SIZE_BYTES /\ (dn = 0 \/ so = 0)) /\
  mem_copied m0 m buf (fun i => file_byte m0 fs inode (offset + i)) dn /\
  (forall i, 0 <= i < dn -> block_ok m0 fs inode ((offset + i) / BLK_SIZE_BYTES) = true).

Definition read_post (n : Z) (m : memory) : Prop :=
  0 <= n <= total /\
  mem_copied m0 m buf (fun i => file_byte m0 fs inode (offset + i)) n /\
  (forall i, 0 <= i < n -> block_ok m0 fs inode ((offset + i) / BLK_SIZE_BYTES) = true) /\
  (n = total \/ block_ok m0 fs inode ((offset + n) / BLK_SIZE_BYTES) = false).

Lemma data_step_ok s : read_inv s ->
  match data_step fs inode offset buf length num_inodes num_blocks len s with
  | inl s' => read_inv s' /\ 0 <= s'.1.2 < s.1.2
  | inr o => exists n m, o = Some (m, n) /\ read_post n m
  end.
Proof using All.
  destruct s as [[[[m so] cbn] rem] dn]. intros (Hr & Hd & Ht & Hpos & C & G). cbn [fst snd].
  pose proof (rd32_range m0 (inode_addr fs inode)) as Rl. fold (file_length m0 fs inode) in Rl. fold len in Rl.
  pose proof Hino as [Hi Hl]. fold len in Hl. fold num_inodes in Hi.
  assert (i32 dn = dn) as Ed by (unfold total in *; zlia).
  unfold data_step. case_if.
  2: { exists dn, m. rewrite Ed. split; [done|]. split_and!; [lia|lia|done|done|left; lia]. }
  destruct (Hpos ltac:(lia)) as (-> & -> & Hd0). clear Hpos.
  set (p := offset + dn) in *. destruct (inode_addr_eq m0 fs inode Himg Hino) as [Ei Ei'].
  assert (0 <= p < len) as Hp by (unfold p, total in *; lia).
  rewrite (image_rd32 m _ dn _ C); [|unfold total in *; lia|zlia|zlia].
  fold (file_block m0 fs inode (p / BLK_SIZE_BYTES)).
  set (blk := file_block m0 fs inode (p / BLK_SIZE_BYTES)).
  assert (0 <= blk < W32) as Hblk by apply rd32_range.
  assert (block_ok m0 fs inode (p / BLK_SIZE_BYTES) = (blk <? num_blocks)) as Eb by done.
  case_if.
  { exists dn, m. rewrite Ed. split; [done|]. split_and!; [lia|lia|done|done|right].
    fold p. rewrite Eb. by apply Z.ltb_ge. }
  rewrite cur_to_do_eq; [|lia|lia|done|zlia|intros ->; unfold p; f_equal; lia|done].
  destruct (block_addr_eq m0 fs blk Himg) as [Ek Ek']; [fold num_blocks; lia|]. fold num_inodes in Ek, Ek'. set (src := block_addr fs num_inodes blk) in *.
  set (so := p mod BLK_SIZE_BYTES) in *. assert (0 <= so < BLK_SIZE_BYTES) as Hso by (unfold so; zlia).
  set (todo := Z.min rem (BLK_SIZE_BYTES - so)). assert (0 < todo <= rem) as Htd by (unfold todo; lia).
  destruct Himg as [Hf0 Hf1], Hbuf as (Hb0 & Hb1 & Hb2).
  assert (dn + rem <= length) as Htl by (unfold total in Ht; lia).
  rewrite (u32_small (buf + dn)), (u32_small (src + so)) by (unfold todo in *; lia).
  destruct (memcpy_copied m (buf + dn) (src + so) todo) as (m1 & -> & C1); [lia| |].
  { right. destruct Hb2; [|rewrite u32_small; unfold todo in *; lia].
    unfold u32. rewrite <- (Z_mod_plus_full _ 1), Z.mod_small; unfold todo in *; lia. }
  rewrite !u32_small by (unfold total, todo in *; zlia).
  split; [|cbn [fst snd]; lia].
  assert (forall i, 0 <= i < todo -> (p + i) / BLK_SIZE_BYTES = p / BLK_SIZE_BYTES /\
            (p + i) mod BLK_SIZE_BYTES = so + i) as Hin.
  { intros i Hi'. unfold todo, so in *. pose proof (Z.div_mod p BLK_SIZE_BYTES ltac:(lia)).
    split; symmetry; [apply (Z.div_unique_pos _ _ _ (so + i))|apply (Z.mod_unique_pos _ _ (p / BLK_SIZE_BYTES))]; unfold so; lia. }
  split_and!; [lia|lia|lia| |..].
  - intros Hrem. replace (offset + (dn + todo)) with (p + todo) by (unfold p; lia).
    assert (todo = BLK_SIZE_BYTES - so) as -> by (unfold todo in *; lia). unfold so. zlia.
  - eapply mem_copied_app; [lia|lia|lia|exact C|exact C1|].
    intros i Hi'. cbn beta. replace (offset + (dn + i)) with (p + i) by (unfold p; lia).
    unfold file_byte, at_. destruct (Hin i Hi') as [-> ->].
    fold blk num_inodes src. rewrite (image_rd m _ dn _ C) by (unfold todo in *; lia).
    by rewrite Z.add_assoc.
  - intros i Hi'. destruct (Z_lt_le_dec i dn); [apply G; lia|].
    replace (offset + i) with (p + (i - dn)) by (unfold p; lia).
    destruct (Hin (i - dn) ltac:(lia)) as [-> _]. rewrite Eb. by apply Z.ltb_lt.
Qed.

Lemma read_data_loop : block_ok m0 fs inode (offset / BLK_SIZE_BYTES) = true ->
  exists m n, read_data m0 fs inode offset buf length = Some (m, n) /\ read_post n m.
Proof using All.
  intros Hb0. pose proof Hino as [Hi Hl]. unfold read_data.
  rewrite (proj2 (Z.leb_gt _ _)) by lia. fold (file_length m0 fs inode). fold len.
  rewrite (proj2 (Z.leb_gt _ _)) by lia. rewrite (u32_small (offset + length)) by lia.
  fold (file_block m0 fs inode (offset / BLK_SIZE_BYTES)).
  unfold block_ok in Hb0. b2p. rewrite (proj2 (Z.leb_gt _ _)) by lia.
  assert ((if len <? offset + length then len - offset else length) = total) as ->
    by (unfold total; case_if; lia).
  pose proof (rd32_range m0 (inode_addr fs inode)) as Rl. fold (file_length m0 fs inode) in Rl. fold len in Rl.
  destruct (run_loop_rule (data_step fs inode offset buf length num_inodes num_blocks len)
    read_inv (fun o => exists n m, o = Some (m, n) /\ read_post n m) (fun s => s.1.2))
    with (s := (m0, offset mod BLK_SIZE_BYTES, offset / BLK_SIZE_BYTES, total, 0)) as (o & E & n & m & -> & H).
  - apply data_step_ok.
  - split_and!; try (unfold total; lia).
    + intros _. rewrite Z.add_0_r. auto.
    + apply mem_copied_0.
  - cbn. unfold total. lia.
  - exists m, n. split; [|done]. fold num_inodes num_blocks. by rewrite E.
Qed.
End read_data_proof.

(** ** The image is not disturbed by reads into buffers outside of it *)

Definition image_same (m m' : memory) (fs : Z) : Prop :=
  forall a, fs <= a < fs + image_size m fs -> rd m' a = rd m a.

(** A file all of whose blocks exist. *)
Definition file_ok (m : memory) (fs inode : Z) : Prop :=
  inode_ok m fs inode /\
  forall b, 0 <= b -> BLK_SIZE_BYTES * b < file_length m fs inode -> block_ok m fs inode b = true.

Section image_same.
Context (m m' : memory) (fs : Z).
Hypothesis Himg : image_ok m fs.
Hypothesis Hsame : image_same m m' fs.

Lemma same_rd32 a : fs <= a -> a + 4 <= fs + image_size m fs -> rd32 m' a = rd32 m a.
Proof using Hsame. intros H1 H2. unfold rd32. by rewrite !Hsame by lia. Qed.

Lemma image_size_pos : BLK_SIZE_BYTES <= image_size m fs.
Proof using. clear Hsame. unfold image_size. pose proof (rd32_range m (fs + 4)). pose proof (rd32_range m (fs + 8)). lia. Qed.

Lemma same_counts : rd32 m' fs = rd32 m fs /\ rd32 m' (fs + 4) = rd32 m (fs + 4) /\ rd32 m' (fs + 8) = rd32 m (fs + 8).
Proof using Hsame. pose proof image_size_pos. split_and!; apply same_rd32; lia. Qed.

Lemma same_size : image_size m' fs = image_size m fs.
Proof using Hsame. unfold image_size. by destruct same_counts as (_ & -> & ->). Qed.

Lemma same_image_ok : image_ok m' fs.
Proof using Himg Hsame. unfold image_ok. by rewrite same_size. Qed.

Section one_inode.
Context (inode : Z).
Hypothesis Hino : inode_ok m fs inode.

Lemma same_length : file_length m' fs inode = file_length m fs inode.
Proof using All.
  destruct (inode_addr_eq m fs inode Himg Hino) as [E1 E2]. destruct Hino.
  apply same_rd32; lia.
Qed.

Lemma same_block b : 0 <= b -> BLK_SIZE_BYTES * b < file_length m fs inode ->
  file_block m' fs inode b = file_block m fs inode b.
Proof using All.
  intros Hb Hl. destruct (inode_addr_eq m fs inode Himg Hino) as [E1 E2]. destruct Hino.
  apply same_rd32; lia.
Qed.

Lemma same_inode_ok : inode_ok m' fs inode.
Proof using All.
  destruct Hino. unfold inode_ok. rewrite same_length. by destruct same_counts as (_ & -> & _).
Qed.

Lemma same_byte p : 0 <= p < file_length m fs inode -> block_ok m fs inode (p / BLK_SIZE_BYTES) = true ->
  file_byte m' fs inode p = file_byte m fs inode p.
Proof using All.
  intros Hp Hb. unfold file_byte. rewrite same_block by zlia. destruct same_counts as (_ & -> & _).
  unfold block_ok in Hb. b2p. pose proof (rd32_range m (inode_addr fs inode + 4 * (p / BLK_SIZE_BYTES + 1))) as R.
  fold (file_block m fs inode (p / BLK_SIZE_BYTES)) in R.
  destruct (block_addr_eq m fs (file_block m fs inode (p / BLK_SIZE_BYTES)) Himg) as [E1 E2]; [lia|].
  destruct Himg. pose proof (rd32_range m (fs + 4)). apply Hsame. zlia.
Qed.
End one_inode.

Lemma same_file_ok inode : file_ok m fs inode -> file_ok m' fs inode.
Proof using All.
  intros [Hi Hb]. split; [by apply same_inode_ok|].
  intros b H0 Hl. rewrite same_length in Hl by done. unfold block_ok. rewrite same_block by done.
  destruct same_counts as (_ & _ & ->). by apply Hb.
Qed.
End image_same.

Lemma copied_same m m' fs buf f n : image_ok m fs -> buffer_ok m fs buf n -> 0 <= n ->
  mem_copied m m' buf f n -> image_same m m' fs.
Proof.
  intros [H0 H1] (H2 & H3 & H4) Hn C a Ha. apply (mem_copied_rd _ _ _ _ _ _ C); lia.
Qed.

(** read_data on a sound file, from any position. *)
Lemma read_data_file m fs inode offset buf length :
  image_ok m fs -> file_ok m fs inode -> 0 <= offset -> 0 <= length -> offset + length < W32 ->
  buffer_ok m fs buf length ->
  let n := Z.max 0 (Z.min length (file_length m fs inode - offset)) in
  exists m', read_data m fs inode offset buf length = Some (m', n) /\
    mem_copied m m' buf (fun i => file_byte m fs inode (offset + i)) n.
Proof.
  intros Himg [Hino Hblk] Ho Hl Hw Hbuf n.
  destruct (Z_lt_le_dec offset (file_length m fs inode)) as [Hlt|Hge].
  - destruct (read_data_loop m fs inode offset buf length) as (m' & r & E & H1 & H2 & H3 & H4); try done.
    { apply Hblk; zlia. }
    exists m'. replace n with r; [done|]. destruct H4 as [->|H4]; [lia|].
    destruct (Z.eq_dec r (Z.min length (file_length m fs inode - offset))); [lia|].
    rewrite Hblk in H4; [done|zlia|zlia].
  - exists m. unfold read_data. destruct Hino as [Hi _]. rewrite (proj2 (Z.leb_gt _ _)) by lia.
    fold (file_length m fs inode). rewrite (proj2 (Z.leb_le _ _)) by lia.
    replace n with 0 by lia. split; [done|apply mem_copied_0].
Qed.

(** ** Descriptors of the running process *)

(** Descriptor [fd] of the running process [p], whose block is [b], is [f]. *)
Definition fd_is (k : kernel) (p : Z) (b : pcb_t) (fd : Z) (f : fdesc_t) : Prop :=
  cur_pcb (k_proc k) = p /\ p <> 0 /\ pcbs (k_proc k) !! p = Some b /\
  0 <= fd < MAX_DESC /\ io_files b !! Z.to_nat fd = Some f.

(** The state in which the descriptor is [f'] and the memory [m']. *)
Definition fd_moved (k : kernel) (p : Z) (b : pcb_t) (fd : Z) (f' : fdesc_t) (m' : memory) : kernel :=
  with_pcb p (set_io_files (<[Z.to_nat fd := f']> (io_files b)) b) (set_k_mem m' k).

Lemma fd_moved_id k p b fd f : fd_is k p b fd f -> fd_moved k p b fd f (k_mem k) = k.
Proof.
  intros (_ & _ & Hb & _ & Hf). unfold fd_moved. rewrite list_insert_id by done.
  replace (set_io_files (io_files b) b) with b by (by destruct b).
  rewrite with_pcb_id by done. by destruct k.
Qed.

Lemma fd_is_moved k p b fd f f' m' : fd_is k p b fd f ->
  fd_is (fd_moved k p b fd f' m') p (set_io_files (<[Z.to_nat fd := f']> (io_files b)) b) fd f'.
Proof.
  intros (H1 & H2 & H3 & H4 & H5). split_and!; try done; try lia; [apply with_pcb_lookup|].
  apply list_lookup_insert_eq. by eapply lookup_lt_Some.
Qed.

Definition read_count (m : memory) (fs inode pos nbytes : Z) : Z :=
  Z.max 0 (Z.min nbytes (file_length m fs inode - pos)).

Lemma fsys_read_file_spec fd buf nbytes k p b f :
  fd_is k p b fd f -> image_ok (k_mem k) (fs_addr k) -> file_ok (k_mem k) (fs_addr k) (inode f) ->
  0 <= file_pos f -> 0 <= nbytes < H32 -> file_pos f + nbytes < W32 ->
  buffer_ok (k_mem k) (fs_addr k) buf nbytes ->
  let n := read_count (k_mem k) (fs_addr k) (inode f) (file_pos f) nbytes in
  exists m', fsys_read_file fd buf nbytes k = Ret n (fd_moved k p b fd (set_file_pos (file_pos f + n) f) m') /\
    mem_copied (k_mem k) m' buf (fun i => file_byte (k_mem k) (fs_addr k) (inode f) (file_pos f + i)) n.
Proof.
  intros Hfd Himg Hok Hpos Hn Hw Hbuf n. pose proof Hfd as (Hc & Hp & Hb & Hi & Hf).
  destruct (read_data_file (k_mem k) (fs_addr k) (inode f) (file_pos f) buf nbytes) as (m' & E & C); try (done || lia).
  fold (read_count (k_mem k) (fs_addr k) (inode f) (file_pos f) nbytes) in E, C. fold n in E, C.
  assert (0 <= n <= nbytes) as Hnn by (unfold n, read_count; lia).
  assert (set_file_pos (file_pos f) f = f) as Ef by (by destruct f).
  enough (exists m'', wp (fsys_read_file fd buf nbytes) (fun r k' => r = n /\
      k' = fd_moved k p b fd (set_file_pos (file_pos f + n) f) m'') k /\
      mem_copied (k_mem k) m'' buf (fun i => file_byte (k_mem k) (fs_addr k) (inode f) (file_pos f + i)) n)
    as (m'' & (r & k' & E' & -> & ->)%wp_ret_iff & C'') by eauto.
  unfold fsys_read_file. destruct (Z.leb_spec (file_length (k_mem k) (fs_addr k) (inode f)) (file_pos f)) as [Hge|Hlt].
  - exists (k_mem k). assert (n = 0) as -> by (unfold n, read_count; lia). split; [|apply mem_copied_0].
    wp_steps. rewrite Hc. eapply wp_get_fd; [done..|]. wp_steps. fold (file_length (k_mem k) (fs_addr k) (inode f)).
    rewrite (proj2 (Z.leb_le _ _)) by lia. wp_steps. split; [done|]. by rewrite Z.add_0_r, Ef, (fd_moved_id _ _ _ _ f).
  - exists m'. split; [|done].
    wp_steps. rewrite Hc. eapply wp_get_fd; [done..|]. wp_steps. fold (file_length (k_mem k) (fs_addr k) (inode f)).
    rewrite (proj2 (Z.leb_gt _ _)) by lia. wp_steps. rewrite u32_small by lia.
    eapply wp_lift; [exact E|]. cbn beta iota. wp_steps. case_if.
    + eapply wp_upd_fd; [done|exact Hb|done|exact Hf|]. wp_steps.
      rewrite u32_small; [done|]. lia.
    + assert (n = 0) as Hn0 by lia. wp_steps. split; [done|]. rewrite Hn0, Z.add_0_r, Ef.
      pose proof (fd_moved_id k p b fd f Hfd) as G. unfold fd_moved in *.
      rewrite list_insert_id by done. replace (set_io_files (io_files b) b) with b by (by destruct b).
      by rewrite with_pcb_id.
Qed.

(** The loop of a program that reads a file to its end (as cat.c and the ELF
    loader of a user program do): read into [buf] until 0 comes back. *)
Fixpoint drain (fuel : nat) (fd buf nbytes : Z) : M (list Z) :=
  match fuel with
  | O => mret []
  | S fuel' =>
      cnt ← fsys_read_file fd buf nbytes;
      if cnt <=? 0 then mret [] else
      m ← gets k_mem;
      rest ← drain fuel' fd buf nbytes;
      mret (map (fun i => rd m (buf + i)) (seqZ 0 cnt) ++ rest)
  end.

Lemma seqZ_split a n k : 0 <= k <= n -> seqZ a n = seqZ a k ++ seqZ (a + k) (n - k).
Proof. intros H. rewrite <- seqZ_app by lia. f_equal. lia. Qed.

Lemma map_seqZ_shift {A} (f : Z -> A) a n : map f (seqZ a n) = map (fun i => f (a + i)) (seqZ 0 n).
Proof.
  rewrite <- (Z.add_0_r a) at 1. rewrite <- fmap_add_seqZ. unfold fmap.
  change (list_fmap Z Z) with (@map Z Z). by rewrite map_map.
Qed.

Lemma drain_spec fuel fd buf nbytes k p b f :
  fd_is k p b fd f -> image_ok (k_mem k) (fs_addr k) -> file_ok (k_mem k) (fs_addr k) (inode f) ->
  0 <= file_pos f <= file_length (k_mem k) (fs_addr k) (inode f) -> 0 < nbytes < H32 ->
  buffer_ok (k_mem k) (fs_addr k) buf nbytes ->
  file_length (k_mem k) (fs_addr k) (inode f) - file_pos f <= Z.of_nat fuel * nbytes ->
  wp (drain fuel fd buf nbytes) (fun l _ =>
    l = map (file_byte (k_mem k) (fs_addr k) (inode f))
          (seqZ (file_pos f) (file_length (k_mem k) (fs_addr k) (inode f) - file_pos f))) k.
Proof.
  revert k b f. induction fuel as [|fuel IH]; intros k b f Hfd Himg Hok Hpos Hn Hbuf Hfuel.
  { apply wp_mret. replace (_ - file_pos f) with 0 by lia. done. }
  rewrite Nat2Z.inj_succ, Z.mul_succ_l in Hfuel.
  pose proof (Z.mul_nonneg_nonneg (Z.of_nat fuel) nbytes ltac:(lia) ltac:(lia)).
  pose proof Hok as [Hino Hblk]. pose proof Hino as [_ Hlen]. cbn [drain].
  destruct (fsys_read_file_spec fd buf nbytes k p b f) as (m' & E & C); try (done || lia).
  set (fs := fs_addr k) in *. set (len := file_length (k_mem k) fs (inode f)) in *.
  set (n := read_count (k_mem k) fs (inode f) (file_pos f) nbytes) in *.
  assert (n = Z.min nbytes (len - file_pos f)) as En by (unfold n, read_count; fold len; lia).
  apply wp_bind. unfold wp at 1. rewrite E. case_if.
  { wp_steps. by replace (len - file_pos f) with 0 by lia. }
  wp_steps. set (k' := fd_moved _ _ _ _ _ _).
  set (f' := set_file_pos (file_pos f + n) f).
  assert (image_same (k_mem k) m' fs) as Hs.
  { eapply (copied_same _ _ _ buf _ n); [done| |lia|exact C]. destruct Hbuf as (? & ? & ?). split_and!; lia. }
  pose proof (same_length _ m' fs Himg Hs (inode f) Hino) as El. fold len in El.
  assert (fd_is k' p (set_io_files (<[Z.to_nat fd := f']> (io_files b)) b) fd f') as Hfd' by (by eapply fd_is_moved).
  specialize (IH k' _ f' Hfd'). change (k_mem k') with m' in IH. change (fs_addr k') with fs in IH.
  change (inode f') with (inode f) in IH. change (file_pos f') with (file_pos f + n) in IH. rewrite El in IH.
  eapply wp_mono; [|apply IH]; try lia.
  - intros rest k'' ->. wp_steps. rewrite (seqZ_split (file_pos f) _ n), map_app by lia. f_equal.
    + rewrite (map_seqZ_shift (file_byte _ _ _)). apply map_ext_in. intros i Hi.
      apply list_elem_of_In, elem_of_seqZ in Hi.
      rewrite (mem_copied_in _ _ _ _ _ _ C ltac:(lia) i) by (done || lia). apply u8_small, rd_range.
    + rewrite Z.sub_add_distr. apply map_ext_in. intros i Hi.
      apply list_elem_of_In, elem_of_seqZ in Hi. apply same_byte; [done|done|done|fold len; lia|].
      apply Hblk; [zlia|fold len; zlia].
  - eapply same_image_ok; done.
  - eapply same_file_ok; done.
  - destruct Hbuf as (? & ? & ?). unfold buffer_ok. rewrite (same_size (k_mem k)) by done. done.
Qed.

(** ** Reading a directory *)

(** [k] is the length of the name in entry [i]. *)
Definition name_len (m : memory) (fs i k : Z) : Prop :=
  let e := at_ m (entry_addr fs i) in
  0 <= k <= FILENAME_LEN /\ (forall j, 0 <= j < k -> e j <> 0) /\ (k < FILENAME_LEN -> e k = 0).

Lemma name_len_unique m fs i k k' : name_len m fs i k -> name_len m fs i k' -> k = k'.
Proof.
  intros (H1 & H2 & H3) (H1' & H2' & H3'). destruct (Z.lt_trichotomy k k') as [?|[?|?]]; [|done|].
  - exfalso. apply (H2' k); [lia|apply H3; lia].
  - exfalso. apply (H2 k'); [lia|apply H3'; lia].
Qed.

(** The entries are in the boot block. *)
Lemma entry_in_image m fs i : image_ok m fs -> 0 <= i < rd32 m fs -> rd32 m fs <= 63 ->
  entry_addr fs i = fs + ENTRY_SIZE_BYTES * (i + 1) /\ entry_addr fs i + ENTRY_SIZE_BYTES <= fs + image_size m fs.
Proof.
  intros [H0 H1] Hi Hn. unfold entry_addr. pose proof (image_size_pos m fs). rewrite u32_small by lia. lia.
Qed.

Section read_dir.
Context (fd buf nbytes : Z) (k : kernel) (p : Z) (b : pcb_t) (f : fdesc_t).
Let m := k_mem k.
Let fs := fs_addr k.
Hypothesis Hfd : fd_is k p b fd f.
Hypothesis Himg : image_ok m fs.
Hypothesis Hnum : rd32 m fs <= 63.
Hypothesis Hpos : 0 <= file_pos f < W32 - 1.
Hypothesis Hbuf : buffer_ok m fs buf FILENAME_LEN.

Lemma fsys_read_dir_end : rd32 m fs <= file_pos f ->
  exists m', fsys_read_dir fd buf nbytes k = Ret 0 (set_k_mem m' k) /\
    mem_copied m m' buf (fun _ => 0) FILENAME_LEN.
Proof using All.
  intros Hge. pose proof Hfd as (Hc & Hp & Hb & Hi & Hf).
  destruct (memset_copied m buf 0 FILENAME_LEN) as (m1 & E1 & C1); [lia|]. change (u8 0) with 0 in C1.
  exists m1. split; [|done].
  assert (wp (fsys_read_dir fd buf nbytes) (fun r k' => r = 0 /\ k' = set_k_mem m1 k) k) as W.
  { unfold fsys_read_dir. wp_steps. rewrite Hc. eapply wp_get_fd; [done..|]. wp_steps.
    eapply wp_mem_op; [exact E1|]. fold m fs. rewrite (proj2 (Z.leb_le _ _)) by lia. by wp_steps. }
  apply wp_ret_iff in W as (r & k' & E & -> & ->). done.
Qed.

Lemma fsys_read_dir_entry : file_pos f < rd32 m fs ->
  exists m' l n, name_len m fs (file_pos f) l /\ l <= n <= FILENAME_LEN /\
    (at_ m (entry_addr fs (file_pos f)) 31 = 0 -> n = l) /\
    fsys_read_dir fd buf nbytes k = Ret n (fd_moved k p b fd (set_file_pos (file_pos f + 1) f) m') /\
    mem_copied m m' buf (strncpy_bytes (at_ m (entry_addr fs (file_pos f))) l) FILENAME_LEN.
Proof using All.
  intros Hlt. pose proof Hfd as (Hc & Hp & Hb & Hi & Hf).
  destruct (memset_copied m buf 0 FILENAME_LEN) as (m1 & E1 & C1); [lia|]. change (u8 0) with 0 in C1.
  destruct (entry_in_image m fs (file_pos f)) as [Ee Ee']; [done|lia|lia|].
  set (e := entry_addr fs (file_pos f)) in *.
  assert (forall i, 0 <= i < ENTRY_SIZE_BYTES -> rd m1 (e + i) = rd m (e + i)) as Hsame.
  { intros i Hi'. destruct Himg, Hbuf as (? & ? & ?). apply (mem_copied_rd _ _ _ _ _ _ C1); lia. }
  assert (forall (Q : unit -> kernel -> Prop) m2,
    Q tt (fd_moved k p b fd (set_file_pos (file_pos f + 1) f) m2) ->
    wp (upd_fd p fd (fun f => set_file_pos (u32 (file_pos f + 1)) f)) Q (set_k_mem m2 (set_k_mem m1 k))) as Fin.
  { intros Q m2 HQ. eapply wp_upd_fd; [done|exact Hb|done|exact Hf|].
    rewrite u32_small by lia. exact HQ. }
  assert (forall l, 0 <= l <= FILENAME_LEN -> (forall i, 0 <= i < l -> at_ m1 e i <> 0) ->
    (l < FILENAME_LEN -> at_ m1 e l = 0) -> name_len m fs (file_pos f) l) as NL.
  { intros l Hl Hn1 Hn2. unfold name_len. fold e. split_and!; [lia|lia| |].
    - intros j Hj. unfold at_. rewrite <- Hsame by lia. by apply Hn1.
    - intros Hj. unfold at_. rewrite <- Hsame by lia. by apply Hn2. }
  destruct (Z.eqb_spec (rd m1 (e + 31)) 0) as [Hz|Hnz].
  - (* a name with a NUL in its field: strlen bytes *)
    destruct (strncpy_spec m1 buf (at_ m1 e) FILENAME_LEN) as (_ & l & _ & Hl & Hn1 & Hn2 & _); [lia|].
    assert (l < FILENAME_LEN) as Hl'.
    { destruct (Z.eq_dec l FILENAME_LEN) as [->|]; [|lia]. exfalso. by apply (Hn1 31); [lia|]. }
    assert (strlen (at_ m1 e) = Some l) as El by (apply strlen_spec; [split_and!; [lia|done|by apply Hn2]|lia]).
    destruct (strncpy_spec m1 buf (at_ m1 e) l) as (m2 & l2 & E2 & Hl2 & Hm1 & Hm2 & C2); [lia|].
    assert (l2 = l) as ->.
    { destruct (Z.eq_dec l2 l); [done|]. exfalso. apply (Hn1 l2); [lia|apply Hm2; lia]. }
    exists m2, l, l. split_and!; [by apply NL|lia|lia|done| |].
    + assert (wp (fsys_read_dir fd buf nbytes) (fun r k' => r = l /\
        k' = fd_moved k p b fd (set_file_pos (file_pos f + 1) f) m2) k) as W.
      { unfold fsys_read_dir. wp_steps. rewrite Hc. eapply wp_get_fd; [done..|]. wp_steps.
        eapply wp_mem_op; [exact E1|]. fold m fs e. rewrite (proj2 (Z.leb_gt _ _)) by lia. wp_steps.
        cbn [k_mem set_k_mem]. change (32 - 1) with 31. rewrite (proj2 (Z.eqb_eq _ _) Hz). cbn [negb].
        wp_steps. eapply wp_lift; [exact El|]. wp_steps. eapply wp_mem_op; [exact E2|]. wp_steps. by apply Fin. }
      apply wp_ret_iff in W as (r & k' & E & -> & ->). done.
    + eapply mem_copied_ext; [|eapply mem_copied_over; [|exact C1|exact C2]]; [|lia].
      intros i Hi'. cbn beta. unfold strncpy_bytes. repeat case_if; try lia.
      unfold at_. by rewrite Hsame by lia.
  - (* a name that fills its field *)
    destruct (strncpy_spec m1 buf (at_ m1 e) FILENAME_LEN) as (m2 & l & E2 & Hl & Hn1 & Hn2 & C2); [lia|].
    exists m2, l, FILENAME_LEN. split_and!; [by apply NL|lia|lia| | |].
    + intros Hz. exfalso. apply Hnz. by rewrite Hsame by lia.
    + assert (wp (fsys_read_dir fd buf nbytes) (fun r k' => r = FILENAME_LEN /\
        k' = fd_moved k p b fd (set_file_pos (file_pos f + 1) f) m2) k) as W.
      { unfold fsys_read_dir. wp_steps. rewrite Hc. eapply wp_get_fd; [done..|]. wp_steps.
        eapply wp_mem_op; [exact E1|]. fold m fs e. rewrite (proj2 (Z.leb_gt _ _)) by lia. wp_steps.
        cbn [k_mem set_k_mem]. change (32 - 1) with 31. rewrite (proj2 (Z.eqb_neq _ _) Hnz). cbn [negb].
        wp_steps. eapply wp_mem_op; [exact E2|]. wp_steps. by apply Fin. }
      apply wp_ret_iff in W as (r & k' & E & -> & ->). done.
    + eapply mem_copied_ext; [|eapply mem_copied_over; [|exact C1|exact C2]]; [|lia].
      intros i Hi'. cbn beta. unfold strncpy_bytes. repeat case_if; try lia.
      unfold at_. by rewrite Hsame by lia.
Qed.
End read_dir.

(** ** Properties *)

(** Looking a name up returns the first directory entry with that name, and -1
    exactly when there is none or the name is longer than 32 bytes. *)
Theorem read_dentry_by_name_finds m fs fname l :
  strlen (at_ m fname) = Some l ->
  if FILENAME_LEN <? l then read_dentry_by_name m fs (at_ m fname) = Some (FAILURE, None)
  else (exists i, 0 <= i < rd32 m fs /\ has_name m fs i (at_ m fname) /\
          (forall j, 0 <= j < i -> ~ has_name m fs j (at_ m fname)) /\
          read_dentry_by_name m fs (at_ m fname) = Some (SUCCESS, Some (dentry_at m (entry_addr fs i)))) \/
       ((forall j, 0 <= j < rd32 m fs -> ~ has_name m fs j (at_ m fname)) /\
          read_dentry_by_name m fs (at_ m fname) = Some (FAILURE, None)).
Proof. intros Hl. apply (read_dentry_by_name_spec m fs _ l (at_bytes _ _) Hl). Qed.

(** [C1] read_data, on every branch: a bad inode or a bad first block is -1, an offset
    at or past the end is 0, both without touching memory; otherwise it copies
    exactly the bytes of the file from [offset] on, as many as were asked for or
    remain, stopping early only at a block number outside of the image. *)
Theorem read_data_contents m fs inode offset buf length :
  image_ok m fs -> (inode < rd32 m (fs + 4) -> inode_ok m fs inode) -> 0 <= inode ->
  0 <= offset -> 0 <= length -> offset + length < W32 -> buffer_ok m fs buf length ->
  exists m' r, read_data m fs inode offset buf length = Some (m', r) /\
    if rd32 m (fs + 4) <=? inode then r = FAILURE /\ m' = m
    else if file_length m fs inode <=? offset then r = 0 /\ m' = m
    else if negb (block_ok m fs inode (offset / BLK_SIZE_BYTES)) then r = FAILURE /\ m' = m
    else 0 <= r <= Z.min length (file_length m fs inode - offset) /\
      mem_copied m m' buf (fun i => file_byte m fs inode (offset + i)) r /\
      (r = Z.min length (file_length m fs inode - offset) \/
       block_ok m fs inode ((offset + r) / BLK_SIZE_BYTES) = false).
Proof.
  intros Himg Hino Hi Ho Hl Hw Hbuf.
  destruct (Z.leb_spec (rd32 m (fs + 4)) inode) as [H1|H1].
  { exists m, FAILURE. unfold read_data. by rewrite (proj2 (Z.leb_le _ _)). }
  destruct (Z.leb_spec (file_length m fs inode) offset) as [H2|H2].
  { exists m, 0. unfold read_data. rewrite (proj2 (Z.leb_gt _ _)) by lia.
    fold (file_length m fs inode). by rewrite (proj2 (Z.leb_le _ _)). }
  destruct (block_ok m fs inode (offset / BLK_SIZE_BYTES)) eqn:H3; cbn [negb].
  - destruct (read_data_loop m fs inode offset buf length) as (m' & r & E & P1 & P2 & _ & P4); auto; try lia.
    exists m', r. auto.
  - exists m, FAILURE. unfold read_data. rewrite (proj2 (Z.leb_gt _ _)) by lia.
    fold (file_length m fs inode). rewrite (proj2 (Z.leb_gt _ _)) by lia.
    fold (file_block m fs inode (offset / BLK_SIZE_BYTES)). unfold block_ok in H3. b2p.
    by rewrite (proj2 (Z.leb_le _ _)).
Qed.

(** One read through a descriptor: min(nbytes, bytes left) bytes of the file from
    the descriptor's position, 0 at the end; the position moves by as much, and
    nothing else but the buffer changes. *)
Theorem fsys_read_file_reads fd buf nbytes k p b f :
  fd_is k p b fd f -> image_ok (k_mem k) (fs_addr k) -> file_ok (k_mem k) (fs_addr k) (inode f) ->
  0 <= file_pos f -> 0 <= nbytes < H32 -> file_pos f + nbytes < W32 ->
  buffer_ok (k_mem k) (fs_addr k) buf nbytes ->
  let n := Z.max 0 (Z.min nbytes (file_length (k_mem k) (fs_addr k) (inode f) - file_pos f)) in
  exists m', fsys_read_file fd buf nbytes k = Ret n (fd_moved k p b fd (set_file_pos (file_pos f + n) f) m') /\
    forall a, rd m' a = if u32 (a - buf) <? n
      then file_byte (k_mem k) (fs_addr k) (inode f) (file_pos f + u32 (a - buf)) else rd (k_mem k) a.
Proof.
  intros Hfd Himg Hok Hpos Hn Hw Hbuf n.
  destruct (fsys_read_file_spec fd buf nbytes k p b f) as (m' & E & C); [assumption..|].
  unfold read_count in C. fold n in C. exists m'. split; [exact E|]. intros a. rewrite C.
  case_if; [|done]. by rewrite u8_small by apply rd_range.
Qed.

(** [C13] Reading a sound file in chunks until 0 comes back gives the whole rest of the
    file, for every chunk size, and needs only ceil(rest/chunk) successful reads. *)
Theorem drain_reads_file fuel fd buf nbytes k p b f :
  fd_is k p b fd f -> image_ok (k_mem k) (fs_addr k) -> file_ok (k_mem k) (fs_addr k) (inode f) ->
  0 <= file_pos f <= file_length (k_mem k) (fs_addr k) (inode f) -> 0 < nbytes < H32 ->
  buffer_ok (k_mem k) (fs_addr k) buf nbytes ->
  file_length (k_mem k) (fs_addr k) (inode f) - file_pos f <= Z.of_nat fuel * nbytes ->
  wp (drain fuel fd buf nbytes) (fun l _ =>
    l = map (file_byte (k_mem k) (fs_addr k) (inode f))
          (seqZ (file_pos f) (file_length (k_mem k) (fs_addr k) (inode f) - file_pos f))) k.
Proof. apply drain_spec. Qed.

(** Reading a directory: each read stores the next entry's name, padded to 32
    bytes, and moves on by one entry; after the last one it returns 0.  (Whatever
    nbytes is: the buffer always gets 32 bytes.) *)
Theorem fsys_read_dir_lists fd buf nbytes k p b f :
  fd_is k p b fd f -> image_ok (k_mem k) (fs_addr k) -> rd32 (k_mem k) (fs_addr k) <= 63 ->
  0 <= file_pos f < W32 - 1 -> buffer_ok (k_mem k) (fs_addr k) buf FILENAME_LEN ->
  if rd32 (k_mem k) (fs_addr k) <=? file_pos f then
    exists m', fsys_read_dir fd buf nbytes k = Ret 0 (set_k_mem m' k) /\
      mem_copied (k_mem k) m' buf (fun _ => 0) FILENAME_LEN
  else
    exists m' l n, name_len (k_mem k) (fs_addr k) (file_pos f) l /\ l <= n <= FILENAME_LEN /\
      (at_ (k_mem k) (entry_addr (fs_addr k) (file_pos f)) 31 = 0 -> n = l) /\
      fsys_read_dir fd buf nbytes k = Ret n (fd_moved k p b fd (set_file_pos (file_pos f + 1) f) m') /\
      mem_copied (k_mem k) m' buf
        (strncpy_bytes (at_ (k_mem k) (entry_addr (fs_addr k) (file_pos f))) l) FILENAME_LEN.
Proof.
  intros Hfd Himg Hnum Hpos Hbuf. case_if.
  - apply (fsys_read_dir_end fd buf nbytes k p b f); assumption.
  - apply (fsys_read_dir_entry fd buf nbytes k p b f); assumption.
Qed.

(** *** Witnesses: an image with one file, "a", of five bytes. *)

Definition tiny_image : memory :=
  let m := wr32 (wr32 (wr32 ∅ 0x1000 1) 0x1004 1) 0x1008 1 in
  let m := wr32 (wr32 (wr m 0x1040 97) 0x1060 2) 0x1064 0 in
  let m := wr32 (wr32 m 0x2000 5) 0x2004 0 in
  blit m 0x3000 (lit "hello") 5.

Definition tiny_pcb : pcb_t :=
  set_io_files (<[2%nat := mk_fdesc regf_jt 0 0 IN_USE]> (io_files pcb_zero)) pcb_zero.
Definition tiny_kernel : kernel :=
  with_pcb 0x7FE000 tiny_pcb
    (set_k_proc (set_cur_pcb 0x7FE000 (k_proc kernel_quiet))
       (set_fs_addr 0x1000 (set_k_mem tiny_image kernel_quiet))).

Lemma tiny_image_ok : image_ok tiny_image 0x1000.
Proof. split; vm_compute; congruence. Qed.
Lemma tiny_file_ok : file_ok tiny_image 0x1000 0.
Proof.
  split; [split; vm_compute; [split|]; congruence|]. intros b Hb Hl.
  change (file_length tiny_image 0x1000 0) with 5 in Hl. assert (b = 0) as -> by lia. reflexivity.
Qed.
Lemma tiny_buffer_ok n : 0 <= n <= 4096 -> buffer_ok tiny_image 0x1000 0x8000 n.
Proof. intros. unfold buffer_ok. change (image_size tiny_image 0x1000) with 12288. lia. Qed.
Lemma tiny_fd_is : fd_is tiny_kernel 0x7FE000 tiny_pcb 2 (mk_fdesc regf_jt 0 0 IN_USE).
Proof. split_and!; (reflexivity || lia). Qed.

Lemma read_dentry_by_name_finds_witness :
  exists d, read_dentry_by_name tiny_image 0x1000 (at_ tiny_image 0x1040) = Some (SUCCESS, Some d).
Proof.
  pose proof (read_dentry_by_name_finds tiny_image 0x1000 0x1040 1 ltac:(reflexivity)) as H.
  cbn [Z.ltb Z.compare Pos.compare Pos.compare_cont] in H. destruct H as [(i & _ & _ & _ & ->)|[_ E]].
  - eexists. reflexivity.
  - vm_compute in E. discriminate.
Defined.

Lemma read_data_contents_witness :
  exists m', read_data tiny_image 0x1000 0 1 0x8000 100 = Some (m', 4).
Proof.
  destruct (read_data_contents tiny_image 0x1000 0 1 0x8000 100) as (m' & r & E & H);
    [apply tiny_image_ok|intros _; apply tiny_file_ok|lia|lia|lia|lia|apply tiny_buffer_ok; lia|].
  exists m'. rewrite E. do 2 f_equal. destruct (proj2 (proj2 H)) as [->|B]; [reflexivity|].
  destruct (proj1 H) as [H1 H2]. change (Z.min 100 (file_length tiny_image 0x1000 0 - 1)) with 4 in H2.
  replace ((1 + r) / BLK_SIZE_BYTES) with 0 in B by zlia. discriminate B.
Defined.

Lemma fsys_read_file_reads_witness :
  exists m', fsys_read_file 2 0x8000 100 tiny_kernel =
    Ret 5 (fd_moved tiny_kernel 0x7FE000 tiny_pcb 2 (mk_fdesc regf_jt 0 5 IN_USE) m').
Proof.
  destruct (fsys_read_file_reads 2 0x8000 100 tiny_kernel 0x7FE000 tiny_pcb (mk_fdesc regf_jt 0 0 IN_USE))
    as (m' & E & _);
    [apply tiny_fd_is|apply tiny_image_ok|apply tiny_file_ok|cbn; lia|lia|cbn; lia|apply tiny_buffer_ok; lia|].
  exists m'. rewrite E. reflexivity.
Defined.

Lemma drain_reads_file_witness :
  wp (drain 3 2 0x8000 2) (fun l _ => l = bytes_of_string "hello") tiny_kernel.
Proof.
  eapply wp_mono; [|apply (drain_reads_file 3 2 0x8000 2 tiny_kernel 0x7FE000 tiny_pcb (mk_fdesc regf_jt 0 0 IN_USE));
    [apply tiny_fd_is|apply tiny_image_ok|apply tiny_file_ok| |lia|apply tiny_buffer_ok; lia|]].
  - intros l k ->. vm_compute. reflexivity.
  - vm_compute. split; congruence.
  - vm_compute. congruence.
Defined.

Lemma fsys_read_dir_lists_witness :
  exists m' l n, name_len tiny_image 0x1000 0 l /\ l <= n <= FILENAME_LEN /\
    fsys_read_dir 2 0x8000 32 tiny_kernel =
    Ret n (fd_moved tiny_kernel 0x7FE000 tiny_pcb 2 (mk_fdesc regf_jt 0 1 IN_USE) m').
Proof.
  pose proof (fsys_read_dir_lists 2 0x8000 32 tiny_kernel 0x7FE000 tiny_pcb (mk_fdesc regf_jt 0 0 IN_USE)
    tiny_fd_is tiny_image_ok ltac:(vm_compute; congruence) ltac:(cbn; lia) ltac:(apply tiny_buffer_ok; lia)) as H.
  change (rd32 (k_mem tiny_kernel) (fs_addr tiny_kernel)) with 1 in H.
  destruct H as (m' & l & n & H1 & H2 & _ & H4 & _).
  exists m', l, n. split; [exact H1|]. split; [exact H2|exact H4].
Defined.
