(* ===== verification/Vfs.v ===== *)
(** * File descriptors and jump tables (pcb.c, second part)

    open_file_desc and close_pcb, the functions of pcb.c that call through the
    jump tables [rtc_jt], [dir_jt], [regf_jt] (rtc.c, file_system.c), [stdin] and
    [stdout] (terminal.c).  A NULL entry of a table is [None]. *)

From Stdlib Require Import ZArith Lia Ascii String.
From stdpp Require Import gmap list numbers strings.
From S2P Require Import Prelude Memory LibString State Pcb Rtc FileSystem.

(** ** Definitions *)

(** The open and close columns of the jump tables. *)
Definition op_open (t : f_ops) : option ((Z -> Z) -> M Z) :=
  match t with
  | rtc_jt => Some rtc_open
  | dir_jt => Some fsys_open_dir
  | regf_jt => Some fsys_open_file
  | stdin | stdout | empty_f_ops_tab => None
  end.

Definition op_close (t : f_ops) : option (Z -> M Z) :=
  match t with
  | rtc_jt => Some rtc_close
  | dir_jt => Some fsys_close_dir
  | regf_jt => Some fsys_close_file
  | stdin | stdout | empty_f_ops_tab => None
  end.

Definition tableaux : list f_ops := [rtc_jt; dir_jt; regf_jt].

(** The body of the loop of open_file_desc for a free descriptor.  When the name
    is not found [temp_dentry] is not initialised. *)
Definition open_at (blk idx : Z) (filename : Z -> Z) : M Z :=
  upd_fd blk idx (set_file_pos 0) ;;
  upd_fd blk idx (set_flags IN_USE) ;;
  isstdin ← lift Diverges (strncmp filename (lit "stdin") 5);
  isstdout ← (if c_true isstdin then lift Diverges (strncmp filename (lit "stdout") 6) else mret 0);
  if c_true isstdin && c_true isstdout then
    m ← gets k_mem;
    fs ← gets fs_addr;
    '(_, d) ← lift Diverges (read_dentry_by_name m fs filename);
    temp_dentry ← lift Uninitialised d;
    upd_fd blk idx (set_inode (inode_num temp_dentry)) ;;
    jt ← lift OutOfBounds (tableaux !! Z.to_nat (file_type temp_dentry));
    upd_fd blk idx (set_file_ops jt) ;;
    open ← lift NullDeref (op_open jt);
    open filename ;;
    mret idx
  else
    upd_fd blk idx (set_file_ops (if negb (c_true isstdin) then stdin else stdout)) ;;
    upd_fd blk idx (set_inode 0) ;;
    mret idx.

(** for(idx = 0; idx < MAX_DESC; idx++); [n] descriptors are left. *)
Fixpoint open_scan (blk : Z) (filename : Z -> Z) (n : nat) (idx : Z) : M Z :=
  match n with
  | O => mret (-1)
  | S n' =>
      fd ← get_fd blk idx;
      if decide (flags fd = NOT_USED) then open_at blk idx filename
      else open_scan blk filename n' (idx + 1)
  end.

Definition open_file_desc (blk : Z) (filename : Z -> Z) : M Z :=
  if blk =? 0 then mret (-1) else open_scan blk filename 8 0.

(** close_pcb: note that it closes the descriptors of [cur_pcb]. *)
Definition close_pcb (blk : Z) : M Z :=
  if blk =? 0 then mret (-1) else
  for_ 8 (fun i =>
    cur ← gets (fun k => cur_pcb (k_proc k));
    fd ← get_fd cur i;
    match op_close (file_ops fd) with
    | Some close => close i ;; skip
    | None => skip
    end ;;
    cur ← gets (fun k => cur_pcb (k_proc k));
    close_file_desc cur i ;; skip) ;;
  mret 0.

(** ** Stores into descriptors *)

(** Block [b] with descriptor [i] replaced. *)
Definition with_fd (i : Z) (f : fdesc_t) (b : pcb_t) : pcb_t :=
  set_io_files (<[Z.to_nat i := f]> (io_files b)) b.

Lemma with_fd_twice i f f' b : with_fd i f (with_fd i f' b) = with_fd i f b.
Proof. unfold with_fd. cbn [io_files set_io_files]. by rewrite list_insert_insert_eq. Qed.

Lemma with_fd_lookup i f b : pcb_ok b -> 0 <= i < MAX_DESC -> io_files (with_fd i f b) !! Z.to_nat i = Some f.
Proof. intros [H _] Hi. apply list_lookup_insert_eq. lia. Qed.

Lemma with_fd_ne i j f b : 0 <= i -> 0 <= j -> i <> j ->
  io_files (with_fd i f b) !! Z.to_nat j = io_files b !! Z.to_nat j.
Proof. intros. apply list_lookup_insert_ne. lia. Qed.

Lemma with_fd_ok i f b : pcb_ok b -> pcb_ok (with_fd i f b).
Proof. intros (H1 & H2 & H3). split_and!; try done. cbn. by rewrite length_insert. Qed.

Lemma with_fd_id i f b : io_files b !! Z.to_nat i = Some f -> with_fd i f b = b.
Proof. intros H. unfold with_fd. rewrite list_insert_id by done. by destruct b. Qed.

(** One store into a descriptor that was already stored to. *)
Lemma wp_upd_with_fd p i b f g k (Q : unit -> kernel -> Prop) :
  p <> 0 -> pcb_ok b -> 0 <= i < MAX_DESC ->
  Q tt (with_pcb p (with_fd i (g f) b) k) ->
  wp (upd_fd p i g) Q (with_pcb p (with_fd i f b) k).
Proof.
  intros Hp Hb Hi HQ. eapply wp_upd_fd; [done|apply with_pcb_lookup|done|by apply with_fd_lookup|].
  fold (with_fd i (g f) (with_fd i f b)). by rewrite with_pcb_twice, with_fd_twice.
Qed.

(** ** Opening *)

(** Opening a device or file only talks to ports and may turn interrupts on. *)
Definition ports_only (k k' : kernel) : Prop :=
  exists io fl, (iflag (k_cpu k) = true -> fl = true) /\ k' = set_k_cpu (set_iflag fl (k_cpu k)) (set_k_io io k).

Lemma ports_only_refl k : ports_only k k.
Proof. exists (k_io k), (iflag (k_cpu k)). by destruct k as [??? []]. Qed.

Lemma op_open_ports jt open filename k : op_open jt = Some open ->
  wp (open filename) (fun r k' => r = 0 /\ ports_only k k') k.
Proof.
  destruct jt; cbn [op_open]; intros [= <-].
  - unfold rtc_open, set_int_freq. wp_steps. split; [done|]. by eexists _, _.
  - split; [done|apply ports_only_refl].
  - split; [done|apply ports_only_refl].
Qed.

Lemma tableaux_open ft jt : tableaux !! Z.to_nat ft = Some jt -> exists open, op_open jt = Some open.
Proof.
  unfold tableaux. destruct (Z.to_nat ft) as [|[|[|n]]]; cbn; intros [= <-]; cbn; eauto.
Qed.

(** The name is one of the two special ones. *)
Definition std_name (filename : Z -> Z) : option f_ops :=
  match strncmp filename (lit "stdin") 5, strncmp filename (lit "stdout") 6 with
  | Some r, Some r' => if r =? 0 then Some stdin else if r' =? 0 then Some stdout else None
  | _, _ => None
  end.

Lemma lit_bytes s : is_bytes (lit s).
Proof.
  intros i. unfold lit, arr_at. destruct (_ !! _) as [b|] eqn:E; [|cbn; lia]. cbn.
  apply list_elem_of_lookup_2, elem_of_app in E as [E|E]; [|apply list_elem_of_singleton in E; subst; cbn; lia].
  unfold bytes_of_string in E. apply list_elem_of_In, in_map_iff in E as (c & <- & _).
  pose proof (N_ascii_bounded c). lia.
Qed.

Section opening.
Context (blk idx : Z) (filename : Z -> Z) (b : pcb_t) (f : fdesc_t) (k : kernel).
Hypothesis Hblk : blk <> 0.
Hypothesis Hb : pcbs (k_proc k) !! blk = Some b.
Hypothesis Hok : pcb_ok b.
Hypothesis Hidx : 0 <= idx < MAX_DESC.
Hypothesis Hf : io_files b !! Z.to_nat idx = Some f.
Hypothesis Hname : is_bytes filename.

(** The descriptor open_file_desc fills in. *)
Definition opened (jt : f_ops) (ino : Z) : fdesc_t := mk_fdesc jt ino 0 IN_USE.

Lemma open_at_std jt : std_name filename = Some jt ->
  open_at blk idx filename k = Ret idx (with_pcb blk (with_fd idx (opened jt 0) b) k).
Proof using Hblk Hb Hok Hidx Hf Hname.
  intros Hs. assert (wp (open_at blk idx filename) (fun r k' => r = idx /\
    k' = with_pcb blk (with_fd idx (opened jt 0) b) k) k) as W.
  { unfold open_at. wp_steps. eapply wp_upd_fd; [done|exact Hb|done|exact Hf|]. fold (with_fd idx (set_file_pos 0 f) b).
    wp_steps. apply wp_upd_with_fd; [done..|]. wp_steps. unfold std_name in Hs.
    destruct (strncmp filename (lit "stdin") 5) as [r|] eqn:E1; [|done].
    destruct (strncmp filename (lit "stdout") 6) as [r'|] eqn:E2; [|done].
    cbn [lift]. wp_steps. unfold c_true. destruct (Z.eqb_spec r 0) as [->|Hr]; cbn [negb andb].
    - injection Hs as <-. wp_steps. cbn [Z.eqb negb andb]. wp_steps.
      apply wp_upd_with_fd; [done..|]. wp_steps. apply wp_upd_with_fd; [done..|]. wp_steps. done.
    - destruct (Z.eqb_spec r' 0) as [->|]; [|done]. injection Hs as <-. wp_steps. cbn [Z.eqb negb andb]. wp_steps.
      apply wp_upd_with_fd; [done..|]. wp_steps. apply wp_upd_with_fd; [done..|]. wp_steps. done. }
  apply wp_ret_iff in W as (r & k' & E & -> & ->). done.
Qed.

Lemma open_at_file d jt : std_name filename = None ->
  read_dentry_by_name (k_mem k) (fs_addr k) filename = Some (SUCCESS, Some d) ->
  tableaux !! Z.to_nat (file_type d) = Some jt ->
  wp (open_at blk idx filename) (fun r k' => r = idx /\
    ports_only (with_pcb blk (with_fd idx (opened jt (inode_num d)) b) k) k') k.
Proof using Hblk Hb Hok Hidx Hf Hname.
  intros Hs Hd Hjt. unfold open_at. wp_steps. eapply wp_upd_fd; [done|exact Hb|done|exact Hf|].
  fold (with_fd idx (set_file_pos 0 f) b). wp_steps. apply wp_upd_with_fd; [done..|]. wp_steps.
  destruct (strncmp_spec filename (lit "stdin") 5) as (r & E1 & _); [done|apply lit_bytes|lia|].
  destruct (strncmp_spec filename (lit "stdout") 6) as (r' & E2 & _); [done|apply lit_bytes|lia|].
  unfold std_name in Hs. rewrite E1, E2 in *. unfold c_true.
  destruct (Z.eqb_spec r 0); [done|]. destruct (Z.eqb_spec r' 0); [done|].
  cbn [lift]. wp_steps. rewrite (proj2 (Z.eqb_neq r 0)) by done. cbn [negb lift]. wp_steps.
  rewrite (proj2 (Z.eqb_neq r' 0)) by done. cbn [negb andb]. wp_steps.
  eapply wp_lift; [exact Hd|]. cbn beta iota. wp_steps. eapply wp_lift; [reflexivity|]. wp_steps.
  apply wp_upd_with_fd; [done..|]. wp_steps. eapply wp_lift; [exact Hjt|]. wp_steps.
  apply wp_upd_with_fd; [done..|]. wp_steps. destruct (tableaux_open _ _ Hjt) as [open Ho].
  eapply wp_lift; [exact Ho|]. wp_steps. eapply wp_mono; [|by apply (op_open_ports jt)].
  intros _ k' [_ Hp]. wp_steps. split; [done|]. exact Hp.
Qed.
End opening.

(** The first free descriptor of a block. *)
Definition first_free (b : pcb_t) : option Z :=
  '(i, _) ← list_find (fun d => flags d = NOT_USED) (io_files b); Some (Z.of_nat i).

Lemma open_scan_skip blk filename b k n idx j : blk <> 0 -> pcbs (k_proc k) !! blk = Some b -> pcb_ok b ->
  0 <= idx -> idx + Z.of_nat n <= MAX_DESC -> (j <= n)%nat ->
  (forall i d, idx <= i < idx + Z.of_nat j -> io_files b !! Z.to_nat i = Some d -> flags d <> NOT_USED) ->
  open_scan blk filename n idx k = open_scan blk filename (n - j) (idx + Z.of_nat j) k.
Proof.
  intros Hblk Hb Hok. revert n idx. induction j as [|j IH]; intros n idx Hi Hn Hj Hused.
  { by rewrite Nat.sub_0_r, Z.add_0_r. }
  destruct n as [|n]; [lia|]. cbn [open_scan Nat.sub].
  destruct (lookup_lt_is_Some_2 (io_files b) (Z.to_nat idx)) as [d Hd]; [destruct Hok; lia|].
  assert (get_fd blk idx k = Ret d k) as E.
  { assert (wp (get_fd blk idx) (fun r k' => r = d /\ k' = k) k) as W by (eapply wp_get_fd; [done|exact Hb|lia|exact Hd|done]).
    apply wp_ret_iff in W as (r & k' & E & -> & ->). done. }
  unfold mbind, M_bind. rewrite E. rewrite decide_False by (apply (Hused idx); [lia|done]).
  rewrite IH; [|lia|lia|lia|].
  - f_equal. lia.
  - intros i d' Hi'. apply Hused. lia.
Qed.

Lemma open_file_desc_at blk filename b i k : blk <> 0 -> pcbs (k_proc k) !! blk = Some b -> pcb_ok b ->
  first_free b = Some i ->
  (exists f, 0 <= i < MAX_DESC /\ io_files b !! Z.to_nat i = Some f) /\
  open_file_desc blk filename k = open_at blk i filename k.
Proof.
  intros Hblk Hb Hok Hff. unfold first_free in Hff. revert Hff. obind.
  destruct (list_find _ _) as [[n f]|] eqn:E; intros [= <-].
  apply list_find_Some in E as (Hn & Hfree & Hused). pose proof (lookup_lt_Some _ _ _ Hn) as Hlt.
  pose proof Hok as [Hl _]. rewrite Nat2Z.id. split; [exists f; split; [lia|done]|].
  unfold open_file_desc. rewrite (proj2 (Z.eqb_neq _ _)) by done.
  rewrite (open_scan_skip blk filename b k 8 0 n); [|done|done|done|lia|lia|lia|].
  - replace (8 - n)%nat with (S (7 - n)) by lia. cbn [open_scan].
    assert (get_fd blk (0 + Z.of_nat n) k = Ret f k) as E.
    { assert (wp (get_fd blk (0 + Z.of_nat n)) (fun r k' => r = f /\ k' = k) k) as W
        by (eapply wp_get_fd; [done|exact Hb|lia|by rewrite Z.add_0_l, Nat2Z.id|done]).
      apply wp_ret_iff in W as (r & k' & E & -> & ->). done. }
    unfold mbind at 1, M_bind at 1. rewrite E. by rewrite decide_True by done.
  - intros j d Hj Hd. apply (Hused (Z.to_nat j)); [done|lia].
Qed.

Lemma open_file_desc_full blk filename b k : blk <> 0 -> pcbs (k_proc k) !! blk = Some b -> pcb_ok b ->
  first_free b = None -> open_file_desc blk filename k = Ret (-1) k.
Proof.
  intros Hblk Hb Hok Hff. unfold first_free in Hff. revert Hff. obind.
  destruct (list_find _ _) as [[n f]|] eqn:E; [done|intros _].
  apply list_find_None in E. unfold open_file_desc. rewrite (proj2 (Z.eqb_neq _ _)) by done.
  rewrite (open_scan_skip blk filename b k 8 0 8); [done|done|done|done|lia|lia|lia|].
  intros j d Hj Hd. by apply (Forall_lookup_1 _ _ _ _ E Hd).
Qed.

(** What a name opens as: a jump table and an inode. *)
Definition opens_as (k : kernel) (filename : Z -> Z) (jt : f_ops) (ino : Z) : Prop :=
  (std_name filename = Some jt /\ ino = 0) \/
  (std_name filename = None /\ exists d,
     read_dentry_by_name (k_mem k) (fs_addr k) filename = Some (SUCCESS, Some d) /\
     tableaux !! Z.to_nat (file_type d) = Some jt /\ ino = inode_num d).

Lemma open_file_desc_ok blk filename b i jt ino k :
  blk <> 0 -> pcbs (k_proc k) !! blk = Some b -> pcb_ok b -> is_bytes filename ->
  first_free b = Some i -> opens_as k filename jt ino ->
  wp (open_file_desc blk filename) (fun r k' => r = i /\
    ports_only (with_pcb blk (with_fd i (opened jt ino) b) k) k') k.
Proof.
  intros Hblk Hb Hok Hn Hff Ho.
  destruct (open_file_desc_at blk filename b i k) as [(f & Hi & Hf) E]; [done..|].
  unfold wp. rewrite E. destruct Ho as [[Hs ->]|(Hs & d & Hd & Hjt & ->)].
  - rewrite (open_at_std blk i filename b f k Hblk Hb Hok Hi Hf Hn jt) by done.
    split; [done|apply ports_only_refl].
  - by apply (open_at_file blk i filename b f k Hblk Hb Hok Hi Hf Hn).
Qed.

(** ** Closing *)

Definition closed (f : fdesc_t) : fdesc_t := mk_fdesc empty_f_ops_tab (inode f) (file_pos f) NOT_USED.

Lemma close_desc_step b f i k : let p := cur_pcb (k_proc k) in
  p <> 0 -> pcbs (k_proc k) !! p = Some b -> pcb_ok b -> 0 <= i < MAX_DESC -> io_files b !! Z.to_nat i = Some f ->
  close_file_desc p i k = Ret 0 (with_pcb p (with_fd i (closed f) b) k).
Proof. intros p Hp Hb Hok Hi Hf. by apply close_file_desc_frees. Qed.

Lemma op_close_frees jt close b f i k : let p := cur_pcb (k_proc k) in op_close jt = Some close ->
  p <> 0 -> pcbs (k_proc k) !! p = Some b -> pcb_ok b -> 0 <= i < MAX_DESC -> io_files b !! Z.to_nat i = Some f ->
  close i k = Ret 0 (with_pcb p (with_fd i (closed f) b) k).
Proof.
  intros p Hc Hp Hb Hok Hi Hf.
  destruct jt; cbn [op_close] in Hc; try discriminate Hc; injection Hc as <-; by apply close_desc_step.
Qed.

Definition all_closed (l : list fdesc_t) : Prop :=
  Forall (fun d => flags d = NOT_USED /\ file_ops d = empty_f_ops_tab) l.

Lemma close_pcb_ok b k : let p := cur_pcb (k_proc k) in
  p <> 0 -> pcbs (k_proc k) !! p = Some b -> pcb_ok b ->
  wp (close_pcb p) (fun r k' => r = 0 /\ exists l, length l = 8%nat /\ all_closed l /\
    k' = with_pcb p (set_io_files l b) k) k.
Proof.
  intros p Hp Hb Hok. unfold close_pcb. rewrite (proj2 (Z.eqb_neq _ _)) by done. apply wp_bind.
  pose proof Hok as (Hl & Ha & Hc).
  eapply wp_mono; [|apply (wp_for _ _ (fun i k' => exists l, length l = 8%nat /\
    all_closed (take (Z.to_nat i) l) /\ k' = with_pcb p (set_io_files l b) k))].
  - intros _ k' (l & Hl' & F & ->). wp_steps. split; [done|]. exists l. split_and!; [done| |done].
    by rewrite take_ge in F by (cbn; lia).
  - intros i k' Hi (l & Hl' & F & ->). set (b' := set_io_files l b). set (k1 := with_pcb p b' k).
    assert (pcb_ok b') as Hok' by done.
    assert (cur_pcb (k_proc k1) = p) as Hcur by done.
    destruct (lookup_lt_is_Some_2 l (Z.to_nat i)) as [f Hf]; [lia|].
    assert (pcbs (k_proc k1) !! p = Some b') as Hb1 by apply with_pcb_lookup.
    assert (forall (Q : Z -> kernel -> Prop) f2, Q 0 (with_pcb p (with_fd i (closed f2) b') k) ->
      wp (close_file_desc p i) Q (with_pcb p (with_fd i f2 b') k)) as Hclose.
    { intros Q f2 HQ. unfold wp.
      pose proof (close_desc_step (with_fd i f2 b') f2 i (with_pcb p (with_fd i f2 b') k)) as E.
      change (cur_pcb (k_proc (with_pcb _ _ k))) with p in E.
      rewrite E; [|done|apply with_pcb_lookup|by apply with_fd_ok|lia|apply with_fd_lookup; [done|lia]].
      rewrite with_pcb_twice, with_fd_twice. exact HQ. }
    assert (forall f2, flags f2 = NOT_USED -> file_ops f2 = empty_f_ops_tab ->
      exists l', length l' = 8%nat /\ all_closed (take (Z.to_nat (i + 1)) l') /\
        with_pcb p (with_fd i f2 b') k = with_pcb p (set_io_files l' b) k) as Hfin.
    { intros f2 F1 F2. exists (<[Z.to_nat i := f2]> l). split_and!; [by rewrite length_insert| |done].
      unfold all_closed. rewrite Z2Nat.inj_add, Nat.add_1_r by lia.
      erewrite take_S_r by (apply list_lookup_insert_eq; lia). rewrite take_insert_ge by lia.
      apply Forall_app. by repeat constructor. }
    wp_steps. rewrite Hcur. eapply wp_get_fd; [done|exact Hb1|lia|exact Hf|]. wp_steps.
    destruct (op_close (file_ops f)) as [close|] eqn:Eo.
    + wp_steps. unfold wp at 1.
      pose proof (op_close_frees _ _ b' f i k1 Eo) as Ec. rewrite Hcur in Ec. rewrite Ec by (done || lia).
      wp_steps. unfold k1. rewrite with_pcb_twice. apply Hclose. wp_steps. by apply Hfin.
    + wp_steps. unfold k1. rewrite <- (with_fd_id i f b') by done. apply Hclose. wp_steps. by apply Hfin.
  - exists (io_files b). split_and!; [done|constructor|].
    replace (set_io_files (io_files b) b) with b by (by destruct b). by rewrite with_pcb_id.
Qed.

(** ** Properties *)

(** open_file_desc takes the first free descriptor of the block and fills it in
    from the name (stdin, stdout, or the directory entry's type and inode) with
    position 0; only that descriptor and, for the clock, ports change.  With all
    eight in use it returns -1 and changes nothing. *)
Theorem open_file_desc_opens blk filename b k :
  blk <> 0 -> pcbs (k_proc k) !! blk = Some b -> pcb_ok b -> is_bytes filename ->
  match first_free b with
  | None => open_file_desc blk filename k = Ret (-1) k
  | Some i => forall jt ino, opens_as k filename jt ino ->
      wp (open_file_desc blk filename) (fun r k' => r = i /\
        ports_only (with_pcb blk (with_fd i (mk_fdesc jt ino 0 IN_USE) b) k) k') k
  end.
Proof.
  intros Hblk Hb Hok Hn. destruct (first_free b) as [i|] eqn:E.
  - intros jt ino Ho. by apply open_file_desc_ok.
  - by apply (open_file_desc_full _ _ b).
Qed.

(** close_pcb on the running process closes every descriptor, whatever kind of
    file it was open on, and changes nothing but the descriptors. *)
Theorem close_pcb_closes_all b k : let p := cur_pcb (k_proc k) in
  p <> 0 -> pcbs (k_proc k) !! p = Some b -> pcb_ok b ->
  wp (close_pcb p) (fun r k' => r = 0 /\ exists l, length l = 8%nat /\
    Forall (fun d => flags d = NOT_USED /\ file_ops d = empty_f_ops_tab) l /\
    k' = with_pcb p (set_io_files l b) k) k.
Proof. apply close_pcb_ok. Qed.

Lemma open_file_desc_opens_witness :
  wp (open_file_desc 0x7FE000 (lit "stdin")) (fun r _ => r = 0) tiny_kernel.
Proof.
  pose proof (open_file_desc_opens 0x7FE000 (lit "stdin") tiny_pcb tiny_kernel ltac:(lia) ltac:(reflexivity)
    ltac:(split_and!; reflexivity) (lit_bytes _)) as H.
  change (first_free tiny_pcb) with (Some 0) in H.
  eapply wp_mono; [|apply (H stdin 0); left; split; vm_compute; reflexivity]. by intros r k' [-> _].
Defined.

Lemma close_pcb_closes_all_witness :
  wp (close_pcb 0x7FE000) (fun r _ => r = 0) tiny_kernel.
Proof.
  eapply wp_mono; [|apply (close_pcb_closes_all tiny_pcb tiny_kernel); [vm_compute; congruence|reflexivity|split_and!; reflexivity]].
  by intros r k' [-> _].
Defined.
