(* ===== verification/MultiTerm.v ===== *)
(** * Multiple terminals (multi_term.c)

    Each of the three terminals has its own 4KB page after video memory; the
    visible one uses video memory itself.  Switching copies the pages. *)

From Stdlib Require Import ZArith Lia.
From stdpp Require Import gmap list numbers.
From S2P Require Import Prelude Memory LibString State Display Pcb.

(** ** Definitions *)

Definition multi_term_init : M unit :=
  for_ 3 (fun i =>
    upd_term i (set_term_id i) ;;
    upd_term i (set_vid_mem (if i =? 0 then VIDEO_ADDR else VIDEO_ADDR + (i + 1) * FOUR_KB)) ;;
    upd_term i (fun t => set_scrn_c 0 (set_scrn_r 0 t)) ;;
    upd_term i (fun t => set_curs_r 0 (set_curs_c 0 t)) ;;
    upd_term i (fun t => set_key_buf_index 0 (set_t_esp 0 (set_t_ebp 0 t))) ;;
    upd_term i (set_cur_task 0)) ;;
  t ← get_term 0;
  upd_proc (set_cur_pcb (cur_task t)).

(** The loop of switch_screen: [old] and [new] are the two vid_mem pointers. *)
Fixpoint swap_screens (m : memory) (old new : Z) (n : nat) : memory :=
  match n with
  | O => m
  | S n' =>
      let i := Z.of_nat n' in
      let m := swap_screens m old new n' in
      let m := wr m (old + i) (rd m (VIDEO_ADDR + i)) in
      wr m (VIDEO_ADDR + i) (rd m (new + i))
  end.

Definition switch_screen (new_term_id : Z) : M unit :=
  vis ← gets (fun k => vis_term_id (k_disp k));
  upd_term vis (set_vid_mem (VIDEO_ADDR + (vis + 1) * FOUR_KB)) ;;
  told ← get_term vis;
  tnew ← get_term new_term_id;
  upd_mem (fun m => swap_screens m (vid_mem told) (vid_mem tnew) (Z.to_nat (2 * NUM_COLS * NUM_ROWS))) ;;
  upd_term new_term_id (set_vid_mem VIDEO_ADDR).

Definition switch_keyboard_and_cursor_pos (new_term_id : Z) : M unit :=
  t ← get_term new_term_id;
  set_keyboard_pos new_term_id (scrn_r t) (scrn_c t) ;;
  t ← get_term new_term_id;
  set_cursor_pos new_term_id (curs_r t) (curs_c t).

Definition switch_terminal (new_term_id : Z) : M unit :=
  status ← gets (fun k => pcb_status (k_proc k));
  if (new_term_id <? 0) || (MAX_TERM_NUM <=? new_term_id) || (MAX_PROCESSES <? our_popcount status)
  then skip else
  cli ;;
  switch_screen new_term_id ;;
  upd_disp (set_vis_term_id new_term_id) ;;
  switch_keyboard_and_cursor_pos new_term_id ;;
  sti.

(** ** The layout of the pages *)

(** Where terminal [i] draws when [vis] is visible. *)
Definition page_of (vis i : Z) : Z :=
  if i =? vis then VIDEO_ADDR else VIDEO_ADDR + (i + 1) * FOUR_KB.

Definition term_pos_ok (t : term_t) : Prop :=
  0 <= scrn_r t < NUM_ROWS /\ 0 <= scrn_c t <= NUM_COLS /\ 0 <= curs_r t < W8 /\ 0 <= curs_c t < W8.

Definition term_layout (k : kernel) : Prop :=
  length (terminals (k_disp k)) = 3%nat /\ 0 <= vis_term_id (k_disp k) < MAX_TERM_NUM /\
  forall i t, 0 <= i < MAX_TERM_NUM -> terminals (k_disp k) !! Z.to_nat i = Some t ->
    vid_mem t = page_of (vis_term_id (k_disp k)) i /\ term_pos_ok t.

(** The copying loop: [old] gets video memory, video memory gets [new] (itself
    when the two are the same page). *)
Lemma swap_screens_rd m old new n a : (n <= 4000)%nat -> 0 <= a < W32 ->
  VIDEO_ADDR + FOUR_KB <= old < W32 - FOUR_KB -> VIDEO_ADDR + FOUR_KB <= new < W32 - FOUR_KB ->
  (new = old \/ new + FOUR_KB <= old \/ old + FOUR_KB <= new) ->
  rd (swap_screens m old new n) a =
  if (old <=? a) && (a <? old + Z.of_nat n) then rd m (VIDEO_ADDR + (a - old))
  else if (VIDEO_ADDR <=? a) && (a <? VIDEO_ADDR + Z.of_nat n)
    then if new =? old then rd m a else rd m (new + (a - VIDEO_ADDR))
  else rd m a.
Proof.
  intros Hn Ha Ho Hnew Hsep. revert a Ha. induction n as [|n IH]; intros a Ha.
  { cbn [swap_screens Z.of_nat]. repeat case_if; (done || lia). }
  cbn [swap_screens]. rewrite !rd_wr, !(u32_small (VIDEO_ADDR + _)), !(u32_small (old + _)), (u32_small a),
    (u32_small (new + _)) by lia.
  rewrite !IH by lia.
  clear IH. case_cmp; rewrite ?u8_u8, ?u8_small by apply rd_range; f_equal; lia.
Qed.

(** After the switch: every terminal is as before, but for the page it uses. *)
Definition switched (k k' : kernel) (new : Z) : Prop :=
  vis_term_id (k_disp k') = new /\ sched_term_id (k_disp k') = sched_term_id (k_disp k) /\
  k_proc k' = k_proc k /\ length (terminals (k_disp k')) = length (terminals (k_disp k)) /\
  (forall i t, 0 <= i < MAX_TERM_NUM -> terminals (k_disp k) !! Z.to_nat i = Some t ->
     terminals (k_disp k') !! Z.to_nat i = Some (set_vid_mem (page_of new i) t)) /\
  (forall i o, 0 <= i < MAX_TERM_NUM -> 0 <= o < PAGE_BYTES ->
     rd (k_mem k') (page_of new i + o) = rd (k_mem k) (page_of (vis_term_id (k_disp k)) i + o)) /\
  (forall a, 0 <= a < W32 -> a < VIDEO_ADDR \/ VIDEO_ADDR + 4 * FOUR_KB <= a -> rd (k_mem k') a = rd (k_mem k) a).

Lemma keep_pos t : term_pos_ok t ->
  set_curs_c (u8 (curs_c t)) (set_curs_r (u8 (curs_r t)) (set_scrn_c (u8 (scrn_c t)) (set_scrn_r (u8 (scrn_r t)) t))) = t.
Proof. intros (? & ? & ? & ?). rewrite !u8_small by lia. by destruct t. Qed.

Section switching.
Context (k : kernel) (new : Z).
Let vis := vis_term_id (k_disp k).
Let old_page := VIDEO_ADDR + (vis + 1) * FOUR_KB.
Let new_page := VIDEO_ADDR + (new + 1) * FOUR_KB.
Hypothesis Hlay : term_layout k.
Hypothesis Hnew : 0 <= new < MAX_TERM_NUM.

(** The memory after switch_screen. *)
Let m' := swap_screens (k_mem k) old_page new_page 4000.

Lemma switched_cells i o : 0 <= i < MAX_TERM_NUM -> 0 <= o < PAGE_BYTES ->
  rd m' (page_of new i + o) = rd (k_mem k) (page_of vis i + o).
Proof using Hlay Hnew.
  intros Hi Ho. destruct Hlay as (_ & Hv & _). fold vis in Hv.
  unfold m', page_of, old_page, new_page.
  rewrite swap_screens_rd by (try case_if; lia). change (Z.of_nat 4000) with 4000.
  case_cmp; f_equal; lia.
Qed.

Lemma switched_outside a : 0 <= a < W32 -> a < VIDEO_ADDR \/ VIDEO_ADDR + 4 * FOUR_KB <= a ->
  rd m' a = rd (k_mem k) a.
Proof using Hlay Hnew.
  intros Ha Hout. destruct Hlay as (_ & Hv & _). fold vis in Hv. unfold m', old_page, new_page.
  rewrite swap_screens_rd by lia. change (Z.of_nat 4000) with 4000. case_cmp; done.
Qed.

(** The list of terminals after switch_screen. *)
Definition retarget (l : list term_t) (told tnew : term_t) : list term_t :=
  <[Z.to_nat new := set_vid_mem VIDEO_ADDR tnew]> (<[Z.to_nat vis := set_vid_mem old_page told]> l).

Lemma retarget_lookup told tnew i t :
  terminals (k_disp k) !! Z.to_nat vis = Some told ->
  <[Z.to_nat vis := set_vid_mem old_page told]> (terminals (k_disp k)) !! Z.to_nat new = Some tnew ->
  0 <= i < MAX_TERM_NUM -> terminals (k_disp k) !! Z.to_nat i = Some t ->
  retarget (terminals (k_disp k)) told tnew !! Z.to_nat i = Some (set_vid_mem (page_of new i) t).
Proof using Hlay Hnew.
  intros Hto Htn Hi Ht. destruct Hlay as (Hlen & Hv & Hp). fold vis in Hv, Hp.
  unfold retarget, page_of. destruct (Z.eqb_spec i new) as [->|Hne].
  - rewrite list_lookup_insert_eq by (rewrite length_insert; lia). f_equal.
    destruct (Z.eq_dec new vis) as [E|E].
    + rewrite E in Htn, Ht. rewrite list_lookup_insert_eq in Htn by lia. injection Htn as <-.
      rewrite Hto in Ht. injection Ht as <-. by destruct told.
    + rewrite list_lookup_insert_ne in Htn by lia. rewrite Ht in Htn. by injection Htn as <-.
  - rewrite list_lookup_insert_ne by lia. destruct (Z.eq_dec i vis) as [->|E].
    + rewrite list_lookup_insert_eq by lia. rewrite Hto in Ht. by injection Ht as <-.
    + rewrite list_lookup_insert_ne by lia. rewrite Ht. f_equal.
      destruct (Hp i t Hi Ht) as [Hvm _]. unfold page_of in Hvm.
      rewrite (proj2 (Z.eqb_neq _ _)) in Hvm by done. rewrite <- Hvm. by destruct t.
Qed.

Lemma switch_terminal_ok : our_popcount (pcb_status (k_proc k)) <= MAX_PROCESSES ->
  wp (switch_terminal new) (fun _ k' => switched k k' new /\ iflag (k_cpu k') = true) k.
Proof using Hlay Hnew.
  intros Hpc. pose proof Hlay as (Hlen & Hv & Hp). fold vis in Hv, Hp.
  destruct (lookup_lt_is_Some_2 (terminals (k_disp k)) (Z.to_nat vis)) as [told Hto]; [lia|].
  set (l1 := <[Z.to_nat vis := set_vid_mem old_page told]> (terminals (k_disp k))).
  destruct (lookup_lt_is_Some_2 l1 (Z.to_nat new)) as [tnew Htn]; [unfold l1; rewrite length_insert; lia|].
  destruct (lookup_lt_is_Some_2 (terminals (k_disp k)) (Z.to_nat new)) as [t0 Ht0]; [lia|].
  destruct (Hp new t0 Hnew Ht0) as [Hvm0 Hpos0].
  assert (vid_mem tnew = new_page) as Hvn.
  { unfold l1 in Htn. destruct (Z.eq_dec new vis) as [E|E].
    - rewrite E in Htn. rewrite list_lookup_insert_eq in Htn by lia. injection Htn as <-.
      cbn. unfold old_page, new_page. by rewrite E.
    - rewrite list_lookup_insert_ne in Htn by lia. rewrite Ht0 in Htn. injection Htn as <-.
      rewrite Hvm0. unfold page_of. by rewrite (proj2 (Z.eqb_neq _ _)). }
  assert (term_pos_ok (set_vid_mem VIDEO_ADDR tnew)) as Hposn.
  { pose proof (retarget_lookup told tnew new t0 Hto Htn Hnew Ht0) as R. unfold retarget in R.
    rewrite list_lookup_insert_eq in R by (rewrite length_insert; lia). apply (inj Some) in R. rewrite R. by destruct t0. }
  unfold switch_terminal. wp_steps.
  rewrite (proj2 (Z.ltb_ge new 0)), (proj2 (Z.leb_gt 3 new)), (proj2 (Z.ltb_ge _ (our_popcount _))) by lia.
  cbn [orb]. wp_steps. unfold switch_screen. wp_steps. cbn [k_disp set_k_cpu]. fold vis.
  eapply wp_upd_term; [lia|exact Hto|]. cbn [k_disp set_k_cpu]. fold old_page l1. wp_steps.
  eapply (wp_get_term _ (set_vid_mem old_page told)); [lia|apply list_lookup_insert_eq; cbn; lia|]. wp_steps.
  eapply (wp_get_term _ tnew); [lia|exact Htn|]. wp_steps. rewrite Hvn.
  change (vid_mem (set_vid_mem old_page told)) with old_page.
  change (Z.to_nat (2 * 80 * 25)) with 4000%nat. cbn [k_mem set_k_disp set_k_cpu]. fold m'.
  eapply wp_upd_term; [lia|exact Htn|]. cbn [k_disp set_k_disp set_k_mem terminals set_terminals].
  set (l2 := retarget (terminals (k_disp k)) told tnew).
  change (<[Z.to_nat new := set_vid_mem VIDEO_ADDR tnew]> l1) with l2. wp_steps.
  assert (length l2 = 3%nat) as Hl2 by (unfold l2, retarget; rewrite !length_insert; lia).
  assert (l2 !! Z.to_nat new = Some (set_vid_mem VIDEO_ADDR tnew)) as Hl2n
    by (unfold l2, retarget; apply list_lookup_insert_eq; rewrite length_insert; lia).
  unfold switch_keyboard_and_cursor_pos. wp_steps.
  eapply (wp_get_term _ (set_vid_mem VIDEO_ADDR tnew)); [lia|exact Hl2n|]. wp_steps.
  unfold set_keyboard_pos. eapply wp_upd_term; [lia|exact Hl2n|]. wp_steps.
  cbn [k_disp set_k_disp terminals set_terminals set_vis_term_id].
  eapply wp_get_term; [lia|apply list_lookup_insert_eq; lia|]. unfold set_cursor_pos. wp_steps.
  eapply wp_upd_term; [lia|apply list_lookup_insert_eq; cbn; lia|]. wp_steps.
  cbn [k_disp set_k_disp terminals set_terminals vis_term_id set_vis_term_id]. rewrite Z.eqb_refl.
  rewrite list_insert_insert_eq.
  replace (set_curs_c _ _) with (set_vid_mem VIDEO_ADDR tnew) by (symmetry; apply (keep_pos _ Hposn)).
  rewrite (list_insert_id l2) by done.
  wp_steps. split; [|reflexivity]. split_and!; [reflexivity|reflexivity|reflexivity|..].
  - cbn. by rewrite Hl2, Hlen.
  - intros i t Hi Ht. cbn. by apply retarget_lookup.
  - intros i o Hi Ho. by apply switched_cells.
  - intros a Ha Hout. by apply switched_outside.
Qed.
End switching.

(** multi_term_init, terminal by terminal. *)
Definition term_start (i : Z) (t : term_t) : term_t :=
  mk_term i 0 0 0 0 (page_of 0 i) (key_buf t) 0 (new_line t) (hist_buf t) (hist_buf_index t) (cur_hist_index t) 0 0 0.

Lemma multi_term_init_ok k : length (terminals (k_disp k)) = 3%nat ->
  wp multi_term_init (fun _ k' => exists l, length l = 3%nat /\
    k' = set_k_proc (set_cur_pcb 0 (k_proc k)) (set_k_disp (set_terminals l (k_disp k)) k) /\
    (forall i t, 0 <= i < MAX_TERM_NUM -> terminals (k_disp k) !! Z.to_nat i = Some t ->
       l !! Z.to_nat i = Some (term_start i t))) k.
Proof.
  intros Hlen. unfold multi_term_init. wp_steps.
  eapply wp_mono; [|apply (wp_for _ _ (fun j k' => exists l, length l = 3%nat /\ k' = set_k_disp (set_terminals l (k_disp k)) k /\
    forall i t, 0 <= i < MAX_TERM_NUM -> terminals (k_disp k) !! Z.to_nat i = Some t ->
      l !! Z.to_nat i = Some (if i <? j then term_start i t else t)))].
  - intros _ k' (l & Hl & -> & Ht).
    destruct (lookup_lt_is_Some_2 (terminals (k_disp k)) 0) as [t0 Ht0]; [lia|].
    pose proof (Ht 0 t0 ltac:(lia) Ht0) as H0. cbn beta. wp_steps.
    eapply wp_get_term; [lia|exact H0|]. wp_steps. exists l. split_and!; [done|done|].
    intros i t Hi Hit. rewrite (Ht i t Hi Hit). by rewrite (proj2 (Z.ltb_lt _ _)) by (cbn; lia).
  - intros j k' Hj (l & Hl & -> & Ht).
    destruct (lookup_lt_is_Some_2 (terminals (k_disp k)) (Z.to_nat j)) as [t0 Ht0]; [lia|].
    pose proof (Ht j t0 ltac:(lia) Ht0) as H0. rewrite Z.ltb_irrefl in H0.
    wp_steps. eapply wp_upd_term; [lia|exact H0|]. wp_steps.
    do 5 (eapply wp_upd_term; [lia|apply list_lookup_insert_eq; cbn; rewrite ?length_insert; lia|]; wp_steps).
    cbn [k_disp set_k_disp terminals set_terminals]. rewrite !list_insert_insert_eq.
    eexists. split_and!; [by rewrite length_insert|reflexivity|].
    intros i t Hi Hit. destruct (Z.eq_dec i j) as [->|Hne].
    + rewrite list_lookup_insert_eq by lia. rewrite Ht0 in Hit. injection Hit as <-.
      rewrite (proj2 (Z.ltb_lt _ _)) by lia. unfold term_start, page_of. by destruct t0, (j =? 0).
    + rewrite list_lookup_insert_ne, (Ht i t Hi Hit) by lia. f_equal.
      destruct (Z.ltb_spec i j), (Z.ltb_spec i (j + 1)); (done || lia).
  - exists (terminals (k_disp k)). split_and!; [done|by destruct k as [? ? ? ? []]|].
    intros i t Hi Hit. rewrite Hit. by rewrite (proj2 (Z.ltb_ge _ _)) by lia.
Qed.

(** The terminals of the page layout. *)
Lemma term_start_layout k l : length (terminals (k_disp k)) = 3%nat -> length l = 3%nat -> vis_term_id (k_disp k) = 0 ->
  terminals (k_disp k) = l ->
  (forall i t, 0 <= i < MAX_TERM_NUM -> l !! Z.to_nat i = Some t -> exists t0, t = term_start i t0) -> term_layout k.
Proof.
  intros Hlen Hl Hv Hk Ht. unfold term_layout. rewrite Hk, Hv. split_and!; [done|lia|lia|].
  intros i t Hi Hit. destruct (Ht i t Hi Hit) as [t0 ->]. split; [done|]. split_and!; cbn; lia.
Qed.

(** ** Properties *)

(** multi_term_init, run when terminal 0 is the visible one, establishes the page
    layout: each terminal on its own page, the visible one on video memory. *)
Theorem multi_term_init_layout k :
  length (terminals (k_disp k)) = 3%nat -> vis_term_id (k_disp k) = 0 ->
  wp multi_term_init (fun _ k' => term_layout k' /\ k_mem k' = k_mem k /\ cur_pcb (k_proc k') = 0) k.
Proof.
  intros Hlen Hv. eapply wp_mono; [|by apply multi_term_init_ok].
  intros _ k' (l & Hl & -> & Ht). split; [|done]. apply (term_start_layout _ l); [done|done|done|done|].
  intros i t Hi Hit. destruct (lookup_lt_is_Some_2 (terminals (k_disp k)) (Z.to_nat i)) as [t0 Ht0]; [lia|].
  rewrite (Ht i t0 Hi Ht0) in Hit. apply (inj Some) in Hit. by exists t0.
Qed.

(** [C9] Switching terminals keeps the layout and loses nothing: the new terminal is
    on video memory, every terminal - the one switched away from, the one switched
    to and the third - still shows its screen, keeps its line buffer, history and
    task, and no memory outside of the four video pages is written. *)
Theorem switch_terminal_preserves_screens k new :
  term_layout k -> 0 <= new < MAX_TERM_NUM -> our_popcount (pcb_status (k_proc k)) <= MAX_PROCESSES ->
  exists k', switch_terminal new k = Ret tt k' /\ term_layout k' /\ switched k k' new /\
    forall i s, 0 <= i < MAX_TERM_NUM -> shows k i s -> shows k' i s.
Proof.
  intros Hlay Hnew Hpc. pose proof (switch_terminal_ok k new Hlay Hnew Hpc) as W.
  apply wp_ret_iff in W as ([] & k' & E & Hs & _). exists k'. split; [done|].
  pose proof Hs as (Hv & _ & _ & Hl & Ht & Hm & _). destruct Hlay as (Hlen & Hv0 & Hp).
  split; [|split; [done|]].
  - split_and!; [lia|lia|lia|]. intros i t Hi Hit. destruct (lookup_lt_is_Some_2 (terminals (k_disp k)) (Z.to_nat i)) as [t0 Ht0]; [lia|].
    rewrite (Ht i t0 Hi Ht0) in Hit. apply (inj Some) in Hit. subst t. rewrite Hv.
    split; [done|]. destruct (Hp i t0 Hi Ht0) as [_ Hpos]. by destruct t0.
  - intros i s Hi (t & _ & Hit & Hr & Hc & Hcells). exists (set_vid_mem (page_of new i) t).
    split_and!; [lia|by apply Ht|done|done|]. intros o Ho. cbn [vid_mem set_vid_mem].
    rewrite Hm by lia. destruct (Hp i t Hi Hit) as [<- _]. by apply Hcells.
Qed.

(** A terminal number out of range, or more processes than the limit, leaves
    everything as it is. *)
Theorem switch_terminal_refuses k new :
  new < 0 \/ MAX_TERM_NUM <= new \/ MAX_PROCESSES < our_popcount (pcb_status (k_proc k)) ->
  switch_terminal new k = Ret tt k.
Proof.
  intros H. unfold switch_terminal, mbind, M_bind, gets.
  destruct (Z.ltb_spec new 0); [done|]. destruct (Z.leb_spec MAX_TERM_NUM new); [done|].
  destruct (Z.ltb_spec MAX_PROCESSES (our_popcount (pcb_status (k_proc k)))); [done|]. lia.
Qed.

Lemma multi_term_init_layout_witness :
  wp multi_term_init (fun _ k' => term_layout k') kernel_quiet.
Proof.
  eapply wp_mono; [|apply (multi_term_init_layout kernel_quiet); reflexivity]. by intros _ k' [H _].
Defined.

(** Three terminals after multi_term_init. *)
Definition three_terms : kernel :=
  set_k_disp (set_terminals [term_start 0 term_boot; term_start 1 term_boot; term_start 2 term_boot]
    (k_disp kernel_quiet)) kernel_quiet.

Lemma three_terms_layout : term_layout three_terms.
Proof.
  split_and!; [reflexivity|cbn; lia|cbn; lia|]. intros i t Hi Ht. assert (i = 0 \/ i = 1 \/ i = 2) as [->|[->| ->]] by lia;
    cbn in Ht; apply (inj Some) in Ht; subst t; (split; [reflexivity|]); split_and!; cbn; lia.
Qed.

Lemma switch_terminal_preserves_screens_witness :
  exists k', switch_terminal 2 three_terms = Ret tt k' /\ term_layout k' /\
    shows k' 0 (screen_at three_terms (term_start 0 term_boot)).
Proof.
  destruct (switch_terminal_preserves_screens three_terms 2) as (k' & E & L & _ & H);
    [apply three_terms_layout|lia|vm_compute; congruence|].
  exists k'. split; [exact E|]. split; [exact L|]. apply H; [lia|]. apply shows_screen_at; [lia|reflexivity].
Defined.

Lemma switch_terminal_refuses_witness : switch_terminal 3 three_terms = Ret tt three_terms.
Proof. apply (switch_terminal_refuses three_terms 3). right. left. lia. Defined.
