(* ===== verification/Keyboard.v ===== *)
(** * The keyboard driver (keyboard.c, key_maps.c)

    Scan codes edit the line buffer of the visible terminal, echo on its screen,
    walk its command history and switch terminals.  Reads and copies that leave
    an array of a term_t (hist_buf[-1], a long copy out of key_buf) are reads of
    the bytes of the array [terminals], laid out as the compiler lays them out;
    outside of that array they are faults. *)

From Stdlib Require Import ZArith Lia.
From stdpp Require Import gmap list numbers.
From S2P Require Import Prelude Memory LibString State Display I8259 Pcb Rtc MultiTerm.

(** ** Key maps (key_maps.c) *)

Abbreviation KEY_MAP_SIZE := 128.

(** An initialiser shorter than the array leaves zeros. *)
Definition key_table (l : list Z) : list Z := l ++ replicate (128 - length l) 0.

Definition reg_key_map : list Z := key_table [
   0; 0; 49; 50; 51; 52; 53; 54; 55; 56; 57; 48; 45; 61; 8; 0;
   113; 119; 101; 114; 116; 121; 117; 105; 111; 112; 91; 93; 10; 0; 97; 115;
   100; 102; 103; 104; 106; 107; 108; 59; 39; 96; 0; 92; 122; 120; 99; 118;
   98; 110; 109; 44; 46; 47; 0; 42; 0; 32; 0; 0; 0; 0; 0; 0;
   0; 0; 0; 0; 0; 0; 0; 0; 0; 0; 45; 0; 0; 0; 43; 0;
   0; 0; 0; 0; 0; 0; 0; 0; 0; 0].
Definition shift_key_map : list Z := key_table [
   0; 0; 33; 64; 35; 36; 37; 94; 38; 42; 40; 41; 95; 43; 8; 0;
   81; 87; 69; 82; 84; 89; 85; 73; 79; 80; 123; 125; 10; 0; 65; 83;
   68; 70; 71; 72; 74; 75; 76; 58; 34; 126; 0; 124; 90; 88; 67; 86;
   66; 78; 77; 60; 62; 63; 0; 42; 0; 32; 0; 0; 0; 0; 0; 0;
   0; 0; 0; 0; 0; 0; 0; 0; 0; 0; 95; 0; 0; 0; 43; 0;
   0; 0; 0; 0; 0; 0; 0; 0; 0; 0].
Definition caps_key_map : list Z := key_table [
   0; 0; 49; 50; 51; 52; 53; 54; 55; 56; 57; 48; 45; 61; 8; 0;
   81; 87; 69; 82; 84; 89; 85; 73; 79; 80; 91; 93; 10; 0; 65; 83;
   68; 70; 71; 72; 74; 75; 76; 59; 39; 96; 0; 92; 90; 88; 67; 86;
   66; 78; 77; 44; 46; 47; 0; 42; 0; 32; 0; 0; 0; 0; 0; 0;
   0; 0; 0; 0; 0; 0; 0; 0; 0; 0; 95; 0; 0; 0; 43; 0;
   0; 0; 0; 0; 0; 0; 0; 0; 0; 0].
Definition caps_shift_key_map : list Z := key_table [
   0; 0; 33; 64; 35; 36; 37; 94; 38; 42; 40; 41; 95; 43; 8; 0;
   113; 119; 101; 114; 116; 121; 117; 105; 111; 112; 123; 125; 10; 0; 97; 115;
   100; 102; 103; 104; 106; 107; 108; 58; 34; 126; 0; 124; 122; 120; 99; 118;
   98; 110; 109; 60; 62; 63; 0; 42; 0; 32; 0; 0; 0; 0; 0; 0;
   0; 0; 0; 0; 0; 0; 0; 0; 0; 0; 95; 0; 0; 0; 43; 0;
   0; 0; 0; 0; 0; 0; 0; 0; 0; 0].

(** ** Constants *)

Abbreviation KEYBOARD_IRQ := 1.
Abbreviation STATUS_PORT := 0x64.
Abbreviation DATA_PORT := 0x60.
Abbreviation INBUF_MASK := 0x02.
Abbreviation BACKSPACE_P := 0x0E.
Abbreviation ENTER_KEY_P := 0x1C.
Abbreviation CTRL_KEY_P := 0x1D.
Abbreviation L_KEY_P := 0x26.
Abbreviation L_SHIFT_P := 0x2A.
Abbreviation R_SHIFT_P := 0x36.
Abbreviation ALT_KEY_P := 0x38.
Abbreviation CAPS_LOCK_P := 0x3A.
Abbreviation F1_KEY_P := 0x3B.
Abbreviation F3_KEY_P := 0x3D.
Abbreviation UP_KEY_P := 0x48.
Abbreviation DOWN_KEY_P := 0x50.
Abbreviation FOUR_KEY_P := 0x05.
Abbreviation FIVE_KEY_P := 0x06.
Abbreviation CTRL_KEY_R := (-99).
Abbreviation L_SHIFT_R := (-86).
Abbreviation R_SHIFT_R := (-74).

(** ** The bytes of the array of terminals *)

Definition le32 (v : Z) : list Z := [u8 v; u8 (v / W8); u8 (v / W16); u8 (v / 16777216)].

(** struct term_t: bool is an enum, of four bytes; padding is never written. *)
Definition term_bytes (t : term_t) : list Z :=
  [u8 (term_id t); u8 (curs_r t); u8 (curs_c t); u8 (scrn_c t); u8 (scrn_r t); 0; 0; 0] ++
  le32 (vid_mem t) ++ key_buf t ++ [0; 0; 0] ++ le32 (key_buf_index t) ++ le32 (Z.b2z (new_line t)) ++
  concat (hist_buf t) ++ [0; 0] ++ le32 (hist_buf_index t) ++ le32 (cur_hist_index t) ++
  le32 (t_esp t) ++ le32 (t_ebp t) ++ le32 (cur_task t).

Abbreviation TERM_SIZE := 1464.
Abbreviation KEY_BUF_OFF := 12.
Abbreviation HIST_BUF_OFF := 152.

(** The bytes of [terminals] from byte [off] on. *)
Definition term_memory (off : Z) : M (list Z) :=
  d ← gets k_disp;
  let bs := concat (map term_bytes (terminals d)) in
  if (0 <=? off) && (off <=? Z.of_nat (length bs)) then mret (drop (Z.to_nat off) bs) else fault_ OutOfBounds.

(** strlen and memcpy from there. *)
Definition strlen_at (off : Z) : M Z := bs ← term_memory off; lift OutOfBounds (arr_strlen bs).
Definition bytes_at (off n : Z) : M (list Z) :=
  bs ← term_memory off;
  if (0 <=? n) && (n <=? Z.of_nat (length bs)) then mret (take (Z.to_nat n) bs) else fault_ OutOfBounds.

(** terminals[tid].hist_buf[i], for any unsigned [i]. *)
Definition hist_off (tid i : Z) : Z := TERM_SIZE * tid + HIST_BUF_OFF + i32 (KEY_BUF_SIZE * i).
Definition key_buf_off (tid : Z) : Z := TERM_SIZE * tid + KEY_BUF_OFF.

(** terminals[tid].key_buf[i...] = bs *)
Definition write_key_buf (tid i : Z) (bs : list Z) : M unit :=
  t ← get_term tid;
  l ← lift OutOfBounds (arr_write (key_buf t) i bs);
  upd_term tid (set_key_buf l).

(** ** Definitions *)

Definition get_vis : M Z := gets (fun k => vis_term_id (k_disp k)).

(** get_keymap: the flags, and the character [c] as an index. *)
Definition keymap (kb : kbd_t) : list Z :=
  if (l_shift kb || r_shift kb) && caps_lock kb then caps_shift_key_map
  else if l_shift kb || r_shift kb then shift_key_map
  else if caps_lock kb then caps_key_map else reg_key_map.
Definition get_keymap (c : Z) : M Z :=
  kb ← gets k_kbd; lift OutOfBounds (keymap kb !! Z.to_nat (u8 c)).

Definition clear_buffer : M unit :=
  vis ← get_vis;
  n ← strlen_at (key_buf_off vis);
  write_key_buf vis 0 (replicate (Z.to_nat n) 0) ;;
  upd_term vis (set_key_buf_index 0).

(** case BACKSPACE_P *)
Definition backspace (vis : Z) : M unit :=
  t ← get_term vis;
  if c_true (key_buf_index t) then
    let i := key_buf_index t - 1 in
    upd_term vis (set_key_buf_index i) ;;
    write_key_buf vis i [0] ;;
    t ← get_term vis;
    (if scrn_c t =? 0
     then upd_term vis (fun t => set_scrn_c NUM_COLS (set_scrn_r (u8 (scrn_r t - 1)) t)) else skip) ;;
    putc vis 8
  else skip.

(** process_input(BACKSPACE_P), as clear_cur_cmd calls it. *)
Definition press_backspace : M unit :=
  vis ← get_vis; cli ;; backspace vis ;; sti.

Definition clear_cur_cmd : M unit :=
  vis ← get_vis;
  t ← get_term vis;
  for_ (Z.to_nat (i32 (key_buf_index t))) (fun _ => press_backspace) ;;
  clear_buffer.

(** case ENTER_KEY_P *)
Definition enter_key (vis : Z) : M unit :=
  t ← get_term vis;
  let last := if key_buf_index t <? KEY_BUF_SIZE - 1 then key_buf_index t else KEY_BUF_SIZE - 2 in
  write_key_buf vis last [10] ;;
  write_key_buf vis (last + 1) [0] ;;
  putc vis 10 ;;
  upd_term vis (set_key_buf_index 0) ;;
  upd_term vis (set_new_line true).

(** The end of the two history cases: copy an entry into the buffer and show it. *)
Definition recall (vis off buf_size cur_hist_index : Z) : M unit :=
  bs ← bytes_at off buf_size;
  write_key_buf vis 0 bs ;;
  upd_term vis (set_cur_hist_index cur_hist_index) ;;
  upd_term vis (set_key_buf_index buf_size) ;;
  for_ (Z.to_nat buf_size) (fun i =>
    t ← get_term vis; b ← lift OutOfBounds (key_buf t !! Z.to_nat i); putc vis b).

Definition up_key (vis : Z) : M unit :=
  t ← get_term vis;
  buf_size ← strlen_at (hist_off vis (u32 (cur_hist_index t - 1)));
  if buf_size =? 0 then skip else
  clear_cur_cmd ;;
  clear_buffer ;;
  t ← get_term vis;
  recall vis (hist_off vis (u32 (cur_hist_index t - 1))) buf_size (u32 (cur_hist_index t - 1)).

Definition down_key (vis : Z) : M unit :=
  t ← get_term vis;
  prev_size ← strlen_at (hist_off vis (cur_hist_index t));
  buf_size ← strlen_at (hist_off vis (u32 (cur_hist_index t + 1)));
  clear_cur_cmd ;;
  clear_buffer ;;
  t ← get_term vis;
  if buf_size =? 0 then
    (if negb (prev_size =? 0) then upd_term vis (set_cur_hist_index (u32 (cur_hist_index t + 1))) else skip)
  else recall vis (hist_off vis (u32 (cur_hist_index t + 1))) buf_size (u32 (cur_hist_index t + 1)).

(** Test case 4: double the clock's frequency. *)
Definition double_freq : M unit :=
  upd_rtc (fun r => set_rtc_freq (u32 (Z.shiftl (rtc_freq r) 1)) r) ;;
  r ← gets k_rtc;
  (if 0x400 <? rtc_freq r then upd_rtc (set_rtc_freq 2) else skip) ;;
  r ← gets k_rtc;
  rtc_write_freq (rtc_freq r) 0 ;;
  skip.

(** print_char: [false] is the early return, without the sti() at the end. *)
Definition print_char (vis c : Z) : M bool :=
  t ← get_term vis;
  if key_buf_index t =? KEY_BUF_SIZE - 1 then mret false else
  c_print ← get_keymap c;
  (if c_true c_print then
     write_key_buf vis (key_buf_index t) [c_print] ;;
     upd_term vis (set_key_buf_index (u32 (key_buf_index t + 1))) ;;
     putc vis c_print
   else skip) ;;
  mret true.

(** switch(c), for a key press; [true] is "break". *)
Definition key_down (vis c : Z) : M bool :=
  kb ← gets k_kbd;
  if c =? BACKSPACE_P then backspace vis ;; mret true
  else if c =? ENTER_KEY_P then enter_key vis ;; mret true
  else if c =? CTRL_KEY_P then upd_kbd (set_ctrl true) ;; mret true
  else if c =? ALT_KEY_P then upd_kbd (set_alt true) ;; mret true
  else if c =? L_KEY_P then
    if ctrl kb then clear_screen ;; clear_buffer ;; mret true else print_char vis c
  else if c =? L_SHIFT_P then upd_kbd (set_l_shift true) ;; mret true
  else if c =? R_SHIFT_P then upd_kbd (set_r_shift true) ;; mret true
  else if c =? CAPS_LOCK_P then upd_kbd (fun b => set_caps_lock (negb (caps_lock b)) b) ;; mret true
  else if (F1_KEY_P <=? c) && (c <=? F3_KEY_P) then
    (if alt kb then
       let tid := c - F1_KEY_P in if negb (vis =? tid) then switch_terminal tid else skip
     else skip) ;;
    mret true
  else if c =? UP_KEY_P then up_key vis ;; mret true
  else if c =? DOWN_KEY_P then down_key vis ;; mret true
  else if c =? FOUR_KEY_P then
    if ctrl kb then double_freq ;; mret true else print_char vis c
  else if c =? FIVE_KEY_P then
    if ctrl kb then upd_kbd (set_rtc_loop false) ;; mret true else print_char vis c
  else print_char vis c.

(** switch(c), for a key release. *)
Definition key_up (c : Z) : M unit :=
  if c =? CTRL_KEY_R then upd_kbd (set_ctrl false)
  else if c =? L_SHIFT_R then upd_kbd (set_l_shift false)
  else if c =? R_SHIFT_R then upd_kbd (set_r_shift false)
  else skip.

(** process_input; [c] is a (signed) char. *)
Definition process_input (c : Z) : M unit :=
  vis ← get_vis;
  cli ;;
  if 0 <=? c then
    finish ← key_down vis c;
    if finish : bool then sti else skip
  else key_up c ;; sti.

Definition keyboard_init : M unit := enable_irq KEYBOARD_IRQ.

(** When the status register says the buffer is full, [c] is not initialised. *)
Definition keyboard_interrupt : M unit :=
  send_eoi KEYBOARD_IRQ ;;
  status ← inb STATUS_PORT;
  if negb (c_true (Z.land status INBUF_MASK)) then c ← inb DATA_PORT; process_input (i8 c)
  else fault_ Uninitialised.

(** add_to_history; [command] is the line buffer of terminal [tid]. *)
Definition add_to_history (tid : Z) : M unit :=
  vis ← get_vis;
  t ← get_term vis;
  if HIST_COM_NUM <=? hist_buf_index t then skip else
  len ← strlen_at (key_buf_off tid);
  let buf_size := len - 1 in
  command ← term_memory (key_buf_off tid);
  last ← term_memory (hist_off vis (u32 (hist_buf_index t - 1)));
  r ← (if c_true buf_size then lift Diverges (strncmp (arr_at last) (arr_at command) (u32 buf_size)) else mret 0);
  (if c_true r then
     old ← lift OutOfBounds (hist_buf t !! Z.to_nat (hist_buf_index t));
     new ← lift OutOfBounds (if 0 <=? buf_size then arr_write old 0 (take (Z.to_nat buf_size) command) else None);
     upd_term vis (fun t => set_hist_buf_index (u32 (hist_buf_index t + 1))
       (set_hist_buf (<[Z.to_nat (hist_buf_index t) := new]> (hist_buf t)) t))
   else skip) ;;
  upd_term vis (fun t => set_cur_hist_index (hist_buf_index t) t).

(** ** The line editor

    Abstractly: a line of at most 128 characters, and the modifier flags. *)

Abbreviation LINE_MAX := 128.

(** Keys without an effect beyond the line, its echo and the modifiers. *)
Definition plain_key (kb : kbd_t) (c : Z) : bool :=
  (c <? 0) ||
  (negb (c =? ENTER_KEY_P) && negb (c =? UP_KEY_P) && negb (c =? DOWN_KEY_P) &&
   negb ((F1_KEY_P <=? c) && (c <=? F3_KEY_P)) &&
   negb (ctrl kb && ((c =? L_KEY_P) || (c =? FOUR_KEY_P) || (c =? FIVE_KEY_P)))).

Definition is_modifier (c : Z) : bool :=
  (c <? 0) || (c =? CTRL_KEY_P) || (c =? ALT_KEY_P) || (c =? L_SHIFT_P) || (c =? R_SHIFT_P) || (c =? CAPS_LOCK_P).

Definition kbd_spec (kb : kbd_t) (c : Z) : kbd_t :=
  if c =? CTRL_KEY_P then set_ctrl true kb
  else if c =? ALT_KEY_P then set_alt true kb
  else if c =? L_SHIFT_P then set_l_shift true kb
  else if c =? R_SHIFT_P then set_r_shift true kb
  else if c =? CAPS_LOCK_P then set_caps_lock (negb (caps_lock kb)) kb
  else if c =? CTRL_KEY_R then set_ctrl false kb
  else if c =? L_SHIFT_R then set_l_shift false kb
  else if c =? R_SHIFT_R then set_r_shift false kb
  else kb.

(** The character of a key, 0 for none. *)
Definition key_char (kb : kbd_t) (c : Z) : Z := default 0 (keymap kb !! Z.to_nat c).

Definition line_spec (kb : kbd_t) (l : list Z) (c : Z) : list Z :=
  if is_modifier c then l
  else if c =? BACKSPACE_P then take (length l - 1) l
  else if Z.of_nat (length l) =? LINE_MAX then l
  else if key_char kb c =? 0 then l else l ++ [key_char kb c].

(** The echo: what a key does to the screen.  Erasing at the left border goes back to
    the end of the row above. *)
Definition erase_spec (col : Z) (s : screen) : screen :=
  putc_spec col 8 (if s_col s =? 0 then mk_screen (s_cells s) (s_row s - 1) NUM_COLS else s).
Definition echo_spec (col : Z) (kb : kbd_t) (l : list Z) (c : Z) (s : screen) : screen :=
  if is_modifier c then s
  else if c =? BACKSPACE_P then (if bool_decide (l = []) then s else erase_spec col s)
  else if Z.of_nat (length l) =? LINE_MAX then s
  else if key_char kb c =? 0 then s else putc_spec col (key_char kb c) s.

(** A sequence of keys, the modifiers threaded through. *)
Fixpoint keys_spec (kb : kbd_t) (l : list Z) (cs : list Z) : kbd_t * list Z :=
  match cs with [] => (kb, l) | c :: cs' => keys_spec (kbd_spec kb c) (line_spec kb l c) cs' end.
Fixpoint echoes (col : Z) (kb : kbd_t) (l : list Z) (cs : list Z) (s : screen) : screen :=
  match cs with [] => s | c :: cs' => echoes col (kbd_spec kb c) (line_spec kb l c) cs' (echo_spec col kb l c s) end.
Fixpoint plain_keys (kb : kbd_t) (cs : list Z) : bool :=
  match cs with [] => true | c :: cs' => (-128 <=? c) && (c <? 128) && plain_key kb c && plain_keys (kbd_spec kb c) cs' end.
Fixpoint process_inputs (cs : list Z) : M unit :=
  match cs with [] => skip | c :: cs' => process_input c ;; process_inputs cs' end.

(** ** Stores into a terminal *)

Definition with_term (i : Z) (t : term_t) (k : kernel) : kernel :=
  set_k_disp (set_terminals (<[Z.to_nat i := t]> (terminals (k_disp k))) (k_disp k)) k.

Lemma with_term_lookup i t t0 k : terminals (k_disp k) !! Z.to_nat i = Some t0 ->
  terminals (k_disp (with_term i t k)) !! Z.to_nat i = Some t.
Proof. intros H. apply list_lookup_insert_eq. by eapply lookup_lt_Some. Qed.

Lemma with_term_twice i t t' k : with_term i t (with_term i t' k) = with_term i t k.
Proof. unfold with_term. cbn. by rewrite list_insert_insert_eq. Qed.

Lemma wp_upd_with_term i f t t0 k (Q : unit -> kernel -> Prop) : 0 <= i ->
  terminals (k_disp k) !! Z.to_nat i = Some t0 -> Q tt (with_term i (f t) k) ->
  wp (upd_term i f) Q (with_term i t k).
Proof.
  intros Hi H0 HQ. eapply wp_upd_term; [done|by eapply with_term_lookup|].
  fold (with_term i (f t) (with_term i t k)). by rewrite with_term_twice.
Qed.

Lemma wp_get_with_term i t t0 k (Q : term_t -> kernel -> Prop) : 0 <= i ->
  terminals (k_disp k) !! Z.to_nat i = Some t0 -> Q t (with_term i t k) -> wp (get_term i) Q (with_term i t k).
Proof. intros Hi H0 HQ. eapply wp_get_term; [done|by eapply with_term_lookup|done]. Qed.

Lemma wp_write_with_term i j bs t t0 l k (Q : unit -> kernel -> Prop) : 0 <= i ->
  terminals (k_disp k) !! Z.to_nat i = Some t0 -> arr_write (key_buf t) j bs = Some l ->
  Q tt (with_term i (set_key_buf l t) k) -> wp (write_key_buf i j bs) Q (with_term i t k).
Proof.
  intros Hi H0 Hl HQ. unfold write_key_buf. wp_steps. eapply wp_get_with_term; [done..|]. wp_steps.
  eapply wp_lift; [exact Hl|]. by eapply wp_upd_with_term.
Qed.

Lemma with_term_id i t k : terminals (k_disp k) !! Z.to_nat i = Some t -> with_term i t k = k.
Proof. intros H. unfold with_term. rewrite list_insert_id by done. by destruct k as [????[]]. Qed.

(** Only the position, the line buffer and the new-line flag of a terminal differ. *)
Definition same_but_line (t t' : term_t) : Prop :=
  t' = set_key_buf (key_buf t') (set_key_buf_index (key_buf_index t') (set_new_line (new_line t')
         (set_scrn_r (scrn_r t') (set_scrn_c (scrn_c t') (set_curs_r (curs_r t') (set_curs_c (curs_c t') t)))))).

Lemma same_but_line_refl t : same_but_line t t.
Proof. by destruct t. Qed.
Lemma same_but_line_trans t1 t2 t3 : same_but_line t1 t2 -> same_but_line t2 t3 -> same_but_line t1 t3.
Proof. unfold same_but_line. intros -> ->. by destruct t1, t3. Qed.
Lemma same_but_pos_line t t' : same_but_pos t t' -> same_but_line t t'.
Proof. unfold same_but_pos, same_but_line. intros ->. by destruct t. Qed.
Lemma same_but_line_task t t' : same_but_line t t' -> cur_task t' = cur_task t.
Proof. by intros ->. Qed.
Lemma same_but_line_vid t t' : same_but_line t t' -> vid_mem t' = vid_mem t.
Proof. by intros ->. Qed.

(** What editing the line of terminal [i] may change. *)
Definition edit_frame (i : Z) (k k' : kernel) : Prop :=
  exists t t' m' io' fl kb', terminals (k_disp k) !! Z.to_nat i = Some t /\ same_but_line t t' /\
    differs_within (k_mem k) m' (vid_mem t) PAGE_BYTES /\
    k' = set_k_mem m' (set_k_io io' (set_k_cpu (set_iflag fl (k_cpu k)) (set_k_kbd kb' (with_term i t' k)))).

Lemma edit_frame_trans i k1 k2 k3 : edit_frame i k1 k2 -> edit_frame i k2 k3 -> edit_frame i k1 k3.
Proof.
  intros (t1 & t2 & m2 & io2 & fl2 & kb2 & H1 & S12 & D12 & ->)
         (t2' & t3 & m3 & io3 & fl3 & kb3 & H2 & S23 & D23 & ->).
  cbn in *. rewrite list_lookup_insert_eq in H2 by (by eapply lookup_lt_Some). apply (inj Some) in H2. subst t2'.
  exists t1, t3, m3, io3, fl3, kb3. split_and!; [done| | |].
  - by eapply same_but_line_trans.
  - rewrite (same_but_line_vid t1 t2) in D23 by done. by eapply differs_within_trans.
  - unfold with_term. cbn. by rewrite list_insert_insert_eq.
Qed.

Lemma edit_frame_refl i t k : terminals (k_disp k) !! Z.to_nat i = Some t -> edit_frame i k k.
Proof.
  intros H. exists t, t, (k_mem k), (k_io k), (iflag (k_cpu k)), (k_kbd k). split_and!; [done|apply same_but_line_refl| |].
  - apply differs_within_refl.
  - rewrite with_term_id by done. by destruct k as [??? []].
Qed.

Lemma edit_frame_store i t t' k : terminals (k_disp k) !! Z.to_nat i = Some t -> same_but_line t t' ->
  edit_frame i k (with_term i t' k).
Proof.
  intros H S. exists t, t', (k_mem k), (k_io k), (iflag (k_cpu k)), (k_kbd k). split_and!; [done|done| |].
  - apply differs_within_refl.
  - by destruct k as [??? []].
Qed.

Lemma edit_frame_cpu i t fl k : terminals (k_disp k) !! Z.to_nat i = Some t ->
  edit_frame i k (set_k_cpu (set_iflag fl (k_cpu k)) k).
Proof.
  intros H. exists t, t, (k_mem k), (k_io k), fl, (k_kbd k). split_and!; [done|apply same_but_line_refl| |].
  - apply differs_within_refl.
  - rewrite with_term_id by done. by destruct k.
Qed.

Lemma edit_frame_kbd i t kb k : terminals (k_disp k) !! Z.to_nat i = Some t -> edit_frame i k (set_k_kbd kb k).
Proof.
  intros H. exists t, t, (k_mem k), (k_io k), (iflag (k_cpu k)), kb. split_and!; [done|apply same_but_line_refl| |].
  - apply differs_within_refl.
  - rewrite with_term_id by done. by destruct k as [??? []].
Qed.

Lemma edit_frame_out i k k' : out_frame i k k' -> edit_frame i k k'.
Proof.
  intros (t & t' & m' & io' & Hi & Ht & S & D & _ & ->). exists t, t', m', io', (iflag (k_cpu k)), (k_kbd k).
  split_and!; [done|by apply same_but_pos_line|done|]. by destruct k as [??? []].
Qed.

(** ** The refinement *)

(** Terminal [t] holds the line [l], which has not been entered. *)
Definition line_term (t : term_t) (l : list Z) : Prop :=
  new_line t = false /\ key_buf t = l ++ replicate (129 - length l) 0 /\ key_buf_index t = Z.of_nat (length l) /\
  (length l <= 128)%nat /\ Forall (fun b => 0 < b < W8) l.

(** The line [l] is being edited on the visible terminal: it is in the buffer, and
    there are as many cells before the cursor as it has characters. *)
Definition line_ok (k : kernel) (l : list Z) : Prop :=
  let vis := vis_term_id (k_disp k) in
  exists t s, 0 <= vis /\ terminals (k_disp k) !! Z.to_nat vis = Some t /\ line_term t l /\
    shows k vis s /\ pos_ok s /\ Z.of_nat (length l) <= NUM_COLS * s_row s + s_col s.

Lemma arr_write_at l y r c : arr_write (l ++ y :: r) (Z.of_nat (length l)) [c] = Some (l ++ u8 c :: r).
Proof.
  unfold arr_write. rewrite length_app. cbn [length].
  rewrite (proj2 (Z.leb_le _ _)), (proj2 (Z.leb_le _ _)) by lia. cbn [andb map app]. f_equal.
  rewrite Nat2Z.id, take_app_length. f_equal. cbn [app]. f_equal.
  rewrite drop_app_ge by lia. replace (length l + 1 - length l)%nat with 1%nat by lia. done.
Qed.

Lemma line_extend l c : (length l <= 128)%nat ->
  arr_write (l ++ replicate (129 - length l) 0) (Z.of_nat (length l)) [c] =
  Some ((l ++ [u8 c]) ++ replicate (129 - S (length l)) 0).
Proof.
  intros Hl. replace (129 - length l)%nat with (S (129 - S (length l))) by lia. cbn [replicate].
  rewrite arr_write_at. by rewrite <- app_assoc.
Qed.

Lemma line_shrink l x : (length l < 128)%nat ->
  arr_write ((l ++ [x]) ++ replicate (129 - S (length l)) 0) (Z.of_nat (length l)) [0] =
  Some (l ++ replicate (129 - length l) 0).
Proof.
  intros Hl. rewrite <- app_assoc. cbn [app]. rewrite arr_write_at.
  replace (129 - length l)%nat with (S (129 - S (length l))) by lia. done.
Qed.

(** shows does not look at the line buffer. *)
Lemma shows_with_term i t t' s k : terminals (k_disp k) !! Z.to_nat i = Some t ->
  vid_mem t' = vid_mem t -> shows k i s ->
  shows (with_term i t' k) i (mk_screen (s_cells s) (scrn_r t') (scrn_c t')).
Proof.
  intros Ht Hv (t0 & Hi & Ht0 & Hr & Hc & Hcells). rewrite Ht in Ht0. injection Ht0 as <-.
  exists t'. split_and!; [done|by eapply with_term_lookup|done|done|].
  intros o Ho. cbn. rewrite Hv. by apply Hcells.
Qed.

Lemma shows_pos k i s t : terminals (k_disp k) !! Z.to_nat i = Some t -> shows k i s ->
  s = mk_screen (s_cells s) (scrn_r t) (scrn_c t).
Proof.
  intros Ht (t0 & Hi & Ht0 & Hr & Hc & _). rewrite Ht in Ht0. injection Ht0 as <-.
  rewrite Hr, Hc. by destruct s.
Qed.

(** One character of output, seen from the terminal that is edited. *)
Lemma putc_line i c t s k : terminals (k_disp k) !! Z.to_nat i = Some t -> shows k i s -> pos_ok s ->
  wp (putc i c) (fun _ k' => exists t', terminals (k_disp k') !! Z.to_nat i = Some t' /\ same_but_pos t t' /\
    shows k' i (putc_spec (color (k_disp k)) c s) /\ edit_frame i k k' /\
    vis_term_id (k_disp k') = vis_term_id (k_disp k) /\ k_kbd k' = k_kbd k) k.
Proof.
  intros Ht Hs Hok. eapply wp_mono; [|eapply (outs_putc i _ c s Hok k Hs eq_refl)].
  intros [] k' [Hs' F]. pose proof (edit_frame_out _ _ _ F) as F'.
  destruct F as (t0 & t' & m' & io' & Hi & Ht0 & S & _ & _ & ->). rewrite Ht in Ht0. injection Ht0 as <-.
  exists t'. split_and!; try done. cbn. apply list_lookup_insert_eq. by eapply lookup_lt_Some.
Qed.

(** Position after a printed character, after a backspace. *)
Lemma putc_spec_print col c s : pos_ok s -> c <> 8 -> c <> 10 -> c <> 13 ->
  NUM_COLS * s_row s + s_col s + 1 = NUM_COLS * s_row (putc_spec col c s) + s_col (putc_spec col c s) \/
  LINE_MAX <= NUM_COLS * s_row (putc_spec col c s) + s_col (putc_spec col c s).
Proof.
  intros [Hr Hc] H8 H10 H13. unfold putc_spec, scroll_spec, put_spec.
  rewrite (proj2 (Z.eqb_neq c 10)), (proj2 (Z.eqb_neq c 13)), (proj2 (Z.eqb_neq c 8)) by done. cbn [orb].
  cbv zeta. cbn [s_row s_col s_cells]. destruct (Z.ltb_spec (s_row s + s_col s / NUM_COLS) NUM_ROWS); cbn [s_row s_col s_cells]; [left|right]; zlia.
Qed.

Lemma putc_spec_back col s : 0 < s_col s ->
  s_row (putc_spec col 8 s) = s_row s /\ s_col (putc_spec col 8 s) = s_col s - 1.
Proof. intros H. unfold putc_spec. cbn. by rewrite (proj2 (Z.eqb_neq _ 0)) by lia. Qed.

(** Every scan code has an entry in every map, a byte; only two keys have a
    control character. *)
Lemma key_char_lookup kb c : 0 <= c < KEY_MAP_SIZE ->
  keymap kb !! Z.to_nat c = Some (key_char kb c) /\ 0 <= key_char kb c < W8.
Proof.
  intros Hc. unfold key_char, keymap.
  assert (forall l : list Z, forallb (fun c => match l !! Z.to_nat c with Some b => (0 <=? b) && (b <? W8) | None => false end)
            (seqZ 0 128) = true ->
    l !! Z.to_nat c = Some (default 0 (l !! Z.to_nat c)) /\ 0 <= default 0 (l !! Z.to_nat c) < W8) as H.
  { intros l Hl. pose proof (forallb_range _ 0 128 c Hl ltac:(lia)) as G. cbn beta in G.
    destruct (l !! Z.to_nat c) as [z|]; [|done]. change (default 0 (Some z)) with z. b2p. done. }
  destruct (l_shift kb), (r_shift kb), (caps_lock kb); cbn [orb andb]; by apply H.
Qed.

Lemma key_char_control kb c : 0 <= c < KEY_MAP_SIZE -> c <> BACKSPACE_P -> c <> ENTER_KEY_P ->
  key_char kb c <> 8 /\ key_char kb c <> 10 /\ key_char kb c <> 13.
Proof.
  intros Hc H1 H2. unfold key_char, keymap.
  assert (forall l : list Z, forallb (fun c => (c =? BACKSPACE_P) || (c =? ENTER_KEY_P) ||
      negb ((default 0 (l !! Z.to_nat c) =? 8) || (default 0 (l !! Z.to_nat c) =? 10) ||
            (default 0 (l !! Z.to_nat c) =? 13))) (seqZ 0 128) = true ->
    default 0 (l !! Z.to_nat c) <> 8 /\ default 0 (l !! Z.to_nat c) <> 10 /\ default 0 (l !! Z.to_nat c) <> 13) as H.
  { intros l Hl. pose proof (forallb_range _ 0 128 c Hl ltac:(lia)) as G. cbn beta in G.
    rewrite (proj2 (Z.eqb_neq c _)), (proj2 (Z.eqb_neq c ENTER_KEY_P)) in G by done. cbn [orb] in G.
    apply negb_true_iff, orb_false_iff in G as [G G3]. apply orb_false_iff in G as [G1 G2]. b2p. done. }
  destruct (l_shift kb), (r_shift kb), (caps_lock kb); cbn [orb andb]; by apply H.
Qed.

(** The screen of a line may be any the terminal shows. *)
Lemma line_ok_on k l s : line_ok k l -> shows k (vis_term_id (k_disp k)) s ->
  exists t, 0 <= vis_term_id (k_disp k) /\ terminals (k_disp k) !! Z.to_nat (vis_term_id (k_disp k)) = Some t /\
    line_term t l /\ pos_ok s /\ Z.of_nat (length l) <= NUM_COLS * s_row s + s_col s.
Proof.
  intros (t & s0 & Hv & Ht & L & (t0 & _ & Ht0 & Hr0 & Hc0 & _) & Hok & Hfit) (t1 & _ & Ht1 & Hr1 & Hc1 & _).
  rewrite Ht in Ht0, Ht1. apply (inj Some) in Ht0, Ht1. subst t0 t1. unfold pos_ok in *.
  exists t. rewrite <- Hr0, <- Hc0 in *. rewrite <- Hr1, <- Hc1. split_and!; (done || lia).
Qed.

(** Backspace. *)
Lemma backspace_line k l s : line_ok k l -> shows k (vis_term_id (k_disp k)) s ->
  let vis := vis_term_id (k_disp k) in
  wp (backspace vis) (fun _ k' => line_ok k' (take (length l - 1) l) /\ edit_frame vis k k' /\
    vis_term_id (k_disp k') = vis /\ k_kbd k' = k_kbd k /\
    shows k' vis (if bool_decide (l = []) then s else erase_spec (color (k_disp k)) s)) k.
Proof.
  intros Hline Hs vis. destruct (line_ok_on k l s Hline Hs) as (t & Hv & Ht & (Hnl & Hkb & Hidx & Hlen & Hbytes) & Hok & Hfit). fold vis in Hv, Ht, Hs.
  unfold backspace. wp_steps. eapply wp_get_term; [done|exact Ht|].
  destruct (decide (l = [])) as [->|Hne].
  { rewrite Hidx. cbn [length c_true Z.of_nat Z.eqb negb]. wp_steps. split_and!; [exact Hline|by eapply edit_frame_refl|done|done|exact Hs]. }
  rewrite bool_decide_eq_false_2 by done.
  destruct (exists_last Hne) as (l0 & x & ->). rewrite length_app in *. cbn [length] in *.
  rewrite Hidx. unfold c_true. rewrite (proj2 (Z.eqb_neq _ 0)) by lia. cbn [negb]. wp_steps.
  rewrite <- (with_term_id vis t k) by done.
  eapply wp_upd_with_term; [done..|]. wp_steps.
  replace (Z.of_nat (length l0 + 1) - 1) with (Z.of_nat (length l0)) by lia.
  eapply wp_write_with_term; [done|exact Ht|cbn [key_buf set_key_buf_index]; rewrite Hkb;
    replace (129 - (length l0 + 1))%nat with (129 - S (length l0))%nat by lia; apply line_shrink; lia|]. wp_steps.
  set (t1 := set_key_buf _ _). eapply wp_get_with_term; [done|exact Ht|]. wp_steps.
  replace (length l0 + 1 - 1)%nat with (length l0) by lia. rewrite take_app_length.
  apply Forall_app in Hbytes as [Hb0 _].
  assert (line_term t1 l0) as L1 by (split_and!; [done|done|done|lia|done]).
  assert (exists t2 k2, k2 = with_term vis t2 k /\ same_but_line t t2 /\ line_term t2 l0 /\
    0 < scrn_c t2 <= NUM_COLS /\ 0 <= scrn_r t2 < NUM_ROWS /\
    Z.of_nat (length l0) + 1 <= NUM_COLS * scrn_r t2 + scrn_c t2 /\
    mk_screen (s_cells s) (scrn_r t2) (scrn_c t2) =
      (if s_col s =? 0 then mk_screen (s_cells s) (s_row s - 1) NUM_COLS else s) /\
    wp (if scrn_c t1 =? 0 then upd_term vis (fun t => set_scrn_c NUM_COLS (set_scrn_r (u8 (scrn_r t - 1)) t)) else skip)
      (fun _ k' => k' = k2) (with_term vis t1 k)) as (t2 & k2 & -> & S2 & L2 & Hc2 & Hr2 & Hf2 & Es & W2).
  { destruct Hs as (t' & _ & Ht' & Hr & Hc & _). rewrite Ht in Ht'. injection Ht' as <-.
    destruct Hok as [Hr0 Hc0]. change (scrn_c t1) with (scrn_c t). rewrite <- Hc, <- Hr.
    destruct (Z.eqb_spec (scrn_c t) 0) as [E|E].
    - exists (set_scrn_c NUM_COLS (set_scrn_r (scrn_r t - 1) t1)). eexists. split; [reflexivity|].
      split_and!; try done; try (cbn; lia).
      eapply wp_upd_with_term; [done|exact Ht|]. change (scrn_r t1) with (scrn_r t). by rewrite u8_small by lia.
    - exists t1. eexists. split; [reflexivity|]. split_and!; try done; try (cbn; lia). cbn. rewrite Hr, Hc. by destruct s. }
  eapply wp_mono; [|exact W2]. intros [] ? ->. cbn beta.
  eapply wp_mono; [|eapply (putc_line vis 8 t2 (mk_screen (s_cells s) (scrn_r t2) (scrn_c t2)))].
  - intros [] k' (t3 & Ht3 & S3 & Hs3 & F3 & Hv3 & Hkb3). split_and!; [| |done|done|unfold erase_spec; rewrite <- Es; exact Hs3].
    + exists t3. eexists. rewrite Hv3. split_and!; [done|done| |exact Hs3| |].
      * destruct L2 as (? & ? & ? & ? & ?). rewrite S3. by split_and!.
      * apply putc_spec_ok. split; cbn; lia.
      * destruct (putc_spec_back (color (k_disp (with_term vis t2 k))) (mk_screen (s_cells s) (scrn_r t2) (scrn_c t2))) as [-> ->]; cbn; lia.
    + rewrite with_term_id by done. eapply edit_frame_trans; [|exact F3]. by eapply edit_frame_store.
  - by eapply with_term_lookup.
  - eapply shows_with_term; [exact Ht| |exact Hs]. by apply same_but_line_vid.
  - split; cbn; lia.
Qed.

(** A printing key. *)
Lemma print_char_line k l c s : line_ok k l -> shows k (vis_term_id (k_disp k)) s -> 0 <= c < KEY_MAP_SIZE ->
  let vis := vis_term_id (k_disp k) in let ch := key_char (k_kbd k) c in
  ch <> 8 -> ch <> 10 -> ch <> 13 ->
  wp (print_char vis c) (fun _ k' =>
    line_ok k' (if Z.of_nat (length l) =? LINE_MAX then l else if ch =? 0 then l else l ++ [ch]) /\
    edit_frame vis k k' /\ vis_term_id (k_disp k') = vis /\ k_kbd k' = k_kbd k /\
    shows k' vis (if Z.of_nat (length l) =? LINE_MAX then s else if ch =? 0 then s else putc_spec (color (k_disp k)) ch s)) k.
Proof.
  intros Hline Hs Hc vis ch H8 H10 H13.
  destruct (line_ok_on k l s Hline Hs) as (t & Hv & Ht & (Hnl & Hkb & Hidx & Hlen & Hbytes) & Hok & Hfit). fold vis in Hv, Ht, Hs.
  assert (wp skip (fun _ k' => line_ok k' l /\ edit_frame vis k k' /\
    vis_term_id (k_disp k') = vis /\ k_kbd k' = k_kbd k /\ shows k' vis s) k) as Hsame
    by (apply wp_mret; split_and!; [done|by eapply edit_frame_refl|done|done|exact Hs]).
  unfold print_char. wp_steps. eapply wp_get_term; [done|exact Ht|]. rewrite Hidx. change (129 - 1) with 128.
  destruct (Z.eqb_spec (Z.of_nat (length l)) 128); [exact Hsame|]. wp_steps.
  unfold get_keymap. wp_steps. rewrite u8_small by lia.
  destruct (key_char_lookup (k_kbd k) c Hc) as [Hk Hch]. eapply wp_lift; [exact Hk|]. fold ch. fold ch in Hch.
  unfold c_true. destruct (Z.eqb_spec ch 0) as [E|E]; cbn [negb]; [exact Hsame|]. wp_steps.
  rewrite <- (with_term_id vis t k) at 1 by done.
  eapply wp_write_with_term; [done|exact Ht|rewrite Hkb; apply line_extend; lia|]. wp_steps.
  eapply wp_upd_with_term; [done|exact Ht|]. rewrite u32_small by lia. rewrite (u8_small ch) by lia.
  set (t1 := set_key_buf_index _ _).
  eapply wp_mono; [|eapply (putc_line vis ch t1 (mk_screen (s_cells s) (scrn_r t) (scrn_c t)))].
  - intros [] k' (t3 & Ht3 & S3 & Hs3 & F3 & Hv3 & Hkb3). wp_steps. split_and!; [| |done|done|].
    3: { rewrite <- (shows_pos k vis s t) in Hs3 by done. exact Hs3. }
    + exists t3. eexists. rewrite Hv3. split_and!; [done|done| |exact Hs3| |].
      * rewrite S3. split_and!; cbn [new_line key_buf key_buf_index set_key_buf set_key_buf_index t1 set_scrn_r set_scrn_c set_curs_r set_curs_c].
        -- exact Hnl.
        -- rewrite length_app. cbn [length]. by replace (length l + 1)%nat with (S (length l)) by lia.
        -- rewrite length_app. cbn [length]. cbn. lia.
        -- rewrite length_app. cbn [length]. lia.
        -- apply Forall_app. split; [done|]. apply Forall_singleton. lia.
      * apply putc_spec_ok. by rewrite <- (shows_pos k vis s t).
      * rewrite <- (shows_pos k vis s t) by done. rewrite length_app. cbn [length].
        destruct (putc_spec_print (color (k_disp (with_term vis t1 k))) ch s Hok H8 H10 H13); lia.
    + eapply edit_frame_trans; [|exact F3]. eapply edit_frame_store; [exact Ht|]. by destruct t.
  - by eapply with_term_lookup.
  - by apply (shows_with_term vis t t1 s).
  - by rewrite <- (shows_pos k vis s t).
Qed.

(** The outcome of one plain key. *)
Definition key_done (k : kernel) (l : list Z) (c : Z) (s : screen) (k' : kernel) : Prop :=
  line_ok k' (line_spec (k_kbd k) l c) /\ k_kbd k' = kbd_spec (k_kbd k) c /\
  edit_frame (vis_term_id (k_disp k)) k k' /\ vis_term_id (k_disp k') = vis_term_id (k_disp k) /\
  shows k' (vis_term_id (k_disp k)) (echo_spec (color (k_disp k)) (k_kbd k) l c s).

Lemma key_done_sti k l c s k' fl : key_done k l c s k' -> key_done k l c s (set_k_cpu (set_iflag fl (k_cpu k')) k').
Proof.
  intros (H1 & H2 & H3 & H4 & H5). split_and!; [exact H1|exact H2| |exact H4|exact H5].
  eapply edit_frame_trans; [exact H3|]. destruct H1 as (t & s1 & _ & Ht & _). rewrite <- H4.
  by eapply edit_frame_cpu.
Qed.

(** A modifier only changes the flags. *)
Lemma modifier_done k l c s t : line_ok k l -> shows k (vis_term_id (k_disp k)) s -> is_modifier c = true ->
  terminals (k_disp k) !! Z.to_nat (vis_term_id (k_disp k)) = Some t ->
  key_done k l c s (set_k_kbd (kbd_spec (k_kbd k) c) (set_k_cpu (set_iflag false (k_cpu k)) k)).
Proof.
  intros Hl Hs Hm Ht. unfold key_done, line_spec, echo_spec. rewrite Hm. split_and!; [exact Hl|done| |done|exact Hs].
  eapply edit_frame_trans; [by eapply edit_frame_cpu|]. by eapply edit_frame_kbd.
Qed.

(** Keys that are not special are printed. *)
Lemma key_down_prints vis c k : 0 <= c -> plain_key (k_kbd k) c = true -> is_modifier c = false ->
  c <> BACKSPACE_P -> key_down vis c k = print_char vis c k.
Proof.
  intros Hc Hp Hm Hb. unfold plain_key, is_modifier in *.
  rewrite (proj2 (Z.ltb_ge c 0)) in Hp, Hm by lia. cbn [orb] in Hp, Hm.
  repeat (apply orb_false_iff in Hm as [Hm ?]). repeat (apply andb_true_iff in Hp as [Hp ?]).
  repeat match goal with H : negb _ = true |- _ => apply negb_true_iff in H end.
  unfold key_down, mbind, M_bind, gets.
  rewrite (proj2 (Z.eqb_neq c BACKSPACE_P)) by done.
  repeat match goal with H : (c =? _) = false |- _ => rewrite H; clear H | H : (_ <=? c) && _ = false |- _ => rewrite H; clear H end.
  destruct (ctrl (k_kbd k)) eqn:Ec; cbn [andb] in *.
  - repeat match goal with H : _ || _ = false |- _ => apply orb_false_iff in H as [H ?] end.
    by repeat match goal with H : (c =? _) = false |- _ => rewrite H; clear H end.
  - by repeat case_if.
Qed.

Lemma kbd_same k : set_k_kbd (k_kbd k) k = k.
Proof. by destruct k. Qed.

Lemma process_plain_key k l c s : line_ok k l -> shows k (vis_term_id (k_disp k)) s -> -128 <= c < 128 -> plain_key (k_kbd k) c = true ->
  wp (process_input c) (fun _ => key_done k l c s) k.
Proof.
  intros Hl Hs Hc Hp. pose proof Hl as (t & _ & Hv & Ht & _).
  unfold process_input, get_vis. wp_steps. set (k1 := set_k_cpu (set_iflag false (k_cpu k)) k).
  set (vis := vis_term_id (k_disp k)) in *.
  assert (line_ok k1 l) as Hl1 by exact Hl. assert (shows k1 vis s) as Hs1 by exact Hs.
  assert (edit_frame vis k k1) as F1 by (by eapply edit_frame_cpu).
  destruct (is_modifier c) eqn:Hm.
  { pose proof (modifier_done k l c s t Hl Hs Hm Ht) as D. fold k1 in D.
    assert (forall fl, key_done k l c s (set_k_cpu (set_iflag fl (k_cpu k1)) (set_k_kbd (kbd_spec (k_kbd k) c) k1))) as D'
      by (intros fl; exact (key_done_sti _ _ _ _ _ fl D)).
    unfold is_modifier in Hm. unfold kbd_spec in D'.
    destruct (Z.leb_spec 0 c) as [H0|H0].
    - rewrite (proj2 (Z.ltb_ge c 0)) in Hm by lia. cbn [orb] in Hm. unfold key_down. wp_steps.
      repeat (apply orb_true_iff in Hm as [Hm|Hm]); apply Z.eqb_eq in Hm; subst c; wp_steps; exact (D' true).
    - unfold key_up. assert (c = CTRL_KEY_R \/ c = L_SHIFT_R \/ c = R_SHIFT_R \/
        (c <> CTRL_KEY_R /\ c <> L_SHIFT_R /\ c <> R_SHIFT_R)) as [->|[->|[->|(N1 & N2 & N3)]]] by lia;
        [wp_steps; exact (D' true)..|].
      rewrite !(proj2 (Z.eqb_neq c _)) in * by lia. wp_steps.
      specialize (D' true). pose proof (kbd_same k1) as E. change (k_kbd k1) with (k_kbd k) in E.
      rewrite E in D'. exact D'. }
  assert (0 <= c) as H0 by (unfold is_modifier in Hm; destruct (Z.ltb_spec c 0); [done|lia]).
  rewrite (proj2 (Z.leb_le 0 c)) by lia. wp_steps.
  assert (kbd_spec (k_kbd k) c = k_kbd k) as Hks.
  { unfold is_modifier in Hm. repeat (apply orb_false_iff in Hm as [Hm ?]). unfold kbd_spec.
    repeat match goal with H : (c =? _) = false |- _ => rewrite H; clear H end.
    by rewrite !(proj2 (Z.eqb_neq c _)) by lia. }
  assert (forall l' s', l' = line_spec (k_kbd k) l c -> s' = echo_spec (color (k_disp k)) (k_kbd k) l c s -> forall (finish : bool) k',
    line_ok k' l' /\ edit_frame vis k1 k' /\ vis_term_id (k_disp k') = vis /\ k_kbd k' = k_kbd k1 /\ shows k' vis s' ->
    wp (if finish then sti else skip) (fun _ => key_done k l c s) k') as Fin.
  { intros l' s' -> -> finish k' (H1 & H2 & H3 & H4 & H5).
    assert (key_done k l c s k') as D.
    { split_and!; [exact H1|by rewrite Hks, H4|exact (edit_frame_trans _ _ _ _ F1 H2)|exact H3|exact H5]. }
    destruct finish; wp_steps; [|exact D]. exact (key_done_sti _ _ _ _ _ true D). }
  unfold line_spec, echo_spec in Fin. rewrite Hm in Fin.
  destruct (Z.eq_dec c BACKSPACE_P) as [->|Hb].
  - unfold key_down. wp_steps. rewrite Z.eqb_refl. wp_steps. eapply wp_mono; [|exact (backspace_line k1 l s Hl1 Hs1)].
    intros [] k1' H. apply wp_mret. exact (Fin _ _ eq_refl eq_refl true k1' H).
  - rewrite (proj2 (Z.eqb_neq c BACKSPACE_P)) in Fin by done.
    unfold wp at 1. rewrite key_down_prints by done.
    destruct (key_char_control (k_kbd k) c) as (C1 & C2 & C3); [lia|done| |].
    { unfold plain_key in Hp. intros ->. discriminate. }
    pose proof (print_char_line k1 l c s Hl1 Hs1 ltac:(lia) C1 C2 C3) as W. unfold wp in W.
    change (vis_term_id (k_disp k1)) with vis in W.
    destruct (print_char vis c k1) as [b k'| |]; [|done|done]. exact (Fin _ _ eq_refl eq_refl b k' W).
Qed.

Lemma edit_frame_color i k k' : edit_frame i k k' -> color (k_disp k') = color (k_disp k).
Proof. by intros (? & ? & ? & ? & ? & ? & _ & _ & _ & ->). Qed.

Lemma process_plain_keys cs k l s : line_ok k l -> shows k (vis_term_id (k_disp k)) s -> plain_keys (k_kbd k) cs = true ->
  wp (process_inputs cs) (fun _ k' => line_ok k' (keys_spec (k_kbd k) l cs).2 /\
    k_kbd k' = (keys_spec (k_kbd k) l cs).1 /\ edit_frame (vis_term_id (k_disp k)) k k' /\
    vis_term_id (k_disp k') = vis_term_id (k_disp k) /\
    shows k' (vis_term_id (k_disp k)) (echoes (color (k_disp k)) (k_kbd k) l cs s)) k.
Proof.
  revert k l s. induction cs as [|c cs IH]; intros k l s Hl Hs Hp; cbn [process_inputs keys_spec echoes].
  { wp_steps. split_and!; [done|done| |done|exact Hs]. destruct Hl as (t & s0 & _ & Ht & _). by eapply edit_frame_refl. }
  cbn [plain_keys] in Hp. apply andb_true_iff in Hp as [Hp Hps]. apply andb_true_iff in Hp as [Hp Hc].
  b2p. wp_steps. eapply wp_mono; [|apply (process_plain_key k l c s); [done|done|lia|done]].
  intros [] k1 (H1 & H2 & H3 & H4 & H5). cbn beta. rewrite <- H2 in Hps |- *. rewrite <- H4 in H5.
  eapply wp_mono; [|exact (IH k1 _ _ H1 H5 Hps)]. intros [] k2 (G1 & G2 & G3 & G4 & G5).
  rewrite (edit_frame_color _ _ _ H3), H4 in G5. split_and!; [done|done| |congruence|exact G5]. eapply edit_frame_trans; [exact H3|]. by rewrite <- H4.
Qed.

(** ** What is seen *)

Definition cursor_cell (s : screen) : Z := NUM_COLS * s_row s + s_col s.

(** The screen [s0] with the line [l] written from its cursor on. *)
Definition line_cells (col : Z) (s0 : screen) (l : list Z) (o : Z) : Z :=
  let i := o / 2 - cursor_cell s0 in
  if (0 <=? i) && (i <? Z.of_nat (length l))
  then (if o mod 2 =? 0 then default 0 (l !! Z.to_nat i) else u8 col) else s_cells s0 o.

Definition line_seen (col : Z) (s0 : screen) (l : list Z) (s : screen) : Prop :=
  pos_ok s /\ cursor_cell s = cursor_cell s0 + Z.of_nat (length l) /\
  forall o, 0 <= o < PAGE_BYTES -> s_cells s o = line_cells col s0 l o.

(** Nothing but blanks from the cursor on, and room for a whole line. *)
Definition blank_ahead (col : Z) (s : screen) : Prop :=
  pos_ok s /\ cursor_cell s + LINE_MAX <= NUM_ROWS * NUM_COLS /\
  forall o, 2 * cursor_cell s <= o < PAGE_BYTES -> s_cells s o = blank_cell col o.

Lemma seen_print col s0 l s ch : line_seen col s0 l s -> (length l < 128)%nat -> blank_ahead col s0 ->
  0 < ch < W8 -> ch <> 8 -> ch <> 10 -> ch <> 13 -> line_seen col s0 (l ++ [ch]) (putc_spec col ch s).
Proof.
  intros (Hp & Hc & Hs) Hl (Hp0 & Hr & _) Hb H8 H10 H13. pose proof (putc_spec_ok col ch s Hp) as Hp'. split; [exact Hp'|].
  destruct Hp as [P1 P2]. unfold cursor_cell in *. clear Hp'. unfold putc_spec.
  rewrite (proj2 (Z.eqb_neq ch 10)), (proj2 (Z.eqb_neq ch 13)), (proj2 (Z.eqb_neq ch 8)) by done. cbn [orb].
  unfold scroll_spec. cbn [s_row s_col s_cells]. rewrite (proj2 (Z.ltb_lt _ NUM_ROWS)) by zlia. unfold put_spec. cbn [s_row s_col s_cells].
  rewrite length_app. cbn [length]. split; [zlia|]. intros o Ho. unfold line_cells, cursor_cell. rewrite length_app. cbn [length].
  set (p := 80 * s_row s0 + s_col s0) in *.
  replace (2 * (80 * (s_row s + s_col s / 80) + s_col s `mod` 80)) with (2 * (p + Z.of_nat (length l))) by zlia.
  destruct (decide (o / 2 - p = Z.of_nat (length l))) as [E|E].
  - rewrite E, (proj2 (Z.leb_le 0 _)), (proj2 (Z.ltb_lt _ (Z.of_nat (length l + 1)))) by lia. cbn [andb].
    rewrite Nat2Z.id, lookup_app_r, Nat.sub_diag by lia. cbn [lookup list_lookup default]. case_cmp; try zlia. by rewrite u8_small by lia.
  - rewrite (proj2 (Z.eqb_neq o _)), (proj2 (Z.eqb_neq o _)) by zlia. rewrite Hs by lia. unfold line_cells, cursor_cell. fold p.
    replace (o / 2 - p <? Z.of_nat (length l + 1)) with (o / 2 - p <? Z.of_nat (length l)) by (case_cmp; lia).
    destruct (_ && _) eqn:B; [|done]. b2p. by rewrite lookup_app_l by lia.
Qed.

Lemma seen_erase col s0 l x s : line_seen col s0 (l ++ [x]) s -> (length l < 128)%nat -> blank_ahead col s0 ->
  line_seen col s0 l (erase_spec col s).
Proof.
  intros ([P1 P2] & Hc & Hs) Hl ([Q1 Q2] & Hr & Hblank). unfold cursor_cell in *. rewrite length_app in Hc. cbn [length] in Hc.
  unfold erase_spec. set (s1 := if s_col s =? 0 then _ else s).
  assert (0 <= s_row s1 < NUM_ROWS /\ 0 < s_col s1 <= NUM_COLS /\ 80 * s_row s1 + s_col s1 = 80 * s_row s + s_col s /\ s_cells s1 = s_cells s) as (R1 & C1 & E1 & E2).
  { unfold s1. destruct (Z.eqb_spec (s_col s) 0); cbn [s_row s_col s_cells]; (split; [lia|]; split; [lia|]; split; [lia|done]). }
  unfold putc_spec. cbn [Z.eqb Pos.eqb orb]. rewrite (proj2 (Z.eqb_neq (s_col s1) 0)) by lia. unfold put_spec, line_seen, pos_ok, cursor_cell.
  cbn [s_row s_col s_cells]. rewrite E2. split; [lia|]. split; [lia|]. intros o Ho. unfold line_cells, cursor_cell.
  set (p := 80 * s_row s0 + s_col s0) in *.
  replace (2 * (80 * s_row s1 + (s_col s1 - 1))) with (2 * (p + Z.of_nat (length l))) by lia.
  destruct (decide (o / 2 - p = Z.of_nat (length l))) as [E|E].
  - rewrite E, (proj2 (Z.ltb_ge _ (Z.of_nat (length l)))), andb_false_r by lia. rewrite Hblank by zlia. unfold blank_cell. case_cmp; try zlia; done.
  - rewrite (proj2 (Z.eqb_neq o _)), (proj2 (Z.eqb_neq o _)) by zlia. rewrite Hs by lia. unfold line_cells, cursor_cell. fold p.
    rewrite length_app. cbn [length].
    replace (o / 2 - p <? Z.of_nat (length l + 1)) with (o / 2 - p <? Z.of_nat (length l)) by (case_cmp; lia).
    destruct (_ && _) eqn:B; [|done]. b2p. by rewrite lookup_app_l by lia.
Qed.

Lemma seen_keys cs : forall col kb l s0 s, blank_ahead col s0 -> line_seen col s0 l s -> (length l <= 128)%nat ->
  plain_keys kb cs = true -> line_seen col s0 (keys_spec kb l cs).2 (echoes col kb l cs s).
Proof.
  induction cs as [|c cs IH]; intros col kb l s0 s Hb Hs Hl Hp; cbn [keys_spec echoes]; [exact Hs|].
  cbn [plain_keys] in Hp. apply andb_true_iff in Hp as [Hp Hps]. apply andb_true_iff in Hp as [Hp Hc]. b2p.
  assert (line_seen col s0 (line_spec kb l c) (echo_spec col kb l c s) /\ (length (line_spec kb l c) <= 128)%nat) as [H1 H2]; [|by apply IH].
  unfold line_spec, echo_spec. destruct (is_modifier c) eqn:Hm; [done|].
  destruct (Z.eqb_spec c BACKSPACE_P) as [->|Hne].
  { destruct (decide (l = [])) as [->|Hn]; [by rewrite bool_decide_eq_true_2 by done|]. rewrite bool_decide_eq_false_2 by done.
    destruct (exists_last Hn) as (l0 & x & ->). rewrite length_app in *. cbn [length] in *.
    replace (length l0 + 1 - 1)%nat with (length l0) by lia. rewrite take_app_length. split; [|lia]. apply (seen_erase _ _ _ x); (done || lia). }
  destruct (Z.eqb_spec (Z.of_nat (length l)) LINE_MAX); [done|]. destruct (Z.eqb_spec (key_char kb c) 0); [done|].
  assert (0 <= c < KEY_MAP_SIZE) as Hr by (unfold is_modifier in Hm; destruct (Z.ltb_spec c 0); [done|lia]).
  destruct (key_char_lookup kb c Hr) as [_ Hch]. destruct (key_char_control kb c Hr Hne) as (C1 & C2 & C3).
  { unfold plain_key in *. intros ->. discriminate. }
  split; [|rewrite length_app; cbn; lia]. apply seen_print; (done || lia).
Qed.

(** ** Enter *)

(** The line [l] has been entered on the visible terminal and waits for a reader. *)
Definition line_entered (k : kernel) (l : list Z) : Prop :=
  let vis := vis_term_id (k_disp k) in
  exists t s, 0 <= vis /\ terminals (k_disp k) !! Z.to_nat vis = Some t /\
    key_buf t = l ++ 10 :: replicate (128 - length l) 0 /\ (length l <= 127)%nat /\
    Forall (fun b => 0 < b < W8) l /\ key_buf_index t = 0 /\ new_line t = true /\
    shows k vis s /\ pos_ok s.

Lemma entered_buffer l : (length l <= 128)%nat ->
  exists l1, arr_write (l ++ replicate (129 - length l) 0)
      (if Z.of_nat (length l) <? KEY_BUF_SIZE - 1 then Z.of_nat (length l) else KEY_BUF_SIZE - 2) [10] = Some l1 /\
    arr_write l1 ((if Z.of_nat (length l) <? KEY_BUF_SIZE - 1 then Z.of_nat (length l) else KEY_BUF_SIZE - 2) + 1) [0]
    = Some (take 127 l ++ 10 :: replicate (128 - length (take 127 l)) 0).
Proof.
  intros Hl. assert (exists y r, l ++ replicate (129 - length l) 0 = take 127 l ++ y :: r /\
    length r = (128 - length (take 127 l))%nat /\ drop 1 r = drop 1 (replicate (128 - length (take 127 l)) 0)) as (y & r & -> & Hr & Hd).
  { rewrite length_take. destruct (decide (length l <= 127)%nat) as [H|H].
    - rewrite take_ge by lia. replace (129 - length l)%nat with (S (128 - length l)) by lia.
      exists 0, (replicate (128 - length l) 0). rewrite length_replicate.
      replace (127 `min` length l)%nat with (length l) by lia. done.
    - assert (length l = 128%nat) as E by lia. rewrite E. cbn [Nat.sub replicate].
      pose proof (take_drop 127 l) as TD. destruct (drop 127 l) as [|x [|]] eqn:Ed;
        apply (f_equal length) in Ed; rewrite length_drop in Ed; cbn in Ed; try lia.
      exists x, [0]. split; [|done]. transitivity ((take 127 l ++ [x]) ++ [0]); [by rewrite TD|by rewrite <- app_assoc]. }
  assert ((if Z.of_nat (length l) <? KEY_BUF_SIZE - 1 then Z.of_nat (length l) else KEY_BUF_SIZE - 2) =
    Z.of_nat (length (take 127 l))) as -> by (rewrite length_take; case_if; lia).
  rewrite arr_write_at. eexists. split; [reflexivity|].
  destruct r as [|z r]; [cbn in Hr; rewrite length_take in Hr; lia|].
  replace (take 127 l ++ u8 10 :: z :: r) with ((take 127 l ++ [10]) ++ z :: r) by (by rewrite <- app_assoc).
  replace (Z.of_nat (length (take 127 l)) + 1) with (Z.of_nat (length (take 127 l ++ [10]))) by (rewrite length_app; cbn; lia).
  rewrite arr_write_at, <- app_assoc. cbn [app]. do 3 f_equal.
  change (u8 0) with 0. cbn [drop] in Hd. destruct (128 - length (take 127 l))%nat; [done|]. cbn [replicate drop] in *. rewrite !drop_0 in Hd. by rewrite Hd.
Qed.

Lemma process_enter k l : line_ok k l ->
  wp (process_input ENTER_KEY_P) (fun _ k' => line_entered k' (take 127 l) /\
    edit_frame (vis_term_id (k_disp k)) k k' /\ vis_term_id (k_disp k') = vis_term_id (k_disp k) /\
    k_kbd k' = k_kbd k /\ iflag (k_cpu k') = true) k.
Proof.
  intros (t & s & Hv & Ht & (Hnl & Hkb & Hidx & Hlen & Hbytes) & Hs & Hok & Hfit).
  unfold process_input, get_vis. wp_steps. set (k1 := set_k_cpu (set_iflag false (k_cpu k)) k).
  set (vis := vis_term_id (k_disp k)) in *.
  assert (terminals (k_disp k1) !! Z.to_nat vis = Some t) as Ht1 by exact Ht.
  assert (shows k1 vis s) as Hs1 by exact Hs.
  change (0 <=? ENTER_KEY_P) with true. cbv iota. unfold key_down. wp_steps.
  change (ENTER_KEY_P =? BACKSPACE_P) with false. rewrite Z.eqb_refl. wp_steps.
  destruct (entered_buffer l Hlen) as (l1 & W1 & W2).
  unfold enter_key. wp_steps. eapply wp_get_term; [done|exact Ht1|]. wp_steps. rewrite Hidx.
  rewrite <- (with_term_id vis t k1) by done.
  eapply wp_write_with_term; [done|exact Ht1|rewrite Hkb; exact W1|]. wp_steps.
  eapply wp_write_with_term; [done|exact Ht1|exact W2|]. wp_steps. set (t1 := set_key_buf _ _).
  assert (same_but_line t t1) as S1 by (unfold t1; by destruct t).
  eapply wp_mono; [|eapply (putc_line vis 10 t1 s)].
  - intros [] k2 (t2 & Ht2 & S2 & Hs2 & F2 & Hv2 & Hkb2). wp_steps.
    eapply wp_upd_term; [done|exact Ht2|]. fold (with_term vis (set_key_buf_index 0 t2) k2). wp_steps.
    eapply wp_upd_with_term; [done|exact Ht2|]. wp_steps. set (t3 := set_new_line true _).
    assert (same_but_line t2 t3) as S3 by (unfold t3; by destruct t2).
    pose proof (shows_with_term vis t2 t3 _ k2 Ht2 eq_refl Hs2) as Hs3.
    split_and!; [|..|exact Hv2|exact Hkb2|done].
    + exists t3. eexists. cbn [k_disp set_k_cpu with_term set_k_disp vis_term_id set_terminals]. rewrite Hv2.
      change (vis_term_id (k_disp (with_term vis t1 k1))) with vis.
      split_and!; [done|by eapply with_term_lookup| | |by apply Forall_take|done|done|exact Hs3|].
      * unfold t3. rewrite S2. done.
      * rewrite length_take. lia.
      * rewrite <- (shows_pos k2 vis _ t2) by done. by apply putc_spec_ok.
    + eapply edit_frame_trans; [by eapply edit_frame_cpu|]. fold k1.
      eapply edit_frame_trans; [by eapply edit_frame_store|]. eapply edit_frame_trans; [exact F2|].
      eapply edit_frame_trans; [by eapply edit_frame_store|]. eapply edit_frame_cpu. by eapply with_term_lookup.
  - by eapply with_term_lookup.
  - rewrite (shows_pos k1 vis s t Ht1 Hs1). by apply (shows_with_term vis t t1 s).
  - done.
Qed.

(** ** Properties *)

(** [C16] Typing refines a line editor: from a state in which a line is being edited,
    any sequence of letter, digit, punctuation, shift, caps lock, control and
    backspace keys leaves exactly the edited line in the buffer (never more than
    128 characters), the modifier flags as specified, and changes nothing but the
    visible terminal's line, position, page and ports. *)
Theorem typed_keys_edit_line cs k l : line_ok k l -> plain_keys (k_kbd k) cs = true ->
  exists k', process_inputs cs k = Ret tt k' /\ line_ok k' (keys_spec (k_kbd k) l cs).2 /\
    k_kbd k' = (keys_spec (k_kbd k) l cs).1 /\ edit_frame (vis_term_id (k_disp k)) k k'.
Proof.
  intros Hl Hp. pose proof Hl as (t & s & _ & _ & _ & Hs & _). pose proof (process_plain_keys cs k l s Hl Hs Hp) as W.
  apply wp_ret_iff in W as ([] & k' & E & H1 & H2 & H3 & _). by exists k'.
Qed.

(** What you type is what you see: when the screen is blank from the cursor on
    and has room for a line, then after any sequence of such keys the visible
    terminal shows the edited line from there on, in the current colour, with the
    cursor right behind it; every other cell is as it was. *)
Theorem typed_line_is_shown cs k s : line_ok k [] -> plain_keys (k_kbd k) cs = true ->
  shows k (vis_term_id (k_disp k)) s -> blank_ahead (color (k_disp k)) s ->
  exists k' s', process_inputs cs k = Ret tt k' /\ shows k' (vis_term_id (k_disp k)) s' /\
    line_seen (color (k_disp k)) s (keys_spec (k_kbd k) [] cs).2 s'.
Proof.
  intros Hl Hp Hs Hb. pose proof (process_plain_keys cs k [] s Hl Hs Hp) as W.
  apply wp_ret_iff in W as ([] & k' & E & _ & _ & _ & _ & S). exists k'. eexists. split; [exact E|]. split; [exact S|].
  apply seen_keys; [exact Hb| |cbn; lia|exact Hp]. split; [apply Hb|]. split; [cbn; lia|]. intros o Ho. unfold line_cells.
  cbn [length Z.of_nat]. destruct (_ && _) eqn:B; [|done]. b2p. lia.
Qed.

(** The four key maps agree: on a letter key shift and caps lock both give the
    capital and together the small letter; on any other key caps lock changes
    nothing - except for the minus of the keypad, which caps lock turns into an
    underscore. *)
Theorem keymaps_consistent kb c : 0 <= c < KEY_MAP_SIZE ->
  let plain := key_char (set_l_shift false (set_r_shift false (set_caps_lock false kb))) c in
  let shift := key_char (set_l_shift true (set_caps_lock false kb)) c in
  let caps := key_char (set_l_shift false (set_r_shift false (set_caps_lock true kb))) c in
  let both := key_char (set_l_shift true (set_caps_lock true kb)) c in
  (97 <= plain <= 122 -> shift = plain - 32 /\ caps = plain - 32 /\ both = plain) /\
  (~ (97 <= plain <= 122) -> both = shift /\ (c <> 0x4A -> caps = plain)) /\
  (c = 0x4A -> plain = 45 /\ caps = 95).
Proof.
  intros Hc. unfold key_char, keymap.
  cbn [l_shift r_shift caps_lock set_l_shift set_r_shift set_caps_lock orb andb].
  pose proof (forallb_range (fun c =>
    let m (l : list Z) := default 0 (l !! Z.to_nat c) in
    (if (97 <=? m reg_key_map) && (m reg_key_map <=? 122)
     then (m shift_key_map =? m reg_key_map - 32) && (m caps_key_map =? m reg_key_map - 32) &&
          (m caps_shift_key_map =? m reg_key_map)
     else (m caps_shift_key_map =? m shift_key_map) && ((c =? 0x4A) || (m caps_key_map =? m reg_key_map))) &&
    (negb (c =? 0x4A) || ((m reg_key_map =? 45) && (m caps_key_map =? 95)))) 0 128 c eq_refl ltac:(lia)) as H.
  cbn beta zeta in H. revert H.
  generalize (default 0 (reg_key_map !! Z.to_nat c)), (default 0 (shift_key_map !! Z.to_nat c)),
    (default 0 (caps_key_map !! Z.to_nat c)), (default 0 (caps_shift_key_map !! Z.to_nat c)). intros a b d e H.
  apply andb_true_iff in H as [H G]. cbn zeta.
  destruct (Z.leb_spec 97 a), (Z.leb_spec a 122), (Z.eqb_spec c 0x4A); cbn [andb negb orb] in *; b2p; lia.
Qed.

(** A terminal that is ready for input. *)
Lemma boot_line_ok : line_ok three_terms [].
Proof.
  exists (term_start 0 term_boot), (screen_at three_terms (term_start 0 term_boot)).
  split_and!; [cbn; lia|reflexivity| | | |cbn; lia].
  - split_and!; [reflexivity|reflexivity|reflexivity|cbn; lia|constructor].
  - apply shows_screen_at; [cbn; lia|reflexivity].
  - split; cbn; lia.
Qed.

(** l, s, x, backspace; shift-a. *)
Lemma typed_keys_edit_line_witness : exists k',
  process_inputs [0x26; 0x1F; 0x2D; 0x0E; 0x2A; 0x1E; -86] three_terms = Ret tt k' /\ line_ok k' [108; 115; 65].
Proof.
  destruct (typed_keys_edit_line [0x26; 0x1F; 0x2D; 0x0E; 0x2A; 0x1E; -86] three_terms [])
    as (k' & E & H & _); [apply boot_line_ok|reflexivity|].
  exists k'. split; [exact E|exact H].
Defined.

(** A cleared screen is ready for a line. *)
Lemma cleared_ready : exists k0 s, clear_screen three_terms = Ret tt k0 /\ vis_term_id (k_disp k0) = 0 /\
  color (k_disp k0) = 7 /\ k_kbd k0 = k_kbd three_terms /\ line_ok k0 [] /\ shows k0 0 s /\ blank_ahead 7 s.
Proof.
  pose proof (wp_clear_screen three_terms (term_start 0 term_boot) ltac:(cbn; lia) eq_refl) as W.
  destruct (proj1 (wp_ret_iff _ _ _) W) as ([] & k0 & E & m & io & C & _ & Ek). clear W.
  set (t := set_curs_c 0 (set_curs_r 0 (set_scrn_c 0 (set_scrn_r 0 (term_start 0 term_boot))))) in Ek.
  assert (terminals (k_disp k0) !! Z.to_nat 0 = Some t) as Ht by (rewrite Ek; reflexivity).
  assert (shows k0 0 (screen_at k0 t)) as Hs by (apply shows_screen_at; [lia|exact Ht]).
  assert (vis_term_id (k_disp k0) = 0) as Hv by (rewrite Ek; reflexivity).
  exists k0, (screen_at k0 t). split_and!; [exact E|exact Hv|rewrite Ek; reflexivity|rewrite Ek; reflexivity| |exact Hs|].
  - exists t, (screen_at k0 t). rewrite Hv. split_and!; [lia|exact Ht| |exact Hs|split; cbn; lia|cbn; lia].
    split_and!; [reflexivity|reflexivity|reflexivity|cbn; lia|constructor].
  - split; [split; cbn; lia|]. change (cursor_cell (screen_at k0 t)) with 0. split; [lia|]. intros o Ho. cbn [screen_at s_cells]. change (vid_mem t) with VIDEO_ADDR.
    rewrite Ek. change (k_mem (set_k_mem m _)) with m. change (color (k_disp three_terms)) with 7 in C.
    rewrite (mem_copied_in _ _ _ _ _ (VIDEO_ADDR + o) C ltac:(lia) o ltac:(lia) eq_refl). unfold blank_cell. by case_if.
Qed.

Lemma typed_line_is_shown_witness : exists k0 k' s s', clear_screen three_terms = Ret tt k0 /\
  process_inputs [0x26; 0x1F; 0x2D; 0x0E; 0x2A; 0x1E; -86] k0 = Ret tt k' /\ shows k' 0 s' /\ line_seen 7 s [108; 115; 65] s'.
Proof.
  destruct cleared_ready as (k0 & s & E0 & Hv & Hc & Hk & Hl & Hs & Hb).
  destruct (typed_line_is_shown [0x26; 0x1F; 0x2D; 0x0E; 0x2A; 0x1E; -86] k0 s) as (k' & s' & E & S & L).
  - exact Hl.
  - rewrite Hk. reflexivity.
  - rewrite Hv. exact Hs.
  - rewrite Hc. exact Hb.
  - exists k0, k', s, s'. rewrite Hv in S. rewrite Hc, Hk in L. split; [exact E0|]. split; [exact E|]. split; [exact S|exact L].
Defined.

Lemma keymaps_consistent_witness :
  key_char (set_l_shift true (set_caps_lock false (k_kbd kernel_quiet))) 0x1E = 65.
Proof.
  apply (keymaps_consistent (k_kbd kernel_quiet) 0x1E ltac:(lia)). vm_compute. split; discriminate.
Defined.
