(* ===== verification/Terminal.v ===== *)
(** * The terminal driver (terminal.c)

    stdin and stdout: reading waits for a line on the scheduled terminal, writing
    prints on it. *)

From Stdlib Require Import ZArith Lia String.
From stdpp Require Import gmap list numbers strings.
From S2P Require Import Prelude Memory LibString State Display Pcb FileSystem Vfs MultiTerm Keyboard.

(** ** Definitions *)

Definition get_sched : M Z := gets (fun k => sched_term_id (k_disp k)).

Definition terminal_open (filename : Z -> Z) : M Z :=
  p ← gets (fun k => cur_pcb (k_proc k));
  open_file_desc p (lit "stdin") ;;
  p ← gets (fun k => cur_pcb (k_proc k));
  open_file_desc p (lit "stdout") ;;
  mret SUCCESS.

Definition terminal_close (fd : Z) : M Z := mret FAILURE.

(** !terminals[sched_term_id].new_line *)
Definition no_new_line (k : kernel) : bool :=
  match terminals (k_disp k) !! Z.to_nat (sched_term_id (k_disp k)) with
  | Some t => negb (new_line t)
  | None => true
  end.

(** [irqs]: the interrupts handled during the wait.  memcpy copies [nbytes] bytes
    starting at key_buf, whatever the length of the line. *)
Definition terminal_read (irqs : list (M unit)) (fd buf nbytes : Z) : M Z :=
  wait_while no_new_line irqs ;;
  cli ;;
  sched ← get_sched;
  upd_term sched (set_new_line false) ;;
  buf_size ← strlen_at (key_buf_off sched);
  bs ← bytes_at (key_buf_off sched) (u32 nbytes);
  upd_mem (fun m => blit m buf (arr_at bs) (length bs)) ;;
  add_to_history sched ;;
  clear_buffer ;;
  sti ;;
  mret buf_size.

Definition terminal_write (fd buf nbytes : Z) : M Z :=
  cli ;;
  for_ (Z.to_nat nbytes) (fun i =>
    sched ← get_sched; m ← gets k_mem; putc sched (rd m (buf + i))) ;;
  sti ;;
  mret nbytes.

(** ** The layout of the terminals *)

Definition term_wf (t : term_t) : Prop :=
  length (key_buf t) = 129%nat /\ Forall is_byte (key_buf t) /\
  length (hist_buf t) = 10%nat /\ Forall (fun h => length h = 129%nat /\ Forall is_byte h) (hist_buf t) /\
  0 <= hist_buf_index t <= HIST_COM_NUM.

Definition terms_wf (k : kernel) : Prop :=
  length (terminals (k_disp k)) = 3%nat /\ Forall term_wf (terminals (k_disp k)).

Lemma length_concat_eq {A} n (l : list (list A)) : Forall (fun h => length h = n) l ->
  length (concat l) = (n * length l)%nat.
Proof. induction 1 as [|h l Hh _ IH]; [cbn; lia|]. cbn. rewrite length_app, IH, Hh. lia. Qed.

Lemma length_term_bytes t : term_wf t -> length (term_bytes t) = 1464%nat.
Proof.
  intros (H1 & _ & H3 & H4 & _). unfold term_bytes. rewrite !length_app, H1.
  rewrite (length_concat_eq 129), H3; [done|]. eapply List.Forall_impl; [|exact H4]. by intros h [? _].
Qed.

Lemma drop_terms l i t : Forall term_wf l -> l !! i = Some t ->
  drop (1464 * i) (concat (map term_bytes l)) = term_bytes t ++ concat (map term_bytes (drop (S i) l)).
Proof.
  intros H. revert l H. induction i as [|i IH]; intros [|u l] H Hi; try done; inversion_clear H as [|? ? Hu Hl].
  - cbn in Hi. injection Hi as ->. rewrite Nat.mul_0_r, !drop_0. done.
  - cbn [map concat]. pose proof (length_term_bytes u Hu) as Lu. rewrite drop_app_ge by lia. rewrite Lu.
    replace (1464 * S i - 1464)%nat with (1464 * i)%nat by lia. by rewrite IH.
Qed.

Lemma length_terms l : Forall term_wf l -> length (concat (map term_bytes l)) = (1464 * length l)%nat.
Proof.
  intros H. rewrite (length_concat_eq 1464), length_map; [done|]. apply Forall_map.
  eapply List.Forall_impl; [|exact H]. intros t Ht. by apply length_term_bytes.
Qed.

Lemma drop_key_buf t : length (key_buf t) = 129%nat -> drop 12 (term_bytes t) = key_buf t ++ drop 141 (term_bytes t).
Proof.
  intros H. unfold term_bytes. set (post := [0; 0; 0] ++ _). set (hd := [_; _; _; _; _; _; _; _]).
  rewrite !(app_assoc hd). set (pre := hd ++ le32 _). assert (length pre = 12%nat) as L by reflexivity.
  rewrite !drop_app, L, H, (drop_ge pre 12), (drop_ge pre 141), (drop_ge (key_buf t) (141 - 12)) by lia.
  reflexivity.
Qed.

(** The bytes from key_buf of terminal [i] on. *)
Definition after_key_buf (k : kernel) (i : Z) (t : term_t) : list Z :=
  drop 141 (term_bytes t) ++ concat (map term_bytes (drop (S (Z.to_nat i)) (terminals (k_disp k)))).

(** Every byte of the terminals is a byte. *)
Lemma terms_bytes k : terms_wf k -> Forall is_byte (concat (map term_bytes (terminals (k_disp k)))).
Proof.
  intros [_ Hwf]. apply Forall_concat, Forall_map. eapply List.Forall_impl; [|exact Hwf].
  intros t (_ & B1 & _ & B2 & _).
  assert (forall v, Forall is_byte (le32 v)) as L by (intros v; unfold le32; repeat constructor; apply u8_range).
  assert (Forall is_byte (concat (hist_buf t))) as H.
  { apply Forall_concat. eapply List.Forall_impl; [|exact B2]. by intros h [_ ?]. }
  unfold term_bytes. repeat apply Forall_app_2; try done; repeat constructor; try apply u8_range; cbn; lia.
Qed.

(** Reading from an offset inside of the array. *)
Lemma wp_term_memory k off (Q : list Z -> kernel -> Prop) : terms_wf k -> 0 <= off <= 4392 ->
  (let bs := drop (Z.to_nat off) (concat (map term_bytes (terminals (k_disp k)))) in Forall is_byte bs -> Q bs k) ->
  wp (term_memory off) Q k.
Proof.
  intros Hwf Hoff HQ. unfold term_memory. wp_steps. rewrite length_terms, (proj1 Hwf) by apply Hwf.
  rewrite (proj2 (Z.leb_le _ _)), (proj2 (Z.leb_le _ _)) by lia. cbn [andb]. wp_steps.
  by apply HQ, Forall_drop, terms_bytes.
Qed.

Lemma key_buf_at k i t (Q : list Z -> kernel -> Prop) : terms_wf k -> 0 <= i < MAX_TERM_NUM ->
  terminals (k_disp k) !! Z.to_nat i = Some t ->
  (Forall is_byte (key_buf t ++ after_key_buf k i t) -> Q (key_buf t ++ after_key_buf k i t) k) ->
  wp (term_memory (key_buf_off i)) Q k.
Proof.
  intros Hwf Hi Ht HQ. apply wp_term_memory; [done|unfold key_buf_off; lia|]. cbv zeta. unfold key_buf_off.
  replace (Z.to_nat (1464 * i + 12)) with (1464 * Z.to_nat i + 12)%nat by lia.
  destruct Hwf as [Hlen Hwf]. pose proof (Forall_lookup_1 _ _ _ _ Hwf Ht) as Wt.
  rewrite <- drop_drop, (drop_terms _ _ t) by done.
  pose proof (length_term_bytes t Wt) as L. rewrite drop_app_le by lia.
  by rewrite (drop_key_buf t (proj1 Wt)), <- app_assoc.
Qed.

(** hist_buf[j-1], which for j = 0 starts inside of key_buf. *)
Lemma hist_at k i j (Q : list Z -> kernel -> Prop) : terms_wf k -> 0 <= i < MAX_TERM_NUM -> 0 <= j <= HIST_COM_NUM ->
  (forall bs, Forall is_byte bs -> Q bs k) -> wp (term_memory (hist_off i (u32 (j - 1)))) Q k.
Proof.
  intros Hwf Hi Hj HQ.
  assert (i32 (KEY_BUF_SIZE * u32 (j - 1)) = KEY_BUF_SIZE * (j - 1)) as E.
  { destruct (Z.eq_dec j 0) as [->|]; [reflexivity|]. rewrite u32_small by lia. zlia. }
  apply wp_term_memory; [done|unfold hist_off; rewrite E; lia|]. intros bs. apply HQ.
Qed.

(** ** Reading an entered line *)

(** The buffer of a terminal on which [l] was entered. *)
Definition entered_buf (l : list Z) : list Z := l ++ 10 :: replicate (128 - length l) 0.

Lemma arr_strlen_app l r : Forall (fun b => 0 < b < W8) l -> arr_strlen (l ++ r) = n ← arr_strlen r; Some (Z.of_nat (length l) + n).
Proof.
  induction 1 as [|b l Hb _ IH]; [cbn; by destruct (arr_strlen r)|]. cbn [app arr_strlen].
  rewrite (proj2 (Z.eqb_neq b 0)) by lia. rewrite IH. destruct (arr_strlen r); [|done].
  cbn [mbind option_bind length]. f_equal. lia.
Qed.

Lemma entered_strlen l r : (length l <= 127)%nat -> Forall (fun b => 0 < b < W8) l ->
  arr_strlen (entered_buf l ++ r) = Some (Z.of_nat (length l) + 1).
Proof.
  intros Hl B. unfold entered_buf. rewrite <- app_assoc, arr_strlen_app by done.
  replace (128 - length l)%nat with (S (127 - length l)) by lia. reflexivity.
Qed.

Lemma entered_len l : (length l <= 127)%nat -> length (entered_buf l) = 129%nat.
Proof. intros H. unfold entered_buf. rewrite length_app. cbn [length]. rewrite length_replicate. lia. Qed.

Definition same_but_hist (t t' : term_t) : Prop :=
  t' = set_hist_buf (hist_buf t') (set_hist_buf_index (hist_buf_index t') (set_cur_hist_index (cur_hist_index t') t)).

(** The whole store of [bs] at the beginning of an array. *)
Lemma arr_write_0 l bs : (length bs <= length l)%nat -> arr_write l 0 bs = Some (map u8 bs ++ drop (length bs) l).
Proof.
  intros H. unfold arr_write. rewrite (proj2 (Z.leb_le _ _)), (proj2 (Z.leb_le _ _)) by lia. reflexivity.
Qed.

Lemma add_to_history_frame k t l : terms_wf k -> 0 <= vis_term_id (k_disp k) < MAX_TERM_NUM ->
  terminals (k_disp k) !! Z.to_nat (vis_term_id (k_disp k)) = Some t -> key_buf t = entered_buf l ->
  (length l <= 127)%nat -> Forall (fun b => 0 < b < W8) l ->
  wp (add_to_history (vis_term_id (k_disp k))) (fun _ k' =>
    exists t', k' = with_term (vis_term_id (k_disp k)) t' k /\ term_wf t' /\ same_but_hist t t') k.
Proof.
  intros Hwf Hv Ht Hkb Hl B. set (vis := vis_term_id (k_disp k)) in *.
  assert (term_wf t) as Wt by exact (Forall_lookup_1 _ _ _ _ (proj2 Hwf) Ht).
  pose proof Wt as (W1 & W2 & W3 & W4 & W5).
  unfold add_to_history, get_vis. wp_steps. fold vis. eapply wp_get_term; [lia|exact Ht|]. wp_steps.
  destruct (Z.leb_spec HIST_COM_NUM (hist_buf_index t)) as [Hfull|Hroom].
  { wp_steps. exists t. split_and!; [by rewrite with_term_id|done|by destruct t]. }
  unfold strlen_at. wp_steps. apply (key_buf_at k vis t); [done..|]. intros By. wp_steps.
  eapply wp_lift; [rewrite Hkb; by apply entered_strlen|]. cbv zeta.
  replace (Z.of_nat (length l) + 1 - 1) with (Z.of_nat (length l)) by lia. wp_steps.
  apply (key_buf_at k vis t); [done..|]. intros _. wp_steps. apply hist_at; [done|done|lia|]. intros last Bl.
  wp_steps.
  assert (exists r, wp (if c_true (Z.of_nat (length l)) then
      lift Diverges (strncmp (arr_at last) (arr_at (key_buf t ++ after_key_buf k vis t)) (u32 (Z.of_nat (length l))))
      else mret 0) (fun r' k' => r' = r /\ k' = k) k) as [r Hr].
  { case_if; [|by exists 0]. rewrite u32_small by lia.
    destruct (strncmp_spec (arr_at last) (arr_at (key_buf t ++ after_key_buf k vis t)) (Z.of_nat (length l)))
      as (r & -> & _); [by apply arr_at_bytes..|lia|]. exists r. done. }
  eapply wp_mono; [|exact Hr]. intros r' k' [-> ->]. cbn beta. wp_steps.
  assert (forall t', term_wf t' -> same_but_hist t t' ->
    wp (upd_term vis (fun t => set_cur_hist_index (hist_buf_index t) t)) (fun _ k' =>
      exists t', k' = with_term vis t' k /\ term_wf t' /\ same_but_hist t t') (with_term vis t' k)) as Fin.
  { intros t' Wt' St'. eapply wp_upd_with_term; [lia|exact Ht|]. eexists. split_and!; [reflexivity|exact Wt'|].
    rewrite St'. by destruct t. }
  case_if; [|wp_steps; specialize (Fin t Wt ltac:(by destruct t)); by rewrite with_term_id in Fin].
  destruct (lookup_lt_is_Some_2 (hist_buf t) (Z.to_nat (hist_buf_index t))) as [old Hold]; [lia|].
  destruct (Forall_lookup_1 _ _ _ _ W4 Hold) as [Lo Bo].
  assert (take (length l) (key_buf t ++ after_key_buf k vis t) = l) as Etake.
  { rewrite Hkb. unfold entered_buf. rewrite <- app_assoc. apply take_app_length. }
  wp_steps. eapply wp_lift; [exact Hold|]. wp_steps. eapply wp_lift.
  { rewrite (proj2 (Z.leb_le _ _)) by lia. rewrite Nat2Z.id, Etake. apply arr_write_0. lia. }
  eapply wp_upd_term; [lia|exact Ht|]. refine (Fin _ _ _); [|by destruct t].
  rewrite u32_small by lia. unfold term_wf. cbn [key_buf hist_buf hist_buf_index set_hist_buf_index set_hist_buf].
  split_and!; [done|done|by rewrite length_insert| |lia..]. apply Forall_insert; [done|]. split.
  - rewrite length_app, length_map, length_drop. lia.
  - apply Forall_app_2; [|by apply Forall_drop]. apply Forall_map, Forall_true. intros; apply u8_range.
Qed.

Lemma wp_write_key_buf i j bs t l k (Q : unit -> kernel -> Prop) : 0 <= i ->
  terminals (k_disp k) !! Z.to_nat i = Some t -> arr_write (key_buf t) j bs = Some l ->
  Q tt (with_term i (set_key_buf l t) k) -> wp (write_key_buf i j bs) Q k.
Proof.
  intros Hi Ht Hl HQ. rewrite <- (with_term_id i t k) by done. by eapply wp_write_with_term.
Qed.

Lemma map_u8_zeros n : map u8 (replicate n 0) = replicate n 0.
Proof. induction n as [|n IH]; [done|]. cbn [replicate map]. by rewrite IH. Qed.

Lemma clear_entered k t l : terms_wf k -> 0 <= vis_term_id (k_disp k) < MAX_TERM_NUM ->
  terminals (k_disp k) !! Z.to_nat (vis_term_id (k_disp k)) = Some t -> key_buf t = entered_buf l ->
  (length l <= 127)%nat -> Forall (fun b => 0 < b < W8) l ->
  wp clear_buffer (fun _ k' =>
    k' = with_term (vis_term_id (k_disp k)) (set_key_buf_index 0 (set_key_buf (replicate 129 0) t)) k) k.
Proof.
  intros Hwf Hv Ht Hkb Hl B. set (vis := vis_term_id (k_disp k)) in *.
  unfold clear_buffer, get_vis, strlen_at. wp_steps. fold vis.
  apply (key_buf_at k vis t); [done..|]. intros _. eapply wp_lift; [rewrite Hkb; by apply entered_strlen|]. wp_steps.
  assert (arr_write (key_buf t) 0 (replicate (Z.to_nat (Z.of_nat (length l) + 1)) 0) = Some (replicate 129 0)) as W.
  { rewrite arr_write_0 by (rewrite length_replicate, Hkb, entered_len by done; lia). f_equal.
    replace (Z.to_nat (Z.of_nat (length l) + 1)) with (S (length l)) by lia.
    rewrite length_replicate, Hkb. unfold entered_buf.
    rewrite drop_app_ge by lia. replace (S (length l) - length l)%nat with 1%nat by lia. cbn [drop].
    rewrite drop_0, map_u8_zeros, <- replicate_add. f_equal. lia. }
  eapply wp_write_key_buf; [lia|exact Ht|exact W|]. wp_steps. eapply wp_upd_with_term; [lia|exact Ht|done].
Qed.

(** A line that has been typed and entered, in the state the reader finds. *)
Definition entered (k k' : kernel) (kb : kbd_t) (l : list Z) : Prop :=
  line_entered k' l /\ k_kbd k' = kb /\ edit_frame (vis_term_id (k_disp k)) k k' /\
  vis_term_id (k_disp k') = vis_term_id (k_disp k) /\ iflag (k_cpu k') = true.

Lemma edit_frame_sched i k k' : edit_frame i k k' -> sched_term_id (k_disp k') = sched_term_id (k_disp k).
Proof. by intros (t & t' & m' & io' & fl & kb & _ & _ & _ & ->). Qed.

(** The saved flag is restored after a handler. *)
Lemma wp_interrupt h (Q : unit -> kernel -> Prop) k : iflag (k_cpu k) = true ->
  wp h (fun _ k' => Q tt (set_k_cpu (set_iflag true (k_cpu k')) k')) (set_k_cpu (set_iflag false (k_cpu k)) k) ->
  wp (interrupt h) Q k.
Proof.
  intros F W. unfold interrupt. wp_steps. rewrite F. eapply wp_mono; [|exact W]. intros [] k' H. exact H.
Qed.

Lemma edit_frame_after_interrupt i t k k' : terminals (k_disp k) !! Z.to_nat i = Some t ->
  edit_frame i (set_k_cpu (set_iflag false (k_cpu k)) k) k' ->
  edit_frame i k (set_k_cpu (set_iflag true (k_cpu k')) k').
Proof.
  intros Ht F. eapply edit_frame_trans; [by eapply edit_frame_cpu|]. eapply edit_frame_trans; [exact F|].
  destruct F as (t0 & t' & m' & io' & fl & kb & H0 & _ & _ & ->).
  apply (edit_frame_cpu i t'). cbn. apply list_lookup_insert_eq. by eapply lookup_lt_Some.
Qed.

Lemma wait_typing cs k l : line_ok k l -> sched_term_id (k_disp k) = vis_term_id (k_disp k) ->
  iflag (k_cpu k) = true -> plain_keys (k_kbd k) cs = true ->
  wp (wait_while no_new_line (map process_input (cs ++ [ENTER_KEY_P])))
     (fun _ k' => entered k k' (keys_spec (k_kbd k) l cs).1 (take 127 (keys_spec (k_kbd k) l cs).2)) k.
Proof.
  revert k l. induction cs as [|c cs IH]; intros k l Hl Hs Hf Hp;
    pose proof Hl as (t & s & Hv & Ht & (Hnl & _) & Hsh & _);
    assert (no_new_line k = true) as Hw by (unfold no_new_line; by rewrite Hs, Ht, Hnl);
    cbn [map app]; apply wp_wait_step; [done|done| |done|done|].
  - apply wp_bind, wp_interrupt; [done|].
    eapply wp_mono; [|apply (process_enter (set_k_cpu (set_iflag false (k_cpu k)) k) l Hl)].
    intros [] k' (E & F & V & K & _). set (k2 := set_k_cpu (set_iflag true (k_cpu k')) k').
    assert (entered k k2 (k_kbd k) (take 127 l)) as R.
    { split_and!; [exact E|exact K|by eapply edit_frame_after_interrupt|exact V|reflexivity]. }
    apply wp_wait_done; [|exact R].
    destruct E as (t' & s' & _ & Ht' & _ & _ & _ & _ & Hn & _). unfold no_new_line.
    change (k_disp k2) with (k_disp k'). rewrite (edit_frame_sched _ _ _ F).
    change (sched_term_id (k_disp (set_k_cpu (set_iflag false (k_cpu k)) k))) with (sched_term_id (k_disp k)).
    rewrite Hs. change (vis_term_id (k_disp k)) with (vis_term_id (k_disp (set_k_cpu (set_iflag false (k_cpu k)) k))).
    by rewrite <- V, Ht', Hn.
  - cbn [plain_keys] in Hp. apply andb_true_iff in Hp as [Hp Hps]. apply andb_true_iff in Hp as [Hp Hc]. b2p.
    apply wp_bind, wp_interrupt; [done|].
    eapply wp_mono; [|eapply (process_plain_key (set_k_cpu (set_iflag false (k_cpu k)) k) l c); [exact Hl|exact Hsh|lia|done]].
    intros [] k' (H1 & H2 & H3 & H4 & _). set (k2 := set_k_cpu (set_iflag true (k_cpu k')) k').
    pose proof (edit_frame_after_interrupt _ t k k' Ht H3) as F2. fold k2 in F2.
    change (k_kbd (set_k_cpu (set_iflag false (k_cpu k)) k)) with (k_kbd k) in *.
    eapply wp_mono; [|apply (IH k2 (line_spec (k_kbd k) l c)); [exact H1| |done|]].
    + intros [] k3 (E & K & F & V & Fl). change (k_kbd k2) with (k_kbd k') in E, K. rewrite H2 in E, K.
      split_and!; [exact E|exact K| |by rewrite V|done]. eapply edit_frame_trans; [exact F2|].
      change (vis_term_id (k_disp k2)) with (vis_term_id (k_disp k')) in F. by rewrite H4 in F.
    + rewrite (edit_frame_sched _ _ _ F2), Hs. by symmetry.
    + change (k_kbd k2) with (k_kbd k'). by rewrite H2.
Qed.

Lemma terms_wf_with_term k i t : terms_wf k -> term_wf t -> terms_wf (with_term i t k).
Proof.
  intros [H1 H2] Ht. split; cbn [with_term k_disp set_k_disp terminals set_terminals].
  - by rewrite length_insert.
  - by apply Forall_insert.
Qed.

Lemma after_key_buf_length k i t : terms_wf k -> 0 <= i < MAX_TERM_NUM ->
  terminals (k_disp k) !! Z.to_nat i = Some t ->
  Z.of_nat (length (key_buf t ++ after_key_buf k i t)) = 1464 * (3 - i) - 12.
Proof.
  intros [Hlen Hwf] Hi Ht. pose proof (Forall_lookup_1 _ _ _ _ Hwf Ht) as Wt.
  unfold after_key_buf. rewrite !length_app, length_drop, (length_term_bytes t), length_terms, length_drop, Hlen, (proj1 Wt)
    by (done || by apply Forall_drop). lia.
Qed.

(** The user's buffer lies above the page of terminal [t]. *)
Definition buffer_above (t : term_t) (buf nbytes : Z) : Prop :=
  0 <= vid_mem t /\ vid_mem t + PAGE_BYTES <= buf /\ 0 <= nbytes /\ buf + nbytes <= W32.

(** What a reader of the entered line [l] gets, and the terminal it leaves; the only
    other change is the buffer. *)
Definition line_read (l : list Z) (buf nbytes : Z) (k k' : kernel) : Prop :=
  (forall i, 0 <= i <= Z.of_nat (length l) -> rd (k_mem k') (buf + i) = arr_at (l ++ [10]) i) /\
  (exists t t' m' g, terminals (k_disp k) !! Z.to_nat (vis_term_id (k_disp k)) = Some t /\ (vid_mem t' = vid_mem t /\ cur_task t' = cur_task t) /\
     mem_copied (k_mem k) m' buf g nbytes /\
     k' = set_k_cpu (set_iflag true (k_cpu k)) (set_k_mem m' (with_term (vis_term_id (k_disp k)) t' k))) /\
  line_ok k' [] /\ terms_wf k'.

Lemma read_entered irqs fd buf nbytes l t k :
  terms_wf k -> 0 <= vis_term_id (k_disp k) < MAX_TERM_NUM -> sched_term_id (k_disp k) = vis_term_id (k_disp k) ->
  line_entered k l -> terminals (k_disp k) !! Z.to_nat (vis_term_id (k_disp k)) = Some t ->
  Z.of_nat (length l) + 1 <= nbytes <= 1464 * (3 - vis_term_id (k_disp k)) - 12 -> buffer_above t buf nbytes ->
  wp (terminal_read irqs fd buf nbytes) (fun r k' =>
    r = Z.of_nat (length l) + 1 /\ line_read l buf nbytes k k') k.
Proof.
  intros Hwf Hv Hsv (t' & s & _ & Ht' & Hkb & Hl & Bl & Hidx & Hnl & Hs & Hok) Ht Hn Hbuf.
  rewrite Ht in Ht'. apply (inj Some) in Ht'. subst t'. set (vis := vis_term_id (k_disp k)) in *.
  unfold terminal_read, get_sched. wp_steps. apply wp_wait_done; [unfold no_new_line; by rewrite Hsv, Ht, Hnl|]. wp_steps.
  set (k1 := set_k_cpu (set_iflag false (k_cpu k)) k). change (sched_term_id (k_disp k1)) with (sched_term_id (k_disp k)).
  rewrite Hsv. eapply wp_upd_term; [lia|exact Ht|]. fold (with_term vis (set_new_line false t) k1). wp_steps.
  set (t1 := set_new_line false t). set (k2 := with_term vis t1 k1).
  assert (term_wf t1) as Wt1 by exact (Forall_lookup_1 _ _ _ _ (proj2 Hwf) Ht).
  assert (terms_wf k2) as Hwf2 by (by apply terms_wf_with_term).
  assert (terminals (k_disp k2) !! Z.to_nat vis = Some t1) as Ht2 by (by eapply with_term_lookup).
  assert (key_buf t1 = entered_buf l) as Hkb1 by exact Hkb.
  unfold strlen_at. wp_steps. apply (key_buf_at k2 vis t1); [done..|]. intros By.
  eapply wp_lift; [rewrite Hkb1; by apply entered_strlen|]. unfold bytes_at. wp_steps.
  apply (key_buf_at k2 vis t1); [done..|]. intros _. rewrite u32_small by lia.
  rewrite after_key_buf_length, (proj2 (Z.leb_le 0 nbytes)), (proj2 (Z.leb_le nbytes _)) by (done || lia). cbn [andb]. wp_steps.
  pose proof (after_key_buf_length k2 vis t1 Hwf2 Hv Ht2) as Hlen.
  set (src := key_buf t1 ++ after_key_buf k2 vis t1) in *.
  set (k3 := set_k_mem _ k2).
  eapply wp_mono; [|exact (add_to_history_frame k3 t1 l Hwf2 Hv Ht2 Hkb1 Hl Bl)].
  intros [] k4 (t4 & -> & Wt4 & S4). change (vis_term_id (k_disp k3)) with vis. wp_steps.
  assert (terminals (k_disp (with_term vis t4 k3)) !! Z.to_nat vis = Some t4) as Ht4 by (by eapply with_term_lookup).
  eapply wp_mono; [|apply (clear_entered (with_term vis t4 k3) t4 l); [|exact Hv|exact Ht4| |done|done]].
  2: { by apply terms_wf_with_term. }
  2: { rewrite S4. exact Hkb. }
  intros [] k5 ->. wp_steps. split; [done|]. cbn beta.
  change (vis_term_id (k_disp (with_term vis t4 k3))) with vis. rewrite with_term_twice.
  set (t5 := set_key_buf_index 0 _).
  assert (mem_copied (k_mem k) (k_mem k3) buf (arr_at (take (Z.to_nat nbytes) src)) nbytes) as Mc.
  { change (k_mem k3) with (blit (k_mem k) buf (arr_at (take (Z.to_nat nbytes) src)) (length (take (Z.to_nat nbytes) src))).
    replace (length (take (Z.to_nat nbytes) src)) with (Z.to_nat nbytes) by (rewrite length_take; lia).
    apply blit_copied. destruct Hbuf. lia. }
  destruct Hbuf as (B1 & B2 & B3 & B4).
  split_and!.
  - intros i Hi. change (rd (k_mem k3) (buf + i) = arr_at (l ++ [10]) i).
    rewrite (mem_copied_in _ _ _ _ _ (buf + i) Mc ltac:(lia) i) by (lia || done). unfold arr_at.
    rewrite lookup_take_lt by lia. unfold src. rewrite Hkb1. unfold entered_buf.
    rewrite <- app_assoc. cbn [app]. rewrite (cons_middle 10 l), app_assoc, lookup_app_l by (rewrite length_app; cbn; lia).
    apply u8_small. apply (arr_at_bytes (l ++ [10])). apply Forall_app_2; [|repeat constructor; cbn; lia].
    eapply List.Forall_impl; [|exact Bl]. intros b Hb. cbn beta in Hb. unfold is_byte. lia.
  - exists t, t5, (k_mem k3), (arr_at (take (Z.to_nat nbytes) src)). split_and!; [exact Ht|unfold t5; by rewrite S4|unfold t5; by rewrite S4|exact Mc|].
    fold vis. rewrite <- (with_term_twice vis t5 t1 k). reflexivity.
  - exists t5, s. change (vis_term_id (k_disp (set_k_cpu _ _))) with vis.
    split_and!; [lia|by eapply with_term_lookup| | |done|cbn [length]; destruct Hok; lia].
    + split_and!; [by unfold t5; rewrite S4|done|done|cbn; lia|constructor].
    + destruct Hs as (t0 & Hv0 & Ht0 & Hr & Hc & Hcells). rewrite Ht in Ht0. apply (inj Some) in Ht0. subst t0.
      exists t5. split_and!; [done|by eapply with_term_lookup|by unfold t5; rewrite S4|by unfold t5; rewrite S4|].
      intros o Ho. replace (vid_mem t5) with (vid_mem t) by (unfold t5; by rewrite S4).
      change (rd (k_mem k3) (vid_mem t + o) = s_cells s o).
      rewrite (mem_copied_rd _ _ _ _ _ (vid_mem t + o) Mc) by lia. by apply Hcells.
  - apply (terms_wf_with_term k3); [exact Hwf2|]. destruct Wt4 as (W1 & W2 & W3). split_and!; [done| |apply W3..].
    apply Forall_replicate. unfold is_byte; lia.
Qed.

(** Typing on a terminal keeps the terminals well-formed. *)
Lemma entered_wf k k' kb l : terms_wf k -> entered k k' kb l -> terms_wf k'.
Proof.
  intros Hwf ((t' & s & _ & Ht' & Hkb & Hl & Bl & _) & _ & F & V & _). rewrite V in Ht'.
  destruct F as (t & t2 & m' & io' & fl & kb2 & Ht & S & _ & ->).
  cbn [k_disp set_k_mem set_k_io set_k_cpu set_k_kbd] in Ht'.
  rewrite (with_term_lookup _ t2 t) in Ht' by done. apply (inj Some) in Ht'. subst t2.
  change (terms_wf (with_term (vis_term_id (k_disp k)) t' k)). apply terms_wf_with_term; [done|].
  destruct (Forall_lookup_1 _ _ _ _ (proj2 Hwf) Ht) as (_ & _ & W). unfold term_wf. rewrite Hkb.
  split_and!; [by apply entered_len| |rewrite S; apply W..].
  apply Forall_app_2; [|apply Forall_cons_2; [unfold is_byte; lia|apply Forall_replicate; unfold is_byte; lia]].
  eapply List.Forall_impl; [|exact Bl]. intros b Hb. cbn beta in Hb. unfold is_byte. lia.
Qed.

(** The loop of terminal_write: the characters of a buffer that is not on the page. *)
Definition print_buffer (buf : Z) (n : nat) : M unit :=
  for_ n (fun i => sched ← get_sched; m ← gets k_mem; putc sched (rd m (buf + i))).

Lemma wp_print_buffer buf n k t s :
  let sched := sched_term_id (k_disp k) in
  shows k sched s -> pos_ok s -> terminals (k_disp k) !! Z.to_nat sched = Some t -> buffer_above t buf (Z.of_nat n) ->
  wp (print_buffer buf n) (fun _ k' =>
    shows k' sched (text_spec (color (k_disp k)) (chars (at_ (k_mem k) buf) (Z.of_nat n)) s) /\ out_frame sched k k') k.
Proof.
  intros sched Hs Hok Ht (B1 & B2 & B3 & B4).
  apply (wp_for _ _ (fun i k' => shows k' sched (text_spec (color (k_disp k)) (chars (at_ (k_mem k) buf) i) s) /\ out_frame sched k k')).
  - intros i k' Hi [Hs' F]. unfold get_sched. wp_steps.
    pose proof F as (t1 & t2 & m' & io' & Hi0 & Ht1 & S & D & IO & Ek).
    replace (sched_term_id (k_disp k')) with sched by (by rewrite Ek).
    replace (rd (k_mem k') (buf + i)) with (at_ (k_mem k) buf i).
    + eapply wp_mono; [|eapply outs_putc; [by apply (text_spec_ok (color (k_disp k)))|exact Hs'|by apply (out_frame_color _ _ _ F)]].
      intros [] k2 [Hs2 F2]. split; [by rewrite text_spec_snoc by lia|by eapply out_frame_trans].
    + rewrite Ek. change (rd (k_mem k) (buf + i) = rd m' (buf + i)). symmetry. apply D.
      rewrite Ht in Ht1. apply (inj Some) in Ht1. subst t1. rewrite u32_small; lia.
  - split; [exact Hs|]. by eapply out_frame_refl.
Qed.

Lemma terminal_write_ok fd buf nbytes k t s :
  let sched := sched_term_id (k_disp k) in
  shows k sched s -> pos_ok s -> terminals (k_disp k) !! Z.to_nat sched = Some t -> buffer_above t buf nbytes ->
  exists k', terminal_write fd buf nbytes k = Ret nbytes k' /\
    shows k' sched (text_spec (color (k_disp k)) (chars (at_ (k_mem k) buf) nbytes) s) /\
    out_frame sched (set_k_cpu (set_iflag true (k_cpu k)) k) k'.
Proof.
  intros sched Hs Hok Ht Hb. pose proof Hb as (_ & _ & B2 & _).
  assert (wp (terminal_write fd buf nbytes) (fun r k' => r = nbytes /\
    shows k' sched (text_spec (color (k_disp k)) (chars (at_ (k_mem k) buf) nbytes) s) /\
    out_frame sched (set_k_cpu (set_iflag true (k_cpu k)) k) k') k) as W.
  { unfold terminal_write. wp_steps. set (k1 := set_k_cpu (set_iflag false (k_cpu k)) k).
    eapply wp_mono; [|refine (wp_print_buffer buf (Z.to_nat nbytes) k1 t s Hs Hok Ht _); rewrite Z2Nat.id by lia; exact Hb].
    rewrite Z2Nat.id by lia. intros [] k' [Hs' F]. wp_steps. split_and!; [done|exact Hs'|].
    destruct F as (t1 & t2 & m' & io' & Hi & Ht1 & S & D & IO & ->). exists t1, t2, m', io'. split_and!; done. }
  apply wp_ret_iff in W as (r & k' & E & -> & H1 & H2). by exists k'.
Qed.

(** Typing and reading a line. *)
Lemma typed_read_ok cs fd buf nbytes k t :
  let vis := vis_term_id (k_disp k) in
  let line := take 127 (keys_spec (k_kbd k) [] cs).2 in
  terms_wf k -> 0 <= vis < MAX_TERM_NUM -> sched_term_id (k_disp k) = vis -> iflag (k_cpu k) = true ->
  line_ok k [] -> terminals (k_disp k) !! Z.to_nat vis = Some t -> plain_keys (k_kbd k) cs = true ->
  Z.of_nat (length line) + 1 <= nbytes <= 1464 * (3 - vis) - 12 -> buffer_above t buf nbytes ->
  wp (terminal_read (map process_input (cs ++ [ENTER_KEY_P])) fd buf nbytes) (fun r k' => r = Z.of_nat (length line) + 1 /\
    exists k1, entered k k1 (keys_spec (k_kbd k) [] cs).1 line /\ line_read line buf nbytes k1 k') k.
Proof.
  intros vis line Hwf Hv Hs Hf Hl Ht Hp Hn Hbuf.
  apply wp_bind. eapply wp_mono; [|exact (wait_typing cs k [] Hl Hs Hf Hp)]. intros [] k1 Ent.
  pose proof (entered_wf k k1 _ _ Hwf Ent) as Hwf1. pose proof Ent as (E & _ & F & V & _).
  pose proof (edit_frame_sched _ _ _ F) as Hs1.
  pose proof F as (t0 & t1 & m1 & io1 & fl & kb & Ht0 & S & _ & Ek1). fold vis in Ht0. rewrite Ht in Ht0. apply (inj Some) in Ht0. subst t0.
  assert (terminals (k_disp k1) !! Z.to_nat (vis_term_id (k_disp k1)) = Some t1) as Ht1.
  { rewrite V, Ek1. exact (with_term_lookup vis t1 t k Ht). }
  pose proof (read_entered [] fd buf nbytes line t1 k1 Hwf1) as R. rewrite V in R, Ht1. rewrite Hs1 in R.
  specialize (R Hv Hs E Ht1 Hn). unfold buffer_above in R. rewrite (same_but_line_vid t t1 S) in R.
  specialize (R Hbuf). unfold terminal_read in R.
  assert (no_new_line k1 = false) as Nn.
  { destruct E as (t' & s' & _ & Ht' & _ & _ & _ & _ & Hnl & _). rewrite V in Ht'. unfold no_new_line. rewrite Hs1, Hs. unfold vis. by rewrite Ht', Hnl. }
  unfold wp at 1 in R. unfold mbind at 1, M_bind at 1 in R. cbn [wait_while] in R. rewrite Nn in R.
  eapply wp_mono; [|exact R]. intros r k' [-> L]. split; [done|]. by exists k1.
Qed.

(** ** Properties *)

(** [C14] A typed line is what is read: a reader of the terminal that is visible and
    scheduled waits while keys arrive, and returns once ENTER does, with the
    edited line (its first 127 characters) and the newline in its buffer and their
    number as the result; the line buffer is empty again and ready for the next line. *)
Theorem typed_line_is_read cs fd buf nbytes k t :
  let vis := vis_term_id (k_disp k) in
  let line := take 127 (keys_spec (k_kbd k) [] cs).2 in
  terms_wf k -> 0 <= vis < MAX_TERM_NUM -> sched_term_id (k_disp k) = vis -> iflag (k_cpu k) = true ->
  line_ok k [] -> terminals (k_disp k) !! Z.to_nat vis = Some t -> plain_keys (k_kbd k) cs = true ->
  Z.of_nat (length line) + 1 <= nbytes <= 1464 * (3 - vis) - 12 -> buffer_above t buf nbytes ->
  exists k', terminal_read (map process_input (cs ++ [ENTER_KEY_P])) fd buf nbytes k =
      Ret (Z.of_nat (length line) + 1) k' /\
    (forall i, 0 <= i <= Z.of_nat (length line) -> rd (k_mem k') (buf + i) = arr_at (line ++ [10]) i) /\
    line_ok k' [] /\ terms_wf k' /\ iflag (k_cpu k') = true.
Proof.
  intros vis line Hwf Hv Hs Hf Hl Ht Hp Hn Hbuf. pose proof (typed_read_ok cs fd buf nbytes k t Hwf Hv Hs Hf Hl Ht Hp Hn Hbuf) as W.
  apply wp_ret_iff in W as (r & k' & E & -> & k1 & _ & L1 & (t1 & t2 & m' & g & _ & _ & _ & ->) & L3 & L4). by eexists.
Qed.

(** Terminal 0 of the machine with three terminals, interrupts on. *)
Definition three_terms_on : kernel := set_k_cpu (set_iflag true (k_cpu three_terms)) three_terms.

Lemma term_start_wf i : term_wf (term_start i term_boot).
Proof.
  assert (Forall is_byte (replicate 129 0)) as Z by (apply Forall_replicate; unfold is_byte; lia).
  split_and!; [reflexivity|exact Z|reflexivity| |cbn; lia..].
  exact (Forall_replicate _ 10 _ (conj (length_replicate 129 0) Z)).
Qed.

Lemma three_terms_wf : terms_wf three_terms_on.
Proof. split; [reflexivity|]. repeat (apply Forall_cons_2; [apply term_start_wf|]). apply Forall_nil_2. Qed.

(** l, s, ENTER. *)
Lemma typed_line_is_read_witness : exists k',
  terminal_read (map process_input [0x26; 0x1F; 0x1C]) 0 0x8000000 128 three_terms_on = Ret 3 k' /\
  rd (k_mem k') 0x8000001 = 115 /\ rd (k_mem k') 0x8000002 = 10.
Proof.
  destruct (typed_line_is_read [0x26; 0x1F] 0 0x8000000 128 three_terms_on (term_start 0 term_boot))
    as (k' & E & H & _).
  - apply three_terms_wf.
  - cbn; lia.
  - reflexivity.
  - reflexivity.
  - exact boot_line_ok.
  - reflexivity.
  - reflexivity.
  - vm_compute. split; discriminate.
  - split_and!; vm_compute; congruence.
  - exists k'. split; [exact E|]. split; [apply (H 1)|apply (H 2)]; vm_compute; split; discriminate.
Defined.

