(* ===== verification/Syscalls.v ===== *)
(** * The system calls (syscalls.c, _syscall of idt_handle_wrap.S)

    halt and execute leave their caller: their result says how the machine goes
    on ([control]).  Memory is physical; a pointer of a user program is translated
    by the page tables ([user_ptr]), and its buffer lies inside one page. *)

From Stdlib Require Import ZArith Lia String.
From stdpp Require Import gmap list numbers strings.
From S2P Require Import Prelude Memory LibString State Display Printf Paging Pcb Rtc FileSystem Vfs Keyboard Terminal.

Abbreviation FILE_H_SIZE := 30.
Abbreviation PROGRAM_1_PHYS := 0x800000.
Abbreviation PROGRAM_VIRT := 0x8000000.
Abbreviation PROGRAM_VIRT_OFF := 0x48000.
Abbreviation CMD_BUF_SIZE := 32.

(** ** Definitions *)

(** [Back r]: the call returns [r] to the program that is now current;
    [User eip sp]: iret to user mode. *)
Inductive control := Back (r : Z) | User (eip sp : Z).

(** Where the local arrays of sys_execute are, on the kernel stack. *)
Record frame := mk_frame { cmd : Z; file_data : Z }.

(** The physical address behind a user pointer; an unmapped one faults. *)
Definition user_ptr (virt : Z) : M Z :=
  k ← gets id;
  let phys := resolve_virt_addr (k_mem k) (cr3 (k_cpu k)) virt in
  if phys =? 0 then fault_ PageFault else mret phys.

Definition flush_tlb : M unit := upd_cpu (fun c => set_cr3 (cr3 c) c).

(** *** execute *)

Definition skip_spaces (command : Z -> Z) (i : Z) : option Z :=
  run_loop (fun i => if (command i =? 32) && negb (command i =? 0) then inl (u32 (i + 1)) else inr i) i.

(** The name: at most 32 characters up to a space, and a NUL. *)
Definition copy_cmd (command : Z -> Z) (cmd : Z) (m : memory) (i : Z) : option (memory * Z) :=
  run_loop (fun '(m, i, j) =>
    if negb (command i =? 32) && negb (command i =? 0) && (j <? CMD_BUF_SIZE)
    then inl (wr m (cmd + j) (command i), u32 (i + 1), u32 (j + 1))
    else inr (wr m (cmd + j) 0, i)) (m, i, 0).

(** The argument: the rest of the command and a NUL, into the block's array. *)
Definition copy_arg (command : Z -> Z) (arg : list Z) (i : Z) : option (option (list Z)) :=
  run_loop (fun '(arg, i, j) =>
    if negb (command i =? 0) then
      match arr_write arg j [command i] with
      | Some arg => inl (arg, u32 (i + 1), u32 (j + 1))
      | None => inr None
      end
    else inr (arr_write arg j [0])) (arg, i, 0).

(** "Create PCB" and "Store arg in PCB" *)
Definition exec_pcb (f : frame) (command : Z -> Z) (i : Z) : M Z :=
  new_pcb ← init_pcb;
  upd_pcb new_pcb (set_cmd_name (replicate 33 0)) ;;
  m ← gets k_mem;
  upd_pcb new_pcb (set_cmd_name (map (fun i => rd m (cmd f + i)) (seqZ 0 33))) ;;
  i ← lift Diverges (skip_spaces command i);
  b ← get_pcb new_pcb;
  o ← lift Diverges (copy_arg command (arg b) i);
  a ← lift OutOfBounds o;
  upd_pcb new_pcb (set_arg a) ;;
  mret new_pcb.

(** "Set up paging" and the fields of the block *)
Definition exec_map (new_pcb : Z) : M unit :=
  b ← get_pcb new_pcb;
  upd_pcb new_pcb (set_page_addr (u32 (PROGRAM_1_PHYS + pcb_num b * FOUR_MB))) ;;
  b ← get_pcb new_pcb;
  map_page (page_addr b) PROGRAM_VIRT true true true true ;;
  flush_tlb ;;
  upd_pcb new_pcb (set_parent_task 0) ;;
  n ← gets (fun k => numproc (k_proc k));
  upd_proc (set_numproc (u32 (n + 1))) ;;
  upd_pcb new_pcb (set_pid n) ;;
  upd_pcb new_pcb (set_fd_status 3) ;;
  let esp0 := u32 (END_OF_KERNEL_PAGE - pcb_num b * PCB_PLUS_STACK - 4) in
  upd_cpu (set_tss_esp0 esp0) ;;
  upd_pcb new_pcb (set_esp0 esp0).

(** "Prepare for context switch" *)
Definition exec_switch (new_pcb : Z) : M unit :=
  shell ← gets (fun k => starting_new_shell (k_proc k));
  (if negb shell then
     vis ← get_vis;
     t ← get_term vis;
     upd_pcb new_pcb (set_parent_task (cur_task t)) ;;
     upd_pcb new_pcb (set_term_num vis) ;;
     c ← gets k_cpu;
     b ← get_pcb new_pcb;
     upd_pcb (parent_task b) (set_ebp (reg_ebp c)) ;;
     upd_pcb (parent_task b) (set_esp (reg_esp c)) ;;
     upd_term vis (set_cur_task new_pcb)
   else
     sched ← get_sched;
     upd_term sched (set_cur_task new_pcb) ;;
     upd_pcb new_pcb (set_term_num sched)) ;;
  upd_proc (set_cur_pcb new_pcb) ;;
  terminal_open (fun _ => 0) ;; skip.

(** "Load file into memory" and the iret *)
Definition exec_load (f : frame) (d : dentry_t) : M control :=
  m ← gets k_mem;
  fs ← gets fs_addr;
  let entry := rd32 m (file_data f + 4 * 6) in
  image ← user_ptr (PROGRAM_VIRT + PROGRAM_VIRT_OFF);
  '(m, _) ← lift Diverges (read_data m fs (inode_num d) 0 image (rd32 m (inode_addr fs (inode_num d))));
  upd_mem (fun _ => m) ;;
  upd_cpu (set_iflag true) ;;
  mret (User entry (PROGRAM_VIRT + FOUR_MB - 0x4)).

Definition elf_magic : Z -> Z := arr_at [127; 69; 76; 70; 0].
Definition tasks_message : Z -> Z := arr_at (bytes_of_string "Only %d tasks are currently supported" ++ [10; 0]).

(** From "Check file validity" on; the name is in [cmd], [i] is behind it. *)
Definition exec_file (f : frame) (command : Z -> Z) (i : Z) : M control :=
  m ← gets k_mem;
  fs ← gets fs_addr;
  '(r, d) ← lift Diverges (read_dentry_by_name m fs (at_ m (cmd f)));
  if r =? -1 then sti ;; mret (Back (-1)) else
  cmd_dentry ← lift Uninitialised d;
  new_pcb ← exec_pcb f command i;
  m ← gets k_mem;
  '(m, _) ← lift Diverges (read_data m fs (inode_num cmd_dentry) 0 (file_data f) FILE_H_SIZE);
  upd_mem (fun _ => m) ;;
  r ← lift Diverges (strncmp (at_ m (file_data f)) elf_magic 4);
  if c_true r then sti ;; mret (Back (-1)) else
  exec_map new_pcb ;;
  exec_switch new_pcb ;;
  exec_load f cmd_dentry.

Definition sys_execute (f : frame) (command : Z -> Z) : M control :=
  cli ;;
  status ← gets (fun k => pcb_status (k_proc k));
  if our_popcount status =? MAX_PROCESSES then
    printf tasks_message [mk_va MAX_PROCESSES (fun _ => 0)] ;; mret (Back 0)
  else
  i ← lift Diverges (skip_spaces command 0);
  m ← gets k_mem;
  '(m, i) ← lift Diverges (copy_cmd command (cmd f) m i);
  upd_mem (fun _ => m) ;;
  exec_file f command i.

(** The end of sys_execute, where a child's halt resumes its parent. *)
Definition we_are_done (eax : Z) : M Z :=
  p ← gets k_proc;
  ret_val ← (if except_raised p then upd_proc (set_except_raised false) ;; mret 256 else mret eax);
  sti ;;
  mret ret_val.

(** *** halt *)

Definition sys_halt (f : frame) (status : Z) : M control :=
  let ret_val := Z.land status 0xFF in
  cur ← gets (fun k => cur_pcb (k_proc k));
  let offset := u32 (END_OF_KERNEL_PAGE - cur) / PCB_PLUS_STACK in
  b ← get_pcb cur;
  (if c_true (parent_task b) then
     parent ← get_pcb (parent_task b);
     map_page (page_addr parent) PROGRAM_VIRT true true true true
   else map_page (u32 (PROGRAM_1_PHYS + term_num b * FOUR_MB)) PROGRAM_VIRT true true true true) ;;
  (if (1 <=? offset) && (offset <=? 32) then
     upd_proc (fun p => set_pcb_status (Z.land (pcb_status p) (u32 (Z.lnot (Z.shiftl 1 (offset - 1))))) p)
   else fault_ OutOfBounds) ;;
  close_pcb cur ;;
  flush_tlb ;;
  b ← get_pcb cur;
  sched ← get_sched;
  upd_term sched (set_cur_task (parent_task b)) ;;
  upd_proc (set_cur_pcb (parent_task b)) ;;
  if c_true (parent_task b) then
    parent ← get_pcb (parent_task b);
    upd_cpu (set_tss_esp0 (esp0 parent)) ;;
    upd_cpu (set_reg_ebp (ebp parent)) ;;
    upd_cpu (set_reg_esp (esp parent)) ;;
    r ← we_are_done ret_val;
    mret (Back r)
  else
    upd_proc (set_starting_new_shell true) ;;
    c ← sys_execute f (lit "shell");
    match c with Back _ => mret (Back ret_val) | User _ _ => mret c end.

(** *** The calls on file descriptors *)

(** The read and write columns of the jump tables. *)
Definition op_read (irqs : list (M unit)) (t : f_ops) : option (Z -> Z -> Z -> M Z) :=
  match t with
  | stdin => Some (fun fd buf n => buf ← user_ptr buf; terminal_read irqs fd buf n)
  | rtc_jt => Some (rtc_read irqs)
  | dir_jt => Some (fun fd buf n => buf ← user_ptr buf; fsys_read_dir fd buf n)
  | regf_jt => Some (fun fd buf n => buf ← user_ptr buf; fsys_read_file fd buf n)
  | stdout | empty_f_ops_tab => None
  end.

Definition op_write (t : f_ops) : option (Z -> Z -> Z -> M Z) :=
  match t with
  | stdout => Some (fun fd buf n => buf ← user_ptr buf; terminal_write fd buf n)
  | rtc_jt => Some (fun fd buf n => buf ← user_ptr buf; rtc_write fd buf n)
  | dir_jt => Some fsys_write_dir
  | regf_jt => Some fsys_write_file
  | stdin | empty_f_ops_tab => None
  end.

Definition sys_read (irqs : list (M unit)) (fd buf nbytes : Z) : M Z :=
  if (fd <? 0) || (MAX_DESC <=? fd) || (buf =? 0) || (nbytes <? 0) then mret (-1) else
  cur ← gets (fun k => cur_pcb (k_proc k));
  d ← get_fd cur fd;
  match op_read irqs (file_ops d) with
  | None => mret (-1)
  | Some read => read fd buf nbytes
  end.

Definition sys_write (fd buf nbytes : Z) : M Z :=
  if (fd <? 0) || (MAX_DESC <=? fd) || (buf =? 0) || (nbytes <? 0) then mret (-1) else
  cur ← gets (fun k => cur_pcb (k_proc k));
  d ← get_fd cur fd;
  match op_write (file_ops d) with
  | None => mret (-1)
  | Some write => write fd buf nbytes
  end.

Definition sys_open (filename : Z -> Z) : M Z :=
  m ← gets k_mem;
  fs ← gets fs_addr;
  '(r, d) ← lift Diverges (read_dentry_by_name m fs filename);
  if r =? -1 then mret (-1) else
  cur_dentry ← lift Uninitialised d;
  if 3 <=? file_type cur_dentry then mret (-1) else
  cur ← gets (fun k => cur_pcb (k_proc k));
  open_file_desc cur filename.

Definition sys_close (fd : Z) : M Z :=
  if (fd <? 2) || (MAX_DESC <=? fd) then mret (-1) else
  cur ← gets (fun k => cur_pcb (k_proc k));
  d ← get_fd cur fd;
  match op_close (file_ops d) with
  | None => mret (-1)
  | Some close => close fd
  end.

(** *** The other calls *)

Definition sys_getargs (buf nbytes : Z) : M Z :=
  cur ← gets (fun k => cur_pcb (k_proc k));
  b ← get_pcb cur;
  len ← lift OutOfBounds (arr_strlen (arg b));
  let arg_len := len + 1 in
  if (nbytes <? arg_len) || (arg_len <=? 1) || (nbytes <? 0) || (buf =? 0) then mret (-1) else
  buf ← user_ptr buf;
  upd_mem (fun m => blit m buf (arr_at (arg b)) (Z.to_nat arg_len)) ;;
  mret 0.

Definition sys_vidmap (screen_start : Z) : M Z :=
  if (screen_start <? PROGRAM_VIRT) || (PROGRAM_VIRT + FOUR_MB <? screen_start) then mret (-1) else
  p ← user_ptr screen_start;
  upd_mem (fun m => wr32 m p VIDMAP_VIRT_ADDR) ;;
  mret VIDMAP_VIRT_ADDR.

Definition sys_set_handler (signum handler_address : Z) : M Z := mret (-1).
Definition sys_sigreturn : M Z := mret (-1).

(** *** _syscall *)

Definition user_str (p : Z) : M (Z -> Z) := a ← user_ptr p; m ← gets k_mem; mret (at_ m a).
Definition returns (c : M Z) : M control := r ← c; mret (Back r).

(** eax is the number of the call, ebx, ecx and edx are its arguments. *)
Definition syscall (f : frame) (irqs : list (M unit)) (eax ebx ecx edx : Z) : M control :=
  if i32 eax =? 1 then sys_halt f (u8 ebx)
  else if i32 eax =? 2 then command ← user_str ebx; sys_execute f command
  else if i32 eax =? 3 then returns (sys_read irqs (i32 ebx) ecx (i32 edx))
  else if i32 eax =? 4 then returns (sys_write (i32 ebx) ecx (i32 edx))
  else if i32 eax =? 5 then filename ← user_str ebx; returns (sys_open filename)
  else if i32 eax =? 6 then returns (sys_close (i32 ebx))
  else if i32 eax =? 7 then returns (sys_getargs ebx (i32 ecx))
  else if i32 eax =? 8 then returns (sys_vidmap ebx)
  else if i32 eax =? 9 then returns (sys_set_handler (i32 ebx) ecx)
  else if i32 eax =? 10 then returns sys_sigreturn
  else mret (Back (-1)).
