(* ===== verification/Execute.v ===== *)
(** * Starting a program (sys_execute)

    What execute does with a command: the parsed name and argument, the process
    it creates, the address space it sets up and the image it loads; and the two
    ways it refuses a command. *)

From Stdlib Require Import ZArith Lia String.
From stdpp Require Import gmap list numbers strings.
From S2P Require Import Prelude Memory LibString State Display Paging Pcb FileSystem Vfs MultiTerm Keyboard Terminal Syscalls.

(** ** Parsing *)

(** [command] is spaces up to [a], the name up to [b], spaces up to [c], and the
    argument up to the NUL at [d]. *)
Definition parsed (command : Z -> Z) (a b c d : Z) : Prop :=
  is_bytes command /\ 0 <= a <= b /\ b <= c <= d /\ d < W32 - 1 /\
  (forall j, 0 <= j < a -> command j = 32) /\ command a <> 32 /\
  (forall j, a <= j < b -> command j <> 32 /\ command j <> 0) /\ (command b = 32 \/ command b = 0) /\
  (forall j, b <= j < c -> command j = 32) /\ command c <> 32 /\
  (forall j, c <= j < d -> command j <> 0) /\ command d = 0.

(** The name, as a string. *)
Definition name_of (command : Z -> Z) (a b : Z) : Z -> Z := fun j => if j <? b - a then command (a + j) else 0.

(** Only the characters up to the end matter. *)
Lemma parsed_ext s s' a b c d : parsed s a b c d -> (forall i, 0 <= i <= d -> s' i = s i) -> is_bytes s' -> parsed s' a b c d.
Proof.
  intros (B & Hab & Hcd & Hd & S1 & S2 & N1 & N2 & S3 & S4 & A1 & A2) H B'.
  refine (conj B' (conj Hab (conj Hcd (conj Hd _)))). rewrite !H by lia.
  refine (conj _ (conj S2 (conj _ (conj N2 (conj _ (conj S4 (conj _ A2))))))); intros j Hj; rewrite H by lia; auto.
Qed.

Lemma skip_spaces_spec command i n : 0 <= i <= n -> n < W32 ->
  (forall j, i <= j < n -> command j = 32) -> command n <> 32 -> skip_spaces command i = Some n.
Proof.
  intros Hi Hn Hsp Hend. unfold skip_spaces.
  edestruct (run_loop_rule (fun i => if (command i =? 32) && negb (command i =? 0) then inl (u32 (i + 1)) else inr i)
    (fun j => i <= j <= n) (fun r => r = n) (fun j => n - j)) with (s := i) as (r & -> & ->); [|lia|lia|done].
  intros j Hj. destruct (Z.eq_dec j n) as [->|Hne].
  - by rewrite (proj2 (Z.eqb_neq _ _)) by done.
  - rewrite (Hsp j) by lia. cbn [Z.eqb Pos.eqb andb negb]. rewrite u32_small by lia. lia.
Qed.

Lemma copy_cmd_spec command cmd m i n : 0 <= i <= n -> n < W32 - 1 -> n - i <= CMD_BUF_SIZE ->
  (forall j, i <= j < n -> command j <> 32 /\ command j <> 0) -> (command n = 32 \/ command n = 0) ->
  exists m', copy_cmd command cmd m i = Some (m', n) /\ mem_copied m m' cmd (name_of command i n) (n - i + 1).
Proof.
  intros Hi Hn Hlen Hname Hend. unfold copy_cmd.
  edestruct (run_loop_rule (fun '(m, i, j) =>
    if negb (command i =? 32) && negb (command i =? 0) && (j <? CMD_BUF_SIZE)
    then inl (wr m (cmd + j) (command i), u32 (i + 1), u32 (j + 1))
    else inr (wr m (cmd + j) 0, i))
    (fun '(m', i', j) => i <= i' <= n /\ j = i' - i /\ mem_copied m m' cmd (name_of command i n) j)
    (fun '(m', i') => i' = n /\ mem_copied m m' cmd (name_of command i n) (n - i + 1))
    (fun '(_, i', _) => n - i')) with (s := (m, i, 0)) as ([m' r] & -> & -> & H).
  - intros [[m' i'] j] (Hi' & -> & C). destruct (Z.eq_dec i' n) as [->|Hne].
    + replace (negb (command n =? 32) && negb (command n =? 0) && (n - i <? CMD_BUF_SIZE)) with false
        by (destruct Hend as [-> | ->]; done).
      split; [done|]. pose proof (mem_copied_snoc _ _ _ _ (n - i) ltac:(lia) C) as C'.
      unfold name_of in C' at 1. by rewrite Z.ltb_irrefl in C'.
    + destruct (Hname i' ltac:(lia)) as [N1 N2].
      rewrite (proj2 (Z.eqb_neq _ 32)), (proj2 (Z.eqb_neq _ 0)), (proj2 (Z.ltb_lt _ _)) by (done || lia). cbn [negb andb].
      rewrite !u32_small by lia. split; [|lia]. split_and!; [lia|lia|lia|].
      pose proof (mem_copied_snoc _ _ _ _ (i' - i) ltac:(lia) C) as C'. unfold name_of in C' at 1.
      rewrite (proj2 (Z.ltb_lt _ _)) in C' by lia. by replace (i + (i' - i)) with i' in C' by lia.
  - split_and!; [lia|lia|lia|apply mem_copied_0].
  - lia.
  - by exists m'.
Qed.

(** The argument, in the block's array. *)
Definition arg_of (command : Z -> Z) (c d : Z) : list Z := chars (fun j => command (c + j)) (d - c).

Lemma length_chars f n : 0 <= n -> length (chars f n) = Z.to_nat n.
Proof. intros. unfold chars. by rewrite length_map, length_seqZ. Qed.

Lemma copy_arg_spec command i n : is_bytes command -> 0 <= i <= n -> n < W32 - 1 -> n - i <= 128 ->
  (forall j, i <= j < n -> command j <> 0) -> command n = 0 ->
  copy_arg command (replicate 129 0) i = Some (Some (arg_of command i n ++ replicate (129 - Z.to_nat (n - i)) 0)).
Proof.
  intros B Hi Hn Hlen Hnz Hend. unfold copy_arg.
  set (A := fun j => chars (fun j => command (i + j)) j ++ replicate (129 - Z.to_nat j) 0).
  assert (forall j c, 0 <= j <= 128 -> arr_write (A j) j [c] =
    Some ((chars (fun j => command (i + j)) j ++ [u8 c]) ++ replicate (129 - S (Z.to_nat j)) 0)) as W.
  { intros j c Hj. unfold A.
    pose proof (line_extend (chars (fun j => command (i + j)) j) c) as L. rewrite length_chars, Z2Nat.id in L by lia.
    apply L. lia. }
  edestruct (run_loop_rule (fun '(arg, i, j) =>
    if negb (command i =? 0) then
      match arr_write arg j [command i] with
      | Some arg => inl (arg, u32 (i + 1), u32 (j + 1))
      | None => inr None
      end
    else inr (arr_write arg j [0]))
    (fun '(a, i', j) => i <= i' <= n /\ j = i' - i /\ a = A j)
    (fun r => r = Some (A (n - i))) (fun '(_, i', _) => n - i')) with (s := (replicate 129 0, i, 0)) as (r & -> & ->); [| | |done].
  - intros [[a i'] j] (Hi' & -> & ->). rewrite W by lia. destruct (Z.eq_dec i' n) as [->|Hne].
    + rewrite Hend. cbn [Z.eqb negb]. rewrite W by lia. unfold A. f_equal. rewrite <- app_assoc. f_equal.
      replace (129 - Z.to_nat (n - i))%nat with (S (129 - S (Z.to_nat (n - i)))) by lia. done.
    + rewrite (proj2 (Z.eqb_neq _ 0)) by (apply Hnz; lia). cbn [negb]. rewrite !u32_small by lia.
      split; [|lia]. split_and!; [lia|lia|lia|]. unfold A. rewrite chars_snoc by lia.
      rewrite u8_small by apply B. replace (i + (i' - i)) with i' by lia. do 3 f_equal. lia.
  - split_and!; [lia|lia|lia|done].
  - lia.
Qed.

(** ** The process *)

Definition all_free (b : pcb_t) : Prop :=
  Forall (fun d => flags d = NOT_USED /\ file_ops d = empty_f_ops_tab) (io_files b).

(** The slot that init_pcb takes, and the state with its block. *)
Definition slot_taken (k : kernel) (off : Z) : Prop :=
  0 <= off < MAX_PROCESSES /\ Z.testbit (pcb_status (k_proc k)) off = false /\
  (forall i, 0 <= i < MAX_PROCESSES -> Z.testbit (pcb_status (k_proc k)) i = true -> pcb_addr i <> pcb_addr off) /\
  slots_ok (Z.lor (pcb_status (k_proc k)) (2 ^ off)) /\
  our_popcount (Z.lor (pcb_status (k_proc k)) (2 ^ off)) = our_popcount (pcb_status (k_proc k)) + 1.
Definition take_slot (off : Z) (k : kernel) : kernel :=
  set_k_proc (set_pcb_status (Z.lor (pcb_status (k_proc k)) (2 ^ off)) (k_proc k)) k.

(** The kernel can start another process. *)
Definition slots_left (k : kernel) : Prop :=
  slots_ok (pcb_status (k_proc k)) /\ our_popcount (pcb_status (k_proc k)) <> MAX_PROCESSES /\
  map_Forall (fun _ => pcb_ok) (pcbs (k_proc k)).

Lemma pcb_addr_nonzero off : 0 <= off < MAX_PROCESSES -> pcb_addr off <> 0.
Proof. intros H. rewrite pcb_addr_eq by lia. lia. Qed.

Lemma wp_upd_with_pcb p g b k (Q : unit -> kernel -> Prop) : p <> 0 ->
  Q tt (with_pcb p (g b) k) -> wp (upd_pcb p g) Q (with_pcb p b k).
Proof.
  intros Hp HQ. eapply wp_upd_pcb; [done|apply with_pcb_lookup|]. by rewrite with_pcb_twice.
Qed.
Lemma wp_get_with_pcb p b k (Q : pcb_t -> kernel -> Prop) : p <> 0 ->
  Q b (with_pcb p b k) -> wp (get_pcb p) Q (with_pcb p b k).
Proof. intros Hp HQ. eapply wp_get_pcb; [done|apply with_pcb_lookup|done]. Qed.

Lemma exec_pcb_spec f command i c d k : slots_left k -> is_bytes command -> 0 <= i <= c -> c <= d -> d < W32 - 1 ->
  d - c <= 128 -> (forall j, i <= j < c -> command j = 32) -> command c <> 32 ->
  (forall j, c <= j < d -> command j <> 0) -> command d = 0 ->
  wp (exec_pcb f command i) (fun blk k' => exists off b,
    slot_taken k off /\ blk = pcb_addr off /\ pcb_ok b /\ pcb_num b = off /\ all_free b /\
    arg b = arg_of command c d ++ replicate (129 - Z.to_nat (d - c)) 0 /\
    k' = with_pcb blk b (take_slot off k)) k.
Proof.
  intros (S1 & S2 & S3) B Hi Hc Hd Hlen Hsp Hsp' Hnz Hend. unfold exec_pcb. wp_steps.
  eapply wp_mono; [|exact (init_pcb_spec k S1 S2 S3)].
  intros blk k1 (off & b & H1 & H2 & _ & H4 & H5 & H6 & H7 & H8 & H9 & H10 & H11 & ->). cbn beta.
  rewrite <- pcb_addr_eq in H4 by lia. subst blk. pose proof (pcb_addr_nonzero off H1) as Hnz0.
  fold (take_slot off k). wp_steps. apply wp_upd_with_pcb; [done|]. wp_steps. apply wp_upd_with_pcb; [done|]. wp_steps.
  rewrite (skip_spaces_spec command i c) by (done || lia). cbn [lift]. wp_steps. apply wp_get_with_pcb; [done|]. wp_steps.
  cbn [arg set_cmd_name]. rewrite H8, (copy_arg_spec command c d) by (done || lia). cbn [lift]. wp_steps. cbn [lift]. wp_steps.
  apply wp_upd_with_pcb; [done|]. wp_steps. exists off. eexists. split_and!; [|done|..|reflexivity].
  - split_and!; [lia|lia|done| |exact H10|exact H11]. intros i' Hi'. apply H5. lia.
  - split_and!; [apply H6| |].
    + cbn [arg set_arg]. rewrite length_app, length_replicate. unfold arg_of. rewrite length_chars by lia. lia.
    + cbn [cmd_name set_arg set_cmd_name]. rewrite length_map, length_seqZ. done.
  - exact H7.
  - exact H9.
  - done.
Qed.

(** ** The address space *)

(** A remapped 4MB page only stores into the directory. *)
Lemma map_large_within m dir phys va p w m' r : 0 <= va < W32 ->
  map_page_mem m dir phys va true p w true = (m', r) -> differs_within m m' dir SIZEOFDIR.
Proof.
  intros Hva. unfold map_page_mem. case_if; [intros [= <- <-]; apply differs_within_refl|].
  rewrite orb_true_r. intros [= <- <-]. destruct (idx_range va Hva) as [Hx _].
  rewrite shr22. eapply (wr32_within _ _ _ _ _ (4 * (va / FOUR_MB))); lia.
Qed.

(** The program page is mapped to [phys], everything else is as before. *)
Definition program_mapped (m m' : memory) (dir phys : Z) : Prop :=
  paging_wf m' dir /\ forall va, 0 <= va < W32 ->
    resolve_virt_addr m' dir va =
    if va / FOUR_MB =? PROGRAM_VIRT / FOUR_MB then phys + va mod FOUR_MB else resolve_virt_addr m dir va.

(** The block after exec_map. *)
Definition mapped_pcb (k : kernel) (b : pcb_t) : pcb_t :=
  set_esp0 (END_OF_KERNEL_PAGE - pcb_num b * PCB_PLUS_STACK - 4)
    (set_fd_status 3 (set_pid (numproc (k_proc k)) (set_parent_task 0
      (set_page_addr (PROGRAM_1_PHYS + pcb_num b * FOUR_MB) b)))).

Definition mapped_kernel (m' : memory) (b : pcb_t) (k : kernel) : kernel :=
  set_k_cpu (set_tss_esp0 (END_OF_KERNEL_PAGE - pcb_num b * PCB_PLUS_STACK - 4) (k_cpu k))
    (set_k_mem m' (set_k_proc (set_numproc (u32 (numproc (k_proc k) + 1)) (k_proc k)) k)).

Lemma exec_map_spec blk b k : blk <> 0 -> 0 <= pcb_num b < MAX_PROCESSES -> paging_wf (k_mem k) (cr3 (k_cpu k)) ->
  wp (exec_map blk) (fun _ k' => exists m',
    program_mapped (k_mem k) m' (cr3 (k_cpu k)) (PROGRAM_1_PHYS + pcb_num b * FOUR_MB) /\
    differs_within (k_mem k) m' (cr3 (k_cpu k)) SIZEOFDIR /\
    k' = with_pcb blk (mapped_pcb k b) (mapped_kernel m' b k)) (with_pcb blk b k).
Proof.
  intros Hblk Hn Hwf. unfold exec_map. wp_steps. apply wp_get_with_pcb; [done|]. wp_steps.
  apply wp_upd_with_pcb; [done|]. wp_steps. apply wp_get_with_pcb; [done|]. wp_steps.
  rewrite (u32_small (PROGRAM_1_PHYS + _)) by lia. cbn [page_addr set_page_addr pcb_num].
  set (phys := PROGRAM_1_PHYS + pcb_num b * FOUR_MB).
  destruct (map_large (k_mem k) (cr3 (k_cpu k)) phys PROGRAM_VIRT true true true) as (m' & E & Hwf' & _ & Hres);
    [done|unfold phys; lia|unfold phys; zlia|lia|by right|].
  eapply wp_map_page; [exact E|]. unfold flush_tlb. wp_steps.
  set (k1 := set_k_cpu _ _). assert (k1 = with_pcb blk (set_page_addr phys b) (set_k_mem m' k)) as ->
    by (unfold k1, with_pcb; by destruct k as [? ? ? []]).
  apply wp_upd_with_pcb; [done|]. wp_steps.
  match goal with |- wp _ _ ?s => set (k2 := s) end.
  assert (k2 = with_pcb blk (set_parent_task 0 (set_page_addr phys b))
    (set_k_mem m' (set_k_proc (set_numproc (u32 (numproc (k_proc k) + 1)) (k_proc k)) k))) as -> by done.
  apply wp_upd_with_pcb; [done|]. wp_steps. apply wp_upd_with_pcb; [done|]. wp_steps.
  rewrite (u32_small (END_OF_KERNEL_PAGE - _ - 4)) by lia.
  match goal with |- wp _ _ ?s => set (k3 := s) end.
  assert (k3 = with_pcb blk (set_fd_status 3 (set_pid (numproc (k_proc k)) (set_parent_task 0 (set_page_addr phys b))))
    (mapped_kernel m' b k)) as -> by done.
  apply wp_upd_with_pcb; [done|]. exists m'. split_and!; [by split| |reflexivity].
  exact (map_large_within _ _ _ PROGRAM_VIRT _ _ _ _ ltac:(lia) E).
Qed.

(** ** The switch to the new process *)

(** The process is started on terminal [tid], by the process [par] (0 for a new
    shell, on the scheduled terminal). *)
Definition starts_on (k : kernel) (tid par : Z) (t : term_t) : Prop :=
  0 <= tid /\ terminals (k_disp k) !! Z.to_nat tid = Some t /\
  ((starting_new_shell (k_proc k) = true /\ tid = sched_term_id (k_disp k) /\ par = 0) \/
   (starting_new_shell (k_proc k) = false /\ tid = vis_term_id (k_disp k) /\ par = cur_task t /\
    exists i, 0 <= i < MAX_PROCESSES /\ par = pcb_addr i /\ Z.testbit (pcb_status (k_proc k)) i = true /\
      is_Some (pcbs (k_proc k) !! par))).

(** The blocks after the switch: the registers are saved in the parent. *)
Definition save_regs (c : cpu_t) (par : Z) (blocks : gmap Z pcb_t) : gmap Z pcb_t :=
  if par =? 0 then blocks else alter (fun p => set_esp (reg_esp c) (set_ebp (reg_ebp c) p)) par blocks.

Definition std_fds (b : pcb_t) : pcb_t := with_fd 1 (opened stdout 0) (with_fd 0 (opened stdin 0) b).

Definition switched_kernel (blk tid par : Z) (t : term_t) (b : pcb_t) (k : kernel) : kernel :=
  with_term tid (set_cur_task blk t)
    (set_k_proc (set_cur_pcb blk (set_pcbs
      (<[blk := std_fds (set_term_num tid (set_parent_task par b))]> (save_regs (k_cpu k) par (pcbs (k_proc k))))
      (k_proc k))) k).

(** terminal_open on a fresh block. *)
Lemma terminal_open_fresh filename blk b k : blk <> 0 -> pcb_ok b -> all_free b -> cur_pcb (k_proc k) = blk ->
  terminal_open filename (with_pcb blk b k) = Ret SUCCESS (with_pcb blk (std_fds b) k).
Proof.
  intros Hblk Hok Hfree Hcur.
  assert (forall s jt i b', std_name (lit s) = Some jt -> first_free b' = Some i -> pcb_ok b' ->
    open_file_desc blk (lit s) (with_pcb blk b' k) = Ret i (with_pcb blk (with_fd i (opened jt 0) b') k)) as Open.
  { intros s jt i b' Hs Hff Hok'.
    destruct (open_file_desc_at blk (lit s) b' i (with_pcb blk b' k)) as [(f & Hi & Hf) E]; [done|apply with_pcb_lookup|done|done|].
    rewrite E, (open_at_std blk i (lit s) b' f (with_pcb blk b' k) Hblk (with_pcb_lookup _ _ _) Hok' Hi Hf (lit_bytes s) jt Hs).
    by rewrite with_pcb_twice. }
  destruct Hok as (L & H2 & H3). destruct (io_files b) as [|f0 [|f1 fs]] eqn:Ef; [done|done|].
  unfold all_free in Hfree. rewrite Ef in Hfree. inversion_clear Hfree as [|? ? [F0 _] Hfr]. inversion_clear Hfr as [|? ? [F1 _] _].
  unfold terminal_open, mbind, M_bind, gets. change (cur_pcb (k_proc (with_pcb blk b k))) with (cur_pcb (k_proc k)).
  rewrite Hcur, (Open "stdin" stdin 0 b); [|vm_compute; reflexivity| |by split_and!; [rewrite Ef|..]].
  2: { unfold first_free. rewrite Ef. cbn [list_find]. by rewrite decide_True. }
  change (cur_pcb (k_proc (with_pcb blk (with_fd 0 (opened stdin 0) b) k))) with (cur_pcb (k_proc k)).
  rewrite Hcur, (Open "stdout" stdout 1 (with_fd 0 (opened stdin 0) b)); [done|vm_compute; reflexivity| |].
  - unfold first_free, with_fd. cbn [io_files set_io_files]. rewrite Ef.
    change (<[Z.to_nat 0 := opened stdin 0]> (f0 :: f1 :: fs)) with (opened stdin 0 :: f1 :: fs).
    cbn [list_find]. by rewrite decide_False, decide_True.
  - apply with_fd_ok. by split_and!; [rewrite Ef|..].
Qed.

Lemma exec_switch_spec blk tid par t b k : blk <> 0 -> blk <> par -> pcb_ok b -> all_free b -> parent_task b = 0 ->
  starts_on k tid par t -> wp (exec_switch blk) (fun _ k' => k' = switched_kernel blk tid par t b k) (with_pcb blk b k).
Proof.
  intros Hblk Hne Hok Hfree Hpar (Htid & Ht & Hstart). unfold exec_switch, get_vis, get_sched. wp_steps.
  change (starting_new_shell (k_proc (with_pcb blk b k))) with (starting_new_shell (k_proc k)).
  assert (forall b' m, pcb_ok b' -> all_free b' ->
    wp (upd_proc (set_cur_pcb blk) ;; terminal_open (fun _ => 0) ;; skip)
      (fun _ k' => k' = with_term tid (set_cur_task blk t) (set_k_proc (set_cur_pcb blk (set_pcbs (<[blk := std_fds b']> m)
         (k_proc k))) k))
      (with_pcb blk b' (with_term tid (set_cur_task blk t) (set_k_proc (set_pcbs m (k_proc k)) k)))) as Fin.
  { intros b' m Hok' Hfree'. wp_steps. set (k1 := with_term tid (set_cur_task blk t) (set_k_proc (set_cur_pcb blk (set_pcbs m (k_proc k))) k)).
    match goal with |- wp _ _ ?s => change s with (with_pcb blk b' k1) end.
    unfold wp. rewrite terminal_open_fresh by done. reflexivity. }
  destruct Hstart as [(Hs & -> & ->)|(Hs & -> & -> & i & Hi & Ep & _ & [pb Hpb])]; rewrite Hs; cbn [negb].
  - wp_steps. change (sched_term_id (k_disp (with_pcb blk b k))) with (sched_term_id (k_disp k)).
    eapply wp_upd_term; [done|exact Ht|]. wp_steps.
    match goal with |- wp _ _ ?s => change s with (with_pcb blk b (with_term (sched_term_id (k_disp k)) (set_cur_task blk t) k)) end.
    apply wp_upd_with_pcb; [done|].
    specialize (Fin (set_term_num (sched_term_id (k_disp k)) (set_parent_task 0 b)) (pcbs (k_proc k)) Hok Hfree).
    replace (set_parent_task 0 b) with b in Fin by (rewrite <- Hpar; by destruct b).
    replace (set_k_proc (set_pcbs (pcbs (k_proc k)) (k_proc k)) k) with k in Fin by (by destruct k as [? ? ? ? ? []]).
    unfold switched_kernel. replace (set_parent_task 0 b) with b by (rewrite <- Hpar; by destruct b). exact Fin.
  - wp_steps. change (vis_term_id (k_disp (with_pcb blk b k))) with (vis_term_id (k_disp k)).
    set (vis := vis_term_id (k_disp k)) in *.
    eapply wp_get_term; [done|exact Ht|]. wp_steps. apply wp_upd_with_pcb; [done|]. wp_steps.
    apply wp_upd_with_pcb; [done|]. wp_steps. apply wp_get_with_pcb; [done|]. cbn [parent_task set_term_num set_parent_task].
    set (b' := set_term_num vis _). assert (cur_task t <> 0) as Hp0 by (rewrite Ep; by apply pcb_addr_nonzero).
    wp_steps. eapply wp_upd_pcb; [done|by rewrite with_pcb_ne|]. wp_steps.
    eapply wp_upd_pcb; [done|apply with_pcb_lookup|]. wp_steps. rewrite with_pcb_twice.
    eapply wp_upd_term; [done|exact Ht|]. cbn beta.
    specialize (Fin b' (save_regs (k_cpu k) (cur_task t) (pcbs (k_proc k))) Hok Hfree).
    match goal with |- wp _ _ ?s => replace s with (with_pcb blk b' (with_term vis (set_cur_task blk t)
      (set_k_proc (set_pcbs (save_regs (k_cpu k) (cur_task t) (pcbs (k_proc k))) (k_proc k)) k))) end; [exact Fin|].
    assert (save_regs (k_cpu k) (cur_task t) (pcbs (k_proc k)) =
      <[cur_task t := set_esp (reg_esp (k_cpu k)) (set_ebp (reg_ebp (k_cpu k)) pb)]> (pcbs (k_proc k))) as ->.
    { unfold save_regs. rewrite (proj2 (Z.eqb_neq _ 0)) by done. apply map_eq. intros q.
      destruct (decide (q = cur_task t)) as [->|Hq].
      - by rewrite lookup_insert_eq, lookup_alter_eq, Hpb.
      - by rewrite lookup_insert_ne, lookup_alter_ne by done. }
    unfold with_pcb, with_term. cbn. rewrite (insert_insert_ne _ (cur_task t) blk) by done. reflexivity.
Qed.

(** ** Finding the file *)

(** Entry [i] is the first one with the name [fname]. *)
Definition first_named (m : memory) (fs i : Z) (fname : Z -> Z) : Prop :=
  0 <= i < rd32 m fs /\ has_name m fs i fname /\ forall j, 0 <= j < i -> ~ has_name m fs j fname.

(** Only the characters up to the NUL of the second string matter. *)
Lemma str_eqn_upto s1 s2 s2' n l : 0 <= l -> (forall i, 0 <= i <= l -> s2 i = s2' i) -> s2 l = 0 ->
  str_eqn s1 s2 n <-> str_eqn s1 s2' n.
Proof.
  intros Hl0 Heq Hl. assert (s2' l = 0) as Hl' by (by rewrite <- Heq by lia).
  assert (forall s s', (forall i, 0 <= i <= l -> s i = s' i) -> s l = 0 -> str_eqn s1 s n -> str_eqn s1 s' n) as G.
  { intros s s' E Z0 H i Hi Hj. destruct (Z_le_gt_dec i l) as [?|?]; [rewrite <- E by lia; by apply H|].
    exfalso. apply (Hj l); [lia|]. rewrite <- Z0. apply H; [lia|]. intros j Hj'. apply Hj. lia. }
  split; apply G; try done. intros i Hi. symmetry. by apply Heq.
Qed.

Section lookup_same.
Context (m m1 : memory) (fs : Z).
Hypothesis Himg : image_ok m fs.
Hypothesis Hsame : image_same m m1 fs.
Hypothesis Hnum : rd32 m fs <= 63.

Lemma entry_same i o : 0 <= i < rd32 m fs -> 0 <= o < ENTRY_SIZE_BYTES ->
  rd m1 (entry_addr fs i + o) = rd m (entry_addr fs i + o).
Proof using All.
  intros Hi Ho. destruct (entry_in_image m fs i Himg Hi Hnum) as [E1 E2]. apply Hsame. lia.
Qed.

Lemma dentry_same i : 0 <= i < rd32 m fs -> dentry_at m1 (entry_addr fs i) = dentry_at m (entry_addr fs i).
Proof using All.
  intros Hi. assert (forall o, 0 <= o -> o + 4 <= ENTRY_SIZE_BYTES ->
    rd32 m1 (entry_addr fs i + o) = rd32 m (entry_addr fs i + o)) as E32.
  { intros o H0 H1. unfold rd32. rewrite <- !Z.add_assoc. by rewrite !entry_same by lia. }
  unfold dentry_at. rewrite !E32 by lia. f_equal; apply map_ext_in; intros j Hj;
    apply list_elem_of_In, elem_of_seqZ in Hj.
  - apply entry_same; lia.
  - rewrite <- Z.add_assoc. apply E32; lia.
Qed.

Lemma has_name_same i fname : 0 <= i < rd32 m fs -> has_name m1 fs i fname <-> has_name m fs i fname.
Proof using All.
  intros Hi. unfold has_name, str_eqn, at_.
  split; intros H j Hj Hz.
  - rewrite <- entry_same by lia. apply H; [done|]. intros j' Hj'. rewrite entry_same by lia. by apply Hz.
  - rewrite entry_same by lia. apply H; [done|]. intros j' Hj'. rewrite <- entry_same by lia. by apply Hz.
Qed.

(** The name that copy_cmd stored at [cmd]. *)
Context (command : Z -> Z) (cmd a b : Z).
Hypothesis Hbytes : is_bytes command.
Hypothesis Hab : 0 <= b - a <= CMD_BUF_SIZE.
Hypothesis Hname : forall j, a <= j < b -> command j <> 32 /\ command j <> 0.
Hypothesis Hcmd : mem_copied m m1 cmd (name_of command a b) (b - a + 1).

Lemma cmd_stored i : 0 <= i <= b - a -> at_ m1 cmd i = name_of command a b i.
Proof using Hcmd Hab Hbytes.
  intros Hi. unfold at_. rewrite (mem_copied_in _ _ _ _ _ _ Hcmd ltac:(lia) i) by (lia || done).
  apply u8_small. unfold name_of. case_if; [apply Hbytes|lia].
Qed.

Lemma cmd_strlen : strlen (at_ m1 cmd) = Some (b - a).
Proof using Hcmd Hab Hbytes Hname.
  apply strlen_spec; [|lia]. split_and!; [lia| |].
  - intros i Hi. rewrite cmd_stored by lia. unfold name_of. rewrite (proj2 (Z.ltb_lt _ _)) by lia. apply Hname. lia.
  - rewrite cmd_stored by lia. unfold name_of. by rewrite Z.ltb_irrefl.
Qed.

Lemma cmd_has_name i : 0 <= i < rd32 m fs -> has_name m1 fs i (at_ m1 cmd) <-> has_name m fs i (name_of command a b).
Proof using All.
  intros Hi. rewrite has_name_same by done. unfold has_name.
  apply (str_eqn_upto _ _ _ _ (b - a)); [lia|intros j Hj; by apply cmd_stored|].
  rewrite cmd_stored by lia. unfold name_of. by rewrite Z.ltb_irrefl.
Qed.

Lemma cmd_found i : first_named m fs i (name_of command a b) ->
  read_dentry_by_name m1 fs (at_ m1 cmd) = Some (SUCCESS, Some (dentry_at m (entry_addr fs i))).
Proof using All.
  intros (Hi & H1 & H2). pose proof (read_dentry_by_name_spec m1 fs (at_ m1 cmd) (b - a) (at_bytes _ _) cmd_strlen) as L.
  rewrite (proj2 (Z.ltb_ge _ _)) in L by lia. destruct (same_counts m m1 fs Hsame) as (En & _).
  rewrite En in L. destruct L as [(i' & Hi' & N1 & N2 & ->)|[N _]].
  - rewrite cmd_has_name in N1 by done. replace i' with i; [by rewrite dentry_same|].
    destruct (Z.lt_trichotomy i i') as [Hlt|[?|Hgt]]; [|done|].
    + exfalso. apply (N2 i ltac:(lia)). by apply cmd_has_name.
    + exfalso. by apply (H2 i' ltac:(lia)).
  - exfalso. apply (N i Hi). by apply cmd_has_name.
Qed.

Lemma cmd_missing : (forall i, 0 <= i < rd32 m fs -> ~ has_name m fs i (name_of command a b)) ->
  read_dentry_by_name m1 fs (at_ m1 cmd) = Some (FAILURE, None).
Proof using All.
  intros Hnone. pose proof (read_dentry_by_name_spec m1 fs (at_ m1 cmd) (b - a) (at_bytes _ _) cmd_strlen) as L.
  rewrite (proj2 (Z.ltb_ge _ _)) in L by lia. destruct (same_counts m m1 fs Hsame) as (En & _).
  rewrite En in L. destruct L as [(i' & Hi' & N1 & _)|[_ E]]; [|done].
  exfalso. rewrite cmd_has_name in N1 by done. by apply (Hnone i').
Qed.
End lookup_same.

(** ** Where things are

    The image, the page directory and the local arrays of sys_execute are in the
    kernel's memory, below 8MB, apart from each other. *)

Definition apart (p n q l : Z) : Prop := p + n <= q \/ q + l <= p.
Definition exec_layout (k : kernel) (f : frame) : Prop :=
  let m := k_mem k in let fs := fs_addr k in let dir := cr3 (k_cpu k) in
  image_ok m fs /\ fs + image_size m fs <= PROGRAM_1_PHYS /\ rd32 m fs <= 63 /\
  paging_wf m dir /\ dir + SIZEOFDIR <= PROGRAM_1_PHYS /\ apart dir SIZEOFDIR fs (image_size m fs) /\
  (0 <= cmd f /\ cmd f + 33 <= PROGRAM_1_PHYS /\ apart (cmd f) 33 fs (image_size m fs) /\ apart (cmd f) 33 dir SIZEOFDIR) /\
  (0 <= file_data f /\ file_data f + 30 <= PROGRAM_1_PHYS /\ apart (file_data f) 30 fs (image_size m fs) /\
   apart (file_data f) 30 dir SIZEOFDIR).

(** Two memories with the same directory and page tables. *)
Definition tables_same (m m' : memory) (dir : Z) : Prop :=
  forall a, dir <= a < dir + SIZEOFDIR \/ PAGE_TABLE_STARTADDR <= a < PAGE_TABLE_STARTADDR + FOUR_MB -> rd m' a = rd m a.

Lemma tables_same_trans m1 m2 m3 dir : tables_same m1 m2 dir -> tables_same m2 m3 dir -> tables_same m1 m3 dir.
Proof. intros H1 H2 a Ha. by rewrite H2, H1. Qed.

Lemma tables_same_dir m m' dir i : tables_same m m' dir -> 0 <= i < NUM_ENTRIES -> dir_entry m' dir i = dir_entry m dir i.
Proof. intros H Hi. unfold dir_entry, rd32. by rewrite !H by lia. Qed.

Lemma tables_same_wf m m' dir : tables_same m m' dir -> paging_wf m dir -> paging_wf m' dir.
Proof.
  intros H (H1 & H2 & H3). split_and!; [done|done|]. intros i Hi. rewrite !(tables_same_dir m m') by done. by apply H3.
Qed.

Lemma tables_same_resolve m m' dir va : tables_same m m' dir -> paging_wf m dir -> 0 <= va < W32 ->
  resolve_virt_addr m' dir va = resolve_virt_addr m dir va.
Proof.
  intros H (H1 & H2 & H3) Hva. destruct (idx_range va Hva) as [Hx Hy].
  apply resolve_same; [done|by apply tables_same_dir|]. intros Hp Hl. unfold table_entry.
  destruct (table_addr va (dir_entry m dir (va / FOUR_MB)) Hva (H3 _ Hx Hp Hl)) as (a & -> & A1 & A2).
  unfold rd32. by rewrite !H by lia.
Qed.

(** A copy into a buffer below the page tables, apart from the directory. *)
Lemma copied_tables m m' p fn n dir : mem_copied m m' p fn n -> 0 <= n -> 0 <= p -> p + n <= PAGE_TABLE_STARTADDR ->
  0 <= dir -> dir + SIZEOFDIR <= PAGE_TABLE_STARTADDR -> apart p n dir SIZEOFDIR -> tables_same m m' dir.
Proof. intros C Hn Hp Hpn Hd Hd' [A|A] a Ha; apply (mem_copied_rd _ _ _ _ _ _ C); lia. Qed.

(** ** The image *)

Definition file_word (m : memory) (fs ino p : Z) : Z :=
  file_byte m fs ino p + W8 * file_byte m fs ino (p + 1) + W16 * file_byte m fs ino (p + 2) +
  16777216 * file_byte m fs ino (p + 3).

(** A program: a sound file with the ELF magic number that fits the program page. *)
Definition is_program (m : memory) (fs ino : Z) : Prop :=
  file_ok m fs ino /\ FILE_H_SIZE <= file_length m fs ino <= FOUR_MB - PROGRAM_VIRT_OFF /\
  file_byte m fs ino 0 = 127 /\ file_byte m fs ino 1 = 69 /\ file_byte m fs ino 2 = 76 /\ file_byte m fs ino 3 = 70.

Lemma file_byte_range m fs ino p : 0 <= file_byte m fs ino p < W8.
Proof. apply rd_range. Qed.

Lemma same_program m m' fs ino : image_ok m fs -> image_same m m' fs -> is_program m fs ino ->
  is_program m' fs ino /\ file_length m' fs ino = file_length m fs ino /\
  forall p, 0 <= p < file_length m fs ino -> file_byte m' fs ino p = file_byte m fs ino p.
Proof.
  intros Himg Hs ([Hi Hb] & Hl & E). assert (file_length m' fs ino = file_length m fs ino) as El by (by apply same_length).
  assert (forall p, 0 <= p < file_length m fs ino -> file_byte m' fs ino p = file_byte m fs ino p) as Eb.
  { intros p Hp. apply same_byte; [done..|]. apply Hb; zlia. }
  split_and!; [|done|done]. unfold is_program. rewrite El, !Eb by lia. split_and!; try apply E; try lia.
  by apply (same_file_ok m m').
Qed.

(** The header: the magic number and the entry point. *)
Lemma header_read m fs ino buf m' : is_program m fs ino -> 0 <= buf -> buf + FILE_H_SIZE <= W32 ->
  mem_copied m m' buf (fun i => file_byte m fs ino (0 + i)) FILE_H_SIZE ->
  strncmp (at_ m' buf) elf_magic 4 = Some 0 /\ rd32 m' (buf + 4 * 6) = file_word m fs ino 24.
Proof.
  intros (_ & _ & E0 & E1 & E2 & E3) Hb0 Hb1 C.
  assert (forall i, 0 <= i < FILE_H_SIZE -> rd m' (buf + i) = file_byte m fs ino i) as R.
  { intros i Hi. rewrite (mem_copied_in _ _ _ _ _ _ C ltac:(lia) i) by (lia || done).
    apply u8_small, file_byte_range. }
  split.
  - assert (is_bytes elf_magic) as Bm by (apply arr_at_bytes; repeat constructor; cbn; lia).
    destruct (strncmp_spec (at_ m' buf) elf_magic 4 (at_bytes _ _) Bm ltac:(lia)) as (r & E & _). rewrite E. f_equal.
    apply (strncmp_zero (at_ m' buf) elf_magic 4 r (at_bytes _ _) Bm ltac:(lia) E). intros i Hi _. unfold at_. rewrite R by lia.
    assert (i = 0 \/ i = 1 \/ i = 2 \/ i = 3) as [->|[->|[->| ->]]] by lia; done.
  - unfold rd32, file_word. rewrite <- !Z.add_assoc. by rewrite !R by lia.
Qed.

Lemma exec_load_spec f d phys k :
  let m := k_mem k in let fs := fs_addr k in let ino := inode_num d in
  image_ok m fs -> fs + image_size m fs <= PROGRAM_1_PHYS -> is_program m fs ino ->
  PROGRAM_1_PHYS <= phys -> phys + FOUR_MB <= PAGE_TABLE_STARTADDR ->
  resolve_virt_addr m (cr3 (k_cpu k)) (PROGRAM_VIRT + PROGRAM_VIRT_OFF) = phys + PROGRAM_VIRT_OFF ->
  wp (exec_load f d) (fun r k' => exists m', r = User (rd32 m (file_data f + 4 * 6)) (PROGRAM_VIRT + FOUR_MB - 4) /\
    mem_copied m m' (phys + PROGRAM_VIRT_OFF) (file_byte m fs ino) (file_length m fs ino) /\
    k' = set_k_cpu (set_iflag true (k_cpu k)) (set_k_mem m' k)) k.
Proof.
  intros m fs ino Himg Hfs Hprog Hp Hp' Hres. unfold exec_load, user_ptr. wp_steps. unfold id. fold m fs ino.
  rewrite Hres, (proj2 (Z.eqb_neq _ 0)) by lia. wp_steps. fold (file_length m fs ino).
  destruct Hprog as (Hok & Hl & _).
  destruct (read_data_file m fs ino 0 (phys + PROGRAM_VIRT_OFF) (file_length m fs ino)) as (m' & E & C);
    [done|done|lia|lia|lia|split_and!; lia|].
  eapply wp_lift; [exact E|]. cbn beta iota. wp_steps. exists m'. split_and!; [done| |done].
  rewrite Z.sub_0_r, Z.min_id, Z.max_r in C by lia. exact C.
Qed.

(** ** execute *)

(** Up to the lookup of the file. *)
Lemma sys_execute_parse f command a b c d k Q : parsed command a b c d -> b - a <= CMD_BUF_SIZE ->
  our_popcount (pcb_status (k_proc k)) <> MAX_PROCESSES ->
  (forall m1, mem_copied (k_mem k) m1 (cmd f) (name_of command a b) (b - a + 1) ->
     wp (exec_file f command b) Q (set_k_mem m1 (set_k_cpu (set_iflag false (k_cpu k)) k))) ->
  wp (sys_execute f command) Q k.
Proof.
  intros (B & Hab & Hcd & Hd & S1 & S2 & N1 & N2 & _) Hlen Hpop HQ. unfold sys_execute. wp_steps.
  change (pcb_status (k_proc (set_k_cpu _ k))) with (pcb_status (k_proc k)).
  rewrite (proj2 (Z.eqb_neq _ MAX_PROCESSES)) by done. wp_steps.
  rewrite (skip_spaces_spec command 0 a) by (done || lia). cbn [lift]. wp_steps.
  destruct (copy_cmd_spec command (cmd f) (k_mem k) a b) as (m1 & E & C); [lia|lia|lia|done|done|].
  eapply wp_lift; [exact E|]. cbn beta iota. wp_steps. by apply HQ.
Qed.

(** What execute stores to: the two arrays on its stack, the page directory and the
    page of the new process. *)
Definition exec_frame (f : frame) (dir page : Z) (m m' : memory) : Prop :=
  forall a, 0 <= a < W32 -> a < cmd f \/ cmd f + 33 <= a -> a < file_data f \/ file_data f + 30 <= a ->
    a < dir \/ dir + SIZEOFDIR <= a -> a < page \/ page + FOUR_MB <= a -> rd m' a = rd m a.

(** What a started process is. *)
Definition started (k k' : kernel) (tid par blk : Z) (b : pcb_t) : Prop :=
  slot_taken k (pcb_num b) /\ blk = pcb_addr (pcb_num b) /\
  pcb_status (k_proc k') = Z.lor (pcb_status (k_proc k)) (2 ^ pcb_num b) /\
  cur_pcb (k_proc k') = blk /\ pcbs (k_proc k') = <[blk := b]> (save_regs (k_cpu k) par (pcbs (k_proc k))) /\
  pid b = numproc (k_proc k) /\ numproc (k_proc k') = u32 (numproc (k_proc k) + 1) /\
  except_raised (k_proc k') = except_raised (k_proc k) /\ cr3 (k_cpu k') = cr3 (k_cpu k) /\
  parent_task b = par /\ term_num b = tid /\ pcb_ok b /\ page_addr b = PROGRAM_1_PHYS + pcb_num b * FOUR_MB /\
  tss_esp0 (k_cpu k') = END_OF_KERNEL_PAGE - pcb_num b * PCB_PLUS_STACK - 4 /\ esp0 b = tss_esp0 (k_cpu k') /\
  io_files b !! 0%nat = Some (opened stdin 0) /\ io_files b !! 1%nat = Some (opened stdout 0) /\
  (forall i f, (2 <= i)%nat -> io_files b !! i = Some f -> flags f = NOT_USED /\ file_ops f = empty_f_ops_tab).

Lemma std_fds_files b : pcb_ok b -> all_free b ->
  io_files (std_fds b) !! 0%nat = Some (opened stdin 0) /\ io_files (std_fds b) !! 1%nat = Some (opened stdout 0) /\
  (forall i f, (2 <= i)%nat -> io_files (std_fds b) !! i = Some f -> flags f = NOT_USED /\ file_ops f = empty_f_ops_tab).
Proof.
  intros [L _] F. unfold std_fds, with_fd. cbn [io_files set_io_files].
  change (Z.to_nat 0) with 0%nat. change (Z.to_nat 1) with 1%nat. split_and!.
  - rewrite list_lookup_insert_ne by lia. apply list_lookup_insert_eq. lia.
  - apply list_lookup_insert_eq. rewrite length_insert. lia.
  - intros i f Hi. rewrite !list_lookup_insert_ne by lia. intros Hf. by apply (Forall_lookup_1 _ _ _ _ F Hf).
Qed.

(** The terminal and parent of the new process, seen after the slot is taken. *)
Lemma starts_on_taken k k' tid par t off : starts_on k tid par t -> k_disp k' = k_disp k -> slot_taken k off ->
  starting_new_shell (k_proc k') = starting_new_shell (k_proc k) -> pcbs (k_proc k') = pcbs (k_proc k) ->
  pcb_status (k_proc k') = Z.lor (pcb_status (k_proc k)) (2 ^ off) ->
  starts_on k' tid par t /\ pcb_addr off <> par.
Proof.
  intros (H1 & H2 & H3) Ed (S1 & S2 & S3 & _) E1 E2 E3.
  destruct H3 as [(A1 & A2 & A3)|(A1 & A2 & A3 & i & Hi & A4 & A5 & A6)].
  - split; [|rewrite A3; by apply pcb_addr_nonzero]. unfold starts_on. rewrite Ed, E1. split_and!; [done|done|by left].
  - split; [|rewrite A4; intros E; by apply (S3 i)]. unfold starts_on. rewrite Ed, E1, E2, E3. split_and!; [done|done|].
    right. split_and!; [done..|]. exists i. split_and!; [lia|lia|done|by rewrite Z.lor_spec, A5|done].
Qed.

(** The name on the stack leaves the image alone. *)
Lemma cmd_image f command a b c d k m1 : exec_layout k f -> parsed command a b c d -> b - a <= CMD_BUF_SIZE ->
  mem_copied (k_mem k) m1 (cmd f) (name_of command a b) (b - a + 1) -> image_same (k_mem k) m1 (fs_addr k).
Proof.
  intros (Himg & Hfs & _ & _ & _ & _ & (Hc1 & Hc2 & Hc3 & _) & _) (_ & Hab & _) Hlen C1 x Hx.
  destruct Himg as [Hfs0 _]. apply (mem_copied_rd _ _ _ _ _ _ C1); unfold apart in *; lia.
Qed.

(** From the lookup to the check of the header, for any sound file. *)
Lemma exec_file_until f command a b c d i k :
  let m := k_mem k in let fs := fs_addr k in let ino := inode_num (dentry_at m (entry_addr fs i)) in
  exec_layout k f -> slots_left k -> parsed command a b c d -> b - a <= CMD_BUF_SIZE -> d - c <= 128 ->
  first_named m fs i (name_of command a b) -> file_ok m fs ino ->
  forall m1 Q, mem_copied m m1 (cmd f) (name_of command a b) (b - a + 1) ->
  (forall off p m2 r, slot_taken k off -> pcb_ok p -> pcb_num p = off -> all_free p ->
     arg p = arg_of command c d ++ replicate (129 - Z.to_nat (d - c)) 0 ->
     mem_copied m1 m2 (file_data f) (fun q => file_byte m1 fs ino (0 + q))
       (Z.max 0 (Z.min FILE_H_SIZE (file_length m1 fs ino - 0))) ->
     strncmp (at_ m2 (file_data f)) elf_magic 4 = Some r ->
     wp (if c_true r then sti ;; mret (Back (-1)) else
         exec_map (pcb_addr off) ;; exec_switch (pcb_addr off) ;; exec_load f (dentry_at m (entry_addr fs i))) Q
       (with_pcb (pcb_addr off) p (set_k_mem m2 (take_slot off (set_k_cpu (set_iflag false (k_cpu k)) k))))) ->
  wp (exec_file f command b) Q (set_k_mem m1 (set_k_cpu (set_iflag false (k_cpu k)) k)).
Proof.
  intros m fs ino Hlay Hslots Hparsed Hname Harg Hnamed Hok m1 Q C1 HQ.
  pose proof (cmd_image f command a b c d k m1 Hlay Hparsed Hname C1) as I1. fold m fs in I1.
  destruct Hlay as (Himg & Hfs & Hnum & _ & _ & _ & _ & (Hf1 & Hf2 & Hf3 & _)). fold m fs in Himg, Hnum, Hf3.
  destruct Hparsed as (Hb & Hab & Hcd & Hd & _ & _ & Hn & _ & Hsp & Hsp' & Hnz & Hend).
  unfold exec_file. wp_steps. set (k1 := set_k_mem m1 _).
  change (k_mem k1) with m1. change (fs_addr k1) with fs.
  eapply wp_lift; [exact (cmd_found m m1 fs Himg I1 Hnum command (cmd f) a b Hb ltac:(lia) Hn C1 i Hnamed)|].
  cbn beta iota. change (SUCCESS =? -1) with false. cbv iota. wp_steps. apply (wp_lift _ _ _ _ _ eq_refl). wp_steps.
  eapply wp_mono; [|exact (exec_pcb_spec f command b c d k1 Hslots Hb ltac:(lia) ltac:(lia) Hd Harg Hsp Hsp' Hnz Hend)].
  intros blk k2 (off & p & Hslot & -> & Hpok & Hpnum & Hpfree & Hparg & ->). cbn beta.
  wp_steps. change (k_mem (with_pcb _ _ _)) with m1. fold ino.
  destruct (read_data_file m1 fs ino 0 (file_data f) FILE_H_SIZE) as (m2 & E2 & C2);
    [by apply (same_image_ok m)|by apply (same_file_ok m)|lia|lia|lia| |].
  { split_and!; [lia|lia|]. rewrite (same_size m m1 fs I1). unfold apart in Hf3. lia. }
  eapply wp_lift; [exact E2|]. cbn beta iota. wp_steps.
  assert (is_bytes elf_magic) as Bm by (apply arr_at_bytes; repeat constructor; cbn; lia).
  destruct (strncmp_spec (at_ m2 (file_data f)) elf_magic 4 (at_bytes _ _) Bm ltac:(lia)) as (r & Er & _).
  eapply wp_lift; [exact Er|]. by apply (HQ off p m2 r).
Qed.

Section starting.
Context (f : frame) (command : Z -> Z) (a b c d i tid par : Z) (t : term_t) (k : kernel).
Let m := k_mem k.
Let fs := fs_addr k.
Let dir := cr3 (k_cpu k).
Let ino := inode_num (dentry_at m (entry_addr fs i)).
Hypothesis Hlay : exec_layout k f.
Hypothesis Hslots : slots_left k.
Hypothesis Hparsed : parsed command a b c d.
Hypothesis Hname : b - a <= CMD_BUF_SIZE.
Hypothesis Harg : d - c <= 128.
Hypothesis Hnamed : first_named m fs i (name_of command a b).
Hypothesis Hprog : is_program m fs ino.
Hypothesis Hstart : starts_on k tid par t.

(** The outcome. *)
Definition runs (k' : kernel) (blk : Z) (p : pcb_t) : Prop :=
  started k k' tid par blk p /\ arg p = arg_of command c d ++ replicate (129 - Z.to_nat (d - c)) 0 /\
  k_disp k' = set_terminals (<[Z.to_nat tid := set_cur_task blk t]> (terminals (k_disp k))) (k_disp k) /\
  program_mapped m (k_mem k') dir (page_addr p) /\
  (forall q, 0 <= q < file_length m fs ino ->
     rd (k_mem k') (page_addr p + PROGRAM_VIRT_OFF + q) = file_byte m fs ino q) /\
  image_same m (k_mem k') fs /\ iflag (k_cpu k') = true /\
  exec_frame f dir (page_addr p) m (k_mem k') /\ k_kbd k' = k_kbd k /\ fs_addr k' = fs /\
  starting_new_shell (k_proc k') = starting_new_shell (k_proc k).

Lemma stack_tables m1 m2 :
  mem_copied m m1 (cmd f) (name_of command a b) (b - a + 1) ->
  mem_copied m1 m2 (file_data f) (fun q => file_byte m1 fs ino (0 + q)) FILE_H_SIZE -> tables_same m m2 dir.
Proof using Hlay Hparsed Hname.
  intros C1 C2. pose proof Hlay as L. unfold exec_layout in L. cbv zeta in L. fold m fs dir in L.
  destruct L as (_ & _ & _ & (Hdir0 & _) & Hdir & _ & (Hc1 & Hc2 & _ & Hc4) & (Hf1 & Hf2 & _ & Hf4)).
  pose proof Hparsed as (_ & Hab & _).
  eapply tables_same_trans; [eapply (copied_tables m m1)|eapply (copied_tables m1 m2)];
    try eassumption; unfold apart in *; lia.
Qed.

(** The memory before the program is loaded: the name and the header on the
    stack, and the directory entry. *)
Lemma memory_before m1 m2 m3 phys :
  mem_copied m m1 (cmd f) (name_of command a b) (b - a + 1) ->
  mem_copied m1 m2 (file_data f) (fun q => file_byte m1 fs ino (0 + q)) FILE_H_SIZE ->
  program_mapped m2 m3 dir phys -> differs_within m2 m3 dir SIZEOFDIR ->
  image_same m m1 fs /\ image_same m m3 fs /\ program_mapped m m3 dir phys /\
  (forall q, 0 <= q < 30 -> rd m3 (file_data f + q) = rd m2 (file_data f + q)).
Proof using Hlay Hparsed Hname.
  intros C1 C2 [W3 R3] D3.
  pose proof Hlay as L. unfold exec_layout in L. cbv zeta in L. fold m fs dir in L.
  destruct L as (Himg & Hfs & _ & Hwf & Hdir & Hap & (Hc1 & Hc2 & Hc3 & Hc4) & (Hf1 & Hf2 & Hf3 & Hf4)).
  pose proof Hwf as (Hdir0 & _). pose proof Hparsed as (_ & Hab & _).
  pose proof (image_size_pos m fs) as Hsz. pose proof Himg as [Hfs0 _].
  assert (image_same m m1 fs) as I1.
  { clear R3. intros x Hx. apply (mem_copied_rd _ _ _ _ _ _ C1); unfold apart in *; lia. }
  split_and!; [done| | |].
  - clear R3. intros x Hx. rewrite (within_rd _ _ _ _ x D3) by (unfold apart in *; lia).
    rewrite (mem_copied_rd _ _ _ _ _ x C2) by (unfold apart in *; lia). by apply I1.
  - split; [exact W3|]. intros va Hva. rewrite R3 by done. case_if; [done|].
    apply tables_same_resolve; [by eapply stack_tables|done|done].
  - clear R3. intros q Hq. apply (within_rd _ _ _ _ _ D3); unfold apart in *; lia.
Qed.

(** Loading the program disturbs neither the image nor the page tables. *)
Lemma memory_after m3 m4 phys : PROGRAM_1_PHYS <= phys -> phys + FOUR_MB <= PAGE_TABLE_STARTADDR ->
  image_same m m3 fs -> program_mapped m m3 dir phys ->
  mem_copied m3 m4 (phys + PROGRAM_VIRT_OFF) (file_byte m3 fs ino) (file_length m3 fs ino) ->
  image_same m m4 fs /\ program_mapped m m4 dir phys /\
  (forall q, 0 <= q < file_length m fs ino -> rd m4 (phys + PROGRAM_VIRT_OFF + q) = file_byte m fs ino q).
Proof using Hlay Hprog.
  intros Hp1 Hp2 I3 [W3 R3] C4.
  pose proof Hlay as L. unfold exec_layout in L. cbv zeta in L. fold m fs dir in L.
  destruct L as (Himg & Hfs & _ & Hwf & Hdir & _). pose proof Hwf as (Hdir0 & _). pose proof Himg as [Hfs0 _].
  destruct (same_program m m3 fs ino Himg I3 Hprog) as (_ & L3 & B3). destruct Hprog as (_ & Hl & _).
  rewrite L3 in C4.
  assert (tables_same m3 m4 dir) as T4.
  { eapply (copied_tables m3 m4); try eassumption; unfold apart; lia. }
  split_and!.
  - intros x Hx. rewrite (mem_copied_rd _ _ _ _ _ x C4) by lia. by apply I3.
  - split; [by apply (tables_same_wf m3)|]. intros va Hva. rewrite (tables_same_resolve m3) by done. by apply R3.
  - intros q Hq. rewrite (mem_copied_in _ _ _ _ _ _ C4 ltac:(lia) q) by (lia || done).
    rewrite u8_small by apply file_byte_range. by apply B3.
Qed.

(** All that execute stores. *)
Lemma frame_steps m1 m2 m3 m4 phys : PROGRAM_1_PHYS <= phys -> phys + FOUR_MB <= PAGE_TABLE_STARTADDR ->
  mem_copied m m1 (cmd f) (name_of command a b) (b - a + 1) ->
  mem_copied m1 m2 (file_data f) (fun q => file_byte m1 fs ino (0 + q)) FILE_H_SIZE ->
  differs_within m2 m3 dir SIZEOFDIR -> image_same m m3 fs ->
  mem_copied m3 m4 (phys + PROGRAM_VIRT_OFF) (file_byte m3 fs ino) (file_length m3 fs ino) -> exec_frame f dir phys m m4.
Proof using Hlay Hparsed Hname Hprog.
  intros Hp1 Hp2 C1 C2 D3 I3 C4 x Hx X1 X2 X3 X4.
  pose proof Hlay as L. unfold exec_layout in L. cbv zeta in L. fold m fs dir in L.
  destruct L as (Himg & _ & _ & (Hdir0 & _) & Hdir & _ & (Hc1 & Hc2 & _) & (Hf1 & Hf2 & _)). pose proof Hparsed as (_ & Hab & _).
  destruct (same_program m m3 fs ino Himg I3 Hprog) as (_ & L3 & _). destruct Hprog as (_ & Hl & _). rewrite L3 in C4.
  rewrite (mem_copied_rd _ _ _ _ _ x C4) by lia. rewrite (within_rd _ _ _ _ x D3) by lia.
  rewrite (mem_copied_rd _ _ _ _ _ x C2) by lia. apply (mem_copied_rd _ _ _ _ _ x C1); lia.
Qed.

(** A program passes the check of its header. *)
Lemma exec_file_header m1 Q : mem_copied m m1 (cmd f) (name_of command a b) (b - a + 1) ->
  (forall off p m2, slot_taken k off -> pcb_ok p -> pcb_num p = off -> all_free p ->
     arg p = arg_of command c d ++ replicate (129 - Z.to_nat (d - c)) 0 ->
     mem_copied m1 m2 (file_data f) (fun q => file_byte m1 fs ino (0 + q)) FILE_H_SIZE ->
     wp (exec_map (pcb_addr off) ;; exec_switch (pcb_addr off) ;; exec_load f (dentry_at m (entry_addr fs i))) Q
       (with_pcb (pcb_addr off) p (set_k_mem m2 (take_slot off (set_k_cpu (set_iflag false (k_cpu k)) k))))) ->
  wp (exec_file f command b) Q (set_k_mem m1 (set_k_cpu (set_iflag false (k_cpu k)) k)).
Proof using Hlay Hslots Hparsed Hname Harg Hnamed Hprog.
  intros C1 HQ. apply (exec_file_until f command a b c d i k Hlay Hslots Hparsed Hname Harg Hnamed (proj1 Hprog) m1 Q C1).
  intros off p m2 r H1 H2 H3 H4 H5 C2 Hr.
  destruct (Hlay) as (Himg & _ & _ & _ & _ & _ & (Hc1 & Hc2 & Hc3 & _) & (Hf1 & Hf2 & _)). fold m fs in Himg, Hc3.
  assert (image_same m m1 fs) as I1 by (by apply (cmd_image f command a b c d k)).
  destruct (same_program m m1 fs ino Himg I1 Hprog) as (P1 & _).
  fold m fs in C2. fold ino in C2. rewrite Z.sub_0_r, Z.min_l, Z.max_r in C2 by (destruct P1 as (_ & P & _); lia).
  destruct (header_read m1 fs ino (file_data f) m2 P1 ltac:(lia) ltac:(lia) C2) as [Hmagic _].
  rewrite Hr in Hmagic. injection Hmagic as ->. by apply HQ.
Qed.

(** The final state, described. *)
Lemma runs_final m4 m3 m2 p off (fl : bool) : slot_taken k off -> pcb_ok p -> pcb_num p = off -> all_free p ->
  arg p = arg_of command c d ++ replicate (129 - Z.to_nat (d - c)) 0 ->
  program_mapped m m4 dir (PROGRAM_1_PHYS + off * FOUR_MB) ->
  (forall q, 0 <= q < file_length m fs ino -> rd m4 (PROGRAM_1_PHYS + off * FOUR_MB + PROGRAM_VIRT_OFF + q) = file_byte m fs ino q) ->
  image_same m m4 fs -> exec_frame f dir (PROGRAM_1_PHYS + off * FOUR_MB) m m4 ->
  let k3 := set_k_mem m2 (take_slot off (set_k_cpu (set_iflag fl (k_cpu k)) k)) in
  let k5 := switched_kernel (pcb_addr off) tid par t (mapped_pcb k3 p) (mapped_kernel m3 p k3) in
  runs (set_k_cpu (set_iflag true (k_cpu k5)) (set_k_mem m4 k5)) (pcb_addr off)
    (std_fds (set_term_num tid (set_parent_task par (mapped_pcb k3 p)))).
Proof using.
  intros Hslot Hpok Hpnum Hpfree Hparg M4 Q4 I4 F4 k3 k5. subst off.
  destruct (std_fds_files (set_term_num tid (set_parent_task par (mapped_pcb k3 p))) Hpok Hpfree) as (G0 & G1 & G2).
  unfold runs. split_and!; [|exact Hparg|reflexivity|exact M4|exact Q4|exact I4|reflexivity|exact F4|reflexivity|reflexivity|reflexivity].
  unfold started. split_and!; first [exact G0|exact G1|exact G2|exact Hslot|reflexivity|by do 2 apply with_fd_ok].
Qed.

Lemma exec_rest_runs off p m1 m2 : slot_taken k off -> pcb_ok p -> pcb_num p = off -> all_free p ->
  arg p = arg_of command c d ++ replicate (129 - Z.to_nat (d - c)) 0 ->
  mem_copied m m1 (cmd f) (name_of command a b) (b - a + 1) ->
  mem_copied m1 m2 (file_data f) (fun q => file_byte m1 fs ino (0 + q)) FILE_H_SIZE ->
  wp (exec_map (pcb_addr off) ;; exec_switch (pcb_addr off) ;; exec_load f (dentry_at m (entry_addr fs i)))
    (fun r k' => exists blk p, r = User (file_word m fs ino 24) (PROGRAM_VIRT + FOUR_MB - 4) /\ runs k' blk p)
    (with_pcb (pcb_addr off) p (set_k_mem m2 (take_slot off (set_k_cpu (set_iflag false (k_cpu k)) k)))).
Proof using All.
  intros Hslot Hpok Hpnum Hpfree Hparg C1 C2.
  pose proof Hlay as L. unfold exec_layout in L. cbv zeta in L. fold m fs dir in L.
  destruct L as (Himg & Hfs & _ & Hwf & _ & _ & _ & Hf1 & Hf2 & _). pose proof Hslot as (Hoff & _).
  pose proof (pcb_addr_nonzero off Hoff) as Hblk. pose proof (stack_tables m1 m2 C1 C2) as T2.
  set (k3 := set_k_mem m2 _). apply wp_bind.
  eapply wp_mono; [|apply (exec_map_spec (pcb_addr off) p k3 Hblk); [lia|by apply (tables_same_wf m)]].
  intros [] k4 (m3 & M3 & D3 & ->). cbn beta. apply wp_bind.
  change (k_mem k3) with m2 in M3, D3. change (cr3 (k_cpu k3)) with dir in M3, D3. rewrite Hpnum in M3.
  destruct (starts_on_taken k (mapped_kernel m3 p k3) tid par t off) as [Hst Hne];
    [exact Hstart|reflexivity|exact Hslot|reflexivity|reflexivity|reflexivity|].
  eapply wp_mono; [|exact (exec_switch_spec (pcb_addr off) tid par t (mapped_pcb k3 p) (mapped_kernel m3 p k3) Hblk Hne Hpok Hpfree eq_refl Hst)].
  intros [] k6 ->. cbn beta. set (k6 := switched_kernel _ _ _ _ _ _).
  destruct (memory_before m1 m2 m3 (PROGRAM_1_PHYS + off * FOUR_MB) C1 C2 M3 D3) as (I1 & I3 & PM3 & F3).
  destruct (same_program m m3 fs ino Himg I3 Hprog) as (P3 & _). destruct (same_program m m1 fs ino Himg I1 Hprog) as (P1 & _ & B1).
  assert (rd32 m3 (file_data f + 4 * 6) = file_word m fs ino 24) as Hentry.
  { transitivity (rd32 m2 (file_data f + 4 * 6)).
    - unfold rd32. rewrite <- !Z.add_assoc. by rewrite !F3 by lia.
    - destruct (header_read m1 fs ino (file_data f) m2 P1 ltac:(lia) ltac:(lia) C2) as [_ ->].
      unfold file_word. by rewrite !B1 by (destruct Hprog; lia). }
  eapply wp_mono; [|apply (exec_load_spec f (dentry_at m (entry_addr fs i)) (PROGRAM_1_PHYS + off * FOUR_MB) k6);
    [exact (same_image_ok m m3 fs Himg I3)| |exact P3|lia|lia|]].
  - intros r k7 (m4 & -> & C4 & ->).
    destruct (memory_after m3 m4 (PROGRAM_1_PHYS + off * FOUR_MB) ltac:(lia) ltac:(lia) I3 PM3 C4) as (I4 & M4 & Q4).
    exists (pcb_addr off). eexists. split; [|eapply (runs_final m4 m3 m2 p off false); try done; by apply (frame_steps m1 m2 m3 m4); [lia|lia|..]].
    change (k_mem k6) with m3. by rewrite Hentry.
  - change (fs + image_size m3 fs <= PROGRAM_1_PHYS). by rewrite (same_size m m3 fs I3).
  - change (resolve_virt_addr m3 dir (PROGRAM_VIRT + PROGRAM_VIRT_OFF) = PROGRAM_1_PHYS + off * FOUR_MB + PROGRAM_VIRT_OFF).
    destruct PM3 as [_ R3]. rewrite R3 by lia. reflexivity.
Qed.

Lemma execute_runs : wp (sys_execute f command) (fun r k' => exists blk p,
  r = User (file_word m fs ino 24) (PROGRAM_VIRT + FOUR_MB - 4) /\ runs k' blk p) k.
Proof using All.
  eapply sys_execute_parse; [exact Hparsed|done|apply Hslots|]. intros m1 C1.
  apply exec_file_header; [exact C1|]. intros. by apply (exec_rest_runs off p m1 m2).
Qed.
End starting.

(** ** Properties *)

(** [C4] execute starts a program: for a command whose first word names an ELF file of
    the image, with a free process slot, it ends in user mode at the file's entry
    point with the stack at the end of the program page; the file is loaded at
    0x8048000 of an address space in which only the program page was remapped,
    to the frame of the slot; the new process is the current one, runs on its
    terminal with the argument the command gave, stdin and stdout open, a fresh
    pid and kernel stack, and its parent (whose registers are saved) to return to;
    the file system image and all other blocks and terminals are as before, and memory
    is changed only in the page directory, the page of the process and the kernel stack. *)
Theorem execute_starts_program f command a b c d i tid par t k :
  let m := k_mem k in let fs := fs_addr k in let ino := inode_num (dentry_at m (entry_addr fs i)) in
  exec_layout k f -> slots_left k -> parsed command a b c d -> b - a <= CMD_BUF_SIZE -> d - c <= 128 ->
  first_named m fs i (name_of command a b) -> is_program m fs ino -> starts_on k tid par t ->
  exists k' blk p, sys_execute f command k = Ret (User (file_word m fs ino 24) 0x83FFFFC) k' /\
    started k k' tid par blk p /\ arg p = arg_of command c d ++ replicate (129 - Z.to_nat (d - c)) 0 /\
    k_disp k' = set_terminals (<[Z.to_nat tid := set_cur_task blk t]> (terminals (k_disp k))) (k_disp k) /\
    program_mapped m (k_mem k') (cr3 (k_cpu k)) (page_addr p) /\
    (forall q, 0 <= q < file_length m fs ino ->
       rd (k_mem k') (resolve_virt_addr (k_mem k') (cr3 (k_cpu k)) (0x8048000 + q)) = file_byte m fs ino q) /\
    image_same m (k_mem k') fs /\ exec_frame f (cr3 (k_cpu k)) (page_addr p) m (k_mem k') /\ iflag (k_cpu k') = true.
Proof.
  intros m fs ino H1 H2 H3 H4 H5 H6 H7 H8.
  pose proof (execute_runs f command a b c d i tid par t k H1 H2 H3 H4 H5 H6 H7 H8) as W.
  apply wp_ret_iff in W as (r & k' & E & blk & p & -> & R1 & R2 & R3 & R4 & R5 & R6 & R7 & R8 & _).
  exists k', blk, p. split_and!; [exact E|exact R1|exact R2|exact R3|exact R4| |exact R6|exact R8|exact R7].
  intros q Hq. destruct H7 as (_ & Hl & _). fold m fs ino in R5. rewrite <- (R5 q Hq). f_equal.
  destruct R4 as [_ R4]. rewrite R4 by lia.
  replace ((0x8048000 + q) / FOUR_MB =? PROGRAM_VIRT / FOUR_MB) with true; [zlia|].
  symmetry. apply Z.eqb_eq. change (PROGRAM_VIRT / FOUR_MB) with 32. zlia.
Qed.

(** A command whose first word is no file of the image. *)
Lemma execute_refuses f command a b c d k :
  exec_layout k f -> our_popcount (pcb_status (k_proc k)) <> MAX_PROCESSES -> parsed command a b c d ->
  b - a <= CMD_BUF_SIZE ->
  (forall i, 0 <= i < rd32 (k_mem k) (fs_addr k) -> ~ has_name (k_mem k) (fs_addr k) i (name_of command a b)) ->
  wp (sys_execute f command) (fun r k' => r = Back (-1) /\ exists m1,
    k' = set_k_mem m1 (set_k_cpu (set_iflag true (k_cpu k)) k) /\ differs_within (k_mem k) m1 (cmd f) 33) k.
Proof.
  intros Hlay Hpop Hparsed Hname Hnone. eapply sys_execute_parse; [exact Hparsed|done|done|]. intros m1 C1.
  pose proof (cmd_image f command a b c d k m1 Hlay Hparsed Hname C1) as I1.
  destruct Hlay as (Himg & _ & Hnum & _). destruct Hparsed as (Hb & Hab & _ & _ & _ & _ & Hn & _).
  unfold exec_file. wp_steps. eapply wp_lift;
    [exact (cmd_missing (k_mem k) m1 (fs_addr k) Himg I1 Hnum command (cmd f) a b Hb ltac:(lia) Hn C1 Hnone)|].
  cbn beta iota. change (FAILURE =? -1) with true. cbv iota. wp_steps. split; [done|].
  exists m1. split; [by destruct k as [? ? ? []]|]. intros x Hx. apply (mem_copied_out _ _ _ _ _ _ C1). lia.
Qed.


(** ** A machine with one program and one text file

    The page directory is at 0x401000; the program page is mapped to 8MB. *)

Definition store_bytes (m : memory) (a : Z) (bs : list Z) : memory := blit m a (arr_at bs) (length bs).

Definition demo_fs : Z := 0x410000.
Definition demo_image : memory :=
  let m := wr32 (wr32 (wr32 ∅ demo_fs 2) (demo_fs + 4) 2) (demo_fs + 8) 2 in
  let m := store_bytes m (demo_fs + 64) (bytes_of_string "shell") in
  let m := wr32 (wr32 m (demo_fs + 96) 2) (demo_fs + 100) 0 in
  let m := store_bytes m (demo_fs + 128) (bytes_of_string "txt") in
  let m := wr32 (wr32 m (demo_fs + 160) 2) (demo_fs + 164) 1 in
  let m := wr32 (wr32 m (demo_fs + 4096) 32) (demo_fs + 4100) 0 in
  let m := wr32 (wr32 m (demo_fs + 8192) 4) (demo_fs + 8196) 1 in
  let m := store_bytes m (demo_fs + 12288) [127; 69; 76; 70] in
  let m := wr32 m (demo_fs + 12312) 0x80482E8 in
  let m := store_bytes m (demo_fs + 16384) (bytes_of_string "text") in
  wr32 m 0x401080 0x800087.

Definition demo_kernel : kernel :=
  set_k_proc (set_starting_new_shell true (k_proc three_terms)) (set_fs_addr demo_fs (set_k_mem demo_image three_terms)).
Definition demo_frame : frame := mk_frame 0x7FF000 0x7FF100.

Lemma demo_image_only a : 0 <= a < W32 -> a < 0x401080 \/ 0x401084 <= a < demo_fs -> rd demo_image a = 0.
Proof.
  intros Ha Ho. assert (map_Forall (fun x _ => 0x401080 <= x < 0x401084 \/ demo_fs <= x) demo_image) as F
    by (apply (bool_decide_unpack _); vm_compute; exact I).
  unfold rd. rewrite u32_small by done. destruct (demo_image !! a) as [v|] eqn:E; [|done].
  apply F in E. unfold demo_fs in *. lia.
Qed.

Lemma demo_paging : paging_wf demo_image 0x401000.
Proof.
  split_and!; [lia|lia|]. intros i Hi Hp Hl. exfalso. destruct (Z.eq_dec i 32) as [->|Hne].
  { vm_compute in Hl. discriminate Hl. }
  assert (dir_entry demo_image 0x401000 i = 0) as E
    by (unfold dir_entry, rd32; by rewrite !demo_image_only by (unfold demo_fs; lia)).
  rewrite E in Hp. discriminate Hp.
Qed.

Lemma demo_layout : exec_layout demo_kernel demo_frame.
Proof.
  assert (image_size demo_image demo_fs = 20480) as E by reflexivity.
  unfold exec_layout. cbv zeta. change (k_mem demo_kernel) with demo_image. change (fs_addr demo_kernel) with demo_fs.
  change (cr3 (k_cpu demo_kernel)) with 0x401000. unfold image_ok, apart. rewrite E. unfold demo_fs, demo_frame. cbn [cmd file_data].
  split_and!; try lia; [vm_compute; discriminate|apply demo_paging].
Qed.

(** Parsing and names, by evaluation. *)
Lemma parsed_check command a b c d : is_bytes command -> 0 <= a <= b -> b <= c <= d -> d < W32 - 1 ->
  forallb (fun j => command j =? 32) (seqZ 0 a) && negb (command a =? 32) &&
  forallb (fun j => negb (command j =? 32) && negb (command j =? 0)) (seqZ a (b - a)) &&
  ((command b =? 32) || (command b =? 0)) && forallb (fun j => command j =? 32) (seqZ b (c - b)) &&
  negb (command c =? 32) && forallb (fun j => negb (command j =? 0)) (seqZ c (d - c)) && (command d =? 0) = true ->
  parsed command a b c d.
Proof.
  intros Hb Hab Hcd Hd H. repeat (apply andb_true_iff in H as [H ?]).
  assert (forall (g : Z -> bool) x n j, forallb g (seqZ x n) = true -> x <= j < x + n -> g j = true) as R
    by (intros; by eapply forallb_range).
  b2p. unfold parsed. split_and!; try lia; try done.
  - intros j Hj. apply Z.eqb_eq. by apply (R (fun j => command j =? 32) 0 a j).
  - intros j Hj. pose proof (R _ a (b - a) j ltac:(eassumption) ltac:(lia)) as G. cbn beta in G. b2p. done.
  - intros j Hj. apply Z.eqb_eq. apply (R (fun j => command j =? 32) b (c - b) j); [done|lia].
  - intros j Hj. pose proof (R _ c (d - c) j ltac:(eassumption) ltac:(lia)) as G. cbn beta in G. b2p. done.
Qed.

Lemma has_name_check m fs i fname l : 0 <= l -> at_ m (entry_addr fs i) l = 0 ->
  forallb (fun j => at_ m (entry_addr fs i) j =? fname j) (seqZ 0 (l + 1)) = true -> has_name m fs i fname.
Proof.
  intros Hl Hz H j Hj Hnz. destruct (Z_le_gt_dec j l); [|exfalso; apply (Hnz l); [lia|done]].
  apply Z.eqb_eq. apply (forallb_range (fun j => at_ m (entry_addr fs i) j =? fname j) 0 (l + 1) j H). lia.
Qed.

Definition demo_command : Z -> Z := lit "  shell  -v".
Lemma demo_parsed : parsed demo_command 2 7 9 11.
Proof. apply parsed_check; [apply lit_bytes|lia|lia|lia|vm_compute; reflexivity]. Qed.
Lemma text_parsed : parsed (lit "txt") 0 3 3 3.
Proof. apply parsed_check; [apply lit_bytes|lia|lia|lia|vm_compute; reflexivity]. Qed.
Lemma none_parsed : parsed (lit "nope") 0 4 4 4.
Proof. apply parsed_check; [apply lit_bytes|lia|lia|lia|vm_compute; reflexivity]. Qed.

Lemma demo_slots : slots_left demo_kernel.
Proof. split_and!; [split; vm_compute; congruence|vm_compute; discriminate|apply map_Forall_empty]. Qed.

(** Both files have one block. *)
Lemma demo_file ino : 0 <= ino < 2 -> file_length demo_image demo_fs ino <= 32 -> file_ok demo_image demo_fs ino.
Proof.
  intros Hi Hl. split.
  - split; [change (0 <= ino < 2); lia|lia].
  - intros b Hb Hlt. assert (b = 0) as -> by lia.
    assert (ino = 0 \/ ino = 1) as [-> | ->] by lia; vm_compute; reflexivity.
Qed.

(** The first characters differ. *)
Lemma not_named m fs i fname : at_ m (entry_addr fs i) 0 <> fname 0 -> ~ has_name m fs i fname.
Proof. intros H N. apply H. apply N; [lia|intros; lia]. Qed.

Lemma demo_named : first_named demo_image demo_fs 0 (name_of demo_command 2 7).
Proof.
  split_and!; [vm_compute; discriminate|vm_compute; reflexivity| |intros; lia].
  apply (has_name_check _ _ _ _ 5); [lia|vm_compute; reflexivity|vm_compute; reflexivity].
Qed.

Lemma demo_program : is_program demo_image demo_fs (inode_num (dentry_at demo_image (entry_addr demo_fs 0))).
Proof.
  replace (inode_num _) with 0 by (vm_compute; reflexivity).
  split; [apply demo_file; [lia|vm_compute; discriminate]|]. vm_compute. repeat split; congruence.
Qed.

Lemma execute_starts_program_witness : exists k',
  sys_execute demo_frame demo_command demo_kernel = Ret (User 0x80482E8 0x83FFFFC) k' /\
  image_same (k_mem demo_kernel) (k_mem k') demo_fs.
Proof.
  destruct (execute_starts_program demo_frame demo_command 2 7 9 11 0 0 0 (term_start 0 term_boot) demo_kernel)
    as (k' & blk & p & E & _ & _ & _ & _ & _ & I & _).
  - apply demo_layout.
  - apply demo_slots.
  - apply demo_parsed.
  - lia.
  - lia.
  - exact demo_named.
  - exact demo_program.
  - split_and!; [lia|reflexivity|]. left. split_and!; reflexivity.
  - exists k'. split; [exact E|exact I].
Defined.

