(* ===== verification/Calls.v ===== *)
(** * The other system calls: halt, getargs, and the calls on descriptors

    Properties of the calls of Syscalls.v other than execute, and of execute and
    halt together. *)

From Stdlib Require Import ZArith Lia String.
From stdpp Require Import gmap list numbers strings.
From S2P Require Import Prelude Memory LibString State Display Paging Pcb Rtc FileSystem Vfs MultiTerm Keyboard Terminal Syscalls Execute.

(** ** halt *)

(** The bit that halt clears. *)
Lemma clear_slot s off : slots_ok s -> 0 <= off < MAX_PROCESSES ->
  u32 (END_OF_KERNEL_PAGE - pcb_addr off) / PCB_PLUS_STACK = off + 1 /\
  forall i, 0 <= i -> Z.testbit (Z.land s (u32 (Z.lnot (Z.shiftl 1 off)))) i = Z.testbit s i && negb (i =? off).
Proof.
  intros Hs Hoff. split.
  - rewrite pcb_addr_eq by lia. rewrite u32_small by lia. zlia.
  - intros i Hi. rewrite Z.land_spec. destruct (Z_lt_le_dec i 32).
    + unfold u32. change W32 with (2 ^ 32). rewrite Z.mod_pow2_bits_low, Z.lnot_spec, Z.shiftl_spec by lia.
      f_equal. f_equal. destruct (Z.eqb_spec i off) as [->|Hne]; [by rewrite Z.sub_diag|].
      destruct (Z_lt_le_dec i off); [by rewrite Z.testbit_neg_r by lia|].
      change 1 with (2 ^ 0). apply Z.pow2_bits_false. lia.
    + by rewrite (bits_below s i) by (done || lia).
Qed.

(** The running process [b] in slot [off] has a parent, [pb]. *)
Definition has_parent (k : kernel) (off : Z) (b pb : pcb_t) (t : term_t) : Prop :=
  let cur := pcb_addr off in
  0 <= off < MAX_PROCESSES /\ cur_pcb (k_proc k) = cur /\ pcbs (k_proc k) !! cur = Some b /\ pcb_ok b /\
  parent_task b <> 0 /\ parent_task b <> cur /\ pcbs (k_proc k) !! parent_task b = Some pb /\
  0 < page_addr pb < W32 /\ page_addr pb mod FOUR_MB = 0 /\
  0 <= sched_term_id (k_disp k) /\ terminals (k_disp k) !! Z.to_nat (sched_term_id (k_disp k)) = Some t.

(** The state a parent resumes in. *)
Definition resumed (k k' : kernel) (off : Z) (b pb : pcb_t) (t : term_t) : Prop :=
  cur_pcb (k_proc k') = parent_task b /\
  (forall i, 0 <= i -> Z.testbit (pcb_status (k_proc k')) i = Z.testbit (pcb_status (k_proc k)) i && negb (i =? off)) /\
  (exists l, length l = 8%nat /\ all_closed l /\ pcbs (k_proc k') = <[pcb_addr off := set_io_files l b]> (pcbs (k_proc k))) /\
  k_disp k' = set_terminals (<[Z.to_nat (sched_term_id (k_disp k)) := set_cur_task (parent_task b) t]> (terminals (k_disp k)))
    (k_disp k) /\
  program_mapped (k_mem k) (k_mem k') (cr3 (k_cpu k)) (page_addr pb) /\
  tss_esp0 (k_cpu k') = esp0 pb /\ reg_esp (k_cpu k') = esp pb /\ reg_ebp (k_cpu k') = ebp pb /\
  except_raised (k_proc k') = false /\ iflag (k_cpu k') = true /\
  differs_within (k_mem k) (k_mem k') (cr3 (k_cpu k)) SIZEOFDIR /\ cr3 (k_cpu k') = cr3 (k_cpu k) /\
  k_kbd k' = k_kbd k /\ fs_addr k' = fs_addr k /\ starting_new_shell (k_proc k') = starting_new_shell (k_proc k).

Lemma sys_halt_resumes f status off b pb t k : has_parent k off b pb t -> slots_ok (pcb_status (k_proc k)) ->
  paging_wf (k_mem k) (cr3 (k_cpu k)) ->
  wp (sys_halt f status) (fun r k' =>
    r = Back (if except_raised (k_proc k) then 256 else Z.land status 0xFF) /\ resumed k k' off b pb t) k.
Proof.
  intros (Hoff & Hcur & Hb & Hok & Hp0 & Hpc & Hpb & Hpa & Hal & Hs & Ht) Hslots Hwf.
  destruct (clear_slot (pcb_status (k_proc k)) off Hslots Hoff) as [Hslot Hbits].
  pose proof (pcb_addr_nonzero off Hoff) as Hnz. unfold sys_halt, get_sched, flush_tlb. wp_steps. rewrite Hcur, Hslot.
  eapply wp_get_pcb; [done|exact Hb|]. unfold c_true. rewrite (proj2 (Z.eqb_neq _ 0)) by done. cbn [negb]. wp_steps.
  eapply wp_get_pcb; [done|exact Hpb|]. wp_steps.
  destruct (map_large (k_mem k) (cr3 (k_cpu k)) (page_addr pb) PROGRAM_VIRT true true true) as (m' & E & Hwf' & _ & Hres);
    [done|done|done|lia|by right|].
  eapply wp_map_page; [exact E|]. wp_steps.
  rewrite (proj2 (Z.leb_le 1 (off + 1))), (proj2 (Z.leb_le (off + 1) 32)) by lia. cbn [andb]. wp_steps.
  replace (off + 1 - 1) with off by lia. set (k1 := set_k_proc _ _).
  pose proof (close_pcb_ok b k1) as W. cbv zeta in W. change (cur_pcb (k_proc k1)) with (cur_pcb (k_proc k)) in W.
  rewrite Hcur in W. eapply wp_mono; [|exact (W Hnz Hb Hok)].
  intros _ k2 (_ & l & Hl8 & Hl & ->). cbn beta. wp_steps.
  eapply wp_get_pcb; [done|apply with_pcb_lookup|]. wp_steps. cbn [parent_task set_io_files].
  eapply wp_upd_term; [exact Hs|exact Ht|]. wp_steps. unfold c_true. rewrite (proj2 (Z.eqb_neq _ 0)) by done. cbn [negb]. wp_steps.
  eapply (wp_get_pcb _ pb); [done| |].
  { transitivity (pcbs (k_proc (with_pcb (pcb_addr off) (set_io_files l b) k1)) !! parent_task b); [done|].
    rewrite with_pcb_ne by done. exact Hpb. }
  wp_steps. unfold we_are_done. wp_steps.
  match goal with |- wp (if except_raised (k_proc ?s) then _ else _) _ _ =>
    change (except_raised (k_proc s)) with (except_raised (k_proc k)) end.
  destruct (except_raised (k_proc k)) eqn:Ex; wp_steps; (split; [done|]);
    (split_and!; [done|exact Hbits|by exists l|done|by split|done|done|done|done|done|
      exact (map_large_within _ _ _ PROGRAM_VIRT _ _ _ _ ltac:(lia) E)|done|done|done|done]).
Qed.

Lemma getargs_ok buf nbytes l b phys k :
  let cur := cur_pcb (k_proc k) in
  cur <> 0 -> pcbs (k_proc k) !! cur = Some b -> arg b = l ++ replicate (129 - length l) 0 -> (length l <= 128)%nat ->
  Forall (fun x => 0 < x < W8) l ->
  resolve_virt_addr (k_mem k) (cr3 (k_cpu k)) buf = phys -> phys <> 0 ->
  if bool_decide (l <> [] /\ Z.of_nat (length l) < nbytes /\ buf <> 0) then
    exists m', sys_getargs buf nbytes k = Ret 0 (set_k_mem m' k) /\
      mem_copied (k_mem k) m' phys (arr_at (l ++ [0])) (Z.of_nat (length l) + 1)
  else sys_getargs buf nbytes k = Ret (-1) k.
Proof.
  intros cur Hc Hb Ha Hl B Hres Hp0.
  assert (arr_strlen (arg b) = Some (Z.of_nat (length l))) as Es.
  { rewrite Ha, arr_strlen_app by done. replace (129 - length l)%nat with (S (128 - length l)) by lia.
    cbn [replicate arr_strlen Z.eqb]. obind. f_equal. lia. }
  assert (get_pcb cur k = Ret b k) as Eg.
  { assert (wp (get_pcb cur) (fun r k' => r = b /\ k' = k) k) as W by (by eapply wp_get_pcb).
    apply wp_ret_iff in W as (r & k' & E & -> & ->). done. }
  unfold sys_getargs, mbind, M_bind, gets. cbn beta iota. fold cur. rewrite Eg, Es. cbn [lift].
  unfold mret, M_ret. cbn beta iota zeta.
  case_bool_decide as D.
  - destruct D as (D1 & D2 & D3). destruct l as [|x l']; [done|].
    assert ((nbytes <? Z.of_nat (length (x :: l')) + 1) || (Z.of_nat (length (x :: l')) + 1 <=? 1) || (nbytes <? 0) || (buf =? 0) = false) as ->.
    { rewrite !orb_false_iff, !Z.ltb_ge, Z.leb_gt, Z.eqb_neq. cbn [length] in *. lia. }
    unfold user_ptr, mbind, M_bind, gets, id. rewrite Hres, (proj2 (Z.eqb_neq phys 0)) by done.
    eexists. split; [reflexivity|]. set (l := x :: l') in *.
    pose proof (blit_copied (k_mem k) phys (arr_at (arg b)) (Z.of_nat (length l) + 1) ltac:(lia)) as C.
    eapply mem_copied_ext; [|exact C]. intros i Hi. f_equal. unfold arr_at. rewrite Ha.
    replace (129 - length l)%nat with (S (128 - length l)) by lia. cbn [replicate].
    rewrite (cons_middle 0 l), app_assoc, lookup_app_l; [done|]. rewrite length_app. cbn [length]. lia.
  - replace ((nbytes <? Z.of_nat (length l) + 1) || (Z.of_nat (length l) + 1 <=? 1) || (nbytes <? 0) || (buf =? 0)) with true; [done|].
    symmetry. rewrite !orb_true_iff, !Z.ltb_lt, Z.leb_le, Z.eqb_eq. destruct l as [|x l']; [cbn [length]; lia|].
    destruct (Z.eq_dec buf 0); [tauto|]. destruct (Z_lt_le_dec (Z.of_nat (length (x :: l'))) nbytes) as [?|?]; [|lia].
    exfalso. by apply D.
Qed.

(** ** Properties *)

(** halt returns to the parent: it gives the parent's execute the low byte of the
    status (256 when the process died by an exception, the flag being consumed),
    makes the parent current again with its page mapped, its kernel stack and
    registers restored and its terminal back, frees exactly the slot of the halted
    process and closes all of its descriptors; of the memory only the page directory
    is changed. *)
Theorem halt_returns_to_parent f status off b pb t k :
  has_parent k off b pb t -> slots_ok (pcb_status (k_proc k)) -> paging_wf (k_mem k) (cr3 (k_cpu k)) ->
  exists k', sys_halt f status k = Ret (Back (if except_raised (k_proc k) then 256 else Z.land status 0xFF)) k' /\
    resumed k k' off b pb t.
Proof.
  intros H1 H2 H3. pose proof (sys_halt_resumes f status off b pb t k H1 H2 H3) as W.
  apply wp_ret_iff in W as (r & k' & E & -> & R). by exists k'.
Qed.

(** [C10] A program that is started and halts leaves its parent where it was: execute
    followed by halt gives the parent the status, and restores the current
    process, the process slots, the terminals, the stack registers and the whole
    address space; the file system image is untouched. *)
Theorem execute_halt_roundtrip f command a b c d i par t pb status k :
  let m := k_mem k in let fs := fs_addr k in let ino := inode_num (dentry_at m (entry_addr fs i)) in
  exec_layout k f -> slots_left k -> parsed command a b c d -> b - a <= CMD_BUF_SIZE -> d - c <= 128 ->
  first_named m fs i (name_of command a b) -> is_program m fs ino ->
  starts_on k (sched_term_id (k_disp k)) par t -> par <> 0 -> cur_pcb (k_proc k) = par ->
  pcbs (k_proc k) !! par = Some pb -> 0 < page_addr pb < W32 -> page_addr pb mod FOUR_MB = 0 ->
  (forall va, PROGRAM_VIRT <= va < PROGRAM_VIRT + FOUR_MB ->
     resolve_virt_addr m (cr3 (k_cpu k)) va = page_addr pb + va mod FOUR_MB) ->
  except_raised (k_proc k) = false ->
  exists eip sp k1 k2, sys_execute f command k = Ret (User eip sp) k1 /\
    sys_halt f status k1 = Ret (Back (Z.land status 0xFF)) k2 /\
    cur_pcb (k_proc k2) = cur_pcb (k_proc k) /\ pcb_status (k_proc k2) = pcb_status (k_proc k) /\ k_disp k2 = k_disp k /\
    reg_esp (k_cpu k2) = reg_esp (k_cpu k) /\ reg_ebp (k_cpu k2) = reg_ebp (k_cpu k) /\
    (forall va, 0 <= va < W32 ->
       resolve_virt_addr (k_mem k2) (cr3 (k_cpu k)) va = resolve_virt_addr m (cr3 (k_cpu k)) va).
Proof.
  intros m fs ino H1 H2 H3 H4 H5 H6 H7 H8 Hp0 Hcur Hpb Hpa Hal Hmap Hex.
  pose proof (execute_runs f command a b c d i (sched_term_id (k_disp k)) par t k H1 H2 H3 H4 H5 H6 H7 H8) as W.
  apply wp_ret_iff in W as (r & k1 & E1 & blk & p & -> & St & _ & Hdisp & [Hwf1 Hres1] & _).
  destruct St as ((Hoff & Hfree & _ & Hok1 & _) & -> & Hst & Hcur1 & Hpcbs & _ & _ & Hex1 & Hcr & Hpar & _ & Hpok & _).
  destruct H8 as (Htid & Ht & [(_ & _ & ->)|(_ & Hvis & Hct & i' & Hi' & Epar & Hbit & _)]); [done|].
  set (off := pcb_num p) in *. set (sched := sched_term_id (k_disp k)) in *.
  assert (par <> pcb_addr off) as Hne.
  { rewrite Epar. intros E. rewrite !pcb_addr_eq in E by lia. assert (i' = off) as -> by lia. congruence. }
  set (pb' := set_esp (reg_esp (k_cpu k)) (set_ebp (reg_ebp (k_cpu k)) pb)).
  assert (sched_term_id (k_disp k1) = sched) as Hsched by (by rewrite Hdisp).
  assert (has_parent k1 off p pb' (set_cur_task (pcb_addr off) t)) as HP.
  { unfold has_parent. rewrite Hsched, Hpar, Hcur1, Hpcbs. change (page_addr pb') with (page_addr pb).
    split_and!; try lia; try done.
    - apply lookup_insert_eq.
    - rewrite lookup_insert_ne by done. unfold save_regs. rewrite (proj2 (Z.eqb_neq _ 0)) by done.
      by rewrite lookup_alter_eq, Hpb.
    - rewrite Hdisp. apply list_lookup_insert_eq. by eapply lookup_lt_Some. }
  assert (wp (sys_halt f status) (fun r k' => r = Back (Z.land status 0xFF) /\
    resumed k1 k' off p pb' (set_cur_task (pcb_addr off) t)) k1) as W.
  { pose proof (sys_halt_resumes f status off p pb' _ k1 HP) as W. rewrite Hst, Hcr, Hex1, Hex in W. by apply W. }
  apply wp_ret_iff in W as (r & k2 & E2 & -> & R1 & R2 & _ & R4 & [_ R5] & _ & R7 & R8 & _).
  exists (file_word m fs ino 24), (PROGRAM_VIRT + FOUR_MB - 4), k1, k2. split_and!; [exact E1|exact E2| | | |exact R7|exact R8|].
  - by rewrite R1, Hpar.
  - apply Z.bits_inj'. intros j Hj. rewrite R2, Hst, Z.lor_spec, Z.pow2_bits_eqb by lia.
    destruct (Z.eqb_spec j off) as [->|Hj']; cbn [negb].
    + by rewrite andb_false_r, Hfree.
    + rewrite (proj2 (Z.eqb_neq off j)) by done. by rewrite orb_false_r, andb_true_r.
  - rewrite R4, Hpar, Hsched, Hdisp. cbn. rewrite list_insert_insert_eq.
    replace (set_cur_task par (set_cur_task (pcb_addr off) t)) with t by (rewrite Hct; by destruct t).
    rewrite list_insert_id by done. by destruct (k_disp k).
  - intros va Hva. rewrite Hcr in R5. rewrite R5, Hres1 by done. change (page_addr pb') with (page_addr pb).
    destruct (Z.eqb_spec (va / FOUR_MB) (PROGRAM_VIRT / FOUR_MB)) as [E|E]; [|done].
    symmetry. apply Hmap. change (PROGRAM_VIRT / FOUR_MB) with 32 in E. zlia.
Qed.

(** The guards of read, write and close: a descriptor number out of range, a
    NULL buffer, a negative count, a closed descriptor, writing to stdin, to a file
    or to the directory, reading from stdout, and closing one of the two standard
    descriptors all return -1 and change nothing; closing any other open
    descriptor frees exactly that descriptor. *)
Theorem descriptor_guards irqs fd buf nbytes k :
  (fd < 0 \/ MAX_DESC <= fd \/ buf = 0 \/ nbytes < 0 ->
     sys_read irqs fd buf nbytes k = Ret (-1) k /\ sys_write fd buf nbytes k = Ret (-1) k) /\
  (fd < 2 \/ MAX_DESC <= fd -> sys_close fd k = Ret (-1) k) /\
  (forall p b f, fd_is k p b fd f -> pcb_ok b ->
     (file_ops f ∈ [stdout; empty_f_ops_tab] -> sys_read irqs fd buf nbytes k = Ret (-1) k) /\
     (file_ops f ∈ [stdin; dir_jt; regf_jt; empty_f_ops_tab] -> sys_write fd buf nbytes k = Ret (-1) k) /\
     (file_ops f ∈ [stdin; stdout; empty_f_ops_tab] -> sys_close fd k = Ret (-1) k) /\
     (2 <= fd -> file_ops f ∈ [rtc_jt; dir_jt; regf_jt] ->
        sys_close fd k = Ret 0 (with_pcb p (with_fd fd (closed f) b) k))).
Proof.
  split_and!.
  - intros H. unfold sys_read, sys_write.
    replace ((fd <? 0) || (MAX_DESC <=? fd) || (buf =? 0) || (nbytes <? 0)) with true; [done|]. symmetry.
    rewrite !orb_true_iff, !Z.ltb_lt, Z.leb_le, Z.eqb_eq. tauto.
  - intros H. unfold sys_close. replace ((fd <? 2) || (MAX_DESC <=? fd)) with true; [done|]. symmetry.
    by rewrite orb_true_iff, Z.ltb_lt, Z.leb_le.
  - intros p b f (H1 & H2 & H3 & H4 & H5) Hok.
    assert (get_fd p fd k = Ret f k) as Eg.
    { assert (wp (get_fd p fd) (fun r k' => r = f /\ k' = k) k) as W by (by eapply wp_get_fd).
      apply wp_ret_iff in W as (r & k' & E & -> & ->). done. }
    assert (forall (c : fdesc_t -> M Z), (cur ← gets (fun k => cur_pcb (k_proc k)); d ← get_fd cur fd; c d) k = c f k) as Ed
      by (intros c; unfold mbind, M_bind, gets; by rewrite H1, Eg).
    split_and!.
    + intros Hf. unfold sys_read. case_if; [done|]. rewrite Ed.
      by repeat (apply elem_of_cons in Hf as [-> | Hf]); [..|apply elem_of_nil in Hf].
    + intros Hf. unfold sys_write. case_if; [done|]. rewrite Ed.
      by repeat (apply elem_of_cons in Hf as [-> | Hf]); [..|apply elem_of_nil in Hf].
    + intros Hf. unfold sys_close. case_if; [done|]. rewrite Ed.
      by repeat (apply elem_of_cons in Hf as [-> | Hf]); [..|apply elem_of_nil in Hf].
    + intros Hfd Hf. unfold sys_close. rewrite (proj2 (Z.ltb_ge fd 2)), (proj2 (Z.leb_gt _ _)) by lia. cbn [orb]. rewrite Ed.
      assert (exists close, op_close (file_ops f) = Some close) as [close Ec]
        by (repeat (apply elem_of_cons in Hf as [-> | Hf]); [by eexists..|by apply elem_of_nil in Hf]).
      rewrite Ec. pose proof (op_close_frees _ _ b f fd k Ec) as W. cbv zeta in W. rewrite H1 in W. by apply W.
Qed.

(** ** The shell of the demo machine, running in slot 0 *)

Definition shell_pcb : pcb_t := set_page_addr 0x800000 (set_esp0 0x7FFFFC (std_fds pcb_zero)).
Definition demo_shell : kernel :=
  with_term 0 (set_cur_task 0x7FE000 (term_start 0 term_boot))
    (set_k_proc (mk_proc {[ 0x7FE000 := shell_pcb ]} 0x7FE000 1 1 false false) demo_kernel).
(** Its child, in slot 1. *)
Definition child_pcb : pcb_t := set_parent_task 0x7FE000 (set_pcb_num 1 shell_pcb).
Definition demo_child : kernel :=
  set_k_proc (mk_proc (<[0x7FC000 := child_pcb]> {[ 0x7FE000 := shell_pcb ]}) 0x7FC000 3 2 false false) demo_kernel.

Lemma halt_returns_to_parent_witness : exists k',
  sys_halt demo_frame 7 demo_child = Ret (Back 7) k' /\ cur_pcb (k_proc k') = 0x7FE000.
Proof.
  destruct (halt_returns_to_parent demo_frame 7 1 child_pcb shell_pcb (term_start 0 term_boot) demo_child) as (k' & E & R & _).
  - unfold has_parent. split_and!; try reflexivity; try (vm_compute; congruence). split_and!; reflexivity.
  - split; vm_compute; congruence.
  - exact demo_paging.
  - exists k'. split; [exact E|exact R].
Defined.

Lemma execute_halt_roundtrip_witness : exists eip sp k1 k2,
  sys_execute demo_frame demo_command demo_shell = Ret (User eip sp) k1 /\
  sys_halt demo_frame 5 k1 = Ret (Back 5) k2 /\ k_disp k2 = k_disp demo_shell.
Proof.
  destruct (execute_halt_roundtrip demo_frame demo_command 2 7 9 11 0 0x7FE000
    (set_cur_task 0x7FE000 (term_start 0 term_boot)) shell_pcb 5 demo_shell) as (eip & sp & k1 & k2 & E1 & E2 & _ & _ & D & _).
  - exact demo_layout.
  - split_and!; [split; vm_compute; congruence|vm_compute; discriminate|].
    apply map_Forall_singleton. split_and!; reflexivity.
  - apply demo_parsed.
  - lia.
  - lia.
  - exact demo_named.
  - exact demo_program.
  - split_and!; [vm_compute; discriminate|reflexivity|]. right. split_and!; [reflexivity..|].
    exists 0. split_and!; [lia|lia|reflexivity|reflexivity|by eexists].
  - lia.
  - reflexivity.
  - reflexivity.
  - vm_compute. split; reflexivity.
  - reflexivity.
  - intros va Hva. change (resolve_virt_addr demo_image 0x401000 va = 0x800000 + va mod FOUR_MB).
    rewrite resolve_arith by lia. cbv zeta. replace (va / FOUR_MB) with 32 by zlia.
    replace (dir_entry demo_image 0x401000 32) with 0x800087 by (vm_compute; reflexivity).
    change (negb (present 0x800087)) with false. change (large 0x800087) with true. cbv iota.
    change (0x800087 / FOUR_MB * FOUR_MB) with 0x800000. apply u32_small. zlia.
  - reflexivity.
  - exists eip, sp, k1, k2. split_and!; [exact E1|exact E2|exact D].
Defined.

Lemma descriptor_guards_witness : sys_write 0 0x8000000 4 demo_shell = Ret (-1) demo_shell.
Proof.
  destruct (descriptor_guards [] 0 0x8000000 4 demo_shell) as (_ & _ & H).
  apply (H 0x7FE000 shell_pcb (opened stdin 0)).
  - split_and!; (reflexivity || lia).
  - split_and!; reflexivity.
  - apply elem_of_cons. left. reflexivity.
Defined.

