(* ===== verification/Timer.v ===== *)
(** * The interval timer and the scheduler (timer.c)

    Every tick schedules the next of the three terminals, round robin.  A terminal
    that has not run yet gets a shell, so a tick can end in user mode
    ([control] of Syscalls.v). *)

From Stdlib Require Import ZArith Lia String.
From stdpp Require Import gmap list numbers strings.
From S2P Require Import Prelude Memory LibString State Display I8259 Paging Pcb FileSystem Vfs MultiTerm.
From S2P Require Import Keyboard Terminal Syscalls Execute Calls.

Abbreviation PIT_IRQ := 0.
Abbreviation PIT_FREQ := 25.
Abbreviation BASE_FREQ := 1193180.
Abbreviation CHANNEL1_PORT := 0x40.
Abbreviation COMMAND_PORT := 0x43.

(** ** Definitions *)

(** Division by a frequency of 0 is a fault. *)
Definition set_pit_freq (hz : Z) : M unit :=
  if hz =? 0 then fault_ OutOfBounds else
  let divisor := BASE_FREQ / hz in
  outb 0x36 COMMAND_PORT ;;
  outb (Z.land divisor 0xFF) CHANNEL1_PORT ;;
  outb (Z.shiftr divisor 8) CHANNEL1_PORT.

Definition pit_init : M unit := set_pit_freq PIT_FREQ ;; enable_irq PIT_IRQ.

(** The two asm blocks save and restore the stack registers. *)
Definition switch_tasks (f : frame) (new_term_id : Z) : M control :=
  sched ← get_sched;
  if negb (new_term_id =? sched) then
    c ← gets k_cpu;
    upd_term sched (fun t => set_t_ebp (reg_ebp c) (set_t_esp (reg_esp c) t)) ;;
    upd_disp (set_sched_term_id new_term_id) ;;
    t ← get_term new_term_id;
    upd_proc (set_cur_pcb (cur_task t)) ;;
    if negb (c_true (cur_task t)) then
      upd_proc (set_starting_new_shell true) ;;
      c ← sys_execute f (lit "shell");
      match c with Back _ => mret (Back 0) | User _ _ => mret c end
    else
      upd_proc (set_starting_new_shell false) ;;
      b ← get_pcb (cur_task t);
      map_page (page_addr b) PROGRAM_VIRT true true true true ;;
      t ← get_term new_term_id;
      map_page (vid_mem t) VIDMAP_VIRT_ADDR false true true true ;;
      flush_tlb ;;
      upd_cpu (set_tss_esp0 (esp0 b)) ;;
      t ← get_term new_term_id;
      upd_cpu (set_reg_esp (t_esp t)) ;;
      upd_cpu (set_reg_ebp (t_ebp t)) ;;
      mret (Back 0)
  else mret (Back 0).

Definition pit_interrupt (f : frame) : M control :=
  cli ;;
  send_eoi PIT_IRQ ;;
  sched ← get_sched;
  let next_tid := u8 ((sched + 1) mod MAX_TERM_NUM) in
  c ← switch_tasks f next_tid;
  match c with
  | Back _ => sti ;; mret (Back 0)
  | User _ _ => mret c
  end.

(** ** The scheduler *)

Definition next_term (s : Z) : Z := (s + 1) mod MAX_TERM_NUM.

(** The terminal that is next has a process, [b], and a page to draw on. *)
Definition ready (k : kernel) (old t : term_t) (b : pcb_t) : Prop :=
  let s := sched_term_id (k_disp k) in
  0 <= s < MAX_TERM_NUM /\ terminals (k_disp k) !! Z.to_nat s = Some old /\
  terminals (k_disp k) !! Z.to_nat (next_term s) = Some t /\
  cur_task t <> 0 /\ pcbs (k_proc k) !! cur_task t = Some b /\
  0 < page_addr b < W32 /\ page_addr b mod FOUR_MB = 0 /\ 0 < vid_mem t < W32 /\ vid_mem t mod FOUR_KB = 0.

(** The address space of the scheduled process: its page, and its terminal's page
    at the vidmap address (alone in its slot). *)
Definition task_view (view : Z -> Z) (prog video va : Z) : Z :=
  if va / FOUR_KB =? VIDMAP_VIRT_ADDR / FOUR_KB then video + va mod FOUR_KB
  else if va / FOUR_MB =? VIDMAP_VIRT_ADDR / FOUR_MB then 0
  else if va / FOUR_MB =? PROGRAM_VIRT / FOUR_MB then prog + va mod FOUR_MB
  else view va.

Definition scheduled (k k' : kernel) (old t : term_t) (b : pcb_t) : Prop :=
  let s := sched_term_id (k_disp k) in
  k_disp k' = set_sched_term_id (next_term s)
    (set_terminals (<[Z.to_nat s := set_t_ebp (reg_ebp (k_cpu k)) (set_t_esp (reg_esp (k_cpu k)) old)]> (terminals (k_disp k)))
       (k_disp k)) /\
  k_proc k' = set_starting_new_shell false (set_cur_pcb (cur_task t) (k_proc k)) /\
  reg_esp (k_cpu k') = t_esp t /\ reg_ebp (k_cpu k') = t_ebp t /\ tss_esp0 (k_cpu k') = esp0 b /\
  iflag (k_cpu k') = true /\ cr3 (k_cpu k') = cr3 (k_cpu k) /\ paging_wf (k_mem k') (cr3 (k_cpu k)) /\
  (forall va, 0 <= va < W32 -> resolve_virt_addr (k_mem k') (cr3 (k_cpu k)) va =
     task_view (resolve_virt_addr (k_mem k) (cr3 (k_cpu k))) (page_addr b) (vid_mem t) va) /\
  k_io k' = PortOut MASTER_8259_PORT EOI :: k_io k.

Lemma next_term_range s : 0 <= s < MAX_TERM_NUM -> 0 <= next_term s < MAX_TERM_NUM /\ next_term s <> s.
Proof. unfold next_term. intros. zlia. Qed.

Lemma tick_schedules f old t b k : ready k old t b -> paging_wf (k_mem k) (cr3 (k_cpu k)) ->
  wp (pit_interrupt f) (fun r k' => r = Back 0 /\ scheduled k k' old t b) k.
Proof.
  intros (Hs & Hold & Ht & Hc & Hb & Hp1 & Hp2 & Hv1 & Hv2) Hwf.
  destruct (next_term_range _ Hs) as [Hn Hne]. unfold pit_interrupt, send_eoi, get_sched.
  change ((0 <=? PIT_IRQ) && (PIT_IRQ <=? MASTER_IRQ_NUM)) with true. cbv iota. wp_steps.
  set (k1 := set_k_io _ _). change (sched_term_id (k_disp k1)) with (sched_term_id (k_disp k)).
  set (s := sched_term_id (k_disp k)) in *. fold (next_term s). rewrite u8_small by lia.
  unfold switch_tasks, get_sched, flush_tlb. wp_steps. change (sched_term_id (k_disp k1)) with s.
  rewrite (proj2 (Z.eqb_neq _ s)) by done. cbn [negb]. wp_steps.
  eapply wp_upd_term; [lia|exact Hold|]. wp_steps. change (k_cpu k1) with (set_iflag false (k_cpu k)).
  set (old' := set_t_ebp _ _).
  assert (terminals (k_disp (set_k_disp (set_sched_term_id (next_term s) (set_terminals (<[Z.to_nat s := old']>
    (terminals (k_disp k))) (k_disp k))) k)) !! Z.to_nat (next_term s) = Some t) as Ht'.
  { cbn [k_disp set_k_disp terminals set_sched_term_id set_terminals]. rewrite list_lookup_insert_ne by lia. exact Ht. }
  eapply wp_get_term; [lia|exact Ht'|]. wp_steps. unfold c_true. rewrite (proj2 (Z.eqb_neq _ 0)) by done. cbn [negb]. wp_steps.
  eapply wp_get_pcb; [done|exact Hb|]. wp_steps.
  destruct (map_large (k_mem k) (cr3 (k_cpu k)) (page_addr b) PROGRAM_VIRT true true true) as (m1 & E1 & Hwf1 & _ & R1);
    [done|done|done|lia|by right|].
  eapply wp_map_page; [exact E1|]. wp_steps. eapply wp_get_term; [lia|exact Ht'|]. wp_steps.
  destruct (map_fresh m1 (cr3 (k_cpu k)) (vid_mem t) VIDMAP_VIRT_ADDR true true true) as (m2 & E2 & Hwf2 & _ & R2);
    [done|done|done|lia|by right|].
  eapply wp_map_page; [exact E2|]. wp_steps. eapply wp_get_term; [lia|exact Ht'|]. wp_steps.
  split; [done|]. split_and!; try reflexivity; [exact Hwf2|].
  intros va Hva. transitivity (resolve_virt_addr m2 (cr3 (k_cpu k)) va); [reflexivity|].
  rewrite R2, R1 by done. reflexivity.
Qed.

(** A terminal that has not run yet: the state in which execute is called. *)
Definition shell_due (old : term_t) (k : kernel) : kernel :=
  let s := sched_term_id (k_disp k) in
  set_k_proc (set_starting_new_shell true (set_cur_pcb 0 (k_proc k)))
    (set_k_disp (set_sched_term_id (next_term s)
       (set_terminals (<[Z.to_nat s := set_t_ebp (reg_ebp (k_cpu k)) (set_t_esp (reg_esp (k_cpu k)) old)]> (terminals (k_disp k)))
          (k_disp k)))
       (set_k_cpu (set_iflag false (k_cpu k)) (set_k_io (PortOut MASTER_8259_PORT EOI :: k_io k) k))).

Definition idle_next (k : kernel) (old t : term_t) : Prop :=
  let s := sched_term_id (k_disp k) in
  0 <= s < MAX_TERM_NUM /\ terminals (k_disp k) !! Z.to_nat s = Some old /\
  terminals (k_disp k) !! Z.to_nat (next_term s) = Some t /\ cur_task t = 0.

Lemma shell_parsed : parsed (lit "shell") 0 5 5 5.
Proof. apply parsed_check; [apply lit_bytes|lia|lia|lia|vm_compute; reflexivity]. Qed.

Lemma tick_execs f old t k Q : idle_next k old t ->
  wp (sys_execute f (lit "shell")) (fun r k' => match r with User _ _ => Q r k' | Back _ => False end) (shell_due old k) ->
  wp (pit_interrupt f) Q k.
Proof.
  intros (Hs & Hold & Ht & Hc) W. destruct (next_term_range _ Hs) as [Hn Hne]. unfold pit_interrupt, send_eoi, get_sched.
  change ((0 <=? PIT_IRQ) && (PIT_IRQ <=? MASTER_IRQ_NUM)) with true. cbv iota. wp_steps.
  set (k1 := set_k_io _ _). change (sched_term_id (k_disp k1)) with (sched_term_id (k_disp k)).
  set (s := sched_term_id (k_disp k)) in *. fold (next_term s). rewrite u8_small by lia.
  unfold switch_tasks, get_sched. wp_steps. change (sched_term_id (k_disp k1)) with s.
  rewrite (proj2 (Z.eqb_neq _ s)) by done. cbn [negb]. wp_steps.
  eapply wp_upd_term; [lia|exact Hold|]. wp_steps. eapply (wp_get_term _ t); [lia| |].
  { cbn [k_disp set_k_disp terminals set_sched_term_id set_terminals]. rewrite list_lookup_insert_ne by lia. exact Ht. }
  wp_steps. rewrite Hc. change (negb (c_true 0)) with true. cbv iota. wp_steps.
  eapply wp_mono; [|exact W]. intros [r|eip sp] k' H; [destruct H|]. exact H.
Qed.

(** ** Properties *)

(** [C15] A tick of the timer is a round-robin context switch: the terminal after the
    scheduled one is scheduled and its process becomes current, with its program
    page and its terminal's video page mapped, its kernel stack in the TSS and the
    stack registers it was suspended with; those of the old terminal are saved,
    everything else of the display and the processes is unchanged, the interrupt is
    acknowledged and interrupts are on again. *)
Theorem tick_schedules_next f old t b k :
  ready k old t b -> paging_wf (k_mem k) (cr3 (k_cpu k)) ->
  exists k', pit_interrupt f k = Ret (Back 0) k' /\ scheduled k k' old t b.
Proof.
  intros H1 H2. pose proof (tick_schedules f old t b k H1 H2) as W.
  apply wp_ret_iff in W as (r & k' & E & -> & S). by exists k'.
Qed.

(** A tick that reaches a terminal without a process starts a shell on it: the
    registers of the old terminal are saved, the machine goes to user mode at the
    shell's entry point, and the shell is a new process without a parent, loaded
    and current, on the terminal that is now scheduled. *)
Theorem tick_starts_shell f old t i k :
  let m := k_mem k in let fs := fs_addr k in let ino := inode_num (dentry_at m (entry_addr fs i)) in
  let tid := next_term (sched_term_id (k_disp k)) in
  idle_next k old t -> exec_layout k f -> slots_left k -> first_named m fs i (name_of (lit "shell") 0 5) -> is_program m fs ino ->
  exists k' blk p, pit_interrupt f k = Ret (User (file_word m fs ino 24) 0x83FFFFC) k' /\
    started (shell_due old k) k' tid 0 blk p /\
    k_disp k' = set_terminals (<[Z.to_nat tid := set_cur_task blk t]> (terminals (k_disp (shell_due old k)))) (k_disp (shell_due old k)) /\
    program_mapped m (k_mem k') (cr3 (k_cpu k)) (page_addr p) /\
    (forall q, 0 <= q < file_length m fs ino -> rd (k_mem k') (page_addr p + PROGRAM_VIRT_OFF + q) = file_byte m fs ino q) /\
    image_same m (k_mem k') fs /\ iflag (k_cpu k') = true.
Proof.
  intros m fs ino tid Hi Hlay Hsl Hn Hp. pose proof Hi as (Hs & Hold & Ht & Hc). destruct (next_term_range _ Hs) as [Hr Hne].
  assert (starts_on (shell_due old k) tid 0 t) as St.
  { split_and!; [unfold tid; lia| |by left]. unfold shell_due, tid.
    cbn [k_disp set_k_disp set_k_proc terminals set_sched_term_id set_terminals]. by rewrite list_lookup_insert_ne by lia. }
  pose proof (execute_runs f (lit "shell") 0 5 5 5 i tid 0 t (shell_due old k) Hlay Hsl shell_parsed ltac:(lia) ltac:(lia) Hn Hp St) as W.
  assert (wp (pit_interrupt f) (fun r k' => exists blk p, r = User (file_word m fs ino 24) 0x83FFFFC /\
    runs f (lit "shell") 5 5 i tid 0 t (shell_due old k) k' blk p) k) as W'.
  { apply (tick_execs f old t k _ Hi). eapply wp_mono; [|exact W]. intros r k' (blk & p & -> & R). exists blk, p. split; [reflexivity|exact R]. }
  apply wp_ret_iff in W' as (r & k' & E & blk & p & -> & R1 & _ & R3 & R4 & R5 & R6 & R7 & _). exists k', blk, p.
  split_and!; [exact E|exact R1|exact R3|exact R4|exact R5|exact R6|exact R7].
Qed.

(** The demo machine with the shell on terminals 0 and 1. *)
Definition demo_two : kernel :=
  with_term 1 (set_cur_task 0x7FE000 (term_start 1 term_boot)) demo_shell.

Lemma tick_schedules_next_witness : exists k', pit_interrupt demo_frame demo_two = Ret (Back 0) k' /\
  sched_term_id (k_disp k') = 1 /\ cur_pcb (k_proc k') = 0x7FE000.
Proof.
  destruct (tick_schedules_next demo_frame (set_cur_task 0x7FE000 (term_start 0 term_boot))
    (set_cur_task 0x7FE000 (term_start 1 term_boot)) shell_pcb demo_two) as (k' & E & D & P & _).
  - unfold ready. split_and!; try reflexivity; vm_compute; congruence.
  - exact demo_paging.
  - exists k'. split_and!; [exact E|by rewrite D|by rewrite P].
Defined.

(** Terminal 1 of the demo machine has no process yet. *)
Lemma tick_starts_shell_witness : exists k',
  pit_interrupt demo_frame demo_shell = Ret (User 0x80482E8 0x83FFFFC) k' /\ sched_term_id (k_disp k') = 1.
Proof.
  destruct (tick_starts_shell demo_frame (set_cur_task 0x7FE000 (term_start 0 term_boot)) (term_start 1 term_boot) 0 demo_shell)
    as (k' & blk & p & E & _ & D & _).
  - unfold idle_next. split_and!; try reflexivity; vm_compute; congruence.
  - exact demo_layout.
  - split_and!; [split; vm_compute; congruence|vm_compute; discriminate|apply map_Forall_singleton; split_and!; reflexivity].
  - split_and!; [lia|reflexivity|apply (has_name_check _ _ _ _ 5); [lia|reflexivity|reflexivity]|intros; lia].
  - exact demo_program.
  - exists k'. split; [exact E|]. rewrite D. reflexivity.
Defined.
