(* ===== verification/Mouse.v ===== *)
(** * The mouse driver (mouse.c)

    Three bytes make a packet; a packet moves the pointer by at most one cell in
    each direction.  The pointer is drawn over the character of its cell, which is
    kept in [old_char]. *)

From Stdlib Require Import ZArith Lia String.
From stdpp Require Import gmap list numbers strings.
From S2P Require Import Prelude Memory State Display Printf I8259 Ports MultiTerm Keyboard.

Abbreviation MOUSE_IRQ := 12.

(** ** Definitions *)

Definition upd_mouse (f : mouse_t -> mouse_t) : M unit := modify (fun k => set_k_mouse (f (k_mouse k)) k).

(** "while(_time_out--) if(...) return;" *)
Definition mouse_wait (type : bool) : M unit :=
  loopM (fun _time_out =>
    if _time_out =? 0 then mret (inr tt) else
    status ← inb STATUS_PORT;
    if (if negb type then Z.land status 1 =? 1 else Z.land status 2 =? 0)
    then mret (inr tt) else mret (inl (_time_out - 1))) 100000.

Definition mouse_read : M Z := mouse_wait false ;; inb DATA_PORT.

Definition mouse_write (a_write : Z) : M unit :=
  mouse_wait true ;;
  outb 0xD4 STATUS_PORT ;;
  mouse_wait true ;;
  outb a_write DATA_PORT.

Definition mouse_init : M unit :=
  mouse_wait true ;;
  outb 0xA8 STATUS_PORT ;;
  mouse_wait true ;;
  outb 0x20 STATUS_PORT ;;
  mouse_wait false ;;
  data ← inb DATA_PORT;
  let status_byte := u8 (Z.lor data 2) in
  mouse_wait true ;;
  outb 0x60 STATUS_PORT ;;
  mouse_wait true ;;
  outb status_byte DATA_PORT ;;
  mouse_write 0xF6 ;;
  mouse_read ;;
  mouse_write 0xF4 ;;
  mouse_read ;;
  enable_irq MOUSE_IRQ.

Definition mouse_open (filename : Z -> Z) : M Z := mret SUCCESS.
Definition mouse_close (fd : Z) : M Z := mret SUCCESS.

Definition message (s : string) : Z -> Z := arr_at (bytes_of_string s ++ [10; 0]).

(** One coordinate (an int8_t): "if((delta = (byte & 1))) ..." *)
Definition move (byte : Z) (neg : bool) (limit pos : Z) : Z :=
  if c_true (Z.land byte 1) then
    let delta := if neg then - Z.land byte 1 else Z.land byte 1 in
    let pos := i8 (pos + delta) in
    let pos := if pos <? 0 then 0 else pos in
    if limit <=? pos then limit - 1 else pos
  else pos.

(** The three bytes are there. *)
Definition mouse_packet (byte0 byte1 byte2 : Z) : M unit :=
  upd_mouse (set_y_neg (negb (c_true (Z.land byte1 0x20)))) ;;
  upd_mouse (set_x_neg (c_true (Z.land byte1 0x10))) ;;
  (if c_true (Z.land byte1 0x4) then printf (message "Middle button is pressed!") [] ;; skip else skip) ;;
  (if c_true (Z.land byte1 0x2) then printf (message "Right button is pressed!") [] ;; skip else skip) ;;
  (if c_true (Z.land byte1 0x1) then printf (message "Left button is pressed!") [] ;; skip else skip) ;;
  o ← gets k_mouse;
  d ← gets k_disp;
  set_char (old_char o) (fg_color d) (bg_color d) (u8 (mouse_y_pos o)) (u8 (mouse_x_pos o)) ;;
  upd_mouse (fun o => set_mouse_x_pos (move byte2 (x_neg o) NUM_COLS (mouse_x_pos o)) o) ;;
  upd_mouse (fun o => set_mouse_y_pos (move byte0 (y_neg o) NUM_ROWS (mouse_y_pos o)) o) ;;
  o ← gets k_mouse;
  c ← get_char (u8 (mouse_y_pos o)) (u8 (mouse_x_pos o));
  upd_mouse (set_old_char c) ;;
  set_char 32 3 1 (u8 (mouse_y_pos o)) (u8 (mouse_x_pos o)).

Definition mouse_interrupt : M unit :=
  byte ← inb DATA_PORT;
  o ← gets k_mouse;
  bytes ← lift OutOfBounds (arr_write (mouse_bytes o) (cycle o) [byte]);
  upd_mouse (set_mouse_bytes bytes) ;;
  upd_mouse (set_cycle (cycle o + 1)) ;;
  send_eoi MOUSE_IRQ ;;
  o ← gets k_mouse;
  if cycle o =? 3 then
    upd_mouse (set_cycle 0) ;;
    byte0 ← lift OutOfBounds (mouse_bytes o !! 0%nat);
    byte1 ← lift OutOfBounds (mouse_bytes o !! 1%nat);
    byte2 ← lift OutOfBounds (mouse_bytes o !! 2%nat);
    if c_true (Z.land byte1 0x80) || c_true (Z.land byte1 0x40) then skip
    else mouse_packet byte0 byte1 byte2
  else skip.

(** ** The pointer *)

Definition mouse_ok (o : mouse_t) : Prop :=
  0 <= cycle o < 3 /\ length (mouse_bytes o) = 3%nat /\ 0 <= mouse_x_pos o < NUM_COLS /\
  0 <= mouse_y_pos o < NUM_ROWS /\ 0 <= old_char o < W8.

Definition pointer_cell (o : mouse_t) : Z := NUM_COLS * mouse_y_pos o + mouse_x_pos o.

(** The text of the screen, with the pointer taken away. *)
Definition text_under (k : kernel) (cell : Z) : Z :=
  if cell =? pointer_cell (k_mouse k) then old_char (k_mouse k) else rd (k_mem k) (VIDEO_ADDR + 2 * cell).

(** One step in a direction, stopped at the border. *)
Definition clamp (hi z : Z) : Z := Z.max 0 (Z.min hi z).
Definition step_spec (byte : Z) (neg : bool) (hi pos : Z) : Z :=
  if Z.odd byte then clamp hi (if neg then pos - 1 else pos + 1) else pos.

Lemma land_1 x : Z.land x 1 = Z.b2z (Z.odd x).
Proof. change 1 with (Z.ones 1). rewrite Z.land_ones by lia. rewrite Zmod_odd. by destruct (Z.odd x). Qed.

Lemma move_step byte neg limit pos : 0 < limit <= 127 -> 0 <= pos < limit ->
  move byte neg limit pos = step_spec byte neg (limit - 1) pos /\ 0 <= move byte neg limit pos < limit.
Proof.
  intros Hl Hp. unfold move, step_spec, clamp, c_true. rewrite land_1.
  destruct (Z.odd byte); cbn [Z.b2z Z.eqb negb]; [|lia].
  assert (forall z, -1 <= z <= 127 -> i8 z = z) as I8 by (intros; zlia).
  destruct neg; rewrite I8 by lia; (match goal with |- context [?z <? 0] => destruct (Z.ltb_spec z 0) end); case_if; lia.
Qed.

(** The character of one cell, after a set_char. *)
Lemma set_char_text m c attrib cell cell' : 0 <= cell < 2000 -> 0 <= cell' < 2000 ->
  rd (wr (wr m (VIDEO_ADDR + 2 * cell) c) (VIDEO_ADDR + 2 * cell + 1) attrib) (VIDEO_ADDR + 2 * cell') =
  if cell' =? cell then u8 c else rd m (VIDEO_ADDR + 2 * cell').
Proof.
  intros H H'. rewrite !rd_wr, !u32_small by lia. case_cmp; (done || lia).
Qed.

Lemma set_char_within m c attrib cell : 0 <= cell < 2000 ->
  differs_within m (wr (wr m (VIDEO_ADDR + 2 * cell) c) (VIDEO_ADDR + 2 * cell + 1) attrib) VIDEO_ADDR PAGE_BYTES.
Proof.
  intros H. eapply differs_within_trans; [eapply (wr_within _ _ _ _ _ (2 * cell))|eapply (wr_within _ _ _ _ _ (2 * cell + 1))];
    (lia || f_equal; lia).
Qed.

Lemma shl1 x : Z.shiftl x 1 = 2 * x.
Proof. rewrite Z.shiftl_mul_pow2 by lia. change (2 ^ 1) with 2. lia. Qed.

(** The state, as far as the driver changes it. *)
Definition moused (m : memory) (o : mouse_t) (k : kernel) : kernel := set_k_mem m (set_k_mouse o k).

Lemma moused_id k : moused (k_mem k) (k_mouse k) k = k.
Proof. by destruct k. Qed.
Lemma wp_upd_mouse f m o k (Q : unit -> kernel -> Prop) : Q tt (moused m (f o) k) -> wp (upd_mouse f) Q (moused m o k).
Proof. done. Qed.
Lemma wp_set_char c fg bg row col m o k (Q : unit -> kernel -> Prop) :
  Q tt (moused (wr (wr m (VIDEO_ADDR + 2 * (NUM_COLS * row + col)) c) (VIDEO_ADDR + 2 * (NUM_COLS * row + col) + 1) (attrib_of fg bg)) o k) ->
  wp (set_char c fg bg row col) Q (moused m o k).
Proof. unfold set_char. rewrite shl1. done. Qed.
Lemma wp_get_char row col m o k (Q : Z -> kernel -> Prop) :
  Q (rd m (VIDEO_ADDR + 2 * (NUM_COLS * row + col))) (moused m o k) -> wp (get_char row col) Q (moused m o k).
Proof. unfold get_char. rewrite shl1. done. Qed.

(** What a packet without buttons does. *)
Definition packet_done (k : kernel) (byte0 byte1 byte2 : Z) (k' : kernel) : Prop :=
  mouse_ok (k_mouse k') /\ cycle (k_mouse k') = cycle (k_mouse k) /\
  mouse_x_pos (k_mouse k') = step_spec byte2 (Z.testbit byte1 4) 79 (mouse_x_pos (k_mouse k)) /\
  mouse_y_pos (k_mouse k') = step_spec byte0 (negb (Z.testbit byte1 5)) 24 (mouse_y_pos (k_mouse k)) /\
  (forall cell, 0 <= cell < 2000 -> text_under k' cell = text_under k cell) /\
  differs_within (k_mem k) (k_mem k') VIDEO_ADDR PAGE_BYTES /\ k_disp k' = k_disp k /\ k_proc k' = k_proc k.

Lemma flag_bit x n : 0 <= n -> c_true (Z.land x (2 ^ n)) = Z.testbit x n.
Proof.
  intros Hn. unfold c_true. destruct (Z.testbit x n) eqn:E.
  - apply negb_true_iff, Z.eqb_neq. intros H. apply (f_equal (fun z => Z.testbit z n)) in H.
    rewrite Z.land_spec, Z.pow2_bits_true, E, Z.bits_0 in H by lia. done.
  - apply negb_false_iff, Z.eqb_eq. apply Z.bits_inj'. intros i Hi. rewrite Z.bits_0, Z.land_spec, Z.pow2_bits_eqb by lia.
    destruct (Z.eqb_spec n i) as [->|]; [by rewrite E|apply andb_false_r].
Qed.

Lemma mouse_packet_moves byte0 byte1 byte2 k : mouse_ok (k_mouse k) -> Z.land byte1 7 = 0 ->
  wp (mouse_packet byte0 byte1 byte2) (fun _ => packet_done k byte0 byte1 byte2) k.
Proof.
  intros (Hc & Hb & Hx & Hy & Ho) Hbtn.
  assert (forall n, 0 <= n < 3 -> Z.testbit byte1 n = false) as Bits.
  { intros n Hn. apply (f_equal (fun z => Z.testbit z n)) in Hbtn. rewrite Z.land_spec, Z.bits_0 in Hbtn.
    assert (Z.testbit 7 n = true) as E by (assert (n = 0 \/ n = 1 \/ n = 2) as [->|[->| ->]] by lia; done).
    by rewrite E, andb_true_r in Hbtn. }
  set (o := k_mouse k) in *. set (cell := pointer_cell o).
  set (nx := step_spec byte2 (Z.testbit byte1 4) 79 (mouse_x_pos o)).
  set (ny := step_spec byte0 (negb (Z.testbit byte1 5)) 24 (mouse_y_pos o)).
  destruct (move_step byte2 (Z.testbit byte1 4) NUM_COLS (mouse_x_pos o) ltac:(lia) Hx) as [Ex Rx].
  destruct (move_step byte0 (negb (Z.testbit byte1 5)) NUM_ROWS (mouse_y_pos o) ltac:(lia) Hy) as [Ey Ry].
  rewrite Ex in Rx. rewrite Ey in Ry. fold nx in Ex, Rx. fold ny in Ey, Ry. change (NUM_COLS - 1) with 79 in *. change (NUM_ROWS - 1) with 24 in *.
  set (attr := attrib_of (fg_color (k_disp k)) (bg_color (k_disp k))).
  set (m1 := wr (wr (k_mem k) (VIDEO_ADDR + 2 * cell) (old_char o)) (VIDEO_ADDR + 2 * cell + 1) attr).
  set (cell' := NUM_COLS * ny + nx). set (c := rd m1 (VIDEO_ADDR + 2 * cell')).
  set (m2 := wr (wr m1 (VIDEO_ADDR + 2 * cell') 32) (VIDEO_ADDR + 2 * cell' + 1) (attrib_of 3 1)).
  set (o' := set_old_char c (set_mouse_y_pos ny (set_mouse_x_pos nx
    (set_x_neg (Z.testbit byte1 4) (set_y_neg (negb (Z.testbit byte1 5)) o))))).
  assert (0 <= cell < 2000 /\ 0 <= cell' < 2000) as [Rc Rc'] by (unfold cell, pointer_cell, cell'; lia).
  assert (packet_done k byte0 byte1 byte2 (moused m2 o' k)) as Done.
  { unfold packet_done, moused. cbn [k_mouse set_k_mem set_k_mouse k_mem k_disp k_proc]. split_and!; try done.
    - split_and!; try done; cbn; try lia; apply rd_range.
    - intros x Hxr. unfold text_under. cbn [k_mouse set_k_mem set_k_mouse k_mem].
      change (pointer_cell o') with cell'. change (old_char o') with c. fold o cell.
      unfold m2, c. rewrite set_char_text by done. unfold m1. rewrite !set_char_text by done. rewrite (u8_small (old_char o)) by done.
      case_cmp; congruence.
    - eapply differs_within_trans; by apply set_char_within. }
  assert (wp (mouse_packet byte0 byte1 byte2) (fun _ => packet_done k byte0 byte1 byte2) (moused (k_mem k) o k)) as W;
    [|by rewrite moused_id in W].
  unfold mouse_packet.
  change (c_true (Z.land byte1 0x20)) with (c_true (Z.land byte1 (2 ^ 5))).
  change (c_true (Z.land byte1 0x10)) with (c_true (Z.land byte1 (2 ^ 4))).
  change (c_true (Z.land byte1 0x4)) with (c_true (Z.land byte1 (2 ^ 2))).
  change (c_true (Z.land byte1 0x2)) with (c_true (Z.land byte1 (2 ^ 1))).
  change (c_true (Z.land byte1 0x1)) with (c_true (Z.land byte1 (2 ^ 0))).
  rewrite !flag_bit, (Bits 0), (Bits 1), (Bits 2) by lia. cbv iota.
  apply wp_bind, wp_upd_mouse, wp_bind, wp_upd_mouse. wp_steps. set (o1 := set_x_neg _ _).
  change (k_mouse (moused (k_mem k) o1 k)) with o1. change (k_disp (moused (k_mem k) o1 k)) with (k_disp k).
  apply wp_set_char, wp_bind, wp_upd_mouse, wp_bind, wp_upd_mouse, wp_bind, wp_gets.
  cbn [mouse_x_pos mouse_y_pos old_char x_neg y_neg set_x_neg set_y_neg set_mouse_x_pos o1].
  rewrite Ex, Ey, (u8_small (mouse_y_pos o)), (u8_small (mouse_x_pos o)) by lia. fold (pointer_cell o). fold cell attr m1.
  set (o2 := set_mouse_y_pos _ _). change (k_mouse (moused m1 o2 k)) with o2.
  change (mouse_y_pos o2) with ny. change (mouse_x_pos o2) with nx. rewrite (u8_small nx), (u8_small ny) by lia.
  apply wp_bind, wp_get_char, wp_bind, wp_upd_mouse, wp_set_char. exact Done.
Qed.

(** ** Initialisation: every wait is bounded *)

Lemma talks_mouse_wait type : talks (mouse_wait type).
Proof.
  unfold mouse_wait. apply (talks_loop _ (fun t => t)); [|lia]. intros t k Ht.
  destruct (Z.eqb_spec t 0); [apply wp_mret; split; [reflexivity|done]|].
  apply wp_bind. eapply wp_mono; [|apply talks_inb]. intros status k1 H1. cbn beta.
  destruct (if negb type then _ else _); apply wp_mret; (split; [done|lia || done]).
Qed.

#[local] Hint Resolve talks_mouse_wait : talks.

Lemma talks_mouse_read : talks mouse_read.
Proof. unfold mouse_read. auto with talks. Qed.
Lemma talks_mouse_write b : talks (mouse_write b).
Proof. unfold mouse_write. auto 8 with talks. Qed.
#[local] Hint Resolve talks_mouse_read talks_mouse_write : talks.

Lemma mouse_init_step k F : pic_refines k F -> wp mouse_init (fun _ => pic_step k (pic_spec F (Enable MOUSE_IRQ))) k.
Proof.
  intros HF. unfold mouse_init.
  repeat (eapply pic_step_bind; [apply talks_pic; [auto with talks|done]|]; intros ? ? ?).
  apply (pic_run_step (Enable MOUSE_IRQ)); [cbn; lia|done].
Qed.

(** ** Properties *)

(** mouse_init terminates on every machine: whatever the controller answers (it
    may never be ready, each wait is given up after 100000 polls), it returns,
    having changed nothing but the port log and the interrupt masks, in which the
    mouse's line is now open and all others are as before. *)
Theorem mouse_init_terminates k F : pic_refines k F ->
  exists p io, mouse_init k = Ret tt (set_k_pic p (set_k_io io k)) /\
    pic_refines (set_k_pic p (set_k_io io k)) (pic_spec F (Enable MOUSE_IRQ)).
Proof.
  intros HF. pose proof (mouse_init_step k F HF) as W. apply wp_ret_iff in W as ([] & k' & E & R & p & io & ->).
  by exists p, io.
Qed.

(** A dead controller: every port reads 0. *)
Lemma mouse_init_terminates_witness : exists p io,
  mouse_init (set_k_io [PortOut 0xA1 255; PortOut 0x21 251] (set_k_pic (mk_pic 251 255) kernel_quiet)) =
    Ret tt (set_k_pic p (set_k_io io (set_k_io [PortOut 0xA1 255; PortOut 0x21 251] (set_k_pic (mk_pic 251 255) kernel_quiet)))).
Proof.
  destruct (mouse_init_terminates (set_k_io [PortOut 0xA1 255; PortOut 0x21 251] (set_k_pic (mk_pic 251 255) kernel_quiet))
    (masked (set_k_pic (mk_pic 251 255) kernel_quiet))) as (p & io & E & _).
  - split; [split_and!; try reflexivity; vm_compute; congruence|]. intros b Hb. reflexivity.
  - exists p, io. exact E.
Defined.



(** The pointer in the corner at boot; the last byte of a packet moves it left. *)
Definition mouse_kernel : kernel :=
  set_k_dev (fun _ _ => 1) (set_k_mouse (mk_mouse 2 [0; 0x30; 0] false false 79 24 65) kernel_quiet).

