(* ===== verification/Idt.v ===== *)
(** * The interrupt descriptor table and the exceptions (idt_handle.c, idt_handle.h, x86_desc.h)

    [idt_init] stores 256 eight-byte descriptors at the address of the array [idt]
    and loads it; the processor decodes a descriptor with [gate_of].  The addresses
    of the assembly wrappers are fixed by the linker: a parameter.  An exception
    prints its message and halts the process that raised it. *)

From Stdlib Require Import ZArith Lia String.
From stdpp Require Import gmap list numbers strings.
From S2P Require Import Prelude Memory LibString State Display Printf Paging Pcb Vfs MultiTerm Keyboard Terminal Syscalls Execute Calls Mouse.

Abbreviation USED_EXCEPTIONS := 20.
Abbreviation PIC_INTRS := 16.
Abbreviation NUM_VEC := 256.
Abbreviation KERNEL_CS := 0x10.

(** ** Descriptors *)

Record idt_desc_t := mk_idt_desc {
  offset_15_00 : Z;
  seg_selector : Z;
  reserved4 : Z;
  reserved3 : Z;
  reserved2 : Z;
  reserved1 : Z;
  size : Z;
  reserved0 : Z;
  dpl : Z;
  present : Z;
  offset_31_16 : Z
}.

(** The packed structure, as two words. *)
Definition desc_lo (d : idt_desc_t) : Z := offset_15_00 d + W16 * seg_selector d.
Definition desc_hi (d : idt_desc_t) : Z :=
  reserved4 d + 256 * reserved3 d + 512 * reserved2 d + 1024 * reserved1 d + 2048 * size d + 4096 * reserved0 d +
  8192 * dpl d + 32768 * present d + W16 * offset_31_16 d.

(** idt[i] = d *)
Definition set_vector (idt i : Z) (d : idt_desc_t) : M unit :=
  upd_mem (fun m => wr32 (wr32 m (idt + 8 * i) (desc_lo d)) (idt + 8 * i + 4) (desc_hi d)).

Definition SET_TRAP_GATE (str : idt_desc_t) : idt_desc_t :=
  mk_idt_desc (offset_15_00 str) KERNEL_CS 0 1 1 1 1 0 0 1 (offset_31_16 str).
Definition SET_INTR_GATE (str : idt_desc_t) : idt_desc_t :=
  mk_idt_desc (offset_15_00 str) KERNEL_CS 0 0 1 1 1 0 0 1 (offset_31_16 str).
Definition SET_IDT_ENTRY (str : idt_desc_t) (handler : Z) : idt_desc_t :=
  mk_idt_desc (Z.land handler 0xFFFF) (seg_selector str) (reserved4 str) (reserved3 str) (reserved2 str) (reserved1 str)
    (size str) (reserved0 str) (dpl str) (present str) (Z.shiftr (Z.land handler 0xFFFF0000) 16).
Definition set_dpl (v : Z) (str : idt_desc_t) : idt_desc_t :=
  mk_idt_desc (offset_15_00 str) (seg_selector str) (reserved4 str) (reserved3 str) (reserved2 str) (reserved1 str)
    (size str) (reserved0 str) v (present str) (offset_31_16 str).
Definition set_present (v : Z) (str : idt_desc_t) : idt_desc_t :=
  mk_idt_desc (offset_15_00 str) (seg_selector str) (reserved4 str) (reserved3 str) (reserved2 str) (reserved1 str)
    (size str) (reserved0 str) (dpl str) v (offset_31_16 str).

(** ** The table *)

(** The wrappers of idt_handle_wrap.S. *)
Inductive wrapper :=
| _divide_by_zero | _reserved | _non_maskable_interrupt | _breakpoint | _overflow
| _bound_range_exceeded | _undefined_opcode | _no_math_coprocessor | _double_fault | _coprocessor_overrun
| _invalid_tss | _segment_not_present | _stack_segment_fault | _general_protection | _page_fault
| _intel_reserved | _floating_point_error | _alignment_check | _machine_check | _floating_point_except
| _pit_intr | _keyboard_intr | _rtc_intr | _mouse_intr | _syscall.

Definition except_ptr : list wrapper :=
  [_divide_by_zero; _reserved; _non_maskable_interrupt; _breakpoint; _overflow;
   _bound_range_exceeded; _undefined_opcode; _no_math_coprocessor; _double_fault; _coprocessor_overrun;
   _invalid_tss; _segment_not_present; _stack_segment_fault; _general_protection; _page_fault;
   _intel_reserved; _floating_point_error; _alignment_check; _machine_check; _floating_point_except].

Definition intr_ptr : list (option wrapper) :=
  [Some _pit_intr; Some _keyboard_intr; None; None; None; None; None; None;
   Some _rtc_intr; None; None; None; Some _mouse_intr; None; None; None].

(** [addr]: where the linker put the wrappers; [idt_entry], [empty_entry]: what the
    two local variables hold before they are assigned. *)
Definition idt_init (addr : wrapper -> Z) (idt : Z) (idt_entry empty_entry : idt_desc_t) : M unit :=
  let empty_entry := set_present 0 empty_entry in
  let idt_entry := SET_INTR_GATE idt_entry in
  for_ (Z.to_nat USED_EXCEPTIONS) (fun i =>
    w ← lift OutOfBounds (except_ptr !! Z.to_nat i);
    set_vector idt i (SET_IDT_ENTRY idt_entry (addr w))) ;;
  for_ (Z.to_nat (NUM_VEC - USED_EXCEPTIONS)) (fun i => set_vector idt (USED_EXCEPTIONS + i) empty_entry) ;;
  for_ (Z.to_nat PIC_INTRS) (fun i =>
    o ← lift OutOfBounds (intr_ptr !! Z.to_nat i);
    match o with
    | Some w => set_vector idt (i + 32) (SET_IDT_ENTRY idt_entry (addr w))
    | None => skip
    end) ;;
  let idt_entry := set_dpl 3 (SET_TRAP_GATE idt_entry) in
  set_vector idt 128 (SET_IDT_ENTRY idt_entry (addr _syscall)) ;;
  upd_cpu (set_idtr idt).

(** ** The exceptions *)

(** [message] of Mouse.v is a string literal that ends in a newline. *)
Definition PRINT_MESSAGE (f : frame) (msg : string) : M control :=
  printf (message msg) [] ;;
  upd_proc (set_except_raised true) ;;
  sys_halt f 0.

Definition div_zero_fault f := PRINT_MESSAGE f "Divide-by-zero fault occurred. Do you even math?".
Definition reserved_fault f := PRINT_MESSAGE f "RESERVED. You got an exception for intel used only...".
Definition nmi_intr f := PRINT_MESSAGE f "Non-maskable interrupt triggered. Hardware wants attention bad.".
Definition breakpoint_trap f := PRINT_MESSAGE f "Breakpoint thrown. How long is this going to take?".
Definition overflow_trap f := PRINT_MESSAGE f "Overflow detected. It's too big.".
Definition bound_range_fault f := PRINT_MESSAGE f "Bounds exceeded. Try a tigher fit.".
Definition invalid_opcode_fault f := PRINT_MESSAGE f "Invalid opcode used. This is x86, bruh...".
Definition device_na_fault f := PRINT_MESSAGE f "Device not available fault. You gonna wait today.".
Definition double_fault_abort f := PRINT_MESSAGE f "Double fault, abort! RIP, GG.".
Definition seg_overrun_fault f :=
  PRINT_MESSAGE f "Coprocessor Segment Overrun (reserved). Really shouldn't be getting this...".
Definition tss_fault f := PRINT_MESSAGE f "Invalid task state segment. No context switching for you, ha.".
Definition seg_np_fault f := PRINT_MESSAGE f "Segment not present. Is your brain segment present?".
Definition ss_fault f := PRINT_MESSAGE f "Stack segment fault. Have fun debugging.".
Definition gen_pro_fault f := PRINT_MESSAGE f "General protection fault. You're violating me.".
Definition dne_entry f := PRINT_MESSAGE f "Intel reserved. Why are you even getting this?!".
Definition fpu_math_fault f := PRINT_MESSAGE f "x87 FPU Floating-Point Error. No one actually knows...".
Definition align_fault f := PRINT_MESSAGE f "Alignment check faulted. Guess your brain also needs re-alignment.".
Definition machine_chk_abort f := PRINT_MESSAGE f "Machine check failed, abort! Another RIP, GG.".
Definition simd_fpe_fault f := PRINT_MESSAGE f "Floating point exception. IDEK, but GL.".

(** [cr2]: the faulting address, as the processor left it in the register. *)
Definition page_fault (cr2 : Z) (f : frame) : M control :=
  printf (message "Page fault encountered with error %x") [va_num cr2] ;;
  upd_proc (set_except_raised true) ;;
  sys_halt f 0.

(** ExceptionWrap: the C handler of a wrapper. *)
Definition exception_of (cr2 : Z) (w : wrapper) : option (frame -> M control) :=
  match w with
  | _divide_by_zero => Some div_zero_fault
  | _reserved => Some reserved_fault
  | _non_maskable_interrupt => Some nmi_intr
  | _breakpoint => Some breakpoint_trap
  | _overflow => Some overflow_trap
  | _bound_range_exceeded => Some bound_range_fault
  | _undefined_opcode => Some invalid_opcode_fault
  | _no_math_coprocessor => Some device_na_fault
  | _double_fault => Some double_fault_abort
  | _coprocessor_overrun => Some seg_overrun_fault
  | _invalid_tss => Some tss_fault
  | _segment_not_present => Some seg_np_fault
  | _stack_segment_fault => Some ss_fault
  | _general_protection => Some gen_pro_fault
  | _page_fault => Some (page_fault cr2)
  | _intel_reserved => Some dne_entry
  | _floating_point_error => Some fpu_math_fault
  | _alignment_check => Some align_fault
  | _machine_check => Some machine_chk_abort
  | _floating_point_except => Some simd_fpe_fault
  | _pit_intr | _keyboard_intr | _rtc_intr | _mouse_intr | _syscall => None
  end.

(** ** What the processor sees *)

(** A present gate: handler address, code segment, gate type, privilege level. *)
Record gate := mk_gate { g_offset : Z; g_selector : Z; g_type : Z; g_dpl : Z }.
Abbreviation INTERRUPT_GATE := 14.
Abbreviation TRAP_GATE := 15.

Definition decode (lo hi : Z) : option gate :=
  if Z.testbit hi 15 then
    Some (mk_gate (lo mod W16 + W16 * (hi / W16)) (lo / W16) ((hi / 256) mod 32) ((hi / 8192) mod 4))
  else None.

Definition gate_of (m : memory) (idt i : Z) : option gate := decode (rd32 m (idt + 8 * i)) (rd32 m (idt + 8 * i + 4)).

(** The table the kernel wants. *)
Definition vector_spec (addr : wrapper -> Z) (i : Z) : option gate :=
  if i <? USED_EXCEPTIONS then
    (fun w => mk_gate (addr w) KERNEL_CS INTERRUPT_GATE 0) <$> except_ptr !! Z.to_nat i
  else if i =? 32 then Some (mk_gate (addr _pit_intr) KERNEL_CS INTERRUPT_GATE 0)
  else if i =? 33 then Some (mk_gate (addr _keyboard_intr) KERNEL_CS INTERRUPT_GATE 0)
  else if i =? 40 then Some (mk_gate (addr _rtc_intr) KERNEL_CS INTERRUPT_GATE 0)
  else if i =? 44 then Some (mk_gate (addr _mouse_intr) KERNEL_CS INTERRUPT_GATE 0)
  else if i =? 128 then Some (mk_gate (addr _syscall) KERNEL_CS TRAP_GATE 3)
  else None.

(** Fields within the widths of the bit fields. *)
Definition desc_ok (d : idt_desc_t) : Prop :=
  0 <= offset_15_00 d < W16 /\ 0 <= seg_selector d < W16 /\ 0 <= reserved4 d < W8 /\ 0 <= reserved3 d < 2 /\
  0 <= reserved2 d < 2 /\ 0 <= reserved1 d < 2 /\ 0 <= size d < 2 /\ 0 <= reserved0 d < 2 /\ 0 <= dpl d < 4 /\
  0 <= present d < 2 /\ 0 <= offset_31_16 d < W16.

Definition gate_desc (d : idt_desc_t) : option gate :=
  if present d =? 1 then
    Some (mk_gate (offset_15_00 d + W16 * offset_31_16 d) (seg_selector d)
      (reserved3 d + 2 * reserved2 d + 4 * reserved1 d + 8 * size d + 16 * reserved0 d) (dpl d))
  else None.

Ltac desc_simpl := cbn [offset_15_00 seg_selector reserved4 reserved3 reserved2 reserved1 size reserved0 dpl present
  offset_31_16 SET_IDT_ENTRY SET_INTR_GATE SET_TRAP_GATE set_dpl set_present].

Lemma decode_desc d : desc_ok d ->
  0 <= desc_lo d < W32 /\ 0 <= desc_hi d < W32 /\ decode (desc_lo d) (desc_hi d) = gate_desc d.
Proof.
  destruct d as [o1 sel r4 r3 r2 r1 sz r0 dp pr o2]. unfold desc_ok, decode, gate_desc, desc_lo, desc_hi. desc_simpl.
  intros (H1 & H2 & H3 & H4 & H5 & H6 & H7 & H8 & H9 & H10 & H11). split; [lia|]. split; [lia|].
  rewrite Z.testbit_eqb by lia. change (2 ^ 15) with 32768. set (hi := r4 + _ + _ + _ + _ + _ + _ + _ + _).
  replace ((hi / 32768) mod 2) with pr by (unfold hi; zlia). destruct (pr =? 1) eqn:E; [|done]. do 2 f_equal;
    unfold hi; zlia.
Qed.

Lemma word_split h : 0 <= h < W32 ->
  Z.land h 0xFFFF + W16 * Z.shiftr (Z.land h 0xFFFF0000) 16 = h /\ 0 <= Z.land h 0xFFFF < W16 /\
  0 <= Z.shiftr (Z.land h 0xFFFF0000) 16 < W16.
Proof.
  intros Hh. change 0xFFFF with (Z.ones 16). rewrite land_low by lia. change (2 ^ 16) with W16.
  change 0xFFFF0000 with (Z.shiftl (Z.ones (32 - 16)) 16). rewrite land_high by lia. rewrite Z.shiftr_div_pow2 by lia.
  change (2 ^ 16) with W16. zlia.
Qed.

Section table.
Context (addr : wrapper -> Z) (idt : Z) (k : kernel).
Hypothesis Haddr : forall w, 0 <= addr w < W32.
Hypothesis Hidt : 0 <= idt /\ idt + 2048 <= W32.

(** The table reads as [T], and nothing else has changed. *)
Definition table_is (T : Z -> option gate) (k' : kernel) : Prop :=
  exists m', k' = set_k_mem m' k /\ differs_within (k_mem k) m' idt 2048 /\
    forall i, 0 <= i < NUM_VEC -> gate_of m' idt i = T i.

Lemma set_vector_spec i d T k' : 0 <= i < NUM_VEC -> desc_ok d -> table_is T k' ->
  wp (set_vector idt i d) (fun _ => table_is (fun j => if j =? i then gate_desc d else T j)) k'.
Proof using All.
  intros Hi Hd (m & -> & D & G). destruct (decode_desc d Hd) as (L1 & L2 & E). unfold set_vector. wp_steps.
  change (k_mem (set_k_mem m k)) with m. eexists. split; [reflexivity|]. split.
  - eapply differs_within_trans; [exact D|]. eapply differs_within_trans.
    + apply (wr32_within _ (idt + 8 * i) (desc_lo d) idt 2048 (8 * i)); lia.
    + apply (wr32_within _ (idt + 8 * i + 4) (desc_hi d) idt 2048 (8 * i + 4)); lia.
  - intros j Hj. unfold gate_of. destruct (Z.eqb_spec j i) as [->|Hne].
    + rewrite rd32_wr32_eq, (rd32_wr32_sep _ (idt + 8 * i + 4)), rd32_wr32_eq by lia. by rewrite !u32_small by lia.
    + rewrite !(rd32_wr32_sep _ (idt + 8 * i + 4)), !(rd32_wr32_sep _ (idt + 8 * i)) by lia. by apply G.
Qed.

Lemma table_ext T T' k' : (forall i, 0 <= i < NUM_VEC -> T i = T' i) -> table_is T k' -> table_is T' k'.
Proof using All. intros HT (m & -> & D & G). exists m. split_and!; [done..|]. intros i Hi. by rewrite G, HT. Qed.

Lemma entry_gate d w : desc_ok d -> present d = 1 ->
  desc_ok (SET_IDT_ENTRY d (addr w)) /\
  gate_desc (SET_IDT_ENTRY d (addr w)) = Some (mk_gate (addr w) (seg_selector d)
    (reserved3 d + 2 * reserved2 d + 4 * reserved1 d + 8 * size d + 16 * reserved0 d) (dpl d)).
Proof using All.
  intros Hd Hp. destruct (word_split (addr w) (Haddr w)) as (E & H1 & H2). split.
  - unfold desc_ok in *. desc_simpl. tauto.
  - unfold gate_desc. desc_simpl. by rewrite Hp, E.
Qed.

(** The entries of the PIC lines below [n]. *)
Definition pic_line_spec (n i : Z) : option gate :=
  if (32 <=? i) && (i <? 32 + n) then
    w ← intr_ptr !! Z.to_nat (i - 32); (fun w => mk_gate (addr w) KERNEL_CS INTERRUPT_GATE 0) <$> w
  else None.
Definition exception_spec (i : Z) : option gate :=
  (fun w => mk_gate (addr w) KERNEL_CS INTERRUPT_GATE 0) <$> except_ptr !! Z.to_nat i.

Lemma intr_entry e w : desc_ok e -> desc_ok (SET_IDT_ENTRY (SET_INTR_GATE e) (addr w)) /\
  gate_desc (SET_IDT_ENTRY (SET_INTR_GATE e) (addr w)) = Some (mk_gate (addr w) KERNEL_CS INTERRUPT_GATE 0).
Proof using All.
  intros He. apply (entry_gate (SET_INTR_GATE e) w); [|done]. unfold desc_ok in *. desc_simpl. intuition lia.
Qed.

Lemma idt_exceptions e T k' : desc_ok e -> table_is T k' ->
  wp (for_ (Z.to_nat USED_EXCEPTIONS) (fun i =>
    w ← lift OutOfBounds (except_ptr !! Z.to_nat i);
    set_vector idt i (SET_IDT_ENTRY (SET_INTR_GATE e) (addr w))))
    (fun _ => table_is (fun i => if i <? USED_EXCEPTIONS then exception_spec i else T i)) k'.
Proof using All.
  intros He HT. apply (wp_for (Z.to_nat USED_EXCEPTIONS) _ (fun n => table_is (fun i => if i <? n then exception_spec i else T i))).
  - intros n k1 Hn H1. destruct (lookup_lt_is_Some_2 except_ptr (Z.to_nat n)) as [w Hw]; [cbn; lia|].
    apply wp_bind. eapply wp_lift; [exact Hw|]. destruct (intr_entry e w He) as [Hd Hg].
    eapply wp_mono; [|apply (set_vector_spec n _ _ k1 ltac:(lia) Hd H1)]. intros [] k2. apply table_ext. intros i Hi. cbn beta.
    destruct (Z.eqb_spec i n) as [->|Hne].
    + rewrite (proj2 (Z.ltb_lt n (n + 1))) by lia. unfold exception_spec. by rewrite Hw.
    + case_cmp; case_cmp; (done || lia).
  - eapply table_ext; [|exact HT]. intros i Hi. cbn beta. by rewrite (proj2 (Z.ltb_ge i 0)) by lia.
Qed.

Lemma idt_empty e T k' : desc_ok e ->
  table_is (fun i => if i <? USED_EXCEPTIONS then exception_spec i else T i) k' ->
  wp (for_ (Z.to_nat (NUM_VEC - USED_EXCEPTIONS)) (fun i => set_vector idt (USED_EXCEPTIONS + i) (set_present 0 e)))
    (fun _ => table_is (fun i => if i <? USED_EXCEPTIONS then exception_spec i else None)) k'.
Proof using All.
  intros He HT.
  eapply wp_mono; [|apply (wp_for (Z.to_nat (NUM_VEC - USED_EXCEPTIONS)) _ (fun n => table_is (fun i =>
    if i <? USED_EXCEPTIONS then exception_spec i else if i <? USED_EXCEPTIONS + n then None else T i)))].
  - intros [] k2. apply table_ext. intros i Hi. cbn beta.
    rewrite (proj2 (Z.ltb_lt i (USED_EXCEPTIONS + _))) by lia. done.
  - intros n k1 Hn H1. assert (desc_ok (set_present 0 e)) as Hd by (unfold desc_ok in *; desc_simpl; intuition lia).
    eapply wp_mono; [|apply (set_vector_spec (USED_EXCEPTIONS + n) _ _ k1 ltac:(lia) Hd H1)].
    intros [] k2. apply table_ext. intros i Hi. cbn beta. destruct (Z.eqb_spec i (USED_EXCEPTIONS + n)) as [->|Hne].
    + rewrite (proj2 (Z.ltb_ge _ USED_EXCEPTIONS)), (proj2 (Z.ltb_lt _ (USED_EXCEPTIONS + (n + 1)))) by lia. done.
    + repeat case_cmp; (done || lia).
  - eapply table_ext; [|exact HT]. intros i Hi. cbn beta. repeat case_cmp; (done || lia).
Qed.

Lemma idt_lines e k' : desc_ok e ->
  table_is (fun i => if i <? USED_EXCEPTIONS then exception_spec i else None) k' ->
  wp (for_ (Z.to_nat PIC_INTRS) (fun i =>
    o ← lift OutOfBounds (intr_ptr !! Z.to_nat i);
    match o with
    | Some w => set_vector idt (i + 32) (SET_IDT_ENTRY (SET_INTR_GATE e) (addr w))
    | None => skip
    end))
    (fun _ => table_is (fun i => if i <? USED_EXCEPTIONS then exception_spec i else pic_line_spec PIC_INTRS i)) k'.
Proof using All.
  intros He HT. apply (wp_for (Z.to_nat PIC_INTRS) _ (fun n => table_is (fun i =>
    if i <? USED_EXCEPTIONS then exception_spec i else pic_line_spec n i))).
  - intros n k1 Hn H1. destruct (lookup_lt_is_Some_2 intr_ptr (Z.to_nat n)) as [o Ho]; [cbn; lia|].
    assert (pic_line_spec (n + 1) (n + 32) = (fun w => mk_gate (addr w) KERNEL_CS INTERRUPT_GATE 0) <$> o) as Hline.
    { unfold pic_line_spec. rewrite (proj2 (Z.leb_le 32 _)), (proj2 (Z.ltb_lt _ _)) by lia. cbn [andb].
      replace (n + 32 - 32) with n by lia. by rewrite Ho. }
    assert (forall i, i <> n + 32 -> pic_line_spec (n + 1) i = pic_line_spec n i) as Hother.
    { intros i Hi. unfold pic_line_spec. replace (i <? 32 + (n + 1)) with (i <? 32 + n); [done|]. case_cmp; case_cmp; lia. }
    apply wp_bind. eapply wp_lift; [exact Ho|]. destruct o as [w|].
    + destruct (intr_entry e w He) as [Hd Hg]. eapply wp_mono; [|apply (set_vector_spec (n + 32) _ _ k1 ltac:(lia) Hd H1)].
      intros [] k2. apply table_ext. intros i Hi. cbn beta. destruct (Z.eqb_spec i (n + 32)) as [->|Hne].
      * rewrite Hg, Hline. by rewrite (proj2 (Z.ltb_ge _ USED_EXCEPTIONS)) by lia.
      * by rewrite Hother.
    + wp_steps. eapply table_ext; [|exact H1]. intros i Hi. cbn beta. destruct (Z.eqb_spec i (n + 32)) as [->|Hne].
      * rewrite Hline, (proj2 (Z.ltb_ge _ USED_EXCEPTIONS)) by lia. unfold pic_line_spec. by rewrite (proj2 (Z.ltb_ge _ (32 + n))), andb_false_r by lia.
      * by rewrite Hother.
  - eapply table_ext; [|exact HT]. intros i Hi. cbn beta. unfold pic_line_spec. repeat case_cmp; (done || lia).
Qed.

Lemma vector_spec_lines i : 0 <= i < NUM_VEC ->
  vector_spec addr i = (if i =? 128 then Some (mk_gate (addr _syscall) KERNEL_CS TRAP_GATE 3)
    else if i <? USED_EXCEPTIONS then exception_spec i else pic_line_spec PIC_INTRS i).
Proof using All.
  intros Hi. unfold vector_spec, exception_spec, pic_line_spec.
  destruct (Z.eqb_spec i 128) as [->|H128]; [done|].
  destruct (Z.ltb_spec i USED_EXCEPTIONS) as [|Hge]; [done|].
  destruct ((32 <=? i) && (i <? 32 + PIC_INTRS)) eqn:E.
  - assert (32 <= i < 48) as Hr by lia. clear E.
    assert (i = 32 \/ i = 33 \/ i = 34 \/ i = 35 \/ i = 36 \/ i = 37 \/ i = 38 \/ i = 39 \/ i = 40 \/ i = 41 \/ i = 42 \/
      i = 43 \/ i = 44 \/ i = 45 \/ i = 46 \/ i = 47) as D by lia. repeat (destruct D as [-> | D]; [done|]). by subst.
  - rewrite !(proj2 (Z.eqb_neq i _)) by lia. done.
Qed.

Lemma idt_init_table idt_entry empty_entry : desc_ok idt_entry -> desc_ok empty_entry ->
  wp (idt_init addr idt idt_entry empty_entry) (fun _ k' => exists k1, table_is (vector_spec addr) k1 /\
    k' = set_k_cpu (set_idtr idt (k_cpu k1)) k1) k.
Proof using All.
  intros He Hm. unfold idt_init. cbv zeta. apply wp_bind.
  eapply wp_mono; [|apply (idt_exceptions idt_entry (gate_of (k_mem k) idt) k He)].
  2: { exists (k_mem k). split_and!; [by destruct k|apply differs_within_refl|done]. }
  intros [] k1 H1. cbn beta. apply wp_bind. eapply wp_mono; [|exact (idt_empty empty_entry _ k1 Hm H1)].
  intros [] k2 H2. cbn beta. apply wp_bind. eapply wp_mono; [|exact (idt_lines idt_entry k2 He H2)].
  intros [] k3 H3. cbn beta. apply wp_bind.
  destruct (entry_gate (set_dpl 3 (SET_TRAP_GATE (SET_INTR_GATE idt_entry))) _syscall) as [Hd Hg];
    [unfold desc_ok in *; desc_simpl; intuition lia|done|].
  eapply wp_mono; [|apply (set_vector_spec 128 _ _ k3 ltac:(lia) Hd H3)].
  intros [] k4 H4. cbn beta. wp_steps. exists k4. split; [|done]. eapply table_ext; [|exact H4]. intros i Hi. cbn beta.
  by rewrite vector_spec_lines, Hg.
Qed.
End table.

(** ** An exception ends its process *)

(** What an exception prints: the message of its handler and a newline; the page
    fault also prints the faulting address in hexadecimal. *)
Definition exception_text (cr2 : Z) (w : wrapper) (h : frame -> M control) (text : list Z) : Prop :=
  match w with
  | _page_fault => exists ds, numeral 16 cr2 ds /\
      text = bytes_of_string "Page fault encountered with error " ++ numeral_chars ds ++ [10]
  | _ => exists msg, (forall f, h f = PRINT_MESSAGE f msg) /\ text = bytes_of_string msg ++ [10]
  end.

(** A literal message: no NUL, no percent sign. *)
Definition plain_msg (msg : string) : bool :=
  let l := bytes_of_string msg ++ [10] in
  text_ok l && forallb (fun c => negb (c =? 37)) l && (Z.of_nat (length l) <? W32).

Lemma prints_message msg : plain_msg msg = true ->
  prints (printf (message msg) []) (fun _ t => t = bytes_of_string msg ++ [10]).
Proof.
  unfold plain_msg. cbv zeta. rewrite !andb_true_iff, Z.ltb_lt. intros [[T P] L].
  assert (Forall (fun c => c <> 37) (bytes_of_string msg ++ [10])) as Pl.
  { apply List.Forall_forall. intros c Hc. pose proof (proj1 (forallb_forall _ _) P c Hc). cbn beta in *. lia. }
  replace (message msg) with (arr_at ((bytes_of_string msg ++ [10]) ++ [0])) by (unfold message; by rewrite <- app_assoc).
  eapply prints_mono; [apply prints_printf; [done|done|]|].
  - split; [done|]. exists 0%nat. split; [by apply arity_plain|lia].
  - intros r t [_ F]. by apply (formats_plain _ _ _ Pl F).
Qed.

Lemma prints_page_fault cr2 : 0 <= cr2 < W32 ->
  prints (printf (message "Page fault encountered with error %x") [va_num cr2])
    (fun _ t => exists ds, numeral 16 cr2 ds /\
      t = bytes_of_string "Page fault encountered with error " ++ numeral_chars ds ++ [10]).
Proof.
  intros Hc. replace (message _) with (arr_at ((bytes_of_string "Page fault encountered with error %x" ++ [10]) ++ [0]))
    by (unfold message; by rewrite <- app_assoc).
  eapply prints_mono; [apply prints_printf; [reflexivity|vm_compute; reflexivity|]|].
  - split.
    + apply Forall_singleton. split; [exact Hc|]. exists 0. split; [|lia]. split_and!; [lia|lia|done].
    + exists 1%nat. split; [vm_compute; reflexivity|cbn; lia].
  - intros r t [_ F].
    change (bytes_of_string _ ++ [10]) with (bytes_of_string "Page fault encountered with error " ++ [37; 120; 10]) in F.
    apply formats_app in F as (u & -> & F); [|apply (bool_decide_unpack _); vm_compute; exact I].
    inversion F as [|c l a t Hne|l a v l' a' t C F']; subst; [done|]. inversion C as [| |? ? ? ds| | | | | |]; subst; [|set_solver].
    apply (formats_plain [10]) in F' as ->; [|by apply Forall_singleton]. by exists ds.
Qed.

Definition raised (k : kernel) : kernel := set_k_proc (set_except_raised true (k_proc k)) k.

(** The page a terminal draws on is apart from the page directory and tables. *)
Definition page_apart (k : kernel) (t : term_t) : Prop :=
  0 <= vid_mem t /\ vid_mem t + PAGE_BYTES <= PAGE_TABLE_STARTADDR /\ apart (vid_mem t) PAGE_BYTES (cr3 (k_cpu k)) SIZEOFDIR.

Lemma output_keeps_tables k k1 t i : paging_wf (k_mem k) (cr3 (k_cpu k)) -> page_apart k t ->
  terminals (k_disp k) !! Z.to_nat i = Some t -> out_frame i k k1 -> tables_same (k_mem k) (k_mem k1) (cr3 (k_cpu k)).
Proof.
  intros (W1 & W2 & _) (P1 & P2 & P3) Ht (t0 & t1 & m' & io & _ & Ht0 & _ & D & _ & ->) a Ha.
  rewrite Ht in Ht0. injection Ht0 as <-. change (rd m' a = rd (k_mem k) a).
  apply (within_rd _ _ (vid_mem t) PAGE_BYTES); [done|lia..|]. destruct P3; lia.
Qed.

Lemma output_keeps_parent k k1 off b pb t : out_frame (sched_term_id (k_disp k)) k k1 -> has_parent k off b pb t ->
  exists t1, has_parent (raised k1) off b pb t1 /\ same_but_pos t t1.
Proof.
  intros (t0 & t1 & m' & io & Hi & Ht0 & S & _ & _ & ->) (H1 & H2 & H3 & H4 & H5 & H6 & H7 & H8 & H9 & H10 & H11).
  rewrite H11 in Ht0. apply (inj Some) in Ht0. subst t0. exists t1. split; [|done].
  refine (conj H1 (conj H2 (conj H3 (conj H4 (conj H5 (conj H6 (conj H7 (conj H8 (conj H9 (conj H10 _)))))))))).
  apply list_lookup_insert_eq. by eapply lookup_lt_Some.
Qed.

(** Printing something, raising the flag and halting. *)
Lemma raise_halts (c : M Z) (Q : list Z -> Prop) f off b pb t s k :
  let i := sched_term_id (k_disp k) in
  prints c (fun _ text => Q text) -> has_parent k off b pb t -> slots_ok (pcb_status (k_proc k)) ->
  paging_wf (k_mem k) (cr3 (k_cpu k)) -> page_apart k t -> shows k i s -> pos_ok s ->
  wp (c ;; upd_proc (set_except_raised true) ;; sys_halt f 0) (fun r k' => r = Back 256 /\ exists text k1 t1, Q text /\
    shows k1 i (text_spec (color (k_disp k)) text s) /\ out_frame i k k1 /\ same_but_pos t t1 /\
    resumed (raised k1) k' off b pb t1) k.
Proof.
  intros i Hc Hp Hslots Hwf Ha Hs Hok. apply wp_bind. eapply wp_mono; [|exact (Hc k s Hs Hok)].
  intros _ k1 (text & HQ & Hs1 & F). cbn beta. wp_steps. fold (raised k1).
  assert (terminals (k_disp k) !! Z.to_nat i = Some t) as Ht by apply Hp.
  pose proof (output_keeps_tables k k1 t i Hwf Ha Ht F) as TS.
  destruct (output_keeps_parent k k1 off b pb t F Hp) as (t1 & Hp1 & St).
  assert (pcb_status (k_proc (raised k1)) = pcb_status (k_proc k) /\ k_cpu (raised k1) = k_cpu k) as [E1 E2].
  { by destruct F as (? & ? & ? & ? & _ & _ & _ & _ & _ & ->). }
  eapply wp_mono; [|apply (sys_halt_resumes f 0 off b pb t1 (raised k1) Hp1)].
  - intros r k' [-> R]. split; [done|]. by exists text, k1, t1.
  - by rewrite E1.
  - rewrite E2. by apply (tables_same_wf (k_mem k)).
Qed.

Lemma PRINT_MESSAGE_prints msg f : plain_msg msg = true ->
  exists c : M Z, PRINT_MESSAGE f msg = (c ;; upd_proc (set_except_raised true) ;; sys_halt f 0) /\
    prints c (fun _ text => exists msg', (forall f, PRINT_MESSAGE f msg = PRINT_MESSAGE f msg') /\
      text = bytes_of_string msg' ++ [10]).
Proof.
  intros H. exists (printf (message msg) []). split; [reflexivity|].
  eapply prints_mono; [exact (prints_message msg H)|]. intros _ t ->. exists msg. split; [intros; reflexivity|reflexivity].
Qed.

Lemma exception_prints cr2 w h f : 0 <= cr2 < W32 -> exception_of cr2 w = Some h ->
  exists c : M Z, h f = (c ;; upd_proc (set_except_raised true) ;; sys_halt f 0) /\
    prints c (fun _ text => exception_text cr2 w h text).
Proof.
  intros Hc Hw. destruct w; cbv beta iota delta [exception_of] in Hw; try discriminate Hw; apply (inj Some) in Hw; subst h;
    cbv beta iota delta [exception_text];
    lazymatch goal with
    | |- context [page_fault] => exists (printf (message "Page fault encountered with error %x") [va_num cr2]);
        split; [reflexivity|exact (prints_page_fault cr2 Hc)]
    | _ => apply PRINT_MESSAGE_prints; vm_compute; reflexivity
    end.
Qed.

(** ** Properties *)

(** idt_init installs the interrupt table: whatever the two local descriptors held
    before, the processor finds at vectors 0 to 19 the exception wrappers, at 32,
    33, 40 and 44 those of the timer, the keyboard, the clock and the mouse, all as
    interrupt gates only the kernel may raise, at 0x80 the system call as a trap
    gate open to user programs, and no gate anywhere else; only the table is
    written, and it is loaded. *)
Theorem idt_init_installs addr idt idt_entry empty_entry k :
  (forall w, 0 <= addr w < W32) -> 0 <= idt /\ idt + 2048 <= W32 -> desc_ok idt_entry -> desc_ok empty_entry ->
  exists m', idt_init addr idt idt_entry empty_entry k =
      Ret tt (set_k_cpu (set_idtr idt (k_cpu k)) (set_k_mem m' k)) /\
    differs_within (k_mem k) m' idt 2048 /\ forall i, 0 <= i < NUM_VEC -> gate_of m' idt i = vector_spec addr i.
Proof.
  intros Ha Hi He Hm. pose proof (idt_init_table addr idt k Ha Hi idt_entry empty_entry He Hm) as W.
  apply wp_ret_iff in W as ([] & k' & E & k1 & (m' & -> & D & G) & ->). by exists m'.
Qed.


Definition demo_addr (w : wrapper) : Z := match w with _syscall => 0x4005F0 | _ => 0x400200 end.
Definition demo_desc : idt_desc_t := mk_idt_desc 7 7 7 1 1 1 1 1 1 1 7.

Lemma idt_init_installs_witness : exists m',
  idt_init demo_addr 0x402000 demo_desc demo_desc kernel_quiet =
    Ret tt (set_k_cpu (set_idtr 0x402000 (k_cpu kernel_quiet)) (set_k_mem m' kernel_quiet)) /\
  gate_of m' 0x402000 128 = Some (mk_gate 0x4005F0 KERNEL_CS TRAP_GATE 3).
Proof.
  destruct (idt_init_installs demo_addr 0x402000 demo_desc demo_desc kernel_quiet) as (m' & E & _ & G).
  - intros []; cbn; lia.
  - lia.
  - unfold desc_ok. cbn. lia.
  - unfold desc_ok. cbn. lia.
  - exists m'. split; [exact E|]. rewrite G by lia. reflexivity.
Defined.

