(* ===== verification/Kernel.v ===== *)
(** * The kernel's entry point (kernel.c, multiboot.h, x86_desc.h)

    [entry] prints what the boot loader passed, installs the segment descriptors,
    initialises the devices in the order of the source, turns interrupts on and
    starts the first shell.  The boot loader's structures are read from memory
    field by field; the addresses of the kernel's own tables are fixed by the
    linker ([link]). *)

From Stdlib Require Import ZArith Lia String.
From stdpp Require Import gmap list numbers strings.
From S2P Require Import Prelude Memory LibString State Display Printf I8259 Paging Pcb Rtc FileSystem MultiTerm.
From S2P Require Import Keyboard Syscalls Execute Timer Mouse Idt.

Abbreviation MULTIBOOT_BOOTLOADER_MAGIC := 0x2BADB002.
Abbreviation KERNEL_DS := 0x18.
Abbreviation KERNEL_TSS := 0x30.
Abbreviation KERNEL_LDT := 0x38.
Abbreviation TSS_SIZE := 104.

(** ** The structures of the boot loader *)

Definition mbi_flags (m : memory) (mbi : Z) : Z := rd32 m mbi.
Definition mem_lower (m : memory) (mbi : Z) : Z := rd32 m (mbi + 4).
Definition mem_upper (m : memory) (mbi : Z) : Z := rd32 m (mbi + 8).
Definition boot_device (m : memory) (mbi : Z) : Z := rd32 m (mbi + 12).
Definition cmdline (m : memory) (mbi : Z) : Z := rd32 m (mbi + 16).
Definition mods_count (m : memory) (mbi : Z) : Z := rd32 m (mbi + 20).
Definition mods_addr (m : memory) (mbi : Z) : Z := rd32 m (mbi + 24).
Definition elf_sec (mbi : Z) : Z := mbi + 28.
Definition mmap_length (m : memory) (mbi : Z) : Z := rd32 m (mbi + 44).
Definition mmap_addr (m : memory) (mbi : Z) : Z := rd32 m (mbi + 48).
(** module_t *)
Definition mod_start (m : memory) (mod_ : Z) : Z := rd32 m mod_.
Definition mod_end (m : memory) (mod_ : Z) : Z := rd32 m (mod_ + 4).
Abbreviation MODULE_SIZE := 16.

Definition CHECK_FLAG (flags bit : Z) : bool := c_true (Z.land flags (Z.shiftl 1 bit)).

(** ** Reporting *)

(** The bytes of a module's start are printed as (signed) chars. *)
Definition print_module (mod_count mod_ : Z) : M unit :=
  m ← gets k_mem;
  printf (message "Module %d loaded at address: 0x%#x") [va_num mod_count; va_num (mod_start m mod_)] ;;
  m ← gets k_mem;
  printf (message "Module %d ends at address: 0x%#x") [va_num mod_count; va_num (mod_end m mod_)] ;;
  printf (message "First few bytes of module:") [] ;;
  for_ 16 (fun i =>
    m ← gets k_mem;
    printf (lit "0x%x ") [va_num (u32 (i8 (rd m (mod_start m mod_ + i))))] ;; skip) ;;
  printf (message "") [] ;;
  skip.

Definition print_modules (mbi : Z) : M unit :=
  m ← gets k_mem;
  let mod_ := mods_addr m mbi in
  modify (set_fs_addr (mod_start m mod_)) ;;
  loopM (fun '(mod_count, mod_) =>
    m ← gets k_mem;
    if mod_count <? mods_count m mbi
    then print_module mod_count mod_ ;; mret (inl (u32 (mod_count + 1), u32 (mod_ + MODULE_SIZE)))
    else mret (inr tt)) (0, mod_).

Definition print_mmap (mbi : Z) : M unit :=
  m ← gets k_mem;
  printf (message "mmap_addr = 0x%#x, mmap_length = 0x%x") [va_num (mmap_addr m mbi); va_num (mmap_length m mbi)] ;;
  m ← gets k_mem;
  loopM (fun mmap =>
    m ← gets k_mem;
    if mmap <? u32 (mmap_addr m mbi + mmap_length m mbi) then
      printf (arr_at (bytes_of_string " size = 0x%x,     base_addr = 0x%#x%#x" ++ [10] ++
                      bytes_of_string "     type = 0x%x,  length    = 0x%#x%#x" ++ [10; 0]))
        [va_num (rd32 m mmap); va_num (rd32 m (mmap + 8)); va_num (rd32 m (mmap + 4));
         va_num (rd32 m (mmap + 20)); va_num (rd32 m (mmap + 16)); va_num (rd32 m (mmap + 12))] ;;
      m ← gets k_mem;
      mret (inl (u32 (mmap + rd32 m mmap + 4)))
    else mret (inr tt)) (mmap_addr m mbi).

(** "if (CHECK_FLAG(mbi->flags, bit)) c" *)
Definition when_flag (mbi bit : Z) (c : M unit) : M unit :=
  m ← gets k_mem;
  if CHECK_FLAG (mbi_flags m mbi) bit then c else skip.

(** [false]: "Both bits 4 and 5 are set", the kernel gives up. *)
Definition boot_report (mbi : Z) : M bool :=
  m ← gets k_mem;
  printf (message "flags = 0x%#x") [va_num (mbi_flags m mbi)] ;;
  when_flag mbi 0 (
    m ← gets k_mem;
    printf (message "mem_lower = %uKB, mem_upper = %uKB") [va_num (mem_lower m mbi); va_num (mem_upper m mbi)] ;; skip) ;;
  when_flag mbi 1 (
    m ← gets k_mem; printf (message "boot_device = 0x%#x") [va_num (boot_device m mbi)] ;; skip) ;;
  when_flag mbi 2 (
    m ← gets k_mem; printf (message "cmdline = %s") [mk_va (cmdline m mbi) (at_ m (cmdline m mbi))] ;; skip) ;;
  when_flag mbi 3 (print_modules mbi) ;;
  m ← gets k_mem;
  if CHECK_FLAG (mbi_flags m mbi) 4 && CHECK_FLAG (mbi_flags m mbi) 5 then
    printf (message "Both bits 4 and 5 are set.") [] ;; mret false
  else
    when_flag mbi 5 (
      m ← gets k_mem;
      printf (message "elf_sec: num = %u, size = 0x%#x, addr = 0x%#x, shndx = 0x%#x")
        [va_num (rd32 m (elf_sec mbi)); va_num (rd32 m (elf_sec mbi + 4)); va_num (rd32 m (elf_sec mbi + 8));
         va_num (rd32 m (elf_sec mbi + 12))] ;; skip) ;;
    when_flag mbi 6 (print_mmap mbi) ;;
    mret true.

(** ** Segment descriptors *)

Record seg_desc_t := mk_seg {
  seg_lim_15_00 : Z;
  base_15_00 : Z;
  base_23_16 : Z;
  s_type : Z;
  s_sys : Z;
  s_dpl : Z;
  s_present : Z;
  seg_lim_19_16 : Z;
  s_avail : Z;
  s_reserved : Z;
  s_opsize : Z;
  s_granularity : Z;
  base_31_24 : Z
}.

Definition seg_lo (d : seg_desc_t) : Z := seg_lim_15_00 d + W16 * base_15_00 d.
Definition seg_hi (d : seg_desc_t) : Z :=
  base_23_16 d + 256 * s_type d + 4096 * s_sys d + 8192 * s_dpl d + 32768 * s_present d + W16 * seg_lim_19_16 d +
  1048576 * s_avail d + 2097152 * s_reserved d + 4194304 * s_opsize d + 8388608 * s_granularity d + 16777216 * base_31_24 d.

(** SET_LDT_PARAMS and SET_TSS_PARAMS, which are the same macro. *)
Definition SET_SEG_PARAMS (d : seg_desc_t) (addr lim : Z) : seg_desc_t :=
  mk_seg (Z.land lim 0xFFFF) (Z.land addr 0xFFFF) (Z.shiftr (Z.land addr 0xFF0000) 16)
    (s_type d) (s_sys d) (s_dpl d) (s_present d) (Z.shiftr (Z.land lim 0xF0000) 16)
    (s_avail d) (s_reserved d) (s_opsize d) (s_granularity d) (Z.shiftr (Z.land addr 0xFF000000) 24).

(** The addresses the linker chose. *)
Record link := mk_link {
  l_idt : Z; l_ldt : Z; l_tss : Z;
  l_ldt_desc : Z; l_tss_desc : Z;     (* ldt_desc_ptr and tss_desc_ptr, in the GDT *)
  l_page_directory : Z;
  l_wrapper : wrapper -> Z
}.
(** ldt_size and tss_size of x86_desc.S *)
Abbreviation ldt_size := 31.
Abbreviation tss_size := 103.

Definition set_seg (p : Z) (d : seg_desc_t) : M unit :=
  upd_mem (fun m => wr32 (wr32 m p (seg_lo d)) (p + 4) (seg_hi d)).

(** [tss.esp0] is the field [tss_esp0] of the processor; ss0 and the LDT selector
    are at bytes 8 and 96 of the segment. *)
Definition init_segments (L : link) : M unit :=
  set_seg (l_ldt_desc L) (SET_SEG_PARAMS (mk_seg 0 0 0 2 0 0 1 0 0 0 1 0 0) (l_ldt L) ldt_size) ;;
  upd_cpu (set_ldtr KERNEL_LDT) ;;
  set_seg (l_tss_desc L) (SET_SEG_PARAMS
    (mk_seg (Z.land TSS_SIZE 0xFFFF) 0 0 9 0 0 1 (Z.land TSS_SIZE 0xF0000) 0 0 0 0 0) (l_tss L) tss_size) ;;
  upd_mem (fun m => wr16 m (l_tss L + 96) KERNEL_LDT) ;;
  upd_mem (fun m => wr16 m (l_tss L + 8) KERNEL_DS) ;;
  upd_cpu (set_tss_esp0 0x800000) ;;
  upd_cpu (set_tr KERNEL_TSS).

(** ** entry *)

(** [idt_entry], [empty_entry]: the uninitialised local variables of idt_init. *)
Definition init_devices (L : link) (idt_entry empty_entry : idt_desc_t) : M unit :=
  i8259_init ;;
  idt_init (l_wrapper L) (l_idt L) idt_entry empty_entry ;;
  keyboard_init ;;
  rtc_init ;;
  mouse_init ;;
  paging_init (l_page_directory L) ;;
  pit_init ;;
  clear_screen ;;
  set_color 3 0 ;;
  multi_term_init ;;
  puts_color 0 (message "testing") 3 4 ;;
  sti.

(** [None]: the kernel returns to boot.S, which halts the processor. *)
Definition entry (L : link) (idt_entry empty_entry : idt_desc_t) (f : frame) (magic addr : Z) : M (option control) :=
  clear_screen ;;
  if negb (magic =? MULTIBOOT_BOOTLOADER_MAGIC) then
    printf (message "Invalid magic number: 0x%#x") [va_num magic] ;; mret None
  else
    ok ← boot_report addr;
    if ok : bool then
      init_segments L ;;
      init_devices L idt_entry empty_entry ;;
      c ← sys_execute f (lit "shell");
      mret (Some c)
    else mret None.

(** ** What the processor reads from a descriptor *)

Record segment := mk_segment { sg_base : Z; sg_limit : Z; sg_type : Z; sg_dpl : Z }.
Abbreviation SEG_LDT := 2.
Abbreviation SEG_TSS := 9.

Definition segment_of (m : memory) (p : Z) : option segment :=
  let lo := rd32 m p in let hi := rd32 m (p + 4) in
  if Z.testbit hi 15 then
    Some (mk_segment (lo / W16 + W16 * (hi mod 256) + 16777216 * (hi / 16777216)) (lo mod W16 + W16 * ((hi / W16) mod 16))
      ((hi / 256) mod 32) ((hi / 8192) mod 4))
  else None.

Lemma byte_split a : 0 <= a < W32 ->
  Z.land a 0xFFFF + W16 * Z.shiftr (Z.land a 0xFF0000) 16 + 16777216 * Z.shiftr (Z.land a 0xFF000000) 24 = a /\
  0 <= Z.land a 0xFFFF < W16 /\ 0 <= Z.shiftr (Z.land a 0xFF0000) 16 < 256 /\ 0 <= Z.shiftr (Z.land a 0xFF000000) 24 < 256.
Proof.
  intros Ha. assert (Z.land a 0xFFFF = a mod W16) as E1 by (change 0xFFFF with (Z.ones 16); by rewrite Z.land_ones by lia).
  assert (forall n, 0 <= n -> Z.shiftr (Z.land a (Z.shiftl 255 n)) n = (a / 2 ^ n) mod 256) as E2.
  { intros n Hn. rewrite Z.shiftr_land, Z.shiftr_shiftl_l, Z.sub_diag by lia. change (Z.shiftl 255 0) with (Z.ones 8).
    by rewrite Z.land_ones, Z.shiftr_div_pow2 by lia. }
  change 0xFF0000 with (Z.shiftl 255 16). change 0xFF000000 with (Z.shiftl 255 24).
  rewrite (E2 16), (E2 24), E1 by lia. change (2 ^ 16) with W16. change (2 ^ 24) with 16777216. zlia.
Qed.

(** Installing a present descriptor of the given type. *)
Lemma set_seg_spec p addr lim ty op k : 0 <= p -> p + 8 <= W32 -> 0 <= addr < W32 -> 0 <= lim < W16 -> 0 <= ty < 16 -> 0 <= op < 2 ->
  wp (set_seg p (SET_SEG_PARAMS (mk_seg 0 0 0 ty 0 0 1 0 0 0 op 0 0) addr lim)) (fun _ k' => exists m,
    k' = set_k_mem m k /\ differs_within (k_mem k) m p 8 /\ segment_of m p = Some (mk_segment addr lim ty 0)) k.
Proof.
  intros H1 H2 Ha Hl Ht Ho. destruct (byte_split addr Ha) as (E & R1 & R2 & R3). unfold set_seg. wp_steps.
  eexists. split; [reflexivity|]. split.
  { eapply differs_within_trans; [eapply (wr32_within _ p _ p 8 0); lia|eapply (wr32_within _ (p + 4) _ p 8 4); lia]. }
  unfold segment_of. cbv zeta. rewrite rd32_wr32_eq, (rd32_wr32_sep _ (p + 4)), rd32_wr32_eq by lia.
  unfold seg_lo, seg_hi, SET_SEG_PARAMS.
  cbn [seg_lim_15_00 base_15_00 base_23_16 s_type s_sys s_dpl s_present seg_lim_19_16 s_avail s_reserved s_opsize s_granularity base_31_24].
  assert (Z.land lim 0xFFFF = lim) as -> by (change 0xFFFF with (Z.ones 16); rewrite Z.land_ones by lia; zlia).
  assert (Z.shiftr (Z.land lim 0xF0000) 16 = 0) as ->.
  { rewrite Z.shiftr_land, (Z.shiftr_div_pow2 lim) by lia. by rewrite Z.div_small by lia. }
  set (b1 := Z.land addr 0xFFFF) in *. set (b2 := Z.shiftr (Z.land addr 0xFF0000) 16) in *. set (b3 := Z.shiftr (Z.land addr 0xFF000000) 24) in *.
  clearbody b1 b2 b3. rewrite (u32_small (lim + _)) by lia.
  match goal with |- context [Z.testbit (u32 ?h) 15] => set (hi := h) end. rewrite (u32_small hi) by (unfold hi; lia).
  rewrite Z.testbit_eqb by lia. change (2 ^ 15) with 32768. replace ((hi / 32768) mod 2) with 1 by (unfold hi; zlia).
  cbn [Z.eqb Pos.eqb]. do 2 f_equal; unfold hi; zlia.
Qed.

(** ** Loading the segments *)

(** The two descriptors and the task state are apart from each other. *)
Definition segs_ok (L : link) : Prop :=
  0 <= l_ldt L < W32 /\ 0 <= l_ldt_desc L /\ l_ldt_desc L + 8 <= W32 /\ 0 <= l_tss_desc L /\ l_tss_desc L + 8 <= W32 /\
  0 <= l_tss L /\ l_tss L + TSS_SIZE <= W32 /\
  apart (l_ldt_desc L) 8 (l_tss_desc L) 8 /\ apart (l_ldt_desc L) 8 (l_tss L) TSS_SIZE /\ apart (l_tss_desc L) 8 (l_tss L) TSS_SIZE.

Lemma segment_of_same m m' p : (forall a, p <= a < p + 8 -> rd m' a = rd m a) -> segment_of m' p = segment_of m p.
Proof. intros H. unfold segment_of, rd32. by rewrite !H by lia. Qed.

Lemma rd_wr16 m a v x : 0 <= a -> a + 2 <= W32 -> 0 <= x < W32 ->
  rd (wr16 m a v) x = if x =? a + 1 then u8 (v / W8) else if x =? a then u8 v else rd m x.
Proof.
  intros H1 H2 Hx. unfold wr16. rewrite !rd_wr, (u32_small a), (u32_small (a + 1)), (u32_small x) by lia.
  repeat case_cmp; (done || lia).
Qed.

Definition segments_loaded (L : link) (k k' : kernel) : Prop := exists m,
  k' = set_k_cpu (set_tr KERNEL_TSS (set_tss_esp0 0x800000 (set_ldtr KERNEL_LDT (k_cpu k)))) (set_k_mem m k) /\
  segment_of m (l_ldt_desc L) = Some (mk_segment (l_ldt L) ldt_size SEG_LDT 0) /\
  segment_of m (l_tss_desc L) = Some (mk_segment (l_tss L) tss_size SEG_TSS 0) /\
  rd m (l_tss L + 8) = KERNEL_DS /\ rd m (l_tss L + 9) = 0 /\ rd m (l_tss L + 96) = KERNEL_LDT /\ rd m (l_tss L + 97) = 0 /\
  forall a, 0 <= a < W32 -> apart a 1 (l_ldt_desc L) 8 -> apart a 1 (l_tss_desc L) 8 -> apart a 1 (l_tss L) TSS_SIZE ->
    rd m a = rd (k_mem k) a.

Lemma init_segments_ok L k : segs_ok L -> wp (init_segments L) (fun _ => segments_loaded L k) k.
Proof.
  intros (R0 & R1 & R2 & R3 & R4 & R5 & R6 & A1 & A2 & A3). unfold segments_loaded, apart in *. unfold init_segments.
  apply wp_bind. eapply wp_mono; [|apply (set_seg_spec (l_ldt_desc L) (l_ldt L) ldt_size 2 1); lia].
  intros [] k1 (m1 & -> & D1 & S1). cbn beta. wp_steps. set (k2 := set_k_cpu _ _).
  change (SET_SEG_PARAMS (mk_seg (Z.land TSS_SIZE 65535) 0 0 9 0 0 1 (Z.land TSS_SIZE 0xF0000) 0 0 0 0 0) (l_tss L) tss_size)
    with (SET_SEG_PARAMS (mk_seg 0 0 0 9 0 0 1 0 0 0 0 0 0) (l_tss L) tss_size).
  eapply wp_mono; [|apply (set_seg_spec (l_tss_desc L) (l_tss L) tss_size 9 0 k2); lia].
  intros [] k3 (m2 & -> & D2 & S2). change (k_mem k2) with m1 in D2. cbn beta. wp_steps.
  change (k_mem (set_k_mem m2 k2)) with m2. exists (wr16 (wr16 m2 (l_tss L + 96) KERNEL_LDT) (l_tss L + 8) KERNEL_DS).
  assert (forall a, 0 <= a < W32 -> a < l_ldt_desc L \/ l_ldt_desc L + 8 <= a -> rd m1 a = rd (k_mem k) a) as F1
    by (intros a Ha Ho; apply (within_rd _ _ _ _ a D1); lia).
  assert (forall a, 0 <= a < W32 -> a < l_tss_desc L \/ l_tss_desc L + 8 <= a -> rd m2 a = rd m1 a) as F2
    by (intros a Ha Ho; apply (within_rd _ _ _ _ a D2); lia).
  assert (forall a, 0 <= a < W32 -> a < l_tss L \/ l_tss L + 104 <= a ->
    rd (wr16 (wr16 m2 (l_tss L + 96) KERNEL_LDT) (l_tss L + 8) KERNEL_DS) a = rd m2 a) as F3
    by (intros a Ha Ho; rewrite !rd_wr16 by lia; repeat case_cmp; (done || lia)).
  split; [reflexivity|]. split_and!.
  - rewrite <- S1. apply segment_of_same. intros a Ha. rewrite F3, F2 by lia. done.
  - rewrite <- S2. apply segment_of_same. intros a Ha. rewrite F3 by lia. done.
  - rewrite !rd_wr16 by lia. repeat case_cmp; (done || lia).
  - rewrite !rd_wr16 by lia. repeat case_cmp; (done || lia).
  - rewrite !rd_wr16 by lia. repeat case_cmp; (done || lia).
  - rewrite !rd_wr16 by lia. repeat case_cmp; (done || lia).
  - intros a Ha O1 O2 O3. rewrite F3, F2, F1 by lia. done.
Qed.
