(* ===== verification/Report.v ===== *)
(** * What the kernel prints at boot

    The report of [boot_report] (Kernel.v) reads the boot loader's structures and
    prints them on terminal 0, whose page is at address 0 until multi_term_init has
    run.  It terminates for every sound set of structures and changes nothing but
    that page. *)

From Stdlib Require Import ZArith Lia String.
From stdpp Require Import gmap list numbers strings.
From S2P Require Import Prelude Memory LibString State Display Printf FileSystem MultiTerm Syscalls Execute Mouse Idt Kernel.

(** ** The boot loader's structures *)

(** Off the two pages that are drawn on: page 0 and the video page. *)
Definition off_screen (p n : Z) : Prop :=
  PAGE_BYTES <= p /\ p + n <= W32 /\ apart p n VIDEO_ADDR PAGE_BYTES.

(** What the report relies on: the structures are off these pages, the command line
    ends, and the memory map does not wrap around. *)
Definition info_ok (m : memory) (mbi : Z) : Prop :=
  let flag := CHECK_FLAG (mbi_flags m mbi) in
  off_screen mbi 52 /\
  (flag 2 = true -> exists n, off_screen (cmdline m mbi) (n + 1) /\ is_cstr (at_ m (cmdline m mbi)) n) /\
  (flag 3 = true -> off_screen (mods_addr m mbi) 4) /\
  (flag 6 = true -> off_screen (mmap_addr m mbi) (mmap_length m mbi + 4) /\
     forall a, mmap_addr m mbi <= a < mmap_addr m mbi + mmap_length m mbi -> a + rd32 m a + 4 < W32).

Lemma is_cstr_ext s s' n : (forall i, 0 <= i <= n -> s' i = s i) -> is_cstr s n -> is_cstr s' n.
Proof. intros H (H1 & H2 & H3). split_and!; [done|intros i Hi; rewrite H by lia; by apply H2|by rewrite H by lia]. Qed.

Section same_info.
Context (m m' : memory) (mbi : Z).
Hypothesis Hsame : forall a, off_screen a 1 -> rd m' a = rd m a.

Lemma off_screen_at p n a : off_screen p n -> p <= a < p + n -> rd m' a = rd m a.
Proof using All. unfold off_screen, apart in *. intros H Ha. apply Hsame. lia. Qed.

Lemma off_screen_rd32 p n a : off_screen p n -> p <= a -> a + 4 <= p + n -> rd32 m' a = rd32 m a.
Proof using All. intros H H1 H2. unfold rd32. by rewrite !(off_screen_at p n) by (done || lia). Qed.

(** Drawing does not change the structures. *)
Lemma info_same : info_ok m mbi ->
  info_ok m' mbi /\ mbi_flags m' mbi = mbi_flags m mbi /\ mods_addr m' mbi = mods_addr m mbi.
Proof using All.
  intros (I1 & I2 & I3 & I6). unfold info_ok, mbi_flags, cmdline, mods_addr, mmap_addr, mmap_length in *. cbv zeta.
  rewrite !(off_screen_rd32 mbi 52) by (done || lia). split_and!; [done| |done| |done|done].
  - intros H2. destruct (I2 H2) as (n & O & C). exists n. split; [done|]. apply (is_cstr_ext _ _ _) with (2 := C).
    intros i Hi. unfold at_. apply (off_screen_at _ _ _ O). lia.
  - intros H6. destruct (I6 H6) as (O & W). split; [done|]. intros a Ha. rewrite (off_screen_rd32 _ _ _ O) by lia. by apply W.
Qed.
End same_info.

Section report.
Context (k0 : kernel) (t0 : term_t) (mbi : Z).
Hypothesis Hsched : sched_term_id (k_disp k0) = 0.
Hypothesis Ht0 : terminals (k_disp k0) !! 0%nat = Some t0.
Hypothesis Hvid : vid_mem t0 = 0.

(** Only terminal 0 has been drawn on since [k0] (and fs_addr may be set). *)
Definition drawn (k : kernel) : Prop :=
  exists s, shows k 0 s /\ pos_ok s /\ out_frame 0 (set_fs_addr (fs_addr k) k0) k.

Lemma drawn_sched k : drawn k -> sched_term_id (k_disp k) = 0.
Proof using All. intros (s & _ & _ & F). rewrite (out_frame_sched _ _ _ F). exact Hsched. Qed.

(** Memory from the second page on is as it was. *)
Lemma drawn_rd k a : drawn k -> PAGE_BYTES <= a < W32 -> rd (k_mem k) a = rd (k_mem k0) a.
Proof using All.
  intros (s & _ & _ & (t & t' & m & io & _ & Ht & _ & D & _ & ->)) Ha. change (terminals (k_disp k0) !! 0%nat = Some t) in Ht.
  rewrite Ht0 in Ht. apply (inj Some) in Ht. subst t. rewrite Hvid in D. change (rd m a = rd (k_mem k0) a).
  apply (within_rd _ _ 0 PAGE_BYTES); [exact D|lia..].
Qed.

Lemma drawn_rd32 k a : drawn k -> PAGE_BYTES <= a -> a + 4 <= W32 -> rd32 (k_mem k) a = rd32 (k_mem k0) a.
Proof using All. intros H H1 H2. unfold rd32. by rewrite !(drawn_rd k) by (done || lia). Qed.

(** ** A logic of reports *)

Definition reports {A} (c : M A) (Q : A -> Prop) : Prop := forall k, drawn k ->
  wp c (fun a k' => Q a /\ drawn k' /\ fs_addr k' = fs_addr k) k.

Lemma reports_bind {A B} (c : M A) (f : A -> M B) P Q :
  reports c P -> (forall a, P a -> reports (f a) Q) -> reports (c ≫= f) Q.
Proof using All.
  intros Hc Hf k Hk. apply wp_bind. eapply wp_mono; [|exact (Hc k Hk)]. intros a k1 (Ha & H1 & E1).
  eapply wp_mono; [|exact (Hf a Ha k1 H1)]. intros b k2 (Hb & H2 & E2). split_and!; [done|done|by rewrite E2].
Qed.

Lemma reports_mret {A} (a : A) (Q : A -> Prop) : Q a -> reports (mret a) Q.
Proof using All. intros Ha k Hk. by apply wp_mret. Qed.

(** Reading memory: what is known about it is what was known at boot. *)
Lemma reports_mem {A} (f : memory -> M A) Q :
  (forall k, drawn k -> reports (f (k_mem k)) Q) -> reports (m ← gets k_mem; f m) Q.
Proof using All. intros H k Hk. apply wp_bind, wp_gets. exact (H k Hk k Hk). Qed.

Lemma prints_reports {A} (c : M A) Q : prints c Q -> reports c (fun _ => True).
Proof using All.
  intros Hc k Hk. pose proof (drawn_sched k Hk) as Hs. destruct Hk as (s & Sh & Ok & F).
  specialize (Hc k s). cbv zeta in Hc. rewrite Hs in Hc. eapply wp_mono; [|exact (Hc Sh Ok)].
  intros a k' (t & _ & S' & F'). assert (fs_addr k' = fs_addr k) as E.
  { by destruct F' as (? & ? & ? & ? & _ & _ & _ & _ & _ & ->). }
  split_and!; [done| |done]. exists (text_spec (color (k_disp k)) t s). split_and!; [exact S'|by apply text_spec_ok|].
  rewrite E. by eapply out_frame_trans.
Qed.

(** printf of a literal line with enough words. *)
Lemma reports_printf l args : text_ok l = true -> (Z.of_nat (length l) <? W32) = true -> args_for false l args ->
  reports (printf (arr_at (l ++ [0])) args) (fun _ => True).
Proof using All. intros T W A. eapply prints_reports, prints_printf; [done|lia|done]. Qed.

Lemma va_num_ok v : 0 <= v < W32 -> va_ok (va_num v).
Proof using All. intros Hv. split; [done|]. exists 0. split; [|lia]. split_and!; [lia|lia|done]. Qed.

Lemma reports_for n body : (forall i, reports (body i) (fun _ => True)) -> reports (for_ n body) (fun _ => True).
Proof using All.
  intros Hb. induction n as [|n IH]; [by apply reports_mret|]. cbn [for_].
  eapply reports_bind; [exact IH|]. intros _ _. apply Hb.
Qed.

Lemma reports_loop {S} (body : S -> M (S + unit)) (I : S -> Prop) (var : S -> Z) s :
  (forall s, I s -> reports (body s) (fun r => match r with inl s' => I s' /\ 0 <= var s' < var s | inr _ => True end)) ->
  I s -> var s < W32 -> reports (loopM body s) (fun _ => True).
Proof using All.
  intros Hb H0 Hv k Hk.
  apply (wp_loopM _ (fun s k' => I s /\ drawn k' /\ fs_addr k' = fs_addr k) _ var); [| |done].
  - intros s1 k1 (H1 & D1 & E1). eapply wp_mono; [|exact (Hb s1 H1 k1 D1)]. intros [s2|r] k2 (H2 & D2 & E2).
    + split_and!; try apply H2; [done|by rewrite E2].
    + split_and!; [done|done|by rewrite E2].
  - done.
Qed.

(** ** The lines of the report *)

Definition line_ok (l : list Z) (n : nat) : bool :=
  text_ok l && (Z.of_nat (length l) <? W32) && bool_decide (arity false l = Some n).

Lemma reports_words l vs : line_ok l (length vs) = true -> Forall (fun v => 0 <= v < W32) vs ->
  reports (printf (arr_at (l ++ [0])) (map va_num vs)) (fun _ => True).
Proof using All.
  unfold line_ok. rewrite !andb_true_iff, bool_decide_eq_true. intros [[T W] A] F. apply reports_printf; [done|done|]. split.
  - apply Forall_map. eapply List.Forall_impl; [|exact F]. intros v Hv. by apply va_num_ok.
  - exists (length vs). by rewrite length_map.
Qed.

Lemma reports_line s vs : line_ok (bytes_of_string s ++ [10]) (length vs) = true -> Forall (fun v => 0 <= v < W32) vs ->
  reports (printf (message s) (map va_num vs)) (fun _ => True).
Proof using All.
  intros H F. replace (message s) with (arr_at ((bytes_of_string s ++ [10]) ++ [0])) by (unfold message; by rewrite <- app_assoc).
  by apply reports_words.
Qed.

Ltac words args := lazymatch args with
  | [] => constr:(@nil Z)
  | va_num ?v :: ?r => let vs := words r in constr:(v :: vs)
  end.
Ltac in_range := repeat (apply Forall_cons_2; [first [apply rd32_range | apply u32_range | done | lia]|]); apply Forall_nil_2.
Ltac report_line := lazymatch goal with
  | |- reports (printf (message ?s) ?args) _ =>
      let vs := words args in apply (reports_line s vs); [vm_compute; reflexivity|in_range]
  | |- reports (printf (lit ?s) ?args) _ =>
      let vs := words args in apply (reports_words (bytes_of_string s) vs); [vm_compute; reflexivity|in_range]
  end.
Ltac report_step := lazymatch goal with
  | |- reports (m ← gets k_mem; _) _ => apply reports_mem; intros ? ?
  | |- reports (printf _ _ ;; _) _ => eapply reports_bind; [report_line|intros _ _]
  | |- reports skip _ => by apply reports_mret
  | |- reports (mret _) _ => by apply reports_mret
  end.

Lemma report_module mod_count mod_ : 0 <= mod_count < W32 -> reports (print_module mod_count mod_) (fun _ => True).
Proof using All.
  intros Hc. unfold print_module, mod_start, mod_end. do 5 report_step.
  eapply reports_bind; [apply reports_for; intros i; repeat report_step|intros _ _]. repeat report_step.
Qed.

(** ** The structures *)

Definition flag (bit : Z) : bool := CHECK_FLAG (mbi_flags (k_mem k0) mbi) bit.
Hypothesis Hinfo : info_ok (k_mem k0) mbi.

Lemma mbi_field k o : drawn k -> 0 <= o -> o + 4 <= 52 -> rd32 (k_mem k) (mbi + o) = rd32 (k_mem k0) (mbi + o).
Proof using All. intros Hk H1 H2. destruct Hinfo as ((I1 & I2 & _) & _). apply drawn_rd32; (done || lia). Qed.

Lemma mbi_flag k bit : drawn k -> CHECK_FLAG (mbi_flags (k_mem k) mbi) bit = flag bit.
Proof using All.
  intros Hk. unfold flag, mbi_flags. rewrite <- (Z.add_0_r mbi). by rewrite (mbi_field k 0 Hk) by lia.
Qed.

Lemma report_flag bit c : (flag bit = true -> reports c (fun _ => True)) -> reports (when_flag mbi bit c) (fun _ => True).
Proof using All.
  intros Hc. unfold when_flag. report_step. rewrite mbi_flag by done. destruct (flag bit); [by apply Hc|by apply reports_mret].
Qed.

Lemma report_mmap : flag 6 = true -> reports (print_mmap mbi) (fun _ => True).
Proof using All.
  intros H6. destruct Hinfo as (_ & _ & _ & I6). destruct (I6 H6) as ((M1 & M2 & _) & M3). clear I6.
  unfold print_mmap, mmap_addr, mmap_length in *. do 3 report_step.
  set (lo := rd32 (k_mem k0) (mbi + 48)) in *. set (n := rd32 (k_mem k0) (mbi + 44)) in *.
  pose proof (rd32_range (k_mem k0) (mbi + 44)) as Rn. fold n in Rn.
  rewrite (mbi_field _ 48) by (done || lia). fold lo.
  apply (reports_loop _ (fun a => lo <= a < W32) (fun a => W32 - a)); [|lia|lia]. intros a Ha. report_step.
  rewrite !(mbi_field _ 48), !(mbi_field _ 44) by (done || lia). fold lo n. rewrite (u32_small (lo + n)) by lia.
  destruct (Z.ltb_spec a (lo + n)) as [Hlt|Hge]; [|by apply reports_mret].
  eapply reports_bind.
  { match goal with |- reports (printf _ ?args) _ => let vs := words args in
      apply (reports_words (bytes_of_string " size = 0x%x,     base_addr = 0x%#x%#x" ++ [10] ++
        bytes_of_string "     type = 0x%x,  length    = 0x%#x%#x" ++ [10]) vs); [vm_compute; reflexivity|in_range] end. }
  intros _ _. report_step. apply reports_mret. rewrite (drawn_rd32 _ a) by (done || lia).
  specialize (M3 a ltac:(lia)). pose proof (rd32_range (k_mem k0) a). rewrite u32_small by lia. lia.
Qed.

Lemma report_modules k : flag 3 = true -> drawn k ->
  wp (print_modules mbi) (fun _ k' => drawn k' /\ fs_addr k' = mod_start (k_mem k0) (mods_addr (k_mem k0) mbi)) k.
Proof using All.
  intros H3 Hk. destruct Hinfo as (_ & _ & I3 & _). destruct (I3 H3) as (M1 & M2 & _). clear I3.
  unfold print_modules, mods_addr, mods_count, mod_start in *. wp_steps. rewrite (mbi_field k 24) by (done || lia).
  set (mods := rd32 (k_mem k0) (mbi + 24)) in *. rewrite (drawn_rd32 k mods) by (done || lia).
  set (k1 := set_fs_addr _ k). assert (drawn k1) as D1.
  { destruct Hk as (s & Sh & Ok & (t & t' & m & io & H & Ht & S & D & C & E)). exists s. split_and!; [exact Sh|exact Ok|].
    exists t, t', m, io. split_and!; try done. subst k1. rewrite E. reflexivity. }
  set (n := rd32 (k_mem k0) (mbi + 20)). pose proof (rd32_range (k_mem k0) (mbi + 20)) as Rn. fold n in Rn.
  eapply wp_mono; [|apply (reports_loop _ (fun '(i, _) => 0 <= i <= n) (fun '(i, _) => n - i)); [|lia|lia|exact D1]].
  - intros [] k' (_ & D' & E'). split; [exact D'|]. rewrite E'. reflexivity.
  - intros [i p] Hi. report_step. rewrite (mbi_field _ 20) by (done || lia). fold n.
    destruct (Z.ltb_spec i n); [|by apply reports_mret].
    eapply reports_bind; [apply report_module; lia|]. intros _ _. apply reports_mret. rewrite u32_small by lia. lia.
Qed.

Lemma report_cmdline : flag 2 = true -> reports (m ← gets k_mem;
  printf (message "cmdline = %s") [mk_va (cmdline m mbi) (at_ m (cmdline m mbi))] ;; skip) (fun _ => True).
Proof using All.
  intros H2. destruct Hinfo as (_ & I2 & _). destruct (I2 H2) as (n & (O1 & O2 & _) & C). clear I2. unfold cmdline in *.
  report_step. match goal with Hd : drawn ?k |- _ => rename Hd into Hk; rename k into k1 end.
  rewrite (mbi_field k1 16) by (done || lia). set (p := rd32 (k_mem k0) (mbi + 16)) in *.
  pose proof C as (Hn & _). eapply reports_bind; [|intros _ _; by apply reports_mret].
  apply (reports_printf (bytes_of_string "cmdline = %s" ++ [10])); [done|done|]. split; [|by exists 1%nat].
  apply Forall_singleton. split; [apply rd32_range|]. exists n. split; [|lia].
  apply (is_cstr_ext (at_ (k_mem k0) p)); [|done]. intros i Hi. unfold at_. apply drawn_rd; [done|lia].
Qed.

(** Where the file system is found: the start of the first module. *)
Definition fs_found : Z := if flag 3 then mod_start (k_mem k0) (mods_addr (k_mem k0) mbi) else fs_addr k0.

Lemma wp_reports {A B} (c : M B) (rest : M A) Q x k : reports c (fun _ => True) -> drawn k -> fs_addr k = x ->
  (forall k', drawn k' -> fs_addr k' = x -> wp rest Q k') -> wp (c ;; rest) Q k.
Proof using All.
  intros Hc Hk E H. apply wp_bind. eapply wp_mono; [|exact (Hc k Hk)]. intros ? k' (_ & D' & E'). apply H; [done|by rewrite E'].
Qed.

Lemma boot_report_ok k : drawn k -> fs_addr k = fs_addr k0 ->
  wp (boot_report mbi) (fun ok k' => ok = negb (flag 4 && flag 5) /\ drawn k' /\ fs_addr k' = fs_found) k.
Proof using All.
  intros Hk Ek. unfold boot_report, mem_lower, mem_upper, boot_device. do 2 wp_step. unfold mbi_flags at 1.
  apply (wp_reports _ _ _ (fs_addr k0)); [report_line|done|done|]. intros k1 D1 E1.
  apply (wp_reports _ _ _ (fs_addr k0)); [apply report_flag; intros _; repeat report_step|done|done|]. intros k2 D2 E2.
  apply (wp_reports _ _ _ (fs_addr k0)); [apply report_flag; intros _; repeat report_step|done|done|]. intros k3 D3 E3.
  apply (wp_reports _ _ _ (fs_addr k0)); [apply report_flag; exact report_cmdline|done|done|]. intros k4 D4 E4.
  apply wp_bind. apply (wp_mono _ (fun _ k5 => drawn k5 /\ fs_addr k5 = fs_found)).
  2: { unfold when_flag, fs_found. do 2 wp_step. rewrite mbi_flag by done. destruct (flag 3) eqn:H3; [by apply report_modules|].
       by apply wp_mret. }
  intros [] k5 [D5 E5]. do 2 wp_step. rewrite !mbi_flag by done. destruct (flag 4 && flag 5).
  - apply (wp_reports _ _ _ fs_found); [report_line|done|done|]. intros k6 D6 E6. by apply wp_mret.
  - apply (wp_reports _ _ _ fs_found); [apply report_flag; intros _; repeat report_step|done|done|]. intros k6 D6 E6.
    apply (wp_reports _ _ _ fs_found); [apply report_flag; exact report_mmap|done|done|]. intros k7 D7 E7. by apply wp_mret.
Qed.
End report.
