(* ===== verification/Boot.v ===== *)
(** * Booting

    What [entry] of Kernel.v establishes: the interrupt table, the masks of the
    interrupt controllers, the address space and the layout of the terminals that
    the rest of the kernel relies on. *)

From Stdlib Require Import ZArith Lia String.
From stdpp Require Import gmap list numbers strings.
From S2P Require Import Prelude Memory LibString State Display Printf I8259 Ports Paging Pcb Rtc FileSystem Vfs.
From S2P Require Import MultiTerm Keyboard Terminal Syscalls Execute Timer Mouse Idt Kernel Report.

(** ** The interrupt controllers *)

Lemma keyboard_init_step k F : pic_refines k F -> wp keyboard_init (fun _ => pic_step k (pic_spec F (Enable KEYBOARD_IRQ))) k.
Proof. intros HF. apply (pic_run_step (Enable KEYBOARD_IRQ)); [cbn; lia|done]. Qed.

Lemma rtc_init_step k F : pic_refines k F -> wp rtc_init (fun _ => pic_step k (pic_spec F (Enable RTC_IRQ))) k.
Proof.
  intros HF. unfold rtc_init. repeat (eapply pic_step_bind; [apply talks_pic; [auto with talks|done]|]; intros ? ? ?).
  apply (pic_run_step (Enable RTC_IRQ)); [cbn; lia|done].
Qed.

Lemma pit_init_step k F : pic_refines k F -> wp pit_init (fun _ => pic_step k (pic_spec F (Enable PIT_IRQ))) k.
Proof.
  intros HF. unfold pit_init. eapply pic_step_bind; [apply talks_pic; [|done]|].
  - unfold set_pit_freq. cbn [Z.eqb]. cbv zeta. auto 8 with talks.
  - intros _ k1 H1. apply (pic_run_step (Enable PIT_IRQ)); [cbn; lia|done].
Qed.

(** The lines that are masked once all devices are initialised. *)
Definition boot_masks (b : Z) : bool := negb ((b =? 0) || (b =? 1) || (b =? 2) || (b =? 8) || (b =? 12)).

Lemma pic_refines_ext k F G : (forall b, 0 <= b <= 15 -> F b = G b) -> pic_refines k F -> pic_refines k G.
Proof. intros H [S M]. split; [done|]. intros b Hb. by rewrite M, H. Qed.

Lemma boot_masks_spec b : 0 <= b <= 15 ->
  fold_left pic_spec [Enable KEYBOARD_IRQ; Enable RTC_IRQ; Enable MOUSE_IRQ; Enable PIT_IRQ] (fun b => negb (b =? 2)) b = boot_masks b.
Proof. intros Hb. unfold boot_masks. cbn [fold_left pic_spec]. repeat case_cmp; (done || lia). Qed.

(** Drawing keeps the controllers in step with the masks. *)
Lemma cursor_io_last vis io io' port : cursor_io vis io io' -> port <> 0x3D4 -> port <> 0x3D5 ->
  last_out port io' = last_out port io.
Proof.
  intros (es & -> & F & _) H1 H2. induction F as [|e es (p & d & -> & Hp) _ IH]; [done|]. cbn [app last_out].
  by rewrite (proj2 (Z.eqb_neq p port)) by (destruct Hp; congruence).
Qed.

Lemma pic_refines_same k k' F : k_pic k' = k_pic k -> last_out MASTER_8259_PORT_2 (k_io k') = last_out MASTER_8259_PORT_2 (k_io k) ->
  last_out SLAVE_8259_PORT_2 (k_io k') = last_out SLAVE_8259_PORT_2 (k_io k) -> pic_refines k F -> pic_refines k' F.
Proof.
  intros E1 E2 E3 [(S1 & S2 & S3 & S4) Hm]. unfold pic_refines, pic_sync, masked. rewrite E1, E2, E3.
  split; [by split|]. exact Hm.
Qed.

Lemma out_frame_pic i k k' F : out_frame i k k' -> pic_refines k F -> pic_refines k' F.
Proof.
  intros (t & t' & m & io & _ & _ & _ & _ & [C _] & ->). apply pic_refines_same; [done| |]; by apply (cursor_io_last _ _ _ _ C).
Qed.

(** ** Memory *)

(** Where the linker may put the kernel's tables: in the kernel page, the IDT apart
    from the page directory. *)
Definition link_ok (L : link) : Prop :=
  (forall w, 0 <= l_wrapper L w < W32) /\
  KERNEL_ADDR <= l_idt L /\ l_idt L + 2048 <= PROGRAM_1_PHYS /\
  KERNEL_ADDR <= l_page_directory L /\ l_page_directory L + SIZEOFDIR <= PROGRAM_1_PHYS /\
  apart (l_idt L) 2048 (l_page_directory L) SIZEOFDIR.

Lemma gate_of_same m m' idt i : (forall a, idt <= a < idt + 2048 -> rd m' a = rd m a) -> 0 <= i < NUM_VEC ->
  gate_of m' idt i = gate_of m idt i.
Proof. intros H Hi. unfold gate_of, rd32. by rewrite !H by lia. Qed.

(** The kernel's page is not written. *)
Definition kernel_page_same (m m' : memory) : Prop := forall a, KERNEL_ADDR <= a < W32 -> rd m' a = rd m a.

Lemma kernel_page_video m m' : differs_within m m' VIDEO_ADDR PAGE_BYTES -> kernel_page_same m m'.
Proof. intros D a Ha. apply (within_rd _ _ VIDEO_ADDR PAGE_BYTES); [done|lia..]. Qed.

(** ** Stage by stage *)

Section stages.
Context (L : link) (k : kernel).
Hypothesis HL : link_ok L.
Hypothesis Hterms : length (terminals (k_disp k)) = 3%nat.
Hypothesis Hvis : vis_term_id (k_disp k) = 0.
Hypothesis Hsched : sched_term_id (k_disp k) = 0.

(** Interrupts: the controllers, the table, and the first three devices. *)
Definition interrupts_ready (k1 : kernel) : Prop := exists m p io,
  k1 = set_k_pic p (set_k_io io (set_k_cpu (set_idtr (l_idt L) (k_cpu k)) (set_k_mem m k))) /\
  pic_refines k1 (pic_spec (pic_spec (pic_spec (fun b => negb (b =? 2)) (Enable KEYBOARD_IRQ)) (Enable RTC_IRQ)) (Enable MOUSE_IRQ)) /\
  differs_within (k_mem k) m (l_idt L) 2048 /\ forall i, 0 <= i < NUM_VEC -> gate_of m (l_idt L) i = vector_spec (l_wrapper L) i.

Lemma stage_interrupts e1 e2 (rest : M unit) Q : desc_ok e1 -> desc_ok e2 ->
  (forall k1, interrupts_ready k1 -> wp rest Q k1) ->
  wp (i8259_init ;; idt_init (l_wrapper L) (l_idt L) e1 e2 ;; keyboard_init ;; rtc_init ;; mouse_init ;; rest) Q k.
Proof using All.
  intros He1 He2 Hrest. destruct HL as (Hw & Hi1 & Hi2 & _).
  apply wp_bind. eapply wp_mono; [|apply i8259_init_step]. intros [] k1 (R1 & p1 & io1 & ->). cbn beta.
  apply wp_bind. eapply wp_mono; [|apply (idt_init_table (l_wrapper L) (l_idt L) _ Hw ltac:(lia) e1 e2 He1 He2)].
  intros [] k2 (k2' & (m & -> & D & G) & ->). cbn beta. set (k2 := set_k_cpu _ _). assert (pic_refines k2 (fun b => negb (b =? 2))) as R2 by exact R1.
  apply wp_bind. eapply wp_mono; [|exact (keyboard_init_step k2 _ R2)]. intros [] k3 S3. cbn beta in *.
  apply wp_bind. eapply wp_mono; [|exact (rtc_init_step k3 _ (proj1 S3))]. intros [] k4 S4. cbn beta in *.
  apply wp_bind. eapply wp_mono; [|exact (mouse_init_step k4 _ (proj1 S4))]. intros [] k5 S5. cbn beta in *.
  apply Hrest. destruct (pic_step_trans _ _ _ _ _ (pic_step_trans _ _ _ _ _ S3 S4) S5) as (R5 & p & io & ->).
  exists m, p, io. split_and!; [reflexivity|exact R5|exact D|exact G].
Qed.

(** Memory after paging: the interrupt table and the address space. *)
Definition memory_ready (m : memory) : Prop :=
  (forall i, 0 <= i < NUM_VEC -> gate_of m (l_idt L) i = vector_spec (l_wrapper L) i) /\
  paging_wf m (l_page_directory L) /\
  (forall va, 0 <= va < W32 -> resolve_virt_addr m (l_page_directory L) va = boot_view va) /\
  (forall a, KERNEL_ADDR <= a < W32 -> a < l_idt L \/ l_idt L + 2048 <= a ->
     a < l_page_directory L \/ l_page_directory L + SIZEOFDIR <= a ->
     a < PAGE_TABLE_STARTADDR \/ PAGE_TABLE_STARTADDR + FOUR_MB <= a -> rd m a = rd (k_mem k) a).

Definition paging_ready (k2 : kernel) : Prop := exists m p io c,
  k2 = set_k_pic p (set_k_io io (set_k_cpu c (set_k_mem m k))) /\ pic_refines k2 boot_masks /\ memory_ready m /\
  idtr c = l_idt L /\ cr3 c = l_page_directory L /\ Z.testbit (cr0 c) 31 = true /\ Z.testbit (cr4 c) 4 = true /\
  ldtr c = ldtr (k_cpu k) /\ tr c = tr (k_cpu k) /\ tss_esp0 c = tss_esp0 (k_cpu k).

Lemma stage_paging k1 (rest : M unit) Q : interrupts_ready k1 -> (forall k2, paging_ready k2 -> wp rest Q k2) ->
  wp (paging_init (l_page_directory L) ;; pit_init ;; rest) Q k1.
Proof using All.
  intros (m & p & io & -> & R1 & D & G) Hrest. destruct HL as (Hw & Hi1 & Hi2 & Hd1 & Hd2 & Hap).
  apply wp_bind. eapply wp_mono; [|apply (paging_init_ok (l_page_directory L)); lia].
  intros [] k2 ((c & m2 & -> & Hc) & T & C3 & W & C0 & C4 & V). cbn beta.
  change (k_mem (set_k_cpu c (set_k_mem m2 _))) with m2 in *. change (k_cpu (set_k_cpu c _)) with c in *.
  match goal with |- context [wp _ _ ?s] => set (k2 := s) end.
  assert (pic_refines k2 (pic_spec (pic_spec (pic_spec (fun b => negb (b =? 2)) (Enable KEYBOARD_IRQ)) (Enable RTC_IRQ)) (Enable MOUSE_IRQ))) as R2 by exact R1.
  apply wp_bind. eapply wp_mono; [|exact (pit_init_step k2 _ R2)]. intros [] k3 (R3 & p3 & io3 & ->). cbn beta. apply Hrest.
  exists m2, p3, io3, c. split_and!.
  - reflexivity.
  - eapply pic_refines_ext; [|exact R3]. exact boot_masks_spec.
  - assert (forall a, l_idt L <= a < l_idt L + 2048 -> rd m2 a = rd m a) as Hidt.
    { intros a Ha. apply T; destruct Hap; lia. }
    split_and!; [|exact W|intros va Hva; rewrite <- C3; by apply V|].
    + intros i Hi. rewrite (gate_of_same m m2) by done. by apply G.
    + intros a Ha H1 H2 H3. rewrite (T a) by lia. apply (within_rd _ _ _ _ a D); lia.
  - by rewrite Hc.
  - exact C3.
  - exact C0.
  - exact C4.
  - by rewrite Hc.
  - by rewrite Hc.
  - by rewrite Hc.
Qed.

(** The terminals and the screen. *)
Definition blank_screen (col : Z) : screen := mk_screen (blank_cell col) 0 0.
Definition boot_screen (col : Z) : screen :=
  fold_left (fun s c => putc_color_spec (attrib_of 3 4) (attrib_of 3 0) c s) (bytes_of_string "testing" ++ [10]) (blank_screen col).

Definition terminals_ready (k3 : kernel) : Prop :=
  term_layout k3 /\ vis_term_id (k_disp k3) = 0 /\ sched_term_id (k_disp k3) = 0 /\
  (forall i t, 0 <= i < MAX_TERM_NUM -> terminals (k_disp k3) !! Z.to_nat i = Some t -> cur_task t = 0) /\
  shows k3 0 (boot_screen (color (k_disp k))).

Lemma fresh_terminals l : length l = 3%nat ->
  (forall i t, 0 <= i < MAX_TERM_NUM -> terminals (k_disp k) !! Z.to_nat i = Some t -> exists t', l !! Z.to_nat i = Some (term_start i t')) ->
  forall i t, 0 <= i < MAX_TERM_NUM -> l !! Z.to_nat i = Some t -> exists t0, t = term_start i t0.
Proof using All.
  intros Hl H i t Hi Ht. destruct (lookup_lt_is_Some_2 (terminals (k_disp k)) (Z.to_nat i)) as [t0 Ht0]; [lia|].
  destruct (H i t0 Hi Ht0) as [t' Ht']. rewrite Ht' in Ht. apply (inj Some) in Ht. by exists t'.
Qed.

(** Drawing on the visible terminal of a fresh layout. *)
Lemma drawn_layout k4 k5 l s : terminals (k_disp k4) = l -> length l = 3%nat -> vis_term_id (k_disp k4) = 0 ->
  (forall i t, 0 <= i < MAX_TERM_NUM -> l !! Z.to_nat i = Some t -> exists t0, t = term_start i t0) ->
  out_frame 0 k4 k5 -> shows k5 0 s -> pos_ok s ->
  term_layout k5 /\ (forall i t, 0 <= i < MAX_TERM_NUM -> terminals (k_disp k5) !! Z.to_nat i = Some t -> cur_task t = 0).
Proof using All.
  intros Hk Hl Hv Hf (t0 & t1 & m & io & _ & Ht0 & S & _ & [_ Hcu] & E5) (t1' & _ & Ht1 & Hr & Hc & _) [Hs1 Hs2].
  assert (terminals (k_disp k5) = <[0%nat := t1]> l /\ vis_term_id (k_disp k5) = 0) as [Hk5 Hv5] by (subst k5; by rewrite <- Hk).
  rewrite Hk in Ht0. rewrite Hk5 in Ht1. change (Z.to_nat 0) with 0%nat in *.
  rewrite list_lookup_insert_eq in Ht1 by lia. apply (inj Some) in Ht1. subst t1'.
  destruct (Hf 0 t0 ltac:(lia) Ht0) as [u ->]. assert (cur_task t1 = 0 /\ vid_mem t1 = VIDEO_ADDR) as [E1 E2] by (by rewrite S).
  assert (curs_ok t1) as [Hcu1 Hcu2] by (apply Hcu; split; cbn; lia). unfold term_layout. rewrite Hk5, Hv5, length_insert. split.
  - split_and!; [done|lia|lia|]. intros i t Hi Ht. destruct (Z.eq_dec i 0) as [->|Hne].
    + rewrite list_lookup_insert_eq in Ht by lia. apply (inj Some) in Ht. subst t. split; [done|]. split_and!; lia.
    + rewrite list_lookup_insert_ne in Ht by lia. destruct (Hf i t Hi Ht) as [u' ->]. split; [done|]. split_and!; cbn; lia.
  - intros i t Hi Ht. destruct (Z.eq_dec i 0) as [->|Hne].
    + rewrite list_lookup_insert_eq in Ht by lia. apply (inj Some) in Ht. by subst t.
    + rewrite list_lookup_insert_ne in Ht by lia. by destruct (Hf i t Hi Ht) as [u' ->].
Qed.

Lemma boot_screen_ok : pos_ok (boot_screen (color (k_disp k))).
Proof using All.
  unfold boot_screen. assert (pos_ok (blank_screen (color (k_disp k)))) as H by (split; cbn; lia). revert H.
  generalize (blank_screen (color (k_disp k))). induction (bytes_of_string "testing" ++ [10]) as [|c l IH]; intros s Hs; [done|].
  cbn [fold_left]. apply IH. by apply (outs_putc_color 0).
Qed.

(** What is ready when interrupts go on. *)
Definition booted (k3 : kernel) : Prop :=
  pic_refines k3 boot_masks /\ memory_ready (k_mem k3) /\ terminals_ready k3 /\
  idtr (k_cpu k3) = l_idt L /\ cr3 (k_cpu k3) = l_page_directory L /\
  Z.testbit (cr0 (k_cpu k3)) 31 = true /\ Z.testbit (cr4 (k_cpu k3)) 4 = true /\
  (ldtr (k_cpu k3), tr (k_cpu k3), tss_esp0 (k_cpu k3)) = (ldtr (k_cpu k), tr (k_cpu k), tss_esp0 (k_cpu k)) /\
  iflag (k_cpu k3) = true /\ k_proc k3 = set_cur_pcb 0 (k_proc k) /\ fs_addr k3 = fs_addr k.

Lemma memory_ready_same m m' : memory_ready m -> kernel_page_same m m' -> memory_ready m'.
Proof using All.
  intros (G & W & V & F) S. destruct HL as (Hw & Hi1 & Hi2 & Hd1 & Hd2 & Hap).
  assert (tables_same m m' (l_page_directory L)) as T by (intros a Ha; apply S; lia). split_and!.
  - intros i Hi. rewrite (gate_of_same m m'); [by apply G|intros a Ha; apply S; lia|done].
  - by apply (tables_same_wf m).
  - intros va Hva. rewrite (tables_same_resolve m m') by done. by apply V.
  - intros a Ha H1 H2 H3. rewrite S by done. by apply F.
Qed.

Lemma stage_display k2 : paging_ready k2 ->
  wp (clear_screen ;; set_color 3 0 ;; multi_term_init ;; puts_color 0 (message "testing") 3 4 ;; sti) (fun _ => booted) k2.
Proof using All.
  intros (m & p & io & c & E2 & R2 & M2 & C1 & C2 & C3 & C4 & C5 & C6 & C7).
  destruct (lookup_lt_is_Some_2 (terminals (k_disp k)) 0) as [t0 Ht0]; [lia|].
  assert (k_disp k2 = k_disp k) as Ed by (by subst k2). assert (k_mem k2 = m) as Em by (by subst k2).
  apply wp_bind. eapply wp_mono; [|apply (wp_clear_screen k2 t0); rewrite Ed, Hvis; [lia|exact Ht0]].
  intros [] k3 (m3 & io3 & D3 & I3 & ->). cbn beta. rewrite Ed, Hvis in *. rewrite Em in *.
  set (t0' := set_curs_c _ _) in *. clearbody t0'. unfold set_color. wp_steps.
  match goal with |- wp _ _ ?s => set (k4 := s) end.
  eapply wp_mono; [|apply (multi_term_init_ok k4); cbn; by rewrite length_insert].
  intros [] k5 (l & Hl & -> & Hstart). cbn beta.
  assert (forall i t, 0 <= i < MAX_TERM_NUM -> l !! Z.to_nat i = Some t -> exists t0, t = term_start i t0) as Hfresh.
  { apply fresh_terminals; [done|]. intros i t Hi Ht.
    destruct (lookup_lt_is_Some_2 (terminals (k_disp k4)) (Z.to_nat i)) as [t' Ht']; [cbn; rewrite length_insert; lia|].
    exists t'. by apply Hstart. }
  match goal with |- wp _ _ ?s => set (k5 := s) end.
  destruct (lookup_lt_is_Some_2 l 0) as [u Hu]; [lia|]. destruct (Hfresh 0 u ltac:(lia) Hu) as [u' ->].
  assert (shows k5 0 (blank_screen (color (k_disp k)))) as Hshow.
  { exists (term_start 0 u'). split_and!; [lia|exact Hu|done|done|]. intros o Ho. change (rd m3 (VIDEO_ADDR + o) = blank_cell (color (k_disp k)) o).
    rewrite (mem_copied_in _ _ _ _ _ _ D3 ltac:(lia) o) by (lia || done). unfold blank_cell. case_if; [done|apply u8_u8]. }
  assert (sched_term_id (k_disp k5) = 0) as Hs5 by exact Hsched.
  pose proof (wp_puts_color 0 (message "testing") 8 3 4 (blank_screen (color (k_disp k))) k5) as W. rewrite Hs5 in W.
  apply wp_bind. eapply wp_mono; [|apply W; [| |exact Hshow|split; cbn; lia]].
  2: { exact (proj2 (arr_at_text (bytes_of_string "testing" ++ [10]) eq_refl)). }
  2: lia.
  intros r k6 (_ & S6 & F6). cbn beta. unfold sti. wp_steps.
  destruct (drawn_layout k5 k6 l _ eq_refl Hl Hvis Hfresh F6 S6 boot_screen_ok) as [Lay Tasks].
  assert (pic_refines k6 boot_masks) as R6.
  { apply (out_frame_pic 0 k5 k6 _ F6). eapply (pic_refines_same k2); [done|..|exact R2]; by apply (cursor_io_last _ _ _ _ I3). }
  destruct F6 as (v & v' & m6 & io6 & _ & Hv & _ & D6 & _ & ->).
  change (l !! 0%nat = Some v) in Hv. rewrite Hu in Hv. apply (inj Some) in Hv. subst v.
  refine (conj R6 (conj _ (conj (conj Lay (conj Hvis (conj Hsched (conj Tasks S6)))) _))).
  2: { assert (k_cpu k2 = c /\ k_proc k2 = k_proc k /\ fs_addr k2 = fs_addr k) as (Ec & Ep & Ef) by (by subst k2).
    subst c. split_and!; [exact C1|exact C2|exact C3|exact C4| |reflexivity| |exact Ef].
    - change ((ldtr (k_cpu k2), tr (k_cpu k2), tss_esp0 (k_cpu k2)) = (ldtr (k_cpu k), tr (k_cpu k), tss_esp0 (k_cpu k))).
      by rewrite C5, C6, C7.
    - change (set_cur_pcb 0 (k_proc k2) = set_cur_pcb 0 (k_proc k)). by rewrite Ep. }
  apply (memory_ready_same m3); [apply (memory_ready_same m); [done|]|]; apply kernel_page_video; [by eapply mem_copied_within|exact D6].
Qed.

Lemma init_devices_boots e1 e2 : desc_ok e1 -> desc_ok e2 -> wp (init_devices L e1 e2) (fun _ => booted) k.
Proof using All.
  intros He1 He2. apply stage_interrupts; [done|done|]. intros k1 H1. apply stage_paging; [done|]. exact stage_display.
Qed.
End stages.

(** ** The first shell *)

(** Where the file system image and the arrays of sys_execute are. *)
Definition boot_layout (L : link) (k : kernel) (f : frame) : Prop :=
  let m := k_mem k in let fs := fs_addr k in let n := image_size m fs in
  let inside p len := KERNEL_ADDR <= p /\ p + len <= PROGRAM_1_PHYS in
  inside fs n /\ rd32 m fs <= 63 /\ inside (cmd f) 33 /\ inside (file_data f) 30 /\
  apart fs n (l_idt L) 2048 /\ apart fs n (l_page_directory L) SIZEOFDIR /\
  apart (cmd f) 33 fs n /\ apart (cmd f) 33 (l_page_directory L) SIZEOFDIR /\
  apart (file_data f) 30 fs n /\ apart (file_data f) 30 (l_page_directory L) SIZEOFDIR.

Lemma booted_layout L k f k' : link_ok L -> boot_layout L k f -> booted L k k' ->
  image_ok (k_mem k) (fs_addr k) /\ image_same (k_mem k) (k_mem k') (fs_addr k) /\ exec_layout k' f.
Proof.
  intros (_ & Li1 & Li2 & Ld1 & Ld2 & Lap) (Hfs & Hnum & Hc & Hd & A1 & A2 & A3 & A4 & A5 & A6)
    (_ & (_ & W & _ & F) & _ & _ & C3 & _ & _ & _ & _ & _ & Efs).
  assert (image_same (k_mem k) (k_mem k') (fs_addr k)) as S.
  { intros a Ha. apply F; [lia|destruct A1; lia|destruct A2; lia|lia]. }
  assert (image_ok (k_mem k) (fs_addr k)) as I by (split; lia).
  split_and!; [done|done|]. unfold exec_layout. rewrite Efs, C3, (same_size _ _ _ S).
  pose proof (same_counts _ _ _ S) as (En & _). rewrite En. unfold apart in *. cbv zeta.
  split_and!; try lia; [by apply (same_image_ok (k_mem k))|exact W].
Qed.

Lemma booted_named m m' fs i name : image_ok m fs -> image_same m m' fs -> rd32 m fs <= 63 ->
  first_named m fs i name -> first_named m' fs i name /\ dentry_at m' (entry_addr fs i) = dentry_at m (entry_addr fs i).
Proof.
  intros I S Hn (Hi & H1 & H2). split; [|by apply dentry_same]. pose proof (same_counts _ _ _ S) as (En & _).
  split_and!; [lia|lia| |].
  - by apply (has_name_same m m').
  - intros j Hj N. apply (H2 j Hj). apply (has_name_same m m'); [done|done|done|lia|done].
Qed.

(** The machine at boot: no process, three terminals, terminal 0 visible. *)
Definition at_boot (k : kernel) : Prop :=
  length (terminals (k_disp k)) = 3%nat /\ vis_term_id (k_disp k) = 0 /\ sched_term_id (k_disp k) = 0 /\
  pcb_status (k_proc k) = 0 /\ pcbs (k_proc k) = ∅.

Lemma booted_ready L k f i k' : link_ok L -> at_boot k -> boot_layout L k f ->
  first_named (k_mem k) (fs_addr k) i (name_of (lit "shell") 0 5) ->
  is_program (k_mem k) (fs_addr k) (inode_num (dentry_at (k_mem k) (entry_addr (fs_addr k) i))) -> booted L k k' ->
  exec_layout k' f /\ slots_left k' /\ first_named (k_mem k') (fs_addr k') i (name_of (lit "shell") 0 5) /\
  inode_num (dentry_at (k_mem k') (entry_addr (fs_addr k') i)) = inode_num (dentry_at (k_mem k) (entry_addr (fs_addr k) i)) /\
  is_program (k_mem k') (fs_addr k') (inode_num (dentry_at (k_mem k) (entry_addr (fs_addr k) i))) /\
  file_word (k_mem k') (fs_addr k') (inode_num (dentry_at (k_mem k) (entry_addr (fs_addr k) i))) 24 =
  file_word (k_mem k) (fs_addr k) (inode_num (dentry_at (k_mem k) (entry_addr (fs_addr k) i))) 24.
Proof.
  intros HL (_ & _ & _ & Hst & Hpcbs) Hb Hn Hp B. destruct (booted_layout L k f k' HL Hb B) as (I & S & E).
  pose proof Hb as (_ & Hnum & _).
  destruct (booted_named _ _ _ _ _ I S Hnum Hn) as [N' D']. destruct (same_program _ _ _ _ I S Hp) as (P' & _ & Fb).
  destruct B as (_ & _ & _ & _ & _ & _ & _ & _ & _ & Ep & Efs). rewrite Efs, D'.
  refine (conj E (conj _ (conj N' (conj eq_refl (conj P' _))))).
  - unfold slots_left. rewrite Ep. change (pcb_status (set_cur_pcb 0 (k_proc k))) with (pcb_status (k_proc k)).
    change (pcbs (set_cur_pcb 0 (k_proc k))) with (pcbs (k_proc k)). rewrite Hst, Hpcbs.
    split_and!; [split; lia|vm_compute; discriminate|apply map_Forall_empty].
  - destruct Hp as (_ & Hl & _). unfold file_word. by rewrite !Fb by lia.
Qed.

(** ** The whole of entry *)

(** The machine the boot loader hands over: as [at_boot] for the terminals, whose
    pages are not set yet. *)
Definition handed_over (k : kernel) (t0 : term_t) : Prop :=
  length (terminals (k_disp k)) = 3%nat /\ vis_term_id (k_disp k) = 0 /\ sched_term_id (k_disp k) = 0 /\
  terminals (k_disp k) !! 0%nat = Some t0 /\ vid_mem t0 = 0.

(** Until the devices are initialised: drawing on page 0 and on the video page. *)
Definition reported (k k1 : kernel) : Prop :=
  (forall a, off_screen a 1 -> rd (k_mem k1) a = rd (k_mem k) a) /\
  k_cpu k1 = k_cpu k /\ k_proc k1 = k_proc k /\ length (terminals (k_disp k1)) = 3%nat /\
  vis_term_id (k_disp k1) = 0 /\ sched_term_id (k_disp k1) = 0 /\ color (k_disp k1) = color (k_disp k).

Lemma cleared_drawn k t0 : handed_over k t0 -> wp clear_screen (fun _ k0 => exists t1,
  terminals (k_disp k0) !! 0%nat = Some t1 /\ vid_mem t1 = 0 /\ drawn k0 k0 /\ reported k k0 /\ fs_addr k0 = fs_addr k) k.
Proof.
  intros (Hl & Hv & Hs & Ht & Hvid).
  eapply wp_mono; [|apply (wp_clear_screen k t0); rewrite Hv; [lia|exact Ht]].
  intros [] k0 (m & io & C & _ & E). rewrite Hv in E. change (Z.to_nat 0) with 0%nat in E.
  assert (terminals (k_disp k0) !! 0%nat = Some (set_curs_c 0 (set_curs_r 0 (set_scrn_c 0 (set_scrn_r 0 t0))))) as Ht1.
  { subst k0. apply list_lookup_insert_eq. lia. }
  pose proof (shows_screen_at k0 0 _ ltac:(lia) Ht1) as Sh. eexists. split_and!; [exact Ht1|exact Hvid| | |by subst k0].
  - exists (screen_at k0 (set_curs_c 0 (set_curs_r 0 (set_scrn_c 0 (set_scrn_r 0 t0))))).
    split_and!; [exact Sh|split; cbn; lia|]. replace (set_fs_addr (fs_addr k0) k0) with k0 by (by destruct k0). by eapply out_frame_refl.
  - subst k0. split_and!; try done; [|cbn; by rewrite length_insert]. intros a (A1 & A2 & A3). unfold apart in A3.
    apply (within_rd _ _ VIDEO_ADDR PAGE_BYTES); [by eapply mem_copied_within|lia..].
Qed.

Lemma drawn_reported k k0 k1 t1 : reported k k0 -> terminals (k_disp k0) !! 0%nat = Some t1 -> vid_mem t1 = 0 ->
  drawn k0 k1 -> reported k k1.
Proof.
  intros (R1 & R2 & R3 & R4 & R5 & R6 & R7) Ht Hvid D. pose proof (drawn_rd k0 t1 0 ltac:(done) Ht Hvid k1) as Rd.
  assert (forall a, off_screen a 1 -> rd (k_mem k1) a = rd (k_mem k0) a) as Rd'.
  { intros a (A1 & A2 & _). apply Rd; [exact D|lia]. } clear Rd.
  destruct D as (s & _ & _ & (t & t' & m & io & _ & _ & _ & _ & _ & E)). rewrite E in Rd'. rewrite E. split_and!; try done.
  - intros a Ha. rewrite <- (R1 a Ha). by apply Rd'.
  - cbn. by rewrite length_insert.
Qed.

(** The kernel gives up: a wrong magic number, or both symbol table bits. *)
Definition refused (k : kernel) (magic mbi : Z) : bool :=
  negb (magic =? MULTIBOOT_BOOTLOADER_MAGIC) ||
  CHECK_FLAG (mbi_flags (k_mem k) mbi) 4 && CHECK_FLAG (mbi_flags (k_mem k) mbi) 5.

Definition fs_module (k : kernel) (mbi : Z) : Z :=
  if CHECK_FLAG (mbi_flags (k_mem k) mbi) 3 then mod_start (k_mem k) (mods_addr (k_mem k) mbi) else fs_addr k.

(** The first half of entry: everything before the segments. *)
Definition checked (magic mbi : Z) : M bool :=
  clear_screen ;;
  if negb (magic =? MULTIBOOT_BOOTLOADER_MAGIC) then
    printf (message "Invalid magic number: 0x%#x") [va_num magic] ;; mret false
  else boot_report mbi.

Lemma checked_ok k t0 magic mbi : handed_over k t0 -> info_ok (k_mem k) mbi -> 0 <= magic < W32 ->
  wp (checked magic mbi) (fun ok k1 => ok = negb (refused k magic mbi) /\ reported k k1 /\
    (ok = true -> fs_addr k1 = fs_module k mbi)) k.
Proof.
  intros Hh Hi Hm. unfold checked. apply wp_bind. eapply wp_mono; [|exact (cleared_drawn k t0 Hh)].
  intros [] k0 (t1 & Ht1 & Hv1 & D0 & R0 & F0). cbn beta. pose proof R0 as (Same & _ & _ & _ & _ & Hs0 & _).
  destruct (info_same (k_mem k) (k_mem k0) mbi Same Hi) as (I0 & Efl & Emo). unfold refused, fs_module.
  destruct (Z.eqb_spec magic MULTIBOOT_BOOTLOADER_MAGIC) as [->|Hne]; cbn [negb orb].
  - eapply wp_mono; [|exact (boot_report_ok k0 t1 mbi Hs0 Ht1 Hv1 I0 k0 D0 eq_refl)]. intros ok k1 (-> & D1 & F1).
    unfold fs_found, flag in *. rewrite Efl in *. split_and!; [done|by apply (drawn_reported k k0 k1 t1)|]. intros _. rewrite F1, F0, Emo.
    destruct (CHECK_FLAG (mbi_flags (k_mem k) mbi) 3) eqn:E3; [|done]. destruct Hi as (_ & _ & I3 & _).
    apply (off_screen_rd32 _ _ mbi Same _ 4 _ (I3 E3)); lia.
  - pose proof (reports_line k0 t1 mbi Hs0 Ht1 Hv1 "Invalid magic number: 0x%#x" [magic] eq_refl ltac:(apply Forall_singleton; lia) k0 D0) as W.
    apply wp_bind. eapply wp_mono; [|exact W]. intros r k1 (_ & D1 & _). apply wp_mret.
    split_and!; [done|by apply (drawn_reported k k0 k1 t1)|done].
Qed.

Lemma entry_checked L e1 e2 f magic mbi k : entry L e1 e2 f magic mbi k =
  (ok ← checked magic mbi;
   if ok : bool then
     init_segments L ;; init_devices L e1 e2 ;; c ← sys_execute f (lit "shell"); mret (Some c)
   else mret None) k.
Proof.
  unfold entry, checked, mbind, M_bind. destruct (clear_screen k) as [[] k1| |]; [|reflexivity|reflexivity].
  destruct (negb _); [|reflexivity]. by destruct (printf _ _ k1).
Qed.

(** Without a tick before it, the execute of entry has no process to return to: the
    visible terminal runs none and no new shell is announced. *)
Lemma exec_switch_no_parent blk b t k : blk <> 0 -> pcbs (k_proc k) !! blk = Some b ->
  starting_new_shell (k_proc k) = false -> 0 <= vis_term_id (k_disp k) ->
  terminals (k_disp k) !! Z.to_nat (vis_term_id (k_disp k)) = Some t -> cur_task t = 0 ->
  exec_switch blk k = Fault NullDeref.
Proof.
  intros Hb Hp Hs Hv Ht Hc. apply Z.eqb_neq in Hb. pose proof (lookup_lt_Some _ _ _ Ht) as Hl.
  assert (get_term (vis_term_id (k_disp k)) k = Ret t k) as Et.
  { unfold get_term, mbind, M_bind, gets. rewrite (proj2 (Z.leb_le _ _)), (proj2 (Z.ltb_lt _ _)) by lia. cbn [andb]. by rewrite Ht. }
  assert (forall g b' k', pcbs (k_proc k') !! blk = Some b' ->
    upd_pcb blk g k' = Ret tt (set_k_proc (set_pcbs (<[blk := g b']> (pcbs (k_proc k'))) (k_proc k')) k')) as Eu.
  { intros g b' k' H. unfold upd_pcb, get_pcb, mbind, M_bind, gets. rewrite Hb, H. reflexivity. }
  unfold exec_switch. rewrite (bind_ret _ _ k false k) by (unfold gets; by rewrite Hs). cbn [negb].
  unfold mbind at 1, M_bind at 1. rewrite (bind_ret _ _ _ _ _ (eq_refl : get_vis k = Ret _ k)), (bind_ret _ _ _ _ _ Et).
  rewrite (bind_ret _ _ _ _ _ (Eu _ b k Hp)). erewrite bind_ret by (apply Eu; apply lookup_insert_eq).
  erewrite bind_ret by reflexivity.
  erewrite bind_ret by (unfold get_pcb, mbind, M_bind, gets; rewrite Hb; cbn [k_proc set_k_proc pcbs set_pcbs];
    rewrite lookup_insert_eq; reflexivity). cbn [parent_task set_term_num set_parent_task]. rewrite Hc. reflexivity.
Qed.

(** ** Properties *)

(** [C20] Booting establishes what the rest of the kernel relies on: from any machine
    with three terminals, whatever memory and devices hold, initialisation
    returns with every gate of the interrupt table in place and loaded, exactly the
    lines of the timer, the keyboard, the cascade, the clock and the mouse open at
    the controllers, paging on with the boot address space, each terminal on
    its own page with no process, the screen cleared but for the line "testing",
    and interrupts on; outside of the tables and the video pages memory is as it
    was. *)
Theorem boot_initialises L e1 e2 k :
  link_ok L -> length (terminals (k_disp k)) = 3%nat -> vis_term_id (k_disp k) = 0 -> sched_term_id (k_disp k) = 0 ->
  desc_ok e1 -> desc_ok e2 ->
  exists k', init_devices L e1 e2 k = Ret tt k' /\ booted L k k'.
Proof.
  intros HL H1 H2 H3 H4 H5. pose proof (init_devices_boots L k HL H1 H2 H3 e1 e2 H4 H5) as W.
  apply wp_ret_iff in W as ([] & k' & E & B). exists k'. split; [exact E|exact B].
Qed.

(** [C19] From boot to the shell: once the machine is initialised, the first tick of the
    timer takes it to user mode, at the entry point of the file "shell" of the
    image, as a process on terminal 1. *)
Theorem boot_tick_starts_shell L e1 e2 f i k :
  let ino := inode_num (dentry_at (k_mem k) (entry_addr (fs_addr k) i)) in
  link_ok L -> at_boot k -> boot_layout L k f -> desc_ok e1 -> desc_ok e2 ->
  first_named (k_mem k) (fs_addr k) i (name_of (lit "shell") 0 5) -> is_program (k_mem k) (fs_addr k) ino ->
  exists k' blk t, (init_devices L e1 e2 ;; pit_interrupt f) k = Ret (User (file_word (k_mem k) (fs_addr k) ino 24) 0x83FFFFC) k' /\
    cur_pcb (k_proc k') = blk /\ blk <> 0 /\ sched_term_id (k_disp k') = 1 /\
    terminals (k_disp k') !! 1%nat = Some t /\ cur_task t = blk /\ iflag (k_cpu k') = true.
Proof.
  intros ino HL Hb Hlay H1 H2 Hn Hp. pose proof Hb as (B1 & B2 & B3 & _).
  assert (wp (init_devices L e1 e2 ;; pit_interrupt f) (fun r k' => exists blk t,
    r = User (file_word (k_mem k) (fs_addr k) ino 24) 0x83FFFFC /\
    cur_pcb (k_proc k') = blk /\ blk <> 0 /\ sched_term_id (k_disp k') = 1 /\
    terminals (k_disp k') !! 1%nat = Some t /\ cur_task t = blk /\ iflag (k_cpu k') = true) k) as W.
  2: { apply wp_ret_iff in W as (r & k' & E & blk & t & -> & R). exists k', blk, t. split; [exact E|exact R]. }
  apply wp_bind. eapply wp_mono; [|exact (init_devices_boots L k HL B1 B2 B3 e1 e2 H1 H2)]. intros [] k1 Bk.
  destruct (booted_ready L k f i k1 HL Hb Hlay Hn Hp Bk) as (R1 & R2 & R3 & R4 & R5 & R6).
  destruct Bk as (_ & _ & ((Ll & _) & _ & Hs & Htask & _) & _).
  destruct (lookup_lt_is_Some_2 (terminals (k_disp k1)) 0) as [t0 Ht0]; [lia|].
  destruct (lookup_lt_is_Some_2 (terminals (k_disp k1)) 1) as [t1 Ht1]; [lia|].
  assert (idle_next k1 t0 t1) as Hidle.
  { unfold idle_next. cbv zeta. rewrite Hs. split_and!; [lia|lia|exact Ht0|exact Ht1|by apply (Htask 1 t1)]. }
  assert (starts_on (shell_due t0 k1) 1 0 t1) as St.
  { split_and!; [lia| |left]; [|unfold shell_due; cbv zeta; rewrite Hs; by split_and!].
    unfold shell_due. cbv zeta. rewrite Hs. cbn [k_disp set_k_disp set_k_proc terminals set_sched_term_id set_terminals].
    by rewrite list_lookup_insert_ne by lia. }
  pose proof (execute_runs f (lit "shell") 0 5 5 5 i 1 0 t1 (shell_due t0 k1) R1 R2 shell_parsed ltac:(lia) ltac:(lia) R3) as W.
  cbv zeta in W. change (k_mem (shell_due t0 k1)) with (k_mem k1) in W. change (fs_addr (shell_due t0 k1)) with (fs_addr k1) in W.
  rewrite R4 in W. specialize (W R5 St). apply (tick_execs f t0 t1 k1 _ Hidle). eapply wp_mono; [|exact W].
  intros r k' (blk & p & -> & S & _ & D & _ & _ & _ & Fl & _). unfold ino in R6. rewrite R6. exists blk, (set_cur_task blk t1).
  destruct S as ((Hoff & _) & Eblk & _ & Ecur & _). split_and!; [reflexivity|exact Ecur| | | |reflexivity|exact Fl].
  - rewrite Eblk. by apply pcb_addr_nonzero.
  - rewrite D. unfold shell_due. cbv zeta. rewrite Hs. reflexivity.
  - rewrite D. cbn [terminals set_terminals]. apply list_lookup_insert_eq. unfold shell_due. cbv zeta.
    cbn [k_disp set_k_disp set_k_proc terminals set_sched_term_id set_terminals]. rewrite length_insert.
    change (Z.to_nat 1) with 1%nat. lia.
Qed.

(** [C21] The entry point as a whole, on what the boot loader hands over: it terminates on
    every sound set of boot structures; with a wrong magic number or both symbol table
    bits it returns after its message, having drawn on the screen only; otherwise the
    segments are loaded, the machine is initialised, the file system is the first
    module and the shell is executed. *)
Theorem entry_boots_or_refuses L e1 e2 f magic mbi t0 k :
  link_ok L -> segs_ok L -> handed_over k t0 -> info_ok (k_mem k) mbi -> 0 <= magic < W32 -> desc_ok e1 -> desc_ok e2 ->
  exists k1, reported k k1 /\
    if refused k magic mbi then entry L e1 e2 f magic mbi k = Ret None k1
    else exists ks k2, segments_loaded L k1 ks /\ booted L ks k2 /\ fs_addr k2 = fs_module k mbi /\
      entry L e1 e2 f magic mbi k = (c ← sys_execute f (lit "shell"); mret (Some c)) k2.
Proof.
  intros HL HS Hh Hi Hm He1 He2. rewrite entry_checked. pose proof (checked_ok k t0 magic mbi Hh Hi Hm) as W.
  apply wp_ret_iff in W as (ok & k1 & E1 & -> & R1 & F1). exists k1. split; [exact R1|]. rewrite (bind_ret _ _ _ _ _ E1).
  destruct (refused k magic mbi); cbn [negb] in *; [reflexivity|].
  pose proof (init_segments_ok L k1 HS) as W. apply wp_ret_iff in W as ([] & ks & E2 & S2). rewrite (bind_ret _ _ _ _ _ E2).
  pose proof R1 as (_ & _ & _ & T1 & T2 & T3 & _).
  assert (k_disp ks = k_disp k1 /\ fs_addr ks = fs_addr k1) as [Ed Ef] by (destruct S2 as (m & -> & _); done).
  pose proof (init_devices_boots L ks HL ltac:(by rewrite Ed) ltac:(by rewrite Ed) ltac:(by rewrite Ed) e1 e2 He1 He2) as W.
  apply wp_ret_iff in W as ([] & k2 & E3 & B3). rewrite (bind_ret _ _ _ _ _ E3). exists ks, k2.
  split_and!; [exact S2|exact B3| |reflexivity].
  destruct B3 as (_ & _ & _ & _ & _ & _ & _ & _ & _ & _ & ->). by rewrite Ef, F1.
Qed.

(** ** Witnesses *)

Definition demo_link : link := mk_link 0x402000 0x403000 0x403100 0x403200 0x403208 0x401000 demo_addr.
Definition demo_boot : kernel := kernel_boot quiet demo_image demo_fs 0.

Lemma demo_link_ok : link_ok demo_link.
Proof. unfold link_ok, apart, demo_link. cbn [l_wrapper l_idt l_page_directory]. split_and!; try lia. intros []; cbn; lia. Qed.
Lemma demo_desc_ok : desc_ok demo_desc.
Proof. unfold desc_ok. cbn. lia. Qed.

Lemma boot_initialises_witness : exists k', init_devices demo_link demo_desc demo_desc demo_boot = Ret tt k' /\
  cr3 (k_cpu k') = 0x401000 /\ iflag (k_cpu k') = true.
Proof.
  destruct (boot_initialises demo_link demo_desc demo_desc demo_boot demo_link_ok eq_refl eq_refl eq_refl demo_desc_ok demo_desc_ok)
    as (k' & E & B). exists k'. destruct B as (_ & _ & _ & _ & C & _ & _ & _ & F & _). split_and!; [exact E|exact C|exact F].
Defined.

Lemma demo_boot_layout : boot_layout demo_link demo_boot demo_frame.
Proof.
  assert (image_size demo_image demo_fs = 20480) as E by reflexivity. unfold boot_layout. cbv zeta.
  change (k_mem demo_boot) with demo_image. change (fs_addr demo_boot) with demo_fs. rewrite E. unfold apart, demo_fs, demo_frame, demo_link.
  cbn [cmd file_data l_idt l_page_directory]. split_and!; try lia. vm_compute. discriminate.
Qed.

Lemma boot_tick_starts_shell_witness : exists k',
  (init_devices demo_link demo_desc demo_desc ;; pit_interrupt demo_frame) demo_boot = Ret (User 0x80482E8 0x83FFFFC) k' /\
  sched_term_id (k_disp k') = 1.
Proof.
  destruct (boot_tick_starts_shell demo_link demo_desc demo_desc demo_frame 0 demo_boot) as (k' & blk & t & E & _ & _ & S & _).
  - exact demo_link_ok.
  - split_and!; reflexivity.
  - exact demo_boot_layout.
  - exact demo_desc_ok.
  - exact demo_desc_ok.
  - split_and!; [lia|reflexivity|apply (has_name_check _ _ _ _ 5); [lia|reflexivity|reflexivity]|intros; lia].
  - exact demo_program.
  - exists k'. split; [exact E|exact S].
Defined.

(** One module, the file system. *)
Definition demo_mbi : memory := wr32 (wr32 (wr32 (wr32 ∅ 0x9000 8) 0x9014 1) 0x9018 0xA000) 0xA000 0x410000.

Lemma entry_boots_or_refuses_witness : exists k2,
  entry demo_link demo_desc demo_desc demo_frame 0x2BADB002 0x9000 (set_k_mem demo_mbi kernel_quiet) =
    (c ← sys_execute demo_frame (lit "shell"); mret (Some c)) k2 /\ fs_addr k2 = 0x410000.
Proof.
  destruct (entry_boots_or_refuses demo_link demo_desc demo_desc demo_frame 0x2BADB002 0x9000 term_boot (set_k_mem demo_mbi kernel_quiet))
    as (k1 & _ & H).
  - exact demo_link_ok.
  - unfold segs_ok, apart, demo_link. cbn [l_ldt l_tss l_ldt_desc l_tss_desc]. lia.
  - split_and!; reflexivity.
  - unfold info_ok, off_screen, apart. change (k_mem (set_k_mem demo_mbi kernel_quiet)) with demo_mbi.
    replace (mods_addr demo_mbi 0x9000) with 0xA000 by reflexivity. split_and!;
      [lia|lia|lia|intros H; exfalso; vm_compute in H; discriminate|intros _; lia|intros H; exfalso; vm_compute in H; discriminate].
  - lia.
  - exact demo_desc_ok.
  - exact demo_desc_ok.
  - change (refused (set_k_mem demo_mbi kernel_quiet) 0x2BADB002 0x9000) with false in H. cbv iota in H.
    destruct H as (ks & k2 & _ & _ & F & E). exists k2. split; [exact E|rewrite F; reflexivity].
Defined.
