(* ===== verification/SelfTests.v ===== *)
(** * The self-tests of the kernel (file_system.c, lib.c)

    Functions that a developer calls by hand from the keyboard's test cases; nothing
    of the kernel calls them.  Local arrays that read_data fills are at an address of
    the kernel stack; the static variables of test_data_printing are its state. *)

From Stdlib Require Import ZArith Lia String.
From stdpp Require Import gmap list numbers strings.
From S2P Require Import Prelude Memory LibString State Display Printf Pcb FileSystem Vfs MultiTerm Keyboard Terminal.

(** ** Definitions *)

(** test_interrupts: "video_mem[i<<1]++" on every cell. *)
Definition test_interrupts : M unit :=
  for_ (Z.to_nat (NUM_ROWS * NUM_COLS)) (fun i =>
    upd_mem (fun m => wr m (VIDEO_ADDR + Z.shiftl i 1) (rd m (VIDEO_ADDR + Z.shiftl i 1) + 1))).

(** fs_addr[(inode_num+1)*BLK_SIZE_UINTS] *)
Definition inode_size (d : dentry_t) : M Z :=
  m ← gets k_mem; fs ← gets fs_addr; mret (rd32 m (inode_addr fs (inode_num d))).

Definition listing_line : Z -> Z := arr_at (bytes_of_string "%s, %u, %u" ++ [10; 0]).

(** becausenonullisguaranteed: the 32 characters of the name and a NUL. *)
Definition name_str (d : dentry_t) : Z -> Z := arr_at (file_name d ++ [0]).

(** [to_print]: what the uninitialised local variable holds. *)
Definition test_access_by_index (to_print : dentry_t) : M unit :=
  m ← gets k_mem; fs ← gets fs_addr;
  let num_of_files := rd32 m fs in
  clear_screen ;;
  clear_buffer ;;
  loopM (fun '(i, to_print) =>
    if i <? num_of_files then
      m ← gets k_mem; fs ← gets fs_addr;
      let to_print := default to_print (read_dentry_by_index m fs i).2 in
      file_size ← inode_size to_print;
      printf listing_line [mk_va 0 (name_str to_print); mk_va (file_type to_print) (fun _ => 0);
        mk_va file_size (fun _ => 0)] ;;
      mret (inl (u32 (i + 1), to_print))
    else mret (inr tt)) (0, to_print).

(** The loop that prints a file, at most a row at a time, through [temp_string]. *)
Definition print_row (temp_string inode : Z) : Z * Z -> M (Z * Z + unit) :=
  fun '(file_size, printed) =>
    if 0 <? file_size then
      let how_much := if NUM_COLS <=? file_size then NUM_COLS else file_size in
      m ← gets k_mem; fs ← gets fs_addr;
      '(m, are_we_good) ← lift Diverges (read_data m fs inode printed temp_string how_much);
      upd_mem (fun _ => m) ;;
      if are_we_good =? -1 then mret (inr tt) else
      (if how_much <? NUM_COLS then mem_op (fun m => memset m (temp_string + how_much) 0 (NUM_COLS - how_much)) else skip) ;;
      print_buffer temp_string (Z.to_nat how_much) ;;
      mret (inl (u32 (file_size - are_we_good), u32 (printed + are_we_good)))
    else mret (inr tt).

Definition print_file (temp_string : Z) (d : dentry_t) : M unit :=
  file_size ← inode_size d;
  loopM (print_row temp_string (inode_num d)) (file_size, 0).

(** "char temp_string[NUM_COLS+1] = {0};" *)
Definition zero_row (temp_string : Z) : M unit := upd_mem (fun m => blit m temp_string (fun _ => 0) 81).

(** The bytes of a dentry_t: the name is printed up to the first NUL of the entry. *)
Definition dentry_bytes (d : dentry_t) : list Z :=
  file_name d ++ le32 (file_type d) ++ le32 (inode_num d) ++ concat (map le32 (reserved d)).

Definition test_access_by_file_name (temp_string : Z) (to_print : dentry_t) : M unit :=
  zero_row temp_string ;;
  clear_screen ;;
  clear_buffer ;;
  m ← gets k_mem; fs ← gets fs_addr;
  '(_, d) ← lift Diverges (read_dentry_by_name m fs (lit "created.txt"));
  let to_print := default to_print d in
  print_file temp_string to_print ;;
  printf (arr_at ([10] ++ bytes_of_string "%s" ++ [0])) [mk_va 0 (arr_at (dentry_bytes to_print))] ;;
  skip.

(** The static variables: the entry printed last and its index. *)
Record printing := mk_printing { to_print : dentry_t; index_to_be_printed : Z }.

(** Division by a count of 0 is a fault. *)
Definition test_data_printing (temp_string : Z) (st : printing) : M printing :=
  m ← gets k_mem; fs ← gets fs_addr;
  let num_of_files := i32 (rd32 m fs) in
  zero_row temp_string ;;
  clear_screen ;;
  clear_buffer ;;
  if num_of_files =? 0 then fault_ OutOfBounds else
  let index := Z.rem (i32 (index_to_be_printed st + 1)) num_of_files in
  m ← gets k_mem;
  let entry := default (to_print st) (read_dentry_by_index m fs (u32 index)).2 in
  print_file temp_string entry ;;
  printf (arr_at ([10] ++ bytes_of_string "%s" ++ [0])) [mk_va 0 (name_str entry)] ;;
  mret (mk_printing entry index).

(** ** test_interrupts *)

(** Every character of the screen is one further; the attributes stay. *)
Lemma test_interrupts_bumps k : exists m, test_interrupts k = Ret tt (set_k_mem m k) /\
  (forall i, 0 <= i < NUM_ROWS * NUM_COLS -> rd m (VIDEO_ADDR + 2 * i) = u8 (rd (k_mem k) (VIDEO_ADDR + 2 * i) + 1)) /\
  (forall a, 0 <= a < W32 -> a < VIDEO_ADDR \/ VIDEO_ADDR + PAGE_BYTES <= a \/ a mod 2 = 1 -> rd m a = rd (k_mem k) a).
Proof.
  assert (wp test_interrupts (fun _ k' => exists m, k' = set_k_mem m k /\ forall a, 0 <= a < W32 ->
    rd m a = if (VIDEO_ADDR <=? a) && (a <? VIDEO_ADDR + 2 * 2000) && (a mod 2 =? 0) then u8 (rd (k_mem k) a + 1) else rd (k_mem k) a) k) as W.
  { apply (wp_for (Z.to_nat 2000) _ (fun n k' => exists m, k' = set_k_mem m k /\ forall a, 0 <= a < W32 ->
      rd m a = if (VIDEO_ADDR <=? a) && (a <? VIDEO_ADDR + 2 * n) && (a mod 2 =? 0) then u8 (rd (k_mem k) a + 1) else rd (k_mem k) a)).
    - intros i k' Hi (m & -> & F). rewrite Z.shiftl_mul_pow2 by lia. change (2 ^ 1) with 2. apply wp_modify.
      change (k_mem (set_k_mem m k)) with m. eexists. split; [reflexivity|]. intros a Ha. rewrite rd_wr, !u32_small by lia.
      rewrite !F by lia. destruct (Z.eqb_spec (VIDEO_ADDR + i * 2) a) as [<-|Hne].
      + rewrite (proj2 (Z.leb_le _ _)), (proj2 (Z.ltb_ge _ _)), (proj2 (Z.ltb_lt _ _)), (proj2 (Z.eqb_eq _ 0)) by zlia. done.
      + replace (a <? VIDEO_ADDR + 2 * (i + 1)) with ((a <? VIDEO_ADDR + 2 * i) || (a =? VIDEO_ADDR + i * 2 + 1)) by (case_cmp; (done || lia)).
        destruct (Z.eqb_spec a (VIDEO_ADDR + i * 2 + 1)) as [->|].
        * rewrite (proj2 (Z.eqb_neq _ 0)) by zlia. by rewrite !andb_false_r.
        * by rewrite orb_false_r.
    - exists (k_mem k). split; [by destruct k|]. intros a Ha. rewrite Z.mul_0_r, Z.add_0_r.
      destruct (Z.leb_spec VIDEO_ADDR a), (Z.ltb_spec a VIDEO_ADDR); cbn [andb]; (done || lia). }
  apply wp_ret_iff in W as ([] & k' & E & m & -> & F). exists m. split; [exact E|]. split.
  - intros i Hi. rewrite F by lia. rewrite (proj2 (Z.leb_le _ _)), (proj2 (Z.ltb_lt _ _)), (proj2 (Z.eqb_eq _ 0)) by zlia. done.
  - intros a Ha H. rewrite F by lia. destruct (_ && _) eqn:B; [|done]. b2p. lia.
Qed.

(** ** What the file tests print *)

Section print_file_proof.
Context (k0 : kernel) (temp_string : Z) (d : dentry_t) (t : term_t) (s : screen).
Let sched := sched_term_id (k_disp k0).
Let fs := fs_addr k0.
Let inode := inode_num d.
Let len := file_length (k_mem k0) fs inode.
Let page_end := vid_mem t + PAGE_BYTES.
Hypothesis Himg : image_ok (k_mem k0) fs.
Hypothesis Hfile : file_ok (k_mem k0) fs inode.
Hypothesis Hlen : len + 80 < W32.
Hypothesis Ht : terminals (k_disp k0) !! Z.to_nat sched = Some t.
Hypothesis Hvid : 0 <= vid_mem t /\ page_end <= fs /\ page_end <= temp_string.
Hypothesis Hbuf : buffer_ok (k_mem k0) fs temp_string 80.

(** [k] is [k0] but for what is on the page, the position and the local array. *)
Definition printing_on (k : kernel) : Prop :=
  sched_term_id (k_disp k) = sched /\ color (k_disp k) = color (k_disp k0) /\ fs_addr k = fs /\
  image_same (k_mem k0) (k_mem k) fs /\ exists t', terminals (k_disp k) !! Z.to_nat sched = Some t' /\ vid_mem t' = vid_mem t.

Definition printed_so_far (n : Z) : screen :=
  text_spec (color (k_disp k0)) (map (file_byte (k_mem k0) fs inode) (seqZ 0 n)) s.

(** A write to the array moves nothing that is seen. *)
Lemma printing_copied k m' f n sc : printing_on k -> shows k sched sc -> 0 <= n -> mem_copied (k_mem k) m' temp_string f n -> n <= 80 ->
  printing_on (set_k_mem m' k) /\ shows (set_k_mem m' k) sched sc.
Proof using All.
  intros (H1 & H2 & H3 & Hi & t' & Ht' & Hv) (t2 & Hs0 & Ht2 & Hr & Hc & Hcells) Hn C Hle. destruct Hbuf as (B1 & B2 & B3).
  destruct Himg as [I1 I2]. subst page_end.
  split.
  - split_and!; try done; [|by exists t'].
    intros a Ha. rewrite <- Hi by done. apply (mem_copied_rd _ _ _ _ _ _ C); lia.
  - exists t2. split_and!; try done. intros o Ho. rewrite <- Hcells by done.
    rewrite Ht' in Ht2. apply (inj Some) in Ht2. subst t2. rewrite Hv. apply (mem_copied_rd _ _ _ _ _ _ C); lia.
Qed.

(** The array after read_data and memset: [h] bytes of the file, the rest 0. *)
Lemma row_filled m m1 f h : 0 <= h <= 80 -> mem_copied m m1 temp_string f h ->
  exists m2, (if h <? NUM_COLS then memset m1 (temp_string + h) 0 (NUM_COLS - h) else Some m1) = Some m2 /\
    mem_copied m m2 temp_string (fun i => if i <? h then f i else 0) 80.
Proof using All.
  intros Hh C. destruct (memset_copied m1 (temp_string + h) 0 (80 - h) ltac:(lia)) as (m2 & E & C2).
  exists (if h <? NUM_COLS then m2 else m1). split; [by case_if|]. intros a.
  pose proof (u32_range (a - temp_string)) as R.
  assert (u32 (a - (temp_string + h)) = u32 (u32 (a - temp_string) - h)) as E2.
  { unfold u32. rewrite Zminus_mod_idemp_l. f_equal. lia. }
  pose proof (C2 a) as Ha2. rewrite E2 in Ha2. rewrite (C a) in Ha2. destruct (Z.ltb_spec h NUM_COLS).
  - rewrite Ha2. destruct (Z.ltb_spec (u32 (a - temp_string)) h).
    + rewrite (proj2 (Z.ltb_lt _ 80)) by lia. case_cmp; [|done]. exfalso. revert H1. unfold u32 at 1. zlia.
    + rewrite (u32_small (_ - h)) by lia. case_cmp; case_cmp; (done || lia).
  - rewrite (C a). replace h with 80 by lia. case_cmp; done.
Qed.

(** The first [n'] bytes in the array are the next of the file. *)
Lemma printing_row k n m n' g : printing_on k -> 0 <= n -> 0 <= n' -> n + n' <= len ->
  mem_copied (k_mem k) m temp_string g 80 -> (forall i, 0 <= i < n' -> g i = file_byte (k_mem k) fs inode (n + i)) -> n' <= 80 ->
  chars (at_ m temp_string) n' = map (file_byte (k_mem k0) fs inode) (seqZ n n').
Proof using All.
  intros (_ & _ & _ & Hi & _) Hn Hn' Hle C Hg H80. destruct Hfile as [Hino Hblk].
  unfold chars. rewrite (map_seqZ_shift _ n). apply map_ext_in. intros i Hin. apply list_elem_of_In, elem_of_seqZ in Hin.
  unfold at_. rewrite (mem_copied_in _ _ _ _ _ _ C ltac:(lia) i) by (done || lia). rewrite Hg by lia.
  rewrite u8_small by apply rd_range. apply same_byte; try done; [fold len; lia|].
  apply Hblk; [zlia|fold len; zlia].
Qed.

Lemma printing_outs k k' : printing_on k -> out_frame sched k k' -> printing_on k'.
Proof using All.
  intros (H1 & H2 & H3 & Hi & t1 & Ht1 & Hv) (t2 & t3 & m' & io' & Hs & Ht2 & S & D & _ & ->).
  rewrite Ht1 in Ht2. apply (inj Some) in Ht2. subst t2. destruct Himg as [I1 I2]. subst page_end.
  split_and!; try done.
  - intros a Ha. rewrite <- Hi by done. apply D. rewrite Hv, u32_small; lia.
  - exists t3. split; [exact (list_lookup_insert_eq _ _ _ (lookup_lt_Some _ _ _ Ht1))|]. rewrite S. exact Hv.
Qed.

Lemma wp_print_row n k : printing_on k -> shows k sched (printed_so_far n) -> pos_ok s -> 0 <= n < len ->
  wp (print_row temp_string inode (len - n, n)) (fun r k' => exists n', r = inl (len - n', n') /\ n < n' <= len /\ printing_on k' /\ shows k' sched (printed_so_far n')) k.
Proof using All.
  intros P Hs Hok Hn. pose proof P as (H1 & H2 & H3 & Hi & t1 & Ht1 & Hv). unfold print_row.
  rewrite (proj2 (Z.ltb_lt _ _)) by lia. cbv zeta.
  set (h := if NUM_COLS <=? len - n then _ else _).
  assert (h = Z.min 80 (len - n)) as Eh by (subst h; case_cmp; lia). clearbody h.
  wp_steps. rewrite H3.
  destruct (read_data_file (k_mem k) fs inode n temp_string h) as (m1 & E1 & C1); try lia.
  { by eapply same_image_ok. } { by eapply same_file_ok. }
  { destruct Hbuf as (? & ? & ?). unfold buffer_ok. rewrite (same_size (k_mem k0)) by done. lia. }
  rewrite (same_length (k_mem k0)) in E1, C1 by (done || apply Hfile). fold len in E1, C1.
  replace (0 `max` (h `min` (len - n))) with h in E1, C1 by lia.
  destruct (row_filled _ _ _ h ltac:(lia) C1) as (m2 & E2 & C2).
  assert (printing_on (set_k_mem m2 k) /\ shows (set_k_mem m2 k) sched (printed_so_far n)) as [P2 S2]
    by (eapply printing_copied; [exact P|exact Hs| |exact C2|]; lia).
  eapply wp_lift; [exact E1|]. cbv beta iota. wp_steps. rewrite (proj2 (Z.eqb_neq _ _)) by lia.
  apply wp_bind. eapply (wp_mono _ (fun _ k' => k' = set_k_mem m2 k)).
  2: { case_if; [by eapply wp_mem_op|]. injection E2 as ->. by apply wp_mret. }
  intros [] k1 ->. apply wp_bind. rewrite <- H1 in S2.
  eapply wp_mono; [|apply (wp_print_buffer temp_string (Z.to_nat h) (set_k_mem m2 k) t1 (printed_so_far n) S2)].
  2: by apply text_spec_ok. 2: by rewrite <- H1 in Ht1.
  2: { unfold buffer_above. rewrite Hv, Z2Nat.id by lia. destruct Hbuf. subst page_end. lia. }
  rewrite Z2Nat.id by lia. intros [] k' [S3 F3]. apply wp_mret. exists (n + h).
  change (sched_term_id (k_disp (set_k_mem m2 k))) with (sched_term_id (k_disp k)) in F3, S3.
  change (color (k_disp (set_k_mem m2 k))) with (color (k_disp k)) in S3. rewrite H1 in F3, S3. rewrite H2 in S3.
  change (k_mem (set_k_mem m2 k)) with m2 in S3. split_and!; [|lia|lia|by eapply printing_outs|].
  - rewrite !u32_small by lia. do 2 f_equal. lia.
  - erewrite (printing_row k n m2 h _ P) in S3; [|lia|lia|lia|exact C2| |lia].
    + unfold printed_so_far in *. rewrite (seqZ_split 0 (n + h) n), map_app by lia.
      replace (n + h - n) with h by lia. unfold text_spec in *. by rewrite fold_left_app.
    + intros i Hin. cbn beta. by rewrite (proj2 (Z.ltb_lt _ _)) by lia.
Qed.

(** The whole file, character by character. *)
Lemma print_file_prints k' : printing_on k' -> shows k' sched s -> pos_ok s ->
  wp (print_file temp_string d) (fun _ k2 => printing_on k2 /\ shows k2 sched (printed_so_far len)) k'.
Proof using All.
  intros P Hs Hok. pose proof P as (_ & _ & H3 & Hi & _). unfold print_file, inode_size. wp_steps. rewrite H3.
  fold inode. fold (file_length (k_mem k') fs inode).
  rewrite (same_length (k_mem k0)) by (done || apply Hfile). fold len.
  pose proof (rd32_range (k_mem k0) (inode_addr fs inode)) as R. fold (file_length (k_mem k0) fs inode) in R. fold len in R.
  apply (wp_loopM _ (fun st k => exists n, st = (len - n, n) /\ 0 <= n <= len /\ printing_on k /\ shows k sched (printed_so_far n))
    _ (fun st => st.1)); [|exists 0; rewrite Z.sub_0_r; split_and!; (done || lia)|cbn [fst]; lia].
  intros st k (n & -> & Hn & Pk & Sk). destruct (Z.eq_dec n len) as [->|].
  - unfold print_row. rewrite Z.sub_diag. change (0 <? 0) with false. by apply wp_mret.
  - eapply wp_mono; [|apply wp_print_row; (done || lia)]. intros r k2 (n' & -> & Hn' & P2 & S2). cbn [fst].
    split; [|lia]. exists n'. split_and!; (done || lia).
Qed.
End print_file_proof.
