(* ===== verification/WellFormed.v ===== *)
(** * The types of the kernel's state, and programs that keep them

    [kernel_ok]: every field of every global holds a value of its C type, every
    array has its length, every index and every pointer to a block is one the
    kernel made.  [keeps c Q]: from such a state [c] ends in such a state with a
    result that satisfies [Q], unless it faults; it is a partial-correctness logic,
    for any memory, any devices and any arguments.  Memory is left free: nothing
    here relies on what programs or the file system image hold. *)

From Stdlib Require Import ZArith Lia String.
From stdpp Require Import gmap list numbers strings.
From S2P Require Import Prelude Memory LibString State Display Printf I8259 Paging Pcb Rtc FileSystem Vfs MultiTerm Keyboard Terminal Syscalls.

(** ** Values of a type *)

Definition word8 (z : Z) : Prop := 0 <= z < W8.
Definition word32 (z : Z) : Prop := 0 <= z < W32.
Definition array (n : nat) (l : list Z) : Prop := length l = n /\ Forall is_byte l.

(** A pcb_t*: NULL or one of the six blocks. *)
Definition task_ok (p : Z) : Prop := p = 0 \/ exists n, 0 <= n < MAX_PROCESSES /\ p = pcb_addr n.
(** The 4MB frame of a block. *)
Definition frame_of (n : Z) : Z := PROGRAM_1_PHYS + n * FOUR_MB.

Definition term_ok (t : term_t) : Prop :=
  word8 (term_id t) /\ word8 (curs_r t) /\ word8 (curs_c t) /\ word8 (scrn_c t) /\ word8 (scrn_r t) /\
  word32 (vid_mem t) /\ array 129 (key_buf t) /\ word32 (key_buf_index t) /\
  length (hist_buf t) = 10%nat /\ Forall (array 129) (hist_buf t) /\ 0 <= hist_buf_index t <= HIST_COM_NUM /\
  word32 (cur_hist_index t) /\ word32 (t_esp t) /\ word32 (t_ebp t) /\ task_ok (cur_task t).

Definition fdesc_ok (f : fdesc_t) : Prop := word32 (inode f) /\ word32 (file_pos f).

Definition block_ok (p : Z) (b : pcb_t) : Prop :=
  0 <= pcb_num b < MAX_PROCESSES /\ p = pcb_addr (pcb_num b) /\
  length (io_files b) = 8%nat /\ Forall fdesc_ok (io_files b) /\
  word32 (esp b) /\ word32 (ebp b) /\ word32 (esp0 b) /\ (page_addr b = 0 \/ page_addr b = frame_of (pcb_num b)) /\
  task_ok (parent_task b) /\ word32 (fd_status b) /\ 0 <= term_num b < MAX_TERM_NUM /\ word32 (pid b) /\
  array 129 (arg b) /\ array 33 (cmd_name b).

Definition cpu_ok (c : cpu_t) : Prop :=
  word32 (cr0 c) /\ word32 (cr3 c) /\ word32 (cr4 c) /\ word32 (tss_esp0 c) /\ word32 (reg_esp c) /\ word32 (reg_ebp c) /\
  word32 (idtr c) /\ word32 (ldtr c) /\ word32 (tr c).

(** [laid]: the pages of the terminals have been assigned (by multi_term_init), and
    every terminal draws on its own. *)
Definition disp_ok (laid : bool) (d : disp_t) : Prop :=
  length (terminals d) = 3%nat /\ Forall term_ok (terminals d) /\
  0 <= vis_term_id d < MAX_TERM_NUM /\ 0 <= sched_term_id d < MAX_TERM_NUM /\
  word8 (fg_color d) /\ word8 (bg_color d) /\ word8 (color d) /\
  (laid = true -> forall i t, terminals d !! i = Some t -> vid_mem t = page_of (vis_term_id d) (Z.of_nat i)).

(** The bitmap of the slots is below [slots]: 64, or 63 when a slot is free. *)
Definition proc_ok (slots : Z) (p : proc_t) : Prop :=
  map_Forall block_ok (pcbs p) /\ task_ok (cur_pcb p) /\ 0 <= pcb_status p < slots /\ word32 (numproc p).

Definition pic_ok (p : pic_t) : Prop := word8 (master_mask p) /\ word8 (slave_mask p).
Definition rtc_ok (r : rtc_t) : Prop := word32 (rtc_freq r).
Definition pointer_ok (o : mouse_t) : Prop :=
  0 <= cycle o <= 3 /\ array 3 (mouse_bytes o) /\ 0 <= mouse_x_pos o < NUM_COLS /\ 0 <= mouse_y_pos o < NUM_ROWS /\
  word8 (old_char o).

Definition kernel_ok (laid : bool) (slots : Z) (k : kernel) : Prop :=
  cpu_ok (k_cpu k) /\ disp_ok laid (k_disp k) /\ proc_ok slots (k_proc k) /\ pic_ok (k_pic k) /\ rtc_ok (k_rtc k) /\
  pointer_ok (k_mouse k) /\ word32 (fs_addr k).

(** [solve_ok]: a field or a store of one of the records above. *)
Ltac solve_ok :=
  intros; unfold kernel_ok, cpu_ok, disp_ok, proc_ok, pic_ok, rtc_ok, pointer_ok, term_ok, fdesc_ok, block_ok, array, word8, word32, is_byte in *;
  unfold c_true in *; b2p; cbn; destruct_and?; split_and?; first [assumption | reflexivity | apply u8_range | apply u32_range | lia | zlia | auto with cint].

(** ** Partial correctness *)

Section keeps.
Context (laid : bool) (slots : Z).
Abbreviation ok := (kernel_ok laid slots).

Definition wlp {A} (c : M A) (Q : A -> kernel -> Prop) (k : kernel) : Prop :=
  match c k with Ret a k' => Q a k' | Spin k' => ok k' | Fault _ => True end.

Definition keeps {A} (c : M A) (Q : A -> Prop) : Prop := forall k, ok k -> wlp c (fun a k' => Q a /\ ok k') k.

Lemma wlp_bind {A B} (c : M A) (f : A -> M B) Q k : wlp c (fun a k' => wlp (f a) Q k') k -> wlp (c ≫= f) Q k.
Proof. unfold wlp, mbind, M_bind. by destruct (c k). Qed.
Lemma wlp_mono {A} (c : M A) (Q Q' : A -> kernel -> Prop) k : (forall a k', Q a k' -> Q' a k') -> wlp c Q k -> wlp c Q' k.
Proof. unfold wlp. destruct (c k); auto. Qed.

Lemma keeps_elim {A} (c : M A) (Q : A -> Prop) : keeps c Q -> forall k, ok k -> wlp c (fun a k' => Q a /\ ok k') k.
Proof. done. Qed.
Lemma keeps_intro {A} (c : M A) (Q : A -> Prop) : (forall k, ok k -> wlp c (fun a k' => Q a /\ ok k') k) -> keeps c Q.
Proof. done. Qed.

Lemma keeps_bind {A B} (c : M A) (f : A -> M B) P Q : keeps c P -> (forall a, P a -> keeps (f a) Q) -> keeps (c ≫= f) Q.
Proof.
  intros Hc Hf k Hk. apply wlp_bind. eapply wlp_mono; [|exact (Hc k Hk)]. intros a k' [Ha Hk']. by apply Hf.
Qed.
(** Two operations that keep the state only together. *)
Lemma keeps_both {A} (c d : M unit) (rest : M A) Q :
  keeps (c ;; d) (fun _ => True) -> keeps rest Q -> keeps (c ;; d ;; rest) Q.
Proof.
  intros Hcd Hr k Hk. specialize (Hcd k Hk). unfold wlp, mbind, M_bind in *. destruct (c k) as [u k1|k1|]; [|done..].
  destruct (d k1) as [u' k2|k2|]; [|done..]. destruct Hcd as [_ Hk2]. exact (Hr k2 Hk2).
Qed.
Lemma wp_wlp {A} (c : M A) Q k : wp c Q k -> wlp c Q k.
Proof. unfold wp, wlp. by destruct (c k). Qed.
Lemma keeps_wp {A} (c : M A) (Q : A -> Prop) : (forall k, ok k -> wp c (fun a k' => Q a /\ ok k') k) -> keeps c Q.
Proof. intros H k Hk. by apply wp_wlp, H. Qed.
Lemma keeps_mono {A} (c : M A) (P Q : A -> Prop) : (forall a, P a -> Q a) -> keeps c P -> keeps c Q.
Proof. intros H Hc k Hk. eapply wlp_mono; [|exact (Hc k Hk)]. intros a k' [Ha Hk']. auto. Qed.
Lemma keeps_weaken {A} (c : M A) (P : A -> Prop) : keeps c P -> keeps c (fun _ => True).
Proof. by apply keeps_mono. Qed.
Lemma keeps_mret {A} (a : A) (Q : A -> Prop) : Q a -> keeps (mret a) Q.
Proof. intros Ha k Hk. by split. Qed.
Lemma keeps_skip : keeps skip (fun _ => True).
Proof. by apply keeps_mret. Qed.
Lemma keeps_fault {A} e (Q : A -> Prop) : keeps (fault_ e) Q.
Proof. done. Qed.
Lemma keeps_lift {A} e (o : option A) (Q : A -> Prop) : (forall a, o = Some a -> Q a) -> keeps (lift e o) Q.
Proof. intros H. destruct o; [apply keeps_mret; auto|apply keeps_fault]. Qed.
Lemma keeps_gets {A} (f : kernel -> A) (Q : A -> Prop) : (forall k, ok k -> Q (f k)) -> keeps (gets f) Q.
Proof. intros H k Hk. split; auto. Qed.
Lemma keeps_modify f : (forall k, ok k -> ok (f k)) -> keeps (modify f) (fun _ => True).
Proof. intros H k Hk. split; auto. Qed.

(** Loops: an invariant of the loop state. *)
Lemma run_loop_inv {S R} (body : S -> S + R) (J : S -> Prop) (Q : R -> Prop) :
  (forall s, J s -> match body s with inl s' => J s' | inr r => Q r end) ->
  forall s r, J s -> run_loop body s = Some r -> Q r.
Proof.
  intros Hb s r Hs. assert (forall d s, J s -> match loop d body s with inl s' => J s' | inr r => Q r end) as L.
  { induction d as [|d IH]; intros s1 H1; cbn [loop]; [by apply Hb|]. specialize (IH s1 H1) as H2.
    destruct (loop d body s1) as [s2|]; [by apply IH|done]. }
  specialize (L 32%nat s Hs). unfold run_loop. destruct (loop 32 body s); [done|]. by intros [= ->].
Qed.

Lemma keeps_loop {S R} (body : S -> M (S + R)) (J : S -> Prop) (Q : R -> Prop) s :
  (forall s, J s -> keeps (body s) (fun r => match r with inl s' => J s' | inr r => Q r end)) ->
  J s -> keeps (loopM body s) Q.
Proof.
  intros Hb Hs k Hk. unfold wlp, loopM. set (b := fun sk => _).
  destruct (run_loop b (s, k)) as [o|] eqn:E; [|done].
  refine (run_loop_inv b (fun '(s, k) => J s /\ ok k)
    (fun o => match o with Ret r k' => Q r /\ ok k' | Spin k' => ok k' | Fault _ => True end) _ (s, k) o (conj Hs Hk) E).
  intros [s1 k1] [H1 K1]. unfold b. specialize (Hb s1 H1 k1 K1). unfold wlp in Hb. by destruct (body s1 k1) as [[]| |].
Qed.

Lemma keeps_for n body : (forall i, 0 <= i < Z.of_nat n -> keeps (body i) (fun _ => True)) -> keeps (for_ n body) (fun _ => True).
Proof.
  induction n as [|n IH]; intros Hb; [apply keeps_skip|]. cbn [for_]. eapply keeps_bind; [apply IH; intros; apply Hb; lia|].
  intros _ _. apply Hb. lia.
Qed.

(** ** The accessors *)

Lemma keeps_upd_mem f : keeps (upd_mem f) (fun _ => True).
Proof. apply keeps_modify. solve_ok. Qed.
Lemma keeps_mem_op f : keeps (mem_op f) (fun _ => True).
Proof. intros k Hk. unfold wlp, mem_op, mbind, M_bind, gets, lift. destruct (f (k_mem k)); [|done]. split; [done|]. exact Hk. Qed.
Lemma keeps_outb data port : keeps (outb data port) (fun _ => True).
Proof. apply keeps_modify. solve_ok. Qed.
Lemma keeps_inb port : keeps (inb port) word8.
Proof. intros k Hk. unfold wlp, inb. split; [apply u8_range|exact Hk]. Qed.
Lemma keeps_upd_disp f : (forall d, disp_ok laid d -> disp_ok laid (f d)) -> keeps (upd_disp f) (fun _ => True).
Proof. intros H. apply keeps_modify. unfold kernel_ok. intros k (? & ? & ? & ? & ? & ? & ?). split_and!; try done. by apply H. Qed.
Lemma keeps_upd_proc f : (forall p, proc_ok slots p -> proc_ok slots (f p)) -> keeps (upd_proc f) (fun _ => True).
Proof. intros H. apply keeps_modify. unfold kernel_ok. intros k (? & ? & ? & ? & ? & ? & ?). split_and!; try done. by apply H. Qed.
Lemma keeps_upd_cpu f : (forall c, cpu_ok c -> cpu_ok (f c)) -> keeps (upd_cpu f) (fun _ => True).
Proof. intros H. apply keeps_modify. unfold kernel_ok. intros k (? & ? & ? & ? & ? & ? & ?). split_and!; try done. by apply H. Qed.
Lemma keeps_upd_kbd f : keeps (upd_kbd f) (fun _ => True).
Proof. by apply keeps_modify. Qed.
Lemma keeps_upd_rtc f : (forall r, rtc_ok r -> rtc_ok (f r)) -> keeps (upd_rtc f) (fun _ => True).
Proof. intros H. apply keeps_modify. unfold kernel_ok. intros k (? & ? & ? & ? & ? & ? & ?). split_and!; try done. by apply H. Qed.
Lemma keeps_upd_pic f : (forall p, pic_ok p -> pic_ok (f p)) -> keeps (upd_pic f) (fun _ => True).
Proof. intros H. apply keeps_modify. unfold kernel_ok. intros k (? & ? & ? & ? & ? & ? & ?). split_and!; try done. by apply H. Qed.

Lemma keeps_get_term i : keeps (get_term i) term_ok.
Proof.
  intros k Hk. unfold wlp, get_term, mbind, M_bind, gets. destruct (_ && _); [|done]. unfold lift.
  destruct (terminals (k_disp k) !! Z.to_nat i) as [t|] eqn:E; [|done]. split; [|done].
  destruct Hk as (_ & (_ & F & _) & _). by apply (Forall_lookup_1 _ _ _ _ F E).
Qed.

(** A store into a terminal leaves its page alone. *)
Lemma wlp_upd_term i f k : ok k ->
  (forall t, terminals (k_disp k) !! Z.to_nat i = Some t -> term_ok t ->
     term_ok (f t) /\ (laid = true -> vid_mem (f t) = vid_mem t)) ->
  wlp (upd_term i f) (fun _ k' => True /\ ok k') k.
Proof.
  intros Hk Hf. unfold upd_term. apply wlp_bind. unfold wlp, get_term, mbind, M_bind, gets.
  destruct (_ && _); [|done]. unfold lift. destruct (terminals (k_disp k) !! Z.to_nat i) as [t|] eqn:E; [|done].
  split; [done|]. destruct Hk as (? & (D1 & D2 & D3 & D4 & D5 & D6 & D7 & D8) & ? & ? & ? & ? & ?).
  destruct (Hf t eq_refl (Forall_lookup_1 _ _ _ _ D2 E)) as [Ht Hv].
  refine (conj _ (conj _ (conj _ (conj _ (conj _ (conj _ _)))))); try done. unfold disp_ok. cbn.
  refine (conj _ (conj _ (conj D3 (conj D4 (conj D5 (conj D6 (conj D7 _))))))); [by rewrite length_insert| |].
  - by apply Forall_insert.
  - intros L j t' [(<- & <- & _)|(_ & Hj)]%list_lookup_insert_Some; [|by apply D8]. rewrite (Hv L). by apply D8.
Qed.
Lemma keeps_upd_term i f : (forall t, term_ok t -> term_ok (f t)) ->
  (forall t, laid = true -> vid_mem (f t) = vid_mem t) -> keeps (upd_term i f) (fun _ => True).
Proof. intros Hf Hv k Hk. apply wlp_upd_term; [done|]. intros t _ Ht. split; [by apply Hf|apply Hv]. Qed.

(** Operations that only read: the state they return is the one they got. *)
Definition reads {A} (c : M A) (P : kernel -> A -> Prop) : Prop :=
  forall k, match c k with Ret a k' => k' = k /\ P k a | Spin _ => False | Fault _ => True end.

Lemma wlp_reads {A B} (c : M A) (f : A -> M B) P Q k :
  reads c P -> (forall a, P k a -> wlp (f a) Q k) -> wlp (c ≫= f) Q k.
Proof.
  intros Hc Hf. apply wlp_bind. specialize (Hc k). unfold wlp. destruct (c k) as [a k'| |]; [|done..].
  destruct Hc as [-> Ha]. by apply Hf.
Qed.
Lemma reads_bind {A B} (c : M A) (f : A -> M B) P Q :
  reads c P -> (forall a, reads (f a) (fun k b => P k a -> Q k b)) -> reads (c ≫= f) Q.
Proof.
  intros Hc Hf k. specialize (Hc k). unfold mbind, M_bind. destruct (c k) as [a k'| |]; [|done..]. destruct Hc as [-> Ha].
  specialize (Hf a k). destruct (f a k); [|done..]. destruct Hf as [-> Hb]. auto.
Qed.
Lemma reads_gets {A} (f : kernel -> A) : reads (gets f) (fun k a => a = f k).
Proof. done. Qed.
Lemma reads_lift {A} e (o : option A) : reads (lift e o) (fun _ a => o = Some a).
Proof. by destruct o. Qed.
Lemma reads_get_term i : reads (get_term i) (fun k t => terminals (k_disp k) !! Z.to_nat i = Some t).
Proof. intros k. unfold get_term, mbind, M_bind, gets. destruct (_ && _); [|done]. by destruct (_ !! _). Qed.

Lemma keeps_get_pcb p : keeps (get_pcb p) (fun b => p <> 0 /\ block_ok p b).
Proof.
  intros k Hk. unfold wlp, get_pcb. destruct (Z.eqb_spec p 0); [done|]. unfold mbind, M_bind, gets, lift.
  destruct (pcbs (k_proc k) !! p) as [b|] eqn:E; [|done]. split; [|done]. split; [done|].
  destruct Hk as (_ & _ & (F & _) & _). by apply F.
Qed.

Lemma keeps_set_pcb p b : block_ok p b -> keeps (upd_proc (fun d => set_pcbs (<[p := b]> (pcbs d)) d)) (fun _ => True).
Proof.
  intros Hb. apply keeps_upd_proc. intros d (F & ? & ? & ?). unfold proc_ok. cbn.
  refine (conj _ (conj _ (conj _ _))); try done. by apply map_Forall_insert_2.
Qed.

Lemma keeps_upd_pcb p f : (forall b, block_ok p b -> block_ok p (f b)) -> keeps (upd_pcb p f) (fun _ => True).
Proof. intros Hf. eapply keeps_bind; [apply keeps_get_pcb|]. intros b [_ Hb]. by apply keeps_set_pcb, Hf. Qed.

Lemma keeps_get_fd p i : keeps (get_fd p i) fdesc_ok.
Proof.
  eapply keeps_bind; [apply keeps_get_pcb|]. intros b [_ Hb]. destruct (_ && _); [|apply keeps_fault].
  apply keeps_lift. intros d Hd. destruct Hb as (_ & _ & _ & F & _). by apply (Forall_lookup_1 _ _ _ _ F Hd).
Qed.

Lemma keeps_upd_fd p i f : (forall d, fdesc_ok d -> fdesc_ok (f d)) -> keeps (upd_fd p i f) (fun _ => True).
Proof.
  intros Hf. eapply keeps_bind; [apply keeps_get_fd|]. intros d Hd. apply keeps_upd_pcb. unfold block_ok.
  intros b (H1 & H2 & H3 & H4 & H). cbn. refine (conj H1 (conj H2 (conj _ (conj _ H)))); [by rewrite length_insert|].
  by apply Forall_insert, Hf.
Qed.

(** Waiting: every handler that arrives keeps the state. *)
Lemma keeps_interrupt h : keeps h (fun _ => True) -> keeps (interrupt h) (fun _ => True).
Proof.
  intros Hh. eapply keeps_bind; [by apply (keeps_gets _ (fun _ => True))|]. intros fl _.
  eapply keeps_bind; [apply keeps_upd_cpu; solve_ok|]. intros _ _. eapply keeps_bind; [exact Hh|]. intros _ _.
  apply keeps_upd_cpu. solve_ok.
Qed.

Lemma keeps_wait cond irqs : Forall (fun h => keeps h (fun _ => True)) irqs -> keeps (wait_while cond irqs) (fun _ => True).
Proof.
  induction 1 as [|h irqs Hh _ IH]; intros k Hk; unfold wlp; cbn [wait_while]; destruct (cond k); try done.
  destruct (iflag (k_cpu k)); [|done]. exact (keeps_bind _ _ _ _ (keeps_interrupt h Hh) (fun _ _ => IH) k Hk).
Qed.
End keeps.

(** Programs that need a free slot: [from_free c Q] starts with one. *)
Definition from_free {A} (laid : bool) (c : M A) (Q : A -> Prop) : Prop :=
  forall k, kernel_ok laid 63 k -> wlp laid 64 c (fun a k' => Q a /\ kernel_ok laid 64 k') k.

Lemma kernel_ok_free laid k : kernel_ok laid 63 k -> kernel_ok laid 64 k.
Proof.
  intros (H1 & H2 & (P1 & P2 & P3 & P4) & H). refine (conj H1 (conj H2 (conj (conj P1 (conj P2 (conj _ P4))) H))). lia.
Qed.

Lemma keeps_from_free {A} laid (c : M A) Q : keeps laid 64 c Q -> from_free laid c Q.
Proof. intros H k Hk. by apply H, kernel_ok_free. Qed.

Lemma from_free_bind {A B} laid (c : M A) (f : A -> M B) P Q :
  keeps laid 63 c P -> (forall a, P a -> from_free laid (f a) Q) -> from_free laid (c ≫= f) Q.
Proof.
  intros Hc Hf k Hk. specialize (Hc k Hk). apply wlp_bind. unfold wlp in *. destruct (c k) as [a k'|k'|]; [|by apply kernel_ok_free|done].
  destruct Hc as [Ha Hk']. by apply Hf.
Qed.

Lemma from_free_then {A B} laid (c : M A) (f : A -> M B) P Q :
  from_free laid c P -> (forall a, P a -> keeps laid 64 (f a) Q) -> from_free laid (c ≫= f) Q.
Proof.
  intros Hc Hf k Hk. apply wlp_bind. eapply wlp_mono; [|exact (Hc k Hk)]. intros a k' [Ha Hk']. by apply Hf.
Qed.
