(* ===== verification/Keeps.v ===== *)
(** * Every operation of the kernel keeps the types of its state

    One lemma per function of the source, in the order of the files; the tactic
    [keeps_auto] follows the structure of the function. *)

From Stdlib Require Import ZArith Lia String.
From stdpp Require Import gmap list numbers strings.
From S2P Require Import Prelude Memory LibString State Display Printf I8259 Paging Pcb Rtc FileSystem Vfs MultiTerm Keyboard Terminal Syscalls Timer Mouse Idt WellFormed.

(** ** Following the structure of a program *)

(** Unification never looks into a triple. *)
#[local] Opaque keeps.

Create HintDb keeps discriminated.
#[export] Hint Constants Opaque : keeps.

(** The primitive operations; what is left are the side conditions on the fields. *)
Ltac keeps_prim :=
  lazymatch goal with
  | |- keeps _ _ skip _ => apply keeps_skip
  | |- keeps _ _ (fault_ _) _ => apply keeps_fault
  | |- keeps _ _ (upd_mem _) _ => apply keeps_upd_mem
  | |- keeps _ _ (mem_op _) _ => apply keeps_mem_op
  | |- keeps _ _ (outb _ _) _ => apply keeps_outb
  | |- keeps _ _ (inb _) _ => apply keeps_inb
  | |- keeps _ _ cli _ => apply keeps_upd_cpu; solve_ok
  | |- keeps _ _ sti _ => apply keeps_upd_cpu; solve_ok
  | |- keeps _ _ (upd_disp _) _ => apply keeps_upd_disp; try solve [solve_ok]
  | |- keeps _ _ (upd_proc _) _ => apply keeps_upd_proc; try solve [solve_ok]
  | |- keeps _ _ (upd_cpu _) _ => apply keeps_upd_cpu; try solve [solve_ok]
  | |- keeps _ _ (upd_kbd _) _ => apply keeps_upd_kbd
  | |- keeps _ _ (upd_rtc _) _ => apply keeps_upd_rtc; try solve [solve_ok]
  | |- keeps _ _ (upd_pic _) _ => apply keeps_upd_pic; try solve [solve_ok]
  | |- keeps _ _ (get_term _) _ => apply keeps_get_term
  | |- keeps _ _ (upd_term _ _) _ => apply keeps_upd_term; [try solve [solve_ok]|first [intros ? _; reflexivity | intros ? [=] | idtac]]
  | |- keeps _ _ (get_pcb _) _ => apply keeps_get_pcb
  | |- keeps _ _ (get_fd _ _) _ => apply keeps_get_fd
  | |- keeps _ _ (upd_fd _ _ _) _ => apply keeps_upd_fd; try solve [solve_ok]
  | |- keeps _ _ (upd_pcb _ _) _ => apply keeps_upd_pcb; try solve [solve_ok]
  | |- keeps _ _ (gets _) _ => apply (keeps_gets _ _ _ (fun _ => True)); exact (fun _ _ => I)
  | |- keeps _ _ (lift _ ?o) _ => apply (keeps_lift _ _ _ o (fun a => o = Some a)); exact (fun a H => H)
  end.

(** One step: a sequence, a case, or the last operation. *)
Ltac keeps_next := let a := fresh "v" in let H := fresh "Hv" in
  intros a H; cbn beta in H; lazymatch type of H with True => clear H | _ => idtac end.
Ltac keeps_head := first [solve [eauto 2 with keeps nocore] | keeps_prim].
Ltac keeps_step :=
  lazymatch goal with
  | |- keeps _ _ (mbind ?f ?c) ?Q => first
      [ eapply keeps_bind; [keeps_head|keeps_next]
      | apply (keeps_bind _ _ c f (fun _ => True) Q); [|keeps_next] ]
  | |- keeps _ _ (if ?b then _ else _) _ => destruct b eqn:?
  | |- keeps _ _ (match ?x with _ => _ end) _ => destruct x eqn:?
  | |- keeps _ _ (let x := _ in _) _ => cbv zeta
  | |- keeps _ _ (mret _) _ => apply keeps_mret; try exact I
  | |- keeps _ _ (for_ _ _) _ => apply keeps_for; intros ? ?
  | |- keeps _ _ _ _ => first [keeps_head | eapply keeps_weaken; keeps_head]
  end; cbn beta.
Ltac keeps_auto := repeat keeps_step.

Abbreviation kept laid slots c := (keeps laid slots c (fun _ => True)).

(** What the getters return. *)
Lemma kept_vis laid slots : keeps laid slots (gets (fun k => vis_term_id (k_disp k))) (fun i => 0 <= i < MAX_TERM_NUM).
Proof. apply keeps_gets. intros k (_ & (_ & _ & H & _) & _). exact H. Qed.
Lemma kept_sched laid slots : keeps laid slots (gets (fun k => sched_term_id (k_disp k))) (fun i => 0 <= i < MAX_TERM_NUM).
Proof. apply keeps_gets. intros k (_ & (_ & _ & _ & H & _) & _). exact H. Qed.
Lemma kept_get_vis laid slots : keeps laid slots get_vis (fun i => 0 <= i < MAX_TERM_NUM).
Proof. apply kept_vis. Qed.
Lemma kept_get_sched laid slots : keeps laid slots get_sched (fun i => 0 <= i < MAX_TERM_NUM).
Proof. apply kept_sched. Qed.
Lemma kept_color laid slots : keeps laid slots (gets (fun k => color (k_disp k))) word8.
Proof. apply keeps_gets. intros k (_ & H & _). apply H. Qed.
Lemma kept_cur_pcb laid slots : keeps laid slots (gets (fun k => cur_pcb (k_proc k))) task_ok.
Proof. apply keeps_gets. intros k (_ & _ & H & _). apply H. Qed.
Lemma kept_cpu laid slots : keeps laid slots (gets k_cpu) cpu_ok.
Proof. apply keeps_gets. intros k (H & _). exact H. Qed.
Lemma kept_disp laid slots : keeps laid slots (gets k_disp) (disp_ok laid).
Proof. apply keeps_gets. intros k (_ & H & _). exact H. Qed.
Lemma kept_proc laid slots : keeps laid slots (gets k_proc) (proc_ok slots).
Proof. apply keeps_gets. intros k (_ & _ & H & _). exact H. Qed.
Lemma kept_pic laid slots : keeps laid slots (gets k_pic) pic_ok.
Proof. apply keeps_gets. intros k (_ & _ & _ & H & _). exact H. Qed.
Lemma kept_rtc laid slots : keeps laid slots (gets k_rtc) rtc_ok.
Proof. apply keeps_gets. intros k (_ & _ & _ & _ & H & _). exact H. Qed.
Lemma kept_mouse laid slots : keeps laid slots (gets k_mouse) pointer_ok.
Proof. apply keeps_gets. intros k (_ & _ & _ & _ & _ & H & _). exact H. Qed.
Lemma kept_numproc laid slots : keeps laid slots (gets (fun k => numproc (k_proc k))) word32.
Proof. apply keeps_gets. intros k (_ & _ & H & _). apply H. Qed.
#[export] Hint Resolve kept_vis kept_sched kept_get_vis kept_get_sched kept_color kept_cur_pcb kept_cpu kept_disp kept_proc kept_pic
  kept_rtc kept_mouse kept_numproc : keeps.

(** ** lib.c *)

Lemma kept_set_keyboard_pos laid slots i row col : kept laid slots (set_keyboard_pos i row col).
Proof. unfold set_keyboard_pos. keeps_auto. Qed.
Lemma kept_set_cursor_pos laid slots i row col : kept laid slots (set_cursor_pos i row col).
Proof. unfold set_cursor_pos. keeps_auto. Qed.
#[export] Hint Resolve kept_set_keyboard_pos kept_set_cursor_pos : keeps.
Lemma kept_scroll laid slots i : kept laid slots (scroll i).
Proof. unfold scroll. keeps_auto. Qed.
Lemma kept_put_cell laid slots i ch attrib : kept laid slots (put_cell i ch attrib).
Proof. unfold put_cell. keeps_auto. Qed.
Lemma kept_sync_pos laid slots i : kept laid slots (sync_pos i).
Proof. unfold sync_pos. keeps_auto. Qed.
#[export] Hint Resolve kept_scroll kept_put_cell kept_sync_pos : keeps.
Lemma kept_new_row laid slots i : kept laid slots (new_row i).
Proof. unfold new_row. keeps_auto. Qed.
Lemma kept_wrap_row laid slots i : kept laid slots (wrap_row i).
Proof. unfold wrap_row. keeps_auto. Qed.
#[export] Hint Resolve kept_new_row kept_wrap_row : keeps.
Lemma kept_putc laid slots i c : kept laid slots (putc i c).
Proof. unfold putc. keeps_auto. Qed.
Lemma kept_putc_color laid slots i c fg bg : kept laid slots (putc_color i c fg bg).
Proof. unfold putc_color. keeps_auto. Qed.
#[export] Hint Resolve kept_putc kept_putc_color : keeps.
Lemma kept_set_color laid slots fg bg : word8 fg -> word8 bg -> kept laid slots (set_color fg bg).
Proof. unfold set_color, attrib_of. intros. keeps_auto. Qed.
Lemma kept_puts laid slots i s : kept laid slots (puts i s).
Proof. apply (keeps_loop _ _ _ (fun _ => True)); [|done]. intros index _. keeps_auto. Qed.
Lemma kept_puts_color laid slots i s fg bg : kept laid slots (puts_color i s fg bg).
Proof.
  unfold puts_color. keeps_step. apply (keeps_loop _ _ _ (fun _ => True)); [|done]. intros index _. keeps_auto.
Qed.
Lemma kept_set_char laid slots c fg bg row col : kept laid slots (set_char c fg bg row col).
Proof. unfold set_char. keeps_auto. Qed.
Lemma kept_clear_screen laid slots : kept laid slots clear_screen.
Proof. unfold clear_screen. keeps_auto. Qed.
#[export] Hint Extern 1 (word8 _) => unfold word8; lia : keeps.
#[export] Hint Resolve kept_set_color kept_puts kept_puts_color kept_set_char kept_clear_screen : keeps.

Lemma kept_puts_sched laid slots s : kept laid slots (puts_sched s).
Proof. unfold puts_sched. keeps_auto. Qed.
Lemma kept_putc_sched laid slots c : kept laid slots (putc_sched c).
Proof. unfold putc_sched. keeps_auto. Qed.
Lemma kept_next_arg laid slots args : kept laid slots (next_arg args).
Proof. unfold next_arg. keeps_auto. Qed.
#[export] Hint Resolve kept_puts_sched kept_putc_sched kept_next_arg : keeps.
Lemma kept_put_conv laid slots c : kept laid slots (put_conv c).
Proof. unfold put_conv. keeps_auto. Qed.
#[export] Hint Resolve kept_put_conv : keeps.
Lemma kept_format_char laid slots fmt buf args : kept laid slots (format_char fmt buf args).
Proof. apply (keeps_loop _ _ _ (fun _ => True)); [|done]. intros [alternate b] _. keeps_auto. Qed.
#[export] Hint Resolve kept_format_char : keeps.
Lemma kept_printf laid slots fmt args : kept laid slots (printf fmt args).
Proof. apply (keeps_loop _ _ _ (fun _ => True)); [|done]. intros [b rest] _. keeps_auto. Qed.
#[export] Hint Resolve kept_printf : keeps.

(** ** i8259.c, paging.c, rtc.c *)

Lemma kept_undefined_irq laid slots msg irq : kept laid slots (undefined_irq msg irq).
Proof. unfold undefined_irq. keeps_auto. Qed.
#[export] Hint Resolve kept_undefined_irq : keeps.
Lemma kept_enable_irq laid slots irq : kept laid slots (enable_irq irq).
Proof. unfold enable_irq. keeps_auto. Qed.
Lemma kept_send_eoi laid slots irq : kept laid slots (send_eoi irq).
Proof. unfold send_eoi. keeps_auto. Qed.
#[export] Hint Resolve kept_enable_irq kept_send_eoi : keeps.
Lemma kept_i8259_init laid slots : kept laid slots i8259_init.
Proof. unfold i8259_init. keeps_auto. Qed.

Lemma kept_map_page laid slots phys virt size priv write remap : kept laid slots (map_page phys virt size priv write remap).
Proof. unfold map_page. keeps_auto. Qed.
Lemma kept_user_ptr laid slots p : kept laid slots (user_ptr p).
Proof. unfold user_ptr. keeps_auto. Qed.
Lemma kept_user_str laid slots p : kept laid slots (user_str p).
Proof. unfold user_str. apply keeps_bind with (fun _ => True); [apply kept_user_ptr|intros a _]. keeps_auto. Qed.
Lemma kept_flush_tlb laid slots : kept laid slots flush_tlb.
Proof. unfold flush_tlb. keeps_auto. Qed.
#[export] Hint Resolve kept_map_page kept_user_ptr kept_user_str kept_flush_tlb : keeps.

Lemma kept_set_int_freq laid slots freq : kept laid slots (set_int_freq freq).
Proof. unfold set_int_freq. keeps_auto. Qed.
#[export] Hint Resolve kept_set_int_freq : keeps.
Lemma kept_rtc_init laid slots : kept laid slots rtc_init.
Proof. unfold rtc_init. keeps_auto. Qed.
Lemma kept_rtc_interrupt laid slots : kept laid slots rtc_interrupt.
Proof. unfold rtc_interrupt. keeps_auto. Qed.
Lemma kept_rtc_open laid slots s : kept laid slots (rtc_open s).
Proof. unfold rtc_open. keeps_auto. Qed.
Lemma kept_rtc_read laid slots irqs fd buf n : Forall (fun h => kept laid slots h) irqs -> kept laid slots (rtc_read irqs fd buf n).
Proof.
  intros Hi. unfold rtc_read. keeps_auto. by apply keeps_wait.
Qed.
Lemma kept_rtc_write_freq laid slots freq n : kept laid slots (rtc_write_freq freq n).
Proof. unfold rtc_write_freq. keeps_auto. Qed.
#[export] Hint Resolve kept_rtc_init kept_rtc_interrupt kept_rtc_open kept_rtc_read kept_rtc_write_freq : keeps.
Lemma kept_rtc_write laid slots fd buf n : kept laid slots (rtc_write fd buf n).
Proof. unfold rtc_write. keeps_auto. Qed.
#[export] Hint Resolve kept_rtc_write : keeps.

(** ** file_system.c and pcb.c *)

Lemma dentry_at_inode m a : word32 (inode_num (dentry_at m a)).
Proof. apply rd32_range. Qed.

Lemma lookup_inode m fs fname r d : read_dentry_by_name m fs fname = Some (r, Some d) -> word32 (inode_num d).
Proof.
  unfold read_dentry_by_name. destruct (strlen fname) as [l|]; [|done]. destruct (_ <? l); [done|].
  destruct (run_loop _ _) as [o|] eqn:E; [|done]. cbn. intros ->.
  refine (run_loop_inv _ (fun _ => True) (fun o => forall r d, o = Some (r, Some d) -> word32 (inode_num d)) _ _ _ I E r d eq_refl).
  intros [pn i] _. unfold name_step. repeat case_match; try done; match goal with H : inr _ = inr _ |- _ => injection H as <- end;
    try done; intros ? ? [= <- <-]; apply dentry_at_inode.
Qed.

Lemma kept_close_file_desc laid slots p fd : kept laid slots (close_file_desc p fd).
Proof. unfold close_file_desc. keeps_auto. Qed.
#[export] Hint Resolve kept_close_file_desc : keeps.
Lemma kept_fsys_close_file laid slots fd : kept laid slots (fsys_close_file fd).
Proof. unfold fsys_close_file. keeps_auto. Qed.
Lemma kept_fsys_close_dir laid slots fd : kept laid slots (fsys_close_dir fd).
Proof. unfold fsys_close_dir. keeps_auto. Qed.
Lemma kept_rtc_close laid slots fd : kept laid slots (rtc_close fd).
Proof. unfold rtc_close. keeps_auto. Qed.
Lemma kept_fsys_read_file laid slots fd buf n : kept laid slots (fsys_read_file fd buf n).
Proof. unfold fsys_read_file. keeps_auto. Qed.
Lemma kept_fsys_read_dir laid slots fd buf n : kept laid slots (fsys_read_dir fd buf n).
Proof. unfold fsys_read_dir. keeps_auto. Qed.
#[export] Hint Resolve kept_fsys_close_file kept_fsys_close_dir kept_rtc_close kept_fsys_read_file kept_fsys_read_dir : keeps.

Lemma kept_op_open laid slots t open s : op_open t = Some open -> kept laid slots (open s).
Proof. destruct t; intros [= <-]; unfold fsys_open_dir, fsys_open_file; keeps_auto. Qed.
Lemma kept_op_close laid slots t close fd : op_close t = Some close -> kept laid slots (close fd).
Proof. destruct t; intros [= <-]; keeps_auto. Qed.
#[export] Hint Resolve kept_op_open kept_op_close : keeps.
Lemma kept_open_at laid slots blk i s : kept laid slots (open_at blk i s).
Proof.
  unfold open_at. keeps_auto. intros d [_ Hd]. subst. split; [by eapply lookup_inode|exact Hd].
Qed.
#[export] Hint Resolve kept_open_at : keeps.
Lemma kept_open_scan laid slots blk s n : forall i, kept laid slots (open_scan blk s n i).
Proof. induction n as [|n IH]; intros i; cbn [open_scan]; keeps_auto. Qed.
#[export] Hint Resolve kept_open_scan : keeps.
Lemma kept_open_file_desc laid slots blk s : kept laid slots (open_file_desc blk s).
Proof. unfold open_file_desc. keeps_auto. Qed.
#[export] Hint Resolve kept_open_file_desc : keeps.
Lemma kept_close_pcb laid slots blk : kept laid slots (close_pcb blk).
Proof. unfold close_pcb. keeps_auto. Qed.
#[export] Hint Resolve kept_close_pcb : keeps.

(** ** keyboard.c *)

Lemma arr_write_array n l i bs l' : array n l -> arr_write l i bs = Some l' -> array n l'.
Proof.
  intros [Hl Hb]. unfold arr_write. destruct (_ && _) eqn:E; [|done]. b2p. intros [= <-]. split.
  - rewrite !length_app, length_map, length_take, length_drop. lia.
  - apply Forall_app; split; [by apply Forall_take|]. apply Forall_app; split; [|by apply Forall_drop].
    apply Forall_map, Forall_true. intros b. apply u8_range.
Qed.

Lemma term_ok_wf t : term_ok t -> term_wf t.
Proof. intros (_ & _ & _ & _ & _ & _ & [H1 H2] & _ & H3 & H4 & H5 & _). exact (conj H1 (conj H2 (conj H3 (conj H4 H5)))). Qed.

Lemma kept_term_memory laid slots off : keeps laid slots (term_memory off) (fun bs => (length bs <= 4392)%nat).
Proof.
  unfold term_memory. keeps_step. keeps_step; [|keeps_auto]. apply keeps_mret. rewrite length_drop, length_terms.
  - destruct Hv as (-> & _). lia.
  - destruct Hv as (_ & F & _). eapply List.Forall_impl; [|exact F]. exact term_ok_wf.
Qed.

Lemma arr_strlen_length l n : arr_strlen l = Some n -> 0 <= n <= Z.of_nat (length l).
Proof.
  revert n. induction l as [|b l IH]; intros n; [done|]. cbn [arr_strlen length]. destruct (b =? 0); [intros [= <-]; lia|].
  destruct (arr_strlen l) as [m|]; [|done]. cbn. intros [= <-]. specialize (IH m eq_refl). lia.
Qed.
#[export] Hint Resolve kept_term_memory : keeps.

Lemma kept_strlen_at laid slots off : keeps laid slots (strlen_at off) (fun n => 0 <= n <= 4392).
Proof.
  unfold strlen_at. keeps_step. apply keeps_lift. intros n H%arr_strlen_length. lia.
Qed.
Lemma kept_bytes_at laid slots off n : kept laid slots (bytes_at off n).
Proof. unfold bytes_at. keeps_auto. Qed.
Lemma kept_write_key_buf laid slots i j bs : kept laid slots (write_key_buf i j bs).
Proof.
  unfold write_key_buf. keeps_auto. intros t Ht. assert (array 129 v0) as Ha.
  { apply (arr_write_array _ _ _ _ _) with (2 := Hv0). apply Hv. }
  solve_ok.
Qed.
Lemma kept_get_keymap laid slots c : kept laid slots (get_keymap c).
Proof. unfold get_keymap. keeps_auto. Qed.
#[export] Hint Resolve kept_strlen_at kept_bytes_at kept_write_key_buf kept_get_keymap : keeps.
Lemma kept_clear_buffer laid slots : kept laid slots clear_buffer.
Proof. unfold clear_buffer. keeps_auto. Qed.
Lemma kept_backspace laid slots i : kept laid slots (backspace i).
Proof. unfold backspace. keeps_auto. Qed.
#[export] Hint Resolve kept_clear_buffer kept_backspace : keeps.
Lemma kept_press_backspace laid slots : kept laid slots press_backspace.
Proof. unfold press_backspace. keeps_auto. Qed.
#[export] Hint Resolve kept_press_backspace : keeps.
Lemma kept_clear_cur_cmd laid slots : kept laid slots clear_cur_cmd.
Proof. unfold clear_cur_cmd. keeps_auto. Qed.
Lemma kept_enter_key laid slots i : kept laid slots (enter_key i).
Proof. unfold enter_key. keeps_auto. Qed.
Lemma kept_recall laid slots i off n h : 0 <= n <= 4392 -> word32 h -> kept laid slots (recall i off n h).
Proof. unfold recall. intros. keeps_auto. Qed.
Lemma word32_u32 z : word32 (u32 z).
Proof. apply u32_range. Qed.
#[export] Hint Resolve word32_u32 kept_clear_cur_cmd kept_enter_key kept_recall : keeps.

(** multi_term.c: every terminal keeps its own page. *)
Lemma kept_switch_screen laid slots j : 0 <= j < MAX_TERM_NUM -> kept laid slots (switch_screen j ;; upd_disp (set_vis_term_id j)).
Proof.
  intros Hj. apply keeps_wp. intros k (Hc & (D1 & D2 & D3 & D4 & D5 & D6 & D7 & D8) & Hrest).
  destruct (lookup_lt_is_Some_2 (terminals (k_disp k)) (Z.to_nat (vis_term_id (k_disp k)))) as [ti Hi]; [lia|].
  unfold switch_screen. wp_steps. eapply wp_upd_term; [lia|exact Hi|]. wp_steps. set (vis := vis_term_id (k_disp k)) in *.
  set (page := VIDEO_ADDR + (vis + 1) * FOUR_KB). cbn [k_disp set_k_disp terminals set_terminals].
  set (ts := <[Z.to_nat vis := set_vid_mem page ti]> (terminals (k_disp k))).
  assert (Forall term_ok ts) as F.
  { apply Forall_insert; [done|]. pose proof (Forall_lookup_1 _ _ _ _ D2 Hi) as T. unfold page. solve_ok. }
  destruct (lookup_lt_is_Some_2 ts (Z.to_nat j)) as [tj Htj]; [unfold ts; rewrite length_insert; lia|].
  eapply wp_get_term; [lia|apply list_lookup_insert_eq; lia|]. wp_steps. eapply wp_get_term; [lia|exact Htj|]. wp_steps.
  eapply wp_upd_term; [lia|exact Htj|]. wp_steps. split; [done|]. refine (conj Hc (conj _ Hrest)).
  unfold disp_ok. cbn. fold ts. refine (conj _ (conj _ (conj Hj (conj D4 (conj D5 (conj D6 (conj D7 _))))))).
  - unfold ts. by rewrite !length_insert.
  - apply Forall_insert; [done|]. pose proof (Forall_lookup_1 _ _ _ _ F Htj) as T. solve_ok.
  - intros L n t. specialize (D8 L). unfold page_of in *. intros [(<- & <- & _)|(Hn & Ht)]%list_lookup_insert_Some.
    + cbn. rewrite Z2Nat.id by lia. by rewrite Z.eqb_refl.
    + apply list_lookup_insert_Some in Ht as [(<- & <- & _)|(Hn' & Ht)].
      * cbn. rewrite Z2Nat.id by lia. destruct (Z.eqb_spec vis j) as [E|]; [by rewrite E in Hn|done].
      * rewrite (D8 n t Ht). fold vis. case_cmp; lia.
Qed.
Lemma kept_switch_terminal laid slots j : kept laid slots (switch_terminal j).
Proof.
  unfold switch_terminal, switch_keyboard_and_cursor_pos. keeps_step. keeps_step; [keeps_auto|]. keeps_step. b2p.
  apply keeps_both; [apply kept_switch_screen; lia|]. keeps_auto.
Qed.
#[export] Hint Resolve kept_switch_terminal : keeps.

Lemma kept_up_key laid slots i : kept laid slots (up_key i).
Proof. unfold up_key. keeps_auto. Qed.
Lemma kept_down_key laid slots i : kept laid slots (down_key i).
Proof. unfold down_key. keeps_auto. Qed.
Lemma kept_double_freq laid slots : kept laid slots double_freq.
Proof. unfold double_freq. keeps_auto. Qed.
Lemma kept_print_char laid slots i c : kept laid slots (print_char i c).
Proof. unfold print_char. keeps_auto. Qed.
#[export] Hint Resolve kept_up_key kept_down_key kept_double_freq kept_print_char : keeps.
Lemma kept_key_down laid slots i c : kept laid slots (key_down i c).
Proof. unfold key_down. keeps_auto. Qed.
Lemma kept_key_up laid slots c : kept laid slots (key_up c).
Proof. unfold key_up. keeps_auto. Qed.
#[export] Hint Resolve kept_key_down kept_key_up : keeps.
Lemma kept_process_input laid slots c : kept laid slots (process_input c).
Proof. unfold process_input. keeps_auto. Qed.
#[export] Hint Resolve kept_process_input : keeps.
Lemma kept_keyboard_interrupt laid slots : kept laid slots keyboard_interrupt.
Proof. unfold keyboard_interrupt. keeps_auto. Qed.
Lemma reads_term_memory off : reads (term_memory off) (fun _ _ => True).
Proof. intros k. unfold term_memory, mbind, M_bind, gets. by destruct (_ && _). Qed.
Lemma reads_strlen_at off : reads (strlen_at off) (fun _ _ => True).
Proof. eapply reads_bind; [apply reads_term_memory|]. intros bs k. by destruct (arr_strlen bs). Qed.
Lemma kept_add_to_history laid slots i : kept laid slots (add_to_history i).
Proof.
  apply keeps_intro. intros k Hk. unfold add_to_history. unfold get_vis.
  eapply wlp_reads; [apply reads_gets|]. intros vis _. eapply wlp_reads; [apply reads_get_term|]. intros t Ht.
  destruct (Z.leb_spec HIST_COM_NUM (hist_buf_index t)); [by split|].
  eapply wlp_reads; [apply reads_strlen_at|]. intros len _. cbv zeta.
  eapply wlp_reads; [apply reads_term_memory|]. intros command _. eapply wlp_reads; [apply reads_term_memory|]. intros last _.
  apply (wlp_reads _ _ _ _ (fun _ _ => True)); [destruct (c_true _); [by destruct (strncmp _ _ _)|done]|]. intros r _.
  apply wlp_bind. apply (wlp_mono _ _ _ (fun _ k' => True /\ kernel_ok laid slots k')).
  { intros [] k' [_ Hk']. revert k' Hk'. apply keeps_elim. keeps_auto. }
  destruct (c_true r); [|by split].
  eapply wlp_reads; [apply reads_lift|]. intros old Hold. eapply wlp_reads; [apply reads_lift|]. intros new Hnew.
  apply wlp_upd_term; [done|]. intros t' Ht' Ok. rewrite Ht in Ht'. injection Ht' as <-. split; [|done].
  assert (array 129 new) as Hn.
  { destruct (0 <=? _); [|done]. apply (arr_write_array _ _ _ _ _) with (2 := Hnew). destruct Ok as (_ & _ & _ & _ & _ & _ & _ & _ & _ & F & _).
    by apply (Forall_lookup_1 _ _ _ _ F Hold). }
  assert (length (<[Z.to_nat (hist_buf_index t):=new]> (hist_buf t)) = 10%nat) by (rewrite length_insert; apply Ok).
  assert (Forall (array 129) (<[Z.to_nat (hist_buf_index t):=new]> (hist_buf t))) by (apply Forall_insert; [apply Ok|done]).
  solve_ok.
Qed.
#[export] Hint Resolve kept_add_to_history : keeps.

(** ** terminal.c *)

Lemma kept_terminal_open laid slots s : kept laid slots (terminal_open s).
Proof. unfold terminal_open. keeps_auto. Qed.
Lemma kept_terminal_read laid slots irqs fd buf n : Forall (fun h => kept laid slots h) irqs -> kept laid slots (terminal_read irqs fd buf n).
Proof. intros Hi. unfold terminal_read. keeps_auto. by apply keeps_wait. Qed.
Lemma kept_terminal_write laid slots fd buf n : kept laid slots (terminal_write fd buf n).
Proof. unfold terminal_write. keeps_auto. Qed.
#[export] Hint Resolve kept_terminal_open kept_terminal_read kept_terminal_write : keeps.

(** ** syscalls.c: the calls on descriptors *)

Lemma kept_op_read laid slots irqs t read fd buf n : Forall (fun h => kept laid slots h) irqs -> op_read irqs t = Some read -> kept laid slots (read fd buf n).
Proof. intros Hi. destruct t; intros [= <-]; keeps_auto. Qed.
Lemma kept_op_write laid slots t write fd buf n : op_write t = Some write -> kept laid slots (write fd buf n).
Proof. destruct t; intros [= <-]; unfold fsys_write_dir, fsys_write_file; keeps_auto. Qed.
#[export] Hint Resolve kept_op_read kept_op_write : keeps.
Lemma kept_sys_read laid slots irqs fd buf n : Forall (fun h => kept laid slots h) irqs -> kept laid slots (sys_read irqs fd buf n).
Proof. intros Hi. unfold sys_read. keeps_auto. Qed.
Lemma kept_sys_write laid slots fd buf n : kept laid slots (sys_write fd buf n).
Proof. unfold sys_write. keeps_auto. Qed.
Lemma kept_sys_open laid slots s : kept laid slots (sys_open s).
Proof. unfold sys_open. keeps_auto. Qed.
Lemma kept_sys_close laid slots fd : kept laid slots (sys_close fd).
Proof. unfold sys_close. keeps_auto. Qed.
Lemma kept_sys_getargs laid slots buf n : kept laid slots (sys_getargs buf n).
Proof. unfold sys_getargs. keeps_auto. Qed.
Lemma kept_sys_vidmap laid slots p : kept laid slots (sys_vidmap p).
Proof. unfold sys_vidmap. keeps_auto. Qed.
#[export] Hint Resolve kept_sys_read kept_sys_write kept_sys_open kept_sys_close kept_sys_getargs kept_sys_vidmap : keeps.

(** ** Processes *)

Lemma task_ok_addr n : 0 <= n < MAX_PROCESSES -> task_ok (pcb_addr n).
Proof. intros H. right. by exists n. Qed.
Lemma block_task p b : block_ok p b -> task_ok p.
Proof. intros (H & -> & _). by apply task_ok_addr. Qed.
Lemma pcb_addr_inj m n : 0 <= m < MAX_PROCESSES -> 0 <= n < MAX_PROCESSES -> pcb_addr m = pcb_addr n -> m = n.
Proof. intros Hm Hn. unfold pcb_addr. rewrite !u32_small by lia. lia. Qed.
Lemma block_num p b b' : block_ok p b -> block_ok p b' -> pcb_num b = pcb_num b'.
Proof. intros (H & E & _) (H' & E' & _). apply pcb_addr_inj; [done..|]. by rewrite <- E, <- E'. Qed.

(** Six processes are all the bits of a bitmap below 64. *)
Lemma popcount_full st : 0 <= st < 64 -> our_popcount st = MAX_PROCESSES <-> st = 63.
Proof.
  intros Hs. assert (Bool.eqb (our_popcount st =? MAX_PROCESSES) (st =? 63) = true) as E%eqb_prop.
  { apply (forallb_range (fun st => Bool.eqb (our_popcount st =? MAX_PROCESSES) (st =? 63)) 0 64); [vm_compute; reflexivity|lia]. }
  rewrite <- !Z.eqb_eq. by rewrite E.
Qed.

Lemma array_zeros n : array n (replicate n 0).
Proof. split; [by rewrite length_replicate|]. by apply Forall_replicate. Qed.
Lemma zero_block n : 0 <= n < MAX_PROCESSES -> block_ok (pcb_addr n) (set_pcb_num n pcb_zero).
Proof.
  intros Hn. unfold block_ok. cbn -[replicate]. pose proof array_zeros.
  refine (conj Hn (conj eq_refl (conj eq_refl (conj _ _)))); [by repeat constructor|].
  split_and!; try done; by left.
Qed.

Lemma free_find_empty laid : from_free laid find_empty_pcb (fun n => 0 <= n < MAX_PROCESSES).
Proof.
  intros k (H1 & H2 & (P1 & P2 & P3 & P4) & H). destruct (free_slot (pcb_status (k_proc k))) as (j & Hj & Hb).
  { unfold slots_ok. lia. }
  { rewrite popcount_full; lia. }
  destruct (find_empty_pcb_first j k) as (off & Ho & _ & _ & E); [lia|lia|done|].
  unfold wlp. rewrite E. split; [lia|].
  refine (conj H1 (conj H2 (conj (conj P1 (conj P2 (conj _ P4))) H))). apply slots_ok_set; [unfold slots_ok; lia|lia].
Qed.

(** The block of a new process gets its number before anything else. *)
Lemma free_init_pcb laid : from_free laid init_pcb task_ok.
Proof.
  unfold init_pcb. eapply from_free_then; [apply free_find_empty|]. intros n Hn. cbn beta in *. pose proof (task_ok_addr n Hn) as T.
  apply keeps_both; [|keeps_auto; [|exact T]; pose proof (array_zeros 129); solve_ok].
  apply keeps_intro. intros k Hk. unfold upd_pcb, upd_proc.
  assert ((pcb_addr n =? 0) = false) as Hz by (apply Z.eqb_neq; unfold pcb_addr; rewrite u32_small; lia).
  unfold wlp, get_pcb, mbind, M_bind, gets, modify. rewrite Hz. cbn [k_proc set_k_proc pcbs set_pcbs]. rewrite lookup_insert_eq.
  cbn [lift mret M_ret]. split; [done|]. destruct Hk as (H1 & H2 & (P1 & P) & H).
  refine (conj H1 (conj H2 (conj (conj _ P) H))). cbn [k_proc set_k_proc pcbs set_pcbs]. rewrite insert_insert_eq.
  apply map_Forall_insert_2; [|done]. destruct (pcbs (k_proc k) !! pcb_addr n) as [b|] eqn:E; [|by apply zero_block].
  pose proof (P1 _ _ E) as B. assert (pcb_num b = n) as En by (apply pcb_addr_inj; [apply B|done|symmetry; apply B]).
  cbn [default]. unfold block_ok, frame_of in *. cbn. rewrite En in B. exact B.
Qed.

(** *** execute *)

Lemma copy_arg_array command l i a : array 129 l -> copy_arg command l i = Some (Some a) -> array 129 a.
Proof.
  intros Hl E. refine (run_loop_inv _ (fun '(l, _, _) => array 129 l) (fun o => forall a, o = Some a -> array 129 a) _ (l, i, 0) _ Hl E a eq_refl).
  intros [[l1 i1] j1] H1. destruct (negb _).
  - destruct (arr_write l1 j1 _) as [l2|] eqn:E2; [|done]. by eapply arr_write_array.
  - intros a1 E1. by eapply arr_write_array.
Qed.

Lemma name_array m a : array 33 (map (fun i => rd m (a + i)) (seqZ 0 33)).
Proof. split; [done|]. apply Forall_map, Forall_true. intros i. apply rd_range. Qed.

Lemma free_exec_pcb laid f command i : from_free laid (exec_pcb f command i) task_ok.
Proof.
  unfold exec_pcb. eapply from_free_then; [apply free_init_pcb|]. intros p Hp. cbn beta in *. keeps_auto.
  - pose proof (array_zeros 33). solve_ok.
  - pose proof (name_array v0 (cmd f)). solve_ok.
  - subst. assert (array 129 v5) by (eapply copy_arg_array; [|eassumption]; apply Hv0). solve_ok.
  - exact Hp.
Qed.

Lemma frame_of_u32 n : 0 <= n < MAX_PROCESSES -> u32 (PROGRAM_1_PHYS + n * FOUR_MB) = frame_of n.
Proof. unfold frame_of. intros H. apply u32_small. lia. Qed.

Lemma kept_exec_map laid slots p : kept laid slots (exec_map p).
Proof.
  unfold exec_map. keeps_auto.
  - intros b B. destruct Hv as [_ B0]. rewrite (block_num p v b B0 B), frame_of_u32 by apply B.
    unfold block_ok in *. cbn. intuition.
  - intros b B. assert (task_ok 0) by by left. solve_ok.
Qed.

Lemma kept_exec_switch laid slots p : task_ok p -> kept laid slots (exec_switch p).
Proof.
  unfold exec_switch. intros Hp. keeps_auto.
Qed.
Lemma kept_exec_load laid slots f d : kept laid slots (exec_load f d).
Proof. unfold exec_load. keeps_auto. Qed.
#[export] Hint Resolve kept_exec_map kept_exec_switch kept_exec_load : keeps.

Lemma free_exec_file laid f command i : from_free laid (exec_file f command i) (fun _ => True).
Proof.
  unfold exec_file. do 2 (eapply from_free_bind; [keeps_head|keeps_next]).
  eapply from_free_bind; [keeps_head|]. intros [r d] _. destruct (r =? -1); [apply keeps_from_free; keeps_auto|].
  eapply from_free_bind; [keeps_head|]. intros e _.
  eapply from_free_then; [apply free_exec_pcb|]. intros p Hp. cbn beta in *. keeps_auto.
Qed.

(** sys_execute checks for a free slot before it takes one. *)
Lemma kept_sys_execute laid f command : kept laid 64 (sys_execute f command).
Proof.
  unfold sys_execute. keeps_step. apply keeps_intro. intros k Hk. eapply wlp_reads; [apply reads_gets|]. intros st ->.
  destruct (Z.eqb_spec (our_popcount (pcb_status (k_proc k))) MAX_PROCESSES) as [E|E].
  - revert k Hk E. intros k Hk _. revert k Hk. apply keeps_elim. keeps_auto.
  - assert (kernel_ok laid 63 k) as Hf.
    { destruct Hk as (H1 & H2 & (P1 & P2 & P3 & P4) & H). rewrite popcount_full in E by done.
      refine (conj H1 (conj H2 (conj (conj P1 (conj P2 (conj _ P4))) H))). lia. }
    revert k Hf Hk E. intros k Hf _ _. revert k Hf. change (from_free laid (
      i ← lift Diverges (skip_spaces command 0); m ← gets k_mem;
      '(m, i) ← lift Diverges (copy_cmd command (cmd f) m i); upd_mem (fun _ => m) ;; exec_file f command i) (fun _ => True)).
    do 2 (eapply from_free_bind; [keeps_head|keeps_next]). eapply from_free_bind; [keeps_head|]. intros [m i] _.
    eapply from_free_bind; [keeps_head|keeps_next]. apply free_exec_file.
Qed.
#[export] Hint Resolve kept_sys_execute : keeps.

(** *** halt *)

Lemma land_below a b n : 0 <= a < n -> 0 <= Z.land a b < n.
Proof.
  intros Ha. assert (0 <= Z.land a b) by (apply Z.land_nonneg; lia). split; [done|].
  assert (0 <= Z.ldiff a b) by (rewrite Z.ldiff_land; apply Z.land_nonneg; lia).
  pose proof (Z.add_lor_land (Z.ldiff a b) (Z.land a b)) as E. rewrite Z.lor_ldiff_and in E.
  assert (Z.land (Z.ldiff a b) (Z.land a b) = 0) as E0 by (by rewrite (Z.land_comm a b), Z.land_assoc, Z.land_ldiff).
  lia.
Qed.

Lemma kept_we_are_done laid slots eax : kept laid slots (we_are_done eax).
Proof. unfold we_are_done. keeps_auto. Qed.
#[export] Hint Resolve kept_we_are_done : keeps.
Lemma kept_sys_halt laid f status : kept laid 64 (sys_halt f status).
Proof.
  unfold sys_halt. keeps_auto. intros p (P1 & P2 & P3 & P4). refine (conj P1 (conj P2 (conj _ P4))). by apply land_below.
Qed.
#[export] Hint Resolve kept_sys_halt : keeps.

(** ** Entries from user mode *)

Lemma kept_syscall laid f irqs eax ebx ecx edx : Forall (fun h => kept laid 64 h) irqs ->
  kept laid 64 (syscall f irqs eax ebx ecx edx).
Proof. intros Hi. unfold syscall, returns, sys_set_handler, sys_sigreturn. keeps_auto. Qed.

Lemma kept_switch_tasks laid f j : 0 <= j < MAX_TERM_NUM -> kept laid 64 (switch_tasks f j).
Proof. intros Hj. unfold switch_tasks. keeps_auto. Qed.
#[export] Hint Resolve kept_switch_tasks : keeps.
Lemma kept_pit_interrupt laid f : kept laid 64 (pit_interrupt f).
Proof. unfold pit_interrupt. keeps_auto. apply kept_switch_tasks. zlia. Qed.

Lemma kept_print_message laid f msg : kept laid 64 (PRINT_MESSAGE f msg).
Proof. unfold PRINT_MESSAGE. keeps_auto. Qed.
Lemma kept_page_fault laid cr2 f : kept laid 64 (page_fault cr2 f).
Proof. unfold page_fault. keeps_auto. Qed.
Lemma kept_exception laid cr2 w h f : exception_of cr2 w = Some h -> kept laid 64 (h f).
Proof. destruct w; intros [= <-]; first [apply kept_print_message | apply kept_page_fault]. Qed.

(** ** mouse.c *)

Lemma kept_upd_mouse laid slots f : (forall o, pointer_ok o -> pointer_ok (f o)) -> kept laid slots (upd_mouse f).
Proof.
  intros H. apply keeps_modify. unfold kernel_ok. intros k (? & ? & ? & ? & ? & ? & ?). split_and!; try done. by apply H.
Qed.
Lemma kept_get_char laid slots row col : keeps laid slots (get_char row col) word8.
Proof. apply keeps_gets. intros k _. apply rd_range. Qed.
#[export] Hint Resolve kept_get_char : keeps.
Lemma kept_mouse_packet laid slots b0 b1 b2 : kept laid slots (mouse_packet b0 b1 b2).
Proof.
  unfold mouse_packet. keeps_auto; apply kept_upd_mouse; try solve [solve_ok].
  - intros o Ho. destruct (move_step b2 (x_neg o) NUM_COLS (mouse_x_pos o)) as [_ H]; [lia|apply Ho|]. solve_ok.
  - intros o Ho. destruct (move_step b0 (y_neg o) NUM_ROWS (mouse_y_pos o)) as [_ H]; [lia|apply Ho|]. solve_ok.
Qed.
#[export] Hint Resolve kept_mouse_packet : keeps.

Lemma arr_write_fits l i bs l' : arr_write l i bs = Some l' -> 0 <= i /\ i + Z.of_nat (length bs) <= Z.of_nat (length l).
Proof. unfold arr_write. destruct (_ && _) eqn:E; [|done]. b2p. lia. Qed.

Lemma kept_mouse_interrupt laid slots : kept laid slots mouse_interrupt.
Proof.
  unfold mouse_interrupt. keeps_auto; apply kept_upd_mouse.
  - pose proof (arr_write_array 3 _ _ _ _ (proj1 (proj2 Hv0)) Hv1). solve_ok.
  - apply arr_write_fits in Hv1. destruct Hv0 as (_ & [L _] & _). rewrite L in Hv1. cbn in Hv1. solve_ok.
  - solve_ok.
Qed.

(** ** Initialisation *)

Lemma kept_set_vector laid slots idt i d : kept laid slots (set_vector idt i d).
Proof. unfold set_vector. keeps_auto. Qed.
#[export] Hint Resolve kept_set_vector : keeps.
Lemma kept_idt_init laid slots addr idt e1 e2 : word32 idt -> kept laid slots (idt_init addr idt e1 e2).
Proof. intros Hi. unfold idt_init. keeps_auto. Qed.
Lemma kept_mouse_wait laid slots b : kept laid slots (mouse_wait b).
Proof. unfold mouse_wait. apply (keeps_loop _ _ _ (fun _ => True)); [|done]. intros n _. keeps_auto. Qed.
#[export] Hint Resolve kept_mouse_wait : keeps.
Lemma kept_mouse_read laid slots : kept laid slots mouse_read.
Proof. unfold mouse_read. keeps_auto. Qed.
Lemma kept_mouse_write laid slots v : kept laid slots (mouse_write v).
Proof. unfold mouse_write. keeps_auto. Qed.
#[export] Hint Resolve kept_mouse_read kept_mouse_write : keeps.
Lemma kept_mouse_init laid slots : kept laid slots mouse_init.
Proof. unfold mouse_init. keeps_auto. Qed.

Lemma word32_lor a b : word32 a -> word32 b -> word32 (Z.lor a b).
Proof.
  unfold word32. intros Ha Hb. split; [apply Z.lor_nonneg; lia|]. change W32 with (2 ^ 32) in *.
  rewrite <- (Z.mod_small a (2 ^ 32)), <- (Z.mod_small b (2 ^ 32)) by lia.
  rewrite <- !Z.land_ones, <- Z.land_lor_distr_l, Z.land_ones by lia. by apply Z.mod_pos_bound.
Qed.

Lemma kept_paging_init laid slots p : word32 p -> kept laid slots (paging_init p).
Proof.
  intros Hp. unfold paging_init. keeps_auto; intros c Hc.
  - assert (word32 (Z.lor (cr4 c) 0x90)) by (apply word32_lor; [apply Hc|by split]). solve_ok.
  - assert (word32 (Z.lor (cr0 c) 0x80000000)) by (apply word32_lor; [apply Hc|by split]). solve_ok.
Qed.
Lemma kept_pit_init laid slots : kept laid slots pit_init.
Proof. unfold pit_init, set_pit_freq. keeps_auto. Qed.

(** Before it, no terminal has a page. *)
Lemma kept_multi_term_init slots : kept false slots multi_term_init.
Proof.
  unfold multi_term_init. keeps_auto.
  - intros t Ht. assert (word32 (if i =? 0 then VIDEO_ADDR else VIDEO_ADDR + (i + 1) * FOUR_KB)) by (unfold word32; case_if; lia). solve_ok.
  - intros t Ht. assert (task_ok 0) by by left. solve_ok.
Qed.
#[export] Hint Resolve kept_i8259_init kept_idt_init kept_mouse_init kept_rtc_init kept_paging_init kept_pit_init kept_multi_term_init : keeps.
