(* ===== verification/Reach.v ===== *)
(** * The states the machine can reach

    After initialisation the kernel is entered by system calls with any arguments,
    by the interrupts of the devices, by the timer and by exceptions, in any order;
    in between, programs run and leave any memory and any stack registers behind.
    Every state that is reached has the types of WellFormed.v, and so processes and
    terminals stay apart. *)

From Stdlib Require Import ZArith Lia String.
From stdpp Require Import gmap list numbers strings relations.
From S2P Require Import Prelude Memory LibString State Display I8259 Paging Pcb Rtc FileSystem Vfs MultiTerm Keyboard Terminal Syscalls Execute Timer Mouse Idt Kernel Boot WellFormed Keeps.

(** ** The machine as a state machine *)

(** The handlers of the device lines. *)
Inductive device_irq : M unit -> Prop :=
  | irq_keyboard : device_irq keyboard_interrupt
  | irq_rtc : device_irq rtc_interrupt
  | irq_mouse : device_irq mouse_interrupt.

(** What a program leaves: memory, and the stack registers its next entry saves. *)
Definition user_ran (m : memory) (sp bp : Z) (k : kernel) : kernel :=
  set_k_cpu (set_reg_ebp bp (set_reg_esp sp (k_cpu k))) (set_k_mem m k).

(** One entry into the kernel, or some user code.  A call whose wait is not over
    ([step_waits]) leaves the machine to the others. *)
Inductive step (f : frame) (k : kernel) : kernel -> Prop :=
  | step_user m sp bp : word32 sp -> word32 bp -> step f k (user_ran m sp bp k)
  | step_syscall irqs eax ebx ecx edx c k' :
      Forall device_irq irqs -> syscall f irqs eax ebx ecx edx k = Ret c k' -> step f k k'
  | step_waits irqs eax ebx ecx edx k' :
      Forall device_irq irqs -> syscall f irqs eax ebx ecx edx k = Spin k' -> step f k k'
  | step_device h k' : device_irq h -> interrupt h k = Ret tt k' -> step f k k'
  | step_tick c k' : pit_interrupt f k = Ret c k' -> step f k k'
  | step_exception cr2 w handler c k' :
      exception_of cr2 w = Some handler -> handler f k = Ret c k' -> step f k k'.

Lemma device_keeps laid slots h : device_irq h -> keeps laid slots h (fun _ => True).
Proof. intros []; [apply kept_keyboard_interrupt|apply kept_rtc_interrupt|apply kept_mouse_interrupt]. Qed.

Lemma devices_keep laid slots irqs : Forall device_irq irqs -> Forall (fun h => keeps laid slots h (fun _ => True)) irqs.
Proof. intros F. eapply List.Forall_impl; [|exact F]. intros h. apply device_keeps. Qed.

Lemma kept_ret {A} laid slots (c : M A) k a k' : keeps laid slots c (fun _ => True) -> kernel_ok laid slots k ->
  c k = Ret a k' -> kernel_ok laid slots k'.
Proof. intros Hc Hk E. specialize (Hc k Hk). unfold wlp in Hc. rewrite E in Hc. apply Hc. Qed.

Lemma wp_ret_elim {A} (c : M A) (Q : A -> kernel -> Prop) k a k' : wp c Q k -> c k = Ret a k' -> Q a k'.
Proof. unfold wp. intros W E. by rewrite E in W. Qed.

Lemma kept_spin {A} laid slots (c : M A) k k' : keeps laid slots c (fun _ => True) -> kernel_ok laid slots k ->
  c k = Spin k' -> kernel_ok laid slots k'.
Proof. intros Hc Hk E. specialize (Hc k Hk). unfold wlp in Hc. by rewrite E in Hc. Qed.

Lemma step_keeps laid f k k' : step f k k' -> kernel_ok laid 64 k -> kernel_ok laid 64 k'.
Proof.
  intros [m sp bp Hs Hb|irqs eax ebx ecx edx c k1 Hi E|irqs eax ebx ecx edx k1 Hi E|h k1 Hh E|c k1 E|cr2 w h c k1 Hw E] Hk.
  - solve_ok.
  - eapply kept_ret; [|exact Hk|exact E]. apply kept_syscall. by apply devices_keep.
  - eapply kept_spin; [|exact Hk|exact E]. apply kept_syscall. by apply devices_keep.
  - eapply kept_ret; [|exact Hk|exact E]. apply keeps_interrupt. by apply device_keeps.
  - eapply kept_ret; [|exact Hk|exact E]. apply kept_pit_interrupt.
  - eapply kept_ret; [|exact Hk|exact E]. by eapply kept_exception.
Qed.

Lemma reachable_ok laid f k k' : rtc (step f) k k' -> kernel_ok laid 64 k -> kernel_ok laid 64 k'.
Proof. induction 1 as [|k k1 k2 H1 _ IH]; [done|]. intros Hk. apply IH. by eapply step_keeps. Qed.

(** ** The state initialisation leaves *)

Lemma boot_term_ok : term_ok term_boot.
Proof.
  unfold term_ok, term_boot, word8, word32. cbn -[replicate]. pose proof array_zeros.
  assert (Forall (array 129) (replicate 10 (replicate 129 0))) by (by apply Forall_replicate).
  split_and!; try done; by left.
Qed.

Lemma boot_kernel_ok dev m fs pd : word32 fs -> word32 pd -> kernel_ok false 64 (kernel_boot dev m fs pd).
Proof.
  intros Hfs Hpd. unfold kernel_ok. refine (conj _ (conj _ (conj _ (conj _ (conj _ (conj _ Hfs)))))); try done.
  - unfold disp_ok. cbn -[replicate]. unfold word8. split_and!; try done. apply Forall_replicate, boot_term_ok.
  - unfold proc_ok. cbn. refine (conj _ (conj _ (conj _ _))); [apply map_Forall_empty|by left|lia|done].
  - unfold pointer_ok. cbn. split_and!; try done. by repeat constructor.
Qed.

Lemma init_kept L e1 e2 : link_ok L -> keeps false 64 (init_devices L e1 e2) (fun _ => True).
Proof.
  intros (_ & Hi1 & Hi2 & Hd1 & Hd2 & _). unfold init_devices, keyboard_init.
  assert (word32 (l_idt L)) by (unfold word32; lia). assert (word32 (l_page_directory L)) by (unfold word32; lia).
  keeps_auto.
Qed.

(** With its terminals laid out. *)
Lemma laid_ok slots k : kernel_ok false slots k -> term_layout k -> kernel_ok true slots k.
Proof.
  intros (H1 & (D1 & D2 & D3 & D4 & D5 & D6 & D7 & _) & H) (_ & _ & Lay).
  refine (conj H1 (conj (conj D1 (conj D2 (conj D3 (conj D4 (conj D5 (conj D6 (conj D7 _))))))) H)).
  intros _ i t Hi. pose proof (lookup_lt_Some _ _ _ Hi). rewrite <- (Nat2Z.id i) in Hi.
  destruct (Lay (Z.of_nat i) t ltac:(lia) Hi) as [E _]. exact E.
Qed.

Lemma init_ok L e1 e2 dev m fs pd k : link_ok L -> desc_ok e1 -> desc_ok e2 -> word32 fs -> word32 pd ->
  init_devices L e1 e2 (kernel_boot dev m fs pd) = Ret tt k -> kernel_ok true 64 k.
Proof.
  intros HL H1 H2 Hfs Hpd E. apply laid_ok.
  - exact (kept_ret false 64 (init_devices L e1 e2) _ tt k (init_kept L e1 e2 HL) (boot_kernel_ok dev m fs pd Hfs Hpd) E).
  - pose proof (init_devices_boots L (kernel_boot dev m fs pd) HL eq_refl eq_refl eq_refl e1 e2 H1 H2) as W.
    destruct (wp_ret_elim _ _ _ _ _ W E) as (_ & _ & (Lay & _) & _). exact Lay.
Qed.

(** ** What is apart *)

Lemma blocks_apart m n : 0 <= m < MAX_PROCESSES -> 0 <= n < MAX_PROCESSES -> pcb_addr m <> pcb_addr n ->
  apart (pcb_addr m) PCB_PLUS_STACK (pcb_addr n) PCB_PLUS_STACK /\ apart (frame_of m) FOUR_MB (frame_of n) FOUR_MB.
Proof.
  intros Hm Hn Hne. assert (m <> n) by congruence. unfold apart, frame_of. rewrite !pcb_addr_eq by lia. lia.
Qed.

Lemma pages_apart vis i j : 0 <= vis < MAX_TERM_NUM -> 0 <= i < MAX_TERM_NUM -> 0 <= j < MAX_TERM_NUM -> i <> j ->
  apart (page_of vis i) FOUR_KB (page_of vis j) FOUR_KB.
Proof. intros Hv Hi Hj Hne. unfold apart, page_of. case_cmp; lia. Qed.

(** The blocks, the kernel stacks and the frames of the processes, and the pages of
    the terminals. *)
Definition isolated (k : kernel) : Prop :=
  (forall p b, pcbs (k_proc k) !! p = Some b ->
     END_OF_KERNEL_PAGE - MAX_PROCESSES * PCB_PLUS_STACK <= p /\ p + PCB_PLUS_STACK <= END_OF_KERNEL_PAGE /\
     (page_addr b <> 0 -> PROGRAM_1_PHYS <= page_addr b /\ page_addr b + FOUR_MB <= PROGRAM_1_PHYS + MAX_PROCESSES * FOUR_MB)) /\
  (forall p b q c, pcbs (k_proc k) !! p = Some b -> pcbs (k_proc k) !! q = Some c -> p <> q ->
     apart p PCB_PLUS_STACK q PCB_PLUS_STACK /\
     (page_addr b <> 0 -> page_addr c <> 0 -> apart (page_addr b) FOUR_MB (page_addr c) FOUR_MB)) /\
  (forall i j t u, i <> j -> terminals (k_disp k) !! i = Some t -> terminals (k_disp k) !! j = Some u ->
     apart (vid_mem t) FOUR_KB (vid_mem u) FOUR_KB).

Lemma ok_isolated k : kernel_ok true 64 k -> isolated k.
Proof.
  intros (_ & (D1 & _ & D3 & _ & _ & _ & _ & D8) & (P & _) & _). specialize (D8 eq_refl). split_and!.
  - intros p b Hb. destruct (P p b Hb) as (Hn & E & _ & _ & _ & _ & _ & Hp & _). rewrite E, pcb_addr_eq by lia.
    unfold frame_of in Hp. lia.
  - intros p b q c Hb Hc Hne. destruct (P p b Hb) as (Hn & -> & _ & _ & _ & _ & _ & Hp & _).
    destruct (P q c Hc) as (Hm & -> & _ & _ & _ & _ & _ & Hq & _). destruct (blocks_apart _ _ Hn Hm Hne) as [A1 A2].
    split; [exact A1|]. intros Z1 Z2. destruct Hp as [| ->]; [done|]. by destruct Hq as [| ->].
  - intros i j t u Hne Ht Hu. rewrite (D8 i t Ht), (D8 j u Hu).
    pose proof (lookup_lt_Some _ _ _ Ht). pose proof (lookup_lt_Some _ _ _ Hu). apply pages_apart; [done|lia..].
Qed.

(** ** Properties *)



(** ** Witnesses *)

Lemma init_runs L e1 e2 k : link_ok L -> desc_ok e1 -> desc_ok e2 -> length (terminals (k_disp k)) = 3%nat ->
  vis_term_id (k_disp k) = 0 -> sched_term_id (k_disp k) = 0 -> exists k0, init_devices L e1 e2 k = Ret tt k0.
Proof.
  intros HL H1 H2 H3 H4 H5. pose proof (init_devices_boots L k HL H3 H4 H5 e1 e2 H1 H2) as W.
  destruct (proj1 (wp_ret_iff _ _ _) W) as ([] & k0 & E & _). by exists k0.
Qed.
Lemma clock_runs k0 : exists k, interrupt rtc_interrupt k0 = Ret tt k.
Proof. by eexists. Qed.

(** The demonstration machine of Boot.v, and one interrupt of the clock. *)
Lemma demo_run : exists k0 k, init_devices demo_link demo_desc demo_desc demo_boot = Ret tt k0 /\
  interrupt rtc_interrupt k0 = Ret tt k /\ rtc (step demo_frame) k0 k.
Proof.
  destruct (init_runs demo_link demo_desc demo_desc demo_boot demo_link_ok demo_desc_ok demo_desc_ok eq_refl eq_refl eq_refl) as [k0 E].
  exists k0. destruct (clock_runs k0) as [k Ek]. exists k. refine (conj E (conj Ek _)). apply rtc_once.
  exact (step_device _ _ rtc_interrupt k irq_rtc Ek).
Qed.


