(* ===== verification/UserLib.v ===== *)
(** * The library of the user programs (syscalls/ece391support.c, ece391syscall.S)

    The string functions of the programs and the stubs of the system calls.  A stub
    loads the registers and raises interrupt 0x80: it is the kernel's [syscall]. *)

From Stdlib Require Import ZArith Lia String.
From stdpp Require Import gmap list numbers strings.
From S2P Require Import Prelude Memory LibString State Syscalls.

(** ** Strings *)

Definition ece391_strlen (s : Z -> Z) : option Z :=
  run_loop (fun len => if negb (0 =? s len) then inl (u32 (len + 1)) else inr len) 0.

Definition ece391_strcpy (m : memory) (dst src : Z) : option memory :=
  run_loop (fun '(m, i) =>
    let c := rd m (src + i) in
    let m := wr m (dst + i) c in
    if negb (0 =? c) then inl (m, u32 (i + 1)) else inr m) (m, 0).

(** The characters are unsigned. *)
Definition ece391_strcmp (s1 s2 : Z -> Z) : option Z :=
  run_loop (fun i =>
    if s1 i =? s2 i then
      if s1 i =? 0 then inr 0 else inl (u32 (i + 1))
    else inr (s1 i - s2 i)) 0.

Definition ece391_strncmp (s1 s2 : Z -> Z) (n : Z) : option Z :=
  if 0 =? n then Some 0 else
  run_loop (fun '(i, n) =>
    if s1 i =? s2 i then
      if (s1 i =? 0) || (u32 (n - 1) =? 0) then inr 0 else inl (u32 (i + 1), u32 (n - 1))
    else inr (s1 i - s2 i)) (0, n).

Definition ece391_strrev (m : memory) (s : Z) : option memory :=
  match ece391_strlen (at_ m s) with
  | None => None
  | Some len =>
      let fin := i32 (len - 1) in
      if fin <=? 0 then Some m else
      run_loop (fun '(m, beg, fin) =>
        if beg <? fin then
          let tmp := rd m (s + fin) in
          let m := wr m (s + fin) (rd m (s + beg)) in
          let m := wr m (s + beg) tmp in
          inl (m, beg + 1, fin - 1)
        else inr m) (m, 0, fin)
  end.

Definition ece391_itoa (m : memory) (value buf radix : Z) : option memory :=
  if value =? 0 then Some (wr (wr m buf 48) (buf + 1) 0)
  else if u32 radix =? 0 then None
  else
    match run_loop (fun '(m, newbuf, newval) =>
      if 0 <? newval then
        match lookup_digits !! Z.to_nat (newval mod u32 radix) with
        | None => inr None
        | Some d => inl (wr m newbuf d, u32 (newbuf + 1), newval / u32 radix)
        end
      else inr (Some (wr m newbuf 0))) (m, buf, value) with
    | Some (Some m) => ece391_strrev m buf
    | _ => None
    end.

(** ** System calls *)

Section calls.
(** [f]: the arrays of the kernel's sys_execute; [child]: what the program entered by
    execute does until its halt resumes the caller. *)
Context (f : frame) (child : Z -> Z -> M Z).

(** [irqs]: the interrupts that arrive while the call waits. *)
Definition DO_CALL (irqs : list (M unit)) (number ebx ecx edx : Z) : M Z :=
  c ← syscall f irqs number (u32 ebx) (u32 ecx) (u32 edx);
  match c with Back eax => mret eax | User eip esp => child eip esp end.

Definition ece391_execute (command : Z) : M Z := DO_CALL [] 2 command 0 0.
Definition ece391_read (irqs : list (M unit)) (fd buf nbytes : Z) : M Z := DO_CALL irqs 3 fd buf nbytes.
Definition ece391_write (fd buf nbytes : Z) : M Z := DO_CALL [] 4 fd buf nbytes.
Definition ece391_open (filename : Z) : M Z := DO_CALL [] 5 filename 0 0.
Definition ece391_close (fd : Z) : M Z := DO_CALL [] 6 fd 0 0.
Definition ece391_getargs (buf nbytes : Z) : M Z := DO_CALL [] 7 buf nbytes 0.
Definition ece391_vidmap (screen_start : Z) : M Z := DO_CALL [] 8 screen_start 0 0.
Definition ece391_set_handler (signum handler : Z) : M Z := DO_CALL [] 9 signum handler 0.
(** It has no arguments: the stub passes on what it finds on the stack. *)
Definition ece391_sigreturn (ebx ecx edx : Z) : M Z := DO_CALL [] 10 ebx ecx edx.

Definition ece391_fdputs (fd s : Z) : M unit :=
  str ← user_str s;
  len ← lift Diverges (ece391_strlen str);
  ece391_write fd s len ;; skip.
End calls.

(** call_sys of ece391syserr.c: the number is all it loads. *)
Definition call_sys (f : frame) (child : Z -> Z -> M Z) (ebx ecx edx num : Z) : M Z := DO_CALL f child [] (u32 num) ebx ecx edx.

(** Loads and stores of a program. *)
Definition load (p : Z) : M Z := a ← user_ptr p; m ← gets k_mem; mret (rd m a).
Definition store (p v : Z) : M unit := a ← user_ptr p; upd_mem (fun m => wr m a v).
Definition load32 (p : Z) : M Z := a ← user_ptr p; m ← gets k_mem; mret (rd32 m a).
Definition store32 (p v : Z) : M unit := a ← user_ptr p; upd_mem (fun m => wr32 m a v).

(** _start: the value of main is the status of the process. *)
Definition start (f : frame) (main : M Z) : M control := eax ← main; syscall f [] 1 (u32 eax) 0 0.

(** ** The string functions are the kernel's *)

Lemma run_loop_ext {S R} (b1 b2 : S -> S + R) s : (forall s, b1 s = b2 s) -> run_loop b1 s = run_loop b2 s.
Proof.
  intros H. unfold run_loop. assert (forall d s, loop d b1 s = loop d b2 s) as ->; [|done].
  induction d as [|d IH]; intros s'; cbn [loop]; [apply H|]. rewrite IH. by destruct (loop d b2 s').
Qed.

Lemma ece391_strlen_eq s : ece391_strlen s = strlen s.
Proof. apply run_loop_ext. intros len. rewrite Z.eqb_sym. by destruct (s len =? 0). Qed.

(** A loop whose first step leaves. *)
Lemma run_loop_now {S R} (body : S -> S + R) s r : body s = inr r -> run_loop body s = Some r.
Proof.
  intros H. unfold run_loop. assert (forall d, loop d body s = inr r) as ->; [|done].
  induction d as [|d IH]; cbn [loop]; [done|]. by rewrite IH.
Qed.

Lemma ece391_strrev_eq m s : ece391_strrev m s = strrev m s.
Proof.
  unfold ece391_strrev, strrev. rewrite ece391_strlen_eq. destruct (strlen (at_ m s)) as [len|]; [|done]. cbv zeta.
  destruct (Z.leb_spec (i32 (len - 1)) 0); [|done]. symmetry. apply run_loop_now. cbn beta iota.
  by rewrite (proj2 (Z.ltb_ge _ _)) by lia.
Qed.

Lemma ece391_itoa_eq m value buf radix : ece391_itoa m value buf radix = itoa m value buf radix.
Proof.
  unfold ece391_itoa, itoa. destruct (value =? 0); [done|]. destruct (u32 radix =? 0); [done|].
  destruct (run_loop _ _) as [[m'|]|]; [|done|done]. apply ece391_strrev_eq.
Qed.

Section compare.
Context (s1 s2 : Z -> Z).

(** strcmp ends at the end of either string, and is 0 exactly when they are equal. *)
Lemma ece391_strcmp_spec l : is_cstr s1 l -> l < W32 ->
  exists r, ece391_strcmp s1 s2 = Some r /\ (r = 0 <-> forall i, 0 <= i <= l -> s1 i = s2 i).
Proof.
  intros (Hl & Hnz & Hz) Hw.
  apply (run_loop_rule _ (fun i => 0 <= i <= l /\ forall j, 0 <= j < i -> s1 j = s2 j)
    (fun r => r = 0 <-> forall i, 0 <= i <= l -> s1 i = s2 i) (fun i => l - i)); [|split; [lia|intros; lia]|lia].
  intros i [Hi Hs]. destruct (Z.eqb_spec (s1 i) (s2 i)) as [E|E].
  - destruct (Z.eqb_spec (s1 i) 0) as [Z0|Z0].
    + assert (i = l) as -> by (destruct (Z.eq_dec i l); [done|exfalso; by apply (Hnz i ltac:(lia))]).
      split; [intros _|done]. intros j Hj. destruct (Z.eq_dec j l) as [->|]; [done|]. apply Hs. lia.
    + assert (i <> l) by (intros ->; done). rewrite u32_small by lia. split; [|lia]. split; [lia|].
      intros j Hj. destruct (Z.eq_dec j i) as [->|]; [done|]. apply Hs. lia.
  - split; [lia|]. intros H. exfalso. by apply E, H.
Qed.

(** strncmp is 0 exactly when the first [n] characters agree, up to a common end. *)
Lemma ece391_strncmp_spec n : 0 <= n < W32 ->
  exists r, ece391_strncmp s1 s2 n = Some r /\
    (r = 0 <-> forall i, 0 <= i < n -> (forall j, 0 <= j < i -> s1 j <> 0) -> s1 i = s2 i).
Proof.
  intros Hn. unfold ece391_strncmp. destruct (Z.eqb_spec 0 n) as [<-|Hne].
  { exists 0. split; [done|]. split; [|done]. intros _ i Hi. lia. }
  apply (run_loop_rule _ (fun '(i, r) => 0 <= i < n /\ r = n - i /\ forall j, 0 <= j < i -> s1 j = s2 j /\ s1 j <> 0)
    (fun r => r = 0 <-> forall i, 0 <= i < n -> (forall j, 0 <= j < i -> s1 j <> 0) -> s1 i = s2 i) (fun '(i, _) => n - i));
    [|split; [lia|]; split; [lia|intros; lia]|lia].
  intros [i r] (Hi & -> & Hs). destruct (Z.eqb_spec (s1 i) (s2 i)) as [E|E].
  - rewrite (u32_small (n - i - 1)) by lia. destruct (Z.eqb_spec (s1 i) 0) as [Z0|Z0]; cbn [orb].
    + split; [intros _|done]. intros j Hj Hnz. destruct (Z.lt_trichotomy j i) as [?|[->|?]]; [apply Hs; lia|done|].
      exfalso. by apply (Hnz i ltac:(lia)).
    + destruct (Z.eqb_spec (n - i - 1) 0) as [Z1|Z1].
      * split; [intros _|done]. intros j Hj _. destruct (Z.eq_dec j i) as [->|]; [done|]. apply Hs. lia.
      * rewrite u32_small by lia. split; [|lia]. split; [lia|]. split; [lia|].
        intros j Hj. destruct (Z.eq_dec j i) as [->|]; [done|]. apply Hs. lia.
  - split; [lia|]. intros H. exfalso. apply E, H; [lia|]. intros j Hj. by apply Hs.
Qed.
End compare.
