(* ===== verification/Process.v ===== *)
(** * A running process and what the kernel promises it

    [view] is what a user program can see of the machine: the bytes of its page, its
    descriptors, its argument and the screen it prints on.  [process] relates it to
    the state of the kernel.  [OsCalls] states what the system calls do in terms of
    views only; the kernel is an instance of it. *)

From Stdlib Require Import ZArith Lia String.
From stdpp Require Import gmap list numbers strings.
From S2P Require Import Prelude Memory LibString State Display Paging Pcb FileSystem Vfs Keyboard Terminal Syscalls.
From S2P Require Import Execute Calls UserLib.

(** ** Loops whose variant is not part of their state *)

Section ghost.
Context {S R : Type} (body : S -> S + R) (I : Z -> S -> Prop) (Q : R -> Prop).
Hypothesis Hstep : forall n s, I n s ->
  match body s with inl s' => exists n', 0 <= n' < n /\ I n' s' | inr r => Q r end.

Lemma loop_ghost d n s : I n s ->
  match loop d body s with inl s' => exists n', 0 <= n' /\ n' + 2 ^ Z.of_nat d <= n /\ I n' s' | inr r => Q r end.
Proof using Hstep.
  revert n s; induction d as [|d IH]; intros n s Hs.
  - specialize (Hstep n s Hs). cbn. destruct (body s); [|done].
    destruct Hstep as (n' & Hn & H'). exists n'. change (2 ^ 0) with 1. split_and!; [lia|lia|done].
  - cbn [loop]. specialize (IH n s Hs) as H1. destruct (loop d body s) as [s'|r]; [|done]. destruct H1 as (n1 & H1 & H2 & H3).
    specialize (IH n1 s' H3) as H4. destruct (loop d body s') as [s''|r]; [|done]. destruct H4 as (n2 & H4 & H5 & H6).
    exists n2. replace (Z.of_nat (Datatypes.S d)) with (Z.of_nat d + 1) by lia.
    rewrite Z.pow_add_r by lia. change (2 ^ 1) with 2. split_and!; [lia|lia|done].
Qed.

Lemma run_loop_ghost n s : I n s -> n < W32 -> exists r, run_loop body s = Some r /\ Q r.
Proof using Hstep.
  intros Hs Hv. pose proof (loop_ghost 32 n s Hs) as H. unfold run_loop.
  destruct (loop 32 body s) as [s'|r]; [|eauto]. change (2 ^ Z.of_nat 32) with W32 in H. destruct H as (n' & ? & ? & _). lia.
Qed.
End ghost.

Lemma wp_loopM_ghost {S R} (body : S -> M (S + R)) (I : Z -> S -> kernel -> Prop) (Q : R -> kernel -> Prop) n s k :
  (forall n s k, I n s k -> wp (body s) (fun r k' =>
     match r with inl s' => exists n', 0 <= n' < n /\ I n' s' k' | inr r => Q r k' end) k) ->
  I n s k -> n < W32 -> wp (loopM body s) Q k.
Proof.
  intros Hstep H0 Hv. unfold loopM, wp.
  edestruct (run_loop_ghost (fun '(s, k) =>
    match body s k with
    | Ret (inl s') k' => inl (s', k')
    | Ret (inr r) k' => inr (Ret r k')
    | Spin k' => inr (Spin k')
    | Fault e => inr (Fault e)
    end) (fun n '(s, k) => I n s k)
    (fun o => match o with Ret r k' => Q r k' | _ => False end)) with (n := n) (s := (s, k)) as (r & -> & Hr); try done.
  intros n1 [s' k'] HI. specialize (Hstep n1 s' k' HI). unfold wp in Hstep.
  destruct (body s' k') as [[s''|r] k''| |]; done.
Qed.

(** ** Views *)

Record view := mk_view {
  v_mem : Z -> Z;            (* the bytes of the program's page, by virtual address *)
  v_fds : list fdesc_t;
  v_arg : list Z;
  v_color : Z;
  v_screen : screen;
  v_kbd : option kbd_t       (* the keyboard, if the screen is the visible one *)
}.

Definition printed (t : list Z) (u : view) : view :=
  mk_view (v_mem u) (v_fds u) (v_arg u) (v_color u) (text_spec (v_color u) t (v_screen u)) (v_kbd u).
Definition with_bytes (p n : Z) (g : Z -> Z) (u : view) : view :=
  mk_view (fun va => if (p <=? va) && (va <? p + n) then u8 (g (va - p)) else v_mem u va)
    (v_fds u) (v_arg u) (v_color u) (v_screen u) (v_kbd u).
Definition with_fds (l : list fdesc_t) (u : view) : view := mk_view (v_mem u) l (v_arg u) (v_color u) (v_screen u) (v_kbd u).
Definition with_desc (fd : Z) (d : fdesc_t) (u : view) : view := with_fds (<[Z.to_nat fd := d]> (v_fds u)) u.
Definition with_console (s : screen) (kb : kbd_t) (u : view) : view :=
  mk_view (v_mem u) (v_fds u) (v_arg u) (v_color u) s (Some kb).
Definition bytes_of (u : view) (p : Z) : Z -> Z := fun i => v_mem u (p + i).
Definition desc (u : view) (fd : Z) : option fdesc_t := v_fds u !! Z.to_nat fd.

(** A range of the program's page. *)
Definition in_page (p n : Z) : Prop := PROGRAM_VIRT <= p < PROGRAM_VIRT + FOUR_MB /\ 0 <= n /\ p + n <= PROGRAM_VIRT + FOUR_MB.

(** ** A logic of programs *)

Section logic.
Context (P : view -> kernel -> Prop).

Definition does {A} (c : M A) (u : view) (Q : A -> view -> Prop) : Prop := forall k, P u k ->
  wp c (fun a k' => exists u', Q a u' /\ P u' k') k.

Lemma does_bind {A B} (c : M A) (f : A -> M B) u R Q :
  does c u R -> (forall a u', R a u' -> does (f a) u' Q) -> does (c ≫= f) u Q.
Proof.
  intros Hc Hf k Hk. apply wp_bind. eapply wp_mono; [|exact (Hc k Hk)]. intros a k' (u' & HP & Hk'). exact (Hf a u' HP k' Hk').
Qed.

Lemma does_mret {A} (a : A) u (Q : A -> view -> Prop) : Q a u -> does (mret a) u Q.
Proof. intros H k Hk. apply wp_mret. by exists u. Qed.

Lemma does_mono {A} (c : M A) u (R Q : A -> view -> Prop) : (forall a u', R a u' -> Q a u') -> does c u R -> does c u Q.
Proof. intros H Hc k Hk. eapply wp_mono; [|exact (Hc k Hk)]. intros a k' (u' & HP & Hk'). exists u'. auto. Qed.

Lemma does_loop {S R} (body : S -> M (S + R)) (I : Z -> S -> view -> Prop) (Q : R -> view -> Prop) n s u :
  (forall n s u, I n s u -> does (body s) u (fun r u' =>
     match r with inl s' => exists n', 0 <= n' < n /\ I n' s' u' | inr r => Q r u' end)) ->
  I n s u -> n < W32 -> does (loopM body s) u Q.
Proof.
  intros Hstep H0 Hn k Hk.
  apply (wp_loopM_ghost _ (fun n s k => exists u, I n s u /\ P u k) _ n); [|by exists u|done].
  intros n1 s1 k1 (u1 & H1 & P1). eapply wp_mono; [|exact (Hstep n1 s1 u1 H1 k1 P1)].
  intros [s'|r] k' (u' & H' & P'); [|by exists u']. destruct H' as (n' & Hn' & HI). exists n'. split; [done|]. by exists u'.
Qed.

Lemma does_for n body (I : Z -> view -> Prop) u :
  (forall i u, 0 <= i < Z.of_nat n -> I i u -> does (body i) u (fun _ u' => I (i + 1) u')) ->
  I 0 u -> does (for_ n body) u (fun _ u' => I (Z.of_nat n) u').
Proof.
  intros Hb H0. induction n as [|n IH]; cbn [for_]; [by apply does_mret|].
  eapply does_bind; [apply IH; intros i u1 Hi; apply Hb; lia|]. intros [] u1 H1. cbn beta in H1.
  replace (Z.of_nat (S n)) with (Z.of_nat n + 1) by lia. apply Hb; [lia|done].
Qed.

(** The call gives [a] and takes the view [u] to [u']. *)
Definition acts {A} (c : M A) (u : view) (a : A) (u' : view) : Prop := does c u (fun r v => r = a /\ v = u').

Lemma acts_bind {A B} (c : M A) (f : A -> M B) u a u' Q : acts c u a u' -> does (f a) u' Q -> does (c ≫= f) u Q.
Proof. intros Hc Hf. eapply does_bind; [exact Hc|]. by intros r v [-> ->]. Qed.

Lemma acts_seq {A B} (c : M A) (f : A -> M B) u a u' b u'' : acts c u a u' -> acts (f a) u' b u'' -> acts (c ≫= f) u b u''.
Proof. apply acts_bind. Qed.

Lemma acts_mret {A} (a : A) u : acts (mret a) u a u.
Proof. by apply does_mret. Qed.
End logic.

(** ** The promise *)

(** A C string of length [l] in the program's page. *)
Definition str_at (u : view) (p l : Z) : Prop := is_cstr (bytes_of u p) l /\ in_page p (l + 1).

Definition free_fd (l : list fdesc_t) : option Z := '(i, _) ← list_find (fun d => flags d = NOT_USED) l; Some (Z.of_nat i).

(** The name of neither standard device (only a prefix is looked at). *)
Definition not_std (s : Z -> Z) : Prop := ~ str_eqn s (lit "stdin") 5 /\ ~ str_eqn s (lit "stdout") 6.

Lemma str_eqn_prefix s s' t n l : (forall i, 0 <= i <= l -> s i = s' i) -> 0 <= l -> s l = 0 -> str_eqn s t n -> str_eqn s' t n.
Proof.
  intros Heq Hl Hz H i Hi Hnz. destruct (Z_le_gt_dec i l) as [Hle|Hgt].
  - rewrite <- Heq by lia. apply H; [done|]. intros j Hj. rewrite Heq by lia. by apply Hnz.
  - exfalso. apply (Hnz l ltac:(lia)). by rewrite <- Heq by lia.
Qed.

Lemma std_name_none s : is_bytes s -> not_std s -> std_name s = None.
Proof.
  intros B [N1 N2]. unfold std_name.
  destruct (strncmp_spec s (lit "stdin") 5 B (lit_bytes _) ltac:(lia)) as (r & E1 & _).
  destruct (strncmp_spec s (lit "stdout") 6 B (lit_bytes _) ltac:(lia)) as (r' & E2 & _). rewrite E1, E2.
  pose proof (strncmp_zero s _ 5 r B (lit_bytes _) ltac:(lia) E1) as Z1. pose proof (strncmp_zero s _ 6 r' B (lit_bytes _) ltac:(lia) E2) as Z2.
  destruct (Z.eqb_spec r 0) as [Hr|Hr]; [by apply Z1 in Hr|]. destruct (Z.eqb_spec r' 0) as [Hr'|Hr']; [by apply Z2 in Hr'|]. done.
Qed.

(** The name at [p] is that of no entry of the directory. *)
Definition unknown (im : memory) (fs : Z) (u : view) (p : Z) : Prop :=
  forall j, 0 <= j < rd32 im fs -> ~ has_name im fs j (bytes_of u p).

(** [im], [fs]: the image of the file system. *)
Class OsCalls (P : view -> kernel -> Prop) (f : frame) (child : Z -> Z -> M Z) (im : memory) (fs : Z) := {
  os_load u p : in_page p 1 -> acts P (load p) u (v_mem u p) u;
  os_store u p v : in_page p 1 -> acts P (store p v) u tt (with_bytes p 1 (fun _ => v) u);
  os_str u p l : str_at u p l -> does P (user_str p) u (fun s u' => u' = u /\ forall i, 0 <= i <= l -> s i = bytes_of u p i);
  os_write u fd d buf n : 0 <= fd < MAX_DESC -> desc u fd = Some d -> file_ops d = stdout -> in_page buf n ->
    acts P (ece391_write f child fd buf n) u n (printed (chars (bytes_of u buf) n) u);
  os_read_file u irqs fd d buf n : 0 <= fd < MAX_DESC -> desc u fd = Some d -> file_ops d = regf_jt -> file_ok im fs (inode d) ->
    0 <= file_pos d -> file_pos d + n < W32 -> in_page buf n ->
    let c := read_count im fs (inode d) (file_pos d) n in
    acts P (ece391_read f child irqs fd buf n) u c
      (with_desc fd (set_file_pos (file_pos d + c) d) (with_bytes buf c (fun i => file_byte im fs (inode d) (file_pos d + i)) u));
  os_read_dir u irqs fd d buf n : 0 <= fd < MAX_DESC -> desc u fd = Some d -> file_ops d = dir_jt -> 0 <= file_pos d < rd32 im fs ->
    in_page buf FILENAME_LEN -> 0 <= n < H32 ->
    does P (ece391_read f child irqs fd buf n) u (fun r u' => exists l, name_len im fs (file_pos d) l /\ l <= r <= FILENAME_LEN /\
      (at_ im (entry_addr fs (file_pos d)) 31 = 0 -> r = l) /\
      u' = with_desc fd (set_file_pos (file_pos d + 1) d)
        (with_bytes buf FILENAME_LEN (strncpy_bytes (at_ im (entry_addr fs (file_pos d))) l) u));
  os_read_dir_end u irqs fd d buf n : 0 <= fd < MAX_DESC -> desc u fd = Some d -> file_ops d = dir_jt ->
    rd32 im fs <= file_pos d < W32 - 1 -> in_page buf FILENAME_LEN -> 0 <= n < H32 ->
    acts P (ece391_read f child irqs fd buf n) u 0 (with_bytes buf FILENAME_LEN (fun _ => 0) u);
  os_open u p l i fd jt : str_at u p l -> l <= FILENAME_LEN -> first_named im fs i (bytes_of u p) -> not_std (bytes_of u p) ->
    tableaux !! Z.to_nat (file_type (dentry_at im (entry_addr fs i))) = Some jt -> free_fd (v_fds u) = Some fd ->
    acts P (ece391_open f child p) u fd (with_desc fd (opened jt (inode_num (dentry_at im (entry_addr fs i)))) u);
  os_open_full u p l i : str_at u p l -> l <= FILENAME_LEN -> first_named im fs i (bytes_of u p) -> free_fd (v_fds u) = None ->
    acts P (ece391_open f child p) u (-1) u;
  os_open_unknown u p l : str_at u p l -> unknown im fs u p -> acts P (ece391_open f child p) u (-1) u;
  os_close u fd d : 2 <= fd < MAX_DESC -> desc u fd = Some d -> file_ops d ∈ [rtc_jt; dir_jt; regf_jt] ->
    acts P (ece391_close f child fd) u 0 (with_desc fd (closed d) u);
  os_getargs u l buf n : v_arg u = l ++ replicate (129 - length l) 0 -> (length l <= 128)%nat -> Forall (fun x => 0 < x < W8) l ->
    in_page buf n -> 0 < n ->
    if bool_decide (l <> [] /\ Z.of_nat (length l) < n)
    then acts P (ece391_getargs f child buf n) u 0 (with_bytes buf (Z.of_nat (length l) + 1) (arr_at (l ++ [0])) u)
    else acts P (ece391_getargs f child buf n) u (-1) u;
  os_read_line u kb cs fd d buf n : let line := take 127 (keys_spec kb [] cs).2 in
    v_kbd u = Some kb -> 0 <= fd < MAX_DESC -> desc u fd = Some d -> file_ops d = stdin -> plain_keys kb cs = true ->
    Z.of_nat (length line) + 1 <= n <= 1452 -> in_page buf n ->
    does P (ece391_read f child (map process_input (cs ++ [ENTER_KEY_P])) fd buf n) u (fun r u' =>
      r = Z.of_nat (length line) + 1 /\ exists g s, (forall i, 0 <= i <= Z.of_nat (length line) -> u8 (g i) = arr_at (line ++ [10]) i) /\
        u' = with_console s (keys_spec kb [] cs).1 (with_bytes buf n g u));
  (** What is refused, without effect. *)
  os_refuse_read u irqs fd buf n : -H32 <= fd < H32 -> 0 <= buf < W32 -> -H32 <= n < H32 ->
    ~ 0 <= fd < MAX_DESC \/ n < 0 \/ (exists d, desc u fd = Some d /\ file_ops d ∈ [stdout; empty_f_ops_tab]) ->
    acts P (ece391_read f child irqs fd buf n) u (-1) u;
  os_refuse_write u fd buf n : -H32 <= fd < H32 -> 0 <= buf < W32 -> -H32 <= n < H32 ->
    ~ 0 <= fd < MAX_DESC \/ n < 0 \/ (exists d, desc u fd = Some d /\ file_ops d ∈ [stdin; empty_f_ops_tab]) ->
    acts P (ece391_write f child fd buf n) u (-1) u;
  os_refuse_close u fd : -H32 <= fd < H32 ->
    ~ 2 <= fd < MAX_DESC \/ (exists d, desc u fd = Some d /\ file_ops d = empty_f_ops_tab) ->
    acts P (ece391_close f child fd) u (-1) u;
  os_refuse_vidmap u p : 0 <= p < W32 -> p < PROGRAM_VIRT \/ PROGRAM_VIRT + FOUR_MB < p ->
    acts P (ece391_vidmap f child p) u (-1) u;
  os_refuse_call u num ebx ecx edx : -H32 <= num < H32 -> num <= 0 \/ 10 < num -> acts P (call_sys f child ebx ecx edx num) u (-1) u
}.

(** What execute does with a command that names no file, for as long as there are free
    process slots. *)
Class OsExecute (P : view -> kernel -> Prop) (f : frame) (child : Z -> Z -> M Z) (im : memory) (fs : Z) := {
  (** A command that names no file; [s] has its characters. *)
  os_execute_unknown u p s a b c d : parsed s a b c d -> b - a <= CMD_BUF_SIZE -> in_page p (d + 1) ->
    (forall i, 0 <= i <= d -> bytes_of u p i = s i) -> (forall i, 0 <= i < rd32 im fs -> ~ has_name im fs i (name_of s a b)) ->
    acts P (ece391_execute f child p) u (-1) u
}.

(** ** The process in the kernel *)

(** The page of the process in a slot. *)
Definition slot_base (off : Z) : Z := PROGRAM_1_PHYS + off * FOUR_MB.

(** A process that waits for the end of a child: its slot, its block and what its page
    holds. *)
Record waiter := mk_waiter { p_off : Z; p_pcb : pcb_t; p_mem : Z -> Z }.
Definition p_blk (a : waiter) : Z := pcb_addr (p_off a).
Definition p_base (a : waiter) : Z := slot_base (p_off a).

(** Where the process and the file system are ([e_mem] is a memory with its image), the
    process slots in use, the parent, the processes that wait and the page of the terminal. *)
Record env := mk_env {
  e_off : Z; e_fs : Z; e_dir : Z; e_tid : Z; e_parent : Z; e_status : Z; e_mem : memory; e_wait : list waiter;
  e_vid : Z
}.
Definition e_blk (E : env) : Z := pcb_addr (e_off E).
Definition e_base (E : env) : Z := slot_base (e_off E).

Abbreviation VIDEO_END := 774144.         (* five pages from VIDEO_ADDR *)

Definition phys (E : env) (va : Z) : Z := e_base E + (va - PROGRAM_VIRT).

Definition waiter_ok (E : env) (a : waiter) : Prop :=
  0 <= p_off a < MAX_PROCESSES /\ p_off a <> e_off E /\ Z.testbit (e_status E) (p_off a) = true.

Definition env_ok (E : env) : Prop :=
  0 <= e_off E < MAX_PROCESSES /\ slots_ok (e_status E) /\ Z.testbit (e_status E) (e_off E) = true /\
  KERNEL_ADDR <= e_dir E /\ e_dir E + SIZEOFDIR <= PROGRAM_1_PHYS /\ Forall (waiter_ok E) (e_wait E) /\
  KERNEL_ADDR <= e_fs E /\ e_fs E + image_size (e_mem E) (e_fs E) <= PROGRAM_1_PHYS /\ rd32 (e_mem E) (e_fs E) <= 63.

(** The others have blocks and pages of their own. *)
Definition elsewhere (E : env) (a : waiter) : Prop :=
  p_blk a <> e_blk E /\ PROGRAM_1_PHYS <= p_base a /\ p_base a + FOUR_MB <= PAGE_TABLE_STARTADDR /\
  apart (p_base a) FOUR_MB (e_base E) FOUR_MB.

(** The locals of execute are on the kernel stack. *)
Definition frame_ok (E : env) (f : frame) : Prop :=
  let size := image_size (e_mem E) (e_fs E) in
  apart (e_dir E) SIZEOFDIR (e_fs E) size /\
  (KERNEL_ADDR <= cmd f /\ cmd f + 33 <= PROGRAM_1_PHYS /\ apart (cmd f) 33 (e_fs E) size /\ apart (cmd f) 33 (e_dir E) SIZEOFDIR) /\
  (KERNEL_ADDR <= file_data f /\ file_data f + 30 <= PROGRAM_1_PHYS /\ apart (file_data f) 30 (e_fs E) size /\
   apart (file_data f) 30 (e_dir E) SIZEOFDIR).

Definition own_block (E : env) (u : view) (k : kernel) : Prop := exists b,
  cur_pcb (k_proc k) = e_blk E /\ pcbs (k_proc k) !! e_blk E = Some b /\ pcb_ok b /\ io_files b = v_fds u /\ arg b = v_arg u.

(** The page of the process is mapped, the page of its terminal where vidmap says, and
    nothing at address 0. *)
Definition own_tables (E : env) (m : memory) : Prop := paging_wf m (e_dir E) /\
  (forall va, PROGRAM_VIRT <= va < PROGRAM_VIRT + FOUR_MB -> resolve_virt_addr m (e_dir E) va = phys E va) /\
  (forall o, 0 <= o < PAGE_BYTES -> resolve_virt_addr m (e_dir E) (VIDMAP_VIRT_ADDR + o) = e_vid E + o) /\
  resolve_virt_addr m (e_dir E) 0 = 0.

Definition own_memory (E : env) (u : view) (m : memory) : Prop :=
  image_same (e_mem E) m (e_fs E) /\ own_tables E m /\
  forall va, PROGRAM_VIRT <= va < PROGRAM_VIRT + FOUR_MB -> rd m (phys E va) = v_mem u va.

Definition own_screen (E : env) (u : view) (k : kernel) : Prop :=
  sched_term_id (k_disp k) = e_tid E /\ color (k_disp k) = v_color u /\ shows k (e_tid E) (v_screen u) /\ pos_ok (v_screen u) /\
  exists t, terminals (k_disp k) !! Z.to_nat (e_tid E) = Some t /\ VIDEO_ADDR <= vid_mem t /\
    vid_mem t + PAGE_BYTES <= VIDEO_END /\ vid_mem t = e_vid E.

(** Interrupts are on and no line has been started on the terminal. *)
Definition own_keyboard (E : env) (u : view) (k : kernel) : Prop := forall kb, v_kbd u = Some kb ->
  vis_term_id (k_disp k) = e_tid E /\ 0 <= e_tid E < MAX_TERM_NUM /\ terms_wf k /\ iflag (k_cpu k) = true /\ k_kbd k = kb /\
  exists t, terminals (k_disp k) !! Z.to_nat (e_tid E) = Some t /\ line_term t [].

(** The process runs on its terminal in its slot. *)
Definition own_slot (E : env) (k : kernel) : Prop :=
  pcb_status (k_proc k) = e_status E /\ except_raised (k_proc k) = false /\ starting_new_shell (k_proc k) = false /\
  map_Forall (fun _ => pcb_ok) (pcbs (k_proc k)) /\
  (exists b, pcbs (k_proc k) !! e_blk E = Some b /\ page_addr b = e_base E /\ parent_task b = e_parent E) /\
  (exists t, terminals (k_disp k) !! Z.to_nat (e_tid E) = Some t /\ cur_task t = e_blk E).

(** A process waits with its block and its page as they were. *)
Definition waits (k : kernel) (a : waiter) : Prop := pcbs (k_proc k) !! p_blk a = Some (p_pcb a) /\
  forall va, PROGRAM_VIRT <= va < PROGRAM_VIRT + FOUR_MB -> rd (k_mem k) (p_base a + (va - PROGRAM_VIRT)) = p_mem a va.

Definition process (E : env) (u : view) (k : kernel) : Prop :=
  own_block E u k /\ own_memory E u (k_mem k) /\ own_screen E u k /\ own_keyboard E u k /\ cr3 (k_cpu k) = e_dir E /\ fs_addr k = e_fs E /\
  own_slot E k /\ Forall (waits k) (e_wait E).

Section process.
Context (E : env).
Hypothesis HE : env_ok E.

(** *** How it is preserved *)

Lemma env_facts : 0 <= e_off E < MAX_PROCESSES /\ PROGRAM_1_PHYS <= e_base E /\ e_base E + FOUR_MB <= PAGE_TABLE_STARTADDR /\
  KERNEL_ADDR <= e_dir E /\ e_dir E + SIZEOFDIR <= PROGRAM_1_PHYS /\ e_base E mod FOUR_MB = 0 /\ Forall (elsewhere E) (e_wait E) /\
  KERNEL_ADDR <= e_fs E /\ e_fs E + image_size (e_mem E) (e_fs E) <= PROGRAM_1_PHYS /\ rd32 (e_mem E) (e_fs E) <= 63.
Proof using HE.
  destruct HE as (H1 & _ & _ & H4 & H5 & H6 & H7 & H8 & H9). unfold e_base, slot_base.
  refine (conj H1 (conj _ (conj _ (conj H4 (conj H5 (conj _ (conj _ (conj H7 (conj H8 H9))))))))); [lia|lia|zlia|].
  eapply List.Forall_impl; [|exact H6]. intros a (A1 & A2 & _). unfold elsewhere, p_blk, e_blk, p_base, e_base, slot_base, apart.
  rewrite !pcb_addr_eq by lia. lia.
Qed.

Lemma blk_nonzero : e_blk E <> 0.
Proof using HE. destruct HE as (H & _). by apply pcb_addr_nonzero. Qed.

Lemma own_tables_same m m' : own_tables E m -> tables_same m m' (e_dir E) -> own_tables E m'.
Proof using HE.
  intros (W & M & V & Z) T. destruct env_facts as (_ & _ & _ & H3 & H4 & _). split; [by apply (tables_same_wf m)|]. split_and!.
  - intros va Hva. rewrite (tables_same_resolve m) by (done || lia). by apply M.
  - intros o Ho. rewrite (tables_same_resolve m) by (done || lia). by apply V.
  - by rewrite (tables_same_resolve m) by (done || lia).
Qed.

(** Memory that is kept where the image and the tables are. *)
Lemma kernel_memory m m' : image_same (e_mem E) m (e_fs E) -> own_tables E m ->
  (forall a, KERNEL_ADDR <= a < PROGRAM_1_PHYS \/ PAGE_TABLE_STARTADDR <= a < PAGE_TABLE_STARTADDR + FOUR_MB -> rd m' a = rd m a) ->
  image_same (e_mem E) m' (e_fs E) /\ own_tables E m'.
Proof using HE.
  intros I T R. destruct env_facts as (_ & _ & _ & H3 & H4 & _ & _ & H7 & H8 & _). split.
  - intros a Ha. rewrite R by lia. by apply I.
  - apply (own_tables_same m); [done|]. intros a Ha. apply R. lia.
Qed.

(** The others do not notice what happens to the process's own block and page. *)
Lemma others_wait k k' : Forall (waits k) (e_wait E) ->
  (forall x, x <> e_blk E -> pcbs (k_proc k') !! x = pcbs (k_proc k) !! x) ->
  (forall a, PROGRAM_1_PHYS <= a < PAGE_TABLE_STARTADDR -> a < e_base E \/ e_base E + FOUR_MB <= a -> rd (k_mem k') a = rd (k_mem k) a) ->
  Forall (waits k') (e_wait E).
Proof using HE.
  intros F B R. destruct env_facts as (_ & _ & _ & _ & _ & _ & O & _). rewrite Forall_forall in O, F |- *. intros a Ha.
  destruct (O a Ha) as (O1 & O2 & O3 & O4). destruct (F a Ha) as [F1 F2]. split; [by rewrite B|].
  intros va Hva. unfold apart in O4. rewrite R by lia. by apply F2.
Qed.

Lemma own_slot_term k k' t' : own_slot E k -> k_proc k' = k_proc k -> terminals (k_disp k') !! Z.to_nat (e_tid E) = Some t' ->
  (forall t, terminals (k_disp k) !! Z.to_nat (e_tid E) = Some t -> cur_task t' = cur_task t) -> own_slot E k'.
Proof.
  intros (L1 & L2 & L3 & L0 & L4 & (t & Ht & L5)) Ep Ht' Hc. unfold own_slot. rewrite Ep. split_and!; try done.
  exists t'. split; [done|]. by rewrite (Hc t Ht).
Qed.

Lemma process_ports u k k' : process E u k -> ports_only k k' -> process E u k'.
Proof.
  intros (B & Mm & S & K & C & F & L & Wt) (io & fl & Hfl & ->).
  refine (conj B (conj Mm (conj S (conj _ (conj C (conj F (conj L Wt))))))). intros kb Hkb.
  destruct (K kb Hkb) as (K1 & K2 & K3 & K4 & K5 & K6). refine (conj K1 (conj K2 (conj K3 (conj _ (conj K5 K6))))). by apply Hfl.
Qed.

Lemma process_fds u k b l : process E u k -> pcbs (k_proc k) !! e_blk E = Some b -> length l = 8%nat ->
  process E (with_fds l u) (with_pcb (e_blk E) (set_io_files l b) k).
Proof using HE.
  intros ((b' & B1 & B2 & (B3 & B4 & B5) & B6 & B7) & Mm & S & K & C & F & (L1 & L2 & L3 & L0 & (b1 & Lb & L4 & L5) & Lt) & Wt) Hb Hl.
  rewrite Hb in B2. apply (inj Some) in B2. subst b'. rewrite Hb in Lb. apply (inj Some) in Lb. subst b1.
  refine (conj _ (conj Mm (conj S (conj K (conj C (conj F (conj (conj L1 (conj L2 (conj L3 (conj _ (conj _ Lt))))) _))))))).
  - exists (set_io_files l b). split_and!; try done. apply with_pcb_lookup.
  - by apply map_Forall_insert_2.
  - exists (set_io_files l b). split_and!; try done. apply with_pcb_lookup.
  - apply (others_wait k); [done| |done]. intros x Hx. by apply with_pcb_ne.
Qed.

(** Drawing on the terminal. *)
Lemma process_drawn u k k' s : process E u k -> out_frame (e_tid E) k k' -> shows k' (e_tid E) s -> pos_ok s ->
  process E (mk_view (v_mem u) (v_fds u) (v_arg u) (v_color u) s (v_kbd u)) k'.
Proof using HE.
  intros (B & (I & T & P) & (S1 & S2 & _ & _ & (t & Ht & V1 & V2)) & K & C & F & L & Wt) (t0 & t' & m & io & Hi & Ht0 & Sp & D & _ & ->) Hs Hok.
  rewrite Ht in Ht0. apply (inj Some) in Ht0. subst t0. pose proof env_facts as (_ & H1 & H2 & H3 & H4 & _ & _ & H7 & H8 & _).
  assert (forall a, KERNEL_ADDR <= a < W32 -> rd m a = rd (k_mem k) a) as R
    by (intros a Ha; apply (within_rd _ _ _ _ a D); lia).
  destruct (kernel_memory (k_mem k) m I T) as [I' T']; [intros a Ha; apply R; lia|].
  refine (conj B (conj (conj I' (conj T' _)) (conj (conj S1 (conj S2 (conj Hs (conj Hok _)))) (conj _ (conj C (conj F (conj _ _))))))).
  - intros va Hva. cbn [k_mem set_k_mem]. rewrite R by (unfold phys; lia). by apply P.
  - exists t'. split; [cbn; apply list_lookup_insert_eq; by eapply lookup_lt_Some|]. rewrite (same_but_pos_vid t t') by done. lia.
  - intros kb Hkb. destruct (K kb Hkb) as (K1 & K2 & K3 & K4 & K5 & (t1 & Ht1 & Ln)). rewrite Ht in Ht1. apply (inj Some) in Ht1. subst t1.
    refine (conj K1 (conj K2 (conj _ (conj K4 (conj K5 _))))).
    + change (terms_wf (with_term (e_tid E) t' k)). apply terms_wf_with_term; [done|]. destruct K3 as [_ K3].
      pose proof (Forall_lookup_1 _ _ _ _ K3 Ht) as W. rewrite Sp. exact W.
    + exists t'. split; [cbn; apply list_lookup_insert_eq; by eapply lookup_lt_Some|]. rewrite Sp. exact Ln.
  - eapply (own_slot_term k _ t' L); [done|cbn; apply list_lookup_insert_eq; by eapply lookup_lt_Some|].
    intros t0. rewrite Ht. intros [= <-]. by rewrite Sp.
  - apply (others_wait k); [done|done|]. intros a Ha _. apply R. lia.
Qed.

(** Writing into its page. *)
Lemma process_copied u k p n g m' : process E u k -> in_page p n -> mem_copied (k_mem k) m' (phys E p) g n ->
  process E (with_bytes p n g u) (set_k_mem m' k).
Proof using HE.
  intros (B & (I & T & P) & (S1 & S2 & (t' & Hs) & S4 & (t & Ht & V1 & V2)) & K & C & F & L & Wt) (P1 & P2 & P3) Cp.
  pose proof env_facts as (_ & H1 & H2 & H3 & H4 & _ & _ & H7 & H8 & _). unfold phys in *.
  assert (forall a, 0 <= a < W32 -> a < e_base E \/ e_base E + FOUR_MB <= a -> rd m' a = rd (k_mem k) a) as R
    by (intros a Ha Ho; apply (mem_copied_rd _ _ _ _ _ _ Cp); lia).
  destruct (kernel_memory (k_mem k) m' I T) as [I' T']; [intros a Ha; apply R; lia|].
  refine (conj B (conj (conj I' (conj T' _)) (conj (conj S1 (conj S2 (conj _ (conj S4 _)))) (conj K (conj C (conj F (conj L _))))))).
  - intros va Hva. cbn [v_mem with_bytes k_mem set_k_mem]. destruct (Z.leb_spec p va); destruct (Z.ltb_spec va (p + n)); cbn [andb].
    + rewrite (mem_copied_in _ _ _ _ _ _ Cp ltac:(lia) (va - p)) by (lia || (unfold phys; f_equal; lia)). done.
    + rewrite (mem_copied_rd _ _ _ _ _ _ Cp) by (unfold phys; lia). by apply P.
    + rewrite (mem_copied_rd _ _ _ _ _ _ Cp) by (unfold phys; lia). by apply P.
    + lia.
  - destruct Hs as (Hi & Ht' & Hr & Hc & Hm). rewrite Ht in Ht'. apply (inj Some) in Ht'. subst t'.
    exists t. split_and!; try done. intros o Ho. cbn [k_mem set_k_mem]. rewrite R by lia. by apply Hm.
  - by exists t.
  - apply (others_wait k); [done|done|]. intros a Ha Ho. apply R; [lia|done].
Qed.

(** *** What it gives *)

Lemma process_ptr u k p Q : process E u k -> PROGRAM_VIRT <= p < PROGRAM_VIRT + FOUR_MB -> Q (phys E p) k -> wp (user_ptr p) Q k.
Proof using HE.
  intros (B & (I & (W & M & _) & P) & S & K & C & F & L) Hp HQ. destruct env_facts as (_ & H1 & H2 & H3 & H4 & _).
  unfold user_ptr. wp_steps. unfold id. rewrite C, M by done.
  rewrite (proj2 (Z.eqb_neq _ _)) by (unfold phys; lia). by wp_steps.
Qed.

Lemma process_at u k p i : process E u k -> PROGRAM_VIRT <= p + i < PROGRAM_VIRT + FOUR_MB ->
  at_ (k_mem k) (phys E p) i = bytes_of u p i.
Proof using HE.
  intros (B & (I & T & P) & _) Hp. unfold at_, bytes_of. rewrite <- P by done. f_equal. unfold phys. lia.
Qed.

(** ** The kernel keeps the promise *)

Context (f : frame) (child : Z -> Z -> M Z).

Lemma i32_u32 x : -H32 <= x < H32 -> i32 (u32 x) = x.
Proof. intros Hx. zlia. Qed.

(** A call that returns is the kernel's function on the arguments. *)
Ltac call_unfold := unfold ece391_read, ece391_write, ece391_open, ece391_close, ece391_getargs, ece391_vidmap, DO_CALL, syscall;
  repeat match goal with |- context [i32 ?a =? ?b] => change (i32 a =? b) with false || change (i32 a =? b) with true end; cbv iota.

Lemma wp_returned c Q k : wp c Q k ->
  wp (returns c) (fun r => wp (match r with Back eax => mret eax | User eip esp => child eip esp end) Q) k.
Proof. intros H. unfold returns. apply wp_bind. eapply wp_mono; [|exact H]. intros a k' Ha. wp_steps. exact Ha. Qed.

Lemma wp_returns c Q k : wp c Q k ->
  wp (r ← returns c; match r with Back eax => mret eax | User eip esp => child eip esp end) Q k.
Proof. intros H. apply wp_bind. by apply wp_returned. Qed.

Lemma wp_read irqs fd buf n Q k : -H32 <= fd < H32 -> 0 <= buf < W32 -> -H32 <= n < H32 ->
  wp (sys_read irqs fd buf n) Q k -> wp (ece391_read f child irqs fd buf n) Q k.
Proof. intros H1 H2 H3 H. call_unfold. apply wp_returns. by rewrite !i32_u32, u32_small by lia. Qed.

Lemma wp_write fd buf n Q k : -H32 <= fd < H32 -> 0 <= buf < W32 -> -H32 <= n < H32 ->
  wp (sys_write fd buf n) Q k -> wp (ece391_write f child fd buf n) Q k.
Proof. intros H1 H2 H3 H. call_unfold. apply wp_returns. by rewrite !i32_u32, u32_small by lia. Qed.

Lemma wp_close fd Q k : -H32 <= fd < H32 -> wp (sys_close fd) Q k -> wp (ece391_close f child fd) Q k.
Proof. intros H1 H. call_unfold. apply wp_returns. by rewrite !i32_u32 by lia. Qed.

Lemma wp_getargs buf n Q k : 0 <= buf < W32 -> -H32 <= n < H32 -> wp (sys_getargs buf n) Q k -> wp (ece391_getargs f child buf n) Q k.
Proof. intros H1 H2 H. call_unfold. apply wp_returns. by rewrite !i32_u32, u32_small by lia. Qed.

Lemma wp_vidmap p Q k : 0 <= p < W32 -> wp (sys_vidmap p) Q k -> wp (ece391_vidmap f child p) Q k.
Proof. intros H1 H. call_unfold. apply wp_returns. by rewrite u32_small by lia. Qed.

(** The descriptor behind a number. *)
Lemma process_fd u k fd d : process E u k -> 0 <= fd < MAX_DESC -> desc u fd = Some d ->
  exists b, fd_is k (e_blk E) b fd d /\ pcb_ok b /\ io_files b = v_fds u /\ pcbs (k_proc k) !! e_blk E = Some b.
Proof using HE.
  intros ((b & B1 & B2 & B3 & B4 & B5) & _) Hfd Hd. pose proof blk_nonzero as Hb. exists b.
  unfold desc in Hd. rewrite <- B4 in Hd. split_and!; try done; apply Hfd.
Qed.

Lemma process_terminal u k : process E u k -> exists t,
  terminals (k_disp k) !! Z.to_nat (e_tid E) = Some t /\ VIDEO_ADDR <= vid_mem t /\
  vid_mem t + PAGE_BYTES <= VIDEO_END /\ vid_mem t = e_vid E.
Proof. by intros (_ & _ & (_ & _ & _ & _ & H) & _). Qed.

Lemma proc_load u p : in_page p 1 -> acts (process E) (load p) u (v_mem u p) u.
Proof using HE.
  intros (H1 & _ & H3) k Hk. unfold load. wp_steps. apply (process_ptr u k); [done|lia|]. wp_steps. exists u. split; [|done].
  split; [|done]. destruct Hk as (_ & (_ & _ & P) & _). apply P. lia.
Qed.

Lemma wr_copied m a v : mem_copied m (wr m a v) a (fun _ => v) 1.
Proof. apply (mem_copied_wr m m a (fun _ => v) 0); [lia|f_equal; lia|done|apply mem_copied_0]. Qed.

Lemma proc_store u p v : in_page p 1 -> acts (process E) (store p v) u tt (with_bytes p 1 (fun _ => v) u).
Proof using HE.
  intros Hp k Hk. unfold store. wp_steps. apply (process_ptr u k); [done|unfold in_page in Hp; lia|]. wp_steps.
  eexists. split; [done|]. apply process_copied; [done|done|apply wr_copied].
Qed.

Lemma proc_str u p l : str_at u p l ->
  does (process E) (user_str p) u (fun s u' => u' = u /\ forall i, 0 <= i <= l -> s i = bytes_of u p i).
Proof using HE.
  intros [(Hl & _) (H1 & H2 & H3)] k Hk. unfold user_str. wp_steps. apply (process_ptr u k); [done|lia|]. wp_steps. exists u.
  split; [|done]. split; [done|]. intros i Hi. apply process_at; [done|lia].
Qed.

Lemma proc_write u fd d buf n : 0 <= fd < MAX_DESC -> desc u fd = Some d -> file_ops d = stdout -> in_page buf n ->
  acts (process E) (ece391_write f child fd buf n) u n (printed (chars (bytes_of u buf) n) u).
Proof using HE.
  intros Hfd Hd Hop (H1 & H2 & H3) k Hk. apply wp_write; [lia|lia|lia|]. unfold sys_write.
  rewrite (proj2 (Z.ltb_ge fd 0)), (proj2 (Z.leb_gt MAX_DESC fd)), (proj2 (Z.eqb_neq buf 0)), (proj2 (Z.ltb_ge n 0)) by lia. cbn [orb].
  destruct (process_fd u k fd d Hk Hfd Hd) as (b & (F1 & F2 & F3 & F4 & F5) & Hok & _).
  wp_steps. rewrite F1. eapply wp_get_fd; [done|exact F3|done|exact F5|]. rewrite Hop. cbn [op_write]. wp_steps.
  apply (process_ptr u k); [done|lia|].
  destruct (process_terminal u k Hk) as (t & Ht & V1 & V2). pose proof Hk as (_ & _ & (S1 & S2 & S3 & S4 & _) & _).
  pose proof (terminal_write_ok fd (phys E buf) n k t (v_screen u)) as W. cbv zeta in W. rewrite S1, S2 in W.
  destruct env_facts as (_ & E1 & E2 & _). unfold buffer_above, phys in W. specialize (W S3 S4 Ht ltac:(lia)). fold (phys E buf) in W.
  destruct W as (k' & Ew & Sh & Fr). apply wp_ret_iff. exists n, k'. split; [exact Ew|]. eexists. split; [done|].
  assert (chars (at_ (k_mem k) (phys E buf)) n = chars (bytes_of u buf) n) as <-.
  { unfold chars. apply map_ext_in. intros i Hi. apply list_elem_of_In, elem_of_seqZ in Hi. apply (process_at u k); [done|lia]. }
  apply (process_drawn u (set_k_cpu (set_iflag true (k_cpu k)) k)); [|done|done|by apply text_spec_ok].
  destruct Hk as (P1 & P2 & P3 & P4 & P5 & P6 & P7 & P8).
  refine (conj P1 (conj P2 (conj P3 (conj _ (conj P5 (conj P6 (conj P7 P8))))))). intros kb Hkb.
  destruct (P4 kb Hkb) as (K1 & K2 & K3 & K4 & K5 & K6).
  exact (conj K1 (conj K2 (conj K3 (conj eq_refl (conj K5 K6))))).
Qed.

(** *** Reading *)

Let im := e_mem E.
Let fs := e_fs E.

Lemma image_sound u k : process E u k -> image_ok im fs /\ image_ok (k_mem k) fs /\ image_same im (k_mem k) fs /\ fs_addr k = fs.
Proof using HE.
  intros (_ & (I & _) & _ & _ & _ & F & _). destruct env_facts as (_ & _ & _ & _ & _ & _ & _ & H1 & H2 & _).
  assert (image_ok im fs) as Hi by (unfold im, fs; split; lia). split_and!; [done|by apply (same_image_ok im)|done|done].
Qed.

Lemma buffer_sound u k buf n : process E u k -> in_page buf n -> buffer_ok (k_mem k) fs (phys E buf) n.
Proof using HE.
  intros Hk (H1 & H2 & H3). destruct (image_sound u k Hk) as (_ & _ & I & _). destruct env_facts as (_ & E1 & E2 & _ & _ & _ & _ & H7 & H8 & _).
  unfold buffer_ok. rewrite (same_size im) by done. unfold im, fs, phys in *. lia.
Qed.

(** The state after a read through a descriptor. *)
Lemma process_moved u k b fd d m' buf n g : process E u k -> pcbs (k_proc k) !! e_blk E = Some b -> pcb_ok b -> io_files b = v_fds u ->
  in_page buf n -> mem_copied (k_mem k) m' (phys E buf) g n ->
  process E (with_desc fd d (with_bytes buf n g u)) (fd_moved k (e_blk E) b fd d m').
Proof using HE.
  intros Hk Hb (Hl & _) Hio Hbuf C. unfold fd_moved, with_desc. rewrite Hio. cbn [v_fds with_bytes].
  apply process_fds; [by apply process_copied|exact Hb|]. rewrite length_insert. by rewrite <- Hio.
Qed.

(** The guards of sys_read passed. *)
Lemma wp_sys_read irqs fd d buf n u k op Q : process E u k -> 0 <= fd < MAX_DESC -> desc u fd = Some d ->
  in_page buf 1 -> 0 <= n < H32 -> op_read irqs (file_ops d) = Some op -> wp (op fd buf n) Q k -> wp (ece391_read f child irqs fd buf n) Q k.
Proof using HE.
  intros Hk Hfd Hd (H1 & H2 & H3) Hn Hop W. apply wp_read; [lia|lia|lia|]. unfold sys_read.
  rewrite (proj2 (Z.ltb_ge fd 0)), (proj2 (Z.leb_gt MAX_DESC fd)), (proj2 (Z.eqb_neq buf 0)), (proj2 (Z.ltb_ge n 0)) by lia. cbn [orb].
  destruct (process_fd u k fd d Hk Hfd Hd) as (b & (F1 & F2 & F3 & F4 & F5) & Hok & _).
  wp_steps. rewrite F1. eapply wp_get_fd; [done|exact F3|done|exact F5|]. by rewrite Hop.
Qed.

Lemma in_page_1 p n : in_page p n -> in_page p 1.
Proof. unfold in_page. lia. Qed.

Lemma proc_read_file u irqs fd d buf n : 0 <= fd < MAX_DESC -> desc u fd = Some d -> file_ops d = regf_jt -> file_ok im fs (inode d) ->
  0 <= file_pos d -> file_pos d + n < W32 -> in_page buf n ->
  let c := read_count im fs (inode d) (file_pos d) n in
  acts (process E) (ece391_read f child irqs fd buf n) u c
    (with_desc fd (set_file_pos (file_pos d + c) d) (with_bytes buf c (fun i => file_byte im fs (inode d) (file_pos d + i)) u)).
Proof using HE.
  intros Hfd Hd Hop Hfile Hpos Hsum Hbuf c k Hk. pose proof Hbuf as (H1 & H2 & H3).
  eapply (wp_sys_read _ _ d); [done|done|done|by eapply in_page_1|lia|by rewrite Hop|]. cbn beta.
  apply wp_bind, (process_ptr u k); [done|lia|]. destruct (image_sound u k Hk) as (I1 & I2 & I3 & I4).
  destruct (process_fd u k fd d Hk Hfd Hd) as (b & Hfdis & Hok & Hio & Hb).
  destruct (fsys_read_file_spec fd (phys E buf) n k (e_blk E) b d) as (m' & Er & C); rewrite ?I4; try done.
  - by apply (same_file_ok im).
  - lia.
  - by eapply buffer_sound.
  - rewrite I4 in *. assert (read_count (k_mem k) fs (inode d) (file_pos d) n = c) as Ec.
    { unfold c, read_count. by rewrite (same_length im) by (done || apply Hfile). }
    rewrite Ec in Er, C. clear Ec. apply wp_ret_iff. eexists _, _. split; [exact Er|]. eexists. split; [done|].
    assert (0 <= c <= n /\ (0 < c -> file_pos d + c <= file_length im fs (inode d))) as [Hc Hc'] by (unfold c, read_count; lia).
    apply process_moved; [done|done|done|done|unfold in_page; lia|].
    eapply mem_copied_ext; [|exact C]. intros i Hi. f_equal. apply (same_byte im); [done|done|apply Hfile|lia|].
    destruct Hfile as [_ Hblk]. apply Hblk; zlia.
Qed.

Lemma dir_same k u i : process E u k -> 0 <= i < rd32 im fs ->
  rd32 (k_mem k) fs = rd32 im fs /\ (forall j, 0 <= j < FILENAME_LEN -> at_ (k_mem k) (entry_addr fs i) j = at_ im (entry_addr fs i) j).
Proof using HE.
  intros Hk Hi. destruct (image_sound u k Hk) as (I1 & I2 & I3 & I4). destruct (same_counts im (k_mem k) fs I3) as (En & _).
  split; [exact En|]. intros j Hj. destruct env_facts as (_ & _ & _ & _ & _ & _ & _ & _ & _ & H63).
  unfold at_. apply (entry_same im); try done; unfold im, fs in *; lia.
Qed.

Lemma proc_read_dir u irqs fd d buf n : 0 <= fd < MAX_DESC -> desc u fd = Some d -> file_ops d = dir_jt ->
  0 <= file_pos d < rd32 im fs -> in_page buf FILENAME_LEN -> 0 <= n < H32 ->
  does (process E) (ece391_read f child irqs fd buf n) u (fun r u' => exists l, name_len im fs (file_pos d) l /\ l <= r <= FILENAME_LEN /\
    (at_ im (entry_addr fs (file_pos d)) 31 = 0 -> r = l) /\
    u' = with_desc fd (set_file_pos (file_pos d + 1) d)
      (with_bytes buf FILENAME_LEN (strncpy_bytes (at_ im (entry_addr fs (file_pos d))) l) u)).
Proof using HE.
  intros Hfd Hd Hop Hpos Hbuf Hn k Hk. pose proof Hbuf as (H1 & H2 & H3).
  eapply (wp_sys_read _ _ d); [done|done|done|by eapply in_page_1|lia|by rewrite Hop|]. cbn beta.
  apply wp_bind, (process_ptr u k); [done|lia|]. destruct (image_sound u k Hk) as (I1 & I2 & I3 & I4).
  destruct (process_fd u k fd d Hk Hfd Hd) as (b & Hfdis & Hok & Hio & Hb). destruct (dir_same k u _ Hk Hpos) as [En Ee].
  pose proof (fsys_read_dir_entry fd (phys E buf) n k (e_blk E) b d) as W. rewrite I4, En in W.
  destruct env_facts as (_ & _ & _ & _ & _ & _ & _ & _ & _ & H63). fold im fs in H63. pose proof (rd32_range im fs).
  destruct W as (m' & l & r & (N1 & N2 & N3) & L & R & Er & C); [done|done|lia|lia|by eapply buffer_sound|lia|].
  rewrite Ee in R by lia. apply wp_ret_iff. eexists _, _. split; [exact Er|]. eexists. split; [|].
  - exists l. refine (conj _ (conj L (conj R eq_refl))).
    split_and!; [lia|lia|intros j Hj; rewrite <- Ee by lia; by apply N2|intros Hl; rewrite <- Ee by lia; by apply N3].
  - apply process_moved; [done|done|done|done|done|]. eapply mem_copied_ext; [|exact C]. intros i Hi. f_equal.
    unfold strncpy_bytes. destruct (Z.ltb_spec i l); [by apply Ee|done].
Qed.

Lemma proc_read_dir_end u irqs fd d buf n : 0 <= fd < MAX_DESC -> desc u fd = Some d -> file_ops d = dir_jt ->
  rd32 im fs <= file_pos d < W32 - 1 -> in_page buf FILENAME_LEN -> 0 <= n < H32 ->
  acts (process E) (ece391_read f child irqs fd buf n) u 0 (with_bytes buf FILENAME_LEN (fun _ => 0) u).
Proof using HE.
  intros Hfd Hd Hop Hpos Hbuf Hn k Hk. pose proof Hbuf as (H1 & H2 & H3).
  eapply (wp_sys_read _ _ d); [done|done|done|by eapply in_page_1|lia|by rewrite Hop|]. cbn beta.
  apply wp_bind, (process_ptr u k); [done|lia|]. destruct (image_sound u k Hk) as (I1 & I2 & I3 & I4).
  destruct (process_fd u k fd d Hk Hfd Hd) as (b & Hfdis & Hok & Hio & Hb).
  destruct (same_counts im (k_mem k) fs I3) as (En & _).
  pose proof (fsys_read_dir_end fd (phys E buf) n k (e_blk E) b d) as W. rewrite I4, En in W.
  destruct env_facts as (_ & _ & _ & _ & _ & _ & _ & _ & _ & H63). fold im fs in H63. pose proof (rd32_range im fs).
  destruct W as (m' & Er & C); [done|done|lia|lia|by eapply buffer_sound|lia|].
  apply wp_ret_iff. eexists _, _. split; [exact Er|]. eexists. split; [done|]. by apply process_copied.
Qed.

(** *** Opening and closing *)

Section name.
Context (u : view) (k : kernel) (p l : Z).
Hypothesis Hk : process E u k.
Hypothesis Hs : str_at u p l.
Let s := at_ (k_mem k) (phys E p).

Lemma name_at i : 0 <= i <= l -> s i = bytes_of u p i.
Proof using All. intros Hi. destruct Hs as (_ & P1 & P2 & P3). apply process_at; [done|lia]. Qed.

Lemma name_cstr : is_cstr s l.
Proof using All.
  destruct Hs as ((C1 & C2 & C3) & _). split_and!; [done|intros i Hi; rewrite name_at by lia; by apply C2|by rewrite name_at by lia].
Qed.

Lemma name_same i : 0 <= i < rd32 im fs -> has_name (k_mem k) fs i s <-> has_name im fs i (bytes_of u p).
Proof using All.
  intros Hi. destruct (image_sound u k Hk) as (I1 & I2 & I3 & I4). destruct env_facts as (_ & _ & _ & _ & _ & _ & _ & _ & _ & H63).
  rewrite (has_name_same im) by done. apply (str_eqn_upto _ _ _ _ l); [by destruct name_cstr|exact name_at|by destruct name_cstr as (_ & _ & ?)].
Qed.

Lemma name_count : rd32 (k_mem k) fs = rd32 im fs.
Proof using All. destruct (image_sound u k Hk) as (_ & _ & I3 & _). by destruct (same_counts im (k_mem k) fs I3) as (En & _). Qed.

Lemma name_found i : l <= FILENAME_LEN -> l < W32 -> first_named im fs i (bytes_of u p) ->
  read_dentry_by_name (k_mem k) fs s = Some (SUCCESS, Some (dentry_at im (entry_addr fs i))).
Proof using All.
  intros Hl Hw (Hi & N1 & N2). pose proof (read_dentry_by_name_spec (k_mem k) fs s l (at_bytes _ _) (strlen_spec _ _ name_cstr Hw)) as L.
  rewrite (proj2 (Z.ltb_ge _ _)) in L by lia. rewrite name_count in L. destruct L as [(i' & Hi' & M1 & M2 & ->)|[N _]].
  - apply name_same in M1; [|done]. replace i' with i.
    + do 3 f_equal. destruct (image_sound u k Hk) as (I1 & _ & I3 & _). destruct env_facts as (_ & _ & _ & _ & _ & _ & _ & _ & _ & H63).
      by apply (dentry_same im).
    + destruct (Z.lt_trichotomy i i') as [?|[?|?]]; [|done|]; exfalso.
      * apply (M2 i ltac:(lia)). by apply name_same.
      * by apply (N2 i' ltac:(lia)).
  - exfalso. apply (N i Hi). by apply name_same.
Qed.

Lemma name_unknown : l < W32 -> unknown im fs u p -> read_dentry_by_name (k_mem k) fs s = Some (FAILURE, None).
Proof using All.
  intros Hw N. pose proof (read_dentry_by_name_spec (k_mem k) fs s l (at_bytes _ _) (strlen_spec _ _ name_cstr Hw)) as L.
  destruct (FILENAME_LEN <? l); [done|]. rewrite name_count in L. destruct L as [(i' & Hi' & M1 & _)|[_ ?]]; [|done].
  apply name_same in M1; [|done]. by apply N in M1.
Qed.
End name.

Lemma wp_sys_open u k p l Q : process E u k -> str_at u p l -> wp (sys_open (at_ (k_mem k) (phys E p))) Q k ->
  wp (ece391_open f child p) Q k.
Proof using HE.
  intros Hk [_ (P1 & P2 & P3)] W. call_unfold. rewrite u32_small by lia. unfold user_str. wp_steps.
  apply (process_ptr u k); [done|lia|]. wp_steps. by apply wp_returned.
Qed.

Lemma opens_type d jt : 0 <= file_type d -> tableaux !! Z.to_nat (file_type d) = Some jt -> file_type d < 3.
Proof. intros H0 H. apply lookup_lt_Some in H. cbn in H. lia. Qed.

Lemma proc_open u p l i fd jt : str_at u p l -> l <= FILENAME_LEN -> first_named im fs i (bytes_of u p) -> not_std (bytes_of u p) ->
  tableaux !! Z.to_nat (file_type (dentry_at im (entry_addr fs i))) = Some jt -> free_fd (v_fds u) = Some fd ->
  acts (process E) (ece391_open f child p) u fd (with_desc fd (opened jt (inode_num (dentry_at im (entry_addr fs i)))) u).
Proof using HE.
  intros Hs Hl Hn Hstd Hjt Hff k Hk. apply (wp_sys_open u k p l); [done|done|].
  pose proof (name_found u k p l Hk Hs i Hl ltac:(lia) Hn) as Ed. destruct (image_sound u k Hk) as (_ & _ & _ & I4).
  set (d := dentry_at im (entry_addr fs i)) in *.
  assert (file_type d < 3) as Ht by (apply (opens_type d jt); [apply rd32_range|done]).
  unfold sys_open. wp_steps. rewrite I4. eapply wp_lift; [exact Ed|]. cbn beta iota. change (SUCCESS =? -1) with false. cbv iota. wp_steps.
  apply (wp_lift _ _ _ _ _ eq_refl). rewrite (proj2 (Z.leb_gt _ _)) by lia. wp_steps.
  destruct Hk as (B & Hk'). pose proof B as (b & B1 & B2 & B3 & B4 & B5). pose proof blk_nonzero as Hblk. rewrite B1.
  assert (process E u k) as Hk by (by split). eapply wp_mono; [|apply (open_file_desc_ok _ _ b fd jt (inode_num d)); [done|exact B2|done|apply at_bytes| |]].
  - intros r k' [-> Hp]. eexists. split; [done|]. apply (process_ports _ (with_pcb (e_blk E) (with_fd fd (opened jt (inode_num d)) b) k)); [|done].
    unfold with_fd, with_desc. rewrite B4. apply process_fds; [done|done|]. rewrite length_insert, <- B4. apply B3.
  - unfold first_free. rewrite B4. exact Hff.
  - right. split; [|exists d; by rewrite I4]. apply std_name_none; [apply at_bytes|]. destruct (name_cstr u k p l Hk Hs) as (C1 & _ & C3).
    destruct Hstd as [N1 N2]. split; intros H; [apply N1|apply N2]; apply (str_eqn_prefix (at_ (k_mem k) (phys E p)) _ _ _ l); try done;
    intros x Hx; by apply (name_at u k p l).
Qed.

Lemma proc_open_full u p l i : str_at u p l -> l <= FILENAME_LEN -> first_named im fs i (bytes_of u p) -> free_fd (v_fds u) = None ->
  acts (process E) (ece391_open f child p) u (-1) u.
Proof using HE.
  intros Hs Hl Hn Hff k Hk. apply (wp_sys_open u k p l); [done|done|].
  pose proof (name_found u k p l Hk Hs i Hl ltac:(lia) Hn) as Ed. destruct (image_sound u k Hk) as (_ & _ & _ & I4).
  unfold sys_open. wp_steps. rewrite I4. eapply wp_lift; [exact Ed|]. cbn beta iota. change (SUCCESS =? -1) with false. cbv iota. wp_steps.
  apply (wp_lift _ _ _ _ _ eq_refl). case_if; [wp_steps; by exists u|]. wp_steps.
  pose proof Hk as ((b & B1 & B2 & B3 & B4 & B5) & _). pose proof blk_nonzero as Hblk. rewrite B1.
  unfold wp. rewrite (open_file_desc_full _ _ b); [by exists u|done|done|done|]. unfold first_free. by rewrite B4.
Qed.

Lemma proc_open_unknown u p l : str_at u p l -> unknown im fs u p -> acts (process E) (ece391_open f child p) u (-1) u.
Proof using HE.
  intros Hs Hn k Hk. apply (wp_sys_open u k p l); [done|done|]. pose proof Hs as [_ (P1 & P2 & P3)].
  pose proof (name_unknown u k p l Hk Hs ltac:(lia) Hn) as Ed. destruct (image_sound u k Hk) as (_ & _ & _ & I4).
  unfold sys_open. wp_steps. rewrite I4. eapply wp_lift; [exact Ed|]. cbn beta iota. change (FAILURE =? -1) with true. cbv iota. wp_steps. by exists u.
Qed.

Lemma proc_close u fd d : 2 <= fd < MAX_DESC -> desc u fd = Some d -> file_ops d ∈ [rtc_jt; dir_jt; regf_jt] ->
  acts (process E) (ece391_close f child fd) u 0 (with_desc fd (closed d) u).
Proof using HE.
  intros Hfd Hd Hop k Hk. apply wp_close; [lia|]. unfold sys_close. rewrite (proj2 (Z.ltb_ge fd 2)), (proj2 (Z.leb_gt _ _)) by lia. cbn [orb].
  destruct (process_fd u k fd d Hk ltac:(lia) Hd) as (b & (F1 & F2 & F3 & F4 & F5) & Hok & Hio & Hb).
  wp_steps. rewrite F1. eapply wp_get_fd; [done|exact F3|done|exact F5|].
  assert (exists close, op_close (file_ops d) = Some close) as [close Ec]
    by (repeat (apply elem_of_cons in Hop as [-> | Hop]); [by eexists..|by apply elem_of_nil in Hop]).
  rewrite Ec. pose proof (op_close_frees _ _ b d fd k Ec) as W. cbv zeta in W. rewrite F1 in W.
  apply wp_ret_iff. eexists _, _. split; [by apply W|]. eexists. split; [done|].
  unfold with_fd, with_desc. rewrite Hio. apply process_fds; [done|done|]. rewrite length_insert, <- Hio. apply Hok.
Qed.

Lemma proc_getargs u l buf n : v_arg u = l ++ replicate (129 - length l) 0 -> (length l <= 128)%nat -> Forall (fun x => 0 < x < W8) l ->
  in_page buf n -> 0 < n ->
  if bool_decide (l <> [] /\ Z.of_nat (length l) < n)
  then acts (process E) (ece391_getargs f child buf n) u 0 (with_bytes buf (Z.of_nat (length l) + 1) (arr_at (l ++ [0])) u)
  else acts (process E) (ece391_getargs f child buf n) u (-1) u.
Proof using HE.
  intros Ha Hl B (P1 & P2 & P3) Hn.
  assert (forall k, process E u k -> wp (ece391_getargs f child buf n) (fun r k' => exists u', (if bool_decide (l <> [] /\ Z.of_nat (length l) < n)
    then r = 0 /\ u' = with_bytes buf (Z.of_nat (length l) + 1) (arr_at (l ++ [0])) u else r = -1 /\ u' = u) /\ process E u' k') k) as W.
  { intros k Hk. apply wp_getargs; [lia|lia|]. pose proof Hk as ((b & B1 & B2 & B3 & B4 & B5) & (_ & (Wf & R & _) & _) & _ & _ & C & _).
    pose proof blk_nonzero as Hblk. destruct env_facts as (_ & E1 & E2 & _). pose proof (getargs_ok buf n l b (phys E buf) k) as G. cbv zeta in G. rewrite B1, B5 in G.
    rewrite C in G. unfold wp.
    specialize (G Hblk B2 Ha Hl B (R buf ltac:(lia)) ltac:(unfold phys; lia)).
    assert (bool_decide (l <> [] /\ Z.of_nat (length l) < n /\ buf <> 0) = bool_decide (l <> [] /\ Z.of_nat (length l) < n)) as Eb
      by (apply bool_decide_ext; split; [tauto|intros []; split_and!; [done|done|lia]]). rewrite Eb in G. clear Eb.
    destruct (decide (l <> [] /\ Z.of_nat (length l) < n)) as [D|D];
      [rewrite bool_decide_eq_true_2 in G |- * by done|rewrite bool_decide_eq_false_2 in G |- * by done].
    - destruct G as (m' & -> & Cp). eexists. split; [done|]. apply process_copied; [done|destruct D; unfold in_page; lia|done].
    - rewrite G. by exists u. }
  case_bool_decide; exact W.
Qed.

(** *** Reading a line *)

(** Anything that keeps the page of the terminal and draws only there. *)
Lemma process_term u k k' t t' m' s : process E u k -> terminals (k_disp k) !! Z.to_nat (e_tid E) = Some t ->
  vid_mem t' = vid_mem t -> cur_task t' = cur_task t ->
  differs_within (k_mem k) m' (vid_mem t) PAGE_BYTES -> shows k' (e_tid E) s -> pos_ok s ->
  (exists io fl kb, k' = set_k_mem m' (set_k_io io (set_k_cpu (set_iflag fl (k_cpu k)) (set_k_kbd kb (with_term (e_tid E) t' k))))) ->
  process E (mk_view (v_mem u) (v_fds u) (v_arg u) (v_color u) s None) k'.
Proof using HE.
  intros (B & (I & T & P) & (S1 & S2 & _ & _ & (t0 & Ht0 & V1 & V2)) & K & C & F & L & Wt) Ht Hv Hct D Hs Hok (io & fl & kb & ->).
  rewrite Ht in Ht0. apply (inj Some) in Ht0. subst t0. pose proof env_facts as (_ & H1 & H2 & H3 & H4 & _ & _ & H7 & H8 & _).
  assert (forall a, KERNEL_ADDR <= a < W32 -> rd m' a = rd (k_mem k) a) as R
    by (intros a Ha; apply (within_rd _ _ _ _ a D); lia).
  destruct (kernel_memory (k_mem k) m' I T) as [I' T']; [intros a Ha; apply R; lia|].
  refine (conj B (conj (conj I' (conj T' _)) (conj (conj S1 (conj S2 (conj Hs (conj Hok _)))) (conj _ (conj C (conj F (conj _ _))))))).
  - intros va Hva. cbn [k_mem set_k_mem]. rewrite R by (unfold phys; lia). by apply P.
  - exists t'. split; [exact (with_term_lookup (e_tid E) t' t k Ht)|]. rewrite Hv. lia.
  - done.
  - eapply (own_slot_term k _ t' L); [done|exact (with_term_lookup (e_tid E) t' t k Ht)|].
    intros t0. rewrite Ht. by intros [= <-].
  - apply (others_wait k); [done|done|]. intros a Ha _. apply R. lia.
Qed.

Lemma process_console u k kb : process E u k -> own_keyboard E (with_console (v_screen u) kb u) k ->
  process E (with_console (v_screen u) kb u) k.
Proof. intros (B & Mm & S & _ & C & F & L) K. exact (conj B (conj Mm (conj S (conj K (conj C (conj F L)))))). Qed.

Lemma proc_read_line u kb cs fd d buf n : let line := take 127 (keys_spec kb [] cs).2 in
  v_kbd u = Some kb -> 0 <= fd < MAX_DESC -> desc u fd = Some d -> file_ops d = stdin -> plain_keys kb cs = true ->
  Z.of_nat (length line) + 1 <= n <= 1452 -> in_page buf n ->
  does (process E) (ece391_read f child (map process_input (cs ++ [ENTER_KEY_P])) fd buf n) u (fun r u' =>
    r = Z.of_nat (length line) + 1 /\ exists g s, (forall i, 0 <= i <= Z.of_nat (length line) -> u8 (g i) = arr_at (line ++ [10]) i) /\
      u' = with_console s (keys_spec kb [] cs).1 (with_bytes buf n g u)).
Proof using HE.
  intros line Hkb Hfd Hd Hop Hplain Hn Hbuf k Hk. pose proof Hbuf as (P1 & P2 & P3).
  eapply (wp_sys_read _ _ d); [done|done|done|by eapply in_page_1|lia|by rewrite Hop|]. cbn beta.
  apply wp_bind, (process_ptr u k); [done|lia|].
  pose proof Hk as (_ & _ & (S1 & S2 & S3 & S4 & (t & Ht & V1 & V2)) & K & _). destruct (K kb Hkb) as (K1 & K2 & K3 & K4 & K5 & (t0 & Ht0 & L)).
  rewrite Ht in Ht0. apply (inj Some) in Ht0. subst t0.
  assert (line_ok k []) as Hline by (exists t, (v_screen u); rewrite K1; split_and!; try done; [lia|cbn; destruct S4; lia]).
  pose proof (typed_read_ok cs fd (phys E buf) n k t) as W. cbv zeta in W. rewrite K1, K5, S1 in W. fold line in W.
  destruct env_facts as (_ & E1 & E2 & _).
  eapply wp_mono; [|apply W; [done|lia|done|done|done|done|done|lia|unfold buffer_above, phys; lia]]. clear W.
  intros r k' (-> & k1 & (Ent & Ek & Ed & Ev & _) & (L1 & (ta & tb & m' & g & Hta & (Hvb & Hcb) & Cp & Ek') & L3 & L4)).
  rewrite K1 in Ev, Ed. rewrite Ev in *.
  destruct Ent as (tc & s1 & _ & Htc & _ & _ & _ & _ & _ & Sh1 & Ok1). rewrite Ev in Htc, Sh1.
  destruct Ed as (t0 & t1 & m1 & io & fl & kb1 & Ht0 & Sl & D1 & Ek1). rewrite Ht in Ht0. apply (inj Some) in Ht0. subst t0.
  assert (process E (mk_view (v_mem u) (v_fds u) (v_arg u) (v_color u) s1 None) k1) as Pk1.
  { eapply (process_term u k k1 t t1 m1); [done|done|by apply same_but_line_vid|by apply same_but_line_task|done|done|done|]. by exists io, fl, kb1. }
  pose proof (process_copied _ k1 buf n g m' Pk1 Hbuf Cp) as Pk2.
  assert (exists t' s', terminals (k_disp k') !! Z.to_nat (e_tid E) = Some t' /\ line_term t' [] /\ shows k' (e_tid E) s' /\ pos_ok s') as (t' & s' & Ht' & Lt & Sh' & Ok').
  { destruct L3 as (t' & s' & _ & Ht' & Lt & Sh' & Ok' & _). rewrite Ek' in Ht', Sh'. cbn [k_disp set_k_cpu set_k_mem] in Ht', Sh'.
    change (vis_term_id (k_disp (with_term (e_tid E) tb k1))) with (vis_term_id (k_disp k1)) in Ht', Sh'. rewrite Ev in Ht', Sh'.
    exists t', s'. rewrite Ek'. by split_and!. }
  exists (with_console s' (keys_spec kb [] cs).1 (with_bytes buf n g u)). split.
  - split; [done|]. exists g, s'. split; [|done]. intros i Hi. rewrite <- L1 by lia. rewrite Ek'. cbn [k_mem set_k_cpu set_k_mem].
    symmetry. rewrite (mem_copied_in _ _ _ _ _ _ Cp ltac:(lia) i) by (lia || done). done.
  - assert (process E (mk_view (v_mem (with_bytes buf n g u)) (v_fds u) (v_arg u) (v_color u) s' None) k') as Pk'.
    { refine (process_term _ (set_k_mem m' k1) k' ta tb m' s' Pk2 Hta Hvb Hcb (differs_within_refl _ _ _) Sh' Ok' _).
      exists (k_io k1), true, (k_kbd k1). rewrite Ek'. by destruct k1. }
    apply (process_console _ k' (keys_spec kb [] cs).1 Pk'). intros kb' [= <-].
    rewrite Ek' in *. refine (conj Ev (conj K2 (conj L4 (conj eq_refl (conj Ek _))))). by exists t'.
Qed.

(** *** Refusals *)

Lemma refuse u c : (forall k, process E u k -> wp c (fun r k' => r = -1 /\ k' = k) k) -> acts (process E) c u (-1) u.
Proof. intros H k Hk. eapply wp_mono; [|exact (H k Hk)]. intros r k' [-> ->]. by exists u. Qed.

Lemma proc_refuse_read u irqs fd buf n : -H32 <= fd < H32 -> 0 <= buf < W32 -> -H32 <= n < H32 ->
  ~ 0 <= fd < MAX_DESC \/ n < 0 \/ (exists d, desc u fd = Some d /\ file_ops d ∈ [stdout; empty_f_ops_tab]) ->
  acts (process E) (ece391_read f child irqs fd buf n) u (-1) u.
Proof using HE.
  intros H1 H2 H3 H. apply refuse. intros k Hk. apply wp_read; [done|done|done|]. unfold sys_read. case_if; [by apply wp_mret|].
  destruct H as [H|[H|(d & Hd & Hop)]]; [lia|lia|].
  destruct (process_fd u k fd d Hk ltac:(lia) Hd) as (b & (F1 & F2 & F3 & F4 & F5) & Hok & Hio & Hb).
  wp_steps. rewrite F1. eapply wp_get_fd; [done|exact F3|done|exact F5|].
  repeat (apply elem_of_cons in Hop as [-> | Hop]); [by apply wp_mret..|by apply elem_of_nil in Hop].
Qed.

Lemma proc_refuse_write u fd buf n : -H32 <= fd < H32 -> 0 <= buf < W32 -> -H32 <= n < H32 ->
  ~ 0 <= fd < MAX_DESC \/ n < 0 \/ (exists d, desc u fd = Some d /\ file_ops d ∈ [stdin; empty_f_ops_tab]) ->
  acts (process E) (ece391_write f child fd buf n) u (-1) u.
Proof using HE.
  intros H1 H2 H3 H. apply refuse. intros k Hk. apply wp_write; [done|done|done|]. unfold sys_write. case_if; [by apply wp_mret|].
  destruct H as [H|[H|(d & Hd & Hop)]]; [lia|lia|].
  destruct (process_fd u k fd d Hk ltac:(lia) Hd) as (b & (F1 & F2 & F3 & F4 & F5) & Hok & Hio & Hb).
  wp_steps. rewrite F1. eapply wp_get_fd; [done|exact F3|done|exact F5|].
  repeat (apply elem_of_cons in Hop as [-> | Hop]); [by apply wp_mret..|by apply elem_of_nil in Hop].
Qed.

Lemma proc_refuse_close u fd : -H32 <= fd < H32 ->
  ~ 2 <= fd < MAX_DESC \/ (exists d, desc u fd = Some d /\ file_ops d = empty_f_ops_tab) ->
  acts (process E) (ece391_close f child fd) u (-1) u.
Proof using HE.
  intros H1 H. apply refuse. intros k Hk. apply wp_close; [done|]. unfold sys_close. case_if; [by apply wp_mret|].
  destruct H as [H|(d & Hd & Hop)]; [lia|].
  destruct (process_fd u k fd d Hk ltac:(lia) Hd) as (b & (F1 & F2 & F3 & F4 & F5) & Hok & Hio & Hb).
  wp_steps. rewrite F1. eapply wp_get_fd; [done|exact F3|done|exact F5|]. rewrite Hop. by apply wp_mret.
Qed.

Lemma proc_refuse_vidmap u p : 0 <= p < W32 -> p < PROGRAM_VIRT \/ PROGRAM_VIRT + FOUR_MB < p ->
  acts (process E) (ece391_vidmap f child p) u (-1) u.
Proof.
  intros H1 H. apply refuse. intros k _. apply wp_vidmap; [done|]. unfold sys_vidmap.
  replace ((p <? PROGRAM_VIRT) || (PROGRAM_VIRT + FOUR_MB <? p)) with true; [by apply wp_mret|]. symmetry.
  by rewrite orb_true_iff, !Z.ltb_lt.
Qed.

Lemma proc_refuse_call u num ebx ecx edx : -H32 <= num < H32 -> num <= 0 \/ 10 < num ->
  acts (process E) (call_sys f child ebx ecx edx num) u (-1) u.
Proof.
  intros H1 H. apply refuse. intros k _. unfold call_sys, DO_CALL, syscall. rewrite i32_u32 by done.
  rewrite !(proj2 (Z.eqb_neq num _)) by lia. by wp_steps.
Qed.

(** *** Executing *)

Hypothesis Hframe : frame_ok E f.

Hypothesis Hpop : our_popcount (e_status E) <> MAX_PROCESSES.

Lemma process_layout u k : process E u k -> exec_layout k f.
Proof using HE Hframe.
  intros Hk. destruct (image_sound u k Hk) as (_ & I2 & I3 & I4). pose proof Hk as (_ & (_ & (W & _) & _) & _ & _ & C & _).
  destruct env_facts as (_ & E1 & E2 & E3 & E4 & _ & _ & E7 & E8 & E9). destruct Hframe as (F1 & (F2 & F3 & F4 & F5) & F6 & F7 & F8 & F9).
  unfold exec_layout. cbv zeta. rewrite I4, C, (same_size im) by done. destruct (same_counts im (k_mem k) fs I3) as (En & _). rewrite En.
  refine (conj I2 (conj E8 (conj E9 (conj W (conj E4 (conj F1 (conj (conj _ (conj F3 (conj F4 F5))) (conj _ (conj F7 (conj F8 F9)))))))))); lia.
Qed.

(** Writing to the kernel stack. *)
Lemma process_scratch u k m' fl : process E u k -> differs_within (k_mem k) m' (cmd f) 33 -> (iflag (k_cpu k) = true -> fl = true) ->
  process E u (set_k_mem m' (set_k_cpu (set_iflag fl (k_cpu k)) k)).
Proof using HE Hframe.
  clear child Hpop. intros (B & (I & T & P) & (S1 & S2 & (t' & Hs) & S4 & (t & Ht & V1 & V2)) & K & C & F & L & Wt) D Hfl.
  pose proof env_facts as (_ & H1 & H2 & H3 & H4 & _ & _ & H7 & H8 & _). destruct Hframe as (_ & (F2 & F3 & F4 & F5) & _).
  assert (forall a, 0 <= a < W32 -> a < cmd f \/ cmd f + 33 <= a -> rd m' a = rd (k_mem k) a) as R by (intros a Ha Ho; apply D; zlia).
  unfold apart, phys in *.
  refine (conj B (conj (conj _ (conj _ _)) (conj (conj S1 (conj S2 (conj _ (conj S4 _)))) (conj _ (conj C (conj F (conj L _))))))).
  - intros a Ha. cbn [k_mem set_k_mem]. rewrite R by lia. by apply I.
  - apply (own_tables_same (k_mem k)); [done|]. intros a Ha. apply R; lia.
  - intros va Hva. cbn [k_mem set_k_mem]. rewrite R by (unfold phys; lia). by apply P.
  - destruct Hs as (Hi & Ht' & Hr & Hc & Hm). rewrite Ht in Ht'. apply (inj Some) in Ht'. subst t'.
    exists t. split_and!; try done. intros o Ho. cbn [k_mem set_k_mem]. rewrite R by lia. by apply Hm.
  - by exists t.
  - intros kb Hkb. destruct (K kb Hkb) as (K1 & K2 & K3 & K4 & K5 & K6).
    exact (conj K1 (conj K2 (conj K3 (conj (Hfl K4) (conj K5 K6))))).
  - apply (others_wait k); [done|done|]. intros a Ha Ho. apply R; lia.
Qed.

Lemma proc_execute_unknown u p s a b c d : parsed s a b c d -> b - a <= CMD_BUF_SIZE -> in_page p (d + 1) ->
  (forall i, 0 <= i <= d -> bytes_of u p i = s i) -> (forall i, 0 <= i < rd32 im fs -> ~ has_name im fs i (name_of s a b)) ->
  acts (process E) (ece391_execute f child p) u (-1) u.
Proof using HE Hframe Hpop.
  intros Hp Hab Hpage Hs Hn k Hk. pose proof Hpage as (P1 & P2 & P3). unfold ece391_execute, DO_CALL, syscall.
  change (i32 2 =? 1) with false. change (i32 2 =? 2) with true. cbv iota. rewrite u32_small by lia.
  unfold user_str. wp_steps. apply (process_ptr u k); [done|lia|]. wp_steps. set (s' := at_ (k_mem k) (phys E p)).
  assert (forall i, 0 <= i <= d -> s' i = s i) as Es.
  { intros i Hi. unfold s'. rewrite (process_at u k) by (done || lia). by apply Hs. }
  pose proof (parsed_ext s s' a b c d Hp Es (at_bytes _ _)) as Hp'. destruct (image_sound u k Hk) as (I1 & I2 & I3 & I4).
  destruct env_facts as (_ & _ & _ & _ & _ & _ & _ & _ & _ & H63). pose proof Hp as (_ & Hab' & Hcd & _).
  assert (forall i, 0 <= i <= b - a -> name_of s a b i = name_of s' a b i) as En.
  { intros i Hi. unfold name_of. case_if; [by rewrite Es by lia|done]. }
  eapply wp_mono; [|apply (execute_refuses f s' a b c d k); [by eapply process_layout| |done|done|]].
  - cbn beta. intros r k' (-> & m1 & -> & D). wp_steps. exists u. split; [done|]. by apply process_scratch.
  - destruct Hk as (_ & _ & _ & _ & _ & _ & (L1 & _) & _). by rewrite L1.
  - rewrite I4. destruct (same_counts im (k_mem k) fs I3) as (Ec & _). rewrite Ec. intros i Hi Hh. apply (Hn i Hi).
    apply (has_name_same im (k_mem k) fs I1 I3 H63 i _ Hi) in Hh.
    refine (proj2 (str_eqn_upto _ (name_of s a b) (name_of s' a b) _ (b - a) ltac:(lia) En _) Hh).
    unfold name_of. by rewrite Z.ltb_irrefl.
Qed.

(** The interfaces hold of the kernel. *)
#[export] Instance process_calls : OsCalls (process E) f child im fs.
Proof using HE.
  split; [exact proc_load|exact proc_store|exact proc_str|exact proc_write|exact proc_read_file|exact proc_read_dir|
    exact proc_read_dir_end|exact proc_open|exact proc_open_full|exact proc_open_unknown|exact proc_close|exact proc_getargs|exact proc_read_line|
    exact proc_refuse_read|exact proc_refuse_write|exact proc_refuse_close|exact proc_refuse_vidmap|exact proc_refuse_call].
Qed.

#[export] Instance process_executes : OsExecute (process E) f child im fs.
Proof using HE Hframe Hpop. split. exact proc_execute_unknown. Qed.
End process.
