(* ===== verification/Spawn.v ===== *)
(** * A process that runs another

    execute, the program and its halt as one call of the process that asked for it:
    the program runs as a process of its own, with a fresh set of descriptors and its
    image loaded, and leaves its caller as it was but for the screen and the keyboard
    they share. *)

From Stdlib Require Import ZArith Lia String.
From stdpp Require Import gmap list numbers strings.
From S2P Require Import Prelude Memory LibString State Display Paging Pcb FileSystem Vfs Keyboard Terminal Syscalls.
From S2P Require Import Execute Calls UserLib Process.

(** The view of a program that has just been started: standard descriptors, its argument,
    the image of the file [ino] at 0x8048000, and the console of its parent [u]. *)
Definition fresh (im : memory) (fs ino : Z) (a : list Z) (u u0 : view) : Prop :=
  length (v_fds u0) = 8%nat /\ desc u0 0 = Some (opened stdin 0) /\ desc u0 1 = Some (opened stdout 0) /\
  (forall i d, (2 <= i)%nat -> v_fds u0 !! i = Some d -> flags d = NOT_USED /\ file_ops d = empty_f_ops_tab) /\
  v_arg u0 = a ++ replicate (129 - length a) 0 /\
  v_color u0 = v_color u /\ v_screen u0 = v_screen u /\ v_kbd u0 = v_kbd u /\
  forall q, 0 <= q < file_length im fs ino -> v_mem u0 (PROGRAM_VIRT + PROGRAM_VIRT_OFF + q) = file_byte im fs ino q.

(** The caller when the program has left the view [u1]. *)
Definition back (u u1 : view) : view := mk_view (v_mem u) (v_fds u) (v_arg u) (v_color u1) (v_screen u1) (v_kbd u1).

(** The state in which an exception handler calls halt. *)
Definition excepted (exc : bool) (k : kernel) : kernel := set_k_proc (set_except_raised exc (k_proc k)) k.

(** The programs that execute may enter run [main]. *)
Definition run_main (f : frame) (main : M Z) : Z -> Z -> M Z := fun _ _ =>
  c ← start f main; match c with Back eax => mret eax | User _ _ => lift Diverges None end.

Section spawn.
Context (E : env) (f : frame).
Hypothesis HE : env_ok E.
Hypothesis Hframe : frame_ok E f.

Definition child_env (off : Z) (b : pcb_t) (u : view) : env :=
  mk_env off (e_fs E) (e_dir E) (e_tid E) (e_blk E) (Z.lor (e_status E) (2 ^ off)) (e_mem E)
    (mk_waiter (e_off E) b (v_mem u) :: e_wait E) (e_vid E).

(** The block the caller waits with. *)
Definition waits_with (u : view) (b : pcb_t) : Prop :=
  pcb_ok b /\ io_files b = v_fds u /\ arg b = v_arg u /\ page_addr b = e_base E /\ parent_task b = e_parent E.

Definition free_slot (off : Z) : Prop :=
  0 <= off < MAX_PROCESSES /\ Z.testbit (e_status E) off = false /\ slots_ok (Z.lor (e_status E) (2 ^ off)).

Lemma child_env_ok off b u : free_slot off -> env_ok (child_env off b u).
Proof using HE.
  intros (O1 & O2 & O3). destruct HE as (H1 & H2 & H3 & H4 & H5 & H6 & H7 & H8 & H9).
  refine (conj O1 (conj O3 (conj _ (conj H4 (conj H5 (conj _ (conj H7 (conj H8 H9)))))))); cbn [e_status e_off child_env e_wait].
  - rewrite Z.lor_spec, Z.pow2_bits_true by lia. apply orb_true_r.
  - constructor.
    + split_and!; cbn [p_off e_off e_status child_env]; [lia|lia|intros ?; congruence|]. by rewrite Z.lor_spec, H3.
    + eapply List.Forall_impl; [|exact H6]. intros a (A1 & A2 & A3). split_and!; cbn [e_off e_status child_env]; [lia|lia|intros ?; congruence|].
      by rewrite Z.lor_spec, A3.
Qed.

Lemma slots_apart off i : free_slot off -> 0 <= i < MAX_PROCESSES -> Z.testbit (e_status E) i = true ->
  pcb_addr i <> pcb_addr off /\ apart (slot_base i) FOUR_MB (slot_base off) FOUR_MB.
Proof.
  intros (O1 & O2 & _) Hi Hb. assert (i <> off) by (intros ->; congruence). rewrite !pcb_addr_eq by lia. unfold apart, slot_base. lia.
Qed.

(** *** Starting *)

Section starting.
Context (u : view) (k : kernel) (kb : kbd_t).
Hypothesis Hk : process E u k.
Hypothesis Hkb : v_kbd u = Some kb.

(** The terminal the program is started on. *)
Lemma caller_starts : exists t, starts_on k (e_tid E) (e_blk E) t /\ VIDEO_ADDR <= vid_mem t /\ vid_mem t + PAGE_BYTES <= VIDEO_END /\ vid_mem t = e_vid E.
Proof using All.
  destruct Hk as ((b & _ & B2 & _) & _ & (_ & _ & _ & _ & (t & Ht & V)) & K & _ & _ & (L1 & _ & L3 & _ & _ & (t0 & Ht0 & L5)) & _).
  destruct (K kb Hkb) as (K1 & K2 & _). rewrite Ht in Ht0. apply (inj Some) in Ht0. subst t0.
  exists t. split; [|exact V]. split_and!; [lia|done|]. right. split_and!; [done|done|done|].
  exists (e_off E). destruct HE as (H1 & _ & H3 & _). split_and!; [lia|lia|done|by rewrite L1|by rewrite B2].
Qed.

Context (command : Z -> Z) (c d i : Z) (t : term_t) (k1 : kernel) (blk : Z) (p : pcb_t).
Hypothesis Ht : starts_on k (e_tid E) (e_blk E) t.
Hypothesis Hv : VIDEO_ADDR <= vid_mem t /\ vid_mem t + PAGE_BYTES <= VIDEO_END /\ vid_mem t = e_vid E.
Hypothesis Hruns : runs f command c d i (e_tid E) (e_blk E) t k k1 blk p.
Let off := pcb_num p.

Lemma started_slot : free_slot off /\ blk = pcb_addr off /\ page_addr p = slot_base off.
Proof using All.
  destruct Hruns as ((S1 & S2 & S) & _). destruct S1 as (T1 & T2 & _ & T4 & _). destruct Hk as (_ & _ & _ & _ & _ & _ & (L1 & _) & _).
  rewrite L1 in T2, T4. refine (conj (conj T1 (conj T2 T4)) (conj S2 _)). by destruct S as (_ & _ & _ & _ & _ & _ & _ & _ & _ & _ & -> & _).
Qed.

(** What execute leaves alone. *)
Lemma exec_keeps a : 0 <= a < W32 -> a < KERNEL_ADDR \/ (PROGRAM_1_PHYS <= a /\ (a < slot_base off \/ slot_base off + FOUR_MB <= a)) ->
  rd (k_mem k1) a = rd (k_mem k) a.
Proof using All.
  intros Ha Ho. destruct started_slot as ((O1 & _) & _ & Ep). destruct Hruns as (_ & _ & _ & _ & _ & _ & _ & Fr & _). rewrite Ep in Fr.
  pose proof Hk as (_ & _ & _ & _ & C & _). rewrite C in Fr. destruct HE as (_ & _ & _ & H4 & H5 & _).
  destruct Hframe as (_ & (F2 & F3 & _) & F6 & F7 & _). unfold slot_base in *. apply Fr; lia.
Qed.

(** The caller's block, with the stack registers saved in it. *)
Lemma started_blocks : exists b, waits_with u b /\ pcbs (k_proc k1) !! e_blk E = Some b /\ pcbs (k_proc k1) !! pcb_addr off = Some p /\
  map_Forall (fun _ => pcb_ok) (pcbs (k_proc k1)) /\
  forall x, x <> e_blk E -> x <> pcb_addr off -> pcbs (k_proc k1) !! x = pcbs (k_proc k) !! x.
Proof using All.
  destruct started_slot as (Hoff & -> & Ep). destruct Hk as ((b & B1 & B2 & B3 & B4 & B5) & _ & _ & _ & _ & _ & (_ & _ & _ & L0 & (b0 & L4 & L5 & L6) & _) & _).
  rewrite B2 in L4. apply (inj Some) in L4. subst b0.
  destruct Hruns as ((_ & _ & _ & _ & Epcbs & _ & _ & _ & _ & _ & _ & Pok & _) & _). fold off in Epcbs.
  destruct HE as (H1 & _ & H3 & _). destruct (slots_apart off (e_off E) Hoff H1 H3) as [Hne _]. fold (e_blk E) in Hne.
  pose proof (pcb_addr_nonzero _ H1) as Hnz. fold (e_blk E) in Hnz. unfold save_regs in Epcbs. rewrite (proj2 (Z.eqb_neq _ 0)) in Epcbs by done.
  exists (set_esp (reg_esp (k_cpu k)) (set_ebp (reg_ebp (k_cpu k)) b)). rewrite Epcbs. split_and!; try done.
  - rewrite lookup_insert_ne by done. by rewrite lookup_alter_eq, B2.
  - apply lookup_insert_eq.
  - apply map_Forall_insert_2; [done|]. intros x bx. destruct (decide (x = e_blk E)) as [->|Hx].
    + rewrite lookup_alter_eq, B2. cbn. by intros [= <-].
    + rewrite lookup_alter_ne by done. apply L0.
  - intros x X1 X2. by rewrite lookup_insert_ne, lookup_alter_ne by done.
Qed.

Lemma started_memory : own_tables (child_env off p u) (k_mem k1) /\ image_same (e_mem E) (k_mem k1) (e_fs E).
Proof using All.
  destruct started_slot as ((O1 & _) & _ & Ep). pose proof Hk as (_ & (I & (_ & _ & Vm & Vz) & _) & _ & _ & C & F & _).
  destruct Hruns as (_ & _ & _ & [W R] & _ & I1 & _). rewrite C in W, R. rewrite F in I1. split.
  - refine (conj W (conj _ (conj _ _))); cbn [e_dir child_env]; [intros va Hva|intros o Ho|]; rewrite R by lia; change (PROGRAM_VIRT / FOUR_MB) with 32; [| |exact Vz].
    + replace (va / FOUR_MB =? 32) with true by (symmetry; apply Z.eqb_eq; zlia).
      rewrite Ep. unfold phys. change (e_base (child_env off p u)) with (slot_base off). clear R. zlia.
    + replace ((VIDMAP_VIRT_ADDR + o) / FOUR_MB =? 32) with false by (symmetry; apply Z.eqb_neq; zlia).
      by apply Vm.
  - intros a Ha. rewrite I1; [by apply I|]. destruct HE as (_ & _ & _ & _ & _ & _ & H7 & H8 & _).
    by rewrite (same_size (e_mem E)).
Qed.

(** The caller and those before it wait. *)
Lemma started_waits b : waits_with u b -> pcbs (k_proc k1) !! e_blk E = Some b ->
  (forall x, x <> e_blk E -> x <> pcb_addr off -> pcbs (k_proc k1) !! x = pcbs (k_proc k) !! x) ->
  Forall (waits k1) (e_wait (child_env off b u)).
Proof using All.
  intros Hb Hlb Hx. destruct started_slot as (Hoff & _ & _). destruct HE as (H1 & _ & H3 & _ & _ & H6 & _).
  pose proof Hk as (_ & (_ & _ & P) & _ & _ & _ & _ & _ & Wt). cbn [e_wait child_env]. constructor.
  - split; [exact Hlb|]. intros va Hva. cbn [p_mem]. rewrite <- P by done. change (p_base _) with (e_base E). unfold phys.
    destruct (slots_apart off (e_off E) Hoff H1 H3) as [_ A]. unfold apart, slot_base in A. unfold e_base, slot_base.
    apply exec_keeps; unfold slot_base; lia.
  - rewrite Forall_forall in Wt, H6 |- *. intros a Ha. destruct (Wt a Ha) as [W1 W2]. destruct (H6 a Ha) as (A1 & A2 & A3).
    destruct (slots_apart off (p_off a) Hoff A1 A3) as [Hne A]. unfold apart, slot_base in A. split.
    + rewrite Hx; [exact W1| |exact Hne]. unfold p_blk, e_blk. rewrite !pcb_addr_eq by lia. lia.
    + intros va Hva. rewrite <- W2 by done. unfold p_base, slot_base. apply exec_keeps; unfold slot_base; lia.
Qed.

(** The program is a process. *)
Lemma child_process ino : c <= d -> inode_num (dentry_at (k_mem k) (entry_addr (fs_addr k) i)) = ino ->
  is_program (e_mem E) (e_fs E) ino ->
  exists b u0, waits_with u b /\ process (child_env off b u) u0 k1 /\ fresh (e_mem E) (e_fs E) ino (arg_of command c d) u u0.
Proof using All.
  intros Hcd Hino Hprog. destruct started_blocks as (b & Hb & Hlb & Hlp & Hmf & Hx). pose proof (started_waits b Hb Hlb Hx) as Wt.
  destruct started_slot as (Hoff & Eb & Ep). destruct started_memory as [T1 I1].
  pose proof Hk as (_ & (I & _ & _) & (S1 & S2 & S3 & S4 & _) & K & C & F & (L1 & L2 & L3 & _) & _).
  destruct (K kb Hkb) as (K1 & K2 & K3 & K4 & K5 & (tk & Htk & Ln)). destruct Ht as (_ & Htt & _).
  rewrite Htt in Htk. apply (inj Some) in Htk. subst tk.
  destruct Hruns as ((Q1 & Q2 & Q3 & Q4 & Q5 & _ & _ & Q6 & Q7 & Q8 & _ & Q9 & _ & _ & _ & Q10 & Q11 & Q12) & R1 & R2 & R3 & R4 & R5 & R6 & R7 & R8 & R9 & R10).
  exists b. exists (mk_view (fun va => rd (k_mem k1) (phys (child_env off b u) va)) (io_files p) (arg p) (v_color u) (v_screen u) (v_kbd u)).
  assert (terminals (k_disp k1) !! Z.to_nat (e_tid E) = Some (set_cur_task blk t)) as Ht1
    by (rewrite R2; apply list_lookup_insert_eq; by eapply lookup_lt_Some).
  split; [exact Hb|]. split; [refine (conj _ (conj (conj I1 (conj T1 _)) (conj (conj _ (conj _ (conj _ (conj S4 _)))) (conj _ (conj _ (conj _ (conj _ Wt)))))))|].
  - exists p. split_and!; try done. by rewrite Q4.
  - done.
  - by rewrite R2.
  - by rewrite R2.
  - destruct S3 as (t0 & Hi & Ht0 & Hr & Hc & Hm). rewrite Htt in Ht0. apply (inj Some) in Ht0. subst t0.
    exists (set_cur_task blk t). split_and!; try done. intros o Ho. cbn [v_screen]. rewrite <- Hm by done. apply exec_keeps; cbn; lia.
  - exists (set_cur_task blk t). split; [exact Ht1|]. exact Hv.
  - intros kb' Hkb'. cbn [v_kbd] in Hkb'. rewrite Hkb in Hkb'. injection Hkb' as <-.
    refine (conj _ (conj K2 (conj _ (conj R6 (conj _ _))))); [by rewrite R2| |by rewrite R8|].
    + assert (terms_wf k1 = terms_wf (with_term (e_tid E) (set_cur_task blk t) k)) as -> by (unfold terms_wf; by rewrite R2).
      apply terms_wf_with_term; [done|]. exact (Forall_lookup_1 _ _ _ _ (proj2 K3) Htt).
    + by exists (set_cur_task blk t).
  - by rewrite Q7.
  - by rewrite R9.
  - refine (conj _ (conj _ (conj _ (conj Hmf (conj _ _))))).
    + rewrite Q3, L1. done.
    + by rewrite Q6.
    + by rewrite R10.
    + by exists p.
    + exists (set_cur_task blk t). split; [exact Ht1|]. exact Q2.
  - refine (conj (proj1 Q9) (conj Q10 (conj Q11 (conj Q12 (conj _ (conj eq_refl (conj eq_refl (conj eq_refl _)))))))).
    + cbn [v_arg]. rewrite R1. unfold arg_of. by rewrite length_chars by lia.
    + intros q Hq. cbn [v_mem]. pose proof HE as (_ & _ & _ & _ & _ & _ & H7 & H8 & _).
      assert (image_ok (e_mem E) (e_fs E)) as Iok by (split; lia).
      destruct (same_program (e_mem E) (k_mem k) (e_fs E) ino Iok I Hprog) as (_ & El & Eq). rewrite <- Eq by done.
      rewrite Hino, F in R4. rewrite <- R4 by lia. rewrite Ep. unfold phys. change (e_base (child_env off b u)) with (slot_base off). f_equal. lia.
Qed.
End starting.

(** *** Halting *)

Lemma status_restored off s : free_slot off ->
  (forall i, 0 <= i -> Z.testbit s i = Z.testbit (Z.lor (e_status E) (2 ^ off)) i && negb (i =? off)) -> s = e_status E.
Proof.
  intros (O1 & O2 & _) H. apply Z.bits_inj'. intros j Hj. rewrite H, Z.lor_spec, Z.pow2_bits_eqb by lia.
  destruct (Z.eqb_spec j off) as [->|Hne]; cbn [negb].
  - by rewrite andb_false_r, O2.
  - rewrite (proj2 (Z.eqb_neq off j)) by done. by rewrite orb_false_r, andb_true_r.
Qed.

Section halting.
Context (u u1 : view) (k2 : kernel) (off : Z) (b : pcb_t).
Hypothesis Hoff : free_slot off.
Hypothesis Hb : waits_with u b.
Let E' := child_env off b u.
Hypothesis Hk2 : process E' u1 k2.

Lemma child_has_parent : exists b2 t, has_parent k2 off b2 b t /\ parent_task b2 = e_blk E /\ pcb_ok b2 /\
  terminals (k_disp k2) !! Z.to_nat (e_tid E) = Some t /\ sched_term_id (k_disp k2) = e_tid E.
Proof using All.
  destruct Hoff as (O1 & O2 & O3). destruct HE as (H1 & _ & H3 & _). destruct Hb as (B1 & B2 & B3 & B4 & B5).
  destruct (slots_apart off (e_off E) Hoff H1 H3) as [Hne _]. fold (e_blk E) in Hne.
  destruct Hk2 as ((b2 & P1 & P2 & P3 & _) & _ & (S1 & _ & (t0 & Hi & _) & _ & (t & Ht & _)) & _ & _ & _ & (_ & _ & _ & _ & (b3 & L1 & L2 & L3) & _) & Wt).
  change (e_blk E') with (pcb_addr off) in *. rewrite P2 in L1. apply (inj Some) in L1. subst b3.
  apply Forall_cons_1 in Wt as [[W1 _] _]. change (p_blk _) with (e_blk E) in W1. change (p_pcb _) with b in W1.
  exists b2, t. change (e_parent E') with (e_blk E) in L3. split_and!; try done.
  unfold has_parent. rewrite P1, L3. pose proof (pcb_addr_nonzero _ H1) as Hnz.
  refine (conj O1 (conj eq_refl (conj P2 (conj P3 (conj Hnz (conj Hne (conj W1 (conj _ (conj _ (conj _ _)))))))))).
  - rewrite B4. unfold e_base, slot_base. lia.
  - rewrite B4. unfold e_base, slot_base. zlia.
  - rewrite S1. exact Hi.
  - by rewrite S1.
Qed.

Lemma halt_resumes_caller (exc : bool) status :
  wp (sys_halt f status) (fun r k' => r = Back (if exc then 256 else Z.land status 0xFF) /\ process E (back u u1) k') (excepted exc k2).
Proof using All.
  destruct child_has_parent as (b2 & t & Hp & Hpar & Hok2 & Ht & Hs). pose proof Hp as (_ & _ & Hlb2 & _ & _ & _ & Hlb & _).
  rewrite Hpar in Hlb.
  pose proof Hk2 as (_ & (I & (W & _ & Vm & Vz) & _) & (S1 & S2 & S3 & S4 & (tv & Htv & V)) & K & C & F & (L1 & L2 & L3 & L0 & _ & (tc & Htc & _)) & Wt).
  change (e_dir E') with (e_dir E) in *. change (e_tid E') with (e_tid E) in *. rewrite Ht in Htv, Htc.
  apply (inj Some) in Htv, Htc. subst tv tc.
  pose proof (sys_halt_resumes f status off b2 b t (excepted exc k2) Hp) as Wp. change (resumed (excepted exc k2)) with (resumed k2) in Wp.
  cbn [excepted k_proc k_mem k_cpu set_k_proc except_raised set_except_raised pcb_status] in Wp. rewrite L1, C in Wp. specialize (Wp (proj2 (proj2 Hoff)) W).
  eapply wp_mono; [|exact Wp]. clear Wp. cbn beta. intros r k3 [-> R]. split; [done|].
  destruct R as (R1 & R2 & (l & Hl8 & Hl & R3) & R4 & [W3 R5] & _ & _ & _ & R6 & R7 & R8 & R9 & R10 & R11 & R12).
  rewrite L1 in R2. apply (status_restored off _ Hoff) in R2. rewrite Hpar in R1, R4. rewrite Hs in R4. rewrite C in *.
  destruct Hb as (B1 & B2 & B3 & B4 & B5). destruct HE as (H1 & _ & H3 & H4 & H5 & H6 & H7 & H8 & _).
  destruct (slots_apart off (e_off E) Hoff H1 H3) as [Hne _]. fold (e_blk E) in Hne.
  assert (forall a, 0 <= a < W32 -> a < e_dir E \/ e_dir E + SIZEOFDIR <= a -> rd (k_mem k3) a = rd (k_mem k2) a) as Rm
    by (intros a Ha Ho; apply (within_rd _ _ _ _ a R8); lia).
  apply Forall_cons_1 in Wt as [[_ Wm] Wt]. cbn [p_mem] in Wm. change (p_base _) with (e_base E) in Wm.
  assert (terminals (k_disp k3) !! Z.to_nat (e_tid E) = Some (set_cur_task (e_blk E) t)) as Ht3
    by (rewrite R4; apply list_lookup_insert_eq; by eapply lookup_lt_Some).
  assert (pcbs (k_proc k3) !! e_blk E = Some b) as Hlb3 by (rewrite R3, lookup_insert_ne by done; exact Hlb).
  refine (conj _ (conj (conj _ (conj (conj W3 (conj _ (conj _ _))) _)) (conj (conj _ (conj _ (conj _ (conj S4 _)))) (conj _ (conj R9 (conj _ (conj _ _))))))).
  - exists b. by split_and!.
  - intros a Ha. destruct Hframe as [A _]. unfold apart in A. change (e_mem E') with (e_mem E) in I. change (e_fs E') with (e_fs E) in I.
    rewrite Rm by lia. by apply I.
  - intros va Hva. rewrite R5 by lia.
    replace (va / FOUR_MB =? PROGRAM_VIRT / FOUR_MB) with true by (symmetry; apply Z.eqb_eq; change (PROGRAM_VIRT / FOUR_MB) with 32; zlia).
    rewrite B4. unfold phys. clear R5. zlia.
  - intros o Ho. rewrite R5 by lia. change (PROGRAM_VIRT / FOUR_MB) with 32.
    replace ((VIDMAP_VIRT_ADDR + o) / FOUR_MB =? 32) with false by (symmetry; apply Z.eqb_neq; zlia). by apply Vm.
  - rewrite R5 by lia. exact Vz.
  - intros va Hva. cbn [back v_mem]. rewrite <- Wm by done. unfold phys, e_base, slot_base. apply Rm; lia.
  - rewrite R4. exact Hs.
  - by rewrite R4.
  - destruct S3 as (t0 & Hi & Ht0 & Hr & Hc & Hm). change (e_tid E') with (e_tid E) in Hi, Ht0. rewrite Ht in Ht0. apply (inj Some) in Ht0. subst t0.
    exists (set_cur_task (e_blk E) t). split_and!; try done. intros o Ho. cbn [back v_screen]. rewrite <- Hm by done. apply Rm; cbn; lia.
  - exists (set_cur_task (e_blk E) t). split; [exact Ht3|]. exact V.
  - intros kb' Hkb'. destruct (K kb' Hkb') as (K1 & K2 & K3 & K4 & K5 & (tk & Htk & Ln)). change (e_tid E') with (e_tid E) in *.
    rewrite Ht in Htk. apply (inj Some) in Htk. subst tk. refine (conj _ (conj K2 (conj _ (conj R7 (conj _ _))))); [by rewrite R4| |by rewrite R10|].
    + assert (terms_wf k3 = terms_wf (with_term (e_tid E) (set_cur_task (e_blk E) t) k2)) as -> by (unfold terms_wf; by rewrite R4).
      apply terms_wf_with_term; [done|]. exact (Forall_lookup_1 _ _ _ _ (proj2 K3) Ht).
    + by exists (set_cur_task (e_blk E) t).
  - by rewrite R11.
  - refine (conj R2 (conj R6 (conj _ (conj _ (conj _ _))))); [by rewrite R12| | |].
    + rewrite R3. apply map_Forall_insert_2; [|exact L0]. destruct Hok2 as (_ & X). by split.
    + by exists b.
    + by exists (set_cur_task (e_blk E) t).
  - rewrite Forall_forall in Wt, H6 |- *. intros a Ha. destruct (Wt a Ha) as [Wa Wb]. destruct (H6 a Ha) as (A1 & A2 & A3).
    destruct (slots_apart off (p_off a) Hoff A1 A3) as [Hna _]. split.
    + rewrite R3, lookup_insert_ne by (unfold p_blk; done). exact Wa.
    + intros va Hva. rewrite <- Wb by done. unfold p_base, slot_base. apply Rm; lia.
Qed.
End halting.

Lemma not_excepted E' u k : process E' u k -> excepted false k = k.
Proof using.
  intros (_ & _ & _ & _ & _ & _ & (_ & L & _) & _). unfold excepted. destruct k as [m io dev cpu disp [pp cu st nu ex ss] pic rtc kbd mo fs].
  cbn in *. by subst ex.
Qed.

(** ** The whole call *)

Hypothesis Hpop : our_popcount (e_status E) <> MAX_PROCESSES.

Lemma caller_slots u k : process E u k -> slots_left k.
Proof using HE Hpop.
  intros (_ & _ & _ & _ & _ & _ & (L1 & _ & _ & L0 & _) & _). destruct HE as (_ & H2 & _).
  split_and!; rewrite ?L1; done || apply H2.
Qed.

(** [main] started in the slot of a child, and its end. *)
Lemma run_main_ok main u k1 off b u0 (Q : view -> Z -> view -> Prop) eip esp : free_slot off -> waits_with u b ->
  process (child_env off b u) u0 k1 -> does (process (child_env off b u)) main u0 (Q u0) ->
  wp (run_main f main eip esp) (fun r k' => exists r1 u1, Q u0 r1 u1 /\ r = u8 r1 /\ process E (back u u1) k') k1.
Proof using HE Hframe.
  intros Hoff Hb Hk1 Hmain. unfold run_main, start. wp_steps. eapply wp_mono; [|exact (Hmain k1 Hk1)].
  intros r1 k2 (u1 & HQ & Hk2). cbn beta. change (syscall f [] 1 (u32 r1) 0 0) with (sys_halt f (u8 (u32 r1))).
  pose proof (halt_resumes_caller u u1 k2 off b Hoff Hb Hk2 false (u8 (u32 r1))) as W. rewrite (not_excepted _ _ _ Hk2) in W.
  eapply wp_mono; [|exact W].
  intros r k3 [-> Hk3]. wp_steps. exists r1, u1. split_and!; [exact HQ| |exact Hk3].
  change 0xFF with (Z.ones 8). rewrite Z.land_ones by lia. zlia.
Qed.

(** The names of the image are those of the memory. *)
Lemma named_same u k s s' a b i : process E u k -> 0 <= a <= b -> (forall j, 0 <= j <= b -> s' j = s j) ->
  first_named (e_mem E) (e_fs E) i (name_of s a b) -> first_named (k_mem k) (e_fs E) i (name_of s' a b).
Proof using HE.
  intros Hk Hab Es (H1 & H2 & H3). destruct (image_sound E HE u k Hk) as (I1 & I2 & I3 & I4).
  pose proof HE as (_ & _ & _ & _ & _ & _ & _ & _ & H63). destruct (same_counts (e_mem E) (k_mem k) (e_fs E) I3) as (En & _).
  assert (forall j, 0 <= j < rd32 (e_mem E) (e_fs E) -> has_name (k_mem k) (e_fs E) j (name_of s' a b) <->
    has_name (e_mem E) (e_fs E) j (name_of s a b)) as Hh.
  { intros j Hj. rewrite (has_name_same (e_mem E) (k_mem k) (e_fs E) I1 I3 H63 j _ Hj).
    apply (str_eqn_upto _ _ _ _ (b - a)); [lia| |unfold name_of; by rewrite Z.ltb_irrefl].
    intros x Hx. unfold name_of. case_if; [by rewrite Es by lia|done]. }
  split_and!; [lia|rewrite En; lia|by apply Hh|]. intros j Hj Hj'. apply (H3 j Hj), Hh; [lia|done].
Qed.

Lemma spawn_with run u kb p s a b c d i (Q : Z -> view -> Prop) :
  let ino := inode_num (dentry_at (e_mem E) (entry_addr (e_fs E) i)) in
  v_kbd u = Some kb -> parsed s a b c d -> b - a <= CMD_BUF_SIZE -> d - c <= 128 -> in_page p (d + 1) ->
  (forall j, 0 <= j <= d -> bytes_of u p j = s j) ->
  first_named (e_mem E) (e_fs E) i (name_of s a b) -> is_program (e_mem E) (e_fs E) ino ->
  (forall off b1 u0 k1 eip esp, free_slot off -> waits_with u b1 -> process (child_env off b1 u) u0 k1 ->
     fresh (e_mem E) (e_fs E) ino (arg_of s c d) u u0 -> wp (run eip esp) (fun r k' => exists u', Q r u' /\ process E u' k') k1) ->
  does (process E) (ece391_execute f run p) u Q.
Proof using HE Hframe Hpop.
  intros ino Hkb Hp Hab Harg Hpage Hs Hn Hprog Hrun k Hk. pose proof Hpage as (P1 & P2 & P3).
  unfold ece391_execute, DO_CALL, syscall. change (i32 2 =? 1) with false. change (i32 2 =? 2) with true. cbv iota.
  rewrite u32_small by lia. unfold user_str. wp_steps. apply (process_ptr E HE u k); [done|lia|]. wp_steps.
  set (s' := at_ (k_mem k) (phys E p)).
  assert (forall j, 0 <= j <= d -> s' j = s j) as Es.
  { intros j Hj. unfold s'. rewrite (process_at E HE u k) by (done || lia). by apply Hs. }
  pose proof (parsed_ext s s' a b c d Hp Es (at_bytes _ _)) as Hp'.
  destruct (image_sound E HE u k Hk) as (I1 & I2 & I3 & I4). pose proof HE as (_ & _ & _ & _ & _ & _ & _ & _ & H63).
  destruct (same_counts (e_mem E) (k_mem k) (e_fs E) I3) as (En & _). pose proof Hp as (_ & Hab0 & Hbc & _).
  pose proof Hn as (Hi & _). assert (0 <= i < rd32 (e_mem E) (e_fs E)) as Hi' by (destruct Hn as (? & ? & _); lia).
  assert (inode_num (dentry_at (k_mem k) (entry_addr (fs_addr k) i)) = ino) as Hino
    by (rewrite I4; unfold ino; by rewrite (dentry_same (e_mem E) (k_mem k) (e_fs E) I1 I3 H63)).
  assert (first_named (k_mem k) (fs_addr k) i (name_of s' a b)) as Hn'.
  { rewrite I4. apply (named_same u k s); [done|lia|intros j Hj; apply Es; lia|done]. }
  destruct (same_program (e_mem E) (k_mem k) (e_fs E) ino I1 I3 Hprog) as (Hprog' & _).
  destruct (caller_starts u k kb Hk Hkb) as (t & Ht & Hv).
  assert (arg_of s' c d = arg_of s c d) as Ea.
  { unfold arg_of, chars. apply map_ext_in. intros j Hj. apply list_elem_of_In, elem_of_seqZ in Hj. apply Es. lia. }
  assert (is_program (k_mem k) (fs_addr k) (inode_num (dentry_at (k_mem k) (entry_addr (fs_addr k) i)))) as Hprog1
    by (rewrite Hino, I4; exact Hprog').
  pose proof (execute_runs f s' a b c d i (e_tid E) (e_blk E) t k (process_layout E HE f Hframe u k Hk)
    (caller_slots u k Hk) Hp' Hab Harg Hn' Hprog1 Ht) as W.
  eapply wp_mono; [|exact W]. clear W.
  cbn beta. intros r k1 (blk & p1 & -> & R).
  destruct (child_process u k kb Hk Hkb s' c d i t k1 blk p1 Ht Hv R ino ltac:(lia) Hino Hprog) as (b1 & u0 & Hb & Hk1 & Hfr).
  rewrite Ea in Hfr. destruct (started_slot u k kb Hk Hkb s' c d i t k1 blk p1 Ht Hv R) as (Hoff & _ & _).
  cbn beta iota. by apply (Hrun (pcb_num p1) b1 u0).
Qed.

Lemma spawn_ok main u kb p s a b c d i (Q : view -> Z -> view -> Prop) :
  let ino := inode_num (dentry_at (e_mem E) (entry_addr (e_fs E) i)) in
  v_kbd u = Some kb -> parsed s a b c d -> b - a <= CMD_BUF_SIZE -> d - c <= 128 -> in_page p (d + 1) ->
  (forall j, 0 <= j <= d -> bytes_of u p j = s j) ->
  first_named (e_mem E) (e_fs E) i (name_of s a b) -> is_program (e_mem E) (e_fs E) ino ->
  (forall E' u0, env_ok E' -> e_mem E' = e_mem E -> e_fs E' = e_fs E -> fresh (e_mem E) (e_fs E) ino (arg_of s c d) u u0 ->
     does (process E') main u0 (Q u0)) ->
  does (process E) (ece391_execute f (run_main f main) p) u (fun r u' => exists u0 r1 u1,
    fresh (e_mem E) (e_fs E) ino (arg_of s c d) u u0 /\ Q u0 r1 u1 /\ r = u8 r1 /\ u' = back u u1).
Proof using HE Hframe Hpop.
  intros ino Hkb Hp Hab Harg Hpage Hs Hn Hprog Hmain. eapply (spawn_with _ u kb); try eassumption.
  intros off b1 u0 k1 eip esp Hoff Hb Hk1 Hfr. eapply wp_mono; [|apply (run_main_ok main u k1 off b1 u0 Q _ _ Hoff Hb Hk1)].
  - cbn beta. intros r k3 (r1 & u1 & HQ & -> & Hk3). exists (back u u1). split; [|exact Hk3]. by exists u0, r1, u1.
  - apply Hmain; [by apply child_env_ok|done|done|exact Hfr].
Qed.
End spawn.
