(* ===== verification/Programs.v ===== *)
(** * User programs (src/syscalls/ece391*.c)

    The programs of the repository, as clients of the library of UserLib.v.  Arrays
    and string literals are in the program's page: the arrays of a function are
    parameters, [rodata l] is the address of the literal with the bytes [l].
    [irqs] are the interrupts that arrive while a read waits. *)

From Stdlib Require Import ZArith Lia String.
From stdpp Require Import gmap list numbers strings.
From S2P Require Import Prelude Memory LibString State Syscalls UserLib.

(** Literals with and without a newline at the end. *)
Definition ln (s : string) : list Z := bytes_of_string s ++ [10].
Definition tx (s : string) : list Z := bytes_of_string s.

Section programs.
Context (f : frame) (child : Z -> Z -> M Z) (rodata : list Z -> Z).

Definition puts_lit (l : list Z) : M unit := ece391_fdputs f child 1 (rodata l).

(** ** ece391testprint.c *)

Definition testprint_main : M Z :=
  puts_lit (ln "Hello, if this ran, the program was correct. Yay!") ;;
  mret 0.

(** ** ece391cat.c *)

Definition cat_loop (irqs : list (M unit)) (fd buf : Z) : M Z :=
  loopM (fun _ : unit =>
    cnt ← ece391_read f child irqs fd buf 1024;
    if negb (0 =? cnt) then
      if -1 =? cnt then puts_lit (ln "file read failed") ;; mret (inr 3)
      else
        r ← ece391_write f child 1 buf cnt;
        if -1 =? r then mret (inr 3) else mret (inl tt)
    else mret (inr 0)) tt.

Definition cat_main (irqs : list (M unit)) (buf : Z) : M Z :=
  r ← ece391_getargs f child buf 1024;
  if negb (0 =? r) then puts_lit (ln "could not read arguments") ;; mret 3 else
  fd ← ece391_open f child buf;
  if -1 =? fd then puts_lit (ln "file not found") ;; mret 2 else
  cat_loop irqs fd buf.

(** ** ece391ls.c *)

Definition ls_loop (irqs : list (M unit)) (fd buf : Z) : M Z :=
  loopM (fun _ : unit =>
    cnt ← ece391_read f child irqs fd buf 32;
    if negb (0 =? cnt) then
      if -1 =? cnt then puts_lit (ln "directory entry read failed") ;; mret (inr 3)
      else
        store (buf + cnt) 10 ;;
        r ← ece391_write f child 1 buf (cnt + 1);
        if -1 =? r then mret (inr 3) else mret (inl tt)
    else mret (inr 0)) tt.

Definition ls_main (irqs : list (M unit)) (buf : Z) : M Z :=
  fd ← ece391_open f child (rodata (tx "."));
  if -1 =? fd then puts_lit (ln "directory open failed") ;; mret 2 else
  ls_loop irqs fd buf.

(** ** ece391hello.c *)

Definition hello_main (irqs : list (M unit)) (buf : Z) : M Z :=
  puts_lit (tx "Hi, what's your name? ") ;;
  cnt ← ece391_read f child irqs 0 buf 1023;
  if -1 =? cnt then puts_lit (ln "Can't read name from keyboard.") ;; mret 3 else
  store (buf + cnt) 0 ;;
  puts_lit (tx "Hello, ") ;;
  ece391_fdputs f child 1 buf ;;
  mret 0.

(** ** ece391counter.c *)

Definition counter_choice (buf : Z) : M (option Z) :=
  s ← user_str buf;
  len ← lift Diverges (ece391_strlen s);
  c ← load buf;
  if (1 <? len) || ((len =? 1) && ((c <? 48) || (50 <? c))) then mret None
  else mret (Some (if c =? 48 then 100 else if c =? 49 then 10000 else if c =? 50 then 100000 else 0)).

Definition counter_main (irqs : list (M unit)) (buf : Z) : M Z :=
  puts_lit (ln "Enter the Test Number: (0): 100, (1): 10000, (2): 100000") ;;
  r ← ece391_read f child irqs 0 buf 1023;
  let cnt := u32 r in
  if u32 (-1) =? cnt then puts_lit (ln "Can't read the number from keyboard.") ;; mret 3 else
  store (buf + cnt) 0 ;;
  max ← counter_choice buf;
  match max with
  | None => puts_lit (ln "Wrong Choice!") ;; mret 0
  | Some max =>
      loopM (fun i =>
        if i <? max then
          p ← user_ptr buf;
          mem_op (fun m => ece391_itoa m (u32 (i + 1)) p 10) ;;
          ece391_fdputs f child 1 buf ;;
          puts_lit (ln "") ;;
          mret (inl (u32 (i + 1)))
        else mret (inr tt)) 0 ;;
      mret 0
  end.

(** ** ece391shell.c *)

(** One turn of the loop; [Some r]: main returns [r]. *)
Definition shell_turn (irqs : list (M unit)) (buf : Z) : M (option Z) :=
  puts_lit (tx "391OS> ") ;;
  cnt ← ece391_read f child irqs 0 buf 1023;
  if -1 =? cnt then puts_lit (ln "read from keyboard failed") ;; mret (Some 3) else
  c ← (if 0 <? cnt then load (buf + (cnt - 1)) else mret 0);
  let cnt := if (0 <? cnt) && (10 =? c) then cnt - 1 else cnt in
  store (buf + cnt) 0 ;;
  s ← user_str buf;
  e ← user_str (rodata (tx "exit"));
  r ← lift Diverges (ece391_strcmp s e);
  if 0 =? r then mret (Some 0) else
  c ← load buf;
  if 0 =? c then mret None else
  rval ← ece391_execute f child buf;
  (if -1 =? rval then puts_lit (ln "no such command")
   else if 256 =? rval then puts_lit (ln "program terminated by exception")
   else if negb (0 =? rval) then puts_lit (ln "program terminated abnormally")
   else skip) ;;
  mret None.

(** [typing]: the interrupts during each of the reads. *)
Definition shell_main (typing : list (list (M unit))) (buf : Z) : M Z :=
  puts_lit (ln "Starting 391 Shell") ;;
  loopM (fun typing =>
    o ← shell_turn (hd [] typing) buf;
    match o with Some r => mret (inr r) | None => mret (inl (tl typing)) end) typing.

(** ** ece391grep.c *)

Definition u_strcpy (dst src : Z) : M unit :=
  d ← user_ptr dst; s ← user_ptr src; mem_op (fun m => ece391_strcpy m d s).

(** The end of the line that starts at [line_start]. *)
Definition find_end (data line_start last : Z) : M Z :=
  loopM (fun line_end =>
    if line_end <? last then
      c ← load (data + line_end);
      if negb (10 =? c) then mret (inl (line_end + 1)) else mret (inr line_end)
    else mret (inr line_end)) line_start.

(** The line is printed once if it has the string; [s] points to (signed) chars, the
    data to unsigned ones. *)
Definition search_line (s fname data line_start line_end s_len : Z) : M unit :=
  loopM (fun check =>
    if check <? line_end then
      c ← load s;
      d ← load (data + check);
      hit ← (if i8 c =? d then
               s1 ← user_str (data + check);
               s2 ← user_str s;
               r ← lift Diverges (ece391_strncmp s1 s2 s_len);
               mret (0 =? r)
             else mret false);
      if hit : bool then
        ece391_fdputs f child 1 fname ;;
        puts_lit (tx ":") ;;
        ece391_fdputs f child 1 (data + line_start) ;;
        puts_lit (ln "") ;;
        mret (inr tt)
      else mret (inl (check + 1))
    else mret (inr tt)) line_start.

(** The lines of the buffer; the result is the new value of [last]. *)
Definition search_lines (s fname data cnt s_len last : Z) : M Z :=
  loopM (fun line_start =>
    line_end ← find_end data line_start last;
    c ← load (data + line_end);
    if negb (10 =? c) && negb (0 =? cnt) && negb (line_start =? 0) then
      store (data + line_end) 0 ;;
      u_strcpy data (data + line_start) ;;
      mret (inr (last - line_start))
    else
      store (data + line_end) 0 ;;
      search_line s fname data line_start line_end s_len ;;
      let line_start := line_end + 1 in
      if last <=? line_start then mret (inr 0) else mret (inl line_start)) 0.

Definition do_one_file (irqs : list (M unit)) (s fname data : Z) : M Z :=
  str ← user_str s;
  s_len ← lift Diverges (ece391_strlen str);
  fd ← ece391_open f child fname;
  if -1 =? fd then puts_lit (ln "file open failed") ;; mret (-1) else
  r ← loopM (fun last =>
    cnt ← ece391_read f child irqs fd (data + last) (1024 - last);
    if -1 =? cnt then puts_lit (ln "file read failed") ;; mret (inr (-1)) else
    last ← search_lines s fname data cnt s_len (last + cnt);
    if 0 =? cnt then mret (inr 0) else mret (inl last)) 0;
  if r =? -1 then mret (-1) else
  r ← ece391_close f child fd;
  if -1 =? r then puts_lit (ln "file close failed") ;; mret (-1) else mret 0.

Definition grep_main (irqs : list (M unit)) (buf search data : Z) : M Z :=
  r ← ece391_getargs f child search 1024;
  if negb (0 =? r) then puts_lit (ln "could not read argument") ;; mret 3 else
  fd ← ece391_open f child (rodata (tx "."));
  if -1 =? fd then puts_lit (ln "directory open failed") ;; mret 2 else
  loopM (fun _ : unit =>
    cnt ← ece391_read f child irqs fd buf 32;
    if negb (0 =? cnt) then
      if -1 =? cnt then puts_lit (ln "directory entry read failed") ;; mret (inr 3)
      else
        c ← load buf;
        if 46 =? c then mret (inl tt) else
        store (buf + cnt) 0 ;;
        r ← do_one_file irqs search buf data;
        if negb (0 =? r) then mret (inr 3) else mret (inl tt)
    else mret (inr 0)) tt.
End programs.
