(* ===== verification/Clients.v ===== *)
(** * The user programs are correct

    Theorems about the programs of Programs.v, proved from the interface [OsCalls]
    of the system calls and so true of the kernel. *)

From Stdlib Require Import ZArith Lia String.
From stdpp Require Import gmap list numbers strings.
From S2P Require Import Prelude Memory LibString State Display Paging Pcb FileSystem Vfs Keyboard Terminal Syscalls.
From S2P Require Import Execute Calls UserLib Process Programs.

(** The bytes of [l] and a NUL are at [p]. *)
Definition holds (u : view) (p : Z) (l : list Z) : Prop :=
  in_page p (Z.of_nat (length l) + 1) /\ forall i, 0 <= i <= Z.of_nat (length l) -> bytes_of u p i = arr_at (l ++ [0]) i.

Lemma holds_chars u p l : holds u p l -> chars (bytes_of u p) (Z.of_nat (length l)) = l.
Proof.
  intros [_ H]. rewrite <- (chars_arr_at l) at 2. unfold chars. apply map_ext_in. intros i Hi.
  apply list_elem_of_In, elem_of_seqZ in Hi. apply H. lia.
Qed.

Lemma holds_str u p l : text_ok l = true -> holds u p l -> str_at u p (Z.of_nat (length l)).
Proof.
  intros T [Hp H]. split; [|done]. destruct (arr_at_text l T) as [_ (C1 & C2 & C3)].
  split_and!; [done|intros i Hi; rewrite H by lia; by apply C2|by rewrite H by lia].
Qed.

Lemma bytes_other p n g u q i : q + i < p \/ p + n <= q + i -> bytes_of (with_bytes p n g u) q i = bytes_of u q i.
Proof.
  intros H. unfold bytes_of, with_bytes. cbn [v_mem]. destruct (Z.leb_spec p (q + i)); [|done].
  by rewrite (proj2 (Z.ltb_ge _ _)) by lia.
Qed.

Lemma bytes_in p n g u i : 0 <= i < n -> bytes_of (with_bytes p n g u) p i = u8 (g i).
Proof.
  intros H. unfold bytes_of, with_bytes. cbn [v_mem]. rewrite (proj2 (Z.leb_le _ _)), (proj2 (Z.ltb_lt _ _)) by lia. cbn [andb].
  do 2 f_equal. lia.
Qed.

Lemma holds_other p n g u q l : apart q (Z.of_nat (length l) + 1) p n -> holds u q l -> holds (with_bytes p n g u) q l.
Proof. intros A [Hq H]. split; [done|]. intros i Hi. rewrite bytes_other by (unfold apart in A; lia). by apply H. Qed.

(** The console is still the same but for what is printed. *)
Definition same_console (u u' : view) : Prop := v_color u' = v_color u /\ v_kbd u' = v_kbd u.

Section client.
Context {P : view -> kernel -> Prop} {f : frame} {child : Z -> Z -> M Z} {im : memory} {fs : Z}.
Context `{!OsCalls P f child im fs}.
Context (rodata : list Z -> Z).

Lemma acts_fdputs u fd d p l : 0 <= fd < MAX_DESC -> desc u fd = Some d -> file_ops d = stdout -> str_at u p l ->
  acts P (ece391_fdputs f child fd p) u tt (printed (chars (bytes_of u p) l) u).
Proof using All.
  intros Hfd Hd Hop Hs. unfold ece391_fdputs. eapply does_bind; [by apply os_str|]. intros s u' [-> Hsi].
  pose proof Hs as [(C1 & C2 & C3) (P1 & P2 & P3)]. rewrite ece391_strlen_eq, (strlen_spec s l); [|split_and!|lia].
  2: done. 2: { intros i Hi. rewrite Hsi by lia. by apply C2. } 2: by rewrite Hsi by lia.
  eapply acts_seq; [apply acts_mret|]. eapply acts_seq; [eapply os_write; [done|exact Hd|exact Hop|unfold in_page; lia]|]. apply acts_mret.
Qed.

(** Standard output is open and the literals are in place. *)
Definition ready (lits : list (list Z)) (u : view) : Prop :=
  (exists d, desc u 1 = Some d /\ file_ops d = stdout) /\ Forall (fun l => text_ok l = true /\ holds u (rodata l) l) lits.

Definition clear_of (lits : list (list Z)) (p n : Z) : Prop :=
  Forall (fun l => apart (rodata l) (Z.of_nat (length l) + 1) p n) lits.

Lemma acts_puts lits u l : ready lits u -> l ∈ lits -> acts P (puts_lit f child rodata l) u tt (printed l u).
Proof using All.
  intros [(d & Hd & Hop) F] Hl. destruct (proj1 (Forall_forall _ _) F l Hl) as [T H].
  rewrite <- (holds_chars u (rodata l) l H) at 2. apply (acts_fdputs u 1 d); [lia|done|done|by apply holds_str].
Qed.

Lemma ready_printed lits t u : ready lits u -> ready lits (printed t u).
Proof. done. Qed.
Lemma ready_bytes lits p n g u : clear_of lits p n -> ready lits u -> ready lits (with_bytes p n g u).
Proof.
  intros A [Hd F]. split; [done|]. unfold clear_of in A. rewrite Forall_forall in A, F |- *. intros l Hl.
  destruct (F l Hl) as [T H]. split; [done|]. by apply holds_other; [apply A|].
Qed.
Lemma ready_desc lits fd d u : 0 <= fd -> fd <> 1 -> ready lits u -> ready lits (with_desc fd d u).
Proof.
  intros H0 H1 [(d1 & Hd & Hop) F]. split; [|done]. exists d1. split; [|done]. unfold desc, with_desc in *. cbn [v_fds with_fds].
  by rewrite list_lookup_insert_ne by lia.
Qed.
Lemma ready_console lits s kb u : ready lits u -> ready lits (with_console s kb u).
Proof. done. Qed.
Lemma clear_of_sub lits p n q m : clear_of lits p n -> p <= q -> 0 <= m -> q + m <= p + n -> clear_of lits q m.
Proof. unfold clear_of. rewrite !Forall_forall. intros H H1 H2 H3 l Hl. specialize (H l Hl). unfold apart in *. lia. Qed.

(** ** Names *)

Lemma bytes_str buf l u n : text_ok l = true -> in_page buf n -> Z.of_nat (length l) + 1 <= n ->
  holds (with_bytes buf (Z.of_nat (length l) + 1) (arr_at (l ++ [0])) u) buf l.
Proof.
  intros F%text_ok_forall (P1 & P2 & P3) Hl. split; [unfold in_page; lia|]. intros i Hi. rewrite bytes_in by lia. apply u8_small.
  apply arr_at_bytes. apply Forall_app_2; [|repeat constructor; cbn; lia].
  eapply List.Forall_impl; [|exact F]. intros x Hx. cbn beta in Hx. unfold is_byte. lia.
Qed.

(** Which entry a name denotes depends on its characters only. *)
Lemma first_named_ext i s s' l : (forall j, 0 <= j <= l -> s j = s' j) -> 0 <= l -> s l = 0 -> first_named im fs i s -> first_named im fs i s'.
Proof.
  intros H Hl Hz (N1 & N2 & N3). assert (forall x, has_name im fs x s <-> has_name im fs x s') as Ex
    by (intros x; by apply (str_eqn_upto _ _ _ _ l)).
  split_and!; [lia|lia|by apply Ex|]. intros j Hj N. by apply (N3 j Hj), Ex.
Qed.

Lemma holds_end u p l : holds u p l -> bytes_of u p (Z.of_nat (length l)) = 0.
Proof. intros [_ H]. rewrite H by lia. unfold arr_at. by rewrite Nat2Z.id, lookup_app_r, Nat.sub_diag by lia. Qed.

Lemma holds_named u p l i : holds u p l -> first_named im fs i (arr_at (l ++ [0])) -> first_named im fs i (bytes_of u p).
Proof.
  intros [_ H]. apply (first_named_ext i _ _ (Z.of_nat (length l))); [intros j Hj; symmetry; by apply H|lia|].
  unfold arr_at. rewrite Nat2Z.id, lookup_app_r, Nat.sub_diag by lia. done.
Qed.

Lemma holds_unknown u p l : holds u p l -> (forall j, 0 <= j < rd32 im fs -> ~ has_name im fs j (arr_at (l ++ [0]))) -> unknown im fs u p.
Proof.
  intros Hh N j Hj Hn. apply (N j Hj). pose proof (holds_end u p l Hh) as Hz. destruct Hh as [_ H].
  exact (proj1 (str_eqn_upto _ _ _ _ (Z.of_nat (length l)) ltac:(lia) H Hz) Hn).
Qed.

Lemma holds_not_std u p l : holds u p l -> not_std (arr_at (l ++ [0])) -> not_std (bytes_of u p).
Proof.
  intros Hh [N1 N2]. pose proof (holds_end u p l Hh) as Hz. destruct Hh as [_ H].
  split; intros E; [apply N1|apply N2]; apply (str_eqn_prefix (bytes_of u p) _ _ _ (Z.of_nat (length l))); try done; lia.
Qed.

Lemma free_fd_lt l fd : free_fd l = Some fd -> (Z.to_nat fd < length l)%nat.
Proof.
  unfold free_fd. obind. destruct (list_find _ _) as [[n d0]|] eqn:El; [|done].
  intros [= <-]. apply list_find_Some in El as [El _]. rewrite Nat2Z.id. by eapply lookup_lt_Some.
Qed.

(** ** cat *)

Definition contents (ino : Z) : list Z := map (file_byte im fs ino) (seqZ 0 (file_length im fs ino)).

Section cat.
Context (irqs : list (M unit)) (buf : Z).
Definition cat_lits : list (list Z) := [ln "could not read arguments"; ln "file not found"; ln "file read failed"].
Hypothesis Hbuf : in_page buf 1024.
Hypothesis Hclear : clear_of cat_lits buf 1024.

(** [pos] bytes of the file have been printed. *)
Definition cat_inv (fd : Z) (d : fdesc_t) (u0 : view) (n : Z) (u : view) : Prop :=
  exists pos, 0 <= pos /\ n = file_length im fs (inode d) - pos /\ 0 <= n /\ desc u fd = Some (set_file_pos pos d) /\
    ready cat_lits u /\ same_console u0 u /\
    v_screen u = text_spec (v_color u0) (map (file_byte im fs (inode d)) (seqZ 0 pos)) (v_screen u0).

Lemma chars_bytes p n g u : 0 <= n -> (forall i, 0 <= i < n -> 0 <= g i < W8) -> chars (bytes_of (with_bytes p n g u) p) n = map g (seqZ 0 n).
Proof.
  intros Hn Hg. unfold chars. apply map_ext_in. intros i Hi. apply list_elem_of_In, elem_of_seqZ in Hi.
  rewrite bytes_in by lia. apply u8_small, Hg. lia.
Qed.

Lemma text_spec_seq col g a n s : 0 <= a -> 0 <= n ->
  text_spec col (map (fun i => g (a + i)) (seqZ 0 n)) (text_spec col (map g (seqZ 0 a)) s) = text_spec col (map g (seqZ 0 (a + n))) s.
Proof.
  intros Ha Hn. rewrite (seqZ_split 0 (a + n) a), map_app by lia. rewrite (map_seqZ_shift g (0 + a)). unfold text_spec.
  rewrite fold_left_app. by replace (a + n - a) with n by lia.
Qed.

Lemma cat_loop_prints fd d u : 0 <= fd < MAX_DESC -> fd <> 1 -> desc u fd = Some (set_file_pos 0 d) -> file_ops d = regf_jt ->
  file_ok im fs (inode d) -> ready cat_lits u ->
  does P (cat_loop f child rodata irqs fd buf) u (fun r u' => r = 0 /\ same_console u u' /\
    v_screen u' = text_spec (v_color u) (contents (inode d)) (v_screen u)).
Proof using All.
  intros Hfd Hne Hd Hop Hfile Hr. pose proof Hfile as [[_ Hlen] _]. pose proof Hbuf as (P1 & P2 & P3).
  assert (0 <= file_length im fs (inode d)) as Hlen0 by apply rd32_range.
  apply (does_loop P _ (fun n _ => cat_inv fd d u n) _ (file_length im fs (inode d))); [| |lia].
  2: { exists 0. split_and!; try done; lia. }
  clear Hd Hr. intros n [] u1 (pos & Hpos & -> & Hn & Hd & Hr & Hcol & Hscr).
  pose proof (os_read_file u1 irqs fd (set_file_pos pos d) buf 1024 Hfd Hd Hop Hfile Hpos ltac:(cbn; lia) Hbuf) as Rd. cbn zeta in Rd.
  change (inode (set_file_pos pos d)) with (inode d) in Rd. change (file_pos (set_file_pos pos d)) with pos in Rd.
  set (c := read_count im fs (inode d) pos 1024) in Rd. assert (0 <= c <= 1024 /\ c <= file_length im fs (inode d) - pos) as [Hc Hc']
    by (unfold c, read_count; lia).
  eapply acts_bind; [exact Rd|]. clear Rd. cbv beta. destruct (Z.eqb_spec 0 c) as [Ec|Ec]; cbn [negb].
  - apply does_mret. split; [done|]. split; [exact Hcol|]. cbn [v_screen with_desc with_fds with_bytes]. rewrite Hscr. unfold contents.
    replace pos with (file_length im fs (inode d)) by (unfold c, read_count in Ec; lia). done.
  - rewrite (proj2 (Z.eqb_neq _ _)) by lia.
    set (u2 := with_desc fd _ _). assert (ready cat_lits u2) as Hr2.
    { apply ready_desc; [lia|done|]. apply ready_bytes; [|done]. apply (clear_of_sub _ buf 1024); [done|lia|lia|lia]. }
    destruct Hr2 as [(d1 & Hd1 & Hop1) Hl2].
    eapply acts_bind; [apply (os_write u2 1 d1 buf c); [lia|done|done|unfold in_page; lia]|]. cbv beta. rewrite (proj2 (Z.eqb_neq _ _)) by lia.
    apply does_mret. exists (file_length im fs (inode d) - (pos + c)). split; [lia|]. exists (pos + c). split_and!; try lia; try done.
    + unfold desc, u2, with_desc. cbn [v_fds with_fds printed with_bytes]. rewrite list_lookup_insert_eq; [done|]. by eapply lookup_lt_Some.
    + by split; [exists d1|].
    + change (v_screen (printed (chars (bytes_of u2 buf) c) u2)) with
        (text_spec (v_color u1) (chars (bytes_of (with_bytes buf c (fun i => file_byte im fs (inode d) (pos + i)) u1) buf) c) (v_screen u1)).
      rewrite chars_bytes by (lia || (intros; apply file_byte_range)). rewrite (proj1 Hcol), Hscr. by apply text_spec_seq; lia.
Qed.

(** What cat does for the argument [name]. *)
Definition cat_spec (u : view) (name : list Z) (r : Z) (s : screen) : Prop :=
  (name = [] -> r = 3 /\ s = text_spec (v_color u) (ln "could not read arguments") (v_screen u)) /\
  (name <> [] -> (forall j, 0 <= j < rd32 im fs -> ~ has_name im fs j (arr_at (name ++ [0]))) ->
     r = 2 /\ s = text_spec (v_color u) (ln "file not found") (v_screen u)) /\
  (forall i, first_named im fs i (arr_at (name ++ [0])) -> let d := dentry_at im (entry_addr fs i) in
     name <> [] -> (length name <= 32)%nat -> not_std (arr_at (name ++ [0])) -> file_type d = 2 -> file_ok im fs (inode_num d) ->
     r = 0 /\ s = text_spec (v_color u) (contents (inode_num d)) (v_screen u)).

(** The argument of a process. *)
Definition arg_is (u : view) (l : list Z) : Prop :=
  v_arg u = l ++ replicate (129 - length l) 0 /\ (length l <= 128)%nat /\ text_ok l = true.

(** The name is that of a file, or of nothing. *)
Definition file_or_none (name : list Z) : Prop :=
  (forall j, 0 <= j < rd32 im fs -> ~ has_name im fs j (arr_at (name ++ [0]))) \/
  exists i, first_named im fs i (arr_at (name ++ [0])) /\ (length name <= 32)%nat /\ not_std (arr_at (name ++ [0])) /\
    file_type (dentry_at im (entry_addr fs i)) = 2 /\ file_ok im fs (inode_num (dentry_at im (entry_addr fs i))).

Lemma first_named_unique i j s : first_named im fs i s -> first_named im fs j s -> i = j.
Proof.
  intros (H1 & H2 & H3) (H1' & H2' & H3'). destruct (Z.lt_trichotomy i j) as [?|[?|?]]; [|done|]; exfalso.
  - apply (H3' i); [lia|done].
  - apply (H3 j); [lia|done].
Qed.

Lemma cat_main_ok u name fd : arg_is u name -> ready cat_lits u -> free_fd (v_fds u) = Some fd -> 0 <= fd < MAX_DESC -> fd <> 1 ->
  (name <> [] -> file_or_none name) ->
  does P (cat_main f child rodata irqs buf) u (fun r u' => same_console u u' /\ cat_spec u name r (v_screen u')).
Proof using All.
  intros (Ha & Hl & T) Hr Hff Hfd Hne Hname. pose proof (text_ok_forall _ T) as F. unfold cat_main.
  pose proof (os_getargs u name buf 1024 Ha Hl F Hbuf ltac:(lia)) as G.
  destruct (decide (name = [])) as [->|Hn].
  { rewrite bool_decide_eq_false_2 in G by tauto. eapply acts_bind; [exact G|]. cbn [Z.eqb negb].
    eapply acts_bind; [apply (acts_puts cat_lits); [done|by left]|]. apply does_mret. split; [done|]. split_and!; [done|done|done]. }
  rewrite bool_decide_eq_true_2 in G by (split; [done|lia]). eapply acts_bind; [exact G|]. cbv beta. change (negb (0 =? 0)) with false. cbv iota. clear G.
  pose proof (bytes_str buf name u 1024 T Hbuf ltac:(lia)) as Hh. set (u1 := with_bytes _ _ _ _) in *.
  assert (ready cat_lits u1) as Hr1.
  { apply ready_bytes; [|done]. apply (clear_of_sub _ buf 1024); [done|lia|lia|lia]. }
  destruct (Hname Hn) as [Hu|(i & Hi & Hlen & Hstd & Hty & Hok)].
  - eapply acts_bind; [eapply os_open_unknown; [by apply holds_str|by eapply holds_unknown]|]. cbn [Z.eqb].
    eapply acts_bind; [apply (acts_puts cat_lits); [done|right; by left]|]. apply does_mret. split; [done|]. split_and!; [done|done|].
    intros i (Hi1 & Hi2 & _). exfalso. by apply (Hu i Hi1).
  - set (d := dentry_at im (entry_addr fs i)) in *.
    eapply acts_bind; [apply (os_open u1 buf (Z.of_nat (length name)) i fd regf_jt); [by apply holds_str|cbn; lia|by eapply holds_named| | |done]|].
    { by eapply holds_not_std. }
    { fold d. by rewrite Hty. }
    fold d. cbv beta. rewrite (proj2 (Z.eqb_neq (-1) fd)) by lia. set (u2 := with_desc _ _ _).
    eapply does_mono; [|apply (cat_loop_prints fd (opened regf_jt (inode_num d)) u2); [done|done| |done|done|by apply ready_desc; [lia|..]]].
    + intros r u' (-> & Hcon & Hs). split; [exact Hcon|]. split_and!; [done| |].
      * intros _ Hu. destruct Hi as (Hi1 & Hi2 & _). exfalso. by apply (Hu i Hi1).
      * intros j Hj d' _ _ _ _ _. assert (i = j) as <- by (by eapply first_named_unique). by split.
    + unfold desc, u2, with_desc. cbn [v_fds with_fds]. rewrite list_lookup_insert_eq; [done|]. by apply free_fd_lt.
Qed.
End cat.

(** ** ls *)

Fixpoint until_nul (l : list Z) : list Z := match l with [] => [] | c :: r => if c =? 0 then [] else c :: until_nul r end.
Definition entry_name (i : Z) : list Z := until_nul (chars (at_ im (entry_addr fs i)) FILENAME_LEN).
Definition listing (n : Z) : list Z := concat (map (fun i => entry_name i ++ [10]) (seqZ 0 n)).

(** Every entry has a name, padded with NULs. *)
Definition dir_ok : Prop := forall i l, 0 <= i < rd32 im fs -> name_len im fs i l ->
  0 < l /\ (l = FILENAME_LEN \/ at_ im (entry_addr fs i) 31 = 0).

Lemma until_nul_app l r : Forall (fun c => c <> 0) l -> until_nul (l ++ r) = l ++ until_nul r.
Proof. induction 1 as [|c l Hc _ IH]; [done|]. cbn [app until_nul]. by rewrite (proj2 (Z.eqb_neq _ _)), IH by done. Qed.

Lemma entry_name_chars i l : name_len im fs i l -> entry_name i = chars (at_ im (entry_addr fs i)) l.
Proof.
  intros (H1 & H2 & H3). unfold entry_name, chars. rewrite (seqZ_split 0 FILENAME_LEN l), map_app by lia. rewrite until_nul_app.
  - destruct (Z.eq_dec l FILENAME_LEN) as [->|Hne].
    { change (seqZ (0 + FILENAME_LEN) (FILENAME_LEN - FILENAME_LEN)) with (@nil Z). apply app_nil_r. }
    rewrite Z.add_0_l, (seqZ_split l (FILENAME_LEN - l) 1) by lia. change (seqZ l 1) with [l]. cbn [app map until_nul].
    rewrite H3 by lia. cbn. apply app_nil_r.
  - apply Forall_forall. intros c Hc. apply list_elem_of_In, in_map_iff in Hc as (j & <- & Hj). apply list_elem_of_In, elem_of_seqZ in Hj.
    apply H2. lia.
Qed.

Lemma listing_next n : 0 <= n -> listing (n + 1) = listing n ++ entry_name n ++ [10].
Proof.
  intros Hn. unfold listing. rewrite seqZ_app by lia. rewrite map_app, concat_app. change (seqZ (0 + n) 1) with [0 + n].
  cbn [map concat]. by rewrite app_nil_r, Z.add_0_l.
Qed.

Section ls.
Context (irqs : list (M unit)) (buf : Z).
Definition ls_lits : list (list Z) := [tx "."; ln "directory open failed"; ln "directory entry read failed"].
Hypothesis Hbuf : in_page buf 33.
Hypothesis Hclear : clear_of ls_lits buf 33.
Hypothesis Hdir : dir_ok.
Hypothesis Hnum : rd32 im fs <= 63.

Definition ls_inv (fd : Z) (d : fdesc_t) (u0 : view) (n : Z) (u : view) : Prop :=
  exists pos, 0 <= pos /\ n = rd32 im fs - pos /\ 0 <= n /\ desc u fd = Some (set_file_pos pos d) /\
    ready ls_lits u /\ same_console u0 u /\ v_screen u = text_spec (v_color u0) (listing pos) (v_screen u0).

(** The name and its newline in the buffer. *)
Lemma ls_line pos l u : 0 <= pos < rd32 im fs -> name_len im fs pos l -> 0 < l <= FILENAME_LEN ->
  chars (bytes_of (with_bytes (buf + l) 1 (fun _ => 10)
    (with_bytes buf FILENAME_LEN (strncpy_bytes (at_ im (entry_addr fs pos)) l) u)) buf) (l + 1) = entry_name pos ++ [10].
Proof.
  intros Hpos Hl H. rewrite chars_snoc by lia. f_equal.
  - rewrite (entry_name_chars pos l Hl). unfold chars. apply map_ext_in. intros i Hi. apply list_elem_of_In, elem_of_seqZ in Hi.
    rewrite bytes_other, bytes_in by lia. unfold strncpy_bytes. rewrite (proj2 (Z.ltb_lt _ _)) by lia. apply u8_small, rd_range.
  - f_equal. pose proof (bytes_in (buf + l) 1 (fun _ => 10) (with_bytes buf FILENAME_LEN
      (strncpy_bytes (at_ im (entry_addr fs pos)) l) u) 0 ltac:(lia)) as B. unfold bytes_of in B. rewrite Z.add_0_r in B. exact B.
Qed.

Lemma ls_loop_prints fd d u : 0 <= fd < MAX_DESC -> fd <> 1 -> desc u fd = Some (set_file_pos 0 d) -> file_ops d = dir_jt ->
  ready ls_lits u ->
  does P (ls_loop f child rodata irqs fd buf) u (fun r u' => r = 0 /\ same_console u u' /\
    v_screen u' = text_spec (v_color u) (listing (rd32 im fs)) (v_screen u)).
Proof using All.
  intros Hfd Hne Hd Hop Hr. pose proof Hbuf as (P1 & P2 & P3). pose proof (rd32_range im fs) as Rn.
  apply (does_loop P _ (fun n _ => ls_inv fd d u n) _ (rd32 im fs)); [| |lia].
  2: { exists 0. split_and!; try done; lia. }
  clear Hd Hr. intros n [] u1 (pos & Hpos & -> & Hn & Hd & Hr & Hcol & Hscr).
  destruct (Z.eq_dec pos (rd32 im fs)) as [Ep|Hlt].
  { eapply acts_bind; [apply (os_read_dir_end u1 irqs fd (set_file_pos pos d) buf 32); [done|done|done|cbn; lia|unfold in_page; lia|lia]|].
    cbv beta. change (negb (0 =? 0)) with false. cbv iota. apply does_mret. split; [done|]. split; [exact Hcol|]. cbn [v_screen with_bytes]. by rewrite Hscr, Ep. }
  eapply does_bind; [apply (os_read_dir u1 irqs fd (set_file_pos pos d) buf 32); [done|done|done|cbn; lia|unfold in_page; lia|lia]|].
  cbv beta. cbn [file_pos set_file_pos]. intros cnt u2 (l & Hl & Hcl & H31 & ->).
  destruct (Hdir pos l ltac:(lia) Hl) as [Hl0 Hl32]. assert (cnt = l) as -> by (destruct Hl32 as [->|H0]; [lia|by apply H31]).
  rewrite !(proj2 (Z.eqb_neq _ _)) by lia. cbn [negb]. set (u2 := with_bytes buf FILENAME_LEN _ u1).
  assert (desc u2 fd = Some (set_file_pos pos d)) as Hd2 by exact Hd.
  eapply acts_bind; [apply os_store; unfold in_page; lia|]. cbv beta. set (d' := set_file_pos (pos + 1) (set_file_pos pos d)).
  set (u3 := with_bytes (buf + l) 1 (fun _ => 10) u2).
  assert (ready ls_lits (with_desc fd d' u3)) as Hr3.
  { apply ready_desc; [lia|done|]. apply ready_bytes; [apply (clear_of_sub _ buf 33); [done|lia|lia|lia]|].
    apply ready_bytes; [apply (clear_of_sub _ buf 33); [done|lia|lia|lia]|]. done. }
  change (with_bytes (buf + l) 1 (fun _ => 10) (with_desc fd d' u2)) with (with_desc fd d' u3).
  pose proof Hr3 as [(d1 & Hd1 & Hop1) _].
  eapply acts_bind; [apply (os_write (with_desc fd d' u3) 1 d1 buf (l + 1)); [lia|done|done|unfold in_page; lia]|]. cbv beta.
  rewrite (proj2 (Z.eqb_neq _ _)) by lia. apply does_mret. exists (rd32 im fs - (pos + 1)). split; [lia|]. exists (pos + 1).
  split_and!; try lia; try done.
  - unfold desc, with_desc. cbn [v_fds with_fds printed]. rewrite list_lookup_insert_eq; [done|]. by eapply lookup_lt_Some.
  - change (bytes_of (with_desc fd d' u3) buf) with (bytes_of u3 buf). unfold u3, u2. rewrite ls_line by (done || lia).
    cbn [v_screen printed with_desc with_fds with_bytes v_color]. rewrite (proj1 Hcol), Hscr, listing_next by lia.
    unfold text_spec. by rewrite <- fold_left_app.
Qed.

Lemma ls_main_ok u i fd : ready ls_lits u -> free_fd (v_fds u) = Some fd -> 0 <= fd < MAX_DESC -> fd <> 1 ->
  first_named im fs i (arr_at [46; 0]) -> file_type (dentry_at im (entry_addr fs i)) = 1 ->
  does P (ls_main f child rodata irqs buf) u (fun r u' => r = 0 /\ same_console u u' /\
    v_screen u' = text_spec (v_color u) (listing (rd32 im fs)) (v_screen u)).
Proof using All.
  intros Hr Hff Hfd Hne Hi Hty. unfold ls_main. pose proof Hr as [_ F]. apply Forall_cons_1 in F as [[T Hh] _].
  set (d := dentry_at im (entry_addr fs i)) in *.
  eapply acts_bind; [apply (os_open u (rodata (tx ".")) 1 i fd dir_jt); [by apply (holds_str _ _ (tx "."))|cbn; lia|by eapply (holds_named _ _ (tx "."))| | |done]|].
  { apply (holds_not_std _ _ (tx ".") Hh). split; intros E; specialize (E 0 ltac:(lia) ltac:(intros; lia)); discriminate. }
  { fold d. by rewrite Hty. }
  fold d. cbv beta. rewrite (proj2 (Z.eqb_neq (-1) fd)) by lia.
  eapply does_mono; [|apply (ls_loop_prints fd (opened dir_jt (inode_num d)) (with_desc fd (opened dir_jt (inode_num d)) u));
    [done|done| |done|by apply ready_desc; [lia|..]]]; [done|].
  unfold desc, with_desc. cbn [v_fds with_fds]. rewrite list_lookup_insert_eq; [done|]. by apply free_fd_lt.
Qed.
End ls.
End client.
