(* ===== verification/Syserr.v ===== *)
(** * The error tests of the system calls (src/syscalls/ece391syserr.c)

    The tests of the repository for the error behaviour of its system calls, and that
    the kernel passes them. *)

From Stdlib Require Import ZArith Lia String.
From stdpp Require Import gmap list numbers strings.
From S2P Require Import Prelude Memory LibString State Display Paging Pcb FileSystem Vfs Keyboard Terminal Syscalls.
From S2P Require Import Execute Calls UserLib Process Programs Clients.

Abbreviation NEG_FD := (-1073741823).
Abbreviation BIG_FD := 1073741823.
Abbreviation BIG_NUM := 1073741823.
Abbreviation NEG_NUM := (-1073741823).

Section tests.
Context (f : frame) (child : Z -> Z -> M Z) (rodata : list Z -> Z).

(** A check: the call must return -1; otherwise its message is printed. *)
Definition expect_fail (c : M Z) (msg : list Z) (fail : Z) : M Z :=
  r ← c;
  if negb (-1 =? r) then puts_lit f child rodata msg ;; mret 2 else mret fail.

Definition verdict (name : string) (fail : Z) : M Z :=
  (if negb (fail =? 0) then puts_lit f child rodata (ln (name ++ ": FAIL")) else puts_lit f child rodata (ln (name ++ ": PASS"))) ;;
  mret fail.

Definition err_fd (name : string) (fd buf : Z) : M Z :=
  fail ← expect_fail (ece391_read f child [] fd buf 31) (ln "read fail") 0;
  fail ← expect_fail (ece391_write f child fd buf 31) (ln "write fail") fail;
  fail ← expect_fail (ece391_close f child fd) (ln "close fail") fail;
  verdict name fail.

Definition err_neg_fd (buf : Z) : M Z := err_fd "err_neg_fd" NEG_FD buf.
Definition err_big_fd (buf : Z) : M Z := err_fd "err_big_fd" BIG_FD buf.

(** for(i = 0; i < 7; i++): the opens that fail are counted. *)
Fixpoint open_lots (n : nat) (cnt : Z) : M Z :=
  match n with
  | O => mret cnt
  | S n' => r ← ece391_open f child (rodata (tx ".")); open_lots n' (if -1 =? r then cnt + 1 else cnt)
  end.

Fixpoint close_all (fds : list Z) : M unit :=
  match fds with [] => skip | i :: fds' => ece391_close f child i ;; close_all fds' end.

Definition err_open_lots : M Z :=
  cnt ← open_lots 7 0;
  close_all [2; 3; 4; 5; 6; 7] ;;
  if cnt =? 1 then puts_lit f child rodata (ln "err_open_lots: PASS") ;; mret 0
  else puts_lit f child rodata (ln "err_open_lots: FAIL") ;; mret 2.

Definition err_open : M Z :=
  fail ← expect_fail (ece391_open f child (rodata (tx "helloo"))) (ln "'helloo' fail") 0;
  fail ← expect_fail (ece391_open f child (rodata (tx "shel"))) (ln "'shel' fail") fail;
  fail ← expect_fail (ece391_open f child (rodata (tx ""))) (ln "empty string fail") fail;
  verdict "err_open" fail.

Fixpoint expect_all (c : Z -> M Z) (msg : list Z) (ids : list Z) (fail : Z) : M Z :=
  match ids with [] => mret fail | i :: ids' => fail ← expect_fail (c i) msg fail; expect_all c msg ids' fail end.

Definition err_unopened (buf : Z) : M Z :=
  fail ← expect_all (ece391_close f child) (ln "close unopened or invalid fd fail") [0; 1; 2; 3; 4; 5; 6; 7] 0;
  fail ← expect_all (fun i => ece391_read f child [] i buf 31) (ln "read from unopened fd fail") [2; 3; 4; 5; 6; 7] fail;
  fail ← expect_all (fun i => ece391_write f child i buf 31) (ln "write to unopened fd fail") [2; 3; 4; 5; 6; 7] fail;
  verdict "err_unopened" fail.

Definition err_vidmap : M Z :=
  fail ← expect_fail (ece391_vidmap f child 0) (ln "Null pointer fail") 0;
  fail ← expect_fail (ece391_vidmap f child 0x400000) (ln "Kernel pointer fail fail") fail;
  verdict "err_vidmap" fail.

Definition err_stdin_out (buf : Z) : M Z :=
  fail ← expect_fail (ece391_write f child 0 buf 31) (ln "write to stdin fail") 0;
  fail ← expect_fail (ece391_read f child [] 1 buf 31) (ln "read from stdout fail") fail;
  verdict "err_stdin_out" fail.

(** The other registers hold what they held. *)
Definition err_syscall_num (ebx ecx edx : Z) : M Z :=
  fail ← expect_fail (call_sys f child ebx ecx edx BIG_NUM) (ln "syscall 0 fail") 0;
  fail ← expect_fail (call_sys f child ebx ecx edx NEG_NUM) (ln "big num syscall fail") fail;
  fail ← expect_fail (call_sys f child ebx ecx edx 0) (ln "neg num syscall fail") fail;
  verdict "err_syscall_num" fail.

(** [b]: the arrays of the tests. *)
Definition all_tests (b ebx ecx edx : Z) : M Z :=
  r1 ← err_neg_fd b;
  r2 ← err_big_fd b;
  r3 ← err_open_lots;
  r4 ← err_open;
  r5 ← err_unopened b;
  r6 ← err_vidmap;
  r7 ← err_stdin_out b;
  r8 ← err_syscall_num ebx ecx edx;
  let fail := r1 + r2 + r3 + r4 + r5 + r6 + r7 + r8 in
  (if negb (fail =? 0) then puts_lit f child rodata (10 :: ln "Overall Tests: FAIL")
   else puts_lit f child rodata (10 :: ln "Overall Tests: PASS")) ;;
  mret fail.

Definition syserr_main (irqs : list (M unit)) (buf b ebx ecx edx : Z) : M Z :=
  puts_lit f child rodata (tx "Choose from tests 1-8. 0 to run all: ") ;;
  cnt ← ece391_read f child irqs 0 buf 127;
  if -1 =? cnt then puts_lit f child rodata (ln "Can't read test #") ;; mret 2 else
  c ← load buf;
  let select := c - 48 in
  if select =? 0 then all_tests b ebx ecx edx
  else if select =? 1 then err_neg_fd b
  else if select =? 2 then err_big_fd b
  else if select =? 3 then err_open_lots
  else if select =? 4 then err_open
  else if select =? 5 then err_unopened b
  else if select =? 6 then err_vidmap
  else if select =? 7 then err_stdin_out b
  else if select =? 8 then err_syscall_num ebx ecx edx
  else puts_lit f child rodata (tx "Invalid test number. Choose from tests 1-8 or 0") ;; mret 0.
End tests.

(** ** The kernel passes the tests *)

(** Only the standard descriptors are open. *)
Definition idle (l : list fdesc_t) : Prop := exists d0 d1 r, l = d0 :: d1 :: r /\ length r = 6%nat /\
  (file_ops d0 = stdin /\ flags d0 = IN_USE) /\ (file_ops d1 = stdout /\ flags d1 = IN_USE) /\
  Forall (fun d => file_ops d = empty_f_ops_tab /\ flags d = NOT_USED) r.

Lemma idle_closed l fd : idle l -> 2 <= fd < MAX_DESC -> exists d, l !! Z.to_nat fd = Some d /\ file_ops d = empty_f_ops_tab.
Proof.
  intros (d0 & d1 & r & -> & Hl & _ & _ & F) Hfd. destruct (lookup_lt_is_Some_2 r (Z.to_nat (fd - 2)) ltac:(lia)) as [d Hd].
  exists d. split; [|by apply (Forall_lookup_1 _ _ _ _ F Hd)].
  replace (Z.to_nat fd) with (S (S (Z.to_nat (fd - 2)))) by lia. done.
Qed.

Lemma used_not_free l : Forall (fun x => flags x = IN_USE) l -> list_find (fun d => flags d = NOT_USED) l = None.
Proof. intros F. apply list_find_None. eapply List.Forall_impl; [|exact F]. cbn. by intros x ->. Qed.

Lemma free_fd_none l : Forall (fun x => flags x = IN_USE) l -> free_fd l = None.
Proof. intros F. unfold free_fd. by rewrite used_not_free. Qed.

Lemma free_fd_app pre d r : Forall (fun x => flags x = IN_USE) pre -> flags d = NOT_USED -> free_fd (pre ++ d :: r) = Some (Z.of_nat (length pre)).
Proof.
  intros F Hd. unfold free_fd. rewrite list_find_app_r by (by apply used_not_free). cbn [list_find]. rewrite decide_True by done.
  cbn. by f_equal.
Qed.

Definition pass (name : string) : list Z := ln (name ++ ": PASS").
Definition test_names : list string :=
  ["err_neg_fd"; "err_big_fd"; "err_open_lots"; "err_open"; "err_unopened"; "err_vidmap"; "err_stdin_out"; "err_syscall_num"]%string.
Definition prompt : list Z := tx "Choose from tests 1-8. 0 to run all: ".
Definition overall : list Z := 10 :: ln "Overall Tests: PASS".
Definition invalid : list Z := tx "Invalid test number. Choose from tests 1-8 or 0".
Definition test_lits : list (list Z) :=
  [tx "."; tx "helloo"; tx "shel"; tx ""; prompt; overall; invalid] ++ map pass test_names.

Section passes.
Context {P : view -> kernel -> Prop} {f : frame} {child : Z -> Z -> M Z} {im : memory} {fs : Z}.
Context `{!OsCalls P f child im fs}.
Context (rodata : list Z -> Z).

(** The directory of the tests. *)
Definition no_entry (name : list Z) : Prop := forall j, 0 <= j < rd32 im fs -> ~ has_name im fs j (arr_at (name ++ [0])).
Definition test_dir : Prop :=
  (exists i, first_named im fs i (arr_at [46; 0]) /\ file_type (dentry_at im (entry_addr fs i)) = 1) /\
  no_entry (tx "helloo") /\ no_entry (tx "shel") /\ no_entry (tx "").
Hypothesis Hdir : test_dir.

(** What the tests need, and that only [t] has been printed since. *)
Definition testing (u : view) : Prop := idle (v_fds u) /\ ready rodata test_lits u.
Definition after (t : list Z) (u u' : view) : Prop :=
  testing u' /\ v_color u' = v_color u /\ v_screen u' = text_spec (v_color u) t (v_screen u).

Definition passes (c : M Z) (t : list Z) : Prop := forall u, testing u -> does P c u (fun r u' => r = 0 /\ after t u u').

Lemma after_app t t' u u' u'' : after t u u' -> after t' u' u'' -> after (t ++ t') u u''.
Proof.
  intros (_ & C1 & S1) (T & C2 & S2). split_and!; [done|by rewrite C2|]. rewrite S2, S1, C1. unfold text_spec. by rewrite fold_left_app.
Qed.

Lemma after_refl u : testing u -> after [] u u.
Proof. by intros T. Qed.

Lemma after_puts l u : testing u -> l ∈ test_lits -> acts P (puts_lit f child rodata l) u tt (printed l u) /\ after l u (printed l u).
Proof using All. intros [I R] Hl. split; [by apply (acts_puts rodata test_lits)|]. by split_and!; [split|..]. Qed.

(** A check that passes. *)
Lemma expect_fail_ok c msg fail u Q : acts P c u (-1) u -> does P (mret fail) u Q -> does P (expect_fail f child rodata c msg fail) u Q.
Proof. intros Hc HQ. unfold expect_fail. eapply acts_bind; [exact Hc|]. cbv beta. change (negb (-1 =? -1)) with false. exact HQ. Qed.

Lemma expect_fail_acts c msg u : acts P c u (-1) u -> acts P (expect_fail f child rodata c msg 0) u 0 u.
Proof. intros Hc. apply expect_fail_ok; [done|apply acts_mret]. Qed.

Lemma expect_all_acts c msg ids u : Forall (fun i => acts P (c i) u (-1) u) ids -> acts P (expect_all f child rodata c msg ids 0) u 0 u.
Proof.
  induction 1 as [|i ids Hi _ IH]; [apply acts_mret|]. cbn [expect_all]. eapply acts_seq; [by apply expect_fail_acts|]. exact IH.
Qed.

Lemma verdict_passes name u : testing u -> pass name ∈ test_lits ->
  does P (verdict f child rodata name 0) u (fun r u' => r = 0 /\ after (pass name) u u').
Proof using All.
  intros T Hn. destruct (after_puts (pass name) u T Hn) as [Hp Ha]. unfold verdict. change (negb (0 =? 0)) with false. cbv iota.
  eapply acts_bind; [exact Hp|]. by apply does_mret.
Qed.

Ltac lit_in := apply (bool_decide_unpack _); vm_compute; exact I.

Lemma err_fd_passes name fd buf : pass name ∈ test_lits -> -H32 <= fd < H32 -> ~ 0 <= fd < MAX_DESC -> 0 <= buf < W32 ->
  passes (err_fd f child rodata name fd buf) (pass name).
Proof using All.
  intros Hn H1 H2 Hb u T. unfold err_fd.
  eapply acts_bind; [apply expect_fail_acts, os_refuse_read; [done|done|lia|by left]|]. cbv beta.
  eapply acts_bind; [apply expect_fail_acts, os_refuse_write; [done|done|lia|by left]|]. cbv beta.
  eapply acts_bind; [apply expect_fail_acts, os_refuse_close; [done|left; lia]|]. by apply verdict_passes.
Qed.

Lemma lit_holds u l : testing u -> l ∈ test_lits -> text_ok l = true /\ holds u (rodata l) l.
Proof. intros [_ [_ F]] Hl. exact (proj1 (Forall_forall _ _) F l Hl). Qed.

Lemma open_missing u name : testing u -> name ∈ test_lits -> no_entry name -> acts P (ece391_open f child (rodata name)) u (-1) u.
Proof using All.
  intros T Hl N. destruct (lit_holds u name T Hl) as [Ht Hh]. eapply os_open_unknown; [by apply holds_str|by eapply holds_unknown].
Qed.

Lemma err_open_passes : passes (err_open f child rodata) (pass "err_open").
Proof using All.
  intros u T. unfold err_open. destruct Hdir as (_ & N1 & N2 & N3).
  eapply acts_bind; [apply expect_fail_acts, open_missing; [done|lit_in|done]|]. cbv beta.
  eapply acts_bind; [apply expect_fail_acts, open_missing; [done|lit_in|done]|]. cbv beta.
  eapply acts_bind; [apply expect_fail_acts, open_missing; [done|lit_in|done]|]. cbv beta. apply verdict_passes; [done|lit_in].
Qed.

Lemma err_unopened_passes buf : 0 <= buf < W32 -> passes (err_unopened f child rodata buf) (pass "err_unopened").
Proof using All.
  intros Hb u T. unfold err_unopened. pose proof T as [I _].
  assert (forall fd, 2 <= fd < MAX_DESC -> exists d, desc u fd = Some d /\ file_ops d = empty_f_ops_tab) as Hc by (intros fd; by apply idle_closed).
  eapply acts_bind; [apply expect_all_acts|].
  { apply Forall_forall. intros fd Hfd. apply os_refuse_close; destruct (decide (2 <= fd < MAX_DESC)); [| |right; by apply Hc|by left];
      repeat (apply elem_of_cons in Hfd as [-> | Hfd]; [lia|]); by apply elem_of_nil in Hfd. }
  cbv beta. assert (forall fd, fd ∈ [2; 3; 4; 5; 6; 7] -> 2 <= fd < MAX_DESC) as Hr.
  { intros fd Hfd. repeat (apply elem_of_cons in Hfd as [-> | Hfd]; [lia|]). by apply elem_of_nil in Hfd. }
  eapply acts_bind; [apply expect_all_acts|].
  { apply Forall_forall. intros fd Hfd%Hr. destruct (Hc fd Hfd) as (d & Hd & Hop). apply os_refuse_read; [lia|done|lia|].
    right; right. exists d. rewrite Hop. split; [done|by right; left]. }
  cbv beta. eapply acts_bind; [apply expect_all_acts|].
  { apply Forall_forall. intros fd Hfd%Hr. destruct (Hc fd Hfd) as (d & Hd & Hop). apply os_refuse_write; [lia|done|lia|].
    right; right. exists d. rewrite Hop. split; [done|by right; left]. }
  cbv beta. apply verdict_passes; [done|lit_in].
Qed.

Lemma err_vidmap_passes : passes (err_vidmap f child rodata) (pass "err_vidmap").
Proof using All.
  intros u T. unfold err_vidmap.
  eapply acts_bind; [apply expect_fail_acts, os_refuse_vidmap; [lia|left; cbn; lia]|]. cbv beta.
  eapply acts_bind; [apply expect_fail_acts, os_refuse_vidmap; [lia|left; cbn; lia]|]. cbv beta. apply verdict_passes; [done|lit_in].
Qed.

Lemma err_stdin_out_passes buf : 0 <= buf < W32 -> passes (err_stdin_out f child rodata buf) (pass "err_stdin_out").
Proof using All.
  intros Hb u T. unfold err_stdin_out. pose proof T as [(d0 & d1 & r & El & _ & (Ho0 & _) & (Ho1 & _) & _) _].
  eapply acts_bind; [apply expect_fail_acts, os_refuse_write; [lia|done|lia|]|].
  { right; right. exists d0. unfold desc. rewrite El, Ho0. split; [done|by left]. }
  cbv beta. eapply acts_bind; [apply expect_fail_acts, os_refuse_read; [lia|done|lia|]|].
  { right; right. exists d1. unfold desc. rewrite El, Ho1. split; [done|by left]. }
  cbv beta. apply verdict_passes; [done|lit_in].
Qed.

Lemma err_syscall_num_passes ebx ecx edx : passes (err_syscall_num f child rodata ebx ecx edx) (pass "err_syscall_num").
Proof using All.
  intros u T. unfold err_syscall_num.
  do 3 (eapply acts_bind; [apply expect_fail_acts, os_refuse_call; lia|]; cbv beta). apply verdict_passes; [done|lit_in].
Qed.

(** *** Opening too many files *)

Lemma testing_fds l u : testing u -> (exists d, l !! 1%nat = Some d /\ file_ops d = stdout) -> ready rodata test_lits (with_fds l u).
Proof. intros [_ [_ R]] Hd. by split. Qed.

(** The opens use the free descriptors [r], and then fail. *)
Lemma open_lots_acts i o n pre r u cnt : first_named im fs i (arr_at [46; 0]) ->
  file_type (dentry_at im (entry_addr fs i)) = 1 -> o = opened dir_jt (inode_num (dentry_at im (entry_addr fs i))) ->
  text_ok (tx ".") = true -> holds u (rodata (tx ".")) (tx ".") ->
  v_fds u = pre ++ r -> Forall (fun d => flags d = IN_USE) pre -> Forall (fun d => flags d = NOT_USED) r ->
  acts P (open_lots f child rodata n cnt) u (cnt + Z.of_nat (n - length r))
    (with_fds (pre ++ replicate (n `min` length r) o ++ drop n r) u).
Proof using All.
  intros Hi Hty Ho Ht. revert pre r u cnt. induction n as [|n IH]; intros pre r u cnt Hh Hf Fp Fr.
  { cbn [open_lots Nat.min Nat.sub replicate app]. rewrite drop_0, Z.add_0_r, <- Hf. destruct u. apply acts_mret. }
  cbn [open_lots]. pose proof (holds_str u _ _ Ht Hh) as Hs. change (Z.of_nat (length (tx "."))) with 1 in Hs.
  assert (first_named im fs i (bytes_of u (rodata (tx ".")))) as Hn by (by eapply (holds_named _ _ (tx "."))).
  destruct r as [|d r].
  - eapply acts_seq; [apply (os_open_full u _ 1 i); [done|lia|done|]|].
    { rewrite Hf, app_nil_r. by apply free_fd_none. }
    cbv beta. change (-1 =? -1) with true. cbv iota. cbn [length].
    replace (cnt + Z.of_nat (S n - 0)) with (cnt + 1 + Z.of_nat (n - 0)) by lia.
    specialize (IH pre [] u (cnt + 1) Hh Hf Fp Fr). cbn [length] in IH. rewrite Nat.min_0_r, drop_nil in IH |- *. exact IH.
  - apply Forall_cons_1 in Fr as [Fd Fr]. eapply acts_seq; [apply (os_open u _ 1 i (Z.of_nat (length pre)) dir_jt); [done|lia|done| | |]|].
    { apply (holds_not_std _ _ (tx ".") Hh). split; intros E; specialize (E 0 ltac:(lia) ltac:(intros; lia)); discriminate. }
    { by rewrite Hty. }
    { rewrite Hf. by apply free_fd_app. }
    cbv beta. rewrite (proj2 (Z.eqb_neq (-1) _)) by lia. rewrite <- Ho. cbn [length Nat.sub Nat.min drop].
    assert (with_desc (Z.of_nat (length pre)) o u = with_fds ((pre ++ [o]) ++ r) u) as ->.
    { unfold with_desc. rewrite Hf, Nat2Z.id. f_equal. rewrite insert_app_r_alt, Nat.sub_diag by lia. by rewrite <- app_assoc. }
    specialize (IH (pre ++ [o]) r (with_fds ((pre ++ [o]) ++ r) u) cnt Hh eq_refl). rewrite <- !app_assoc in IH. rewrite <- app_assoc. apply IH; [|done].
    apply Forall_app_2; [done|]. by rewrite Ho; repeat constructor.
Qed.

(** Closing them makes them free. *)
Lemma close_all_acts pre l u : v_fds u = pre ++ l -> (2 <= length pre)%nat -> (length pre + length l <= 8)%nat ->
  Forall (fun d => file_ops d = dir_jt) l ->
  acts P (close_all f child (seqZ (Z.of_nat (length pre)) (Z.of_nat (length l)))) u tt (with_fds (pre ++ map closed l) u).
Proof using All.
  intros Hf Hp Hl F. revert pre u Hf Hp Hl. induction F as [|d l Hd F IH]; intros pre u Hf Hp Hl.
  { cbn. rewrite <- Hf. destruct u. apply acts_mret. }
  cbn [length] in *. rewrite seqZ_cons by lia. cbn [close_all map].
  eapply acts_seq; [apply (os_close u _ d); [lia| |rewrite Hd; by right; left]|].
  { unfold desc. rewrite Hf, Nat2Z.id. rewrite lookup_app_r, Nat.sub_diag by lia. done. }
  cbv beta. assert (with_desc (Z.of_nat (length pre)) (closed d) u = with_fds ((pre ++ [closed d]) ++ l) u) as ->.
  { unfold with_desc. rewrite Hf, Nat2Z.id. f_equal. rewrite insert_app_r_alt, Nat.sub_diag by lia. by rewrite <- app_assoc. }
  specialize (IH (pre ++ [closed d]) (with_fds ((pre ++ [closed d]) ++ l) u) eq_refl). rewrite length_app in IH. cbn [length] in IH.
  rewrite <- !app_assoc in IH. cbn [app] in IH. rewrite <- app_assoc. replace (Z.succ (Z.of_nat (length pre))) with (Z.of_nat (length pre + 1)) by lia.
  replace (Z.pred (Z.of_nat (S (length l)))) with (Z.of_nat (length l)) by lia. apply IH; lia.
Qed.

Lemma err_open_lots_passes : passes (err_open_lots f child rodata) (pass "err_open_lots").
Proof using All.
  intros u T. pose proof T as [(d0 & d1 & r & Hf & Hl & H0 & H1 & Fr) R]. destruct Hdir as ((i & Hi & Hty) & _).
  destruct (lit_holds u (tx ".") T ltac:(lit_in)) as [Ht Hh]. unfold err_open_lots.
  set (o := opened dir_jt (inode_num (dentry_at im (entry_addr fs i)))).
  eapply acts_bind; [apply (open_lots_acts i o 7 [d0; d1] r); try done|].
  { repeat constructor; [apply H0|apply H1]. }
  { eapply List.Forall_impl; [|exact Fr]. by intros x [_ ?]. }
  cbv beta. rewrite Hl, drop_ge, app_nil_r by lia. cbn [Nat.min Nat.sub]. change (0 + Z.of_nat 1) with 1.
  eapply acts_bind; [apply (close_all_acts [d0; d1] (replicate 6 o)); [done|cbn; lia|cbn; lia|by repeat constructor]|].
  cbv beta. change (1 =? 1) with true. cbv iota.
  match goal with |- does _ _ ?v _ => set (u' := v) end. assert (testing u') as T'.
  { split; [|apply (testing_fds (d0 :: d1 :: map closed (replicate 6 o)) u T); exists d1; split; [done|apply H1]]. exists d0, d1, (map closed (replicate 6 o)). split_and!; try done; try apply H0; try apply H1.
    by repeat constructor. }
  destruct (after_puts (pass "err_open_lots") u' T' ltac:(lit_in)) as [Hp Ha]. eapply acts_bind; [exact Hp|]. by apply does_mret.
Qed.

(** *** All of them *)

Lemma passes_bind (c : M Z) t (g : Z -> M Z) u0 u t' Q : passes c t -> after t' u0 u ->
  (forall u', after (t' ++ t) u0 u' -> does P (g 0) u' Q) -> does P (c ≫= g) u Q.
Proof.
  intros Hc Ha Hg. eapply does_bind; [apply Hc, Ha|]. intros r u' [-> H']. apply Hg. by eapply after_app.
Qed.

Definition test_report : list Z := concat (map pass test_names) ++ overall.

Lemma all_tests_pass b ebx ecx edx : 0 <= b < W32 -> passes (all_tests f child rodata b ebx ecx edx) test_report.
Proof using All.
  intros Hb u T. unfold all_tests.
  eapply passes_bind; [apply err_fd_passes; [lit_in|lia|lia|done]|by apply after_refl|]. intros u1 A1. cbv beta.
  eapply passes_bind; [apply err_fd_passes; [lit_in|lia|lia|done]|exact A1|]. clear A1 u1. intros u1 A1. cbv beta.
  eapply passes_bind; [apply err_open_lots_passes|exact A1|]. clear A1 u1. intros u1 A1. cbv beta.
  eapply passes_bind; [apply err_open_passes|exact A1|]. clear A1 u1. intros u1 A1. cbv beta.
  eapply passes_bind; [by apply err_unopened_passes|exact A1|]. clear A1 u1. intros u1 A1. cbv beta.
  eapply passes_bind; [apply err_vidmap_passes|exact A1|]. clear A1 u1. intros u1 A1. cbv beta.
  eapply passes_bind; [by apply err_stdin_out_passes|exact A1|]. clear A1 u1. intros u1 A1. cbv beta.
  eapply passes_bind; [apply err_syscall_num_passes|exact A1|]. clear A1 u1. intros u1 A1. cbv beta zeta.
  change (negb (0 + 0 + 0 + 0 + 0 + 0 + 0 + 0 =? 0)) with false. cbv iota.
  destruct (after_puts overall u1 (proj1 A1) ltac:(lit_in)) as [Hp Ha]. eapply acts_bind; [exact Hp|]. cbv beta.
  apply does_mret. split; [done|]. pose proof (after_app _ _ _ _ _ A1 Ha) as A. exact A.
Qed.

(** The program, when 0 is typed at its prompt. *)
Lemma syserr_main_passes kb cs buf b ebx ecx edx u : testing u -> v_kbd u = Some kb -> plain_keys kb cs = true ->
  (keys_spec kb [] cs).2 = [48] -> in_page buf 127 -> clear_of rodata test_lits buf 127 -> 0 <= b < W32 ->
  does P (syserr_main f child rodata (map process_input (cs ++ [ENTER_KEY_P])) buf b ebx ecx edx) u (fun r u' => r = 0 /\
    exists s, v_screen u' = text_spec (v_color u) test_report s).
Proof using All.
  intros T Hkb Hcs Hline Hbuf Hclear Hb. unfold syserr_main.
  destruct (after_puts prompt u T ltac:(lit_in)) as [Hp (T1 & _ & _)]. eapply acts_bind; [exact Hp|]. clear Hp. cbv beta.
  pose proof T1 as [(d0 & d1 & r & Hf & _ & (H0 & _) & _) _].
  eapply does_bind; [apply (os_read_line (printed prompt u) kb cs 0 d0 buf 127); try done; try lia|].
  { by unfold desc; rewrite Hf. }
  { by rewrite Hline. }
  rewrite Hline. cbn beta. intros cnt u' (-> & g & s & Hg & ->). change (-1 =? Z.of_nat (length (take 127 [48])) + 1) with false. cbv iota.
  set (u1 := with_console _ _ _). assert (testing u1) as T2.
  { destruct T1 as [I R]. split; [done|]. apply ready_console. by apply ready_bytes. }
  eapply acts_bind; [apply os_load; destruct Hbuf as (B1 & B2 & B3); unfold in_page; lia|]. cbv beta zeta.
  assert (v_mem u1 buf = 48) as ->.
  { specialize (Hg 0 ltac:(cbn; lia)). pose proof (bytes_in buf 127 g (printed prompt u) 0 ltac:(lia)) as B. unfold bytes_of in B.
    rewrite Z.add_0_r in B. change (v_mem u1 buf) with (v_mem (with_bytes buf 127 g (printed prompt u)) buf). by rewrite B, Hg. }
  change (48 - 48 =? 0) with true. cbv iota. eapply does_mono; [|by apply all_tests_pass].
  intros r' u' [-> (_ & _ & Hs)]. split; [done|]. by exists s.
Qed.
End passes.
