(* ===== verification/Shell.v ===== *)
(** * The shell as a client (src/syscalls/ece391shell.c)

    What one turn of the shell does with the line that is typed, and that a session
    of such turns ends when "exit" is typed; from the interface [OsCalls]. *)

From Stdlib Require Import ZArith Lia String.
From stdpp Require Import gmap list numbers strings.
From S2P Require Import Prelude Memory LibString State Display Paging Pcb FileSystem Vfs Keyboard Terminal Syscalls.
From S2P Require Import Execute Calls UserLib Process Programs Clients.

(** The line that the keys [cs] type, as the terminal delivers it. *)
Definition typed (kb : kbd_t) (cs : list Z) : list Z := take 127 (keys_spec kb [] cs).2.
Definition type_line (cs : list Z) : list (M unit) := map process_input (cs ++ [ENTER_KEY_P]).

Definition shell_lits : list (list Z) :=
  [tx "391OS> "; tx "exit"; ln "no such command"; ln "program terminated by exception"; ln "program terminated abnormally";
   ln "Starting 391 Shell"].

Lemma arr_at_inj l l' : Forall (fun c => c <> 0) l' ->
  (forall i, 0 <= i <= Z.of_nat (length l) -> arr_at (l ++ [0]) i = arr_at (l' ++ [0]) i) -> Forall (fun c => c <> 0) l -> l = l'.
Proof.
  revert l'. induction l as [|c l IH]; intros [|c' l'] F' H F.
  - done.
  - specialize (H 0 ltac:(cbn; lia)). unfold arr_at in H. change (Z.to_nat 0) with 0%nat in H. cbn in H. apply Forall_cons_1 in F' as [F' _]. congruence.
  - specialize (H 0 ltac:(cbn; lia)). unfold arr_at in H. change (Z.to_nat 0) with 0%nat in H. cbn in H. apply Forall_cons_1 in F as [F _]. congruence.
  - apply Forall_cons_1 in F as [_ F]. apply Forall_cons_1 in F' as [_ F']. f_equal.
    + apply (H 0 ltac:(lia)).
    + apply IH; [done| |done]. intros i Hi. specialize (H (i + 1) ltac:(cbn; lia)). unfold arr_at in *. cbn [app] in H.
      replace (Z.to_nat (i + 1)) with (S (Z.to_nat i)) in H by lia. exact H.
Qed.

(** What the shell says about the result of a command. *)
Definition complaint (rval : Z) : list Z :=
  if -1 =? rval then ln "no such command" else if 256 =? rval then ln "program terminated by exception"
  else if negb (0 =? rval) then ln "program terminated abnormally" else [].

Section shell.
Context {P : view -> kernel -> Prop} {f : frame} {child : Z -> Z -> M Z} {im : memory} {fs : Z}.
Context `{!OsCalls P f child im fs}.
Context (rodata : list Z -> Z) (buf : Z).
Hypothesis Hbuf : in_page buf 1024.
Hypothesis Hclear : clear_of rodata shell_lits buf 1024.

(** Standard input and output are open. *)
Definition shell_ready (kb : kbd_t) (u : view) : Prop :=
  v_kbd u = Some kb /\ (exists d, desc u 0 = Some d /\ file_ops d = stdin) /\ ready rodata shell_lits u.

Lemma shell_ready_bytes kb p n g u : buf <= p -> 0 <= n -> p + n <= buf + 1024 -> shell_ready kb u -> shell_ready kb (with_bytes p n g u).
Proof using Hclear.
  intros H1 H2 H3 (K & D & R). split_and!; [done|done|]. apply ready_bytes; [|done]. by apply (clear_of_sub _ _ buf 1024).
Qed.

(** From the comparison with "exit" on. *)
Definition shell_command : M (option Z) :=
  s ← user_str buf;
  e ← user_str (rodata (tx "exit"));
  r ← lift Diverges (ece391_strcmp s e);
  if 0 =? r then mret (Some 0) else
  c ← load buf;
  if 0 =? c then mret None else
  rval ← ece391_execute f child buf;
  (if -1 =? rval then puts_lit f child rodata (ln "no such command")
   else if 256 =? rval then puts_lit f child rodata (ln "program terminated by exception")
   else if negb (0 =? rval) then puts_lit f child rodata (ln "program terminated abnormally")
   else skip) ;;
  mret None.

Lemma shell_turn_reads kb cs u Q : let line := typed kb cs in let kb' := (keys_spec kb [] cs).1 in
  shell_ready kb u -> plain_keys kb cs = true -> text_ok line = true ->
  (forall u', shell_ready kb' u' -> holds u' buf line -> v_color u' = v_color u -> does P shell_command u' Q) ->
  does P (shell_turn f child rodata (type_line cs) buf) u Q.
Proof using All.
  intros line kb' Hr Hcs T HQ. unfold shell_turn. pose proof Hbuf as (B1 & B2 & B3).
  eapply acts_bind; [apply (acts_puts rodata shell_lits); [apply Hr|by left]|]. cbv beta.
  assert (shell_ready kb (printed (tx "391OS> ") u)) as (K & (d0 & D0 & O0) & R) by done.
  assert (length line <= 127)%nat as Hlen by (unfold line, typed; rewrite length_take; lia).
  eapply does_bind; [apply (os_read_line _ kb cs 0 d0 buf 1023); try done; try lia|].
  { fold (typed kb cs). fold line. lia. }
  { unfold in_page. lia. }
  fold (typed kb cs). fold line. fold kb'. cbv beta. intros cnt u' (-> & g & s & Hg & ->).
  set (n := Z.of_nat (length line)) in *. rewrite (proj2 (Z.eqb_neq (-1) _)), (proj2 (Z.ltb_lt 0 _)) by lia.
  set (u1 := with_console s kb' _). assert (shell_ready kb' u1) as R1.
  { split_and!; [done|by exists d0|]. apply ready_console, ready_bytes; [|done]. apply (clear_of_sub _ _ buf 1024); [done|lia|lia|lia]. }
  assert (forall i, 0 <= i <= n -> bytes_of u1 buf i = arr_at (line ++ [10]) i) as Hb.
  { intros i Hi. rewrite <- Hg by done. apply bytes_in. lia. }
  eapply acts_bind; [apply os_load; unfold in_page; lia|]. cbv beta zeta. replace (buf + (n + 1 - 1)) with (buf + n) by lia.
  assert (v_mem u1 (buf + n) = 10) as ->.
  { change (bytes_of u1 buf n = 10). rewrite Hb by lia. unfold arr_at, n. by rewrite Nat2Z.id, lookup_app_r, Nat.sub_diag by lia. }
  change (10 =? 10) with true. cbn [andb]. replace (n + 1 - 1) with n by lia.
  eapply acts_bind; [apply os_store; unfold in_page; lia|]. cbv beta. apply HQ; [|split|done].
  - apply shell_ready_bytes; [lia|lia|lia|done].
  - fold n. unfold in_page. lia.
  - fold n. intros i Hi. destruct (Z.eq_dec i n) as [->|Hne].
    + pose proof (bytes_in (buf + n) 1 (fun _ => 0) u1 0 ltac:(lia)) as B. unfold bytes_of in B. rewrite Z.add_0_r in B.
      unfold bytes_of. rewrite B. unfold arr_at, n. by rewrite Nat2Z.id, lookup_app_r, Nat.sub_diag by lia.
    + rewrite bytes_other, Hb by lia. unfold arr_at. rewrite !lookup_app_l by (unfold n in *; lia). done.
Qed.

Lemma text_nonzero l : text_ok l = true -> Forall (fun c => c <> 0) l.
Proof. intros F%text_ok_forall. eapply List.Forall_impl; [|exact F]. cbn. intros c Hc. lia. Qed.

(** The comparison decides whether the line is "exit". *)
Lemma compare_exit kb u line (g : Z -> M (option Z)) Q : shell_ready kb u -> holds u buf line -> text_ok line = true ->
  (forall r, (r = 0 <-> line = tx "exit") -> does P (g r) u Q) ->
  does P (s ← user_str buf; e ← user_str (rodata (tx "exit")); r ← lift Diverges (ece391_strcmp s e); g r) u Q.
Proof using All.
  intros (_ & _ & [_ R]) Hh T HQ. apply Forall_cons_1 in R as [_ R]. apply Forall_cons_1 in R as [[Te He] _].
  set (n := Z.of_nat (length line)).
  eapply does_bind; [apply os_str, holds_str; [exact T|exact Hh]|]. intros s u' [-> Hs].
  eapply does_bind; [apply os_str, holds_str; [exact Te|exact He]|]. intros e u' [-> He'].
  destruct Hh as [Hpg Hb]. destruct He as [_ Hbe]. destruct (arr_at_text line T) as [_ (C1 & C2 & C3)].
  assert (forall i, 0 <= i <= n -> s i = arr_at (line ++ [0]) i) as Es by (intros i Hi; by rewrite Hs, Hb).
  assert (forall i, 0 <= i <= 4 -> e i = arr_at (tx "exit" ++ [0]) i) as Ee by (intros i Hi; by rewrite He', Hbe by (cbn; lia)).
  destruct (ece391_strcmp_spec s e n) as (r & -> & Hr); [|destruct Hpg as (? & ? & ?); lia|].
  { split_and!; [lia|intros i Hi; rewrite Es by lia; by apply C2|by rewrite Es by lia]. }
  eapply acts_bind; [apply acts_mret|]. apply HQ. rewrite Hr. split.
  - intros Heq. apply arr_at_inj; [repeat constructor; done| |by apply text_nonzero].
    assert (n <= 4) as Hn.
    { destruct (Z_le_gt_dec n 4) as [?|Hgt]; [done|]. exfalso. apply (C2 4 ltac:(fold n; lia)). rewrite <- Es by lia.
      rewrite Heq by lia. by rewrite Ee by lia. }
    intros i Hi. rewrite <- Es, Heq by (fold n; lia). apply Ee. fold n in Hi. lia.
  - intros -> i Hi. rewrite Es by done. symmetry. apply Ee. exact Hi.
Qed.

(** A line that is a command. *)
Lemma shell_command_runs kb u line (R : Z -> view -> Prop) (Q : option Z -> view -> Prop) : shell_ready kb u -> holds u buf line ->
  text_ok line = true -> line <> [] -> line <> tx "exit" -> does P (ece391_execute f child buf) u R ->
  (forall rval u', R rval u' -> ready rodata shell_lits u' /\ Q None (printed (complaint rval) u')) -> does P shell_command u Q.
Proof using All.
  intros Hr Hh T Hne E Hex HQ. apply (compare_exit kb u line); [done|done|done|]. intros r Hrz.
  rewrite (proj2 (Z.eqb_neq 0 r)) by (intros <-; by apply E, Hrz).
  destruct Hh as [(H1 & H2 & H3) Hb]. eapply acts_bind; [apply os_load; unfold in_page; lia|]. cbv beta.
  assert (v_mem u buf = arr_at (line ++ [0]) 0) as ->. { rewrite <- Hb by lia. unfold bytes_of. f_equal. lia. }
  destruct line as [|x line]; [done|]. apply text_nonzero, Forall_cons_1 in T as [Hx _]. change (arr_at ((x :: line) ++ [0]) 0) with x.
  rewrite (proj2 (Z.eqb_neq 0 x)) by done. eapply does_bind; [exact Hex|]. intros rval u' HR. destruct (HQ rval u' HR) as [R' HQ'].
  unfold complaint in HQ'. destruct (-1 =? rval); [|destruct (256 =? rval); [|destruct (negb (0 =? rval))]].
  1-3: eapply acts_bind; [apply (acts_puts rodata shell_lits); [exact R'|by repeat constructor]|]; by apply does_mret.
  apply does_mret. by destruct u'.
Qed.

Lemma shell_command_ok kb u line rval u' : shell_ready kb u -> holds u buf line -> text_ok line = true ->
  (line <> [] -> line <> tx "exit" -> acts P (ece391_execute f child buf) u rval u' /\ shell_ready kb u') ->
  acts P shell_command u (if bool_decide (line = tx "exit") then Some 0 else None)
    (if bool_decide (line = tx "exit" \/ line = []) then u else printed (complaint rval) u').
Proof using All.
  intros Hr Hh T Hex. destruct (decide (line = tx "exit")) as [E|E].
  { apply (compare_exit kb u line); [done|done|done|]. intros r Hrz.
    rewrite !bool_decide_eq_true_2 by tauto. rewrite (proj2 Hrz E). change (0 =? 0) with true. cbv iota. apply acts_mret. }
  rewrite (bool_decide_eq_false_2 (line = tx _)) by done. destruct (decide (line = [])) as [->|Hne].
  { rewrite bool_decide_eq_true_2 by tauto. apply (compare_exit kb u []); [done|done|done|]. intros r Hrz. destruct Hh as [(H1 & H2 & H3) Hb].
    rewrite (proj2 (Z.eqb_neq 0 r)) by (intros <-; by apply E, Hrz). eapply acts_bind; [apply os_load; unfold in_page; lia|]. cbv beta.
    assert (v_mem u buf = 0) as ->; [|apply acts_mret].
    specialize (Hb 0 ltac:(cbn; lia)). unfold bytes_of in Hb. rewrite Z.add_0_r in Hb. exact Hb. }
  rewrite bool_decide_eq_false_2 by tauto. destruct (Hex Hne E) as [Hx (_ & _ & R')].
  apply (shell_command_runs kb u line _ _ Hr Hh T Hne E Hx). by intros x v [-> ->].
Qed.

(** ** Sessions *)

Context `{!OsExecute P f child im fs}.

(** The line names no file. *)
Definition refused (line : list Z) : Prop := exists a b c, parsed (arr_at (line ++ [0])) a b c (Z.of_nat (length line)) /\
  b - a <= CMD_BUF_SIZE /\ forall i, 0 <= i < rd32 im fs -> ~ has_name im fs i (name_of (arr_at (line ++ [0])) a b).

(** The keys of lines that name no file, and then of "exit". *)
Fixpoint session (kb : kbd_t) (lines : list (list Z)) : Prop :=
  match lines with
  | [] => False
  | cs :: rest => plain_keys kb cs = true /\ text_ok (typed kb cs) = true /\
      (typed kb cs = tx "exit" \/ (typed kb cs = [] \/ refused (typed kb cs)) /\ session (keys_spec kb [] cs).1 rest)
  end.

Lemma shell_turn_refuses kb cs u : shell_ready kb u -> plain_keys kb cs = true -> text_ok (typed kb cs) = true ->
  typed kb cs = tx "exit" \/ typed kb cs = [] \/ refused (typed kb cs) ->
  does P (shell_turn f child rodata (type_line cs) buf) u (fun o u' =>
    o = (if bool_decide (typed kb cs = tx "exit") then Some 0 else None) /\ shell_ready (keys_spec kb [] cs).1 u' /\
    v_color u' = v_color u /\ (refused (typed kb cs) -> typed kb cs <> tx "exit" -> typed kb cs <> [] ->
      exists s, v_screen u' = text_spec (v_color u) (ln "no such command") s)).
Proof using All.
  intros Hr Hcs T Hline. apply (shell_turn_reads kb cs); [done|done|done|]. intros u1 R1 H1 C1. rewrite <- C1. clear C1.
  set (line := typed kb cs) in *. set (kb' := (keys_spec kb [] cs).1) in *.
  eapply does_mono; [|apply (shell_command_ok kb' u1 line (-1) u1); [done|done|done|]].
  - cbv beta. intros o u' [-> ->]. split; [done|]. case_bool_decide as B; split_and!; try done.
    + intros _ N1 N2. tauto.
    + intros _ _ _. by exists (v_screen u1).
  - intros N1 N2. split; [|done]. destruct Hline as [?|[?|(a & b & c & Hp & Hab & Hn)]]; [done|done|].
    destruct H1 as [Hpg Hb]. by apply (os_execute_unknown u1 buf (arr_at (line ++ [0])) a b c (Z.of_nat (length line))).
Qed.

Lemma shell_session_ok kb lines u : shell_ready kb u -> session kb lines -> Z.of_nat (length lines) < W32 ->
  does P (shell_main f child rodata (map type_line lines) buf) u (fun r u' => r = 0).
Proof using All.
  intros Hr Hs Hn. unfold shell_main. eapply acts_bind; [apply (acts_puts rodata shell_lits); [apply Hr|by repeat constructor]|]. cbv beta.
  set (u0 := printed _ u). assert (shell_ready kb u0) as R0 by done. clearbody u0.
  apply (does_loop P _ (fun n typing v => exists kb lines, typing = map type_line lines /\ n = Z.of_nat (length lines) /\
    shell_ready kb v /\ session kb lines) _ (Z.of_nat (length lines))); [|by exists kb, lines|done].
  clear kb lines u Hr Hs Hn u0 R0. intros n typing v (kb & lines & -> & -> & R & Hs).
  destruct lines as [|cs lines]; [done|]. destruct Hs as (S1 & S2 & S3). cbn [map hd tl].
  eapply does_bind; [apply (shell_turn_refuses kb cs); [done|done|done|tauto]|]. cbv beta. intros o v' (-> & R' & _).
  case_bool_decide as B; apply does_mret; [done|]. destruct S3 as [S3|[_ S3]]; [done|].
  exists (Z.of_nat (length lines)). split; [cbn; lia|]. by exists (keys_spec kb [] cs).1, lines.
Qed.
End shell.
