(* ===== verification/Lines.v ===== *)
(** * Programs that read a line (src/syscalls/ece391hello.c, ece391counter.c)

    Both make a string of what the terminal delivers, which ends with the newline. *)

From Stdlib Require Import ZArith Lia String.
From stdpp Require Import gmap list numbers strings.
From S2P Require Import Prelude Memory LibString State Display Paging Pcb FileSystem Vfs Keyboard Terminal Syscalls.
From S2P Require Import Execute Calls UserLib Process Programs Clients Shell.

Section lines.
Context {P : view -> kernel -> Prop} {f : frame} {child : Z -> Z -> M Z} {im : memory} {fs : Z}.
Context `{!OsCalls P f child im fs}.
Context (rodata : list Z -> Z) (lits : list (list Z)) (buf : Z).
Hypothesis Hbuf : in_page buf 1024.
Hypothesis Hclear : clear_of rodata lits buf 1024.

(** Standard input and output are open and the literals in place. *)
Definition line_ready (kb : kbd_t) (u : view) : Prop :=
  v_kbd u = Some kb /\ (exists d, desc u 0 = Some d /\ file_ops d = stdin) /\ ready rodata lits u.

Lemma text_newline l : text_ok l = true -> text_ok (l ++ [10]) = true.
Proof. unfold text_ok. intros H. by rewrite forallb_app, H. Qed.

(** Reading a line; a NUL behind it makes it a string. *)
Lemma line_string kb cs u : let line := typed kb cs in line_ready kb u -> plain_keys kb cs = true ->
  does P (ece391_read f child (type_line cs) 0 buf 1023) u (fun cnt u1 => cnt = Z.of_nat (length line) + 1 /\
    exists u2, acts P (store (buf + cnt) 0) u1 tt u2 /\ ready rodata lits u2 /\ holds u2 buf (line ++ [10]) /\ v_color u2 = v_color u).
Proof using All.
  intros line (K & (d0 & D0 & O0) & R) Hcs. pose proof Hbuf as (B1 & B2 & B3).
  assert (length line <= 127)%nat as Hlen by (unfold line, typed; rewrite length_take; lia).
  eapply does_mono; [|apply (os_read_line _ kb cs 0 d0 buf 1023); try done; try lia].
  2: { fold (typed kb cs). fold line. lia. }
  2: { unfold in_page. lia. }
  fold (typed kb cs). fold line. cbv beta. intros cnt u' (-> & h & s & Hg & ->). set (n := Z.of_nat (length line)) in *.
  assert (length (line ++ [10]) = S (length line)) as El by (rewrite length_app; apply Nat.add_1_r).
  set (u1 := with_console s _ _). split; [done|]. exists (with_bytes (buf + (n + 1)) 1 (fun _ => 0) u1).
  refine (conj _ (conj _ (conj (conj _ _) eq_refl))).
  - apply os_store. unfold in_page. lia.
  - apply ready_bytes; [apply (clear_of_sub _ _ buf 1024); [done|lia|lia|lia]|]. apply ready_console, ready_bytes; [|done].
    apply (clear_of_sub _ _ buf 1024); [done|lia|lia|lia].
  - rewrite El. unfold in_page. lia.
  - rewrite El. intros i Hi. destruct (Z.eq_dec i (n + 1)) as [->|Hne].
    + pose proof (bytes_in (buf + (n + 1)) 1 (fun _ => 0) u1 0 ltac:(lia)) as B0. unfold bytes_of in B0. rewrite Z.add_0_r in B0.
      unfold bytes_of. rewrite B0. unfold arr_at. rewrite lookup_app_r by lia.
      rewrite El. by replace (Z.to_nat (n + 1) - S (length line))%nat with 0%nat by lia.
    + rewrite bytes_other by lia. change (bytes_of u1 buf i) with (bytes_of (with_bytes buf 1023 h u) buf i). rewrite bytes_in by lia.
      rewrite Hg by lia. unfold arr_at. by rewrite (lookup_app_l (line ++ [10])) by lia.
Qed.
End lines.

Definition hello_lits : list (list Z) := [tx "Hi, what's your name? "; tx "Hello, "].
Definition counter_lits : list (list Z) := [ln "Enter the Test Number: (0): 100, (1): 10000, (2): 100000"; ln "Wrong Choice!"].

Section programs.
Context {P : view -> kernel -> Prop} {f : frame} {child : Z -> Z -> M Z} {im : memory} {fs : Z}.
Context `{!OsCalls P f child im fs}.
Context (rodata : list Z -> Z) (buf : Z).
Hypothesis Hbuf : in_page buf 1024.

(** hello repeats the name. *)
Lemma hello_main_ok kb cs u : clear_of rodata hello_lits buf 1024 -> line_ready rodata hello_lits kb u ->
  plain_keys kb cs = true -> text_ok (typed kb cs) = true ->
  does P (hello_main f child rodata (type_line cs) buf) u (fun r u' => r = 0 /\
    exists s, v_screen u' = text_spec (v_color u) (tx "Hello, " ++ typed kb cs ++ [10]) s).
Proof using All.
  intros Hclear Hr Hcs T%text_newline. unfold hello_main.
  eapply acts_bind; [apply (acts_puts rodata hello_lits); [apply Hr|by left]|]. cbv beta.
  eapply does_bind; [by apply (line_string rodata hello_lits buf Hbuf Hclear kb)|]. cbv beta.
  intros cnt u1 (-> & u2 & Hst & (Ho & Hl) & Hh & Hc). rewrite (proj2 (Z.eqb_neq (-1) _)) by lia.
  eapply acts_bind; [exact Hst|]. eapply acts_bind; [apply (acts_puts rodata hello_lits); [by split|by right; left]|]. cbv beta.
  destruct Ho as (d & Hd & Hop).
  eapply acts_bind; [apply (acts_fdputs rodata _ 1 d buf (Z.of_nat (length (typed kb cs ++ [10])))); [lia|done|done|by apply holds_str]|].
  apply does_mret. split; [done|]. exists (v_screen u2). cbn [printed v_screen v_color].
  change (bytes_of (printed (tx "Hello, ") u2) buf) with (bytes_of u2 buf). rewrite (holds_chars u2 buf) by done.
  rewrite Hc. unfold text_spec. by rewrite (fold_left_app _ (tx "Hello, ")).
Qed.

(** counter finds no line right: it looks for one character, but has the newline too. *)
Lemma counter_main_refuses kb cs u : clear_of rodata counter_lits buf 1024 -> line_ready rodata counter_lits kb u ->
  plain_keys kb cs = true -> text_ok (typed kb cs) = true ->
  does P (counter_main f child rodata (type_line cs) buf) u (fun r u' => r = 0 /\
    exists s, v_screen u' = text_spec (v_color u) (ln "Wrong Choice!") s).
Proof using All.
  intros Hclear Hr Hcs T%text_newline. unfold counter_main.
  assert (length (typed kb cs) <= 127)%nat as Hlen by (unfold typed; rewrite length_take; lia).
  eapply acts_bind; [apply (acts_puts rodata counter_lits); [apply Hr|by left]|]. cbv beta.
  eapply does_bind; [by apply (line_string rodata counter_lits buf Hbuf Hclear kb)|]. cbv beta.
  intros cnt u1 (-> & u2 & Hst & Hrd & Hh & Hc). cbv zeta. rewrite (u32_small (Z.of_nat _ + 1)) by lia. change (u32 (-1)) with (W32 - 1).
  rewrite (proj2 (Z.eqb_neq (W32 - 1) _)) by lia. eapply acts_bind; [exact Hst|]. cbv beta.
  assert (acts P (counter_choice buf) u2 None u2) as Hch.
  { unfold counter_choice. pose proof (holds_str _ _ _ T Hh) as Hs. destruct Hh as [(H1 & H2 & H3) Hb].
    set (line := typed kb cs) in *. assert (length (line ++ [10]) = S (length line)) as El by (rewrite length_app; apply Nat.add_1_r).
    eapply does_bind; [apply os_str, Hs|]. intros s u' [-> Hsi]. destruct Hs as [(C1 & C2 & C3) _].
    rewrite ece391_strlen_eq, (strlen_spec s (Z.of_nat (length (line ++ [10])))); [|split_and!|lia].
    2: lia. 2: { intros i Hi. rewrite Hsi by lia. by apply C2. } 2: by rewrite Hsi by lia.
    eapply acts_bind; [apply acts_mret|]. eapply acts_bind; [apply os_load; unfold in_page; lia|]. cbv beta.
    assert (v_mem u2 buf = arr_at ((line ++ [10]) ++ [0]) 0) as ->. { rewrite <- Hb by lia. unfold bytes_of. f_equal. lia. }
    rewrite El. destruct line as [|c line]; [by apply acts_mret|].
    rewrite (proj2 (Z.ltb_lt 1 _)) by (cbn; lia). apply acts_mret. }
  eapply acts_bind; [exact Hch|]. cbv iota. eapply acts_bind; [apply (acts_puts rodata counter_lits); [done|by right; left]|].
  apply does_mret. split; [done|]. exists (v_screen u2). change (v_color u2 = v_color u) in Hc. by rewrite <- Hc.
Qed.
End programs.
