(* ===== verification/Commands.v ===== *)
(** * Commands: the shell runs a program

    A turn of the shell in which the line typed names a program: the shell finds it,
    the kernel starts it as a process, it does what it does with its argument, and
    the shell comes back for the next turn. *)

From Stdlib Require Import ZArith Lia String.
From stdpp Require Import gmap list numbers strings.
From S2P Require Import Prelude Memory LibString State Display Paging Pcb FileSystem Vfs Keyboard Terminal Syscalls.
From S2P Require Import Execute Calls UserLib Process Spawn Programs Clients Shell.

(** ** Command lines of two words *)

Definition word_ok (w : list Z) : Prop := w <> [] /\ Forall (fun c => c <> 32 /\ 0 < c < W8) w.
(** An argument may contain spaces, but not start with one. *)
Definition words_ok (a : list Z) : Prop := Forall (fun c => 0 < c < W8) a /\ hd 0 a <> 32.

Lemma arr_at_lookup (l r : list Z) i c : 0 <= i -> l !! Z.to_nat i = Some c -> arr_at (l ++ r) i = c.
Proof. intros Hi H. unfold arr_at. by rewrite (lookup_app_l_Some _ _ _ _ H). Qed.

Lemma arr_at_app_r (l r : list Z) i : Z.of_nat (length l) <= i -> arr_at (l ++ r) i = arr_at r (i - Z.of_nat (length l)).
Proof. intros Hi. unfold arr_at. rewrite lookup_app_r by lia. by replace (Z.to_nat i - length l)%nat with (Z.to_nat (i - Z.of_nat (length l))) by lia. Qed.

Lemma arr_at_forall (Q : Z -> Prop) l r i : Forall Q l -> 0 <= i < Z.of_nat (length l) -> Q (arr_at (l ++ r) i).
Proof.
  intros F Hi. destruct (lookup_lt_is_Some_2 l (Z.to_nat i) ltac:(lia)) as [c Hc].
  rewrite (arr_at_lookup l r i c) by (done || lia). by apply (Forall_lookup_1 _ _ _ _ F Hc).
Qed.

Lemma arr_at_end (l : list Z) : arr_at (l ++ [0]) (Z.of_nat (length l)) = 0.
Proof. rewrite arr_at_app_r by lia. by rewrite Z.sub_diag. Qed.

Lemma parsed_words w a : word_ok w -> words_ok a -> Z.of_nat (length w + length a) < H32 ->
  let n := Z.of_nat (length w) in
  parsed (arr_at ((w ++ 32 :: a) ++ [0])) 0 n (n + 1) (n + 1 + Z.of_nat (length a)).
Proof.
  intros [Hne Fw] [Fa Ha] Hl n. set (s := arr_at _).
  assert (0 < n) as Hn by (destruct w; [done|unfold n; cbn; lia]).
  assert (forall i, 0 <= i < n -> s i <> 32 /\ 0 < s i < W8) as Sw.
  { intros i Hi. unfold s. rewrite <- app_assoc. by apply (arr_at_forall (fun c => c <> 32 /\ 0 < c < W8)). }
  assert (s n = 32) as Sn by (unfold s; rewrite <- app_assoc, arr_at_app_r by lia; by rewrite Z.sub_diag).
  assert (forall i, n + 1 <= i -> s i = arr_at (a ++ [0]) (i - (n + 1))) as Sa.
  { intros i Hi. unfold s. rewrite <- app_assoc, arr_at_app_r by lia. fold n. change ((32 :: a) ++ [0]) with ([32] ++ (a ++ [0])).
    rewrite arr_at_app_r by (cbn; lia). f_equal. cbn [length]. lia. }
  split_and!; try lia.
  - apply arr_at_bytes. apply Forall_app_2; [|repeat constructor; unfold is_byte; lia]. apply Forall_app_2; [|constructor; [unfold is_byte; lia|]].
    + eapply List.Forall_impl; [|exact Fw]. intros c Hc. cbn beta in Hc. unfold is_byte. lia.
    + eapply List.Forall_impl; [|exact Fa]. intros c Hc. cbn beta in Hc. unfold is_byte. lia.
  - apply (Sw 0). lia.
  - intros j Hj. specialize (Sw j Hj). lia.
  - intros j Hj. by replace j with n by lia.
  - rewrite Sa by lia. rewrite Z.sub_diag. destruct a; [done|exact Ha].
  - intros j Hj. rewrite Sa by lia. assert (0 < arr_at (a ++ [0]) (j - (n + 1)) < W8); [|lia].
    by apply (arr_at_forall (fun c => 0 < c < W8)); [|lia].
  - rewrite Sa by lia. replace (n + 1 + _ - (n + 1)) with (Z.of_nat (length a)) by lia. apply arr_at_end.
Qed.

Lemma arg_of_words w a : let n := Z.of_nat (length w) in
  arg_of (arr_at ((w ++ 32 :: a) ++ [0])) (n + 1) (n + 1 + Z.of_nat (length a)) = a.
Proof.
  intros n. unfold arg_of. replace (n + 1 + Z.of_nat (length a) - (n + 1)) with (Z.of_nat (length a)) by lia.
  rewrite <- (chars_arr_at a) at 2. unfold chars. apply map_ext_in. intros i Hi. apply list_elem_of_In, elem_of_seqZ in Hi.
  rewrite <- app_assoc, arr_at_app_r by lia. fold n. change ((32 :: a) ++ [0]) with ([32] ++ (a ++ [0])).
  rewrite arr_at_app_r by (cbn; lia). f_equal. cbn [length]. lia.
Qed.

Lemma name_of_words im fs w a i : first_named im fs i (arr_at (w ++ [0])) ->
  first_named im fs i (name_of (arr_at ((w ++ 32 :: a) ++ [0])) 0 (Z.of_nat (length w))).
Proof.
  apply (first_named_ext i _ _ (Z.of_nat (length w))); [|lia|apply arr_at_end].
  intros j Hj. unfold name_of. rewrite Z.sub_0_r, Z.add_0_l. destruct (Z.ltb_spec j (Z.of_nat (length w))) as [Hlt|Hge].
  - unfold arr_at. rewrite <- app_assoc. rewrite !lookup_app_l by lia. done.
  - replace j with (Z.of_nat (length w)) by lia. apply arr_at_end.
Qed.

(** ** The program that was started *)

(** The literals are in the image of the file [ino], which is loaded at 0x8048000. *)
Definition image_holds (im : memory) (fs ino : Z) (rodata : list Z -> Z) (lits : list (list Z)) : Prop :=
  Forall (fun l => text_ok l = true /\ let q := rodata l - (PROGRAM_VIRT + PROGRAM_VIRT_OFF) in
    0 <= q /\ q + Z.of_nat (length l) < file_length im fs ino /\
    forall j, 0 <= j <= Z.of_nat (length l) -> file_byte im fs ino (q + j) = arr_at (l ++ [0]) j) lits.

Lemma fresh_ready im fs ino a u u0 rodata lits : fresh im fs ino a u u0 -> file_length im fs ino <= FOUR_MB - PROGRAM_VIRT_OFF ->
  image_holds im fs ino rodata lits -> ready rodata lits u0.
Proof.
  intros (_ & _ & D1 & _ & _ & _ & _ & _ & Hm) Hl H. split; [by exists (opened stdout 0)|].
  eapply List.Forall_impl; [|exact H]. cbv zeta. intros l (T & Q1 & Q2 & Q3). split; [done|]. split; [unfold in_page; lia|].
  intros j Hj. rewrite <- Q3 by done. rewrite <- Hm by lia. unfold bytes_of. f_equal. lia.
Qed.

Lemma fresh_free_fd im fs ino a u u0 : fresh im fs ino a u u0 -> free_fd (v_fds u0) = Some 2.
Proof.
  intros (Hl & D0 & D1 & Dr & _). unfold desc in D0, D1. change (Z.to_nat 0) with 0%nat in D0. change (Z.to_nat 1) with 1%nat in D1.
  destruct (v_fds u0) as [|d0 [|d1 [|d2 r]]]; [done|done|done|]. cbn in D0, D1. injection D0 as ->. injection D1 as ->.
  destruct (Dr 2%nat d2 ltac:(lia) eq_refl) as [F2 _]. unfold free_fd. cbn [list_find].
  rewrite !decide_False by done. rewrite decide_True by done. done.
Qed.

(** ** The turn *)

Section turn.
Context (E : env) (f : frame) (rodata : list Z -> Z) (buf : Z).
Hypothesis HE : env_ok E.
Hypothesis Hframe : frame_ok E f.
Hypothesis Hpop : our_popcount (e_status E) <> MAX_PROCESSES.
Hypothesis Hbuf : in_page buf 1024.
Hypothesis Hclear : clear_of rodata shell_lits buf 1024.

(** The shell [ut] has read its line, the program started as [u0] leaves [u1] with the
    result [r], and the shell is where it was. *)
Definition turned (im : memory) (fs ino : Z) (a : list Z) (u : view) (Q : view -> Z -> view -> Prop) (u' : view) : Prop :=
  exists ut u0 r u1, v_color ut = v_color u /\ fresh im fs ino a ut u0 /\ Q u0 r u1 /\ u' = printed (complaint (u8 r)) (back ut u1).

(** Whatever [run] does with a process that has just been started; [kb2]: the keyboard
    when it is over. *)
Lemma shell_turn_with run (R : view -> Z -> view -> Prop) kb kb2 cs w a i u : let ino := inode_num (dentry_at (e_mem E) (entry_addr (e_fs E) i)) in
  let kb' := (keys_spec kb [] cs).1 in
  shell_ready rodata kb u -> plain_keys kb cs = true -> typed kb cs = w ++ 32 :: a -> text_ok (w ++ 32 :: a) = true ->
  word_ok w -> words_ok a -> (length w <= 32)%nat -> first_named (e_mem E) (e_fs E) i (arr_at (w ++ [0])) ->
  is_program (e_mem E) (e_fs E) ino ->
  (forall ut off b1 u0 k1 eip esp, v_kbd ut = Some kb' -> free_slot E off -> waits_with E ut b1 -> process (child_env E off b1 ut) u0 k1 ->
     fresh (e_mem E) (e_fs E) ino a ut u0 ->
     wp (run eip esp) (fun r k' => exists u', ((exists u1, u' = back ut u1 /\ v_kbd u1 = Some kb2) /\ R ut r u') /\ process E u' k') k1) ->
  does (process E) (shell_turn f run rodata (type_line cs) buf) u (fun o u' => o = None /\ shell_ready rodata kb2 u' /\
    exists ut r uc, v_color ut = v_color u /\ R ut r uc /\ u' = printed (complaint r) uc).
Proof using All.
  intros ino kb' Hr Hcs Hline T Hw Ha Hwl Hn Hprog Hrun.
  pose proof (process_calls E HE f run) as OC.
  assert (length (w ++ 32%Z :: a) <= 127)%nat as Hlen by (rewrite <- Hline; unfold typed; rewrite length_take; lia).
  rewrite length_app in Hlen. cbn [length] in Hlen.
  pose proof (parsed_words w a Hw Ha ltac:(lia)) as Hp. cbv zeta in Hp. set (s := arr_at ((w ++ 32 :: a) ++ [0])) in *.
  apply (shell_turn_reads (im := e_mem E) (fs := e_fs E) rodata buf Hbuf Hclear kb cs u); [exact Hr|exact Hcs|by rewrite Hline|].
  fold kb'. rewrite Hline. intros ut Rt Ht Ct. pose proof Rt as (Kt & Dt & Lt).
  apply (shell_command_runs rodata buf Hbuf Hclear kb' ut (w ++ 32 :: a) (fun r u' =>
    (exists u1, u' = back ut u1 /\ v_kbd u1 = Some kb2) /\ R ut r u')); [exact Rt|exact Ht|exact T| | | |].
  - by destruct w.
  - intros Hexit. destruct Hw as [_ Fw]. assert (32 ∈ tx "exit") as Hin by (rewrite <- Hexit; apply elem_of_app; right; by left).
    revert Hin. apply (bool_decide_unpack (32 ∉ tx "exit")). vm_compute. exact I.
  - destruct Ht as [Hpg Hb].
    pose proof (spawn_with E f HE Hframe Hpop run ut kb' buf s 0 (Z.of_nat (length w)) (Z.of_nat (length w) + 1)
      (Z.of_nat (length w) + 1 + Z.of_nat (length a)) i (fun r u' => (exists u1, u' = back ut u1 /\ v_kbd u1 = Some kb2) /\ R ut r u')) as Sp.
    cbv zeta in Sp. unfold s in Sp at 4. rewrite arg_of_words in Sp. fold ino in Sp. apply Sp; clear Sp; try done; try lia.
    + unfold in_page in *. rewrite length_app in Hpg. cbn [length] in Hpg. lia.
    + intros j Hj. apply Hb. rewrite length_app. cbn [length]. lia.
    + by apply name_of_words.
    + intros off b1 u0 k1 eip esp Hoff Hb1 Hk1 Fr. eapply wp_mono; [|by apply (Hrun ut off b1 u0)]. cbn beta.
      intros r k' (u' & Hu' & Hk'). by exists u'.
  - intros rval v ((u1 & -> & Hu1) & HR). split; [exact Lt|]. split; [done|]. split.
    + split_and!; [|exact Dt|exact Lt]. exact Hu1.
    + by exists ut, rval, (back ut u1).
Qed.

Lemma shell_turn_runs main Q kb cs w a i u : let ino := inode_num (dentry_at (e_mem E) (entry_addr (e_fs E) i)) in
  let kb' := (keys_spec kb [] cs).1 in
  shell_ready rodata kb u -> plain_keys kb cs = true -> typed kb cs = w ++ 32 :: a -> text_ok (w ++ 32 :: a) = true ->
  word_ok w -> words_ok a -> (length w <= 32)%nat -> first_named (e_mem E) (e_fs E) i (arr_at (w ++ [0])) ->
  is_program (e_mem E) (e_fs E) ino ->
  (forall E' ut u0, env_ok E' -> e_mem E' = e_mem E -> e_fs E' = e_fs E -> v_kbd ut = Some kb' ->
     fresh (e_mem E) (e_fs E) ino a ut u0 -> does (process E') main u0 (fun r u1 => v_kbd u1 = v_kbd u0 /\ Q u0 r u1)) ->
  does (process E) (shell_turn f (run_main f main) rodata (type_line cs) buf) u (fun o u' =>
    o = None /\ shell_ready rodata kb' u' /\ turned (e_mem E) (e_fs E) ino a u Q u').
Proof using All.
  intros ino kb' Hr Hcs Hline T Hw Ha Hwl Hn Hprog Hmain. eapply does_mono; [|apply (shell_turn_with _ (fun ut r u' => exists u0 r1 u1,
    fresh (e_mem E) (e_fs E) ino a ut u0 /\ Q u0 r1 u1 /\ r = u8 r1 /\ u' = back ut u1) kb kb' cs w a i u); try done].
  - intros o u' (-> & R & ut & r & uc & Ct & (u0 & r1 & u1 & Fr & HQ & -> & ->) & ->). split; [done|]. split; [exact R|]. by exists ut, u0, r1, u1.
  - intros ut off b1 u0 k1 eip esp Hkb' Hoff Hb1 Hk1 Fr.
    pose proof (run_main_ok E f HE Hframe main ut k1 off b1 u0 (fun u0 r u1 => v_kbd u1 = v_kbd u0 /\ Q u0 r u1) eip esp Hoff Hb1 Hk1) as W.
    eapply wp_mono; [|apply W; apply (Hmain (child_env E off b1 ut) ut); try done; by apply child_env_ok].
    intros r k' (r1 & u1 & (Hu1 & HQ) & -> & Hk'). exists (back ut u1). split; [|exact Hk']. split; [|by exists u0, r1, u1].
    exists u1. split; [done|]. destruct Fr as (_ & _ & _ & _ & _ & _ & _ & Fk & _). by rewrite Hu1, Fk.
Qed.
End turn.
