(* ===== verification/Crash.v ===== *)
(** * A program that is killed by an exception

    The processor calls the wrapper of an exception in the middle of a program; the
    handler of the kernel prints its message, and halt resumes the process that
    executed the program with 256.  What the program had changed of its own is gone. *)

From Stdlib Require Import ZArith Lia String.
From stdpp Require Import gmap list numbers strings.
From S2P Require Import Prelude Memory LibString State Display Printf Paging Pcb FileSystem Vfs Keyboard Terminal Syscalls.
From S2P Require Import Execute Calls Idt UserLib Process Spawn Programs Clients Shell Commands.

(** How a program ends: main returns, or an exception is raised; [cr2] is the address
    of a page fault. *)
Inductive outcome := Returns (eax : Z) | Raises (cr2 : Z) (w : wrapper).

(** The programs that execute may enter run [main]. *)
Definition run_program (f : frame) (main : M outcome) : Z -> Z -> M Z := fun _ _ =>
  o ← main;
  c ← match o with
      | Returns eax => syscall f [] 1 (u32 eax) 0 0
      | Raises cr2 w => h ← lift OutOfBounds (exception_of cr2 w); h f
      end;
  match c with Back eax => mret eax | User _ _ => lift Diverges None end.

(** A store of a program; [false]: there is no page, and the processor raises the fault. *)
Definition try_store (p v : Z) : M bool :=
  k ← gets id;
  let a := resolve_virt_addr (k_mem k) (cr3 (k_cpu k)) p in
  if a =? 0 then mret false else upd_mem (fun m => wr m a v) ;; mret true.

(** An exception of the processor, with its message. *)
Definition message_of (o : outcome) (text : list Z) : Prop :=
  match o with
  | Returns _ => text = []
  | Raises cr2 w => exists h, exception_of cr2 w = Some h /\ exception_text cr2 w h text
  end.
Definition outcome_ok (o : outcome) : Prop :=
  match o with Returns _ => True | Raises cr2 w => 0 <= cr2 < W32 /\ is_Some (exception_of cr2 w) end.
(** What execute returns. *)
Definition exit_code (o : outcome) : Z := match o with Returns eax => u8 eax | Raises _ _ => 256 end.

Section crash.
Context (E : env) (f : frame).
Hypothesis HE : env_ok E.
Hypothesis Hframe : frame_ok E f.

Section raising.
Context (u u1 : view) (k2 : kernel) (off : Z) (b : pcb_t).
Hypothesis Hoff : free_slot E off.
Hypothesis Hb : waits_with E u b.
Hypothesis Hk2 : process (child_env E off b u) u1 k2.

Lemma exception_resumes_caller cr2 w h : 0 <= cr2 < W32 -> exception_of cr2 w = Some h ->
  wp (h f) (fun r k' => r = Back 256 /\ exists text, exception_text cr2 w h text /\ process E (back u (printed text u1)) k') k2.
Proof using All.
  intros Hc Hw. destruct (exception_prints cr2 w h f Hc Hw) as (c & -> & Hp).
  pose proof Hk2 as (_ & _ & (S1 & S2 & S3 & S4 & _) & _). pose proof (Hp k2 (v_screen u1)) as W. cbv zeta in W. rewrite S1 in W.
  apply wp_bind. eapply wp_mono; [|exact (W S3 S4)]. intros _ k3 (text & Ht & Sh & Fr). cbn beta. rewrite S2 in Sh.
  assert (process (child_env E off b u) (printed text u1) k3) as Hk3.
  { apply (process_drawn _ (child_env_ok E HE off b u Hoff) u1 k2); [exact Hk2|exact Fr|exact Sh|by apply text_spec_ok]. }
  wp_steps. eapply wp_mono; [|exact (halt_resumes_caller E f HE Hframe u (printed text u1) k3 off b Hoff Hb Hk3 true 0)].
  intros r k4 [-> Hk4]. split; [done|]. by exists text.
Qed.
End raising.

Lemma run_program_ok main u k1 off b u0 (Q : view -> outcome -> view -> Prop) eip esp : free_slot E off -> waits_with E u b ->
  process (child_env E off b u) u0 k1 -> does (process (child_env E off b u)) main u0 (Q u0) -> (forall o u1, Q u0 o u1 -> outcome_ok o) ->
  wp (run_program f main eip esp) (fun r k' => exists o u1 text, Q u0 o u1 /\ r = exit_code o /\ message_of o text /\
    process E (back u (printed text u1)) k') k1.
Proof using HE Hframe.
  intros Hoff Hb Hk1 Hmain Hok. unfold run_program. wp_steps. eapply wp_mono; [|exact (Hmain k1 Hk1)].
  intros o k2 (u1 & HQ & Hk2). cbn beta. pose proof (Hok o u1 HQ) as Ho. destruct o as [eax|cr2 w].
  - change (syscall f [] 1 (u32 eax) 0 0) with (sys_halt f (u8 (u32 eax))).
    pose proof (halt_resumes_caller E f HE Hframe u u1 k2 off b Hoff Hb Hk2 false (u8 (u32 eax))) as W. rewrite (not_excepted _ _ _ Hk2) in W.
    apply wp_bind. eapply wp_mono; [|exact W]. intros r k3 [-> Hk3]. apply wp_mret. exists (Returns eax), u1, []. split_and!; [exact HQ| |done|exact Hk3].
    change 0xFF with (Z.ones 8). rewrite Z.land_ones by lia. cbn [exit_code]. zlia.
  - destruct Ho as [Hc [h Hw]]. apply wp_bind. wp_steps. rewrite Hw. eapply wp_lift; [reflexivity|].
    eapply wp_mono; [|exact (exception_resumes_caller u u1 k2 off b Hoff Hb Hk2 cr2 w h Hc Hw)].
    intros r k3 (-> & text & Ht & Hk3). apply wp_mret. exists (Raises cr2 w), u1, text. split_and!; [exact HQ|done| |exact Hk3]. by exists h.
Qed.

Hypothesis Hpop : our_popcount (e_status E) <> MAX_PROCESSES.

Lemma run_program_spawn main u kb p s a b c d i (Q : view -> outcome -> view -> Prop) :
  let ino := inode_num (dentry_at (e_mem E) (entry_addr (e_fs E) i)) in
  v_kbd u = Some kb -> parsed s a b c d -> b - a <= CMD_BUF_SIZE -> d - c <= 128 -> in_page p (d + 1) ->
  (forall j, 0 <= j <= d -> bytes_of u p j = s j) ->
  first_named (e_mem E) (e_fs E) i (name_of s a b) -> is_program (e_mem E) (e_fs E) ino ->
  (forall E' u0, env_ok E' -> e_mem E' = e_mem E -> e_fs E' = e_fs E -> fresh (e_mem E) (e_fs E) ino (arg_of s c d) u u0 ->
     does (process E') main u0 (Q u0) /\ forall o u1, Q u0 o u1 -> outcome_ok o) ->
  does (process E) (ece391_execute f (run_program f main) p) u (fun r u' => exists u0 o u1 text,
    fresh (e_mem E) (e_fs E) ino (arg_of s c d) u u0 /\ Q u0 o u1 /\ r = exit_code o /\ message_of o text /\ u' = back u (printed text u1)).
Proof using HE Hframe Hpop.
  intros ino Hkb Hp Hab Harg Hpage Hs Hn Hprog Hmain. eapply (spawn_with E f HE Hframe Hpop _ u kb); try eassumption.
  intros off b1 u0 k1 eip esp Hoff Hb Hk1 Hfr. destruct (Hmain (child_env E off b1 u) u0) as [Hd Hok]; [by apply (child_env_ok E HE)|done|done|exact Hfr|].
  eapply wp_mono; [|apply (run_program_ok main u k1 off b1 u0 Q _ _ Hoff Hb Hk1 Hd Hok)].
  cbn beta. intros r k3 (o & u1 & text & HQ & -> & Ht & Hk3). exists (back u (printed text u1)). split; [|exact Hk3]. by exists u0, o, u1, text.
Qed.
End crash.

(** ** The shell after a crash *)

(** The shell [ut] has read its line, the program started as [u0] has left [u1] with the
    outcome [o], and the shell has said what it thinks of the result. *)
Definition crashed (im : memory) (fs ino : Z) (a : list Z) (u : view) (Q : view -> outcome -> view -> Prop) (u' : view) : Prop :=
  exists ut u0 o u1 text, v_color ut = v_color u /\ fresh im fs ino a ut u0 /\ Q u0 o u1 /\ message_of o text /\
    u' = printed (complaint (exit_code o)) (back ut (printed text u1)).

Lemma shell_turn_crashes E f rodata buf main Q kb kb2 cs w a i u :
  env_ok E -> frame_ok E f -> our_popcount (e_status E) <> MAX_PROCESSES -> in_page buf 1024 -> clear_of rodata shell_lits buf 1024 ->
  let ino := inode_num (dentry_at (e_mem E) (entry_addr (e_fs E) i)) in
  let kb' := (keys_spec kb [] cs).1 in
  shell_ready rodata kb u -> plain_keys kb cs = true -> typed kb cs = w ++ 32 :: a -> text_ok (w ++ 32 :: a) = true ->
  word_ok w -> words_ok a -> (length w <= 32)%nat -> first_named (e_mem E) (e_fs E) i (arr_at (w ++ [0])) ->
  is_program (e_mem E) (e_fs E) ino ->
  (forall E' ut u0, env_ok E' -> e_mem E' = e_mem E -> e_fs E' = e_fs E -> v_kbd ut = Some kb' ->
     fresh (e_mem E) (e_fs E) ino a ut u0 -> does (process E') main u0 (fun o u1 => outcome_ok o /\ v_kbd u1 = Some kb2 /\ Q u0 o u1)) ->
  does (process E) (shell_turn f (run_program f main) rodata (type_line cs) buf) u (fun o u' =>
    o = None /\ shell_ready rodata kb2 u' /\ crashed (e_mem E) (e_fs E) ino a u Q u').
Proof.
  intros HE Hframe Hpop Hbuf Hclear ino kb' Hr Hcs Hline T Hw Ha Hwl Hn Hprog Hmain.
  eapply does_mono; [|apply (shell_turn_with E f rodata buf HE Hframe Hpop Hbuf Hclear _ (fun ut r u' => exists u0 o u1 text,
    fresh (e_mem E) (e_fs E) ino a ut u0 /\ Q u0 o u1 /\ message_of o text /\ r = exit_code o /\ u' = back ut (printed text u1)) kb kb2 cs w a i u); try done].
  - intros x u' (-> & R & ut & r & uc & Ct & (u0 & o & u1 & text & Fr & HQ & Ht & -> & ->) & ->). split; [done|]. split; [exact R|].
    by exists ut, u0, o, u1, text.
  - intros ut off b1 u0 k1 eip esp Hkb' Hoff Hb1 Hk1 Fr.
    pose proof (run_program_ok E f HE Hframe main ut k1 off b1 u0 (fun u0 o u1 => outcome_ok o /\ v_kbd u1 = Some kb2 /\ Q u0 o u1) eip esp Hoff Hb1 Hk1) as W.
    eapply wp_mono; [|apply W; [apply (Hmain (child_env E off b1 ut) ut); try done; by apply child_env_ok|by intros o u1 []]].
    intros r k' (o & u1 & text & (_ & Hu1 & HQ) & -> & Ht & Hk'). exists (back ut (printed text u1)). split; [|exact Hk']. split; [by exists (printed text u1)|].
    by exists u0, o, u1, text.
Qed.

(** ** What the kernel promises about signals and address 0 *)

Class OsFaults (P : view -> kernel -> Prop) (f : frame) (child : Z -> Z -> M Z) := {
  (** There are no signals. *)
  os_set_handler u signum handler : -H32 <= signum < H32 -> 0 <= handler < W32 -> acts P (ece391_set_handler f child signum handler) u (-1) u;
  os_sigreturn u ebx ecx edx : acts P (ece391_sigreturn f child ebx ecx edx) u (-1) u;
  os_null_store u v : acts P (try_store 0 v) u false u
}.

Section faults.
Context (E : env) (HE : env_ok E) (f : frame) (child : Z -> Z -> M Z).

Lemma proc_set_handler u signum handler : -H32 <= signum < H32 -> 0 <= handler < W32 ->
  acts (process E) (ece391_set_handler f child signum handler) u (-1) u.
Proof using.
  intros H1 H2 k Hk. unfold ece391_set_handler, DO_CALL, syscall. wp_steps. by exists u.
Qed.

Lemma proc_sigreturn u ebx ecx edx : acts (process E) (ece391_sigreturn f child ebx ecx edx) u (-1) u.
Proof using.
  intros k Hk. unfold ece391_sigreturn, DO_CALL, syscall. wp_steps. by exists u.
Qed.

Lemma proc_null_store u v : acts (process E) (try_store 0 v) u false u.
Proof using.
  clear HE. intros k Hk. unfold try_store. wp_steps. pose proof Hk as (_ & (_ & (_ & _ & _ & Vz) & _) & _ & _ & C & _).
  change (k_mem (id k)) with (k_mem k). change (k_cpu (id k)) with (k_cpu k). rewrite C, Vz. change (0 =? 0) with true. cbv iota. wp_steps. by exists u.
Qed.

#[export] Instance process_faults : OsFaults (process E) f child.
Proof using. split; [exact proc_set_handler|exact proc_sigreturn|exact proc_null_store]. Qed.
End faults.
