(* ===== verification/Userland.v ===== *)
(** * The user programs on the kernel

    The kernel keeps the promise of its system calls, and so the programs of the
    repository work on it: the theorems of Clients.v, Syserr.v and Shell.v for a
    process of the kernel, and a machine on which their hypotheses hold. *)

From Stdlib Require Import ZArith Lia String.
From stdpp Require Import gmap list numbers strings.
From S2P Require Import Prelude Memory LibString State Display Paging Pcb FileSystem Vfs MultiTerm Keyboard Terminal Syscalls.
From S2P Require Import Execute Calls UserLib Process Programs Spawn Clients Syserr Shell Lines Commands.

(** [c] returns, and leaves a process whose view is related to the result by [Q]. *)
Definition finishes {A} (E : env) (c : M A) (k : kernel) (Q : A -> view -> Prop) : Prop :=
  exists r u' k', c k = Ret r k' /\ process E u' k' /\ Q r u'.

Lemma does_finishes {A} E (c : M A) u k Q : does (process E) c u Q -> process E u k -> finishes E c k Q.
Proof. intros Hc Hk. apply Hc, wp_ret_iff in Hk as (r & k' & Er & u' & HQ & Hk'). by exists r, u', k'. Qed.

Section programs.
Context (E : env) (f : frame) (child : Z -> Z -> M Z) (rodata : list Z -> Z) (irqs : list (M unit)).


(** [C24] cat on the kernel: with no argument it says so and exits with 3, for a name that
    is no file it says so and exits with 2, and otherwise it prints exactly the contents
    of the file and exits with 0. *)
Theorem cat_prints_file buf u name fd k :
  env_ok E -> process E u k ->
  in_page buf 1024 -> clear_of rodata cat_lits buf 1024 -> ready rodata cat_lits u ->
  arg_is u name -> free_fd (v_fds u) = Some fd -> 2 <= fd < MAX_DESC ->
  (name <> [] -> file_or_none (im := e_mem E) (fs := e_fs E) name) ->
  finishes E (cat_main f child rodata irqs buf) k (fun r u' => same_console u u' /\
    cat_spec (im := e_mem E) (fs := e_fs E) u name r (v_screen u')).
Proof.
  intros HE Hk Hb Hc Hr Ha Hff Hfd Hn. pose proof (process_calls E HE f child) as OC.
  eapply does_finishes; [|exact Hk]. by apply (cat_main_ok rodata irqs buf Hb Hc u name fd); [..|lia|lia|].
Qed.

(** [C25] ls on the kernel prints the name of every directory entry, one to a line and in
    order, and exits with 0. *)
Theorem ls_lists_directory buf u i fd k :
  env_ok E -> process E u k ->
  in_page buf 33 -> clear_of rodata ls_lits buf 33 -> ready rodata ls_lits u -> dir_ok (im := e_mem E) (fs := e_fs E) ->
  free_fd (v_fds u) = Some fd -> 2 <= fd < MAX_DESC ->
  first_named (e_mem E) (e_fs E) i (arr_at [46; 0]) -> file_type (dentry_at (e_mem E) (entry_addr (e_fs E) i)) = 1 ->
  finishes E (ls_main f child rodata irqs buf) k (fun r u' => r = 0 /\ same_console u u' /\
    v_screen u' = text_spec (v_color u) (listing (im := e_mem E) (fs := e_fs E) (rd32 (e_mem E) (e_fs E))) (v_screen u)).
Proof.
  intros HE Hk Hb Hc Hr Hd Hff Hfd Hi Ht. pose proof (process_calls E HE f child) as OC.
  eapply does_finishes; [|exact Hk]. assert (rd32 (e_mem E) (e_fs E) <= 63) as H63 by apply HE.
  by apply (ls_main_ok rodata irqs buf Hb Hc Hd H63 u i fd); [..|lia|lia| |].
Qed.

(** [C27] The kernel passes the repository's own tests of the error behaviour of its system
    calls: when 0 is typed at the prompt of syserr, every test prints PASS, the overall
    verdict is PASS and the exit status 0. *)
Theorem syserr_tests_pass kb cs buf b ebx ecx edx u k :
  env_ok E -> process E u k ->
  test_dir (im := e_mem E) (fs := e_fs E) -> testing rodata u ->
  v_kbd u = Some kb -> plain_keys kb cs = true -> (keys_spec kb [] cs).2 = [48] ->
  in_page buf 127 -> clear_of rodata test_lits buf 127 -> 0 <= b < W32 ->
  finishes E (syserr_main f child rodata (map process_input (cs ++ [ENTER_KEY_P])) buf b ebx ecx edx) k (fun r u' =>
    r = 0 /\ exists s, v_screen u' = text_spec (v_color u) test_report s).
Proof.
  intros HE Hk Hd Ht Hkb Hcs Hl Hb Hc Hbb. pose proof (process_calls E HE f child) as OC.
  eapply does_finishes; [|exact Hk]. by apply (syserr_main_passes rodata Hd kb).
Qed.

(** [C28] A session of the shell on the kernel: whatever lines are typed that name no file,
    each is read, looked up and refused, and when "exit" is typed the shell returns 0. *)
Theorem shell_session_ends kb lines buf u k :
  env_ok E -> frame_ok E f -> our_popcount (e_status E) <> MAX_PROCESSES -> process E u k ->
  in_page buf 1024 -> clear_of rodata shell_lits buf 1024 -> shell_ready rodata kb u ->
  session (im := e_mem E) (fs := e_fs E) kb lines -> Z.of_nat (length lines) < W32 ->
  finishes E (shell_main f child rodata (map type_line lines) buf) k (fun r _ => r = 0).
Proof.
  intros HE Hf Hp Hk Hb Hc Hr Hs Hn. pose proof (process_calls E HE f child) as OC. pose proof (process_executes E HE f child Hf Hp) as OX.
  eapply does_finishes; [|exact Hk]. by apply (shell_session_ok rodata buf Hb Hc kb).
Qed.

(** The counter program accepts no line at all: the terminal delivers the newline
    with the line, and the program takes the choice for too long (or, on an empty line,
    for a wrong one), says so and exits. *)
Theorem counter_refuses_every_line kb cs buf u k :
  env_ok E -> process E u k ->
  in_page buf 1024 -> clear_of rodata counter_lits buf 1024 -> line_ready rodata counter_lits kb u ->
  plain_keys kb cs = true -> text_ok (typed kb cs) = true ->
  finishes E (counter_main f child rodata (type_line cs) buf) k (fun r u' => r = 0 /\
    exists s, v_screen u' = text_spec (v_color u) (ln "Wrong Choice!") s).
Proof.
  intros HE Hk Hb Hc Hr Hcs Ht. pose proof (process_calls E HE f child) as OC.
  eapply does_finishes; [|exact Hk]. by apply (counter_main_refuses rodata buf Hb kb).
Qed.

(** [C5] A program that a process executes is a call of it: the program is loaded and
    runs as a process of its own, with standard input and output, the argument of the
    command and the console of its caller; when it ends, the caller resumes with the
    low byte of the result, and its page, descriptors and argument are as they were.
    [main] may be any program that works on every process that has its image loaded. *)
Theorem execute_is_a_call main p s a b c d i kb u k (Q : view -> Z -> view -> Prop) :
  let ino := inode_num (dentry_at (e_mem E) (entry_addr (e_fs E) i)) in
  env_ok E -> frame_ok E f -> our_popcount (e_status E) <> MAX_PROCESSES -> process E u k -> v_kbd u = Some kb ->
  parsed s a b c d -> b - a <= CMD_BUF_SIZE -> d - c <= 128 -> in_page p (d + 1) ->
  (forall j, 0 <= j <= d -> bytes_of u p j = s j) ->
  first_named (e_mem E) (e_fs E) i (name_of s a b) -> is_program (e_mem E) (e_fs E) ino ->
  (forall E' u0, env_ok E' -> e_mem E' = e_mem E -> e_fs E' = e_fs E -> fresh (e_mem E) (e_fs E) ino (arg_of s c d) u u0 ->
     does (process E') main u0 (Q u0)) ->
  finishes E (ece391_execute f (run_main f main) p) k (fun r u' => exists u0 r1 u1,
    fresh (e_mem E) (e_fs E) ino (arg_of s c d) u u0 /\ Q u0 r1 u1 /\ r = u8 r1 /\ u' = back u u1).
Proof.
  intros ino HE Hf Hpop Hk Hkb H1 H2 H3 H4 H5 H6 H7 Hm. eapply does_finishes; [|exact Hk].
  by apply (spawn_ok E f HE Hf Hpop main u kb p s a b c d i Q).
Qed.

End programs.

(** ** A machine with a process *)

(** The literals of the programs, one after the other from [p] on. *)
Fixpoint place (p : Z) (lits : list (list Z)) (l : list Z) : Z :=
  match lits with [] => p | x :: r => if bool_decide (x = l) then p else place (p + Z.of_nat (length x) + 1) r l end.
Definition user_lits : list (list Z) := cat_lits ++ ls_lits ++ test_lits ++ shell_lits ++ counter_lits ++ [tx "cat"; tx "rtc"; tx "frame0.txt"; tx "frame1.txt"; ln "could not read argument"; tx ":"; ln ""].
Definition user_rodata : list Z -> Z := place 0x8050000 user_lits.
(** The literals of the program in its image, behind the header. *)
Definition image_lits : list (list Z) :=
  cat_lits ++ [ln "could not read argument"; ln "Installing signal handlers"; tx "Hi, what's your name? "; ln "Can't read name from keyboard."].
Definition cat_rodata : list Z -> Z := place 0x8048040 image_lits.
Definition user_image : memory :=
  let m := wr32 demo_image demo_fs 6 in
  let m := store_bytes m (demo_fs + 64) (tx "cat" ++ [0; 0]) in
  let m := wr32 m (demo_fs + 4096) 512 in
  let m := foldr (fun l m => store_bytes m (demo_fs + 12288 + (cat_rodata l - 0x8048000)) (l ++ [0])) m image_lits in
  let m := store_bytes m (demo_fs + 192) (tx ".") in
  let m := wr32 (wr32 m (demo_fs + 224) 1) (demo_fs + 228) 0 in
  let m := store_bytes m (demo_fs + 256) (tx "rtc") in
  let m := store_bytes m (demo_fs + 320) (tx "frame0.txt") in
  let m := wr32 (wr32 m (demo_fs + 352) 2) (demo_fs + 356) 1 in
  let m := store_bytes m (demo_fs + 384) (tx "frame1.txt") in
  let m := wr32 (wr32 m (demo_fs + 416) 2) (demo_fs + 420) 1 in
  let m := wr32 m 0x401088 (PAGE_TABLE_STARTADDR + 34 * SIZEOFDIR + 7) in
  let m := wr32 m (PAGE_TABLE_STARTADDR + 34 * SIZEOFDIR) (VIDEO_ADDR + 7) in
  foldr (fun l m => store_bytes m (0x800000 + (user_rodata l - PROGRAM_VIRT)) (l ++ [0])) m user_lits.

(** Its descriptors are those of a new process, its argument is [a]. *)
Definition user_pcb (a : list Z) : pcb_t := set_arg (a ++ replicate (129 - length a) 0) shell_pcb.
Definition user_kernel (a : list Z) : kernel :=
  set_k_cpu (set_iflag true (k_cpu demo_shell)) (set_k_mem user_image
    (set_k_proc (mk_proc {[ 0x7FE000 := user_pcb a ]} 0x7FE000 1 1 false false) demo_shell)).
Definition user_env : env := mk_env 0 demo_fs 0x401000 0 0 1 user_image [] VIDEO_ADDR.
Definition user_view (a : list Z) : view :=
  mk_view (fun va => rd user_image (phys user_env va)) (io_files (user_pcb a)) (arg (user_pcb a)) (color (k_disp demo_shell))
    (screen_at (user_kernel a) (term_start 0 term_boot)) (Some (k_kbd demo_shell)).

Lemma user_image_only a : 0 <= a < W32 -> a < 0x401080 \/ 0x401084 <= a < 0x401088 \/ 0x40108C <= a < demo_fs \/ demo_fs + 20480 <= a < 0x800000 -> rd user_image a = 0.
Proof.
  intros Ha Ho. assert (map_Forall (fun x _ => 0x401080 <= x < 0x401084 \/ 0x401088 <= x < 0x40108C \/ demo_fs <= x < demo_fs + 20480 \/ 0x800000 <= x) user_image) as F
    by (apply (bool_decide_unpack _); vm_compute; exact I).
  unfold rd. rewrite u32_small by done. destruct (user_image !! a) as [v|] eqn:Ea; [|done].
  apply F in Ea. unfold demo_fs in *. lia.
Qed.

Lemma user_paging : paging_wf user_image 0x401000.
Proof.
  split_and!; [lia|lia|]. intros i Hi Hp Hl. destruct (Z.eq_dec i 34) as [->|Hn]; [vm_compute; reflexivity|]. exfalso.
  destruct (Z.eq_dec i 32) as [->|Hne]; [vm_compute in Hl; discriminate Hl|].
  assert (dir_entry user_image 0x401000 i = 0) as Ed
    by (unfold dir_entry, rd32; by rewrite !user_image_only by (unfold demo_fs; lia)).
  rewrite Ed in Hp. discriminate Hp.
Qed.

Lemma user_env_ok : env_ok user_env.
Proof.
  assert (image_size user_image demo_fs = 20480) as Es by (vm_compute; reflexivity).
  assert (rd32 user_image demo_fs = 6) as En by (vm_compute; reflexivity).
  unfold env_ok, slots_ok. cbn [e_off e_fs e_dir e_mem e_wait e_status user_env]. rewrite Es, En. unfold demo_fs.
  refine (conj _ (conj _ (conj eq_refl (conj _ (conj _ (conj (Forall_nil_2 _) (conj _ (conj _ _)))))))); lia.
Qed.

Lemma user_tables : own_tables user_env user_image.
Proof.
  split; [exact user_paging|]. refine (conj _ (conj _ _)); cbn [e_dir user_env]; [| |vm_compute; reflexivity].
  2: { intros o Ho. rewrite resolve_arith by lia. cbv zeta. replace ((VIDMAP_VIRT_ADDR + o) / FOUR_MB) with 34 by zlia.
    assert (dir_entry user_image 0x401000 34 = PAGE_TABLE_STARTADDR + 34 * SIZEOFDIR + 7) as -> by (vm_compute; reflexivity).
    unfold table_entry. replace (((VIDMAP_VIRT_ADDR + o) / FOUR_KB) mod 1024) with 0 by zlia.
    match goal with |- context [rd32 user_image ?a] => replace (rd32 user_image a) with (VIDEO_ADDR + 7) by (vm_compute; reflexivity) end.
    change (present _) with true. change (large _) with false. cbv beta iota delta [negb].
    change ((VIDEO_ADDR + 7) / FOUR_KB * FOUR_KB) with VIDEO_ADDR. replace ((VIDMAP_VIRT_ADDR + o) mod FOUR_KB) with o by zlia. change (e_vid user_env) with VIDEO_ADDR. apply u32_small. lia. }
  intros va Hva. rewrite resolve_arith by lia. replace (va / FOUR_MB) with 32 by zlia.
  assert (dir_entry user_image 0x401000 32 = 0x800087) as -> by (vm_compute; reflexivity).
  change (present 0x800087) with true. change (large 0x800087) with true. cbn [negb]. cbv zeta. unfold phys. change (e_base user_env) with 0x800000.
  change (0x800087 / FOUR_MB * FOUR_MB) with 0x800000. replace (va mod FOUR_MB) with (va - PROGRAM_VIRT) by zlia. apply u32_small. lia.
Qed.

Lemma user_frame_ok : frame_ok user_env demo_frame.
Proof.
  assert (image_size user_image demo_fs = 20480) as Es by (vm_compute; reflexivity).
  unfold frame_ok, apart. cbn [e_fs e_dir e_mem user_env cmd file_data demo_frame]. rewrite Es. unfold demo_fs. lia.
Qed.

Lemma user_process a : (length a <= 128)%nat -> process user_env (user_view a) (user_kernel a).
Proof.
  intros Ha. refine (conj _ (conj _ (conj (conj eq_refl (conj eq_refl (conj _ (conj _ _)))) (conj _ (conj eq_refl (conj eq_refl (conj _ (Forall_nil_2 _)))))))).
  - exists (user_pcb a). split_and!; try done. split_and!; [done| |done]. cbn [user_pcb arg set_arg]. rewrite length_app, length_replicate. lia.
  - refine (conj _ (conj user_tables _)); done.
  - exists (set_cur_task 0x7FE000 (term_start 0 term_boot)). by split_and!.
  - split; cbn; lia.
  - exists (set_cur_task 0x7FE000 (term_start 0 term_boot)). split; [done|]. cbn. lia.
  - intros kb [= <-]. refine (conj eq_refl (conj _ (conj _ (conj eq_refl (conj eq_refl _))))); [cbn; lia| |].
    + split; [reflexivity|]. repeat (apply Forall_cons_2; [apply term_start_wf|]). apply Forall_nil_2.
    + exists (set_cur_task 0x7FE000 (term_start 0 term_boot)). split; [done|]. split_and!; done || (cbn; lia).
  - refine (conj eq_refl (conj eq_refl (conj eq_refl (conj _ (conj _ _))))); [|by exists (user_pcb a)|].
    { apply map_Forall_singleton. split_and!; [done| |done]. cbn [user_pcb arg set_arg]. rewrite length_app, length_replicate. lia. }
    by exists (set_cur_task 0x7FE000 (term_start 0 term_boot)).
Qed.

(** Hypotheses by evaluation. *)
Definition holdsb (u : view) (p : Z) (l : list Z) : bool :=
  (PROGRAM_VIRT <=? p) && (p + (Z.of_nat (length l) + 1) <=? PROGRAM_VIRT + FOUR_MB) &&
  forallb (fun i => bytes_of u p i =? arr_at (l ++ [0]) i) (seqZ 0 (Z.of_nat (length l) + 1)).

Lemma holds_check u p l : holdsb u p l = true -> holds u p l.
Proof.
  unfold holdsb. intros H. repeat (apply andb_true_iff in H as [H ?]). b2p. split; [unfold in_page; lia|]. intros i Hi.
  apply Z.eqb_eq. apply (forallb_range (fun i => bytes_of u p i =? arr_at (l ++ [0]) i) 0 (Z.of_nat (length l) + 1)); [done|lia].
Qed.

Lemma ready_check rodata lits u d : desc u 1 = Some d -> file_ops d = stdout ->
  forallb (fun l => text_ok l && holdsb u (rodata l) l) lits = true -> ready rodata lits u.
Proof.
  intros Hd Ho H. split; [by exists d|]. apply Forall_forall. intros l Hl. rewrite forallb_forall in H. apply list_elem_of_In in Hl.
  specialize (H l Hl). b2p. split; [done|]. by apply holds_check.
Qed.

Lemma clear_check rodata lits p n : forallb (fun l => (rodata l + (Z.of_nat (length l) + 1) <=? p) || (p + n <=? rodata l)) lits = true ->
  clear_of rodata lits p n.
Proof.
  intros H. apply Forall_forall. intros l Hl. rewrite forallb_forall in H. apply list_elem_of_In in Hl. specialize (H l Hl).
  apply orb_true_iff in H as [H|H]; b2p; unfold apart; lia.
Qed.

Lemma user_ready a lits : forallb (fun l => text_ok l && holdsb (user_view a) (user_rodata l) l) lits = true -> ready user_rodata lits (user_view a).
Proof. by apply (ready_check _ _ _ (opened stdout 0)). Qed.

Lemma user_count : rd32 user_image demo_fs = 6.
Proof. vm_compute. reflexivity. Qed.

(** Names that differ. *)
Definition differ (m : memory) (fs : Z) (s : Z -> Z) (i : Z) : bool :=
  let e := at_ m (entry_addr fs i) in
  existsb (fun j => forallb (fun x => negb (e x =? 0)) (seqZ 0 j) && negb (e j =? s j)) (seqZ 0 FILENAME_LEN).

Lemma differ_check m fs s i : differ m fs s i = true -> ~ has_name m fs i s.
Proof.
  unfold differ. intros (j & Hj & H)%existsb_exists Hn. apply list_elem_of_In, elem_of_seqZ in Hj. b2p.
  apply H0, Hn; [lia|]. intros x Hx. pose proof (forallb_range _ 0 j x H ltac:(lia)) as G. cbn beta in G. b2p. done.
Qed.

Lemma user_no_entry s : forallb (differ user_image demo_fs s) (seqZ 0 6) = true ->
  forall i, 0 <= i < rd32 user_image demo_fs -> ~ has_name user_image demo_fs i s.
Proof.
  intros H i Hi. rewrite user_count in Hi. apply differ_check. apply (forallb_range _ 0 6 i H). lia.
Qed.

Lemma user_first i s l : 0 <= i < 6 -> 0 <= l -> at_ user_image (entry_addr demo_fs i) l = 0 ->
  forallb (fun j => at_ user_image (entry_addr demo_fs i) j =? s j) (seqZ 0 (l + 1)) = true ->
  forallb (differ user_image demo_fs s) (seqZ 0 i) = true -> first_named user_image demo_fs i s.
Proof.
  intros Hi Hl Hz H F. split_and!; [lia|rewrite user_count; lia|by apply (has_name_check _ _ _ _ l)|].
  intros j Hj. apply differ_check. apply (forallb_range _ 0 i j F). lia.
Qed.

Lemma user_file : file_ok user_image demo_fs 1.
Proof.
  assert (file_length user_image demo_fs 1 = 4) as El by (vm_compute; reflexivity).
  split; [split; [vm_compute; split; congruence|lia]|]. intros b Hb Hlt. rewrite El in Hlt. assert (b = 0) as -> by lia. vm_compute. reflexivity.
Qed.

Lemma user_dir : dir_ok (im := user_image) (fs := demo_fs).
Proof.
  intros i l Hi (H1 & H2 & H3). rewrite user_count in Hi.
  split; [|right; assert (i = 0 \/ i = 1 \/ i = 2 \/ i = 3 \/ i = 4 \/ i = 5) as [->|[->|[->|[->|[->| ->]]]]] by lia; vm_compute; reflexivity].
  destruct (Z.eq_dec l 0) as [->|]; [|lia]. specialize (H3 ltac:(lia)).
  assert (i = 0 \/ i = 1 \/ i = 2 \/ i = 3 \/ i = 4 \/ i = 5) as [->|[->|[->|[->|[->| ->]]]]] by lia; vm_compute in H3; discriminate.
Qed.

Lemma user_named_cat : first_named user_image demo_fs 0 (arr_at (tx "cat" ++ [0])).
Proof. apply (user_first 0 _ 3); [lia|lia|vm_compute; reflexivity..]. Qed.
Lemma user_named_txt : first_named user_image demo_fs 1 (arr_at (tx "txt" ++ [0])).
Proof. apply (user_first 1 _ 3); [lia|lia|vm_compute; reflexivity..]. Qed.
Lemma user_cat_inode : inode_num (dentry_at user_image (entry_addr demo_fs 0)) = 0.
Proof. vm_compute. reflexivity. Qed.
Lemma user_txt_inode : inode_num (dentry_at user_image (entry_addr demo_fs 1)) = 1.
Proof. vm_compute. reflexivity. Qed.
Lemma user_not_std : not_std (arr_at (tx "txt" ++ [0])).
Proof. split; intros Es; specialize (Es 0 ltac:(lia) ltac:(intros; lia)); discriminate Es. Qed.

Lemma dot_first : first_named user_image demo_fs 2 (arr_at [46; 0]).
Proof. apply (user_first 2 _ 1); [lia|lia|vm_compute; reflexivity..]. Qed.

Definition no_child : Z -> Z -> M Z := fun _ _ => lift Diverges None.
Definition user_buf : Z := 0x8060000.


(** cat txt: prints "text". *)
Lemma cat_prints_file_witness :
  finishes user_env (cat_main demo_frame no_child user_rodata [] user_buf) (user_kernel (tx "txt")) (fun r u' => r = 0 /\
    v_screen u' = text_spec 7 (tx "text") (v_screen (user_view (tx "txt")))).
Proof.
  pose proof user_named_txt as Hn. pose proof user_not_std as Hstd. pose proof user_txt_inode as Ei.
  destruct (cat_prints_file user_env demo_frame no_child user_rodata [] user_buf (user_view (tx "txt")) (tx "txt") 2
    (user_kernel (tx "txt"))) as (r & u' & k' & Er & Hk' & _ & (_ & _ & H)).
  - apply user_env_ok.
  - apply user_process. cbn. lia.
  - unfold in_page, user_buf. lia.
  - apply clear_check. vm_compute. reflexivity.
  - apply user_ready. vm_compute. reflexivity.
  - split_and!; [reflexivity|cbn; lia|reflexivity].
  - reflexivity.
  - lia.
  - intros _. right. exists 1. split_and!; [exact Hn|cbn; lia|exact Hstd|vm_compute; reflexivity|].
    cbn [e_mem e_fs user_env]. rewrite Ei. exact user_file.
  - exists r, u', k'. split_and!; [exact Er|exact Hk'|..]; specialize (H 1 Hn); cbn [e_mem e_fs user_env] in H; cbv zeta in H; rewrite Ei in H;
      destruct (H ltac:(done) ltac:(cbn; lia) Hstd ltac:(vm_compute; reflexivity) user_file) as [H1 H2]; [exact H1|].
    rewrite H2. f_equal.
Defined.

(** ls: the six entries. *)
Lemma ls_lists_directory_witness :
  finishes user_env (ls_main demo_frame no_child user_rodata [] user_buf) (user_kernel []) (fun r u' => r = 0 /\
    v_screen u' = text_spec 7 (ln "cat" ++ ln "txt" ++ ln "." ++ ln "rtc" ++ ln "frame0.txt" ++ ln "frame1.txt") (v_screen (user_view []))).
Proof.
  destruct (ls_lists_directory user_env demo_frame no_child user_rodata [] user_buf (user_view []) 2 2 (user_kernel []))
    as (r & u' & k' & Er & Hk' & Hr & _ & Hs).
  - apply user_env_ok.
  - apply user_process. cbn. lia.
  - unfold in_page, user_buf. lia.
  - apply clear_check. vm_compute. reflexivity.
  - apply user_ready. vm_compute. reflexivity.
  - exact user_dir.
  - reflexivity.
  - lia.
  - exact dot_first.
  - vm_compute. reflexivity.
  - exists r, u', k'. split_and!; [exact Er|exact Hk'|exact Hr|]. rewrite Hs. f_equal.
Defined.

(** 0, ENTER. *)
Lemma syserr_tests_pass_witness :
  finishes user_env (syserr_main demo_frame no_child user_rodata (map process_input [0x0B; 0x1C]) user_buf 0x8070000 0 0 0)
    (user_kernel []) (fun r u' => r = 0 /\ exists s, v_screen u' = text_spec 7 test_report s).
Proof.
  apply (syserr_tests_pass user_env demo_frame no_child user_rodata (k_kbd demo_shell) [0x0B] user_buf 0x8070000 0 0 0 (user_view []) (user_kernel [])).
  - apply user_env_ok.
  - apply user_process. cbn. lia.
  - refine (conj _ (conj (user_no_entry _ _) (conj (user_no_entry _ _) (user_no_entry _ _)))); [|vm_compute; reflexivity..].
    exists 2. split; [exact dot_first|vm_compute; reflexivity].
  - split; [|apply user_ready; vm_compute; reflexivity].
    exists (opened stdin 0), (opened stdout 0), (replicate 6 fdesc_zero). split_and!; try reflexivity. by repeat constructor.
  - reflexivity.
  - vm_compute. reflexivity.
  - vm_compute. reflexivity.
  - unfold in_page, user_buf. lia.
  - apply clear_check. vm_compute. reflexivity.
  - lia.
Defined.

(** "nope", an empty line and "exit". *)
Definition demo_lines : list (list Z) := [[0x31; 0x18; 0x19; 0x12]; []; [0x12; 0x2D; 0x17; 0x14]].

Lemma shell_session_ends_witness :
  finishes user_env (shell_main demo_frame no_child user_rodata (map type_line demo_lines) user_buf) (user_kernel []) (fun r _ => r = 0).
Proof.
  apply (shell_session_ends user_env demo_frame no_child user_rodata (k_kbd demo_shell) demo_lines user_buf (user_view []) (user_kernel [])).
  - apply user_env_ok.
  - apply user_frame_ok.
  - vm_compute. discriminate.
  - apply user_process. cbn. lia.
  - unfold in_page, user_buf. lia.
  - apply clear_check. vm_compute. reflexivity.
  - split_and!; [reflexivity|exists (opened stdin 0); split; reflexivity|apply user_ready; vm_compute; reflexivity].
  - split_and!; [vm_compute; reflexivity|vm_compute; reflexivity|]. right. split.
    { right. replace (typed _ _) with (tx "nope") by (vm_compute; reflexivity). exists 0, 4, 4. split_and!; [|lia|].
      - apply parsed_check; [|cbn; lia|cbn; lia|cbn; lia|vm_compute; reflexivity]. apply arr_at_bytes. repeat constructor; cbn; lia.
      - apply user_no_entry. vm_compute. reflexivity. }
    split_and!; [vm_compute; reflexivity|vm_compute; reflexivity|]. right. split; [left; vm_compute; reflexivity|].
    split_and!; [vm_compute; reflexivity|vm_compute; reflexivity|]. left. vm_compute. reflexivity.
  - cbn. lia.
Defined.

(** 1, ENTER. *)
Lemma counter_refuses_every_line_witness :
  finishes user_env (counter_main demo_frame no_child user_rodata (type_line [0x02]) user_buf) (user_kernel []) (fun r u' => r = 0 /\
    exists s, v_screen u' = text_spec 7 (ln "Wrong Choice!") s).
Proof.
  apply (counter_refuses_every_line user_env demo_frame no_child user_rodata (k_kbd demo_shell) [0x02] user_buf (user_view []) (user_kernel [])).
  - apply user_env_ok.
  - apply user_process. cbn. lia.
  - unfold in_page, user_buf. lia.
  - apply clear_check. vm_compute. reflexivity.
  - split_and!; [reflexivity|exists (opened stdin 0); split; reflexivity|apply user_ready; vm_compute; reflexivity].
  - vm_compute. reflexivity.
  - vm_compute. reflexivity.
Defined.

Lemma user_program : is_program user_image demo_fs 0.
Proof.
  assert (file_length user_image demo_fs 0 = 512) as El by (vm_compute; reflexivity).
  unfold is_program. rewrite El. refine (conj (conj (conj _ _) _) (conj _ _)).
  - vm_compute. split; congruence.
  - lia.
  - intros x Hx Hlt. rewrite El in Hlt. assert (x = 0) as -> by lia. vm_compute. reflexivity.
  - lia.
  - vm_compute. split_and!; reflexivity.
Qed.

(** A literal in the image, by evaluation. *)
Lemma image_check im fs ino rodata lits : forallb (fun l => text_ok l && let q := rodata l - (PROGRAM_VIRT + PROGRAM_VIRT_OFF) in
    (0 <=? q) && (q + Z.of_nat (length l) <? file_length im fs ino) &&
    forallb (fun j => file_byte im fs ino (q + j) =? arr_at (l ++ [0]) j) (seqZ 0 (Z.of_nat (length l) + 1))) lits = true ->
  image_holds im fs ino rodata lits.
Proof.
  intros H. apply Forall_forall. intros l Hl. rewrite forallb_forall in H. apply list_elem_of_In in Hl. specialize (H l Hl). cbv zeta in *.
  repeat (apply andb_true_iff in H as [H ?]). apply andb_true_iff in H0 as [H0 ?]. apply andb_true_iff in H0 as [H0 ?].
  apply Z.leb_le in H0. apply Z.ltb_lt in H2. split_and!; [done|lia|lia|]. intros j Hj. apply Z.eqb_eq.
  apply (forallb_range _ 0 (Z.of_nat (length l) + 1) j H1). lia.
Qed.

(** A program that returns 263 at once: the caller gets 7. *)
Lemma execute_is_a_call_witness : finishes user_env
  (ece391_execute demo_frame (run_main demo_frame (mret 263)) (user_rodata (tx "cat"))) (user_kernel []) (fun r u' => r = 7).
Proof.
  assert (ready user_rodata [tx "cat"] (user_view [])) as [_ R] by (apply user_ready; vm_compute; reflexivity).
  apply Forall_cons_1 in R as [[_ [Hpg Hb]] _].
  assert (parsed (arr_at (tx "cat" ++ [0])) 0 3 3 3) as Hp.
  { apply parsed_check; [|lia|lia|lia|vm_compute; reflexivity]. apply arr_at_bytes. repeat constructor; cbn; lia. }
  destruct (execute_is_a_call user_env demo_frame (mret 263) (user_rodata (tx "cat")) (arr_at (tx "cat" ++ [0])) 0 3 3 3 0
    (k_kbd demo_shell) (user_view []) (user_kernel []) (fun _ r _ => r = 263)) as (r & u' & k' & Er & Hk' & u0 & r1 & u1 & _ & -> & Hr & _).
  - apply user_env_ok.
  - apply user_frame_ok.
  - vm_compute. discriminate.
  - apply user_process. cbn. lia.
  - reflexivity.
  - exact Hp.
  - lia.
  - lia.
  - exact Hpg.
  - exact Hb.
  - apply (first_named_ext 0 (arr_at (tx "cat" ++ [0])) _ 3); [|lia|reflexivity|exact user_named_cat]. intros j Hj.
    assert (j = 0 \/ j = 1 \/ j = 2 \/ j = 3) as [->|[->|[->| ->]]] by lia; reflexivity.
  - cbn [e_mem e_fs user_env]. rewrite user_cat_inode. exact user_program.
  - intros E' u0 _ _ _ _. by apply does_mret.
  - exists r, u', k'. split_and!; [exact Er|exact Hk'|]. rewrite Hr. reflexivity.
Defined.

