(* ===== verification/Blink.v ===== *)
(** * The blinking characters of the fish program (src/fish/blink.S, fish.c)

    The array of structures and the linked list of those in use.  A pointer to
    blink_array[i] is i + 1, NULL is 0; the structures that the caller of mp1_ioctl
    passes are values.  The assembly is modelled block by block: a label that is
    jumped to is a definition or the head of a loop, a register is a variable. *)

From Stdlib Require Import ZArith Lia.
From stdpp Require Import gmap list numbers.
From S2P Require Import Prelude Memory State Display Paging Syscalls UserLib Process.

Abbreviation SCREEN_CELLS := 2000.        (* 80*25 *)

(** ** Definitions *)

Record mp1_blink_struct := mk_blink {
  location : Z; on_char : Z; off_char : Z; on_length : Z; off_length : Z; countdown : Z; status : Z; next : Z
}.

Definition set_countdown (v : Z) (b : mp1_blink_struct) := mk_blink (location b) (on_char b) (off_char b) (on_length b) (off_length b) v (status b) (next b).
Definition set_status (v : Z) (b : mp1_blink_struct) := mk_blink (location b) (on_char b) (off_char b) (on_length b) (off_length b) (countdown b) v (next b).
Definition set_next (v : Z) (b : mp1_blink_struct) := mk_blink (location b) (on_char b) (off_char b) (on_length b) (off_length b) (countdown b) (status b) v.
Definition set_lengths (on off : Z) (b : mp1_blink_struct) := mk_blink (location b) (on_char b) (off_char b) on off (countdown b) (status b) (next b).

Definition no_blink : mp1_blink_struct := mk_blink 0 0 0 0 0 0 0 0.

(** The variables of the program. *)
Record blinkers := mk_blinkers { blink_array : list mp1_blink_struct; mp1_list_head : Z }.

(** After the memset of main. *)
Definition no_blinkers : blinkers := mk_blinkers (replicate (Z.to_nat SCREEN_CELLS) no_blink) 0.

Definition slot (a : list mp1_blink_struct) (p : Z) : option mp1_blink_struct :=
  if (0 <? p) then a !! Z.to_nat (p - 1) else None.
Definition put_slot (p : Z) (b : mp1_blink_struct) (s : blinkers) : blinkers :=
  mk_blinkers (<[Z.to_nat (p - 1) := b]> (blink_array s)) (mp1_list_head s).
Definition set_head (p : Z) (s : blinkers) : blinkers := mk_blinkers (blink_array s) p.

(** A load or store through a pointer that is not to the array is a fault. *)
Definition at_slot (s : blinkers) (p : Z) : M mp1_blink_struct := lift OutOfBounds (slot (blink_array s) p).

(** A 16-bit value as a signed number. *)
Definition i16 (z : Z) : Z := let z := u16 z in if z <? 32768 then z else z - W16.

Section engine.
(** The address of the variable that vidmap fills in. *)
Context (vmem_base_addr : Z).

Definition mp1_poke (eax cl : Z) : M unit := edx ← load32 vmem_base_addr; store (u32 (edx + eax)) cl.

(** The structure at ebx counts down; when its time is over, it shows the other
    character. *)
Definition tasklet_loop : Z * blinkers -> M (Z * blinkers + blinkers) := fun '(ebx, s) =>
  if ebx =? 0 then mret (inr s) else
  b ← at_slot s ebx;
  let b := set_countdown (u16 (countdown b - 1)) b in
  let s := put_slot ebx b s in
  if 0 <? i16 (countdown b) then mret (inl (next b, s)) else
  let eax := Z.shiftl (location b) 1 in
  dx ← (if Z.testbit (status b) 0 then mp1_poke eax (off_char b) ;; mret (off_length b)
        else mp1_poke eax (on_char b) ;; mret (on_length b));
  let b := set_status (Z.lxor (status b) 1) (set_countdown dx b) in
  mret (inl (next b, put_slot ebx b s)).

Definition mp1_rtc_tasklet (s : blinkers) : M blinkers := loopM tasklet_loop (mp1_list_head s, s).

Definition mp1_find_helper (s : blinkers) (ax : Z) : M Z :=
  loopM (fun ebx =>
    if ebx =? 0 then mret (inr 0) else
    b ← at_slot s ebx;
    if location b =? u16 ax then mret (inr ebx) else mret (inl (next b))) (mp1_list_head s).

(** A structure with location 0 is free. *)
Definition mp1_malloc (s : blinkers) : M Z :=
  loopM (fun i =>
    if i <? SCREEN_CELLS then
      b ← at_slot s (i + 1);
      if location b =? 0 then mret (inr (i + 1)) else mret (inl (i + 1))
    else mret (inr 0)) 0.

Definition mp1_free (memory : Z) (s : blinkers) : M blinkers := _ ← at_slot s memory; mret (put_slot memory no_blink s).

Definition mp1_ioctl_add (arg : mp1_blink_struct) (s : blinkers) : M (Z * blinkers) :=
  if SCREEN_CELLS <=? location arg then mret (-1, s) else
  let ebx := set_countdown (on_length arg) (set_status 1 arg) in
  eax ← mp1_malloc s;
  if eax =? 0 then mret (-1, s) else
  let edx := set_next (mp1_list_head s) ebx in
  let s := set_head eax (put_slot eax edx s) in
  mp1_poke (Z.shiftl (location edx) 1) (on_char edx) ;;
  mret (0, s).

(** edx: [None] is &mp1_list_head, [Some p] the next field of p. *)
Definition at_link (s : blinkers) (edx : option Z) : M Z :=
  match edx with None => mret (mp1_list_head s) | Some p => b ← at_slot s p; mret (next b) end.
Definition set_link (s : blinkers) (edx : option Z) (p : Z) : M blinkers :=
  match edx with None => mret (set_head p s) | Some q => b ← at_slot s q; mret (put_slot q (set_next p b) s) end.

Definition remove_find_prev (s : blinkers) (eax : Z) : M (option Z) :=
  loopM (fun edx => p ← at_link s edx; if p =? eax then mret (inr edx) else mret (inl (Some p))) None.

Definition mp1_ioctl_remove (arg : Z) (s : blinkers) : M (Z * blinkers) :=
  eax ← mp1_find_helper s arg;
  if eax =? 0 then mret (-1, s) else
  edx ← remove_find_prev s eax;
  b ← at_slot s eax;
  s ← set_link s edx (next b);
  s ← mp1_free eax s;
  mret (0, s).

(** The condition of cmovl after "testb $0x1": the sign of the byte (no overflow). *)
Definition cmovl_after_test (v : Z) : bool := Z.testbit (Z.land v 1) 7.

Definition mp1_ioctl_sync (arg : Z) (s : blinkers) : M (Z * blinkers) :=
  esi ← mp1_find_helper s (Z.shiftr arg 16);
  if esi =? 0 then mret (-1, s) else
  edi ← mp1_find_helper s (Z.land arg 0xFFFF);
  if edi =? 0 then mret (-1, s) else
  from ← at_slot s esi;
  to ← at_slot s edi;
  let b := set_status (status from) (set_countdown (countdown from) (set_lengths (on_length from) (off_length from) to)) in
  let s := put_slot edi b s in
  let ecx := if cmovl_after_test (status b) then on_char b else off_char b in
  mp1_poke (Z.shiftl (location b) 1) ecx ;;
  mret (0, s).

(** [arg]: the structure of the caller, before and after. *)
Definition mp1_ioctl_find (arg : mp1_blink_struct) (s : blinkers) : M (Z * mp1_blink_struct) :=
  eax ← mp1_find_helper s (location arg);
  if eax =? 0 then mret (-1, arg) else
  b ← at_slot s eax;
  mret (0, b).

Inductive ioctl := RTC_ADD (arg : mp1_blink_struct) | RTC_REMOVE (arg : Z) | RTC_FIND (arg : mp1_blink_struct) | RTC_SYNC (arg : Z).

(** The call table; with the result, the structure that RTC_FIND fills in. *)
Definition mp1_ioctl (cmd : ioctl) (s : blinkers) : M (Z * option mp1_blink_struct * blinkers) :=
  match cmd with
  | RTC_ADD arg => '(r, s) ← mp1_ioctl_add arg s; mret (r, None, s)
  | RTC_REMOVE arg => '(r, s) ← mp1_ioctl_remove arg s; mret (r, None, s)
  | RTC_FIND arg => '(r, b) ← mp1_ioctl_find arg s; mret (r, Some b, s)
  | RTC_SYNC arg => '(r, s) ← mp1_ioctl_sync arg s; mret (r, None, s)
  end.

(** What main does with the engine: commands, and a tick for every interrupt of the
    clock.  The results of the commands are collected. *)
Inductive event := Tick | Ioctl (cmd : ioctl).

Fixpoint run (evs : list event) (s : blinkers) : M (list (Z * option mp1_blink_struct) * blinkers) :=
  match evs with
  | [] => mret ([], s)
  | Tick :: evs => s ← mp1_rtc_tasklet s; run evs s
  | Ioctl cmd :: evs => '(r, g, s) ← mp1_ioctl cmd s; '(rs, s) ← run evs s; mret ((r, g) :: rs, s)
  end.
End engine.

(** ** The abstract blinkers *)

(** A blinker is a structure whose link does not matter. *)
Definition body (b : mp1_blink_struct) : mp1_blink_struct := set_next 0 b.

(** What is drawn: offsets in the video page and characters. *)
Definition drawing := list (Z * Z).

Definition tick (b : mp1_blink_struct) : mp1_blink_struct * drawing :=
  let b := set_countdown (u16 (countdown b - 1)) b in
  if 0 <? i16 (countdown b) then (b, []) else
  if Z.testbit (status b) 0
  then (set_status (Z.lxor (status b) 1) (set_countdown (off_length b) b), [(2 * location b, off_char b)])
  else (set_status (Z.lxor (status b) 1) (set_countdown (on_length b) b), [(2 * location b, on_char b)]).

Definition ticks (l : list mp1_blink_struct) : list mp1_blink_struct * drawing :=
  (map (fun b => (tick b).1) l, concat (map (fun b => (tick b).2) l)).

Definition at_location (x : Z) (l : list mp1_blink_struct) : option (nat * mp1_blink_struct) := list_find (fun b => location b = x) l.

Definition synced (from to : mp1_blink_struct) : mp1_blink_struct :=
  set_status (status from) (set_countdown (countdown from) (set_lengths (on_length from) (off_length from) to)).

(** The result, the structure given back, what is drawn and the blinkers after. *)
Definition ioctl_spec (cmd : ioctl) (l : list mp1_blink_struct) : Z * option mp1_blink_struct * drawing * list mp1_blink_struct :=
  match cmd with
  | RTC_ADD arg =>
      if (SCREEN_CELLS <=? location arg) || (SCREEN_CELLS <=? Z.of_nat (length l)) then (-1, None, [], l)
      else (0, None, [(2 * location arg, on_char arg)], body (set_countdown (on_length arg) (set_status 1 arg)) :: l)
  | RTC_REMOVE arg =>
      match at_location (u16 arg) l with
      | Some (i, _) => (0, None, [], delete i l)
      | None => (-1, None, [], l)
      end
  | RTC_FIND arg =>
      match at_location (u16 (location arg)) l with
      | Some (_, b) => (0, Some b, [], l)
      | None => (-1, Some (body arg), [], l)
      end
  | RTC_SYNC arg =>
      match at_location (u16 (Z.shiftr arg 16)) l, at_location (u16 (Z.land arg 0xFFFF)) l with
      | Some (_, from), Some (i, to) => (0, None, [(2 * location to, off_char to)], <[i := synced from to]> l)
      | _, _ => (-1, None, [], l)
      end
  end.

Fixpoint run_spec (evs : list event) (l : list mp1_blink_struct) : list (Z * option mp1_blink_struct) * drawing * list mp1_blink_struct :=
  match evs with
  | [] => ([], [], l)
  | Tick :: evs => let '(rs, d, l') := run_spec evs (ticks l).1 in (rs, (ticks l).2 ++ d, l')
  | Ioctl cmd :: evs =>
      let '(r, g, d1, l1) := ioctl_spec cmd l in
      let '(rs, d, l') := run_spec evs l1 in ((r, g) :: rs, d1 ++ d, l')
  end.

(** The blinker and the character that is seen after a number of ticks. *)
Fixpoint after_ticks (n : nat) (b : mp1_blink_struct) (seen : Z) : mp1_blink_struct * Z :=
  match n with
  | O => (b, seen)
  | S n => let '(b, seen) := after_ticks n b seen in ((tick b).1, fold_left (fun _ e => e.2) (tick b).2 seen)
  end.

Lemma run_spec_app evs1 evs2 l : run_spec (evs1 ++ evs2) l =
  let '(rs1, d1, l1) := run_spec evs1 l in let '(rs2, d2, l2) := run_spec evs2 l1 in (rs1 ++ rs2, d1 ++ d2, l2).
Proof.
  revert l. induction evs1 as [|[|cmd] evs1 IH]; intros l; cbn [app run_spec].
  - by destruct (run_spec evs2 l) as [[rs d] l'].
  - rewrite IH. destruct (run_spec evs1 _) as [[rs1 d1] l1]. destruct (run_spec evs2 l1) as [[rs2 d2] l2]. by rewrite app_assoc.
  - destruct (ioctl_spec cmd l) as [[[r g] d] l0]. rewrite IH. destruct (run_spec evs1 l0) as [[rs1 d1] l1].
    destruct (run_spec evs2 l1) as [[rs2 d2] l2]. by rewrite app_assoc.
Qed.

(** ** The linked list *)

(** The structures from [p] on, with their pointers. *)
Fixpoint chain (a : list mp1_blink_struct) (p : Z) (l : list (Z * mp1_blink_struct)) : Prop :=
  match l with
  | [] => p = 0
  | (q, b) :: l => p = q /\ slot a q = Some b /\ chain a (next b) l
  end.

(** The array represents the blinkers: those in use are on the list, the others are free. *)
Definition linked (s : blinkers) (l : list (Z * mp1_blink_struct)) : Prop :=
  Z.of_nat (length (blink_array s)) = SCREEN_CELLS /\ chain (blink_array s) (mp1_list_head s) l /\ NoDup l.*1 /\
  Forall (fun e => 0 < location e.2 < SCREEN_CELLS) l /\ forall p b, slot (blink_array s) p = Some b -> p ∉ l.*1 -> location b = 0.

Definition represents (s : blinkers) (bs : list mp1_blink_struct) : Prop := exists l, linked s l /\ bs = map (fun e => body e.2) l.

Lemma slot_pos a p b : slot a p = Some b -> 0 < p <= Z.of_nat (length a).
Proof. unfold slot. case_cmp; [|done]. intros Hl%lookup_lt_Some. lia. Qed.

Lemma slot_put a p b q b0 : slot a p = Some b0 ->
  slot (<[Z.to_nat (p - 1) := b]> a) q = if decide (q = p) then Some b else slot a q.
Proof.
  intros H. pose proof (slot_pos _ _ _ H). unfold slot in *. case_decide as D.
  - subst q. rewrite (proj2 (Z.ltb_lt _ _)) by lia. apply list_lookup_insert_eq. lia.
  - case_cmp; [|done]. apply list_lookup_insert_ne. lia.
Qed.

Lemma chain_put a p b b0 q l : slot a p = Some b0 -> p ∉ l.*1 -> chain a q l -> chain (<[Z.to_nat (p - 1) := b]> a) q l.
Proof.
  intros Hp. revert q. induction l as [|[r c] l IH]; intros q Hn; [done|]. cbn. intros (-> & Hs & Hc).
  cbn in Hn. apply not_elem_of_cons in Hn as [Hne Hn]. split_and!; [done| |by apply IH].
  rewrite (slot_put _ _ _ _ _ Hp). by rewrite decide_False by done.
Qed.

Lemma chain_in a p l q b : chain a p l -> (q, b) ∈ l -> slot a q = Some b.
Proof.
  revert p. induction l as [|[r c] l IH]; intros p; [by intros _ ?%elem_of_nil|]. cbn. intros (-> & Hs & Hc) [E|Hin]%elem_of_cons.
  - by injection E as -> ->.
  - by eapply IH.
Qed.

Lemma chain_nonzero a p l q : chain a p l -> q ∈ l.*1 -> 0 < q.
Proof. intros Hc ([q' b] & -> & H)%list_elem_of_fmap. by eapply slot_pos, chain_in. Qed.

(** Where a list in use ends and the rest begins. *)
Lemma chain_app a p l1 q b l2 : chain a p (l1 ++ (q, b) :: l2) ->
  slot a q = Some b /\ chain a q ((q, b) :: l2) /\ chain a (next b) l2.
Proof.
  revert p. induction l1 as [|[r c] l1 IH]; intros p; cbn.
  - intros (-> & Hs & Hc). done.
  - intros (-> & Hs & Hc). by eapply IH.
Qed.

(** The structure at [q] is replaced by one that is linked to [l3]. *)
Lemma chain_relink a p l1 q b b' l2 l3 : NoDup (l1 ++ (q, b) :: l2).*1 -> q ∉ l3.*1 -> chain a (next b') l3 ->
  chain a p (l1 ++ (q, b) :: l2) -> chain (<[Z.to_nat (q - 1) := b']> a) p (l1 ++ (q, b') :: l3).
Proof.
  intros Hn Hq Hl. revert p Hn. induction l1 as [|[r c] l1 IH]; intros p Hn; cbn in *.
  - intros (-> & Hs & Hc). split; [done|]. split; [|by eapply chain_put].
    rewrite (slot_put _ _ _ _ _ Hs). by rewrite decide_True.
  - intros (-> & Hs & Hc). apply list.NoDup_cons in Hn as [Hr Hn]. split; [done|]. split; [|by apply IH].
    destruct (chain_app _ _ _ _ _ _ Hc) as (Hsq & _). rewrite (slot_put _ _ _ _ _ Hsq). rewrite decide_False; [done|].
    intros ->. apply Hr. rewrite fmap_app. apply elem_of_app. right. by apply elem_of_cons; left.
Qed.

Lemma chain_replace a p l1 q b b' l2 : next b' = next b -> NoDup (l1 ++ (q, b) :: l2).*1 ->
  chain a p (l1 ++ (q, b) :: l2) -> chain (<[Z.to_nat (q - 1) := b']> a) p (l1 ++ (q, b') :: l2).
Proof.
  intros Hb Hn Hc. eapply chain_relink; [exact Hn| | |exact Hc].
  - rewrite fmap_app, fmap_cons in Hn. apply list.NoDup_app in Hn as (_ & _ & Hn). by apply list.NoDup_cons in Hn as [Hq _].
  - rewrite Hb. by destruct (chain_app _ _ _ _ _ _ Hc) as (_ & _ & H).
Qed.

(** At most as many as there are structures, and when all are in use as many. *)
Lemma pointers_bound n (ps : list Z) : NoDup ps -> (forall p, p ∈ ps -> 0 < p <= Z.of_nat n) -> (length ps <= n)%nat.
Proof.
  intros Hn Hf. rewrite <- (Nat2Z.id n), <- (length_seqZ 1). apply submseteq_length, NoDup_submseteq; [done|].
  intros p Hp. apply elem_of_seqZ. specialize (Hf p Hp). lia.
Qed.

Lemma pointers_full n (ps : list Z) : (forall p, 0 < p <= Z.of_nat n -> p ∈ ps) -> (n <= length ps)%nat.
Proof.
  intros Hf. rewrite <- (Nat2Z.id n) at 1. rewrite <- (length_seqZ 1). apply submseteq_length, NoDup_submseteq; [apply NoDup_seqZ|].
  intros p Hp%elem_of_seqZ. apply Hf. lia.
Qed.

Lemma slot_some a p : 0 < p <= Z.of_nat (length a) -> exists b, slot a p = Some b.
Proof. intros Hp. unfold slot. rewrite (proj2 (Z.ltb_lt _ _)) by lia. apply lookup_lt_is_Some. lia. Qed.

Lemma linked_pointers s l p : linked s l -> p ∈ l.*1 -> 0 < p <= SCREEN_CELLS.
Proof.
  intros (Hl & Hc & _) ([q b] & -> & H)%list_elem_of_fmap. rewrite <- Hl. by eapply slot_pos, chain_in.
Qed.

Lemma linked_length s l : linked s l -> Z.of_nat (length l) <= SCREEN_CELLS.
Proof.
  intros L. pose proof L as (_ & _ & Hn & _). rewrite <- (length_fmap fst l).
  pose proof (pointers_bound (Z.to_nat SCREEN_CELLS) l.*1 Hn (fun p Hp => linked_pointers s l p L Hp)). lia.
Qed.

(** A structure in use is replaced by another for the same place. *)
Lemma linked_replace s l1 q b b' l2 : linked s (l1 ++ (q, b) :: l2) -> next b' = next b -> location b' = location b ->
  linked (put_slot q b' s) (l1 ++ (q, b') :: l2).
Proof.
  intros (Hl & Hc & Hn & Hf & Hz) Hb Hloc. unfold linked. cbn [put_slot blink_array mp1_list_head].
  assert ((l1 ++ (q, b') :: l2).*1 = (l1 ++ (q, b) :: l2).*1) as E by by rewrite !fmap_app.
  rewrite E, length_insert. split_and!; [done|by eapply chain_replace|done| |].
  - apply list.Forall_app in Hf as [H1 H2]. apply list.Forall_cons in H2 as [H2 H3]. apply list.Forall_app. split; [done|].
    apply list.Forall_cons. split; [|done]. cbn in *. by rewrite Hloc.
  - intros p c Hs Hp. destruct (chain_app _ _ _ _ _ _ Hc) as (Hq & _). rewrite (slot_put _ _ _ _ _ Hq) in Hs.
    case_decide as D; [|by eapply Hz]. subst p. exfalso. apply Hp. rewrite fmap_app. apply elem_of_app. right. by apply elem_of_cons; left.
Qed.

(** One more at the front. *)
Lemma linked_cons s l q b b0 : linked s l -> slot (blink_array s) q = Some b0 -> q ∉ l.*1 -> 0 < location b < SCREEN_CELLS ->
  next b = mp1_list_head s -> linked (set_head q (put_slot q b s)) ((q, b) :: l).
Proof.
  intros (Hl & Hc & Hn & Hf & Hz) Hq Hnq Hb Hnx. unfold linked. cbn [put_slot set_head blink_array mp1_list_head chain].
  rewrite length_insert, (slot_put _ _ _ _ _ Hq), decide_True by done. split_and!; try done.
  - rewrite Hnx. by eapply chain_put.
  - by apply list.NoDup_cons.
  - by apply list.Forall_cons.
  - intros p c Hs Hp. cbn in Hp. apply not_elem_of_cons in Hp as [Hne Hp]. rewrite (slot_put _ _ _ _ _ Hq), decide_False in Hs by done. by eapply Hz.
Qed.

(** ** Finding a structure *)

Definition found (x : Z) (l : list (Z * mp1_blink_struct)) : Z := from_option (fun e => e.2.1) 0 (list_find (fun e => location e.2 = x) l).

Lemma found_cons x q b l : found x ((q, b) :: l) = if decide (location b = x) then q else found x l.
Proof.
  unfold found. cbn. case_decide; [done|]. by destruct (list_find _ l) as [[i [q' b']]|].
Qed.

Lemma wp_at_slot s p b k : slot (blink_array s) p = Some b -> wp (at_slot s p) (fun r k' => r = b /\ k' = k) k.
Proof. intros H. unfold at_slot. by eapply wp_lift. Qed.

Lemma find_helper_ok s l ax k : linked s l -> wp (mp1_find_helper s ax) (fun r k' => r = found (u16 ax) l /\ k' = k) k.
Proof.
  intros L. pose proof (linked_length s l L). pose proof L as (_ & Hc & _). unfold mp1_find_helper.
  apply (wp_loopM_ghost _ (fun n p k' => k' = k /\ exists l2, n = Z.of_nat (length l2) /\ chain (blink_array s) p l2 /\
    found (u16 ax) l2 = found (u16 ax) l) _ (Z.of_nat (length l))); [|by split; [|exists l]|].
  - intros n p k' (-> & [|[q b] l2] & -> & Hp & E); cbn in Hp.
    + subst p. change (0 =? 0) with true. cbv iota. apply wp_mret. by rewrite <- E.
    + destruct Hp as (-> & Hs & Hp). pose proof (slot_pos _ _ _ Hs). rewrite (proj2 (Z.eqb_neq _ _)) by lia.
      apply wp_bind. eapply wp_mono; [|by apply wp_at_slot]. intros r k' [-> ->]. rewrite found_cons in E.
      case_decide as D; [rewrite (proj2 (Z.eqb_eq _ _)) by done|rewrite (proj2 (Z.eqb_neq _ _)) by done]; apply wp_mret.
      * by rewrite <- E.
      * exists (Z.of_nat (length l2)). cbn [length]. split; [lia|]. split; [done|]. by exists l2.
  - lia.
Qed.

(** The first free structure, or NULL when all are in use. *)
Lemma malloc_ok s l k : linked s l -> wp (mp1_malloc s) (fun r k' => k' = k /\
  (if Z.of_nat (length l) <? SCREEN_CELLS then (exists b, slot (blink_array s) r = Some b) /\ (r ∉ l.*1) else r = 0)) k.
Proof.
  intros L. pose proof (linked_length s l L). pose proof L as (Hl & Hc & Hn & Hf & Hz). unfold mp1_malloc.
  apply (wp_loopM _ (fun i k' => k' = k /\ 0 <= i <= SCREEN_CELLS /\ forall p, 0 < p <= i -> p ∈ l.*1) _ (fun i => SCREEN_CELLS - i));
    [|split_and!; (done || lia)|lia].
  intros i k' (-> & Hi & Hin). destruct (Z.ltb_spec i SCREEN_CELLS) as [Hlt|Hge].
  - destruct (slot_some (blink_array s) (i + 1)) as [b Hs]; [lia|].
    apply wp_bind. eapply wp_mono; [|by apply wp_at_slot]. intros r k' [-> ->].
    destruct (Z.eqb_spec (location b) 0) as [E|E]; apply wp_mret.
    + split; [done|]. assert (i + 1 ∉ l.*1) as Hni.
      { intros ([q c] & Eq & Hq)%list_elem_of_fmap. cbn in Eq. subst q. rewrite (chain_in _ _ _ _ _ Hc Hq) in Hs.
        apply (inj Some) in Hs. subst c. rewrite list.Forall_forall in Hf. specialize (Hf _ Hq). cbn in Hf. lia. }
      case_cmp; [by split; [exists b|]|]. exfalso.
      pose proof (pointers_bound (Z.to_nat SCREEN_CELLS) ((i + 1) :: l.*1)) as B. rewrite length_cons, length_fmap in B.
      enough (S (length l) <= Z.to_nat SCREEN_CELLS)%nat by lia. apply B; [by apply list.NoDup_cons|].
      intros p [->|Hp]%elem_of_cons; [lia|]. pose proof (linked_pointers s l p L Hp). lia.
    + split; [|lia]. split_and!; [done|lia|lia|]. intros p Hp. destruct (Z.eq_dec p (i + 1)) as [->|]; [|apply Hin; lia].
      destruct (decide (i + 1 ∈ l.*1)) as [|Hno]; [done|]. by destruct E; eapply Hz.
  - apply wp_mret. split; [done|]. pose proof (pointers_full (Z.to_nat SCREEN_CELLS) l.*1) as B.
    rewrite length_fmap in B. specialize (B ltac:(intros p Hp; apply Hin; lia)). case_cmp; (done || lia).
Qed.

(** ** Removing a structure *)

(** The link to what follows [l1]. *)
Definition link_after (l1 : list (Z * mp1_blink_struct)) : option Z := fst <$> list.last l1.

Lemma at_link_ok s l1 l2 k : linked s (l1 ++ l2) ->
  wp (at_link s (link_after l1)) (fun p k' => k' = k /\ chain (blink_array s) p l2) k.
Proof.
  intros (_ & Hc & _). unfold link_after. destruct l1 as [|[q b] l1 _] using rev_ind; cbn [list.last fmap option_fmap option_map at_link].
  - by apply wp_mret.
  - rewrite list.last_snoc. cbn. rewrite <- app_assoc in Hc. destruct (chain_app _ _ _ _ _ _ Hc) as (Hs & _ & Hc2).
    apply wp_bind. eapply wp_mono; [|by apply wp_at_slot]. intros r k' [-> ->]. by apply wp_mret.
Qed.

Lemma find_prev_ok s l1 q b l2 k : linked s (l1 ++ (q, b) :: l2) ->
  wp (remove_find_prev s q) (fun r k' => r = link_after l1 /\ k' = k) k.
Proof.
  intros L. pose proof (linked_length s _ L) as Hlen. rewrite length_app in Hlen. pose proof L as (_ & _ & Hn & _). unfold remove_find_prev.
  apply (wp_loopM_ghost _ (fun n edx k' => k' = k /\ exists d1 d2, l1 = d1 ++ d2 /\ edx = link_after d1 /\ n = Z.of_nat (length d2))
    _ (Z.of_nat (length l1))); [|split; [done|]; by exists [], l1|lia].
  intros n edx k' (-> & d1 & d2 & -> & -> & ->). rewrite <- app_assoc in L. apply wp_bind.
  eapply wp_mono; [|by apply at_link_ok]. intros p k' [-> Hp]. destruct d2 as [|[r c] d2]; cbn in Hp; destruct Hp as (-> & _).
  - rewrite Z.eqb_refl. apply wp_mret. by rewrite app_nil_r.
  - rewrite (proj2 (Z.eqb_neq _ _)).
    + apply wp_mret. exists (Z.of_nat (length d2)). cbn [length]. split; [lia|]. split; [done|]. exists (d1 ++ [(r, c)]), d2.
      rewrite <- app_assoc. split_and!; [done| |done]. unfold link_after. by rewrite list.last_snoc.
    + intros ->. rewrite !fmap_app in Hn. apply list.NoDup_app in Hn as (_ & Hn & _). apply (Hn q); set_solver.
Qed.

(** One fewer, the links of the others as in [l']. *)
Lemma linked_removed s s1 l1 q b l2 l' : linked s (l1 ++ (q, b) :: l2) ->
  chain (blink_array s1) (mp1_list_head s1) l' -> l'.*1 = l1.*1 ++ l2.*1 -> Forall (fun e => 0 < location e.2 < SCREEN_CELLS) l' ->
  length (blink_array s1) = length (blink_array s) ->
  (forall p, p ∉ l1.*1 -> slot (blink_array s1) p = slot (blink_array s) p) -> linked (put_slot q no_blink s1) l'.
Proof.
  intros (Hl & Hc & Hn & Hf & Hz) Hc' E Hf' Elen Hs. unfold linked. cbn [put_slot blink_array mp1_list_head].
  rewrite fmap_app, fmap_cons in Hn. pose proof Hn as (N1 & N2 & N3)%list.NoDup_app. apply list.NoDup_cons in N3 as [N3 N4].
  assert (q ∉ l1.*1) as N5 by (intros H; apply (N2 q H); set_solver). cbn in N3.
  destruct (chain_app _ _ _ _ _ _ Hc) as (Hq & _). pose proof (Hs q N5) as Hq1. rewrite Hq in Hq1.
  rewrite length_insert, Elen. split_and!; [done| | |done|].
  - eapply chain_put; [exact Hq1| |done]. rewrite E. set_solver.
  - rewrite E. apply list.NoDup_app. split_and!; [done| |done]. intros x H1 H2. apply (N2 x H1). set_solver.
  - intros p c. rewrite (slot_put _ _ _ _ _ Hq1). case_decide as D; [by intros [= <-] _|]. rewrite E. intros Hp Hnp.
    rewrite Hs in Hp by set_solver. eapply Hz; [exact Hp|]. rewrite fmap_app, fmap_cons. set_solver.
Qed.

Lemma remove_ok s l1 q b l2 k : linked s (l1 ++ (q, b) :: l2) ->
  wp (edx ← remove_find_prev s q; b ← at_slot s q; s ← set_link s edx (next b); s ← mp1_free q s; mret (0, s)) (fun r k' => k' = k /\
    exists s' l', r = (0, s') /\ linked s' l' /\ map (fun e => body e.2) l' = map (fun e => body e.2) (l1 ++ l2)) k.
Proof.
  intros L. pose proof L as (Hl & Hc & Hn & Hf & _). apply wp_bind. eapply wp_mono; [|by eapply find_prev_ok]. intros edx k1 [-> ->].
  destruct (chain_app _ _ _ _ _ _ Hc) as (Hq & _ & Hc2).
  apply wp_bind. eapply wp_mono; [|by apply wp_at_slot]. intros b' k1 [-> ->]. apply wp_bind.
  apply list.Forall_app in Hf as [Hf1 Hf2]. apply list.Forall_cons in Hf2 as [Hfb Hf2].
  destruct l1 as [|[r c] l0 _] using rev_ind.
  - cbn [link_after list.last fmap option_fmap option_map set_link]. apply wp_mret. cbn [app] in *.
    apply wp_bind. unfold mp1_free. apply wp_bind. eapply wp_mono; [|by apply wp_at_slot]. intros b' k1 [-> ->]. apply wp_mret, wp_mret.
    split; [done|]. eexists _, l2. split; [reflexivity|]. split; [|done]. by eapply (linked_removed s (set_head (next b) s) []).
  - unfold link_after. rewrite list.last_snoc. cbn [fmap option_fmap option_map set_link fst]. rewrite <- app_assoc in *. cbn [app] in *.
    destruct (chain_app _ _ _ _ _ _ Hc) as (Hr & _ & _).
    apply wp_bind. eapply wp_mono; [|by apply wp_at_slot]. intros c' k1 [-> ->]. apply wp_mret.
    pose proof Hn as Hn2. rewrite fmap_app, fmap_cons, fmap_cons in Hn2. cbn [fst] in Hn2.
    apply list.NoDup_app in Hn2 as (_ & _ & Hn2). apply list.NoDup_cons in Hn2 as [Hrn _].
    assert (r <> q /\ r ∉ l2.*1) as [Hrq Hr2] by (apply not_elem_of_cons in Hrn; exact Hrn).
    apply wp_bind. unfold mp1_free. apply wp_bind. eapply wp_mono.
    2: { apply wp_at_slot. cbn [put_slot blink_array]. rewrite (slot_put _ _ _ _ _ Hr), decide_False by done. exact Hq. }
    intros b' k1 [-> ->]. apply wp_mret, wp_mret. split; [done|]. eexists _, (l0 ++ (r, set_next (next b) c) :: l2). split; [reflexivity|].
    split; [|by rewrite !map_app].
    apply (linked_removed s _ (l0 ++ [(r, c)]) q b l2); try (rewrite <- app_assoc; done).
    + cbn [put_slot blink_array mp1_list_head]. by eapply chain_relink.
    + rewrite !fmap_app. cbn. by rewrite <- app_assoc.
    + apply list.Forall_app in Hf1 as [Hf1 Hf3]. apply list.Forall_app. split; [done|]. apply list.Forall_cons. split; [|done].
      by apply list.Forall_cons in Hf3 as [Hf3 _].
    + cbn [put_slot blink_array]. apply length_insert.
    + intros p Hp. cbn [put_slot blink_array]. rewrite (slot_put _ _ _ _ _ Hr), decide_False; [done|]. intros ->. apply Hp.
      rewrite fmap_app. set_solver.
Qed.

(** The first blinker of a location, abstractly and on the list. *)
Lemma found_at x l : match at_location x (map (fun e => body e.2) l) with
  | None => found x l = 0
  | Some (i, c) => exists l1 q b l2, l = l1 ++ (q, b) :: l2 /\ i = length l1 /\ c = body b /\ found x l = q
  end.
Proof.
  unfold at_location. induction l as [|[q b] l IH]; [done|]. rewrite found_cons. cbn [map list_find snd].
  change (location (body b)) with (location b). case_decide as D.
  - by exists [], q, b, l.
  - destruct (list_find _ (map _ l)) as [[i c]|]; [|done]. destruct IH as (l1 & q' & b' & l2 & -> & -> & -> & E).
    by exists ((q, b) :: l1), q', b', l2.
Qed.

(** ** Drawing *)

Section drawing.
(** The page that is drawn on and the variable with its virtual address. *)
Context (base vmem_base_addr : Z).

Definition draw (d : drawing) (k : kernel) : kernel := set_k_mem (fold_left (fun m e => wr m (base + e.1) e.2) d (k_mem k)) k.

(** The page is mapped and the variable has its address, whatever is drawn. *)
Definition drawable (k : kernel) : Prop := 0 < base /\ base + PAGE_BYTES <= W32 /\
  forall m, differs_within (k_mem k) m base PAGE_BYTES ->
    let tr := resolve_virt_addr m (cr3 (k_cpu k)) in
    tr vmem_base_addr <> 0 /\ forall o, 0 <= o < PAGE_BYTES -> tr (u32 (rd32 m (tr vmem_base_addr) + o)) = base + o.

Definition on_page (d : drawing) : Prop := Forall (fun e => 0 <= e.1 < PAGE_BYTES) d.

Lemma draw_nil k : draw [] k = k.
Proof. by destruct k. Qed.

Lemma draw_app d1 d2 k : draw (d1 ++ d2) k = draw d2 (draw d1 k).
Proof. unfold draw. by rewrite fold_left_app. Qed.

Lemma drawn_within d k : 0 < base -> base + PAGE_BYTES <= W32 -> on_page d -> differs_within (k_mem k) (k_mem (draw d k)) base PAGE_BYTES.
Proof.
  intros H1 H2 Hd. cbn [draw k_mem set_k_mem]. generalize (k_mem k). induction Hd as [|[o c] d Ho Hd IH]; intros m a Ha; [done|].
  cbn [fold_left fst snd] in *. rewrite IH by done. rewrite rd_wr. destruct (Z.eqb_spec (u32 (base + o)) (u32 a)) as [E|]; [|done].
  symmetry in E. apply u32_offset in E; lia.
Qed.

Lemma drawable_draw d k : on_page d -> drawable k -> drawable (draw d k).
Proof.
  intros Hd (H1 & H2 & H3). split_and!; [done|done|]. intros m Hm. apply H3.
  intros a Ha. rewrite Hm by done. by apply drawn_within.
Qed.

Lemma wp_poke o c k : drawable k -> 0 <= o < PAGE_BYTES -> wp (mp1_poke vmem_base_addr o c) (fun _ k' => k' = draw [(o, c)] k) k.
Proof.
  intros (H1 & H2 & H3) Ho. destruct (H3 (k_mem k)) as [T1 T2]; [done|]. unfold mp1_poke, load32, store, user_ptr.
  wp_steps. rewrite (proj2 (Z.eqb_neq _ _)) by done. wp_steps. rewrite T2 by done. rewrite (proj2 (Z.eqb_neq _ _)) by lia.
  wp_steps. done.
Qed.
End drawing.

(** ** The engine implements the abstract blinkers *)

Definition bodies (l : list (Z * mp1_blink_struct)) : list mp1_blink_struct := map (fun e => body e.2) l.
Definition ticked (l : list (Z * mp1_blink_struct)) : list (Z * mp1_blink_struct) := map (fun e => (e.1, (tick e.2).1)) l.

Lemma tick_body b : next (tick b).1 = next b /\ location (tick b).1 = location b /\ tick (body b) = (body (tick b).1, (tick b).2).
Proof. unfold tick. cbn [set_countdown countdown body set_next status]. case_if; [done|]. by case_if. Qed.

Lemma ticks_ticked l : ticks (bodies l) = (bodies (ticked l), concat (map (fun e => (tick e.2).2) l)).
Proof.
  unfold ticks, bodies, ticked. rewrite !map_map. f_equal; [|f_equal]; apply map_ext; intros [q b]; cbn [fst snd];
    by destruct (tick_body b) as (_ & _ & ->).
Qed.

Section refinement.
Context (base vmem_base_addr : Z).

Lemma tick_drawing b : 0 < location b < SCREEN_CELLS -> on_page (tick b).2.
Proof.
  intros H. unfold tick, on_page. cbn [set_countdown countdown status location]. case_if; [done|].
  case_if; apply list.Forall_cons; (split; [cbn; lia|done]).
Qed.

Lemma tick_step s q b k : slot (blink_array s) q = Some b -> 0 <= location b < SCREEN_CELLS -> drawable base vmem_base_addr k ->
  wp (tasklet_loop vmem_base_addr (q, s))
    (fun r k' => r = inl (next b, put_slot q (tick b).1 s) /\ k' = draw base (tick b).2 k) k.
Proof.
  intros Hq Hb D. unfold tasklet_loop. rewrite (proj2 (Z.eqb_neq q 0)) by (apply slot_pos in Hq; lia).
  apply wp_bind. eapply wp_mono; [|by apply wp_at_slot]. intros b' k1 [-> ->]. unfold tick. cbv zeta.
  set (b1 := set_countdown (u16 (countdown b - 1)) b).
  destruct (0 <? i16 (countdown b1)).
  { apply wp_mret. by rewrite draw_nil. }
  rewrite Z.shiftl_mul_pow2, Z.mul_comm by lia. change (2 ^ 1) with 2. apply wp_bind.
  assert (0 <= 2 * location b1 < PAGE_BYTES) as Ho by (change (location b1) with (location b); lia).
  destruct (Z.testbit (status b1) 0); apply wp_bind; (eapply wp_mono; [|by apply (wp_poke base)]); intros [] k1 ->; apply wp_mret, wp_mret;
    (split; [|done]); unfold put_slot; cbn [blink_array mp1_list_head fst]; by rewrite list_insert_insert_eq.
Qed.

Lemma tasklet_ok s l k : linked s l -> drawable base vmem_base_addr k ->
  wp (mp1_rtc_tasklet vmem_base_addr s) (fun s' k' => exists l', linked s' l' /\ bodies l' = (ticks (bodies l)).1 /\
    k' = draw base (ticks (bodies l)).2 k) k.
Proof.
  intros L D. pose proof (linked_length s l L) as Hlen. unfold mp1_rtc_tasklet.
  apply (wp_loopM_ghost _ (fun n '(p, s') k' => exists d1 d2, l = d1 ++ d2 /\ n = Z.of_nat (length d2) /\ linked s' (ticked d1 ++ d2) /\
    chain (blink_array s') p d2 /\ k' = draw base (concat (map (fun e => (tick e.2).2) d1)) k /\ drawable base vmem_base_addr k') _ (Z.of_nat (length l))).
  - intros n [p s'] k' (d1 & d2 & -> & -> & L' & Hp & -> & D'). destruct d2 as [|[q b] d2]; cbn in Hp.
    + subst p. apply wp_mret. rewrite !app_nil_r in *. exists (ticked d1).
      by rewrite ticks_ticked.
    + destruct Hp as (-> & Hq & Hp).
      pose proof L' as (_ & _ & _ & Hf & _). apply list.Forall_app in Hf as [_ Hf]. apply list.Forall_cons in Hf as [Hb _]. cbn [snd] in Hb.
      eapply wp_mono; [|apply tick_step; [done|lia|done]]. intros r k1 [-> ->].
      assert (linked (put_slot q (tick b).1 s') (ticked d1 ++ (q, (tick b).1) :: d2)) as L1
        by (destruct (tick_body b) as (? & ? & _); by eapply linked_replace). exists (Z.of_nat (length d2)).
      cbn [length]. split; [lia|]. exists (d1 ++ [(q, b)]), d2.
      assert (ticked (d1 ++ [(q, b)]) ++ d2 = ticked d1 ++ (q, (tick b).1) :: d2) as -> by (unfold ticked; by rewrite map_app, <- app_assoc).
      rewrite <- app_assoc. pose proof L1 as (_ & Hc1 & _). destruct (chain_app _ _ _ _ _ _ Hc1) as (_ & _ & Hn).
      destruct (tick_body b) as (Eb & _ & _). rewrite Eb in Hn. split_and!; [done..| |].
      * by rewrite map_app, concat_app, draw_app, <- (app_nil_r (tick b).2).
      * apply drawable_draw; [|done]. by apply tick_drawing.
  - exists [], l. split_and!; [done|done|exact L|apply L|by rewrite draw_nil|done].
  - lia.
Qed.

(** A caller asks for a character anywhere but in the first cell. *)
Definition cmd_ok (cmd : ioctl) : Prop := match cmd with RTC_ADD arg => 0 < location arg | _ => True end.

(** What a command has done to [s], which represents [l]. *)
Definition obeys (cmd : ioctl) (l : list (Z * mp1_blink_struct)) (k : kernel) (r : Z * option mp1_blink_struct * blinkers) (k' : kernel) : Prop :=
  exists l' d, linked r.2 l' /\ ioctl_spec cmd (bodies l) = (r.1.1, body <$> r.1.2, d, bodies l') /\ on_page d /\ k' = draw base d k.

Lemma obeys_same cmd l k r g s : linked s l -> ioctl_spec cmd (bodies l) = (r, body <$> g, [], bodies l) -> obeys cmd l k (r, g, s) k.
Proof. intros L E. exists l, []. split_and!; [done|done|apply list.Forall_nil; done|by rewrite draw_nil]. Qed.

Lemma add_ok arg s l k : linked s l -> drawable base vmem_base_addr k -> 0 < location arg ->
  wp (mp1_ioctl vmem_base_addr (RTC_ADD arg) s) (obeys (RTC_ADD arg) l k) k.
Proof.
  intros L D Hl. cbn [mp1_ioctl]. unfold mp1_ioctl_add. apply wp_bind.
  destruct (Z.leb_spec SCREEN_CELLS (location arg)) as [Hc|Hc].
  { apply wp_mret, wp_mret. apply obeys_same; [done|]. unfold ioctl_spec. by rewrite (proj2 (Z.leb_le _ _)) by done. }
  apply wp_bind. eapply wp_mono; [|by apply malloc_ok]. intros p k1 [-> Hp].
  assert (length (bodies l) = length l) as El by apply length_map.
  destruct (Z.ltb_spec (Z.of_nat (length l)) SCREEN_CELLS) as [Hn|Hn].
  - destruct Hp as [[b0 Hs] Hp]. rewrite (proj2 (Z.eqb_neq p 0)) by (apply slot_pos in Hs; lia).
    set (b := set_next _ _). rewrite Z.shiftl_mul_pow2, Z.mul_comm by lia. change (2 ^ 1) with 2. apply wp_bind.
    change (location b) with (location arg).
    eapply wp_mono; [|apply (wp_poke base); [done|lia]]. intros [] k1 ->. apply wp_mret, wp_mret.
    exists ((p, b) :: l), [(2 * location arg, on_char b)]. split; [by eapply linked_cons|]. split; [|split].
    + unfold ioctl_spec. rewrite El, !(proj2 (Z.leb_gt _ _)) by lia. done.
    + apply list.Forall_cons. split; [cbn; lia|done].
    + done.
  - subst p. change (0 =? 0) with true. cbv iota. apply wp_mret, wp_mret. apply obeys_same; [done|].
    unfold ioctl_spec. rewrite El. by rewrite (proj2 (Z.leb_le SCREEN_CELLS (Z.of_nat _))), orb_true_r by lia.
Qed.

(** The structure that the search returns, or its failure. *)
Lemma wp_find s l ax k (Q : Z -> kernel -> Prop) : linked s l ->
  match at_location (u16 ax) (bodies l) with
  | Some (i, c) => forall l1 q b l2, l = l1 ++ (q, b) :: l2 -> i = length l1 -> c = body b -> 0 < q -> slot (blink_array s) q = Some b -> Q q k
  | None => Q 0 k
  end -> wp (mp1_find_helper s ax) Q k.
Proof.
  intros L HQ. eapply wp_mono; [|by eapply find_helper_ok]. intros r k1 [-> ->].
  pose proof (found_at (u16 ax) l) as H. change (map (fun e => body e.2) l) with (bodies l) in H.
  destruct (at_location (u16 ax) (bodies l)) as [[i c]|]; [|by rewrite H].
  destruct H as (l1 & q & b & l2 & -> & -> & -> & ->). pose proof L as (_ & Hc & _).
  destruct (chain_app _ _ _ _ _ _ Hc) as (Hq & _). eapply HQ; try done. apply slot_pos in Hq. lia.
Qed.

Lemma remove_obeys arg s l k : linked s l -> wp (mp1_ioctl vmem_base_addr (RTC_REMOVE arg) s) (obeys (RTC_REMOVE arg) l k) k.
Proof.
  intros L. cbn [mp1_ioctl]. unfold mp1_ioctl_remove. apply wp_bind, wp_bind. apply (wp_find s l); [done|].
  destruct (at_location (u16 arg) (bodies l)) as [[i c]|] eqn:E.
  - intros l1 q b l2 -> -> -> Hq Hs. rewrite (proj2 (Z.eqb_neq q 0)) by lia. eapply wp_mono; [|by eapply remove_ok].
    intros r k1 (-> & s' & l' & -> & L' & El'). apply wp_mret. exists l', []. split; [done|]. split; [|split; [by apply list.Forall_nil|by rewrite draw_nil]].
    unfold ioctl_spec. rewrite E. unfold bodies at 2. rewrite El'. unfold bodies. rewrite !map_app. cbn [map].
    by rewrite <- (length_map (fun e => body e.2) l1), delete_middle.
  - apply wp_mret, wp_mret. apply obeys_same; [done|]. unfold ioctl_spec. by rewrite E.
Qed.

Lemma find_obeys arg s l k : linked s l -> wp (mp1_ioctl vmem_base_addr (RTC_FIND arg) s) (obeys (RTC_FIND arg) l k) k.
Proof.
  intros L. cbn [mp1_ioctl]. unfold mp1_ioctl_find. apply wp_bind, wp_bind. apply (wp_find s l); [done|].
  destruct (at_location (u16 (location arg)) (bodies l)) as [[i c]|] eqn:E.
  - intros l1 q b l2 -> -> -> Hq Hs. rewrite (proj2 (Z.eqb_neq q 0)) by lia. apply wp_bind.
    eapply wp_mono; [|by apply wp_at_slot]. intros b' k1 [-> ->]. apply wp_mret, wp_mret.
    apply obeys_same; [done|]. unfold ioctl_spec. by rewrite E.
  - apply wp_mret, wp_mret. apply obeys_same; [done|]. unfold ioctl_spec. by rewrite E.
Qed.

(** The tested bit is not the sign. *)
Lemma cmovl_never v : cmovl_after_test v = false.
Proof. unfold cmovl_after_test. rewrite Z.land_spec. by rewrite andb_false_r. Qed.

Lemma sync_obeys arg s l k : linked s l -> drawable base vmem_base_addr k ->
  wp (mp1_ioctl vmem_base_addr (RTC_SYNC arg) s) (obeys (RTC_SYNC arg) l k) k.
Proof.
  intros L D. cbn [mp1_ioctl]. unfold mp1_ioctl_sync. apply wp_bind, wp_bind. apply (wp_find s l); [done|].
  destruct (at_location (u16 (Z.shiftr arg 16)) (bodies l)) as [[i c]|] eqn:E1.
  2: { apply wp_mret, wp_mret. apply obeys_same; [done|]. unfold ioctl_spec. by rewrite E1. }
  intros m1 q from m2 El Ei -> Hq Hs. rewrite (proj2 (Z.eqb_neq q 0)) by lia. clear El Ei m1 m2. apply wp_bind, (wp_find s l); [done|].
  destruct (at_location (u16 (Z.land arg 0xFFFF)) (bodies l)) as [[j c]|] eqn:E2.
  2: { apply wp_mret, wp_mret. apply obeys_same; [done|]. unfold ioctl_spec. by rewrite E1, E2. }
  intros l1 r to l2 -> -> -> Hr Hs2. rewrite (proj2 (Z.eqb_neq r 0)) by lia.
  apply wp_bind. eapply wp_mono; [|by apply wp_at_slot]. intros b1 k1 [-> ->].
  apply wp_bind. eapply wp_mono; [|by apply wp_at_slot]. intros b2 k1 [-> ->]. rewrite cmovl_never.
  pose proof L as (_ & _ & _ & Hf & _). apply list.Forall_app in Hf as [_ Hf]. apply list.Forall_cons in Hf as [Hf _]. cbn [snd] in Hf.
  rewrite Z.shiftl_mul_pow2, Z.mul_comm by lia. change (2 ^ 1) with 2. apply wp_bind.
  eapply wp_mono; [|apply (wp_poke base); [done|cbn; lia]]. intros [] k1 ->. apply wp_mret, wp_mret.
  exists (l1 ++ (r, synced from to) :: l2), [(2 * location to, off_char to)]. split; [by eapply linked_replace|]. split; [|split; [|done]].
  - unfold ioctl_spec. rewrite E1, E2. unfold bodies. rewrite !map_app. cbn [map snd].
    by rewrite <- (length_map (fun e => body e.2) l1), insert_app_r_alt, Nat.sub_diag by done.
  - apply list.Forall_cons. split; [cbn; lia|done].
Qed.

Lemma ioctl_ok cmd s l k : linked s l -> drawable base vmem_base_addr k -> cmd_ok cmd ->
  wp (mp1_ioctl vmem_base_addr cmd s) (obeys cmd l k) k.
Proof.
  intros L D H. destruct cmd; [by apply add_ok|by apply remove_obeys|by apply find_obeys|by apply sync_obeys].
Qed.

Lemma ticks_on_page s l : linked s l -> on_page (ticks (bodies l)).2.
Proof.
  intros (_ & _ & _ & Hf & _). rewrite ticks_ticked. cbn [snd]. induction Hf as [|[q b] l Hb Hf IH]; cbn; [by apply list.Forall_nil|].
  apply list.Forall_app. split; [by apply tick_drawing|exact IH].
Qed.

Definition event_ok (ev : event) : Prop := match ev with Tick => True | Ioctl cmd => cmd_ok cmd end.

Lemma run_ok evs s l k : linked s l -> drawable base vmem_base_addr k -> Forall event_ok evs ->
  wp (run vmem_base_addr evs s) (fun r k' => exists l' d rs, linked r.2 l' /\ run_spec evs (bodies l) = (rs, d, bodies l') /\
    map (fun e => (e.1, body <$> e.2)) r.1 = rs /\ k' = draw base d k) k.
Proof.
  intros L D H. revert s l k L D. induction H as [|[|cmd] evs Hev H IH]; intros s l k L D; cbn [run run_spec].
  - apply wp_mret. exists l, [], []. by rewrite draw_nil.
  - apply wp_bind. eapply wp_mono; [|by apply tasklet_ok]. intros s1 k1 (l1 & L1 & E1 & ->).
    eapply wp_mono; [|apply (IH s1 l1); [done|]]. 2: { apply drawable_draw; [|done]. by eapply ticks_on_page. }
    intros r k2 (l' & d & rs & L' & E & Er & ->). exists l', ((ticks (bodies l)).2 ++ d), rs. rewrite <- E1, E. by rewrite draw_app.
  - apply wp_bind. eapply wp_mono; [|by apply ioctl_ok]. intros [[r g] s1] k1 (l1 & d1 & L1 & E1 & Hd & ->).
    apply wp_bind. eapply wp_mono; [|apply (IH s1 l1); [done|by apply drawable_draw]].
    intros [rs s2] k2 (l' & d & rs' & L' & E & Er & ->). apply wp_mret. exists l', (d1 ++ d), ((r, body <$> g) :: rs').
    rewrite E1, E, draw_app. cbn [fst snd map] in *. by rewrite Er.
Qed.
End refinement.

Lemma slot_none_used p b : slot (blink_array no_blinkers) p = Some b -> b = no_blink.
Proof. unfold slot. case_cmp; [|done]. intros Hs. by apply lookup_replicate_1 in Hs as [-> _]. Qed.

Lemma linked_none : linked no_blinkers [].
Proof.
  split_and!; [reflexivity|done|apply NoDup_nil_2|by apply list.Forall_nil|].
  intros p b Hs _. by rewrite (slot_none_used p b Hs).
Qed.

(** ** The first cell *)

(** A loop that always goes on. *)
Lemma run_loop_never {S R} (body : S -> S + R) (I : S -> Prop) s :
  (forall s, I s -> exists s', body s = inl s' /\ I s') -> I s -> run_loop body s = None.
Proof.
  intros Hstep Hs. unfold run_loop. assert (forall d s, I s -> exists s', loop d body s = inl s' /\ I s') as H.
  { induction d as [|d IH]; intros s0 H0; cbn [loop]; [by apply Hstep|].
    destruct (IH s0 H0) as (s1 & -> & H1). by apply IH. }
  by destruct (H 32%nat s Hs) as (s' & -> & _).
Qed.

Section first_cell.
Context (base vmem_base_addr : Z).

(** A structure that is linked to itself. *)
Lemma tasklet_hangs s k p b : slot (blink_array s) p = Some b -> next b = p -> mp1_list_head s = p -> 0 <= location b < SCREEN_CELLS ->
  drawable base vmem_base_addr k -> mp1_rtc_tasklet vmem_base_addr s k = Fault Diverges.
Proof.
  intros Hs Hn Hp Hl D. unfold mp1_rtc_tasklet, loopM.
  rewrite (run_loop_never _ (fun '((q, s), k) => q = p /\ drawable base vmem_base_addr k /\
    exists b, slot (blink_array s) p = Some b /\ next b = p /\ 0 <= location b < SCREEN_CELLS)); [done| |by split; [|split; [|exists b]]].
  clear s k b Hs Hn Hp Hl D. intros [[q s] k] (-> & D & b & Hs & Hn & Hl).
  pose proof (tick_step base vmem_base_addr s p b k Hs Hl D) as W. apply wp_ret_iff in W as (r & k' & -> & -> & ->).
  eexists. split; [reflexivity|]. destruct (tick_body b) as (En & El & _). split; [exact Hn|]. split.
  - apply drawable_draw; [|done]. unfold tick, on_page. cbn [set_countdown countdown status location]. case_if; [by apply list.Forall_nil|].
    case_if; apply list.Forall_cons; (split; [cbn; lia|by apply list.Forall_nil]).
  - exists (tick b).1. cbn [put_slot blink_array]. rewrite (slot_put _ _ _ _ _ Hs), decide_True by done. by rewrite En, El.
Qed.

(** With the structure of the first cell in use, or none, the next is put there. *)
Lemma add_first s b0 arg k : slot (blink_array s) 1 = Some b0 -> location b0 = 0 -> location arg = 0 -> drawable base vmem_base_addr k ->
  exists b, mp1_ioctl vmem_base_addr (RTC_ADD arg) s k = Ret (0, None, set_head 1 (put_slot 1 b s)) (draw base [(0, on_char arg)] k) /\
    next b = mp1_list_head s /\ location b = 0.
Proof.
  intros Hs H0 Harg D. set (b := set_next (mp1_list_head s) (set_countdown (on_length arg) (set_status 1 arg))). exists b.
  split; [|by split].
  enough (wp (mp1_ioctl vmem_base_addr (RTC_ADD arg) s) (fun r k' => r = (0, None, set_head 1 (put_slot 1 b s)) /\ k' = draw base [(0, on_char arg)] k) k) as W
    by (by apply wp_ret_iff in W as (r & k' & E & -> & ->)).
  cbn [mp1_ioctl]. unfold mp1_ioctl_add. rewrite Harg. change (SCREEN_CELLS <=? 0) with false. cbv iota zeta. apply wp_bind, wp_bind.
  assert (mp1_malloc s k = Ret 1 k) as E.
  { unfold mp1_malloc, loopM. erewrite run_loop_now; [reflexivity|]. cbn beta iota. change (0 <? SCREEN_CELLS) with true. cbv iota.
    unfold at_slot, mbind, M_bind. change (0 + 1) with 1. rewrite Hs. cbn [lift]. unfold mret at 1, M_ret. rewrite H0. done. }
  unfold wp at 1. rewrite E. change (1 =? 0) with false. cbv iota. fold b.
  assert (Z.shiftl (location b) 1 = 0) as -> by (change (location b) with (location arg); by rewrite Harg). apply wp_bind.
  eapply wp_mono; [|apply (wp_poke base); [done|lia]]. intros [] k1 ->. by apply wp_mret, wp_mret.
Qed.
End first_cell.

(** ** The rhythm of a blinker *)

Lemma i16_small z : 0 <= z < 32768 -> i16 (u16 z) = z.
Proof. intros H. unfold i16. rewrite !u16_small by (rewrite ?u16_small by lia; lia). case_cmp; lia. Qed.

Lemma succ_mod n p : 0 < p -> 0 <= n -> (n + 1) mod p = if n mod p + 1 =? p then 0 else n mod p + 1.
Proof.
  intros Hp Hn. pose proof (Z.mod_pos_bound n p Hp). pose proof (Z.div_mod n p ltac:(lia)) as E. case_cmp.
  - symmetry. apply (Z.mod_unique_pos _ _ (n / p + 1)); lia.
  - symmetry. apply (Z.mod_unique_pos _ _ (n / p)); lia.
Qed.

(** A tick in the middle of a phase, and at its end. *)
Lemma tick_counts b c : countdown b = c -> 1 < c < 32768 -> tick b = (set_countdown (c - 1) b, []).
Proof.
  intros <- Hc. unfold tick. cbn [set_countdown countdown]. rewrite i16_small by lia. rewrite (proj2 (Z.ltb_lt _ _)) by lia.
  by rewrite u16_small by lia.
Qed.

Lemma tick_turns b : countdown b = 1 -> tick b =
  (if Z.testbit (status b) 0
   then (set_status (Z.lxor (status b) 1) (set_countdown (off_length b) b), [(2 * location b, off_char b)])
   else (set_status (Z.lxor (status b) 1) (set_countdown (on_length b) b), [(2 * location b, on_char b)])).
Proof. intros Hc. unfold tick. cbn [set_countdown countdown]. by rewrite Hc. Qed.

(** ** Properties *)

(** [C29] The blinkers on the array of the program are the abstract ones: any sequence of
    commands and clock ticks that asks for no character in the first cell gives their
    results, draws exactly what they draw, and leaves the linked list of what is left;
    in particular every search and every tick terminates. *)
Theorem blinkers_refine base vmem_base_addr evs k : drawable base vmem_base_addr k -> Forall event_ok evs ->
  let '(rs, d, bs) := run_spec evs [] in
  exists gs s, run vmem_base_addr evs no_blinkers k = Ret (gs, s) (draw base d k) /\
    map (fun e => (e.1, body <$> e.2)) gs = rs /\ represents s bs.
Proof.
  intros D H. pose proof (run_ok base vmem_base_addr evs _ _ k linked_none D H) as W. cbn [bodies map] in W.
  apply wp_ret_iff in W as ([gs s] & k' & E & l & d & rs & L & -> & Er & ->). exists gs, s. split_and!; [exact E|exact Er|by exists l].
Qed.

(** [C32] A character asked for twice in the first cell hangs the program: both commands
    succeed, but location 0 marks a free structure, so that the second takes the one of
    the first and links it to itself; the next tick follows the link forever. *)
Theorem first_cell_hangs base vmem_base_addr arg1 arg2 k : drawable base vmem_base_addr k ->
  location arg1 = 0 -> location arg2 = 0 ->
  exists s k', run vmem_base_addr [Ioctl (RTC_ADD arg1); Ioctl (RTC_ADD arg2)] no_blinkers k = Ret ([(0, None); (0, None)], s) k' /\
    mp1_rtc_tasklet vmem_base_addr s k' = Fault Diverges.
Proof.
  intros D H1 H2. destruct (add_first base vmem_base_addr no_blinkers no_blink arg1 k eq_refl eq_refl H1 D) as (b1 & E1 & _ & L1).
  assert (forall arg k0, drawable base vmem_base_addr k0 -> drawable base vmem_base_addr (draw base [(0, on_char arg)] k0)) as Hd
    by (intros; apply drawable_draw; [apply list.Forall_cons; split; [cbn; lia|by apply list.Forall_nil]|done]).
  set (s1 := set_head 1 (put_slot 1 b1 no_blinkers)) in *.
  destruct (add_first base vmem_base_addr s1 b1 arg2 _ eq_refl L1 H2 (Hd arg1 k D)) as (b2 & E2 & N2 & L2).
  eexists _, _. split; [unfold run, mbind, M_bind; rewrite E1, E2; reflexivity|].
  apply (tasklet_hangs base vmem_base_addr _ _ 1 b2); [reflexivity|exact N2|reflexivity|lia|]. by apply Hd, Hd.
Qed.

(** A blinker shows its two characters in turn: after any number of ticks it is in the
    phase that the remainder by the sum of its lengths says, with the ticks that are
    left of it in the countdown, and its cell shows the character of that phase. *)
Theorem blinker_phase b n : 0 < on_length b < 32768 -> 0 < off_length b < 32768 ->
  let r := Z.of_nat n mod (on_length b + off_length b) in
  after_ticks n (set_countdown (on_length b) (set_status 1 b)) (on_char b) =
    if r <? on_length b then (set_countdown (on_length b - r) (set_status 1 b), on_char b)
    else (set_countdown (on_length b + off_length b - r) (set_status 0 b), off_char b).
Proof.
  intros H1 H2. cbv zeta. induction n as [|n IH].
  - cbn [after_ticks]. rewrite Z.mod_0_l by lia. rewrite (proj2 (Z.ltb_lt _ _)) by lia. by rewrite Z.sub_0_r.
  - cbn [after_ticks]. rewrite IH, Nat2Z.inj_succ, <- Z.add_1_r, succ_mod by lia.
    pose proof (Z.mod_pos_bound (Z.of_nat n) (on_length b + off_length b) ltac:(lia)) as Hr.
    set (r := Z.of_nat n mod _) in *. destruct (Z.ltb_spec r (on_length b)) as [Hlt|Hge]; cbn beta iota.
    + rewrite (proj2 (Z.eqb_neq (r + 1) _)) by lia. destruct (Z.ltb_spec (r + 1) (on_length b)).
      * rewrite (tick_counts _ (on_length b - r)) by (done || lia). by replace (on_length b - (r + 1)) with (on_length b - r - 1) by lia.
      * rewrite tick_turns by (cbn [set_countdown countdown]; lia). by replace (on_length b + off_length b - (r + 1)) with (off_length b) by lia.
    + destruct (Z.eqb_spec (r + 1) (on_length b + off_length b)).
      * rewrite tick_turns by (cbn [set_countdown countdown]; lia). rewrite (proj2 (Z.ltb_lt 0 _)) by lia. by rewrite Z.sub_0_r.
      * rewrite (proj2 (Z.ltb_ge (r + 1) _)) by lia. rewrite (tick_counts _ (on_length b + off_length b - r)) by (done || lia).
        by replace (on_length b + off_length b - (r + 1)) with (on_length b + off_length b - r - 1) by lia.
Qed.

(** ** Witnesses *)

(** The first 4 MB are mapped to themselves; the variable is at 0x2000. *)
Definition vidmapped : kernel := set_k_mem (wr32 (wr32 ∅ 0x1000 0x83) 0x2000 VIDEO_ADDR) (set_k_cpu (set_cr3 0x1000 (k_cpu kernel_quiet)) kernel_quiet).

Lemma vidmapped_drawable : drawable VIDEO_ADDR 0x2000 vidmapped.
Proof.
  split_and!; [lia|lia|]. intros m Hm. change (cr3 (k_cpu vidmapped)) with 0x1000.
  assert (forall a, 0 <= a < VIDEO_ADDR -> rd m a = rd (k_mem vidmapped) a) as Hlow.
  { intros a Ha. apply Hm. unfold u32. zlia. }
  assert (rd32 m 0x1000 = 0x83 /\ rd32 m 0x2000 = VIDEO_ADDR) as [E1 E2] by (unfold rd32; rewrite !Hlow by lia; by split).
  assert (forall va, 0 <= va < FOUR_MB -> resolve_virt_addr m 0x1000 va = va) as Hr.
  { intros va Hva. rewrite resolve_arith by lia. rewrite (Z.div_small va), (Z.mod_small va) by lia. unfold dir_entry.
    change (0x1000 + 4 * 0) with 0x1000. rewrite E1. change (present 0x83) with true. change (large 0x83) with true.
    cbv iota beta zeta delta [negb]. change (0x83 / FOUR_MB * FOUR_MB) with 0. rewrite u32_small by lia. lia. }
  cbv zeta. rewrite (Hr 0x2000) by lia. split; [lia|]. intros o Ho. rewrite E2, u32_small by lia. apply Hr. lia.
Qed.

Definition star (at_cell on off : Z) : mp1_blink_struct := mk_blink at_cell 73 77 on off 0 0 0.

Lemma blinkers_refine_witness : exists gs s, run 0x2000 [Ioctl (RTC_ADD (star 540 1 2)); Tick; Ioctl (RTC_REMOVE 540); Ioctl (RTC_SYNC 540)] no_blinkers vidmapped =
  Ret (gs, s) (draw VIDEO_ADDR [(1080, 73); (1080, 77)] vidmapped) /\ map fst gs = [0; 0; -1] /\ represents s [].
Proof.
  destruct (blinkers_refine VIDEO_ADDR 0x2000 [Ioctl (RTC_ADD (star 540 1 2)); Tick; Ioctl (RTC_REMOVE 540); Ioctl (RTC_SYNC 540)] vidmapped) as (gs & s & E & Er & R).
  { exact vidmapped_drawable. }
  { repeat (apply list.Forall_cons; split); cbn; try done; lia. }
  exists gs, s. split; [exact E|]. split; [|exact R]. pose proof (f_equal (map fst) Er) as F. rewrite map_map in F. exact F.
Defined.

Lemma first_cell_hangs_witness : exists s k', run 0x2000 [Ioctl (RTC_ADD (star 0 1 2)); Ioctl (RTC_ADD (star 0 1 2))] no_blinkers vidmapped = Ret ([(0, None); (0, None)], s) k' /\
  mp1_rtc_tasklet 0x2000 s k' = Fault Diverges.
Proof. exact (first_cell_hangs VIDEO_ADDR 0x2000 (star 0 1 2) (star 0 1 2) vidmapped vidmapped_drawable eq_refl eq_refl). Defined.

Lemma blinker_phase_witness : after_ticks 20 (set_countdown 7 (set_status 1 (star 540 7 6))) 73 = (set_countdown 6 (set_status 0 (star 540 7 6)), 77).
Proof. apply (blinker_phase (star 540 7 6) 20); cbn; lia. Defined.
