(* ===== verification/Devices.v ===== *)
(** * What the kernel promises of its devices

    The interfaces of a process to the clock and to the page of the screen that vidmap
    maps, in terms of views as OsCalls; the kernel is an instance of both. *)

From Stdlib Require Import ZArith Lia String.
From stdpp Require Import gmap list numbers strings.
From S2P Require Import Prelude Memory LibString State Display I8259 Ports Paging Pcb Rtc FileSystem Vfs Keyboard Terminal Syscalls Execute UserLib Process Clients Blink.

(** ** The promises *)

(** Characters written to the mapped page. *)
Definition cell_drawn (s : screen) (e : Z * Z) : screen := mk_screen (fun o => if o =? e.1 then u8 e.2 else s_cells s o) (s_row s) (s_col s).
Definition drawn (d : drawing) (u : view) : view :=
  mk_view (v_mem u) (v_fds u) (v_arg u) (v_color u) (fold_left cell_drawn d (v_screen u)) (v_kbd u).

(** The four bytes of a number. *)
Definition digit (v i : Z) : Z := v / W8 ^ i.
Definition number_at (u : view) (p v : Z) : Prop := forall i, 0 <= i < 4 -> bytes_of u p i = u8 (digit v i).

Lemma number_stored u p v : number_at (with_bytes p 4 (digit v) u) p v.
Proof. intros i Hi. by rewrite bytes_in. Qed.

Lemma number_kept u p v q n g : apart p 4 q n -> number_at u p v -> number_at (with_bytes q n g u) p v.
Proof. intros A Hn i Hi. rewrite bytes_other by (unfold apart in A; lia). by apply Hn. Qed.

Class OsClock (P : view -> kernel -> Prop) (f : frame) (child : Z -> Z -> M Z) := {
  (** A read waits for the next tick. *)
  os_tick u kb fd d buf n : v_kbd u = Some kb -> 0 <= fd < MAX_DESC -> desc u fd = Some d -> file_ops d = rtc_jt -> in_page buf 1 -> 0 <= n < H32 ->
    acts P (ece391_read f child [rtc_interrupt] fd buf n) u 0 u;
  (** A write sets the frequency. *)
  os_set_rate u fd d buf e : 0 <= fd < MAX_DESC -> desc u fd = Some d -> file_ops d = rtc_jt -> in_page buf 4 ->
    1 <= e <= 10 -> number_at u buf (2 ^ e) -> acts P (ece391_write f child fd buf 4) u 4 u
}.

(** [base]: the physical address of the page. *)
Class OsScreen (P : view -> kernel -> Prop) (f : frame) (child : Z -> Z -> M Z) (base : Z) := {
  os_vidmap u p : in_page p 4 -> acts P (ece391_vidmap f child p) u VIDMAP_VIRT_ADDR (with_bytes p 4 (digit VIDMAP_VIRT_ADDR) u);
  os_drawable u p k : P u k -> in_page p 4 -> number_at u p VIDMAP_VIRT_ADDR -> drawable base p k;
  os_drawn u d k : P u k -> on_page d -> P (drawn d u) (draw base d k)
}.

(** Four bytes as a number. *)
Class OsNumbers (P : view -> kernel -> Prop) := {
  os_load32 u p v : in_page p 4 -> number_at u p v -> 0 <= v < W32 -> acts P (load32 p) u v u;
  os_store32 u p v : in_page p 4 -> acts P (store32 p v) u tt (with_bytes p 4 (digit v) u)
}.

(** ** The kernel keeps them *)

Section devices.
Context (E : env) (HE : env_ok E) (f : frame) (child : Z -> Z -> M Z).

(** Whatever happens to the devices. *)
Lemma process_devices u k r io fl : process E u k -> (iflag (k_cpu k) = true -> fl = true) ->
  process E u (set_k_rtc r (set_k_io io (set_k_cpu (set_iflag fl (k_cpu k)) k))).
Proof using.
  clear HE f child. intros (B & Mm & S & K & C & F & L & Wt) Hfl. refine (conj B (conj Mm (conj S (conj _ (conj C (conj F (conj L Wt))))))).
  intros kb Hkb. destruct (K kb Hkb) as (K1 & K2 & K3 & K4 & K5 & K6). exact (conj K1 (conj K2 (conj K3 (conj (Hfl K4) (conj K5 K6))))).
Qed.

Lemma rtc_interrupt_devices k : wp (interrupt rtc_interrupt) (fun _ k' => exists io,
  k' = set_k_rtc (set_intr_occured true (k_rtc k)) (set_k_io io (set_k_cpu (set_iflag (iflag (k_cpu k)) (k_cpu k)) k))) k.
Proof using.
  clear E HE f child. unfold interrupt, rtc_interrupt.
  change (send_eoi RTC_IRQ) with (outb (Z.lor (8 - 8) EOI) SLAVE_8259_PORT ;; outb (Z.lor 2 EOI) MASTER_8259_PORT).
  wp_steps. apply wp_inb. intros v k1 _ _ _ ->. wp_steps. by eexists.
Qed.

Lemma proc_tick u kb fd d buf n : v_kbd u = Some kb -> 0 <= fd < MAX_DESC -> desc u fd = Some d -> file_ops d = rtc_jt -> in_page buf 1 -> 0 <= n < H32 ->
  acts (process E) (ece391_read f child [rtc_interrupt] fd buf n) u 0 u.
Proof using HE.
  intros Hkb Hfd Hd Hop Hbuf Hn k Hk. eapply (wp_sys_read E HE f child _ _ d); [done|done|done|done|lia|by rewrite Hop|]. cbn beta.
  pose proof Hk as (_ & _ & _ & K & _). destruct (K kb Hkb) as (_ & _ & _ & K4 & _).
  unfold rtc_read. wp_steps. change [rtc_interrupt] with ([] ++ [rtc_interrupt]).
  apply (wait_while_through _ (fun k' => k' = set_k_rtc (set_intr_occured false (k_rtc k)) k)); [by intros k' ->|apply list.Forall_nil_2| |done].
  intros k' ->. eapply wp_mono; [|apply rtc_interrupt_devices]. intros [] k2 [io ->]. split; [done|]. wp_steps. exists u. split; [done|].
  by apply (process_devices u k).
Qed.

Lemma rd32_number u k p v : process E u k -> in_page p 4 -> number_at u p v -> 0 <= v < W32 -> rd32 (k_mem k) (phys E p) = v.
Proof using HE.
  clear f child. intros Hk (P1 & P2 & P3) Hn Hv. assert (forall i, 0 <= i < 4 -> rd (k_mem k) (phys E p + i) = u8 (digit v i)) as R.
  { intros i Hi. rewrite <- Hn by done. apply (process_at E HE u k p i Hk). lia. }
  unfold rd32. pose proof (R 0 ltac:(lia)) as R0. rewrite Z.add_0_r in R0. rewrite R0, !R by lia. unfold digit.
  change (W8 ^ 0) with 1. change (W8 ^ 1) with W8. change (W8 ^ 2) with W16. change (W8 ^ 3) with 16777216. unfold u8. zlia.
Qed.

Lemma proc_set_rate u fd d buf e : 0 <= fd < MAX_DESC -> desc u fd = Some d -> file_ops d = rtc_jt -> in_page buf 4 ->
  1 <= e <= 10 -> number_at u buf (2 ^ e) -> acts (process E) (ece391_write f child fd buf 4) u 4 u.
Proof using HE.
  intros Hfd Hd Hop (P1 & P2 & P3) He Hn k Hk. apply (wp_write f child); [lia|lia|lia|]. unfold sys_write.
  rewrite (proj2 (Z.ltb_ge fd 0)), (proj2 (Z.leb_gt MAX_DESC fd)), (proj2 (Z.eqb_neq buf 0)) by lia. cbn [orb]. change (4 <? 0) with false. cbv iota.
  destruct (process_fd E HE u k fd d Hk Hfd Hd) as (b & (F1 & F2 & F3 & F4 & F5) & Hok & _).
  wp_steps. rewrite F1. eapply wp_get_fd; [done|exact F3|done|exact F5|]. rewrite Hop. cbn [op_write]. wp_steps.
  apply (process_ptr E HE u k); [done|lia|]. unfold rtc_write. wp_steps.
  assert (0 <= 2 ^ e < W32) as Hr by (pose proof (Z.pow_le_mono_r 2 e 10 ltac:(lia) ltac:(lia)); change (2 ^ 10) with 1024 in *; lia).
  rewrite (rd32_number u k buf (2 ^ e)) by (done || unfold in_page; lia).
  unfold rtc_write_freq. rewrite freq_rejected by done. wp_steps. eapply wp_lift; [by apply log_loop|].
  unfold set_int_freq. wp_steps. apply wp_inb. intros v k1 _ _ _ ->. wp_steps. exists u. split; [done|].
  by apply (process_devices u k).
Qed.

Lemma digits_copied m a v : mem_copied m (wr32 m a v) a (digit v) 4.
Proof using.
  clear E HE f child. apply (mem_copied_wr32 m m a (digit v) 0); [lia|lia|f_equal; lia| | | | |apply mem_copied_0]; unfold digit; by rewrite ?Z.div_1_r.
Qed.

Lemma proc_load32 u p v : in_page p 4 -> number_at u p v -> 0 <= v < W32 -> acts (process E) (load32 p) u v u.
Proof using HE.
  intros Hp Hn Hv k Hk. unfold load32. wp_steps. apply (process_ptr E HE u k); [done|unfold in_page in Hp; lia|]. wp_steps.
  rewrite (rd32_number u k p v) by done. by exists u.
Qed.

Lemma proc_store32 u p v : in_page p 4 -> acts (process E) (store32 p v) u tt (with_bytes p 4 (digit v) u).
Proof using HE.
  intros Hp k Hk. unfold store32. wp_steps. apply (process_ptr E HE u k); [done|unfold in_page in Hp; lia|]. wp_steps.
  eexists. split; [done|]. apply process_copied; [done|done|done|apply digits_copied].
Qed.

(** *** The screen *)

Lemma proc_vidmap u p : in_page p 4 ->
  acts (process E) (ece391_vidmap f child p) u VIDMAP_VIRT_ADDR (with_bytes p 4 (digit VIDMAP_VIRT_ADDR) u).
Proof using HE.
  intros Hp k Hk. pose proof Hp as (P1 & P2 & P3). apply (wp_vidmap f child); [lia|]. unfold sys_vidmap.
  rewrite (proj2 (Z.ltb_ge p _)), (proj2 (Z.ltb_ge _ p)) by lia. cbn [orb]. wp_steps.
  apply (process_ptr E HE u k); [done|lia|]. wp_steps. eexists. split; [done|]. apply process_copied; [done|done|done|apply digits_copied].
Qed.

Lemma screen_page u k : process E u k -> VIDEO_ADDR <= e_vid E /\ e_vid E + PAGE_BYTES <= VIDEO_END.
Proof using. clear HE f child. intros Hk. destruct (process_terminal E u k Hk) as (t & _ & V1 & V2 & V3). lia. Qed.

(** What is on the page does not move the tables, the image and the program. *)
Lemma drawn_tables u k m : process E u k -> differs_within (k_mem k) m (e_vid E) PAGE_BYTES ->
  own_tables E m /\ forall a, VIDEO_END <= a < W32 -> rd m a = rd (k_mem k) a.
Proof using HE.
  clear f child. intros Hk D. destruct (screen_page u k Hk) as [V1 V2]. destruct Hk as (_ & (I & T & _) & _).
  assert (forall a, VIDEO_END <= a < W32 -> rd m a = rd (k_mem k) a) as R by (intros a Ha; apply D; rewrite u32_small; lia).
  split; [|exact R]. apply (kernel_memory E HE (k_mem k) m I T). intros a Ha. apply R. lia.
Qed.

Lemma proc_drawable u p k : process E u k -> in_page p 4 -> number_at u p VIDMAP_VIRT_ADDR -> drawable (e_vid E) p k.
Proof using HE.
  clear f child. intros Hk Hp Hn. destruct (screen_page u k Hk) as [V1 V2]. split_and!; [lia|lia|]. intros m D.
  destruct (drawn_tables u k m Hk D) as [(_ & T & V & _) R]. pose proof Hk as (_ & _ & _ & _ & C & _). rewrite C.
  destruct (env_facts E HE) as (_ & E1 & E2 & _). pose proof Hp as (P1 & P2 & P3). cbv zeta. rewrite (T p) by lia. split; [unfold phys; lia|].
  intros o Ho. assert (rd32 m (phys E p) = VIDMAP_VIRT_ADDR) as ->.
  { rewrite <- (rd32_number u k p VIDMAP_VIRT_ADDR) by (done || lia). unfold rd32. unfold phys. by rewrite !R by lia. }
  rewrite u32_small by lia. by apply V.
Qed.

Lemma shows_draw i t k s d : 0 <= vid_mem t -> vid_mem t + PAGE_BYTES <= W32 -> terminals (k_disp k) !! Z.to_nat i = Some t ->
  shows k i s -> on_page d -> shows (draw (vid_mem t) d k) i (fold_left cell_drawn d s).
Proof using.
  clear E HE f child. intros V1 V2 Ht Hs Hd. revert k s Ht Hs. induction Hd as [|[o c] d Ho Hd IH]; intros k s Ht Hs; [by rewrite draw_nil|].
  change ((o, c) :: d) with ([(o, c)] ++ d). rewrite draw_app. cbn [app fold_left]. apply IH; [done|].
  destruct Hs as (t' & Hi & Ht' & Hr & Hc & Hm). rewrite Ht in Ht'. apply (inj Some) in Ht'. subst t'. exists t. split_and!; try done.
  intros x Hx. cbn [draw k_mem set_k_mem fold_left fst snd cell_drawn s_cells] in *. rewrite rd_wr, !u32_small by lia. rewrite <- Hm by done.
  destruct (Z.eqb_spec x o) as [->|Hne]; [by rewrite Z.eqb_refl|]. by rewrite (proj2 (Z.eqb_neq _ _)) by lia.
Qed.

Lemma proc_drawn u d k : process E u k -> on_page d -> process E (drawn d u) (draw (e_vid E) d k).
Proof using HE.
  clear f child. intros Hk Hd. destruct (process_terminal E u k Hk) as (t & Ht & V1 & V2 & V3). pose proof Hk as (_ & _ & (_ & _ & S3 & S4 & _) & _).
  apply (process_drawn E HE u k).
  - done.
  - destruct S3 as (t' & Hi & _). exists t, t, (k_mem (draw (e_vid E) d k)), (k_io k). split_and!; [done|done|apply same_but_pos_refl| |by apply cursor_stays|].
    + rewrite V3. apply drawn_within; [lia|lia|done].
    + rewrite list_insert_id by done. by destruct k as [????[]].
  - rewrite <- V3. apply shows_draw; [lia|lia|done|done|done].
  - clear -S4. revert S4. generalize (v_screen u). induction d as [|e d IH]; intros s Hs; [done|]. cbn. by apply IH.
Qed.

#[export] Instance process_clock : OsClock (process E) f child.
Proof using HE. split; [exact proc_tick|exact proc_set_rate]. Qed.

#[export] Instance process_screen : OsScreen (process E) f child (e_vid E).
Proof using HE. split; [exact proc_vidmap|exact proc_drawable|exact proc_drawn]. Qed.

#[export] Instance process_numbers : OsNumbers (process E).
Proof using HE. split; [exact proc_load32|exact proc_store32]. Qed.
End devices.
