(* ===== verification/Pingpong.v ===== *)
(** * The pingpong program (src/syscalls/ece391pingpong.c)

    A letter that bounces between two walls, a step on every tick of the clock.  main
    never returns: the model runs a number of turns of its loop. *)

From Stdlib Require Import ZArith Lia String.
From stdpp Require Import gmap list numbers strings.
From S2P Require Import Prelude Memory LibString State Display Rtc FileSystem Vfs Keyboard Syscalls Execute Calls UserLib Process Blink Devices Programs Clients Userland.

Abbreviation BUFMAX := 81.                (* SCREENWIDTH+ENDING *)
Abbreviation START := 1.
Abbreviation STARTLOOP := 2.
Abbreviation LOOPMAX := 78.               (* BUFMAX-ENDING-1, without parentheses *)
Abbreviation STARTCHAR := 65.
Abbreviation ENDCHAR := 90.

(** ** Definitions *)

Section pingpong.
Context (f : frame) (child : Z -> Z -> M Z) (rodata : list Z -> Z).
(** The addresses of buf, ret_val and garbage. *)
Context (buf ret_val garbage : Z).

Definition clear_inner : M unit := for_ (Z.to_nat (LOOPMAX - STARTLOOP)) (fun i => store (buf + (STARTLOOP + i)) 32).

(** One picture; [irqs] are the interrupts during the read. *)
Definition draw_frame (rtc_fd curchar : Z) (irqs : list (M unit)) (j : Z) : M unit :=
  clear_inner ;;
  store (buf + j) curchar ;;
  ece391_fdputs f child 1 buf ;;
  ece391_read f child irqs rtc_fd garbage 4 ;;
  skip.

(** [ticks]: the interrupts during each of the reads. *)
Definition move_out (rtc_fd curchar : Z) (ticks : list (list (M unit))) : M (list (list (M unit))) :=
  loopM (fun '(j, ticks) =>
    if j <? LOOPMAX then draw_frame rtc_fd curchar (hd [] ticks) j ;; mret (inl (j + 1, tl ticks))
    else mret (inr ticks)) (STARTLOOP, ticks).

Definition bounce_back (rtc_fd curchar : Z) (ticks : list (list (M unit))) : M (list (list (M unit))) :=
  loopM (fun '(j, ticks) =>
    if STARTLOOP <=? j then draw_frame rtc_fd curchar (hd [] ticks) j ;; mret (inl (j - 1, tl ticks))
    else mret (inr ticks)) (LOOPMAX - 1, ticks).

Definition next_letter (curchar : Z) : Z := if curchar =? ENDCHAR then STARTCHAR else u8 (curchar + 1).

Fixpoint turns (n : nat) (rtc_fd curchar : Z) (ticks : list (list (M unit))) : M unit :=
  match n with
  | O => skip
  | S n =>
      ticks ← move_out rtc_fd curchar ticks;
      ticks ← bounce_back rtc_fd curchar ticks;
      turns n rtc_fd (next_letter curchar) ticks
  end.

(** The first [n] turns of the loop. *)
Definition pingpong_main (n : nat) (ticks : list (list (M unit))) : M unit :=
  for_ (Z.to_nat BUFMAX) (fun i => store (buf + i) 32) ;;
  store (buf + (BUFMAX - 1)) 0 ;;
  store (buf + (BUFMAX - 2)) 10 ;;
  store (buf + (BUFMAX - 3)) 124 ;;
  store (buf + START) 124 ;;
  rtc_fd ← ece391_open f child (rodata (tx "rtc"));
  store32 ret_val 32 ;;
  r ← ece391_write f child rtc_fd ret_val 4;
  store32 ret_val r ;;
  turns n rtc_fd STARTCHAR ticks.
End pingpong.

(** ** What is seen *)

(** The buffer with the letter [c] at [j]. *)
Definition world (c j i : Z) : Z :=
  if i =? 80 then 0 else if i =? 79 then 10 else if (i =? 78) || (i =? 1) then 124 else if i =? j then c else 32.

Definition picture (c j : Z) : list Z := chars (world c j) 80.
Definition way : list Z := seqZ STARTLOOP (LOOPMAX - STARTLOOP).
Definition turn_text (c : Z) : list Z := concat (map (picture c) (way ++ reverse way)).
Definition letter (k : Z) : Z := STARTCHAR + k mod 26.
Definition pingpong_text (n : nat) : list Z := concat (map (fun k => turn_text (letter k)) (seqZ 0 (Z.of_nat n))).

(** ** Properties *)

Section play.
Context {P : view -> kernel -> Prop} {f : frame} {child : Z -> Z -> M Z} {im : memory} {fs : Z}.
Context `{!OsCalls P f child im fs} `{!OsClock P f child} `{!OsNumbers P}.
Context (rodata : list Z -> Z) (buf ret_val garbage : Z) (kb : kbd_t).
Hypothesis Hbuf : in_page buf BUFMAX.
Hypothesis Hret : in_page ret_val 4.
Hypothesis Hgarbage : in_page garbage 1.
Hypothesis Hapart : apart buf BUFMAX ret_val 4.

(** [text] has been printed since [u0], and [B] is in the buffer. *)
Definition playing (fd : Z) (u0 : view) (B : Z -> Z) (text : list Z) (u : view) : Prop :=
  (exists d, desc u 1 = Some d /\ file_ops d = stdout) /\ (exists d, desc u fd = Some d /\ file_ops d = rtc_jt) /\
  v_kbd u = Some kb /\ v_color u = v_color u0 /\ v_screen u = text_spec (v_color u0) text (v_screen u0) /\
  forall i, 0 <= i < BUFMAX -> bytes_of u buf i = B i.

Lemma playing_store fd u0 B text u i v : playing fd u0 B text u -> 0 <= i < BUFMAX ->
  does P (store (buf + i) v) u (fun _ u' => playing fd u0 (fun j => if j =? i then u8 v else B j) text u').
Proof using All.
  intros (H1 & H2 & H3 & H4 & H5 & H6) Hi. eapply does_mono; [|apply os_store; unfold in_page in *; lia]. intros [] u' [_ ->].
  split_and!; try done. intros j Hj. unfold bytes_of. cbn [v_mem with_bytes].
  destruct (Z.eqb_spec j i) as [->|]; [by rewrite (proj2 (Z.leb_le _ _)), (proj2 (Z.ltb_lt _ _)) by lia|].
  replace ((buf + i <=? buf + j) && (buf + j <? buf + i + 1)) with false; [by apply H6|]. symmetry. case_cmp; (done || lia).
Qed.

Lemma playing_ext fd u0 B B' text u : (forall i, 0 <= i < BUFMAX -> B i = B' i) -> playing fd u0 B text u -> playing fd u0 B' text u.
Proof using. intros E (H1 & H2 & H3 & H4 & H5 & H6). split_and!; try done. intros i Hi. rewrite <- E by done. by apply H6. Qed.

(** The letter [c] is drawn at [j]. *)
Lemma draw_frame_ok fd u0 c0 j0 c j text u : j0 <> 0 -> 0 <= fd < MAX_DESC -> playing fd u0 (world c0 j0) text u -> 0 < c < W8 -> STARTLOOP <= j < LOOPMAX ->
  does P (draw_frame f child buf garbage fd c [rtc_interrupt] j) u (fun _ u' => playing fd u0 (world c j) (text ++ picture c j) u').
Proof using All.
  intros Hj0 Hfd Hp Hc Hj. unfold draw_frame, clear_inner. eapply does_bind.
  { apply (does_for P _ _ (fun n u' => playing fd u0 (fun i => if (2 <=? i) && (i <? 2 + n) then 32 else world c0 j0 i) text u')).
    - intros i u1 Hi H1. cbn beta. eapply does_mono; [|apply playing_store; [exact H1|lia]]. intros [] u2 H2. eapply playing_ext; [|exact H2].
      intros x Hx. cbn beta. change (u8 32) with 32. case_cmp; (done || lia).
    - eapply playing_ext; [|exact Hp]. intros i Hi. cbn beta. case_cmp; (done || lia). }
  intros [] u1 H1. eapply does_bind; [apply playing_store; [exact H1|lia]|]. intros [] u2 H2.
  apply (playing_ext _ _ _ (world c j)) in H2.
  2: { intros i Hi. unfold world. rewrite (u8_small c) by lia. case_cmp; (done || lia). }
  destruct H2 as ((d1 & D1 & O1) & (d & D & O) & K & Cc & Sc & B).
  assert (str_at u2 buf 80) as Hs.
  { split; [split_and!; [lia| |]|exact Hbuf]; [intros i Hi|]; rewrite B by lia; unfold world; cbn; [|done].
    rewrite (proj2 (Z.eqb_neq i 80)) by lia. case_cmp; cbn; lia. }
  eapply does_bind; [apply (acts_fdputs rodata u2 1 d1); [lia|exact D1|exact O1|exact Hs]|]. intros [] u3 [_ ->].
  assert (chars (bytes_of u2 buf) 80 = picture c j) as -> by
    (unfold picture, chars; apply map_ext_in; intros i Hi; apply list_elem_of_In, elem_of_seqZ in Hi; apply B; lia).
  eapply does_bind; [apply (os_tick _ kb fd d garbage 4); [exact K|exact Hfd|exact D|exact O|exact Hgarbage|lia]|]. intros r u3 [_ ->].
  apply does_mret. split_and!; [by exists d1|by exists d|exact K|exact Cc| |exact B].
  cbn [printed v_screen]. rewrite Sc, Cc. unfold text_spec. by rewrite fold_left_app.
Qed.

(** The letter on its way out and back, a step on every tick. *)
Lemma move_out_ok fd u0 c0 j0 c text u ticks : j0 <> 0 -> 0 <= fd < MAX_DESC -> playing fd u0 (world c0 j0) text u -> 0 < c < W8 ->
  does P (move_out f child buf garbage fd c (replicate 76 [rtc_interrupt] ++ ticks)) u (fun r u' => r = ticks /\
    playing fd u0 (world c 77) (text ++ concat (map (picture c) way)) u').
Proof using All.
  intros Hj0 Hfd Hp Hc. unfold move_out.
  apply (does_loop P _ (fun n '(j, tk) u' => n = LOOPMAX - j /\ STARTLOOP <= j <= LOOPMAX /\
    tk = replicate (Z.to_nat (LOOPMAX - j)) [rtc_interrupt] ++ ticks /\
    exists c1 j1, j1 <> 0 /\ playing fd u0 (world c1 j1) (text ++ concat (map (picture c) (seqZ STARTLOOP (j - STARTLOOP)))) u' /\
      (j = LOOPMAX -> c1 = c /\ j1 = 77)) _ 76); [| |lia].
  - intros n [j tk] u1 (-> & Hj & -> & c1 & j1 & Hj1 & H1 & Hl). destruct (Z.ltb_spec j LOOPMAX) as [Hlt|Hge].
    + replace (Z.to_nat (LOOPMAX - j)) with (S (Z.to_nat (LOOPMAX - (j + 1)))) by lia. cbn [replicate app hd tl].
      eapply does_bind; [eapply draw_frame_ok; [|exact Hfd|exact H1|exact Hc|lia]; lia|]. intros [] u2 H2. apply does_mret.
      exists (LOOPMAX - (j + 1)). split; [lia|]. split_and!; [done|lia|lia|done|]. exists c, j. split; [lia|]. split; [|lia].
      replace (j + 1 - STARTLOOP) with (j - STARTLOOP + 1) by lia. rewrite seqZ_app, map_app, concat_app by lia.
      change (seqZ (STARTLOOP + (j - STARTLOOP)) 1) with [STARTLOOP + (j - STARTLOOP)]. cbn [map concat]. rewrite app_nil_r, app_assoc.
      by replace (STARTLOOP + (j - STARTLOOP)) with j by lia.
    + assert (j = LOOPMAX) as -> by lia. destruct (Hl eq_refl) as [-> ->]. by apply does_mret.
  - split_and!; [lia|lia|lia|done|]. exists c0, j0. split; [done|]. split; [by rewrite app_nil_r|lia].
Qed.

Lemma bounce_back_ok fd u0 c text u ticks : 0 <= fd < MAX_DESC -> playing fd u0 (world c 77) text u -> 0 < c < W8 ->
  does P (bounce_back f child buf garbage fd c (replicate 76 [rtc_interrupt] ++ ticks)) u (fun r u' => r = ticks /\
    playing fd u0 (world c 2) (text ++ concat (map (picture c) (reverse way))) u').
Proof using All.
  intros Hfd Hp Hc. unfold bounce_back.
  apply (does_loop P _ (fun n '(j, tk) u' => n = j - 1 /\ STARTLOOP - 1 <= j < LOOPMAX /\
    tk = replicate (Z.to_nat (j - 1)) [rtc_interrupt] ++ ticks /\
    exists j1, j1 <> 0 /\ playing fd u0 (world c j1) (text ++ concat (map (picture c) (reverse (seqZ (j + 1) (LOOPMAX - 1 - j))))) u' /\
      (j = 1 -> j1 = 2)) _ 76); [| |lia].
  - intros n [j tk] u1 (-> & Hj & -> & j1 & Hj1 & H1 & Hl). destruct (Z.leb_spec STARTLOOP j) as [Hlt|Hge].
    + replace (Z.to_nat (j - 1)) with (S (Z.to_nat (j - 1 - 1))) by lia. cbn [replicate app hd tl].
      eapply does_bind; [eapply draw_frame_ok; [|exact Hfd|exact H1|exact Hc|lia]; lia|]. intros [] u2 H2. apply does_mret.
      exists (j - 1 - 1). split; [lia|]. split_and!; [done|lia|lia|done|]. exists j. split; [lia|]. split; [|lia].
      replace (j - 1 + 1) with j by lia. rewrite (seqZ_cons j) by lia. replace (Z.succ j) with (j + 1) by lia.
      replace (Z.pred (LOOPMAX - 1 - (j - 1))) with (LOOPMAX - 1 - j) by lia.
      rewrite reverse_cons, map_app, concat_app. cbn [map concat]. by rewrite app_nil_r, app_assoc.
    + assert (j = 1) as -> by lia. rewrite (Hl eq_refl) in H1. by apply does_mret.
  - split_and!; [lia|lia|lia|done|]. exists 77. split; [done|]. split; [by rewrite app_nil_r|lia].
Qed.

Lemma next_letter_ok k : 0 <= k -> next_letter (letter k) = letter (k + 1).
Proof using.
  intros Hk. unfold next_letter, letter. pose proof (Z.mod_pos_bound k 26 ltac:(lia)). rewrite succ_mod by lia.
  destruct (Z.eqb_spec (k mod 26 + 1) 26) as [E|E].
  - by rewrite (proj2 (Z.eqb_eq _ _)) by lia.
  - rewrite (proj2 (Z.eqb_neq _ _)) by lia. rewrite u8_small by lia. lia.
Qed.

Lemma turns_ok n fd u0 : forall k0 c0 j0 text u, j0 <> 0 -> 0 <= fd < MAX_DESC -> playing fd u0 (world c0 j0) text u -> 0 <= k0 ->
  does P (turns f child buf garbage n fd (letter k0) (replicate (152 * n) [rtc_interrupt])) u (fun _ u' =>
    exists B, playing fd u0 B (text ++ concat (map (fun k => turn_text (letter k)) (seqZ k0 (Z.of_nat n)))) u').
Proof using All.
  induction n as [|n IH]; intros k0 c0 j0 text u Hj0 Hfd Hp Hk; cbn [turns].
  { apply does_mret. exists (world c0 j0). by rewrite app_nil_r. }
  assert (0 < letter k0 < W8) as Hl by (unfold letter; pose proof (Z.mod_pos_bound k0 26 ltac:(lia)); lia).
  replace (152 * S n)%nat with (76 + (76 + 152 * n))%nat by lia. rewrite replicate_add.
  eapply does_bind; [by eapply move_out_ok|]. intros tk u1 [-> H1]. rewrite replicate_add.
  eapply does_bind; [by eapply bounce_back_ok|]. intros tk u2 [-> H2]. rewrite next_letter_ok by done.
  eapply does_mono; [|eapply (IH (k0 + 1)); [|exact Hfd|exact H2|]; lia].
  intros [] u' [B H']. exists B. rewrite (seqZ_cons k0) by lia. replace (Z.succ k0) with (k0 + 1) by lia.
  replace (Z.pred (Z.of_nat (S n))) with (Z.of_nat n) by lia. cbn [map concat]. unfold turn_text at 1.
  rewrite map_app, concat_app. by rewrite <- !app_assoc in *.
Qed.

Lemma playing_ret fd u0 B text u v : playing fd u0 B text u -> playing fd u0 B text (with_bytes ret_val 4 (digit v) u).
Proof using Hapart.
  intros (H1 & H2 & H3 & H4 & H5 & H6). split_and!; try done. intros i Hi. rewrite bytes_other by (unfold apart in Hapart; lia). by apply H6.
Qed.

(** *** Before the clock is opened *)

Definition pp_lits : list (list Z) := [tx "rtc"].
Hypothesis Hclear : clear_of rodata pp_lits buf BUFMAX.

Definition before (u0 : view) (B : Z -> Z) (u : view) : Prop :=
  v_fds u = v_fds u0 /\ v_kbd u = v_kbd u0 /\ v_color u = v_color u0 /\ v_screen u = v_screen u0 /\ ready rodata pp_lits u /\
  forall i, 0 <= i < BUFMAX -> bytes_of u buf i = B i.

Lemma before_store u0 B u i v : before u0 B u -> 0 <= i < BUFMAX ->
  does P (store (buf + i) v) u (fun _ u' => before u0 (fun j => if j =? i then u8 v else B j) u').
Proof using All.
  intros (H1 & H2 & H3 & H4 & H5 & H6) Hi. eapply does_mono; [|apply os_store; unfold in_page in *; lia]. intros [] u' [_ ->].
  split_and!; try done.
  - apply ready_bytes; [|done]. apply (clear_of_sub _ _ buf BUFMAX); [exact Hclear|lia|lia|lia].
  - intros j Hj. unfold bytes_of. cbn [v_mem with_bytes].
    destruct (Z.eqb_spec j i) as [->|]; [by rewrite (proj2 (Z.leb_le _ _)), (proj2 (Z.ltb_lt _ _)) by lia|].
    replace ((buf + i <=? buf + j) && (buf + j <? buf + i + 1)) with false; [by apply H6|]. symmetry. case_cmp; (done || lia).
Qed.

Lemma pingpong_ok n u fd i : ready rodata pp_lits u -> v_kbd u = Some kb -> free_fd (v_fds u) = Some fd -> 2 <= fd < MAX_DESC ->
  first_named im fs i (arr_at (tx "rtc" ++ [0])) -> file_type (dentry_at im (entry_addr fs i)) = 0 ->
  does P (pingpong_main f child rodata buf ret_val garbage n (replicate (152 * n) [rtc_interrupt])) u (fun _ u' =>
    v_color u' = v_color u /\ v_screen u' = text_spec (v_color u) (pingpong_text n) (v_screen u)).
Proof using All.
  intros Hr Hkb Hff Hfd Hi Hty. unfold pingpong_main. eapply does_bind.
  { apply (does_for P _ _ (fun m u' => before u (fun i => if i <? m then 32 else bytes_of u buf i) u')).
    - intros j u1 Hj H1. cbn beta. eapply does_mono; [|apply before_store; [exact H1|lia]]. intros [] u2 (X1 & X2 & X3 & X4 & X5 & X6).
      split_and!; try done. intros x Hx. rewrite X6 by done. change (u8 32) with 32. case_cmp; (done || lia).
    - split_and!; try done. intros x Hx. by rewrite (proj2 (Z.ltb_ge x 0)) by lia. }
  intros [] u1 H1. do 4 (eapply does_bind; [apply before_store; [eassumption|lia]|]; intros [] ? ?).
  match goal with H : before u _ ?v |- _ => lazymatch goal with |- does _ _ v _ => destruct H as (F1 & F2 & F3 & F4 & F5 & F6); set (u2 := v) in * end end.
  pose proof F5 as [(d1 & Hd1 & Ho1) Fl]. apply Forall_cons_1 in Fl as [[T Hh] _].
  eapply acts_bind; [apply (os_open u2 (rodata (tx "rtc")) 3 i fd rtc_jt); [by apply (holds_str _ _ (tx "rtc"))|lia|by eapply (holds_named _ _ (tx "rtc"))| |by rewrite Hty|by rewrite F1]|].
  { apply (holds_not_std _ _ (tx "rtc")); [exact Hh|]. split; intros Es; specialize (Es 0 ltac:(lia) ltac:(intros; lia)); discriminate Es. }
  set (d := opened rtc_jt _). set (u3 := with_desc fd d u2).
  assert (playing fd u (world 32 2) [] u3) as H3.
  { split_and!.
    - exists d1. split; [|done]. unfold desc, u3, with_desc in *. cbn [v_fds with_fds]. by rewrite list_lookup_insert_ne by lia.
    - exists d. split; [|done]. unfold desc, u3, with_desc. cbn [v_fds with_fds]. apply list_lookup_insert_eq. rewrite F1. by apply free_fd_lt.
    - by rewrite <- Hkb.
    - exact F3.
    - exact F4.
    - intros x Hx. change (bytes_of u3 buf x) with (bytes_of u2 buf x). rewrite F6 by done. unfold world. change (u8 0) with 0. change (u8 10) with 10.
      change (u8 124) with 124. case_cmp; (done || lia). }
  eapply acts_bind; [by apply os_store32|]. apply (playing_ret _ _ _ _ _ 32) in H3.
  pose proof H3 as (_ & (d' & Hd' & Ho') & _).
  eapply acts_bind; [apply (os_set_rate _ fd d' ret_val 5); [lia|exact Hd'|exact Ho'|exact Hret|lia|apply number_stored]|].
  eapply acts_bind; [by apply os_store32|]. apply (playing_ret _ _ _ _ _ 4) in H3.
  eapply does_mono; [|apply (turns_ok n fd u 0 32 2 []); [lia|lia|exact H3|lia]].
  intros [] u9 [B (_ & _ & _ & Cc & Sc & _)]. split; [exact Cc|exact Sc].
Qed.
End play.

(** [C31] pingpong on the kernel: with a tick of the clock during every read, the screen shows
    the pictures of any number of turns one after the other - the letter on its way out
    and back between the walls, a step at a time, and the next letter of the alphabet in
    every turn. *)
Theorem pingpong_bounces E f child rodata buf ret_val garbage kb n u fd i k :
  env_ok E -> process E u k -> v_kbd u = Some kb ->
  in_page buf BUFMAX -> in_page ret_val 4 -> in_page garbage 1 -> apart buf BUFMAX ret_val 4 ->
  ready rodata pp_lits u -> clear_of rodata pp_lits buf BUFMAX -> free_fd (v_fds u) = Some fd -> 2 <= fd < MAX_DESC ->
  first_named (e_mem E) (e_fs E) i (arr_at (tx "rtc" ++ [0])) -> file_type (dentry_at (e_mem E) (entry_addr (e_fs E) i)) = 0 ->
  finishes E (pingpong_main f child rodata buf ret_val garbage n (replicate (152 * n) [rtc_interrupt])) k (fun _ u' =>
    v_screen u' = text_spec (v_color u) (pingpong_text n) (v_screen u)).
Proof.
  intros HE Hk Hkb H1 H2 H3 H4 H5 H6 H7 H8 H9 H10. pose proof (process_calls E HE f child) as OC.
  pose proof (process_clock E HE f child) as OK. pose proof (process_numbers E HE) as ON.
  eapply does_finishes; [|exact Hk]. eapply does_mono; [|by apply (pingpong_ok rodata buf ret_val garbage kb H1 H2 H3 H4 H6 n u fd i)].
  by intros [] u' [_ Hs].
Qed.

(** ** Witness *)

(** Two turns: A and B. *)
Lemma pingpong_bounces_witness :
  finishes user_env (pingpong_main demo_frame no_child user_rodata user_buf 0x8070000 0x8070010 2 (replicate 304 [rtc_interrupt])) (user_kernel [])
    (fun _ u' => v_screen u' = text_spec 7 (turn_text 65 ++ turn_text 66) (v_screen (user_view []))).
Proof.
  destruct (pingpong_bounces user_env demo_frame no_child user_rodata user_buf 0x8070000 0x8070010 (k_kbd demo_shell) 2 (user_view []) 2 3 (user_kernel []))
    as (r & u' & k' & Er & Hk' & Hs).
  - apply user_env_ok.
  - apply user_process. cbn. lia.
  - reflexivity.
  - unfold in_page, user_buf. lia.
  - unfold in_page. lia.
  - unfold in_page. lia.
  - unfold apart, user_buf. lia.
  - apply user_ready. vm_compute. reflexivity.
  - apply clear_check. vm_compute. reflexivity.
  - reflexivity.
  - lia.
  - apply (user_first 3 _ 3); [lia|lia|vm_compute; reflexivity..].
  - vm_compute. reflexivity.
  - exists r, u', k'. split_and!; [exact Er|exact Hk'|]. rewrite Hs. unfold pingpong_text. change (seqZ 0 (Z.of_nat 2)) with [0; 1]. cbn [map concat]. rewrite app_nil_r. reflexivity.
Defined.
