(* ===== verification/Fish.v ===== *)
(** * The fish program (src/fish/fish.c)

    main as a client of the system calls and of the engine of Blink.v.  The variables
    whose address is passed to a call are in the program's page. *)

From Stdlib Require Import ZArith Lia String.
From stdpp Require Import gmap list numbers strings.
From S2P Require Import Prelude Memory LibString State Display Paging Pcb Rtc FileSystem Vfs Keyboard Syscalls Execute Calls UserLib Process Blink Devices Programs Clients Userland.

Abbreviation WAIT := 100.
Abbreviation NEWLINE := 10.
Abbreviation BLANK := 32.

(** ** Definitions *)

(** The copies of the library functions. *)
Definition ece391_memset (memory c n : Z) : M unit := for_ (Z.to_nat n) (fun i => store (memory + i) c).
Definition ece391_memcpy (dest src n : Z) : M Z := for_ (Z.to_nat n) (fun i => v ← load (src + i); store (dest + i) v) ;; mret 0.

Section fish.
Context (f : frame) (child : Z -> Z -> M Z) (rodata : list Z -> Z).
(** The addresses of vmem_base_addr, c0, c1, ret_val and garbage. *)
Context (vmem_base_addr c0 c1 ret_val garbage : Z).

(** "c != '\n'": the rest of a line is still to be read. *)
Definition next_char (fd c eof : Z) : M Z :=
  v ← load c;
  if v =? NEWLINE then mret eof else
  num_bytes ← ece391_read f child [] fd c 1;
  if num_bytes =? 0 then store c NEWLINE ;; mret 1 else mret eof.

Definition visible (c : Z) : bool := negb (c =? BLANK) && negb (c =? NEWLINE).
Definition or_blank (c : Z) : Z := if c =? NEWLINE then BLANK else c.

(** A row of both frames.  [blink_struct]: the other fields of the local variable. *)
Definition add_row (blink_struct : mp1_blink_struct) (fd0 fd1 row : Z) (eofs : Z * Z) (s : blinkers) : M (Z * Z * blinkers) :=
  loopM (fun '(eof0, eof1, s, col) =>
    eof0 ← next_char fd0 c0 eof0;
    eof1 ← next_char fd1 c1 eof1;
    v0 ← load c0;
    v1 ← load c1;
    if (v0 =? NEWLINE) && (v1 =? NEWLINE) then mret (inr (eof0, eof1, s)) else
    s ← (if visible v0 || visible v1 then
           '(_, _, s) ← mp1_ioctl vmem_base_addr (RTC_ADD (mk_blink (u16 (row * 80 + col + 40)) (or_blank v0) (or_blank v1) 15 15
             (countdown blink_struct) (status blink_struct) (next blink_struct))) s;
           mret s
         else mret s);
    mret (inl (eof0, eof1, s, col + 1))) (eofs, s, 0).

Definition end_row (fd c eof : Z) : M unit :=
  if c_true eof then store c NEWLINE ;; ece391_close f child fd ;; skip else store c 48.

(** [None]: halted with status -1. *)
Definition add_frames (blink_struct : mp1_blink_struct) (f0 f1 rtc_fd : Z) (s : blinkers) : M (option blinkers) :=
  store c0 48 ;;
  store c1 48 ;;
  fd0 ← ece391_open f child f0;
  if fd0 <? 0 then mret None else
  fd1 ← ece391_open f child f1;
  if fd1 <? 0 then mret None else
  loopM (fun '(eof0, eof1, s, row) =>
    if (eof0 =? 0) || (eof1 =? 0) then
      '(eof0, eof1, s) ← add_row blink_struct fd0 fd1 row (eof0, eof1) s;
      end_row fd0 c0 eof0 ;;
      end_row fd1 c1 eof1 ;;
      mret (inl (eof0, eof1, s, row + 1))
    else mret (inr (Some s))) (0, 0, s, 0).

(** NULL when the call fails. *)
Definition mp1_set_video_mode : M Z :=
  r ← ece391_vidmap f child vmem_base_addr;
  if r =? -1 then mret 0 else load32 vmem_base_addr.

(** [ticks]: the interrupts during each of the reads. *)
Definition wait_loop (ticks : list (list (M unit))) (rtc_fd : Z) (s : blinkers) : M (list (list (M unit)) * blinkers) :=
  loopM (fun '(i, ticks, s) =>
    if i <? WAIT then
      ece391_read f child (hd [] ticks) rtc_fd garbage 4 ;;
      s ← mp1_rtc_tasklet vmem_base_addr s;
      mret (inl (i + 1, tl ticks, s))
    else mret (inr (ticks, s))) (0, ticks, s).

Definition file0 : list Z := tx "frame0.txt".
Definition file1 : list Z := tx "frame1.txt".

(** halt(-1) in add_frames ends the program as a return of -1 does. *)
Definition fish_main (blink_struct local : mp1_blink_struct) (ticks : list (list (M unit))) : M Z :=
  let s := no_blinkers in
  vmem ← mp1_set_video_mode;
  if vmem =? 0 then mret (-1) else
  rtc_fd ← ece391_open f child (rodata (tx "rtc"));
  r ← add_frames blink_struct (rodata file0) (rodata file1) rtc_fd s;
  match r with
  | None => mret (-1)
  | Some s =>
      store32 ret_val 32 ;;
      r ← ece391_write f child rtc_fd ret_val 4;
      store32 ret_val r ;;
      '(ticks, s) ← wait_loop ticks rtc_fd s;
      '(_, _, s) ← mp1_ioctl vmem_base_addr (RTC_ADD (mk_blink (6 * 80 + 60) 73 77 7 6 (countdown local) (status local) (next local))) s;
      '(ticks, s) ← wait_loop ticks rtc_fd s;
      '(_, _, s) ← mp1_ioctl vmem_base_addr (RTC_SYNC (Z.lor (Z.shiftl 40 16) (6 * 80 + 60))) s;
      '(ticks, s) ← wait_loop ticks rtc_fd s;
      '(_, _, s) ← mp1_ioctl vmem_base_addr (RTC_REMOVE (6 * 80 + 60)) s;
      '(ticks, s) ← wait_loop ticks rtc_fd s;
      ece391_close f child rtc_fd ;;
      mret 0
  end.
End fish.

(** ** The frames *)

(** The lines of a file; the last is what follows the last newline. *)
Fixpoint lines (l : list Z) : list (list Z) :=
  match l with
  | [] => [[]]
  | c :: l =>
      if c =? NEWLINE then [] :: lines l
      else match lines l with x :: ls => (c :: x) :: ls | [] => [[c]] end
  end.

(** The character of a line in a column; beyond the end, what ends it. *)
Definition char_at (x : list Z) (col : Z) : Z := default NEWLINE (x !! Z.to_nat col).

(** The blinker of a cell: one that shows the two characters in turn, unless both are blank. *)
Definition cell_cmds (junk : mp1_blink_struct) (row col v0 v1 : Z) : list ioctl :=
  if visible v0 || visible v1
  then [RTC_ADD (mk_blink (u16 (row * 80 + col + 40)) (or_blank v0) (or_blank v1) 15 15 (countdown junk) (status junk) (next junk))]
  else [].

Definition row_cmds (junk : mp1_blink_struct) (row : Z) (x y : list Z) : list ioctl :=
  concat (map (fun col => cell_cmds junk row col (char_at x col) (char_at y col)) (seqZ 0 (Z.of_nat (Nat.max (length x) (length y))))).

(** Row by row; the shorter frame is blank at the end. *)
Fixpoint frame_cmds (junk : mp1_blink_struct) (row : Z) (n : nat) (xs ys : list (list Z)) : list ioctl :=
  match n with
  | O => []
  | S n => row_cmds junk row (hd [] xs) (hd [] ys) ++ frame_cmds junk (row + 1) n (tl xs) (tl ys)
  end.

Lemma lines_cons l : exists x ls, lines l = x :: ls.
Proof. induction l as [|c l (x & ls & E)]; cbn [lines]; [by eexists _, _|]. case_if; [by eexists _, _|]. rewrite E. by eexists _, _. Qed.

Lemma lines_char l c x ls : lines l = (c :: x) :: ls -> exists l', l = c :: l' /\ c <> NEWLINE /\ lines l' = x :: ls.
Proof.
  destruct l as [|c' l]; cbn [lines]; [by intros [=]|]. destruct (Z.eqb_spec c' NEWLINE); [by intros [=]|].
  destruct (lines_cons l) as (y & ls' & E). rewrite E. intros [= <- <- <-]. by exists l.
Qed.

Lemma lines_end l ls : lines l = [] :: ls -> (l = [] /\ ls = []) \/ exists l', l = NEWLINE :: l' /\ lines l' = ls.
Proof.
  destruct l as [|c' l]; cbn [lines]; [intros [= <-]; by left|]. destruct (Z.eqb_spec c' NEWLINE) as [->|].
  - intros [= <-]. right. by exists l.
  - destruct (lines_cons l) as (y & ls' & ->). by intros [=].
Qed.

Lemma hd_char x col : 0 <= col -> hd NEWLINE (drop (Z.to_nat col) x) = char_at x col.
Proof. intros H. unfold char_at. rewrite <- (Nat.add_0_r (Z.to_nat col)) at 2. rewrite <- lookup_drop. by destruct (drop _ x). Qed.

Lemma tl_drop (x : list Z) col : 0 <= col -> tl (drop (Z.to_nat col) x) = drop (Z.to_nat (col + 1)) x.
Proof.
  intros H. replace (Z.to_nat (col + 1)) with (Z.to_nat col + 1)%nat by lia. rewrite <- drop_drop. by destruct (drop _ x).
Qed.

Lemma free_fd_first l r n : free_fd l = None -> n = Z.of_nat (length l) -> free_fd (l ++ fdesc_zero :: r) = Some n.
Proof.
  unfold free_fd. obind. intros H ->. destruct (list_find _ l) as [[]|] eqn:E; [done|]. rewrite list_find_app_r by done. cbn.
  by rewrite decide_True by done.
Qed.

Lemma free_fd_used l d : free_fd l = None -> flags d <> NOT_USED -> free_fd (l ++ [d]) = None.
Proof.
  unfold free_fd. obind. intros H Hd. destruct (list_find _ l) as [[]|] eqn:E; [done|]. rewrite list_find_app_r by done. cbn.
  by rewrite decide_False by done.
Qed.

(** ** The library functions *)

Section library.
Context {P : view -> kernel -> Prop} {f : frame} {child : Z -> Z -> M Z} {im : memory} {fs : Z} `{!OsCalls P f child im fs}.

(** The [n] bytes at [p] are [g]; nothing else has changed. *)
Definition filled (p n : Z) (g : Z -> Z) (u u' : view) : Prop :=
  (forall i, 0 <= i < n -> bytes_of u' p i = g i) /\ (forall a, ~ p <= a < p + n -> v_mem u' a = v_mem u a) /\
  v_fds u' = v_fds u /\ v_kbd u' = v_kbd u /\ v_color u' = v_color u /\ v_screen u' = v_screen u.

Lemma filled_step p g i v u u' : filled p i g u u' -> u8 v = g i -> 0 <= i -> filled p (i + 1) g u (with_bytes (p + i) 1 (fun _ => v) u').
Proof using.
  intros (H1 & H2 & H3) Hv Hi. split_and!; try apply H3.
  - intros j Hj. destruct (Z.eq_dec j i) as [->|Hne].
    + unfold bytes_of. cbn [v_mem with_bytes]. by rewrite (proj2 (Z.leb_le _ _)), (proj2 (Z.ltb_lt _ _)) by lia.
    + rewrite bytes_other by lia. apply H1. lia.
  - intros a Ha. cbn [v_mem with_bytes]. replace ((p + i <=? a) && (a <? p + i + 1)) with false; [apply H2; lia|].
    symmetry. case_cmp; (done || lia).
Qed.

Lemma memset_ok p c n u : in_page p n -> does P (ece391_memset p c n) u (fun _ u' => filled p n (fun _ => u8 c) u u').
Proof using All.
  intros (P1 & P2 & P3). unfold ece391_memset.
  eapply does_mono; [|apply (does_for P (Z.to_nat n) _ (fun m u' => filled p m (fun _ => u8 c) u u')); [|by split_and!; [lia|..]]].
  { intros [] u1 H1. by rewrite Z2Nat.id in H1 by done. }
  intros i u1 Hi H1. eapply does_mono; [|apply os_store; unfold in_page; lia]. intros [] u2 [_ ->]. by apply filled_step; [| |lia].
Qed.

Lemma memcpy_ok p q n u : in_page p n -> in_page q n -> apart p n q n ->
  does P (ece391_memcpy p q n) u (fun r u' => r = 0 /\ filled p n (fun i => u8 (bytes_of u q i)) u u').
Proof using All.
  intros (P1 & P2 & P3) (Q1 & Q2 & Q3) A. unfold ece391_memcpy. eapply does_bind.
  { apply (does_for P (Z.to_nat n) _ (fun m u' => filled p m (fun i => u8 (bytes_of u q i)) u u')); [|by split_and!; [lia|..]].
    intros i u1 Hi H1. eapply acts_bind; [apply os_load; unfold in_page; lia|]. eapply does_mono; [|apply os_store; unfold in_page; lia].
    intros [] u2 [_ ->]. apply filled_step; [done| |lia]. pose proof H1 as (_ & Hsame & _). unfold bytes_of. by rewrite Hsame by (unfold apart in A; lia). }
  intros [] u1 H1. apply does_mret. rewrite Z2Nat.id in H1 by done. done.
Qed.
End library.

(** ** Reading the frames *)

Section fish_proof.
Context {P : view -> kernel -> Prop} {f : frame} {child : Z -> Z -> M Z} {im : memory} {fs : Z} {base : Z}.
Context `{!OsCalls P f child im fs} `{!OsClock P f child} `{!OsNumbers P} `{!OsScreen P f child base}.
Context (rodata : list Z -> Z) (vmem_base_addr c0 c1 ret_val garbage : Z).
Hypothesis Hvmem : in_page vmem_base_addr 4.

(** A call that changes only the byte at [c] and the descriptor [fd]. *)
Definition only (c fd : Z) (u u' : view) : Prop :=
  (forall a, a <> c -> v_mem u' a = v_mem u a) /\ (forall n, n <> Z.to_nat fd -> v_fds u' !! n = v_fds u !! n) /\
  length (v_fds u') = length (v_fds u) /\ v_kbd u' = v_kbd u /\ v_color u' = v_color u /\ v_screen u' = v_screen u.

Lemma only_trans c fd u1 u2 u3 : only c fd u1 u2 -> only c fd u2 u3 -> only c fd u1 u3.
Proof using.
  intros (A1 & A2 & A3 & A4 & A5 & A6) (B1 & B2 & B3 & B4 & B5 & B6). split_and!; try congruence.
  - intros a Ha. by rewrite B1, A1.
  - intros n Hn. by rewrite B2, A2.
Qed.

Lemma only_byte c fd n g u : n <= 1 -> only c fd u (with_bytes c n g u).
Proof using.
  intros Hn. split_and!; try done. intros a Ha. cbn [v_mem with_bytes].
  replace ((c <=? a) && (a <? c + n)) with false; [done|]. symmetry. case_cmp; (done || lia).
Qed.

Lemma only_desc c fd d u : only c fd u (with_desc fd d u).
Proof using.
  split_and!; try done; unfold with_desc; cbn [v_fds with_fds]; [|by rewrite length_insert].
  intros n Hn. by rewrite list_lookup_insert_ne.
Qed.

(** The file [ino] is open on [fd] with [rest] to read, or read to its end; the last
    character is at [c]. *)
Definition file_at (fd c ino : Z) (rest : list Z) (eof v : Z) (u : view) : Prop :=
  bytes_of u c 0 = v /\
  if eof =? 0 then exists pos, desc u fd = Some (set_file_pos pos (opened regf_jt ino)) /\ 0 <= pos <= file_length im fs ino /\
    rest = map (file_byte im fs ino) (seqZ pos (file_length im fs ino - pos))
  else rest = [] /\ v = NEWLINE /\ exists d, desc u fd = Some d /\ file_ops d ∈ [regf_jt; empty_f_ops_tab].

(** [y] is left of the line, and [more] are the lines after it. *)
Definition pending (rest : list Z) (eof v : Z) (y : list Z) (more : list (list Z)) : Prop :=
  (v <> NEWLINE /\ eof = 0 /\ lines rest = y :: more) \/
  (v = NEWLINE /\ y = [] /\ ((eof = 0 /\ lines rest = more) \/ (eof = 1 /\ rest = [] /\ more = []))).

Lemma next_char_ok fd c ino rest eof v y more u : 2 <= fd < MAX_DESC -> in_page c 1 -> file_ok im fs ino ->
  file_at fd c ino rest eof v u -> pending rest eof v y more ->
  does P (next_char f child fd c eof) u (fun eof' u' => only c fd u u' /\ exists rest',
    file_at fd c ino rest' eof' (hd NEWLINE y) u' /\ pending rest' eof' (hd NEWLINE y) (tl y) more).
Proof using All.
  intros Hfd Hc Hfile [Hv Hf] Hp. unfold next_char.
  eapply acts_bind; [by apply os_load|]. replace (v_mem u c) with v by (rewrite <- Hv; unfold bytes_of; by rewrite Z.add_0_r).
  destruct Hp as [(Hne & -> & Hl)|(-> & -> & Hend)].
  2: { apply does_mret. split; [by split_and!|]. exists rest. split; [by split|]. right. by split_and!. }
  rewrite (proj2 (Z.eqb_neq v NEWLINE)) by done. change (0 =? 0) with true in Hf. cbv iota in Hf. destruct Hf as (pos & Hd & Hpos & ->).
  pose proof Hfile as [[_ Hlen] _]. set (len := file_length im fs ino) in *.
  pose proof (os_read_file u [] fd _ c 1 ltac:(lia) Hd eq_refl Hfile ltac:(cbn; lia) ltac:(cbn; lia) Hc) as Rd. cbn zeta in Rd.
  change (inode (set_file_pos pos _)) with ino in Rd. change (file_pos (set_file_pos pos _)) with pos in Rd.
  assert (read_count im fs ino pos 1 = if pos <? len then 1 else 0) as Er by (unfold read_count; fold len; case_cmp; lia).
  rewrite Er in Rd. destruct (Z.ltb_spec pos len) as [Hlt|Hge].
  - (* a character *)
    rewrite seqZ_cons in Hl by lia. cbn [map] in Hl. set (ch := file_byte im fs ino pos) in *.
    replace (Z.pred (len - pos)) with (len - (pos + 1)) in Hl by lia. replace (Z.succ pos) with (pos + 1) in Hl by lia.
    set (rest := map (file_byte im fs ino) (seqZ (pos + 1) (len - (pos + 1)))) in *.
    eapply acts_bind; [exact Rd|]. change (1 =? 0) with false. cbv iota. apply does_mret.
    split; [eapply only_trans; [apply (only_byte c fd 1); lia|apply only_desc]|]. exists rest.
    assert (ch = hd NEWLINE y) as Ech.
    { destruct y as [|x y]; [|apply lines_char in Hl as (l' & [= -> _] & _); done]. apply lines_end in Hl as [[? _]|(l' & [= -> _] & _)]; done. }
    split.
    + split; [|change (0 =? 0) with true; cbv iota; exists (pos + 1); split_and!; [|lia|lia|done]].
      * rewrite <- Ech. unfold bytes_of. cbn [v_mem with_desc with_fds with_bytes]. rewrite Z.add_0_r, (proj2 (Z.leb_le c c)), (proj2 (Z.ltb_lt c _)) by lia.
        cbn [andb]. rewrite Z.sub_diag, Z.add_0_r. apply u8_small, rd_range.
      * unfold desc, with_desc. cbn [v_fds with_fds]. rewrite list_lookup_insert_eq; [done|]. by eapply lookup_lt_Some.
    + destruct y as [|x y]; cbn [hd tl].
      * apply lines_end in Hl as [[? _]|(l' & [= _ El] & Hl')]; [done|]. right. split_and!; [done|done|]. left. split; [done|]. by rewrite El.
      * apply lines_char in Hl as (l' & [= _ El] & Hne' & Hl'). left. split_and!; [done|done|]. by rewrite El.
  - (* the end *)
    assert (pos = len) as -> by lia. rewrite Z.sub_diag in Hl. change (map _ (seqZ len 0)) with (@nil Z) in Hl.
    eapply acts_bind; [exact Rd|]. change (0 =? 0) with true. cbv iota.
    eapply acts_bind; [by apply os_store|]. apply does_mret. cbn [lines] in Hl. injection Hl as <- <-. cbn [hd tl].
    split; [eapply only_trans; [|apply (only_byte c fd 1); lia]; eapply only_trans; [apply (only_byte c fd 0); lia|apply only_desc]|]. exists [].
    split; [split; [|change (1 =? 0) with false; cbv iota; split_and!; [done|done|]]|].
    + unfold bytes_of. cbn [v_mem with_bytes]. rewrite Z.add_0_r, (proj2 (Z.leb_le c c)), (proj2 (Z.ltb_lt c _)) by lia. done.
    + eexists. split; [unfold desc, with_desc; cbn [v_fds with_fds with_bytes]; apply list_lookup_insert_eq; by eapply lookup_lt_Some|]. by left.
    + right. split_and!; [done|done|]. by right.
Qed.

(** *** The engine *)

(** The blinkers are what the events have made of none, and the screen shows what they
    have drawn since [scr0]. *)
Definition engine (scr0 : screen) (evs : list event) (s : blinkers) (u : view) : Prop :=
  number_at u vmem_base_addr VIDMAP_VIRT_ADDR /\ exists l rs d,
    linked s l /\ run_spec evs [] = (rs, d, bodies l) /\ v_screen u = fold_left cell_drawn d scr0.

(** Only the screen differs. *)
Definition redrawn (u u' : view) : Prop := exists d, u' = drawn d u.

Lemma engine_ioctl scr0 evs s u cmd : engine scr0 evs s u -> cmd_ok cmd ->
  does P (mp1_ioctl vmem_base_addr cmd s) u (fun r u' => engine scr0 (evs ++ [Ioctl cmd]) r.2 u' /\ redrawn u u').
Proof using All.
  intros (Hn & l & rs & d & L & Er & Es) Hc k Hk. pose proof (os_drawable u vmem_base_addr k Hk Hvmem Hn) as D.
  eapply wp_mono; [|by apply (ioctl_ok base)]. intros r k' (l' & d' & L' & Ec & Hd & ->). exists (drawn d' u).
  split; [|by apply (os_drawn (f := f) (child := child))]. split; [|by exists d']. split; [exact Hn|]. exists l', (rs ++ [(r.1.1, body <$> r.1.2)]), (d ++ d').
  split_and!; [done| |].
  - rewrite run_spec_app, Er. cbn [run_spec]. rewrite Ec. by rewrite app_nil_r.
  - cbn [drawn v_screen]. by rewrite fold_left_app, <- Es.
Qed.

Lemma engine_tick scr0 evs s u : engine scr0 evs s u ->
  does P (mp1_rtc_tasklet vmem_base_addr s) u (fun s' u' => engine scr0 (evs ++ [Tick]) s' u' /\ redrawn u u').
Proof using All.
  intros (Hn & l & rs & d & L & Er & Es) k Hk. pose proof (os_drawable u vmem_base_addr k Hk Hvmem Hn) as D.
  eapply wp_mono; [|by apply (tasklet_ok base)]. intros s' k' (l' & L' & El & ->). exists (drawn (ticks (bodies l)).2 u).
  split; [|apply (os_drawn (f := f) (child := child)); [done|by eapply ticks_on_page]]. split; [|by eexists]. split; [exact Hn|].
  exists l', rs, (d ++ (ticks (bodies l)).2). split_and!; [done| |].
  - rewrite run_spec_app, Er. cbn [run_spec]. rewrite <- El. by rewrite !app_nil_r.
  - cbn [drawn v_screen]. by rewrite fold_left_app, <- Es.
Qed.

Lemma engine_only scr0 evs s c fd u u' : ~ vmem_base_addr <= c < vmem_base_addr + 4 -> only c fd u u' -> engine scr0 evs s u -> engine scr0 evs s u'.
Proof using.
  intros Hc (A1 & A2 & A3 & A4 & A5 & A6) (Hn & l & rs & d & L & Er & Es). split.
  - intros i Hi. rewrite <- Hn by done. unfold bytes_of. apply A1. lia.
  - exists l, rs, d. by rewrite A6.
Qed.

Lemma file_at_only fd c ino rest eof v c' fd' u u' : c <> c' -> 0 <= fd -> 0 <= fd' -> fd <> fd' -> only c' fd' u u' ->
  file_at fd c ino rest eof v u -> file_at fd c ino rest eof v u'.
Proof using.
  intros Hc H1 H2 Hne (A1 & A2 & _) [Hv Hf]. assert (desc u' fd = desc u fd) as Ed by (apply A2; lia). unfold file_at. rewrite Ed.
  split; [|exact Hf]. unfold bytes_of in *. rewrite A1 by lia. exact Hv.
Qed.

Lemma file_at_redrawn fd c ino rest eof v u u' : redrawn u u' -> file_at fd c ino rest eof v u -> file_at fd c ino rest eof v u'.
Proof using. by intros [d ->]. Qed.

(** *** A row *)

Section frames.
Context (blink_struct : mp1_blink_struct) (fd0 fd1 ino0 ino1 : Z) (scr0 : screen).
Hypothesis Hfds : 2 <= fd0 < MAX_DESC /\ 2 <= fd1 < MAX_DESC /\ fd0 <> fd1.
Hypothesis Hchars : in_page c0 1 /\ in_page c1 1 /\ c0 <> c1 /\ ~ vmem_base_addr <= c0 < vmem_base_addr + 4 /\ ~ vmem_base_addr <= c1 < vmem_base_addr + 4.
Hypothesis Hfiles : file_ok im fs ino0 /\ file_ok im fs ino1.

(** The other descriptors and the keyboard are those of [u0]. *)
Definition others_same (u0 u : view) : Prop :=
  (forall n, n <> Z.to_nat fd0 -> n <> Z.to_nat fd1 -> v_fds u !! n = v_fds u0 !! n) /\ v_kbd u = v_kbd u0.

Definition frames_at (u0 : view) (evs : list event) (s : blinkers) (rest0 : list Z) (eof0 v0 : Z) (rest1 : list Z) (eof1 v1 : Z) (u : view) : Prop :=
  engine scr0 evs s u /\ file_at fd0 c0 ino0 rest0 eof0 v0 u /\ file_at fd1 c1 ino1 rest1 eof1 v1 u /\ others_same u0 u.

Lemma others_only0 u0 u u' : only c0 fd0 u u' -> others_same u0 u -> others_same u0 u'.
Proof using. intros (A1 & A2 & A3 & A4 & _) [B1 B2]. split; [|by rewrite A4]. intros n H0 H1. by rewrite A2, B1. Qed.
Lemma others_only1 u0 u u' : only c1 fd1 u u' -> others_same u0 u -> others_same u0 u'.
Proof using. intros (A1 & A2 & A3 & A4 & _) [B1 B2]. split; [|by rewrite A4]. intros n H0 H1. by rewrite A2, B1. Qed.

Lemma frames_only0 u0 evs s r0 e0 v0 r1 e1 v1 r0' e0' v0' u u' : only c0 fd0 u u' -> file_at fd0 c0 ino0 r0' e0' v0' u' ->
  frames_at u0 evs s r0 e0 v0 r1 e1 v1 u -> frames_at u0 evs s r0' e0' v0' r1 e1 v1 u'.
Proof using Hfds Hchars.
  destruct Hfds as (D1 & D2 & D3), Hchars as (C1 & C2 & C3 & C4 & C5). intros O F (G1 & G2 & G3 & G4). split_and!; [|done| |].
  - exact (engine_only _ _ _ _ _ _ _ C4 O G1).
  - eapply file_at_only; [| | | |exact O|exact G3]; (lia || congruence).
  - by eapply others_only0.
Qed.

Lemma frames_only1 u0 evs s r0 e0 v0 r1 e1 v1 r1' e1' v1' u u' : only c1 fd1 u u' -> file_at fd1 c1 ino1 r1' e1' v1' u' ->
  frames_at u0 evs s r0 e0 v0 r1 e1 v1 u -> frames_at u0 evs s r0 e0 v0 r1' e1' v1' u'.
Proof using Hfds Hchars.
  destruct Hfds as (D1 & D2 & D3), Hchars as (C1 & C2 & C3 & C4 & C5). intros O F (G1 & G2 & G3 & G4). split_and!; [| |done|].
  - exact (engine_only _ _ _ _ _ _ _ C5 O G1).
  - eapply file_at_only; [| | | |exact O|exact G2]; (lia || congruence).
  - by eapply others_only1.
Qed.

Lemma pending_char rest eof v c y more : pending rest eof v (c :: y) more -> c <> NEWLINE.
Proof using. intros [(_ & _ & Hl)|(_ & ? & _)]; [|done]. by apply lines_char in Hl as (l' & _ & Hc & _). Qed.

Lemma load_v u c fd ino rest eof v : in_page c 1 -> file_at fd c ino rest eof v u -> acts P (load c) u v u.
Proof using All.
  intros Hc [Hv _]. replace v with (v_mem u c); [by apply os_load|]. rewrite <- Hv. unfold bytes_of. by rewrite Z.add_0_r.
Qed.

Lemma cell_cmds_ok row col v0 v1 : 0 <= row -> 0 <= col -> row * 80 + col + 40 < W16 -> Forall cmd_ok (cell_cmds blink_struct row col v0 v1).
Proof using All.
  intros H1 H2 H3. unfold cell_cmds. case_if; [|by apply list.Forall_nil]. apply list.Forall_cons. split; [|by apply list.Forall_nil].
  cbn [cmd_ok location]. rewrite u16_small; lia.
Qed.

(** The command of a cell. *)
Lemma cell_ok u0 evs s r0 e0 v0 r1 e1 v1 row col u : frames_at u0 evs s r0 e0 v0 r1 e1 v1 u -> 0 <= row -> 0 <= col -> row * 80 + col + 40 < W16 ->
  does P (if visible v0 || visible v1 then
      '(_, _, s) ← mp1_ioctl vmem_base_addr (RTC_ADD (mk_blink (u16 (row * 80 + col + 40)) (or_blank v0) (or_blank v1) 15 15
        (countdown blink_struct) (status blink_struct) (next blink_struct))) s;
      mret s
    else mret s) u (fun s' u' => frames_at u0 (evs ++ map Ioctl (cell_cmds blink_struct row col v0 v1)) s' r0 e0 v0 r1 e1 v1 u').
Proof using All.
  intros (G1 & G2 & G3 & G4) H1 H2 H3. unfold cell_cmds. destruct (visible v0 || visible v1).
  - eapply does_bind; [apply engine_ioctl; [exact G1|cbn [cmd_ok location]; rewrite u16_small; lia]|].
    intros [[r g] s'] u' [E' [d ->]]. apply does_mret. by split_and!.
  - apply does_mret. cbn [map]. by rewrite app_nil_r.
Qed.

Lemma row_ok u0 evs s r0 e0 v0 r1 e1 v1 row x y more0 more1 u : frames_at u0 evs s r0 e0 v0 r1 e1 v1 u ->
  pending r0 e0 v0 x more0 -> pending r1 e1 v1 y more1 -> 0 <= row ->
  row * 80 + Z.of_nat (Nat.max (length x) (length y)) + 40 <= W16 ->
  does P (add_row f child vmem_base_addr c0 c1 blink_struct fd0 fd1 row (e0, e1) s) u (fun r u' => exists r0' r1',
    frames_at u0 (evs ++ map Ioctl (row_cmds blink_struct row x y)) r.2 r0' r.1.1 NEWLINE r1' r.1.2 NEWLINE u' /\
    pending r0' r.1.1 NEWLINE [] more0 /\ pending r1' r.1.2 NEWLINE [] more1).
Proof using All.
  intros G P0 P1 Hrow Hfit. pose proof Hfds as (D1 & D2 & D3). pose proof Hchars as (C1 & C2 & C3 & C4 & C5). destruct Hfiles as [F0 F1].
  set (w := Z.of_nat (Nat.max (length x) (length y))) in *.
  unfold add_row. apply (does_loop P _ (fun n '(p, s', col) u' => n = w - col /\ 0 <= col <= w /\ exists r0' v0' r1' v1',
    frames_at u0 (evs ++ map Ioctl (concat (map (fun col => cell_cmds blink_struct row col (char_at x col) (char_at y col)) (seqZ 0 col)))) s' r0' p.1 v0' r1' p.2 v1' u' /\
    pending r0' p.1 v0' (drop (Z.to_nat col) x) more0 /\ pending r1' p.2 v1' (drop (Z.to_nat col) y) more1) _ w); [| |lia].
  2: { split_and!; [lia|lia|lia|]. exists r0, v0, r1, v1. by rewrite app_nil_r. }
  clear G P0 P1 r0 e0 v0 r1 e1 v1 u. intros n [[[e0 e1] s'] col] u (-> & Hcol & r0 & v0 & r1 & v1 & G & P0 & P1). cbn [fst snd] in *.
  eapply does_bind; [apply (next_char_ok fd0 c0 ino0 r0 e0 v0 (drop (Z.to_nat col) x) more0); [done|done|done|apply G|exact P0]|].
  intros e0' u1 (O0 & r0' & A0 & P0'). rewrite hd_char in A0, P0' by lia. rewrite tl_drop in P0' by lia.
  pose proof (frames_only0 _ _ _ _ _ _ _ _ _ _ _ _ _ _ O0 A0 G) as G1.
  eapply does_bind; [apply (next_char_ok fd1 c1 ino1 r1 e1 v1 (drop (Z.to_nat col) y) more1); [done|done|done|apply G1|exact P1]|].
  intros e1' u2 (O1 & r1' & A1 & P1'). rewrite hd_char in A1, P1' by lia. rewrite tl_drop in P1' by lia.
  pose proof (frames_only1 _ _ _ _ _ _ _ _ _ _ _ _ _ _ O1 A1 G1) as G2.
  eapply acts_bind; [eapply load_v; [exact C1|apply G2]|]. eapply acts_bind; [eapply load_v; [exact C2|apply G2]|].
  destruct (Z.eq_dec col w) as [->|Hne].
  - assert (char_at x w = NEWLINE /\ char_at y w = NEWLINE) as [E0 E1]
      by (unfold char_at; split; rewrite lookup_ge_None_2; (done || (unfold w; lia))).
    rewrite E0, E1 in *. change ((NEWLINE =? NEWLINE) && (NEWLINE =? NEWLINE)) with true. cbv iota. apply does_mret.
    assert (drop (Z.to_nat (w + 1)) x = [] /\ drop (Z.to_nat (w + 1)) y = []) as [Ex Ey] by (split; apply drop_ge; unfold w; lia).
    rewrite Ex in P0'. rewrite Ey in P1'. by exists r0', r1'.
  - assert (char_at x col <> NEWLINE \/ char_at y col <> NEWLINE) as Hor.
    { destruct (drop (Z.to_nat col) x) as [|a x'] eqn:Ex.
      - right. destruct (drop (Z.to_nat col) y) as [|b y'] eqn:Ey.
        + exfalso. apply (f_equal length) in Ex, Ey. rewrite length_drop in Ex, Ey. cbn in Ex, Ey. unfold w in *. lia.
        + rewrite <- hd_char, Ey by lia. by apply (pending_char _ _ _ _ _ _ P1).
      - left. rewrite <- hd_char, Ex by lia. by apply (pending_char _ _ _ _ _ _ P0). }
    replace ((char_at x col =? NEWLINE) && (char_at y col =? NEWLINE)) with false
      by (symmetry; apply andb_false_iff; rewrite !Z.eqb_neq; exact Hor).
    eapply does_bind; [eapply cell_ok; [exact G2|exact Hrow|lia|lia]|]. intros s2 u3 G3. apply does_mret.
    exists (w - (col + 1)). split; [lia|]. split_and!; [done|lia|lia|]. exists r0', (char_at x col), r1', (char_at y col).
    split_and!; [|exact P0'|exact P1']. rewrite seqZ_app, map_app, concat_app, map_app, app_assoc by lia.
    change (seqZ (0 + col) 1) with [0 + col]. cbn [map concat]. by rewrite Z.add_0_l, app_nil_r.
Qed.

(** *** All rows *)

(** A file before a row: open with the lines [ls] to read, or at its end. *)
Definition ready_row (rest : list Z) (eof v : Z) (ls : list (list Z)) : Prop :=
  (eof = 0 /\ v = 48 /\ lines rest = ls) \/ (eof = 1 /\ v = NEWLINE /\ rest = [] /\ ls = []).

Lemma ready_pending rest eof v ls : ready_row rest eof v ls -> pending rest eof v (hd [] ls) (tl ls).
Proof using.
  intros [(-> & -> & Hl)|(-> & -> & -> & ->)].
  - left. split_and!; [done|done|]. destruct (lines_cons rest) as (x & l & E). rewrite E in *. by subst ls.
  - right. split_and!; [done|done|]. by right.
Qed.

Lemma end_row_ok fd c ino rest eof more u : 2 <= fd < MAX_DESC -> in_page c 1 -> file_at fd c ino rest eof NEWLINE u -> pending rest eof NEWLINE [] more ->
  does P (end_row f child fd c eof) u (fun _ u' => only c fd u u' /\ exists v, file_at fd c ino rest eof v u' /\ ready_row rest eof v more).
Proof using All.
  intros Hfd Hc [Hv Hf] Hp. unfold end_row, c_true. destruct Hp as [(? & _)|(_ & _ & [(-> & Hl)|(-> & -> & ->)])]; [done| |].
  - change (negb (0 =? 0)) with false. cbv iota. eapply does_mono; [|by apply os_store]. intros [] u' [_ ->].
    split; [apply (only_byte c fd 1); lia|]. exists 48. split; [|by left]. split; [|exact Hf].
    unfold bytes_of. cbn [v_mem with_bytes]. by rewrite Z.add_0_r, (proj2 (Z.leb_le c c)), (proj2 (Z.ltb_lt c _)) by lia.
  - change (negb (1 =? 0)) with true. change (1 =? 0) with false in Hf. cbv iota in Hf |- *. destruct Hf as (_ & _ & d & Hd & Hop).
    eapply acts_bind; [by apply os_store|]. set (u1 := with_bytes c 1 _ u).
    assert (bytes_of u1 c 0 = NEWLINE) as Hv1.
    { unfold bytes_of, u1. cbn [v_mem with_bytes]. by rewrite Z.add_0_r, (proj2 (Z.leb_le c c)), (proj2 (Z.ltb_lt c _)) by lia. }
    apply elem_of_cons in Hop as [Hop|Hop].
    + eapply acts_bind; [apply (os_close u1 fd d); [lia|exact Hd|rewrite Hop; by repeat constructor]|]. apply does_mret.
      split; [eapply only_trans; [apply (only_byte c fd 1); lia|apply only_desc]|]. exists NEWLINE. split; [|by right].
      split; [exact Hv1|]. change (1 =? 0) with false. cbv iota. split_and!; [done|done|]. exists (closed d). split; [|by right; left].
      unfold desc, with_desc, u1. cbn [v_fds with_fds with_bytes]. apply list_lookup_insert_eq. by eapply lookup_lt_Some.
    + apply list_elem_of_singleton in Hop. eapply acts_bind; [apply (os_refuse_close u1 fd); [lia|right; by exists d]|]. apply does_mret.
      split; [apply (only_byte c fd 1); lia|]. exists NEWLINE. split; [|by right]. split; [exact Hv1|].
      change (1 =? 0) with false. cbv iota. split_and!; [done|done|]. exists d. split; [done|]. rewrite Hop. by right; left.
Qed.

(** The cells are all on the screen, or at least have numbers of their own. *)
Definition frames_fit (xs ys : list (list Z)) : Prop := exists w, 0 <= w /\
  Forall (fun x => Z.of_nat (length x) <= w) xs /\ Forall (fun y => Z.of_nat (length y) <= w) ys /\
  Z.of_nat (Nat.max (length xs) (length ys)) * 80 + w + 40 <= W16.

Lemma hd_length w (xs : list (list Z)) : 0 <= w -> Forall (fun x => Z.of_nat (length x) <= w) xs -> Z.of_nat (length (hd [] xs)) <= w.
Proof using. intros Hw F. destruct F; cbn; lia. Qed.

Lemma frames_loop_ok u0 u s evs r0 r1 : frames_at u0 evs s r0 0 48 r1 0 48 u -> frames_fit (lines r0) (lines r1) ->
  does P (loopM (fun '(eof0, eof1, s, row) =>
    if (eof0 =? 0) || (eof1 =? 0) then
      '(eof0, eof1, s) ← add_row f child vmem_base_addr c0 c1 blink_struct fd0 fd1 row (eof0, eof1) s;
      end_row f child fd0 c0 eof0 ;;
      end_row f child fd1 c1 eof1 ;;
      mret (inl (eof0, eof1, s, row + 1))
    else mret (inr (Some s))) (0, 0, s, 0)) u (fun r u' => exists s', r = Some s' /\ others_same u0 u' /\
      engine scr0 (evs ++ map Ioctl (frame_cmds blink_struct 0 (Nat.max (length (lines r0)) (length (lines r1))) (lines r0) (lines r1))) s' u').
Proof using All.
  intros G (w & Hw & Fx & Fy & Hfit). pose proof Hfds as (D1 & D2 & D3). pose proof Hchars as (C1 & C2 & C3 & C4 & C5).
  set (rows := Nat.max (length (lines r0)) (length (lines r1))) in *. set (all := evs ++ map Ioctl _).
  apply (does_loop P _ (fun n '(p, s', row) u' => 0 <= row /\ row + n <= Z.of_nat rows /\ exists evs' r0 v0 r1 v1 xs ys,
    ready_row r0 p.1 v0 xs /\ ready_row r1 p.2 v1 ys /\ frames_at u0 evs' s' r0 p.1 v0 r1 p.2 v1 u' /\
    n = Z.of_nat (Nat.max (length xs) (length ys)) /\ Forall (fun x => Z.of_nat (length x) <= w) xs /\ Forall (fun y => Z.of_nat (length y) <= w) ys /\
    all = evs' ++ map Ioctl (frame_cmds blink_struct row (Z.to_nat n) xs ys)) _ (Z.of_nat rows)); [| |lia].
  2: { split; [lia|]. split; [lia|]. exists evs, r0, 48, r1, 48, (lines r0), (lines r1).
    split_and!; [by left|by left|exact G|done|done|done|by rewrite Nat2Z.id]. }
  clearbody all rows. clear G Fx Fy r0 r1. intros n [[[e0 e1] s'] row] u1 (Hrow & Hn & evs' & r0 & v0 & r1 & v1 & xs & ys & R0 & R1 & G & En & Fx & Fy & ->).
  cbn [fst snd] in *. destruct (Z.eq_dec n 0) as [E0|Hpos].
  - assert (xs = [] /\ ys = []) as [-> ->] by (destruct xs, ys; cbn in En; (done || lia)).
    assert (e0 = 1 /\ e1 = 1) as [-> ->].
    { split; [destruct R0 as [(_ & _ & Hl)|(-> & _)]|destruct R1 as [(_ & _ & Hl)|(-> & _)]]; try done;
        [destruct (lines_cons r0) as (x & l & E)|destruct (lines_cons r1) as (x & l & E)]; by rewrite E in Hl. }
    change ((1 =? 0) || (1 =? 0)) with false. cbv iota. apply does_mret. exists s'. split; [done|]. split; [apply G|].
    rewrite E0. cbn [Z.to_nat frame_cmds map]. rewrite app_nil_r. apply G.
  - assert ((e0 =? 0) || (e1 =? 0) = true) as ->.
    { destruct R0 as [(-> & _)|(-> & _ & _ & ->)]; [done|]. destruct R1 as [(-> & _)|(-> & _ & _ & ->)]; [done|]. cbn in En. lia. }
    pose proof (hd_length w xs Hw Fx). pose proof (hd_length w ys Hw Fy).
    eapply does_bind; [apply (row_ok u0 evs' s' r0 e0 v0 r1 e1 v1 row (hd [] xs) (hd [] ys) (tl xs) (tl ys)); [exact G|by apply ready_pending|by apply ready_pending|exact Hrow|]|].
    { assert ((row + 1) * 80 <= Z.of_nat rows * 80) by lia. lia. }
    intros [[e0' e1'] s2] u2 (r0' & r1' & G2 & P0 & P1). cbn [fst snd] in *.
    eapply does_bind; [eapply (end_row_ok fd0 c0); [done|done|apply G2|exact P0]|]. intros [] u3 (O3 & v0' & A3 & R3).
    pose proof (frames_only0 _ _ _ _ _ _ _ _ _ _ _ _ _ _ O3 A3 G2) as G3.
    eapply does_bind; [eapply (end_row_ok fd1 c1); [done|done|apply G3|exact P1]|]. intros [] u4 (O4 & v1' & A4 & R4).
    pose proof (frames_only1 _ _ _ _ _ _ _ _ _ _ _ _ _ _ O4 A4 G3) as G4. apply does_mret.
    assert (Nat.max (length xs) (length ys) = S (Nat.max (length (tl xs)) (length (tl ys)))) as Em by (destruct xs, ys; cbn in *; lia).
    exists (Z.of_nat (Nat.max (length (tl xs)) (length (tl ys)))). split; [lia|]. split; [lia|]. split; [lia|].
    exists (evs' ++ map Ioctl (row_cmds blink_struct row (hd [] xs) (hd [] ys))), r0', v0', r1', v1', (tl xs), (tl ys).
    split_and!; [exact R3|exact R4|exact G4|done|by destruct Fx|by destruct Fy|].
    replace (Z.to_nat n) with (S (Z.to_nat (Z.of_nat (Nat.max (length (tl xs)) (length (tl ys)))))) by lia.
    cbn [frame_cmds]. by rewrite map_app, <- app_assoc.
Qed.
End frames.

(** *** The program *)

Definition fish_lits : list (list Z) := [tx "rtc"; file0; file1].
Hypothesis Hret : in_page ret_val 4.
Hypothesis Hgarbage : in_page garbage 1.
Hypothesis Hvars : in_page c0 1 /\ in_page c1 1 /\ c0 <> c1 /\ ~ vmem_base_addr <= c0 < vmem_base_addr + 4 /\ ~ vmem_base_addr <= c1 < vmem_base_addr + 4.
Hypothesis Hapart : apart vmem_base_addr 4 ret_val 4.
Hypothesis Hlits : clear_of rodata fish_lits vmem_base_addr 4 /\ clear_of rodata fish_lits c0 1 /\ clear_of rodata fish_lits c1 1.

(** The first directory entry with the name [l] is of the type of the table [jt]. *)
Definition entry_is (l : list Z) (i : Z) (jt : f_ops) : Prop :=
  first_named im fs i (arr_at (l ++ [0])) /\ tableaux !! Z.to_nat (file_type (dentry_at im (entry_addr fs i))) = Some jt.
Definition inode_at (i : Z) : Z := inode_num (dentry_at im (entry_addr fs i)).

Lemma open_ok u l i fd jt : ready rodata fish_lits u -> l ∈ fish_lits -> entry_is l i jt -> free_fd (v_fds u) = Some fd ->
  acts P (ece391_open f child (rodata l)) u fd (with_desc fd (opened jt (inode_at i)) u).
Proof using All.
  intros [_ Fl] Hl [Hi Hj] Hfd. rewrite Forall_forall in Fl. destruct (Fl l Hl) as [T Hh].
  apply (os_open u (rodata l) (Z.of_nat (length l)) i fd jt); [by apply holds_str| |by eapply holds_named| |exact Hj|exact Hfd].
  - unfold fish_lits in Hl. rewrite !elem_of_cons in Hl. destruct Hl as [->|[->|[->|Hl]]]; [vm_compute; congruence..|by apply not_elem_of_nil in Hl].
  - apply (holds_not_std _ _ l); [exact Hh|]. unfold fish_lits in Hl. rewrite !elem_of_cons in Hl.
    destruct Hl as [->|[->|[->|Hl]]]; [..|by apply not_elem_of_nil in Hl];
      (split; intros Es; specialize (Es 0 ltac:(lia) ltac:(intros; lia)); discriminate Es).
Qed.

Lemma redrawn_trans u1 u2 u3 : redrawn u1 u2 -> redrawn u2 u3 -> redrawn u1 u3.
Proof using. intros [d1 ->] [d2 ->]. exists (d1 ++ d2). unfold drawn. cbn [v_mem v_fds v_arg v_color v_screen v_kbd]. by rewrite fold_left_app. Qed.

Lemma redrawn_refl u : redrawn u u.
Proof using. exists []. by destruct u. Qed.

(** A hundred ticks. *)
Lemma wait_loop_ok scr0 evs s u kb fd d ticks : v_kbd u = Some kb -> 0 <= fd < MAX_DESC -> desc u fd = Some d -> file_ops d = rtc_jt ->
  engine scr0 evs s u ->
  does P (wait_loop f child vmem_base_addr garbage (replicate 100 [rtc_interrupt] ++ ticks) fd s) u (fun r u' =>
    r.1 = ticks /\ engine scr0 (evs ++ replicate 100 Tick) r.2 u' /\ redrawn u u').
Proof using All.
  intros Hkb Hfd Hd Ho G. unfold wait_loop.
  apply (does_loop P _ (fun n '(i, tk, s') u' => n = WAIT - i /\ 0 <= i <= WAIT /\ tk = replicate (Z.to_nat (WAIT - i)) [rtc_interrupt] ++ ticks /\
    engine scr0 (evs ++ replicate (Z.to_nat i) Tick) s' u' /\ redrawn u u') _ WAIT); [| |lia].
  2: { split_and!; [lia|lia|lia|done|by rewrite app_nil_r|apply redrawn_refl]. }
  clear G. intros n [[i tk] s'] u1 (-> & Hi & -> & G & D). destruct (Z.ltb_spec i WAIT) as [Hlt|Hge].
  - replace (Z.to_nat (WAIT - i)) with (S (Z.to_nat (WAIT - (i + 1)))) by lia. cbn [replicate app hd tl].
    pose proof D as [d1 ->]. eapply acts_bind; [apply (os_tick _ kb fd d garbage 4); (done || lia)|].
    eapply does_bind; [by apply engine_tick|]. intros s2 u2 [G2 D2]. apply does_mret. exists (WAIT - (i + 1)).
    split; [lia|]. split_and!; [done|lia|lia|done| |by eapply redrawn_trans].
    replace (Z.to_nat (i + 1)) with (S (Z.to_nat i)) by lia. by rewrite replicate_S_end, app_assoc.
  - assert (i = WAIT) as -> by lia. by apply does_mret.
Qed.
(** The descriptors of the process when the clock has been opened. *)
Definition clocked (u : view) : Prop := exists l, v_fds u = l ++ replicate 5 fdesc_zero /\ length l = 3%nat /\ free_fd l = None.

(** The two frames are on the file system and fit. *)
Definition frames_of (i0 i1 : Z) : Prop :=
  entry_is file0 i0 regf_jt /\ entry_is file1 i1 regf_jt /\ file_ok im fs (inode_at i0) /\ file_ok im fs (inode_at i1) /\
  frames_fit (lines (contents (im := im) (fs := fs) (inode_at i0))) (lines (contents (im := im) (fs := fs) (inode_at i1))).

(** The commands that show them. *)
Definition picture_cmds (junk : mp1_blink_struct) (i0 i1 : Z) : list ioctl :=
  let xs := lines (contents (im := im) (fs := fs) (inode_at i0)) in let ys := lines (contents (im := im) (fs := fs) (inode_at i1)) in
  frame_cmds junk 0 (Nat.max (length xs) (length ys)) xs ys.

Lemma opened_at u fd c ino : 0 <= fd -> (Z.to_nat fd < length (v_fds u))%nat -> bytes_of u c 0 = 48 -> file_ok im fs ino ->
  file_at fd c ino (contents (im := im) (fs := fs) ino) 0 48 (with_desc fd (opened regf_jt ino) u).
Proof using All.
  intros Hfd Hl Hc _. assert (0 <= file_length im fs ino) as Hlen by apply rd32_range. split; [exact Hc|]. change (0 =? 0) with true. cbv iota. exists 0. split_and!; [|lia|lia|by rewrite Z.sub_0_r].
  unfold desc, with_desc. cbn [v_fds with_fds]. by rewrite list_lookup_insert_eq.
Qed.

Lemma add_frames_ok junk scr0 evs s u i0 i1 rtc_fd : ready rodata fish_lits u -> clocked u -> frames_of i0 i1 -> engine scr0 evs s u ->
  does P (add_frames f child vmem_base_addr c0 c1 junk (rodata file0) (rodata file1) rtc_fd s) u (fun r u' => exists s',
    r = Some s' /\ v_kbd u' = v_kbd u /\ v_fds u' !! 2%nat = v_fds u !! 2%nat /\ engine scr0 (evs ++ map Ioctl (picture_cmds junk i0 i1)) s' u').
Proof using All.
  intros Hr (l & Hfds & Hl & Hfree) (N0 & N1 & F0 & F1 & Fit) G. pose proof Hvars as (C0 & C1 & Cne & V0 & V1). destruct Hlits as (L & L0 & L1).
  unfold add_frames. eapply acts_bind; [by apply os_store|]. eapply acts_bind; [by apply os_store|].
  set (u1 := with_bytes c1 1 _ (with_bytes c0 1 _ u)).
  assert (ready rodata fish_lits u1) as R1 by (by repeat apply ready_bytes).
  assert (bytes_of u1 c0 0 = 48 /\ bytes_of u1 c1 0 = 48) as [B0 B1].
  { unfold u1. split; [rewrite bytes_other by lia|]; by rewrite bytes_in by lia. }
  assert (engine scr0 evs s u1) as G1 by (eapply engine_only; [exact V1|apply (only_byte _ 3); lia|]; eapply engine_only; [exact V0|apply (only_byte _ 3); lia|exact G]).
  assert (v_fds u1 = v_fds u /\ v_kbd u1 = v_kbd u) as [E1 K1] by done. clearbody u1.
  eapply acts_bind; [apply (open_ok u1 file0 i0 3 regf_jt); [exact R1|apply list_elem_of_In; unfold fish_lits; by right; left|exact N0|rewrite E1, Hfds; apply free_fd_first; [done|by rewrite Hl]]|].
  change (3 <? 0) with false. cbv iota. set (u2 := with_desc 3 _ u1).
  assert (ready rodata fish_lits u2) as R2 by (by apply ready_desc).
  assert (v_fds u2 = (l ++ [opened regf_jt (inode_at i0)]) ++ fdesc_zero :: replicate 3 fdesc_zero) as E2.
  { unfold u2, with_desc. cbn [v_fds with_fds]. rewrite E1, Hfds, insert_app_r_alt by lia. by rewrite Hl, <- app_assoc. }
  eapply acts_bind; [apply (open_ok u2 file1 i1 4 regf_jt); [exact R2|apply list_elem_of_In; unfold fish_lits; by right; right; left|exact N1|rewrite E2; apply free_fd_first; [by apply free_fd_used|by rewrite length_app, Hl]]|].
  change (4 <? 0) with false. cbv iota. set (u3 := with_desc 4 _ u2).
  assert (file_at 3 c0 (inode_at i0) (contents (im := im) (fs := fs) (inode_at i0)) 0 48 u2) as A2 by (apply opened_at; [lia|rewrite E1, Hfds, length_app, Hl; cbn; lia|exact B0|exact F0]).
  eapply does_mono; [|apply (frames_loop_ok junk 3 4 (inode_at i0) (inode_at i1) scr0) with (u0 := u) (evs := evs)
    (r0 := contents (im := im) (fs := fs) (inode_at i0)) (r1 := contents (im := im) (fs := fs) (inode_at i1))]; [..|exact Fit].
  - intros x u' (s' & -> & [S1 S2] & G'). exists s'. split_and!; [done|done|by apply S1|exact G'].
  - lia.
  - done.
  - done.
  - split_and!.
    + exact G1.
    + eapply (file_at_only _ _ _ _ _ _ c1 4); [done|lia|lia|lia|apply only_desc|exact A2].
    + apply opened_at; [lia|rewrite E2, !length_app, Hl; cbn; lia|exact B1|exact F1].
    + split; [|exact K1]. intros n H3 H4. unfold u3, with_desc. cbn [v_fds with_fds]. rewrite list_lookup_insert_ne by lia.
      unfold u2, with_desc. cbn [v_fds with_fds]. rewrite list_lookup_insert_ne by lia. by rewrite E1.
Qed.

(** The program with the blinker of main: it is added, tied to the cell 40 and removed. *)
Definition main_cell : Z := 6 * 80 + 60.
Definition script (junk local : mp1_blink_struct) (i0 i1 : Z) : list event :=
  map Ioctl (picture_cmds junk i0 i1) ++ replicate 100 Tick ++
  Ioctl (RTC_ADD (mk_blink main_cell 73 77 7 6 (countdown local) (status local) (next local))) :: replicate 100 Tick ++
  Ioctl (RTC_SYNC (Z.lor (Z.shiftl 40 16) main_cell)) :: replicate 100 Tick ++
  Ioctl (RTC_REMOVE main_cell) :: replicate 100 Tick.

Lemma engine_starts u : number_at u vmem_base_addr VIDMAP_VIRT_ADDR -> engine (v_screen u) [] no_blinkers u.
Proof using. intros Hn. split; [exact Hn|]. exists [], [], []. split_and!; [apply linked_none|done|done]. Qed.

Lemma engine_bytes scr0 evs s u g : engine scr0 evs s u -> engine scr0 evs s (with_bytes ret_val 4 g u).
Proof using Hapart. intros (Hn & H). split; [by apply number_kept|exact H]. Qed.

(** The clock is open on [fd], and the engine has handled [evs]. *)
Definition playing (kb : kbd_t) (fd : Z) (d : fdesc_t) (scr0 : screen) (evs : list event) (s : blinkers) (u : view) : Prop :=
  v_kbd u = Some kb /\ desc u fd = Some d /\ engine scr0 evs s u.

Lemma playing_waits {A} kb fd d scr0 evs s u ticks (K : _ -> M A) Q : 0 <= fd < MAX_DESC -> file_ops d = rtc_jt -> playing kb fd d scr0 evs s u ->
  (forall s' u', playing kb fd d scr0 (evs ++ replicate 100 Tick) s' u' -> does P (K (ticks, s')) u' Q) ->
  does P (wait_loop f child vmem_base_addr garbage (replicate 100 [rtc_interrupt] ++ ticks) fd s ≫= K) u Q.
Proof using All.
  intros Hfd Ho (Hkb & Hd & G) HK. eapply does_bind; [by eapply wait_loop_ok|]. intros [tk s1] u1 (Et & G1 & [d1 ->]). cbn [fst snd] in Et, G1.
  subst tk. by apply HK.
Qed.

(** A command of main, and the hundred ticks after it. *)
Lemma playing_shows {A} kb fd d scr0 evs s u ticks cmd (K : _ -> M A) Q : 0 <= fd < MAX_DESC -> file_ops d = rtc_jt -> playing kb fd d scr0 evs s u -> cmd_ok cmd ->
  (forall s' u', playing kb fd d scr0 (evs ++ Ioctl cmd :: replicate 100 Tick) s' u' -> does P (K (ticks, s')) u' Q) ->
  does P ('(_, _, s) ← mp1_ioctl vmem_base_addr cmd s; wait_loop f child vmem_base_addr garbage (replicate 100 [rtc_interrupt] ++ ticks) fd s ≫= K) u Q.
Proof using All.
  intros Hfd Ho (Hkb & Hd & G) Hc HK. eapply does_bind; [by apply engine_ioctl|]. intros [[r b] s1] u1 [G1 [d1 ->]]. cbn [snd] in G1.
  eapply playing_waits; [exact Hfd|exact Ho|split_and!; [exact Hkb|exact Hd|exact G1]|]. intros s2 u2 G2. apply HK. by rewrite <- app_assoc in G2.
Qed.

(** The process before the clock is opened: the standard descriptors and six free ones. *)
Definition standard (u : view) : Prop := exists l, v_fds u = l ++ replicate 6 fdesc_zero /\ length l = 2%nat /\ free_fd l = None.

Lemma open_clock u ir : ready rodata fish_lits u -> standard u -> entry_is (tx "rtc") ir rtc_jt ->
  does P (ece391_open f child (rodata (tx "rtc"))) u (fun fd u' => fd = 2 /\ desc u' 2 = Some (opened rtc_jt (inode_at ir)) /\ clocked u' /\
    ready rodata fish_lits u' /\ v_kbd u' = v_kbd u /\ v_screen u' = v_screen u /\ v_mem u' = v_mem u).
Proof using All.
  intros Hr (l & Hfds & Hl & Hfree) N. eapply does_mono; [|apply (open_ok u (tx "rtc") ir 2 rtc_jt); [exact Hr|apply list_elem_of_In; by left|exact N|]].
  2: { rewrite Hfds. apply free_fd_first; [done|by rewrite Hl]. }
  intros fd u' [-> ->]. assert (v_fds (with_desc 2 (opened rtc_jt (inode_at ir)) u) = (l ++ [opened rtc_jt (inode_at ir)]) ++ replicate 5 fdesc_zero) as E.
  { unfold with_desc. cbn [v_fds with_fds]. rewrite Hfds, insert_app_r_alt by lia. by rewrite Hl, <- app_assoc. }
  split_and!; [done| | |by apply ready_desc|done|done|done].
  - unfold desc. rewrite E, lookup_app_l by (rewrite length_app, Hl; cbn; lia). by rewrite lookup_app_r, Hl by lia.
  - exists (l ++ [opened rtc_jt (inode_at ir)]). split_and!; [exact E|by rewrite length_app, Hl|by apply free_fd_used].
Qed.

Lemma fish_main_ok junk local u kb i0 i1 ir : ready rodata fish_lits u -> v_kbd u = Some kb -> standard u ->
  entry_is (tx "rtc") ir rtc_jt -> frames_of i0 i1 ->
  does P (fish_main f child rodata vmem_base_addr c0 c1 ret_val garbage junk local (replicate 400 [rtc_interrupt])) u (fun r u' =>
    r = 0 /\ v_screen u' = fold_left cell_drawn (run_spec (script junk local i0 i1) []).1.2 (v_screen u)).
Proof using All.
  intros Hr Hkb Hstd Hclock Hframes. unfold fish_main, mp1_set_video_mode. eapply does_bind.
  { eapply acts_bind; [by apply os_vidmap|]. change (VIDMAP_VIRT_ADDR =? -1) with false. cbv iota.
    apply os_load32; [done|apply number_stored|lia]. }
  cbn beta. intros vmem u1 [-> ->]. change (VIDMAP_VIRT_ADDR =? 0) with false. cbv iota.
  pose proof (engine_starts _ (number_stored u vmem_base_addr VIDMAP_VIRT_ADDR)) as G. set (scr0 := v_screen _) in G. set (u1 := with_bytes _ _ _ u) in *.
  eapply does_bind; [apply (open_clock u1 ir); [by apply ready_bytes; [apply Hlits|]|done|done]|].
  intros fd u2 (-> & D2 & C2 & R2 & K2 & S2 & M2).
  assert (engine scr0 [] no_blinkers u2) as G2 by (unfold engine, number_at, bytes_of; rewrite S2, M2; exact G).
  eapply does_bind; [by apply add_frames_ok|]. intros o u3 (s3 & -> & K3 & D3 & G3). cbv iota.
  assert (desc u3 2 = Some (opened rtc_jt (inode_at ir))) as D3' by (rewrite <- D2; exact D3). rewrite K2 in K3. change (v_kbd u1) with (v_kbd u) in K3.
  rewrite Hkb in K3. clear D2 D3 C2 R2 K2 S2 M2 G2 G. rewrite app_nil_l in G3.
  eapply acts_bind; [by apply os_store32|].
  eapply acts_bind; [apply (os_set_rate _ 2 (opened rtc_jt (inode_at ir)) ret_val 5); [lia|exact D3'|done|exact Hret|lia|apply number_stored]|].
  eapply acts_bind; [by apply os_store32|]. eapply engine_bytes, engine_bytes in G3.
  change (replicate 400 [rtc_interrupt]) with (replicate 100 [rtc_interrupt] ++ replicate 100 [rtc_interrupt] ++ replicate 100 [rtc_interrupt] ++ replicate 100 [rtc_interrupt] ++ []).
  eapply (playing_waits kb 2 (opened rtc_jt (inode_at ir))); [lia|done|split_and!; [exact K3|exact D3'|exact G3]|]. clear G3 D3' K3 u3 s3. intros s3 u3 G. cbv beta iota.
  eapply (playing_shows kb 2 (opened rtc_jt (inode_at ir))); [lia|done|exact G|cbn [cmd_ok location]; lia|]. clear G u3 s3. intros s3 u3 G. cbv beta iota.
  eapply (playing_shows kb 2 (opened rtc_jt (inode_at ir))); [lia|done|exact G|done|]. clear G u3 s3. intros s3 u3 G. cbv beta iota.
  eapply (playing_shows kb 2 (opened rtc_jt (inode_at ir))); [lia|done|exact G|done|]. clear G u3 s3. intros s3 u3 (_ & Hd & _ & l & rs & d & _ & Er & Es). cbv beta iota.
  eapply acts_bind; [apply (os_close u3 2 (opened rtc_jt (inode_at ir))); [lia|exact Hd|by left]|]. apply does_mret. split; [done|].
  change (v_screen u) with scr0. cbn [v_screen with_desc with_fds]. rewrite Es. f_equal. rewrite <- !app_assoc in Er. 
  replace (run_spec (script junk local i0 i1) []) with (rs, d, bodies l) by (symmetry; exact Er). done.
Qed.
End fish_proof.

(** [C30] fish on the kernel: with a tick of the clock during every read, it shows what its
    script makes the blinkers draw - the two frames in turn, cell by cell, then for a
    while a letter of its own, which is tied to a cell of the frames and removed - and
    exits with 0. *)
Theorem fish_plays E f child rodata vmem_base_addr c0 c1 ret_val garbage kb junk local i0 i1 ir u k :
  env_ok E -> process E u k -> v_kbd u = Some kb -> standard u ->
  in_page vmem_base_addr 4 -> in_page ret_val 4 -> in_page garbage 1 -> in_page c0 1 /\ in_page c1 1 /\ c0 <> c1 /\
    ~ vmem_base_addr <= c0 < vmem_base_addr + 4 /\ ~ vmem_base_addr <= c1 < vmem_base_addr + 4 ->
  apart vmem_base_addr 4 ret_val 4 ->
  clear_of rodata fish_lits vmem_base_addr 4 /\ clear_of rodata fish_lits c0 1 /\ clear_of rodata fish_lits c1 1 -> ready rodata fish_lits u ->
  entry_is (im := e_mem E) (fs := e_fs E) (tx "rtc") ir rtc_jt -> frames_of (im := e_mem E) (fs := e_fs E) i0 i1 ->
  finishes E (fish_main f child rodata vmem_base_addr c0 c1 ret_val garbage junk local (replicate 400 [rtc_interrupt])) k (fun r u' =>
    r = 0 /\ v_screen u' = fold_left cell_drawn (run_spec (script (im := e_mem E) (fs := e_fs E) junk local i0 i1) []).1.2 (v_screen u)).
Proof.
  intros HE Hk Hkb Hs H1 H2 H3 H4 H5 H6 H7 H8 H9. pose proof (process_calls E HE f child) as OC.
  pose proof (process_clock E HE f child) as OK. pose proof (process_numbers E HE) as ON. pose proof (process_screen E HE f child) as OS.
  eapply does_finishes; [|exact Hk]. by apply (fish_main_ok (base := e_vid E) rodata vmem_base_addr c0 c1 ret_val garbage H1 H2 H3 H4 H5 H6 junk local u kb i0 i1 ir).
Qed.

(** ** Witness *)

(** Both frames are the line "text": its letters stay, and so does the letter of main, in
    the phase in which it was removed. *)
Lemma fish_plays_witness :
  finishes user_env (fish_main demo_frame no_child user_rodata 0x8070000 0x8070010 0x8070011 0x8070020 0x8070030 no_blink no_blink (replicate 400 [rtc_interrupt])) (user_kernel [])
    (fun r u' => r = 0 /\ map (s_cells (v_screen u')) [80; 82; 84; 86; 2 * main_cell] = tx "text" ++ [73]).
Proof.
  destruct (fish_plays user_env demo_frame no_child user_rodata 0x8070000 0x8070010 0x8070011 0x8070020 0x8070030 (k_kbd demo_shell) no_blink no_blink 4 5 3 (user_view []) (user_kernel []))
    as (r & u' & k' & Er & Hk' & -> & Hs).
  - apply user_env_ok.
  - apply user_process. cbn. lia.
  - reflexivity.
  - exists [opened stdin 0; opened stdout 0]. split_and!; reflexivity.
  - unfold in_page. lia.
  - unfold in_page. lia.
  - unfold in_page. lia.
  - unfold in_page. lia.
  - unfold apart. lia.
  - split_and!; apply clear_check; vm_compute; reflexivity.
  - apply user_ready. vm_compute. reflexivity.
  - split; [apply (user_first 3 _ 3); [lia|lia|vm_compute; reflexivity..]|vm_compute; reflexivity].
  - split_and!.
    + split; [apply (user_first 4 _ 10); [lia|lia|vm_compute; reflexivity..]|vm_compute; reflexivity].
    + split; [apply (user_first 5 _ 10); [lia|lia|vm_compute; reflexivity..]|vm_compute; reflexivity].
    + replace (inode_at 4) with 1 by (vm_compute; reflexivity). exact user_file.
    + replace (inode_at 5) with 1 by (vm_compute; reflexivity). exact user_file.
    + replace (inode_at 4) with 1 by (vm_compute; reflexivity). replace (inode_at 5) with 1 by (vm_compute; reflexivity).
      replace (lines (contents 1)) with [tx "text"] by (vm_compute; reflexivity). exists 4. split_and!; [lia|..|vm_compute; congruence];
        (apply list.Forall_cons; split; [vm_compute; congruence|by apply list.Forall_nil]).
  - exists 0, u', k'. split_and!; [exact Er|exact Hk'|done|]. rewrite Hs. vm_compute. reflexivity.
Defined.
