(* ===== verification/Sigtest.v ===== *)
(** * The signal test (src/syscalls/ece391sigtest.c)

    The program installs handlers and stores to address 0.  The kernel has no signals:
    the calls that install a handler are refused, no handler is ever called, and the
    store kills the program. *)

From Stdlib Require Import ZArith Lia String.
From stdpp Require Import gmap list numbers strings.
From S2P Require Import Prelude Memory LibString State Display Printf Paging Pcb FileSystem Vfs Keyboard Terminal Syscalls.
From S2P Require Import Execute Calls Idt UserLib Process Spawn Programs Clients Shell Commands Crash Userland Blink Devices.

Abbreviation SEGFAULT := 1.
Abbreviation ALARM := 3.

(** ** Definitions *)

Section sigtest.
Context (f : frame) (child : Z -> Z -> M Z) (rodata : list Z -> Z).
(** The addresses of the variables and of the two handlers. *)
Context (charbuf badbuf segfault_handler alarm_handler : Z).

Definition say (l : list Z) : M unit := puts_lit f child rodata l.

Definition put_signum (signum : Z) : M unit :=
  if signum =? 0 then say (ln "0")
  else if signum =? 1 then say (ln "1")
  else if signum =? 2 then say (ln "2")
  else if signum =? 3 then say (ln "3")
  else say (ln "invalid").

(** [signum_at]: where the argument is on the stack; [buf]: the local variable. *)
Definition segfault_sighandler (irqs : list (M unit)) (signum signum_at buf : Z) : M unit :=
  say (tx "Segfault signal handler called, signum: ") ;;
  put_signum signum ;;
  say (ln "Press enter to continue...") ;;
  ece391_read f child irqs 0 buf 1 ;;
  store32 badbuf charbuf ;;
  store32 (signum_at + 4 * 7) charbuf ;;
  say (ln "Signal handler returning").

Definition alarm_sighandler (signum : Z) : M unit :=
  say (tx "Alarm signal handler called, signum: ") ;;
  put_signum signum.

Definition install_handlers : M unit :=
  say (ln "Installing signal handlers") ;;
  ece391_set_handler f child SEGFAULT segfault_handler ;;
  ece391_set_handler f child ALARM alarm_handler ;;
  skip.

(** What follows the store. *)
Definition after_store (buf cnt : Z) : M outcome :=
  store (buf + cnt) 0 ;;
  say (tx "Hello, ") ;;
  ece391_fdputs f child 1 buf ;;
  c ← load charbuf;
  (if c =? 1 then say (ln "success") else say (ln "failure")) ;;
  mret (Returns 0).

Definition sigtest_main (irqs : list (M unit)) (buf : Z) : M outcome :=
  r ← ece391_getargs f child buf 1024;
  if negb (0 =? r) then say (ln "could not read argument") ;; mret (Returns 3) else
  c ← load buf;
  (if c =? 49 then install_handlers else skip) ;;
  say (tx "Hi, what's your name? ") ;;
  cnt ← ece391_read f child irqs 0 buf 1023;
  if -1 =? cnt then say (ln "Can't read name from keyboard.") ;; mret (Returns 3) else
  p ← load32 badbuf;
  stored ← try_store p 1;
  if negb stored then mret (Raises p _page_fault) else after_store buf cnt.
End sigtest.

(** ** It always faults *)

Definition sigtest_lits : list (list Z) :=
  [ln "could not read argument"; ln "Installing signal handlers"; tx "Hi, what's your name? "; ln "Can't read name from keyboard."].

Section faults.
Context {P : view -> kernel -> Prop} {f : frame} {child : Z -> Z -> M Z} {im : memory} {fs : Z}.
Context `{!OsCalls P f child im fs} `{!OsNumbers P} `{!OsFaults P f child}.
Context (rodata : list Z -> Z) (charbuf badbuf segfault_handler alarm_handler buf : Z).
Hypothesis Hbuf : in_page buf 1024.
Hypothesis Hclear : clear_of rodata sigtest_lits buf 1024.
Hypothesis Hbad : in_page badbuf 4 /\ apart badbuf 4 buf 1024.
Hypothesis Hhandlers : 0 <= segfault_handler < W32 /\ 0 <= alarm_handler < W32.

(** The program at its question: the literals and the pointer are as they were. *)
Definition asking (kb : kbd_t) (u : view) : Prop :=
  v_kbd u = Some kb /\ (exists d, desc u 0 = Some d /\ file_ops d = stdin) /\ ready rodata sigtest_lits u /\ number_at u badbuf 0.

Lemma install_handlers_ok kb u : asking kb u ->
  does P (install_handlers f child rodata segfault_handler alarm_handler) u (fun _ u' => asking kb u' /\ v_color u' = v_color u).
Proof using All.
  intros (K & D & R & N). unfold install_handlers, say.
  eapply acts_bind; [apply (acts_puts rodata sigtest_lits); [exact R|by right; left]|].
  eapply acts_bind; [apply os_set_handler; [lia|apply Hhandlers]|]. eapply acts_bind; [apply os_set_handler; [lia|apply Hhandlers]|].
  apply does_mret. split; [|done]. by split_and!.
Qed.

Lemma sigtest_faults_ok kb cs a u : asking kb u -> arg_is u a -> a <> [] -> plain_keys kb cs = true ->
  does P (sigtest_main f child rodata charbuf badbuf segfault_handler alarm_handler (type_line cs) buf) u (fun o u' =>
    o = Raises 0 _page_fault /\ v_kbd u' = Some (keys_spec kb [] cs).1 /\ v_color u' = v_color u).
Proof using All.
  intros (K & D & R & N) (Ha & Hl & T) Hne Hcs. pose proof Hbuf as (B1 & B2 & B3). destruct Hbad as [Hbp Hap]. unfold sigtest_main.
  pose proof (os_getargs u a buf 1024 Ha Hl (text_ok_forall _ T) Hbuf ltac:(lia)) as G.
  rewrite bool_decide_eq_true_2 in G by (split; [done|lia]). eapply acts_bind; [exact G|]. change (negb (0 =? 0)) with false. cbv iota. clear G.
  set (u1 := with_bytes buf _ _ u).
  assert (asking kb u1) as A1.
  { split_and!; [exact K|exact D| |].
    - apply ready_bytes; [|exact R]. apply (clear_of_sub _ _ buf 1024); [exact Hclear|lia|lia|lia].
    - apply number_kept; [unfold apart in *; lia|exact N]. }
  eapply acts_bind; [apply os_load; unfold in_page; lia|]. cbv beta. generalize (v_mem u1 buf). intros c.
  eapply (does_bind P _ _ _ (fun _ u' => asking kb u' /\ v_color u' = v_color u)).
  { destruct (c =? 49); [|by apply does_mret]. by apply (install_handlers_ok kb u1). }
  clearbody u1. clear A1 K D R N u1. intros [] u1 [(K & D & R & N) Hc]. unfold say.
  eapply acts_bind; [apply (acts_puts rodata sigtest_lits); [exact R|by right; right; left]|]. destruct D as (d & D & O).
  assert (length (take 127 (keys_spec kb [] cs).2) <= 127)%nat as Hlen by (rewrite length_take; lia).
  eapply does_bind; [apply (os_read_line _ kb cs 0 d buf 1023); [exact K|lia|exact D|exact O|exact Hcs|lia|unfold in_page; lia]|].
  intros cnt u2 (-> & g & s & _ & ->). rewrite (proj2 (Z.eqb_neq (-1) _)) by lia.
  eapply acts_bind; [apply (os_load32 _ badbuf 0); [exact Hbp| |lia]|].
  { change (number_at (with_bytes buf 1023 g u1) badbuf 0). apply number_kept; [unfold apart in *; lia|exact N]. }
  eapply acts_bind; [apply os_null_store|]. change (negb false) with true. cbv iota. apply does_mret. by split_and!.
Qed.
End faults.

(** ** On the kernel *)

Lemma numeral_zero ds : numeral 16 0 ds -> ds = [0].
Proof.
  intros N. pose proof (numeral_length 16 0 ds 1 ltac:(lia) ltac:(lia) ltac:(lia) N) as Hl. destruct N as (_ & E & Hne & _).
  destruct ds as [|d [|e ds]]; [done| |cbn in Hl; lia]. cbn in E. f_equal. lia.
Qed.

Lemma null_message text : message_of (Raises 0 _page_fault) text -> text = ln "Page fault encountered with error 0".
Proof. intros (h & _ & ds & N & ->). by apply numeral_zero in N as ->. Qed.

(** A number in the image of a program that has just been started. *)
Lemma fresh_number im fs ino a u u0 p : fresh im fs ino a u u0 ->
  0 <= p - (PROGRAM_VIRT + PROGRAM_VIRT_OFF) -> p - (PROGRAM_VIRT + PROGRAM_VIRT_OFF) + 4 <= file_length im fs ino ->
  (forall i, 0 <= i < 4 -> file_byte im fs ino (p - (PROGRAM_VIRT + PROGRAM_VIRT_OFF) + i) = 0) -> number_at u0 p 0.
Proof.
  intros (_ & _ & _ & _ & _ & _ & _ & _ & Hm) H1 H2 H3 i Hi. unfold bytes_of, digit.
  replace (p + i) with (PROGRAM_VIRT + PROGRAM_VIRT_OFF + (p - (PROGRAM_VIRT + PROGRAM_VIRT_OFF) + i)) by lia.
  by rewrite Hm, H3, Z.div_0_l by lia.
Qed.



(** ** Witnesses *)

(** A program that only stores to address 0. *)
Definition null_main : M outcome := stored ← try_store 0 1; mret (if stored : bool then Returns 0 else Raises 0 _page_fault).


