(* ===== verification/GrepText.v ===== *)
(** * What grep prints

    The lines of a text, whether a line has a string, and the output of grep for a file:
    the specification that Grep.v proves of the program. *)

From Stdlib Require Import ZArith Lia.
From stdpp Require Import gmap list numbers.
From S2P Require Import Prelude LibString State Commands.

(** ** Definitions *)

(** The lines of a text; the last one need not end with a newline. *)
Fixpoint lines (l : list Z) : list (list Z) :=
  match l with
  | [] => []
  | c :: r => if c =? 10 then [] :: lines r else match lines r with [] => [[c]] | x :: ls => (c :: x) :: ls end
  end.

Fixpoint is_prefix (p l : list Z) : bool :=
  match p, l with
  | [], _ => true
  | c :: p, d :: l => (c =? d) && is_prefix p l
  | _ :: _, [] => false
  end.

(** The string [p] is somewhere in [l], which is not at its end. *)
Fixpoint occurs (p l : list Z) : bool := match l with [] => false | _ :: r => is_prefix p l || occurs p r end.

Definition hit_line (p name x : list Z) : list Z := if occurs p x then name ++ [58] ++ x ++ [10] else [].
Definition grep_text (p name l : list Z) : list Z := concat (map (hit_line p name) (lines l)).

(** No line is longer than [n]. *)
Definition short (n : nat) (l : list Z) : Prop := Forall (fun x => (length x <= n)%nat) (lines l).

Definition one_line (x : list Z) : Prop := Forall (fun c => c <> 10) x.

(** ** Lines *)

Lemma lines_line x r : one_line x -> lines (x ++ 10 :: r) = x :: lines r.
Proof. induction 1 as [|c x Hc _ IH]; [done|]. cbn [app lines]. by rewrite IH, (proj2 (Z.eqb_neq c 10)). Qed.

Lemma lines_last x : one_line x -> x <> [] -> lines x = [x].
Proof.
  induction 1 as [|c x Hc _ IH]; [done|]. intros _. cbn [lines]. rewrite (proj2 (Z.eqb_neq c 10)) by done. destruct x; [done|]. by rewrite IH.
Qed.

(** A text starts with its first line. *)
Lemma lines_more x r : one_line x -> x <> [] -> exists y ls, lines (x ++ r) = (x ++ y) :: ls.
Proof.
  induction 1 as [|c x Hc _ IH]; [done|]. intros _. cbn [app lines]. rewrite (proj2 (Z.eqb_neq c 10)) by done.
  destruct x as [|d x]; [cbn [app]; destruct (lines r) as [|y ls]; [by exists [], []|by exists y, ls]|]. destruct IH as (y & ls & E); [done|]. exists y, ls. by rewrite E.
Qed.

(** A text is a line without its end, or a line and more. *)
Lemma first_line l : one_line l \/ exists x r, l = x ++ 10 :: r /\ one_line x.
Proof.
  induction l as [|c l IH]; [left; by apply list.Forall_nil|]. destruct (Z.eq_dec c 10) as [->|Hc]; [right; exists [], l; split; [done|by apply list.Forall_nil]|].
  destruct IH as [H|(x & r & -> & H)]; [left; by apply list.Forall_cons|]. right. exists (c :: x), r. split; [done|by apply list.Forall_cons].
Qed.

Lemma grep_text_line p name x r : one_line x -> grep_text p name (x ++ 10 :: r) = hit_line p name x ++ grep_text p name r.
Proof. intros H. unfold grep_text. by rewrite lines_line. Qed.

Lemma grep_text_last p name x : one_line x -> grep_text p name x = hit_line p name x.
Proof. intros H. destruct x as [|c x]; [done|]. unfold grep_text. rewrite lines_last by done. cbn. by rewrite app_nil_r. Qed.

Lemma short_line n x r : one_line x -> short n (x ++ 10 :: r) -> short n r.
Proof. intros H Hs. unfold short in *. rewrite lines_line in Hs by done. by apply list.Forall_cons in Hs as [_ Hs]. Qed.

Lemma short_first n x r : one_line x -> short n (x ++ r) -> (length x <= n)%nat.
Proof.
  intros H Hs. destruct x as [|c x]; [cbn; lia|]. destruct (lines_more (c :: x) r H ltac:(done)) as (y & ls & E). unfold short in Hs. rewrite E in Hs.
  apply list.Forall_cons in Hs as [Hs _]. rewrite length_app in Hs. lia.
Qed.

(** ** Strings in a line *)

Lemma is_prefix_lookup p l : is_prefix p l = true <-> forall i c, p !! i = Some c -> l !! i = Some c.
Proof.
  revert l. induction p as [|c p IH]; intros l; [split; [by intros _ i c|done]|]. destruct l as [|d l].
  - split; [done|]. intros H. by specialize (H O c eq_refl).
  - cbn [is_prefix]. rewrite andb_true_iff, IH, Z.eqb_eq. split.
    + intros [-> H] [|i] x; [done|apply H].
    + intros H. split; [by injection (H O c eq_refl)|]. intros i x. apply (H (S i)).
Qed.

(** From left to right: not at the places before [i], and so in what is left. *)
Lemma occurs_drop p l i : (i <= length l)%nat -> (forall j, (j < i)%nat -> is_prefix p (drop j l) = false) -> occurs p l = occurs p (drop i l).
Proof.
  revert i. induction l as [|c l IH]; intros [|i] Hi H; try done. pose proof (H O ltac:(lia)) as H0. cbn [occurs drop] in *. rewrite H0. cbn [orb].
  apply IH; [cbn in Hi; lia|]. intros j Hj. apply (H (S j)). lia.
Qed.

Lemma occurs_at p l i : (i < length l)%nat -> is_prefix p (drop i l) = true -> (forall j, (j < i)%nat -> is_prefix p (drop j l) = false) -> occurs p l = true.
Proof.
  intros Hi H Hn. rewrite (occurs_drop p l i) by (done || lia). destruct (drop i l) as [|c r] eqn:E; [|cbn [occurs]; by rewrite H].
  apply (f_equal length) in E. rewrite length_drop in E. cbn in E. lia.
Qed.

Lemma occurs_none p l : (forall j, (j < length l)%nat -> is_prefix p (drop j l) = false) -> occurs p l = false.
Proof. intros H. rewrite (occurs_drop p l (length l)) by done. by rewrite drop_all. Qed.

(** ** Strings of the memory *)

Definition agrees (g : Z -> Z) (l : list Z) : Prop := forall i, 0 <= i <= Z.of_nat (length l) -> g i = arr_at (l ++ [0]) i.

Lemma agrees_at g l i c : agrees g l -> l !! i = Some c -> g (Z.of_nat i) = c.
Proof.
  intros H Hc. pose proof (lookup_lt_Some _ _ _ Hc). rewrite H by lia. unfold arr_at. rewrite Nat2Z.id, lookup_app_l by done. by rewrite Hc.
Qed.

Lemma agrees_end g l : agrees g l -> g (Z.of_nat (length l)) = 0.
Proof. intros H. rewrite H by lia. apply arr_at_end. Qed.

(** strncmp with the length of [p] finds whether [p] is a prefix. *)
Lemma strncmp_prefix s1 s2 p x : agrees s1 x -> agrees s2 p -> Forall (fun c => 0 < c) p ->
  (forall i, 0 <= i < Z.of_nat (length p) -> (forall j, 0 <= j < i -> s1 j <> 0) -> s1 i = s2 i) <-> is_prefix p x = true.
Proof.
  intros A1 A2 F. rewrite is_prefix_lookup. split.
  - intros H. assert (forall n i c, (i < n)%nat -> p !! i = Some c -> s1 (Z.of_nat i) = c /\ (i < length x)%nat) as G.
    { induction n as [|n IH]; intros i c Hi Hc; [lia|]. pose proof (lookup_lt_Some _ _ _ Hc) as Hl. pose proof (Forall_lookup_1 _ _ _ _ F Hc) as Pc. cbn beta in Pc.
      assert (forall j, (j < i)%nat -> s1 (Z.of_nat j) <> 0 /\ (j < length x)%nat) as Hj.
      { intros j Hj. destruct (lookup_lt_is_Some_2 p j ltac:(lia)) as [d Hd]. destruct (IH j d ltac:(lia) Hd) as [<- ?].
        pose proof (Forall_lookup_1 _ _ _ _ F Hd). cbn beta in *. split; [lia|done]. }
      assert (s1 (Z.of_nat i) = c) as E.
      { rewrite H; [by apply (agrees_at s2 p)|lia|]. intros j Hj'. replace j with (Z.of_nat (Z.to_nat j)) by lia. apply Hj. lia. }
      split; [done|]. destruct (decide (i = length x)) as [->|Hne]; [rewrite (agrees_end _ _ A1) in E; lia|].
      destruct i as [|i]; [lia|]. destruct (Hj i ltac:(lia)). lia. }
    intros i c Hc. destruct (G (S i) i c ltac:(lia) Hc) as [E Hi]. destruct (lookup_lt_is_Some_2 x i Hi) as [d Hd]. rewrite Hd. f_equal.
    by rewrite <- E, (agrees_at s1 x i d).
  - intros H i Hi _. destruct (lookup_lt_is_Some_2 p (Z.to_nat i) ltac:(lia)) as [c Hc].
    pose proof (agrees_at s2 p _ _ A2 Hc) as E2. pose proof (agrees_at s1 x _ _ A1 (H _ _ Hc)) as E1. rewrite Z2Nat.id in E1, E2 by lia. congruence.
Qed.
