(* ===== verification/History.v ===== *)
(** * The history of a terminal

    The UP and DOWN keys (process_input, clear_cur_cmd and clear_buffer of keyboard.c) and
    add_to_history: the lines that were entered are recalled into the line editor. *)

From Stdlib Require Import ZArith Lia String.
From stdpp Require Import gmap list numbers strings.
From S2P Require Import Prelude Memory LibString State Display MultiTerm Keyboard Terminal Commands GrepText.

(** ** Definitions *)

(** Characters that a line consists of. *)
Definition line_char (b : Z) : Prop := 0 < b < W8 /\ b <> 8 /\ b <> 10 /\ b <> 13.

Definition padded (e : list Z) : list Z := e ++ replicate (129 - length e) 0.

(** Terminal [t] remembers the lines [h], [c] of them before the one that UP and DOWN are
    at. *)
Definition history (t : term_t) (h : list (list Z)) (c : Z) : Prop :=
  hist_buf t = map padded h ++ replicate (10 - length h) (replicate 129 0) /\ (length h <= 10)%nat /\
  hist_buf_index t = Z.of_nat (length h) /\ cur_hist_index t = c /\ 0 <= c <= Z.of_nat (length h) /\
  Forall (fun e => e <> [] /\ (length e <= 127)%nat /\ Forall line_char e) h.

(** The entry at [j], empty where there is none. *)
Definition entry (h : list (list Z)) (j : Z) : list Z := if j <? 0 then [] else default [] (h !! Z.to_nat j).

(** The keys of the line editor: a line and a place in the history. *)
Definition nav_spec (h : list (list Z)) (kb : kbd_t) (lc : list Z * Z) (key : Z) : list Z * Z :=
  let '(l, c) := lc in
  if key =? UP_KEY_P then (if c =? 0 then (l, c) else (entry h (c - 1), c - 1))
  else if key =? DOWN_KEY_P then (entry h (c + 1), Z.min (c + 1) (Z.of_nat (length h)))
  else (line_spec kb l key, c).

(** Where the accesses of the two keys stay in the history: UP at its beginning reads what
    is in the line buffer behind the eleventh character, DOWN at its end the second entry
    behind the last. *)
Definition nav_key (h : list (list Z)) (kb : kbd_t) (lc : list Z * Z) (key : Z) : bool :=
  let '(l, c) := lc in
  if key =? UP_KEY_P then negb (c =? 0) || (Z.of_nat (length l) <=? 11)
  else if key =? DOWN_KEY_P then c + 1 <=? 10
  else (-128 <=? key) && (key <? 128) && plain_key kb key.

Fixpoint nav_keys (h : list (list Z)) (kb : kbd_t) (lc : list Z * Z) (cs : list Z) : bool :=
  match cs with [] => true | c :: cs => nav_key h kb lc c && nav_keys h (kbd_spec kb c) (nav_spec h kb lc c) cs end.
Fixpoint navs (h : list (list Z)) (kb : kbd_t) (lc : list Z * Z) (cs : list Z) : kbd_t * (list Z * Z) :=
  match cs with [] => (kb, lc) | c :: cs => navs h (kbd_spec kb c) (nav_spec h kb lc c) cs end.

(** ** Reading the history *)

Lemma length_padded e : (length e <= 129)%nat -> length (padded e) = 129%nat.
Proof. intros H. unfold padded. rewrite length_app, length_replicate. lia. Qed.

Lemma drop_concat {A} n (l : list (list A)) j e : Forall (fun x => length x = n) l -> l !! j = Some e ->
  drop (n * j) (concat l) = e ++ concat (drop (S j) l).
Proof.
  intros H. revert j. induction H as [|x l Hx _ IH]; intros [|j] Hj; try done.
  - cbn in Hj. injection Hj as ->. by rewrite Nat.mul_0_r, !drop_0.
  - cbn [concat]. rewrite drop_app_ge by lia. rewrite Hx. replace (n * S j - n)%nat with (n * j)%nat by lia. by rewrite IH.
Qed.

(** The slot [j] of the array. *)
Lemma history_slot t h c j : history t h c -> (j < 10)%nat -> hist_buf t !! j = Some (padded (default [] (h !! j))).
Proof.
  intros (E & Hl & _) Hj. rewrite E. destruct (h !! j) as [e|] eqn:Ej.
  - rewrite lookup_app_l by (rewrite length_map; by eapply lookup_lt_Some). change (map padded h) with (padded <$> h). by rewrite list_lookup_fmap, Ej.
  - apply lookup_ge_None in Ej. rewrite lookup_app_r, length_map by (rewrite length_map; lia). rewrite lookup_replicate_2 by lia. done.
Qed.

Lemma history_slots t h c : history t h c -> Forall (fun x => length x = 129%nat) (hist_buf t).
Proof.
  intros (-> & _ & _ & _ & _ & F). apply list.Forall_app. split; [|by apply Forall_replicate; rewrite length_replicate].
  apply Forall_map. eapply List.Forall_impl; [|exact F]. intros e (_ & He & _). apply length_padded. lia.
Qed.

Lemma history_entry t h c e : history t h c -> e ∈ h -> e <> [] /\ (length e <= 127)%nat /\ Forall line_char e.
Proof. intros (_ & _ & _ & _ & _ & F) He. rewrite Forall_forall in F. by apply F. Qed.

Lemma entry_at t h c j : history t h c -> (length (default [] (h !! j)) <= 127)%nat /\ Forall line_char (default [] (h !! j)).
Proof.
  intros H. destruct (h !! j) as [e|] eqn:E; [|split; [cbn; lia|apply list.Forall_nil_2]]. cbn [default].
  by destruct (history_entry t h c e H (list_elem_of_lookup_2 _ _ _ E)) as (_ & ? & ?).
Qed.

(** The string that starts at slot [j]; behind the last slot there are zeros. *)
Lemma hist_bytes t h c j : term_wf t -> history t h c -> (j <= 10)%nat -> exists r, drop (152 + 129 * j) (term_bytes t) = default [] (h !! j) ++ 0 :: r.
Proof.
  intros (L1 & _ & L3 & _) H Hj. unfold term_bytes. set (hd := [_; _; _; _; _; _; _; _]). set (post := [0; 0] ++ _).
  rewrite !(app_assoc hd), !(app_assoc (hd ++ _)), !(app_assoc ((hd ++ _) ++ _)), !(app_assoc (((hd ++ _) ++ _) ++ _)), !(app_assoc ((((hd ++ _) ++ _) ++ _) ++ _)).
  set (pre := ((((hd ++ _) ++ _) ++ _) ++ _) ++ le32 (Z.b2z _)).
  assert (length pre = 152%nat) as Lp by (unfold pre; rewrite !length_app, L1; reflexivity).
  pose proof (history_slots t h c H) as F. pose proof (length_concat_eq 129 (hist_buf t) F) as Lc. rewrite L3 in Lc.
  rewrite <- !drop_drop, (drop_app_ge pre), Lp, Nat.sub_diag, drop_0 by lia.
  destruct (decide (j < 10)%nat) as [Hj'|Hj'].
  - rewrite (drop_app_le (concat _)) by lia. rewrite (drop_concat 129 _ j _ F (history_slot t h c j H Hj')).
    unfold padded. destruct (entry_at t h c j H) as [He _]. replace (129 - length (default [] (h !! j)))%nat with (S (128 - length (default [] (h !! j)))) by lia.
    cbn [replicate]. rewrite <- !app_assoc. cbn [app]. by eexists.
  - assert (j = 10%nat) as -> by lia. destruct H as (_ & Hl & _). rewrite (lookup_ge_None_2 h) by lia. rewrite drop_app_ge by lia.
    replace (129 * 10 - length (concat (hist_buf t)))%nat with 0%nat by lia. rewrite drop_0. by eexists.
Qed.

Lemma string_len e r : Forall line_char e -> arr_strlen (e ++ 0 :: r) = Some (Z.of_nat (length e)).
Proof.
  intros H. rewrite arr_strlen_app; [cbn; f_equal; lia|]. eapply List.Forall_impl; [|exact H]. by intros b [? _].
Qed.

Lemma entry_pos h j : 0 <= j -> entry h j = default [] (h !! Z.to_nat j).
Proof. intros H. unfold entry. by rewrite (proj2 (Z.ltb_ge j 0)) by lia. Qed.

(** Reading slot [c] of the visible terminal. *)
Lemma slot_memory k i t h c j (Q : list Z -> kernel -> Prop) : terms_wf k -> 0 <= i < MAX_TERM_NUM -> terminals (k_disp k) !! Z.to_nat i = Some t -> history t h c ->
  0 <= j <= 10 -> (forall r, Forall is_byte (entry h j ++ 0 :: r) -> Q (entry h j ++ 0 :: r) k) -> wp (term_memory (hist_off i j)) Q k.
Proof.
  intros Hwf Hi Ht H Hj HQ. assert (hist_off i j = 1464 * i + 152 + 129 * j) as E by (unfold hist_off; zlia).
  apply wp_term_memory; [done|rewrite E; lia|]. cbv zeta. rewrite E. destruct Hwf as [Hlen Hwf]. pose proof (Forall_lookup_1 _ _ _ _ Hwf Ht) as Wt.
  replace (Z.to_nat (1464 * i + 152 + 129 * j)) with (1464 * Z.to_nat i + (152 + 129 * Z.to_nat j))%nat by lia.
  rewrite <- drop_drop, (drop_terms _ _ t) by done. pose proof (length_term_bytes t Wt) as L. rewrite drop_app_le by lia.
  destruct (hist_bytes t h c (Z.to_nat j) Wt H ltac:(lia)) as [r ->]. rewrite <- app_assoc. cbn [app]. rewrite <- entry_pos by lia. intros B. by apply HQ.
Qed.

Lemma slot_strlen k i t h c j (Q : Z -> kernel -> Prop) : terms_wf k -> 0 <= i < MAX_TERM_NUM -> terminals (k_disp k) !! Z.to_nat i = Some t -> history t h c ->
  0 <= j <= 10 -> Q (Z.of_nat (length (entry h j))) k -> wp (strlen_at (hist_off i j)) Q k.
Proof.
  intros Hwf Hi Ht H Hj HQ. unfold strlen_at. wp_steps. apply (slot_memory k i t h c j); [done..|]. intros r _. eapply wp_lift; [|exact HQ].
  apply string_len. rewrite entry_pos by lia. by eapply entry_at.
Qed.

Lemma slot_copy k i t h c j (Q : list Z -> kernel -> Prop) : terms_wf k -> 0 <= i < MAX_TERM_NUM -> terminals (k_disp k) !! Z.to_nat i = Some t -> history t h c ->
  0 <= j <= 10 -> Q (entry h j) k -> wp (bytes_at (hist_off i j) (Z.of_nat (length (entry h j)))) Q k.
Proof.
  intros Hwf Hi Ht H Hj HQ. unfold bytes_at. wp_steps. apply (slot_memory k i t h c j); [done..|]. intros r _. rewrite length_app.
  rewrite (proj2 (Z.leb_le 0 _)), (proj2 (Z.leb_le _ (Z.of_nat _))) by lia. cbn [andb]. wp_steps. by rewrite Nat2Z.id, take_app_length.
Qed.

(** The slot before the first one is inside of the line buffer. *)
Lemma before_first k i t l (Q : Z -> kernel -> Prop) : terms_wf k -> 0 <= i < MAX_TERM_NUM -> terminals (k_disp k) !! Z.to_nat i = Some t -> line_term t l ->
  (length l <= 11)%nat -> Q 0 k -> wp (strlen_at (hist_off i (u32 (0 - 1)))) Q k.
Proof.
  intros Hwf Hi Ht (_ & Hkb & _) Hl HQ. assert (hist_off i (u32 (0 - 1)) = 1464 * i + 23) as E by (unfold hist_off; change (i32 (KEY_BUF_SIZE * u32 (0 - 1))) with (-129); lia).
  unfold strlen_at. wp_steps. apply wp_term_memory; [done|rewrite E; lia|]. cbv zeta. intros _. rewrite E. destruct Hwf as [Hlen Hwf]. pose proof (Forall_lookup_1 _ _ _ _ Hwf Ht) as Wt.
  replace (Z.to_nat (1464 * i + 23)) with (1464 * Z.to_nat i + (12 + 11))%nat by lia.
  rewrite <- drop_drop, (drop_terms _ _ t) by done. pose proof (length_term_bytes t Wt) as L. rewrite drop_app_le by lia. rewrite <- drop_drop, (drop_key_buf t (proj1 Wt)), Hkb.
  rewrite <- !app_assoc, drop_app_ge by lia. rewrite drop_app_le by (rewrite length_replicate; lia). rewrite drop_replicate.
  replace (129 - length l - (11 - length l))%nat with (S 117) by lia. cbn [replicate app]. eapply wp_lift; [reflexivity|exact HQ].
Qed.

(** ** Editing a line, with a history *)

(** On the visible terminal the line [l] is edited, the history is [h] and at [c]; the
    screen is [s0] with the line behind its cursor. *)
Definition editing (k : kernel) (h : list (list Z)) (col : Z) (s0 : screen) (l : list Z) (c : Z) : Prop :=
  let vis := vis_term_id (k_disp k) in
  0 <= vis < MAX_TERM_NUM /\ terms_wf k /\ color (k_disp k) = col /\
  exists t s, terminals (k_disp k) !! Z.to_nat vis = Some t /\ line_term t l /\ history t h c /\ shows k vis s /\ line_seen col s0 l s.

(** What the keys of the editor leave alone. *)
Definition same_keyboard (k k' : kernel) : Prop := vis_term_id (k_disp k') = vis_term_id (k_disp k) /\ k_kbd k' = k_kbd k.

Lemma same_keyboard_trans k1 k2 k3 : same_keyboard k1 k2 -> same_keyboard k2 k3 -> same_keyboard k1 k3.
Proof. intros [A B] [C D]. split; congruence. Qed.

Lemma i32_nat' (n : nat) : (n <= 128)%nat -> i32 (Z.of_nat n) = Z.of_nat n.
Proof. intros H. zlia. Qed.

Lemma line_id t b i : key_buf t = b -> key_buf_index t = i -> set_key_buf_index i (set_key_buf b t) = t.
Proof. intros <- <-. by destruct t. Qed.

Section editor.
Context (h : list (list Z)) (col : Z) (s0 : screen).
Hypothesis Hblank : blank_ahead col s0.

Lemma editing_line k l c : editing k h col s0 l c -> line_ok k l /\ exists s, shows k (vis_term_id (k_disp k)) s /\ line_seen col s0 l s.
Proof using All.
  intros (Hv & _ & _ & t & s & Ht & L & _ & Hs & Se). split; [|by exists s]. exists t, s. split_and!; [lia|done|done|done|apply Se|].
  destruct Se as (_ & Hc & _). destruct Hblank as ([P1 P2] & _). unfold cursor_cell in *. lia.
Qed.

Lemma line_term_wf t t' l : term_wf t -> same_but_line t t' -> line_term t' l -> term_wf t'.
Proof using.
  clear. intros (_ & _ & W) S (_ & Hkb & _ & Hl & B). unfold term_wf. rewrite Hkb. split_and!; [by apply (length_padded l); lia| |rewrite S; apply W..].
  apply Forall_app_2; [|apply Forall_replicate; unfold is_byte; lia]. eapply List.Forall_impl; [|exact B]. intros b Hb. cbn beta in Hb. unfold is_byte. lia.
Qed.

Lemma history_same t t' c : same_but_line t t' -> history t h c -> history t' h c.
Proof using. clear. intros S H. rewrite S. exact H. Qed.

(** A key that only edits the line. *)
Lemma editing_next k l c k' l' s' : editing k h col s0 l c -> line_ok k' l' -> edit_frame (vis_term_id (k_disp k)) k k' ->
  vis_term_id (k_disp k') = vis_term_id (k_disp k) -> shows k' (vis_term_id (k_disp k)) s' -> line_seen col s0 l' s' -> editing k' h col s0 l' c.
Proof using.
  clear. intros (Hv & Hwf & Hcol & t & s & Ht & _ & H & _) (t1 & s1 & _ & Ht1 & L1 & _) F V Hs' Se. pose proof (edit_frame_color _ _ _ F) as Ec.
  destruct F as (t0 & t' & m' & io' & fl & kb' & Ht0 & S & _ & Ek). rewrite Ht in Ht0. apply (inj Some) in Ht0. subst t0.
  assert (t1 = t') as ->.
  { rewrite V, Ek in Ht1. cbn [k_disp set_k_mem set_k_io set_k_cpu set_k_kbd] in Ht1. rewrite (with_term_lookup _ t' t) in Ht1 by done. by apply (inj Some) in Ht1. }
  pose proof (Forall_lookup_1 _ _ _ _ (proj2 Hwf) Ht) as Wt. unfold editing. rewrite V. split_and!; [lia|lia| |congruence|].
  - rewrite Ek. change (terms_wf (with_term (vis_term_id (k_disp k)) t' k)). apply terms_wf_with_term; [done|]. by eapply line_term_wf.
  - exists t', s'. rewrite V in Ht1. split_and!; [exact Ht1|exact L1|by eapply history_same|exact Hs'|exact Se].
Qed.

Lemma editing_cpu k l c fl : editing k h col s0 l c -> editing (set_k_cpu (set_iflag fl (k_cpu k)) k) h col s0 l c.
Proof using. clear. done. Qed.

Lemma plain_key_ok k l c key : editing k h col s0 l c -> -128 <= key < 128 -> plain_key (k_kbd k) key = true ->
  wp (process_input key) (fun _ k' => editing k' h col s0 (line_spec (k_kbd k) l key) c /\ k_kbd k' = kbd_spec (k_kbd k) key) k.
Proof using All.
  intros E Hk Hp. destruct (editing_line k l c E) as (L & s & Hs & Se). pose proof E as (_ & _ & Hcol & t & _ & _ & (_ & _ & _ & Hl & _) & _).
  eapply wp_mono; [|exact (process_plain_key k l key s L Hs Hk Hp)]. intros [] k' (H1 & H2 & H3 & H4 & H5). split; [|exact H2].
  eapply editing_next; [exact E|exact H1|exact H3|exact H4|exact H5|]. rewrite Hcol.
  apply (seen_keys [key] col (k_kbd k) l s0 s Hblank Se Hl). cbn [plain_keys]. rewrite Hp. rewrite (proj2 (Z.leb_le _ _)), (proj2 (Z.ltb_lt _ _)) by lia. done.
Qed.

Lemma press_backspace_ok k l x c : editing k h col s0 (l ++ [x]) c ->
  wp press_backspace (fun _ k' => editing k' h col s0 l c /\ same_keyboard k k') k.
Proof using All.
  intros E. unfold press_backspace, get_vis. wp_steps. set (k1 := set_k_cpu (set_iflag false (k_cpu k)) k). assert (editing k1 h col s0 (l ++ [x]) c) as E1 by exact E.
  destruct (editing_line k1 _ c E1) as (L & s & Hs & Se). pose proof E as (_ & _ & Hcol & t & _ & _ & (_ & _ & _ & Hl & _) & _). rewrite length_app in Hl. cbn [length] in Hl.
  eapply wp_mono; [|exact (backspace_line k1 _ s L Hs)]. intros [] k2 (H1 & H2 & H3 & H4 & H5). wp_steps. split; [|split; [exact H3|exact H4]].
  rewrite length_app, Nat.add_sub, take_app_length in H1. apply editing_cpu. eapply editing_next; [exact E1|exact H1|exact H2|exact H3|exact H5|].
  rewrite bool_decide_eq_false_2 by by destruct l. change (color (k_disp k1)) with (color (k_disp k)). rewrite Hcol. eapply seen_erase; [exact Se|lia|exact Hblank].
Qed.

Lemma clear_empty k c : editing k h col s0 [] c -> wp clear_buffer (fun _ k' => k' = k) k.
Proof using.
  clear. intros (Hv & Hwf & _ & t & s & Ht & (_ & Hkb & Hi & _) & _). cbn [length Nat.sub app] in Hkb, Hi.
  unfold clear_buffer, get_vis, strlen_at. wp_steps. set (vis := vis_term_id (k_disp k)) in *.
  apply (key_buf_at k vis t); [done|lia|done|]. intros _. rewrite Hkb. eapply wp_lift; [reflexivity|]. wp_steps.
  eapply wp_write_key_buf; [lia|exact Ht|rewrite Hkb; reflexivity|]. eapply wp_upd_with_term; [lia|exact Ht|].
  rewrite line_id; [by apply with_term_id|by rewrite Hkb|by rewrite Hi].
Qed.

(** The line is erased, in the buffer and on the screen. *)
Lemma clear_cur_cmd_ok k l c : editing k h col s0 l c -> wp clear_cur_cmd (fun _ k' => editing k' h col s0 [] c /\ same_keyboard k k') k.
Proof using All.
  intros E. pose proof E as (Hv & Hwf & _ & t & _ & Ht & (_ & _ & Hi & Hl & _) & _). unfold clear_cur_cmd, get_vis. wp_steps. eapply wp_get_term; [lia|exact Ht|]. rewrite Hi, i32_nat' by lia. wp_steps.
  rewrite Nat2Z.id. eapply wp_mono; [|apply (wp_for _ _ (fun i k' => editing k' h col s0 (take (length l - Z.to_nat i) l) c /\ same_keyboard k k'))].
  - intros [] k1 [E1 Sk]. rewrite Nat2Z.id, Nat.sub_diag in E1. cbn [take] in E1. wp_steps. eapply wp_mono; [|exact (clear_empty k1 c E1)]. intros [] k2 ->. by split.
  - intros i k1 Hi1 [E1 Sk]. assert (exists x, take (length l - Z.to_nat i) l = take (length l - Z.to_nat (i + 1)) l ++ [x]) as [x Ex].
    { destruct (lookup_lt_is_Some_2 l (length l - Z.to_nat (i + 1)) ltac:(lia)) as [x Hx]. exists x. replace (length l - Z.to_nat i)%nat with (S (length l - Z.to_nat (i + 1))) by lia. by apply take_S_r. }
    rewrite Ex in E1. eapply wp_mono; [|exact (press_backspace_ok k1 _ x c E1)]. intros [] k2 [E2 S2]. split; [exact E2|]. by eapply same_keyboard_trans.
  - change (Z.to_nat 0) with 0%nat. rewrite Nat.sub_0_r, take_ge by lia. by split.
Qed.

Lemma frame_wf i k k' t : terms_wf k -> edit_frame i k k' -> terminals (k_disp k') !! Z.to_nat i = Some t -> term_wf t -> terms_wf k'.
Proof using.
  clear. intros Hwf (t0 & t' & m' & io' & fl & kb' & Ht0 & _ & _ & ->) Ht Wt. cbn [k_disp set_k_mem set_k_io set_k_cpu set_k_kbd] in Ht.
  rewrite (with_term_lookup _ t' t0) in Ht by done. apply (inj Some) in Ht. subst t'. change (terms_wf (with_term i t k)). by apply terms_wf_with_term.
Qed.

(** The echo of a line that has been copied into the buffer. *)
Lemma print_line k vis t e s : vis_term_id (k_disp k) = vis -> 0 <= vis < MAX_TERM_NUM -> terms_wf k -> color (k_disp k) = col -> terminals (k_disp k) !! Z.to_nat vis = Some t ->
  key_buf t = padded e -> (length e <= 127)%nat -> Forall line_char e -> shows k vis s -> line_seen col s0 [] s ->
  wp (for_ (length e) (fun i => t ← get_term vis; b ← lift OutOfBounds (key_buf t !! Z.to_nat i); putc vis b)) (fun _ k' => same_keyboard k k' /\ terms_wf k' /\ color (k_disp k') = col /\
    exists t' s', terminals (k_disp k') !! Z.to_nat vis = Some t' /\ same_but_pos t t' /\ shows k' vis s' /\ line_seen col s0 e s') k.
Proof using All.
  intros Hvis Hv Hwf Hcol Ht Hkb Hl He Hs Se.
  eapply wp_mono; [|apply (wp_for _ _ (fun i k' => same_keyboard k k' /\ terms_wf k' /\ color (k_disp k') = col /\
    exists t' s', terminals (k_disp k') !! Z.to_nat vis = Some t' /\ same_but_pos t t' /\ shows k' vis s' /\ line_seen col s0 (take (Z.to_nat i) e) s'))].
  - intros [] k1. rewrite Nat2Z.id, take_ge by lia. done.
  - intros i k1 Hi (Sk & Hwf1 & Hcol1 & t1 & s1 & Ht1 & P1 & Hs1 & Se1). eapply wp_bind. eapply wp_get_term; [lia|exact Ht1|].
    assert (key_buf t1 = padded e) as Hkb1 by (rewrite P1; exact Hkb). destruct (lookup_lt_is_Some_2 e (Z.to_nat i) ltac:(lia)) as [x Hx].
    apply wp_bind. eapply wp_lift; [rewrite Hkb1; unfold padded; rewrite lookup_app_l by lia; exact Hx|].
    pose proof (Forall_lookup_1 _ _ _ _ He Hx) as (X1 & X2 & X3 & X4). pose proof (Forall_lookup_1 _ _ _ _ (proj2 Hwf1) Ht1) as Wt1.
    eapply wp_mono; [|apply (putc_line vis x t1 s1 k1 Ht1 Hs1); apply Se1]. intros [] k2 (t2 & Ht2 & P2 & Hs2 & F & V & K).
    split; [eapply same_keyboard_trans; [exact Sk|by split]|]. split; [eapply frame_wf; [exact Hwf1|exact F|exact Ht2|rewrite P2; exact Wt1]|].
    rewrite (edit_frame_color _ _ _ F), Hcol1. split; [done|]. rewrite Hcol1 in Hs2. exists t2, (putc_spec col x s1). split_and!; [exact Ht2|by eapply same_but_pos_trans|exact Hs2|].
    replace (Z.to_nat (i + 1)) with (S (Z.to_nat i)) by lia. rewrite (take_S_r _ _ _ Hx). apply seen_print; try done. rewrite length_take. lia.
  - split; [by split|]. split; [done|]. split; [done|]. exists t, s. split_and!; try done. by destruct t.
Qed.

(** An entry of the history becomes the line. *)
Lemma recall_ok k c j : editing k h col s0 [] c -> 0 <= j <= Z.of_nat (length h) ->
  wp (recall (vis_term_id (k_disp k)) (hist_off (vis_term_id (k_disp k)) j) (Z.of_nat (length (entry h j))) j) (fun _ k' => editing k' h col s0 (entry h j) j /\ same_keyboard k k') k.
Proof using All.
  intros (Hv & Hwf & Hcol & t & s & Ht & (Hnl & Hkb & Hi & _) & H & Hs & Se) Hj. set (vis := vis_term_id (k_disp k)) in *. cbn [length Nat.sub app] in Hkb, Hi.
  pose proof H as (H1 & H2 & H3 & H4 & H5 & H6). destruct (entry_at t h c (Z.to_nat j) H) as [He Hc]. rewrite <- entry_pos in He, Hc by lia. set (e := entry h j) in *.
  unfold recall. wp_steps. apply (slot_copy k vis t h c j); [done|lia|done|done|lia|]. fold e. wp_steps.
  assert (map u8 e = e) as Eu.
  { rewrite <- (map_id e) at 2. apply map_ext_in. intros x Hx. apply list_elem_of_In in Hx. rewrite Forall_forall in Hc. apply u8_small. destruct (Hc x Hx) as [? _]. lia. }
  eapply wp_write_key_buf; [lia|exact Ht|rewrite Hkb, arr_write_0 by (rewrite length_replicate; lia); reflexivity|]. rewrite Eu, drop_replicate. fold (padded e).
  wp_steps. eapply wp_upd_with_term; [lia|exact Ht|]. wp_steps. eapply wp_upd_with_term; [lia|exact Ht|]. wp_steps.
  set (t1 := set_key_buf_index _ _). rewrite Nat2Z.id. pose proof (Forall_lookup_1 _ _ _ _ (proj2 Hwf) Ht) as Wt.
  assert (term_wf t1) as Wt1.
  { destruct Wt as (_ & _ & W). split; [apply length_padded; lia|]. split; [|exact W]. apply Forall_app_2; [|apply Forall_replicate; unfold is_byte; lia].
    eapply List.Forall_impl; [|exact Hc]. intros b [Hb _]. unfold is_byte. lia. }
  eapply wp_mono; [|apply (print_line (with_term vis t1 k) vis t1 e s)]; try done.
  - intros [] k2 (Sk & Hwf2 & Hcol2 & t2 & s2 & Ht2 & P2 & Hs2 & Se2). split; [|exact Sk]. unfold editing. replace (vis_term_id (k_disp k2)) with vis by (symmetry; apply Sk).
    split; [done|]. split; [done|]. split; [done|]. exists t2, s2. split_and!; [exact Ht2| | |exact Hs2|exact Se2].
    + rewrite P2. split_and!; [exact Hnl|done|done|cbn; lia|]. eapply List.Forall_impl; [|exact Hc]. by intros b [? _].
    + rewrite P2. split_and!; try done; lia.
  - by apply terms_wf_with_term.
  - by eapply with_term_lookup.
  - rewrite (shows_pos k vis s t Ht Hs). by apply (shows_with_term vis t t1 s).
Qed.

Lemma entry_none j : Z.of_nat (length h) <= j -> entry h j = [].
Proof using. clear. intros Hj. rewrite entry_pos by lia. by rewrite lookup_ge_None_2 by lia. Qed.

Lemma entry_some t c j : history t h c -> 0 <= j < Z.of_nat (length h) -> entry h j <> [].
Proof using.
  clear. intros H Hj. rewrite entry_pos by lia. destruct (lookup_lt_is_Some_2 h (Z.to_nat j) ltac:(lia)) as [e He]. rewrite He. cbn.
  by destruct (history_entry t h c e H (list_elem_of_lookup_2 _ _ _ He)).
Qed.

(** What both keys do first. *)
Lemma clear_line k l c (Q : unit -> kernel -> Prop) : editing k h col s0 l c ->
  (forall k', editing k' h col s0 [] c -> same_keyboard k k' -> Q tt k') -> wp (clear_cur_cmd ;; clear_buffer) Q k.
Proof using All.
  intros E HQ. wp_steps. eapply wp_mono; [|exact (clear_cur_cmd_ok k l c E)]. intros [] k1 [E1 Sk]. wp_steps.
  eapply wp_mono; [|exact (clear_empty k1 c E1)]. intros [] k2 ->. by apply HQ.
Qed.

Lemma wp_assoc {A B C} (m : M A) (g : A -> M B) (r : B -> M C) Q k : wp ((m ≫= g) ≫= r) Q k -> wp (m ≫= fun x => g x ≫= r) Q k.
Proof using. clear. unfold wp, mbind, M_bind. by destruct (m k). Qed.

Lemma up_key_ok k l c : editing k h col s0 l c -> c <> 0 \/ (length l <= 11)%nat ->
  wp (up_key (vis_term_id (k_disp k))) (fun _ k' => (if c =? 0 then editing k' h col s0 l c else editing k' h col s0 (entry h (c - 1)) (c - 1)) /\ same_keyboard k k') k.
Proof using All.
  intros E Hc. pose proof E as (Hv & Hwf & _ & t & s & Ht & L & H & _). pose proof H as (_ & Hh & _ & Hcur & Hc' & _). unfold up_key. wp_steps. eapply wp_get_term; [lia|exact Ht|]. rewrite Hcur. wp_steps.
  destruct (Z.eqb_spec c 0) as [->|Hne].
  { apply (before_first k _ t l); [done|done|done|done|lia|]. wp_steps. by split. }
  rewrite u32_small by lia. apply (slot_strlen k _ t h c (c - 1)); [done|done|done|done|lia|].
  pose proof (entry_some t c (c - 1) H ltac:(lia)) as He. rewrite (proj2 (Z.eqb_neq (Z.of_nat _) 0)) by (destruct (entry h (c - 1)); [done|cbn; lia]).
  apply wp_assoc. apply wp_bind. apply (clear_line k l c); [done|]. intros k1 E1 Sk. pose proof E1 as (_ & _ & _ & t1 & _ & Ht1 & _ & (_ & _ & _ & Hcur1 & _) & _).
  destruct Sk as [V K]. rewrite <- V in *. wp_steps. eapply wp_get_term; [lia|exact Ht1|]. rewrite Hcur1, u32_small by lia.
  eapply wp_mono; [|apply (recall_ok k1 c (c - 1) E1); lia]. intros [] k2 [E2 S2]. split; [exact E2|]. eapply same_keyboard_trans; [|exact S2]. by split.
Qed.

Lemma editing_cur k c c' : editing k h col s0 [] c -> 0 <= c' <= Z.of_nat (length h) ->
  wp (upd_term (vis_term_id (k_disp k)) (set_cur_hist_index c')) (fun _ k' => editing k' h col s0 [] c' /\ same_keyboard k k') k.
Proof using.
  clear. intros (Hv & Hwf & Hcol & t & s & Ht & L & H & Hs & Se) Hc. eapply wp_upd_term; [lia|exact Ht|]. fold (with_term (vis_term_id (k_disp k)) (set_cur_hist_index c' t) k).
  pose proof (Forall_lookup_1 _ _ _ _ (proj2 Hwf) Ht) as Wt. pose proof H as (H1 & H2 & H3 & H4 & H5 & H6). split; [|by split]. split; [done|]. split; [by apply terms_wf_with_term|]. split; [done|].
  exists (set_cur_hist_index c' t), s. split_and!; [by eapply with_term_lookup|exact L|exact (conj H1 (conj H2 (conj H3 (conj eq_refl (conj Hc H6)))))|..].
  - change (vis_term_id (k_disp (with_term _ _ k))) with (vis_term_id (k_disp k)). rewrite (shows_pos k _ s t Ht Hs). by apply (shows_with_term _ t (set_cur_hist_index c' t)).
  - exact Se.
Qed.

Lemma down_key_ok k l c : editing k h col s0 l c -> c + 1 <= 10 ->
  wp (down_key (vis_term_id (k_disp k))) (fun _ k' => editing k' h col s0 (entry h (c + 1)) (Z.min (c + 1) (Z.of_nat (length h))) /\ same_keyboard k k') k.
Proof using All.
  intros E Hc. pose proof E as (Hv & Hwf & _ & t & s & Ht & L & H & _). pose proof H as (_ & Hh & _ & Hcur & Hc' & _). unfold down_key. wp_steps. eapply wp_get_term; [lia|exact Ht|]. rewrite Hcur. wp_steps.
  rewrite (u32_small (c + 1)) by lia. apply (slot_strlen k _ t h c c); [done|done|done|done|lia|]. wp_steps. apply (slot_strlen k _ t h c (c + 1)); [done|done|done|done|lia|].
  apply wp_assoc. apply wp_bind. apply (clear_line k l c); [done|]. intros k1 E1 Sk. pose proof E1 as (_ & _ & _ & t1 & _ & Ht1 & _ & (_ & _ & _ & Hcur1 & _) & _).
  destruct Sk as [V K]. rewrite <- V in *. wp_steps. eapply wp_get_term; [lia|exact Ht1|]. rewrite Hcur1, (u32_small (c + 1)) by lia.
  destruct (Z_lt_le_dec (c + 1) (Z.of_nat (length h))) as [Hlt|Hge].
  - pose proof (entry_some t c (c + 1) H ltac:(lia)) as He. rewrite (proj2 (Z.eqb_neq (Z.of_nat _) 0)) by (destruct (entry h (c + 1)); [done|cbn; lia]).
    rewrite Z.min_l by lia. eapply wp_mono; [|apply (recall_ok k1 c (c + 1) E1); lia]. intros [] k2 [E2 S2]. split; [exact E2|]. eapply same_keyboard_trans; [|exact S2]. by split.
  - rewrite (entry_none (c + 1)) by lia. change (Z.of_nat (length (@nil Z)) =? 0) with true. cbv iota. destruct (Z_lt_le_dec c (Z.of_nat (length h))) as [Hl|Hl].
    + pose proof (entry_some t c c H ltac:(lia)) as He. rewrite (proj2 (Z.eqb_neq (Z.of_nat _) 0)) by (destruct (entry h c); [done|cbn; lia]). cbn [negb].
      replace (Z.min (c + 1) (Z.of_nat (length h))) with (c + 1) by lia. eapply wp_mono; [|apply (editing_cur k1 c (c + 1) E1); lia].
      intros [] k2 [E2 S2]. split; [exact E2|]. eapply same_keyboard_trans; [|exact S2]. by split.
    + rewrite (entry_none c) by lia. change (Z.of_nat (length (@nil Z)) =? 0) with true. cbn [negb]. wp_steps. replace (Z.min (c + 1) (Z.of_nat (length h))) with c by lia. split; [exact E1|by split].
Qed.

Lemma wp_key_up vis (Q : bool -> kernel -> Prop) k : wp (up_key vis) (fun _ => Q true) k -> wp (key_down vis UP_KEY_P) Q k.
Proof using. clear. intros W. change (wp (up_key vis ;; mret true) Q k). wp_steps. exact W. Qed.
Lemma wp_key_down vis (Q : bool -> kernel -> Prop) k : wp (down_key vis) (fun _ => Q true) k -> wp (key_down vis DOWN_KEY_P) Q k.
Proof using. clear. intros W. change (wp (down_key vis ;; mret true) Q k). wp_steps. exact W. Qed.

Lemma nav_key_ok k l c key : editing k h col s0 l c -> nav_key h (k_kbd k) (l, c) key = true ->
  wp (process_input key) (fun _ k' => editing k' h col s0 (nav_spec h (k_kbd k) (l, c) key).1 (nav_spec h (k_kbd k) (l, c) key).2 /\ k_kbd k' = kbd_spec (k_kbd k) key) k.
Proof using All.
  intros E Hk. unfold nav_key, nav_spec in *. pose proof E as (Hv & _ & _ & t & s & _ & _ & (_ & _ & _ & _ & Hc & _) & _).
  set (k1 := set_k_cpu (set_iflag false (k_cpu k)) k). assert (editing k1 h col s0 l c) as E1 by exact E.
  destruct (Z.eqb_spec key UP_KEY_P) as [->|Hu]; [|destruct (Z.eqb_spec key DOWN_KEY_P) as [->|Hd]].
  - unfold process_input, get_vis. wp_steps. change (0 <=? UP_KEY_P) with true. cbv iota. apply wp_bind. apply wp_key_up.
    eapply wp_mono; [|apply (up_key_ok k1 l c E1)]; [|apply orb_true_iff in Hk as [Hk|Hk]; [left; by apply negb_true_iff, Z.eqb_neq in Hk|right; apply Z.leb_le in Hk; lia]].
    intros [] k2 [E2 [_ K]]. wp_steps. split; [|exact K]. destruct (c =? 0); exact E2.
  - unfold process_input, get_vis. wp_steps. change (0 <=? DOWN_KEY_P) with true. cbv iota. apply wp_bind. apply wp_key_down.
    apply Z.leb_le in Hk. eapply wp_mono; [|apply (down_key_ok k1 l c E1 Hk)]. intros [] k2 [E2 [_ K]]. wp_steps. split; [exact E2|exact K].
  - b2p. apply plain_key_ok; [exact E|lia|done].
Qed.

Lemma nav_keys_ok cs : forall k l c, editing k h col s0 l c -> nav_keys h (k_kbd k) (l, c) cs = true ->
  wp (process_inputs cs) (fun _ k' => let '(kb', (l', c')) := navs h (k_kbd k) (l, c) cs in editing k' h col s0 l' c' /\ k_kbd k' = kb') k.
Proof using All.
  induction cs as [|key cs IH]; intros k l c E Hk; cbn [process_inputs navs]; [wp_steps; by split|]. cbn [nav_keys] in Hk. apply andb_true_iff in Hk as [Hk Hks].
  wp_steps. eapply wp_mono; [|exact (nav_key_ok k l c key E Hk)]. intros [] k1 [E1 K1]. cbn beta. rewrite <- K1 in *. destruct (nav_spec h (k_kbd k) (l, c) key) as [l1 c1]. exact (IH k1 l1 c1 E1 Hks).
Qed.
End editor.

(** ** Properties *)

(** [C17] Typing with a history: when the screen is blank from the cursor on and has room for a
    line, then any sequence of printing, modifier, backspace, UP and DOWN keys refines an
    editor of a line and a place in the history - UP recalls the entry before the place,
    DOWN the one behind it or an empty line at the end - in the line buffer and on the
    screen, which shows the line in place of the one it showed before and nothing else
    differently; the history stays as it is.  (UP at the beginning needs a line of at
    most 11 characters, DOWN at the end a history of at most 9: otherwise they read bytes
    of other fields.) *)
Theorem history_keys_edit_line cs k h col s0 l c : blank_ahead col s0 -> editing k h col s0 l c -> nav_keys h (k_kbd k) (l, c) cs = true ->
  exists k', process_inputs cs k = Ret tt k' /\ let '(kb', (l', c')) := navs h (k_kbd k) (l, c) cs in k_kbd k' = kb' /\ editing k' h col s0 l' c'.
Proof.
  intros Hb E Hk. pose proof (nav_keys_ok h col s0 Hb cs k l c E Hk) as W. apply wp_ret_iff in W as ([] & k' & Er & W). exists k'. split; [exact Er|].
  destruct (navs _ _ _ _) as [kb' [l' c']]. by destruct W.
Qed.

(** ** Remembering a line *)

(** A line is remembered when there is room, when it is not empty and when the last one
    does not start with it. *)
Definition remember (h : list (list Z)) (l : list Z) : list (list Z) :=
  if (Z.of_nat (length h) =? 10) || bool_decide (l = []) || is_prefix l (default [] (last h)) then h else h ++ [l].

(** The string that a line is compared with: the last entry, or what is in the line buffer
    behind the eleventh character. *)
Definition last_entry (h : list (list Z)) (l : list Z) : list Z :=
  match last h with Some e => e | None => if decide (length l <= 10)%nat then [] else drop 11 l ++ [10] end.

Lemma prefix_length p l : is_prefix p l = true -> (length p <= length l)%nat.
Proof.
  revert l. induction p as [|c p IH]; intros [|d l]; cbn; try done; [lia|]. intros H. apply andb_true_iff in H as [_ H]. apply IH in H. lia.
Qed.

Lemma last_entry_prefix h l : l <> [] -> is_prefix l (last_entry h l) = is_prefix l (default [] (last h)).
Proof.
  intros Hl. unfold last_entry. destruct (last h) as [e|]; [done|]. cbn [default]. transitivity false.
  - apply not_true_iff_false. intros H%prefix_length. destruct (decide _); [destruct l; [done|cbn in H; lia]|]. rewrite length_app, length_drop in H. cbn in H. lia.
  - symmetry. by destruct l.
Qed.

Lemma agrees_string x r : agrees (arr_at (x ++ 0 :: r)) x.
Proof.
  intros i Hi. unfold arr_at. destruct (Z.eq_dec i (Z.of_nat (length x))) as [->|Hn].
  - rewrite Nat2Z.id, !lookup_app_r, !Nat.sub_diag by lia. done.
  - by rewrite !lookup_app_l by lia.
Qed.

(** Reading it. *)
Lemma last_memory k i t h c l (Q : list Z -> kernel -> Prop) : terms_wf k -> 0 <= i < MAX_TERM_NUM -> terminals (k_disp k) !! Z.to_nat i = Some t -> history t h c ->
  key_buf t = entered_buf l -> (length l <= 127)%nat -> (forall r, Forall is_byte (last_entry h l ++ 0 :: r) -> Q (last_entry h l ++ 0 :: r) k) ->
  wp (term_memory (hist_off i (u32 (hist_buf_index t - 1)))) Q k.
Proof.
  intros Hwf Hi Ht H Hkb Hl HQ. pose proof H as (_ & Hh & Hidx & _). rewrite Hidx. destruct (decide (h = [])) as [->|Hne].
  - assert (hist_off i (u32 (Z.of_nat (length (@nil (list Z))) - 1)) = 1464 * i + 23) as E by (unfold hist_off; change (i32 (KEY_BUF_SIZE * u32 (Z.of_nat (length (@nil (list Z))) - 1))) with (-129); lia).
    apply wp_term_memory; [done|rewrite E; lia|]. cbv zeta. rewrite E. destruct Hwf as [Hlen Hwf]. pose proof (Forall_lookup_1 _ _ _ _ Hwf Ht) as Wt.
    replace (Z.to_nat (1464 * i + 23)) with (1464 * Z.to_nat i + (12 + 11))%nat by lia.
    rewrite <- drop_drop, (drop_terms _ _ t) by done. pose proof (length_term_bytes t Wt) as L. rewrite drop_app_le by lia. rewrite <- drop_drop, (drop_key_buf t (proj1 Wt)), Hkb.
    assert (exists r, drop 11 (entered_buf l) = last_entry [] l ++ 0 :: r) as [r Er].
    { unfold entered_buf, last_entry. cbn [last]. destruct (decide (length l <= 10)%nat) as [H10|H10].
      - rewrite drop_app_ge by lia. replace (11 - length l)%nat with (S (10 - length l)) by lia. cbn [drop]. rewrite drop_replicate.
        replace (128 - length l - (10 - length l))%nat with (S 117) by lia. cbn [replicate app]. by eexists.
      - rewrite drop_app_le by lia. replace (128 - length l)%nat with (S (127 - length l)) by lia. cbn [replicate]. eexists. by rewrite <- app_assoc. }
    rewrite drop_app_le by (rewrite (entered_len l) by done; lia). rewrite Er, <- !app_assoc. cbn [app]. intros B. by apply HQ.
  - destruct (exists_last Hne) as (h0 & e & ->). rewrite length_app in *. cbn [length] in *.
    replace (u32 (Z.of_nat (length h0 + 1) - 1)) with (Z.of_nat (length h0)) by (rewrite u32_small by lia; lia).
    apply (slot_memory k i t (h0 ++ [e]) c (Z.of_nat (length h0))); [done|done|done|done|lia|]. rewrite entry_pos, Nat2Z.id, lookup_app_r, Nat.sub_diag by lia.
    cbn [lookup list_lookup default]. intros r B. assert (last_entry (h0 ++ [e]) l = e) as El by (unfold last_entry; by rewrite last_snoc). rewrite <- El in B |- *. by apply HQ.
Qed.

(** The comparison of add_to_history. *)
Lemma compared x r l r' : Forall is_byte (x ++ 0 :: r) -> Forall is_byte (l ++ 10 :: r') -> Forall line_char l -> (length l <= 127)%nat ->
  exists v, strncmp (arr_at (x ++ 0 :: r)) (arr_at (l ++ 10 :: r')) (Z.of_nat (length l)) = Some v /\ (v = 0 <-> is_prefix l x = true).
Proof.
  intros B1 B2 F Hl. destruct (strncmp_spec (arr_at (x ++ 0 :: r)) (arr_at (l ++ 10 :: r')) (Z.of_nat (length l))) as (v & E & _); [by apply arr_at_bytes..|lia|].
  exists v. split; [exact E|]. assert (0 <= Z.of_nat (length l) < W32) as Hw by lia. rewrite (strncmp_zero _ _ _ v (arr_at_bytes _ B1) (arr_at_bytes _ B2) Hw E).
  assert (Forall (fun c => 0 < c) l) as Fl by (eapply List.Forall_impl; [|exact F]; intros b [? _]; lia).
  rewrite <- (strncmp_prefix (arr_at (x ++ 0 :: r)) (arr_at (l ++ [0])) l x); [|apply agrees_string|by intros i _|exact Fl].
  unfold str_eqn. split; intros H i Hi Hn; rewrite H by done; unfold arr_at; by rewrite !lookup_app_l by lia.
Qed.

(** A slot of the array gets a line. *)
Lemma history_add t h c l : history t h c -> (length h < 10)%nat -> l <> [] -> (length l <= 127)%nat -> Forall line_char l ->
  let t' := set_hist_buf (<[length h := l ++ drop (length l) (replicate 129 0)]> (hist_buf t)) (set_hist_buf_index (Z.of_nat (length h) + 1) t) in
  history (set_cur_hist_index (Z.of_nat (length h) + 1) t') (h ++ [l]) (Z.of_nat (length (h ++ [l]))).
Proof.
  intros (H1 & H2 & H3 & H4 & H5 & H6) Hh Hl Hl' F t'. rewrite length_app. cbn [length].
  assert (hist_buf t' = map padded (h ++ [l]) ++ replicate (10 - (length h + 1)) (replicate 129 0)) as E.
  { unfold t'. cbn [hist_buf set_hist_buf]. rewrite H1, drop_replicate. fold (padded l). rewrite map_app, <- app_assoc.
    replace (10 - length h)%nat with (S (10 - (length h + 1))) by lia. cbn [replicate map app].
    rewrite insert_app_r_alt by (rewrite length_map; lia). by rewrite length_map, Nat.sub_diag. }
  unfold history. rewrite length_app. cbn [length]. split_and!; [exact E|lia|cbn; lia|cbn; lia|lia|lia|].
  apply list.Forall_app. split; [exact H6|]. by apply list.Forall_cons; split; [|apply list.Forall_nil_2].
Qed.

(** [C18] Reading a line remembers it: add_to_history puts the entered line at the end of the
    history when the history has fewer than ten lines, the line is not empty and the last
    entry does not start with it - so also a line that is shorter than the last one and
    not the same is left out - and sets the place of UP and DOWN behind the last entry. *)
Theorem entered_line_is_remembered k t h c l : let vis := vis_term_id (k_disp k) in
  terms_wf k -> 0 <= vis < MAX_TERM_NUM -> terminals (k_disp k) !! Z.to_nat vis = Some t -> history t h c -> key_buf t = entered_buf l -> (length l <= 127)%nat -> Forall line_char l ->
  exists t', add_to_history vis k = Ret tt (with_term vis t' k) /\ same_but_hist t t' /\
    history t' (remember h l) (if Z.of_nat (length h) =? 10 then c else Z.of_nat (length (remember h l))).
Proof.
  intros vis Hwf Hv Ht H Hkb Hl F. pose proof H as (H1 & H2 & H3 & H4 & H5 & H6).
  cut (wp (add_to_history vis) (fun _ k' => exists t', k' = with_term vis t' k /\ same_but_hist t t' /\
    history t' (remember h l) (if Z.of_nat (length h) =? 10 then c else Z.of_nat (length (remember h l)))) k).
  { intros W. apply wp_ret_iff in W as ([] & k' & E & t' & -> & W). by exists t'. }
  assert (Forall (fun b => 0 < b < W8) l) as B by (eapply List.Forall_impl; [|exact F]; by intros b [? _]).
  unfold add_to_history, get_vis. wp_steps. fold vis. eapply wp_get_term; [lia|exact Ht|]. wp_steps. rewrite H3. unfold remember.
  destruct (Z.leb_spec HIST_COM_NUM (Z.of_nat (length h))) as [Hfull|Hroom].
  { rewrite (proj2 (Z.eqb_eq (Z.of_nat (length h)) 10)) by lia. cbn [orb]. wp_steps. exists t. split_and!; [by rewrite with_term_id|by destruct t|exact H]. }
  rewrite (proj2 (Z.eqb_neq (Z.of_nat (length h)) 10)) by lia. cbn [orb].
  unfold strlen_at. wp_steps. apply (key_buf_at k vis t); [done..|]. intros By. wp_steps.
  eapply wp_lift; [rewrite Hkb; by apply entered_strlen|]. cbv zeta. replace (Z.of_nat (length l) + 1 - 1) with (Z.of_nat (length l)) by lia. wp_steps.
  apply (key_buf_at k vis t); [done..|]. intros _. wp_steps. rewrite <- H3. apply (last_memory k vis t h c l); [done..|]. intros r Bl. wp_steps. rewrite H3.
  assert (forall t' h', history (set_cur_hist_index (Z.of_nat (length h')) t') h' (Z.of_nat (length h')) -> hist_buf_index t' = Z.of_nat (length h') -> same_but_hist t t' ->
    wp (upd_term vis (fun t => set_cur_hist_index (hist_buf_index t) t)) (fun _ k' => exists t', k' = with_term vis t' k /\ same_but_hist t t' /\ history t' h' (Z.of_nat (length h'))) (with_term vis t' k)) as Fin.
  { intros t' h' Hh' Hi St'. eapply wp_upd_with_term; [lia|exact Ht|]. rewrite Hi. eexists. split_and!; [reflexivity| |exact Hh']. rewrite St'. by destruct t. }
  assert (history (set_cur_hist_index (Z.of_nat (length h)) t) h (Z.of_nat (length h))) as Hsame by exact (conj H1 (conj H2 (conj H3 (conj eq_refl (conj (conj (Nat2Z.is_nonneg _) (Z.le_refl _)) H6))))).
  destruct (decide (l = [])) as [->|Hne].
  { cbn [length Z.of_nat c_true Z.eqb negb]. wp_steps. specialize (Fin t h Hsame H3 ltac:(by destruct t)). by rewrite with_term_id in Fin. }
  rewrite bool_decide_eq_false_2 by done. cbn [orb]. unfold c_true at 1. rewrite (proj2 (Z.eqb_neq (Z.of_nat (length l)) 0)) by (destruct l; [done|cbn; lia]). cbn [negb].
  rewrite u32_small by lia. assert (key_buf t ++ after_key_buf k vis t = l ++ 10 :: (replicate (128 - length l) 0 ++ after_key_buf k vis t)) as Ek by (rewrite Hkb; unfold entered_buf; by rewrite <- app_assoc).
  rewrite Ek in By |- *. destruct (compared (last_entry h l) r l _ Bl By F Hl) as (v & -> & Hv0). rewrite last_entry_prefix in Hv0 by done.
  eapply wp_lift; [reflexivity|]. wp_steps. destruct (is_prefix l (default [] (last h))) eqn:Ep.
  { rewrite (proj2 Hv0) by done. unfold c_true. cbn [Z.eqb negb]. wp_steps. specialize (Fin t h Hsame H3 ltac:(by destruct t)). by rewrite with_term_id in Fin. }
  assert (v <> 0) as Hv1 by (intros E; by apply Hv0 in E). unfold c_true at 1. rewrite (proj2 (Z.eqb_neq v 0)) by done. cbn [negb]. rewrite !Nat2Z.id.
  pose proof (history_slot t h c (length h) H ltac:(lia)) as Hslot. rewrite (lookup_ge_None_2 h) in Hslot by lia. change (padded (default [] None)) with (replicate 129 0) in Hslot.
  assert (map u8 l = l) as Eu.
  { rewrite <- (map_id l) at 2. apply map_ext_in. intros x Hx. apply list_elem_of_In in Hx. rewrite Forall_forall in B. specialize (B x Hx). apply u8_small. lia. }
  wp_steps. eapply wp_lift; [exact Hslot|]. wp_steps. eapply wp_lift.
  { rewrite (proj2 (Z.leb_le _ _)) by lia. rewrite ?Nat2Z.id, take_app_length. rewrite arr_write_0 by (rewrite length_replicate; lia). by rewrite Eu. }
  eapply wp_upd_term; [lia|exact Ht|]. rewrite H3, Nat2Z.id, u32_small by lia.
  pose proof (history_add t h c l H ltac:(lia) Hne Hl F) as HA. cbv zeta in HA. refine (Fin _ _ _ _ _); [|rewrite length_app; cbn; lia|by destruct t].
  rewrite length_app in HA |- *. cbn [length] in HA |- *. replace (Z.of_nat (length h + 1)) with (Z.of_nat (length h) + 1) in HA |- * by lia. exact HA.
Qed.

(** ** Witnesses *)

(** A terminal that remembers ls and cat. *)
Definition demo_term : term_t :=
  let t := term_start 0 term_boot in
  set_cur_hist_index 2 (set_hist_buf_index 2 (set_hist_buf (<[1%nat := padded [99; 97; 116]]> (<[0%nat := padded [108; 115]]> (hist_buf t))) t)).
Definition demo_history : list (list Z) := [[108; 115]; [99; 97; 116]].
Definition history_terms : kernel := with_term 0 demo_term three_terms.

Lemma demo_term_wf : term_wf demo_term.
Proof.
  assert (Forall is_byte (replicate 129 0)) as Z by (apply Forall_replicate; unfold is_byte; lia).
  split; [reflexivity|]. split; [exact Z|]. split; [reflexivity|]. split; [|cbn; lia].
  change (hist_buf demo_term) with (padded [108; 115] :: padded [99; 97; 116] :: replicate 8 (replicate 129 0)).
  apply Forall_cons_2; [|apply Forall_cons_2; [|exact (Forall_replicate _ 8 _ (conj (length_replicate 129 0) Z))]];
    (split; [reflexivity|]); apply Forall_app_2; try (apply Forall_replicate; unfold is_byte; lia);
    repeat (apply Forall_cons_2; [unfold is_byte; lia|]); apply Forall_nil_2.
Qed.

Lemma demo_term_history : history demo_term demo_history 2.
Proof.
  refine (conj eq_refl (conj _ (conj eq_refl (conj eq_refl (conj _ _))))); [cbn; lia|cbn; lia|].
  repeat (apply Forall_cons_2; [split; [discriminate|split; [cbn; lia|repeat (apply Forall_cons_2; [unfold line_char; lia|]); apply Forall_nil_2]]|]). apply Forall_nil_2.
Qed.

Lemma history_terms_wf : terms_wf history_terms.
Proof.
  apply terms_wf_with_term; [|exact demo_term_wf]. split; [reflexivity|]. repeat (apply Forall_cons_2; [apply term_start_wf|]). apply Forall_nil_2.
Qed.

Lemma history_ready : exists k0 s, clear_screen history_terms = Ret tt k0 /\ k_kbd k0 = k_kbd three_terms /\ blank_ahead 7 s /\ editing k0 demo_history 7 s [] 2.
Proof.
  pose proof (wp_clear_screen history_terms demo_term ltac:(cbn; lia) eq_refl) as W.
  destruct (proj1 (wp_ret_iff _ _ _) W) as ([] & k0 & E & m & io & C & _ & Ek). clear W.
  set (t := set_curs_c 0 (set_curs_r 0 (set_scrn_c 0 (set_scrn_r 0 demo_term)))) in Ek.
  assert (terminals (k_disp k0) !! Z.to_nat 0 = Some t) as Ht by (rewrite Ek; reflexivity).
  assert (shows k0 0 (screen_at k0 t)) as Hs by (apply shows_screen_at; [lia|exact Ht]).
  assert (vis_term_id (k_disp k0) = 0) as Hv by (rewrite Ek; reflexivity).
  assert (blank_ahead 7 (screen_at k0 t)) as Hb.
  { split; [split; cbn; lia|]. change (cursor_cell (screen_at k0 t)) with 0. split; [lia|]. intros o Ho. cbn [screen_at s_cells]. change (vid_mem t) with VIDEO_ADDR.
    rewrite Ek. change (k_mem (set_k_mem m _)) with m. change (color (k_disp history_terms)) with 7 in C.
    rewrite (mem_copied_in _ _ _ _ _ (VIDEO_ADDR + o) C ltac:(lia) o ltac:(lia) eq_refl). unfold blank_cell. by case_if. }
  exists k0, (screen_at k0 t). split_and!; [exact E|rewrite Ek; reflexivity|exact Hb|]. unfold editing. rewrite Hv.
  split; [lia|]. split; [|split; [rewrite Ek; reflexivity|]].
  - rewrite Ek. change (terms_wf (with_term 0 t history_terms)). apply terms_wf_with_term; [exact history_terms_wf|exact demo_term_wf].
  - exists t, (screen_at k0 t). split_and!; [exact Ht| |exact demo_term_history|exact Hs|].
    + split_and!; [reflexivity|reflexivity|reflexivity|cbn; lia|constructor].
    + split; [apply Hb|]. split; [cbn; lia|]. intros o Ho. unfold line_cells. cbn [length Z.of_nat]. destruct (_ && _) eqn:B; [|done]. b2p. lia.
Qed.

(** x, UP, UP, s, DOWN: the line is cat. *)
Lemma history_keys_edit_line_witness : exists k0 k' s, clear_screen history_terms = Ret tt k0 /\
  process_inputs [0x2D; 0x48; 0x48; 0x1F; 0x50] k0 = Ret tt k' /\ editing k' demo_history 7 s [99; 97; 116] 1.
Proof.
  destruct history_ready as (k0 & s & E0 & Hk & Hb & He).
  destruct (history_keys_edit_line [0x2D; 0x48; 0x48; 0x1F; 0x50] k0 demo_history 7 s [] 2) as (k' & E & H).
  - exact Hb.
  - exact He.
  - rewrite Hk. vm_compute. reflexivity.
  - rewrite Hk in H. exists k0, k', s. split; [exact E0|]. split; [exact E|]. apply H.
Defined.

(** Entering "ps" after ls and cat. *)
Lemma entered_line_is_remembered_witness : let k := with_term 0 (set_key_buf (entered_buf [112; 115]) demo_term) three_terms in
  exists t', add_to_history 0 k = Ret tt (with_term 0 t' k) /\ history t' [[108; 115]; [99; 97; 116]; [112; 115]] 3.
Proof.
  intros k. destruct (entered_line_is_remembered k (set_key_buf (entered_buf [112; 115]) demo_term) demo_history 2 [112; 115]) as (t' & E & _ & H).
  - apply terms_wf_with_term; [exact (proj1 (conj three_terms_wf I))|]. destruct demo_term_wf as (_ & _ & W). split; [reflexivity|]. split; [|exact W].
    apply Forall_app_2; [repeat (apply Forall_cons_2; [unfold is_byte; lia|]); apply Forall_nil_2|]. apply Forall_cons_2; [unfold is_byte; lia|]. apply Forall_replicate. unfold is_byte. lia.
  - cbn. lia.
  - reflexivity.
  - exact demo_term_history.
  - reflexivity.
  - cbn. lia.
  - repeat (apply Forall_cons_2; [unfold line_char; lia|]). apply Forall_nil_2.
  - exists t'. split; [exact E|exact H].
Defined.
