(* ===== verification/Grep.v ===== *)
(** * grep

    The program ece391grep.c (Programs.v) prints, for every file of the directory that is a
    text with lines of up to 1023 characters, the lines that contain its argument
    (GrepText.v); whatever the other files are, it goes on.  *)

From Stdlib Require Import ZArith Lia String.
From stdpp Require Import gmap list numbers strings.
From S2P Require Import Prelude Memory LibString State Display Printf I8259 Paging Pcb Rtc FileSystem Vfs Keyboard Terminal Syscalls Execute Calls UserLib Process Programs Clients Devices GrepText Commands Userland.

(** ** Copies of strings *)

(** A string is copied down over itself. *)
Lemma strcpy_down m dst src l : is_cstr (at_ m src) l -> 0 <= dst <= src -> src + l + 1 <= W32 ->
  exists m', ece391_strcpy m dst src = Some m' /\ mem_copied m m' dst (at_ m src) (l + 1).
Proof.
  intros (Hl & Hnz & Hz) Hd Hs. unfold ece391_strcpy.
  apply (run_loop_rule _ (fun '(m', i) => 0 <= i <= l /\ mem_copied m m' dst (at_ m src) i) (fun m' => mem_copied m m' dst (at_ m src) (l + 1)) (fun '(_, i) => l - i)).
  - intros [m' i] [Hi Hc]. cbv zeta. assert (rd m' (src + i) = at_ m src i) as -> by (apply (mem_copied_rd _ _ _ _ _ _ Hc); lia).
    pose proof (mem_copied_snoc m m' dst (at_ m src) i ltac:(lia) Hc) as Hc'. destruct (Z.eq_dec i l) as [->|Hne].
    + rewrite Hz in *. cbn [Z.eqb negb]. exact Hc'.
    + rewrite (proj2 (Z.eqb_neq 0 _)) by (intros E; by apply (Hnz i ltac:(lia))). cbn [negb]. rewrite u32_small by lia. split; [|lia]. split; [lia|exact Hc'].
  - split; [lia|apply mem_copied_0].
  - lia.
Qed.

Class OsCopy (P : view -> kernel -> Prop) := {
  os_strcpy u dst src l : str_at u src l -> in_page dst (l + 1) -> dst <= src -> acts P (u_strcpy dst src) u tt (with_bytes dst (l + 1) (bytes_of u src) u)
}.

Lemma proc_strcpy E (HE : env_ok E) u dst src l : str_at u src l -> in_page dst (l + 1) -> dst <= src ->
  acts (process E) (u_strcpy dst src) u tt (with_bytes dst (l + 1) (bytes_of u src) u).
Proof.
  intros [(C1 & C2 & C3) (S1 & S2 & S3)] Hd Hle k Hk. pose proof Hd as (D1 & D2 & D3). unfold u_strcpy. wp_steps.
  apply (process_ptr E HE u k); [done|lia|]. wp_steps. apply (process_ptr E HE u k); [done|lia|]. unfold mem_op. wp_steps.
  assert (forall i, 0 <= i <= l -> at_ (k_mem k) (phys E src) i = bytes_of u src i) as A by (intros i Hi; apply (process_at E HE u k src i Hk); lia).
  destruct (env_facts E HE) as (_ & F1 & F2 & _). unfold phys in *.
  destruct (strcpy_down (k_mem k) (e_base E + (dst - PROGRAM_VIRT)) (e_base E + (src - PROGRAM_VIRT)) l) as (m' & Em & Cp).
  { split_and!; [done|intros i Hi; rewrite A by lia; by apply C2|by rewrite A by lia]. }
  { lia. }
  { lia. }
  eapply wp_lift; [exact Em|]. wp_steps. eexists. split; [done|]. apply (process_copied E HE u k dst (l + 1)); [done|done|].
  eapply mem_copied_ext; [|exact Cp]. intros i Hi. by rewrite A by lia.
Qed.

#[export] Instance process_copy E (HE : env_ok E) : OsCopy (process E).
Proof. split. by apply proc_strcpy. Qed.

(** ** Strings *)

Lemma cstr_exists (g : Z -> Z) n : 0 <= n -> g n = 0 -> exists l, 0 <= l <= n /\ is_cstr g l.
Proof.
  intros Hn Hz. assert (forall k : nat, (exists l, 0 <= l < Z.of_nat k /\ is_cstr g l) \/ forall i, 0 <= i < Z.of_nat k -> g i <> 0) as H.
  { induction k as [|k [(l & Hl & C)|IH]]; [right; intros; lia|left; exists l; split; [lia|done]|].
    destruct (Z.eq_dec (g (Z.of_nat k)) 0) as [E|E]; [left; exists (Z.of_nat k); split; [lia|]; exact (conj (Nat2Z.is_nonneg k) (conj IH E))|].
    right. intros i Hi. destruct (Z.eq_dec i (Z.of_nat k)) as [->|]; [done|]. apply IH. lia. }
  destruct (H (S (Z.to_nat n))) as [(l & Hl & C)|Hnz]; [exists l; split; [lia|done]|]. exfalso. by apply (Hnz n); [lia|].
Qed.

Definition is_text (l : list Z) : Prop := Forall (fun c => 0 < c < W8) l.

Lemma is_text_nonzero l : is_text l -> Forall (fun c => c <> 0) l.
Proof. intros H. eapply List.Forall_impl; [|exact H]. cbn beta. lia. Qed.

(** ** The buffer *)

Section buffer.
Context (data : Z).

(** Only the buffer has changed, and [t] has been printed. *)
Definition wrote (t : list Z) (u u' : view) : Prop :=
  (forall va, va < data \/ data + 1025 <= va -> v_mem u' va = v_mem u va) /\ v_fds u' = v_fds u /\ v_color u' = v_color u /\ v_kbd u' = v_kbd u /\
  v_screen u' = text_spec (v_color u) t (v_screen u).

Lemma wrote_refl u : wrote [] u u.
Proof using. by split_and!. Qed.

Lemma wrote_trans t1 t2 u1 u2 u3 : wrote t1 u1 u2 -> wrote t2 u2 u3 -> wrote (t1 ++ t2) u1 u3.
Proof using.
  intros (A1 & A2 & A3 & A4 & A5) (B1 & B2 & B3 & B4 & B5). split_and!; try congruence.
  - intros va Hva. by rewrite B1, A1.
  - rewrite B5, A5, A3. unfold text_spec. by rewrite fold_left_app.
Qed.

Lemma wrote_printed t u : wrote t u (printed t u).
Proof using. by split_and!. Qed.

Lemma wrote_bytes p n g u : data <= p -> p + n <= data + 1025 -> wrote [] u (with_bytes p n g u).
Proof using.
  intros H1 H2. split_and!; try done. intros va Hva. cbn [v_mem with_bytes]. destruct (Z.leb_spec p va); [|done]. by rewrite (proj2 (Z.ltb_ge _ _)) by lia.
Qed.

Lemma holds_wrote t u u' p l : wrote t u u' -> apart p (Z.of_nat (length l) + 1) data 1025 -> holds u p l -> holds u' p l.
Proof using. intros (W & _) A [Hp H]. split; [done|]. intros i Hi. unfold bytes_of, apart in *. rewrite W by lia. by apply H. Qed.

Lemma agrees_holds u p l : holds u p l -> agrees (bytes_of u p) l.
Proof using. by intros [_ H]. Qed.

(** The characters of the buffer from [a] to [b]. *)
Definition piece (u : view) (a b : Z) : list Z := chars (bytes_of u (data + a)) (b - a).

Lemma piece_length u a b : a <= b -> Z.of_nat (length (piece u a b)) = b - a.
Proof using. intros H. unfold piece, chars. rewrite length_map, length_seqZ. lia. Qed.

Lemma piece_lookup u a b i c : piece u a b !! i = Some c <-> a + Z.of_nat i < b /\ bytes_of u data (a + Z.of_nat i) = c.
Proof using.
  unfold piece, chars. rewrite list_lookup_fmap. split.
  - destruct (seqZ 0 (b - a) !! i) as [j|] eqn:E; [|done]. cbn. intros [= <-]. apply lookup_seqZ in E as [-> Hi]. split; [lia|]. unfold bytes_of. f_equal. lia.
  - intros [Hi <-]. rewrite lookup_seqZ_lt by lia. cbn. f_equal. unfold bytes_of. f_equal. lia.
Qed.

Lemma piece_drop u a b i : 0 <= a -> a + Z.of_nat i <= b -> drop i (piece u a b) = piece u (a + Z.of_nat i) b.
Proof using.
  intros Ha Hi. apply list_eq. intros j. rewrite lookup_drop. apply option_eq. intros c. rewrite !piece_lookup. replace (a + Z.of_nat i + Z.of_nat j) with (a + Z.of_nat (i + j)) by lia. done.
Qed.

(** A line of text in the buffer that ends with a NUL. *)
Lemma piece_agrees u a b : 0 <= a <= b -> bytes_of u data b = 0 -> agrees (bytes_of u (data + a)) (piece u a b).
Proof using.
  intros H Hz i Hi. rewrite piece_length in Hi by lia. destruct (Z.eq_dec i (b - a)) as [->|Hn].
  - rewrite <- (piece_length u a b), arr_at_end, piece_length by lia. rewrite <- Hz. unfold bytes_of. f_equal. lia.
  - rewrite (arr_at_lookup (piece u a b) [0] i (bytes_of u (data + a) i)); [done|lia|]. apply piece_lookup. split; [lia|]. unfold bytes_of. f_equal. lia.
Qed.

Lemma agrees_cstr g l : agrees g l -> Forall (fun c => c <> 0) l -> is_cstr g (Z.of_nat (length l)).
Proof using.
  intros A F. split; [lia|]. split; [|by apply agrees_end]. intros i Hi. destruct (lookup_lt_is_Some_2 l (Z.to_nat i) ltac:(lia)) as [c Hc].
  pose proof (agrees_at g l _ _ A Hc) as E. rewrite Z2Nat.id in E by lia. rewrite E. by apply (Forall_lookup_1 _ _ _ _ F Hc).
Qed.

Lemma piece_app u a b c : a <= b <= c -> piece u a c = piece u a b ++ piece u b c.
Proof using.
  intros H. apply list_eq. intros i. apply option_eq. intros x. rewrite lookup_app, !piece_lookup. pose proof (piece_length u a b ltac:(lia)) as L.
  destruct (piece u a b !! i) as [y|] eqn:E.
  - apply piece_lookup in E as [Hi E]. split; [intros [_ <-]; by rewrite E|]. intros [= <-]. split; [lia|done].
  - apply lookup_ge_None in E. rewrite piece_lookup. by replace (b + Z.of_nat (i - length (piece u a b))) with (a + Z.of_nat i) by lia.
Qed.

Lemma piece_one u a : piece u a (a + 1) = [bytes_of u data a].
Proof using. unfold piece. replace (a + 1 - a) with 1 by lia. change (chars (bytes_of u (data + a)) 1) with [bytes_of u (data + a) 0]. unfold bytes_of. by rewrite Z.add_0_r. Qed.

Lemma piece_none u a : piece u a a = [].
Proof using. unfold piece. by rewrite Z.sub_diag. Qed.

Lemma piece_ext u u' a b : (forall i, a <= i < b -> bytes_of u' data i = bytes_of u data i) -> piece u' a b = piece u a b.
Proof using.
  intros H. apply list_eq. intros i. apply option_eq. intros x. rewrite !piece_lookup. split; intros [Hi E]; (split; [done|]); rewrite <- E; [symmetry|]; apply H; lia.
Qed.

Lemma stored_byte u a v i : bytes_of (with_bytes (data + a) 1 (fun _ => v) u) data i = if i =? a then u8 v else bytes_of u data i.
Proof using. unfold bytes_of, with_bytes. cbn [v_mem]. destruct (Z.eqb_spec i a) as [->|]; [by rewrite Z.leb_refl, (proj2 (Z.ltb_lt _ _)) by lia|].
  destruct (Z.leb_spec (data + a) (data + i)); [|done]. by rewrite (proj2 (Z.ltb_ge _ _)) by lia.
Qed.
End buffer.

Lemma does_assoc {A B C} P (c : M A) (g : A -> M B) (h : B -> M C) u Q : does P ((c ≫= g) ≫= h) u Q -> does P (c ≫= fun x => g x ≫= h) u Q.
Proof. intros H k Hk. specialize (H k Hk). unfold wp, mbind, M_bind in *. by destruct (c k). Qed.

Lemma free_fd_some l fd : free_fd l = Some fd <-> 0 <= fd /\ (exists d, l !! Z.to_nat fd = Some d /\ flags d = NOT_USED) /\
  forall j d, l !! j = Some d -> (j < Z.to_nat fd)%nat -> flags d <> NOT_USED.
Proof.
  unfold free_fd. split.
  - destruct (list_find _ l) as [[i d]|] eqn:E; [|done]. cbn. intros [= <-]. apply list_find_Some in E as (E1 & E2 & E3). rewrite Nat2Z.id.
    split_and!; [lia|by exists d|done].
  - intros (H0 & (d & E1 & E2) & E3). assert (list_find (fun d => flags d = NOT_USED) l = Some (Z.to_nat fd, d)) as -> by by apply list_find_Some. cbn. f_equal. lia.
Qed.

(** A descriptor that is closed again, and one that stays in use. *)
Lemma free_fd_closed l fd d : free_fd l = Some fd -> flags d = NOT_USED -> free_fd (<[Z.to_nat fd := d]> l) = Some fd.
Proof.
  rewrite !free_fd_some. intros (H0 & (d0 & E1 & E2) & E3) Hd. split_and!; [done| |].
  - exists d. split; [|done]. apply list_lookup_insert_eq. by eapply lookup_lt_Some.
  - intros j x Hx Hj. rewrite list_lookup_insert_ne in Hx by lia. by eapply E3.
Qed.

Lemma free_fd_other l fd a d : free_fd l = Some fd -> a <> Z.to_nat fd -> flags d <> NOT_USED -> free_fd (<[a := d]> l) = Some fd.
Proof.
  rewrite !free_fd_some. intros (H0 & (d0 & E1 & E2) & E3) Ha Hd. split_and!; [done| |].
  - exists d0. split; [|done]. by rewrite list_lookup_insert_ne.
  - intros j x Hx Hj. destruct (decide (a = j)) as [->|Hn]; [|rewrite list_lookup_insert_ne in Hx by done; by eapply E3].
    apply list_lookup_insert_Some in Hx as [(_ & <- & _)|[? _]]; done.
Qed.

(** ** The program *)

Definition grep_lits : list (list Z) := [ln "could not read argument"; tx "."; tx ":"; ln ""].

Section client.
Context {P : view -> kernel -> Prop} {f : frame} {child : Z -> Z -> M Z} {im : memory} {fs : Z}.
Context `{!OsCalls P f child im fs} `{!OsClock P f child} `{!OsCopy P}.
Context (rodata : list Z -> Z) (s fname data : Z) (pat : list Z).
Hypothesis Hs : in_page s 1024.
Hypothesis Hfname : in_page fname 33.
Hypothesis Hdata : in_page data 1025.
Hypothesis Hsd : apart s 1024 data 1025.
Hypothesis Hfd : apart fname 33 data 1025.
Hypothesis Hsf : apart s 1024 fname 33.
Hypothesis Hclear : clear_of rodata grep_lits data 1025.
Hypothesis Hclear' : clear_of rodata grep_lits fname 33.
Hypothesis Hclear'' : clear_of rodata grep_lits s 1024.
Hypothesis Hpat : Forall (fun c => 0 < c < 128) pat.
Hypothesis Hne : pat <> [].
Hypothesis Hlen : (length pat <= 128)%nat.

(** What do_one_file finds: its two strings, the literals, standard output. *)
Definition set_up (name : list Z) (u : view) : Prop :=
  ready rodata grep_lits u /\ holds u s pat /\ holds u fname name /\ text_ok name = true /\ (length name <= 32)%nat.

Lemma set_up_wrote name t u u' : wrote data t u u' -> set_up name u -> set_up name u'.
Proof using All.
  intros W ([Ho F] & H1 & H2 & T & L). pose proof W as (_ & W2 & _). unfold apart in *. split_and!; [|eapply holds_wrote; [done|unfold apart; lia|done]..|done|done].
  split; [unfold desc; by rewrite W2|]. rewrite Forall_forall in F |- *. intros l Hl. destruct (F l Hl) as [Tl Hh]. split; [done|].
  eapply holds_wrote; [done| |done]. by apply (proj1 (Forall_forall _ _) Hclear l).
Qed.

(** The text of a match: the name, the line up to a NUL. *)
Lemma print_match name u a l k : set_up name u -> in_page (data + a) (l + 1) -> is_cstr (bytes_of u (data + a)) l ->
  does P (ece391_fdputs f child 1 fname ;; puts_lit f child rodata (tx ":") ;; ece391_fdputs f child 1 (data + a) ;; puts_lit f child rodata (ln "") ;; mret k) u
    (fun (r : Z + unit) u' => r = k /\ u' = printed (name ++ [58] ++ chars (bytes_of u (data + a)) l ++ [10]) u).
Proof using All.
  intros (Hr & H1 & H2 & T & L) Hp Hc. pose proof Hr as [(d1 & Hd1 & Ho1) _].
  eapply acts_bind; [apply (acts_fdputs rodata u 1 d1 fname (Z.of_nat (length name))); [lia|done|done|by apply holds_str]|]. rewrite (holds_chars u fname name H2).
  eapply acts_bind; [apply (acts_puts rodata grep_lits); [done|unfold grep_lits; set_solver]|].
  eapply acts_bind; [apply (acts_fdputs rodata _ 1 d1 (data + a) l); [lia|done|done|by split]|].
  eapply acts_bind; [apply (acts_puts rodata grep_lits); [done|unfold grep_lits; set_solver]|].
  apply does_mret. split; [done|]. change (tx ":") with [58]. change (ln "") with [10]. unfold printed, text_spec. cbn [v_color v_screen v_mem v_fds v_arg v_kbd bytes_of].
  f_equal. by rewrite !fold_left_app.
Qed.

(** One test of search_line. *)
Lemma check_ok {A} (G : bool -> M A) name u a b Q : set_up name u -> 0 <= a < b -> b <= 1024 -> bytes_of u data b = 0 ->
  (forall hit, (Forall (fun c => c <> 0) (piece data u a b) -> hit = is_prefix pat (piece data u a b)) -> does P (G hit) u Q) ->
  does P (c ← load s; d ← load (data + a);
    hit ← (if i8 c =? d then s1 ← user_str (data + a); s2 ← user_str s; r ← lift Diverges (ece391_strncmp s1 s2 (Z.of_nat (length pat))); mret (0 =? r) else mret false);
    G hit) u Q.
Proof using All.
  intros (Hr & H1 & H2 & T & L) Ha Hb Hz HG. pose proof Hdata as (D1 & _ & D3). pose proof Hs as (S1 & _ & S3).
  eapply acts_bind; [apply os_load; unfold in_page; lia|]. eapply acts_bind; [apply os_load; unfold in_page; lia|].
  pose proof (agrees_holds u s pat H1) as A2. pose proof (piece_agrees data u a b ltac:(lia) Hz) as A1.
  destruct (lookup_lt_is_Some_2 pat 0 ltac:(destruct pat; [done|cbn; lia])) as [c Hc]. pose proof (Forall_lookup_1 _ _ _ _ Hpat Hc) as Fc. cbn beta in Fc.
  assert (v_mem u s = c) as ->. { pose proof (agrees_at _ pat 0 c A2 Hc) as E. unfold bytes_of in E. by rewrite Z.add_0_r in E. }
  assert (i8 c = c) as -> by zlia. set (x := piece data u a b) in *.
  apply (does_bind P _ _ u (fun hit u' => u' = u /\ (Forall (fun c => c <> 0) x -> hit = is_prefix pat x))); [|intros hit u' [-> Hh]; by apply HG]. destruct (Z.eqb_spec c (v_mem u (data + a))) as [E|E].
  - destruct (cstr_exists (bytes_of u (data + a)) (b - a)) as (l & Hl & Cl); [lia|rewrite <- Hz; unfold bytes_of; f_equal; lia|].
    eapply does_bind; [apply (os_str u (data + a) l); split; [done|unfold in_page; lia]|]. intros s1 u1 [-> Hs1].
    eapply does_bind; [apply (os_str u s (Z.of_nat (length pat))); apply holds_str; [|done]|].
    { unfold text_ok. apply forallb_forall. intros y Hy. apply list_elem_of_In in Hy. rewrite Forall_forall in Hpat. specialize (Hpat y Hy). lia. }
    intros s2 u1 [-> Hs2]. destruct (ece391_strncmp_spec s1 s2 (Z.of_nat (length pat)) ltac:(lia)) as (r & -> & Hr0).
    eapply acts_bind; [by apply acts_mret|]. apply does_mret. split; [done|]. intros Hx.
    pose proof (is_cstr_unique _ _ _ Cl (agrees_cstr _ _ A1 Hx)) as El.
    destruct (strncmp_prefix s1 s2 pat x) as [P1 P2].
    { intros i Hi. rewrite Hs1 by lia. by apply A1. }
    { intros i Hi. rewrite Hs2 by lia. by apply A2. }
    { eapply List.Forall_impl; [|exact Hpat]. cbn beta. lia. }
    destruct (Z.eqb_spec 0 r) as [<-|Hr1]; symmetry; [by apply P1, Hr0|]. apply not_true_iff_false. intros Hp. apply Hr1. symmetry. by apply Hr0, P2.
  - apply does_mret. split; [done|]. intros Hx. symmetry. apply not_true_iff_false. rewrite is_prefix_lookup. intros H. specialize (H O c Hc).
    apply piece_lookup in H as [_ H]. apply E. rewrite <- H. unfold bytes_of. f_equal. lia.
Qed.

(** The line is printed once if it has the pattern. *)
Lemma search_line_ok name u a b : set_up name u -> 0 <= a <= b -> b <= 1024 -> bytes_of u data b = 0 ->
  does P (search_line f child rodata s fname data a b (Z.of_nat (length pat))) u
    (fun _ u' => exists t, wrote data t u u' /\ u' = printed t u /\ (Forall (fun c => c <> 0) (piece data u a b) -> t = hit_line pat name (piece data u a b))).
Proof using All.
  intros Hu Ha Hb Hz. pose proof Hdata as (D1 & _ & D3). unfold search_line.
  apply (does_loop P _ (fun n check u' => n = b - check /\ a <= check <= b /\ u' = u /\
    (Forall (fun c => c <> 0) (piece data u a b) -> forall j, (j < Z.to_nat (check - a))%nat -> is_prefix pat (drop j (piece data u a b)) = false)) _ (b - a)); [| |lia].
  2: { split_and!; [done|lia|lia|done|]. intros _ j Hj. lia. }
  intros n check u1 (-> & Hc & -> & Hno). set (x := piece data u a b) in *. pose proof (piece_length data u a b ltac:(lia)) as Lx. fold x in Lx.
  destruct (Z.ltb_spec check b) as [Hlt|Hge].
  - assert (drop (Z.to_nat (check - a)) x = piece data u check b) as Ex by (unfold x; rewrite piece_drop by lia; f_equal; lia).
    apply (check_ok _ name u check b); [done|lia|done|done|]. intros hit Hh. rewrite <- Ex in Hh. assert (Forall (fun c => c <> 0) x -> hit = is_prefix pat (drop (Z.to_nat (check - a)) x)) as Hh'.
    { intros Fx. apply Hh. by apply list.Forall_drop. }
    clear Hh. destruct hit.
    + destruct (cstr_exists (bytes_of u (data + a)) (b - a)) as (l & Hl & Cl); [lia|rewrite <- Hz; unfold bytes_of; f_equal; lia|].
      eapply does_mono; [|apply (print_match name u a l (inr tt)); [done|unfold in_page; lia|done]]. intros r u' [-> ->]. eexists. split_and!; [apply wrote_printed|done|].
      intros Fx. unfold hit_line. rewrite (occurs_at pat x (Z.to_nat (check - a))); [|lia|by rewrite <- Hh'|by apply Hno].
      pose proof (agrees_cstr _ _ (piece_agrees data u a b ltac:(lia) Hz) Fx) as Cx. pose proof (is_cstr_unique _ _ _ Cl Cx) as ->. fold x in Lx |- *. by rewrite Lx.
    + apply does_mret. exists (b - (check + 1)). split; [lia|]. split_and!; [done|lia|lia|done|]. intros Fx j Hj.
      destruct (decide (j = Z.to_nat (check - a))) as [->|Hj']; [by rewrite <- Hh'|]. apply Hno; [done|lia].
  - apply does_mret. assert (check = b) as -> by lia. exists []. split_and!; [apply wrote_refl|by destruct u|]. intros Fx. unfold hit_line. rewrite occurs_none; [done|].
    intros j Hj. apply Hno; [done|]. lia.
Qed.

(** The end of a line: a newline, or the end of what is in the buffer. *)
Lemma find_end_ok u a last : 0 <= a <= last -> last <= 1024 ->
  does P (find_end data a last) u (fun b u' => u' = u /\ a <= b <= last /\ one_line (piece data u a b) /\ (b < last -> bytes_of u data b = 10)).
Proof using All.
  intros Ha Hl. pose proof Hdata as (D1 & _ & D3). unfold find_end.
  apply (does_loop P _ (fun n b u' => n = last - b /\ a <= b <= last /\ u' = u /\ one_line (piece data u a b)) _ (last - a)); [| |lia].
  2: { split_and!; [done|lia|lia|done|]. unfold piece. rewrite Z.sub_diag. apply list.Forall_nil_2. }
  intros n b u1 (-> & Hb & -> & H1). destruct (Z.ltb_spec b last) as [Hlt|Hge]; [|apply does_mret; split_and!; [done|lia|lia|done|lia]].
  eapply acts_bind; [apply os_load; unfold in_page; lia|]. destruct (Z.eqb_spec 10 (v_mem u (data + b))) as [E|E]; cbn [negb]; apply does_mret.
  - split_and!; [done|lia|lia|done|done].
  - exists (last - (b + 1)). split; [lia|]. split_and!; [done|lia|lia|done|]. unfold piece in *. replace (b + 1 - a) with (b - a + 1) by lia.
    rewrite chars_snoc by lia. apply list.Forall_app. split; [done|]. apply list.Forall_cons. split; [|apply list.Forall_nil_2].
    intros E'. apply E. rewrite <- E'. unfold bytes_of. f_equal. lia.
Qed.

(** What is left of the text [b] of the buffer after a search that has printed [t]: the
    start of a line, or nothing when the last line has been searched as it is. *)
Definition left_over (name : list Z) (cnt last x : Z) (b t r : list Z) : Prop :=
  (one_line r /\ is_text r /\ (cnt = 0 -> r = []) /\ forall rest, grep_text pat name (b ++ rest) = t ++ grep_text pat name (r ++ rest) /\ (short 1023 (b ++ rest) -> short 1023 (r ++ rest))) \/
  (r = [] /\ grep_text pat name b = t /\ (cnt = 0 \/ last < 1024 \/ x = 10 \/ one_line b)).

(** The lines before [a] have been searched. *)
Definition searched (name : list Z) (u : view) (last a : Z) (u' : view) : Prop :=
  (forall i, a <= i <= 1024 -> bytes_of u' data i = bytes_of u data i) /\
  exists t, wrote data t u u' /\ (is_text (piece data u 0 last) -> forall rest,
    grep_text pat name (piece data u 0 last ++ rest) = t ++ grep_text pat name (piece data u a last ++ rest) /\
    (short 1023 (piece data u 0 last ++ rest) -> short 1023 (piece data u a last ++ rest))).

(** One line of search_lines. *)
Lemma one_line_ok name u a b last u1 : 0 <= a <= b -> b <= last <= 1024 -> set_up name u -> searched name u last a u1 -> one_line (piece data u a b) ->
  (b < last -> bytes_of u data b = 10) ->
  does P (store (data + b) 0 ;; search_line f child rodata s fname data a b (Z.of_nat (length pat))) u1 (fun _ u' =>
    (b < last -> searched name u last (b + 1) u') /\
    (b = last -> (bytes_of u' data 1024 = bytes_of u data 1024 \/ bytes_of u' data 1024 = 0) /\
      exists t, wrote data t u u' /\ (is_text (piece data u 0 last) -> grep_text pat name (piece data u 0 last) = t))).
Proof using All.
  intros Ha Hb Hu (Hi & t & W & Ht) H1 Hn. pose proof Hdata as (D1 & _ & D3).
  eapply acts_bind; [apply os_store; unfold in_page; lia|]. set (u2 := with_bytes (data + b) 1 (fun _ => 0) u1).
  assert (wrote data [] u1 u2) as W2 by (apply wrote_bytes; lia). pose proof (wrote_trans _ _ _ _ _ _ W W2) as W3. rewrite app_nil_r in W3.
  assert (piece data u2 a b = piece data u a b) as Ep.
  { apply piece_ext. intros i Hab. unfold u2. rewrite stored_byte, (proj2 (Z.eqb_neq _ _)) by lia. apply Hi. lia. }
  eapply does_mono; [|apply (search_line_ok name u2 a b); [by eapply set_up_wrote|done|lia|]].
  2: { unfold u2. by rewrite stored_byte, Z.eqb_refl. }
  intros [] u3 (t' & W4 & E3 & Hx). rewrite Ep in Hx. pose proof (wrote_trans _ _ _ _ _ _ W3 W4) as W5.
  assert (forall i, bytes_of u3 data i = if i =? b then 0 else bytes_of u1 data i) as B3.
  { intros i. rewrite E3. change (bytes_of (printed t' u2) data i) with (bytes_of u2 data i). apply stored_byte. }
  pose proof (piece_app data u a b last ltac:(lia)) as Es. split.
  - intros Hlt. rewrite (piece_app data u b (b + 1) last), piece_one, Hn in Es by lia.
    split; [intros i Hi'; rewrite B3, (proj2 (Z.eqb_neq _ _)) by lia; apply Hi; lia|].
    exists (t ++ t'). split; [done|]. intros F rest. destruct (Ht F rest) as [E1 E2].
    assert (is_text (piece data u a b)) as Fx by (rewrite (piece_app data u 0 a last), Es in F by lia; unfold is_text in *; rewrite !list.Forall_app in F; tauto).
    rewrite Hx by by apply is_text_nonzero.
    rewrite Es, <- !app_assoc in E1, E2. cbn [app] in E1, E2. rewrite grep_text_line in E1 by done. split; [by rewrite E1, app_assoc|]. intros S. by eapply short_line, E2.
  - intros ->. split.
    { rewrite B3. destruct (Z.eqb_spec 1024 last); [by right|left]. apply Hi. lia. }
    exists (t ++ t'). split; [done|]. intros F. destruct (Ht F []) as [E1 _]. rewrite !app_nil_r in E1. rewrite E1, grep_text_last by done. f_equal. symmetry. apply Hx, is_text_nonzero.
    rewrite (piece_app data u 0 a last) in F by lia. unfold is_text in *. rewrite list.Forall_app in F. tauto.
Qed.

Lemma search_lines_ok name u cnt last : set_up name u -> 0 <= last <= 1024 ->
  does P (search_lines f child rodata s fname data cnt (Z.of_nat (length pat)) last) u (fun last' u' => 0 <= last' < 1024 /\
    (bytes_of u' data 1024 = bytes_of u data 1024 \/ bytes_of u' data 1024 = 0) /\
    exists t, wrote data t u u' /\ (is_text (piece data u 0 last) ->
      left_over name cnt last (bytes_of u data 1024) (piece data u 0 last) t (piece data u' 0 last'))).
Proof using All.
  intros Hu Hl. pose proof Hdata as (D1 & _ & D3). unfold search_lines.
  apply (does_loop P _ (fun n a u' => n = last - a /\ 0 <= a <= last /\ searched name u last a u') _ last); [| |lia].
  2: { split_and!; [lia|lia|lia|]. split; [done|]. exists []. split; [apply wrote_refl|done]. }
  intros n a u1 (-> & Ha & S). pose proof S as (Hi & t & W & Ht).
  assert (set_up name u1) as Hu1 by by eapply set_up_wrote.
  eapply does_bind; [apply (find_end_ok u1 a last); lia|]. intros b u1' (-> & Hb & H1 & Hn).
  assert (piece data u1 a b = piece data u a b) as Ep by (apply piece_ext; intros i Hi'; apply Hi; lia). rewrite Ep in H1. rewrite Hi in Hn by lia.
  eapply acts_bind; [apply os_load; unfold in_page; lia|]. change (v_mem u1 (data + b)) with (bytes_of u1 data b). rewrite Hi by lia.
  destruct (negb (10 =? bytes_of u data b) && negb (0 =? cnt) && negb (a =? 0)) eqn:C.
  - apply andb_true_iff in C as [C C3]. apply andb_true_iff in C as [C1 C2]. apply negb_true_iff, Z.eqb_neq in C1, C3.
    assert (b = last) as -> by (destruct (Z.eq_dec b last); [done|exfalso; apply C1; symmetry; apply Hn; lia]).
    eapply acts_bind; [apply os_store; unfold in_page; lia|]. set (u2 := with_bytes (data + last) 1 (fun _ => 0) u1).
    assert (bytes_of u2 (data + a) (last - a) = 0) as Z2.
    { change (bytes_of u2 (data + a) (last - a)) with (v_mem u2 (data + a + (last - a))). replace (data + a + (last - a)) with (data + last) by lia.
      change (v_mem u2 (data + last)) with (bytes_of u2 data last). unfold u2. by rewrite stored_byte, Z.eqb_refl. }
    destruct (cstr_exists (bytes_of u2 (data + a)) (last - a)) as (l & Hl' & Cl); [lia|done|].
    eapply acts_bind; [apply (os_strcpy u2 data (data + a) l); [split; [done|unfold in_page; lia]|unfold in_page; lia|lia]|]. apply does_mret.
    set (u3 := with_bytes data (l + 1) (bytes_of u2 (data + a)) u2). split; [lia|]. split.
    { assert (bytes_of u3 data 1024 = bytes_of u2 data 1024) as -> by (apply bytes_other; lia). unfold u2. rewrite stored_byte.
      destruct (Z.eqb_spec 1024 last); [by right|left]. apply Hi. lia. }
    exists t. assert (wrote data [] u1 u2) as W2 by (apply wrote_bytes; lia). assert (wrote data [] u2 u3) as W3 by (apply wrote_bytes; lia).
    pose proof (wrote_trans _ _ _ _ _ _ W (wrote_trans _ _ _ _ _ _ W2 W3)) as W4. rewrite app_nil_r in W4. split; [exact W4|]. intros F. left.
    assert (piece data u2 a last = piece data u a last) as E2.
    { rewrite <- Ep. apply piece_ext. intros i Hi'. unfold u2. by rewrite stored_byte, (proj2 (Z.eqb_neq _ _)) by lia. }
    assert (is_text (piece data u a last)) as Fa by (rewrite (piece_app data u 0 a last) in F by lia; unfold is_text in *; rewrite list.Forall_app in F; tauto).
    assert (l = last - a) as ->.
    { apply is_text_nonzero in Fa. rewrite <- E2 in Fa. pose proof (agrees_cstr _ _ (piece_agrees data u2 a last ltac:(lia) ltac:(unfold u2; by rewrite stored_byte, Z.eqb_refl)) Fa) as Cx.
      rewrite <- (piece_length data u2 a last) by lia. by eapply is_cstr_unique. }
    assert (piece data u3 0 (last - a) = piece data u a last) as ->.
    { rewrite <- E2. apply list_eq. intros i. apply option_eq. intros c. rewrite !piece_lookup. rewrite <- E2 in Fa.
      assert (forall j, 0 <= j < last - a -> bytes_of u3 data j = bytes_of u2 data (a + j)) as B3.
      { intros j Hj. unfold u3. rewrite bytes_in by lia. assert (bytes_of u2 (data + a) j = bytes_of u2 data (a + j)) as -> by (unfold bytes_of; f_equal; lia).
        apply u8_small. assert (piece data u2 a last !! Z.to_nat j = Some (bytes_of u2 data (a + j))) as Ej by (apply piece_lookup; split; [lia|f_equal; lia]).
        pose proof (Forall_lookup_1 _ _ _ _ Fa Ej) as Fj. cbn beta in Fj. lia. }
      split; intros [Hc <-]; (split; [lia|]); [symmetry|]; rewrite <- B3 by lia; f_equal; lia. }
    split; [done|]. split; [done|]. split; [intros ->; done|]. by apply Ht.
  - apply does_assoc. eapply does_bind; [apply (one_line_ok name u a b last u1); done || lia|]. intros [] u3 [Hmore Hend].
    destruct (Z.leb_spec last (b + 1)) as [Hle|Hgt]; apply does_mret.
    2: { exists (last - (b + 1)). split_and!; [lia|lia|done|lia|lia|]. apply Hmore. lia. }
    split; [lia|]. rewrite piece_none. destruct (Z.eq_dec b last) as [->|Hbl].
    + destruct (Hend eq_refl) as (E1 & t' & W' & Ht'). split; [exact E1|]. exists t'. split; [exact W'|]. intros F. right. split; [done|]. split; [by apply Ht'|].
      apply andb_false_iff in C as [C|C]; [apply andb_false_iff in C as [C|C]|]; apply negb_false_iff, Z.eqb_eq in C.
      * destruct (Z.eq_dec last 1024) as [->|]; [right; right; by left|right; left; lia].
      * by left.
      * subst a. by right; right; right.
    + destruct (Hmore ltac:(lia)) as (B3 & t' & W' & Ht'). split; [left; apply B3; lia|]. exists t'. split; [exact W'|]. intros F. left.
      assert (b + 1 = last) as Eb by lia. rewrite Eb, piece_none in Ht'. split; [apply list.Forall_nil_2|]. split; [apply list.Forall_nil_2|]. split; [done|]. by apply Ht'.
Qed.

(** *** A file *)

Context (irqs : list (M unit)).

Definition file_part (ino a b : Z) : list Z := map (file_byte im fs ino) (seqZ a (b - a)).

Lemma part_app ino a b c : a <= b <= c -> file_part ino a c = file_part ino a b ++ file_part ino b c.
Proof using.
  clear. intros H. unfold file_part. rewrite (seqZ_split a (c - a) (b - a)), map_app by lia. f_equal. f_equal; f_equal; lia.
Qed.

Lemma part_none ino a : file_part ino a a = [].
Proof using. clear. unfold file_part. by rewrite Z.sub_diag. Qed.

Lemma part_length ino a b : a <= b -> Z.of_nat (length (file_part ino a b)) = b - a.
Proof using. clear. intros H. unfold file_part. rewrite length_map, length_seqZ. lia. Qed.

Lemma wrote_desc t fd d d' u0 u : wrote data t (with_desc fd d u0) u -> wrote data t (with_desc fd d' u0) (with_desc fd d' u).
Proof using.
  clear. intros (W1 & W2 & W3). split; [exact W1|]. split; [|exact W3]. unfold with_desc in *. cbn [v_fds with_fds] in *. rewrite W2. apply list_insert_insert_eq.
Qed.

(** [pos] bytes of the file have been read, [last] of them are the start of a line in the
    buffer. *)
Definition file_inv (name : list Z) (fd : Z) (d : fdesc_t) (u0 : view) (n last : Z) (u : view) : Prop :=
  let len := file_length im fs (inode d) in
  exists pos t, 0 <= pos <= len /\ n = len - pos /\ 0 <= last < 1024 /\ wrote data t (with_desc fd (set_file_pos pos d) u0) u /\ bytes_of u data 1024 <> 10 /\
    (is_text (file_part (inode d) 0 len) -> short 1023 (file_part (inode d) 0 len) ->
      is_text (piece data u 0 last) /\ short 1023 (piece data u 0 last ++ file_part (inode d) pos len) /\
      grep_text pat name (file_part (inode d) 0 len) = t ++ grep_text pat name (piece data u 0 last ++ file_part (inode d) pos len)).

(** What has been read follows what was in the buffer. *)
Lemma piece_read u last ino pos c : 0 <= last -> 0 <= c ->
  piece data (with_bytes (data + last) c (fun i => file_byte im fs ino (pos + i)) u) 0 (last + c) = piece data u 0 last ++ file_part ino pos (pos + c).
Proof using.
  clear. intros Hl Hc. set (u' := with_bytes _ _ _ _). rewrite (piece_app data u' 0 last (last + c)) by lia. f_equal.
  - apply piece_ext. intros i Hi. unfold u'. unfold bytes_of at 1. cbn [v_mem with_bytes]. by rewrite (proj2 (Z.leb_gt _ _)) by lia.
  - unfold piece, file_part. replace (last + c - last) with c by lia. replace (pos + c - pos) with c by lia. unfold u', chars. rewrite (map_seqZ_shift (file_byte im fs ino) pos).
    apply map_ext_in. intros i Hi. apply list_elem_of_In, elem_of_seqZ in Hi. rewrite bytes_in by lia. apply u8_small, file_byte_range.
Qed.

(** The text case of one step: what has been printed and what is left. *)
Lemma text_step name cnt last x p ino pos c len t t' r : 0 <= last < 1024 -> Z.of_nat (length p) = last -> 0 <= pos <= len -> c = Z.max 0 (Z.min (1024 - last) (len - pos)) -> cnt = c -> x <> 10 ->
  is_text (file_part ino 0 len) -> is_text p -> short 1023 (p ++ file_part ino pos len) -> grep_text pat name (file_part ino 0 len) = t ++ grep_text pat name (p ++ file_part ino pos len) ->
  left_over name cnt (last + c) x (p ++ file_part ino pos (pos + c)) t' r ->
  is_text r /\ short 1023 (r ++ file_part ino (pos + c) len) /\ (cnt = 0 -> r = []) /\
  grep_text pat name (file_part ino 0 len) = (t ++ t') ++ grep_text pat name (r ++ file_part ino (pos + c) len).
Proof using.
  clear. intros Hl Hp Hpos Hc -> Hx F0 Fp S E L. rewrite (part_app ino pos (pos + c) len), app_assoc in S, E by lia.
  destruct L as [(H1 & Fr & H0 & L)|(-> & L1 & L2)].
  - destruct (L (file_part ino (pos + c) len)) as [L1 L2]. split_and!; [done|by apply L2|done|]. by rewrite E, L1, app_assoc.
  - assert (pos + c = len) as E0.
    { destruct (Z.eq_dec (last + c) 1024) as [E1|]; [|lia]. destruct L2 as [->|[?|[?|H1]]]; [lia|lia|done|].
      pose proof (short_first 1023 _ _ H1 S) as Hs. rewrite length_app in Hs. pose proof (part_length ino pos (pos + c) ltac:(lia)). lia. }
    rewrite E0, part_none in *. rewrite app_nil_r in E. split_and!; [apply list.Forall_nil_2|apply list.Forall_nil_2|done|]. by rewrite E, L1, !app_nil_r.
Qed.

Lemma file_loop_ok name fd d u : set_up name u -> 2 <= fd < MAX_DESC -> (Z.to_nat fd < length (v_fds u))%nat -> file_ops d = regf_jt -> file_ok im fs (inode d) ->
  let len := file_length im fs (inode d) in bytes_of u data 1024 <> 10 ->
  does P (loopM (fun last =>
      cnt ← ece391_read f child irqs fd (data + last) (1024 - last);
      if -1 =? cnt then puts_lit f child rodata (ln "file read failed") ;; mret (inr (-1)) else
      last ← search_lines f child rodata s fname data cnt (Z.of_nat (length pat)) (last + cnt);
      if 0 =? cnt then mret (inr 0) else mret (inl last)) 0) (with_desc fd (set_file_pos 0 d) u)
    (fun r u' => r = 0 /\ bytes_of u' data 1024 <> 10 /\ exists t, wrote data t (with_desc fd (set_file_pos len d) u) u' /\
      (is_text (file_part (inode d) 0 len) -> short 1023 (file_part (inode d) 0 len) -> t = grep_text pat name (file_part (inode d) 0 len))).
Proof using All.
  intros Hu Hd Hlt Hop Hfile len H10. pose proof Hdata as (D1 & _ & D3). pose proof Hfile as [[_ Hflen] _]. assert (0 <= len) as Hlen0 by apply rd32_range.
  apply (does_loop P _ (fun n last u' => file_inv name fd d u n last u') _ len); [| |fold len in Hflen; lia].
  2: { exists 0, []. fold len. split_and!; [lia|lia|lia|lia|lia|apply wrote_refl|done|]. intros F S. rewrite piece_none. split; [apply list.Forall_nil_2|done]. }
  intros n last u1 (pos & t & Hpos & -> & Hl & W & X & Ht). fold len in Hpos, Ht |- *.
  assert (desc u1 fd = Some (set_file_pos pos d)) as Hd1.
  { destruct W as (_ & W & _). unfold desc. rewrite W. by apply list_lookup_insert_eq. }
  pose proof (os_read_file u1 irqs fd (set_file_pos pos d) (data + last) (1024 - last) ltac:(lia) Hd1 Hop Hfile ltac:(cbn; lia) ltac:(cbn; fold len in Hflen; lia) ltac:(unfold in_page; lia)) as Rd.
  cbn zeta in Rd. change (inode (set_file_pos pos d)) with (inode d) in Rd. change (file_pos (set_file_pos pos d)) with pos in Rd.
  set (c := read_count im fs (inode d) pos (1024 - last)) in Rd. assert (c = Z.max 0 (Z.min (1024 - last) (len - pos))) as Hc by done.
  eapply acts_bind; [exact Rd|]. clear Rd. cbv beta. rewrite (proj2 (Z.eqb_neq (-1) c)) by lia.
  set (ub := with_bytes (data + last) c (fun i => file_byte im fs (inode d) (pos + i)) u1). set (u2 := with_desc fd _ ub).
  assert (wrote data t (with_desc fd (set_file_pos (pos + c) d) u) u2) as W2.
  { unfold u2. apply (wrote_desc t fd (set_file_pos pos d)). rewrite <- (app_nil_r t). eapply wrote_trans; [exact W|]. apply wrote_bytes; lia. }
  assert (set_up name u2) as Hu2.
  { eapply set_up_wrote; [exact W2|]. destruct Hu as (R & Hu). split; [|exact Hu]. apply ready_desc; [lia|lia|done]. }
  assert (piece data u2 0 (last + c) = piece data u1 0 last ++ file_part (inode d) pos (pos + c)) as Ep by (apply piece_read; lia).
  assert (bytes_of u2 data 1024 = bytes_of u1 data 1024) as X2 by (apply (bytes_other (data + last) c); lia).
  eapply does_bind; [apply (search_lines_ok name u2 c (last + c)); [done|lia]|]. intros last' u3 (Hl' & X3 & t' & W3 & Hx). rewrite Ep in Hx. rewrite X2 in X3, Hx.
  pose proof (wrote_trans _ _ _ _ _ _ W2 W3) as W4. assert (bytes_of u3 data 1024 <> 10) as X4 by (destruct X3 as [-> | ->]; [done|lia]).
  assert (is_text (file_part (inode d) 0 len) -> short 1023 (file_part (inode d) 0 len) -> is_text (piece data u3 0 last') /\ short 1023 (piece data u3 0 last' ++ file_part (inode d) (pos + c) len) /\ (c = 0 -> piece data u3 0 last' = []) /\
    grep_text pat name (file_part (inode d) 0 len) = (t ++ t') ++ grep_text pat name (piece data u3 0 last' ++ file_part (inode d) (pos + c) len)) as Hstep.
  { intros F S. destruct (Ht F S) as (F1 & S1 & E1). apply (text_step name c last (bytes_of u1 data 1024) (piece data u1 0 last) (inode d) pos c len); try done.
    - rewrite piece_length by lia. lia.
    - apply Hx. apply list.Forall_app. split; [done|]. unfold is_text in F. rewrite (part_app _ 0 pos len), (part_app _ pos (pos + c) len), !list.Forall_app in F by lia. tauto. }
  destruct (Z.eqb_spec 0 c) as [Ec|Ec]; apply does_mret.
  - split; [done|]. split; [done|]. exists (t ++ t'). assert (pos + c = len) as El by lia. rewrite <- El. split; [exact W4|]. rewrite El in *. intros F S.
    destruct (Hstep F S) as (_ & _ & E0 & ->). rewrite E0, part_none by done. by rewrite app_nil_r.
  - exists (len - (pos + c)). split; [lia|]. exists (pos + c), (t ++ t'). fold len. split_and!; [lia|lia|lia|lia|lia|exact W4|done|]. intros F S.
    destruct (Hstep F S) as (F1 & S1 & _ & E1). by split_and!.
Qed.

(** *** The files of the directory *)

Context (kb : kbd_t).
Hypothesis Hirqs : irqs = [rtc_interrupt].

Definition dentry (i : Z) : dentry_t := dentry_at im (entry_addr fs i).

(** A device, or a file, that can be opened by its name. *)
Definition openable (i : Z) (name : list Z) : Prop := first_named im fs i (arr_at (name ++ [0])) /\ not_std (arr_at (name ++ [0])) /\
  (file_type (dentry i) = 0 \/ file_type (dentry i) = 2 /\ file_ok im fs (inode_num (dentry i))).

(** What is printed for an entry. *)
Definition output (i : Z) (name t : list Z) : Prop := (file_type (dentry i) = 0 -> t = []) /\
  (file_type (dentry i) = 2 -> is_text (contents (im := im) (fs := fs) (inode_num (dentry i))) -> short 1023 (contents (im := im) (fs := fs) (inode_num (dentry i))) ->
     t = grep_text pat name (contents (im := im) (fs := fs) (inode_num (dentry i)))).

Lemma contents_part ino : contents (im := im) (fs := fs) ino = file_part ino 0 (file_length im fs ino).
Proof using. unfold contents, file_part. by rewrite Z.sub_0_r. Qed.

Lemma do_one_file_ok i name fd u : set_up name u -> openable i name -> free_fd (v_fds u) = Some fd -> 2 <= fd < MAX_DESC -> v_kbd u = Some kb -> bytes_of u data 1024 <> 10 ->
  does P (do_one_file f child rodata irqs s fname data) u (fun r u' => r = 0 /\ bytes_of u' data 1024 <> 10 /\
    exists t d, flags d = NOT_USED /\ wrote data t (with_desc fd d u) u' /\ output i name t).
Proof using All.
  intros Hu (Hi & Hstd & Hty) Hff Hd Hkb H10. pose proof Hu as (Hr & H1 & H2 & T & L). unfold do_one_file.
  assert (text_ok pat = true) as Tp.
  { unfold text_ok. apply forallb_forall. intros y Hy. apply list_elem_of_In in Hy. rewrite Forall_forall in Hpat. specialize (Hpat y Hy). lia. }
  pose proof (holds_str u s pat Tp H1) as [Cs Ps]. eapply does_bind; [apply (os_str u s (Z.of_nat (length pat))); by split|]. intros str u1 [-> Hstr].
  rewrite ece391_strlen_eq, (strlen_spec str (Z.of_nat (length pat))); [|apply (agrees_cstr str pat)|lia].
  2: { intros j Hj. rewrite Hstr by done. by apply (agrees_holds u s pat H1). } 2: { eapply List.Forall_impl; [|exact Hpat]. cbn beta. lia. }
  eapply acts_bind; [by apply acts_mret|]. pose proof (free_fd_lt _ _ Hff) as Hlt.
  set (jt := if file_type (dentry i) =? 0 then rtc_jt else regf_jt). set (d := opened jt (inode_num (dentry i))).
  eapply acts_bind; [apply (os_open u fname (Z.of_nat (length name)) i fd jt); [by apply holds_str|cbn; lia|by eapply holds_named|by eapply holds_not_std| |done]|].
  { unfold jt. fold (dentry i). destruct Hty as [-> | [-> _]]; done. }
  fold (dentry i). fold d. cbv beta. rewrite (proj2 (Z.eqb_neq (-1) fd)) by lia. set (u1 := with_desc fd d u).
  assert (desc u1 fd = Some d) as Hd1 by (unfold desc, u1, with_desc; cbn [v_fds with_fds]; by apply list_lookup_insert_eq).
  match goal with |- does P (?lp ≫= _) u1 _ => assert (does P lp u1 (fun r u' => r = 0 /\ bytes_of u' data 1024 <> 10 /\ exists t d', file_ops d' = file_ops d /\ wrote data t (with_desc fd d' u) u' /\ output i name t)) as Hloop end.
  { destruct Hty as [Ht|[Ht Hfile]].
    - assert (jt = rtc_jt) as Ej by (unfold jt; by rewrite Ht). pose proof Hdata as (D1 & _ & D3).
      apply (does_loop P _ (fun n last u' => n = 0 /\ last = 0 /\ u' = u1) _ 0); [|done|lia]. intros n last u2 (-> & -> & ->).
      eapply acts_bind; [rewrite Hirqs; apply (os_tick u1 kb fd d); [done|lia|done|by unfold d; rewrite Ej|unfold in_page; lia|lia]|]. cbv beta. rewrite (proj2 (Z.eqb_neq (-1) 0)) by lia.
      eapply does_bind; [apply (search_lines_ok name u1 0 (0 + 0)); [|lia]|].
      { destruct Hu as (R & Hu). split; [|exact Hu]. by apply ready_desc; [lia|lia|]. }
      intros last u2 (_ & X & t & W & Hx). rewrite piece_none in Hx. apply does_mret. split; [done|]. split; [destruct X as [-> | ->]; [exact H10|lia]|].
      exists t, d. split; [done|]. split; [exact W|]. split; [|intros E; congruence]. intros _. destruct (Hx (list.Forall_nil_2 _)) as [(_ & _ & E0 & E)|(_ & E & _)]; [|by rewrite <- E].
      destruct (E []) as [E' _]. rewrite E0 in E' by done. cbn in E'. by rewrite app_nil_r in E'.
    - assert (jt = regf_jt) as Ej by (unfold jt; by rewrite Ht).
      eapply does_mono; [|apply (file_loop_ok name fd d u); [done|done|done|by unfold d; rewrite Ej|done|done]]. intros r u2 (-> & X & t & W & Hx). split; [done|]. split; [done|].
      eexists t, _. split; [|split; [exact W|]]; [done|]. split; [intros E; congruence|]. intros _. rewrite contents_part. exact Hx. }
  eapply does_bind; [exact Hloop|]. intros r u2 (-> & X & t & d' & Ho & W & Hout). rewrite (proj2 (Z.eqb_neq 0 (-1))) by lia.
  eapply acts_bind; [apply (os_close u2 fd d'); [lia| |]|].
  - destruct W as (_ & W & _). unfold desc. rewrite W. by apply list_lookup_insert_eq.
  - rewrite Ho. unfold d, jt. cbn [file_ops opened]. apply list_elem_of_In. case_match; cbn; tauto.
  - cbv beta. rewrite (proj2 (Z.eqb_neq (-1) 0)) by lia. apply does_mret. split; [done|]. split; [exact X|]. exists t, (closed d'). split; [done|]. split; [|done].
    by apply (wrote_desc t fd d').
Qed.

Definition entry_name' (i : Z) : list Z := entry_name (im := im) (fs := fs) i.

(** The names of the directory: hidden ones are passed over. *)
Definition grep_dir : Prop := forall i, 0 <= i < rd32 im fs -> let name := entry_name' i in text_ok name = true /\ (hd 0 name <> 46 -> openable i name).
Hypothesis Hdir : dir_ok (im := im) (fs := fs).
Hypothesis Hnames : grep_dir.
Hypothesis Hnum : rd32 im fs <= 63.

Definition entry_output (i : Z) (t : list Z) : Prop := if hd 0 (entry_name' i) =? 46 then t = [] else output i (entry_name' i) t.

Lemma entry_name_len i l : 0 <= i < rd32 im fs -> name_len im fs i l -> length (entry_name' i) = Z.to_nat l /\ hd 0 (entry_name' i) = at_ im (entry_addr fs i) 0.
Proof using All.
  intros Hi Hl. destruct (Hdir i l Hi Hl) as [H0 _]. unfold entry_name'. rewrite (entry_name_chars i l Hl). unfold chars. split; [by rewrite length_map, length_seqZ|].
  rewrite (seqZ_cons 0 l) by lia. done.
Qed.

(** The name in the buffer, with its NUL. *)
Lemma name_read i l u : 0 <= i < rd32 im fs -> name_len im fs i l ->
  holds (with_bytes (fname + l) 1 (fun _ => 0) (with_bytes fname FILENAME_LEN (strncpy_bytes (at_ im (entry_addr fs i)) l) u)) fname (entry_name' i).
Proof using All.
  intros Hi Hl. destruct (entry_name_len i l Hi Hl) as [EL _]. pose proof Hl as (L1 & L2 & _). pose proof Hfname as (F1 & _ & F3).
  split; [unfold in_page; lia|]. intros j Hj. rewrite EL in Hj. set (u1 := with_bytes fname _ _ u). destruct (Z.eq_dec j l) as [->|Hn].
  - replace l with (Z.of_nat (length (entry_name' i))) at 3 by lia. rewrite arr_at_end. pose proof (bytes_in (fname + l) 1 (fun _ => 0) u1 0 ltac:(lia)) as B.
    unfold bytes_of in *. by rewrite Z.add_0_r in B.
  - rewrite bytes_other by lia. unfold u1. rewrite bytes_in by lia. unfold strncpy_bytes. rewrite (proj2 (Z.ltb_lt _ _)) by lia.
    rewrite (arr_at_lookup (entry_name' i) [0] j (at_ im (entry_addr fs i) j)); [apply u8_small, rd_range|lia|].
    unfold entry_name'. rewrite (entry_name_chars i l Hl). unfold chars. rewrite list_lookup_fmap, lookup_seqZ_lt by lia. cbn. f_equal. f_equal. lia.
Qed.

(** The program between two files: [pos] entries have been read. *)
Definition dir_inv (fd0 fd : Z) (d0 : fdesc_t) (u0 : view) (n : Z) (u : view) : Prop := exists pos outs, 0 <= pos <= rd32 im fs /\ n = rd32 im fs - pos /\
  desc u fd0 = Some (set_file_pos pos d0) /\ free_fd (v_fds u) = Some fd /\ ready rodata grep_lits u /\ holds u s pat /\ bytes_of u data 1024 <> 10 /\ same_console u0 u /\
  Forall2 entry_output (seqZ 0 pos) outs /\ v_screen u = text_spec (v_color u0) (concat outs) (v_screen u0).

Lemma dir_inv_next fd0 fd d0 u0 pos outs t u : 0 <= pos < rd32 im fs -> 
  desc u fd0 = Some (set_file_pos (pos + 1) d0) -> free_fd (v_fds u) = Some fd -> ready rodata grep_lits u -> holds u s pat -> bytes_of u data 1024 <> 10 -> same_console u0 u ->
  Forall2 entry_output (seqZ 0 pos) outs -> entry_output pos t -> v_screen u = text_spec (v_color u0) (concat outs ++ t) (v_screen u0) ->
  exists n', 0 <= n' < rd32 im fs - pos /\ dir_inv fd0 fd d0 u0 n' u.
Proof using All.
  intros Hpos Hd Hff Hr Hh Hx Hc Ho Ht Hs'. exists (rd32 im fs - (pos + 1)). split; [lia|]. exists (pos + 1), (outs ++ [t]). split_and!; try done; try lia.
  - rewrite seqZ_app by lia. apply Forall2_app; [done|]. rewrite Z.add_0_l. by constructor.
  - rewrite Hs', concat_app. cbn [concat]. by rewrite app_nil_r.
Qed.

Lemma grep_loop_ok fd0 fd d0 u : 2 <= fd0 < MAX_DESC -> 2 <= fd < MAX_DESC -> fd <> fd0 -> file_ops d0 = dir_jt -> flags d0 <> NOT_USED -> v_kbd u = Some kb ->
  desc u fd0 = Some (set_file_pos 0 d0) -> free_fd (v_fds u) = Some fd -> ready rodata grep_lits u -> holds u s pat -> bytes_of u data 1024 <> 10 ->
  does P (loopM (fun _ : unit =>
    cnt ← ece391_read f child irqs fd0 fname 32;
    if negb (0 =? cnt) then
      if -1 =? cnt then puts_lit f child rodata (ln "directory entry read failed") ;; mret (inr 3)
      else
        c ← load fname;
        if 46 =? c then mret (inl tt) else
        store (fname + cnt) 0 ;;
        r ← do_one_file f child rodata irqs s fname data;
        if negb (0 =? r) then mret (inr 3) else mret (inl tt)
    else mret (inr 0)) tt) u (fun r u' => r = 0 /\ same_console u u' /\ exists outs, Forall2 entry_output (seqZ 0 (rd32 im fs)) outs /\
      v_screen u' = text_spec (v_color u) (concat outs) (v_screen u)).
Proof using All.
  intros Gfd0 Gfd Hdiff Hop Hused Hkb H1 H2 H3 H4 H5. pose proof Hfname as (F1 & _ & F3). pose proof (rd32_range im fs) as Rn.
  apply (does_loop P _ (fun n _ u' => dir_inv fd0 fd d0 u n u') _ (rd32 im fs)); [| |lia].
  2: { exists 0, []. split_and!; try done; try lia. }
  clear H1 H2 H3 H4 H5. intros n [] u1 (pos & outs & Hpos & -> & Hd & Hff & Hr & Hh & Hx & Hc & Ho & Hscr).
  destruct (Z.eq_dec pos (rd32 im fs)) as [Ep|Hlt].
  { eapply acts_bind; [apply (os_read_dir_end u1 irqs fd0 (set_file_pos pos d0) fname 32); [lia|done|done|cbn; lia|unfold in_page; lia|lia]|].
    cbv beta. change (negb (0 =? 0)) with false. cbv iota. apply does_mret. split; [done|]. split; [exact Hc|]. exists outs. rewrite <- Ep. by split. }
  eapply does_bind; [apply (os_read_dir u1 irqs fd0 (set_file_pos pos d0) fname 32); [lia|done|done|cbn; lia|unfold in_page; lia|lia]|].
  cbv beta. cbn [file_pos set_file_pos]. intros cnt u2 (l & Hl & Hcl & H31 & ->).
  destruct (Hdir pos l ltac:(lia) Hl) as [Hl0 Hl32]. assert (cnt = l) as -> by (destruct Hl32 as [->|H0]; [lia|by apply H31]).
  destruct (entry_name_len pos l ltac:(lia) Hl) as [EL EH]. destruct (Hnames pos ltac:(lia)) as [T Hopen].
  rewrite !(proj2 (Z.eqb_neq _ l)) by lia. cbn [negb]. set (ub := with_bytes fname FILENAME_LEN _ u1). set (d1 := set_file_pos (pos + 1) (set_file_pos pos d0)). set (u2 := with_desc fd0 d1 ub).
  assert (desc u2 fd0 = Some (set_file_pos (pos + 1) d0)) as Hd2.
  { unfold desc, u2, with_desc. cbn [v_fds with_fds]. rewrite list_lookup_insert_eq; [done|]. by eapply lookup_lt_Some. }
  assert (free_fd (v_fds u2) = Some fd) as Hff2 by (apply free_fd_other; [exact Hff|lia|exact Hused]).
  assert (ready rodata grep_lits u2) as Hr2.
  { apply ready_desc; [lia|lia|]. apply ready_bytes; [apply (clear_of_sub rodata _ fname 33); [done|lia|lia|lia]|done]. }
  assert (holds u2 s pat) as Hh2 by (apply (holds_other fname FILENAME_LEN _ u1); [unfold apart in *; lia|done]).
  assert (bytes_of u2 data 1024 <> 10) as Hx2 by (unfold u2, apart in *; change (bytes_of (with_desc fd0 d1 ub) data 1024) with (bytes_of ub data 1024); unfold ub; by rewrite bytes_other by lia).
  eapply acts_bind; [apply os_load; unfold in_page; lia|].
  assert (v_mem u2 fname = hd 0 (entry_name' pos)) as ->.
  { rewrite EH. pose proof (bytes_in fname FILENAME_LEN (strncpy_bytes (at_ im (entry_addr fs pos)) l) u1 0 ltac:(lia)) as B. fold ub in B.
    change (bytes_of ub fname 0) with (v_mem u2 (fname + 0)) in B. rewrite Z.add_0_r in B. rewrite B. unfold strncpy_bytes. rewrite (proj2 (Z.ltb_lt _ _)) by lia. apply u8_small, rd_range. }
  rewrite Z.eqb_sym. destruct (hd 0 (entry_name' pos) =? 46) eqn:E46.
  { apply does_mret. apply (dir_inv_next fd0 fd d0 u pos outs []); try done; try lia; [unfold entry_output; by rewrite E46|]. by rewrite app_nil_r. }
  eapply acts_bind; [apply os_store; unfold in_page; lia|]. set (u3 := with_bytes (fname + l) 1 (fun _ => 0) u2).
  assert (set_up (entry_name' pos) u3) as Hu3.
  { split_and!; [|apply (holds_other (fname + l) 1 _ u2); [unfold apart in *; lia|done]|exact (name_read pos l u1 ltac:(lia) Hl)|done|lia].
    apply ready_bytes; [apply (clear_of_sub rodata _ fname 33); [done|lia|lia|lia]|done]. }
  assert (bytes_of u3 data 1024 <> 10) as Hx3 by (unfold u3, apart in *; by rewrite bytes_other by lia).
  apply Z.eqb_neq in E46. eapply does_bind; [apply (do_one_file_ok pos (entry_name' pos) fd u3); [done|by apply Hopen|exact Hff2|done|by rewrite <- Hkb; apply Hc|done]|].
  intros r u4 (-> & Hx4 & t & d & Hdf & W & Hout). change (negb (0 =? 0)) with false. cbv iota. apply does_mret.
  pose proof W as (_ & W2 & W3 & W4 & W5). change (v_fds (with_desc fd d u3)) with (<[Z.to_nat fd := d]> (v_fds u2)) in W2.
  assert (set_up (entry_name' pos) u4) as (Hr4 & Hh4 & _).
  { eapply set_up_wrote; [exact W|]. destruct Hu3 as (R & Hu3). split; [|exact Hu3]. by apply ready_desc; [lia|lia|]. }
  apply (dir_inv_next fd0 fd d0 u pos outs t); try done; try lia.
  - unfold desc. rewrite W2, list_lookup_insert_ne by lia. exact Hd2.
  - rewrite W2. by apply free_fd_closed.
  - destruct Hc as [C1 C2]. split; [by rewrite W3|by rewrite W4].
  - unfold entry_output. by rewrite (proj2 (Z.eqb_neq _ 46)).
  - rewrite W5. change (v_color (with_desc fd d u3)) with (v_color u1). change (v_screen (with_desc fd d u3)) with (v_screen u1). rewrite (proj1 Hc), Hscr. unfold text_spec. by rewrite <- fold_left_app.
Qed.

Lemma grep_main_ok u i fd0 fd : arg_is u pat -> ready rodata grep_lits u -> free_fd (v_fds u) = Some fd0 -> 2 <= fd0 < MAX_DESC ->
  free_fd (<[Z.to_nat fd0 := opened dir_jt (inode_num (dentry i))]> (v_fds u)) = Some fd -> 2 <= fd < MAX_DESC -> v_kbd u = Some kb -> bytes_of u data 1024 <> 10 ->
  first_named im fs i (arr_at [46; 0]) -> file_type (dentry i) = 1 ->
  does P (grep_main f child rodata irqs fname s data) u (fun r u' => r = 0 /\ same_console u u' /\ exists outs, Forall2 entry_output (seqZ 0 (rd32 im fs)) outs /\
    v_screen u' = text_spec (v_color u) (concat outs) (v_screen u)).
Proof using All.
  intros (Ha & _ & T) Hr Hff Gfd0 Hff' Gfd Hkb H10 Hi Hty. pose proof (text_ok_forall _ T) as F. pose proof Hs as (S1 & _ & S3). unfold grep_main.
  pose proof (os_getargs u pat s 1024 Ha Hlen F Hs ltac:(lia)) as G. rewrite bool_decide_eq_true_2 in G by (split; [done|lia]).
  eapply acts_bind; [exact G|]. cbv beta. change (negb (0 =? 0)) with false. cbv iota. clear G.
  pose proof (bytes_str s pat u 1024 T Hs ltac:(lia)) as Hh. set (u1 := with_bytes s _ _ u) in *.
  assert (ready rodata grep_lits u1) as Hr1 by (apply ready_bytes; [apply (clear_of_sub rodata _ s 1024); [done|lia|lia|lia]|done]).
  assert (tx "." ∈ grep_lits) as Hdot by (apply list_elem_of_In; cbn; tauto).
  pose proof Hr1 as [_ Fl]. rewrite Forall_forall in Fl. destruct (Fl _ Hdot) as [Td Hd]. set (d := opened dir_jt (inode_num (dentry i))) in *.
  eapply acts_bind; [apply (os_open u1 (rodata (tx ".")) 1 i fd0 dir_jt); [by apply (holds_str _ _ (tx "."))|cbn; lia|by eapply (holds_named _ _ (tx "."))| | |done]|].
  { apply (holds_not_std _ _ (tx ".") Hd). split; intros Es; specialize (Es 0 ltac:(lia) ltac:(intros; lia)); discriminate. }
  { fold (dentry i). by rewrite Hty. }
  fold (dentry i). fold d. cbv beta. rewrite (proj2 (Z.eqb_neq (-1) fd0)) by lia. set (u2 := with_desc fd0 d u1).
  assert (fd <> fd0) as Hdiff.
  { intros ->. apply free_fd_some in Hff' as (_ & (d1 & E1 & E2) & _). rewrite list_lookup_insert_eq in E1 by by apply free_fd_lt. by injection E1 as <-. }
  eapply does_mono; [|apply (grep_loop_ok fd0 fd d u2); try done].
  - intros r u' (-> & Hc & outs & Ho & Hs'). split; [done|]. split; [exact Hc|]. by exists outs.
  - unfold desc, u2, with_desc. cbn [v_fds with_fds]. by apply list_lookup_insert_eq, free_fd_lt.
  - by apply ready_desc; [lia|lia|].
  - unfold apart in *. change (bytes_of u2 data 1024) with (bytes_of u1 data 1024). unfold u1. by rewrite bytes_other by lia.
Qed.
End client.

(** ** On the kernel *)

Section kernel.
Context (E : env) (HE : env_ok E) (f : frame) (child : Z -> Z -> M Z) (rodata : list Z -> Z).

(** [C26] grep on the kernel, with an argument of ASCII characters: it exits with 0 and prints,
    for the entries of the directory in their order, nothing for a name that starts with a
    dot and for the clock (which it waits for); for a file that is a text with lines of at
    most 1023 characters, the lines that have the argument in them, each behind the name
    and a colon - wherever the reads of 1024 bytes cut the file.  Other files do not stop it. *)
Theorem grep_finds_lines search buf data pat kb i fd0 fd u k : let im := e_mem E in let fs := e_fs E in
  process E u k -> in_page search 1024 -> in_page buf 33 -> in_page data 1025 -> apart search 1024 data 1025 -> apart buf 33 data 1025 -> apart search 1024 buf 33 ->
  clear_of rodata grep_lits data 1025 -> clear_of rodata grep_lits buf 33 -> clear_of rodata grep_lits search 1024 -> ready rodata grep_lits u ->
  arg_is u pat -> pat <> [] -> Forall (fun c => 0 < c < 128) pat ->
  free_fd (v_fds u) = Some fd0 -> 2 <= fd0 < MAX_DESC -> free_fd (<[Z.to_nat fd0 := opened dir_jt (inode_num (dentry_at im (entry_addr fs i)))]> (v_fds u)) = Some fd -> 2 <= fd < MAX_DESC ->
  v_kbd u = Some kb -> bytes_of u data 1024 <> 10 -> first_named im fs i (arr_at [46; 0]) -> file_type (dentry_at im (entry_addr fs i)) = 1 ->
  dir_ok (im := im) (fs := fs) -> grep_dir (im := im) (fs := fs) ->
  finishes E (grep_main f child rodata [rtc_interrupt] buf search data) k (fun r u' => r = 0 /\ same_console u u' /\
    exists outs, Forall2 (entry_output (im := im) (fs := fs) pat) (seqZ 0 (rd32 im fs)) outs /\ v_screen u' = text_spec (v_color u) (concat outs) (v_screen u)).
Proof using HE.
  intros im fs Hk H1 H2 H3 H4 H5 H6 C1 C2 C3 Hr Ha Hne Hp Hf0 G0 Hf1 G1 Hkb Hx Hi Ht Hd Hn. pose proof (process_calls E HE f child) as OC. pose proof (process_clock E HE f child) as OK. pose proof (process_copy E HE) as OY.
  pose proof Ha as (_ & Hlen & _). assert (rd32 im fs <= 63) as H63 by apply HE.
  eapply does_finishes; [|exact Hk]. by apply (grep_main_ok rodata search buf data pat H1 H2 H3 H4 H5 H6 C1 C2 C3 Hp Hne Hlen [rtc_interrupt] kb eq_refl Hd Hn H63 u i fd0 fd).
Qed.
End kernel.

(** ** Witness *)

Lemma user_cat_file : file_ok user_image demo_fs 0.
Proof.
  assert (file_length user_image demo_fs 0 = 512) as El by (vm_compute; reflexivity).
  split; [split; [vm_compute; split; congruence|lia]|]. intros b Hb Hlt. rewrite El in Hlt. assert (b = 0) as -> by lia. vm_compute. reflexivity.
Qed.

(** Evaluation of [openable]. *)
Lemma user_openable i name l : 0 <= i < 6 -> 0 <= l -> at_ user_image (entry_addr demo_fs i) l = 0 ->
  forallb (fun j => at_ user_image (entry_addr demo_fs i) j =? arr_at (name ++ [0]) j) (seqZ 0 (l + 1)) = true ->
  forallb (differ user_image demo_fs (arr_at (name ++ [0]))) (seqZ 0 i) = true -> negb (hd 0 name =? 115) = true ->
  file_type (dentry_at user_image (entry_addr demo_fs i)) = 0 \/
    (file_type (dentry_at user_image (entry_addr demo_fs i)) = 2 /\ file_ok user_image demo_fs (inode_num (dentry_at user_image (entry_addr demo_fs i)))) ->
  openable (im := user_image) (fs := demo_fs) i name.
Proof.
  intros Hi Hl Hz H F Hs Ht. split; [by apply (user_first i _ l)|]. split; [|exact Ht]. apply negb_true_iff, Z.eqb_neq in Hs.
  assert (hd 0 name = arr_at (name ++ [0]) 0) as E by by destruct name. rewrite E in Hs.
  split; intros Es; apply Hs; rewrite (Es 0 ltac:(lia) ltac:(intros; lia)); reflexivity.
Qed.

Lemma user_grep_dir : grep_dir (im := user_image) (fs := demo_fs).
Proof.
  intros i Hi. rewrite user_count in Hi. assert (i = 0 \/ i = 1 \/ i = 2 \/ i = 3 \/ i = 4 \/ i = 5) as [->|[->|[->|[->|[->| ->]]]]] by lia;
    (split; [vm_compute; reflexivity|intros Hd]).
  - apply (user_openable 0 (tx "cat") 3); [lia|lia|vm_compute; reflexivity..|]. right. split; [vm_compute; reflexivity|]. rewrite user_cat_inode. exact user_cat_file.
  - apply (user_openable 1 (tx "txt") 3); [lia|lia|vm_compute; reflexivity..|]. right. split; [vm_compute; reflexivity|]. rewrite user_txt_inode. exact user_file.
  - exfalso. apply Hd. vm_compute. reflexivity.
  - apply (user_openable 3 (tx "rtc") 3); [lia|lia|vm_compute; reflexivity..|]. left. vm_compute. reflexivity.
  - apply (user_openable 4 (tx "frame0.txt") 10); [lia|lia|vm_compute; reflexivity..|]. right. split; [vm_compute; reflexivity|].
    replace (inode_num _) with 1 by (vm_compute; reflexivity). exact user_file.
  - apply (user_openable 5 (tx "frame1.txt") 10); [lia|lia|vm_compute; reflexivity..|]. right. split; [vm_compute; reflexivity|].
    replace (inode_num _) with 1 by (vm_compute; reflexivity). exact user_file.
Qed.

Lemma user_text i ino t : entry_output (im := user_image) (fs := demo_fs) (tx "ex") i t -> (hd 0 (entry_name (im := user_image) (fs := demo_fs) i) =? 46) = false ->
  file_type (dentry_at user_image (entry_addr demo_fs i)) = 2 -> inode_num (dentry_at user_image (entry_addr demo_fs i)) = ino -> ino = 1 ->
  t = grep_text (tx "ex") (entry_name (im := user_image) (fs := demo_fs) i) (tx "text").
Proof.
  intros H E Ht Ei E1. unfold entry_output, entry_name' in H. rewrite E in H. destruct H as [_ H]. unfold dentry in H. rewrite Ei, E1 in H.
  assert (contents (im := user_image) (fs := demo_fs) 1 = tx "text") as Ec by (vm_compute; reflexivity). rewrite Ec in H. apply H; [done| |].
  - repeat (apply list.Forall_cons; split; [cbn; lia|]). apply list.Forall_nil_2.
  - unfold short. replace (lines (tx "text")) with [tx "text"] by (vm_compute; reflexivity). apply list.Forall_cons. split; [cbn; lia|apply list.Forall_nil_2].
Qed.

(** "ex" is in three files of the six entries; nothing is said of the program file. *)
Lemma grep_finds_lines_witness :
  finishes user_env (grep_main demo_frame no_child user_rodata [rtc_interrupt] 0x8060000 0x8061000 0x8062000) (user_kernel (tx "ex")) (fun r u' => r = 0 /\
    exists o, v_screen u' = text_spec 7 (o ++ ln "txt:text" ++ ln "frame0.txt:text" ++ ln "frame1.txt:text") (v_screen (user_view (tx "ex")))).
Proof.
  destruct (grep_finds_lines user_env user_env_ok demo_frame no_child user_rodata 0x8061000 0x8060000 0x8062000 (tx "ex") (k_kbd demo_shell) 2 2 3 (user_view (tx "ex")) (user_kernel (tx "ex")))
    as (r & u' & k' & Er & Hk' & Hr & _ & outs & Ho & Hs).
  - apply user_process. cbn. lia.
  - unfold in_page. lia.
  - unfold in_page. lia.
  - unfold in_page. lia.
  - unfold apart. lia.
  - unfold apart. lia.
  - unfold apart. lia.
  - apply clear_check. vm_compute. reflexivity.
  - apply clear_check. vm_compute. reflexivity.
  - apply clear_check. vm_compute. reflexivity.
  - apply user_ready. vm_compute. reflexivity.
  - split_and!; [reflexivity|cbn; lia|reflexivity].
  - discriminate.
  - repeat (apply list.Forall_cons; split; [cbn; lia|]). apply list.Forall_nil_2.
  - reflexivity.
  - lia.
  - vm_compute. reflexivity.
  - lia.
  - reflexivity.
  - vm_compute. discriminate.
  - exact dot_first.
  - vm_compute. reflexivity.
  - exact user_dir.
  - exact user_grep_dir.
  - exists r, u', k'. split_and!; [exact Er|exact Hk'|exact Hr|]. cbn [e_mem e_fs user_env] in Ho. rewrite user_count in Ho.
    destruct outs as [|o0 [|o1 [|o2 [|o3 [|o4 [|o5 [|]]]]]]]; apply Forall2_length in Ho as Hl; try discriminate Hl.
    exists o0. rewrite Hs. f_equal. change (seqZ 0 6) with [0; 1; 2; 3; 4; 5] in Ho.
    repeat match goal with H : Forall2 _ (_ :: _) (_ :: _) |- _ => apply Forall2_cons_1 in H as [? H] end.
    assert (o1 = ln "txt:text") as ->.
    { match goal with X : entry_output _ 1 o1 |- _ => rewrite (user_text 1 1 o1 X) by (vm_compute; reflexivity) end. vm_compute. reflexivity. }
    assert (o4 = ln "frame0.txt:text") as ->.
    { match goal with X : entry_output _ 4 o4 |- _ => rewrite (user_text 4 1 o4 X) by (vm_compute; reflexivity) end. vm_compute. reflexivity. }
    assert (o5 = ln "frame1.txt:text") as ->.
    { match goal with X : entry_output _ 5 o5 |- _ => rewrite (user_text 5 1 o5 X) by (vm_compute; reflexivity) end. vm_compute. reflexivity. }
    assert (o2 = []) as ->.
    { match goal with X : entry_output _ 2 o2 |- _ => unfold entry_output in X; replace (hd 0 (entry_name' 2) =? 46) with true in X by (vm_compute; reflexivity); exact X end. }
    assert (o3 = []) as ->.
    { match goal with X : entry_output _ 3 o3 |- _ => unfold entry_output in X; replace (hd 0 (entry_name' 3) =? 46) with false in X by (vm_compute; reflexivity);
        destruct X as [X _]; apply X; vm_compute; reflexivity end. }
    reflexivity.
Defined.
