(* ===== verification/Emulate.v ===== *)
(** * The emulation of the calls on Linux (src/syscalls/ece391emulate.c)

    The library a program is linked with to run it on Linux instead of the kernel.  The
    calls of Linux and of the C library are parameters; the memory of the program is one
    flat memory.  The functions have the prefix emu_ for the ece391_ of the source. *)

From Stdlib Require Import ZArith Lia String.
From stdpp Require Import gmap list numbers strings.
From S2P Require Import Prelude Memory LibString State Display Execute UserLib Programs Shell Commands.

Abbreviation ERRNO_LIMIT := 0xFFFFC000.
Abbreviation O_RDONLY := 0.
Abbreviation O_RDWR := 2.

(** What wait reports of a child. *)
Inductive wait_status := Exited (code : Z) | Signaled (sig : Z).

(** The variables of the file, and the state [host] of everything else. *)
Record emu (H : Type) := mk_emu { em_mem : memory; start_esp : Z; dir_fd : Z; dir : Z; mem_fd : Z; host : H }.
Arguments mk_emu {H}. Arguments em_mem {H}. Arguments start_esp {H}. Arguments dir_fd {H}.
Arguments dir {H}. Arguments mem_fd {H}. Arguments host {H}.

(** ** Definitions *)

(** *** Command lines *)

(** scan to the end of a word. *)
Definition scan_word (m : memory) (scan : Z) : option Z :=
  run_loop (fun scan =>
    if negb (0 =? rd m scan) && negb (32 =? rd m scan) && negb (10 =? rd m scan) then inl (scan + 1) else inr scan) scan.

Definition skip_blanks (m : memory) (scan : Z) : option Z :=
  run_loop (fun scan => if 32 =? rd m scan then inl (scan + 1) else inr scan) scan.

(** The loop that fills in args, of 1024 pointers. *)
Definition parse_args (m : memory) (scan : Z) (args : list Z) : option (memory * list Z) :=
  match run_loop (fun '(m, scan, args) =>
    match skip_blanks m scan with
    | None => inr None
    | Some scan =>
        if (0 =? rd m scan) || (10 =? rd m scan) then inr (Some (wr m scan 0, args))
        else if 1023 <=? Z.of_nat (length args) then inr None
        else match scan_word m scan with
        | None => inr None
        | Some fin =>
            if negb (0 =? rd m fin) then inl (wr m fin 0, fin + 1, args ++ [scan])
            else inl (m, fin, args ++ [scan])
        end
    end) (m, scan, args) with
  | Some r => r
  | None => None
  end.

(** The command in [buf] as a path and its arguments; [None]: it is too long. *)
Definition parse_command (m : memory) (command buf : Z) : option (option (memory * list Z)) :=
  match ece391_strlen (at_ m command) with
  | None => None
  | Some len =>
      if 1023 <? len then Some None else
      let m := wr (wr m buf 46) (buf + 1) 47 in
      match ece391_strcpy m (buf + 2) command with
      | None => None
      | Some m =>
          match scan_word m (buf + 2) with
          | None => None
          | Some scan =>
              if negb (0 =? rd m scan)
              then match parse_args (wr m scan 0) (scan + 1) [buf] with Some r => Some (Some r) | None => None end
              else Some (Some (m, [buf]))
          end
      end
  end.

(** The string at a pointer, as the host reads it. *)
Definition string_at (m : memory) (p : Z) : option (list Z) := len ← strlen (at_ m p); Some (chars (at_ m p) len).

(** *** The arguments of a program *)

(** The arguments are joined in the buffer; the result, and the memory. *)
Definition emu_getargs (m : memory) (start_esp buf nbytes : Z) : option (Z * memory) :=
  let argc := i32 (rd32 m start_esp) in
  let argv m idx := rd32 m (start_esp + 4 + 4 * idx) in
  match run_loop (fun '(m, idx, buf, nbytes) =>
    if idx <? argc then
      match ece391_strlen (at_ m (argv m idx)) with
      | None => inr None
      | Some len =>
          if nbytes <? len then inr (Some (inl m)) else
          match ece391_strcpy m buf (argv m idx) with
          | None => inr None
          | Some m =>
              let buf := buf + len in
              let nbytes := nbytes - len in
              if argc <=? idx + 1 then inr (Some (inr (m, buf, nbytes))) else
              if nbytes <? 1 then inr (Some (inl m)) else
              inl (wr m buf 32, idx + 1, buf + 1, nbytes - 1)
          end
      end
    else inr (Some (inr (m, buf, nbytes)))) (m, 1, buf, nbytes) with
  | Some (Some (inl m)) => Some (-1, m)
  | Some (Some (inr (m, buf, nbytes))) => if nbytes <? 1 then Some (-1, m) else Some (0, wr m buf 0)
  | _ => None
  end.

(** *** Reading a directory *)

(** [d_name]: a string; the loops of ece391_read. *)
Definition copy_name (m : memory) (d_name : Z -> Z) (buf nbytes : Z) : option (Z * memory) :=
  match run_loop (fun '(m, copied) =>
    if negb (0 =? d_name copied) then
      let m := wr m (buf + copied) (d_name copied) in
      let copied := copied + 1 in
      if copied =? nbytes then inr (inl (m, nbytes)) else
      if 32 =? copied then inr (inl (m, 32)) else inl (m, copied)
    else inr (inr (m, copied))) (m, 0) with
  | None => None
  | Some (inl (m, r)) => Some (r, m)
  | Some (inr (m, copied)) =>
      run_loop (fun '(m, copied) =>
        if (copied <? nbytes) && (copied <? 32) then inl (wr m (buf + copied) 0, copied + 1) else inr (copied, m)) (m, copied)
  end.

Section linux.
Context {H : Type}.
(** INT 0x80 with EAX, EBX, ECX and EDX. *)
Context (int80 : Z -> Z -> Z -> Z -> memory -> H -> Z * (memory * H)).
(** Functions of the C library; 0 is NULL. *)
Context (c_open : list Z -> Z -> H -> Z * H) (c_close : Z -> H -> H) (opendir : list Z -> H -> Z * H).
Context (readdir : Z -> H -> option (Z -> Z) * H) (closedir : Z -> H -> H) (perror : list Z -> H -> H).
Context (mmap : Z -> Z -> Z -> H -> option Z * H).
(** A child that replaces itself by a program with arguments, and its end; [None]: there is
    no such program, and execv returns in the child. *)
Context (execv : list Z -> list (list Z) -> H -> option wait_status * H).

Definition set_host (h : H) (s : emu H) : emu H := mk_emu (em_mem s) (start_esp s) (dir_fd s) (dir s) (mem_fd s) h.
Definition set_em_mem (m : memory) (s : emu H) : emu H := mk_emu m (start_esp s) (dir_fd s) (dir s) (mem_fd s) (host s).
Definition set_dir (d fd : Z) (s : emu H) : emu H := mk_emu (em_mem s) (start_esp s) fd d (mem_fd s) (host s).
Definition set_mem_fd (fd : Z) (s : emu H) : emu H := mk_emu (em_mem s) (start_esp s) (dir_fd s) (dir s) fd (host s).

(** Linux returns its error numbers as negative results. *)
Definition errno_result (eax : Z) : Z := if ERRNO_LIMIT <? eax then -1 else i32 eax.

Definition emu_call (number ebx ecx edx : Z) (s : emu H) : Z * emu H :=
  let '(eax, (m, h)) := int80 number (u32 ebx) (u32 ecx) (u32 edx) (em_mem s) (host s) in
  (errno_result eax, set_host h (set_em_mem m s)).

(** _start: the arguments are on the stack; main, then halt with its result. *)
Definition emu_start (esp : Z) (main : emu H -> Z * emu H) (s : emu H) : Z * emu H :=
  let '(eax, s) := main (mk_emu (em_mem s) esp (dir_fd s) (dir s) (mem_fd s) (host s)) in emu_call 1 eax 0 0 s.

(** The child that cannot be replaced kills itself. *)
Definition run_child (path : list Z) (argv : list (list Z)) (h : H) : wait_status * H :=
  let '(st, h) := execv path argv h in (default (Signaled 9) st, h).

Definition emu_status (status : wait_status) : Z :=
  match status with
  | Exited code => u8 code
  | Signaled sig => if 9 =? sig then -1 else 256
  end.

Definition emu_execute (command buf : Z) (s : emu H) : option (Z * emu H) :=
  p ← parse_command (em_mem s) command buf;
  match p with
  | None => Some (-1, s)
  | Some (m, args) =>
      path ← string_at m buf;
      argv ← mapM (string_at m) args;
      let '(status, h) := run_child path argv (host s) in
      Some (emu_status status, set_host h (set_em_mem m s))
  end.

Definition emu_open (filename : Z) (s : emu H) : option (Z * emu H) :=
  r ← ece391_strcmp (at_ (em_mem s) filename) (lit ".");
  if 0 =? r then
    let '(d, h) := opendir (tx ".") (host s) in
    let '(fd, h) := c_open (tx "/dev/null") O_RDONLY h in
    Some (fd, set_host h (set_dir d fd s))
  else Some (emu_call 5 filename O_RDONLY 0 s).

(** Is [fd] the directory that was opened? *)
Definition is_dir (fd : Z) (s : emu H) : bool := negb (dir s =? 0) && (dir_fd s =? fd).

Definition emu_read (fd buf nbytes : Z) (s : emu H) : option (Z * emu H) :=
  if negb (is_dir fd s) then Some (emu_call 3 fd buf nbytes s) else
  let '(de, h) := readdir (dir s) (host s) in
  match de with
  | None => Some (0, set_host h s)
  | Some d_name =>
      '(r, m) ← copy_name (em_mem s) d_name buf nbytes;
      Some (r, set_host h (set_em_mem m s))
  end.

Definition emu_write (fd buf nbytes : Z) (s : emu H) : Z * emu H :=
  if negb (is_dir fd s) then emu_call 4 fd buf nbytes s else (-1, s).

Definition emu_close (fd : Z) (s : emu H) : Z * emu H :=
  if negb (is_dir fd s) then emu_call 6 fd 0 0 s
  else (0, set_host (c_close (dir_fd s) (closedir (dir s) (host s))) (set_dir 0 (-1) s)).

Definition emu_vidmap (screen_start : Z) (s : emu H) : Z * emu H :=
  let s := (if mem_fd s =? -1
            then let '(fd, h) := c_open (tx "/dev/mem") O_RDWR (host s) in set_host h (set_mem_fd fd s) else s) in
  let '(image, h) := mmap 0 (1024 * 1024) (mem_fd s) (host s) in
  match image with
  | None => (-1, set_host (perror (tx "mmap low memory") h) s)
  | Some image => (0, set_host h (set_em_mem (wr32 (em_mem s) screen_start (u32 (image + 0xb8000))) s))
  end.
End linux.

(** ** Lines and words *)

Definition is_sep (c : Z) : bool := (c =? 32) || (c =? 10).

Fixpoint word (l : list Z) : list Z := match l with [] => [] | c :: r => if is_sep c then [] else c :: word r end.
Definition after_word (l : list Z) : list Z := drop (length (word l)) l.
Fixpoint unblank (l : list Z) : list Z := match l with [] => [] | c :: r => if c =? 32 then unblank r else l end.

(** The words of a line.  A word may end at a newline; where a word should start, a newline
    is the end of the line. *)
Fixpoint words (n : nat) (l : list Z) : list (list Z) :=
  match n with
  | O => []
  | S n =>
      match unblank l with
      | [] => []
      | c :: r => if c =? 10 then [] else word (c :: r) :: words n (tl (after_word (c :: r)))
      end
  end.

(** The text [l] is at [p], and ends with NUL. *)
Definition text_at (m : memory) (p : Z) (l : list Z) : Prop :=
  0 <= p /\ p + Z.of_nat (length l) + 1 <= W32 /\ Forall (fun c => 0 < c < W8) l /\
  forall i, 0 <= i <= Z.of_nat (length l) -> rd m (p + i) = arr_at (l ++ [0]) i.

Lemma text_nil m p : 0 <= p < W32 -> rd m p = 0 -> text_at m p [].
Proof.
  intros Hp Hz. split_and!; [lia|cbn; lia|by apply list.Forall_nil|]. cbn [length]. intros i Hi. replace i with 0 by lia. by rewrite Z.add_0_r.
Qed.

Lemma text_cons m p c l : text_at m p (c :: l) <-> 0 <= p /\ 0 < c < W8 /\ rd m p = c /\ text_at m (p + 1) l.
Proof.
  split.
  - intros (H1 & H2 & F & H). cbn [length] in *. apply list.Forall_cons in F as [Fc F]. split_and!; [lia|lia|lia| |split_and!; [lia|lia|exact F|]].
    + rewrite <- (Z.add_0_r p), H by lia. done.
    + intros i Hi. rewrite <- Z.add_assoc, H by lia. unfold arr_at. by replace (Z.to_nat (1 + i)) with (S (Z.to_nat i)) by lia.
  - intros (H1 & Hc & Hr & (H2 & H3 & F & H)). split_and!; [lia|cbn [length]; lia|by apply list.Forall_cons|]. cbn [length]. intros i Hi.
    destruct (Z.eq_dec i 0) as [->|Hne]; [by rewrite Z.add_0_r|]. replace (p + i) with (p + 1 + (i - 1)) by lia. rewrite H by lia.
    unfold arr_at. by replace (Z.to_nat i) with (S (Z.to_nat (i - 1))) by lia.
Qed.

Lemma text_end m p l : text_at m p l -> rd m (p + Z.of_nat (length l)) = 0.
Proof. intros (_ & _ & _ & H). rewrite H by lia. apply arr_at_end. Qed.

Lemma text_head m p l : text_at m p l -> rd m p = hd 0 l.
Proof. intros H. pose proof (text_end m p l H) as Hz. destruct l; [by rewrite Z.add_0_r in Hz|]. by apply text_cons in H as (_ & _ & H & _). Qed.

Lemma text_drop m p l k : (k <= length l)%nat -> text_at m p l -> text_at m (p + Z.of_nat k) (drop k l).
Proof.
  revert p l. induction k as [|k IH]; intros p l Hk H; [by rewrite Z.add_0_r|]. destruct l as [|c l]; [cbn in Hk; lia|].
  apply text_cons in H as (_ & _ & _ & H). cbn [drop]. replace (p + Z.of_nat (S k)) with (p + 1 + Z.of_nat k) by lia. apply IH; [cbn in Hk; lia|done].
Qed.

Lemma text_cstr m p l : text_at m p l -> is_cstr (at_ m p) (Z.of_nat (length l)).
Proof.
  intros H. pose proof (text_end m p l H) as Hz. destruct H as (_ & _ & F & H). split_and!; [lia| |exact Hz].
  intros i Hi E. unfold at_ in E. rewrite H in E by lia. pose proof (arr_at_forall (fun c => 0 < c < W8) l [0] i F ltac:(lia)) as Hc. cbn beta in Hc. lia.
Qed.

Lemma text_strlen m p l : text_at m p l -> ece391_strlen (at_ m p) = Some (Z.of_nat (length l)).
Proof. intros H. rewrite ece391_strlen_eq. apply strlen_spec; [by apply text_cstr|]. destruct H as (H1 & H2 & _). lia. Qed.

Lemma text_string m p l : text_at m p l -> string_at m p = Some l.
Proof.
  intros H. unfold string_at. rewrite (strlen_spec _ (Z.of_nat (length l))); [|by apply text_cstr|destruct H as (H1 & H2 & _); lia].
  cbn. f_equal. rewrite <- (chars_arr_at l [0]) at 2. unfold chars. apply map_ext_in. intros i Hi. apply list_elem_of_In, elem_of_seqZ in Hi.
  destruct H as (_ & _ & _ & H). apply H. lia.
Qed.

(** Memory that differs elsewhere. *)
Lemma text_same m m' p l : (forall a, p <= a < p + Z.of_nat (length l) + 1 -> rd m' a = rd m a) -> text_at m p l -> text_at m' p l.
Proof. intros E (H1 & H2 & F & H). split_and!; try done. intros i Hi. rewrite E by lia. by apply H. Qed.

Lemma text_write m p l a v : 0 <= a < W32 -> a < p \/ p + Z.of_nat (length l) < a -> text_at m p l -> text_at (wr m a v) p l.
Proof.
  intros Ha Ho H. pose proof H as (H1 & H2 & _). apply (text_same m); [|done]. intros b Hb. rewrite rd_wr, !u32_small by lia.
  by rewrite (proj2 (Z.eqb_neq a b)) by lia.
Qed.

(** A NUL at the end of a prefix. *)
Lemma text_cut m p l k : (k <= length l)%nat -> text_at m p l -> text_at (wr m (p + Z.of_nat k) 0) p (take k l).
Proof.
  revert p l. induction k as [|k IH]; intros p l Hk H; pose proof H as (H1 & H2 & _).
  - cbn [take Z.of_nat]. rewrite Z.add_0_r. apply text_nil; [lia|]. by rewrite rd_wr, Z.eqb_refl.
  - destruct l as [|c l]; [cbn in Hk; lia|]. apply text_cons in H as (_ & Hc & Hr & H). cbn [take length] in *. apply text_cons. split_and!; [lia|lia|lia| |].
    + rewrite rd_wr, !u32_small by lia. by rewrite (proj2 (Z.eqb_neq _ p)) by lia.
    + replace (p + Z.of_nat (S k)) with (p + 1 + Z.of_nat k) by lia. apply IH; [lia|done].
Qed.

Lemma word_prefix l : word l = take (length (word l)) l.
Proof. induction l as [|c l IH]; [done|]. cbn [word]. destruct (is_sep c); [done|]. cbn [length take]. by f_equal. Qed.

Lemma word_length l : (length (word l) <= length l)%nat.
Proof. rewrite word_prefix, length_take. lia. Qed.

Lemma after_word_head l : after_word l = [] \/ exists c r, after_word l = c :: r /\ is_sep c = true.
Proof.
  unfold after_word. induction l as [|c l IH]; [by left|]. cbn [word]. destruct (is_sep c) eqn:E; [right; by exists c, l|]. exact IH.
Qed.

Lemma length_after l : (length (word l) + length (after_word l) = length l)%nat.
Proof. unfold after_word. rewrite length_drop. pose proof (word_length l). lia. Qed.

(** *** The scans *)

Lemma scan_word_ok m p l : text_at m p l -> scan_word m p = Some (p + Z.of_nat (length (word l))).
Proof.
  intros H. unfold scan_word. destruct (run_loop_rule (fun scan => if negb (0 =? rd m scan) && negb (32 =? rd m scan) && negb (10 =? rd m scan) then inl (scan + 1) else inr scan)
    (fun scan => exists k, scan = p + Z.of_nat k /\ text_at m scan (drop k l) /\ (k + length (word (drop k l)) = length (word l))%nat)
    (fun r => r = p + Z.of_nat (length (word l))) (fun scan => p + Z.of_nat (length l) - scan) ) with (s := p) as (r & -> & ->); [| | |done].
  - intros scan (k & -> & Ht & Hk). pose proof (text_head _ _ _ Ht) as Hh. rewrite Hh. destruct (drop k l) as [|c r] eqn:Ed.
    { cbn in *. lia. }
    apply text_cons in Ht as (_ & Hc & _ & Ht). cbn [hd] in *. rewrite (proj2 (Z.eqb_neq 0 c)) by lia. cbn [negb andb word is_sep] in *.
    rewrite !(Z.eqb_sym _ c), <- negb_orb. fold (is_sep c). destruct (is_sep c); cbn [negb].
    + cbn [length] in Hk. lia.
    + assert (drop (S k) l = r) as Ed' by (replace (S k) with (k + 1)%nat by lia; by rewrite <- drop_drop, Ed).
      assert (k < length l)%nat by (apply (f_equal length) in Ed; rewrite length_drop in Ed; cbn in Ed; lia).
      split; [|lia]. exists (S k). rewrite Ed'. split_and!; [lia|exact Ht|cbn [length] in Hk; lia].
  - exists 0%nat. rewrite Z.add_0_r. by split_and!.
  - destruct H as (H1 & H2 & _). lia.
Qed.

Lemma unblank_suffix l : exists k, (k <= length l)%nat /\ unblank l = drop k l.
Proof.
  induction l as [|c l (k & Hk & IH)]; [by exists 0%nat|]. cbn [unblank]. case_if; [|by exists 0%nat; split; [lia|]].
  exists (S k). split; [cbn; lia|exact IH].
Qed.

Lemma skip_blanks_ok m p l : text_at m p l -> exists q, skip_blanks m p = Some q /\ p <= q /\ q + Z.of_nat (length (unblank l)) = p + Z.of_nat (length l) /\
  text_at m q (unblank l).
Proof.
  intros H. unfold skip_blanks. destruct (run_loop_rule (fun scan => if 32 =? rd m scan then inl (scan + 1) else inr scan)
    (fun scan => exists k, (k <= length l)%nat /\ scan = p + Z.of_nat k /\ text_at m scan (drop k l) /\ unblank (drop k l) = unblank l)
    (fun q => p <= q /\ q + Z.of_nat (length (unblank l)) = p + Z.of_nat (length l) /\ text_at m q (unblank l))
    (fun scan => p + Z.of_nat (length l) - scan)) with (s := p) as (r & Hr & HQ); [| | |by exists r].
  - intros scan (k & Hk & -> & Ht & Hu). rewrite (text_head _ _ _ Ht), Z.eqb_sym. destruct (drop k l) as [|c r] eqn:Ed.
    + cbn [hd]. change (0 =? 32) with false. cbv iota. cbn [unblank] in Hu. rewrite <- Hu.
      apply (f_equal length) in Ed. rewrite length_drop in Ed. cbn in Ed. split_and!; [lia|cbn; lia|exact Ht].
    + cbn [hd unblank] in *. pose proof (f_equal length Ed) as El. rewrite length_drop in El. cbn [length] in El. destruct (c =? 32).
      * apply text_cons in Ht as (_ & _ & _ & Ht). split; [|lia]. exists (S k).
        assert (drop (S k) l = r) as -> by (replace (S k) with (k + 1)%nat by lia; by rewrite <- drop_drop, Ed).
        split_and!; [lia|lia|exact Ht|exact Hu].
      * rewrite <- Hu. split_and!; [lia|cbn [length]; lia|exact Ht].
  - exists 0%nat. rewrite Z.add_0_r. split_and!; [lia|done|exact H|done].
  - destruct H as (H1 & H2 & _). lia.
Qed.

Lemma words_fuel n n' l : (length l <= n)%nat -> (length l <= n')%nat -> words n l = words n' l.
Proof.
  revert n' l. assert (words 0 [] = []) as E0 by done.
  induction n as [|n IH]; intros n' l Hn Hn'.
  - destruct l; [|cbn in Hn; lia]. by destruct n'.
  - destruct n' as [|n']; [destruct l; [done|cbn in Hn'; lia]|]. cbn [words]. destruct (unblank_suffix l) as (k & Hk & Eu).
    destruct (unblank l) as [|c r] eqn:E; [done|]. case_if; [done|]. f_equal. apply (f_equal length) in Eu. rewrite length_drop in Eu. cbn [length] in Eu.
    pose proof (length_after (c :: r)) as La. cbn [length] in La.
    assert (length (tl (after_word (c :: r))) <= length r)%nat as Lt by (destruct (after_word (c :: r)); cbn [tl length] in *; lia).
    apply IH; lia.
Qed.

(** Nothing but [n] bytes at [p] has changed. *)
Definition only_at (m m' : memory) (p n : Z) : Prop := forall a, 0 <= a < W32 -> a < p \/ p + n <= a -> rd m' a = rd m a.

Lemma only_write m p n a v : 0 <= a < W32 -> p <= a < p + n -> only_at m (wr m a v) p n.
Proof. intros Ha Hp b Hb Ho. rewrite rd_wr, !u32_small by lia. by rewrite (proj2 (Z.eqb_neq a b)) by lia. Qed.

Lemma only_at_trans m1 m2 m3 p n : only_at m1 m2 p n -> only_at m2 m3 p n -> only_at m1 m3 p n.
Proof. intros H1 H2 a Ha Ho. by rewrite H2, H1. Qed.

Lemma only_at_sub m m' p n q k : p <= q -> q + k <= p + n -> only_at m m' q k -> only_at m m' p n.
Proof. intros H1 H2 H a Ha Ho. apply H; [done|lia]. Qed.

Lemma text_kept m m' p l q n : only_at m m' q n -> p + Z.of_nat (length l) < q \/ q + n <= p -> text_at m p l -> text_at m' p l.
Proof. intros O Ho H. pose proof H as (H1 & H2 & _). apply (text_same m); [|done]. intros a Ha. apply O; lia. Qed.

Lemma strcpy_ok m dst src l : text_at m src l -> 0 <= dst -> dst + Z.of_nat (length l) + 1 <= W32 -> apart src (Z.of_nat (length l) + 1) dst (Z.of_nat (length l) + 1) ->
  exists m', ece391_strcpy m dst src = Some m' /\ text_at m' dst l /\ only_at m m' dst (Z.of_nat (length l) + 1).
Proof.
  intros H D1 D2 A. pose proof H as (S1 & S2 & F & Hs). unfold apart in A. set (n := Z.of_nat (length l)) in *.
  apply (run_loop_rule _ (fun '(m', i) => 0 <= i <= n /\ (forall j, 0 <= j < i -> rd m' (dst + j) = arr_at (l ++ [0]) j) /\ only_at m m' dst i)
    (fun m' => text_at m' dst l /\ only_at m m' dst (n + 1)) (fun '(_, i) => n - i)).
  - intros [m' i] (Hi & Hd & O). cbv zeta. assert (rd m' (src + i) = arr_at (l ++ [0]) i) as -> by (rewrite O by lia; apply Hs; lia).
    assert (0 <= arr_at (l ++ [0]) i < W8) as Hb by (rewrite <- Hs by lia; apply rd_range).
    assert (only_at m (wr m' (dst + i) (arr_at (l ++ [0]) i)) dst (i + 1)) as O'.
    { eapply only_at_trans; [eapply only_at_sub; [..|exact O]; lia|]. apply only_write; lia. }
    assert (forall j, 0 <= j < i + 1 -> rd (wr m' (dst + i) (arr_at (l ++ [0]) i)) (dst + j) = arr_at (l ++ [0]) j) as Hd'.
    { intros j Hj. rewrite rd_wr, !u32_small by lia. destruct (Z.eqb_spec (dst + i) (dst + j)); [|by apply Hd; lia].
      assert (j = i) as -> by lia. apply u8_small. lia. }
    destruct (Z.eq_dec i n) as [->|Hne].
    + assert (arr_at (l ++ [0]) n = 0) as En by (unfold n; apply arr_at_end). rewrite En in *. cbn [negb Z.eqb]. split; [|exact O'].
      split_and!; [lia|lia|exact F|]. fold n. intros j Hj. apply Hd'. lia.
    + pose proof (arr_at_forall (fun c => 0 < c < W8) l [0] i F ltac:(lia)) as Hc. cbn beta in Hc.
      rewrite (proj2 (Z.eqb_neq 0 _)) by lia. cbn [negb]. rewrite u32_small by lia. split; [|lia]. split_and!; [lia|lia|exact Hd'|exact O'].
  - split_and!; [lia|lia|intros; lia|by intros a _ _].
  - lia.
Qed.

(** Where a word starts there is a character of it. *)
Lemma unblank_head l c r : unblank l = c :: r -> c <> 32.
Proof. induction l as [|x l IH]; [done|]. cbn [unblank]. destruct (Z.eqb_spec x 32); [done|]. by intros [= -> ->]. Qed.

Lemma words_step l : words (length l) l = match unblank l with
  | [] => []
  | c :: r => if c =? 10 then [] else word (c :: r) :: words (length (tl (after_word (c :: r)))) (tl (after_word (c :: r)))
  end.
Proof.
  destruct l as [|c0 l]; [done|]. cbn [length words]. destruct (unblank_suffix (c0 :: l)) as (k & Hk & Eu).
  destruct (unblank (c0 :: l)) as [|c r] eqn:E; [done|]. case_if; [done|]. f_equal. apply (f_equal length) in Eu. rewrite length_drop in Eu. cbn [length] in Eu.
  pose proof (length_after (c :: r)) as La. cbn [length] in La. apply words_fuel; [|lia].
  destruct (after_word (c :: r)); cbn [tl length] in *; lia.
Qed.

(** The words found so far, before [scan]. *)
Definition found (m : memory) (scan : Z) : list Z -> list (list Z) -> Prop := Forall2 (fun p w => text_at m p w /\ p + Z.of_nat (length w) <= scan).

Lemma text_nul m p l a : p + Z.of_nat (length l) <= a < W32 -> text_at m p l -> text_at (wr m a 0) p l.
Proof.
  intros Ha H. pose proof H as (H1 & H2 & _). apply (text_same m); [|done]. intros b Hb. rewrite rd_wr, !u32_small by lia.
  destruct (Z.eqb_spec a b) as [<-|]; [|done]. assert (a = p + Z.of_nat (length l)) as -> by lia. by rewrite (text_end m p l H).
Qed.

Lemma found_nul m scan scan' a ps ws : scan <= a < W32 -> scan <= scan' -> found m scan ps ws -> found (wr m a 0) scan' ps ws.
Proof. intros Ha Hs H. eapply Forall2_impl; [exact H|]. intros q w [Ht Hq]. split; [|lia]. apply text_nul; [lia|exact Ht]. Qed.

Lemma found_later m scan scan' ps ws : scan <= scan' -> found m scan ps ws -> found m scan' ps ws.
Proof. intros Hs H. eapply Forall2_impl; [exact H|]. intros q w [Ht Hq]. split; [exact Ht|lia]. Qed.

Lemma parse_args_ok m p l args : text_at m p l -> (length args + length l <= 1023)%nat ->
  exists m' ps, parse_args m p args = Some (m', args ++ ps) /\ Forall2 (text_at m') ps (words (length l) l) /\ only_at m m' p (Z.of_nat (length l) + 1).
Proof.
  intros H Hargs. pose proof H as (P1 & P2 & _). unfold parse_args. set (n := Z.of_nat (length l)) in *.
  edestruct (run_loop_rule (fun '(m, scan, args) =>
    match skip_blanks m scan with
    | None => inr None
    | Some scan =>
        if (0 =? rd m scan) || (10 =? rd m scan) then inr (Some (wr m scan 0, args))
        else if 1023 <=? Z.of_nat (length args) then inr None
        else match scan_word m scan with
        | None => inr None
        | Some fin =>
            if negb (0 =? rd m fin) then inl (wr m fin 0, fin + 1, args ++ [scan])
            else inl (m, fin, args ++ [scan])
        end
    end)
    (fun '(m', scan, args') => exists l' ps ws, text_at m' scan l' /\ p <= scan /\ scan + Z.of_nat (length l') = p + n /\ args' = args ++ ps /\
      Z.of_nat (length ps) <= scan - p /\ found m' scan ps ws /\ words (length l) l = ws ++ words (length l') l' /\ only_at m m' p (n + 1))
    (fun r => exists m' ps, r = Some (m', args ++ ps) /\ Forall2 (text_at m') ps (words (length l) l) /\ only_at m m' p (n + 1))
    (fun '(_, scan, _) => p + n - scan)) with (s := (m, p, args)) as (r & Er & m' & ps & Eq & Hw & O).
  - intros [[m' scan] args'] (l' & ps & ws & Ht & Hp & Hl & -> & Hps & Hf & Ew & O).
    destruct (skip_blanks_ok m' scan l' Ht) as (q & -> & Hq & Hlq & Htq). rewrite (text_head _ _ _ Htq). rewrite (words_step l') in Ew.
    destruct (unblank l') as [|c r] eqn:Eu.
    + pose proof Htq as (Q1 & Q2 & _). cbn [hd length] in *. cbn [orb Z.eqb]. exists (wr m' q 0), ps. split; [done|]. rewrite Ew, app_nil_r.
      assert (only_at m' (wr m' q 0) q 1) as Ow by (apply only_write; lia).
      split; [|eapply only_at_trans; [exact O|eapply only_at_sub; [..|exact Ow]; lia]].
      eapply Forall2_impl; [apply (found_nul m' scan scan q); [lia|lia|exact Hf]|]. by intros x w [Hx _].
    + cbn [hd]. pose proof Htq as (Q1 & Q2 & _). cbn [length] in *. pose proof (unblank_head _ _ _ Eu) as H32.
      pose proof Htq as Hc0. apply text_cons in Hc0 as (_ & Hc & _ & _).
      rewrite (proj2 (Z.eqb_neq 0 c)) by lia. cbn [orb]. rewrite (Z.eqb_sym 10 c) in *. destruct (c =? 10) eqn:E10.
      * exists (wr m' q 0), ps. split; [done|]. rewrite Ew, app_nil_r. assert (only_at m' (wr m' q 0) q 1) as Ow by (apply only_write; lia).
        split; [|eapply only_at_trans; [exact O|eapply only_at_sub; [..|exact Ow]; lia]].
        eapply Forall2_impl; [apply (found_nul m' scan scan q); [lia|lia|exact Hf]|]. by intros x w [Hx _].
      * rewrite (proj2 (Z.leb_gt 1023 _)) by (rewrite length_app; lia). rewrite (scan_word_ok _ _ _ Htq).
        set (k := length (word (c :: r))). pose proof (word_length (c :: r)) as Hk. fold k in Hk.
        assert (0 < k)%nat as Hk0. { unfold k. cbn [word]. unfold is_sep. rewrite E10, (proj2 (Z.eqb_neq c 32)) by done. cbn. lia. }
        pose proof (text_drop _ _ (c :: r) k Hk Htq) as Hta. change (drop k (c :: r)) with (after_word (c :: r)) in Hta.
        pose proof (length_after (c :: r)) as La. fold k in La. cbn [length] in La, Hk. rewrite (text_head _ _ _ Hta).
        pose proof (text_cut _ _ (c :: r) k Hk Htq) as Htk. unfold k in Htk at 2. rewrite <- word_prefix in Htk.
        destruct (after_word (c :: r)) as [|x t] eqn:Ea.
        -- cbn [hd negb Z.eqb length tl] in Ew, La |- *. split; [|lia]. exists [], (ps ++ [q]), (ws ++ [word (c :: r)]).
           split_and!; [exact Hta|lia|cbn [length]; lia|by rewrite app_assoc|rewrite length_app; cbn [length]; lia| |by rewrite Ew, <- app_assoc|exact O].
           apply Forall2_app; [apply (found_later m' scan); [lia|exact Hf]|]. constructor; [|constructor].
           split; [|fold k; lia]. rewrite word_prefix. fold k. rewrite take_ge by (cbn [length]; lia). exact Htq.
        -- cbn [hd tl length] in Ew, La |- *. apply text_cons in Hta as (_ & Hx & _ & Hta).
           rewrite (proj2 (Z.eqb_neq 0 x)) by lia. cbn [negb]. assert (only_at m' (wr m' (q + Z.of_nat k) 0) (q + Z.of_nat k) 1) as Ow by (apply only_write; lia).
           split; [|lia]. exists t, (ps ++ [q]), (ws ++ [word (c :: r)]).
           split_and!; [|lia|lia|by rewrite app_assoc|rewrite length_app; cbn [length]; lia| |by rewrite Ew, <- app_assoc|].
           ++ eapply text_kept; [exact Ow|lia|]. replace (q + Z.of_nat k + 1) with (q + Z.of_nat k + 1) by lia. exact Hta.
           ++ apply Forall2_app; [apply (found_nul m' scan); [lia|lia|exact Hf]|]. constructor; [|constructor]. split; [exact Htk|fold k; lia].
           ++ eapply only_at_trans; [exact O|]. eapply only_at_sub; [..|exact Ow]; lia.
  - exists l, [], []. rewrite app_nil_r. split_and!; [exact H|lia|unfold n; lia|done|cbn; lia|constructor|done|by intros a _ _].
  - lia.
  - rewrite Er, Eq. by exists m', ps.
Qed.

(** *** The command line *)

(** The arguments of a command: what follows its first word. *)
Definition arguments (l : list Z) : list (list Z) := match after_word l with [] => [] | _ :: t => words (length t) t end.
Definition path_of (l : list Z) : list Z := 46 :: 47 :: word l.

Lemma parse_command_ok m command buf l : text_at m command l -> (length l <= 1023)%nat -> 0 <= buf -> buf + 1026 <= W32 ->
  apart command (Z.of_nat (length l) + 1) buf 1026 ->
  exists m' ps, parse_command m command buf = Some (Some (m', buf :: ps)) /\ text_at m' buf (path_of l) /\
    Forall2 (text_at m') ps (arguments l) /\ only_at m m' buf 1026.
Proof.
  intros H Hl B1 B2 A. unfold parse_command. rewrite (text_strlen _ _ _ H), (proj2 (Z.ltb_ge 1023 _)) by lia. unfold apart in A.
  set (m1 := wr (wr m buf 46) (buf + 1) 47).
  assert (only_at m m1 buf 1026) as O1 by (eapply only_at_trans; apply only_write; lia).
  destruct (strcpy_ok m1 (buf + 2) command l) as (m2 & -> & H2 & O2); [eapply text_kept; [exact O1|lia|exact H]|lia|lia|unfold apart; lia|].
  assert (text_at m2 buf (46 :: 47 :: l)) as H2'.
  { apply text_cons. split_and!; [lia|lia|lia| |].
    - rewrite O2 by lia. unfold m1. rewrite !rd_wr, !u32_small by lia. by rewrite (proj2 (Z.eqb_neq _ buf)), Z.eqb_refl by lia.
    - apply text_cons. split_and!; [lia|lia|lia| |by replace (buf + 1 + 1) with (buf + 2) by lia].
      rewrite O2 by lia. unfold m1. by rewrite rd_wr, Z.eqb_refl. }
  assert (only_at m m2 buf 1026) as O by (eapply only_at_trans; [exact O1|]; eapply only_at_sub; [..|exact O2]; lia).
  rewrite (scan_word_ok _ _ _ H2). pose proof (word_length l) as Hk. set (k := length (word l)) in *.
  pose proof (text_drop _ _ l k Hk H2) as Ha. change (drop k l) with (after_word l) in Ha. rewrite (text_head _ _ _ Ha). unfold arguments, path_of.
  pose proof (length_after l) as La. fold k in La. destruct (after_word l) as [|x t].
  - cbn [hd negb Z.eqb]. exists m2, []. split_and!; [done| |constructor|exact O]. rewrite word_prefix. fold k. rewrite take_ge by (cbn [length] in La; lia). exact H2'.
  - apply text_cons in Ha as (_ & Hx & _ & Ha). cbn [hd length] in *. rewrite (proj2 (Z.eqb_neq 0 x)) by lia. cbn [negb].
    set (s := buf + 2 + Z.of_nat k) in *. assert (only_at m2 (wr m2 s 0) s 1) as O3 by (apply only_write; lia).
    destruct (parse_args_ok (wr m2 s 0) (s + 1) t [buf]) as (m3 & ps & -> & Hw & O4); [eapply text_kept; [exact O3|lia|exact Ha]|cbn [length]; lia|].
    exists m3, ps. split_and!; [done| |exact Hw|].
    + pose proof (text_cut m2 buf (46 :: 47 :: l) (S (S k)) ltac:(cbn [length]; lia) H2') as Hc. cbn [take] in Hc. unfold k in Hc at 2. rewrite <- word_prefix in Hc.
      replace (buf + Z.of_nat (S (S k))) with s in Hc by lia. eapply text_kept; [exact O4| |exact Hc]. cbn [length]. fold k. lia.
    + eapply only_at_trans; [exact O|]. eapply only_at_trans; [eapply only_at_sub; [..|exact O3]; lia|]. eapply only_at_sub; [..|exact O4]; lia.
Qed.

Lemma option_bind_some {A B} (f : A -> option B) (x : A) : (Some x ≫= f) = f x.
Proof. done. Qed.

Lemma strings_of m ps ws : Forall2 (text_at m) ps ws -> mapM (string_at m) ps = Some ws.
Proof. intros H. apply mapM_Some. eapply Forall2_impl; [exact H|]. intros p w. apply text_string. Qed.

(** *** Joined arguments *)

Fixpoint join (ws : list (list Z)) : list Z := match ws with [] => [] | w :: r => w ++ match r with [] => [] | _ => 32 :: join r end end.

Lemma join_cons w r : r <> [] -> join (w :: r) = w ++ [32] ++ join r.
Proof. by destruct r. Qed.

(** The arguments of a program are on its stack. *)
Definition has_args (m : memory) (esp : Z) (argv : list (list Z)) (buf n : Z) : Prop :=
  Z.of_nat (length argv) < H32 /\ rd32 m esp = Z.of_nat (length argv) /\ 0 <= esp /\ esp + 4 + 4 * Z.of_nat (length argv) <= W32 /\
  apart esp (4 + 4 * Z.of_nat (length argv)) buf n /\
  forall i w, argv !! i = Some w -> exists p, rd32 m (esp + 4 + 4 * Z.of_nat i) = p /\ text_at m p w /\ apart p (Z.of_nat (length w) + 1) buf n.

(** The characters [l] are at [p]. *)
Definition chars_at (m : memory) (p : Z) (l : list Z) : Prop := forall i c, l !! i = Some c -> rd m (p + Z.of_nat i) = c.

Lemma chars_extend m p l c m' : chars_at m p l -> only_at m m' (p + Z.of_nat (length l)) 1 -> 0 <= p -> p + Z.of_nat (length l) <= W32 ->
  rd m' (p + Z.of_nat (length l)) = c -> chars_at m' p (l ++ [c]).
Proof.
  intros H O P1 P2 Hc i x Hx. apply lookup_app_Some in Hx as [Hx|[Hi Hx]].
  - pose proof (lookup_lt_Some _ _ _ Hx). rewrite O by lia. by apply H.
  - apply list_lookup_singleton_Some in Hx as [Hi' <-]. by replace (Z.of_nat i) with (Z.of_nat (length l)) by lia.
Qed.

Lemma chars_text m p l w m' : chars_at m p l -> only_at m m' (p + Z.of_nat (length l)) (Z.of_nat (length w) + 1) -> 0 <= p -> p + Z.of_nat (length l) <= W32 ->
  text_at m' (p + Z.of_nat (length l)) w -> chars_at m' p (l ++ w).
Proof.
  intros H O P1 P2 (_ & _ & _ & Hw) i x Hx. apply lookup_app_Some in Hx as [Hx|[Hi Hx]].
  - pose proof (lookup_lt_Some _ _ _ Hx). rewrite O by lia. by apply H.
  - pose proof (lookup_lt_Some _ _ _ Hx). replace (p + Z.of_nat i) with (p + Z.of_nat (length l) + Z.of_nat (i - length l)) by lia. rewrite Hw by lia.
    apply arr_at_lookup; [lia|]. by rewrite Nat2Z.id.
Qed.

Lemma chars_nul m p l : chars_at m p l -> 0 <= p -> p + Z.of_nat (length l) + 1 <= W32 -> Forall (fun c => 0 < c < W8) l -> text_at (wr m (p + Z.of_nat (length l)) 0) p l.
Proof.
  intros H P1 P2 F. split_and!; [lia|lia|exact F|]. intros i Hi. rewrite rd_wr, !u32_small by lia. destruct (Z.eqb_spec (p + Z.of_nat (length l)) (p + i)).
  - assert (i = Z.of_nat (length l)) as -> by lia. by rewrite arr_at_end.
  - destruct (lookup_lt_is_Some_2 l (Z.to_nat i) ltac:(lia)) as [c Hc]. rewrite (arr_at_lookup l _ i c) by (done || lia).
    apply H in Hc. by rewrite Z2Nat.id in Hc by lia.
Qed.

Lemma rd32_kept m m' a p n : only_at m m' p n -> 0 <= a -> a + 4 <= W32 -> apart a 4 p n -> rd32 m' a = rd32 m a.
Proof. intros O H1 H2 A. unfold apart in A. unfold rd32. by rewrite !O by lia. Qed.


Lemma join_forall (P : Z -> Prop) ws : Forall (Forall P) ws -> P 32 -> Forall P (join ws).
Proof.
  intros H H32. induction H as [|w r Hw _ IH]; [by apply list.Forall_nil|]. cbn [join]. apply list.Forall_app. split; [done|].
  destruct r; [by apply list.Forall_nil|]. by apply list.Forall_cons.
Qed.

Lemma has_args_chars m esp argv buf n : has_args m esp argv buf n -> Forall (Forall (fun c => 0 < c < W8)) argv.
Proof. intros (_ & _ & _ & _ & _ & H). apply Forall_lookup. intros i w Hi. by destruct (H i w Hi) as (p & _ & (_ & _ & F & _) & _). Qed.

(** What the program has written to its buffer does not change its arguments. *)
Lemma arg_kept m m' esp argv buf n i w : has_args m esp argv buf n -> only_at m m' buf n -> argv !! i = Some w ->
  exists p, rd32 m (esp + 4 + 4 * Z.of_nat i) = p /\ text_at m' p w /\ apart p (Z.of_nat (length w) + 1) buf n.
Proof.
  intros (_ & _ & _ & _ & _ & H) O Hi. destruct (H i w Hi) as (p & Hp & Ht & A). exists p. split_and!; [done| |done].
  pose proof Ht as (T1 & T2 & _). unfold apart in A. eapply text_kept; [exact O|lia|exact Ht].
Qed.

Lemma argv_kept m m' esp argv buf n i : has_args m esp argv buf n -> only_at m m' buf n -> (i < length argv)%nat ->
  rd32 m' (esp + 4 + 4 * Z.of_nat i) = rd32 m (esp + 4 + 4 * Z.of_nat i).
Proof. intros (_ & _ & E1 & E2 & A & _) O Hi. unfold apart in A. eapply rd32_kept; [exact O|lia|lia|unfold apart; lia]. Qed.

Lemma i32_nat (n : nat) : Z.of_nat n < H32 -> i32 (Z.of_nat n) = Z.of_nat n.
Proof. intros H. zlia. Qed.

(** The buffer gets the arguments, with a space between two of them, when they and a NUL fit. *)
Lemma emu_getargs_ok m esp argv buf nbytes : let J := join (tl argv) in
  has_args m esp argv buf (nbytes + 1) -> 0 <= nbytes < H32 -> 0 <= buf -> buf + nbytes + 1 <= W32 ->
  exists r m', emu_getargs m esp buf nbytes = Some (r, m') /\
    if Z.of_nat (length J) <? nbytes then r = 0 /\ text_at m' buf J /\ only_at m m' buf nbytes
    else r = -1 /\ only_at m m' buf (nbytes + 1).
Proof.
  intros J HA Hn B1 B2. pose proof HA as (A1 & A2 & _). unfold emu_getargs. cbv zeta. rewrite A2, i32_nat by lia. set (argc := Z.of_nat (length argv)) in *.
  assert (drop 1 argv = tl argv) as Et by by destruct argv.
  match goal with |- context [run_loop ?body _] =>
  edestruct (run_loop_rule body
    (fun '(m', idx, b, nb) => exists d, 1 <= idx /\ J = d ++ join (drop (Z.to_nat idx) argv) /\ b = buf + Z.of_nat (length d) /\ nb = nbytes - Z.of_nat (length d) /\
      0 <= nb /\ chars_at m' buf d /\ only_at m m' buf (Z.of_nat (length d)))
    (fun r => match r with
      | Some (inl m') => nbytes <= Z.of_nat (length J) /\ only_at m m' buf (nbytes + 1)
      | Some (inr (m', b, nb)) => b = buf + Z.of_nat (length J) /\ nb = nbytes - Z.of_nat (length J) /\ 0 <= nb /\ chars_at m' buf J /\
          only_at m m' buf (Z.of_nat (length J) + 1)
      | None => False
      end)
    (fun '(_, idx, _, _) => Z.max 0 (argc - idx))) with (s := (m, 1, buf, nbytes)) as (r & -> & HQ) end.
  - intros [[[m' idx] b] nb] (d & Hi & EJ & -> & -> & Hd & Hc & O). destruct (Z.ltb_spec idx argc) as [Hlt|Hge].
    2: { rewrite drop_ge, app_nil_r in EJ by lia. rewrite EJ. split_and!; [done|done|lia|done|]. eapply only_at_sub; [..|exact O]; lia. }
    destruct (lookup_lt_is_Some_2 argv (Z.to_nat idx) ltac:(lia)) as [w Hw].
    assert (only_at m m' buf (nbytes + 1)) as O' by (eapply only_at_sub; [..|exact O]; lia).
    replace (4 * idx) with (4 * Z.of_nat (Z.to_nat idx)) by lia. destruct (arg_kept _ _ _ _ _ _ _ _ HA O' Hw) as (p & Ep & Ht & Ap).
    rewrite (argv_kept _ _ _ _ _ _ _ HA O') by lia. rewrite Ep, (text_strlen _ _ _ Ht).
    rewrite (drop_S _ _ _ Hw) in EJ. replace (S (Z.to_nat idx)) with (Z.to_nat (idx + 1)) in EJ by lia.
    assert (length J = length d + length (join (w :: drop (Z.to_nat (idx + 1)) argv)))%nat as LJ by by rewrite EJ, length_app.
    assert (length w <= length (join (w :: drop (Z.to_nat (idx + 1)) argv)))%nat as Lw by (cbn [join]; rewrite length_app; lia).
    destruct (Z.ltb_spec (nbytes - Z.of_nat (length d)) (Z.of_nat (length w))); [split; [lia|done]|].
    unfold apart in Ap. destruct (strcpy_ok m' (buf + Z.of_nat (length d)) p w Ht) as (m2 & -> & H2 & O2); [lia|lia|unfold apart; lia|].
    pose proof (chars_text _ _ _ _ _ Hc O2 ltac:(lia) ltac:(lia) H2) as Hc2.
    assert (only_at m m2 buf (Z.of_nat (length (d ++ w)) + 1)) as O3.
    { rewrite length_app. eapply only_at_trans; [eapply only_at_sub; [..|exact O]; lia|eapply only_at_sub; [..|exact O2]; lia]. }
    destruct (Z.leb_spec argc (idx + 1)).
    + rewrite drop_ge in EJ by lia. cbn [join] in EJ. rewrite app_nil_r in EJ. rewrite EJ. split_and!; [rewrite length_app; lia|rewrite length_app; lia|lia|exact Hc2|exact O3].
    + assert (drop (Z.to_nat (idx + 1)) argv <> []) as Hne by (intros E; apply (f_equal length) in E; rewrite length_drop in E; cbn [length] in E; lia).
      rewrite join_cons, !length_app in LJ by done. cbn [length] in LJ. rewrite length_app in O3.
      case_cmp; [split; [lia|eapply only_at_sub; [..|exact O3]; lia]|]. split; [|lia]. exists ((d ++ w) ++ [32]). rewrite !length_app. cbn [length].
      rewrite length_app in O3 || idtac.
      assert (only_at m2 (wr m2 (buf + Z.of_nat (length d) + Z.of_nat (length w)) 32) (buf + Z.of_nat (length (d ++ w))) 1) as O4 by (apply only_write; rewrite ?length_app; lia).
      split_and!; [lia| |lia|lia|lia| |].
      * by rewrite EJ, join_cons, <- !app_assoc by done.
      * eapply chars_extend; [exact Hc2|exact O4|lia|rewrite length_app; lia|]. rewrite length_app, rd_wr, !u32_small by lia. by rewrite (proj2 (Z.eqb_eq _ _)) by lia.
      * rewrite length_app in O4. eapply only_at_trans; [eapply only_at_sub; [..|exact O3]; lia|eapply only_at_sub; [..|exact O4]; lia].
  - exists []. cbn [length app]. unfold J. change (Z.to_nat 1) with 1%nat. rewrite Et. split_and!; [lia|done|lia|lia|lia|by intros i c|by intros a _ _].
  - lia.
  - destruct r as [[m'|[[m' b] nb]]|]; [..|done].
    + destruct HQ as [HQ O]. rewrite (proj2 (Z.ltb_ge _ nbytes)) by lia. by exists (-1), m'.
    + destruct HQ as (-> & -> & Hnb & Hc & O). case_cmp; eexists _, _; (split; [reflexivity|]).
      * split; [done|]. eapply only_at_sub; [..|exact O]; lia.
      * assert (Forall (fun c => 0 < c < W8) J) as F.
        { apply join_forall; [|lia]. rewrite <- Et. apply list.Forall_drop. by eapply has_args_chars. }
        split_and!; [done|by apply chars_nul; [..|lia|]|]. eapply only_at_trans; [eapply only_at_sub; [..|exact O]; lia|apply only_write; lia].
Qed.

(** *** Words joined by spaces *)

Definition is_word (w : list Z) : Prop := w <> [] /\ Forall (fun c => is_sep c = false) w.

Lemma word_all w : Forall (fun c => is_sep c = false) w -> word w = w.
Proof. induction 1 as [|c w Hc _ IH]; [done|]. cbn [word]. by rewrite Hc, IH. Qed.

Lemma word_space w t : Forall (fun c => is_sep c = false) w -> word (w ++ 32 :: t) = w.
Proof. induction 1 as [|c w Hc _ IH]; [done|]. cbn [word app]. by rewrite Hc, IH. Qed.

Lemma word_join w ws : is_word w -> word (join (w :: ws)) = w.
Proof. intros [_ H]. destruct ws; cbn [join]; [rewrite app_nil_r; by apply word_all|by apply word_space]. Qed.

Lemma after_join w ws : is_word w -> after_word (join (w :: ws)) = match ws with [] => [] | _ => 32 :: join ws end.
Proof. intros H. unfold after_word. rewrite word_join by done. cbn [join]. by rewrite drop_app_length. Qed.

Lemma join_head w ws : is_word w -> exists c r, join (w :: ws) = c :: r /\ c <> 32 /\ c <> 10.
Proof.
  intros [Hw H]. destruct w as [|c w]; [done|]. apply list.Forall_cons in H as [Hc _]. unfold is_sep in Hc. apply orb_false_iff in Hc as [H1 H2].
  apply Z.eqb_neq in H1, H2. cbn [join app]. by eexists _, _.
Qed.

(** The words of joined words are the words. *)
Lemma words_join ws : Forall is_word ws -> words (length (join ws)) (join ws) = ws.
Proof.
  induction 1 as [|w ws Hw _ IH]; [done|]. rewrite words_step. destruct (join_head w ws Hw) as (c & r & E & H32 & H10).
  pose proof (after_join w ws Hw) as Ea. pose proof (word_join w ws Hw) as Ew. rewrite E in *. cbn [unblank].
  rewrite (proj2 (Z.eqb_neq c 32)), (proj2 (Z.eqb_neq c 10)), Ew, Ea by done. f_equal. by destruct ws.
Qed.

Lemma arguments_join w ws : Forall is_word (w :: ws) -> arguments (join (w :: ws)) = ws.
Proof.
  intros H. apply list.Forall_cons in H as [Hw H]. unfold arguments. rewrite after_join by done. destruct ws as [|x ws]; [done|]. by apply words_join.
Qed.

(** *** Programs *)

Section programs_ok.
Context {H : Type} (execv : list Z -> list (list Z) -> H -> option wait_status * H).

Lemma emu_execute_eq command buf (s : emu H) m args path argv : parse_command (em_mem s) command buf = Some (Some (m, args)) ->
  string_at m buf = Some path -> mapM (string_at m) args = Some argv ->
  emu_execute execv command buf s = let '(status, h) := run_child execv path argv (host s) in Some (emu_status status, set_host h (set_em_mem m s)).
Proof using. intros Ep E1 E2. unfold emu_execute. by rewrite Ep, !option_bind_some, E1, !option_bind_some, E2. Qed.

Lemma emu_execute_ok command buf l (s : emu H) : text_at (em_mem s) command l -> (length l <= 1023)%nat -> 0 <= buf -> buf + 1026 <= W32 ->
  apart command (Z.of_nat (length l) + 1) buf 1026 ->
  let '(status, h) := run_child execv (path_of l) (path_of l :: arguments l) (host s) in
  exists m', emu_execute execv command buf s = Some (emu_status status, set_host h (set_em_mem m' s)) /\ only_at (em_mem s) m' buf 1026.
Proof using.
  intros Ht Hl B1 B2 A. destruct (parse_command_ok _ _ _ _ Ht Hl B1 B2 A) as (m' & ps & Ep & Hp & Hw & O).
  assert (mapM (string_at m') (buf :: ps) = Some (path_of l :: arguments l)) as Ea by (apply strings_of; by constructor).
  pose proof (emu_execute_eq command buf s _ _ _ _ Ep (text_string _ _ _ Hp) Ea) as E.
  destruct (run_child _ _ _ _) as [st h]. exists m'. split; [exact E|exact O].
Qed.

(** [C33] A command line of words with single spaces, executed by the emulation: Linux runs the
    file of the first word in the current directory with the words as arguments, the result
    is that of the program when it exits, -1 when it cannot be run or is killed, and 256
    when a signal ends it (as the kernel does for an exception); and in the program, whose
    arguments Linux has put on its stack, ece391_getargs gives back the text that follows
    the first word when the buffer has room for it and its NUL, and -1 otherwise, whatever
    the buffer and its size, writing nothing outside of nbytes + 1 bytes. *)
Theorem emulated_arguments command buf w ws (s : emu H) : Forall is_word (w :: ws) -> let l := join (w :: ws) in
  text_at (em_mem s) command l -> (length l <= 1023)%nat -> 0 <= buf -> buf + 1026 <= W32 -> apart command (Z.of_nat (length l) + 1) buf 1026 ->
  let argv := (46 :: 47 :: w) :: ws in let '(status, h) := execv (46 :: 47 :: w) argv (host s) in
  (exists m', emu_execute execv command buf s =
    Some (match status with Some (Exited code) => u8 code | Some (Signaled sig) => if sig =? 9 then -1 else 256 | None => -1 end, set_host h (set_em_mem m' s)) /\
    only_at (em_mem s) m' buf 1026) /\
  forall m esp b n, has_args m esp argv b (n + 1) -> 0 <= n < H32 -> 0 <= b -> b + n + 1 <= W32 ->
    exists r m', emu_getargs m esp b n = Some (r, m') /\
      if Z.of_nat (length (join ws)) <? n then r = 0 /\ text_at m' b (join ws) /\ only_at m m' b n else r = -1 /\ only_at m m' b (n + 1).
Proof using.
  intros Hw l Ht Hl B1 B2 A argv. pose proof (emu_execute_ok command buf l s Ht Hl B1 B2 A) as E. unfold path_of, run_child in E.
  pose proof Hw as Hw1. apply list.Forall_cons in Hw1 as [Hw1 _]. unfold l in E. rewrite word_join, arguments_join in E by done. fold argv in E.
  destruct (execv _ _ _) as [status h]. split; [|intros m esp b n; apply (emu_getargs_ok m esp argv b n)].
  destruct E as (m' & -> & O). exists m'. split; [|exact O]. destruct status as [[code|sig]|]; [done|cbn; by rewrite Z.eqb_sym|done].
Qed.
End programs_ok.

(** *** Directories *)

(** A name in the buffer: cut or filled up with NULs to [n] bytes. *)
Definition name_in (m : memory) (buf : Z) (l : list Z) (n : Z) : Prop := forall i, 0 <= i < n -> rd m (buf + i) = arr_at (l ++ [0]) i.

Definition c_text (f : Z -> Z) (l : list Z) : Prop := Forall (fun c => 0 < c < W8) l /\ forall i, 0 <= i <= Z.of_nat (length l) -> f i = arr_at (l ++ [0]) i.

Lemma name_in_step m m' buf l n c : name_in m' buf l n -> only_at m m' buf n -> 0 <= n -> 0 <= buf -> buf + n < W32 -> c = arr_at (l ++ [0]) n -> 0 <= c < W8 ->
  name_in (wr m' (buf + n) c) buf l (n + 1) /\ only_at m (wr m' (buf + n) c) buf (n + 1).
Proof.
  intros Hc O Hn B1 B2 -> Hb. split.
  - intros j Hj. rewrite rd_wr, !u32_small by lia. destruct (Z.eqb_spec (buf + n) (buf + j)); [|apply Hc; lia].
    assert (j = n) as -> by lia. by apply u8_small.
  - eapply only_at_trans; [eapply only_at_sub; [..|exact O]; lia|apply only_write; lia].
Qed.

Lemma arr_at_past l i : Z.of_nat (length l) <= i -> arr_at (l ++ [0]) i = 0.
Proof.
  intros Hi. destruct (Z.eq_dec i (Z.of_nat (length l))) as [->|]; [apply arr_at_end|]. unfold arr_at. rewrite lookup_ge_None_2; [done|]. rewrite length_app. cbn [length]. lia.
Qed.

Lemma copy_name_ok m d_name l buf nbytes : let k := Z.min nbytes 32 in c_text d_name l -> 0 < nbytes -> 0 <= buf -> buf + k <= W32 ->
  exists m', copy_name m d_name buf nbytes = Some (k, m') /\ name_in m' buf l k /\ only_at m m' buf k.
Proof.
  intros k [F Hd] Hn B1 B2. assert (0 < k <= 32 /\ k <= nbytes) as Hk by lia. unfold copy_name.
  match goal with |- context [run_loop ?body (m, 0)] =>
  edestruct (run_loop_rule body
    (fun '(m', c) => 0 <= c < k /\ c <= Z.of_nat (length l) /\ name_in m' buf l c /\ only_at m m' buf c)
    (fun r => match r with
      | inl (m', r) => r = k /\ name_in m' buf l k /\ only_at m m' buf k
      | inr (m', c) => Z.of_nat (length l) = c /\ 0 <= c < k /\ name_in m' buf l c /\ only_at m m' buf c
      end) (fun '(_, c) => k - c)) with (s := (m, 0)) as (r & -> & HQ) end.
  - intros [m' c] (Hc & Hl & Hi & O). rewrite Hd by lia. destruct (Z.eq_dec c (Z.of_nat (length l))) as [->|Hne].
    + rewrite arr_at_end. cbn [Z.eqb negb]. done.
    + pose proof (arr_at_forall (fun c => 0 < c < W8) l [0] c F ltac:(lia)) as Hx. cbn beta in Hx.
      rewrite (proj2 (Z.eqb_neq 0 _)) by lia. cbn [negb].
      destruct (name_in_step m m' buf l c (arr_at (l ++ [0]) c) Hi O) as [Hi' O']; [lia|lia|lia|done|lia|].
      case_cmp.
      * replace (c + 1) with k in Hi', O' by lia. split_and!; [lia|done|done].
      * replace (c + 1) with k in Hi', O' by lia. split_and!; [lia|done|done].
      * split; [|lia]. split_and!; [lia|lia|lia|done|done].
  - split_and!; [lia|lia|lia|intros i Hi; lia|by intros a _ _].
  - lia.
  - destruct r as [[m' r]|[m' c]]; [destruct HQ as (-> & Hi & O); by exists m'|]. destruct HQ as (Hl & Hc & Hi & O).
    match goal with |- context [run_loop ?body (m', c)] =>
    edestruct (run_loop_rule body
      (fun '(m', c) => Z.of_nat (length l) <= c <= k /\ name_in m' buf l c /\ only_at m m' buf c)
      (fun '(r, m') => r = k /\ name_in m' buf l k /\ only_at m m' buf k) (fun '(_, c) => k - c)) with (s := (m', c)) as ([r m2] & -> & -> & Hi2 & O2) end.
    + intros [m2 c2] (Hc2 & Hi2 & O2). case_cmp.
      * destruct (name_in_step m m2 buf l c2 0 Hi2 O2) as [Hi' O']; [lia|lia|lia|symmetry; apply arr_at_past; lia|lia|]. split; [|lia]. split_and!; [lia|lia|done|done].
      * by assert (c2 = k) as -> by lia.
      * by assert (c2 = k) as -> by lia.
    + split_and!; [lia|lia|done|done].
    + lia.
    + by exists m2.
Qed.

Section directory_ok.
Context {H : Type} (int80 : Z -> Z -> Z -> Z -> memory -> H -> Z * (memory * H)).
Context (c_open : list Z -> Z -> H -> Z * H) (c_close : Z -> H -> H) (opendir : list Z -> H -> Z * H).
Context (readdir : Z -> H -> option (Z -> Z) * H) (closedir : Z -> H -> H).

(** The directory [d] of the host has the names left to read. *)
Fixpoint lists (d : Z) (h : H) (names : list (list Z)) : Prop :=
  match names with
  | [] => fst (readdir d h) = None
  | l :: r => exists f h', readdir d h = (Some f, h') /\ c_text f l /\ lists d h' r
  end.

(** [n] reads: the result of each, and the bytes that it has put in the buffer. *)
Fixpoint reads (n : nat) (fd buf nbytes : Z) (s : emu H) : option (list (Z * list Z) * emu H) :=
  match n with
  | O => Some ([], s)
  | S n => '(r, s) ← emu_read int80 readdir fd buf nbytes s; '(l, s') ← reads n fd buf nbytes s; Some ((r, chars (at_ (em_mem s) buf) r) :: l, s')
  end.

(** The name of an entry as a read of [n] bytes gives it. *)
Definition entry_read (n : Z) (l : list Z) : Z * list Z := (n, chars (arr_at (l ++ [0])) n).

Lemma emu_read_name fd buf nbytes (s : emu H) f h l : let k := Z.min nbytes 32 in is_dir fd s = true -> readdir (dir s) (host s) = (Some f, h) -> c_text f l ->
  0 < nbytes -> 0 <= buf -> buf + k <= W32 -> exists m, emu_read int80 readdir fd buf nbytes s = Some (k, set_host h (set_em_mem m s)) /\ name_in m buf l k.
Proof using.
  intros k Hd Hr Hf Hn B1 B2. destruct (copy_name_ok (em_mem s) f l buf nbytes Hf Hn B1 B2) as (m & E & Hi & _). exists m. split; [|exact Hi].
  unfold emu_read. rewrite Hd, Hr. cbn [negb]. by rewrite E.
Qed.

Lemma reads_names names fd buf nbytes (s : emu H) : let k := Z.min nbytes 32 in is_dir fd s = true -> lists (dir s) (host s) names ->
  0 < nbytes -> 0 <= buf -> buf + k <= W32 ->
  exists s', reads (length names) fd buf nbytes s = Some (map (entry_read k) names, s') /\ dir s' = dir s /\ dir_fd s' = dir_fd s /\ lists (dir s') (host s') [].
Proof using.
  intros k. revert s. induction names as [|l names IH]; intros s Hd Hl Hn B1 B2; [by exists s|]. destruct Hl as (f & h & Hr & Hf & Hl).
  destruct (emu_read_name fd buf nbytes s f h l Hd Hr Hf Hn B1 B2) as (m & E & Hi). fold k in E, Hi.
  destruct (IH (set_host h (set_em_mem m s)) Hd Hl Hn B1 B2) as (s' & E' & D1 & D2 & Hl'). exists s'. split_and!; [|exact D1|exact D2|exact Hl'].
  cbn [reads length]. rewrite E, option_bind_some, E', option_bind_some. cbn [map em_mem set_host set_em_mem]. do 3 f_equal. unfold entry_read. f_equal.
  unfold chars. apply map_ext_in. intros i Hin. apply list_elem_of_In, elem_of_seqZ in Hin. apply Hi. lia.
Qed.

(** [C34] Opening "." by the emulation and reading it: each read gives the next name of the
    directory of the host, cut or filled up with NULs to 32 bytes or to the size asked for
    when that is less, then every read gives 0; nothing can be written to it, and closing
    it gives 0 and leaves no descriptor that stands for a directory. *)
Theorem emulated_directory filename buf nbytes names d fd h1 h2 (s : emu H) : text_at (em_mem s) filename (tx ".") ->
  opendir (tx ".") (host s) = (d, h1) -> d <> 0 -> c_open (tx "/dev/null") O_RDONLY h1 = (fd, h2) -> lists d h2 names ->
  0 < nbytes -> 0 <= buf -> buf + Z.min nbytes 32 <= W32 ->
  exists s1 s2 s3, emu_open int80 c_open opendir filename s = Some (fd, s1) /\
    reads (length names) fd buf nbytes s1 = Some (map (entry_read (Z.min nbytes 32)) names, s2) /\
    emu_read int80 readdir fd buf nbytes s2 = Some (0, s3) /\ em_mem s3 = em_mem s2 /\
    (forall p n, emu_write int80 fd p n s3 = (-1, s3)) /\
    exists s4, emu_close int80 c_close closedir fd s3 = (0, s4) /\ em_mem s4 = em_mem s3 /\ forall fd', is_dir fd' s4 = false.
Proof using.
  intros Ht Ho Hd Hf Hl Hn B1 B2. set (s1 := set_host h2 (set_dir d fd s)). assert (forall s : emu H, dir s = d -> dir_fd s = fd -> is_dir fd s = true) as His.
  { intros x E1 E2. unfold is_dir. rewrite E1, E2, Z.eqb_refl, (proj2 (Z.eqb_neq d 0)) by done. done. }
  destruct (reads_names names fd buf nbytes s1) as (s2 & E2 & D1 & D2 & Hl2); try done; [by apply His|].
  cbn [lists] in Hl2. destruct (readdir (dir s2) (host s2)) as [de h3] eqn:Er. cbn [fst] in Hl2. subst de.
  exists s1, s2, (set_host h3 s2). split_and!; [|exact E2| |done| |].
  - unfold emu_open. destruct (ece391_strcmp_spec (at_ (em_mem s) filename) (lit ".") 1 (text_cstr _ _ _ Ht) ltac:(lia)) as (r & -> & Hr).
    destruct Ht as (_ & _ & _ & Ht). assert (r = 0) as -> by (apply Hr; intros i Hi; apply Ht; cbn; lia).
    rewrite option_bind_some. cbn [Z.eqb]. by rewrite Ho, Hf.
  - unfold emu_read. rewrite (His s2 D1 D2), Er. done.
  - intros p n. unfold emu_write. rewrite (His (set_host h3 s2) D1 D2). done.
  - eexists. unfold emu_close. rewrite (His (set_host h3 s2) D1 D2). cbn [negb]. split_and!; [reflexivity|done|done].
Qed.
End directory_ok.

(** ** Witnesses *)

(** Decides [text_at] of a memory and a text. *)
Definition text_check (m : memory) (p : Z) (l : list Z) : bool :=
  (0 <=? p) && (p + Z.of_nat (length l) + 1 <=? W32) && forallb (fun c => (0 <? c) && (c <? W8)) l &&
  forallb (fun i => rd m (p + i) =? arr_at (l ++ [0]) i) (seqZ 0 (Z.of_nat (length l) + 1)).

Lemma chars_check l : forallb (fun c => (0 <? c) && (c <? W8)) l = true -> Forall (fun c => 0 < c < W8) l.
Proof. intros H. apply Forall_forall. intros c Hc. rewrite forallb_forall in H. apply list_elem_of_In, H in Hc. lia. Qed.

Lemma text_check_ok m p l : text_check m p l = true -> text_at m p l.
Proof.
  intros H. apply andb_true_iff in H as [H H4]. apply andb_true_iff in H as [H H3]. split_and!; [lia|lia|by apply chars_check|].
  intros i Hi. rewrite forallb_forall in H4. apply Z.eqb_eq, H4, list_elem_of_In, elem_of_seqZ. lia.
Qed.

Lemma c_text_check l : forallb (fun c => (0 <? c) && (c <? W8)) l = true -> c_text (arr_at (l ++ [0])) l.
Proof. intros Hc. split; [by apply chars_check|by intros i _]. Qed.

Definition put_text (m : memory) (p : Z) (l : list Z) : memory := blit m p (arr_at (l ++ [0])) (S (length l)).

(** Linux with one program, cat, which exits with 263 when it has two arguments. *)
Definition demo_execv (path : list Z) (argv : list (list Z)) (h : Z) : option wait_status * Z :=
  if decide (path = tx "./cat") then (Some (if (length argv =? 3)%nat then Exited 263 else Signaled 11), h + 1) else (None, h).

Definition demo_emu (m : memory) : emu Z := mk_emu m 0 (-1) 0 (-1) 0.

(** The stack that Linux gives to cat: argc, the arguments, and their texts. *)
Definition demo_stack : memory :=
  put_text (put_text (put_text (wr32 (wr32 (wr32 (wr32 ∅ 0x1000 3) 0x1004 0x1100) 0x1008 0x1200) 0x100C 0x1300) 0x1100 (tx "./cat")) 0x1200 (tx "ab")) 0x1300 (tx "cde").

Lemma demo_stack_args n : 0 <= n <= 100 -> has_args demo_stack 0x1000 [tx "./cat"; tx "ab"; tx "cde"] 0x2000 n.
Proof.
  intros Hn. split_and!; [cbn; lia|vm_compute; reflexivity|lia|cbn; lia|left; cbn; lia|].
  assert (Z.of_nat (length (tx "./cat")) = 5 /\ Z.of_nat (length (tx "ab")) = 2 /\ Z.of_nat (length (tx "cde")) = 3) as (E1 & E2 & E3) by by split_and!.
  intros [|[|[|i]]] w E; cbn [lookup list_lookup] in E; try done; injection E as <-;
    (eexists; split_and!; [reflexivity|apply text_check_ok; vm_compute; reflexivity|left]);
    rewrite ?E1, ?E2, ?E3; match goal with |- context [rd32 ?m ?a] => let v := eval vm_compute in (rd32 m a) in replace (rd32 m a) with v by (vm_compute; reflexivity) end; lia.
Qed.

Lemma emulated_arguments_witness :
  (exists m', emu_execute demo_execv 0x100 0x1000 (demo_emu (put_text ∅ 0x100 (tx "cat ab cde"))) = Some (7, mk_emu m' 0 (-1) 0 (-1) 1)) /\
  (exists m', emu_getargs demo_stack 0x1000 0x2000 7 = Some (0, m') /\ text_at m' 0x2000 (tx "ab cde")) /\
  exists m', emu_getargs demo_stack 0x1000 0x2000 6 = Some (-1, m').
Proof.
  destruct (emulated_arguments demo_execv 0x100 0x1000 (tx "cat") [tx "ab"; tx "cde"] (demo_emu (put_text ∅ 0x100 (tx "cat ab cde")))) as [(m' & E & _) HG].
  - repeat (apply list.Forall_cons; split); [..|by apply list.Forall_nil]; (split; [done|]); repeat (apply list.Forall_cons; split; [reflexivity|]); by apply list.Forall_nil.
  - apply text_check_ok. vm_compute. reflexivity.
  - vm_compute. lia.
  - lia.
  - lia.
  - left. vm_compute. discriminate.
  - split; [by exists m'|]. split.
    + destruct (HG demo_stack 0x1000 0x2000 7) as (r & m2 & E2 & HQ); [apply demo_stack_args; lia|lia|lia|lia|].
      exists m2. change (join [tx "ab"; tx "cde"]) with (tx "ab cde") in HQ. destruct HQ as (-> & Ht & _). by split.
    + destruct (HG demo_stack 0x1000 0x2000 6) as (r & m2 & E2 & HQ); [apply demo_stack_args; lia|lia|lia|lia|].
      exists m2. by destruct HQ as (-> & _).
Defined.

(** Six bytes of arguments in a buffer of six: the call fails, after it has written the NUL
    of the last string to the byte that follows the buffer. *)
Example emu_getargs_past_buffer : let m := wr demo_stack 0x2006 1 in
  rd m 0x2006 = 1 /\ exists m', emu_getargs m 0x1000 0x2000 6 = Some (-1, m') /\ rd m' 0x2006 = 0.
Proof. split; [vm_compute; reflexivity|]. eexists. split; vm_compute; reflexivity. Qed.

(** A host with a directory of two names; its state is the number of names read. *)
Definition demo_readdir (d h : Z) : option (Z -> Z) * Z :=
  (if h =? 0 then Some (arr_at (tx "frame0.txt" ++ [0])) else if h =? 1 then Some (arr_at (tx "verylargetextwithverylongname.txt" ++ [0])) else None, h + 1).

Lemma emulated_directory_witness : let int80 := fun _ _ _ _ (m : memory) (h : Z) => (0, (m, h)) in
  exists s1 s2, emu_open int80 (fun _ _ h => (5, h)) (fun _ h => (9, h)) 0x100 (demo_emu (put_text ∅ 0x100 (tx "."))) = Some (5, s1) /\
    reads int80 demo_readdir 2 5 0x200 40 s1 = Some ([(32, tx "frame0.txt" ++ repeat 0 22); (32, tx "verylargetextwithverylongname.tx")], s2).
Proof.
  intros int80. destruct (emulated_directory int80 (fun _ _ h => (5, h)) (fun _ h => h) (fun _ h => (9, h)) demo_readdir (fun _ h => h) 0x100 0x200 40
    [tx "frame0.txt"; tx "verylargetextwithverylongname.txt"] 9 5 0 0 (demo_emu (put_text ∅ 0x100 (tx ".")))) as (s1 & s2 & s3 & E1 & E2 & _).
  - apply text_check_ok. vm_compute. reflexivity.
  - reflexivity.
  - done.
  - reflexivity.
  - exists (arr_at (tx "frame0.txt" ++ [0])), 1. split_and!; [reflexivity|by apply c_text_check|].
    exists (arr_at (tx "verylargetextwithverylongname.txt" ++ [0])), 2. split_and!; [reflexivity|by apply c_text_check|reflexivity].
  - lia.
  - lia.
  - lia.
  - by exists s1, s2.
Defined.
